(* ===== verification/_CoqProject ===== *)
-Q . S2P
Prelude.v
Stream.v
Zgdu.v
Yaz.v
Xml.v
Libxml.v
Core.v
Router.v
Util.v
HtmlParser.v
ThreadPool.v
PoolSocket.v
Frontends.v
Target.v
LoadBalance.v
Limit.v
PresentChunk.v
VirtDb.v
MultiMerge.v
Multi.v
SessionShared.v
Sort.v
AuthSimple.v
BackendTest.v
Chains.v
Sru.v
SruZ3950.v
HttpRewrite.v
Z3950Client.v
FrontendNet.v
UrlRecipe.v
Torus.v
Zoom.v
ZoomBackend.v
ZoomRecords.v
ZoomSearch.v
HttpFile.v
RecordTransform.v
QueryFilters.v
GduUtil.v
Bounce.v
ZeerexExplain.v
Log.v
HttpFilters.v
Cgi.v
MetaproxyProg.v
Server.v
Usemarcon.v
Expiry.v
Routes.v
