(* ===== verification/Prelude.v ===== *)
(** * Metaproxy

    Metaproxy is a proxy for Z39.50, SRU and HTTP. A package (the request of a
    client session, later the response) travels along a route of filters;
    every filter is called with the package, may answer it itself, change it,
    or send it on with [package.move()] to the filters behind it, and sees it
    again on the way back. Some filters open sessions and packages of their
    own towards several targets. Packages are served by a pool of threads.
    This library models the core of the program and all of its filters as
    executable definitions translated from the files under src/.

    ** How the code is read

    - Code that may fail has the type [outcome] (a value, a C++ exception,
      undefined behaviour, or a loop bound that was too small); stateful code
      is in the monad [M S] over the store [S]. A null pointer that the code
      dereferences, an index outside an array, a union read through the wrong
      member are [Undef], so that a theorem that gives an [Ok] result excludes
      them.
    - A filter's store is its own state ([Rep] or [Impl] in the code) next to
      [Global], which has the counter of session identifiers and the rest of
      the world. The filters behind it are an argument
      [next : string -> Package R -> M _ (Package R)], [package.move(route)];
      what a theorem needs of them is a hypothesis on [next].
    - An object shared through a [shared_ptr] is its place in the list that
      owns it, where that list only grows while the pointer lives.
    - [int] is [Z] with [int32] where the code narrows a value; where the code
      computes with [int]s that a client or target chooses, in multi and in
      sru_z3950, [chk_int] makes a result that is no [int] undefined behaviour.
      [Odr_int] (64 bits) is [Z].
    - The code's critical sections are steps of a transition system where
      threads matter (ThreadPool, Frontends); in SessionShared the theorems
      say what they rely on of the threads that run while a handler waits or
      has sent a package on; elsewhere a handler runs alone,
      which Frontends justifies: one session has at most one package in a
      filter at a time.
    - YAZ, YAZ++, libxml2, libxslt, Boost's regular expressions, the clock,
      the file system and other calls of the operating system are not part of
      the source: they are classes of operations ([Yaz], [Srw], [Xslt],
      [QueryYaz], [GduView], [LogEnv], [WebClient], [CgiSystem] and others)
      and section variables. Classes of laws such as [YazLaws] state documented
      behaviour; instances such as [ref_yaz] satisfy them.
    - A field that a protocol makes mandatory is not null.

    ** Files

    Foundations:
    - Prelude: outcomes, the monad and its rules ([tot], [par], [ends]),
      integers, C strings, lists. Stream: files read line by line.
    - Zgdu: the PDUs, with a setter for each field; Yaz: the YAZ interface.
    - Core: session.hpp, origin.cpp, package.cpp with the log of a package.
    - Xml: xmlutil.cpp; Libxml: documents, stylesheets, files. Router:
      router_chain.cpp ([Chain]), factory_filter.cpp ([Factory]),
      factory_static.cpp ([FactoryStatic]), router_flexml.cpp ([FleXML]) and
      the class [RouterSpec] that both routers implement.
    - Util: util.cpp. GduUtil: gduutil.cpp, the text of a PDU. HtmlParser:
      html_parser.cpp, as the list of events it reports.
    - ThreadPool: thread_pool_observer.cpp, the relation [step] over [Rep].
      PoolSocket: the same with the pipe to the socket thread, the lock of the
      output queue and the destructor; its runs are runs of ThreadPool
      ([pool_simulates]).
    - Frontends: get_frontend and release_frontend of the filters that keep a
      frontend for each session (virt_db, multi, session_shared, sort, zoom,
      sru_z3950), as operations and as an interleaving of threads.
    - Routes: what a filter of a route promises to the ones before it
      ([Passes], [Ends]), the filters that keep the promise, and the routes
      made of them ([FilterConf], [run_filter]).

    The program around the routes:
    - MetaproxyProg: metaproxy_prog.cpp (options, the test of a configuration,
      the hand-over to the daemon, the serving process and its signals) and
      router_xml.cpp ([RouterXML]).
    - Server: pipe.cpp ([Pipe]) and process of filter_frontend_net.cpp with
      the signals that arrive while it serves ([Serving]).

    The way of a client into the program, and out of it:
    - FrontendNet: filter_frontend_net.cpp, every callback of its objects as
      an event of one run.
    - Z3950Client: filter_z3950_client.cpp, the connections to targets as an
      interleaving.
    - BackendTest: filter_backend_test.cpp, a target inside the program.

    Filters for Z39.50:
    - LoadBalance, Limit, PresentChunk, VirtDb, Sort, AuthSimple: the filters
      of these names. SessionShared: filter_session_shared.cpp; the objects
      behind shared pointers are tables of the store. Expiry: its thread that
      expires sessions, and the destructor that ends it. Target: what a filter
      with a result set behind it is, for the theorems about PresentChunk and
      Sort. Chains: filters in front of one another.
    - MultiMerge and Multi: filter_multi.cpp, the merging and the handlers.
    - QueryFilters: filter_query_rewrite.cpp and filter_cql_rpn.cpp.
      RecordTransform: filter_record_transform.cpp and filter_sd_remove.cpp;
      Usemarcon: the conversion that the former registers with YAZ.
    - UrlRecipe (url_recipe.cpp), Torus (torus.cpp), Zoom (the configuration
      of filter_zoom.cpp), ZoomBackend (targets and their connections),
      ZoomRecords (Present) and ZoomSearch (Search, Init and the handler).

    Filters for SRU and HTTP:
    - Sru: sru_util.cpp; SruZ3950: filter_sru_to_z3950.cpp; ZeerexExplain:
      filter_zeerex_explain.cpp.
    - HttpRewrite: filter_http_rewrite.cpp. HttpFilters:
      filter_http_client.cpp and filter_http_rewrite1.cpp. HttpFile:
      filter_http_file.cpp and plainfile.cpp. Cgi: filter_cgi.cpp.

    Filters for both: Bounce (filter_bounce.cpp, filter_template.cpp) and Log
    (filter_log.cpp).

    In the filter files the definitions have the names of the C++ methods;
    [process] is the entry point and composes the others as the code does.
    Loops that the code ends by [break] or a condition are Fixpoints on their
    list, or have fuel.

    ** What is proved

    - Refinement and equivalence: a route is visited in order by [move] under
      either router ([move_visits_route]), and a route of ten filters that pass
      requests on, with a bounce at its end, leaves no request without an
      answer ([route_answers]); present_chunk is indistinguishable
      from one large Present ([chunking_equivalent], [chunked_backend_test]);
      multi behaves as one target that holds the merged result set, for
      Present, for Search with piggyback and for Scan ([present_merges],
      [search_merges], [scan_merges]), in whatever order its threads run; the
      skipping of round robin agrees with taking turns, within the range of
      [int] and with at most two sizes of sets ([round_robin_interleaves]); a sorted set is one fixed list
      ([sorted_result_set]); rewriting HTML without a match is the identity
      ([html_kept]); the users that the log keeps are one register for each
      session ([user_of_session]).
    - Concurrency: the thread pool loses and duplicates no message and wakes a
      worker for every queued one, and the socket thread for every result
      ([results_announced]); the pool can be stopped ([joining_ends]); a
      session's frontend has one holder; a package finds the connection it
      uses, of clients that wait for the answer to their Init
      ([connections_safe]), and is answered or closed in time
      ([answered_or_closed]); connections of clients that wait for the answer
      to an HTTP request are deleted once their requests are done, and the
      route is told of their end by one package ([connections_live],
      [ends_told_once]).
    - The process: a test of the configuration gives the verdict of the router
      ([test_verdict]) and serving is what the options ask for
      ([served_as_asked]); signals stop the listeners, SIGTERM the connections
      too ([stops_in_order], [sigterm_ends]); the main process signals
      its group once and a child never does ([stopped_once],
      [child_ignores]); a pipe leaves no descriptor open ([pipe_closed]); the
      expiry thread ends once it is told to ([closing_ends]); records go
      through the stages of a conversion in order ([stages_in_order]).
    - Invariants: the books of load_balance balance; virt_db's sets stay bound
      to backends; session_shared leaves the backend sessions of other clients
      alone ([sharing_is_exclusive]) and hands out result sets only for the
      query and databases asked for ([get_set_sound]); peers stay within their
      limits ([peers_limited]).
    - Safety: Search and Scan need the databases of the user
      ([access_control]); Init needs an authentication that is known
      ([init_authenticates]); a session with a realm stays in it
      ([session_realm_confines]); no file outside of the configured
      directories is served, up to the prefix rule that [sibling_directory]
      shows ([files_confined]); the HTML parser reads inside its buffer; a log
      filter only looks on ([log_looks_on]).
    - Types of what passes a filter: each record converted to its syntax
      ([records_in_syntax]), the kind of queries ([queries_of_one_kind]).
    - Functional behaviour: SRU searches get the records they ask for
      ([sru_search_answered]); choice of targets, database names, Init
      negotiation, diagnostics, limits, virtual hosts, zurls, references to
      result sets, converted queries, rewritten texts, files, programs, pages
      of other servers, configuration.
    - Round trips: recipes, user registers, virtual hosts, quoted queries, the
      address of a request in the environment of a program.
    - Termination: [search_retries_end], [rewriting_ends], and for [Log] and
      [Bounce] that they always come back.
    - Where the code does something else than it means to, the theorem states
      what it does (for instance [round_robin_skips_wrongly],
      [override_takes_foreign_backend], [live_sessions_forgotten],
      [failed_restart_undefined], [two_proxies_never_end],
      [long_line_hangs], [line_unless], [directory_ends_daemon],
      [early_signal_lost], [closing_waits], [full_pipe_deadlocks],
      [second_stage_alone], [round_robin_overflows], [start_record_truncated],
      [database_not_needed], [date_misread], [pipelined_use_after_free],
      [pipelined_inits_collide] and the failing cases of [scan_merges] and
      [diagnostics_merged]).

    ** Fuel

    Fuel bounds loops that are not structural. In HtmlParser it is one more
    than the document, which [parse_tiles_document] shows to be enough; in
    HttpRewrite one more than the text ([rewriting_ends]); in round_robin it
    is one more than the number of sets for the skipping loop and the largest
    count plus two for the turns, and [round_robin_interleaves] shows that
    neither runs out; in load_balance the number of virtual hosts plus one; in
    present_chunk the theorems say how much is enough, and
    [empty_chunks_diverge] that no fuel is when a target returns empty chunks;
    for virtual hosts any number above those present ([vhost_roundtrip]), and
    every other-info has such a number ([vhost_terminates]), so that every PDU
    has a text ([print_GDU_total]); in session_shared [patience] bounds how
    often a caller is woken in vain; in zoom [search_retries_end] says how
    often a search is tried again, and [two_proxies_never_end] when it never
    stops; a file is read with one more than its lines, unless a line is too
    long ([long_line_hangs], [register_reading_ends]); in Cgi the number of
    turns of the loop that serves a program is that program's.

    ** What is not modelled

    - The select loop and the sockets, which are YAZ++'s, and the file handles,
      the log and [yaz_daemon], which are YAZ's; the branches for Windows, with
      its service control and the reader of a configuration there.
    - The sample modules and the tests.
    - The locks of single filters where a handler is one step; what is left
      to do there is to give Log, Cgi and Zoom the interleavings that
      ThreadPool, Frontends, Z3950Client and FrontendNet have. *)
From Stdlib Require Export ZArith Lia Ascii String.
From stdpp Require Export base tactics numbers option list strings gmap fin_maps.

#[global] Open Scope Z_scope.

(** ** Outcomes of C++ code

    A call returns, throws a C++ exception, or runs into undefined behaviour
    (or a failed [assert]). [OutOfFuel] marks a loop whose bound was
    exhausted; no theorem counts it as a result. *)
Inductive ub_kind : Set :=
  | NullDeref | OutOfBounds | Uninitialised | AssertFailed | DivByZero
  | BadIterator | BadUnion | IntOverflow | BadSize | UseAfterFree.

#[export] Instance ub_kind_eq_dec : EqDecision ub_kind.
Proof. solve_decision. Defined.

Inductive outcome (A : Type) : Type :=
  | Ok (a : A)
  | Throw (msg : string)
  | Undef (k : ub_kind)
  | OutOfFuel.
Arguments Ok {A} a.
Arguments Throw {A} msg.
Arguments Undef {A} k.
Arguments OutOfFuel {A}.

(** ** The state and error monad

    [M S A] is a computation over a mutable store [S]. stdpp's [x ← m; k]
    and [m ;; k] are its notations. *)
Definition M (S A : Type) : Type := S → outcome (A * S).

#[export] Instance M_ret {S} : MRet (M S) := λ A a s, Ok (a, s).
#[export] Instance M_bind {S} : MBind (M S) := λ A B f m s,
  match m s with
  | Ok (a, s') => f a s'
  | Throw e => Throw e
  | Undef k => Undef k
  | OutOfFuel => OutOfFuel
  end.

#[export] Instance outcome_ret : MRet outcome := λ A a, Ok a.
#[export] Instance outcome_bind : MBind outcome := λ A B f m,
  match m with
  | Ok a => f a
  | Throw e => Throw e
  | Undef k => Undef k
  | OutOfFuel => OutOfFuel
  end.

Section monad_ops.
Context {S : Type}.

Definition get : M S S := λ s, Ok (s, s).
Definition put (s' : S) : M S unit := λ _, Ok (tt, s').
Definition modify (f : S → S) : M S unit := λ s, Ok (tt, f s).
Definition throw {A} (msg : string) : M S A := λ _, Throw msg.
Definition undef {A} (k : ub_kind) : M S A := λ _, Undef k.
Definition out_of_fuel {A} : M S A := λ _, OutOfFuel.
Definition lift_outcome {A} (o : outcome A) : M S A := λ s,
  match o with
  | Ok a => Ok (a, s)
  | Throw e => Throw e
  | Undef k => Undef k
  | OutOfFuel => OutOfFuel
  end.
(** Reading through a pointer that may be null. *)
Definition deref_o {A} (p : option A) : outcome A :=
  match p with Some a => Ok a | None => Undef NullDeref end.
Definition deref {A} (p : option A) : M S A :=
  match p with Some a => mret a | None => undef NullDeref end.
End monad_ops.

(** A store made of the part a component owns and the rest of the world. *)
Section own_state.
Context {St W : Type}.
Definition get_st : M (St * W) St := λ s, Ok (s.1, s).
Definition put_st (st : St) : M (St * W) unit := λ s, Ok (tt, (st, s.2)).
Definition modify_st (f : St → St) : M (St * W) unit :=
  λ s, Ok (tt, (f s.1, s.2)).
End own_state.

(** ** Total and partial postconditions

    [tot m s Q]: from [s] the computation returns, and its result and store
    satisfy [Q]. [par m s Q]: if it returns, they satisfy [Q]. *)
Definition tot {S A} (m : M S A) (s : S) (Q : A → S → Prop) : Prop :=
  match m s with Ok (a, s') => Q a s' | _ => False end.
Definition par {S A} (m : M S A) (s : S) (Q : A → S → Prop) : Prop :=
  match m s with Ok (a, s') => Q a s' | _ => True end.

Section wp.
Context {S : Type}.

Lemma bind_ok {A B} (m : M S A) (f : A → M S B) (s s' : S) (a : A) :
  m s = Ok (a, s') → (m ≫= f) s = f a s'.
Proof. unfold mbind, M_bind. by intros ->. Qed.

Lemma tot_ret {A} (a : A) (s : S) (Q : A → S → Prop) :
  Q a s → tot (mret a) s Q.
Proof. done. Qed.
Lemma tot_bind {A B} (m : M S A) (f : A → M S B) (s : S) (Q : B → S → Prop) :
  tot m s (λ a s', tot (f a) s' Q) → tot (m ≫= f) s Q.
Proof.
  unfold tot, mbind, M_bind. destruct (m s) as [[a s']|?|?|]; done.
Qed.
Lemma tot_mono {A} (m : M S A) (s : S) (Q Q' : A → S → Prop) :
  tot m s Q → (∀ a s', Q a s' → Q' a s') → tot m s Q'.
Proof. unfold tot. destruct (m s) as [[a s']|?|?|]; eauto. Qed.
Lemma tot_elim {A} (m : M S A) (s : S) (Q : A → S → Prop) :
  tot m s Q → ∃ a s', m s = Ok (a, s') ∧ Q a s'.
Proof. unfold tot. destruct (m s) as [[a s']|?|?|]; eauto; done. Qed.

Lemma par_ret {A} (a : A) (s : S) (Q : A → S → Prop) :
  Q a s → par (mret a) s Q.
Proof. done. Qed.
Lemma par_bind {A B} (m : M S A) (f : A → M S B) (s : S) (Q : B → S → Prop) :
  par m s (λ a s', par (f a) s' Q) → par (m ≫= f) s Q.
Proof.
  unfold par, mbind, M_bind. destruct (m s) as [[a s']|?|?|]; done.
Qed.
Lemma par_mono {A} (m : M S A) (s : S) (Q Q' : A → S → Prop) :
  par m s Q → (∀ a s', Q a s' → Q' a s') → par m s Q'.
Proof. unfold par. destruct (m s) as [[a s']|?|?|]; eauto. Qed.
Lemma par_any {A} (m : M S A) (s : S) (Q : A → S → Prop) :
  (∀ a s', Q a s') → par m s Q.
Proof. intros H. unfold par. destruct (m s) as [[a s']|?|?|]; [apply H|done..]. Qed.
Lemma par_modify (f : S → S) (s : S) (Q : unit → S → Prop) :
  Q tt (f s) → par (modify f) s Q.
Proof. done. Qed.
Lemma par_deref {A} (o : option A) (s : S) (Q : A → S → Prop) :
  (∀ a, o = Some a → Q a s) → par (deref o) s Q.
Proof. destruct o; intros H; [by apply H|done]. Qed.
Lemma par_lift {A} (o : outcome A) (s : S) (Q : A → S → Prop) :
  (∀ a, o = Ok a → Q a s) → par (lift_outcome o) s Q.
Proof. destruct o; intros H; [by apply H|done..]. Qed.
Lemma par_get (s : S) (Q : S → S → Prop) : Q s s → par get s Q.
Proof. done. Qed.
Lemma tot_par {A} (m : M S A) (s : S) (Q : A → S → Prop) :
  tot m s Q → par m s Q.
Proof. unfold tot, par. by destruct (m s) as [[a s']|?|?|]. Qed.
End wp.

(** ** Termination

    [ends m s Q]: the computation does not run out of fuel; if it returns,
    its result and store satisfy [Q]. *)
Definition no_fuel {A} (o : outcome A) : Prop := o ≠ OutOfFuel.
Lemma no_fuel_bind {A B} (m : outcome A) (f : A → outcome B) :
  no_fuel m → (∀ a, m = Ok a → no_fuel (f a)) → no_fuel (m ≫= f).
Proof. unfold mbind, outcome_bind. destruct m; intros H Hf; [by apply Hf|done..]. Qed.
Definition ends {S A} (m : M S A) (s : S) (Q : A → S → Prop) : Prop :=
  match m s with Ok (a, s') => Q a s' | OutOfFuel => False | _ => True end.
Definition any {S A} : A → S → Prop := λ _ _, True.
Section ends.
Context {S : Type}.
Implicit Type s : S.
Lemma ends_no_fuel {A} (m : M S A) s Q : ends m s Q → m s ≠ OutOfFuel.
Proof. unfold ends. by destruct (m s) as [[??]|?|?|]. Qed.
Lemma ends_ret {A} (a : A) s (Q : A → S → Prop) : Q a s → ends (mret a) s Q.
Proof. done. Qed.
Lemma ends_bind {A B} (m : M S A) (f : A → M S B) s (Q : B → S → Prop) :
  ends m s (λ a s', ends (f a) s' Q) → ends (m ≫= f) s Q.
Proof. unfold ends, mbind, M_bind. by destruct (m s) as [[a s']|?|?|]. Qed.
Lemma ends_mono {A} (m : M S A) s (Q Q' : A → S → Prop) :
  ends m s Q → (∀ a s', Q a s' → Q' a s') → ends m s Q'.
Proof. unfold ends. destruct (m s) as [[a s']|?|?|]; eauto. Qed.
Lemma ends_any {A} (m : M S A) s Q : ends m s Q → ends m s any.
Proof. intros H. by eapply ends_mono. Qed.
Lemma ends_true {A} (m : M S A) s (Q : A → S → Prop) :
  ends m s any → (∀ a s', Q a s') → ends m s Q.
Proof. intros H HQ. eapply ends_mono; [done|]. intros. apply HQ. Qed.
Lemma ends_lift {A} (o : outcome A) s (Q : A → S → Prop) :
  no_fuel o → (∀ a, o = Ok a → Q a s) → ends (lift_outcome o) s Q.
Proof. destruct o; intros Hf H; [by apply H|done..]. Qed.
Lemma ends_deref {A} (p : option A) s (Q : A → S → Prop) :
  (∀ a, p = Some a → Q a s) → ends (deref p) s Q.
Proof. destruct p; intros H; [by apply H|done]. Qed.
Lemma ends_undef {A} k s (Q : A → S → Prop) : ends (undef k) s Q.
Proof. done. Qed.
End ends.

Create HintDb mp.
#[export] Hint Resolve tot_ret par_ret : mp.

(** ** Machine integers *)

(** Conversion to a [w]-bit two's complement integer. *)
Definition wrap_s (w z : Z) : Z := (z + 2 ^ (w - 1)) mod 2 ^ w - 2 ^ (w - 1).
Definition wrap_u (w z : Z) : Z := z mod 2 ^ w.
Definition int32 (z : Z) : Z := wrap_s 32 z.
Definition uint32 (z : Z) : Z := wrap_u 32 z.
Definition INT_MAX : Z := 2147483647.
Definition UINT_MAX : Z := 4294967295.

Definition in_int32 (z : Z) : Prop := -2147483648 ≤ z ≤ INT_MAX.

Lemma int32_id z : in_int32 z → int32 z = z.
Proof.
  intros [H1 H2]. unfold int32, wrap_s, INT_MAX in *.
  change (2 ^ (32 - 1)) with 2147483648. change (2 ^ 32) with 4294967296.
  rewrite Z.mod_small by lia. lia.
Qed.
Lemma int32_range z : in_int32 (int32 z).
Proof.
  unfold int32, wrap_s, in_int32, INT_MAX.
  change (2 ^ (32 - 1)) with 2147483648. change (2 ^ 32) with 4294967296.
  pose proof (Z.mod_pos_bound (z + 2147483648) 4294967296 ltac:(lia)). lia.
Qed.
(** The result of an operation on [int]: to leave its range is undefined. *)
Definition chk_int (z : Z) : outcome Z :=
  if bool_decide (-2147483648 ≤ z ≤ INT_MAX) then Ok z else Undef IntOverflow.
Lemma chk_int_ok z : in_int32 z → chk_int z = Ok z.
Proof. intros H. unfold chk_int. by rewrite bool_decide_eq_true_2. Qed.
Lemma chk_int_cases z : (in_int32 z ∧ chk_int z = Ok z) ∨ (¬ in_int32 z ∧ chk_int z = Undef IntOverflow).
Proof. unfold chk_int. case_bool_decide; [by left|by right]. Qed.
Lemma uint32_id z : 0 ≤ z ≤ UINT_MAX → uint32 z = z.
Proof.
  intros. unfold uint32, wrap_u, UINT_MAX in *.
  change (2 ^ 32) with 4294967296. apply Z.mod_small. lia.
Qed.
#[export] Hint Resolve int32_range : mp.
Create Rewrite HintDb mp_int.
#[export] Hint Rewrite int32_id using (unfold in_int32, INT_MAX in *; lia) : mp_int.

(** ** Characters and C strings *)
Definition NUL : ascii := Ascii.zero.
#[export] Instance ascii_inhabited : Inhabited ascii := populate NUL.

(** The [std::string] a [char *] pointer denotes: the bytes before NUL. *)
Fixpoint c_str (s : string) : string :=
  match s with
  | EmptyString => EmptyString
  | String c s' => if decide (c = NUL) then EmptyString else String c (c_str s')
  end.

(** [strchr]: the offset of the first [c] in a C string. *)
Fixpoint find_char (c : ascii) (s : string) : option nat :=
  match s with
  | EmptyString => None
  | String a s' => if decide (a = c) then Some O else S <$> find_char c s'
  end.

Fixpoint str_take (n : nat) (s : string) : string :=
  match n, s with
  | O, _ => EmptyString
  | S n', String c s' => String c (str_take n' s')
  | S _, EmptyString => EmptyString
  end.
Fixpoint str_drop (n : nat) (s : string) : string :=
  match n, s with
  | O, _ => s
  | S n', String _ s' => str_drop n' s'
  | S _, EmptyString => EmptyString
  end.

(** [find(needle)]: the offset of the first occurrence of a string. *)
Fixpoint str_find (needle s : string) : option nat :=
  if decide (str_take (String.length needle) s = needle) then Some O
  else match s with
       | EmptyString => None
       | String _ s' => S <$> str_find needle s'
       end.

Lemma str_app_nil_l s : "" +:+ s = s.
Proof. done. Qed.
Lemma str_app_cons c s t : String c s +:+ t = String c (s +:+ t).
Proof. done. Qed.
Lemma str_app_nil_r s : s +:+ "" = s.
Proof. induction s; rewrite ?str_app_nil_l, ?str_app_cons; congruence. Qed.
Lemma str_app_assoc s t u : s +:+ (t +:+ u) = (s +:+ t) +:+ u.
Proof. induction s; rewrite ?str_app_nil_l, ?str_app_cons; congruence. Qed.
Lemma str_app_length s t :
  String.length (s +:+ t) = (String.length s + String.length t)%nat.
Proof. induction s; rewrite ?str_app_nil_l, ?str_app_cons; simpl; congruence. Qed.
Lemma list_ascii_length s : length (list_ascii_of_string s) = String.length s.
Proof. induction s; simpl; congruence. Qed.
Lemma str_take_drop n s : str_take n s +:+ str_drop n s = s.
Proof.
  revert s. induction n; intros [|c s]; simpl; rewrite ?str_app_cons, ?IHn; done.
Qed.
Lemma str_take_app s t : str_take (String.length s) (s +:+ t) = s.
Proof. induction s; rewrite ?str_app_nil_l, ?str_app_cons; simpl; [by destruct t|congruence]. Qed.
Lemma str_drop_app s t : str_drop (String.length s) (s +:+ t) = t.
Proof. induction s; rewrite ?str_app_nil_l, ?str_app_cons; simpl; [by destruct t|congruence]. Qed.
Lemma str_find_some needle s i : str_find needle s = Some i →
  s = str_take i s +:+ needle +:+ str_drop (i + String.length needle) s.
Proof.
  revert i. induction s as [|c s IH]; intros i; cbn [str_find].
  - case_decide as Hd; [|done]. intros [= <-]. destruct needle; done.
  - case_decide as Hd.
    + intros [= <-]. cbn [Nat.add]. rewrite str_app_nil_l.
      rewrite <-(str_take_drop (String.length needle) (String c s)) at 1. by rewrite Hd.
    + destruct (str_find needle s) as [j|]; [|done]. intros [= <-].
      cbn [str_take str_drop Nat.add]. rewrite str_app_cons. f_equal. by apply IH.
Qed.
Lemma str_drop_length n s :
  String.length (str_drop n s) = (String.length s - n)%nat.
Proof. revert s. induction n; intros [|c s]; simpl; auto. Qed.
Lemma str_get_Some_lt i s c : String.get i s = Some c → (i < String.length s)%nat.
Proof.
  revert i. induction s as [|a s IH]; intros [|i]; simpl; try done; [lia|].
  intros H%IH. lia.
Qed.
Lemma str_drop_get i s c :
  String.get i s = Some c → str_drop i s = String c (str_drop (S i) s).
Proof.
  revert i. induction s as [|a s IH]; intros [|i]; simpl; intros; simplify_eq.
  - by destruct s.
  - by apply IH.
Qed.
Lemma find_char_get c s i :
  find_char c s = Some i → String.get i s = Some c.
Proof.
  revert i. induction s as [|a s IH]; intros i; cbn; [done|].
  case_decide as Hac; [intros [= <-]; by subst|].
  destruct (find_char c s) as [j|]; [|done]. intros [= <-]. by apply IH.
Qed.

Fixpoint string_map (f : ascii → ascii) (s : string) : string :=
  match s with
  | EmptyString => EmptyString
  | String c s' => String (f c) (string_map f s')
  end.

Lemma string_map_map f g s :
  string_map f (string_map g s) = string_map (λ c, f (g c)) s.
Proof. induction s; simpl; congruence. Qed.
Lemma string_map_ext f g s : (∀ c, f c = g c) → string_map f s = string_map g s.
Proof. intros H. induction s; simpl; rewrite ?H; congruence. Qed.
Lemma string_map_length f s : String.length (string_map f s) = String.length s.
Proof. induction s; simpl; congruence. Qed.

(** ** Lists *)

(** The first position whose element satisfies [P]. *)
Fixpoint find_first {A} (P : A → bool) (l : list A) : option (nat * A) :=
  match l with
  | [] => None
  | x :: l' =>
      if P x then Some (O, x)
      else match find_first P l' with
           | Some (i, y) => Some (S i, y)
           | None => None
           end
  end.

Lemma find_first_Some {A} (P : A → bool) l i x :
  find_first P l = Some (i, x) →
  l !! i = Some x ∧ P x = true ∧ ∀ j y, (j < i)%nat → l !! j = Some y → P y = false.
Proof.
  revert i. induction l as [|y l IH]; intros i; simpl; [done|].
  destruct (P y) eqn:Hy.
  - intros [= <- ->]. repeat split; [done..|]. intros; lia.
  - destruct (find_first P l) as [[i' x']|] eqn:E; [|done].
    intros [= <- ->]. destruct (IH i' eq_refl) as (H1 & H2 & H3).
    repeat split; [done..|]. intros [|j] z Hj; simpl; [congruence|].
    intros. eapply H3; [|done]. lia.
Qed.
Lemma find_first_None {A} (P : A → bool) l :
  find_first P l = None → ∀ x, x ∈ l → P x = false.
Proof.
  induction l as [|y l IH]; simpl; [set_solver|].
  destruct (P y) eqn:Hy; [done|].
  destruct (find_first P l) as [[? ?]|] eqn:E; [done|].
  intros _ x [->|Hx]%elem_of_cons; eauto.
Qed.

(** *** Strings without some character *)
Definition without (c : ascii) (s : string) : Prop := find_char c s = None.
Lemma without_cons c a s : without c (String a s) ↔ a ≠ c ∧ without c s.
Proof.
  unfold without. cbn. case_decide; [naive_solver|]. destruct (find_char c s); naive_solver.
Qed.
Lemma without_app c s t : without c (s +:+ t) ↔ without c s ∧ without c t.
Proof.
  induction s as [|a s IH]; [rewrite str_app_nil_l; naive_solver|].
  rewrite str_app_cons, !without_cons, IH. tauto.
Qed.
Lemma without_take_drop c n s :
  without c s → without c (str_take n s) ∧ without c (str_drop n s).
Proof. rewrite <-(str_take_drop n s) at 1. by rewrite without_app. Qed.
Lemma c_str_id s : without NUL s → c_str s = s.
Proof.
  induction s as [|c s IH]; [done|]. rewrite without_cons. intros [Hc Hs]. cbn.
  rewrite decide_False by done. by rewrite IH.
Qed.

(** *** [std::map::insert] keeps what is there *)
Definition map_insert_new {A} (k : string) (v : A) (m : gmap string A) : gmap string A :=
  match m !! k with Some _ => m | None => <[k := v]> m end.
Lemma map_insert_new_lookup {A} k (v : A) m k' :
  map_insert_new k v m !! k' =
  match m !! k' with Some x => Some x | None => if decide (k = k') then Some v else None end.
Proof.
  unfold map_insert_new. destruct (decide (k = k')) as [->|Hne].
  - destruct (m !! k') eqn:Hm; [done|]. by rewrite lookup_insert_eq.
  - destruct (m !! k) eqn:Hm; [by destruct (m !! k')|].
    rewrite lookup_insert_ne by done. by destruct (m !! k').
Qed.

(** *** Counting the entries of a map *)
Section map_count.
Context {A : Type} (P : A → Prop) `{∀ x, Decision (P x)}.
Implicit Types m : gmap Z A.
Definition map_count m : Z := Z.of_nat (size (filter (λ x : Z * A, P x.2) m)).
Lemma map_count_empty : map_count ∅ = 0.
Proof. unfold map_count. by rewrite map_filter_empty, map_size_empty. Qed.
Lemma map_count_insert m i x : m !! i = None →
  map_count (<[i := x]> m) = map_count m + (if decide (P x) then 1 else 0).
Proof.
  intros Hi. unfold map_count. case_decide as HP.
  - rewrite map_filter_insert_True by done. rewrite map_size_insert_None; [lia|].
    apply map_lookup_filter_None. by left.
  - rewrite map_filter_insert_not' by (done || naive_solver). lia.
Qed.
Lemma map_count_delete m i x : m !! i = Some x →
  map_count (delete i m) = map_count m - (if decide (P x) then 1 else 0).
Proof.
  intros Hi. pose proof (map_count_insert (delete i m) i x (lookup_delete_eq m i)) as Hc.
  rewrite insert_delete_id in Hc by done. lia.
Qed.
Lemma map_count_replace m i x y : m !! i = Some x → (P x ↔ P y) →
  map_count (<[i := y]> m) = map_count m.
Proof.
  intros Hi HP. rewrite <-(insert_delete_eq m i y).
  rewrite map_count_insert by apply lookup_delete_eq. rewrite (map_count_delete m i x Hi).
  repeat case_decide; naive_solver lia.
Qed.
Lemma map_count_alter m i f : (∀ x, P x ↔ P (f x)) → map_count (alter f i m) = map_count m.
Proof.
  intros Hf. destruct (m !! i) as [x|] eqn:Hi.
  - replace (alter f i m) with (<[i := f x]> m); [by apply (map_count_replace m i x)|].
    apply map_eq. intros j. destruct (decide (j = i)) as [->|Hne].
    + by rewrite lookup_insert_eq, lookup_alter_eq, Hi.
    + by rewrite lookup_insert_ne, lookup_alter_ne by done.
  - by rewrite alter_id by (intros; congruence).
Qed.
Lemma map_count_nonneg m : 0 ≤ map_count m.
Proof. unfold map_count. lia. Qed.
End map_count.

(** A loop whose turns may fail. *)
Lemma mapM_ok {A B} (f : A → outcome B) (l : list A) (k : list B) :
  mapM f l = Ok k ↔ Forall2 (λ x y, f x = Ok y) l k.
Proof.
  split.
  - revert k. induction l as [|x l IH]; intros k; cbn.
    + intros [= <-]. constructor.
    + destruct (f x) as [y|?|?|] eqn:Hx; cbn; try done.
      destruct (mapM f l) as [k'|?|?|]; cbn; try done. intros [= <-].
      constructor; [done|]. by apply IH.
  - induction 1 as [|x y l k Hx Hl IH]; [done|]. cbn. rewrite Hx. cbn. by rewrite IH.
Qed.

(** Case analysis on the guards of a translated handler. *)
Ltac split_guard :=
  match goal with
  | |- context [if ?b then _ else _] => destruct b eqn:?
  | |- context [match ?x with _ => _ end] => destruct x eqn:?
  end.
Ltac split_guards := repeat (split_guard; simplify_eq/=).

(** One symbolic step through a monadic body. *)
Ltac par_step :=
  first [ apply par_bind | apply par_ret | apply par_modify ].
Ltac tot_step := first [ apply tot_bind | apply tot_ret ].
