(* ===== verification/Stream.v ===== *)
(** * Files read line by line

    [std::ifstream] with its [getline] into a buffer, as auth_simple and
    [src/plainfile.cpp] use it. A line that does not fit the buffer sets the
    fail bit: from then on nothing is read, and the end of the file never
    comes. *)
From S2P Require Import Prelude.

(** [std::ifstream]: what is left to read and two of the state bits. *)
Record ifstream : Type := mk_ifstream {
  rest : string;
  eofbit : bool;
  failbit : bool
}.
Definition newline : ascii := "010".
(** Characters up to a newline, the end of the file, or a full buffer; with
    the rest and whether the end or a full buffer was met. *)
Fixpoint get_chars (room : nat) (s : string) {struct s} : string * string * bool * bool :=
  match s with
  | EmptyString => (EmptyString, EmptyString, true, false)
  | String c s' =>
      if decide (c = newline) then (EmptyString, s', false, false)
      else match room with
           | O => (EmptyString, s, false, true)
           | S room' =>
               let '(l, r, e, f) := get_chars room' s' in (String c l, r, e, f)
           end
  end.
(** [getline(buf, n)]. On a stream that is not good the buffer is made empty
    and the fail bit is set. *)
Definition getline (n : nat) (fp : ifstream) : string * ifstream :=
  if eofbit fp || failbit fp then
    (EmptyString, mk_ifstream (rest fp) (eofbit fp) true)
  else
    let '(l, r, e, f) := get_chars (n - 1) (rest fp) in
    (c_str l, mk_ifstream r e (f || bool_decide (rest fp = EmptyString))).

(** The loop that reads a file into a buffer of [n] characters: [skip] tells
    the lines to ignore, [line] splits a line, [add] stores what it has. *)
Fixpoint read_lines {A B} (n : nat) (skip : string → bool) (line : string → outcome A) (add : A → B → B)
    (fuel : nat) (fp : ifstream) (acc : B) : outcome B :=
  match fuel with
  | O => OutOfFuel
  | S fuel' =>
      if eofbit fp then Ok acc
      else
        let '(buf, fp) := getline n fp in
        if skip buf then read_lines n skip line add fuel' fp acc
        else a ← line buf; read_lines n skip line add fuel' fp (add a acc)
  end.

(** ** Line by line *)

(** The lines of a text; a final newline is followed by an empty line. *)
Fixpoint lines (s : string) : list string :=
  match s with
  | EmptyString => [EmptyString]
  | String c s' =>
      if decide (c = newline) then EmptyString :: lines s'
      else match lines s' with
           | l :: ls => String c l :: ls
           | [] => [String c EmptyString]
           end
  end.
(** Reading as it is meant: line by line. *)
Fixpoint fold_lines {A B} (skip : string → bool) (line : string → outcome A) (add : A → B → B)
    (ls : list string) (acc : B) : outcome B :=
  match ls with
  | [] => Ok acc
  | l :: ls' =>
      let buf := c_str l in
      if skip buf then fold_lines skip line add ls' acc
      else a ← line buf; fold_lines skip line add ls' (add a acc)
  end.

Lemma lines_nonempty s : lines s ≠ [].
Proof. destruct s; simpl; [done|]. case_decide; [done|]. by destruct (lines s). Qed.
Lemma lines_length s : (length (lines s) ≤ S (String.length s))%nat.
Proof.
  induction s as [|c s IH]; simpl; [lia|]. case_decide; simpl; [lia|].
  destruct (lines s); simpl in *; lia.
Qed.
(** What one call reads, when the first line fits, and when it does not. *)
Lemma get_chars_short room s l ls :
  lines s = l :: ls → (String.length l ≤ room)%nat →
  ∃ r e, get_chars room s = (l, r, e, false) ∧
    match ls with [] => e = true | _ => e = false ∧ lines r = ls end.
Proof.
  revert room l ls. induction s as [|c s IH]; intros room l ls Hl Hr; simpl in *.
  { simplify_eq. eexists _, _. by split. }
  destruct (decide (c = newline)) as [->|Hc].
  { simplify_eq. eexists _, false. split; [done|].
    destruct (lines s) eqn:Hs; [by apply lines_nonempty in Hs|]. by split. }
  destruct (lines s) as [|l' ls'] eqn:Hs; [by apply lines_nonempty in Hs|].
  simplify_eq. simpl in Hr. destruct room as [|room]; [lia|].
  destruct (IH room l' ls eq_refl) as (r & e & -> & H); [lia|]. by exists r, e.
Qed.
Lemma get_chars_long room s l ls :
  lines s = l :: ls → (room < String.length l)%nat →
  ∃ r, get_chars room s = (str_take room l, r, false, true) ∧ s ≠ "".
Proof.
  revert room l ls. induction s as [|c s IH]; intros room l ls Hl Hr; simpl in *.
  { simplify_eq. simpl in Hr. lia. }
  destruct (decide (c = newline)) as [->|Hc]; [simplify_eq; simpl in Hr; lia|].
  destruct (lines s) as [|l' ls'] eqn:Hs; [by apply lines_nonempty in Hs|].
  simplify_eq. simpl in Hr. destruct room as [|room]; [by eexists|].
  destruct (IH room l' ls eq_refl) as (r & -> & H); [lia|]. by exists r.
Qed.
Lemma getline_short n s l ls :
  lines s = l :: ls → (String.length l < n)%nat →
  ∃ r e f, getline n (mk_ifstream s false false) = (c_str l, mk_ifstream r e f) ∧
    match ls with [] => e = true | _ => e = false ∧ f = false ∧ lines r = ls end.
Proof.
  intros Hl Hlen. destruct (get_chars_short (n - 1) s l ls Hl) as (r & e & He & H); [lia|].
  unfold getline. cbn [eofbit failbit orb rest].
  rewrite He. eexists _, _, _. split; [done|].
  destruct ls; [done|]. destruct H as [-> Hr]. split; [done|]. split; [|done].
  destruct s; [by simpl in Hl|done].
Qed.
Lemma getline_long n s l ls :
  lines s = l :: ls → (0 < n)%nat → (n ≤ String.length l)%nat →
  ∃ r, getline n (mk_ifstream s false false) =
    (c_str (str_take (n - 1) l), mk_ifstream r false true).
Proof.
  intros Hl Hn Hlen. destruct (get_chars_long (n - 1) s l ls Hl) as (r & He & Hs); [lia|].
  unfold getline. cbn [eofbit failbit orb rest].
  rewrite He. by eexists.
Qed.

Section reading.
Context {A B : Type} (n : nat) (skip : string → bool).
Context (line : string → outcome A) (add : A → B → B).

Context (Hskip : skip "" = true).
(** A stream that has failed never comes to its end. *)
Lemma read_failed fuel r acc :
  read_lines n skip line add fuel (mk_ifstream r false true) acc = OutOfFuel.
Proof.
  induction fuel as [|fuel IH]; [done|]. cbn [read_lines eofbit getline failbit orb].
  rewrite Hskip. apply IH.
Qed.

Lemma read_short s fuel acc :
  Forall (λ l, (String.length l < n)%nat) (lines s) →
  (length (lines s) < fuel)%nat →
  read_lines n skip line add fuel (mk_ifstream s false false) acc =
  fold_lines skip line add (lines s) acc.
Proof.
  remember (lines s) as ls eqn:Hs. revert s fuel acc Hs.
  induction ls as [|l ls IH]; intros s fuel acc Hs Hall Hf.
  { by destruct (lines_nonempty s). }
  apply Forall_cons in Hall as [Hl Hall]. destruct fuel as [|fuel]; [simpl in Hf; lia|].
  destruct (getline_short n s l ls (eq_sym Hs) Hl) as (r & e & f & Hg & H).
  cbn [read_lines fold_lines eofbit]. rewrite Hg. simpl in Hf.
  assert (Hnext : ∀ acc, read_lines n skip line add fuel (mk_ifstream r e f) acc =
    fold_lines skip line add ls acc).
  { intros acc'. destruct ls as [|l' ls].
    - subst e. destruct fuel; [simpl in Hf; lia|done].
    - destruct H as (-> & -> & Hr). apply IH; try done; simpl in *; lia. }
  destruct (skip (c_str l)); [apply Hnext|].
  destruct (line (c_str l)); simpl; [apply Hnext|done..].
Qed.

Lemma read_long s l1 l l2 fuel acc acc' :
  (0 < n)%nat → lines s = l1 ++ l :: l2 → Forall (λ l, (String.length l < n)%nat) l1 →
  (n ≤ String.length l)%nat →
  fold_lines skip line add (l1 ++ [str_take (n - 1) l]) acc = Ok acc' →
  read_lines n skip line add fuel (mk_ifstream s false false) acc = OutOfFuel.
Proof.
  intros Hn Hs Hall Hl. revert s fuel acc Hs.
  induction l1 as [|l0 l1 IH]; intros s fuel acc Hs Hok;
    (destruct fuel as [|fuel]; [done|]); cbn [read_lines eofbit].
  - destruct (getline_long n s l l2 Hs Hn Hl) as (r & ->). simpl in Hok.
    destruct (skip (c_str (str_take (n - 1) l))); [apply read_failed|].
    destruct (line _); simpl in *; [apply read_failed|done..].
  - apply Forall_cons in Hall as [Hl0 Hall].
    destruct (getline_short n s l0 (l1 ++ l :: l2) Hs Hl0) as (r & e & f & -> & H).
    assert (H' : e = false ∧ f = false ∧ lines r = l1 ++ l :: l2)
      by (by destruct l1). destruct H' as (-> & -> & Hr).
    simpl in Hok. destruct (skip (c_str l0)); [by apply IH|].
    destruct (line (c_str l0)); simpl in *; [by apply IH|done..].
Qed.
End reading.
