(* ===== verification/Zgdu.v ===== *)
(** * Z39.50 and HTTP protocol data units

    The PDUs the filters pass along: the fields that the code under src/ reads
    or writes, with the constructors of the [which] discriminators it tests.
    Pointers that the code compares with null are [option]s; pointers it
    dereferences without a test are plain fields. The setters [set_f] are
    assignments [r->f = v]. *)
From S2P Require Import Prelude.

(** ** Diagnostics and records *)

(** [Z_ElementSetNames]. *)
Inductive ElementSetNames : Type :=
  | ESN_generic (s : string)
  | ESN_databaseSpecific.

(** [Z_ElementSpec], [Z_Specification] and [Z_RecordComposition]. *)
Inductive ElementSpec : Type :=
  | ES_elementSetName (s : string)
  | ES_externalSpec.
Record Specification : Type := {
  elementSpec : option ElementSpec
}.
Record CompSpec : Type := {
  generic : option Specification
}.
Inductive RecordComposition : Type :=
  | RecordComp_simple (e : ElementSetNames)
  | RecordComp_complex (c : CompSpec).

(** [Z_DefaultDiagFormat]: the addinfo of protocol version 2 or 3. *)
Inductive AddInfo : Type :=
  | v2Addinfo (s : string)
  | v3Addinfo (s : string).
Record DefaultDiagFormat : Type := {
  condition : Z;
  addinfo : AddInfo
}.
Inductive DiagRec : Type :=
  | DiagRec_defaultFormat (d : DefaultDiagFormat)
  | DiagRec_externallyDefined.

(** [Z_OPACRecord], with the holdings and circulation fields the code sets. *)
Record CircRecord : Type := {
  availableNow : bool;
  itemId : option string;
  renewable : bool;
  onHold : bool
}.
Record HoldingsAndCircData : Type := {
  typeOfRecord : option string;
  encodingLevel : option string;
  receiptAcqStatus : option string;
  dateOfReport : option string;
  nucCode : option string;
  localLocation : option string;
  callNumber : option string;
  shelvingData : option string;
  copyNumber : option string;
  circulationData : list CircRecord
}.
(** A [Z_External] that holds a record: the syntax and the body. *)
Inductive ExternalRecord : Type :=
  | External_octet (direct_reference descriptor : option string) (buf : string)
  | External_sutrs (direct_reference descriptor : option string) (buf : string)
  | External_OPAC (direct_reference descriptor : option string)
      (bibliographicRecord : ExternalRecord) (holdingsData : list HoldingsAndCircData)
  | External_otherRecord (direct_reference descriptor : option string) (body : string).
Definition direct_reference (e : ExternalRecord) : option string :=
  match e with
  | External_octet r _ _ | External_sutrs r _ _ | External_OPAC r _ _ _
  | External_otherRecord r _ _ => r
  end.
Definition set_descriptor (d : option string) (e : ExternalRecord) : ExternalRecord :=
  match e with
  | External_octet r _ buf => External_octet r d buf
  | External_sutrs r _ buf => External_sutrs r d buf
  | External_OPAC r _ bib l => External_OPAC r d bib l
  | External_otherRecord r _ body => External_otherRecord r d body
  end.
(** [Z_NamePlusRecord]. *)
Inductive NPRecord : Type :=
  | NPR_databaseRecord (e : ExternalRecord)
  | NPR_surrogateDiagnostic (d : DiagRec)
  | NPR_fragment (s : string).
Record NamePlusRecord : Type := {
  databaseName : option string;
  npr_record : NPRecord
}.
(** Record syntaxes, as dotted object identifiers. *)
Definition recsyn_usmarc : string := "1.2.840.10003.5.10".
Definition recsyn_sutrs : string := "1.2.840.10003.5.101".
Definition recsyn_opac : string := "1.2.840.10003.5.102".
Definition recsyn_xml : string := "1.2.840.10003.5.109.10".
(** An octet-aligned record without a syntax. *)
Definition octet_record (s : string) : NPRecord :=
  NPR_databaseRecord (External_octet None None s).
(** [Z_Records]. *)
Inductive Records : Type :=
  | Records_DBOSD (l : list NamePlusRecord)
  | Records_NSD (d : DefaultDiagFormat)
  | Records_multipleNSD (l : list DiagRec).

(** ** Other information and user information

    [Z_OtherInformation] is a list of units; [Z_External] carries, among
    others, user information and diagnostics. *)
Inductive External : Type :=
  | External_userInfo1 (ui : list OtherInformationUnit)
  | External_diag1 (elements : list DiagnosticFormat_s)
  | External_charSetandLanguageNegotiation (body : string)
  | External_other
with OtherInformationUnit : Type :=
  | OtherInfo_characterInfo (oid : string) (cat : Z) (s : string)
  | OtherInfo_externallyDefinedInfo (e : option External)
  | OtherInfo_other
with DiagnosticFormat_s : Type :=
  | DiagnosticFormat_s_defaultDiagRec (d : DefaultDiagFormat)
  | DiagnosticFormat_s_explicitDiagnostic.
Definition OtherInformation : Type := list OtherInformationUnit.

(** [Z_IdAuthentication]. *)
Inductive IdAuthentication : Type :=
  | IdAuthentication_open (s : string)
  | IdAuthentication_idPass (groupId userId password : option string)
  | IdAuthentication_anonymous
  | IdAuthentication_other.

(** ** Queries *)

(** [Z_Operand] and [Z_RPNStructure]; attributes plus term stay opaque. *)
Inductive Operand : Type :=
  | Operand_APT (apt : string)
  | Operand_resultSetId (id : string)
  | Operand_resultAttr.
Inductive RPNStructure : Type :=
  | RPNStructure_simple (o : Operand)
  | RPNStructure_complex (op : Z) (s1 s2 : RPNStructure).
Inductive Query : Type :=
  | Query_type_1 (attributeSetId : string) (rpn : RPNStructure)
  | Query_type_101 (attributeSetId : string) (rpn : RPNStructure)
  | Query_type_2 (ccl : string)
  | Query_type_104 (cql : option string)   (* an external; [Some] for CQL *)
  | Query_other (body : string).

(** ** Scan entries *)
Inductive Term : Type :=
  | Term_general (s : string)
  | Term_other.
Record TermInfo : Type := {
  term : Term;
  globalOccurrences : option Z
}.
Inductive Entry : Type :=
  | Entry_termInfo (t : TermInfo)
  | Entry_surrogateDiagnostic (d : DiagRec).
Record ListEntries : Type := {
  entries : list Entry;
  nonsurrogateDiagnostics : list DiagRec
}.

(** ** The protocol data units *)

(** [Z_InitRequest]. *)
Record InitRequest : Type := {
  iq_referenceId : option string;
  iq_protocolVersion : Z;
  iq_options : Z;
  iq_preferredMessageSize : Z;
  iq_maximumRecordSize : Z;
  iq_idAuthentication : option IdAuthentication;
  iq_implementationId : option string;
  iq_implementationName : option string;
  iq_implementationVersion : option string;
  iq_otherInfo : OtherInformation
}.
Definition set_iq_referenceId (v : option string) (r : InitRequest) : InitRequest :=
  {| iq_referenceId := v; iq_protocolVersion := iq_protocolVersion r;
     iq_options := iq_options r; iq_preferredMessageSize :=
     iq_preferredMessageSize r; iq_maximumRecordSize := iq_maximumRecordSize
     r; iq_idAuthentication := iq_idAuthentication r; iq_implementationId :=
     iq_implementationId r; iq_implementationName := iq_implementationName r;
     iq_implementationVersion := iq_implementationVersion r; iq_otherInfo :=
     iq_otherInfo r |}.
Definition set_iq_protocolVersion (v : Z) (r : InitRequest) : InitRequest :=
  {| iq_referenceId := iq_referenceId r; iq_protocolVersion := v; iq_options
     := iq_options r; iq_preferredMessageSize := iq_preferredMessageSize r;
     iq_maximumRecordSize := iq_maximumRecordSize r; iq_idAuthentication :=
     iq_idAuthentication r; iq_implementationId := iq_implementationId r;
     iq_implementationName := iq_implementationName r;
     iq_implementationVersion := iq_implementationVersion r; iq_otherInfo :=
     iq_otherInfo r |}.
Definition set_iq_options (v : Z) (r : InitRequest) : InitRequest :=
  {| iq_referenceId := iq_referenceId r; iq_protocolVersion :=
     iq_protocolVersion r; iq_options := v; iq_preferredMessageSize :=
     iq_preferredMessageSize r; iq_maximumRecordSize := iq_maximumRecordSize
     r; iq_idAuthentication := iq_idAuthentication r; iq_implementationId :=
     iq_implementationId r; iq_implementationName := iq_implementationName r;
     iq_implementationVersion := iq_implementationVersion r; iq_otherInfo :=
     iq_otherInfo r |}.
Definition set_iq_preferredMessageSize (v : Z) (r : InitRequest) : InitRequest :=
  {| iq_referenceId := iq_referenceId r; iq_protocolVersion :=
     iq_protocolVersion r; iq_options := iq_options r; iq_preferredMessageSize
     := v; iq_maximumRecordSize := iq_maximumRecordSize r; iq_idAuthentication
     := iq_idAuthentication r; iq_implementationId := iq_implementationId r;
     iq_implementationName := iq_implementationName r;
     iq_implementationVersion := iq_implementationVersion r; iq_otherInfo :=
     iq_otherInfo r |}.
Definition set_iq_maximumRecordSize (v : Z) (r : InitRequest) : InitRequest :=
  {| iq_referenceId := iq_referenceId r; iq_protocolVersion :=
     iq_protocolVersion r; iq_options := iq_options r; iq_preferredMessageSize
     := iq_preferredMessageSize r; iq_maximumRecordSize := v;
     iq_idAuthentication := iq_idAuthentication r; iq_implementationId :=
     iq_implementationId r; iq_implementationName := iq_implementationName r;
     iq_implementationVersion := iq_implementationVersion r; iq_otherInfo :=
     iq_otherInfo r |}.
Definition set_iq_idAuthentication (v : option IdAuthentication) (r : InitRequest) : InitRequest :=
  {| iq_referenceId := iq_referenceId r; iq_protocolVersion :=
     iq_protocolVersion r; iq_options := iq_options r; iq_preferredMessageSize
     := iq_preferredMessageSize r; iq_maximumRecordSize :=
     iq_maximumRecordSize r; iq_idAuthentication := v; iq_implementationId :=
     iq_implementationId r; iq_implementationName := iq_implementationName r;
     iq_implementationVersion := iq_implementationVersion r; iq_otherInfo :=
     iq_otherInfo r |}.
Definition set_iq_implementationId (v : option string) (r : InitRequest) : InitRequest :=
  {| iq_referenceId := iq_referenceId r; iq_protocolVersion :=
     iq_protocolVersion r; iq_options := iq_options r; iq_preferredMessageSize
     := iq_preferredMessageSize r; iq_maximumRecordSize :=
     iq_maximumRecordSize r; iq_idAuthentication := iq_idAuthentication r;
     iq_implementationId := v; iq_implementationName := iq_implementationName
     r; iq_implementationVersion := iq_implementationVersion r; iq_otherInfo
     := iq_otherInfo r |}.
Definition set_iq_implementationName (v : option string) (r : InitRequest) : InitRequest :=
  {| iq_referenceId := iq_referenceId r; iq_protocolVersion :=
     iq_protocolVersion r; iq_options := iq_options r; iq_preferredMessageSize
     := iq_preferredMessageSize r; iq_maximumRecordSize :=
     iq_maximumRecordSize r; iq_idAuthentication := iq_idAuthentication r;
     iq_implementationId := iq_implementationId r; iq_implementationName := v;
     iq_implementationVersion := iq_implementationVersion r; iq_otherInfo :=
     iq_otherInfo r |}.
Definition set_iq_implementationVersion (v : option string) (r : InitRequest) : InitRequest :=
  {| iq_referenceId := iq_referenceId r; iq_protocolVersion :=
     iq_protocolVersion r; iq_options := iq_options r; iq_preferredMessageSize
     := iq_preferredMessageSize r; iq_maximumRecordSize :=
     iq_maximumRecordSize r; iq_idAuthentication := iq_idAuthentication r;
     iq_implementationId := iq_implementationId r; iq_implementationName :=
     iq_implementationName r; iq_implementationVersion := v; iq_otherInfo :=
     iq_otherInfo r |}.
Definition set_iq_otherInfo (v : OtherInformation) (r : InitRequest) : InitRequest :=
  {| iq_referenceId := iq_referenceId r; iq_protocolVersion :=
     iq_protocolVersion r; iq_options := iq_options r; iq_preferredMessageSize
     := iq_preferredMessageSize r; iq_maximumRecordSize :=
     iq_maximumRecordSize r; iq_idAuthentication := iq_idAuthentication r;
     iq_implementationId := iq_implementationId r; iq_implementationName :=
     iq_implementationName r; iq_implementationVersion :=
     iq_implementationVersion r; iq_otherInfo := v |}.

(** [Z_InitResponse]. *)
Record InitResponse : Type := {
  ir_referenceId : option string;
  ir_protocolVersion : Z;
  ir_options : Z;
  ir_preferredMessageSize : Z;
  ir_maximumRecordSize : Z;
  ir_result : bool;
  ir_implementationId : option string;
  ir_implementationName : option string;
  ir_implementationVersion : option string;
  ir_userInformationField : option External;
  ir_otherInfo : OtherInformation
}.
Definition set_ir_referenceId (v : option string) (r : InitResponse) : InitResponse :=
  {| ir_referenceId := v; ir_protocolVersion := ir_protocolVersion r;
     ir_options := ir_options r; ir_preferredMessageSize :=
     ir_preferredMessageSize r; ir_maximumRecordSize := ir_maximumRecordSize
     r; ir_result := ir_result r; ir_implementationId := ir_implementationId
     r; ir_implementationName := ir_implementationName r;
     ir_implementationVersion := ir_implementationVersion r;
     ir_userInformationField := ir_userInformationField r; ir_otherInfo :=
     ir_otherInfo r |}.
Definition set_ir_protocolVersion (v : Z) (r : InitResponse) : InitResponse :=
  {| ir_referenceId := ir_referenceId r; ir_protocolVersion := v; ir_options
     := ir_options r; ir_preferredMessageSize := ir_preferredMessageSize r;
     ir_maximumRecordSize := ir_maximumRecordSize r; ir_result := ir_result r;
     ir_implementationId := ir_implementationId r; ir_implementationName :=
     ir_implementationName r; ir_implementationVersion :=
     ir_implementationVersion r; ir_userInformationField :=
     ir_userInformationField r; ir_otherInfo := ir_otherInfo r |}.
Definition set_ir_options (v : Z) (r : InitResponse) : InitResponse :=
  {| ir_referenceId := ir_referenceId r; ir_protocolVersion :=
     ir_protocolVersion r; ir_options := v; ir_preferredMessageSize :=
     ir_preferredMessageSize r; ir_maximumRecordSize := ir_maximumRecordSize
     r; ir_result := ir_result r; ir_implementationId := ir_implementationId
     r; ir_implementationName := ir_implementationName r;
     ir_implementationVersion := ir_implementationVersion r;
     ir_userInformationField := ir_userInformationField r; ir_otherInfo :=
     ir_otherInfo r |}.
Definition set_ir_preferredMessageSize (v : Z) (r : InitResponse) : InitResponse :=
  {| ir_referenceId := ir_referenceId r; ir_protocolVersion :=
     ir_protocolVersion r; ir_options := ir_options r; ir_preferredMessageSize
     := v; ir_maximumRecordSize := ir_maximumRecordSize r; ir_result :=
     ir_result r; ir_implementationId := ir_implementationId r;
     ir_implementationName := ir_implementationName r;
     ir_implementationVersion := ir_implementationVersion r;
     ir_userInformationField := ir_userInformationField r; ir_otherInfo :=
     ir_otherInfo r |}.
Definition set_ir_maximumRecordSize (v : Z) (r : InitResponse) : InitResponse :=
  {| ir_referenceId := ir_referenceId r; ir_protocolVersion :=
     ir_protocolVersion r; ir_options := ir_options r; ir_preferredMessageSize
     := ir_preferredMessageSize r; ir_maximumRecordSize := v; ir_result :=
     ir_result r; ir_implementationId := ir_implementationId r;
     ir_implementationName := ir_implementationName r;
     ir_implementationVersion := ir_implementationVersion r;
     ir_userInformationField := ir_userInformationField r; ir_otherInfo :=
     ir_otherInfo r |}.
Definition set_ir_result (v : bool) (r : InitResponse) : InitResponse :=
  {| ir_referenceId := ir_referenceId r; ir_protocolVersion :=
     ir_protocolVersion r; ir_options := ir_options r; ir_preferredMessageSize
     := ir_preferredMessageSize r; ir_maximumRecordSize :=
     ir_maximumRecordSize r; ir_result := v; ir_implementationId :=
     ir_implementationId r; ir_implementationName := ir_implementationName r;
     ir_implementationVersion := ir_implementationVersion r;
     ir_userInformationField := ir_userInformationField r; ir_otherInfo :=
     ir_otherInfo r |}.
Definition set_ir_implementationId (v : option string) (r : InitResponse) : InitResponse :=
  {| ir_referenceId := ir_referenceId r; ir_protocolVersion :=
     ir_protocolVersion r; ir_options := ir_options r; ir_preferredMessageSize
     := ir_preferredMessageSize r; ir_maximumRecordSize :=
     ir_maximumRecordSize r; ir_result := ir_result r; ir_implementationId :=
     v; ir_implementationName := ir_implementationName r;
     ir_implementationVersion := ir_implementationVersion r;
     ir_userInformationField := ir_userInformationField r; ir_otherInfo :=
     ir_otherInfo r |}.
Definition set_ir_implementationName (v : option string) (r : InitResponse) : InitResponse :=
  {| ir_referenceId := ir_referenceId r; ir_protocolVersion :=
     ir_protocolVersion r; ir_options := ir_options r; ir_preferredMessageSize
     := ir_preferredMessageSize r; ir_maximumRecordSize :=
     ir_maximumRecordSize r; ir_result := ir_result r; ir_implementationId :=
     ir_implementationId r; ir_implementationName := v;
     ir_implementationVersion := ir_implementationVersion r;
     ir_userInformationField := ir_userInformationField r; ir_otherInfo :=
     ir_otherInfo r |}.
Definition set_ir_implementationVersion (v : option string) (r : InitResponse) : InitResponse :=
  {| ir_referenceId := ir_referenceId r; ir_protocolVersion :=
     ir_protocolVersion r; ir_options := ir_options r; ir_preferredMessageSize
     := ir_preferredMessageSize r; ir_maximumRecordSize :=
     ir_maximumRecordSize r; ir_result := ir_result r; ir_implementationId :=
     ir_implementationId r; ir_implementationName := ir_implementationName r;
     ir_implementationVersion := v; ir_userInformationField :=
     ir_userInformationField r; ir_otherInfo := ir_otherInfo r |}.
Definition set_ir_userInformationField (v : option External) (r : InitResponse) : InitResponse :=
  {| ir_referenceId := ir_referenceId r; ir_protocolVersion :=
     ir_protocolVersion r; ir_options := ir_options r; ir_preferredMessageSize
     := ir_preferredMessageSize r; ir_maximumRecordSize :=
     ir_maximumRecordSize r; ir_result := ir_result r; ir_implementationId :=
     ir_implementationId r; ir_implementationName := ir_implementationName r;
     ir_implementationVersion := ir_implementationVersion r;
     ir_userInformationField := v; ir_otherInfo := ir_otherInfo r |}.
Definition set_ir_otherInfo (v : OtherInformation) (r : InitResponse) : InitResponse :=
  {| ir_referenceId := ir_referenceId r; ir_protocolVersion :=
     ir_protocolVersion r; ir_options := ir_options r; ir_preferredMessageSize
     := ir_preferredMessageSize r; ir_maximumRecordSize :=
     ir_maximumRecordSize r; ir_result := ir_result r; ir_implementationId :=
     ir_implementationId r; ir_implementationName := ir_implementationName r;
     ir_implementationVersion := ir_implementationVersion r;
     ir_userInformationField := ir_userInformationField r; ir_otherInfo := v
     |}.

(** [Z_SearchRequest]. *)
Record SearchRequest : Type := {
  sq_referenceId : option string;
  sq_smallSetUpperBound : Z;
  sq_largeSetLowerBound : Z;
  sq_mediumSetPresentNumber : Z;
  sq_replaceIndicator : bool;
  sq_resultSetName : string;
  sq_databaseNames : list string;
  sq_smallSetElementSetNames : option ElementSetNames;
  sq_mediumSetElementSetNames : option ElementSetNames;
  sq_preferredRecordSyntax : option string;
  sq_query : Query;
  sq_additionalSearchInfo : OtherInformation;
  sq_otherInfo : OtherInformation
}.
Definition set_sq_referenceId (v : option string) (r : SearchRequest) : SearchRequest :=
  {| sq_referenceId := v; sq_smallSetUpperBound := sq_smallSetUpperBound r;
     sq_largeSetLowerBound := sq_largeSetLowerBound r;
     sq_mediumSetPresentNumber := sq_mediumSetPresentNumber r;
     sq_replaceIndicator := sq_replaceIndicator r; sq_resultSetName :=
     sq_resultSetName r; sq_databaseNames := sq_databaseNames r;
     sq_smallSetElementSetNames := sq_smallSetElementSetNames r;
     sq_mediumSetElementSetNames := sq_mediumSetElementSetNames r;
     sq_preferredRecordSyntax := sq_preferredRecordSyntax r; sq_query :=
     sq_query r; sq_additionalSearchInfo := sq_additionalSearchInfo r;
     sq_otherInfo := sq_otherInfo r |}.
Definition set_sq_smallSetUpperBound (v : Z) (r : SearchRequest) : SearchRequest :=
  {| sq_referenceId := sq_referenceId r; sq_smallSetUpperBound := v;
     sq_largeSetLowerBound := sq_largeSetLowerBound r;
     sq_mediumSetPresentNumber := sq_mediumSetPresentNumber r;
     sq_replaceIndicator := sq_replaceIndicator r; sq_resultSetName :=
     sq_resultSetName r; sq_databaseNames := sq_databaseNames r;
     sq_smallSetElementSetNames := sq_smallSetElementSetNames r;
     sq_mediumSetElementSetNames := sq_mediumSetElementSetNames r;
     sq_preferredRecordSyntax := sq_preferredRecordSyntax r; sq_query :=
     sq_query r; sq_additionalSearchInfo := sq_additionalSearchInfo r;
     sq_otherInfo := sq_otherInfo r |}.
Definition set_sq_largeSetLowerBound (v : Z) (r : SearchRequest) : SearchRequest :=
  {| sq_referenceId := sq_referenceId r; sq_smallSetUpperBound :=
     sq_smallSetUpperBound r; sq_largeSetLowerBound := v;
     sq_mediumSetPresentNumber := sq_mediumSetPresentNumber r;
     sq_replaceIndicator := sq_replaceIndicator r; sq_resultSetName :=
     sq_resultSetName r; sq_databaseNames := sq_databaseNames r;
     sq_smallSetElementSetNames := sq_smallSetElementSetNames r;
     sq_mediumSetElementSetNames := sq_mediumSetElementSetNames r;
     sq_preferredRecordSyntax := sq_preferredRecordSyntax r; sq_query :=
     sq_query r; sq_additionalSearchInfo := sq_additionalSearchInfo r;
     sq_otherInfo := sq_otherInfo r |}.
Definition set_sq_mediumSetPresentNumber (v : Z) (r : SearchRequest) : SearchRequest :=
  {| sq_referenceId := sq_referenceId r; sq_smallSetUpperBound :=
     sq_smallSetUpperBound r; sq_largeSetLowerBound := sq_largeSetLowerBound
     r; sq_mediumSetPresentNumber := v; sq_replaceIndicator :=
     sq_replaceIndicator r; sq_resultSetName := sq_resultSetName r;
     sq_databaseNames := sq_databaseNames r; sq_smallSetElementSetNames :=
     sq_smallSetElementSetNames r; sq_mediumSetElementSetNames :=
     sq_mediumSetElementSetNames r; sq_preferredRecordSyntax :=
     sq_preferredRecordSyntax r; sq_query := sq_query r;
     sq_additionalSearchInfo := sq_additionalSearchInfo r;
     sq_otherInfo := sq_otherInfo r |}.
Definition set_sq_replaceIndicator (v : bool) (r : SearchRequest) : SearchRequest :=
  {| sq_referenceId := sq_referenceId r; sq_smallSetUpperBound :=
     sq_smallSetUpperBound r; sq_largeSetLowerBound := sq_largeSetLowerBound
     r; sq_mediumSetPresentNumber := sq_mediumSetPresentNumber r;
     sq_replaceIndicator := v; sq_resultSetName := sq_resultSetName r;
     sq_databaseNames := sq_databaseNames r; sq_smallSetElementSetNames :=
     sq_smallSetElementSetNames r; sq_mediumSetElementSetNames :=
     sq_mediumSetElementSetNames r; sq_preferredRecordSyntax :=
     sq_preferredRecordSyntax r; sq_query := sq_query r;
     sq_additionalSearchInfo := sq_additionalSearchInfo r;
     sq_otherInfo := sq_otherInfo r |}.
Definition set_sq_resultSetName (v : string) (r : SearchRequest) : SearchRequest :=
  {| sq_referenceId := sq_referenceId r; sq_smallSetUpperBound :=
     sq_smallSetUpperBound r; sq_largeSetLowerBound := sq_largeSetLowerBound
     r; sq_mediumSetPresentNumber := sq_mediumSetPresentNumber r;
     sq_replaceIndicator := sq_replaceIndicator r; sq_resultSetName := v;
     sq_databaseNames := sq_databaseNames r; sq_smallSetElementSetNames :=
     sq_smallSetElementSetNames r; sq_mediumSetElementSetNames :=
     sq_mediumSetElementSetNames r; sq_preferredRecordSyntax :=
     sq_preferredRecordSyntax r; sq_query := sq_query r;
     sq_additionalSearchInfo := sq_additionalSearchInfo r;
     sq_otherInfo := sq_otherInfo r |}.
Definition set_sq_databaseNames (v : list string) (r : SearchRequest) : SearchRequest :=
  {| sq_referenceId := sq_referenceId r; sq_smallSetUpperBound :=
     sq_smallSetUpperBound r; sq_largeSetLowerBound := sq_largeSetLowerBound
     r; sq_mediumSetPresentNumber := sq_mediumSetPresentNumber r;
     sq_replaceIndicator := sq_replaceIndicator r; sq_resultSetName :=
     sq_resultSetName r; sq_databaseNames := v; sq_smallSetElementSetNames :=
     sq_smallSetElementSetNames r; sq_mediumSetElementSetNames :=
     sq_mediumSetElementSetNames r; sq_preferredRecordSyntax :=
     sq_preferredRecordSyntax r; sq_query := sq_query r;
     sq_additionalSearchInfo := sq_additionalSearchInfo r;
     sq_otherInfo := sq_otherInfo r |}.
Definition set_sq_smallSetElementSetNames (v : option ElementSetNames) (r : SearchRequest) : SearchRequest :=
  {| sq_referenceId := sq_referenceId r; sq_smallSetUpperBound :=
     sq_smallSetUpperBound r; sq_largeSetLowerBound := sq_largeSetLowerBound
     r; sq_mediumSetPresentNumber := sq_mediumSetPresentNumber r;
     sq_replaceIndicator := sq_replaceIndicator r; sq_resultSetName :=
     sq_resultSetName r; sq_databaseNames := sq_databaseNames r;
     sq_smallSetElementSetNames := v; sq_mediumSetElementSetNames :=
     sq_mediumSetElementSetNames r; sq_preferredRecordSyntax :=
     sq_preferredRecordSyntax r; sq_query := sq_query r;
     sq_additionalSearchInfo := sq_additionalSearchInfo r;
     sq_otherInfo := sq_otherInfo r |}.
Definition set_sq_mediumSetElementSetNames (v : option ElementSetNames) (r : SearchRequest) : SearchRequest :=
  {| sq_referenceId := sq_referenceId r; sq_smallSetUpperBound :=
     sq_smallSetUpperBound r; sq_largeSetLowerBound := sq_largeSetLowerBound
     r; sq_mediumSetPresentNumber := sq_mediumSetPresentNumber r;
     sq_replaceIndicator := sq_replaceIndicator r; sq_resultSetName :=
     sq_resultSetName r; sq_databaseNames := sq_databaseNames r;
     sq_smallSetElementSetNames := sq_smallSetElementSetNames r;
     sq_mediumSetElementSetNames := v; sq_preferredRecordSyntax :=
     sq_preferredRecordSyntax r; sq_query := sq_query r;
     sq_additionalSearchInfo := sq_additionalSearchInfo r;
     sq_otherInfo := sq_otherInfo r |}.
Definition set_sq_preferredRecordSyntax (v : option string) (r : SearchRequest) : SearchRequest :=
  {| sq_referenceId := sq_referenceId r; sq_smallSetUpperBound :=
     sq_smallSetUpperBound r; sq_largeSetLowerBound := sq_largeSetLowerBound
     r; sq_mediumSetPresentNumber := sq_mediumSetPresentNumber r;
     sq_replaceIndicator := sq_replaceIndicator r; sq_resultSetName :=
     sq_resultSetName r; sq_databaseNames := sq_databaseNames r;
     sq_smallSetElementSetNames := sq_smallSetElementSetNames r;
     sq_mediumSetElementSetNames := sq_mediumSetElementSetNames r;
     sq_preferredRecordSyntax := v; sq_query := sq_query r;
     sq_additionalSearchInfo := sq_additionalSearchInfo r;
     sq_otherInfo := sq_otherInfo r |}.
Definition set_sq_query (v : Query) (r : SearchRequest) : SearchRequest :=
  {| sq_referenceId := sq_referenceId r; sq_smallSetUpperBound :=
     sq_smallSetUpperBound r; sq_largeSetLowerBound := sq_largeSetLowerBound
     r; sq_mediumSetPresentNumber := sq_mediumSetPresentNumber r;
     sq_replaceIndicator := sq_replaceIndicator r; sq_resultSetName :=
     sq_resultSetName r; sq_databaseNames := sq_databaseNames r;
     sq_smallSetElementSetNames := sq_smallSetElementSetNames r;
     sq_mediumSetElementSetNames := sq_mediumSetElementSetNames r;
     sq_preferredRecordSyntax := sq_preferredRecordSyntax r; sq_query := v;
     sq_additionalSearchInfo := sq_additionalSearchInfo r;
     sq_otherInfo := sq_otherInfo r |}.
Definition set_sq_additionalSearchInfo (v : OtherInformation) (r : SearchRequest) : SearchRequest :=
  {| sq_referenceId := sq_referenceId r; sq_smallSetUpperBound :=
     sq_smallSetUpperBound r; sq_largeSetLowerBound := sq_largeSetLowerBound
     r; sq_mediumSetPresentNumber := sq_mediumSetPresentNumber r;
     sq_replaceIndicator := sq_replaceIndicator r; sq_resultSetName :=
     sq_resultSetName r; sq_databaseNames := sq_databaseNames r;
     sq_smallSetElementSetNames := sq_smallSetElementSetNames r;
     sq_mediumSetElementSetNames := sq_mediumSetElementSetNames r;
     sq_preferredRecordSyntax := sq_preferredRecordSyntax r; sq_query :=
     sq_query r; sq_additionalSearchInfo := v; sq_otherInfo := sq_otherInfo r |}.
Definition set_sq_otherInfo (v : OtherInformation) (r : SearchRequest) : SearchRequest :=
  {| sq_referenceId := sq_referenceId r; sq_smallSetUpperBound :=
     sq_smallSetUpperBound r; sq_largeSetLowerBound := sq_largeSetLowerBound
     r; sq_mediumSetPresentNumber := sq_mediumSetPresentNumber r;
     sq_replaceIndicator := sq_replaceIndicator r; sq_resultSetName :=
     sq_resultSetName r; sq_databaseNames := sq_databaseNames r;
     sq_smallSetElementSetNames := sq_smallSetElementSetNames r;
     sq_mediumSetElementSetNames := sq_mediumSetElementSetNames r;
     sq_preferredRecordSyntax := sq_preferredRecordSyntax r; sq_query :=
     sq_query r; sq_additionalSearchInfo := sq_additionalSearchInfo r; sq_otherInfo := v |}.

(** [Z_SearchResponse]. *)
Record SearchResponse : Type := {
  sr_referenceId : option string;
  sr_resultCount : Z;
  sr_numberOfRecordsReturned : Z;
  sr_nextResultSetPosition : Z;
  sr_searchStatus : Z;
  sr_records : option Records;
  sr_additionalSearchInfo : OtherInformation;
  sr_otherInfo : OtherInformation
}.
Definition set_sr_referenceId (v : option string) (r : SearchResponse) : SearchResponse :=
  {| sr_referenceId := v; sr_resultCount := sr_resultCount r;
     sr_numberOfRecordsReturned := sr_numberOfRecordsReturned r;
     sr_nextResultSetPosition := sr_nextResultSetPosition r; sr_searchStatus
     := sr_searchStatus r; sr_records := sr_records r; sr_additionalSearchInfo :=
     sr_additionalSearchInfo r; sr_otherInfo := sr_otherInfo r |}.
Definition set_sr_resultCount (v : Z) (r : SearchResponse) : SearchResponse :=
  {| sr_referenceId := sr_referenceId r; sr_resultCount := v;
     sr_numberOfRecordsReturned := sr_numberOfRecordsReturned r;
     sr_nextResultSetPosition := sr_nextResultSetPosition r; sr_searchStatus
     := sr_searchStatus r; sr_records := sr_records r; sr_additionalSearchInfo :=
     sr_additionalSearchInfo r; sr_otherInfo := sr_otherInfo r |}.
Definition set_sr_numberOfRecordsReturned (v : Z) (r : SearchResponse) : SearchResponse :=
  {| sr_referenceId := sr_referenceId r; sr_resultCount := sr_resultCount r;
     sr_numberOfRecordsReturned := v; sr_nextResultSetPosition :=
     sr_nextResultSetPosition r; sr_searchStatus := sr_searchStatus r;
     sr_records := sr_records r; sr_additionalSearchInfo :=
     sr_additionalSearchInfo r; sr_otherInfo := sr_otherInfo r |}.
Definition set_sr_nextResultSetPosition (v : Z) (r : SearchResponse) : SearchResponse :=
  {| sr_referenceId := sr_referenceId r; sr_resultCount := sr_resultCount r;
     sr_numberOfRecordsReturned := sr_numberOfRecordsReturned r;
     sr_nextResultSetPosition := v; sr_searchStatus := sr_searchStatus r;
     sr_records := sr_records r; sr_additionalSearchInfo :=
     sr_additionalSearchInfo r; sr_otherInfo := sr_otherInfo r |}.
Definition set_sr_searchStatus (v : Z) (r : SearchResponse) : SearchResponse :=
  {| sr_referenceId := sr_referenceId r; sr_resultCount := sr_resultCount r;
     sr_numberOfRecordsReturned := sr_numberOfRecordsReturned r;
     sr_nextResultSetPosition := sr_nextResultSetPosition r; sr_searchStatus
     := v; sr_records := sr_records r; sr_additionalSearchInfo :=
     sr_additionalSearchInfo r; sr_otherInfo := sr_otherInfo r |}.
Definition set_sr_records (v : option Records) (r : SearchResponse) : SearchResponse :=
  {| sr_referenceId := sr_referenceId r; sr_resultCount := sr_resultCount r;
     sr_numberOfRecordsReturned := sr_numberOfRecordsReturned r;
     sr_nextResultSetPosition := sr_nextResultSetPosition r; sr_searchStatus
     := sr_searchStatus r; sr_records := v; sr_additionalSearchInfo :=
     sr_additionalSearchInfo r; sr_otherInfo := sr_otherInfo r |}.
Definition set_sr_additionalSearchInfo (v : OtherInformation) (r : SearchResponse) : SearchResponse :=
  {| sr_referenceId := sr_referenceId r; sr_resultCount := sr_resultCount r;
     sr_numberOfRecordsReturned := sr_numberOfRecordsReturned r;
     sr_nextResultSetPosition := sr_nextResultSetPosition r; sr_searchStatus
     := sr_searchStatus r; sr_records := sr_records r; sr_additionalSearchInfo := v;
     sr_otherInfo := sr_otherInfo r |}.

(** [Z_PresentRequest]. *)
Record PresentRequest : Type := {
  pq_referenceId : option string;
  pq_resultSetId : string;
  pq_resultSetStartPoint : Z;
  pq_numberOfRecordsRequested : Z;
  pq_preferredRecordSyntax : option string;
  pq_recordComposition : option RecordComposition
}.
Definition set_pq_referenceId (v : option string) (r : PresentRequest) : PresentRequest :=
  {| pq_referenceId := v; pq_resultSetId := pq_resultSetId r;
     pq_resultSetStartPoint := pq_resultSetStartPoint r;
     pq_numberOfRecordsRequested := pq_numberOfRecordsRequested r;
     pq_preferredRecordSyntax := pq_preferredRecordSyntax r;
     pq_recordComposition := pq_recordComposition r |}.
Definition set_pq_resultSetId (v : string) (r : PresentRequest) : PresentRequest :=
  {| pq_referenceId := pq_referenceId r; pq_resultSetId := v;
     pq_resultSetStartPoint := pq_resultSetStartPoint r;
     pq_numberOfRecordsRequested := pq_numberOfRecordsRequested r;
     pq_preferredRecordSyntax := pq_preferredRecordSyntax r;
     pq_recordComposition := pq_recordComposition r |}.
Definition set_pq_resultSetStartPoint (v : Z) (r : PresentRequest) : PresentRequest :=
  {| pq_referenceId := pq_referenceId r; pq_resultSetId := pq_resultSetId r;
     pq_resultSetStartPoint := v; pq_numberOfRecordsRequested :=
     pq_numberOfRecordsRequested r; pq_preferredRecordSyntax :=
     pq_preferredRecordSyntax r; pq_recordComposition := pq_recordComposition
     r |}.
Definition set_pq_numberOfRecordsRequested (v : Z) (r : PresentRequest) : PresentRequest :=
  {| pq_referenceId := pq_referenceId r; pq_resultSetId := pq_resultSetId r;
     pq_resultSetStartPoint := pq_resultSetStartPoint r;
     pq_numberOfRecordsRequested := v; pq_preferredRecordSyntax :=
     pq_preferredRecordSyntax r; pq_recordComposition := pq_recordComposition
     r |}.
Definition set_pq_preferredRecordSyntax (v : option string) (r : PresentRequest) : PresentRequest :=
  {| pq_referenceId := pq_referenceId r; pq_resultSetId := pq_resultSetId r;
     pq_resultSetStartPoint := pq_resultSetStartPoint r;
     pq_numberOfRecordsRequested := pq_numberOfRecordsRequested r;
     pq_preferredRecordSyntax := v; pq_recordComposition :=
     pq_recordComposition r |}.
Definition set_pq_recordComposition (v : option RecordComposition) (r : PresentRequest) : PresentRequest :=
  {| pq_referenceId := pq_referenceId r; pq_resultSetId := pq_resultSetId r;
     pq_resultSetStartPoint := pq_resultSetStartPoint r;
     pq_numberOfRecordsRequested := pq_numberOfRecordsRequested r;
     pq_preferredRecordSyntax := pq_preferredRecordSyntax r;
     pq_recordComposition := v |}.

(** [Z_PresentResponse]. *)
Record PresentResponse : Type := {
  pr_referenceId : option string;
  pr_numberOfRecordsReturned : Z;
  pr_nextResultSetPosition : Z;
  pr_presentStatus : Z;
  pr_records : option Records;
  pr_otherInfo : OtherInformation
}.
Definition set_pr_referenceId (v : option string) (r : PresentResponse) : PresentResponse :=
  {| pr_referenceId := v; pr_numberOfRecordsReturned :=
     pr_numberOfRecordsReturned r; pr_nextResultSetPosition :=
     pr_nextResultSetPosition r; pr_presentStatus := pr_presentStatus r;
     pr_records := pr_records r; pr_otherInfo := pr_otherInfo r |}.
Definition set_pr_numberOfRecordsReturned (v : Z) (r : PresentResponse) : PresentResponse :=
  {| pr_referenceId := pr_referenceId r; pr_numberOfRecordsReturned := v;
     pr_nextResultSetPosition := pr_nextResultSetPosition r; pr_presentStatus
     := pr_presentStatus r; pr_records := pr_records r; pr_otherInfo :=
     pr_otherInfo r |}.
Definition set_pr_nextResultSetPosition (v : Z) (r : PresentResponse) : PresentResponse :=
  {| pr_referenceId := pr_referenceId r; pr_numberOfRecordsReturned :=
     pr_numberOfRecordsReturned r; pr_nextResultSetPosition := v;
     pr_presentStatus := pr_presentStatus r; pr_records := pr_records r;
     pr_otherInfo := pr_otherInfo r |}.
Definition set_pr_presentStatus (v : Z) (r : PresentResponse) : PresentResponse :=
  {| pr_referenceId := pr_referenceId r; pr_numberOfRecordsReturned :=
     pr_numberOfRecordsReturned r; pr_nextResultSetPosition :=
     pr_nextResultSetPosition r; pr_presentStatus := v; pr_records :=
     pr_records r; pr_otherInfo := pr_otherInfo r |}.
Definition set_pr_records (v : option Records) (r : PresentResponse) : PresentResponse :=
  {| pr_referenceId := pr_referenceId r; pr_numberOfRecordsReturned :=
     pr_numberOfRecordsReturned r; pr_nextResultSetPosition :=
     pr_nextResultSetPosition r; pr_presentStatus := pr_presentStatus r;
     pr_records := v; pr_otherInfo := pr_otherInfo r |}.
Definition set_pr_otherInfo (v : OtherInformation) (r : PresentResponse) : PresentResponse :=
  {| pr_referenceId := pr_referenceId r; pr_numberOfRecordsReturned :=
     pr_numberOfRecordsReturned r; pr_nextResultSetPosition :=
     pr_nextResultSetPosition r; pr_presentStatus := pr_presentStatus r;
     pr_records := pr_records r; pr_otherInfo := v |}.

(** [Z_ScanRequest]. *)
Record ScanRequest : Type := {
  cq_referenceId : option string;
  cq_databaseNames : list string;
  cq_termListAndStartPoint : string;
  cq_stepSize : option Z;
  cq_numberOfTermsRequested : Z;
  cq_preferredPositionInResponse : option Z
}.
Definition set_cq_referenceId (v : option string) (r : ScanRequest) : ScanRequest :=
  {| cq_referenceId := v; cq_databaseNames := cq_databaseNames r;
     cq_termListAndStartPoint := cq_termListAndStartPoint r; cq_stepSize :=
     cq_stepSize r; cq_numberOfTermsRequested := cq_numberOfTermsRequested r;
     cq_preferredPositionInResponse := cq_preferredPositionInResponse r |}.
Definition set_cq_databaseNames (v : list string) (r : ScanRequest) : ScanRequest :=
  {| cq_referenceId := cq_referenceId r; cq_databaseNames := v;
     cq_termListAndStartPoint := cq_termListAndStartPoint r; cq_stepSize :=
     cq_stepSize r; cq_numberOfTermsRequested := cq_numberOfTermsRequested r;
     cq_preferredPositionInResponse := cq_preferredPositionInResponse r |}.
Definition set_cq_termListAndStartPoint (v : string) (r : ScanRequest) : ScanRequest :=
  {| cq_referenceId := cq_referenceId r; cq_databaseNames := cq_databaseNames
     r; cq_termListAndStartPoint := v; cq_stepSize := cq_stepSize r;
     cq_numberOfTermsRequested := cq_numberOfTermsRequested r;
     cq_preferredPositionInResponse := cq_preferredPositionInResponse r |}.
Definition set_cq_stepSize (v : option Z) (r : ScanRequest) : ScanRequest :=
  {| cq_referenceId := cq_referenceId r; cq_databaseNames := cq_databaseNames
     r; cq_termListAndStartPoint := cq_termListAndStartPoint r; cq_stepSize :=
     v; cq_numberOfTermsRequested := cq_numberOfTermsRequested r;
     cq_preferredPositionInResponse := cq_preferredPositionInResponse r |}.
Definition set_cq_numberOfTermsRequested (v : Z) (r : ScanRequest) : ScanRequest :=
  {| cq_referenceId := cq_referenceId r; cq_databaseNames := cq_databaseNames
     r; cq_termListAndStartPoint := cq_termListAndStartPoint r; cq_stepSize :=
     cq_stepSize r; cq_numberOfTermsRequested := v;
     cq_preferredPositionInResponse := cq_preferredPositionInResponse r |}.
Definition set_cq_preferredPositionInResponse (v : option Z) (r : ScanRequest) : ScanRequest :=
  {| cq_referenceId := cq_referenceId r; cq_databaseNames := cq_databaseNames
     r; cq_termListAndStartPoint := cq_termListAndStartPoint r; cq_stepSize :=
     cq_stepSize r; cq_numberOfTermsRequested := cq_numberOfTermsRequested r;
     cq_preferredPositionInResponse := v |}.

(** [Z_ScanResponse]. *)
Record ScanResponse : Type := {
  cr_referenceId : option string;
  cr_scanStatus : Z;
  cr_stepSize : option Z;
  cr_numberOfEntriesReturned : Z;
  cr_positionOfTerm : option Z;
  cr_entries : option ListEntries
}.
Definition set_cr_referenceId (v : option string) (r : ScanResponse) : ScanResponse :=
  {| cr_referenceId := v; cr_scanStatus := cr_scanStatus r; cr_stepSize :=
     cr_stepSize r; cr_numberOfEntriesReturned := cr_numberOfEntriesReturned
     r; cr_positionOfTerm := cr_positionOfTerm r; cr_entries := cr_entries r
     |}.
Definition set_cr_scanStatus (v : Z) (r : ScanResponse) : ScanResponse :=
  {| cr_referenceId := cr_referenceId r; cr_scanStatus := v; cr_stepSize :=
     cr_stepSize r; cr_numberOfEntriesReturned := cr_numberOfEntriesReturned
     r; cr_positionOfTerm := cr_positionOfTerm r; cr_entries := cr_entries r
     |}.
Definition set_cr_stepSize (v : option Z) (r : ScanResponse) : ScanResponse :=
  {| cr_referenceId := cr_referenceId r; cr_scanStatus := cr_scanStatus r;
     cr_stepSize := v; cr_numberOfEntriesReturned :=
     cr_numberOfEntriesReturned r; cr_positionOfTerm := cr_positionOfTerm r;
     cr_entries := cr_entries r |}.
Definition set_cr_numberOfEntriesReturned (v : Z) (r : ScanResponse) : ScanResponse :=
  {| cr_referenceId := cr_referenceId r; cr_scanStatus := cr_scanStatus r;
     cr_stepSize := cr_stepSize r; cr_numberOfEntriesReturned := v;
     cr_positionOfTerm := cr_positionOfTerm r; cr_entries := cr_entries r |}.
Definition set_cr_positionOfTerm (v : option Z) (r : ScanResponse) : ScanResponse :=
  {| cr_referenceId := cr_referenceId r; cr_scanStatus := cr_scanStatus r;
     cr_stepSize := cr_stepSize r; cr_numberOfEntriesReturned :=
     cr_numberOfEntriesReturned r; cr_positionOfTerm := v; cr_entries :=
     cr_entries r |}.
Definition set_cr_entries (v : option ListEntries) (r : ScanResponse) : ScanResponse :=
  {| cr_referenceId := cr_referenceId r; cr_scanStatus := cr_scanStatus r;
     cr_stepSize := cr_stepSize r; cr_numberOfEntriesReturned :=
     cr_numberOfEntriesReturned r; cr_positionOfTerm := cr_positionOfTerm r;
     cr_entries := v |}.

(** [Z_Close]. *)
Record Close : Type := {
  cl_referenceId : option string;
  cl_closeReason : Z;
  cl_diagnosticInformation : option string
}.
Definition set_cl_referenceId (v : option string) (r : Close) : Close :=
  {| cl_referenceId := v; cl_closeReason := cl_closeReason r;
     cl_diagnosticInformation := cl_diagnosticInformation r |}.
Definition set_cl_closeReason (v : Z) (r : Close) : Close :=
  {| cl_referenceId := cl_referenceId r; cl_closeReason := v;
     cl_diagnosticInformation := cl_diagnosticInformation r |}.
Definition set_cl_diagnosticInformation (v : option string) (r : Close) : Close :=
  {| cl_referenceId := cl_referenceId r; cl_closeReason := cl_closeReason r;
     cl_diagnosticInformation := v |}.

(** A PDU kind of which the code only reads the reference identifier. *)
Record OtherPDU : Type := {
  op_referenceId : option string;
  op_body : string
}.
Definition set_op_referenceId (v : option string) (r : OtherPDU) : OtherPDU :=
  {| op_referenceId := v; op_body := op_body r |}.
Definition set_op_body (v : string) (r : OtherPDU) : OtherPDU :=
  {| op_referenceId := op_referenceId r; op_body := v |}.

(** [Z_APDU]: the kinds that [get_referenceId] knows, and [otherAPDU] for the
    kinds it does not. *)
Inductive APDU : Type :=
  | initRequest (r : InitRequest)
  | initResponse (r : InitResponse)
  | searchRequest (r : SearchRequest)
  | searchResponse (r : SearchResponse)
  | presentRequest (r : PresentRequest)
  | presentResponse (r : PresentResponse)
  | deleteResultSetRequest (r : OtherPDU)
  | deleteResultSetResponse (r : OtherPDU)
  | accessControlRequest (r : OtherPDU)
  | accessControlResponse (r : OtherPDU)
  | resourceControlRequest (r : OtherPDU)
  | resourceControlResponse (r : OtherPDU)
  | triggerResourceControlRequest (r : OtherPDU)
  | resourceReportRequest (r : OtherPDU)
  | resourceReportResponse (r : OtherPDU)
  | scanRequest (r : ScanRequest)
  | scanResponse (r : ScanResponse)
  | sortRequest (r : OtherPDU)
  | sortResponse (r : OtherPDU)
  | segmentRequest (r : OtherPDU)
  | extendedServicesRequest (r : OtherPDU)
  | extendedServicesResponse (r : OtherPDU)
  | close (r : Close)
  | otherAPDU (body : string).

(** ** HTTP *)

(** [Z_HTTP_Header]: name and value pointers may be null. *)
Record HTTP_Header : Type := {
  hh_name : option string;
  hh_value : option string
}.
Record HTTP_Request : Type := {
  hq_method : string;
  hq_version : string;
  hq_path : string;
  hq_headers : list HTTP_Header;
  hq_content : string
}.
Record HTTP_Response : Type := {
  hr_code : Z;
  hr_version : string;
  hr_headers : list HTTP_Header;
  hr_content : string
}.
Definition set_hr_version (v : string) (r : HTTP_Response) : HTTP_Response :=
  {| hr_code := hr_code r; hr_version := v; hr_headers := hr_headers r;
     hr_content := hr_content r |}.
Definition set_hr_headers (v : list HTTP_Header) (r : HTTP_Response) :
    HTTP_Response :=
  {| hr_code := hr_code r; hr_version := hr_version r; hr_headers := v;
     hr_content := hr_content r |}.
Definition set_hr_content (v : string) (r : HTTP_Response) : HTTP_Response :=
  {| hr_code := hr_code r; hr_version := hr_version r;
     hr_headers := hr_headers r; hr_content := v |}.

(** [Z_GDU]. *)
Inductive GDU : Type :=
  | GDU_Z3950 (a : APDU)
  | GDU_HTTP_Request (r : HTTP_Request)
  | GDU_HTTP_Response (r : HTTP_Response).

(** ** Option bits ([ODR_MASK_SET], [ODR_MASK_CLEAR], [ODR_MASK_GET]) *)
Definition MASK_SET (m i : Z) : Z := Z.setbit m i.
Definition MASK_CLEAR (m i : Z) : Z := Z.clearbit m i.
Definition MASK_GET (m i : Z) : bool := Z.testbit m i.

Definition Options_search : Z := 0.
Definition Options_present : Z := 1.
Definition Options_delSet : Z := 2.
Definition Options_scan : Z := 7.
Definition Options_namedResultSets : Z := 14.
Definition Options_stringSchema : Z := 21.
Definition ProtocolVersion_1 : Z := 0.
Definition ProtocolVersion_2 : Z := 1.
Definition ProtocolVersion_3 : Z := 2.

(** ** Protocol constants used by the code *)
Definition BIB1_TEMPORARY_SYSTEM_ERROR : Z := 2.
Definition BIB1_PRESENT_REQUEST_OUT_OF_RANGE : Z := 13.
Definition BIB1_RESULT_SET_EXISTS_AND_REPLACE_INDICATOR_OFF : Z := 21.
Definition BIB1_RESULT_SET_NAMING_UNSUPP : Z := 22.
Definition BIB1_ONLY_A_SINGLE_ELEMENT_SET_NAME_SUPPORTED : Z := 24.
Definition BIB1_SPECIFIED_ELEMENT_SET_NAME_NOT_VALID_FOR_SPECIFIED_ : Z := 25.
Definition BIB1_COMBI_OF_SPECIFIED_DATABASES_UNSUPP : Z := 23.
Definition BIB1_SPECIFIED_RESULT_SET_DOES_NOT_EXIST : Z := 30.
Definition BIB1_ACCESS_TO_SPECIFIED_DATABASE_DENIED : Z := 236.
Definition BIB1_DATABASE_DOES_NOT_EXIST : Z := 235.
Definition BIB1_RECORD_SYNTAX_UNSUPP : Z := 239.
Definition BIB1_INIT_AC_AUTHENTICATION_SYSTEM_ERROR : Z := 1014.
Definition Close_finished : Z := 0.
Definition Close_systemProblem : Z := 2.
Definition Close_protocolError : Z := 6.
Definition Close_lackOfActivity : Z := 7.
Definition Close_peerAbort : Z := 8.
Definition PresentStatus_success : Z := 0.
Definition PresentStatus_failure : Z := 5.
Definition Scan_failure : Z := 6.
Definition SearchResponse_none : Z := 3.
