(* ===== verification/Yaz.v ===== *)
(** * The YAZ toolkit as an interface

    The code calls YAZ (and YAZ++) for encoding, default PDUs, other-info
    access, glob matching and HTTP headers. That code is not part of the
    repository, so it is a class of operations here; [YazLaws] states the
    documented behaviour that some theorems rely on, and [ref_yaz] is a small
    concrete instance that satisfies the laws. *)
From S2P Require Import Prelude Zgdu.

(** Object identifiers of the other-info units that the code uses. *)
Definition oid_userinfo_proxy : string := "1.2.840.10003.10.1000.81.1".
Definition oid_userinfo_client_ip : string := "1.2.840.10003.10.1000.81.3".

Class Yaz : Type := {
  (** [yaz_match_glob(pattern, text)]. *)
  yaz_match_glob : string → string → bool;
  (** [cs_get_host_args(zurl, &args)]: the offset of [args] in [zurl]. *)
  cs_get_host_args : string → option nat;
  (** [yaz_oi_get_string_oid(&oi, oid, cat, delete_flag)]. *)
  yaz_oi_get_string :
    OtherInformation → string → Z → bool → option string * OtherInformation;
  (** [yaz_oi_set_string_oid(&oi, odr, oid, cat, str)]. *)
  yaz_oi_set_string :
    OtherInformation → string → Z → string → OtherInformation;
  (** [zget_APDU(odr, Z_APDU_...)]: PDUs with default values. *)
  zget_initRequest : InitRequest;
  zget_initResponse : InitResponse;
  zget_searchRequest : SearchRequest;
  zget_searchResponse : SearchResponse;
  zget_presentRequest : PresentRequest;
  zget_presentResponse : PresentResponse;
  zget_scanResponse : ScanResponse;
  zget_close : Close;
  odr_prepend : string → option string → option string;
  zget_init_diagnostics : Z → option string → External;
  zget_DefaultDiagFormat : Z → option string → DefaultDiagFormat;
  zget_DiagRec : Z → option string → DiagRec;
  (** [yaz_decode_init_diag(no, r)]: the diagnostic of that number. *)
  yaz_decode_init_diag : Z → InitResponse → option DefaultDiagFormat;
  (** [z_get_HTTP_Response_server(odr, code, details, server, url)]. *)
  z_get_HTTP_Response_server :
    Z → option string → string → string → HTTP_Response;
  z_HTTP_header_add : list HTTP_Header → string → string → list HTTP_Header;
  z_HTTP_header_lookup : list HTTP_Header → string → option string;
  (** [yaz_strncasecmp(s1, s2, n)]. *)
  yaz_strncasecmp : string → string → nat → Z;
  z_HTTP_header_set : list HTTP_Header → string → string → list HTTP_Header;
  (** The value of the header, which is taken out of the list. *)
  z_HTTP_header_remove : list HTTP_Header → string → option string * list HTTP_Header;
  (** Records as externals, [diagbib1_str] and [zget_surrogateDiagRec]. *)
  z_ext_record_sutrs : string → ExternalRecord;
  z_ext_record_usmarc : string → ExternalRecord;
  z_ext_record_xml : string → ExternalRecord;
  (** [z_ext_record_oid(odr, yaz_oid_recsyn_opac, rec, -1)]: the bibliographic
      record and the holdings. *)
  z_ext_record_opac : ExternalRecord → list HoldingsAndCircData → ExternalRecord;
  diagbib1_str : Z → string;
  zget_surrogateDiagRec : option string → Z → option string → NamePlusRecord;
  (** The VERSION macro of the build. *)
  VERSION : string
}.

(** Documented behaviour of the other-info, diagnostics and URL functions. *)
Class YazLaws (Y : Yaz) : Prop := {
  oi_get_empty : ∀ oid cat del, yaz_oi_get_string [] oid cat del = (None, []);
  oi_get_keep : ∀ oi oid cat,
    (yaz_oi_get_string oi oid cat false).2 = oi;
  oi_get_set_eq : ∀ oi oid cat s del,
    (yaz_oi_get_string (yaz_oi_set_string oi oid cat s) oid cat del).1 = Some s;
  oi_get_set_ne : ∀ oi oid cat cat' s,
    cat ≠ cat' →
    (yaz_oi_get_string (yaz_oi_set_string oi oid cat s) oid cat' false).1 =
    (yaz_oi_get_string oi oid cat' false).1;
  (** A deleting read returns what a plain read returns and leaves the other
      categories alone. *)
  oi_get_delete_val : ∀ oi oid cat,
    (yaz_oi_get_string oi oid cat true).1 =
    (yaz_oi_get_string oi oid cat false).1;
  oi_get_delete_ne : ∀ oi oid cat cat',
    cat ≠ cat' →
    (yaz_oi_get_string (yaz_oi_get_string oi oid cat true).2 oid cat' false).1 =
    (yaz_oi_get_string oi oid cat' false).1;
  (** Only finitely many categories are present. *)
  oi_get_finite : ∀ oi oid, ∃ n : nat, ∀ cat,
    Z.of_nat n < cat → (yaz_oi_get_string oi oid cat false).1 = None;
  (** [args] points behind the slash that ends the host part. *)
  host_args_slash : ∀ z off,
    cs_get_host_args z = Some off →
    (0 < off)%nat ∧ (off ≤ String.length z)%nat ∧
    String.get (off - 1) z = Some "/"%char;
  DefaultDiagFormat_condition : ∀ e a,
    condition (zget_DefaultDiagFormat e a) = e;
  default_init_result : ir_result zget_initResponse = true
}.

(** ** A reference instance *)
Module RefYaz.
Definition is_unit (oid : string) (cat : Z) (u : OtherInformationUnit) : bool :=
  match u with
  | OtherInfo_characterInfo o c _ => bool_decide (o = oid) && (c =? cat)
  | _ => false
  end.

Fixpoint oi_find (oid : string) (cat : Z) (oi : OtherInformation) :
    option string :=
  match oi with
  | [] => None
  | OtherInfo_characterInfo o c s :: oi' =>
      if bool_decide (o = oid) && (c =? cat) then Some s
      else oi_find oid cat oi'
  | _ :: oi' => oi_find oid cat oi'
  end.

Fixpoint oi_delete (oid : string) (cat : Z) (oi : OtherInformation) :
    OtherInformation :=
  match oi with
  | [] => []
  | u :: oi' => if is_unit oid cat u then oi' else u :: oi_delete oid cat oi'
  end.

Definition oi_get (oi : OtherInformation) (oid : string) (cat : Z)
    (del : bool) : option string * OtherInformation :=
  (oi_find oid cat oi, if del then oi_delete oid cat oi else oi).

Definition oi_set (oi : OtherInformation) (oid : string) (cat : Z)
    (s : string) : OtherInformation :=
  OtherInfo_characterInfo oid cat s :: oi_delete oid cat oi.

Lemma oi_find_delete_ne oid cat cat' oi :
  cat ≠ cat' → oi_find oid cat' (oi_delete oid cat oi) = oi_find oid cat' oi.
Proof.
  intros Hne. induction oi as [|u oi IH]; simpl; [done|].
  destruct u as [o c s|e|]; simpl; [|done..].
  destruct (bool_decide (o = oid)) eqn:Ho; simpl; rewrite ?Ho; simpl; [|done].
  destruct (Z.eqb_spec c cat); simpl; rewrite ?Ho; simpl.
  - destruct (Z.eqb_spec c cat'); [lia|done].
  - destruct (Z.eqb_spec c cat'); [done|]. apply IH.
Qed.

Lemma oi_find_finite oid oi :
  ∃ n : nat, ∀ cat, Z.of_nat n < cat → oi_find oid cat oi = None.
Proof.
  induction oi as [|u oi [n IH]]; [by exists O|].
  destruct u as [o c s|e|]; [|by exists n..].
  exists (Nat.max n (Z.to_nat c)). intros cat Hc. simpl.
  rewrite (proj2 (Z.eqb_neq c cat)) by lia.
  rewrite andb_false_r. apply IH. lia.
Qed.

Definition host_args (z : string) : option nat :=
  S <$> find_char "/" z.

(** Exact comparison; a pattern ["*"] matches everything. *)
Definition glob (p t : string) : bool :=
  bool_decide (p = "*") || bool_decide (p = t).

Definition lower (s : string) : string :=
  string_map (λ c, let n := nat_of_ascii c in
    if ((65 <=? n) && (n <=? 90))%nat then ascii_of_nat (n + 32) else c) s.

Fixpoint hdr_lookup (l : list HTTP_Header) (n : string) : option string :=
  match l with
  | [] => None
  | h :: l' =>
      if bool_decide (hh_name h = Some n) then hh_value h else hdr_lookup l' n
  end.

Fixpoint hdr_remove (l : list HTTP_Header) (n : string) :
    option string * list HTTP_Header :=
  match l with
  | [] => (None, [])
  | h :: l' =>
      if bool_decide (hh_name h = Some n) then (hh_value h, l')
      else let '(v, r) := hdr_remove l' n in (v, h :: r)
  end.

Fixpoint hdr_set (l : list HTTP_Header) (n v : string) : list HTTP_Header :=
  match l with
  | [] => [{| hh_name := Some n; hh_value := Some v |}]
  | h :: l' =>
      if bool_decide (hh_name h = Some n)
      then {| hh_name := Some n; hh_value := Some v |} :: l' else h :: hdr_set l' n v
  end.

Definition diag (e : Z) (a : option string) : DefaultDiagFormat :=
  {| condition := e; addinfo := v2Addinfo (default "" a) |}.

(** The user-information field that carries one default diagnostic. *)
Definition init_diag (e : Z) (a : option string) : External :=
  External_userInfo1 [OtherInfo_externallyDefinedInfo (Some
    (External_diag1 [DiagnosticFormat_s_defaultDiagRec (diag e a)]))].
Definition decode_diag (no : Z) (r : InitResponse) : option DefaultDiagFormat :=
  match ir_userInformationField r with
  | Some (External_userInfo1 (OtherInfo_externallyDefinedInfo (Some
      (External_diag1 elements)) :: _)) =>
      match elements !! Z.to_nat no with
      | Some (DiagnosticFormat_s_defaultDiagRec d) => Some d
      | _ => None
      end
  | _ => None
  end.
End RefYaz.

#[export] Instance ref_yaz : Yaz := {|
  yaz_match_glob := RefYaz.glob;
  cs_get_host_args := RefYaz.host_args;
  yaz_oi_get_string := RefYaz.oi_get;
  yaz_oi_set_string := RefYaz.oi_set;
  zget_initRequest := {| iq_referenceId := None; iq_protocolVersion := 0;
    iq_options := 0; iq_preferredMessageSize := 67108864;
    iq_maximumRecordSize := 67108864; iq_idAuthentication := None;
    iq_implementationId := None; iq_implementationName := None;
    iq_implementationVersion := None; iq_otherInfo := [] |};
  zget_initResponse := {| ir_referenceId := None; ir_protocolVersion := 0;
    ir_options := 0; ir_preferredMessageSize := 67108864;
    ir_maximumRecordSize := 67108864; ir_result := true;
    ir_implementationId := None; ir_implementationName := None;
    ir_implementationVersion := None; ir_userInformationField := None;
    ir_otherInfo := [] |};
  zget_searchRequest := {| sq_referenceId := None; sq_smallSetUpperBound := 0;
    sq_largeSetLowerBound := 1; sq_mediumSetPresentNumber := 0;
    sq_replaceIndicator := true; sq_resultSetName := "default";
    sq_databaseNames := []; sq_smallSetElementSetNames := None;
    sq_mediumSetElementSetNames := None; sq_preferredRecordSyntax := None;
    sq_query := Query_other ""; sq_additionalSearchInfo := []; sq_otherInfo := [] |};
  zget_searchResponse := {| sr_referenceId := None; sr_resultCount := 0;
    sr_numberOfRecordsReturned := 0; sr_nextResultSetPosition := 0;
    sr_searchStatus := 1; sr_records := None; sr_additionalSearchInfo := [];
    sr_otherInfo := [] |};
  zget_presentRequest := {| pq_referenceId := None; pq_resultSetId := "default";
    pq_resultSetStartPoint := 1; pq_numberOfRecordsRequested := 10;
    pq_preferredRecordSyntax := None; pq_recordComposition := None |};
  zget_presentResponse := {| pr_referenceId := None;
    pr_numberOfRecordsReturned := 0; pr_nextResultSetPosition := 0;
    pr_presentStatus := 0; pr_records := None; pr_otherInfo := [] |};
  zget_scanResponse := {| cr_referenceId := None; cr_scanStatus := 0;
    cr_stepSize := None; cr_numberOfEntriesReturned := 0; cr_positionOfTerm := None;
    cr_entries := None |};
  zget_close := {| cl_referenceId := None; cl_closeReason := 0;
    cl_diagnosticInformation := None |};
  odr_prepend := λ p s,
    Some (match s with Some s => p +:+ "/" +:+ s | None => p end);
  zget_init_diagnostics := RefYaz.init_diag;
  zget_DefaultDiagFormat := RefYaz.diag;
  zget_DiagRec := λ e a, DiagRec_defaultFormat (RefYaz.diag e a);
  yaz_decode_init_diag := RefYaz.decode_diag;
  z_get_HTTP_Response_server := λ code details server url,
    {| hr_code := code; hr_version := "1.1";
       hr_headers := [{| hh_name := Some "Server"; hh_value := Some server |}];
       hr_content := default "" details |};
  z_HTTP_header_add := λ l n v,
    l ++ [{| hh_name := Some n; hh_value := Some v |}];
  z_HTTP_header_lookup := RefYaz.hdr_lookup;
  yaz_strncasecmp := λ s1 s2 n,
    if decide (RefYaz.lower (str_take n s1) = RefYaz.lower (str_take n s2))
    then 0 else 1;
  z_HTTP_header_set := RefYaz.hdr_set;
  z_HTTP_header_remove := RefYaz.hdr_remove;
  z_ext_record_sutrs := External_sutrs (Some recsyn_sutrs) None;
  z_ext_record_usmarc := External_octet (Some recsyn_usmarc) None;
  z_ext_record_xml := External_octet (Some recsyn_xml) None;
  z_ext_record_opac := External_OPAC (Some recsyn_opac) None;
  diagbib1_str := λ e, if e =? 25 then "Specified element set name not valid"
                       else "Unspecified error";
  zget_surrogateDiagRec := λ db e a,
    {| databaseName := db; npr_record :=
         NPR_surrogateDiagnostic (DiagRec_defaultFormat (RefYaz.diag e a)) |};
  VERSION := "1.22"
|}.

#[export] Instance ref_yaz_laws : YazLaws ref_yaz.
Proof.
  split; simpl.
  - intros ?? [|]; done.
  - done.
  - intros oi oid cat s del. unfold RefYaz.oi_get, RefYaz.oi_set; simpl.
    by rewrite bool_decide_eq_true_2, Z.eqb_refl.
  - intros oi oid cat cat' s Hne. unfold RefYaz.oi_get, RefYaz.oi_set; simpl.
    rewrite (proj2 (Z.eqb_neq cat cat')) by done. rewrite andb_false_r.
    by apply RefYaz.oi_find_delete_ne.
  - done.
  - intros. by apply RefYaz.oi_find_delete_ne.
  - intros oi oid. apply RefYaz.oi_find_finite.
  - intros z off. unfold RefYaz.host_args.
    destruct (find_char "/" z) as [i|] eqn:E; simpl; [|done].
    intros [= <-]. apply find_char_get in E.
    pose proof (str_get_Some_lt _ _ _ E).
    repeat split; [lia..|]. by replace (S i - 1)%nat with i by lia.
  - done.
  - done.
Qed.
