(* ===== verification/Xml.v ===== *)
(** * XML configuration trees

    [src/xmlutil.cpp]: the accessors with which the router and the filters
    read their configuration from a libxml2 tree. An [xmlNode *] that walks a
    sibling list is the suffix of that list (null is [[]]). *)
From S2P Require Import Prelude.

(** [xmlElementType], as far as the code tells node types apart. *)
Inductive node_type : Type :=
  | XML_ELEMENT_NODE
  | XML_TEXT_NODE
  | XML_OTHER_NODE.
#[export] Instance node_type_eq_dec : EqDecision node_type.
Proof. solve_decision. Defined.

(** [xmlNode] and [xmlAttr]; the namespace is the [href] of [ns]. *)
Inductive xmlNode : Type :=
  | Node (type : node_type) (name : string) (ns : option string)
      (content : string) (properties : list xmlAttr) (children : list xmlNode)
with xmlAttr : Type :=
  | Attr (name : string) (ns : option string) (children : list xmlNode).

Definition n_type (n : xmlNode) : node_type := let '(Node t _ _ _ _ _) := n in t.
Definition n_name (n : xmlNode) : string := let '(Node _ x _ _ _ _) := n in x.
Definition n_ns (n : xmlNode) : option string := let '(Node _ _ x _ _ _) := n in x.
Definition n_content (n : xmlNode) : string := let '(Node _ _ _ x _ _) := n in x.
Definition n_properties (n : xmlNode) : list xmlAttr :=
  let '(Node _ _ _ _ x _) := n in x.
Definition n_children (n : xmlNode) : list xmlNode :=
  let '(Node _ _ _ _ _ x) := n in x.
Definition a_name (a : xmlAttr) : string := let '(Attr x _ _) := a in x.
Definition a_ns (a : xmlAttr) : option string := let '(Attr _ x _) := a in x.
Definition a_children (a : xmlAttr) : list xmlNode := let '(Attr _ _ x) := a in x.

(** Induction through the list of children. *)
Lemma xmlNode_tree_ind (P : xmlNode → Prop) :
  (∀ ty name ns ct attrs children, Forall P children →
     P (Node ty name ns ct attrs children)) →
  ∀ n, P n.
Proof.
  intros H. fix IH 1. intros [ty name ns ct attrs children]. apply H.
  revert children. fix IHl 1. intros [|c cs]; constructor; [apply IH|apply IHl].
Qed.

Definition metaproxy_ns : string := "http://indexdata.com/metaproxy".
Definition dquote : string := String "034" "".

Module mp_xml.

(** [get_text(node)]: the concatenated text nodes. *)
Fixpoint text_of (l : list xmlNode) : string :=
  match l with
  | [] => ""
  | p :: l' =>
      if decide (n_type p = XML_TEXT_NODE) then n_content p +:+ text_of l'
      else text_of l'
  end.
Definition into_text (ptr : list xmlNode) : list xmlNode :=
  match ptr with
  | p :: _ => if decide (n_type p = XML_TEXT_NODE) then ptr else n_children p
  | [] => []
  end.
Definition get_text (ptr : list xmlNode) : string := text_of (into_text ptr).
Definition get_text_attr (a : xmlAttr) : string := get_text (a_children a).

Definition get_bool (ptr : list xmlNode) (default_value : bool) : bool :=
  match into_text ptr with
  | p :: _ =>
      if decide (n_type p = XML_TEXT_NODE) then
        bool_decide (n_content p = "true") || bool_decide (n_content p = "1")
      else default_value
  | [] => default_value
  end.

(** [atoi]: optional blanks and sign, then digits. A value outside the
    range of [int] is undefined in C; the wrapped value stands for it. *)
Definition digit_of (c : ascii) : option Z :=
  let n := Z.of_nat (nat_of_ascii c) in
  if (48 <=? n) && (n <=? 57) then Some (n - 48) else None.
Fixpoint digits (s : string) (acc : Z) : Z :=
  match s with
  | String c s' =>
      match digit_of c with Some d => digits s' (acc * 10 + d) | None => acc end
  | EmptyString => acc
  end.
Fixpoint atoi (s : string) : Z :=
  match s with
  | String c s' =>
      let n := nat_of_ascii c in
      if (n =? 32)%nat || ((9 <=? n) && (n <=? 13))%nat then atoi s'
      else if decide (c = "-"%char) then int32 (- digits s' 0)
      else if decide (c = "+"%char) then int32 (digits s' 0)
      else int32 (digits s 0)
  | EmptyString => 0
  end.
Definition get_int (ptr : list xmlNode) (default_value : Z) : Z :=
  match into_text ptr with
  | p :: _ =>
      if decide (n_type p = XML_TEXT_NODE) then atoi (n_content p)
      else default_value
  | [] => default_value
  end.

(** [is_attribute] reads [ptr->name] without testing [ptr]. *)
Definition is_attribute (ptr : option xmlAttr) (ns name : string) : outcome bool :=
  match ptr with
  | None => Undef NullDeref
  | Some a =>
      if decide (name = a_name a) then
        if decide (ns = "") then Ok true
        else Ok (bool_decide (a_ns a = Some ns))
      else Ok false
  end.
Definition check_attribute (ptr : option xmlAttr) (ns name : string) :
    outcome bool :=
  is_attribute ptr ns name ≫= λ b : bool,
  if b then Ok true
  else
    let got := "'"
      +:+ match ptr with Some a => a_name a | None => "" end
      +:+ (if decide (ns = "") then ""
           else match ptr with
                | Some a => match a_ns a with Some h => " " +:+ h | None => "" end
                | None => ""
                end)
      +:+ "'" in
    Throw ("Expected XML attribute '" +:+ name +:+ " " +:+ ns +:+ "', not " +:+ got).

Definition is_element (ptr : list xmlNode) (ns name : string) : bool :=
  match ptr with
  | p :: _ =>
      bool_decide (n_type p = XML_ELEMENT_NODE) &&
      bool_decide (n_ns p = Some ns) && bool_decide (n_name p = name)
  | [] => false
  end.
Definition is_element_mp (ptr : list xmlNode) (name : string) : bool :=
  is_element ptr metaproxy_ns name.
Definition check_element_mp (ptr : list xmlNode) (name : string) : outcome bool :=
  if is_element_mp ptr name then Ok true
  else
    let got := "<"
      +:+ match ptr with p :: _ => n_name p | [] => "" end
      +:+ match ptr with
          | p :: _ => match n_ns p with
                      | Some h => " xmlns=" +:+ dquote +:+ h +:+ dquote
                      | None => "" end
          | [] => "" end
      +:+ ">" in
    Throw ("Expected XML element <" +:+ name +:+ " xmlns=" +:+ dquote +:+
           metaproxy_ns +:+ dquote +:+ ">, not " +:+ got).

(** [for (n = ptr->children; n; n = n->next)] up to an element. *)
Fixpoint first_element (l : list xmlNode) : option xmlNode :=
  match l with
  | [] => None
  | n :: l' => if decide (n_type n = XML_ELEMENT_NODE) then Some n else first_element l'
  end.

(** The value the code takes from an attribute: its first text child. *)
Definition attr_value (a : xmlAttr) : string :=
  match a_children a with
  | c :: _ => if decide (n_type c = XML_TEXT_NODE) then n_content c else ""
  | [] => ""
  end.

(** [parse_attr]: [values[i]] receives the attribute called [names[i]]. *)
Fixpoint parse_attrs (attrs : list xmlAttr) (names : list string)
    (element : string) (values : list string) : outcome (list string) :=
  match attrs with
  | [] => Ok values
  | a :: attrs' =>
      match find_first (λ n, bool_decide (a_name a = n)) names with
      | Some (i, _) => parse_attrs attrs' names element (<[i := attr_value a]> values)
      | None =>
          Throw ("Unsupported attribute: '" +:+ a_name a +:+ "' in element '"
                 +:+ element +:+ "'")
      end
  end.
Definition parse_attr (node : list xmlNode) (names : list string) :
    outcome (list string) :=
  let values := replicate (length names) "" in
  match node with
  | [] => Ok values
  | n :: _ => parse_attrs (n_properties n) names (n_name n) values
  end.

Definition get_route_auth (node : list xmlNode) : outcome (string * string) :=
  values ← parse_attr node ["route"; "auth"];
  Ok (nth 0 values "", nth 1 values "").
Definition get_route (node : list xmlNode) : outcome string :=
  values ← parse_attr node ["route"];
  Ok (nth 0 values "").

(** [jump_to], [jump_to_children] and [jump_to_next]; the last two read
    through [node] without a test. *)
Fixpoint jump_to (node : list xmlNode) (ty : node_type) : list xmlNode :=
  match node with
  | [] => []
  | n :: node' => if decide (n_type n = ty) then node else jump_to node' ty
  end.
Definition jump_to_children (node : list xmlNode) (ty : node_type) :
    outcome (list xmlNode) :=
  match node with
  | [] => Undef NullDeref
  | n :: _ => Ok (jump_to (n_children n) ty)
  end.
Definition jump_to_next (node : list xmlNode) (ty : node_type) :
    outcome (list xmlNode) :=
  match node with
  | [] => Undef NullDeref
  | _ :: node' => Ok (jump_to node' ty)
  end.

Definition check_empty (node : list xmlNode) : outcome unit :=
  match node with
  | [] => Ok tt
  | n :: _ =>
      let extra := foldl (λ e a,
        if decide (a_name a = "type") then " of type " +:+ get_text_attr a else e)
        "" (n_properties n) in
      if existsb (λ c, bool_decide (n_type c = XML_ELEMENT_NODE)) (n_children n)
      then Throw ("No child elements allowed inside element " +:+ n_name n +:+ extra)
      else Ok tt
  end.

(** *** What a walk with [jump_to_next] visits *)

(** The element nodes of a sibling list. *)
Definition elements (l : list xmlNode) : list xmlNode :=
  filter (λ n, n_type n = XML_ELEMENT_NODE) l.

Lemma elements_jump l :
  elements l =
  match jump_to l XML_ELEMENT_NODE with [] => [] | n :: l' => n :: elements l' end.
Proof.
  induction l as [|n l IH]; [done|]. unfold elements in *. cbn.
  destruct (decide (n_type n = XML_ELEMENT_NODE)); [done|]. exact IH.
Qed.
Lemma jump_to_element l n l' ty :
  jump_to l ty = n :: l' → n_type n = ty ∧ n ∈ l ∧ ∃ pre, l = pre ++ n :: l'.
Proof.
  induction l as [|m l IH]; cbn; [done|].
  case_decide as Hd; [intros [= -> ->]; split_and!; [done|left|by exists []]|].
  intros (? & ? & pre & ->)%IH. split_and!; [done|by right|by exists (m :: pre)].
Qed.
Lemma parse_attrs_length attrs names el values vs :
  parse_attrs attrs names el values = Ok vs → length vs = length values.
Proof.
  revert values. induction attrs as [|a attrs IH]; intros values; cbn.
  - by intros [= ->].
  - destruct (find_first _ names) as [[i n]|]; [|done].
    intros ->%IH. by rewrite length_insert.
Qed.
End mp_xml.

(** ** Walking the element children

    [for (n = jump_to(l); n; n = jump_to_next(n)) body(n)]. *)
Section iter_elements.
Context {T : Type} (body : xmlNode → M T unit).
Fixpoint iter_elements (l : list xmlNode) : M T unit :=
  match l with
  | [] => mret tt
  | n :: l' =>
      if decide (n_type n = XML_ELEMENT_NODE) then body n ;; iter_elements l'
      else iter_elements l'
  end.
End iter_elements.

(** The walk runs its body on every element, and on nothing else. *)
Lemma iter_elements_par {T} (body : xmlNode → M T unit) (I : T → Prop)
    (Q : xmlNode → Prop) l s :
  (∀ n s, n ∈ l → I s → par (body n) s (λ _ s', I s' ∧ Q n)) →
  I s →
  par (iter_elements body l) s (λ _ s', I s' ∧ Forall Q (mp_xml.elements l)).
Proof.
  revert s. induction l as [|n l IH]; intros s Hb Hs; [by apply par_ret|].
  unfold mp_xml.elements in *. cbn.
  destruct (decide (n_type n = XML_ELEMENT_NODE)).
  - apply par_bind. eapply par_mono; [apply Hb; [by left|done]|].
    intros [] s' [Hs' Hq]. eapply par_mono; [apply IH; [|done]|].
    + intros. apply Hb; [by right|done].
    + intros [] s'' [??]. split; [done|]. by constructor.
  - apply IH; [|done]. intros. apply Hb; [by right|done].
Qed.
