(* ===== verification/Libxml.v ===== *)
(** * Documents, stylesheets, files

    What several filters use of libxml2, libxslt and the file system: a parsed
    document, XSLT, and files that are looked up on a path. *)
From S2P Require Import Prelude Xml.

(** A parsed document: the root element and the nodes behind it. *)
Notation xmlDoc := (list xmlNode).

(** XSLT: stylesheets, their application with parameters, the result as text. *)
Class Xslt : Type := {
  stylesheet : Type;
  xsltParseStylesheetDoc : xmlDoc → option stylesheet;
  xsltApplyStylesheet : stylesheet → option xmlDoc → list (string * string) → option xmlDoc;
  xsltSaveResultToString : stylesheet → xmlDoc → option string
}.
(** Files: [yaz_filepath_resolve(fname, path)], parsed documents, contents. *)
Class Files : Type := {
  yaz_filepath_resolve : string → string → option string;
  xmlParseFile : string → option xmlDoc;
  fopen_read : string → option string
}.

(** ** Small implementations, for examples *)

(** A stylesheet that keeps the document. *)
Definition ref_xslt : Xslt := {|
  stylesheet := unit;
  xsltParseStylesheetDoc _ := Some tt;
  xsltApplyStylesheet _ doc _ := doc;
  xsltSaveResultToString _ doc := Some (mp_xml.get_text doc)
|}.
Definition ref_files : Files := {|
  yaz_filepath_resolve _ _ := None;
  xmlParseFile _ := None;
  fopen_read _ := None
|}.
