(* ===== verification/Core.v ===== *)
(** * Sessions, origins and packages

    [include/metaproxy/session.hpp], [src/origin.cpp] and [src/package.cpp]:
    what travels through a chain of filters. A package carries a session
    (copied by value), the origin of the client, the position in the router,
    a request and a response. *)
From S2P Require Import Prelude Zgdu.

(** ** Session *)
Module Session.
Record t : Type := mk { m_id : Z; m_close : bool }.

#[export] Instance eq_dec : EqDecision t.
Proof. solve_decision. Defined.

(** The constructor draws [++m_global_id], an [unsigned long]. *)
Definition create (m_global_id : Z) : t * Z :=
  let g := wrap_u 64 (m_global_id + 1) in (mk g false, g).
Definition id (s : t) : Z := m_id s.
Definition is_closed (s : t) : bool := m_close s.
Definition close (s : t) : t := mk (m_id s) true.
Definition ltb (s1 s2 : t) : bool := m_id s1 <? m_id s2.
Definition eqb (s1 s2 : t) : bool := m_id s2 =? m_id s1.
End Session.

(** ** session_map

    [std::map<Session, SessionItem>] is keyed by the session identifier,
    since [operator<] compares nothing else. *)
Module SessionMap.
Section session_map.
Context {T : Type}.
Definition create (t : T) (s : Session.t) (m : gmap Z T) : gmap Z T :=
  <[Session.id s := t]> m.
Definition release (s : Session.t) (m : gmap Z T) : gmap Z T :=
  delete (Session.id s) m.
Definition exist (s : Session.t) (m : gmap Z T) : bool :=
  match m !! Session.id s with None => false | Some _ => true end.
End session_map.
End SessionMap.

(** ** std::string helpers: [find], [rfind] and [substr] with a character *)
Fixpoint str_rfind_upto (c : ascii) (s : string) (i : nat) : option nat :=
  match String.get i s with
  | Some a =>
      if decide (a = c) then Some i
      else match i with O => None | S i' => str_rfind_upto c s i' end
  | None => match i with O => None | S i' => str_rfind_upto c s i' end
  end.
Definition str_rfind (c : ascii) (s : string) : option nat :=
  str_rfind_upto c s (String.length s).

(** Decimal digits of a natural number, as [operator<<] prints it. *)
Definition digit (n : Z) : ascii := ascii_of_nat (48 + Z.to_nat (n mod 10)).
Fixpoint print_nat_aux (fuel : nat) (n : Z) (acc : string) : string :=
  match fuel with
  | O => acc
  | S fuel' =>
      let acc' := String (digit n) acc in
      if n <? 10 then acc' else print_nat_aux fuel' (n / 10) acc'
  end.
Definition print_nat (n : Z) : string := print_nat_aux 20 n "".
(** The same for a signed integer of at most 64 bits. *)
Definition print_int (n : Z) : string :=
  if n <? 0 then "-" +:+ print_nat (- n) else print_nat n.

(** ** Origin *)
Module Origin.
Record t : Type := mk {
  m_address : string;
  m_origin_id : Z;      (* unsigned int *)
  m_max_sockets : Z;
  m_custom_session : string
}.

Definition create : t := mk "" 0 0 "".
Definition set_max_sockets (n : Z) (o : t) : t :=
  mk (m_address o) (m_origin_id o) n (m_custom_session o).
Definition get_max_sockets (o : t) : Z := m_max_sockets o.

(** The first call must be given "client bind"; the assertion fails
    otherwise. [unsigned long s] is narrowed to [unsigned int]. *)
Definition set_tcpip_address (addr : string) (s : Z) (o : t) : outcome t :=
  let tmp := m_address o in
  if decide (tmp = "") then
    match find_char " " addr with
    | Some _ => Ok (mk addr (uint32 s) (m_max_sockets o) (m_custom_session o))
    | None => Undef AssertFailed
    end
  else Ok (mk (addr +:+ " " +:+ tmp) (uint32 s) (m_max_sockets o)
              (m_custom_session o)).

Definition set_custom_session (s : string) (o : t) : t :=
  mk (m_address o) (m_origin_id o) (m_max_sockets o) s.

(** First component. *)
Definition get_forward_address (o : t) : string :=
  match find_char " " (m_address o) with
  | Some pos => str_take pos (m_address o)
  | None => m_address o
  end.

(** Second last component. *)
Definition get_address (o : t) : string :=
  let a := m_address o in
  match str_rfind " " a with
  | Some (S p) =>
      let pos2 := S p in
      match str_rfind_upto " " a (pos2 - 1) with
      | Some pos1 => str_take (pos2 - pos1 - 1) (str_drop (pos1 + 1) a)
      | None => str_take pos2 a
      end
  | _ => a
  end.

(** Last component. *)
Definition get_bind_address (o : t) : string :=
  let a := m_address o in
  match str_rfind " " a with
  | Some (S p) => str_drop (S p + 1) a
  | _ => a
  end.

(** [operator<<]. *)
Definition print (o : t) : string :=
  let a := get_forward_address o in
  (if decide (a = "") then "0" else a)
  +:+ ":" +:+ print_nat (m_origin_id o)
  +:+ (if decide (m_custom_session o = "") then ""
       else ":" +:+ m_custom_session o).

(** *** Properties *)

(** A string without blanks. *)
Definition word (s : string) : Prop := find_char " " s = None.

Lemma find_char_app c s t :
  find_char c s = None → find_char c (s +:+ t) =
  (λ i, String.length s + i)%nat <$> find_char c t.
Proof.
  induction s as [|a s IH]; cbn.
  - intros _. rewrite str_app_nil_l. by destruct (find_char c t).
  - case_decide; [done|]. destruct (find_char c s); [done|].
    intros _. rewrite str_app_cons. cbn. rewrite decide_False by done.
    rewrite IH by done. by destruct (find_char c t).
Qed.
Lemma str_drop_app_add s t n :
  str_drop (String.length s + n) (s +:+ t) = str_drop n t.
Proof. induction s; rewrite ?str_app_nil_l, ?str_app_cons; simpl; done. Qed.

Lemma get_app_r s t i :
  String.get (String.length s + i) (s +:+ t) = String.get i t.
Proof. induction s; rewrite ?str_app_nil_l, ?str_app_cons; simpl; done. Qed.
Lemma get_app_l s t i :
  (i < String.length s)%nat → String.get i (s +:+ t) = String.get i s.
Proof.
  revert i. induction s as [|a s IH]; intros i Hi; cbn in Hi; [lia|].
  rewrite str_app_cons. destruct i; simpl; [done|]. apply IH. lia.
Qed.
Lemma get_word c s i : find_char c s = None → String.get i s ≠ Some c.
Proof.
  revert i. induction s as [|a s IH]; intros i; cbn; [done|].
  case_decide; [done|]. destruct (find_char c s) eqn:E; [done|].
  intros _. destruct i; [congruence|]. by apply IH.
Qed.

(** No blank in positions [n .. n+k] hands the search down to [n]. *)
Lemma rfind_skip c s n k :
  (∀ i, (n < i ≤ n + k)%nat → String.get i s ≠ Some c) →
  str_rfind_upto c s (n + k) = str_rfind_upto c s n.
Proof.
  induction k as [|k IH]; intros H; [by rewrite Nat.add_0_r|].
  rewrite Nat.add_succ_r. cbn [str_rfind_upto].
  assert (String.get (S (n + k)) s ≠ Some c) by (apply H; lia).
  destruct (String.get (S (n + k)) s) as [a|]; [rewrite decide_False by congruence|];
    (apply IH; intros; apply H; lia).
Qed.

Lemma rfind_sep s w :
  word w →
  str_rfind " " (s +:+ String " " w) = Some (String.length s).
Proof.
  intros Hw. unfold str_rfind. rewrite str_app_length. cbn [String.length].
  rewrite (rfind_skip _ _ _ (S (String.length w))).
  - assert (Hg : String.get (String.length s) (s +:+ String " " w) =
      Some " "%char).
    { rewrite <- (Nat.add_0_r (String.length s)) at 1. by rewrite get_app_r. }
    destruct (String.length s); cbn; rewrite Hg; by rewrite decide_True.
  - intros i Hi. replace i with (String.length s + S (i - String.length s - 1))%nat by lia.
    rewrite get_app_r. simpl. by apply get_word.
Qed.

Lemma rfind_upto_app c s t k :
  (k < String.length s)%nat →
  str_rfind_upto c (s +:+ t) k = str_rfind_upto c s k.
Proof.
  induction k as [|k IH]; intros Hk; cbn [str_rfind_upto];
    rewrite get_app_l by done; [done|].
  rewrite IH by lia. done.
Qed.
Lemma rfind_upto_top c s :
  (0 < String.length s)%nat →
  str_rfind_upto c s (String.length s - 1) = str_rfind c s.
Proof.
  intros H. unfold str_rfind.
  replace (String.length s) with (String.length s - 1 + 1)%nat at 2 by lia.
  rewrite (rfind_skip _ _ _ 1); [done|].
  intros i Hi Hg. apply str_get_Some_lt in Hg. lia.
Qed.
Lemma rfind_upto_le c s i j : str_rfind_upto c s i = Some j → (j ≤ i)%nat ∧ String.get j s = Some c.
Proof.
  revert j. induction i as [|i IH]; intros j; cbn [str_rfind_upto].
  - destruct (String.get 0 s) as [a|] eqn:E; [|done].
    case_decide; [|done]. intros [= <-]. by subst.
  - destruct (String.get (S i) s) as [a|] eqn:E; [destruct (decide (a = c))|].
    + intros [= <-]. by subst.
    + intros [??]%IH. split; [lia|done].
    + intros [??]%IH. split; [lia|done].
Qed.
Lemma rfind_lt c s j : str_rfind c s = Some j → (j < String.length s)%nat.
Proof. intros [_ H]%rfind_upto_le. by apply str_get_Some_lt in H. Qed.
Lemma str_drop_app_l n s t :
  (n ≤ String.length s)%nat → str_drop n (s +:+ t) = str_drop n s +:+ t.
Proof.
  revert s. induction n as [|n IH]; intros [|c s] Hn; cbn in Hn; try done; [lia|].
  rewrite str_app_cons. cbn. apply IH. lia.
Qed.
Lemma rfind_word c s : find_char c s = None → str_rfind c s = None.
Proof.
  intros Hw. unfold str_rfind. rewrite <- (Nat.add_0_l (String.length s)) at 1.
  rewrite rfind_skip by (intros; by apply get_word).
  cbn. destruct (String.get 0 s) as [a|] eqn:E; [|done].
  case_decide; [|done]. subst. by apply get_word in E.
Qed.
Lemma find_sep s w : word s → find_char " " (s +:+ String " " w) = Some (String.length s).
Proof.
  intros Hs. rewrite find_char_app by done.
  change (find_char " " (String " " w)) with (Some 0%nat). simpl. f_equal. lia.
Qed.
Lemma bind_address_sep s b :
  s ≠ "" → word b →
  ∀ o, m_address o = s +:+ String " " b → get_bind_address o = b.
Proof.
  intros Hs Hb o Ha. unfold get_bind_address. rewrite Ha, rfind_sep by done.
  destruct s as [|c s]; [done|]. cbn [String.length].
  change (S (String.length s)) with (String.length (String c s)).
  by rewrite str_drop_app_add.
Qed.
Lemma address_sep s b :
  s ≠ "" → word b →
  ∀ o, m_address o = s +:+ String " " b →
  get_address o = match str_rfind " " s with
                  | Some i => str_drop (S i) s
                  | None => s
                  end.
Proof.
  intros Hs Hb o Ha. unfold get_address. rewrite Ha, rfind_sep by done.
  assert (Hlen : (0 < String.length s)%nat) by (destruct s; [done|simpl; lia]).
  destruct (String.length s) as [|n] eqn:El; [lia|]. cbn zeta.
  rewrite rfind_upto_app by lia. rewrite <-El, rfind_upto_top by lia.
  destruct (str_rfind " " s) as [i|] eqn:Ei; [|by rewrite str_take_app].
  assert (Hi : (i < String.length s)%nat) by by apply rfind_lt in Ei.
  replace (i + 1)%nat with (S i) by lia.
  replace (String.length s - i - 1)%nat with (String.length (str_drop (S i) s))
    by (rewrite str_drop_length; lia).
  rewrite <-(str_take_app (str_drop (S i) s) (String " " b)) at 2. f_equal.
  by rewrite str_drop_app_l by lia.
Qed.

(** A session's origin is first set to the peer and the address it is
    bound to. From then on [get_address] is the peer and [get_bind_address]
    the bind address, whatever forwarding address is put in front later (from
    X-Forwarded-For), which is what [get_forward_address] then returns. *)
Theorem origin_addresses (client bind : string) (s1 : Z)
    (Hclient : word client) (Hbind : word bind) (Hne : client ≠ "") :
  ∃ o, set_tcpip_address (client +:+ String " " bind) s1 create = Ok o ∧
    get_forward_address o = client ∧ get_address o = client ∧
    get_bind_address o = bind ∧
    ∀ fwd s2, word fwd → ∃ o', set_tcpip_address fwd s2 o = Ok o' ∧
      get_forward_address o' = fwd ∧ get_address o' = client ∧
      get_bind_address o' = bind.
Proof.
  unfold set_tcpip_address at 1. cbn [m_address create].
  rewrite decide_True, find_sep by done.
  eexists. split; [done|]. split_and!.
  - unfold get_forward_address. cbn [m_address]. by rewrite find_sep, str_take_app.
  - erewrite address_sep by done. by rewrite rfind_word.
  - by eapply bind_address_sep.
  - intros fwd s2 Hf. unfold set_tcpip_address. cbn [m_address].
    rewrite decide_False by (destruct client; done).
    eexists. split; [done|].
    assert (Ha : fwd +:+ " " +:+ (client +:+ String " " bind) =
      (fwd +:+ String " " client) +:+ String " " bind)
      by (by rewrite <-str_app_assoc).
    assert (Hs : fwd +:+ String " " client ≠ "") by (by destruct fwd).
    split_and!.
    + unfold get_forward_address. cbn [m_address].
      change (" " +:+ (client +:+ String " " bind)) with
        (String " " (client +:+ String " " bind)).
      by rewrite find_sep, str_take_app.
    + rewrite (address_sep (fwd +:+ String " " client) bind) by (done || exact Ha).
      rewrite rfind_sep by done.
      replace (S (String.length fwd)) with (String.length fwd + 1)%nat by lia.
      by rewrite str_drop_app_add.
    + by eapply (bind_address_sep (fwd +:+ String " " client)).
Qed.
Lemma origin_addresses_witness :
  ∃ o, set_tcpip_address "1.2.3.4 10.0.0.1" 7 create = Ok o ∧
    get_address o = "1.2.3.4".
Proof.
  destruct (origin_addresses "1.2.3.4" "10.0.0.1" 7) as (o & H & _ & Ha & _);
    [reflexivity|reflexivity|discriminate|].
  exists o. split; [exact H|exact Ha].
Defined.
End Origin.

(** ** Package *)

(** What all sessions share: the identifier counter, and the rest of the
    world (network, targets). *)
Record Global (E : Type) : Type := { g_id : Z; g_env : E }.
Arguments g_id {E}. Arguments g_env {E}. Arguments Build_Global {E}.

Record Package (R : Type) : Type := mk_Package {
  p_session : Session.t;
  p_origin : Origin.t;
  p_route_pos : option R;
  p_request : option GDU;
  p_response : option GDU
}.
Arguments mk_Package {R}. Arguments p_session {R}. Arguments p_origin {R}.
Arguments p_route_pos {R}. Arguments p_request {R}. Arguments p_response {R}.

Section package.
Context {R : Type}.
Implicit Types p : Package R.

(** [Package(session, origin)]: no route position, no PDUs. *)
Definition new_Package (s : Session.t) (o : Origin.t) : Package R :=
  mk_Package s o None None None.
Definition set_session (s : Session.t) p : Package R :=
  mk_Package s (p_origin p) (p_route_pos p) (p_request p) (p_response p).
Definition set_route_pos (r : option R) p : Package R :=
  mk_Package (p_session p) (p_origin p) r (p_request p) (p_response p).
Definition set_request (g : option GDU) p : Package R :=
  mk_Package (p_session p) (p_origin p) (p_route_pos p) g (p_response p).
Definition set_response (g : option GDU) p : Package R :=
  mk_Package (p_session p) (p_origin p) (p_route_pos p) (p_request p) g.
(** [package.session().close()]. *)
Definition close_session p : Package R :=
  set_session (Session.close (p_session p)) p.
Definition is_closed p : bool := Session.is_closed (p_session p).

(** [copy_filter]/[copy_route]: clones the route position of [src], which
    must not be null. *)
Definition copy_filter {S} (src dst : Package R) : M S (Package R) :=
  r ← deref (p_route_pos src);
  mret (set_route_pos (Some r) dst).

Lemma copy_filter_ok {S} (src dst : Package R) (pos : R) (w : S) :
  p_route_pos src = Some pos →
  copy_filter src dst w = Ok (set_route_pos (Some pos) dst, w).
Proof. unfold copy_filter. by intros ->. Qed.

(** The request, when it is a Z39.50 PDU. *)
Definition z3950 (g : option GDU) : option APDU :=
  match g with Some (GDU_Z3950 a) => Some a | _ => None end.
End package.

(** *** The log of a package

    [p_logger] is shared by the packages that are copied from one another: it
    is a part of the store, read and written through this interface. *)
Class PackageLog (W : Type) : Type := {
  p_logger : W → option string;
  set_logger : option string → W → W
}.
Section log.
Context {W : Type} `{PackageLog W}.
Definition log_enable : M W unit := modify (set_logger (Some "")).
Definition log_write (buf : string) : M W unit := modify (λ w,
  match p_logger w with
  | Some str => set_logger (Some (str +:+ buf)) w
  | None => w
  end).
(** [log(module, level, fmt, ...)], with the message that is printed; at most
    4065 characters of it are kept. The line for the log of the program is left
    out. *)
Definition package_log (module msg : string) : M W unit :=
  log_write (module +:+ " " +:+ str_take 4065 msg +:+ String "010" "").
(** [log_reset(res)] assigns to [res] if there is a log. *)
Definition log_reset (res : string) : M W string :=
  w ← get;
  match p_logger w with
  | Some str => put (set_logger None w) ;; mret str
  | None => mret res
  end.
End log.
#[export] Instance pair_log (W : Type) : PackageLog (option string * W) :=
  {| p_logger := fst; set_logger := λ l w, (l, w.2) |}.

(** [Session s;] inside a filter. *)
Definition new_session {St E} : M (St * Global E) Session.t := λ w,
  let '(s, g) := Session.create (g_id w.2) in
  Ok (s, (w.1, Build_Global g (g_env w.2))).

(** ** Routers

    [Router] and [RoutePos] of [include/metaproxy/router.hpp]: a router gives
    positions; [pos_move] advances one, naming the next filter if there is
    one. *)
Class Router (Rt R F : Type) : Type := {
  createpos : Rt → option R;
  pos_move : Rt → R → string → outcome (option F * R)
}.

Section package_move.
Context {Rt R F T : Type} `{Router Rt R F}.

(** [Package::move(route)]; [move()] is the empty route. *)
Definition package_move (rt : Rt) (process : F → Package R → M T (Package R))
    (route : string) (p : Package R) : M T (Package R) :=
  match p_route_pos p with
  | None => mret p
  | Some pos =>
      '(f, pos') ← lift_outcome (pos_move rt pos route);
      let p' := set_route_pos (Some pos') p in
      match f with
      | None => mret p'
      | Some f => process f p'
      end
  end.

(** Filters call [move] on the packages they build, so the semantics of a
    whole chain is a recursion through [process], bounded by [fuel]. *)
Fixpoint run (rt : Rt)
    (process : F → (string → Package R → M T (Package R)) →
               Package R → M T (Package R))
    (fuel : nat) (route : string) (p : Package R) : M T (Package R) :=
  match fuel with
  | O => out_of_fuel
  | S n => package_move rt (λ f, process f (run rt process n)) route p
  end.
End package_move.
