(* ===== verification/Router.v ===== *)
(** * Routers and the filter factory

    [src/router_chain.cpp], [src/router_flexml.cpp] and
    [src/factory_filter.cpp]: a chain of filters, a set of named routes read
    from the XML configuration, and the positions that [Package::move]
    advances. *)
From stdpp Require Import sorting.
From S2P Require Import Prelude Zgdu Core Xml.

(** ** What a router promises

    [rest] is the sequence of filters a position has still to visit; [target]
    the one that [move(route)] continues with, if the route exists. *)
Class RouterSpec (Rt R F : Type) `{Router Rt R F} : Type := {
  rest : Rt → R → list F;
  valid : Rt → R → Prop;
  target : Rt → R → string → option (list F);
  target_here : ∀ rt pos, target rt pos "" = Some (rest rt pos);
  createpos_valid : ∀ rt pos, createpos rt = Some pos → valid rt pos;
  move_next : ∀ rt pos route f l,
    valid rt pos → target rt pos route = Some (f :: l) →
    ∃ pos', pos_move rt pos route = Ok (Some f, pos') ∧
            rest rt pos' = l ∧ valid rt pos';
  move_end : ∀ rt pos route,
    valid rt pos → target rt pos route = Some [] →
    ∃ pos', pos_move rt pos route = Ok (None, pos') ∧
            rest rt pos' = [] ∧ valid rt pos';
  move_missing : ∀ rt pos route,
    valid rt pos → target rt pos route = None →
    ∃ pos', pos_move rt pos route = Ok (None, pos')
}.

(** ** RouterChain *)
Module Chain.
Section chain.
Context {F : Type}.

(** [RouterChain::Rep]: the list; [Pos]: an iterator into it, as an offset. *)
Record Rep : Type := mk { m_filter_list : list F }.
Record Pos : Type := mk_Pos { it : nat }.

Definition append (filter : F) (r : Rep) : Rep :=
  mk (m_filter_list r ++ [filter]).
Definition createpos (r : Rep) : option Pos := Some (mk_Pos 0).
Definition clone (p : Pos) : Pos := mk_Pos (it p).
Definition move (r : Rep) (p : Pos) (route : string) : outcome (option F * Pos) :=
  if decide (it p = length (m_filter_list r)) then Ok (None, p)
  else match m_filter_list r !! it p with
       | Some f => Ok (Some f, mk_Pos (S (it p)))
       | None => Undef BadIterator
       end.
(** The filters [start] and [stop] are called on, in order. *)
Definition start (r : Rep) : list F := m_filter_list r.
Definition stop (r : Rep) : list F := m_filter_list r.

#[global] Instance router : Router Rep Pos F :=
  {| Core.createpos := createpos; pos_move := move |}.

#[global] Instance router_spec : RouterSpec Rep Pos F.
Proof.
  refine {| rest := λ rt p, drop (it p) (m_filter_list rt);
            valid := λ rt p, (it p ≤ length (m_filter_list rt))%nat;
            target := λ rt p _, Some (drop (it p) (m_filter_list rt)) |}.
  - done.
  - intros rt pos [= <-]. simpl. lia.
  - intros rt pos route f l Hv [= Hd]. simpl. unfold move.
    assert (Hlt : (it pos < length (m_filter_list rt))%nat).
    { apply (f_equal length) in Hd. rewrite length_drop in Hd. simpl in Hd. lia. }
    rewrite decide_False by lia.
    assert (Hl : m_filter_list rt !! it pos = Some f).
    { rewrite <-(Nat.add_0_r (it pos)), <-lookup_drop, Hd. done. }
    rewrite Hl. eexists. split_and!; [done| |simpl; lia].
    simpl. erewrite drop_S in Hd by done. by simplify_eq.
  - intros rt pos route Hv [= Hd]. simpl. unfold move.
    apply (f_equal length) in Hd. rewrite length_drop in Hd. simpl in Hd.
    rewrite decide_True by lia. eexists. split_and!; [done| |done].
    apply nil_length_inv. rewrite length_drop. lia.
  - done.
Defined.
End chain.
End Chain.

(** ** FactoryFilter *)
Module Factory.
Section factory.
(** What a creator makes; [dlopen] and [dlsym]. A handle of the program
    itself is the empty path. *)
Context {F : Type}.
Context {Handle : Type} (dlopen : string → option Handle).
Context (dlsym : option Handle → string → option F).

Definition CallbackMap : Type := gmap string F.

(** [std::map::insert] keeps an existing entry. *)
Definition add_creator (fi : string) (cfc : F) (m_fcm : CallbackMap) :
    bool * CallbackMap :=
  match m_fcm !! fi with
  | Some _ => (false, m_fcm)
  | None => (true, <[fi := cfc]> m_fcm)
  end.
Definition drop_creator (fi : string) (m_fcm : CallbackMap) : bool * CallbackMap :=
  match m_fcm !! fi with
  | Some _ => (true, delete fi m_fcm)
  | None => (false, m_fcm)
  end.
Definition exist (fi : string) (m_fcm : CallbackMap) : bool :=
  match m_fcm !! fi with None => false | Some _ => true end.
Definition create (fi : string) (m_fcm : CallbackMap) : outcome F :=
  match m_fcm !! fi with
  | None => Throw ("filter type '" +:+ fi +:+ "' not found")
  | Some c => Ok c
  end.
(** [add_creator_dl]: a symbol of the program, else one of a plug-in. *)
Definition add_creator_dl (fi path : string) (m_fcm : CallbackMap) :
    bool * CallbackMap :=
  match m_fcm !! fi with
  | Some _ => (true, m_fcm)
  | None =>
      let full_name := "metaproxy_1_filter_" +:+ fi in
      match dlsym (dlopen "") full_name with
      | Some s => add_creator fi s m_fcm
      | None =>
          match dlopen (path +:+ "/metaproxy_filter_" +:+ fi +:+ ".so") with
          | None => (false, m_fcm)
          | Some dl_handle =>
              match dlsym (Some dl_handle) full_name with
              | None => (false, m_fcm)
              | Some s => add_creator fi s m_fcm
              end
          end
      end
  end.
End factory.
End Factory.

(** ** FactoryStatic

    [src/factory_static.cpp]: the filters that are part of the program. *)
Module FactoryStatic.
Definition types : list string :=
  ["auth_simple"; "backend_test"; "bounce"; "cgi"; "cql_rpn"; "frontend_net"; "http_client";
   "http_file"; "http_rewrite"; "http_rewrite1"; "limit"; "load_balance"; "log"; "multi";
   "present_chunk"; "query_rewrite"; "record_transform"; "sd_remove"; "session_shared"; "sort";
   "sru_z3950"; "template"; "virt_db"; "z3950_client"; "zeerex_explain"; "zoom"]%string.
Section static.
Context {F : Type} (creator : string → F).
Definition add_all (l : list string) (m : Factory.CallbackMap (F := F)) : Factory.CallbackMap :=
  fold_left (λ m t, (Factory.add_creator t (creator t) m).2) l m.
(** The constructor. *)
Definition FactoryStatic : Factory.CallbackMap := add_all types ∅.
Lemma add_all_lookup l m t : add_all l m !! t =
  match m !! t with Some c => Some c | None => if decide (t ∈ l) then Some (creator t) else None end.
Proof.
  revert m. induction l as [|x l IH]; intros m.
  { cbn. rewrite decide_False by set_solver. by destruct (m !! t). }
  change (add_all (x :: l) m) with (add_all l (Factory.add_creator x (creator x) m).2).
  rewrite IH. unfold Factory.add_creator, Factory.CallbackMap in *.
  destruct (decide (t = x)) as [->|Hne].
  - rewrite (decide_True (P := x ∈ x :: l)) by set_solver.
    destruct (m !! x) eqn:Hx; cbn; [by rewrite Hx|]. by rewrite lookup_insert_eq.
  - rewrite (decide_ext (t ∈ x :: l) (t ∈ l)) by set_solver.
    destruct (m !! x) eqn:Hx; cbn; [done|]. by rewrite lookup_insert_ne.
Qed.
(** Each type of the program has its own filter, and no other type has one. *)
Theorem static_types t :
  (t ∈ types → Factory.create t FactoryStatic = Ok (creator t)) ∧
  (t ∉ types → Factory.exist t FactoryStatic = false) ∧ NoDup types.
Proof.
  unfold Factory.create, Factory.exist, FactoryStatic. rewrite add_all_lookup.
  unfold Factory.CallbackMap. rewrite lookup_empty.
  split_and!; [intros; by rewrite decide_True|intros; by rewrite decide_False|].
  by apply (bool_decide_unpack _).
Qed.
End static.
Lemma static_types_witness :
  Factory.create "zoom" (FactoryStatic (λ t, String.length t)) = Ok 4%nat.
Proof. apply (static_types (λ t, String.length t) "zoom"). by apply (bool_decide_unpack _). Defined.
End FactoryStatic.

(** ** RouterFleXML *)
Module FleXML.
Section flexml.
Context {F : Type}.
Context {Handle : Type} (dlopen : string → option Handle).
Context (dlsym : option Handle → string → option F).
(** [configure] of a filter, and [yaz_xml_include_glob] (rewrites the tree;
    [None] is failure). *)
Context (filter_configure : F → xmlNode → bool → option string → outcome F).
Context (xml_include_glob : xmlNode → string → option xmlNode).

(** A filter object ([shared_ptr]): its address and its contents. *)
Record Base : Type := mk_Base { f_addr : nat; f_obj : F }.

(** [RouterFleXML::Rep], with the factory it uses and the allocator. *)
Record Rep : Type := mk {
  m_id_filter_map : gmap string Base;
  m_routes : gmap string (list Base);
  m_start_route : string;
  m_dl_path : string;
  m_factory : gmap string F;
  m_next : nat
}.
Definition set_filter_map m r :=
  mk m (m_routes r) (m_start_route r) (m_dl_path r) (m_factory r) (m_next r).
Definition set_routes m r :=
  mk (m_id_filter_map r) m (m_start_route r) (m_dl_path r) (m_factory r) (m_next r).
Definition set_start_route s r :=
  mk (m_id_filter_map r) (m_routes r) s (m_dl_path r) (m_factory r) (m_next r).
Definition set_dl_path s r :=
  mk (m_id_filter_map r) (m_routes r) (m_start_route r) s (m_factory r) (m_next r).
Definition set_factory m r :=
  mk (m_id_filter_map r) (m_routes r) (m_start_route r) (m_dl_path r) m (m_next r).

Definition check (o : outcome bool) : M Rep unit :=
  lift_outcome (o ≫= λ _, Ok tt).

(** The attribute loops: [known] names are collected, [base] is ignored. *)
Fixpoint read_attrs (known : list string) (err : string)
    (attrs : list xmlAttr) (vs : string → string) : outcome (string → string) :=
  match attrs with
  | [] => Ok vs
  | a :: attrs' =>
      let name := a_name a in
      let value := mp_xml.attr_value a in
      if decide (name ∈ known) then
        read_attrs known err attrs' (λ n, if decide (n = name) then value else vs n)
      else if decide (name = "base") then read_attrs known err attrs' vs
      else Throw (err +:+ name)
  end.

(** Load the type if need be, create the filter and configure it. *)
Definition create_filter (type_value : string) (node : xmlNode)
    (test_only : bool) (file_include_path : option string) : M Rep Base :=
  r ← get;
  (if Factory.exist type_value (m_factory r) then mret tt
   else modify (set_factory
     (Factory.add_creator_dl dlopen dlsym type_value (m_dl_path r) (m_factory r)).2)) ;;
  r ← get;
  f ← lift_outcome (Factory.create type_value (m_factory r));
  f' ← lift_outcome (filter_configure f node test_only file_include_path);
  put (mk (m_id_filter_map r) (m_routes r) (m_start_route r) (m_dl_path r)
          (m_factory r) (S (m_next r))) ;;
  mret (mk_Base (m_next r) f').

Section parse.
Context (test_only : bool) (file_include_path : option string).

Definition parse_filter (node : xmlNode) : M Rep unit :=
  check (mp_xml.check_element_mp [node] "filter") ;;
  vs ← lift_outcome (read_attrs ["id"; "type"]
    "Only attribute id or type allowed in filter element. Got "
    (n_properties node) (λ _, ""));
  fb ← create_filter (vs "type") node test_only file_include_path;
  r ← get;
  match m_id_filter_map r !! vs "id" with
  | Some _ => throw ("Filter " +:+ vs "id" +:+ " already defined")
  | None => modify (set_filter_map (<[vs "id" := fb]> (m_id_filter_map r)))
  end.
(** [node] is the first element of its sibling list. *)
Definition parse_xml_filters (node : list xmlNode) : M Rep unit :=
  iter_elements parse_filter node.

(** [parse_xml_filters1] appends to the route that is being read; the
    function returns what one node adds. *)
Definition route_filter (node : xmlNode) : M Rep (list Base) :=
  check (mp_xml.check_element_mp [node] "filter") ;;
  vs ← lift_outcome (read_attrs ["refid"; "type"]
    "Only attribute 'refid' or 'type' allowed for element 'filter'. Got "
    (n_properties node) (λ _, ""));
  if decide (vs "refid" ≠ "") then
    r ← get;
    match m_id_filter_map r !! vs "refid" with
    | None => throw ("Unknown filter refid " +:+ vs "refid")
    | Some fb => mret [fb]
    end
  else if decide (vs "type" ≠ "") then
    fb ← create_filter (vs "type") node test_only file_include_path;
    mret [fb]
  else mret [].

Fixpoint parse_xml_filters1_node (node : xmlNode) : M Rep (list Base) :=
  if mp_xml.is_element_mp [node] "filters" then
    let '(Node _ _ _ _ _ children) := node in
    (fix walk (l : list xmlNode) : M Rep (list Base) :=
      match l with
      | [] => mret []
      | n :: l' =>
          if decide (n_type n = XML_ELEMENT_NODE) then
            fs ← parse_xml_filters1_node n;
            fs' ← walk l';
            mret (fs ++ fs')
          else walk l'
      end) children
  else route_filter node.
Fixpoint parse_xml_filters1 (l : list xmlNode) : M Rep (list Base) :=
  match l with
  | [] => mret []
  | n :: l' =>
      if decide (n_type n = XML_ELEMENT_NODE) then
        fs ← parse_xml_filters1_node n;
        fs' ← parse_xml_filters1 l';
        mret (fs ++ fs')
      else parse_xml_filters1 l'
  end.

Definition parse_route (node : xmlNode) : M Rep unit :=
  vs ← lift_outcome (read_attrs ["id"]
    "Only attribute 'id' allowed for element 'route'. Got "
    (n_properties node) (λ _, ""));
  route ← parse_xml_filters1 (n_children node);
  r ← get;
  match m_routes r !! vs "id" with
  | Some _ => throw ("Route id='" +:+ vs "id" +:+ "' already exist")
  | None => modify (set_routes (<[vs "id" := route]> (m_routes r)))
  end.
(** The loop ends silently at the first element that is not a route. *)
Fixpoint parse_routes_loop (l : list xmlNode) : M Rep unit :=
  match l with
  | [] => mret tt
  | n :: l' =>
      if decide (n_type n = XML_ELEMENT_NODE) then
        if mp_xml.is_element_mp [n] "route" then
          parse_route n ;; parse_routes_loop l'
        else mret tt
      else parse_routes_loop l'
  end.
Definition parse_xml_routes (node : list xmlNode) : M Rep unit :=
  check (mp_xml.check_element_mp node "route") ;;
  parse_routes_loop node.
End parse.

(** [check_routes_in_filters]. *)
Fixpoint check_route_attrs (attrs : list xmlAttr) : M Rep unit :=
  match attrs with
  | [] => mret tt
  | a :: attrs' =>
      (if decide (a_name a = "route") then
         r ← get;
         match m_routes r !! mp_xml.attr_value a with
         | None => throw ("Route '" +:+ mp_xml.attr_value a +:+ "' does not exist")
         | Some _ => mret tt
         end
       else mret tt) ;;
      check_route_attrs attrs'
  end.
Fixpoint check_routes_in_filter (node : xmlNode) : M Rep unit :=
  let '(Node _ _ _ _ _ children) := node in
  if mp_xml.is_element_mp [node] "filters" then
    iter_elements check_routes_in_filter children
  else if mp_xml.is_element_mp [node] "filter" then
    iter_elements (λ n, check_route_attrs (n_properties n)) children
  else mret tt.
Definition check_routes_in_filters (node : list xmlNode) : M Rep unit :=
  iter_elements check_routes_in_filter node.

(** The second half of [parse_xml_config_dom]: every reference resolves. *)
Definition check_routes (root : xmlNode) : M Rep unit :=
  iter_elements (λ node,
    if mp_xml.is_element_mp [node] "filters" then
      check_routes_in_filters (n_children node)
    else if mp_xml.is_element_mp [node] "routes" then
      iter_elements (λ n,
        if mp_xml.is_element_mp [n] "route" then
          check_routes_in_filters (n_children n)
        else mret tt) (n_children node)
    else mret tt) (n_children root).

Definition parse_sections (root : xmlNode) (test_only : bool)
    (file_include_path : option string) : M Rep unit :=
  check (mp_xml.check_element_mp [root] "metaproxy") ;;
  node ← lift_outcome (mp_xml.jump_to_children [root] XML_ELEMENT_NODE);
  node ← (if mp_xml.is_element_mp node "dlpath" then
            modify (set_dl_path (mp_xml.get_text node)) ;;
            lift_outcome (mp_xml.jump_to_next node XML_ELEMENT_NODE)
          else mret node);
  check (mp_xml.check_element_mp node "start") ;;
  start ← deref (head node);
  r ← get;
  vs ← lift_outcome (read_attrs ["route"]
    "Only attribute route allowed in element 'start'. Got "
    (n_properties start)
    (λ n, if decide (n = "route") then m_start_route r else ""));
  modify (set_start_route (vs "route")) ;;
  node ← lift_outcome (mp_xml.jump_to_next node XML_ELEMENT_NODE);
  node ← (if mp_xml.is_element_mp node "filters" then
            c ← lift_outcome (mp_xml.jump_to_children node XML_ELEMENT_NODE);
            parse_xml_filters test_only file_include_path c ;;
            lift_outcome (mp_xml.jump_to_next node XML_ELEMENT_NODE)
          else mret node);
  check (mp_xml.check_element_mp node "routes") ;;
  c ← lift_outcome (mp_xml.jump_to_children node XML_ELEMENT_NODE);
  parse_xml_routes test_only file_include_path c ;;
  node ← lift_outcome (mp_xml.jump_to_next node XML_ELEMENT_NODE);
  match node with
  | n :: _ => throw ("Unexpected element " +:+ n_name n)
  | [] => mret tt
  end.

Definition parse_xml_config_dom (doc : option (option xmlNode))
    (test_only : bool) (file_include_path : option string) : M Rep unit :=
  match doc with
  | None => throw "Empty XML Document"
  | Some root0 =>
      root ← match file_include_path, root0 with
             | Some path, Some root =>
                 match xml_include_glob root path with
                 | None => throw "YAZ XML Include failed"
                 | Some root' => mret (Some root')
                 end
             | _, _ => mret root0
             end;
      match root with
      | None => check (mp_xml.check_element_mp [] "metaproxy")
      | Some root =>
          parse_sections root test_only file_include_path ;;
          check_routes root ;;
          r ← get;
          match m_routes r !! m_start_route r with
          | None => throw ("Start route '" +:+ m_start_route r +:+ "' not found")
          | Some _ => mret tt
          end
      end
  end.

(** The constructor, with the factory it is given. *)
Definition base (doc : option (option xmlNode)) (factory : gmap string F)
    (test_only : bool) (file_include_path : option string) : outcome Rep :=
  match parse_xml_config_dom doc test_only file_include_path
          (mk ∅ ∅ "start" "" factory 0) with
  | Ok (_, r) => Ok r
  | Throw e => Throw e
  | Undef k => Undef k
  | OutOfFuel => OutOfFuel
  end.
(** The constructor that is given the text of a configuration. *)
Definition RouterFleXML_conf (xmlParseMemory : string → option (option xmlNode))
    (xmlconf : string) (factory : gmap string F) (test_only : bool) : outcome Rep :=
  match xmlParseMemory xmlconf with
  | None => Throw "xmlParseMemory failed"
  | Some doc => base (Some doc) factory test_only None
  end.

(** ** Positions *)

(** [m_route_it] is a key of [m_routes], or [end()] ([None]). *)
Record Pos : Type := mk_Pos { m_route_it : option string; m_filter_it : nat }.

Definition move_here (r : Rep) (p : Pos) : outcome (option Base * Pos) :=
  match m_route_it p with
  | None => Undef BadIterator
  | Some key =>
      match m_routes r !! key with
      | None => Undef BadIterator
      | Some l =>
          if decide (m_filter_it p = length l) then Ok (None, p)
          else match l !! m_filter_it p with
               | Some f => Ok (Some f, mk_Pos (Some key) (S (m_filter_it p)))
               | None => Undef BadIterator
               end
      end
  end.
Definition move (r : Rep) (p : Pos) (route : string) : outcome (option Base * Pos) :=
  if decide (route ≠ "") then
    match m_routes r !! route with
    | None => Ok (None, mk_Pos None (m_filter_it p))
    | Some _ => move_here r (mk_Pos (Some route) 0)
    end
  else move_here r p.
Definition createpos (r : Rep) : option Pos :=
  match m_routes r !! m_start_route r with
  | None => None
  | Some _ => Some (mk_Pos (Some (m_start_route r)) 0)
  end.
Definition clone (p : Pos) : Pos := mk_Pos (m_route_it p) (m_filter_it p).

(** [start] and [stop]: the routes in key order, each with its filters. *)
Definition routes_in_order (r : Rep) : list (string * list Base) :=
  merge_sort (λ a b, Is_true (String.leb a.1 b.1)) (map_to_list (m_routes r)).
Definition start (r : Rep) : list Base := routes_in_order r ≫= snd.
Definition stop (r : Rep) : list Base := routes_in_order r ≫= snd.
#[global] Instance router : Router Rep Pos Base :=
  {| Core.createpos := createpos; pos_move := move |}.

(** A position inside an existing route. *)
Definition in_route (r : Rep) (p : Pos) : Prop :=
  ∃ key l, m_route_it p = Some key ∧ m_routes r !! key = Some l ∧
           (m_filter_it p ≤ length l)%nat.
Definition route_rest (r : Rep) (p : Pos) : list Base :=
  match m_route_it p ≫= (m_routes r !!.) with
  | Some l => drop (m_filter_it p) l
  | None => []
  end.

Lemma move_here_spec r key l i :
  m_routes r !! key = Some l → (i ≤ length l)%nat →
  move_here r (mk_Pos (Some key) i) =
  match drop i l with
  | [] => Ok (None, mk_Pos (Some key) i)
  | f :: _ => Ok (Some f, mk_Pos (Some key) (S i))
  end.
Proof.
  intros Hr Hi. unfold move_here. simpl. rewrite Hr.
  destruct (decide (i = length l)) as [->|Hne]; [by rewrite drop_all|].
  destruct (lookup_lt_is_Some_2 l i) as [f Hf]; [lia|].
  rewrite Hf. by rewrite (drop_S _ _ _ Hf).
Qed.
Lemma drop_cons_length {A} (l : list A) i x l' :
  drop i l = x :: l' → (S i ≤ length l)%nat ∧ drop (S i) l = l'.
Proof.
  intros H. assert (Hl : l !! i = Some x).
  { rewrite <-(Nat.add_0_r i), <-lookup_drop, H. done. }
  split; [by apply lookup_lt_Some in Hl|].
  rewrite (drop_S _ _ _ Hl) in H. congruence.
Qed.

#[global] Instance router_spec : RouterSpec Rep Pos Base.
Proof.
  refine {| rest := route_rest; valid := in_route;
            target := λ rt p route,
              if decide (route ≠ "") then m_routes rt !! route
              else Some (route_rest rt p) |}.
  - done.
  - intros rt pos. simpl. unfold createpos.
    destruct (m_routes rt !! m_start_route rt) as [l|] eqn:E; [|done].
    intros [= <-]. exists (m_start_route rt), l. simpl. split_and!; [done..|lia].
  - intros rt [k i] route f l (key & l' & Hk & Hr & Hi) Ht. simpl in *. subst k.
    unfold move. destruct (decide (route ≠ "")).
    + rewrite Ht, (move_here_spec _ _ (f :: l)) by (done || simpl; lia).
      eexists. split_and!; [done|..].
      * unfold route_rest. simpl. by rewrite Ht.
      * exists route, (f :: l). simpl. split_and!; [done..|lia].
    + injection Ht as Ht. unfold route_rest in Ht. simpl in Ht. rewrite Hr in Ht.
      rewrite (move_here_spec _ _ _ _ Hr Hi), Ht.
      apply drop_cons_length in Ht as [Hlt Hd].
      eexists. split_and!; [done|..].
      * unfold route_rest. simpl. by rewrite Hr.
      * by exists key, l'.
  - intros rt [k i] route (key & l' & Hk & Hr & Hi) Ht. simpl in *. subst k.
    unfold move. destruct (decide (route ≠ "")).
    + rewrite Ht, (move_here_spec _ _ []) by done.
      eexists. split_and!; [done|..].
      * unfold route_rest. simpl. by rewrite Ht.
      * by exists route, [].
    + injection Ht as Ht. pose proof Ht as Ht'. unfold route_rest in Ht'.
      simpl in Ht'. rewrite Hr in Ht'.
      rewrite (move_here_spec _ _ _ _ Hr Hi), Ht'.
      eexists. split_and!; [done|done|]. by exists key, l'.
  - intros rt pos route _ Ht. simpl in *. unfold move.
    destruct (decide (route ≠ "")); [|done]. rewrite Ht. by eexists.
Defined.

(** *** References to routes *)

(** The values of the [route] attributes one level below a filter. *)
Definition attr_refs (n : xmlNode) : list string :=
  mp_xml.attr_value <$> filter (λ a, a_name a = "route") (n_properties n).
Fixpoint filter_refs (node : xmlNode) : list string :=
  let '(Node _ _ _ _ _ children) := node in
  let elems (f : xmlNode → list string) :=
    concat (map (λ n, if decide (n_type n = XML_ELEMENT_NODE) then f n else [])
                children) in
  if mp_xml.is_element_mp [node] "filters" then elems filter_refs
  else if mp_xml.is_element_mp [node] "filter" then elems attr_refs
  else [].
(** Those of a whole document: in [filters] and in every [route]. *)
Definition section_refs (node : xmlNode) : list string :=
  if mp_xml.is_element_mp [node] "filters" then
    mp_xml.elements (n_children node) ≫= filter_refs
  else if mp_xml.is_element_mp [node] "routes" then
    mp_xml.elements (n_children node) ≫= λ n,
      if mp_xml.is_element_mp [n] "route" then
        mp_xml.elements (n_children n) ≫= filter_refs
      else []
  else [].
Definition doc_refs (root : xmlNode) : list string :=
  mp_xml.elements (n_children root) ≫= section_refs.

Section check.
Context (r : Rep).
Let resolves (v : string) : Prop := is_Some (m_routes r !! v).
Let checks {A} (m : M Rep A) (vs : list string) : Prop :=
  par m r (λ _ r', r' = r ∧ Forall resolves vs).

Lemma check_iter (body : xmlNode → M Rep unit) refs l :
  (∀ n, n ∈ l → checks (body n) (refs n)) →
  checks (iter_elements body l) (mp_xml.elements l ≫= refs).
Proof.
  intros Hb. eapply par_mono.
  - apply (iter_elements_par body (λ s, s = r) (λ n, Forall resolves (refs n)));
      [|done]. intros n s Hn ->. apply Hb, Hn.
  - intros [] s' [-> HF]. split; [done|]. by apply Forall_bind.
Qed.
Lemma check_attrs_ok attrs :
  checks (check_route_attrs attrs)
    (mp_xml.attr_value <$> filter (λ a, a_name a = "route") attrs).
Proof.
  induction attrs as [|a attrs IH]; [done|]. cbn.
  apply par_bind. destruct (decide (a_name a = "route")) as [Ha|Ha].
  - apply par_bind. unfold par at 1. cbn.
    destruct (m_routes r !! mp_xml.attr_value a) as [l|] eqn:E; [|done].
    apply par_ret. eapply par_mono; [apply IH|]. intros [] s' [-> HF].
    split; [done|]. constructor; [by unfold resolves; rewrite E|done].
  - apply par_ret. apply IH.
Qed.
Lemma check_node_ok : ∀ node, checks (check_routes_in_filter node) (filter_refs node).
Proof.
  induction node as [ty name ns ct attrs children IH] using xmlNode_tree_ind.
  cbn [check_routes_in_filter filter_refs].
  set (elems := λ f : xmlNode → list string,
    concat (map (λ n, if decide (n_type n = XML_ELEMENT_NODE) then f n else [])
              children)).
  assert (He : ∀ f, elems f = mp_xml.elements children ≫= f).
  { intros f. unfold elems, mp_xml.elements. clear IH elems. induction children as [|c cs IHc]; [done|].
    cbn. rewrite IHc. by destruct (decide (n_type c = XML_ELEMENT_NODE)). }
  change (checks (if mp_xml.is_element_mp [Node ty name ns ct attrs children] "filters"
    then iter_elements check_routes_in_filter children
    else if mp_xml.is_element_mp [Node ty name ns ct attrs children] "filter"
    then iter_elements (λ n, check_route_attrs (n_properties n)) children
    else mret tt)
   (if mp_xml.is_element_mp [Node ty name ns ct attrs children] "filters"
    then elems filter_refs
    else if mp_xml.is_element_mp [Node ty name ns ct attrs children] "filter"
    then elems attr_refs else [])).
  rewrite !He.
  destruct (mp_xml.is_element_mp _ "filters").
  { apply check_iter. by apply Forall_forall. }
  destruct (mp_xml.is_element_mp _ "filter").
  { apply check_iter. intros n _. apply check_attrs_ok. }
  by apply par_ret.
Qed.
Lemma check_filters_ok l :
  checks (check_routes_in_filters l) (mp_xml.elements l ≫= filter_refs).
Proof. apply check_iter. intros. apply check_node_ok. Qed.
Lemma check_routes_ok root : checks (check_routes root) (doc_refs root).
Proof.
  apply check_iter. intros n _. unfold section_refs.
  destruct (mp_xml.is_element_mp [n] "filters"); [apply check_filters_ok|].
  destruct (mp_xml.is_element_mp [n] "routes"); [|by apply par_ret].
  apply check_iter. intros m _.
  destruct (mp_xml.is_element_mp [m] "route"); [apply check_filters_ok|].
  by apply par_ret.
Qed.
End check.
(** The document that is parsed: the root after include expansion. *)
Definition expanded (root : xmlNode) (file_include_path : option string) :
    option xmlNode :=
  match file_include_path with
  | Some path => xml_include_glob root path
  | None => Some root
  end.

(** A configuration that is accepted is closed: the start route exists
    and a new position stands before its first filter, and every route named
    by an attribute one level below a filter element, in the shared filters
    and in every route however deeply nested, is defined. *)
Theorem config_routes_resolve (root : xmlNode) (factory : gmap string F)
    (test_only : bool) (path : option string) (r : Rep)
    (Hok : base (Some (Some root)) factory test_only path = Ok r) :
  ∃ root' l, expanded root path = Some root' ∧
    m_routes r !! m_start_route r = Some l ∧
    createpos r = Some (mk_Pos (Some (m_start_route r)) 0) ∧
    Forall (λ v, is_Some (m_routes r !! v)) (doc_refs root').
Proof.
  unfold base in Hok.
  destruct (parse_xml_config_dom _ _ _ _) as [[[] r0]|?|?|] eqn:E; simplify_eq.
  enough (Hp : par (parse_xml_config_dom (Some (Some root)) test_only path)
    (mk ∅ ∅ "start" "" factory 0) (λ _ r, ∃ root' l, expanded root path = Some root' ∧
      m_routes r !! m_start_route r = Some l ∧
      Forall (λ v, is_Some (m_routes r !! v)) (doc_refs root'))).
  { unfold par in Hp. rewrite E in Hp. destruct Hp as (root' & l & H1 & H2 & H3).
    exists root', l. unfold createpos. by rewrite H2. }
  clear E. unfold parse_xml_config_dom. apply par_bind.
  assert (Hroot : ∀ root', expanded root path = Some root' →
    par (parse_sections root' test_only path ;; check_routes root' ;;
         r ← get;
         match m_routes r !! m_start_route r with
         | None => throw ("Start route '" +:+ m_start_route r +:+ "' not found")
         | Some _ => mret tt
         end) (mk ∅ ∅ "start" "" factory 0) (λ _ r, ∃ root' l,
      expanded root path = Some root' ∧ m_routes r !! m_start_route r = Some l ∧
      Forall (λ v, is_Some (m_routes r !! v)) (doc_refs root'))).
  { intros root' Hx. apply par_bind.
    eapply par_mono with (Q := λ _ _, True).
    { unfold par. by destruct (parse_sections _ _ _ _) as [[]|?|?|]. }
    intros [] s _. apply par_bind. eapply par_mono; [apply check_routes_ok|].
    intros [] s' [-> HF]. apply par_bind. unfold par. cbn.
    destruct (m_routes s !! m_start_route s) as [l|] eqn:El; [|done]. cbn. eauto. }
  destruct path as [path|]; [|apply par_ret; by apply Hroot].
  destruct (xml_include_glob root path) as [root'|] eqn:Ex; [|done].
  apply par_ret. by apply Hroot.
Qed.
End flexml.
End FleXML.

(** ** Filters that pass packages on *)

Section visits.
Context {Rt R F : Type} `{RouterSpec Rt R F}.

(** A filter that notes its call and sends the package to [next]. *)
Definition pass_on (next : string) (f : F)
    (move : string → Package R → M (list F) (Package R)) (p : Package R) :
    M (list F) (Package R) :=
  modify (λ tr, tr ++ [f]) ;; move next p.

(** C14. [Package::move] visits the filters of a route one after the other
    and then returns: whatever router (chain or named routes), a package that
    is moved to a route whose filters all pass it on reaches exactly these
    filters, each once and in order; the nesting never exceeds the number of
    filters, and no iterator is misused. *)
Theorem move_visits_route (rt : Rt) (p : Package R) (pos : R) (route : string)
    (l tr : list F) (fuel : nat)
    (Hpos : p_route_pos p = Some pos) (Hvalid : valid rt pos)
    (Htarget : target rt pos route = Some l) (Hfuel : (length l < fuel)%nat) :
  ∃ pos', rest rt pos' = [] ∧
    run rt (pass_on "") fuel route p tr =
    Ok (set_route_pos (Some pos') p, tr ++ l).
Proof.
  revert fuel p pos route tr Hpos Hvalid Htarget Hfuel.
  induction l as [|f l IH]; intros [|fuel] p pos route tr Hpos Hv Ht Hf;
    simpl in Hf; try lia; cbn [run]; unfold package_move; rewrite Hpos.
  - destruct (move_end _ _ _ Hv Ht) as (pos' & Hm & Hr & _).
    exists pos'. split; [done|]. unfold mbind, M_bind, lift_outcome.
    rewrite Hm. cbn. by rewrite app_nil_r.
  - destruct (move_next _ _ _ _ _ Hv Ht) as (pos1 & Hm & Hr & Hv1).
    destruct (IH fuel (set_route_pos (Some pos1) p) pos1 "" (tr ++ [f]))
      as (pos' & Hr' & Hrun); [done|done|by rewrite target_here, Hr|lia|].
    exists pos'. split; [done|]. unfold mbind, M_bind, lift_outcome.
    rewrite Hm.
    transitivity (run rt (pass_on "") fuel "" (set_route_pos (Some pos1) p) (tr ++ [f]));
      [reflexivity|].
    rewrite Hrun. by rewrite <-app_assoc.
Qed.
End visits.

(** *** Witnesses *)
Section example.
Let el name attrs children := Node XML_ELEMENT_NODE name (Some metaproxy_ns) ""
  attrs children.
Let at_ name v := Attr name None [Node XML_TEXT_NODE "text" None v [] []].
(** Two routes; the first filter refers to the second route. *)
Definition example_conf : xmlNode :=
  el "metaproxy" [] [
    el "start" [at_ "route" "start"] [];
    el "filters" [] [el "filter" [at_ "id" "log"; at_ "type" "log"] []];
    el "routes" [] [
      el "route" [at_ "id" "start"] [
        el "filter" [at_ "refid" "log"] [];
        el "filter" [at_ "type" "virt_db"] [
          el "virtual" [at_ "route" "other"] []]];
      el "route" [at_ "id" "other"] [el "filter" [at_ "refid" "log"] []]]].
Definition example_factory : gmap string nat :=
  <["log" := 1%nat]> (<["virt_db" := 2%nat]> ∅).
Definition example_base : outcome FleXML.Rep :=
  FleXML.base (λ _, None) (λ (_ : option unit) _, None) (λ f _ _ _, Ok f)
    (λ _ _, None) (Some (Some example_conf)) example_factory false None.
Definition example_router : FleXML.Rep :=
  match example_base with Ok r => r | _ => FleXML.mk ∅ ∅ "" "" ∅ 0 end.
End example.

Lemma config_routes_resolve_witness :
  FleXML.doc_refs example_conf = ["other"] ∧
  is_Some (FleXML.m_routes example_router !! "other").
Proof.
  split; [vm_compute; reflexivity|].
  destruct (FleXML.config_routes_resolve (λ _, None) (λ (_ : option unit) _, None)
    (λ f _ _ _, Ok f) (λ _ _, None) example_conf example_factory false None
    example_router) as (root' & l & Hx & _ & _ & HF); [vm_compute; reflexivity|].
  injection Hx as <-.
  apply (proj1 (Forall_forall _ _) HF "other"). vm_compute. left.
Defined.
Lemma move_visits_route_witness :
  ∃ p' (l : list (@FleXML.Base nat)), length l = 2%nat ∧
    run example_router (pass_on "") 3 ""
      (set_route_pos (FleXML.createpos example_router)
        (new_Package (Session.mk 1 false) Origin.create)) [] = Ok (p', l).
Proof.
  destruct (move_visits_route example_router
    (set_route_pos (FleXML.createpos example_router)
        (new_Package (Session.mk 1 false) Origin.create))
    (FleXML.mk_Pos (Some "start") 0) ""
    (FleXML.route_rest example_router (FleXML.mk_Pos (Some "start") 0)) [] 3)
    as (pos' & _ & Hrun).
  - vm_compute. reflexivity.
  - exists "start", (FleXML.route_rest example_router (FleXML.mk_Pos (Some "start") 0)).
    split; [reflexivity|]. split; [vm_compute; reflexivity|].
    vm_compute. lia.
  - reflexivity.
  - vm_compute. lia.
  - do 2 eexists. split; [|exact Hrun]. vm_compute. reflexivity.
Defined.
(** The shared filter of the example, which both routes refer to, is started
    and stopped once for each of them. *)
Example started_per_use :
  FleXML.f_obj <$> FleXML.start example_router = [1; 1; 2]%nat ∧
  length (remove_dups (FleXML.f_addr <$> FleXML.start example_router)) = 2%nat.
Proof. split; vm_compute; reflexivity. Qed.
