(* ===== verification/Util.v ===== *)
(** * Utilities

    [src/util.cpp] (namespace [metaproxy_1::util] and class [odr]): element
    set names, byte and database comparisons, piggyback, virtual-host
    other-info, zurls, and the response PDUs that every filter builds. *)
From S2P Require Import Prelude Zgdu Yaz Core.

(** ** Pure helpers *)

Definition record_composition_to_esn (comp : option RecordComposition) :
    option string :=
  match comp with
  | Some (RecordComp_complex c) =>
      match generic c with
      | Some g =>
          match elementSpec g with
          | Some (ES_elementSetName s) => Some s
          | _ => None
          end
      | None => None
      end
  | Some (RecordComp_simple (ESN_generic s)) => Some s
  | _ => None
  end.

(** The [while] loop walks to the first header whose name is null or equal. *)
Fixpoint http_header_find (header : list HTTP_Header) (name : string) :
    option HTTP_Header :=
  match header with
  | [] => None
  | h :: hs =>
      match hh_name h with
      | Some n => if decide (n = name) then Some h else http_header_find hs name
      | None => Some h
      end
  end.
Definition http_header_value (header : list HTTP_Header) (name : string) :
    string :=
  match http_header_find header name with
  | Some h =>
      match hh_name h, hh_value h with
      | Some n, Some v => if decide (n = name) then v else ""
      | _, _ => ""
      end
  | None => ""
  end.

(** C [memcmp]: the difference of the first differing bytes among [n]. *)
Fixpoint memcmp (b1 b2 : list Z) (n : nat) : Z :=
  match n, b1, b2 with
  | S n', x :: b1', y :: b2' => if x =? y then memcmp b1' b2' n' else x - y
  | _, _, _ => 0
  end.
Definition memcmp2 (buf1 : list Z) (len1 : Z) (buf2 : list Z) (len2 : Z) : Z :=
  let d := len1 - len2 in
  let c := memcmp buf1 buf2 (Z.to_nat (if 0 <? d then len2 else len1)) in
  if 0 <? c then 1
  else if c <? 0 then -1
  else if 0 <? d then 1
  else if d <? 0 then -1
  else 0.

Definition char_normalize (c : ascii) : ascii :=
  let ch := Z.of_nat (nat_of_ascii c) in
  if (65 <=? ch) && (ch <=? 90) then ascii_of_nat (Z.to_nat (ch + 97 - 65))
  else c.
Definition database_name_normalize (s : string) : string :=
  string_map char_normalize s.

Fixpoint match_databases (db1 db2 : list string) : bool :=
  match db1, db2 with
  | d1 :: db1', d2 :: db2' =>
      if decide (database_name_normalize d1 = database_name_normalize d2)
      then match_databases db1' db2'
      else false
  | [], [] => true
  | _, _ => false
  end.

(** ** Piggyback

    [element_set_name] is an optional out parameter: [None] is a null
    pointer, [Some e] the value it points to. Returns the new
    [number_to_present] and [*element_set_name]. *)
Definition piggyback (smallSetUpperBound largeSetLowerBound
      mediumSetPresentNumber : Z)
    (smallSetElementSetNames mediumSetElementSetNames : option string)
    (result_set_size : Z) (element_set_name : option (option string)) :
    Z * option (option string) :=
  if result_set_size <? smallSetUpperBound then
    (result_set_size,
     match element_set_name, smallSetElementSetNames with
     | Some _, Some e => Some (Some e)
     | o, _ => o
     end)
  else if largeSetLowerBound <? result_set_size then
    (0, match element_set_name with Some _ => Some None | None => None end)
  else
    ((if result_set_size <? mediumSetPresentNumber
      then result_set_size else mediumSetPresentNumber),
     match element_set_name, mediumSetElementSetNames with
     | Some _, Some e => Some (Some e)
     | o, _ => o
     end).

(** The overload for [int]: the result is narrowed back to [int]. *)
Definition piggyback_int (smallSetUpperBound largeSetLowerBound
    mediumSetPresentNumber result_set_size : Z) : Z :=
  int32 (piggyback smallSetUpperBound largeSetLowerBound
           mediumSetPresentNumber None None result_set_size None).1.

Definition esn_generic (e : option ElementSetNames) : option string :=
  match e with Some (ESN_generic s) => Some s | _ => None end.

Definition piggyback_sr (sreq : SearchRequest) (result_set_size : Z)
    (element_set_name : option (option string)) : Z * option (option string) :=
  piggyback (sq_smallSetUpperBound sreq) (sq_largeSetLowerBound sreq)
    (sq_mediumSetPresentNumber sreq)
    (esn_generic (sq_smallSetElementSetNames sreq))
    (esn_generic (sq_mediumSetElementSetNames sreq))
    result_set_size element_set_name.

Definition piggyback_to_RecordComposition (result_set_size : Z)
    (sreq : SearchRequest) : option RecordComposition :=
  match (piggyback_sr sreq result_set_size (Some None)).2 with
  | Some (Some e) => Some (RecordComp_simple (ESN_generic e))
  | _ => None
  end.

Definition get_default_diag (r : DefaultDiagFormat) : Z * string :=
  (condition r,
   match addinfo r with v2Addinfo s => s | v3Addinfo s => s end).

(** ** Reference identifiers *)

(** [get_referenceId]: the field, and [None] for the kinds the switch does
    not list. *)
Definition get_referenceId (a : APDU) : option (option string) :=
  match a with
  | initRequest r => Some (iq_referenceId r)
  | initResponse r => Some (ir_referenceId r)
  | searchRequest r => Some (sq_referenceId r)
  | searchResponse r => Some (sr_referenceId r)
  | presentRequest r => Some (pq_referenceId r)
  | presentResponse r => Some (pr_referenceId r)
  | deleteResultSetRequest r | deleteResultSetResponse r
  | accessControlRequest r | accessControlResponse r
  | resourceControlRequest r | resourceControlResponse r
  | triggerResourceControlRequest r
  | resourceReportRequest r | resourceReportResponse r => Some (op_referenceId r)
  | scanRequest r => Some (cq_referenceId r)
  | scanResponse r => Some (cr_referenceId r)
  | sortRequest r | sortResponse r | segmentRequest r
  | extendedServicesRequest r | extendedServicesResponse r =>
      Some (op_referenceId r)
  | close r => Some (cl_referenceId r)
  | otherAPDU _ => None
  end.

(** Assignment through the pointer [get_referenceId] returns. *)
Definition set_referenceId (v : option string) (a : APDU) : option APDU :=
  match a with
  | initRequest r => Some (initRequest (set_iq_referenceId v r))
  | initResponse r => Some (initResponse (set_ir_referenceId v r))
  | searchRequest r => Some (searchRequest (set_sq_referenceId v r))
  | searchResponse r => Some (searchResponse (set_sr_referenceId v r))
  | presentRequest r => Some (presentRequest (set_pq_referenceId v r))
  | presentResponse r => Some (presentResponse (set_pr_referenceId v r))
  | deleteResultSetRequest r => Some (deleteResultSetRequest (set_op_referenceId v r))
  | deleteResultSetResponse r => Some (deleteResultSetResponse (set_op_referenceId v r))
  | accessControlRequest r => Some (accessControlRequest (set_op_referenceId v r))
  | accessControlResponse r => Some (accessControlResponse (set_op_referenceId v r))
  | resourceControlRequest r => Some (resourceControlRequest (set_op_referenceId v r))
  | resourceControlResponse r => Some (resourceControlResponse (set_op_referenceId v r))
  | triggerResourceControlRequest r =>
      Some (triggerResourceControlRequest (set_op_referenceId v r))
  | resourceReportRequest r => Some (resourceReportRequest (set_op_referenceId v r))
  | resourceReportResponse r => Some (resourceReportResponse (set_op_referenceId v r))
  | scanRequest r => Some (scanRequest (set_cq_referenceId v r))
  | scanResponse r => Some (scanResponse (set_cr_referenceId v r))
  | sortRequest r => Some (sortRequest (set_op_referenceId v r))
  | sortResponse r => Some (sortResponse (set_op_referenceId v r))
  | segmentRequest r => Some (segmentRequest (set_op_referenceId v r))
  | extendedServicesRequest r =>
      Some (extendedServicesRequest (set_op_referenceId v r))
  | extendedServicesResponse r =>
      Some (extendedServicesResponse (set_op_referenceId v r))
  | close r => Some (close (set_cl_referenceId v r))
  | otherAPDU _ => None
  end.

(** [transfer_referenceId(odr, src, dst)]: an unlisted [dst] kind is a null
    dereference, an unlisted or absent [src] leaves the field null. *)
Definition transfer_referenceId (src : option APDU) (dst : APDU) :
    outcome APDU :=
  let v := match src with
           | Some a => match get_referenceId a with Some r => r | None => None end
           | None => None
           end in
  match set_referenceId v dst with
  | Some a => Ok a
  | None => Undef NullDeref
  end.

(** The reference identifier a response to [src] must carry. *)
Definition refId_of (src : option APDU) : option string :=
  match src with
  | Some a => match get_referenceId a with Some r => r | None => None end
  | None => None
  end.

(** ** Functions that call YAZ *)
Section yaz.
Context `{Y : Yaz}.

(** *** Virtual hosts *)

(** [for (cat = 1; ; cat++)]; [fuel] bounds the categories tried. *)
Fixpoint get_or_remove_vhost_loop (fuel : nat) (oi : OtherInformation)
    (remove_flag : bool) (cat : Z) (vhosts : list string) :
    outcome (Z * list string * OtherInformation) :=
  match fuel with
  | O => OutOfFuel
  | S fuel' =>
      match yaz_oi_get_string oi oid_userinfo_proxy cat remove_flag with
      | (None, oi') => Ok (cat - 1, vhosts, oi')
      | (Some vhost, oi') =>
          get_or_remove_vhost_loop fuel' oi' remove_flag (cat + 1)
            (vhosts ++ [vhost])
      end
  end.
Definition get_or_remove_vhost_otherinfo (fuel : nat)
    (oi : OtherInformation) (remove_flag : bool) (vhosts : list string) :
    outcome (Z * list string * OtherInformation) :=
  get_or_remove_vhost_loop fuel oi remove_flag 1 vhosts.

Definition get_vhost_otherinfo (fuel : nat) (oi : OtherInformation)
    (vhosts : list string) : outcome (list string) :=
  r ← get_or_remove_vhost_otherinfo fuel oi false vhosts;
  Ok r.1.2.
Definition remove_vhost_otherinfo (fuel : nat) (oi : OtherInformation)
    (vhosts : list string) : outcome (Z * list string * OtherInformation) :=
  get_or_remove_vhost_otherinfo fuel oi true vhosts.

Fixpoint set_vhost_loop (oi : OtherInformation) (cat : Z)
    (vhosts : list string) : OtherInformation :=
  match vhosts with
  | [] => oi
  | v :: vs =>
      set_vhost_loop (yaz_oi_set_string oi oid_userinfo_proxy cat v)
        (cat + 1) vs
  end.
Definition set_vhost_otherinfo (oi : OtherInformation)
    (vhosts : list string) : OtherInformation := set_vhost_loop oi 1 vhosts.
Definition set_vhost_otherinfo_cat (oi : OtherInformation) (vhost : string)
    (cat : Z) : OtherInformation :=
  yaz_oi_set_string oi oid_userinfo_proxy cat vhost.

(** *** Zurls *)

(** The [while (1)] loop over the databases separated by ['+']. *)
Fixpoint split_plus (cp1 : string) (acc : string) : list string :=
  match cp1 with
  | EmptyString => [acc]
  | String c s =>
      if decide (c = "+"%char) then acc :: split_plus s ""
      else split_plus s (acc +:+ String c "")
  end.
Definition split_zurl (zurl : string) : outcome (string * list string) :=
  match cs_get_host_args zurl with
  | Some off =>
      let args := str_drop off zurl in
      if decide (args = "") then Ok (zurl, [])
      else match off with
           | O => Throw "basic_string: length_error"
           | S n => Ok (str_take n zurl, split_plus args "")
           end
  | None => Ok (zurl, [])
  end.
(** Returns the database list to install, or [None] for [false]. *)
Definition set_databases_from_zurl (zurl : string) :
    outcome (option (list string)) :=
  hd ← split_zurl zurl;
  Ok (match hd.2 with [] => None | dbs => Some dbs end).

(** *** Responses *)
Definition get_init_diagnostics (initrs : InitResponse)
    (error_code : Z) (addinfo : string) : Z * string :=
  match yaz_decode_init_diag 0 initrs with
  | Some df => get_default_diag df
  | None => (error_code, addinfo)
  end.

Definition create_close (in_apdu : option APDU) (reason : Z)
    (addinfo : option string) : APDU :=
  let r := set_cl_closeReason reason
             (set_cl_referenceId (refId_of in_apdu) zget_close) in
  close (match addinfo with
         | Some s => set_cl_diagnosticInformation (Some s) r
         | None => r
         end).

Definition create_initResponse (in_apdu : option APDU) (error : Z)
    (addinfo : option string) : InitResponse :=
  let r := set_ir_referenceId (refId_of in_apdu) zget_initResponse in
  let r := if error =? 0 then r else
    set_ir_result false
      (set_ir_userInformationField
         (Some (zget_init_diagnostics error addinfo)) r) in
  set_ir_implementationVersion
    (odr_prepend VERSION (ir_implementationVersion r))
    (set_ir_implementationName
       (odr_prepend "Metaproxy" (ir_implementationName r)) r).

Definition create_searchResponse (in_apdu : option APDU) (error : Z)
    (addinfo : option string) : SearchResponse :=
  let r := set_sr_referenceId (refId_of in_apdu) zget_searchResponse in
  if error =? 0 then r else
    set_sr_records (Some (Records_NSD (zget_DefaultDiagFormat error addinfo)))
      (set_sr_searchStatus 0 r).

Definition create_presentResponse (in_apdu : option APDU) (error : Z)
    (addinfo : option string) : PresentResponse :=
  let r := set_pr_referenceId (refId_of in_apdu) zget_presentResponse in
  if error =? 0 then r else
    set_pr_presentStatus PresentStatus_failure
      (set_pr_records
         (Some (Records_NSD (zget_DefaultDiagFormat error addinfo))) r).

Definition create_scanResponse (in_apdu : option APDU) (error : Z)
    (addinfo : option string) : ScanResponse :=
  let r := set_cr_referenceId (refId_of in_apdu) zget_scanResponse in
  if error =? 0 then
    set_cr_entries
      (Some {| entries := []; nonsurrogateDiagnostics := [] |}) r
  else
    set_cr_entries
      (Some {| entries := [];
               nonsurrogateDiagnostics := [zget_DiagRec error addinfo] |})
      (set_cr_scanStatus Scan_failure r).

(** [create_HTTP_Response_details]: answers, and closes the session unless
    the client keeps the connection alive. *)
Definition create_HTTP_Response_details (session : Session.t)
    (hreq : HTTP_Request) (code : Z) (details : option string) :
    HTTP_Response * Session.t :=
  let v := z_HTTP_header_lookup (hq_headers hreq) "Connection" in
  let '(keepalive, session, response_version) :=
    if decide (hq_version hreq = "1.0") then
      if decide (v = Some "Keep-Alive") then (true, session, "1.0")
      else (false, Session.close session, "1.0")
    else
      if decide (v = Some "close") then (false, Session.close session, "1.1")
      else (true, session, "1.1") in
  let hres := z_get_HTTP_Response_server code details
                ("Metaproxy/" +:+ VERSION)
                "http://www.indexdata.com/metaproxy" in
  let hres := set_hr_version response_version hres in
  (if (keepalive : bool) then
     set_hr_headers
       (z_HTTP_header_add (hr_headers hres) "Connection" "Keep-Alive") hres
   else hres, session).
Definition create_HTTP_Response (session : Session.t) (hreq : HTTP_Request)
    (code : Z) : HTTP_Response * Session.t :=
  create_HTTP_Response_details session hreq code None.

(** [http_response]: the content replaces whatever the server page had. *)
Definition http_response {R} (package : Package R) (content : string)
    (http_code : Z) : outcome (Package R) :=
  match p_request package with
  | Some (GDU_HTTP_Request hreq) =>
      let '(hres, session) :=
        create_HTTP_Response (p_session package) hreq http_code in
      Ok (set_response (Some (GDU_HTTP_Response (set_hr_content content hres)))
            (set_session session package))
  | _ => Undef NullDeref
  end.

(** [http_headers_debug]: a page about a request. A null pointer for a string
    is an exception. *)
Definition std_string (s : option string) : outcome string :=
  match s with Some s => Ok s | None => Throw "basic_string: construction from null is not valid" end.
Definition debug_line (title text : string) : string :=
  "<b>" +:+ title +:+ text +:+ "<br/>" +:+ String "010" "".
Fixpoint debug_headers (l : list HTTP_Header) : outcome string :=
  match l with
  | [] => Ok ""
  | h :: l' =>
      name ← std_string (hh_name h); value ← std_string (hh_value h);
      rest ← debug_headers l';
      Ok (debug_line "Header: </b> <i>" (name +:+ ":</i> " +:+ value) +:+ rest)
  end.
Definition http_headers_debug (http_req : HTTP_Request) : outcome string :=
  let nl := String "010" "" in
  headers ← debug_headers (hq_headers http_req);
  Ok ("<html>" +:+ nl +:+ "<body>" +:+ nl +:+ "<h1>Metaproxy SRUtoZ3950 filter</h1>" +:+ nl +:+
      "<h3>HTTP Info</h3><br/>" +:+ nl +:+ "<p>" +:+ nl +:+
      debug_line "Method: </b> " (hq_method http_req) +:+
      debug_line "Version:</b> " (hq_version http_req) +:+
      debug_line "Path:   </b> " (hq_path http_req) +:+
      debug_line "Content-Type:</b>" (http_header_value (hq_headers http_req) "Content-Type") +:+
      debug_line "Content-Length:</b>" (http_header_value (hq_headers http_req) "Content-Length") +:+
      "</p>" +:+ nl +:+ "<h3>Headers</h3><br/>" +:+ nl +:+ "<p>" +:+ nl +:+ headers +:+
      "</p>" +:+ nl +:+ "</body>" +:+ nl +:+ "</html>" +:+ nl).

(** *** Queries, with the parser and the printer of YAZ *)
Definition pqf (yaz_pqf_parse : string → option (string * RPNStructure)) (sr : SearchRequest)
    (q : string) : option SearchRequest :=
  (λ rpn, set_sq_query (Query_type_1 rpn.1 rpn.2) sr) <$> yaz_pqf_parse (c_str q).
Definition zQueryToString (yaz_rpnquery_to_wrbuf : string * RPNStructure → string)
    (query : option Query) : string :=
  match query with
  | Some (Query_type_1 set rpn) => yaz_rpnquery_to_wrbuf (set, rpn)
  | _ => ""
  end.

(** *** Glob patterns for IP addresses *)

(** [boost::split] on blanks: adjacent blanks give empty items. *)
Fixpoint split_blank (s : string) (acc : string) : list string :=
  match s with
  | EmptyString => [acc]
  | String c s' =>
      if decide (c = " "%char) then acc :: split_blank s' ""
      else split_blank s' (acc +:+ String c "")
  end.
Definition ipv4_mapped (value : string) : bool :=
  (7 <? String.length value)%nat && bool_decide (str_take 7 value = "::ffff:").
Fixpoint match_ip_loop (items : list string) (value : string)
    (ret_value : bool) : bool :=
  match items with
  | [] => ret_value
  | it :: items' =>
      if decide (it = "") then match_ip_loop items' value ret_value
      else if yaz_match_glob it value then true
      else if bool_decide (find_char ":" it = None) && ipv4_mapped value
              && yaz_match_glob it (str_drop 7 value) then true
      else match_ip_loop items' value false
  end.
Definition match_ip (pattern value : string) : bool :=
  match_ip_loop (split_blank pattern "") value true.
End yaz.

(** ** Lemmas *)

(** Lexicographic comparison of byte strings, the reference for [memcmp2]. *)
Fixpoint lex_compare (b1 b2 : list Z) : comparison :=
  match b1, b2 with
  | [], [] => Eq
  | [], _ :: _ => Lt
  | _ :: _, [] => Gt
  | x :: b1', y :: b2' =>
      match x ?= y with Eq => lex_compare b1' b2' | c => c end
  end.
Definition sign_of (c : comparison) : Z :=
  match c with Lt => -1 | Eq => 0 | Gt => 1 end.

Lemma memcmp2_lex b1 b2 :
  memcmp2 b1 (Z.of_nat (length b1)) b2 (Z.of_nat (length b2)) =
  sign_of (lex_compare b1 b2).
Proof.
  assert (Hmin : ∀ b1 b2 : list Z, Z.to_nat (if 0 <? Z.of_nat (length b1) - Z.of_nat (length b2)
      then Z.of_nat (length b2) else Z.of_nat (length b1)) =
      Nat.min (length b1) (length b2)).
  { intros. case_match; rewrite Nat2Z.id; lia. }
  unfold memcmp2. rewrite Hmin. clear Hmin.
  revert b2. induction b1 as [|x b1 IH]; intros [|y b2]; cbn [length Nat.min memcmp lex_compare].
  - done.
  - simpl. repeat case_match; lia.
  - simpl. repeat case_match; lia.
  - rewrite !Nat2Z.inj_succ.
    replace (Z.succ (Z.of_nat (length b1)) - Z.succ (Z.of_nat (length b2)))
      with (Z.of_nat (length b1) - Z.of_nat (length b2)) by lia.
    destruct (Z.compare_spec x y) as [->|Hlt|Hgt].
    + rewrite Z.eqb_refl. apply IH.
    + rewrite (proj2 (Z.eqb_neq x y)) by lia. simpl.
      repeat case_match; lia.
    + rewrite (proj2 (Z.eqb_neq x y)) by lia. simpl.
      repeat case_match; lia.
Qed.

Lemma match_databases_spec db1 db2 :
  match_databases db1 db2 = true ↔
  database_name_normalize <$> db1 = database_name_normalize <$> db2.
Proof.
  revert db2. induction db1 as [|d1 db1 IH]; intros [|d2 db2];
    cbn [match_databases]; rewrite ?fmap_cons; try done.
  case_decide as Hd; [rewrite IH|]; split; intros; try done; congruence.
Qed.

Lemma char_normalize_idemp c : char_normalize (char_normalize c) = char_normalize c.
Proof. destruct c as [[] [] [] [] [] [] [] []]; reflexivity. Qed.
Lemma database_name_normalize_idemp s :
  database_name_normalize (database_name_normalize s) = database_name_normalize s.
Proof.
  unfold database_name_normalize. rewrite string_map_map.
  apply string_map_ext, char_normalize_idemp.
Qed.

(** [match_databases] is an equivalence on database lists. *)
#[export] Instance match_databases_equiv :
  Equivalence (λ d1 d2, match_databases d1 d2 = true).
Proof.
  split; [intros d|intros d1 d2|intros d1 d2 d3]; rewrite ?match_databases_spec.
  - done.
  - by intros ->.
  - by intros -> ->.
Qed.

(** *** [transfer_referenceId] *)
Lemma transfer_close src r :
  transfer_referenceId src (close r) =
  Ok (close (set_cl_referenceId (refId_of src) r)).
Proof. done. Qed.

(** *** Virtual hosts *)
Section vhosts.
Context `{Y : Yaz} `{!YazLaws Y}.

(** The category-wise view of the proxy other-info. *)
Definition proxy_at (oi : OtherInformation) (cat : Z) : option string :=
  (yaz_oi_get_string oi oid_userinfo_proxy cat false).1.

(** [vs] are exactly the values from category [cat] up to the first gap. *)
Fixpoint proxy_run (oi : OtherInformation) (cat : Z) (vs : list string) : Prop :=
  match vs with
  | [] => proxy_at oi cat = None
  | v :: vs' => proxy_at oi cat = Some v ∧ proxy_run oi (cat + 1) vs'
  end.

Lemma get_val oi cat rem :
  (yaz_oi_get_string oi oid_userinfo_proxy cat rem).1 = proxy_at oi cat.
Proof. destruct rem; [apply oi_get_delete_val|done]. Qed.

Lemma proxy_at_get_ne oi cat cat' rem :
  cat ≠ cat' →
  proxy_at (yaz_oi_get_string oi oid_userinfo_proxy cat rem).2 cat' =
  proxy_at oi cat'.
Proof.
  intros. destruct rem; [by apply oi_get_delete_ne|].
  unfold proxy_at. by rewrite oi_get_keep.
Qed.

Lemma proxy_run_ext oi oi' cat vs :
  (∀ c, cat ≤ c → proxy_at oi' c = proxy_at oi c) →
  proxy_run oi cat vs → proxy_run oi' cat vs.
Proof.
  revert cat. induction vs as [|v vs IH]; intros cat Hext; simpl.
  - by rewrite Hext by lia.
  - rewrite Hext by lia. intros [-> Hrun]. split; [done|].
    apply IH; [|done]. intros. apply Hext. lia.
Qed.

Lemma vhost_loop_run fuel oi rem cat acc vs :
  proxy_run oi cat vs →
  (length vs < fuel)%nat →
  ∃ oi', get_or_remove_vhost_loop fuel oi rem cat acc =
         Ok (cat + Z.of_nat (length vs) - 1, acc ++ vs, oi') ∧
         (∀ c, c < cat → proxy_at oi' c = proxy_at oi c).
Proof.
  revert fuel oi cat acc. induction vs as [|v vs IH];
    intros [|fuel] oi cat acc Hrun Hf; simpl in *; try lia.
  - destruct (yaz_oi_get_string oi oid_userinfo_proxy cat rem) as [o oi'] eqn:E.
    pose proof (get_val oi cat rem) as Hv. rewrite E in Hv. simpl in Hv.
    rewrite Hrun in Hv. subst o. eexists. split; [by rewrite Z.add_0_r, app_nil_r|].
    intros c Hc. pose proof (proxy_at_get_ne oi cat c rem ltac:(lia)) as H.
    by rewrite E in H.
  - destruct Hrun as [Hv Hrun].
    destruct (yaz_oi_get_string oi oid_userinfo_proxy cat rem) as [o oi'] eqn:E.
    pose proof (get_val oi cat rem) as Hv'. rewrite E in Hv'. simpl in Hv'.
    rewrite Hv in Hv'. subst o.
    assert (Hne : ∀ c, cat ≠ c → proxy_at oi' c = proxy_at oi c).
    { intros c Hc. pose proof (proxy_at_get_ne oi cat c rem Hc) as H. by rewrite E in H. }
    destruct (IH fuel oi' (cat + 1) (acc ++ [v])) as (oi'' & Heq & Hc); [|lia|].
    + eapply proxy_run_ext; [|done]. intros. apply Hne. lia.
    + exists oi''. rewrite Heq, <- app_assoc. split; [do 3 f_equal; lia|].
      intros c Hlt. rewrite Hc by lia. apply Hne. lia.
Qed.

Lemma proxy_run_exists oi cat n :
  (∀ c, Z.of_nat n + cat <= c → proxy_at oi c = None) →
  ∃ vs, proxy_run oi cat vs ∧ (length vs ≤ n)%nat.
Proof.
  revert cat. induction n as [|n IH]; intros cat Hn.
  - exists []. split; [apply Hn; lia|done].
  - destruct (proxy_at oi cat) as [v|] eqn:E.
    + destruct (IH (cat + 1)) as (vs & Hrun & Hlen); [intros; apply Hn; lia|].
      exists (v :: vs). split; [done|]. simpl. lia.
    + exists []. split; [done|]. simpl. lia.
Qed.

Lemma set_vhost_loop_below oi cat vs c :
  c < cat → proxy_at (set_vhost_loop oi cat vs) c = proxy_at oi c.
Proof.
  revert oi cat. induction vs as [|v vs IH]; intros oi cat Hc; simpl; [done|].
  rewrite IH by lia. apply oi_get_set_ne. lia.
Qed.

Lemma set_vhost_loop_run oi cat vs :
  proxy_at oi (cat + Z.of_nat (length vs)) = None →
  proxy_run (set_vhost_loop oi cat vs) cat vs.
Proof.
  revert oi cat. induction vs as [|v vs IH]; intros oi cat Hend;
    cbn [length set_vhost_loop proxy_run] in *.
  - by rewrite Z.add_0_r in Hend.
  - split.
    + rewrite set_vhost_loop_below by lia. apply oi_get_set_eq.
    + apply IH. rewrite <- Hend. unfold proxy_at.
      rewrite (oi_get_set_ne oi _ cat (cat + 1 + Z.of_nat (length vs))) by lia.
      do 2 f_equal. lia.
Qed.

(** Virtual hosts written by [set_vhost_otherinfo] are read back, in
    order, by [get_vhost_otherinfo] and by [remove_vhost_otherinfo], which
    also counts them; any bound above their number is enough. *)
Theorem vhost_roundtrip vhosts fuel :
  (length vhosts < fuel)%nat →
  let oi := set_vhost_otherinfo [] vhosts in
  get_vhost_otherinfo fuel oi [] = Ok vhosts ∧
  ∃ oi', remove_vhost_otherinfo fuel oi [] =
         Ok (Z.of_nat (length vhosts), vhosts, oi').
Proof.
  intros Hf oi.
  assert (Hrun : proxy_run oi 1 vhosts).
  { apply set_vhost_loop_run. unfold proxy_at. by rewrite oi_get_empty. }
  unfold get_vhost_otherinfo, remove_vhost_otherinfo,
    get_or_remove_vhost_otherinfo.
  destruct (vhost_loop_run fuel oi false 1 [] vhosts Hrun Hf) as (? & -> & _).
  destruct (vhost_loop_run fuel oi true 1 [] vhosts Hrun Hf) as (oi' & -> & _).
  split; [done|]. exists oi'. do 3 f_equal. lia.
Qed.

(** The unbounded category loop of the code stops on every other-info. *)
Lemma vhost_terminates oi rem :
  ∃ fuel r, ∀ fuel', (fuel ≤ fuel')%nat →
    get_or_remove_vhost_otherinfo fuel' oi rem [] = Ok r.
Proof.
  destruct (oi_get_finite oi oid_userinfo_proxy) as [n Hn].
  destruct (proxy_run_exists oi 1 n) as (vs & Hrun & Hlen).
  { intros c Hc. apply Hn. lia. }
  destruct (vhost_loop_run (S (length vs)) oi rem 1 [] vs Hrun) as (oi' & E & _); [lia|].
  exists (S (length vs)), (1 + Z.of_nat (length vs) - 1, vs, oi').
  intros fuel' Hf. unfold get_or_remove_vhost_otherinfo.
  (* more fuel gives the same run *)
  assert (Hmono : ∀ k f oi cat acc r,
    get_or_remove_vhost_loop f oi rem cat acc = Ok r →
    get_or_remove_vhost_loop (f + k) oi rem cat acc = Ok r).
  { clear. intros k. induction f as [|f IH]; simpl; [done|]. intros oi cat acc r.
    destruct (yaz_oi_get_string oi oid_userinfo_proxy cat rem) as [[v|] oi']; eauto. }
  replace fuel' with (S (length vs) + (fuel' - S (length vs)))%nat by lia.
  by apply Hmono.
Qed.
End vhosts.

Lemma vhost_roundtrip_witness :
  get_vhost_otherinfo (Y := ref_yaz) 9
    (set_vhost_otherinfo (Y := ref_yaz) [] ["a"; "b/x"]%string) [] =
  Ok ["a"; "b/x"]%string.
Proof.
  apply (vhost_roundtrip (Y := ref_yaz) ["a"; "b/x"]%string 9). simpl. lia.
Defined.

(** *** Zurls *)
Fixpoint join_plus (l : list string) : string :=
  match l with
  | [] => ""
  | [s] => s
  | s :: l' => s +:+ "+" +:+ join_plus l'
  end.

Lemma split_plus_cons s acc : ∃ d ds, split_plus s acc = d :: ds.
Proof.
  revert acc. induction s as [|c s IH]; intros acc; cbn; [eauto|].
  case_decide; eauto.
Qed.
Lemma join_plus_cons s l : l ≠ [] → join_plus (s :: l) = s +:+ "+" +:+ join_plus l.
Proof. by destruct l. Qed.
Lemma split_plus_join s acc : join_plus (split_plus s acc) = acc +:+ s.
Proof.
  revert acc. induction s as [|c s IH]; intros acc; cbn [split_plus].
  - by rewrite str_app_nil_r.
  - case_decide as Hc.
    + subst c. destruct (split_plus_cons s "") as (d & ds & E).
      rewrite join_plus_cons by (rewrite E; done). by rewrite IH.
    + by rewrite IH, <- str_app_assoc.
Qed.

Definition no_plus (s : string) : Prop := find_char "+" s = None.
Lemma no_plus_snoc s c : no_plus s → c ≠ "+"%char → no_plus (s +:+ String c "").
Proof.
  unfold no_plus. intros Hs Hc. rewrite Origin.find_char_app by done.
  cbn. by rewrite decide_False.
Qed.
Lemma split_plus_no_plus s acc : no_plus acc → Forall no_plus (split_plus s acc).
Proof.
  revert acc. induction s as [|c s IH]; intros acc Hacc; cbn [split_plus].
  - by constructor.
  - case_decide.
    + constructor; [done|]. by apply IH.
    + apply IH. by apply no_plus_snoc.
Qed.

Lemma str_take_drop_get n s c :
  String.get n s = Some c →
  str_take n s +:+ String c (str_drop (S n) s) = s.
Proof. intros H. rewrite <- (str_drop_get n s c H). apply str_take_drop. Qed.

Section zurl.
Context `{Y : Yaz} `{!YazLaws Y}.

Lemma split_zurl_spec zurl :
  ∃ host db, split_zurl zurl = Ok (host, db) ∧ Forall no_plus db ∧
    (db = [] ∧ host = zurl ∨
     db ≠ [] ∧ host +:+ "/" +:+ join_plus db = zurl).
Proof.
  unfold split_zurl. destruct (cs_get_host_args zurl) as [off|] eqn:E.
  2: { exists zurl, []. eauto. }
  case_decide as Ha; [exists zurl, []; eauto|].
  apply host_args_slash in E as (Hpos & Hle & Hget).
  destruct off as [|n]; [lia|].
  exists (str_take n zurl), (split_plus (str_drop (S n) zurl) "").
  split; [done|]. split; [by apply split_plus_no_plus|]. right. split.
  - destruct (split_plus_cons (str_drop (S n) zurl) "") as (? & ? & ->). done.
  - rewrite split_plus_join. replace (S n - 1)%nat with n in Hget by lia.
    apply str_take_drop_get, Hget.
Qed.

(** [split_zurl] loses nothing and splits completely: without a
    database part the host is the zurl; otherwise host, slash and the
    databases joined by plus signs give the zurl back, there is at least
    one database and none contains a plus sign. It never throws. *)
Theorem split_zurl_roundtrip zurl :
  ∃ host db, split_zurl zurl = Ok (host, db) ∧ Forall no_plus db ∧
    (db = [] ∧ host = zurl ∨
     db ≠ [] ∧ host +:+ "/" +:+ join_plus db = zurl).
Proof. apply split_zurl_spec. Qed.

(** The databases installed by [set_databases_from_zurl]. *)
Lemma set_databases_from_zurl_spec zurl :
  ∃ o, set_databases_from_zurl zurl = Ok o ∧ o ≠ Some [].
Proof.
  unfold set_databases_from_zurl.
  destruct (split_zurl_spec zurl) as (h & db & -> & _).
  exists (match db with [] => None | _ => Some db end).
  split; [by destruct db|]. by destruct db.
Qed.
End zurl.

Lemma split_zurl_roundtrip_witness :
  ∃ host db, split_zurl (Y := ref_yaz) "h:210/a+b" = Ok (host, db) ∧
    Forall no_plus db ∧
    (db = [] ∧ host = "h:210/a+b" ∨
     db ≠ [] ∧ host +:+ "/" +:+ join_plus db = "h:210/a+b").
Proof. apply (split_zurl_roundtrip (Y := ref_yaz) "h:210/a+b"). Defined.

(** *** HTTP connection handling *)
Section http.
Context `{Y : Yaz}.

(** The client asks for the connection to stay open: explicitly in
    HTTP/1.0, by default afterwards. *)
Definition wants_keepalive (hreq : HTTP_Request) : bool :=
  let v := z_HTTP_header_lookup (hq_headers hreq) "Connection" in
  if decide (hq_version hreq = "1.0") then bool_decide (v = Some "Keep-Alive")
  else negb (bool_decide (v = Some "close")).

(** The Keep-Alive header is announced exactly when the session stays
    open: the session returned is closed iff it was closed before or the
    client does not keep the connection, and the response version is 1.0
    for a 1.0 request and 1.1 otherwise. *)
Theorem http_keepalive_iff_open session hreq code details :
  let '(hres, session') :=
    create_HTTP_Response_details session hreq code details in
  let page := z_get_HTTP_Response_server code details
                ("Metaproxy/" +:+ VERSION)
                "http://www.indexdata.com/metaproxy" in
  Session.id session' = Session.id session ∧
  Session.is_closed session' =
    Session.is_closed session || negb (wants_keepalive hreq) ∧
  hr_headers hres =
    (if wants_keepalive hreq
     then z_HTTP_header_add (hr_headers page) "Connection" "Keep-Alive"
     else hr_headers page) ∧
  hr_version hres = (if decide (hq_version hreq = "1.0") then "1.0" else "1.1").
Proof.
  unfold create_HTTP_Response_details, wants_keepalive.
  destruct session as [i c].
  repeat case_decide; repeat case_bool_decide; simplify_eq/=; try congruence;
    repeat split; destruct c; reflexivity.
Qed.
End http.

(** *** IP patterns *)
Section match_ip.
Context `{Y : Yaz}.

(** A glob item matches the address, or, without a colon, the IPv4 part of
    an IPv4-mapped address. *)
Definition ip_item_matches (value it : string) : bool :=
  negb (bool_decide (it = "")) &&
  (yaz_match_glob it value ||
   (bool_decide (find_char ":" it = None) && ipv4_mapped value &&
    yaz_match_glob it (str_drop 7 value))).

Lemma match_ip_loop_spec items value ret :
  match_ip_loop items value ret =
  existsb (ip_item_matches value) items ||
  (ret && forallb (λ it, bool_decide (it = "")) items).
Proof.
  revert ret. induction items as [|it items IH]; intros ret;
    cbn [match_ip_loop existsb forallb]; [by rewrite andb_true_r|].
  unfold ip_item_matches at 1. case_decide as Hit.
  { rewrite (bool_decide_eq_true_2 (it = "")) by done. apply IH. }
  rewrite !(bool_decide_eq_false_2 (it = "")) by done. simpl.
  destruct (yaz_match_glob it value); simpl; [done|].
  rewrite IH, andb_false_r. simpl.
  destruct (bool_decide (find_char ":" it = None) && _ && _); simpl; [done|].
  by rewrite orb_false_r.
Qed.

(** A pattern without items (blank or empty) accepts every address. *)
Lemma match_ip_spec pattern value :
  match_ip pattern value =
  existsb (ip_item_matches value) (split_blank pattern "") ||
  forallb (λ it, bool_decide (it = "")) (split_blank pattern "").
Proof. unfold match_ip. by rewrite match_ip_loop_spec. Qed.
End match_ip.
