(* ===== verification/HtmlParser.v ===== *)
(** * The HTML parser

    [src/html_parser.cpp]: [HTMLParser::parse_str] walks a NUL-terminated
    string and reports tags, attributes and text to an event handler as
    pointers into the string and lengths. Pointers are offsets here, every
    read is checked against the terminator, and the events are collected in
    order. *)
From S2P Require Import Prelude Yaz.

(** ** Data *)

(** The calls of [HTMLParserEvent]. A tag or text is (offset, length); the
    value of an attribute is absent when [value] is null, in which case the
    code passes an uninitialised quote character [tr]. *)
Inductive event : Type :=
  | openTagStart (tag len : nat)
  | attribute (tag len attr attr_len : nat) (value : option (nat * nat))
      (tr : option ascii)
  | anyTagEnd (tag len : nat) (close_it : bool)
  | closeTag (tag len : nat)
  | text (start len : nat).

(** [HTMLParser::Rep]: [nest] is false inside a script element. *)
Record Rep : Type := { nest : bool; events : list event }.
Definition Rep_init : Rep := {| nest := true; events := [] |}.

Definition emit (e : event) : M Rep unit :=
  modify (λ r, {| nest := nest r; events := events r ++ [e] |}).
Definition set_nest (b : bool) : M Rep unit :=
  modify (λ r, {| nest := b; events := events r |}).

(** ** Reading the buffer *)
Section buffer.
Context `{Y : Yaz} (buf : list ascii).

(** [cp[i]]: the terminator sits at offset [length buf]; beyond it a read is
    out of bounds. *)
Definition rd (p : nat) : M Rep ascii :=
  match buf !! p with
  | Some c => mret c
  | None => if decide (p = length buf) then mret NUL else undef OutOfBounds
  end.

Definition SPACECHR : list ascii :=
  [" "; "009"; "013"; "010"; "012"]%char.
Definition is_space (c : ascii) : bool := bool_decide (c ∈ SPACECHR).
Definition is_name_end (c : ascii) : bool :=
  is_space c || bool_decide (c ∈ ["/"; ">"; "<"; "="]%char).
Definition is_angle (c : ascii) : bool :=
  bool_decide (c ∈ ["/"; ">"; "<"]%char).

Definition isAlpha (c : ascii) : bool :=
  let n := Z.of_nat (nat_of_ascii c) in
  ((97 <=? n) && (n <=? 122)) || ((65 <=? n) && (n <=? 90)).

(** [for (; cp[i] && keep(cp[i]); i++)]: the offset where the loop stops. *)
Fixpoint scan (keep : ascii → bool) (fuel : nat) (p : nat) : M Rep nat :=
  match fuel with
  | O => out_of_fuel
  | S fuel' =>
      c ← rd p;
      if negb (bool_decide (c = NUL)) && keep c
      then scan keep fuel' (S p)
      else mret p
  end.

(** More iterations than characters are never needed. *)
Definition bound : nat := S (length buf).
#[local] Arguments bound : simpl never.

(** [skipSpace] and [skipName] return lengths; as offsets: *)
Definition skipSpace (p : nat) : M Rep nat := scan is_space bound p.
Definition skipName (p : nat) : M Rep nat :=
  scan (λ c, negb (is_name_end c)) bound p.

(** [skipAttribute]: the offset after the attribute, the end of its name,
    its value and the quote character. *)
Definition skipAttribute (cp : nat) :
    M Rep (nat * nat * option (nat * nat) * option ascii) :=
  attr_end ← skipName cp;
  if decide (attr_end = cp) then
    i ← skipSpace cp;
    mret (i, attr_end, None, None)
  else
    i ← skipSpace attr_end;
    c ← rd i;
    if decide (c = "="%char) then
      i ← skipSpace (S i);
      q ← rd i;
      if decide (q = "034"%char ∨ q = "'"%char) then
        v1 ← scan (λ c, negb (bool_decide (c = q))) bound (S i);
        e ← rd v1;
        let i' := if decide (e = NUL) then v1 else S v1 in
        i'' ← skipSpace i';
        mret (i'', attr_end, Some (S i, (v1 - S i)%nat), Some q)
      else
        v1 ← scan (λ c, negb (is_space c || bool_decide (c = ">"%char))) bound i;
        i'' ← skipSpace v1;
        mret (i'', attr_end, Some (i, (v1 - i)%nat), Some NUL)
    else mret (i, attr_end, None, None).

(** [tagAttrs]: one attribute per iteration until an angle or slash. *)
Fixpoint tagAttrs_loop (fuel : nat) (name len : nat) (i : nat) : M Rep nat :=
  match fuel with
  | O => out_of_fuel
  | S fuel' =>
      c ← rd i;
      if negb (bool_decide (c = NUL)) && negb (is_angle c) then
        r ← skipAttribute i;
        let '(i', attr_end, value, tr) := r in
        if decide (i' = i) then mret i
        else
          emit (attribute name len i (attr_end - i)%nat value tr) ;;
          tagAttrs_loop fuel' name len i'
      else mret i
  end.
Definition tagAttrs (name len cp : nat) : M Rep nat :=
  i ← skipSpace cp;
  tagAttrs_loop bound name len i.

(** [tagEnd]. *)
Definition tagEnd (tag tag_len cp : nat) : M Rep nat :=
  i ← scan (λ c, negb (is_angle c)) bound cp;
  (if decide (cp < i)%nat then emit (text cp (i - cp)%nat) else mret tt) ;;
  c ← rd i;
  let close_it := bool_decide (c = "/"%char) in
  let i := if close_it then S i else i in
  c ← rd i;
  if decide (c = ">"%char) then
    emit (anyTagEnd tag tag_len close_it) ;;
    mret (S i)
  else mret i.

(** [tagText]. *)
Definition tagText (text_start text_end : nat) : M Rep unit :=
  if decide (text_start = text_end) then mret tt
  else emit (text text_start (text_end - text_start)%nat).

(** The search for the end of a comment, from [i]: the offset of the last
    character of the terminator when it is found. *)
Fixpoint comment_loop (fuel : nat) (i : nat) : M Rep (nat * bool) :=
  match fuel with
  | O => out_of_fuel
  | S fuel' =>
      c ← rd i;
      if decide (c = NUL) then mret (i, false)
      else
        found ← (if decide (c = "-"%char) then
                   c1 ← rd (S i);
                   if decide (c1 = "-"%char) then
                     c2 ← rd (S (S i));
                     mret (bool_decide (c2 = ">"%char))
                   else mret false
                 else mret false);
        if (found : bool) then mret (S (S i), true)
        else comment_loop fuel' (S i)
  end.

(** ** The main loop *)

(** [<!]: a comment or a declaration. [cp] points at the [!]. *)
Definition parse_decl (text_start cp : nat) : M Rep nat :=
  tagText text_start (cp - 1)%nat ;;
  c1 ← rd (S cp);
  dashes ← (if decide (c1 = "-"%char)
            then c2 ← rd (S (S cp)); mret (bool_decide (c2 = "-"%char))
            else mret false);
  i ← (if (dashes : bool) then
         r ← comment_loop bound (cp + 3)%nat;
         (if (r.2 : bool) then emit (openTagStart cp (r.1 - cp)%nat) else mret tt) ;;
         mret r.1
       else
         i ← scan (λ c, negb (bool_decide (c = ">"%char))) bound (S cp);
         emit (openTagStart cp (i - cp)%nat) ;;
         mret i);
  tagEnd cp (i - cp)%nat i.

(** [<?]: a processing instruction. *)
Definition parse_pi (text_start cp : nat) : M Rep nat :=
  tagText text_start (cp - 1)%nat ;;
  i ← scan (λ c, negb (bool_decide (c = ">"%char))) bound (S cp);
  emit (openTagStart cp (i - cp)%nat) ;;
  tagEnd cp (i - cp)%nat i.

(** Is the name of [len] characters at [cp] "script"? *)
Definition is_script (cp len : nat) : bool :=
  bool_decide (len = 6%nat) &&
  (yaz_strncasecmp (string_of_list_ascii (drop cp buf)) "script" len =? 0).

(** A closing tag; [cp] points at its name. [None]: [continue] inside a
    script. *)
Definition parse_close (text_start cp : nat) : M Rep (option nat) :=
  e ← skipName cp;
  let i := (e - cp)%nat in
  st ← get;
  ok ← (if nest st then mret true
        else if is_script cp i then
          ws ← skipSpace (cp + 6)%nat;
          c ← rd ws;
          if decide (c = ">"%char) then set_nest true ;; mret true
          else mret false
        else mret false);
  if (ok : bool) then
    tagText text_start (cp - 2)%nat ;;
    emit (closeTag cp i) ;;
    e' ← tagEnd cp i e;
    mret (Some e')
  else mret None.

(** An opening tag; [cp] points at its name. *)
Definition parse_open (text_start cp : nat) : M Rep nat :=
  tagText text_start (cp - 1)%nat ;;
  e ← skipName cp;
  let i := (e - cp)%nat in
  emit (openTagStart cp i) ;;
  j ← tagAttrs cp i e;
  j ← tagEnd cp i j;
  (if is_script cp i then set_nest false else mret tt) ;;
  mret j.

(** One iteration: from [(text_start, cp)], where [*cp] is not NUL. *)
Definition parse_iter (text_start cp : nat) : M Rep (nat * nat) :=
  c ← rd cp;
  let cp := S cp in
  if decide (c ≠ "<"%char) then mret (text_start, cp)
  else
    st ← get;
    c0 ← rd cp;
    if nest st && bool_decide (c0 = "!"%char) then
      cp' ← parse_decl text_start cp; mret (cp', cp')
    else if nest st && bool_decide (c0 = "?"%char) then
      cp' ← parse_pi text_start cp; mret (cp', cp')
    else
      close_tag ← (if decide (c0 = "/"%char)
                   then c1 ← rd (S cp); mret (isAlpha c1) else mret false);
      if (close_tag : bool) then
        r ← parse_close text_start (S cp);
        match r with
        | Some cp' => mret (cp', cp')
        | None => mret (text_start, S cp)
        end
      else if nest st && isAlpha c0 then
        cp' ← parse_open text_start cp; mret (cp', cp')
      else mret (text_start, cp).

Fixpoint parse_loop (fuel : nat) (text_start cp : nat) : M Rep (nat * nat) :=
  match fuel with
  | O => out_of_fuel
  | S fuel' =>
      c ← rd cp;
      if decide (c = NUL) then mret (text_start, cp)
      else
        r ← parse_iter text_start cp;
        parse_loop fuel' r.1 r.2
  end.

(** [parse_str]. *)
Definition parse_str : M Rep unit :=
  r ← parse_loop bound 0 0;
  tagText r.1 r.2.
End buffer.

(** ** Specification vocabulary *)
Section spec.
Context (buf : list ascii).

(** The character at an offset; NUL from the terminator on. *)
Definition char_at (p : nat) : ascii := default NUL (buf !! p).

(** The part of the document an event stands for. *)
Definition span (e : event) : option (nat * nat) :=
  match e with
  | openTagStart t l | closeTag t l | text t l => Some (t, t + l)%nat
  | attribute _ _ a al None _ => Some (a, a + al)%nat
  | attribute _ _ a _ (Some (v, vl)) _ => Some (a, v + vl)%nat
  | anyTagEnd _ _ _ => None
  end.

(** Spans in document order, disjoint, from [a] to [b]. *)
Fixpoint ordered (a b : nat) (l : list (nat * nat)) : Prop :=
  match l with
  | [] => (a ≤ b)%nat
  | (s, e) :: l' => (a ≤ s)%nat ∧ (s ≤ e)%nat ∧ ordered e b l'
  end.

(** Characters that only delimit. *)
Definition markup (c : ascii) : Prop :=
  is_space c = true ∨ c ∈ ["<"; ">"; "/"; "="; "034"; "'"]%char.

Definition covered (new : list event) (i : nat) : Prop :=
  ∃ e s t, e ∈ new ∧ span e = Some (s, t) ∧ (s ≤ i < t)%nat.

(** [i] lies in a comment that is never terminated. *)
Definition in_open_comment (i : nat) : Prop :=
  ∃ s, (s ≤ i)%nat ∧ char_at s = "!"%char ∧ char_at (s + 1) = "-"%char ∧
    char_at (s + 2) = "-"%char ∧
    ∀ j, (s + 3 ≤ j)%nat →
      (∀ k, (s + 3 ≤ k ≤ j)%nat → char_at k ≠ NUL) →
      ¬ (char_at j = "-" ∧ char_at (j + 1) = "-" ∧ char_at (j + 2) = ">")%char.

(** Between the name of an attribute and its value there are only delimiters,
    and the value comes with its quote, or NUL if it has none. *)
Definition attribute_ok (e : event) : Prop :=
  match e with
  | attribute _ _ a al (Some (v, _)) tr =>
      (a + al ≤ v)%nat ∧ (∀ i, (a + al ≤ i < v)%nat → markup (char_at i)) ∧
      ∃ c, tr = Some c ∧ c ∈ [NUL; "034"; "'"]%char
  | _ => True
  end.

(** [new] are the events of the stretch from [a] to [b]: in order, disjoint,
    and nothing but delimiters and open comments left out. *)
Definition chunk (a b : nat) (new : list event) : Prop :=
  ordered a b (omap span new) ∧
  (∀ i, (a ≤ i < b)%nat →
    covered new i ∨ markup (char_at i) ∨ in_open_comment i) ∧
  Forall attribute_ok new.

Lemma ordered_le a b l : ordered a b l → (a ≤ b)%nat.
Proof.
  revert a. induction l as [|[s e] l IH]; intros a; simpl; [done|].
  intros (? & ? & ?%IH). lia.
Qed.
Lemma ordered_app a b c l1 l2 :
  ordered a b l1 → ordered b c l2 → ordered a c (l1 ++ l2).
Proof.
  revert a. induction l1 as [|[s e] l1 IH]; intros a; simpl.
  - intros Hab Hl2. destruct l2 as [|[s e] l2]; simpl in *; [lia|].
    destruct Hl2 as (? & ? & ?). repeat split; [lia..|done].
  - intros (? & ? & ?) ?. auto.
Qed.
Lemma ordered_bounds a b l s e :
  ordered a b l → (s, e) ∈ l → (a ≤ s ∧ s ≤ e ∧ e ≤ b)%nat.
Proof.
  revert a. induction l as [|[s' e'] l IH]; intros a; simpl; [by intros ? ?%not_elem_of_nil|].
  intros (? & ? & Ho) [[= -> ->]|Hin]%elem_of_cons.
  - apply ordered_le in Ho. lia.
  - destruct (IH _ Ho Hin). lia.
Qed.

Lemma covered_app_l new1 new2 i : covered new1 i → covered (new1 ++ new2) i.
Proof.
  intros (e & s & t & ? & ? & ?). exists e, s, t. rewrite elem_of_app. eauto.
Qed.
Lemma covered_app_r new1 new2 i : covered new2 i → covered (new1 ++ new2) i.
Proof.
  intros (e & s & t & ? & ? & ?). exists e, s, t. rewrite elem_of_app. eauto.
Qed.

Lemma chunk_nil a : chunk a a [].
Proof. split_and!; simpl; [lia|intros; lia|done]. Qed.
Lemma chunk_app a b c new1 new2 :
  chunk a b new1 → chunk b c new2 → chunk a c (new1 ++ new2).
Proof.
  intros (Ho1 & Hc1 & Ha1) (Ho2 & Hc2 & Ha2). split_and!; [| |by apply Forall_app].
  - rewrite omap_app. eapply ordered_app; eauto.
  - intros i Hi. destruct (decide (i < b)%nat).
    + destruct (Hc1 i) as [?|[?|?]]; [lia|..]; eauto using covered_app_l.
    + destruct (Hc2 i) as [?|[?|?]]; [lia|..]; eauto using covered_app_r.
Qed.
(** Skipping delimiters. *)
Lemma chunk_markup a b :
  (a ≤ b)%nat → (∀ i, (a ≤ i < b)%nat → markup (char_at i)) → chunk a b [].
Proof. intros Hab Hm. split_and!; [done|eauto|done]. Qed.
(** An event that spans the whole stretch. *)
Lemma chunk_event a b e :
  span e = Some (a, b) → (a ≤ b)%nat → attribute_ok e → chunk a b [e].
Proof.
  intros He Hab Ha. split_and!; [| |by apply Forall_singleton].
  - simpl. rewrite He. simpl. lia.
  - intros i Hi. left. exists e, a, b. split; [set_solver|]. by split.
Qed.
Lemma chunk_none a e : span e = None → chunk a a [e].
Proof.
  intros He. split_and!; [simpl; rewrite He; simpl; lia|intros; lia|].
  apply Forall_singleton. by destruct e as [| ? ? ? ? [[]|] ?| | |].
Qed.
Lemma chunk_open_comment a b :
  (a ≤ b)%nat → (∀ i, (a ≤ i < b)%nat → in_open_comment i) → chunk a b [].
Proof. intros Hab Hm. split_and!; [done|eauto|done]. Qed.
End spec.

(** [HTMLParser::parse] on a [char *]. *)
Definition parse `{Yaz} (str : string) : M Rep unit :=
  parse_str (list_ascii_of_string str).

Example parse_ex :
  parse (H := ref_yaz) "a<b c='1' d>x</b>" Rep_init = Ok (tt, {| nest := true;
    events := [text 0 1; openTagStart 2 1; attribute 2 1 4 1 (Some (7, 1)%nat) (Some "'"%char);
      attribute 2 1 10 1 None None; anyTagEnd 2 1 false; text 12 1; closeTag 15 1;
      anyTagEnd 15 1 false] |}).
Proof. vm_compute. reflexivity. Qed.

(** ** Memory safety, termination and completeness *)
Section correctness.
Context `{Y : Yaz} (buf : list ascii).
#[local] Arguments bound : simpl never.
Local Abbreviation L := (length buf).
Local Abbreviation ch := (char_at buf).

Lemma rd_tot p st (Q : ascii → Rep → Prop) :
  (p ≤ L)%nat → Q (ch p) st → tot (rd buf p) st Q.
Proof.
  intros Hp HQ. unfold rd, char_at in *.
  destruct (buf !! p) as [c|] eqn:E; [done|].
  apply lookup_ge_None in E. by rewrite decide_True by lia.
Qed.
Lemma ch_lt p : ch p ≠ NUL → (p < L)%nat.
Proof.
  unfold char_at. destruct (buf !! p) eqn:E; [|done].
  intros _. by eapply lookup_lt_Some.
Qed.

Lemma emit_tot e st (Q : unit → Rep → Prop) :
  Q tt {| nest := nest st; events := events st ++ [e] |} → tot (emit e) st Q.
Proof. done. Qed.

(** What [scan] returns: the first offset that ends the string or fails
    [keep]. *)
Lemma scan_tot keep fuel p st (Q : nat → Rep → Prop) :
  (p ≤ L)%nat → (L - p < fuel)%nat →
  (∀ q, (p ≤ q ≤ L)%nat →
     (∀ i, (p ≤ i < q)%nat → keep (ch i) = true ∧ ch i ≠ NUL) →
     (ch q = NUL ∨ keep (ch q) = false) → Q q st) →
  tot (scan buf keep fuel p) st Q.
Proof.
  revert p. induction fuel as [|fuel IH]; intros p Hp Hf HQ; [lia|].
  cbn [scan]. apply tot_bind, rd_tot; [done|].
  case_bool_decide as Hn; simpl.
  { apply tot_ret, HQ; [lia|intros; lia|by left]. }
  destruct (keep (ch p)) eqn:Hk.
  - pose proof (ch_lt p Hn). apply IH; [lia..|].
    intros q Hq Hall Hend. apply HQ; [lia| |done].
    intros i Hi. destruct (decide (i = p)) as [->|]; [done|]. apply Hall. lia.
  - apply tot_ret, HQ; [lia|intros; lia|by right].
Qed.

Lemma space_markup c : is_space c = true → markup c.
Proof. by left. Qed.

Lemma skipSpace_tot p st (Q : nat → Rep → Prop) :
  (p ≤ L)%nat →
  (∀ q, (p ≤ q ≤ L)%nat → (∀ i, (p ≤ i < q)%nat → markup (ch i)) → Q q st) →
  tot (skipSpace buf p) st Q.
Proof.
  intros Hp HQ. apply scan_tot; [done|unfold bound; lia|].
  intros q Hq Hall _. apply HQ; [done|]. intros i Hi. by apply space_markup, Hall.
Qed.

Lemma chunk_span_markup a b c e :
  span e = Some (a, b) → (a ≤ b)%nat → (b ≤ c)%nat → attribute_ok buf e →
  (∀ i, (b ≤ i < c)%nat → markup (ch i)) → chunk buf a c [e].
Proof.
  intros. rewrite <- (app_nil_r [e]).
  eapply chunk_app; [by apply chunk_event|by apply chunk_markup].
Qed.

Lemma skipAttribute_tot p name len st
    (Q : nat * nat * option (nat * nat) * option ascii → Rep → Prop) :
  (p ≤ L)%nat →
  (∀ i e v tr, (p ≤ i ≤ L)%nat →
     chunk buf p i [attribute name len p (e - p)%nat v tr] →
     Q (i, e, v, tr) st) →
  tot (skipAttribute buf p) st Q.
Proof.
  intros Hp HQ. unfold skipAttribute. apply tot_bind, scan_tot; [done|unfold bound; lia|].
  intros e He _ _. case_decide as Hemp.
  { subst e. apply tot_bind, skipSpace_tot; [done|]. intros q Hq Hm. apply HQ; [done|].
    apply (chunk_span_markup _ p); simpl; [do 2 f_equal; lia|lia|lia|done|done]. }
  apply tot_bind, skipSpace_tot; [lia|]. intros q Hq Hm.
  apply tot_bind, rd_tot; [lia|]. case_decide as Heq.
  2: { apply HQ; [lia|]. apply (chunk_span_markup _ e); simpl; [do 2 f_equal; lia|lia|lia|done|done]. }
  assert (Hql : (q < L)%nat) by (apply ch_lt; by rewrite Heq).
  apply tot_bind, skipSpace_tot; [lia|]. intros r Hr Hrm.
  assert (Hgap : ∀ i, (e ≤ i < r)%nat → markup (ch i)).
  { intros i Hi. destruct (decide (i < q)%nat); [apply Hm; lia|].
    destruct (decide (i = q)) as [->|]; [|apply Hrm; lia].
    right. rewrite Heq. set_solver. }
  apply tot_bind, rd_tot; [lia|]. case_decide as Hquote.
  - assert (Hrl : (r < L)%nat) by (apply ch_lt; by destruct Hquote as [-> | ->]).
    apply tot_bind, scan_tot; [lia|unfold bound; lia|]. intros v1 Hv1 _ Hend.
    apply tot_bind, rd_tot; [lia|]. apply tot_bind.
    assert (Hv1' : ∀ i, (v1 ≤ i < if decide (ch v1 = NUL) then v1 else S v1)%nat → markup (ch i)).
    { intros i Hi. destruct (decide (ch v1 = NUL)) as [|Hnul]; [lia|].
      replace i with v1 by lia. right. destruct Hend as [?|Hend]; [done|].
      apply negb_false_iff, bool_decide_eq_true in Hend. rewrite Hend.
      destruct Hquote as [-> | ->]; set_solver. }
    assert ((if decide (ch v1 = NUL) then v1 else S v1) ≤ L)%nat.
    { case_decide as Hnul; [lia|]. by apply ch_lt in Hnul. }
    set (w := if decide (ch v1 = NUL) then v1 else S v1) in *.
    assert (v1 ≤ w)%nat by (subst w; case_decide; lia).
    apply skipSpace_tot; [done|]. intros z Hz Hzm. apply HQ; [lia|].
    apply (chunk_span_markup _ v1); simpl; [do 2 f_equal; lia|lia|lia| |].
    { split; [lia|]. split.
      - intros i Hi. destruct (decide (i = r)) as [->|]; [|apply Hgap; lia].
        right. destruct Hquote as [-> | ->]; set_solver.
      - eexists. split; [done|]. destruct Hquote as [-> | ->]; set_solver. }
    intros i Hi. destruct (decide (i < w)%nat); [apply Hv1'|apply Hzm]; lia.
  - apply tot_bind, scan_tot; [lia|unfold bound; lia|]. intros v1 Hv1 _ _.
    apply tot_bind, skipSpace_tot; [lia|]. intros z Hz Hzm. apply HQ; [lia|].
    apply (chunk_span_markup _ v1); simpl; [do 2 f_equal; lia|lia|lia| |done].
    split; [lia|]. split; [intros; apply Hgap; lia|]. eexists. split; [done|]. set_solver.
Qed.

(** Postcondition of a function that reports the stretch from [a]. *)
Definition reports (st : Rep) (a : nat) (r : nat) (st' : Rep) : Prop :=
  ∃ new, events st' = events st ++ new ∧ (a ≤ r ≤ L)%nat ∧ chunk buf a r new.

Lemma reports_refl st st' a :
  events st' = events st → (a ≤ L)%nat → reports st a a st'.
Proof.
  intros He Ha. exists []. rewrite app_nil_r. split; [done|].
  split; [lia|apply chunk_nil].
Qed.
Lemma reports_trans st1 st2 st3 a b c :
  reports st1 a b st2 → reports st2 b c st3 → reports st1 a c st3.
Proof.
  intros (n1 & E1 & ? & C1) (n2 & E2 & ? & C2). exists (n1 ++ n2).
  rewrite E2, E1, app_assoc. split; [done|]. split; [lia|].
  eapply chunk_app; eauto.
Qed.
(** One more event, for the stretch from [b] to [c]. *)
Lemma reports_emit st st' a b c e n :
  reports st a b st' → (b ≤ c ≤ L)%nat → chunk buf b c [e] →
  reports st a c {| nest := n; events := events st' ++ [e] |}.
Proof. intros Hr Hbc Hc. eapply reports_trans; [done|]. exists [e]. done. Qed.
Lemma reports_markup st st' a b c :
  reports st a b st' → (b ≤ c ≤ L)%nat →
  (∀ i, (b ≤ i < c)%nat → markup (ch i)) → reports st a c st'.
Proof.
  intros Hr Hbc Hm. eapply reports_trans; [done|]. exists [].
  rewrite app_nil_r. split; [done|]. split; [lia|]. by apply chunk_markup; [lia|].
Qed.

Lemma tagAttrs_loop_tot fuel name len i st0 a st :
  (L - i < fuel)%nat → reports st0 a i st →
  tot (tagAttrs_loop buf fuel name len i) st (λ r st', reports st0 a r st' ∧ (i ≤ r)%nat).
Proof.
  revert i st. induction fuel as [|fuel IH]; intros i st Hf Hr; [lia|].
  assert (Hi : (i ≤ L)%nat) by (destruct Hr as (? & ? & ? & ?); lia).
  cbn [tagAttrs_loop]. apply tot_bind, rd_tot; [done|].
  destruct (_ && _); [|by apply tot_ret].
  apply tot_bind, (skipAttribute_tot _ name len); [done|].
  intros j e v tr Hj Hc. simpl. case_decide as Hij; [by apply tot_ret|].
  apply tot_bind, emit_tot. eapply tot_mono.
  - apply IH; [lia|]. by eapply reports_emit.
  - intros r st' [? ?]. split; [done|lia].
Qed.

Lemma tagAttrs_tot name len p st0 a st :
  reports st0 a p st →
  tot (tagAttrs buf name len p) st (λ r st', reports st0 a r st' ∧ (p ≤ r)%nat).
Proof.
  intros Hr. assert (Hp : (p ≤ L)%nat) by (destruct Hr as (? & ? & ? & ?); lia).
  unfold tagAttrs. apply tot_bind, skipSpace_tot; [done|]. intros q Hq Hm.
  eapply tot_mono; [apply tagAttrs_loop_tot; [unfold bound; lia|]|].
  - eapply reports_markup; [done|lia|done].
  - intros r st' [? ?]. split; [done|lia].
Qed.

Lemma tagEnd_tot tag len p st0 a st :
  reports st0 a p st →
  tot (tagEnd buf tag len p) st (λ r st', reports st0 a r st' ∧ (p ≤ r)%nat).
Proof.
  intros Hr. assert (Hp : (p ≤ L)%nat) by (destruct Hr as (? & ? & ? & ?); lia).
  unfold tagEnd. apply tot_bind, scan_tot; [done|unfold bound; lia|].
  intros i Hi _ _. apply tot_bind.
  set (e := text p (i - p)).
  assert (Htext : tot (if decide (p < i)%nat then emit e else mret tt) st
      (λ _ st', reports st0 a i st')).
  { case_decide.
    - apply emit_tot. eapply reports_emit; [done|lia|].
      apply chunk_event; [simpl; do 2 f_equal; lia|lia|done].
    - replace i with p by lia. done. }
  eapply tot_mono; [exact Htext|]. clear Htext. intros [] st1 Hr1. simpl.
  apply tot_bind, rd_tot; [lia|].
  assert (Hm : ∀ k c, ch k = c → c ∈ ["/"; ">"]%char →
    markup (ch k) ∧ (k < L)%nat).
  { intros k c Hk Hc. split.
    - right. rewrite Hk. set_solver.
    - apply ch_lt. rewrite Hk. intros ->. set_solver. }
  set (j := if bool_decide (ch i = "/"%char) then S i else i).
  assert (reports st0 a j st1 ∧ (i ≤ j ≤ L)%nat) as [Hr2 Hj].
  { subst j. case_bool_decide as Hs; [|split; [done|lia]].
    destruct (Hm i "/"%char Hs ltac:(set_solver)) as [? ?]. split; [|lia].
    eapply reports_markup; [done|lia|]. intros k ?. by replace k with i by lia. }
  apply tot_bind, rd_tot; [lia|]. case_decide as Hgt.
  - destruct (Hm j ">"%char Hgt ltac:(set_solver)) as [? ?].
    apply tot_bind, emit_tot, tot_ret. split; [|lia].
    eapply reports_markup with (b := j); [|lia|intros k ?; by replace k with j by lia].
    eapply reports_emit; [done|lia|]. by apply chunk_none.
  - apply tot_ret. split; [done|lia].
Qed.

Lemma tagText_tot ts te st :
  (ts ≤ te ≤ L)%nat → tot (tagText ts te) st (λ _ st', reports st ts te st').
Proof.
  intros H. unfold tagText. case_decide.
  - subst. apply tot_ret, reports_refl; [done|lia].
  - apply emit_tot. eapply reports_emit; [apply reports_refl; [done|lia]|lia|].
    apply chunk_event; [simpl; do 2 f_equal; lia|lia|done].
Qed.

(** The search for the comment terminator from [i]: it ends at the last
    character of a terminator, or at the end of the string without having
    met one. *)
Lemma comment_loop_tot fuel i st :
  (i ≤ L)%nat → (L - i < fuel)%nat →
  tot (comment_loop buf fuel i) st (λ r st', st' = st ∧ (i ≤ r.1 ≤ L)%nat ∧
    (r.2 = false → ch r.1 = NUL ∧ ∀ j, (i ≤ j)%nat →
       (∀ k, (i ≤ k ≤ j)%nat → ch k ≠ NUL) →
       ¬ (ch j = "-" ∧ ch (j + 1) = "-" ∧ ch (j + 2) = ">")%char)).
Proof.
  revert i. induction fuel as [|fuel IH]; intros i Hi Hf; [lia|].
  cbn [comment_loop]. apply tot_bind, rd_tot; [done|]. case_decide as Hn.
  { apply tot_ret. split; [done|]. split; [simpl; lia|]. intros _.
    split; [done|]. intros j Hj Hk. by destruct (Hk i); [lia|]. }
  pose proof (ch_lt i Hn) as Hlt.
  apply tot_bind. apply tot_mono with (Q := λ b st', st' = st ∧
    (b = true → (i + 2 < L)%nat) ∧
    (b = false → ¬ (ch i = "-" ∧ ch (i + 1) = "-" ∧ ch (i + 2) = ">")%char)).
  { case_decide as H0; [|apply tot_ret; repeat split; [done|by intros _ [? _]]].
    apply tot_bind, rd_tot; [lia|]. replace (S i) with (i + 1)%nat by lia.
    case_decide as H1; [|apply tot_ret; repeat split; [done|by intros _ (_ & ? & _)]].
    assert (i + 1 < L)%nat by (apply ch_lt; by rewrite H1).
    apply tot_bind, rd_tot; [lia|]. replace (S (i + 1)) with (i + 2)%nat by lia.
    apply tot_ret. split; [done|]. case_bool_decide as H2; split; try done.
    - intros _. apply ch_lt. by rewrite H2.
    - by intros _ (_ & _ & ?). }
  intros [] st1 (-> & Ht & Hfn).
  - apply tot_ret. split; [done|]. specialize (Ht eq_refl). split; [simpl; lia|done].
  - eapply tot_mono; [apply IH; lia|]. intros r st2 (-> & Hr & Hno).
    split; [done|]. split; [lia|]. intros Hr2. destruct (Hno Hr2) as [? Hall].
    split; [done|]. intros j Hj Hk. destruct (decide (j = i)) as [->|]; [by apply Hfn|].
    apply Hall; [lia|]. intros k ?. apply Hk. lia.
Qed.

(** The stretch that a tag opened at [cp - 1] starts with. *)
Lemma tag_start_tot ts cp k st :
  (k ≤ cp ≤ L)%nat → (ts ≤ cp - k)%nat →
  (∀ i, (cp - k ≤ i < cp)%nat → markup (ch i)) →
  tot (tagText ts (cp - k)) st (λ _ st', reports st ts cp st').
Proof.
  intros Hk Hts Hm. eapply tot_mono; [apply tagText_tot; lia|].
  intros [] st' Hr. eapply reports_markup; [done|lia|done].
Qed.

Lemma lt_markup i : ch i = "<"%char → markup (ch i).
Proof. intros ->. right. set_solver. Qed.

(** A tag that runs up to the next [>], as in declarations. *)
Lemma upto_gt_tot ts cp st0 st :
  (cp < L)%nat → reports st0 ts cp st →
  tot (i ← scan buf (λ c, negb (bool_decide (c = ">"%char))) (bound buf) (S cp);
       emit (openTagStart cp (i - cp)%nat) ;; mret i) st
    (λ i st', reports st0 ts i st' ∧ (cp < i)%nat).
Proof.
  intros Hcp Hr. apply tot_bind, scan_tot; [lia|unfold bound; lia|].
  intros i Hi _ _. apply tot_bind, emit_tot, tot_ret. split; [|lia].
  eapply reports_emit; [done|lia|]. apply chunk_event; [simpl; do 2 f_equal; lia|lia|done].
Qed.

Lemma parse_decl_tot ts cp st :
  (ts < cp < L)%nat → ch (cp - 1) = "<"%char → ch cp = "!"%char →
  tot (parse_decl buf ts cp) st (λ r st', reports st ts r st' ∧ (cp ≤ r)%nat).
Proof.
  intros Hcp Hlt Hbang. unfold parse_decl. apply tot_bind.
  eapply tot_mono; [apply (tag_start_tot ts cp 1); [lia..|]|].
  { intros i ?. replace i with (cp - 1)%nat by lia. by apply lt_markup. }
  intros [] st1 Hr1. cbn beta. apply tot_bind, rd_tot; [lia|]. apply tot_bind.
  replace (S cp) with (cp + 1)%nat by lia.
  apply tot_mono with (Q := λ b st', st' = st1 ∧
    (b = true → ch (cp + 1) = "-"%char ∧ ch (cp + 2) = "-"%char)).
  { case_decide as H1; [|by apply tot_ret].
    assert (cp + 1 < L)%nat by (apply ch_lt; by rewrite H1).
    apply tot_bind, rd_tot; [lia|]. apply tot_ret. split; [done|].
    replace (S (cp + 1)) with (cp + 2)%nat by lia.
    by intros ?%bool_decide_eq_true. }
  intros dashes st2 [-> Hd]. apply tot_bind.
  apply tot_mono with (Q := λ i st', reports st ts i st' ∧ (cp ≤ i)%nat).
  2: { intros i st3 [Hr3 Hi]. eapply tot_mono; [by apply tagEnd_tot|].
       intros r st4 [? ?]. split; [done|lia]. }
  destruct dashes.
  - destruct (Hd eq_refl) as [H1 H2].
    assert (cp + 2 < L)%nat by (apply ch_lt; by rewrite H2).
    apply tot_bind. eapply tot_mono; [apply (comment_loop_tot (bound buf)); unfold bound; lia|].
    intros [i found] st2 (-> & Hi & Hopen). simpl in *. destruct found.
    + apply tot_bind, emit_tot, tot_ret. split; [|lia].
      eapply reports_emit; [done|lia|].
      apply chunk_event; [simpl; do 2 f_equal; lia|lia|done].
    + apply tot_bind, tot_ret, tot_ret. split; [|lia].
      eapply reports_trans; [done|]. exists []. rewrite app_nil_r.
      split; [done|]. split; [lia|]. apply chunk_open_comment; [lia|].
      intros k Hk. exists cp. destruct (Hopen eq_refl) as [_ Hno].
      repeat split; [lia|done..|]. intros j Hj. apply Hno. lia.
  - replace (cp + 1)%nat with (S cp) by lia. apply upto_gt_tot in Hr1; [|lia].
    eapply tot_mono; [exact Hr1|]. intros i st' [? ?]. split; [done|lia].
Qed.

Lemma parse_pi_tot ts cp st :
  (ts < cp < L)%nat → ch (cp - 1) = "<"%char →
  tot (parse_pi buf ts cp) st (λ r st', reports st ts r st' ∧ (cp ≤ r)%nat).
Proof.
  intros Hcp Hlt. unfold parse_pi. apply tot_bind.
  eapply tot_mono; [apply (tag_start_tot ts cp 1); [lia..|]|].
  { intros i ?. replace i with (cp - 1)%nat by lia. by apply lt_markup. }
  intros [] st1 Hr1. cbn beta. apply tot_bind, scan_tot; [lia|unfold bound; lia|].
  intros i Hi _ _. apply tot_bind, emit_tot. eapply tot_mono.
  - apply tagEnd_tot. eapply reports_emit; [done|lia|].
    apply chunk_event; [simpl; do 2 f_equal; lia|lia|done].
  - intros r st2 [? ?]. split; [done|lia].
Qed.

Lemma skipName_tot p st (Q : nat → Rep → Prop) :
  (p ≤ L)%nat → (∀ q, (p ≤ q ≤ L)%nat → Q q st) → tot (skipName buf p) st Q.
Proof.
  intros Hp HQ. apply scan_tot; [done|unfold bound; lia|]. intros. by apply HQ.
Qed.

Lemma parse_open_tot ts cp st :
  (ts < cp < L)%nat → ch (cp - 1) = "<"%char →
  tot (parse_open buf ts cp) st (λ r st', reports st ts r st' ∧ (cp ≤ r)%nat).
Proof.
  intros Hcp Hlt. unfold parse_open. apply tot_bind.
  eapply tot_mono; [apply (tag_start_tot ts cp 1); [lia..|]|].
  { intros i ?. replace i with (cp - 1)%nat by lia. by apply lt_markup. }
  intros [] st1 Hr1. cbn beta. apply tot_bind, skipName_tot; [lia|]. intros e He.
  apply tot_bind, emit_tot, tot_bind. eapply tot_mono.
  { apply tagAttrs_tot. eapply reports_emit; [done|lia|].
    apply chunk_event; [simpl; do 2 f_equal; lia|lia|done]. }
  intros j st2 [Hr2 Hj]. apply tot_bind. eapply tot_mono; [by apply tagEnd_tot|].
  intros j' st3 [Hr3 Hj']. cbn beta. apply tot_bind.
  destruct (is_script buf cp (e - cp)); unfold tot; simpl; (split; [|lia]); done.
Qed.

(** The result of [parse_close]: [None] leaves the pending text alone. *)
Lemma parse_close_tot ts cp st :
  (ts + 2 ≤ cp ≤ L)%nat → ch (cp - 2) = "<"%char → ch (cp - 1) = "/"%char →
  tot (parse_close buf ts cp) st (λ r st',
    match r with
    | Some r => reports st ts r st' ∧ (cp ≤ r)%nat
    | None => events st' = events st
    end).
Proof.
  intros Hcp Hlt Hsl. unfold parse_close. apply tot_bind, skipName_tot; [lia|].
  intros e He. apply tot_bind. unfold tot at 1, get. apply tot_bind.
  apply tot_mono with (Q := λ _ st', events st' = events st).
  { destruct (nest st); [done|].
    destruct (is_script buf cp (e - cp)) eqn:Hs; [|done].
    apply andb_true_iff in Hs as [Hs _]. apply bool_decide_eq_true in Hs.
    apply tot_bind, skipSpace_tot; [lia|]. intros ws Hws _.
    apply tot_bind, rd_tot; [lia|]. case_decide; done. }
  intros ok st1 He1. destruct ok; [|done]. apply tot_bind.
  eapply tot_mono; [apply (tag_start_tot ts cp 2); [lia..|]|].
  { intros i ?. destruct (decide (i = cp - 2)%nat) as [->|]; [by apply lt_markup|].
    replace i with (cp - 1)%nat by lia. rewrite Hsl. right. set_solver. }
  intros [] st2 Hr2. cbn beta. apply tot_bind, emit_tot, tot_bind.
  eapply tot_mono.
  { apply tagEnd_tot. eapply reports_emit; [exact Hr2|lia|].
    apply chunk_event; [simpl; do 2 f_equal; lia|lia|done]. }
  intros r st3 [(new & E & ? & ?) ?]. apply tot_ret. split; [|lia].
  exists new. by rewrite E, He1.
Qed.

(** One iteration makes progress and accounts for what it moves past. *)
Lemma parse_iter_tot st0 ts cp st :
  reports st0 0 ts st → (ts ≤ cp < L)%nat → ch cp ≠ NUL →
  tot (parse_iter buf ts cp) st (λ r st',
    reports st0 0 r.1 st' ∧ (r.1 ≤ r.2 ≤ L)%nat ∧ (cp < r.2)%nat).
Proof.
  intros Hr Hcp Hn. unfold parse_iter. apply tot_bind, rd_tot; [lia|].
  case_decide as Hlt; [apply tot_ret; split; [done|simpl; lia]|].
  assert (Hch : ch (S cp - 1) = "<"%char) by (by rewrite Nat.sub_succ, Nat.sub_0_r).
  apply tot_bind. unfold tot at 1, get. apply tot_bind, rd_tot; [lia|].
  assert (Hdone : ∀ (m : M Rep nat),
    tot m st (λ r st', reports st ts r st' ∧ (S cp ≤ r)%nat) →
    tot (cp' ← m; mret (cp', cp')) st (λ r st',
      reports st0 0 r.1 st' ∧ (r.1 ≤ r.2 ≤ L)%nat ∧ (cp < r.2)%nat)).
  { intros m Hm. apply tot_bind. eapply tot_mono; [exact Hm|].
    intros r st' [Hr' Hle]. apply tot_ret. cbn [fst snd].
    assert ((r ≤ L)%nat) by (destruct Hr' as (? & ? & ? & ?); lia).
    split; [by eapply reports_trans|lia]. }
  destruct (nest st && bool_decide (ch (S cp) = "!"%char)) eqn:H1.
  { apply andb_true_iff in H1 as [_ H1]. apply bool_decide_eq_true in H1.
    apply Hdone, parse_decl_tot; [|done..].
    split; [lia|]. apply ch_lt. by rewrite H1. }
  destruct (nest st && bool_decide (ch (S cp) = "?"%char)) eqn:H2.
  { apply andb_true_iff in H2 as [_ H2]. apply bool_decide_eq_true in H2.
    apply Hdone, parse_pi_tot; [|done].
    split; [lia|]. apply ch_lt. by rewrite H2. }
  apply tot_bind. apply tot_mono with (Q := λ b st', st' = st ∧
    (b = true → ch (S cp) = "/"%char ∧ (S (S cp) ≤ L)%nat)).
  { destruct (decide (ch (S cp) = "/"%char)) as [Hs|]; [|by apply tot_ret].
    assert (S cp < L)%nat by (apply ch_lt; by rewrite Hs).
    apply tot_bind, rd_tot; [lia|]. apply tot_ret. split; [done|]. intros _.
    split; [done|lia]. }
  intros b st1 [-> Hb]. destruct b.
  - destruct (Hb eq_refl) as [Hs Hle]. apply tot_bind.
    eapply tot_mono; [apply parse_close_tot; [lia|..]|].
    + by replace (S (S cp) - 2)%nat with cp by lia.
    + by replace (S (S cp) - 1)%nat with (S cp) by lia.
    + intros [r|] st' Hres; apply tot_ret; cbn [fst snd].
      * destruct Hres as [Hr' Hle'].
        assert ((r ≤ L)%nat) by (destruct Hr' as (? & ? & ? & ?); lia).
        split; [by eapply reports_trans|lia].
      * split; [|lia]. destruct Hr as (new & E & ? & ?). exists new.
        by rewrite Hres, E.
  - destruct (nest st && isAlpha (ch (S cp))) eqn:H3.
    + apply Hdone, parse_open_tot; [|done]. split; [lia|]. apply ch_lt.
      intros Hnul. rewrite Hnul, andb_comm in H3. done.
    + apply tot_ret. cbn [fst snd]. split; [done|lia].
Qed.

Lemma parse_loop_tot fuel st0 ts cp st :
  reports st0 0 ts st → (ts ≤ cp ≤ L)%nat → (L - cp < fuel)%nat →
  tot (parse_loop buf fuel ts cp) st (λ r st',
    reports st0 0 r.1 st' ∧ (r.1 ≤ r.2 ≤ L)%nat ∧ ch r.2 = NUL).
Proof.
  revert ts cp st. induction fuel as [|fuel IH]; intros ts cp st Hr Hcp Hf; [lia|].
  cbn [parse_loop]. apply tot_bind, rd_tot; [lia|]. case_decide as Hn.
  { apply tot_ret. cbn [fst snd]. split; [done|]. split; [lia|done]. }
  pose proof (ch_lt cp Hn). apply tot_bind.
  eapply tot_mono; [apply parse_iter_tot; [done|lia|done]|].
  intros [ts' cp'] st' (Hr' & Hle & Hlt). cbn [fst snd] in *. apply IH; [done|lia|lia].
Qed.

Lemma parse_str_tot st :
  Forall (λ c, c ≠ NUL) buf →
  tot (parse_str buf) st (λ _ st', reports st 0 L st').
Proof.
  intros Hbuf. unfold parse_str. apply tot_bind.
  eapply tot_mono; [apply parse_loop_tot with (st0 := st)|].
  - apply reports_refl; [done|lia].
  - lia.
  - unfold bound. lia.
  - intros [ts cp] st' (Hr & Hle & Hend). cbn [fst snd] in *.
    assert (cp = L) as ->.
    { unfold char_at in Hend. destruct (buf !! cp) as [c|] eqn:E.
      - simpl in Hend. subst. apply (Forall_lookup_1 _ _ _ _ Hbuf) in E. done.
      - apply lookup_ge_None in E. lia. }
    eapply tot_mono; [apply tagText_tot; lia|].
    intros [] st'' Hr'. by eapply reports_trans.
Qed.
End correctness.

(** C8. For every NUL-terminated document, in or outside a script, the parser
    terminates without reading past the terminator, and its events tile the
    document: the tags, attributes and texts reported are disjoint stretches
    in document order, a character outside all of them is a delimiter or
    lies in a comment that is never closed, and an attribute's name and value
    are only separated by delimiters. *)
Theorem parse_tiles_document `{Yaz} str st :
  Forall (λ c, c ≠ NUL) (list_ascii_of_string str) →
  ∃ st' new, parse str st = Ok (tt, st') ∧
    events st' = events st ++ new ∧
    chunk (list_ascii_of_string str) 0 (String.length str) new.
Proof.
  intros Hnul. unfold parse.
  destruct (tot_elim _ _ _ (parse_str_tot (list_ascii_of_string str) st Hnul))
    as ([] & st' & E & new & He & _ & Hc).
  exists st', new. split; [done|]. split; [done|].
  by rewrite <- list_ascii_length.
Qed.

Lemma parse_tiles_document_witness :
  ∃ st' new, parse (H := ref_yaz) "<a>x" Rep_init = Ok (tt, st') ∧
    events st' = events Rep_init ++ new ∧
    chunk (list_ascii_of_string "<a>x") 0 (String.length "<a>x") new.
Proof.
  apply (parse_tiles_document (H := ref_yaz)).
  repeat (apply List.Forall_cons; [discriminate|]). apply List.Forall_nil.
Defined.
