(* ===== verification/ThreadPool.v ===== *)
(** * The thread pool

    [src/thread_pool_observer.cpp]: worker threads take messages from a
    bounded input queue, handle them, and queue the results for the socket
    thread. Every critical section is one atomic step; the two condition
    variables are explicit, so that a sleeping thread only runs again after a
    notification (or a spurious wake-up). *)
From S2P Require Import Prelude.

(** [queue_size_per_thread]. *)
Definition queue_size_per_thread : Z := 64.

Section pool.
Context {Msg : Type}.
(** [IThreadPoolMsg::handle] (null is [None]) and [cleanup]. *)
Context (handle : Msg → option Msg) (cleanup_msg : Msg → bool).
Context (max_threads : Z).

(** ** State *)

(** Where a worker is in [run]: before taking the lock, asleep on
    [m_cond_input_data], handling a message, before queueing the result, or
    out of the loop. *)
Inductive worker : Type :=
  | Idle
  | Waiting (notified : bool)
  | Busy (m : Msg)
  | Handled (m : Msg) (out : option Msg)
  | Exited.

(** [ThreadPoolSocketObserver::Rep], the threads, and the history of the
    run: what was queued, taken, dropped by [cleanup], handled, delivered. *)
Record Rep : Type := mk_Rep {
  m_input : list Msg;
  m_output : list (option Msg);
  m_stop_flag : bool;
  m_no_threads : Z;
  m_waiting_threads : Z;
  workers : list worker;
  putters : list (Msg * bool);    (* asleep in [put] on [m_cond_input_full] *)
  h_queued : list Msg;
  h_taken : list Msg;
  h_cleaned : list Msg;
  h_handled : list Msg;
  h_delivered : list (option Msg)
}.

Definition set_workers (ws : list worker) (r : Rep) : Rep :=
  mk_Rep (m_input r) (m_output r) (m_stop_flag r) (m_no_threads r)
    (m_waiting_threads r) ws (putters r) (h_queued r) (h_taken r)
    (h_cleaned r) (h_handled r) (h_delivered r).
Definition set_waiting (n : Z) (r : Rep) : Rep :=
  mk_Rep (m_input r) (m_output r) (m_stop_flag r) (m_no_threads r)
    n (workers r) (putters r) (h_queued r) (h_taken r)
    (h_cleaned r) (h_handled r) (h_delivered r).
Definition set_putters (ps : list (Msg * bool)) (r : Rep) : Rep :=
  mk_Rep (m_input r) (m_output r) (m_stop_flag r) (m_no_threads r)
    (m_waiting_threads r) (workers r) ps (h_queued r) (h_taken r)
    (h_cleaned r) (h_handled r) (h_delivered r).

(** ** Operations *)

(** [add_worker]. *)
Definition add_worker (r : Rep) : Rep :=
  mk_Rep (m_input r) (m_output r) (m_stop_flag r) (m_no_threads r + 1)
    (m_waiting_threads r) (workers r ++ [Idle]) (putters r) (h_queued r)
    (h_taken r) (h_cleaned r) (h_handled r) (h_delivered r).

(** The constructor starts [min_threads] workers. *)
Definition init (min_threads : nat) : Rep :=
  Nat.iter min_threads add_worker (mk_Rep [] [] false 0 0 [] [] [] [] [] [] []).

(** [m_cond_input_full.notify_all()] and [m_cond_input_data.notify_all()]. *)
Definition notify_full (r : Rep) : Rep :=
  set_putters ((λ p, (p.1, true)) <$> putters r) r.
Definition wake (w : worker) : worker :=
  match w with Waiting _ => Waiting true | _ => w end.

(** [m_cond_input_data.notify_one()]: some sleeping worker, if there is one. *)
Inductive notify_one : list worker → list worker → Prop :=
  | notify_none ws : Waiting false ∉ ws → notify_one ws ws
  | notify_some l1 l2 :
      notify_one (l1 ++ Waiting false :: l2) (l1 ++ Waiting true :: l2).

(** A worker that holds the lock and has found work or the stop flag: the
    rest of the critical section of [run]. [None]: it must wait. *)
Definition try_take (r : Rep) : option (worker * Rep) :=
  if m_stop_flag r then Some (Exited, r)
  else match m_input r with
       | [] => None
       | m :: input' =>
           Some (Busy m, notify_full
             (mk_Rep input' (m_output r) (m_stop_flag r) (m_no_threads r)
                (m_waiting_threads r) (workers r) (putters r) (h_queued r)
                (h_taken r ++ [m]) (h_cleaned r) (h_handled r) (h_delivered r)))
       end.

(** [run], entering the critical section: [m_waiting_threads++], then either
    sleep or go on ([m_waiting_threads--]). *)
Definition run_enter (r : Rep) : worker * Rep :=
  match try_take r with
  | Some wr => wr
  | None => (Waiting false, set_waiting (m_waiting_threads r + 1) r)
  end.
(** [run], back from [wait]: the loop condition again. *)
Definition run_wake (r : Rep) : worker * Rep :=
  match try_take r with
  | Some (w, r') => (w, set_waiting (m_waiting_threads r' - 1) r')
  | None => (Waiting false, r)
  end.
(** [in->handle()] outside any lock, then [m_output.push_back(out)]. *)
Definition run_handle (m : Msg) (r : Rep) : worker * Rep :=
  (Handled m (handle m), r).
Definition run_output (m : Msg) (out : option Msg) (r : Rep) : worker * Rep :=
  (Idle, mk_Rep (m_input r) (m_output r ++ [out]) (m_stop_flag r)
     (m_no_threads r) (m_waiting_threads r) (workers r) (putters r)
     (h_queued r) (h_taken r) (h_cleaned r) (h_handled r ++ [m])
     (h_delivered r)).

(** [put]: maybe one more worker, then wait while the queue is full. The
    product is an [unsigned] multiplication. *)
Definition put_add_worker (r : Rep) : Rep :=
  if (m_waiting_threads r =? 0) && (m_no_threads r <? max_threads)
  then add_worker r else r.
Definition queue_full (r : Rep) : bool :=
  uint32 (m_no_threads r * queue_size_per_thread) <=? Z.of_nat (length (m_input r)).
Definition push_input (m : Msg) (r : Rep) : Rep :=
  mk_Rep (m_input r ++ [m]) (m_output r) (m_stop_flag r) (m_no_threads r)
    (m_waiting_threads r) (workers r) (putters r) (h_queued r ++ [m])
    (h_taken r) (h_cleaned r) (h_handled r) (h_delivered r).

(** [cleanup]: drop the queued messages that ask for it. *)
Fixpoint cleanup_input (l : list Msg) : list Msg * list Msg :=
  match l with
  | [] => ([], [])
  | m :: l' =>
      let '(kept, gone) := cleanup_input l' in
      if cleanup_msg m then (kept, m :: gone) else (m :: kept, gone)
  end.
Definition cleanup (r : Rep) : Rep :=
  let '(kept, gone) := cleanup_input (m_input r) in
  mk_Rep kept (m_output r) (m_stop_flag r) (m_no_threads r)
    (m_waiting_threads r) (workers r) (putters r) (h_queued r) (h_taken r)
    (h_cleaned r ++ gone) (h_handled r) (h_delivered r).

(** [socketNotify], one turn of its loop: hand the first result over. *)
Definition socketNotify_pop (r : Rep) : option Rep :=
  match m_output r with
  | [] => None
  | out :: output' =>
      Some (mk_Rep (m_input r) output' (m_stop_flag r) (m_no_threads r)
        (m_waiting_threads r) (workers r) (putters r) (h_queued r) (h_taken r)
        (h_cleaned r) (h_handled r) (h_delivered r ++ [out]))
  end.

(** [get_thread_info]: (tbusy, total). *)
Definition get_thread_info (r : Rep) : Z * Z :=
  (m_no_threads r - m_waiting_threads r, m_no_threads r).

(** The destructor: stop flag and [notify_all]. *)
Definition stop (r : Rep) : Rep :=
  mk_Rep (m_input r) (m_output r) true (m_no_threads r)
    (m_waiting_threads r) (wake <$> workers r) (putters r) (h_queued r)
    (h_taken r) (h_cleaned r) (h_handled r) (h_delivered r).

(** ** Interleavings *)
Inductive step : Rep → Rep → Prop :=
  | step_enter r l1 l2 w r' :
      workers r = l1 ++ Idle :: l2 → run_enter r = (w, r') →
      step r (set_workers (l1 ++ w :: l2) r')
  | step_wake r l1 l2 w r' :
      workers r = l1 ++ Waiting true :: l2 → run_wake r = (w, r') →
      step r (set_workers (l1 ++ w :: l2) r')
  | step_spurious r l1 l2 :
      workers r = l1 ++ Waiting false :: l2 →
      step r (set_workers (l1 ++ Waiting true :: l2) r)
  | step_handle r l1 l2 m w r' :
      workers r = l1 ++ Busy m :: l2 → run_handle m r = (w, r') →
      step r (set_workers (l1 ++ w :: l2) r')
  | step_output r l1 l2 m out w r' :
      workers r = l1 ++ Handled m out :: l2 → run_output m out r = (w, r') →
      step r (set_workers (l1 ++ w :: l2) r')
  | step_put r m ws :
      queue_full (put_add_worker r) = false →
      notify_one (workers (put_add_worker r)) ws →
      step r (set_workers ws (push_input m (put_add_worker r)))
  | step_put_block r m :
      queue_full (put_add_worker r) = true →
      step r (set_putters (putters r ++ [(m, false)]) (put_add_worker r))
  | step_put_wake r p1 p2 m ws :
      putters r = p1 ++ (m, true) :: p2 →
      queue_full r = false → notify_one (workers r) ws →
      step r (set_workers ws (push_input m (set_putters (p1 ++ p2) r)))
  | step_put_rewait r p1 p2 m :
      putters r = p1 ++ (m, true) :: p2 → queue_full r = true →
      step r (set_putters (p1 ++ (m, false) :: p2) r)
  | step_cleanup r : step r (cleanup r)
  | step_deliver r r' : socketNotify_pop r = Some r' → step r r'
  | step_stop r : step r (stop r).

Inductive reachable (min_threads : nat) : Rep → Prop :=
  | reach_init : reachable min_threads (init min_threads)
  | reach_step r r' : reachable min_threads r → step r r' →
      reachable min_threads r'.

(** ** Invariants *)

Definition is_waiting (w : worker) : nat :=
  match w with Waiting _ => 1 | _ => 0 end.
Definition is_asleep (w : worker) : nat :=
  match w with Waiting false => 1 | _ => 0 end.
Definition is_notified (w : worker) : nat :=
  match w with Waiting true => 1 | _ => 0 end.
Definition is_exited (w : worker) : nat :=
  match w with Exited => 1 | _ => 0 end.
Definition holds (w : worker) : list Msg :=
  match w with Busy m | Handled m _ => [m] | _ => [] end.
Definition out_ok (w : worker) : Prop :=
  match w with Handled m out => out = handle m | _ => True end.

(** Thread and queue counters. *)
Record counters_ok (min_threads : nat) (r : Rep) : Prop := {
  threads_count : m_no_threads r = Z.of_nat (length (workers r));
  waiting_count :
    m_waiting_threads r = Z.of_nat (sum_list_with is_waiting (workers r));
  threads_min : Z.of_nat min_threads ≤ m_no_threads r;
  threads_max : m_no_threads r ≤ Z.max (Z.of_nat min_threads) max_threads;
  input_bound :
    Z.of_nat (length (m_input r)) ≤ m_no_threads r * queue_size_per_thread
}.

(** Where every message is. *)
Record messages_ok (r : Rep) : Prop := {
  queued_split : h_queued r ≡ₚ h_taken r ++ m_input r ++ h_cleaned r;
  fifo : h_taken r ++ m_input r `sublist_of` h_queued r;
  taken_split : h_taken r ≡ₚ (workers r ≫= holds) ++ h_handled r;
  results : h_delivered r ++ m_output r = handle <$> h_handled r;
  outs_ok : Forall out_ok (workers r)
}.

(** A sleeping worker means that the queue is covered by workers already
    woken, and a worker leaves only when the pool is stopped. *)
Record wakeup_ok (r : Rep) : Prop := {
  covered : (0 < sum_list_with is_asleep (workers r))%nat →
    m_stop_flag r = false ∧
    (length (m_input r) ≤ sum_list_with is_notified (workers r))%nat;
  exited : (0 < sum_list_with is_exited (workers r))%nat → m_stop_flag r = true
}.

Lemma holds_swap l1 l2 w w' m :
  holds w = [m] → holds w' = [] →
  (l1 ++ w :: l2) ≫= holds ≡ₚ m :: ((l1 ++ w' :: l2) ≫= holds).
Proof.
  intros Hw Hw'. rewrite !bind_app. cbn. rewrite Hw, Hw'. cbn.
  symmetry. apply Permutation_middle.
Qed.
Lemma holds_keep l1 l2 w w' :
  holds w = holds w' → (l1 ++ w :: l2) ≫= holds = (l1 ++ w' :: l2) ≫= holds.
Proof. intros H. rewrite !bind_app. cbn. by rewrite H. Qed.

(** [notify_one] only flips a flag. *)
Lemma notify_one_spec ws ws' :
  notify_one ws ws' →
  length ws' = length ws ∧
  sum_list_with is_waiting ws' = sum_list_with is_waiting ws ∧
  ws' ≫= holds = ws ≫= holds ∧
  (Forall out_ok ws → Forall out_ok ws') ∧
  sum_list_with is_exited ws' = sum_list_with is_exited ws ∧
  ((0 < sum_list_with is_asleep ws')%nat →
   (0 < sum_list_with is_asleep ws)%nat ∧
   sum_list_with is_notified ws' = S (sum_list_with is_notified ws)).
Proof.
  intros [ws0 Hn|l1 l2].
  - assert (H0 : sum_list_with is_asleep ws0 = 0%nat).
    { induction ws0 as [|w ws0 IH]; simpl; [done|].
      apply not_elem_of_cons in Hn as [Hw Hn].
      destruct w as [|[]| | |]; simpl; auto; done. }
    rewrite H0. repeat split; auto; lia.
  - rewrite !length_app, !sum_list_with_app. cbn.
    repeat split; auto; [by rewrite !bind_app| |lia..].
    rewrite !Forall_app, !Forall_cons. simpl. tauto.
Qed.

Lemma cleanup_input_spec l kept gone :
  cleanup_input l = (kept, gone) →
  l ≡ₚ kept ++ gone ∧ kept `sublist_of` l ∧ (length kept ≤ length l)%nat.
Proof.
  revert kept gone. induction l as [|m l IH]; intros kept gone; simpl.
  - intros [= <- <-]. done.
  - destruct (cleanup_input l) as [k g]. destruct (IH k g eq_refl) as (Hp & Hs & Hl).
    destruct (cleanup_msg m); intros [= <- <-]; simpl.
    + repeat split; [|by constructor|lia].
      rewrite Hp. apply Permutation_middle.
    + repeat split; [by rewrite Hp|by constructor|lia].
Qed.

Lemma try_take_spec r w r' :
  try_take r = Some (w, r') →
  (m_stop_flag r = true ∧ w = Exited ∧ r' = r) ∨
  (m_stop_flag r = false ∧ ∃ m l, m_input r = m :: l ∧ w = Busy m ∧
     r' = notify_full (mk_Rep l (m_output r) (m_stop_flag r) (m_no_threads r)
        (m_waiting_threads r) (workers r) (putters r) (h_queued r)
        (h_taken r ++ [m]) (h_cleaned r) (h_handled r) (h_delivered r))).
Proof.
  unfold try_take. destruct (m_stop_flag r) eqn:Hs; [intros [= <- <-]; by left|].
  destruct (m_input r) as [|m l] eqn:Hi; [done|].
  intros [= <- <-]. right. split; [done|]. exists m, l. done.
Qed.
Lemma try_take_None r :
  try_take r = None → m_stop_flag r = false ∧ m_input r = [].
Proof. unfold try_take. by destruct (m_stop_flag r), (m_input r). Qed.

(** Case analysis of a step into the branches of the code. *)
Ltac step_cases :=
  repeat match goal with
  | H : run_enter _ = _ |- _ => unfold run_enter in H
  | H : run_wake _ = _ |- _ => unfold run_wake in H
  | H : run_handle _ _ = _ |- _ => unfold run_handle in H; simplify_eq
  | H : run_output _ _ _ = _ |- _ => unfold run_output in H; simplify_eq
  | H : context [match try_take ?r with _ => _ end] |- _ =>
      let E := fresh "Htake" in destruct (try_take r) as [[? ?]|] eqn:E; simplify_eq
  | H : try_take _ = Some _ |- _ =>
      apply try_take_spec in H as [(? & -> & ->)|(? & ? & ? & ? & -> & ->)]
  | H : try_take _ = None |- _ => apply try_take_None in H as [? ?]
  end.

Section bounded.
Context (min_threads : nat).
Hypothesis (Hmax :
  Z.max (Z.of_nat min_threads) max_threads * queue_size_per_thread ≤ UINT_MAX).

Lemma put_add_worker_ok r :
  counters_ok min_threads r → counters_ok min_threads (put_add_worker r).
Proof.
  unfold put_add_worker. intros [].
  destruct (_ && _) eqn:E; [|done]. apply andb_true_iff in E as [_ E%Z.ltb_lt].
  split; simpl; rewrite ?length_app, ?sum_list_with_app; simpl;
    unfold queue_size_per_thread in *; lia.
Qed.
Lemma queue_full_false r :
  counters_ok min_threads r → queue_full r = false →
  Z.of_nat (length (m_input r)) < m_no_threads r * queue_size_per_thread.
Proof.
  intros [] Hq. unfold queue_full in Hq. apply Z.leb_gt in Hq.
  unfold queue_size_per_thread in *. rewrite uint32_id in Hq by lia. lia.
Qed.
Lemma push_ok r m ws :
  counters_ok min_threads r → queue_full r = false → notify_one (workers r) ws →
  counters_ok min_threads (set_workers ws (push_input m r)).
Proof.
  intros Hok Hq Hn. pose proof (queue_full_false r Hok Hq) as Hlt.
  apply notify_one_spec in Hn as (Hlen & Hw & _). destruct Hok.
  split; simpl; rewrite ?length_app, ?Hlen, ?Hw; simpl; lia.
Qed.

Lemma sum_waiting_wake ws :
  sum_list_with is_waiting (wake <$> ws) = sum_list_with is_waiting ws.
Proof. induction ws as [|[] ws IH]; simpl in *; auto. Qed.

Lemma counters_step r r' :
  step r r' → counters_ok min_threads r → counters_ok min_threads r'.
Proof.
  intros Hstep Hok. destruct Hstep.
  all: try (destruct Hok as [Ht Hwt Hmin Hmx Hin]; step_cases;
    repeat match goal with H : workers _ = _ |- _ => rewrite H in * end;
    split; simpl in *;
    rewrite ?sum_list_with_app, ?length_app, ?length_cons in *; simpl in *;
    repeat match goal with H : m_input _ = _ |- _ => rewrite H in *; simpl in * end;
    unfold queue_size_per_thread in *; lia).
  - (* put *) apply push_ok; auto using put_add_worker_ok.
  - (* put, blocked *)
    destruct (put_add_worker_ok r Hok). split; simpl; done.
  - (* put, woken *)
    apply push_ok; [|done..]. destruct Hok. split; simpl; done.
  - (* cleanup *)
    unfold cleanup. destruct (cleanup_input (m_input r)) as [k g] eqn:E.
    apply cleanup_input_spec in E as (_ & _ & ?). destruct Hok.
    split; simpl; lia || done.
  - (* deliver *)
    unfold socketNotify_pop in H. destruct (m_output r); simplify_eq.
    destruct Hok. split; simpl; done.
  - (* stop *)
    destruct Hok. split; simpl; rewrite ?length_fmap, ?sum_waiting_wake; done.
Qed.

Lemma counters_init : counters_ok min_threads (init min_threads).
Proof.
  assert (H : ∀ n, m_no_threads (init n) = Z.of_nat n ∧
    length (workers (init n)) = n ∧
    sum_list_with is_waiting (workers (init n)) = 0%nat ∧
    m_waiting_threads (init n) = 0 ∧ m_input (init n) = []).
  { unfold init. induction n as [|n IH]; [done|]. destruct IH as (H1 & H2 & H3 & H4 & H5).
    simpl. rewrite length_app, sum_list_with_app. simpl. repeat split; lia || done. }
  destruct (H min_threads) as (H1 & H2 & H3 & H4 & H5).
  split; rewrite ?H1, ?H2, ?H3, ?H4, ?H5; simpl; unfold queue_size_per_thread; lia.
Qed.
Lemma counters_reachable r : reachable min_threads r → counters_ok min_threads r.
Proof. induction 1; eauto using counters_init, counters_step. Qed.
End bounded.
(** *** Where the messages are *)

Lemma init_workers n :
  Forall (λ w, w = Idle) (workers (init n)) ∧ m_input (init n) = [] ∧
  m_output (init n) = [] ∧ h_queued (init n) = [] ∧ h_taken (init n) = [] ∧
  h_cleaned (init n) = [] ∧ h_handled (init n) = [] ∧ h_delivered (init n) = [].
Proof.
  unfold init. induction n as [|n IH]; [done|].
  destruct IH as (H & ?). simpl. split; [|done].
  apply Forall_app. by split; [|constructor].
Qed.
Lemma holds_idle ws : Forall (λ w, w = Idle) ws → ws ≫= holds = [].
Proof. induction 1 as [|w ws -> _ IH]; done. Qed.
Lemma messages_init n : messages_ok (init n).
Proof.
  destruct (init_workers n) as (H & H1 & H2 & H3 & H4 & H5 & H6 & H7).
  split; rewrite ?H1, ?H2, ?H3, ?H4, ?H5, ?H6, ?H7, ?holds_idle; try done.
  eapply Forall_impl; [exact H|]. by intros w ->.
Qed.

(** Changing one worker that holds nothing into another that holds nothing,
    the rest being the same. *)
Lemma messages_worker r l1 l2 w w' r' :
  workers r = l1 ++ w :: l2 → holds w = holds w' → (out_ok w → out_ok w') →
  h_queued r' = h_queued r → h_taken r' = h_taken r → m_input r' = m_input r →
  h_cleaned r' = h_cleaned r → h_handled r' = h_handled r →
  h_delivered r' = h_delivered r → m_output r' = m_output r →
  messages_ok r → messages_ok (set_workers (l1 ++ w' :: l2) r').
Proof.
  intros Hw Hh Ho H1 H2 H3 H4 H5 H6 H7 [Hq Hf Ht Hr Hout].
  rewrite Hw in Ht, Hout.
  split; simpl; rewrite ?H1, ?H2, ?H3, ?H4, ?H5, ?H6, ?H7; try done.
  - by rewrite <-(holds_keep _ _ _ _ Hh).
  - revert Hout. rewrite !Forall_app, !Forall_cons. tauto.
Qed.
(** A worker takes the first message. *)
Lemma messages_take r l1 l2 w m l r' :
  workers r = l1 ++ w :: l2 → holds w = [] → m_input r = m :: l →
  h_queued r' = h_queued r → h_taken r' = h_taken r ++ [m] → m_input r' = l →
  h_cleaned r' = h_cleaned r → h_handled r' = h_handled r →
  h_delivered r' = h_delivered r → m_output r' = m_output r →
  messages_ok r → messages_ok (set_workers (l1 ++ Busy m :: l2) r').
Proof.
  intros Hw Hh Hi H1 H2 H3 H4 H5 H6 H7 [Hq Hf Ht Hr Hout].
  rewrite Hw in Ht, Hout. rewrite Hi in Hq, Hf.
  split; simpl; rewrite ?H1, ?H2, ?H3, ?H4, ?H5, ?H6, ?H7; try done.
  - by rewrite <-app_assoc.
  - by rewrite <-app_assoc.
  - rewrite (holds_swap l1 l2 (Busy m) w m) by done.
    rewrite Ht. simpl. symmetry. apply Permutation_cons_append.
  - revert Hout. rewrite !Forall_app, !Forall_cons. simpl. tauto.
Qed.
(** Its result is queued. *)
Lemma messages_output r l1 l2 m out :
  workers r = l1 ++ Handled m out :: l2 → messages_ok r →
  messages_ok (set_workers (l1 ++ Idle :: l2) (run_output m out r).2).
Proof.
  intros Hw [Hq Hf Ht Hr Hout]. rewrite Hw in Ht, Hout.
  apply Forall_app in Hout as [Ho1 [Ho Ho2]%Forall_cons]. simpl in Ho. subst out.
  split; simpl; try done.
  - rewrite Ht, (holds_swap l1 l2 _ Idle m) by done. simpl.
    rewrite app_assoc. apply Permutation_cons_append.
  - by rewrite app_assoc, Hr, fmap_app.
  - rewrite Forall_app, Forall_cons. done.
Qed.
(** A message is queued and perhaps a worker notified. *)
Lemma messages_push r m ws :
  notify_one (workers r) ws → messages_ok r →
  messages_ok (set_workers ws (push_input m r)).
Proof.
  intros (_ & _ & Hh & Ho & _ & _)%notify_one_spec [Hq Hf Ht Hr Hout].
  split; simpl; try done; auto.
  - rewrite Hq. solve_Permutation.
  - rewrite app_assoc. by apply sublist_app.
  - by rewrite Hh.
Qed.
Lemma messages_add_worker r : messages_ok r → messages_ok (put_add_worker r).
Proof.
  unfold put_add_worker. destruct (_ && _); [|done]. intros [].
  split; simpl; try done; rewrite ?bind_app, ?Forall_app; cbn;
    rewrite ?app_nil_r, ?Forall_singleton; simpl; auto.
Qed.

Lemma messages_step r r' : step r r' → messages_ok r → messages_ok r'.
Proof.
  intros Hstep Hok. destruct Hstep; step_cases.
  all: try (eapply messages_worker; eauto; done).
  all: try (eapply messages_take; eauto; done).
  - by apply (messages_output r l1 l2 m out).
  - apply messages_push; auto using messages_add_worker.
  - by destruct (messages_add_worker r Hok).
  - apply messages_push; [done|]. by destruct Hok.
  - by destruct Hok.
  - unfold cleanup. destruct (cleanup_input (m_input r)) as [k g] eqn:E.
    apply cleanup_input_spec in E as (Hp & Hs & _). destruct Hok as [Hq Hf Ht Hr Ho].
    split; simpl; try done.
    + rewrite Hq, Hp. solve_Permutation.
    + etrans; [|exact Hf]. by apply sublist_app.
  - unfold socketNotify_pop in H. destruct (m_output r) eqn:E; simplify_eq.
    destruct Hok as [Hq Hf Ht Hr Ho]. rewrite E in Hr.
    split; simpl; try done. by rewrite <-app_assoc.
  - destruct Hok as [Hq Hf Ht Hr Ho]. split; simpl; try done.
    + rewrite Ht. f_equiv. clear. induction (workers r) as [|[] ws IH]; cbn; auto.
      all: by f_equal.
    + apply Forall_fmap. eapply Forall_impl; [exact Ho|]. by intros [].
Qed.
Lemma messages_reachable n r : reachable n r → messages_ok r.
Proof. induction 1; eauto using messages_init, messages_step. Qed.
(** *** No wake-up is lost *)

Lemma sum_wake_asleep ws : sum_list_with is_asleep (wake <$> ws) = 0%nat.
Proof. induction ws as [|[] ws IH]; simpl in *; auto. Qed.
Lemma sum_wake_exited ws :
  sum_list_with is_exited (wake <$> ws) = sum_list_with is_exited ws.
Proof. induction ws as [|[] ws IH]; simpl in *; auto. Qed.

Lemma wakeup_init n : wakeup_ok (init n).
Proof.
  destruct (init_workers n) as (H & _).
  assert (H0 : sum_list_with is_asleep (workers (init n)) = 0%nat ∧
    sum_list_with is_exited (workers (init n)) = 0%nat).
  { induction H as [|w ws -> _ IH]; done. }
  split; lia.
Qed.
Lemma wakeup_add_worker r : wakeup_ok r → wakeup_ok (put_add_worker r).
Proof.
  unfold put_add_worker. destruct (_ && _); [|done]. intros [].
  split; simpl; rewrite !sum_list_with_app; simpl; rewrite !Nat.add_0_r; done.
Qed.
Lemma wakeup_push r m ws :
  notify_one (workers r) ws → wakeup_ok r →
  wakeup_ok (set_workers ws (push_input m r)).
Proof.
  intros (_ & _ & _ & _ & He & Ha)%notify_one_spec [Hc Hx].
  split; simpl; [|by rewrite He].
  intros [Ha1 Ha2]%Ha. destruct (Hc Ha1). split; [done|].
  rewrite length_app. simpl. lia.
Qed.
Lemma wakeup_step r r' : step r r' → wakeup_ok r → wakeup_ok r'.
Proof.
  intros Hstep Hok. destruct Hstep; step_cases.
  all: try (destruct Hok as [Hc Hx];
    repeat match goal with H : workers _ = _ |- _ => rewrite H in * end;
    split; simpl; rewrite !sum_list_with_app in *; simpl in *;
    repeat match goal with H : m_input _ = _ |- _ => rewrite H in *; simpl in * end;
    intros ?; try (destruct Hc; [lia|]); try (specialize (Hx ltac:(lia)));
    split_and?; simpl; try congruence; lia).
  - apply wakeup_push; auto using wakeup_add_worker.
  - by destruct (wakeup_add_worker r Hok).
  - apply wakeup_push; [done|]. by destruct Hok.
  - by destruct Hok.
  - unfold cleanup. destruct (cleanup_input (m_input r)) as [k g] eqn:E.
    apply cleanup_input_spec in E as (_ & _ & Hl). destruct Hok as [Hc Hx].
    split; simpl; [|done]. intros Ha. destruct (Hc Ha). split; [done|lia].
  - unfold socketNotify_pop in H. destruct (m_output r); simplify_eq.
    by destruct Hok.
  - destruct Hok. split; simpl; rewrite ?sum_wake_asleep; [lia|done].
Qed.
Lemma wakeup_reachable n r : reachable n r → wakeup_ok r.
Proof. induction 1; eauto using wakeup_init, wakeup_step. Qed.
(** ** Properties *)

Lemma sum_waiting_le ws : (sum_list_with is_waiting ws ≤ length ws)%nat.
Proof. induction ws as [|[] ws IH]; simpl; lia. Qed.

(** In every interleaving of workers and callers, the pool never has
    fewer threads than [min_threads] nor more than the larger of the two
    configured bounds; the counter is the number of threads started; the input
    queue never holds more than 64 messages per thread; and the figures
    [get_thread_info] reports satisfy 0 ≤ tbusy ≤ total (no unsigned
    wrap-around of the waiting counter). *)
Theorem thread_pool_bounds (min_threads : nat) (r : Rep)
    (Hmax : Z.max (Z.of_nat min_threads) max_threads * queue_size_per_thread ≤
            UINT_MAX)
    (Hr : reachable min_threads r) :
  Z.of_nat min_threads ≤ m_no_threads r ≤ Z.max (Z.of_nat min_threads) max_threads ∧
  m_no_threads r = Z.of_nat (length (workers r)) ∧
  Z.of_nat (length (m_input r)) ≤ m_no_threads r * 64 ∧
  let '(tbusy, total) := get_thread_info r in 0 ≤ tbusy ≤ total.
Proof.
  destruct (counters_reachable min_threads Hmax r Hr) as [Ht Hw H1 H2 H3].
  unfold queue_size_per_thread in H3. simpl.
  pose proof (sum_waiting_le (workers r)). lia.
Qed.

(** C3. No message is lost, duplicated or reordered by the queue: at every
    moment each queued message is in exactly one place (still queued, dropped
    by [cleanup], being handled, or handled); messages are taken in the order
    in which they were queued; and the results delivered to the socket thread,
    followed by those waiting for it, are exactly the results of the handled
    messages in the order in which they were finished. *)
Theorem thread_pool_exactly_once (min_threads : nat) (r : Rep)
    (Hr : reachable min_threads r) :
  h_queued r ≡ₚ
    h_handled r ++ (workers r ≫= holds) ++ m_input r ++ h_cleaned r ∧
  h_taken r ++ m_input r `sublist_of` h_queued r ∧
  h_delivered r ++ m_output r = handle <$> h_handled r.
Proof.
  destruct (messages_reachable _ _ Hr) as [Hq Hf Ht Ho _].
  split_and!; [|done..]. rewrite Hq, Ht. solve_Permutation.
Qed.

(** C34. No wake-up is lost: in every reachable state in which a worker
    sleeps on the condition variable, the pool has not been stopped and every
    queued message already has a woken worker on its way; hence a non-empty
    queue always has a worker that is awake and has not left its loop. *)
Theorem thread_pool_no_lost_wakeup (min_threads : nat) (r : Rep)
    (Hr : reachable min_threads r) :
  (Waiting false ∈ workers r →
   m_stop_flag r = false ∧
   (length (m_input r) ≤ sum_list_with is_notified (workers r))%nat) ∧
  (m_input r ≠ [] → m_stop_flag r = false → workers r ≠ [] →
   ∃ w, w ∈ workers r ∧ w ≠ Waiting false ∧ w ≠ Exited).
Proof.
  destruct (wakeup_reachable _ _ Hr) as [Hc Hx].
  assert (Hin : ∀ f (w : worker) ws, w ∈ ws → (f w ≤ sum_list_with f ws)%nat).
  { intros f w ws. induction 1; simpl; lia. }
  assert (Ha : Waiting false ∈ workers r →
    (0 < sum_list_with is_asleep (workers r))%nat).
  { intros H. apply (Hin is_asleep) in H. simpl in H. lia. }
  split; [auto|]. intros Hi Hs Hw.
  destruct (decide (0 < sum_list_with is_notified (workers r))%nat) as [Hn|Hn].
  - exists (Waiting true). split; [|done]. revert Hn. clear.
    induction (workers r) as [|[|[]| | |] ws IH]; simpl; try lia;
      intros; rewrite elem_of_cons; auto.
  - destruct (workers r) as [|w ws] eqn:E; [done|].
    exists w. split; [left|]. split; intros ->.
    + destruct Hc as [_ Hl]; [simpl; lia|]. destruct (m_input r); simpl in *; [done|lia].
    + rewrite Hx in Hs; [done|simpl; lia].
Qed.

Lemma reach_cat n r r' r'' : reachable n r → step r r' → r' = r'' → reachable n r''.
Proof. intros ? ? <-. by eapply reach_step. Qed.
End pool.

(** A run: one worker goes to sleep, a message is put, the worker is woken
    and takes it. *)
Section example.
Let hd (m : nat) : option nat := Some (S m).
Let cl (m : nat) : bool := false.

Definition run_busy : @Rep nat :=
  mk_Rep [] [] false 1 0 [Busy 7%nat] [] [7%nat] [7%nat] [] [] [].
Lemma run_busy_reachable : reachable hd cl 2 1 run_busy.
Proof.
  eapply reach_cat; [eapply reach_cat; [eapply reach_cat; [apply reach_init|
    by apply (step_enter hd cl 2 _ [] []) |reflexivity]|
    apply (step_put hd cl 2 _ 7%nat [Waiting true])|reflexivity]|
    by apply (step_wake hd cl 2 _ [] [])|reflexivity].
  - reflexivity.
  - apply (notify_some [] []).
Qed.
End example.

Lemma thread_pool_bounds_witness :
  ∃ r : @Rep nat, m_no_threads r = 1 ∧ 1 ≤ m_no_threads r ≤ 2.
Proof.
  exists run_busy. split; [reflexivity|].
  destruct (thread_pool_bounds (λ m : nat, Some (S m)) (λ _, false) 2 1 run_busy)
    as [H _]; [vm_compute; discriminate|apply run_busy_reachable|exact H].
Defined.
Lemma thread_pool_exactly_once_witness :
  h_queued run_busy ≡ₚ [7%nat] ∧ (workers run_busy ≫= holds) = [7%nat].
Proof.
  destruct (thread_pool_exactly_once (λ m : nat, Some (S m)) (λ _, false) 2 1 run_busy)
    as [H _]; [apply run_busy_reachable|]. split; [exact H|reflexivity].
Defined.
Lemma thread_pool_no_lost_wakeup_witness :
  m_input (push_input 8%nat run_busy) ≠ [] ∧
  ∃ w, w ∈ workers (push_input 8%nat run_busy) ∧ w ≠ Waiting false ∧ w ≠ Exited.
Proof.
  split; [done|].
  destruct (thread_pool_no_lost_wakeup (λ m : nat, Some (S m)) (λ _, false) 1 1
    (push_input 8%nat run_busy)) as [_ H]; [|by apply H].
  eapply reach_cat; [eapply reach_cat; [eapply reach_cat; [eapply reach_cat;
    [apply reach_init|by apply (step_enter _ _ 1 _ [] [])|reflexivity]|
    apply (step_put _ _ 1 _ 7%nat [Waiting true]); [reflexivity|apply (notify_some [] [])]
    |reflexivity]|
    by apply (step_wake _ _ 1 _ [] [])|reflexivity]|
    apply (step_put _ _ 1 _ 8%nat [Busy 7%nat]); [reflexivity|apply notify_none]
    |reflexivity].
  intros H. vm_compute in H. inversion H as [|? ? ? H2]; inversion H2.
Defined.
