(* ===== verification/PoolSocket.v ===== *)
(** * The thread pool and the socket thread

    [src/thread_pool_observer.cpp] again, now with the pipe through which the
    workers wake the socket thread, the lock of the output queue, which a
    worker holds while it writes to the pipe, and the destructor, which joins
    the workers. Every step here is one of ThreadPool or changes only the pipe
    and the lock, so that what ThreadPool shows holds here as well. *)
From S2P Require Import Prelude ThreadPool.

Module PoolSocket.
Section pool_socket.
Context {Msg : Type} (handle : Msg → option Msg) (cleanup_msg : Msg → bool).
Context (max_threads : Z).
(** How many bytes the pipe holds; [write] blocks when it is full. *)
Context (capacity : nat).
Notation Pool := (Rep (Msg := Msg)).
Notation pool_step := (ThreadPool.step handle cleanup_msg max_threads).

(** ** State *)

(** The socket thread: in [select], in the loop of [socketNotify], in
    [join_all], and after it. It is in [put] if the pool has putters. *)
Inductive Sock : Type := Select | Draining | Joining | Joined.
Record Sys : Type := mk_Sys {
  pool : Pool;
  bytes : nat;                      (* in [m_pipe] *)
  output_lock : option nat;         (* the worker that holds [m_mutex_output_data] *)
  sock : Sock
}.
Definition init (min_threads : nat) : Sys :=
  mk_Sys (ThreadPool.init min_threads) 0 None Select.

(** ** Steps *)

(** What a worker does in [run] up to its result. *)
Definition run (w : worker) (r : Pool) : option (worker * Pool) :=
  match w with
  | Idle => Some (run_enter r)
  | Waiting true => Some (run_wake r)
  | Waiting false => Some (Waiting true, r)
  | Busy m => Some (run_handle handle m r)
  | Handled _ _ | Exited => None
  end.
Inductive worker_step : Pool → Pool → Prop :=
  | w_run r l1 l2 w w' r' : workers r = l1 ++ w :: l2 → run w r = Some (w', r') →
      worker_step r (set_workers (l1 ++ w' :: l2) r').
(** [put] and [cleanup], which only the socket thread calls. *)
Inductive caller_step : Pool → Pool → Prop :=
  | c_put r m ws : putters r = [] → queue_full (put_add_worker max_threads r) = false →
      notify_one (workers (put_add_worker max_threads r)) ws →
      caller_step r (set_workers ws (push_input m (put_add_worker max_threads r)))
  | c_block r m : putters r = [] → queue_full (put_add_worker max_threads r) = true →
      caller_step r (set_putters (putters r ++ [(m, false)]) (put_add_worker max_threads r))
  | c_wake r m ws : putters r = [(m, true)] → queue_full r = false →
      notify_one (workers r) ws →
      caller_step r (set_workers ws (push_input m (set_putters [] r)))
  | c_rewait r m : putters r = [(m, true)] → queue_full r = true →
      caller_step r (set_putters [(m, false)] r)
  | c_cleanup r : putters r = [] → caller_step r (cleanup cleanup_msg r).

(** A worker queues its result when it has the lock and room in the pipe; the
    write does not fail. The socket thread reads one byte and then delivers
    what there is. *)
Inductive step : Sys → Sys → Prop :=
  | s_worker r r' b lk sk : worker_step r r' → step (mk_Sys r b lk sk) (mk_Sys r' b lk sk)
  | s_lock r b sk i m out : workers r !! i = Some (Handled m out) →
      step (mk_Sys r b None sk) (mk_Sys r b (Some i) sk)
  | s_write r b sk l1 l2 m out w r' : workers r = l1 ++ Handled m out :: l2 →
      run_output m out r = (w, r') → (b < capacity)%nat →
      step (mk_Sys r b (Some (length l1)) sk)
        (mk_Sys (set_workers (l1 ++ w :: l2) r') (S b) None sk)
  | s_call r r' b lk sk : sk = Select ∨ sk = Draining → caller_step r r' →
      step (mk_Sys r b lk sk) (mk_Sys r' b lk sk)
  | s_read r b lk : putters r = [] → step (mk_Sys r (S b) lk Select) (mk_Sys r b lk Draining)
  | s_pop r r' b : putters r = [] → socketNotify_pop r = Some r' →
      step (mk_Sys r b None Draining) (mk_Sys r' b None Draining)
  | s_empty r b : putters r = [] → m_output r = [] →
      step (mk_Sys r b None Draining) (mk_Sys r b None Select)
  | s_stop r b lk : putters r = [] → step (mk_Sys r b lk Select) (mk_Sys (stop r) b lk Joining)
  | s_join r b lk : Forall (λ w, w = Exited) (workers r) →
      step (mk_Sys r b lk Joining) (mk_Sys r b lk Joined).
Definition reachable (min_threads : nat) (s : Sys) : Prop := rtc step (init min_threads) s.

(** ** Lemmas *)
#[local] Hint Constructors ThreadPool.step : pool.
Lemma worker_pool r r' : worker_step r r' → pool_step r r'.
Proof.
  intros [r0 l1 l2 w w' r1 Hw Hrun]. destruct w as [|[]|m|m out|]; cbn in Hrun; simplify_eq;
    eauto with pool.
Qed.
Lemma caller_pool r r' : caller_step r r' → pool_step r r'.
Proof.
  intros [r0 m ws _ Hq Hn|r0 m _ Hq|r0 m ws Hp Hq Hn|r0 m Hp Hq|r0 _]; eauto with pool.
  - by apply (step_put_wake _ _ _ _ [] []).
  - by apply (step_put_rewait _ _ _ _ [] []).
Qed.
(** Every step is a step of the pool, or leaves it alone. *)
Lemma step_pool s s' : step s s' → pool s' = pool s ∨ pool_step (pool s) (pool s').
Proof.
  intros []; cbn; auto; right; eauto using worker_pool, caller_pool with pool.
Qed.
(** What does not change the output queue. *)
Lemma worker_output r r' : worker_step r r' → m_output r' = m_output r ∧ m_stop_flag r' = m_stop_flag r.
Proof.
  intros [r0 l1 l2 w w' r1 Hw Hrun].
  assert (H1 : m_output r1 = m_output r0 ∧ m_stop_flag r1 = m_stop_flag r0); [|by destruct r1].
  destruct w as [|[]|m|m out|]; cbn in Hrun; simplify_eq; try done;
    unfold run_enter, run_wake, run_handle, try_take in *;
    repeat case_match; simplify_eq; done.
Qed.
Lemma caller_output r r' : caller_step r r' → m_output r' = m_output r.
Proof.
  intros []; unfold cleanup, put_add_worker, add_worker; repeat case_match; done.
Qed.

(** ** Properties *)

(** The pool with its pipe and lock is the pool: whatever this system does is
    a run of the transition system of ThreadPool. *)
Theorem pool_simulates n s (Hr : reachable n s) : ThreadPool.reachable handle cleanup_msg max_threads n (pool s).
Proof.
  revert s Hr. apply rtc_ind_r; [apply reach_init|]. intros s s' _ Hs IH.
  apply step_pool in Hs as [->|Hs]; eauto using reach_step.
Qed.

Lemma announced n s : reachable n s →
  (m_output (pool s) ≠ [] → (0 < bytes s)%nat ∨ sock s = Draining) ∧ (bytes s ≤ capacity)%nat.
Proof.
  revert s. apply rtc_ind_r.
  { split; [|cbn; lia]. cbn. unfold ThreadPool.init. by induction n. }
  intros s s' _ Hs [IH Hb]. destruct Hs; cbn in *.
  - apply worker_output in H as [-> _]. auto.
  - auto.
  - split; [left|]; lia.
  - apply caller_output in H0 as ->. auto.
  - split; [by right|lia].
  - split; [by right|done].
  - split; [by rewrite H0|done].
  - split; [|done]. intros Ho. destruct (IH Ho) as [?|?]; [by left|done].
  - split; [|done]. intros Ho. destruct (IH Ho) as [?|?]; [by left|done].
Qed.
(** C4. No result is left behind: while one is queued the pipe has a byte that
    makes the socket thread come, or it is there already. When it sleeps for
    want of bytes and no worker is at work, every message that was taken has
    been answered. *)
Theorem results_announced n s (Hr : reachable n s) :
  (m_output (pool s) ≠ [] → (0 < bytes s)%nat ∨ sock s = Draining) ∧
  (sock s = Select → bytes s = O → (workers (pool s) ≫= holds) = [] →
   h_delivered (pool s) ≡ₚ handle <$> h_taken (pool s)).
Proof.
  pose proof (announced n s Hr) as [Ha _]. split; [done|]. intros Hs Hb Hw.
  destruct (messages_reachable _ _ _ _ _ (pool_simulates n s Hr)) as [_ _ Ht Ho _].
  rewrite Ht, Hw. cbn. rewrite <-Ho. destruct (m_output (pool s)) eqn:E; [by rewrite app_nil_r|].
  destruct Ha as [?|?]; [done|lia|congruence].
Qed.

(** *** Joining *)

(** The lock belongs to a worker with a result, and who joins has stopped the
    pool. *)
Record joining_ok (s : Sys) : Prop := {
  lock_held : ∀ i, output_lock s = Some i → ∃ m out, workers (pool s) !! i = Some (Handled m out);
  stopped : sock s = Joining → m_stop_flag (pool s) = true;
  not_in_put : sock s = Joining → putters (pool s) = []
}.
Definition left_of (w : worker (Msg := Msg)) : nat :=
  match w with
  | Busy _ => 5 | Handled _ _ => 4 | Waiting false => 2 | Idle | Waiting true => 1 | Exited => 0
  end.
(** How many steps the workers have left when the pool is stopped. *)
Definition left_steps (s : Sys) : nat :=
  sum_list_with left_of (workers (pool s)) + if output_lock s then 0 else 1.
(** A worker with a result keeps its place, whatever the others do. *)
Definition keeps (ws ws' : list (worker (Msg := Msg))) : Prop :=
  ∀ i m out, ws !! i = Some (Handled m out) → ws' !! i = Some (Handled m out).
Lemma keeps_middle l1 l2 w w' : (∀ m out, w ≠ Handled m out) →
  keeps (l1 ++ w :: l2) (l1 ++ w' :: l2).
Proof.
  intros Hw i m out. destruct (decide (i = length l1)) as [->|Hi].
  - rewrite !list_lookup_middle by done. intros [= ->]. by destruct (Hw m out).
  - destruct (decide (i < length l1)%nat); [by rewrite !lookup_app_l by lia|].
    rewrite !lookup_app_r by lia. by destruct (i - length l1)%nat eqn:?; [lia|].
Qed.
Lemma keeps_notify ws ws' : notify_one ws ws' → keeps ws ws'.
Proof. intros [|l1 l2]; [by intros ????|by apply keeps_middle]. Qed.
Lemma keeps_add r : keeps (workers r) (workers (put_add_worker max_threads r)).
Proof.
  unfold put_add_worker. case_match; [|by intros ????]. intros i m out Hi. cbn.
  by apply lookup_app_l_Some.
Qed.
Lemma run_workers w r w' r' : run w r = Some (w', r') →
  workers r' = workers r ∧ (∀ m out, w ≠ Handled m out).
Proof.
  destruct w as [|[]|m|m out|]; cbn; intros; simplify_eq; split; try done;
    unfold run_enter, run_wake, run_handle, try_take in *; repeat case_match; simplify_eq; done.
Qed.
Lemma worker_keeps r r' : worker_step r r' → keeps (workers r) (workers r').
Proof.
  intros [r0 l1 l2 w w' r1 Hw Hrun]. apply run_workers in Hrun as [_ Hne]. rewrite Hw. cbn.
  by apply keeps_middle.
Qed.
Lemma caller_keeps r r' : caller_step r r' → keeps (workers r) (workers r').
Proof.
  intros []; cbn.
  - intros i m0 out Hi. apply (keeps_notify _ _ H1). by apply keeps_add.
  - apply keeps_add.
  - by apply keeps_notify.
  - by intros ????.
  - unfold cleanup. destruct (cleanup_input cleanup_msg _). by intros ????.
Qed.
Lemma worker_putters r r' : worker_step r r' → m_stop_flag r = true → putters r = [] → putters r' = [].
Proof.
  intros [r0 l1 l2 w w' r1 Hw Hrun] Hs Hp. cbn.
  destruct w as [|[]|m|m out|]; cbn in Hrun; simplify_eq; try done;
    unfold run_enter, run_wake, run_handle, try_take in *; repeat case_match; simplify_eq; done.
Qed.
Lemma joining_reachable n s : reachable n s → joining_ok s.
Proof.
  revert s. apply rtc_ind_r; [by split|]. intros s s' _ Hs [Hl Hj Hp]. destruct Hs; cbn in *;
    split; cbn; try done; try naive_solver.
  - intros i Hi. destruct (Hl i Hi) as (m & out & Hw). exists m, out. by apply (worker_keeps _ _ H).
  - intros ->. apply worker_output in H as [_ ->]. auto.
  - intros ->. by apply (worker_putters _ _ H); auto.
  - by unfold run_output in *; simplify_eq.
  - by unfold run_output in *; simplify_eq.
  - intros i Hi. destruct (Hl i Hi) as (m & out & Hw). exists m, out. by apply (caller_keeps _ _ H0).
  - intros i Hi. destruct (Hl i Hi) as (m & out & Hw). exists m, out.
    by rewrite list_lookup_fmap, Hw.
Qed.

Lemma worker_left r r' : worker_step r r' → m_stop_flag r = true →
  (sum_list_with left_of (workers r') < sum_list_with left_of (workers r))%nat.
Proof.
  intros [r0 l1 l2 w w' r1 Hw Hrun] Hs. rewrite Hw. cbn. rewrite !sum_list_with_app. cbn.
  assert (left_of w' < left_of w)%nat; [|lia].
  destruct w as [|[]|m|m out|]; cbn in Hrun; simplify_eq; cbn; try lia;
    unfold run_enter, run_wake, run_handle, try_take in *; rewrite ?Hs in *; simplify_eq; cbn; lia.
Qed.
Lemma moves n s w : reachable n s → w ∈ workers (pool s) → w ≠ Exited →
  (∃ s', step s s') ∨ (is_Some (output_lock s) ∧ bytes s = capacity).
Proof.
  intros Hr Hin Hne. destruct (joining_reachable n s Hr) as [Hl _ _].
  destruct (announced n s Hr) as [_ Hb]. apply list_elem_of_split in Hin as (l1 & l2 & Hw).
  destruct s as [r b [i|] sk]; cbn in *.
  - destruct (Hl i eq_refl) as (m & out & Hi). destruct (decide (b < capacity)%nat); [|right; split; [done|lia]].
    left. apply list_elem_of_split_length in Hi as (k1 & k2 & Hk & ->).
    eexists. by eapply s_write.
  - left. destruct (run w r) as [[w' r']|] eqn:Hrun.
    + eexists. by eapply s_worker, w_run.
    + destruct w as [|[]|m|m out|]; try done. eexists. apply (s_lock _ _ _ (length l1) m out).
      rewrite Hw. by apply list_lookup_middle.
Qed.
#[local] Instance exited_dec (w : worker (Msg := Msg)) : Decision (w = Exited).
Proof. destruct w; first [by left|by right]. Defined.
(** The destructor ends: every step brings the workers nearer to their end,
    and one of them has a step until all are gone and it returns, unless a
    worker that holds the lock finds the pipe full. *)
Theorem joining_ends n s (Hr : reachable n s) (Hj : sock s = Joining) :
  (∀ s', step s s' → (left_steps s' < left_steps s)%nat ∨
    (sock s' = Joined ∧ pool s' = pool s ∧ Forall (λ w, w = Exited) (workers (pool s)))) ∧
  ((∃ s', step s s') ∨ (is_Some (output_lock s) ∧ bytes s = capacity)).
Proof.
  destruct (joining_reachable n s Hr) as [_ Hstop _]. specialize (Hstop Hj). split.
  - intros s' Hs. destruct Hs; cbn in *; simplify_eq; try done; unfold left_steps; cbn.
    + left. apply worker_left in H; [lia|done].
    + left. lia.
    + left. rewrite H, !sum_list_with_app. unfold run_output in *. simplify_eq. cbn. lia.
    + by destruct H.
    + by right.
  - destruct (decide (Forall (λ w, w = Exited) (workers (pool s)))) as [Hx|Hx].
    + destruct s as [r b lk sk]. cbn in *. subst. left. eexists. by apply s_join.
    + apply not_Forall_Exists in Hx; [|apply _]. apply Exists_exists in Hx as (w & Hw & Hne).
      by apply (moves n s w).
Qed.
End pool_socket.

(** ** The full pipe

    [socketNotify] reads one byte and delivers all results, so that bytes stay
    behind. A worker that then finds the pipe full waits in [write] with the
    lock that [socketNotify] needs before it comes to read again. *)
Section full_pipe.
Context {Msg : Type} (handle : Msg → option Msg) (cleanup_msg : Msg → bool).
Context (capacity : nat) (m : Msg).
Notation Pool := (Rep (Msg := Msg)).
(** One worker, and histories that do not matter here. *)
Notation step := (step handle cleanup_msg 1 capacity).
Definition one_worker (input : list Msg) (output : list (option Msg)) (w : worker) (r : Pool) : Prop :=
  ∃ hq ht hh hd, r = mk_Rep input output false 1 0 [w] [] hq ht [] hh hd.
(** From any state of the first kind to one of the second. *)
Definition leads (i : list Msg) o w b lk sk i' o' w' b' lk' sk' : Prop :=
  ∀ r, one_worker i o w r → ∃ r', one_worker i' o' w' r' ∧
    rtc step (mk_Sys r b lk sk) (mk_Sys r' b' lk' sk').
Lemma leads_trans i o w b lk sk i1 o1 w1 b1 lk1 sk1 i2 o2 w2 b2 lk2 sk2 :
  leads i o w b lk sk i1 o1 w1 b1 lk1 sk1 → leads i1 o1 w1 b1 lk1 sk1 i2 o2 w2 b2 lk2 sk2 →
  leads i o w b lk sk i2 o2 w2 b2 lk2 sk2.
Proof.
  intros H1 H2 r Hr. destruct (H1 r Hr) as (r1 & Hr1 & Hs1). destruct (H2 r1 Hr1) as (r2 & Hr2 & Hs2).
  exists r2. split; [done|]. by etrans.
Qed.
Lemma leads_put i o w b lk : (length i < 64)%nat → w ≠ Waiting false →
  leads i o w b lk Select (i ++ [m]) o w b lk Select.
Proof.
  intros Hi Hw r (hq & ht & hh & hd & ->). eexists. split; [|apply rtc_once, s_call; [by left|]].
  2: { apply (c_put _ _ _ m [w]); [done|..].
       - apply Z.leb_gt. change (Z.of_nat (length i) < 64). lia.
       - constructor. intros Hin%list_elem_of_singleton. by apply Hw. }
  cbn. by do 4 eexists.
Qed.
Lemma leads_worker i o w b lk sk i' w' : (∀ r, one_worker i o w r → ∃ r1, run handle w r = Some (w', r1) ∧
    one_worker i' o w' (set_workers [w'] r1)) →
  leads i o w b lk sk i' o w' b lk sk.
Proof.
  intros Hw r Hr. destruct (Hw r Hr) as (r1 & Hrun & Hr1). destruct Hr as (hq & ht & hh & hd & ->).
  eexists. split; [done|]. by eapply rtc_once, s_worker, (w_run _ _ [] [] w).
Qed.
Lemma leads_take i o b lk sk : leads (m :: i) o Idle b lk sk i o (Handled m (handle m)) b lk sk.
Proof.
  eapply (leads_trans _ _ _ _ _ _ i o (Busy m)); apply leads_worker; intros r (hq & ht & hh & hd & ->);
    eexists; (split; [reflexivity|]); by do 4 eexists.
Qed.
Lemma leads_lock i o out b sk :
  leads i o (Handled m out) b None sk i o (Handled m out) b (Some O) sk.
Proof.
  intros r (hq & ht & hh & hd & ->). eexists. split; [by do 4 eexists|].
  by apply rtc_once, (s_lock _ _ _ _ _ _ _ O m out).
Qed.
Lemma leads_write i o out b sk : (b < capacity)%nat →
  leads i o (Handled m out) b (Some O) sk i (o ++ [out]) Idle (S b) None sk.
Proof.
  intros Hb r (hq & ht & hh & hd & ->). eexists. split.
  2: { apply rtc_once. by eapply (s_write _ _ _ _ _ _ _ [] []). }
  cbn. by do 4 eexists.
Qed.
(** The worker answers one message. *)
Lemma leads_answer i o b sk : (b < capacity)%nat →
  leads (m :: i) o Idle b None sk i (o ++ [handle m]) Idle (S b) None sk.
Proof.
  intros Hb. eapply leads_trans; [apply leads_take|]. eapply leads_trans; [apply leads_lock|].
  by apply leads_write.
Qed.
Lemma leads_read i o w b lk : leads i o w (S b) lk Select i o w b lk Draining.
Proof. intros r (hq & ht & hh & hd & ->). eexists. split; [by do 4 eexists|]. by apply rtc_once, s_read. Qed.
Lemma leads_pop i out o w b : leads i (out :: o) w b None Draining i o w b None Draining.
Proof.
  intros r (hq & ht & hh & hd & ->). eexists. split; [|apply rtc_once; by eapply s_pop].
  by do 4 eexists.
Qed.
Lemma leads_empty i w b : leads i [] w b None Draining i [] w b None Select.
Proof. intros r (hq & ht & hh & hd & ->). eexists. split; [by do 4 eexists|]. by apply rtc_once, s_empty. Qed.
(** Two messages and one call of [socketNotify] leave one byte behind. *)
Lemma leads_round b : (S b < capacity)%nat →
  leads [] [] Idle b None Select [] [] Idle (S b) None Select.
Proof.
  intros Hb.
  eapply leads_trans; [by apply leads_put; cbn; [lia|]|]. eapply leads_trans; [by apply leads_put; cbn; [lia|]|].
  eapply leads_trans; [apply leads_answer; lia|]. eapply leads_trans; [by apply leads_answer|].
  eapply leads_trans; [apply leads_read|]. do 2 (eapply leads_trans; [apply leads_pop|]). apply leads_empty.
Qed.
Lemma leads_rounds b : (b < capacity)%nat →
  leads [] [] Idle O None Select [] [] Idle b None Select.
Proof.
  induction b as [|b IH]; intros Hb; [intros r Hr; exists r; by split|].
  eapply leads_trans; [apply IH; lia|by apply leads_round].
Qed.
Lemma leads_full : (0 < capacity)%nat →
  leads [] [] Idle O None Select [] [handle m; handle m] (Handled m (handle m)) capacity (Some O) Draining.
Proof.
  intros Hcap. assert (Hc : capacity = S (pred capacity)) by lia.
  eapply leads_trans; [apply (leads_rounds (pred capacity)); lia|].
  do 3 (eapply leads_trans; [by apply leads_put; cbn; [lia|]|]).
  eapply leads_trans; [apply leads_answer; lia|]. eapply leads_trans; [apply leads_take|].
  eapply leads_trans; [apply leads_read|]. eapply leads_trans; [apply leads_lock|].
  eapply leads_trans; [apply leads_write; lia|]. rewrite <-Hc.
  eapply leads_trans; [apply leads_take|apply leads_lock].
Qed.
(** The worker waits for room, the socket thread for the lock. *)
Definition stuck (s : Sys (Msg := Msg)) : Prop :=
  is_Some (output_lock s) ∧ bytes s = capacity ∧ sock s = Draining.
Lemma stuck_step s s' : stuck s → step s s' → stuck s' ∧ m_output (pool s') = m_output (pool s).
Proof.
  intros (Hl & Hb & Hd) Hs. destruct Hs; cbn in *; try done; try (by destruct Hl); try lia.
  - by apply worker_output in H as [-> _].
  - by apply caller_output in H0 as ->.
Qed.
(** Whatever the pipe holds, one worker is enough for the program to come to a
    point from which on no result is delivered any more. *)
Theorem full_pipe_deadlocks (Hcap : (0 < capacity)%nat) :
  ∃ s, reachable handle cleanup_msg 1 capacity 1 s ∧ m_output (pool s) ≠ [] ∧
    ∀ s', rtc step s s' → stuck s' ∧ m_output (pool s') = m_output (pool s).
Proof.
  destruct (leads_full Hcap (ThreadPool.init 1)) as (r & (hq & ht & hh & hd & ->) & Hr);
    [by do 4 eexists|].
  eexists. split; [exact Hr|]. split; [done|].
  apply rtc_ind_r; [by split_and!|]. intros s s' _ Hs [IH Ho].
  destruct (stuck_step _ _ IH Hs) as [? ->]. done.
Qed.
End full_pipe.

(** *** Examples *)
Section examples.
Let hd (m : nat) : option nat := Some (S m).
Let cl (m : nat) : bool := false.
(** One message that a worker has answered, and the same once the socket
    thread has been there. *)
Lemma one_answered : ∃ s, reachable hd cl 1 4 1 s ∧ m_output (pool s) = [Some 8%nat].
Proof.
  destruct (leads_trans hd cl 4 _ _ _ _ _ _ _ _ _ _ _ _ _ _ _ _ _ _
    (leads_put hd cl 4 7%nat [] [] Idle O None ltac:(cbn; lia) ltac:(done))
    (leads_answer hd cl 4 7%nat [] [] O Select ltac:(lia)) (ThreadPool.init 1)) as (r & (?&?&?&?& ->) & Hr);
    [by do 4 eexists|].
  by eexists.
Qed.
Lemma results_announced_witness :
  ∃ s, reachable hd cl 1 4 1 s ∧ ((0 < bytes s)%nat ∨ sock s = Draining).
Proof.
  destruct one_answered as (s & Hs & Ho). exists s. split; [exact Hs|].
  apply (results_announced hd cl 1 4 1 s Hs). by rewrite Ho.
Defined.
Lemma joining_ends_witness : ∃ s, sock s = Joining ∧
  ((∃ s', step hd cl 1 4 s s') ∨ (is_Some (output_lock s) ∧ bytes s = 4%nat)).
Proof.
  exists (mk_Sys (stop (ThreadPool.init 1)) 0 None Joining). split; [reflexivity|].
  apply (joining_ends hd cl 1 4 1); [|reflexivity].
  by apply rtc_once, s_stop.
Defined.
(** The pipes of Linux hold 65536 bytes. *)
Lemma full_pipe_deadlocks_witness : ∃ s, reachable hd cl 1 (Z.to_nat 65536) 1 s ∧ m_output (pool s) ≠ [].
Proof.
  assert (Hc : (0 < Z.to_nat 65536)%nat) by lia.
  destruct (full_pipe_deadlocks hd cl (Z.to_nat 65536) 7%nat Hc) as (s & Hs & Ho & _).
  exists s. split; [exact Hs|exact Ho].
Defined.
End examples.
End PoolSocket.
