(* ===== verification/Frontends.v ===== *)
(** * Frontends: one client session at a time

    The filters virt_db, multi and session_shared keep an object per client
    session ([Frontend]) and hand it to one package at a time, with the same
    code: [get_frontend] takes the object or sleeps on a condition variable,
    [release_frontend] gives it back, or closes and forgets it when the
    session has ended. This file holds that code once, as operations on the
    table [m_clients] and as an interleaving of threads. *)
From S2P Require Import Prelude Core.

(** [m_clients]: [m_in_use] and the object, by session identifier. *)
Notation Clients Fr := (gmap Z (bool * Fr)).

Section operations.
Context {Fr R E : Type}.


Section ops.
Context {St : Type} (clients : St → Clients Fr) (set_clients : Clients Fr → St → St).

(** [get_frontend]. A caller that finds the object in use sleeps; this call
    then goes on only in an interleaving where the owner has released it, so
    that the sequential reading has no result. *)
Definition get_frontend (new : Fr) (package : Package R) : M (St * Global E) Fr :=
  st ← get_st;
  let id := Session.id (p_session package) in
  match clients st !! id with
  | Some (false, f) =>
      put_st (set_clients (<[id := (true, f)]> (clients st)) st) ;; mret f
  | Some (true, _) => out_of_fuel
  | None =>
      put_st (set_clients (<[id := (true, new)]> (clients st)) st) ;; mret new
  end.

(** [release_frontend]; [close] is [Frontend::close]. *)
Definition release_frontend (close : Fr → Package R → M (St * Global E) unit)
    (f : Fr) (package : Package R) : M (St * Global E) unit :=
  st ← get_st;
  let id := Session.id (p_session package) in
  match clients st !! id with
  | None => mret tt
  | Some _ =>
      if is_closed package then
        close f package ;;
        modify_st (λ st, set_clients (delete id (clients st)) st)
      else
        put_st (set_clients (<[id := (false, f)]> (clients st)) st)
  end.
End ops.
End operations.

(** A handler owns its frontend while it runs; the rest of the chain only
    sees the store. *)
Section handler.
Context {Fr W : Type}.
Definition on_world {A} (m : M W A) : M (Fr * W) A := λ s,
  match m s.2 with
  | Ok (a, w) => Ok (a, (s.1, w))
  | Throw e => Throw e
  | Undef k => Undef k
  | OutOfFuel => OutOfFuel
  end.
Definition get_fr : M (Fr * W) Fr := get_st.
Definition modify_fr (f : Fr → Fr) : M (Fr * W) unit := modify_st f.
(** Run a handler on a frontend. *)
Definition with_frontend {A} (f : Fr) (m : M (Fr * W) A) : M W (A * Fr) := λ w,
  match m (f, w) with
  | Ok (a, (f', w')) => Ok ((a, f'), w')
  | Throw e => Throw e
  | Undef k => Undef k
  | OutOfFuel => OutOfFuel
  end.

Lemma on_world_par {A} (m : M W A) f w (Q : A → Fr * W → Prop) :
  par m w (λ a w', Q a (f, w')) → par (on_world m) (f, w) Q.
Proof. unfold par, on_world. simpl. by destruct (m w) as [[a w']|?|?|]. Qed.
Lemma ends_on_world {A} (m : M W A) f w (Q : A → Fr * W → Prop) :
  ends m w (λ a w', Q a (f, w')) → ends (on_world m) (f, w) Q.
Proof. unfold ends, on_world. simpl. by destruct (m w) as [[a w']|?|?|]. Qed.
Lemma ends_get_fr (f : Fr) (w : W) (Q : Fr → Fr * W → Prop) :
  Q f (f, w) → ends get_fr (f, w) Q.
Proof. done. Qed.
Lemma ends_modify_fr (g : Fr → Fr) (f : Fr) (w : W) (Q : unit → Fr * W → Prop) :
  Q tt (g f, w) → ends (modify_fr g) (f, w) Q.
Proof. done. Qed.
Lemma on_world_ok {A} (m : M W A) f w a w' :
  m w = Ok (a, w') → on_world m (f, w) = Ok (a, (f, w')).
Proof. unfold on_world. simpl. by intros ->. Qed.
End handler.

(** ** Threads *)

(** What a thread that serves a package of session [id] is doing. *)
Inductive status : Type :=
  | Entering
  | Sleeping (notified : bool)
  | Holding
  | Gone.
Record thread : Type := mk_thread { t_id : Z; t_status : status }.
Definition set_status (s : status) (t : thread) : thread := mk_thread (t_id t) s.

(** [m_clients], reduced to [m_in_use], and the threads. *)
Record Table : Type := mk_Table {
  m_in_use : gmap Z bool;
  threads : list thread
}.

(** One turn of the loop of [get_frontend], under the lock. *)
Definition enter (id : Z) (c : gmap Z bool) : status * gmap Z bool :=
  match c !! id with
  | Some true => (Sleeping false, c)
  | _ => (Holding, <[id := true]> c)
  end.
(** [release_frontend], with the [notify_all]. *)
Definition leave (id : Z) (closed : bool) (c : gmap Z bool) : bool * gmap Z bool :=
  match c !! id with
  | None => (false, c)
  | Some _ => (true, if closed then delete id c else <[id := false]> c)
  end.
Definition notify (t : thread) : thread :=
  match t_status t with Sleeping _ => set_status (Sleeping true) t | _ => t end.

Inductive table_step : Table → Table → Prop :=
  | step_arrive c ts id :
      table_step (mk_Table c ts) (mk_Table c (ts ++ [mk_thread id Entering]))
  | step_enter c l1 l2 t s c' :
      t_status t = Entering ∨ t_status t = Sleeping true →
      enter (t_id t) c = (s, c') →
      table_step (mk_Table c (l1 ++ t :: l2))
                 (mk_Table c' (l1 ++ set_status s t :: l2))
  | step_spurious c l1 l2 t :
      t_status t = Sleeping false →
      table_step (mk_Table c (l1 ++ t :: l2))
                 (mk_Table c (l1 ++ set_status (Sleeping true) t :: l2))
  | step_leave c l1 l2 t closed n c' :
      t_status t = Holding → leave (t_id t) closed c = (n, c') →
      table_step (mk_Table c (l1 ++ t :: l2))
        (mk_Table c'
           (let ts := l1 ++ set_status Gone t :: l2 in
            if n then notify <$> ts else ts)).

Inductive table_reachable : Table → Prop :=
  | table_init : table_reachable (mk_Table ∅ [])
  | table_next T T' : table_reachable T → table_step T T' → table_reachable T'.

(** ** Invariant *)
Definition holds (id : Z) (t : thread) : nat :=
  match t_status t with
  | Holding => if decide (t_id t = id) then 1 else 0
  | _ => 0
  end.
Definition in_use (c : gmap Z bool) (id : Z) : nat :=
  match c !! id with Some true => 1 | _ => 0 end.

Record table_ok (T : Table) : Prop := {
  one_holder : ∀ id, sum_list_with (holds id) (threads T) = in_use (m_in_use T) id;
  sleepers : ∀ t, t ∈ threads T → t_status t = Sleeping false →
    m_in_use T !! t_id t = Some true
}.

Lemma holds_notify id ts :
  sum_list_with (holds id) (notify <$> ts) = sum_list_with (holds id) ts.
Proof. induction ts as [|[i []] ts IH]; simpl in *; auto. Qed.
Lemma sum_middle {A} (f : A → nat) l1 l2 t :
  sum_list_with f (l1 ++ t :: l2) = (f t + sum_list_with f (l1 ++ l2))%nat.
Proof. rewrite !sum_list_with_app. simpl. lia. Qed.

Lemma sum_pos {A} (f : A → nat) ts :
  (0 < sum_list_with f ts)%nat → ∃ t, t ∈ ts ∧ (0 < f t)%nat.
Proof.
  induction ts as [|t ts IH]; simpl; [lia|]. intros H.
  destruct (decide (0 < f t)%nat) as [Ht|Ht]; [exists t; split; [left|done]|].
  destruct IH as (u & ? & ?); [lia|]. exists u. split; [by right|done].
Qed.
Lemma sum_ge {A} (f : A → nat) ts t : t ∈ ts → (f t ≤ sum_list_with f ts)%nat.
Proof. induction 1; simpl; lia. Qed.
Lemma sum_ge_two {A} (f : A → nat) ts i j t u :
  ts !! i = Some t → ts !! j = Some u → i ≠ j → (f t + f u ≤ sum_list_with f ts)%nat.
Proof.
  revert i j. induction ts as [|v ts IH]; intros [|i] [|j]; simpl; intros Hi Hj Hne;
    simplify_eq; try done.
  - apply list_elem_of_lookup_2, (sum_ge f) in Hj. lia.
  - apply list_elem_of_lookup_2, (sum_ge f) in Hi. lia.
  - specialize (IH i j Hi Hj ltac:(congruence)). lia.
Qed.
Lemma in_middle (l1 l2 : list thread) t u : u ∈ l1 ++ t :: l2 ↔ u = t ∨ u ∈ l1 ++ l2.
Proof. rewrite !elem_of_app, elem_of_cons. tauto. Qed.

(** What a turn of [get_frontend] and [release_frontend] do to the use of a
    session's frontend. *)
Lemma enter_counts c c' t s id : enter (t_id t) c = (s, c') →
  in_use c' id = (in_use c id + holds id (set_status s t))%nat.
Proof.
  unfold enter, in_use, holds. cbn. destruct (decide (t_id t = id)) as [<-|Hne].
  - destruct (c !! t_id t) as [[]|] eqn:E; intros [= <- <-]; rewrite ?lookup_insert_eq, ?E; done.
  - destruct (c !! t_id t) as [[]|] eqn:E; intros [= <- <-]; rewrite ?lookup_insert_ne by done; lia.
Qed.
Lemma leave_counts c c' t closed n id : t_status t = Holding → in_use c (t_id t) = 1%nat →
  leave (t_id t) closed c = (n, c') →
  n = true ∧ in_use c id = (in_use c' id + holds id t)%nat.
Proof.
  unfold leave, in_use, holds. intros -> Hu. destruct (c !! t_id t) as [u|] eqn:E; [|done].
  intros [= <- <-]. split; [done|]. destruct (decide (t_id t = id)) as [<-|Hne].
  - rewrite E, Hu. destruct closed; [by rewrite lookup_delete_eq|by rewrite lookup_insert_eq].
  - destruct closed; [rewrite lookup_delete_ne by done|rewrite lookup_insert_ne by done]; lia.
Qed.
Lemma table_step_ok T T' : table_step T T' → table_ok T → table_ok T'.
Proof.
  intros Hs [Hone Hsl]. destruct Hs as [c ts id|c l1 l2 t s c' Ht He|c l1 l2 t Ht|
    c l1 l2 t closed n c' Ht Hl]; simpl in *.
  - split; simpl.
    + intros id'. rewrite sum_list_with_app. simpl. specialize (Hone id'). lia.
    + intros u [Hu|Hu%list_elem_of_singleton]%elem_of_app; [auto|by subst u].
  - split; simpl.
    + intros id. specialize (Hone id). rewrite sum_middle in *. rewrite (enter_counts _ _ _ _ _ He).
      assert (H0 : holds id t = 0%nat) by (unfold holds; by destruct Ht as [-> | ->]). lia.
    + intros u [->|Hu]%in_middle Hs'; unfold enter in He.
      * simpl in *. subst s. destruct (c !! t_id t) as [[]|] eqn:E; simplify_eq. done.
      * assert (Hin : c !! t_id u = Some true) by (apply Hsl; [apply in_middle; by right|done]).
        destruct (c !! t_id t) as [[]|] eqn:E; simplify_eq; [done| |];
          (rewrite lookup_insert_ne by congruence; done).
  - split; simpl.
    + intros id. specialize (Hone id). rewrite sum_middle in *. revert Hone.
      unfold holds at 1 3. by rewrite Ht.
    + intros u [->|Hu]%in_middle Hs'; [done|]. apply Hsl; [apply in_middle; by right|done].
  - assert (Hu : in_use c (t_id t) = 1%nat).
    { specialize (Hone (t_id t)). rewrite sum_middle in Hone. unfold holds at 1 in Hone.
      rewrite Ht, decide_True in Hone by done. unfold in_use in *.
      destruct (c !! t_id t) as [[]|]; lia. }
    destruct (leave_counts _ _ _ _ _ (t_id t) Ht Hu Hl) as [-> _]. split; simpl.
    + intros id. specialize (Hone id). rewrite holds_notify, sum_middle in *. unfold holds at 1. cbn.
      destruct (leave_counts _ _ _ _ _ id Ht Hu Hl) as [_ Hc]. lia.
    + intros u Hin Hs'. exfalso. apply list_elem_of_fmap in Hin as (v & -> & _).
      unfold notify in Hs'. destruct (t_status v) eqn:Ev; simpl in *; congruence.
Qed.
Lemma table_reachable_ok T : table_reachable T → table_ok T.
Proof.
  induction 1; [|eauto using table_step_ok].
  split; simpl; [done|]. by intros t Ht%elem_of_nil.
Qed.

(** C17. A client session has at most one package in the filter: in every
    interleaving of callers no two threads hold the frontend of the same
    session, and the [m_in_use] flag says whether one does. No caller is
    forgotten: one that sleeps on the condition variable waits for a frontend
    that some thread really holds and will release. *)
Theorem frontend_exclusive (T : Table) (Hr : table_reachable T) :
  (∀ i j t u, threads T !! i = Some t → threads T !! j = Some u →
     t_status t = Holding → t_status u = Holding → t_id t = t_id u → i = j) ∧
  (∀ id, m_in_use T !! id = Some true ↔
     ∃ t, t ∈ threads T ∧ t_id t = id ∧ t_status t = Holding) ∧
  (∀ t, t ∈ threads T → t_status t = Sleeping false →
     ∃ u, u ∈ threads T ∧ t_id u = t_id t ∧ t_status u = Holding).
Proof.
  destruct (table_reachable_ok T Hr) as [Hone Hsl].
  assert (Hholder : ∀ id, in_use (m_in_use T) id = 1%nat ↔
    ∃ t, t ∈ threads T ∧ t_id t = id ∧ t_status t = Holding).
  { intros id. rewrite <-Hone. split.
    - intros H. destruct (sum_pos (holds id) (threads T)) as (t & Ht & H0); [lia|].
      exists t. unfold holds in H0. destruct (t_status t) eqn:E; try lia.
      destruct (decide (t_id t = id)); [done|lia].
    - intros (t & Ht & Hid & Hst). specialize (Hone id).
      apply (sum_ge (holds id)) in Ht. unfold holds in Ht at 1.
      rewrite Hst, decide_True in Ht by done.
      unfold in_use in *. destruct (m_in_use T !! id) as [[]|]; lia. }
  assert (Huse : ∀ id, m_in_use T !! id = Some true ↔ in_use (m_in_use T) id = 1%nat).
  { intros id. unfold in_use. destruct (m_in_use T !! id) as [[]|]; split; done. }
  split_and!.
  - intros i j t u Hi Hj Ht Hu Hid.
    destruct (decide (i = j)) as [->|Hne]; [done|exfalso].
    pose proof (sum_ge_two (holds (t_id t)) _ _ _ _ _ Hi Hj Hne) as Htwo.
    unfold holds in Htwo at 1 2. rewrite Ht, Hu, !decide_True in Htwo by done.
    specialize (Hone (t_id t)). unfold in_use in Hone.
    destruct (m_in_use T !! t_id t) as [[]|]; lia.
  - intros id. by rewrite Huse, Hholder.
  - intros t Ht Hst. apply Hholder, Huse. by apply Hsl.
Qed.

Lemma frontend_exclusive_witness :
  ∃ T, threads T = [mk_thread 4 Holding; mk_thread 4 (Sleeping false)] ∧
    ∃ u, u ∈ threads T ∧ t_id u = 4 ∧ t_status u = Holding.
Proof.
  exists (mk_Table {[4 := true]} [mk_thread 4 Holding; mk_thread 4 (Sleeping false)]).
  split; [reflexivity|].
  destruct (frontend_exclusive
    (mk_Table {[4 := true]} [mk_thread 4 Holding; mk_thread 4 (Sleeping false)]))
    as (_ & _ & H).
  - eapply table_next.
    + eapply table_next.
      * eapply table_next; [eapply table_next; [apply table_init|]|].
        -- apply (step_arrive ∅ [] 4).
        -- apply (step_arrive ∅ [mk_thread 4 Entering] 4).
      * apply (step_enter ∅ [] [mk_thread 4 Entering] (mk_thread 4 Entering) Holding
          {[4 := true]}); [left; reflexivity|reflexivity].
    + apply (step_enter {[4 := true]} [mk_thread 4 Holding] [] (mk_thread 4 Entering)
        (Sleeping false) {[4 := true]}); [left; reflexivity|reflexivity].
  - apply (H (mk_thread 4 (Sleeping false))); [|reflexivity].
    right. left.
Defined.
