(* ===== verification/Target.v ===== *)
(** * A target with a result set

    What the filters that fetch records on their own (present_chunk, sort)
    rely on, and what a Z39.50 server behind them promises: a Present inside
    a result set is answered with some of the records asked for, in order,
    from the position asked for. The promise is a class; a filter's theorems
    are proved against it and a server is an instance. *)
From S2P Require Import Prelude Zgdu Core.

Section serves.
Context {R W : Type} (next : string → Package R → M W (Package R)).

(** [ok s syntax comp name w]: in [w] the target serves the result set [name]
    on session [s], with records in this syntax and composition. *)
Class Serves (ok : Session.t → option string → option RecordComposition → string → W → Prop)
    (records : list NamePlusRecord) : Prop :=
  serves_present : ∀ p pr w,
    z3950 (p_request p) = Some (presentRequest pr) →
    is_Some (p_route_pos p) → is_closed p = false →
    ok (p_session p) (pq_preferredRecordSyntax pr) (pq_recordComposition pr)
       (pq_resultSetId pr) w →
    let start := pq_resultSetStartPoint pr in
    let n := pq_numberOfRecordsRequested pr in
    1 ≤ start → 1 ≤ n → start + n - 1 ≤ Z.of_nat (length records) →
    ∃ p' pres k w', next "" p w = Ok (p', w') ∧ is_closed p' = false ∧
      z3950 (p_response p') = Some (presentResponse pres) ∧
      1 ≤ Z.of_nat k ≤ n ∧
      pr_records pres =
        Some (Records_DBOSD (take k (drop (Z.to_nat (start - 1)) records))) ∧
      ok (p_session p) (pq_preferredRecordSyntax pr) (pq_recordComposition pr)
         (pq_resultSetId pr) w'.

(** *** A target with a whole session

    What a client relies on that opens a session, searches and presents
    (sru_z3950): an Init that asks for named result sets is accepted and leaves
    the session [fresh]; a Search that asks for no records is answered with
    the number of records found and binds the result set, from which records
    in every [format] are served; and the end of the session passes. *)
Definition no_nsd (r : option Records) : Prop :=
  match r with Some (Records_NSD _) => False | _ => True end.
Definition no_piggyback (r : SearchRequest) : Prop :=
  sq_smallSetUpperBound r = 0 ∧ sq_largeSetLowerBound r = 1 ∧ sq_mediumSetPresentNumber r = 0.
Class SearchTarget (fresh : Session.t → W → Prop)
    (format : option string → option RecordComposition → Prop)
    (ok : list string → Query → Session.t → option string → option RecordComposition →
          string → W → Prop)
    (records : list string → Query → list NamePlusRecord) : Prop := {
  target_serves : ∀ dbs q, Serves (ok dbs q) (records dbs q);
  target_init : ∀ p r w,
    z3950 (p_request p) = Some (initRequest r) →
    MASK_GET (iq_options r) Options_namedResultSets = true →
    is_Some (p_route_pos p) → is_closed p = false →
    ∃ p' ir w', next "" p w = Ok (p', w') ∧
      z3950 (p_response p') = Some (initResponse ir) ∧ ir_result ir = true ∧
      fresh (p_session p) w';
  target_search : ∀ p r w,
    z3950 (p_request p) = Some (searchRequest r) → no_piggyback r →
    is_Some (p_route_pos p) → is_closed p = false → fresh (p_session p) w →
    ∃ p' sr w', next "" p w = Ok (p', w') ∧
      z3950 (p_response p') = Some (searchResponse sr) ∧
      sr_resultCount sr = Z.of_nat (length (records (sq_databaseNames r) (sq_query r))) ∧
      no_nsd (sr_records sr) ∧
      ∀ syntax comp, format syntax comp →
        ok (sq_databaseNames r) (sq_query r) (p_session p) syntax comp
           (sq_resultSetName r) w';
  target_close : ∀ p w, is_closed p = true → p_request p = None → is_Some (p_route_pos p) →
    ∃ p' w', next "" p w = Ok (p', w')
}.
End serves.
