(* ===== verification/LoadBalance.v ===== *)
(** * The load_balance filter

    [src/filter_load_balance.cpp]: a session is given the cheapest of its
    virtual hosts, costs being counted per target from the sessions, requests
    in progress and failures seen so far. [next] is the rest of the chain; it
    may change the filter's state, since other sessions run through the same
    filter while a package is away. *)
From S2P Require Import Prelude Zgdu Yaz Core Util.

Module LoadBalance.

(** ** State *)

(** [TargetStat]: three [unsigned int] counters. *)
Record TargetStat : Type := mk_TargetStat {
  sessions : Z;
  packages : Z;
  deads : Z
}.
Definition TargetStat_cost (s : TargetStat) : Z :=
  uint32 (uint32 (sessions s + packages s) + deads s).

Record Impl : Type := mk_Impl {
  m_target_stat : gmap string TargetStat;
  m_session_target : gmap Z string
}.
Definition Impl_init : Impl := mk_Impl ∅ ∅.

(** ** Statistics *)

Definition find_session_target (session_id : Z) (st : Impl) : string :=
  default "" (m_session_target st !! session_id).

(** Change the counters of the target of a session, if it has any. *)
Definition with_stat (session_id : Z) (f : TargetStat → TargetStat) (st : Impl) :
    Impl :=
  let target := find_session_target session_id st in
  if decide (target ≠ "") then
    match m_target_stat st !! target with
    | Some s => mk_Impl (<[target := f s]> (m_target_stat st)) (m_session_target st)
    | None => st
    end
  else st.

Definition add_dead (session_id : Z) (st : Impl) : Impl :=
  with_stat session_id (λ s,
    if deads s <? UINT_MAX then mk_TargetStat (sessions s) (packages s) (deads s + 1)
    else s) st.
Definition add_package (session_id : Z) (st : Impl) : Impl :=
  with_stat session_id (λ s,
    if packages s <? UINT_MAX then
      mk_TargetStat (sessions s) (packages s + 1) (deads s)
    else s) st.
Definition remove_package (session_id : Z) (st : Impl) : Impl :=
  with_stat session_id (λ s,
    if 0 <? packages s then mk_TargetStat (sessions s) (packages s - 1) (deads s)
    else s) st.

Definition add_session (session_id : Z) (target : string) (st : Impl) : Impl :=
  let st1 :=
    match m_session_target st !! session_id with
    | None => <[session_id := target]> (m_session_target st)
    | Some _ => m_session_target st
    end in
  let ts :=
    match m_target_stat st !! target with
    | None => <[target := mk_TargetStat 1 0 0]> (m_target_stat st)
    | Some s =>
        if sessions s <? UINT_MAX then
          <[target := mk_TargetStat (sessions s + 1) (packages s) (deads s)]>
            (m_target_stat st)
        else m_target_stat st
    end in
  mk_Impl ts st1.

Definition remove_session (session_id : Z) (st : Impl) : Impl :=
  match m_session_target st !! session_id with
  | None => st
  | Some target =>
      let sm := delete session_id (m_session_target st) in
      match m_target_stat st !! target with
      | None => mk_Impl (m_target_stat st) sm
      | Some s =>
          let s' := if 0 <? sessions s then
                      mk_TargetStat (sessions s - 1) (packages s) (deads s)
                    else s in
          if (sessions s' =? 0) || (deads s' =? 0) then
            mk_Impl (delete target (m_target_stat st)) sm
          else mk_Impl (<[target := s']> (m_target_stat st)) sm
      end
  end.

Definition cost (target : string) (st : Impl) : Z :=
  if decide (target ≠ "") then
    match m_target_stat st !! target with
    | Some s => TargetStat_cost s
    | None => 0
    end
  else 0.
Definition dead (target : string) (st : Impl) : Z :=
  if decide (target ≠ "") then
    match m_target_stat st !! target with Some s => deads s | None => 0 end
  else 0.

(** ** Choosing a target *)

(** The [for] loop over the virtual hosts: the pick and its cost. *)
Fixpoint pick_loop (st : Impl) (vhosts : list string) (i : nat)
    (ivh_pick : option nat) (cost_i : Z) : option nat :=
  match vhosts with
  | [] => ivh_pick
  | v :: vs =>
      if decide (v ≠ "") then
        let c := cost v st in
        if c <? cost_i then pick_loop st vs (S i) (Some i) c
        else pick_loop st vs (S i) ivh_pick cost_i
      else pick_loop st vs (S i) ivh_pick cost_i
  end.
Definition pick (st : Impl) (vhosts : list string) : option nat :=
  pick_loop st vhosts 0 None UINT_MAX.

(** ** Packages *)
Section process.
Context `{Y : Yaz} {R E : Type}.
Context (next : string → Package R → M (Impl * Global E) (Package R)).

Definition Filter (A : Type) : Type := M (Impl * Global E) A.

(** The package that asks [target] for a session. *)
Definition init_request (base : InitRequest) (target : string) : GDU :=
  GDU_Z3950 (initRequest
    (set_iq_otherInfo (set_vhost_otherinfo_cat (iq_otherInfo base) target 1) base)).

Fixpoint init_loop (fuel : nat) (package : Package R) (base : InitRequest)
    (vhosts : list string) : Filter (Package R) :=
  match fuel with
  | O => out_of_fuel
  | S fuel' =>
      init_pkg ← copy_filter package
        (new_Package (p_session package) (p_origin package));
      st ← get_st;
      match pick st vhosts with
      | None =>
          mret (close_session (set_response
            (Some (GDU_Z3950 (initResponse (create_initResponse
               (Some (initRequest base)) BIB1_TEMPORARY_SYSTEM_ERROR
               (Some "load_balance: no available targets"))))) package))
      | Some i =>
          let target := nth i vhosts "" in
          let vhosts' := delete i vhosts in
          init_pkg ← next "" (set_request (Some (init_request base target)) init_pkg);
          if is_closed init_pkg then init_loop fuel' package base vhosts'
          else
            modify_st (add_session (Session.id (p_session package)) target) ;;
            mret (set_response (p_response init_pkg) package)
      end
  end.

Definition process_init (fuel : nat) (package : Package R) (req : InitRequest) :
    Filter (Package R) :=
  r ← lift_outcome (remove_vhost_otherinfo fuel (iq_otherInfo req) []);
  let '(_, vhosts, oi) := r in
  init_loop (S (length vhosts)) package (set_iq_otherInfo oi req) vhosts.

(** The second half of [process]: send the package on and settle the books. *)
Definition process_move (is_closed_front : bool) (package : Package R) :
    Filter (Package R) :=
  package ← next "" package;
  let id := Session.id (p_session package) in
  let is_closed_back := is_closed package in
  is_closed_back ←
    match z3950 (p_response package) with
    | Some (close _) => modify_st (remove_package id) ;; mret true
    | Some _ => modify_st (remove_package id) ;; mret is_closed_back
    | None => mret is_closed_back
    end;
  if is_closed_back || is_closed_front then
    (if is_closed_front then mret tt else modify_st (add_dead id)) ;;
    modify_st (remove_session id) ;;
    mret (close_session package)
  else mret package.

Definition process (fuel : nat) (package : Package R) : Filter (Package R) :=
  let is_closed_front := is_closed package in
  let id := Session.id (p_session package) in
  match z3950 (p_request package) with
  | Some (initRequest req) => process_init fuel package req
  | Some (close _) =>
      modify_st (add_package id) ;; process_move true package
  | Some _ =>
      modify_st (add_package id) ;; process_move is_closed_front package
  | None => process_move is_closed_front package
  end.
End process.

(** ** Invariant of the books *)

(** Every counter is in range and no target is kept without sessions. *)
Definition stat_ok (s : TargetStat) : Prop :=
  1 ≤ sessions s ≤ UINT_MAX ∧ 0 ≤ packages s ≤ UINT_MAX ∧ 0 ≤ deads s ≤ UINT_MAX.
Definition books_ok (st : Impl) : Prop :=
  map_Forall (λ _ s, stat_ok s) (m_target_stat st).

Lemma with_stat_ok id f st :
  (∀ s, stat_ok s → stat_ok (f s)) → books_ok st → books_ok (with_stat id f st).
Proof.
  intros Hf Hok. unfold with_stat. destruct (decide _); [|done].
  destruct (m_target_stat st !! _) as [s|] eqn:E; [|done].
  apply map_Forall_insert_2; [|done]. eapply Hf, Hok, E.
Qed.
Lemma add_dead_ok id st : books_ok st → books_ok (add_dead id st).
Proof.
  apply with_stat_ok. intros s (? & ? & ?). unfold stat_ok.
  destruct (Z.ltb_spec (deads s) UINT_MAX); simpl; lia.
Qed.
Lemma add_package_ok id st : books_ok st → books_ok (add_package id st).
Proof.
  apply with_stat_ok. intros s (? & ? & ?). unfold stat_ok.
  destruct (Z.ltb_spec (packages s) UINT_MAX); simpl; lia.
Qed.
Lemma remove_package_ok id st : books_ok st → books_ok (remove_package id st).
Proof.
  apply with_stat_ok. intros s (? & ? & ?). unfold stat_ok.
  destruct (Z.ltb_spec 0 (packages s)); simpl; lia.
Qed.
Lemma add_session_ok id t st : books_ok st → books_ok (add_session id t st).
Proof.
  intros Hok. unfold add_session, books_ok. simpl.
  destruct (m_target_stat st !! t) as [s|] eqn:E.
  - destruct (Hok _ _ E) as (? & ? & ?).
    destruct (Z.ltb_spec (sessions s) UINT_MAX); [|done].
    apply map_Forall_insert_2; [|done]. unfold stat_ok. simpl. lia.
  - apply map_Forall_insert_2; [|done]. unfold stat_ok, UINT_MAX. simpl. lia.
Qed.
Lemma remove_session_ok id st : books_ok st → books_ok (remove_session id st).
Proof.
  intros Hok. unfold remove_session.
  destruct (m_session_target st !! id) as [t|]; [|done].
  destruct (m_target_stat st !! t) as [s|] eqn:E; [|done].
  destruct (Hok _ _ E) as (? & ? & ?).
  rewrite (proj2 (Z.ltb_lt 0 (sessions s))) by lia. simpl.
  destruct (Z.eqb_spec (sessions s - 1) 0); simpl.
  { by apply map_Forall_delete. }
  destruct (deads s =? 0); [by apply map_Forall_delete|].
  apply map_Forall_insert_2; [|done]. unfold stat_ok. simpl. lia.
Qed.
#[export] Hint Resolve add_dead_ok add_package_ok remove_package_ok add_session_ok
  remove_session_ok : mp.
(** ** The pick is a cheapest target *)

(** [pick] points at the first of the cheapest named hosts of [l]. *)
Definition picked (st : Impl) (l : list string) (ivh_pick : option nat)
    (cost_i : Z) : Prop :=
  match ivh_pick with
  | None => cost_i = UINT_MAX ∧ ∀ j w, l !! j = Some w → w ≠ "" → UINT_MAX ≤ cost w st
  | Some i => ∃ v, l !! i = Some v ∧ v ≠ "" ∧ cost_i = cost v st ∧ cost_i < UINT_MAX ∧
      ∀ j w, l !! j = Some w → w ≠ "" →
        cost v st ≤ cost w st ∧ ((j < i)%nat → cost v st < cost w st)
  end.

Lemma picked_skip st l pk c v :
  picked st l pk c → (v ≠ "" → c ≤ cost v st) → picked st (l ++ [v]) pk c.
Proof.
  assert (Hlast : ∀ j w, (l ++ [v]) !! j = Some w →
    l !! j = Some w ∨ (j = length l ∧ w = v)).
  { intros j w [?|[? [? <-]%list_lookup_singleton_Some]]%lookup_app_Some; [by left|].
    right. split; [lia|done]. }
  unfold picked. destruct pk as [i|].
  - intros (u & Hu & Hne & -> & Hc & Hmin) Hv. exists u.
    split_and!; [by apply lookup_app_l_Some|done..|].
    intros j w [Hj|[-> ->]]%Hlast Hw; [by apply Hmin|].
    apply lookup_lt_Some in Hu. split; [auto|lia].
  - intros [-> Hmin] Hv. split; [done|].
    intros j w [Hj|[-> ->]]%Hlast Hw; eauto.
Qed.
Lemma picked_take st l pk c v :
  picked st l pk c → v ≠ "" → cost v st < c →
  picked st (l ++ [v]) (Some (length l)) (cost v st).
Proof.
  intros Hp Hv Hc. simpl. exists v.
  assert (Hall : ∀ j w, l !! j = Some w → w ≠ "" → cost v st < cost w st).
  { intros j w Hj Hw. destruct pk as [i|]; simpl in Hp.
    - destruct Hp as (u & _ & _ & -> & _ & Hmin).
      destruct (Hmin j w Hj Hw). lia.
    - destruct Hp as [-> Hmin]. specialize (Hmin j w Hj Hw). lia. }
  assert (c ≤ UINT_MAX).
  { destruct pk; simpl in Hp; [destruct Hp as (? & ? & ? & ? & ? & ?); lia|lia]. }
  split_and!; [by apply list_lookup_middle|done|done|lia|].
  intros j w [Hj|[? [? <-]%list_lookup_singleton_Some]]%lookup_app_Some Hw.
  - specialize (Hall j w Hj Hw). lia.
  - lia.
Qed.
Lemma pick_loop_picked st vs l pk c :
  picked st l pk c →
  ∃ c', picked st (l ++ vs) (pick_loop st vs (length l) pk c) c'.
Proof.
  revert l pk c. induction vs as [|v vs IH]; intros l pk c Hp; cbn [pick_loop].
  { exists c. by rewrite app_nil_r. }
  assert (Hskip : (v ≠ "" → c ≤ cost v st) →
    ∃ c', picked st (l ++ v :: vs) (pick_loop st vs (S (length l)) pk c) c').
  { intros Hv. destruct (IH (l ++ [v]) pk c) as [c' Hc']; [by apply picked_skip|].
    exists c'. rewrite <-app_assoc, length_app, Nat.add_1_r in Hc'. done. }
  destruct (decide (v ≠ "")) as [Hv|Hv]; [|by apply Hskip].
  destruct (Z.ltb_spec (cost v st) c) as [Hc|Hc]; [|apply Hskip; auto].
  destruct (IH (l ++ [v]) (Some (length l)) (cost v st)) as [c' Hc'].
  { by eapply picked_take. }
  exists c'. rewrite <-app_assoc, length_app, Nat.add_1_r in Hc'. done.
Qed.
Lemma pick_picked st vhosts : ∃ c, picked st vhosts (pick st vhosts) c.
Proof. apply (pick_loop_picked st vhosts []). simpl. split; [done|]. by intros []. Qed.

(** The filter picks a cheapest target: the pick names a virtual host,
    no other named host of the list is cheaper, and those before it are
    strictly dearer; without a pick every named host has the maximal cost. *)
Theorem pick_least_cost (st : Impl) (vhosts : list string) :
  match pick st vhosts with
  | Some i => ∃ v, vhosts !! i = Some v ∧ v ≠ "" ∧
      ∀ j w, vhosts !! j = Some w → w ≠ "" →
        cost v st ≤ cost w st ∧ ((j < i)%nat → cost v st < cost w st)
  | None => ∀ w, w ∈ vhosts → w ≠ "" → UINT_MAX ≤ cost w st
  end.
Proof.
  destruct (pick_picked st vhosts) as [c Hp].
  destruct (pick st vhosts) as [i|]; simpl in Hp.
  - destruct Hp as (v & ? & ? & ? & ? & ?). eauto.
  - destruct Hp as [_ Hmin]. intros w [j Hj]%list_elem_of_lookup Hw. eauto.
Qed.

(** ** Opening a session *)
Section properties.
Context `{Y : Yaz} {R E : Type}.
Context (next : string → Package R → M (Impl * Global E) (Package R)).

(** The package that carries the request for [target]. *)
Definition init_package (package : Package R) (base : InitRequest)
    (target : string) : Package R :=
  set_request (Some (init_request base target))
    (set_route_pos (p_route_pos package)
       (new_Package (p_session package) (p_origin package))).
(** Asking [target] has been tried, and its session came back closed. *)
Definition tried_in_vain (package : Package R) (base : InitRequest)
    (target : string) : Prop :=
  ∃ w p' w', next "" (init_package package base target) w = Ok (p', w') ∧
    is_closed p' = true.
Definition no_target_response (base : InitRequest) : GDU :=
  GDU_Z3950 (initResponse (create_initResponse (Some (initRequest base))
    BIB1_TEMPORARY_SYSTEM_ERROR (Some "load_balance: no available targets"))).

(** What [init_loop] achieves. *)
Definition init_outcome (package : Package R) (base : InitRequest)
    (vhosts : list string) (p' : Package R) (w' : Impl * Global E) : Prop :=
  (∃ target w ip st g, target ∈ vhosts ∧ target ≠ "" ∧
     next "" (init_package package base target) w = Ok (ip, (st, g)) ∧
     is_closed ip = false ∧
     p' = set_response (p_response ip) package ∧
     w' = (add_session (Session.id (p_session package)) target st, g)) ∨
  (p' = close_session (set_response (Some (no_target_response base)) package) ∧
   ∀ t, t ∈ vhosts → t ≠ "" →
     tried_in_vain package base t ∨ UINT_MAX ≤ cost t w'.1).

Lemma init_outcome_delete package base vhosts i t p' w' :
  vhosts !! i = Some t → tried_in_vain package base t →
  init_outcome package base (delete i vhosts) p' w' →
  init_outcome package base vhosts p' w'.
Proof.
  intros Hi Ht [(u & w & ip & st & g & Hu & H)|[-> Hall]].
  - left. exists u, w, ip, st, g. split; [|exact H].
    rewrite (delete_Permutation vhosts i t Hi). by right.
  - right. split; [done|]. intros u Hu Hne.
    rewrite (delete_Permutation vhosts i t Hi) in Hu.
    apply elem_of_cons in Hu as [->|Hu]; auto.
Qed.
Lemma init_loop_ok fuel package base vhosts w pos :
  (∀ p w, tot (next "" p) w (λ _ _, True)) →
  p_route_pos package = Some pos → (length vhosts < fuel)%nat →
  tot (init_loop next fuel package base vhosts) w (init_outcome package base vhosts).
Proof.
  intros Hnext Hpos. revert vhosts w. induction fuel as [|fuel IH];
    intros vhosts w Hf; [lia|]. cbn [init_loop].
  apply tot_bind. unfold copy_filter. rewrite Hpos. unfold tot at 1. cbn.
  apply tot_bind. unfold tot at 1. cbn.
  destruct (pick_picked w.1 vhosts) as [c Hp].
  destruct (pick w.1 vhosts) as [i|]; simpl in Hp.
  - destruct Hp as (t & Hi & Hne & _). rewrite (nth_lookup_Some _ _ _ _ Hi).
    apply tot_bind. destruct (tot_elim _ _ _ (Hnext
      (set_request (Some (init_request base t)) (set_route_pos (Some pos)
        (new_Package (p_session package) (p_origin package)))) w))
      as (ip & w' & Hn & _).
    unfold tot at 1. rewrite Hn.
    assert (Hip : next "" (init_package package base t) w = Ok (ip, w'))
      by (unfold init_package; by rewrite Hpos).
    destruct (is_closed ip) eqn:Hc.
    + eapply tot_mono; [apply IH|].
      { rewrite length_delete by eauto. apply lookup_lt_Some in Hi. lia. }
      intros p' w'' H. eapply init_outcome_delete; [done| |done].
      by exists w, ip, w'.
    + unfold tot. cbn. left. exists t, w, ip, w'.1, w'.2.
      split_and!; [by eapply list_elem_of_lookup_2|done|by destruct w'|done..].
  - destruct Hp as [_ Hmin]. unfold tot. cbn. right. split; [done|].
    intros t [j Hj]%list_elem_of_lookup Hne. right. eauto.
Qed.

(** Opening a session always answers. The request reaches only named
    virtual hosts of the client's list, one after the other; if one of them
    leaves its session open, its response goes to the client and the session
    is booked on it; otherwise the client gets an error response and a closed
    session, and every named host has been tried in vain (or is saturated). *)
Theorem init_session `{!YazLaws Y} (package : Package R) (req : InitRequest)
    (pos : R) (w : Impl * Global E)
    (Hnext : ∀ p w, tot (next "" p) w (λ _ _, True))
    (Hpos : p_route_pos package = Some pos)
    (Hreq : z3950 (p_request package) = Some (initRequest req)) :
  ∃ fuel n vhosts oi, ∀ fuel', (fuel ≤ fuel')%nat →
    remove_vhost_otherinfo fuel' (iq_otherInfo req) [] = Ok (n, vhosts, oi) ∧
    tot (process next fuel' package) w
      (init_outcome package (set_iq_otherInfo oi req) vhosts).
Proof.
  destruct (vhost_terminates (iq_otherInfo req) true) as (fuel & [[n vhosts] oi] & Hr).
  exists fuel, n, vhosts, oi. intros fuel' Hf. specialize (Hr fuel' Hf).
  split; [exact Hr|]. unfold process. rewrite Hreq. unfold process_init.
  apply tot_bind. unfold remove_vhost_otherinfo. rewrite Hr.
  change (tot (init_loop next (S (length vhosts)) package (set_iq_otherInfo oi req)
    vhosts) w (init_outcome package (set_iq_otherInfo oi req) vhosts)).
  eapply init_loop_ok; [done..|lia].
Qed.

(** ** Requests of an open session *)

Lemma with_stat_hit id t s f st :
  m_session_target st !! id = Some t → t ≠ "" → m_target_stat st !! t = Some s →
  with_stat id f st = mk_Impl (<[t := f s]> (m_target_stat st)) (m_session_target st).
Proof.
  intros Hs Ht Hst. unfold with_stat, find_session_target. rewrite Hs. simpl.
  by rewrite decide_True, Hst.
Qed.

(** While a request of a session is away the target is charged one
    package more, and the response takes exactly that back: from a request
    that is neither an Init nor a Close to a response that is not a Close on
    an open session, the books are as before. *)
Theorem request_is_balanced (fuel : nat) (package p' : Package R) (a b : APDU)
    (st : Impl) (g g' : Global E) (t : string) (s : TargetStat)
    (Hreq : z3950 (p_request package) = Some a)
    (Hkind : match a with initRequest _ | close _ => False | _ => True end)
    (Hopen : is_closed package = false)
    (Hsess : m_session_target st !! Session.id (p_session package) = Some t)
    (Hname : t ≠ "") (Hstat : m_target_stat st !! t = Some s)
    (Hmax : 0 ≤ packages s < UINT_MAX)
    (Hnext : next "" package (add_package (Session.id (p_session package)) st, g) =
      Ok (p', (add_package (Session.id (p_session package)) st, g')))
    (Hsame : p_session p' = p_session package)
    (Hresp : z3950 (p_response p') = Some b)
    (Hkind' : match b with close _ => False | _ => True end) :
  packages s + 1 = default 0 (packages <$>
    m_target_stat (add_package (Session.id (p_session package)) st) !! t) ∧
  process next fuel package (st, g) = Ok (p', (st, g')).
Proof.
  unfold add_package in *. rewrite (with_stat_hit _ _ _ _ _ Hsess Hname Hstat) in *.
  rewrite (proj2 (Z.ltb_lt _ _)) in * by lia. simpl.
  rewrite lookup_insert_eq. split; [done|].
  set (sp := mk_TargetStat (sessions s) (packages s + 1) (deads s)) in *.
  set (stp := mk_Impl (<[t:=sp]> (m_target_stat st)) (m_session_target st)) in *.
  assert (Hrun : process_move next false package (stp, g) = Ok (p', (st, g'))).
  { unfold process_move, mbind, M_bind. rewrite Hnext. rewrite Hresp, Hsame.
    assert (Hrm : remove_package (Session.id (p_session package)) stp = st).
    { unfold remove_package. erewrite with_stat_hit;
        [|exact Hsess|exact Hname|apply lookup_insert_eq].
      simpl. rewrite (proj2 (Z.ltb_lt _ _)) by lia.
      rewrite insert_insert_eq, Z.add_simpl_r. destruct s. cbn in *.
      rewrite insert_id by done. by destruct st. }
    unfold is_closed in *. rewrite Hsame. rewrite Hopen.
    destruct b; try done; cbn; by rewrite Hrm. }
  unfold process. rewrite Hreq, Hopen. unfold add_package.
  destruct a; try done;
    (unfold mbind, M_bind, modify_st; cbn [fst snd];
     rewrite (with_stat_hit _ _ _ _ _ Hsess Hname Hstat),
       (proj2 (Z.ltb_lt _ _)) by lia; exact Hrun).
Qed.
(** ** The books stay consistent *)

Definition state_ok (w : Impl * Global E) : Prop := books_ok w.1.
Definition keeps_books (m : Package R → M (Impl * Global E) (Package R)) : Prop :=
  ∀ p w, state_ok w → par (m p) w (λ _ w', state_ok w').

Lemma modify_books (f : Impl → Impl) (w : Impl * Global E) :
  (∀ st, books_ok st → books_ok (f st)) → state_ok w →
  par (modify_st f) w (λ _ w', state_ok w').
Proof. intros Hf Hw. by apply Hf. Qed.

Lemma process_move_books b :
  keeps_books (next "") → keeps_books (process_move next b).
Proof.
  intros Hn p w Hw. unfold process_move. apply par_bind.
  eapply par_mono; [by apply Hn|]. intros p' w' Hw'. apply par_bind.
  apply (par_mono _ _ (λ _ w', state_ok w')).
  { destruct (z3950 (p_response p')) as [[]|]; try (by apply par_ret);
      (apply par_bind; eapply par_mono; [apply modify_books; [auto with mp|done]|];
       intros [] ? ?; by apply par_ret). }
  intros c w2 Hw2. destruct (c || b); [|by apply par_ret].
  apply par_bind. apply (par_mono _ _ (λ _ w', state_ok w')).
  { destruct b; [by apply par_ret|]. by apply modify_books; [auto with mp|]. }
  intros [] w3 Hw3. apply par_bind.
  eapply par_mono; [apply modify_books; [auto with mp|done]|].
  intros [] ? ?. by apply par_ret.
Qed.
Lemma init_loop_books fuel package base vhosts w :
  keeps_books (next "") → state_ok w →
  par (init_loop next fuel package base vhosts) w (λ _ w', state_ok w').
Proof.
  intros Hn. revert vhosts w. induction fuel as [|fuel IH]; intros vhosts w Hw; [done|].
  cbn [init_loop]. apply par_bind.
  apply (par_mono _ _ (λ _ w', state_ok w')).
  { unfold copy_filter. by destruct (p_route_pos package). }
  intros ip w1 Hw1. apply par_bind. unfold par at 1. cbn.
  destruct (pick w1.1 vhosts) as [i|]; [|by apply par_ret].
  apply par_bind. eapply par_mono; [by apply Hn|]. intros ip' w2 Hw2.
  destruct (is_closed ip'); [by apply IH|]. apply par_bind.
  eapply par_mono; [apply modify_books; [auto with mp|done]|].
  intros [] ? ?. by apply par_ret.
Qed.

(** C33. The filter keeps its books in order: starting from books in which
    all counters are in the range of [unsigned int] and every recorded target
    has at least one session, processing any package, whatever the rest of
    the chain and other sessions do that respects this, ends in such books
    (no counter ever wraps below zero or past its maximum). *)
Theorem process_keeps_books (fuel : nat) (package : Package R)
    (w : Impl * Global E)
    (Hnext : keeps_books (next "")) (Hw : state_ok w) :
  par (process next fuel package) w (λ _ w', state_ok w').
Proof.
  assert (Hmove : ∀ b, par (modify_st (add_package (Session.id (p_session package))) ;;
    process_move next b package) w (λ _ w', state_ok w')).
  { intros b. apply par_bind. eapply par_mono; [apply modify_books; [auto with mp|done]|].
    intros [] w' Hw'. by apply process_move_books. }
  unfold process.
  destruct (z3950 (p_request package)) as [[]|]; try apply Hmove;
    [|by apply process_move_books].
  unfold process_init. apply par_bind. unfold par at 1, lift_outcome.
  destruct (remove_vhost_otherinfo _ _ _) as [[[n vhosts] oi]|?|?|]; [|done..].
  by apply init_loop_books.
Qed.
End properties.
(** *** Live sessions that are no longer counted *)

(** When one of several sessions of a target without failures ends,
    [remove_session] erases the whole record of the target: its cost drops
    to zero although the other sessions are still open on it. *)
Theorem live_sessions_forgotten (st : Impl) (id1 id2 : Z) (t : string)
    (s : TargetStat)
    (H1 : m_session_target st !! id1 = Some t)
    (H2 : m_session_target st !! id2 = Some t) (Hne : id1 ≠ id2) (Ht : t ≠ "")
    (Hs : m_target_stat st !! t = Some s) (Hn : 1 < sessions s)
    (Hd : deads s = 0) :
  find_session_target id2 (remove_session id1 st) = t ∧
  cost t (remove_session id1 st) = 0.
Proof.
  unfold remove_session. rewrite H1, Hs.
  rewrite (proj2 (Z.ltb_lt 0 (sessions s))) by lia. simpl.
  rewrite Hd, orb_true_r. split.
  - unfold find_session_target. simpl. by rewrite lookup_delete_ne, H2.
  - unfold cost. simpl. by rewrite decide_True, lookup_delete_eq.
Qed.

(** *** Witnesses *)
Section example.
(** Targets answer with their request; the one called bad closes. *)
Definition example_next (_ : string) (p : Package unit) :
    M (Impl * Global unit) (Package unit) :=
  match z3950 (p_request p) with
  | Some (initRequest r) =>
      match get_vhost_otherinfo (Y := ref_yaz) 9 (iq_otherInfo r) [] with
      | Ok (v :: _) =>
          if decide (v = "bad") then mret (close_session p)
          else mret (set_response (p_request p) p)
      | _ => mret (set_response (p_request p) p)
      end
  | Some _ => mret (set_response (Some (GDU_Z3950 (otherAPDU "ok"))) p)
  | None => mret p
  end.
Definition example_init : InitRequest :=
  set_iq_otherInfo (set_vhost_otherinfo (Y := ref_yaz) [] ["bad"; "good"])
    (zget_initRequest (Yaz := ref_yaz)).
Definition example_package (g : GDU) : Package unit :=
  mk_Package (Session.mk 5 false) Origin.create (Some tt) (Some g) None.
Definition example_world : Impl * Global unit :=
  (mk_Impl {["bad" := mk_TargetStat 1 0 0]} {[3 := "bad"]}, Build_Global 7 tt).
Definition example_open : Impl * Global unit :=
  (mk_Impl {["good" := mk_TargetStat 1 0 0]} {[5 := "good"]}, Build_Global 7 tt).
End example.

Lemma init_session_witness :
  ∃ fuel n oi, tot (process (Y := ref_yaz) example_next fuel
      (example_package (GDU_Z3950 (initRequest example_init)))) example_world
    (init_outcome (Y := ref_yaz) example_next
      (example_package (GDU_Z3950 (initRequest example_init)))
      (set_iq_otherInfo oi example_init) n).
Proof.
  destruct (init_session (Y := ref_yaz) example_next
    (example_package (GDU_Z3950 (initRequest example_init))) example_init tt
    example_world) as (fuel & n & vhosts & oi & H).
  - intros p w. unfold example_next, tot.
    destruct (z3950 (p_request p)) as [[]|]; try exact I.
    destruct (get_vhost_otherinfo _ _ _) as [[|v l]|?|?|]; try exact I.
    destruct (decide (v = "bad")); exact I.
  - reflexivity.
  - reflexivity.
  - exists fuel, vhosts, oi. apply (H fuel (le_n fuel)).
Defined.
Lemma live_sessions_forgotten_witness :
  ∃ st, cost "t" st = 2 ∧ find_session_target 2 (remove_session 1 st) = "t" ∧
    cost "t" (remove_session 1 st) = 0.
Proof.
  exists (mk_Impl {["t" := mk_TargetStat 2 0 0]} (<[1 := "t"]> {[2 := "t"]})).
  split; [reflexivity|].
  apply (live_sessions_forgotten _ 1 2 "t" (mk_TargetStat 2 0 0));
    (reflexivity || discriminate).
Defined.
Lemma request_is_balanced_witness :
  ∃ p', process (Y := ref_yaz) example_next 1
    (example_package (GDU_Z3950 (otherAPDU "q"))) example_open = Ok (p', example_open).
Proof.
  eexists. eapply (request_is_balanced (Y := ref_yaz) example_next 1
    (example_package (GDU_Z3950 (otherAPDU "q")))
    (set_response (Some (GDU_Z3950 (otherAPDU "ok")))
       (example_package (GDU_Z3950 (otherAPDU "q"))))
    (otherAPDU "q") (otherAPDU "ok") _ _ _ "good" (mk_TargetStat 1 0 0));
    try reflexivity; try exact I; try discriminate.
  vm_compute. split; [discriminate|reflexivity].
Defined.
Lemma process_keeps_books_witness :
  par (process (Y := ref_yaz) example_next 9
    (example_package (GDU_Z3950 (otherAPDU "q")))) example_open
    (λ _ w', state_ok w').
Proof.
  apply (process_keeps_books (Y := ref_yaz)).
  - intros p w Hw. unfold example_next, par.
    destruct (z3950 (p_request p)) as [[]|]; try exact Hw.
    destruct (get_vhost_otherinfo _ _ _) as [[|v l]|?|?|]; try exact Hw.
    destruct (decide (v = "bad")); exact Hw.
  - apply map_Forall_singleton. vm_compute.
    repeat split; discriminate.
Defined.
End LoadBalance.
