(* ===== verification/Limit.v ===== *)
(** * The limit filter

    [src/filter_limit.cpp]: per session, the rate of bytes, PDUs and searches
    is measured over a minute; sessions over their limits are slowed down, and
    the number of records of one Present is capped. *)
From S2P Require Import Prelude Zgdu Core Xml.

Module Limit.

(** ** Configuration *)
Record Conf : Type := mk_Conf {
  m_bw_max : Z;
  m_pdu_max : Z;
  m_search_max : Z;
  m_max_record_retrieve : Z
}.
Definition Conf_init : Conf := mk_Conf 0 0 0 0.

Fixpoint configure_attrs (attrs : list xmlAttr) (c : Conf) : outcome Conf :=
  match attrs with
  | [] => Ok c
  | a :: attrs' =>
      let v := mp_xml.get_int (a_children a) 0 in
      if decide (a_name a = "bandwidth") then
        configure_attrs attrs' (mk_Conf v (m_pdu_max c) (m_search_max c)
                                  (m_max_record_retrieve c))
      else if decide (a_name a = "pdu") then
        configure_attrs attrs' (mk_Conf (m_bw_max c) v (m_search_max c)
                                  (m_max_record_retrieve c))
      else if decide (a_name a = "search") then
        configure_attrs attrs' (mk_Conf (m_bw_max c) (m_pdu_max c) v
                                  (m_max_record_retrieve c))
      else if decide (a_name a = "retrieve") then
        configure_attrs attrs' (mk_Conf (m_bw_max c) (m_pdu_max c)
                                  (m_search_max c) v)
      else Throw ("Bad attribute " +:+ a_name a)
  end.
Fixpoint configure_loop (ptr : list xmlNode) (c : Conf) : outcome Conf :=
  match ptr with
  | [] => Ok c
  | n :: ptr' =>
      if decide (n_type n ≠ XML_ELEMENT_NODE) then configure_loop ptr' c
      else if decide (n_name n = "limit") then
        c' ← configure_attrs (n_properties n) c;
        configure_loop ptr' c'
      else Throw ("Bad element " +:+ n_name n)
  end.
Definition configure (ptr : xmlNode) (c : Conf) : outcome Conf :=
  configure_loop (n_children ptr) c.

(** ** Processing *)

(** The delay in seconds; [/] is C++ integer division. *)
Definition reduce_of (c : Conf) (search_total bw_total pdu_total : Z) : Z :=
  let reduce := 0 in
  let reduce := if m_search_max c =? 0 then reduce
                else reduce + Z.quot search_total (m_search_max c) in
  let reduce := if m_bw_max c =? 0 then reduce
                else reduce + Z.quot bw_total (m_bw_max c) in
  if m_pdu_max c =? 0 then reduce
  else if m_pdu_max c <? pdu_total then
    let nreduce := if 60 <=? m_pdu_max c then 1 else Z.quot 60 (m_pdu_max c) in
    if nreduce <? reduce then reduce else nreduce
  else reduce.

(** The request that is passed on. *)
Definition clamp (c : Conf) (g : option GDU) : option GDU :=
  match g with
  | Some (GDU_Z3950 (presentRequest pr)) =>
      if m_max_record_retrieve c =? 0 then g
      else if m_max_record_retrieve c <? pq_numberOfRecordsRequested pr then
        Some (GDU_Z3950 (presentRequest
          (set_pq_numberOfRecordsRequested (m_max_record_retrieve c) pr)))
      else g
  | _ => g
  end.

Section process.
Context {R E : Type}.
(** [yazpp_1::TimeStat] (with the time of the call), the clock, the encoded
    size of a PDU, and [sleep]. *)
Context {TimeStat : Type} (TimeStat_new : Z → TimeStat).
Context (add_bytes : Z → Z → TimeStat → TimeStat) (get_total : Z → TimeStat → Z).
Context (clock : E → Z) (get_size : option GDU → Z) (sleep : Z → E → E).
Context (c : Conf).

Record Ses : Type := mk_Ses {
  bw_stat : TimeStat;
  pdu_stat : TimeStat;
  search_stat : TimeStat
}.
Definition Ses_new : Ses :=
  mk_Ses (TimeStat_new 60) (TimeStat_new 60) (TimeStat_new 60).

(** [m_sessions], keyed by the session identifier. *)
#[local] Notation Impl := (gmap Z Ses).
Definition Filter (A : Type) : Type := M (Impl * Global E) A.
Context (next : string → Package R → Filter (Package R)).

Definition find_or_new (id : Z) (m_sessions : Impl) : Ses :=
  match m_sessions !! id with Some ses => ses | None => Ses_new end.

(** The first critical section: count a search, register the session. *)
Definition enter (package : Package R) : Filter unit :=
  w ← get;
  let id := Session.id (p_session package) in
  let ses := find_or_new id w.1 in
  let ses := match z3950 (p_request package) with
             | Some (searchRequest _) =>
                 mk_Ses (bw_stat ses) (pdu_stat ses)
                   (add_bytes (clock (g_env w.2)) 1 (search_stat ses))
             | _ => ses
             end in
  put_st (<[id := ses]> w.1).

(** The second: count bytes and PDUs, compute the delay, forget a closed
    session. [sz] is the size of the request. *)
Definition leave (sz : Z) (package : Package R) : Filter Z :=
  w ← get;
  let id := Session.id (p_session package) in
  let now := clock (g_env w.2) in
  let ses := find_or_new id w.1 in
  let sz := int32 (sz + get_size (p_response package)) in
  let ses := mk_Ses (add_bytes now sz (bw_stat ses))
               (add_bytes now 1 (pdu_stat ses)) (search_stat ses) in
  let reduce := reduce_of c (get_total now (search_stat ses))
                  (get_total now (bw_stat ses)) (get_total now (pdu_stat ses)) in
  put_st (if is_closed package then delete id w.1 else <[id := ses]> w.1) ;;
  mret reduce.

Definition do_sleep (reduce : Z) : Filter unit :=
  if reduce =? 0 then mret tt
  else modify (λ w, (w.1, Build_Global (g_id w.2) (sleep reduce (g_env w.2)))).

Definition process (package : Package R) : Filter (Package R) :=
  let sz := match z3950 (p_request package) with
            | Some _ => get_size (p_request package)
            | None => 0
            end in
  enter package ;;
  package ← next "" (set_request (clamp c (p_request package)) package);
  reduce ← leave sz package;
  do_sleep reduce ;;
  mret package.

(** ** Properties *)

(** The sessions that are known and open. *)
Definition known (id : Z) (w : Impl * Global E) : Prop := is_Some (w.1 !! id).

(** The filter only looks on: the rest of the chain receives the package
    as it came, except that a Present asks for at most the configured number
    of records; its answer is what the caller gets; and the session has an
    entry in the session table afterwards iff it is still open, so that
    nothing is kept for closed sessions. *)
Theorem limit_transparent (package p' : Package R) (w w1 : Impl * Global E)
    (Hnext : (enter package ;;
              next "" (set_request (clamp c (p_request package)) package)) w
             = Ok (p', w1))
    (Hmax : 0 ≤ m_max_record_retrieve c) :
  (∀ pr, clamp c (p_request package) = Some (GDU_Z3950 (presentRequest pr)) →
     m_max_record_retrieve c = 0 ∨
     pq_numberOfRecordsRequested pr ≤ m_max_record_retrieve c) ∧
  (∃ n, ∃ w', process package w = Ok (p', w') ∧
     (known (Session.id (p_session p')) w' ↔ is_closed p' = false) ∧
     (∀ id, id ≠ Session.id (p_session p') → w'.1 !! id = w1.1 !! id) ∧
     (g_env w'.2 = g_env w1.2 ∨ g_env w'.2 = sleep n (g_env w1.2))).
Proof.
  split.
  - intros pr. unfold clamp.
    destruct (p_request package) as [[[]| |]|]; try done.
    destruct (Z.eqb_spec (m_max_record_retrieve c) 0); [by left|].
    destruct (Z.ltb_spec (m_max_record_retrieve c) (pq_numberOfRecordsRequested r));
      intros [= <-]; right; simpl; lia.
  - unfold process, mbind, M_bind in *.
    destruct (enter package w) as [[[] w0]|?|?|]; [|done..].
    rewrite Hnext. unfold leave, do_sleep, get, put_st, mbind, M_bind,
      mret, M_ret, modify. cbn beta iota.
    match goal with |- context [?r =? 0] => exists r end.
    match goal with |- context [if is_closed p' then ?a else ?b] =>
      assert (Hm : (is_Some ((if is_closed p' then a else b) !!
                             Session.id (p_session p')) ↔ is_closed p' = false) ∧
        ∀ id, id ≠ Session.id (p_session p') →
          (if is_closed p' then a else b) !! id = w1.1 !! id)
    end.
    { destruct (is_closed p').
      - rewrite lookup_delete_eq. split; [split; [by intros [? ?]|done]|].
        intros id Hid. by apply lookup_delete_ne.
      - rewrite lookup_insert_eq. split; [done|].
        intros id Hid. by apply lookup_insert_ne. }
    destruct Hm as [Hm1 Hm2].
    destruct (_ =? 0); (eexists; split; [reflexivity|]);
      (split_and!; [exact Hm1|exact Hm2|auto]).
Qed.
End process.

(** The delay: a session below its limits is never slowed down, one at
    or above its search or bandwidth limit, or above its PDU limit, waits at
    least a second; every whole multiple of the search and bandwidth limits
    costs one more second, and an excess of PDUs at least the time one PDU is
    allowed to take. *)
Theorem limit_delay (c : Conf) (s b p : Z)
    (Hs : 0 ≤ s) (Hb : 0 ≤ b) (Hp : 0 ≤ p)
    (Hc : 0 ≤ m_search_max c ∧ 0 ≤ m_bw_max c ∧ 0 ≤ m_pdu_max c) :
  let under x max := max = 0 ∨ x < max in
  let d := reduce_of c s b p in
  0 ≤ d ∧
  (under s (m_search_max c) → under b (m_bw_max c) →
   m_pdu_max c = 0 ∨ p ≤ m_pdu_max c → d = 0) ∧
  (¬ under s (m_search_max c) → 1 ≤ d ∧ s / m_search_max c ≤ d) ∧
  (¬ under b (m_bw_max c) → 1 ≤ d ∧ b / m_bw_max c ≤ d) ∧
  (0 < m_pdu_max c < p → 1 ≤ d ∧ 60 / m_pdu_max c ≤ d).
Proof.
  destruct Hc as (H1 & H2 & H3). intros under d.
  assert (Hq : ∀ x max, 0 ≤ x → 0 ≤ max →
    (max =? 0) = false → Z.quot x max = x / max ∧ 0 ≤ x / max ∧
    (x < max → x / max = 0) ∧ (max ≤ x → 1 ≤ x / max)).
  { intros x max Hx Hm Hz%Z.eqb_neq. rewrite Z.quot_div_nonneg by lia.
    split_and!; [done|apply Z.div_pos; lia|intros; by apply Z.div_small|].
    intros. apply Z.div_le_lower_bound; lia. }
  unfold d, reduce_of, under. clear d under.
  destruct (m_search_max c =? 0) eqn:Es; [apply Z.eqb_eq in Es|
    destruct (Hq s _ Hs H1 Es) as (-> & ? & ? & ?); apply Z.eqb_neq in Es];
  (destruct (m_bw_max c =? 0) eqn:Eb; [apply Z.eqb_eq in Eb|
    destruct (Hq b _ Hb H2 Eb) as (-> & ? & ? & ?); apply Z.eqb_neq in Eb]);
  (destruct (m_pdu_max c =? 0) eqn:Ep; [apply Z.eqb_eq in Ep|
    apply Z.eqb_neq in Ep; destruct (Z.ltb_spec (m_pdu_max c) p) as [Hlt|Hlt];
    [destruct (Z.leb_spec 60 (m_pdu_max c)) as [H60|H60];
     [|rewrite Z.quot_div_nonneg by lia;
       assert (1 ≤ 60 / m_pdu_max c) by (apply Z.div_le_lower_bound; lia)]|]]).
  all: repeat match goal with |- context [?x <? ?y] => destruct (Z.ltb_spec x y) end.
  all: try (assert (60 ≤ m_pdu_max c → 60 / m_pdu_max c ≤ 1) by
    (intros; apply Z.div_le_upper_bound; lia)).
  all: split_and!; intros; lia.
Qed.
(** *** Witnesses *)
Lemma limit_transparent_witness :
  ∃ p' w', process (R := unit) (E := Z) (λ _, 0) (λ _ n t, t + n) (λ _ t, t)
      (λ now, now) (λ _, 10) (λ n now, now + n) (mk_Conf 0 0 0 5)
      (λ _ p, mret p)
      (mk_Package (Session.mk 1 false) Origin.create None
        (Some (GDU_Z3950 (presentRequest {| pq_referenceId := None;
           pq_resultSetId := "s"; pq_resultSetStartPoint := 1;
           pq_numberOfRecordsRequested := 100; pq_preferredRecordSyntax := None;
           pq_recordComposition := None |}))) None)
      (∅, Build_Global 1 0) = Ok (p', w') ∧ known 1 w'.
Proof.
  edestruct (limit_transparent (R := unit) (E := Z) (λ _, 0) (λ _ n t, t + n)
    (λ _ t, t) (λ now, now) (λ _, 10) (λ n now, now + n) (mk_Conf 0 0 0 5)
    (λ _ p, mret p)) as (_ & n & w' & H & Hk & _).
  - reflexivity.
  - discriminate.
  - eexists _, w'. split; [exact H|]. apply Hk. reflexivity.
Defined.
Lemma limit_delay_witness : reduce_of (mk_Conf 1000 30 2 0) 5 100 31 = 2 ∧
  1 ≤ reduce_of (mk_Conf 1000 30 2 0) 5 100 31.
Proof.
  split; [reflexivity|].
  destruct (limit_delay (mk_Conf 1000 30 2 0) 5 100 31) as (_ & _ & _ & _ & H);
    [lia..|repeat split; simpl; lia|]. apply H. simpl. lia.
Defined.
End Limit.
