(* ===== verification/PresentChunk.v ===== *)
(** * The present_chunk filter

    [src/filter_present_chunk.cpp]: a Present for many records is split into
    Presents for at most [chunk_number] records each, and the records that
    come back are put together. *)
From S2P Require Import Prelude Zgdu Yaz Core Xml Target.

Module PresentChunk.

Fixpoint configure_loop (ptr : list xmlNode) (chunk_number : Z) : outcome Z :=
  match ptr with
  | [] => Ok chunk_number
  | n :: ptr' =>
      if decide (n_type n ≠ XML_ELEMENT_NODE) then configure_loop ptr' chunk_number
      else if decide (n_name n = "chunk") then
        configure_loop ptr' (mp_xml.get_int [n] 0)
      else Throw ("Bad element " +:+ n_name n)
  end.
Definition configure (ptr : xmlNode) (chunk_number : Z) : outcome Z :=
  configure_loop (n_children ptr) chunk_number.

Section filter.
Context `{Y : Yaz} {R W : Type}.
Context (next : string → Package R → M W (Package R)).
Context (chunk_number : Z).

(** The request of one chunk: the client's request, modified in place. *)
Definition chunk_request (pr : PresentRequest) (start total offset : Z) :
    PresentRequest :=
  let left := total - offset in
  set_pq_resultSetStartPoint (start + offset)
    (set_pq_numberOfRecordsRequested
       (if chunk_number <? left then chunk_number else left) pr).

(** The response that is built at the end: a default Present response. *)
Definition chunk_response (npl : list NamePlusRecord) : GDU :=
  GDU_Z3950 (presentResponse
    (set_pr_numberOfRecordsReturned (Z.of_nat (length npl))
       (set_pr_records (Some (Records_DBOSD npl)) zget_presentResponse))).

(** The loop of [chunk_it]. [npl] are the records copied so far, [offset]
    of them; the array they go to has room for [total]. *)
Fixpoint chunk_loop (fuel : nat) (package : Package R) (pr : PresentRequest)
    (start total : Z) (npl : list NamePlusRecord) : M W (Package R) :=
  let offset := Z.of_nat (length npl) in
  match fuel with
  | O => out_of_fuel
  | S fuel' =>
      if offset <? total then
        let pr' := chunk_request pr start total offset in
        let gdu := Some (GDU_Z3950 (presentRequest pr')) in
        let package := set_request gdu package in
        pp ← copy_filter package (new_Package (p_session package) (p_origin package));
        pp ← next "" (set_request gdu pp);
        if is_closed pp then mret (close_session package)
        else
          match z3950 (p_response pp) with
          | Some (presentResponse pres) =>
              match pr_records pres with
              | Some (Records_DBOSD nprl) =>
                  if decide (nprl ≠ [] ∧ total < offset + Z.of_nat (length nprl)) then
                    undef OutOfBounds
                  else chunk_loop fuel' package pr' start total (npl ++ nprl)
              | _ => mret (set_response (p_response pp) package)
              end
          | _ => mret (set_response (p_response pp) package)
          end
      else mret (set_response (Some (chunk_response npl)) package)
  end.

Definition chunk_it (fuel : nat) (package : Package R) (pr : PresentRequest) :
    M W (Package R) :=
  chunk_loop fuel package pr (pq_resultSetStartPoint pr)
    (pq_numberOfRecordsRequested pr) [].

Definition process (fuel : nat) (package : Package R) : M W (Package R) :=
  match z3950 (p_request package) with
  | Some (presentRequest pr) =>
      if 0 <? chunk_number then chunk_it fuel package pr else next "" package
  | _ => next "" package
  end.

(** ** In front of a target with a result set *)
Section served.
Context (ok : Session.t → option string → option RecordComposition → string → W → Prop).
Context (records : list NamePlusRecord) `{Hserves : !Serves next ok records}.
(** The target serves the result set of a request. *)
Definition servable (package : Package R) (pr : PresentRequest) (w : W) : Prop :=
  ok (p_session package) (pq_preferredRecordSyntax pr) (pq_recordComposition pr)
     (pq_resultSetId pr) w.
Context (Hchunk : 0 < chunk_number).

(** The part of the result set that was asked for. *)
Definition window (start total : Z) : list NamePlusRecord :=
  take (Z.to_nat total) (drop (Z.to_nat (start - 1)) records).

Lemma window_length start total :
  1 ≤ start → 0 ≤ total → start + total - 1 ≤ Z.of_nat (length records) →
  Z.of_nat (length (window start total)) = total.
Proof. intros. unfold window. rewrite length_take, length_drop. lia. Qed.

(** The records that follow in a window. *)
Lemma window_next start total (npl : list NamePlusRecord) k :
  1 ≤ start → npl `prefix_of` window start total →
  Z.of_nat k ≤ total - Z.of_nat (length npl) →
  npl ++ take k (drop (Z.to_nat (start + Z.of_nat (length npl) - 1)) records)
    `prefix_of` window start total.
Proof.
  intros Hs [rest Hrest] Hk.
  assert (Hsplit : window start total = npl ++ drop (length npl) (window start total)).
  { rewrite Hrest at 2. by rewrite drop_app_length. }
  rewrite Hsplit. apply prefix_app. unfold window. rewrite skipn_firstn_comm, drop_drop.
  replace (Z.to_nat (start + Z.of_nat (length npl) - 1))
    with (Z.to_nat (start - 1) + length npl)%nat by lia.
  replace k with (k `min` (Z.to_nat total - length npl))%nat at 1 by lia.
  rewrite <-take_take. eexists. symmetry. apply take_drop.
Qed.
Lemma chunk_loop_served fuel package pr start total npl w pos :
  p_route_pos package = Some pos → is_closed package = false → servable package pr w →
  1 ≤ start → 0 ≤ total → start + total - 1 ≤ Z.of_nat (length records) →
  npl `prefix_of` window start total →
  total - Z.of_nat (length npl) < Z.of_nat fuel →
  ∃ p' w', chunk_loop fuel package pr start total npl w = Ok (p', w') ∧
    p_response p' = Some (chunk_response (window start total)) ∧
    p_session p' = p_session package ∧ servable package pr w'.
Proof.
  intros Hpos Hopen Hok Hs Ht Hin. revert package pr npl w Hpos Hopen Hok.
  induction fuel as [|fuel IH]; intros package pr npl w Hpos Hopen Hok Hpre Hf.
  { apply prefix_length in Hpre.
    pose proof (window_length start total Hs Ht Hin). lia. }
  pose proof (window_length start total Hs Ht Hin) as Hlen.
  cbn [chunk_loop]. destruct (Z.ltb_spec (Z.of_nat (length npl)) total) as [Hlt|Hge].
  - set (pr' := chunk_request pr start total (Z.of_nat (length npl))).
    erewrite bind_ok by (apply copy_filter_ok; exact Hpos).
    match goal with |- context [next "" ?p] => set (pp := p) end.
    destruct (Hserves pp pr' w) as (p1 & pres & k & w1 & Hn & Hc & Hr & Hk & Hrec & Hok').
    + done.
    + by eexists.
    + done.
    + done.
    + simpl. lia.
    + simpl. destruct (Z.ltb_spec chunk_number (total - Z.of_nat (length npl))); lia.
    + simpl. destruct (Z.ltb_spec chunk_number (total - Z.of_nat (length npl))); lia.
    + assert (Hk' : Z.of_nat k ≤ total - Z.of_nat (length npl)).
      { revert Hk. simpl.
        destruct (Z.ltb_spec chunk_number (total - Z.of_nat (length npl))); lia. }
      erewrite bind_ok by exact Hn; rewrite Hc, Hr, Hrec.
      set (nprl := take k _).
      assert (Hnl : length nprl = k).
      { unfold nprl. rewrite length_take, length_drop. simpl. lia. }
      rewrite decide_False by lia.
      destruct (IH (set_request (Some (GDU_Z3950 (presentRequest pr'))) package) pr'
        (npl ++ nprl) w1) as (p' & w' & Heq & Hresp & Hsess & Hok2).
      * done.
      * done.
      * done.
      * by apply window_next.
      * rewrite length_app, Hnl. lia.
      * exists p', w'. split; [exact Heq|]. split; [done|]. by rewrite Hsess.
  - exists (set_response (Some (chunk_response npl)) package), w.
    split; [reflexivity|]. split; [|by split]. cbn. do 2 f_equal.
    symmetry. destruct Hpre as [rest Hrest]. rewrite Hrest.
    rewrite Hrest, length_app in Hlen.
    destruct rest; [by rewrite app_nil_r|simpl in Hlen; lia].
Qed.
End served.

(** The filter in front of a target is a target. *)
Lemma chunk_served ok records `{!Serves next ok records} (fuel : nat) (p : Package R)
    (pr : PresentRequest) (w : W) :
  z3950 (p_request p) = Some (presentRequest pr) →
  is_Some (p_route_pos p) → is_closed p = false → servable ok p pr w →
  0 < chunk_number → 1 ≤ pq_resultSetStartPoint pr → 0 ≤ pq_numberOfRecordsRequested pr →
  pq_resultSetStartPoint pr + pq_numberOfRecordsRequested pr - 1 ≤
    Z.of_nat (length records) →
  pq_numberOfRecordsRequested pr < Z.of_nat fuel →
  ∃ p' w', process fuel p w = Ok (p', w') ∧
    p_response p' = Some (chunk_response (window records (pq_resultSetStartPoint pr)
      (pq_numberOfRecordsRequested pr))) ∧
    p_session p' = p_session p ∧ servable ok p pr w'.
Proof.
  intros Hreq [pos Hpos] Hopen Hok Hchunk Hs Hn Hin Hf.
  unfold process. rewrite Hreq, (proj2 (Z.ltb_lt _ _) Hchunk). unfold chunk_it.
  eapply (chunk_loop_served ok records Hchunk); try done.
  - apply prefix_nil.
  - simpl. lia.
Qed.
#[export] Instance chunk_serves ok records `{!Serves next ok records} (fuel : nat)
    (Hchunk : 0 < chunk_number) (Hfuel : (length records < fuel)%nat) :
  Serves (λ _, process fuel) ok records.
Proof.
  intros p pr w Hreq Hpos Hopen Hok. cbn zeta. intros Hs Hn Hin.
  destruct (chunk_served ok records fuel p pr w) as (p' & w' & Hp & Hr & Hsess & Hok');
    try done; try lia.
  eexists p', _, (Z.to_nat (pq_numberOfRecordsRequested pr)), w'. split; [exact Hp|]. unfold is_closed in *.
  rewrite Hsess, Hr. split; [done|]. split; [reflexivity|]. split; [lia|]. by split.
Qed.

(** C5. Chunking is transparent: if the target holds a result set and
    answers each Present inside it with one or more of the requested records,
    then for any chunk size and any answer sizes the filter terminates and
    returns exactly the records that one Present for all of them would
    return, on an unchanged session; as many turns as there are records are
    enough. *)
Theorem chunking_equivalent (ok : Session.t → option string → option RecordComposition →
      string → W → Prop) (records : list NamePlusRecord) (fuel : nat)
    (package : Package R) (pr : PresentRequest) (pos : R) (w : W)
    (Hserves : Serves next ok records) (Hchunk : 0 < chunk_number)
    (Hpos : p_route_pos package = Some pos) (Hopen : is_closed package = false)
    (Hreq : z3950 (p_request package) = Some (presentRequest pr))
    (Hok : servable ok package pr w)
    (Hstart : 1 ≤ pq_resultSetStartPoint pr)
    (Hnumber : 0 ≤ pq_numberOfRecordsRequested pr)
    (Hin : pq_resultSetStartPoint pr + pq_numberOfRecordsRequested pr - 1 ≤
           Z.of_nat (length records))
    (Hfuel : pq_numberOfRecordsRequested pr < Z.of_nat fuel) :
  ∃ p' w', process fuel package w = Ok (p', w') ∧
    p_response p' = Some (chunk_response
      (take (Z.to_nat (pq_numberOfRecordsRequested pr))
         (drop (Z.to_nat (pq_resultSetStartPoint pr - 1)) records))) ∧
    p_session p' = p_session package.
Proof.
  destruct (chunk_served ok records fuel package pr w) as (p' & w' & Hp & Hr & Hs & _);
    try done; by exists p', w'.
Qed.

(** No progress, no end: against a target that answers every Present
    with an empty list of records, a chunked Present for at least one record
    never finishes, whatever number of turns it is given. *)
Theorem empty_chunks_diverge (fuel : nat) (package : Package R)
    (pr : PresentRequest) (pos : R) (w : W)
    (Hempty : ∀ p w, p_route_pos p = Some pos → ∃ p' pres w', next "" p w = Ok (p', w') ∧
       is_closed p' = false ∧
       z3950 (p_response p') = Some (presentResponse pres) ∧
       pr_records pres = Some (Records_DBOSD []))
    (Hchunk : 0 < chunk_number) (Hpos : p_route_pos package = Some pos)
    (Hreq : z3950 (p_request package) = Some (presentRequest pr))
    (Hnumber : 0 < pq_numberOfRecordsRequested pr) :
  process fuel package w = OutOfFuel.
Proof.
  unfold process. rewrite Hreq, (proj2 (Z.ltb_lt _ _) Hchunk). unfold chunk_it.
  set (start := pq_resultSetStartPoint pr).
  set (total := pq_numberOfRecordsRequested pr) in *.
  generalize dependent package. clearbody start total. revert pr w.
  induction fuel as [|fuel IH]; intros pr w package Hpos _; [done|].
  cbn [chunk_loop]. change (Z.of_nat (length [])) with 0. rewrite (proj2 (Z.ltb_lt _ _) Hnumber).
  erewrite bind_ok by (apply copy_filter_ok; exact Hpos).
  match goal with |- context [next "" ?p] => set (pp := p) end.
  destruct (Hempty pp w) as (p' & pres & w' & Hn & Hc & Hr & Hrec); [done|].
  erewrite bind_ok by exact Hn; rewrite Hc, Hr, Hrec, decide_False by naive_solver.
  by apply (IH _ w' _).
Qed.
(** The records of the target are copied without a check of their
    number: if the first answer holds more records than the client asked for,
    the filter writes beyond the array it allocated. *)
Theorem oversized_answer_undefined (fuel : nat) (package : Package R)
    (pr : PresentRequest) (pos : R) (w : W) (nprl : list NamePlusRecord)
    (Hlong : ∀ p w, p_route_pos p = Some pos → ∃ p' pres w', next "" p w = Ok (p', w') ∧
       is_closed p' = false ∧
       z3950 (p_response p') = Some (presentResponse pres) ∧
       pr_records pres = Some (Records_DBOSD nprl))
    (Hchunk : 0 < chunk_number) (Hpos : p_route_pos package = Some pos)
    (Hreq : z3950 (p_request package) = Some (presentRequest pr))
    (Hnumber : 0 < pq_numberOfRecordsRequested pr)
    (Hmore : pq_numberOfRecordsRequested pr < Z.of_nat (length nprl)) :
  process (S fuel) package w = Undef OutOfBounds.
Proof.
  unfold process. rewrite Hreq, (proj2 (Z.ltb_lt _ _) Hchunk). unfold chunk_it.
  cbn [chunk_loop]. change (Z.of_nat (length [])) with 0.
  rewrite (proj2 (Z.ltb_lt _ _) Hnumber).
  erewrite bind_ok by (apply copy_filter_ok; exact Hpos).
  match goal with |- context [next "" ?p] => set (pp := p) end.
  destruct (Hlong pp w) as (p' & pres & w' & Hn & Hc & Hr & Hrec); [done|].
  erewrite bind_ok by exact Hn. rewrite Hc, Hr, Hrec.
  rewrite decide_True; [done|]. split; [intros ->; simpl in *; lia|lia].
Qed.
End filter.
(** *** Witnesses *)
Section example.
Let rec_ (s : string) : NamePlusRecord := {| databaseName := None; npr_record := octet_record s |}.
Definition example_records : list NamePlusRecord :=
  [rec_ "a"; rec_ "b"; rec_ "c"; rec_ "d"; rec_ "e"].
Definition example_request : PresentRequest :=
  {| pq_referenceId := None; pq_resultSetId := "s"; pq_resultSetStartPoint := 2;
     pq_numberOfRecordsRequested := 4; pq_preferredRecordSyntax := None;
     pq_recordComposition := None |}.
Definition example_package : Package unit :=
  mk_Package (Session.mk 1 false) Origin.create (Some tt)
    (Some (GDU_Z3950 (presentRequest example_request))) None.
(** Targets: one that serves a single record per request, one that answers
    with a fixed list. *)
Definition example_answer (l : list NamePlusRecord) : GDU :=
  GDU_Z3950 (presentResponse (set_pr_records (Some (Records_DBOSD l))
    (zget_presentResponse (Yaz := ref_yaz)))).
Definition serve_one (_ : string) (p : Package unit) : M unit (Package unit) :=
  match z3950 (p_request p) with
  | Some (presentRequest pr) =>
      mret (set_session (Session.mk 1 false) (set_response (Some (example_answer
        (take 1 (drop (Z.to_nat (pq_resultSetStartPoint pr - 1)) example_records)))) p))
  | _ => mret p
  end.
Definition serve_list (l : list NamePlusRecord) (_ : string) (p : Package unit) :
    M unit (Package unit) :=
  mret (set_session (Session.mk 1 false) (set_response (Some (example_answer l)) p)).
End example.

#[export] Instance serve_one_serves : Serves serve_one (λ _ _ _ _ _, True) example_records.
Proof.
  intros p pr [] Hp _ _ _ start n Hs Hn Hin. unfold serve_one. rewrite Hp.
  eexists _, _, 1%nat, tt. split; [reflexivity|]. split; [reflexivity|].
  split; [reflexivity|]. split; [lia|]. split; [reflexivity|done].
Qed.
Lemma chunking_equivalent_witness :
  ∃ p' w', process (Y := ref_yaz) serve_one 3 5 example_package tt = Ok (p', w') ∧
    p_response p' = Some (chunk_response (Y := ref_yaz) (take 4 (drop 1 example_records))).
Proof.
  destruct (chunking_equivalent (Y := ref_yaz) serve_one 3 (λ _ _ _ _ _, True)
    example_records 5 example_package example_request tt tt) as (p' & w' & H & Hr & _);
    try reflexivity; try exact I; try apply serve_one_serves; try (simpl; lia).
  exists p', w'. split; [exact H|exact Hr].
Defined.
Lemma empty_chunks_diverge_witness :
  process (Y := ref_yaz) (serve_list []) 3 100 example_package tt = OutOfFuel.
Proof.
  apply (empty_chunks_diverge (Y := ref_yaz) (serve_list []) 3 100 example_package
    example_request tt tt); try reflexivity.
  intros p [] _. do 3 eexists. split; [reflexivity|]. split; [reflexivity|].
  split; reflexivity.
Defined.
Lemma oversized_answer_undefined_witness :
  process (Y := ref_yaz) (serve_list example_records) 3 1 example_package tt =
  Undef OutOfBounds.
Proof.
  apply (oversized_answer_undefined (Y := ref_yaz) (serve_list example_records) 3 0
    example_package example_request tt tt example_records); try reflexivity.
  intros p [] _. do 3 eexists. split; [reflexivity|]. split; [reflexivity|].
  split; reflexivity.
Defined.
End PresentChunk.
