(* ===== verification/VirtDb.v ===== *)
(** * The virt_db filter

    [src/filter_virt_db.cpp]: a client sees virtual databases; each search or
    scan is sent to a backend session opened for the targets of its
    databases. A frontend keeps the backends it has opened and, for every
    result set, the backend that holds it. *)
From S2P Require Import Prelude Zgdu Yaz Core Xml Util Frontends.

Module VirtDb.

(** ** State *)

(** [VirtualDB::Map]: a database pattern, its targets and their route. *)
Record Map : Type := mk_Map {
  m_dbpattern : string;
  m_targets : list string;
  m_route : string
}.

(** [VirtualDB::Backend]. *)
Record Backend : Type := mk_Backend {
  b_session : Session.t;
  b_frontend_databases : list string;
  b_targets : list string;
  b_route : string;
  b_named_result_sets : bool
}.

(** [VirtualDB::Set]: the shared pointer to the backend is its place in
    [m_backend_list], which only grows until the frontend is closed. *)
Record Set_ : Type := mk_Set {
  s_backend : nat;
  s_setname : string
}.

(** [VirtualDB::Frontend]. *)
Record Frontend : Type := mk_Frontend {
  m_is_virtual : bool;
  m_init_gdu : option InitRequest;
  m_backend_list : list Backend;
  m_sets : gmap string Set_
}.
Definition Frontend_new : Frontend := mk_Frontend false None [] ∅.
Definition set_virtual (req : InitRequest) (f : Frontend) : Frontend :=
  mk_Frontend true (Some req) (m_backend_list f) (m_sets f).
Definition add_backend (b : Backend) (f : Frontend) : Frontend :=
  mk_Frontend (m_is_virtual f) (m_init_gdu f) (m_backend_list f ++ [b]) (m_sets f).
Definition set_sets (s : gmap string Set_) (f : Frontend) : Frontend :=
  mk_Frontend (m_is_virtual f) (m_init_gdu f) (m_backend_list f) s.

(** [VirtualDB::Rep]. *)
Record Rep : Type := mk_Rep {
  m_maps : list Map;
  m_clients : Clients Frontend;
  pass_vhosts : bool
}.
Definition set_clients (c : Clients Frontend) (r : Rep) : Rep :=
  mk_Rep (m_maps r) c (pass_vhosts r).

(** ** Configuration *)
Definition add_map_db2targets (db : string) (targets : list string)
    (route : string) (r : Rep) : Rep :=
  mk_Rep (m_maps r ++ [mk_Map (database_name_normalize db) targets route])
    (m_clients r) (pass_vhosts r).
Definition add_map_db2target (db target route : string) (r : Rep) : Rep :=
  mk_Rep (m_maps r ++ [mk_Map (database_name_normalize db) [target] route])
    (m_clients r) (pass_vhosts r).

(** The children of a [virtual] element: database and targets. *)
Fixpoint configure_virtual (v_node : list xmlNode) (database : string)
    (targets : list string) : outcome (string * list string) :=
  match v_node with
  | [] => Ok (database, targets)
  | n :: v_node' =>
      if decide (n_type n ≠ XML_ELEMENT_NODE) then
        configure_virtual v_node' database targets
      else if mp_xml.is_element_mp [n] "database" then
        configure_virtual v_node' (mp_xml.get_text [n]) targets
      else if mp_xml.is_element_mp [n] "target" then
        configure_virtual v_node' database (targets ++ [mp_xml.get_text [n]])
      else Throw ("Bad element " +:+ n_name n +:+ " in virtual section")
  end.
Fixpoint configure_loop (ptr : list xmlNode) (r : Rep) : outcome Rep :=
  match ptr with
  | [] => Ok r
  | n :: ptr' =>
      if decide (n_type n ≠ XML_ELEMENT_NODE) then configure_loop ptr' r
      else if decide (n_name n = "pass-vhosts") then
        configure_loop ptr' (mk_Rep (m_maps r) (m_clients r) (mp_xml.get_bool [n] false))
      else if decide (n_name n = "virtual") then
        dt ← configure_virtual (n_children n) "" [];
        route ← mp_xml.get_route [n];
        configure_loop ptr' (add_map_db2targets dt.1 dt.2 route r)
      else Throw ("Bad element " +:+ n_name n +:+ " in virt_db filter")
  end.
Definition configure (ptr : xmlNode) (r : Rep) : outcome Rep :=
  configure_loop (n_children ptr) r.

Section filter.
Context `{Y : Yaz} {R E : Type}.
Definition World : Type := Rep * Global E.
Context (next : string → Package R → M World (Package R)).

(** Handlers of a frontend. *)
Definition H (A : Type) : Type := M (Frontend * World) A.
Definition move (route : string) (p : Package R) : H (Package R) :=
  on_world (next route p).
Definition new_session_ : H Session.t := on_world new_session.

(** ** Databases and targets *)
Definition match_map (db : string) (m : Map) : bool :=
  yaz_match_glob (m_dbpattern m) (database_name_normalize db).
Definition find_map (maps : list Map) (db : string) : option Map :=
  snd <$> find_first (match_map db) maps.

(** [targets_dedup]: a target is added when it is not there yet. *)
Definition add_target (targets : list string) (t : string) : list string :=
  if decide (t ∈ targets) then targets else targets ++ [t].

(** The loop of [create_backend_from_databases]: targets and route, or a
    diagnostic ([addinfo] is left alone by a route conflict). *)
Fixpoint backend_targets (maps : list Map) (databases : list string)
    (targets : list string) (route : option string) :
    (Z * option string) + (list string * string) :=
  match databases with
  | [] => inr (targets, default "" route)
  | db :: dbs =>
      match find_map maps db with
      | None => inl (BIB1_DATABASE_DOES_NOT_EXIST, Some db)
      | Some m =>
          let targets' := foldl add_target targets (m_targets m) in
          match route with
          | Some r =>
              if decide (r ≠ m_route m) then
                inl (BIB1_COMBI_OF_SPECIFIED_DATABASES_UNSUPP, None)
              else backend_targets maps dbs targets' (Some (m_route m))
          | None => backend_targets maps dbs targets' (Some (m_route m))
          end
      end
  end.
Definition create_backend_from_databases (databases : list string) :
    H ((Z * option string) + Backend) :=
  s ← new_session_;
  w ← get;
  match backend_targets (m_maps w.2.1) databases [] None with
  | inl e => mret (inl e)
  | inr (targets, route) =>
      mret (inr (mk_Backend s databases targets route false))
  end.

(** The Init request for a backend. *)
Definition backend_init_request (b : Backend) (org_init : InitRequest) : InitRequest :=
  let req := zget_initRequest in
  let oi := set_vhost_otherinfo (iq_otherInfo req) (b_targets b) in
  let oi := match (yaz_oi_get_string (iq_otherInfo org_init)
                     oid_userinfo_client_ip 1 false).1 with
            | Some peer_name => yaz_oi_set_string oi oid_userinfo_client_ip 1 peer_name
            | None => oi
            end in
  let options := foldl MASK_SET (iq_options req)
    [Options_search; Options_present; Options_namedResultSets; Options_scan] in
  let versions := foldl MASK_SET (iq_protocolVersion req)
    [ProtocolVersion_1; ProtocolVersion_2; ProtocolVersion_3] in
  {| iq_referenceId := iq_referenceId req;
     iq_protocolVersion := versions;
     iq_options := options;
     iq_preferredMessageSize := iq_preferredMessageSize org_init;
     iq_maximumRecordSize := iq_maximumRecordSize org_init;
     iq_idAuthentication := iq_idAuthentication org_init;
     iq_implementationId := iq_implementationId org_init;
     iq_implementationName := iq_implementationName org_init;
     iq_implementationVersion := iq_implementationVersion org_init;
     iq_otherInfo := oi |}.

(** [init_backend]: the place of the new backend, or code and addinfo. *)
Definition init_backend (databases : list string) (package : Package R) :
    H ((Z * string) + nat) :=
  e ← create_backend_from_databases databases;
  match e with
  | inl (code, addinfo) => mret (inl (code, default "" addinfo))
  | inr b =>
      init_package ← copy_filter package (new_Package (b_session b) (p_origin package));
      f ← get_fr;
      org_init ← deref (m_init_gdu f);
      init_package ← move (b_route b)
        (set_request (Some (GDU_Z3950 (initRequest (backend_init_request b org_init))))
           init_package);
      let fail (err : Z * string) : H ((Z * string) + nat) :=
        let err := if err.1 =? 0 then
                     (BIB1_ACCESS_TO_SPECIFIED_DATABASE_DENIED,
                      match databases with db :: _ => db | [] => err.2 end)
                   else err in
        (if is_closed init_package then mret tt
         else
           close_package ← copy_filter package
             (new_Package (b_session b) (p_origin package));
           move (b_route b) (close_session close_package) ;; mret tt) ;;
        mret (inl err) in
      match z3950 (p_response init_package) with
      | Some (initResponse res) =>
          let b' := mk_Backend (b_session b) (b_frontend_databases b) (b_targets b)
            (b_route b) (MASK_GET (ir_options res) Options_namedResultSets) in
          if ir_result res && negb (is_closed init_package) then
            modify_fr (add_backend b') ;;
            mret (inr (length (m_backend_list f)))
          else fail (get_init_diagnostics res 0 "")
      | _ => fail (0, "")
      end
  end.

(** ** Restoring database names *)

(** The client's database among whose targets [b_database] is. *)
Fixpoint frontend_database (maps : list Map) (databases : list string)
    (b_database : string) : option string :=
  match databases with
  | [] => None
  | db :: dbs =>
      match find_map maps db with
      | Some m =>
          if decide (b_database ∈ m_targets m) then Some db
          else frontend_database maps dbs b_database
      | None => frontend_database maps dbs b_database
      end
  end.
Definition fixup_npr_record (maps : list Map) (databases : list string)
    (npr : NamePlusRecord) : NamePlusRecord :=
  match databaseName npr with
  | None => npr
  | Some b_database =>
      match frontend_database maps databases b_database with
      | Some db => {| databaseName := Some db; npr_record := npr_record npr |}
      | None =>
          match databases with
          | db :: _ => {| databaseName := Some db; npr_record := npr_record npr |}
          | [] => npr
          end
      end
  end.
Definition fixup_npr_records (maps : list Map) (databases : list string)
    (records : option Records) : option Records :=
  match records with
  | Some (Records_DBOSD l) =>
      Some (Records_DBOSD (fixup_npr_record maps databases <$> l))
  | _ => records
  end.
Definition fixup_package (maps : list Map) (p : Package R) (b : Backend) : Package R :=
  match z3950 (p_response p) with
  | Some (presentResponse r) =>
      set_response (Some (GDU_Z3950 (presentResponse (set_pr_records
        (fixup_npr_records maps (b_frontend_databases b) (pr_records r)) r)))) p
  | Some (searchResponse r) =>
      set_response (Some (GDU_Z3950 (searchResponse (set_sr_records
        (fixup_npr_records maps (b_frontend_databases b) (sr_records r)) r)))) p
  | _ => p
  end.
(** ** Handlers *)

(** The first backend for the same databases that may hold the set. *)
Definition search_backend (databases : list string) (override_set : bool)
    (l : list Backend) : option nat :=
  fst <$> find_first (λ b, match_databases (b_frontend_databases b) databases &&
                           (b_named_result_sets b || override_set)) l.

(** The databases named in the first target. *)
Definition target_databases (b : Backend) (databases : list string) :
    outcome (list string) :=
  match b_targets b with
  | [] => Ok databases
  | t :: _ =>
      dbs ← set_databases_from_zurl t;
      Ok (default databases dbs)
  end.

(** The rest of [search], with backend number [i]. *)
Definition search_on (i : nat) (package : Package R) (req : SearchRequest) :
    H (Package R) :=
  modify_fr (λ f, set_sets (delete (sq_resultSetName req) (m_sets f)) f) ;;
  f ← get_fr;
  b ← deref (m_backend_list f !! i);
  search_package ← copy_filter package (new_Package (b_session b) (p_origin package));
  let backend_setname := if b_named_result_sets b then sq_resultSetName req
                         else "default" in
  dbs ← lift_outcome (target_databases b (sq_databaseNames req));
  let breq := set_sq_replaceIndicator true
                (set_sq_databaseNames dbs (set_sq_resultSetName backend_setname req)) in
  search_package ← move (b_route b)
    (set_request (Some (GDU_Z3950 (searchRequest breq))) search_package);
  if is_closed search_package then
    mret (close_session (set_response (p_response search_package) package))
  else
    w ← get;
    match z3950 (p_response search_package) with
    | Some (searchResponse b_resp) =>
        match sr_records b_resp with
        | None | Some (Records_DBOSD _) =>
            modify_fr (λ f, set_sets
              (<[sq_resultSetName req := mk_Set i backend_setname]> (m_sets f)) f) ;;
            mret (set_response
              (p_response (fixup_package (m_maps w.2.1) search_package b)) package)
        | _ => mret (set_response (p_response search_package) package)
        end
    | _ => mret (set_response (p_response search_package) package)
    end.

Definition search (package : Package R) (req : SearchRequest) : H (Package R) :=
  f ← get_fr;
  let exists_ := match m_sets f !! sq_resultSetName req with
                 | Some _ => true | None => false end in
  if exists_ && negb (sq_replaceIndicator req) then
    mret (set_response (Some (GDU_Z3950 (searchResponse (create_searchResponse
      (Some (searchRequest req))
      BIB1_RESULT_SET_EXISTS_AND_REPLACE_INDICATOR_OFF None)))) package)
  else
    match search_backend (sq_databaseNames req) exists_ (m_backend_list f) with
    | Some i => search_on i package req
    | None =>
        e ← init_backend (sq_databaseNames req) package;
        match e with
        | inl (error_code, addinfo) =>
            mret (set_response (Some (GDU_Z3950 (searchResponse (create_searchResponse
              (Some (searchRequest req)) error_code (Some addinfo))))) package)
        | inr i => search_on i package req
        end
    end.

Definition present (package : Package R) (req : PresentRequest) : H (Package R) :=
  f ← get_fr;
  match m_sets f !! pq_resultSetId req with
  | None =>
      mret (set_response (Some (GDU_Z3950 (presentResponse (create_presentResponse
        (Some (presentRequest req)) BIB1_SPECIFIED_RESULT_SET_DOES_NOT_EXIST
        (Some (pq_resultSetId req)))))) package)
  | Some set =>
      b ← deref (m_backend_list f !! s_backend set);
      present_package ← copy_filter package
        (new_Package (b_session b) (p_origin package));
      present_package ← move (b_route b)
        (set_request (Some (GDU_Z3950 (presentRequest
           (set_pq_resultSetId (s_setname set) req)))) present_package);
      w ← get;
      let package := set_response
        (p_response (fixup_package (m_maps w.2.1) present_package b)) package in
      mret (if is_closed present_package then close_session package else package)
  end.

Definition scan_on (i : nat) (package : Package R) (req : ScanRequest) :
    H (Package R) :=
  f ← get_fr;
  b ← deref (m_backend_list f !! i);
  scan_package ← copy_filter package (new_Package (b_session b) (p_origin package));
  dbs ← lift_outcome (target_databases b (cq_databaseNames req));
  scan_package ← move (b_route b)
    (set_request (Some (GDU_Z3950 (scanRequest (set_cq_databaseNames dbs req))))
       scan_package);
  let package := set_response (p_response scan_package) package in
  mret (if is_closed scan_package then close_session package else package).
Definition scan (package : Package R) (req : ScanRequest) : H (Package R) :=
  f ← get_fr;
  match find_first (λ b, match_databases (b_frontend_databases b) (cq_databaseNames req))
          (m_backend_list f) with
  | Some (i, _) => scan_on i package req
  | None =>
      e ← init_backend (cq_databaseNames req) package;
      match e with
      | inl (error_code, addinfo) =>
          mret (set_response (Some (GDU_Z3950 (scanResponse (create_scanResponse
            (Some (scanRequest req)) error_code (Some addinfo))))) package)
      | inr i => scan_on i package req
      end
  end.

(** [relay_apdu]: to every backend; the number of backends. *)
Fixpoint relay_loop (l : list Backend) (package : Package R) (apdu : APDU)
    (no : Z) : H (Z * Package R) :=
  match l with
  | [] => mret (no, package)
  | b :: l' =>
      relay_package ← copy_filter package (new_Package (b_session b) (p_origin package));
      relay_package ← move (b_route b) (set_request (Some (GDU_Z3950 apdu)) relay_package);
      relay_loop l' (set_response (p_response relay_package) package) apdu (no + 1)
  end.
Definition relay_apdu (package : Package R) (apdu : APDU) : H (Z * Package R) :=
  f ← get_fr;
  relay_loop (m_backend_list f) package apdu 0.

(** [Frontend::close]. *)
Fixpoint close_loop (l : list Backend) (package : Package R) : M World unit :=
  match l with
  | [] => mret tt
  | b :: l' =>
      close_package ← copy_filter package
        (new_Package (Session.close (b_session b)) (p_origin package));
      next (b_route b) close_package ;;
      close_loop l' package
  end.
Definition close_frontend (f : Frontend) (package : Package R) : M World unit :=
  close_loop (m_backend_list f) package.

(** The Init response: the options and versions that are supported. *)
Definition negotiate_options (wanted given : Z) : Z :=
  foldl (λ o m, if MASK_GET wanted m then MASK_SET o m else o) given
    [Options_search; Options_present; Options_namedResultSets; Options_scan].
Fixpoint negotiate_versions (wanted given : Z) (versions : list Z) : Z :=
  match versions with
  | [] => given
  | v :: vs =>
      if MASK_GET wanted v then negotiate_versions wanted (MASK_SET given v) vs
      else given
  end.
Definition init_response (req : InitRequest) : InitResponse :=
  let resp := create_initResponse (Some (initRequest req)) 0 None in
  set_ir_maximumRecordSize (iq_maximumRecordSize req)
    (set_ir_preferredMessageSize (iq_preferredMessageSize req)
       (set_ir_protocolVersion
          (negotiate_versions (iq_protocolVersion req) (ir_protocolVersion resp)
             [ProtocolVersion_1; ProtocolVersion_2; ProtocolVersion_3])
          (set_ir_options (negotiate_options (iq_options req) (ir_options resp))
             resp))).

(** Answer with a Close and end the session. *)
Definition refuse (apdu : APDU) (reason : Z) (addinfo : string)
    (package : Package R) : Package R :=
  close_session (set_response
    (Some (GDU_Z3950 (create_close (Some apdu) reason (Some addinfo)))) package).

Definition handle (fuel : nat) (package : Package R) : H (Package R) :=
  f ← get_fr;
  if negb (m_is_virtual f) then
    match z3950 (p_request package) with
    | Some (initRequest req) =>
        vhosts ← lift_outcome (get_vhost_otherinfo fuel (iq_otherInfo req) []);
        w ← get;
        if (match vhosts with [] => false | _ => true end) && pass_vhosts w.2.1 then
          move "" package
        else
          modify_fr (set_virtual req) ;;
          mret (set_response (Some (GDU_Z3950 (initResponse (init_response req)))) package)
    | _ => move "" package
    end
  else
    match z3950 (p_request package) with
    | None => mret package
    | Some (initRequest req) =>
        mret (refuse (initRequest req) Close_protocolError "double init" package)
    | Some (searchRequest req) => search package req
    | Some (presentRequest req) => present package req
    | Some (scanRequest req) => scan package req
    | Some (close c) =>
        r ← relay_apdu package (close c);
        mret (if r.1 =? 0 then refuse (close c) Close_finished "virt_db" r.2 else r.2)
    | Some apdu =>
        mret (refuse apdu Close_protocolError "unsupported APDU in filter_virt_db" package)
    end.

Definition process (fuel : nat) (package : Package R) : M World (Package R) :=
  f ← get_frontend m_clients set_clients Frontend_new package;
  r ← with_frontend f (handle fuel package);
  let '(package, f) := r in
  release_frontend m_clients set_clients close_frontend f package ;;
  mret package.
(** ** Properties *)

(** *** Which targets serve a list of databases *)

Lemma add_target_spec targets t u :
  u ∈ add_target targets t ↔ u ∈ targets ∨ u = t.
Proof.
  unfold add_target. destruct (decide (t ∈ targets)) as [Ht|Ht].
  - split; [by left|]. intros [?| ->]; done.
  - by rewrite elem_of_app, list_elem_of_singleton.
Qed.
Lemma add_targets_spec ts targets u :
  u ∈ foldl add_target targets ts ↔ u ∈ targets ∨ u ∈ ts.
Proof.
  revert targets. induction ts as [|t ts IH]; intros targets; simpl.
  - rewrite elem_of_nil. tauto.
  - rewrite IH, add_target_spec, elem_of_cons. tauto.
Qed.
Lemma add_targets_NoDup ts targets :
  NoDup targets → NoDup (foldl add_target targets ts).
Proof.
  revert targets. induction ts as [|t ts IH]; intros targets Hnd; simpl; [done|].
  apply IH. unfold add_target. destruct (decide (t ∈ targets)); [done|].
  apply NoDup_app. split; [done|]. split; [|apply NoDup_singleton].
  intros u Hu ->%list_elem_of_singleton. done.
Qed.

(** What the loop achieves from some targets and perhaps a route. *)
Definition targets_for (maps : list Map) (databases : list string)
    (targets : list string) (route : option string)
    (res : (Z * option string) + (list string * string)) : Prop :=
  match res with
  | inr (ts, r) =>
      (∀ r0, route = Some r0 → r = r0) ∧
      Forall (λ db, ∃ m, find_map maps db = Some m ∧ m_route m = r ∧
                         ∀ t, t ∈ m_targets m → t ∈ ts) databases ∧
      (NoDup targets → NoDup ts) ∧
      (∀ t, t ∈ ts ↔ t ∈ targets ∨
         ∃ db m, db ∈ databases ∧ find_map maps db = Some m ∧ t ∈ m_targets m)
  | inl (code, addinfo) =>
      (code = BIB1_DATABASE_DOES_NOT_EXIST ∧
       ∃ db, addinfo = Some db ∧ db ∈ databases ∧ find_map maps db = None) ∨
      (code = BIB1_COMBI_OF_SPECIFIED_DATABASES_UNSUPP ∧ addinfo = None ∧
       ∃ db m, db ∈ databases ∧ find_map maps db = Some m ∧
         ((∃ r0, route = Some r0 ∧ r0 ≠ m_route m) ∨
          ∃ db' m', db' ∈ databases ∧ find_map maps db' = Some m' ∧
                    m_route m' ≠ m_route m))
  end.

Lemma targets_for_step maps db dbs targets route m res :
  find_map maps db = Some m → (∀ r0, route = Some r0 → r0 = m_route m) →
  targets_for maps dbs (foldl add_target targets (m_targets m)) (Some (m_route m)) res →
  targets_for maps (db :: dbs) targets route res.
Proof.
  intros Hm Hroute. destruct res as [[code ai]|[ts r]]; simpl.
  - intros [(-> & d & -> & Hd & Hn)|(-> & -> & d & m' & Hd & Hm' & Hc)].
    + left. split; [done|]. exists d. by rewrite elem_of_cons; auto.
    + right. split_and!; [done..|]. exists d, m'. split_and!; [by right|done|].
      destruct Hc as [(r0 & [= <-] & Hne)|(d' & m'' & ? & ? & ?)].
      * right. exists db, m. split_and!; [left|done|done].
      * right. exists d', m''. split_and!; [by right|done|done].
  - intros (Hr & HF & Hnd & Hin). specialize (Hr _ eq_refl). subst r.
    split_and!.
    + intros r0 ->. symmetry. by apply Hroute.
    + constructor; [|done]. exists m. split_and!; [done..|].
      intros t Ht. apply Hin. left. apply add_targets_spec. by right.
    + intros. by apply Hnd, add_targets_NoDup.
    + intros t. rewrite Hin, add_targets_spec. split.
      * intros [[?|?]|(d & m' & ? & ? & ?)]; [by left|right..].
        -- exists db, m. split_and!; [left|done|done].
        -- exists d, m'. split_and!; [by right|done|done].
      * intros [?|(d & m' & Hd & ? & ?)]; [by left; left|].
        apply elem_of_cons in Hd as [->|Hd].
        -- simplify_eq. by left; right.
        -- right. eauto.
Qed.
Lemma backend_targets_spec maps databases targets route :
  targets_for maps databases targets route (backend_targets maps databases targets route).
Proof.
  revert targets route. induction databases as [|db dbs IH]; intros targets route; simpl.
  - split_and!; [by intros r0 ->|constructor|done|].
    intros t. split; [by left|]. intros [?|(? & ? & ?%elem_of_nil & _)]; done.
  - destruct (find_map maps db) as [m|] eqn:Hm.
    2: { left. split; [done|]. exists db. split_and!; [done|left|done]. }
    destruct route as [r|].
    + destruct (decide (r ≠ m_route m)) as [Hr|Hr].
      * right. split_and!; [done..|]. exists db, m.
        split_and!; [left|done|]. left. eauto.
      * eapply targets_for_step; [done|intros r0 [= <-]; by apply dec_stable|apply IH].
    + by eapply targets_for_step; [done| |apply IH].
Qed.

(** Choosing targets: a search over some databases gets a backend only if
    every database matches a map and all these maps name the same route, which
    is then the backend's; its targets are the targets of all these maps, each
    once. Otherwise the diagnostic is right: either an unmapped database is
    named, or two of the databases really have different routes. *)
Theorem backend_covers_databases (maps : list Map) (databases : list string) :
  match backend_targets maps databases [] None with
  | inr (ts, route) =>
      Forall (λ db, ∃ m, find_map maps db = Some m ∧ m_route m = route) databases ∧
      NoDup ts ∧
      (∀ t, t ∈ ts ↔ ∃ db m, db ∈ databases ∧ find_map maps db = Some m ∧
                             t ∈ m_targets m)
  | inl (code, addinfo) =>
      (code = BIB1_DATABASE_DOES_NOT_EXIST ∧
       ∃ db, addinfo = Some db ∧ db ∈ databases ∧ find_map maps db = None) ∨
      (code = BIB1_COMBI_OF_SPECIFIED_DATABASES_UNSUPP ∧
       ∃ db m db' m', db ∈ databases ∧ find_map maps db = Some m ∧
         db' ∈ databases ∧ find_map maps db' = Some m' ∧ m_route m' ≠ m_route m)
  end.
Proof.
  pose proof (backend_targets_spec maps databases [] None) as H.
  destruct (backend_targets maps databases [] None) as [[code ai]|[ts r]]; simpl in H.
  - destruct H as [H|(-> & _ & db & m & Hd & Hm & Hc)]; [by left|right].
    split; [done|]. destruct Hc as [(? & ? & _)|(db' & m' & ? & ? & ?)]; [done|].
    by exists db, m, db', m'.
  - destruct H as (_ & HF & Hnd & Hin). split_and!.
    + eapply Forall_impl; [exact HF|]. intros db (m & ? & ? & _). eauto.
    + apply Hnd. constructor.
    + intros t. rewrite Hin, elem_of_nil. tauto.
Qed.

(** *** Database names *)

(** Database names in answers are the client's: every record of a Search
    or Present answer that names a database leaves the filter naming one of
    the databases the client searched, namely the first that has the target
    among its targets if there is one; the records themselves, their number
    and order, and records without a database name are unchanged. *)
Theorem fixup_restores_names (maps : list Map) (databases : list string)
    (l : list NamePlusRecord) (Hdb : databases ≠ []) :
  ∃ l', fixup_npr_records maps databases (Some (Records_DBOSD l)) =
          Some (Records_DBOSD l') ∧
    npr_record <$> l' = npr_record <$> l ∧
    Forall2 (λ npr npr', match databaseName npr with
       | None => databaseName npr' = None
       | Some t => ∃ db, databaseName npr' = Some db ∧ db ∈ databases ∧
           ((∃ d m, d ∈ databases ∧ find_map maps d = Some m ∧ t ∈ m_targets m) →
            ∃ m, find_map maps db = Some m ∧ t ∈ m_targets m)
       end) l l'.
Proof.
  assert (Hfd : ∀ dbs t, match frontend_database maps dbs t with
    | Some db => db ∈ dbs ∧ ∃ m, find_map maps db = Some m ∧ t ∈ m_targets m
    | None => ¬ ∃ d m, d ∈ dbs ∧ find_map maps d = Some m ∧ t ∈ m_targets m
    end).
  { intros dbs t. induction dbs as [|d dbs IH]; simpl.
    { intros (? & ? & ?%elem_of_nil & _). done. }
    assert (Hstep : (∀ m, find_map maps d = Some m → t ∉ m_targets m) →
      match frontend_database maps dbs t with
      | Some db => db ∈ d :: dbs ∧ ∃ m, find_map maps db = Some m ∧ t ∈ m_targets m
      | None => ¬ ∃ d0 m, d0 ∈ d :: dbs ∧ find_map maps d0 = Some m ∧ t ∈ m_targets m
      end).
    { intros Hn. destruct (frontend_database maps dbs t).
      - destruct IH. split; [by right|done].
      - intros (d0 & m & Hd & ? & ?). apply elem_of_cons in Hd as [->|Hd];
          [by eapply Hn|eauto 6]. }
    destruct (find_map maps d) as [m|] eqn:Hm; [|by apply Hstep].
    destruct (decide (t ∈ m_targets m)); [|apply Hstep; by intros ? [= <-]].
    split; [left|eauto]. }
  eexists. split; [reflexivity|]. split.
  - rewrite <-list_fmap_compose. apply list_fmap_ext. intros i npr _. simpl.
    unfold fixup_npr_record. destruct (databaseName npr); [|done].
    destruct (frontend_database _ _ _); [done|]. by destruct databases.
  - apply Forall2_fmap_r, Forall2_same_length_lookup. split; [done|].
    intros i x y Hx Hy. simplify_eq. unfold compose, fixup_npr_record.
    destruct (databaseName x) as [t|] eqn:Ex; [|cbn; rewrite ?Ex; done].
    specialize (Hfd databases t).
    destruct (frontend_database maps databases t) as [db|].
    + destruct Hfd. exists db. split_and!; auto.
    + destruct databases as [|db dbs]; [done|]. exists db.
      split_and!; [done|left|]. intros H1. by destruct Hfd.
Qed.

(** *** Init *)

Lemma mask_get_set o k m :
  0 ≤ k → MASK_GET (MASK_SET o k) m = MASK_GET o m || bool_decide (m = k).
Proof.
  intros Hk. unfold MASK_GET, MASK_SET. rewrite Z.setbit_eqb by done.
  rewrite orb_comm. f_equal. rewrite Z.eqb_sym.
  destruct (Z.eqb_spec m k); [by rewrite bool_decide_eq_true_2|by rewrite bool_decide_eq_false_2].
Qed.
Lemma mask_fold_get wanted l o m :
  Forall (Z.le 0) l →
  MASK_GET (foldl (λ o m, if MASK_GET wanted m then MASK_SET o m else o) o l) m
  = MASK_GET o m || (bool_decide (m ∈ l) && MASK_GET wanted m).
Proof.
  revert o. induction l as [|k l IH]; intros o HF; simpl; [by rewrite orb_false_r|].
  apply Forall_cons in HF as [Hk HF]. rewrite IH by done.
  destruct (decide (m = k)) as [<-|Hne].
  - rewrite (bool_decide_eq_true_2 (m ∈ m :: l)) by left.
    destruct (MASK_GET wanted m) eqn:Ek; [|by rewrite !andb_false_r].
    rewrite mask_get_set, bool_decide_eq_true_2 by done. by rewrite !orb_true_r.
  - assert (Hb : bool_decide (m ∈ k :: l) = bool_decide (m ∈ l)).
    { apply bool_decide_ext. rewrite elem_of_cons. naive_solver. }
    rewrite Hb. destruct (MASK_GET wanted k); [|done].
    rewrite mask_get_set, (bool_decide_eq_false_2 (m = k)), orb_false_r by done. done.
Qed.
Lemma negotiate_versions_get wanted o m :
  0 ≤ m →
  MASK_GET (negotiate_versions wanted o
    [ProtocolVersion_1; ProtocolVersion_2; ProtocolVersion_3]) m =
  MASK_GET o m || (bool_decide (m ≤ 2) &&
    forallb (MASK_GET wanted) (Z.of_nat <$> seq 0 (S (Z.to_nat m)))).
Proof.
  intros Hm. unfold ProtocolVersion_1, ProtocolVersion_2, ProtocolVersion_3.
  cbn [negotiate_versions]. set (g := MASK_GET wanted).
  assert (Hf : ∀ k : nat, forallb g (Z.of_nat <$> seq 0 (S k)) =
    g 0 && forallb g (Z.of_nat <$> seq 1 k)) by done.
  assert (Hcases : m = 0 ∨ m = 1 ∨ m = 2 ∨ 3 ≤ m) by lia.
  destruct (g 0) eqn:E0; [destruct (g 1) eqn:E1; [destruct (g 2) eqn:E2|]|];
    rewrite ?mask_get_set by lia; rewrite Hf, ?E0; generalize (MASK_GET o m); intros c;
    (destruct Hcases as [->|[->|[->|Hm3]]];
      [change (seq 1 (Z.to_nat 0)) with (@nil nat)
      |change (seq 1 (Z.to_nat 1)) with [1%nat]
      |change (seq 1 (Z.to_nat 2)) with [1%nat; 2%nat]
      |rewrite (bool_decide_eq_false_2 (m ≤ 2)) by lia;
       rewrite ?(bool_decide_eq_false_2 (m = 0)), ?(bool_decide_eq_false_2 (m = 1)),
         ?(bool_decide_eq_false_2 (m = 2)) by lia]);
    cbn; change (Z.of_nat 1) with 1; change (Z.of_nat 2) with 2;
    rewrite ?E1, ?E2; by destruct c.
Qed.

(** The Init response grants exactly the options that the client asks
    for and the filter supports (besides those of a default response), a
    protocol version only together with all lower ones, and repeats the
    client's message sizes. *)
Theorem init_negotiates (req : InitRequest) (m : Z) (Hm : 0 ≤ m) :
  let resp := init_response req in
  let given := create_initResponse (Some (initRequest req)) 0 None in
  MASK_GET (ir_options resp) m = MASK_GET (ir_options given) m ||
    (bool_decide (m ∈ [Options_search; Options_present; Options_namedResultSets;
                       Options_scan]) && MASK_GET (iq_options req) m) ∧
  MASK_GET (ir_protocolVersion resp) m = MASK_GET (ir_protocolVersion given) m ||
    (bool_decide (m ≤ 2) && forallb (MASK_GET (iq_protocolVersion req))
                             (Z.of_nat <$> seq 0 (S (Z.to_nat m)))) ∧
  ir_preferredMessageSize resp = iq_preferredMessageSize req ∧
  ir_maximumRecordSize resp = iq_maximumRecordSize req ∧
  ir_result resp = ir_result given.
Proof.
  intros resp given. split_and!; [| |done..].
  - apply mask_fold_get. repeat constructor; done.
  - by apply negotiate_versions_get.
Qed.
(** *** Result sets and backends *)

(** A result set lives on a backend of the frontend, under the client's name
    or, where the backend has no named result sets, as "default". *)
Definition backend_setname (b : Backend) (name : string) : string :=
  if b_named_result_sets b then name else "default".
Definition frontend_ok (f : Frontend) : Prop :=
  map_Forall (λ name s, ∃ b, m_backend_list f !! s_backend s = Some b ∧
                             s_setname s = backend_setname b name) (m_sets f).

Lemma find_first_Some_lookup {A} (P : A → bool) l i x :
  find_first P l = Some (i, x) → l !! i = Some x ∧ P x = true.
Proof. intros (? & ? & _)%find_first_Some. done. Qed.
Lemma frontend_ok_delete name f :
  frontend_ok f → frontend_ok (set_sets (delete name (m_sets f)) f).
Proof. intros Hf. by apply map_Forall_delete. Qed.
Lemma frontend_ok_insert name i b f :
  frontend_ok f → m_backend_list f !! i = Some b →
  frontend_ok (set_sets (<[name := mk_Set i (backend_setname b name)]> (m_sets f)) f).
Proof. intros Hf Hb. apply map_Forall_insert_2; [by exists b|done]. Qed.
Lemma frontend_ok_add b f : frontend_ok f → frontend_ok (add_backend b f).
Proof.
  intros Hf name s Hs. destruct (Hf name s Hs) as (b' & Hb & ?).
  exists b'. split; [|done]. by apply lookup_app_l_Some.
Qed.
Lemma frontend_ok_virtual req f : frontend_ok f → frontend_ok (set_virtual req f).
Proof. done. Qed.

(** The same for all client sessions, which the rest of the chain respects. *)
Definition clients_ok (w : World) : Prop :=
  map_Forall (λ _ c, frontend_ok c.2) (m_clients w.1).
Definition world_keeps {A} (m : M World A) : Prop :=
  ∀ w, clients_ok w → par m w (λ _ w', clients_ok w').
Definition handler_ok (s : Frontend * World) : Prop :=
  frontend_ok s.1 ∧ clients_ok s.2.

Section keeps.
Context (Hnext : ∀ route p, world_keeps (next route p)).

(** Handlers keep the frontend well-formed; most steps do not touch it. *)
Definition keeps {A} (m : H A) : Prop :=
  ∀ s, handler_ok s → par m s (λ _ s', handler_ok s').
Lemma keeps_ret {A} (a : A) : keeps (mret a).
Proof. by intros s Hs. Qed.
Lemma keeps_bind {A B} (m : H A) (k : A → H B) :
  keeps m → (∀ a, keeps (k a)) → keeps (m ≫= k).
Proof.
  intros Hm Hk s Hs. apply par_bind. eapply par_mono; [by apply Hm|].
  intros a s' Hs'. by apply Hk.
Qed.
Lemma keeps_on_world {A} (m : M World A) : world_keeps m → keeps (on_world m).
Proof.
  intros Hm [f w] [Hf Hw]. apply on_world_par.
  eapply par_mono; [by apply Hm|]. intros a w' Hw'. by split.
Qed.
Lemma keeps_move route p : keeps (move route p).
Proof. apply keeps_on_world, Hnext. Qed.
Lemma keeps_new_session : keeps new_session_.
Proof. apply keeps_on_world. intros w Hw. exact Hw. Qed.
Lemma keeps_deref {A} (o : option A) : keeps (deref o).
Proof. intros s Hs. by destruct o. Qed.
Lemma keeps_lift {A} (o : outcome A) : keeps (lift_outcome o).
Proof. intros s Hs. by destruct o. Qed.
Lemma keeps_world {A} (k : Frontend * World → H A) :
  (∀ w, keeps (k w)) → keeps (w ← get; k w).
Proof. intros Hk s Hs. by apply Hk. Qed.
Lemma keeps_copy (src dst : Package R) : keeps (copy_filter src dst).
Proof. apply keeps_bind; [apply keeps_deref|intros; apply keeps_ret]. Qed.
Lemma keeps_modify (g : Frontend → Frontend) :
  (∀ f, frontend_ok f → frontend_ok (g f)) → keeps (modify_fr g).
Proof. intros Hg s [Hf Hw]. split; [by apply Hg|done]. Qed.

Lemma keeps_get_fr : keeps get_fr.
Proof. by intros s Hs. Qed.

Lemma par_get_fr (s : Frontend * World) (Q : Frontend → Frontend * World → Prop) :
  Q s.1 s → par get_fr s Q.
Proof. done. Qed.
Lemma par_modify_fr (g : Frontend → Frontend) (s : Frontend * World)
    (Q : unit → Frontend * World → Prop) :
  Q tt (g s.1, s.2) → par (modify_fr g) s Q.
Proof. done. Qed.
Lemma par_copy (src dst : Package R) (s : Frontend * World)
    (Q : Package R → Frontend * World → Prop) :
  (∀ pos, Q (set_route_pos (Some pos) dst) s) → par (copy_filter src dst) s Q.
Proof. intros HQ. apply par_bind, par_deref. intros pos _. by apply par_ret. Qed.

Ltac keeps_step :=
  lazymatch goal with
  | |- keeps (mret _) => apply keeps_ret
  | |- keeps (copy_filter _ _) => apply keeps_copy
  | |- keeps (deref _) => apply keeps_deref
  | |- keeps (lift_outcome _) => apply keeps_lift
  | |- keeps (move _ _) => apply keeps_move
  | |- keeps new_session_ => apply keeps_new_session
  | |- keeps get_fr => apply keeps_get_fr
  | |- keeps (modify_fr _) => apply keeps_modify; intros;
      solve [auto using frontend_ok_add, frontend_ok_delete, frontend_ok_virtual]
  | |- keeps (get ≫= _) => apply keeps_world; intros ?
  | |- keeps (_ ≫= _) => apply keeps_bind; [|intros ?]
  | |- keeps (if ?b then _ else _) => destruct b
  | |- keeps (match ?x with _ => _ end) => destruct x
  end.

Lemma keeps_init_backend databases package : keeps (init_backend databases package).
Proof.
  unfold init_backend, create_backend_from_databases.
  repeat keeps_step.
Qed.
Lemma keeps_search_on i package req : keeps (search_on i package req).
Proof.
  unfold search_on. apply keeps_bind; [repeat keeps_step|intros _].
  intros s Hs. apply par_bind, par_get_fr, par_bind, par_deref. intros b Hb.
  apply par_bind, par_copy. intros sp. apply par_bind, par_lift. intros dbs _.
  apply par_bind. destruct s as [f w]. destruct Hs as [Hf Hw]. apply on_world_par.
  eapply par_mono; [by apply Hnext|]. intros rp w' Hw'.
  destruct (is_closed rp); [by apply par_ret|]. apply par_bind, par_get.
  destruct (z3950 (p_response rp)) as [[]|]; try (by apply par_ret).
  destruct (sr_records r) as [[]|]; try (by apply par_ret);
    (apply par_bind, par_modify_fr, par_ret; split; [by apply frontend_ok_insert|done]).
Qed.
Lemma keeps_relay l package apdu no : keeps (relay_loop l package apdu no).
Proof.
  revert package no. induction l as [|b l IH]; intros; cbn [relay_loop]; [apply keeps_ret|].
  repeat (apply IH || keeps_step).
Qed.
Lemma keeps_handle fuel package : keeps (handle fuel package).
Proof.
  unfold handle, search, present, scan, scan_on, relay_apdu.
  repeat first [ apply keeps_init_backend | apply keeps_search_on | apply keeps_relay
               | keeps_step ].
Qed.
Lemma world_keeps_close l package : world_keeps (close_loop l package).
Proof.
  induction l as [|b l IH]; intros w Hw; [by apply par_ret|]. cbn [close_loop].
  apply par_bind, par_bind, par_deref. intros pos _. apply par_ret, par_bind.
  eapply par_mono; [by apply Hnext|]. intros ? w' Hw'. by apply IH.
Qed.
End keeps.

(** C32. Result sets stay attached to backends: in every client session each
    result set names a backend of the session, under the client's name for
    the set if that backend has named result sets and as "default" if not.
    Processing any package keeps this true, whatever the rest of the chain
    and other sessions do that respects it. *)
Theorem process_keeps_clients (fuel : nat) (package : Package R) (w : World)
    (Hnext : ∀ route p, world_keeps (next route p)) (Hw : clients_ok w) :
  par (process fuel package) w (λ _ w', clients_ok w').
Proof.
  assert (Hins : ∀ id b f w, clients_ok w → frontend_ok f →
    clients_ok (set_clients (<[id := (b, f)]> (m_clients w.1)) w.1, w.2)).
  { intros. unfold clients_ok. cbn. by apply map_Forall_insert_2. }
  unfold process. apply par_bind.
  eapply par_mono with (Q := λ f w', frontend_ok f ∧ clients_ok w').
  { unfold get_frontend. apply par_bind. unfold par at 1. cbn.
    destruct (m_clients w.1 !! Session.id (p_session package)) as [[[] f]|] eqn:Ec;
      [done|..]; unfold par; cbn.
    - assert (frontend_ok f) by apply (Hw _ _ Ec). split; [done|by apply Hins].
    - assert (frontend_ok Frontend_new) by apply map_Forall_empty.
      split; [done|by apply Hins]. }
  intros f w1 [Hf Hw1]. apply par_bind. unfold par at 1, with_frontend.
  pose proof (keeps_handle Hnext fuel package (f, w1) (conj Hf Hw1)) as Hh.
  unfold par in Hh. destruct (handle fuel package (f, w1)) as [[p' [f' w2]]|?|?|];
    [|done..]. destruct Hh as [Hf' Hw2]. cbn. apply par_bind.
  eapply par_mono with (Q := λ _ w', clients_ok w'); [|by intros [] ? ?].
  unfold release_frontend. apply par_bind. unfold par at 1. cbn.
  destruct (m_clients w2.1 !! Session.id (p_session p')); [|by apply par_ret].
  destruct (is_closed p').
  - apply par_bind. eapply par_mono; [by apply world_keeps_close|].
    intros ? w3 Hw3. unfold par. cbn. by apply map_Forall_delete.
  - unfold par. cbn. by apply Hins.
Qed.
(** *** Searching *)

(** The rest of the chain comes back with a package, whatever it is sent. *)
Definition chain_answers : Prop := ∀ route p w, ∃ rp w', next route p w = Ok (rp, w').
(** A package for backend [b] in the client's place in the route. *)
Definition backend_package (b : Backend) (pos : R) (package : Package R) (apdu : APDU) : Package R :=
  set_request (Some (GDU_Z3950 apdu))
    (set_route_pos (Some pos) (new_Package (b_session b) (p_origin package))).
(** The search as the backend gets it: its own databases and result set name,
    and the query of the client. *)
Definition backend_search (b : Backend) (dbs : list string) (req : SearchRequest) : SearchRequest :=
  set_sq_replaceIndicator true
    (set_sq_databaseNames dbs
       (set_sq_resultSetName (backend_setname b (sq_resultSetName req)) req)).
(** A backend has the set when it answers the search without diagnostics and
    keeps its session open. *)
Definition has_set (rp : Package R) : bool :=
  negb (is_closed rp) &&
  match z3950 (p_response rp) with
  | Some (searchResponse resp) =>
      match sr_records resp with None | Some (Records_DBOSD _) => true | _ => false end
  | _ => false
  end.
(** What the client gets: the answer, with the names of the client's databases
    if it is that of a set, and a closed session for a closed session. *)
Definition search_answer (maps : list Map) (b : Backend) (rp package : Package R) : Package R :=
  let p := set_response
    (p_response (if has_set rp then fixup_package maps rp b else rp)) package in
  if is_closed rp then close_session p else p.
(** The search was sent to [b], which answered [rp]. *)
Definition search_sent (b : Backend) (pos : R) (package : Package R) (req : SearchRequest)
    (rp : Package R) (w' : World) : Prop :=
  ∃ dbs w, target_databases b (sq_databaseNames req) = Ok dbs ∧
    next (b_route b)
      (backend_package b pos package (searchRequest (backend_search b dbs req))) w = Ok (rp, w').
(** [b] was made for the databases and has accepted the client's Init. *)
Definition opened (maps : list Map) (databases : list string) (org : InitRequest) (pos : R)
    (package : Package R) (b : Backend) : Prop :=
  b_frontend_databases b = databases ∧
  backend_targets maps databases [] None = inr (b_targets b, b_route b) ∧
  ∃ w w' ip res,
    next (b_route b) (backend_package b pos package
      (initRequest (backend_init_request b org))) w = Ok (ip, w') ∧
    z3950 (p_response ip) = Some (initResponse res) ∧ ir_result res = true ∧
    is_closed ip = false ∧
    b_named_result_sets b = MASK_GET (ir_options res) Options_namedResultSets.
(** A backend that may be searched for a set, which may exist already. *)
Definition fits (req : SearchRequest) (f : Frontend) (b : Backend) : Prop :=
  match_databases (b_frontend_databases b) (sq_databaseNames req) = true ∧
  (b_named_result_sets b = true ∨ is_Some (m_sets f !! sq_resultSetName req)).

Lemma target_databases_ok `{!YazLaws Y} b dbs : ∃ dbs', target_databases b dbs = Ok dbs'.
Proof.
  unfold target_databases. destruct (b_targets b) as [|t ts]; [by eexists|].
  destruct (set_databases_from_zurl_spec t) as (o & -> & _). by eexists.
Qed.
Lemma search_on_ok `{!YazLaws Y} i package req f w b pos :
  chain_answers → m_backend_list f !! i = Some b → p_route_pos package = Some pos →
  ∃ rp w', search_sent b pos package req rp w' ∧
    search_on i package req (f, w) = Ok (search_answer (m_maps w'.1) b rp package,
      (set_sets (if has_set rp
                 then <[sq_resultSetName req :=
                          mk_Set i (backend_setname b (sq_resultSetName req))]> (m_sets f)
                 else delete (sq_resultSetName req) (m_sets f)) f, w')).
Proof.
  intros Hans Hb Hpos. destruct (target_databases_ok b (sq_databaseNames req)) as [dbs Hdbs].
  destruct (Hans (b_route b) (backend_package b pos package
    (searchRequest (backend_search b dbs req))) w) as (rp & w' & Hrp).
  exists rp, w'. split; [by exists dbs, w|]. unfold search_on.
  erewrite bind_ok by reflexivity. erewrite bind_ok by reflexivity. cbn [set_sets m_backend_list fst].
  erewrite bind_ok by (by rewrite Hb). erewrite bind_ok by (by apply copy_filter_ok).
  erewrite bind_ok by (by rewrite Hdbs). erewrite bind_ok by (apply on_world_ok; exact Hrp).
  unfold search_answer, has_set. destruct (is_closed rp); [done|]. cbn [negb andb].
  erewrite bind_ok by reflexivity.
  destruct (z3950 (p_response rp)) as [[]|]; try done.
  destruct (sr_records r) as [[]|]; try done;
    (erewrite bind_ok by reflexivity; do 3 f_equal; unfold set_sets; cbn; by rewrite insert_delete_eq).
Qed.
Lemma backend_targets_code maps databases targets route code ai :
  backend_targets maps databases targets route = inl (code, ai) → code ≠ 0.
Proof.
  revert targets route. induction databases as [|db dbs IH]; intros targets route; [done|].
  cbn [backend_targets]. destruct (find_map maps db) as [m|]; [|by intros [= <- _]].
  destruct route as [r|]; [|by apply IH].
  destruct (decide (r ≠ m_route m)); [by intros [= <- _]|by apply IH].
Qed.
(** The new session, and the targets of the databases. *)
Lemma create_backend_ok databases f w :
  create_backend_from_databases databases (f, w) =
  Ok (match backend_targets (m_maps w.1) databases [] None with
      | inl e => inl e
      | inr (ts, r) => inr (mk_Backend (Session.create (g_id w.2)).1 databases ts r false)
      end, (f, (w.1, Build_Global (Session.create (g_id w.2)).2 (g_env w.2)))).
Proof.
  unfold create_backend_from_databases. erewrite bind_ok by reflexivity.
  erewrite bind_ok by reflexivity. cbn [fst snd].
  by destruct (backend_targets _ _ _ _) as [?|[? ?]].
Qed.
Lemma init_backend_ok databases package f w org pos :
  chain_answers → p_route_pos package = Some pos → m_init_gdu f = Some org →
  ∃ e f' w', init_backend databases package (f, w) = Ok (e, (f', w')) ∧
    match e with
    | inl (code, _) => code ≠ 0 ∧ f' = f
    | inr i => i = length (m_backend_list f) ∧
        ∃ b, f' = add_backend b f ∧ opened (m_maps w.1) databases org pos package b
    end.
Proof.
  intros Hans Hpos Horg. unfold init_backend, H. erewrite bind_ok by apply create_backend_ok.
  destruct (backend_targets _ _ _ _) as [[code ai]|[ts r]] eqn:Ht.
  { do 3 eexists. split; [reflexivity|]. split; [by eapply backend_targets_code|done]. }
  set (w0 := (w.1, _)). set (b := mk_Backend _ databases ts r false).
  erewrite bind_ok by (by apply copy_filter_ok). erewrite bind_ok by reflexivity. cbn [fst].
  erewrite bind_ok by (by rewrite Horg).
  destruct (Hans (b_route b) (backend_package b pos package
    (initRequest (backend_init_request b org))) w0) as (ip & w1 & Hip).
  erewrite bind_ok by (apply on_world_ok; exact Hip). cbn beta.
  assert (Hfail : ∀ err : Z * string, ∃ code ai w',
    ((if is_closed ip then mret tt
      else close_package ← copy_filter package (new_Package (b_session b) (p_origin package));
           move r (close_session close_package) ;; mret tt) ;;
     mret (M := M (Frontend * World)) (inl (B := nat)
       (if err.1 =? 0 then (BIB1_ACCESS_TO_SPECIFIED_DATABASE_DENIED,
          match databases with db :: _ => db | [] => err.2 end) else err))) (f, w1) =
      Ok (inl (code, ai), (f, w')) ∧ code ≠ 0).
  { intros [c ai]. cbn [fst snd]. unfold H.
    assert (Hcode : ∃ code ai', (if c =? 0 then (BIB1_ACCESS_TO_SPECIFIED_DATABASE_DENIED,
      match databases with db :: _ => db | [] => ai end) else (c, ai)) = (code, ai') ∧ code ≠ 0).
    { destruct (Z.eqb_spec c 0); by do 2 eexists. }
    destruct Hcode as (code & ai' & -> & Hc). exists code, ai'. destruct (is_closed ip).
    - exists w1. by split.
    - destruct (Hans r (close_session (set_route_pos (Some pos)
        (new_Package (b_session b) (p_origin package)))) w1) as (cp & w2 & Hcp).
      exists w2. split; [|done]. erewrite bind_ok; [reflexivity|].
      erewrite bind_ok by (by apply copy_filter_ok).
      erewrite bind_ok by (apply on_world_ok; exact Hcp). done. }
  destruct (z3950 (p_response ip)) as [[]|] eqn:Hr;
    try (destruct (Hfail (0, "")) as (code & ai & w' & Heq & ?); do 3 eexists;
         split; [exact Heq|done]).
  destruct (ir_result r0 && negb (is_closed ip)) eqn:Hok.
  - apply andb_true_iff in Hok as [Hres Hcl%negb_true_iff].
    do 3 eexists. split; [reflexivity|]. split; [done|]. eexists. split; [reflexivity|].
    split_and!; [done|done|]. exists w0, w1, ip, r0. by split_and!.
  - destruct (Hfail (get_init_diagnostics r0 0 "")) as (code & ai & w' & Heq & ?).
    do 3 eexists. split; [exact Heq|done].
Qed.
Lemma search_backend_some databases ex l i : search_backend databases ex l = Some i →
  ∃ b, l !! i = Some b ∧ match_databases (b_frontend_databases b) databases = true ∧
    b_named_result_sets b || ex = true ∧
    ∀ j b', (j < i)%nat → l !! j = Some b' →
      ¬ (match_databases (b_frontend_databases b') databases = true ∧ b_named_result_sets b' || ex = true).
Proof.
  unfold search_backend. intros H. apply fmap_Some in H as ([k b] & Hf & ->).
  apply find_first_Some in Hf as (Hb & Hp & Hn). apply andb_true_iff in Hp as [Hm Ho].
  exists b. split_and!; [done..|]. intros j b' Hj Hb' [Hm' Ho'].
  specialize (Hn j b' Hj Hb'). rewrite Hm', Ho' in Hn. done.
Qed.

(** C7. What a search leaves behind, with a chain behind that answers. If the
    set exists and may not be replaced, the client gets diagnostic 21 and
    nothing else happens. Otherwise the search goes to the first backend of
    the session for the same databases that has named result sets, or any if
    the set exists already, and else to a new one that has accepted the
    client's Init. It is sent there with the query unchanged, under the name
    that the backend has for the set. If the backend answers without
    diagnostics and stays open, the set is bound to it under that name;
    otherwise the set is gone. The other sets stay as they were, and the
    client gets the answer. If no backend can be opened, nothing changes and
    the client gets a diagnostic. *)
Theorem search_binds_set `{!YazLaws Y} (package : Package R) (req : SearchRequest) (f : Frontend)
    (w : World) (pos : R) (org : InitRequest) (Hans : chain_answers)
    (Hpos : p_route_pos package = Some pos) (Horg : m_init_gdu f = Some org) :
  let name := sq_resultSetName req in
  if decide (is_Some (m_sets f !! name) ∧ sq_replaceIndicator req = false) then
    search package req (f, w) = Ok (set_response (Some (GDU_Z3950 (searchResponse
      (create_searchResponse (Some (searchRequest req)) 21 None)))) package, (f, w))
  else ∃ p' f' w', search package req (f, w) = Ok (p', (f', w')) ∧
    ((∃ i b rp, m_backend_list f' !! i = Some b ∧
        ((m_backend_list f' = m_backend_list f ∧ fits req f b ∧
          ∀ j b', (j < i)%nat → m_backend_list f !! j = Some b' → ¬ fits req f b') ∨
         (m_backend_list f' = m_backend_list f ++ [b] ∧ i = length (m_backend_list f) ∧
          (∀ b', b' ∈ m_backend_list f → ¬ fits req f b') ∧
          opened (m_maps w.1) (sq_databaseNames req) org pos package b)) ∧
        search_sent b pos package req rp w' ∧
        m_sets f' = (if has_set rp then <[name := mk_Set i (backend_setname b name)]> (m_sets f)
                     else delete name (m_sets f)) ∧
        p' = search_answer (m_maps w'.1) b rp package) ∨
     ((∀ b', b' ∈ m_backend_list f → ¬ fits req f b') ∧ f' = f ∧
      ∃ code addinfo, code ≠ 0 ∧ p' = set_response (Some (GDU_Z3950 (searchResponse
        (create_searchResponse (Some (searchRequest req)) code (Some addinfo))))) package)).
Proof.
  intros name. unfold search. unfold H. erewrite bind_ok by reflexivity. cbn [fst]. fold name.
  set (ex := match m_sets f !! name with Some _ => true | None => false end).
  assert (Hfits : ∀ b, fits req f b ↔
    match_databases (b_frontend_databases b) (sq_databaseNames req) = true ∧
    b_named_result_sets b || ex = true).
  { intros b. unfold fits. fold name. rewrite orb_true_iff. unfold ex.
    destruct (m_sets f !! name); rewrite ?is_Some_alt; naive_solver. }
  case_decide as Hd.
  { destruct Hd as [[s Hs] Hrep]. unfold ex. by rewrite Hs, Hrep. }
  assert (Hguard : ex && negb (sq_replaceIndicator req) = false).
  { unfold ex. destruct (m_sets f !! name) eqn:Es, (sq_replaceIndicator req) eqn:Er; try done.
    exfalso. apply Hd. by split; [eexists|]. }
  rewrite Hguard.
  destruct (search_backend _ _ _) as [i|] eqn:Hsb.
  { apply search_backend_some in Hsb as (b & Hb & Hm & Hn & Hfirst).
    destruct (search_on_ok i package req f w b pos Hans Hb Hpos) as (rp & w' & Hsent & ->).
    do 3 eexists. split; [reflexivity|]. left. exists i, b, rp. split_and!; try done.
    left. split_and!; [done|by apply Hfits|]. intros j b' Hj Hb'. rewrite Hfits. by eapply Hfirst. }
  assert (Hnone : ∀ b', b' ∈ m_backend_list f → ¬ fits req f b').
  { intros b' Hb' Hf%Hfits. unfold search_backend in Hsb. apply fmap_None in Hsb.
    eapply find_first_None in Hsb; [|exact Hb']. destruct Hf as [Hf1 Hf2]. by rewrite Hf1, Hf2 in Hsb. }
  destruct (init_backend_ok (sq_databaseNames req) package f w org pos Hans Hpos Horg)
    as (e & f1 & w1 & Heq & He). erewrite bind_ok by exact Heq.
  destruct e as [[code ai]|i].
  { destruct He as [Hc ->]. do 3 eexists. split; [reflexivity|]. right. split_and!; [done..|]. eauto. }
  destruct He as (-> & b & -> & Hopen).
  assert (Hb : m_backend_list (add_backend b f) !! length (m_backend_list f) = Some b)
    by (by apply list_lookup_middle).
  destruct (search_on_ok _ package req (add_backend b f) w1 b pos Hans Hb Hpos) as (rp & w' & Hsent & ->).
  do 3 eexists. split; [reflexivity|]. left. exists (length (m_backend_list f)), b, rp.
  split_and!; try done. right. by split_and!.
Qed.

(** Overriding a result set may destroy another one. Let sets [a] and
    [b] live on two backends without named result sets that were opened for
    the same databases. Searching anew under the name [b] uses the backend of
    [a], so that a result set recorded for [b] afterwards is the very set of
    the backend ("default") that [a] is still bound to. *)
Theorem override_takes_foreign_backend `{!YazLaws Y} (package : Package R) (req : SearchRequest)
    (f : Frontend) (w : World) (a : string) (b0 b1 : Backend) (pos : R)
    (Hans : chain_answers) (Hpos : p_route_pos package = Some pos)
    (Hlist : m_backend_list f = [b0; b1])
    (Hn0 : b_named_result_sets b0 = false) (Hn1 : b_named_result_sets b1 = false)
    (Hdb : match_databases (b_frontend_databases b0) (sq_databaseNames req) = true)
    (Ha : m_sets f !! a = Some (mk_Set 0 "default"))
    (Hb : m_sets f !! sq_resultSetName req = Some (mk_Set 1 "default"))
    (Hrep : sq_replaceIndicator req = true) (Hne : a ≠ sq_resultSetName req) :
  ∃ p' f' w', search package req (f, w) = Ok (p', (f', w')) ∧
    m_sets f' !! a = Some (mk_Set 0 "default") ∧
    (m_sets f' !! sq_resultSetName req = None ∨
     m_sets f' !! sq_resultSetName req = Some (mk_Set 0 "default")).
Proof.
  unfold search, H. erewrite bind_ok by reflexivity. cbn [fst]. rewrite Hb, Hrep. cbn [andb negb].
  rewrite Hlist. unfold search_backend. cbn. rewrite Hdb, orb_true_r. cbn.
  destruct (search_on_ok 0 package req f w b0 pos Hans) as (rp & w' & _ & ->); [by rewrite Hlist|done|].
  do 3 eexists. split; [reflexivity|]. cbn. unfold backend_setname. rewrite Hn0.
  destruct (has_set rp).
  - rewrite lookup_insert_ne, lookup_insert_eq by done. auto.
  - rewrite lookup_delete_ne, lookup_delete_eq by done. auto.
Qed.
End filter.
(** *** Witnesses *)
Section example.
(** Targets accept every session and find nothing in every search. *)
Definition example_next (_ : string) (p : Package unit) :
    M (Rep * Global unit) (Package unit) :=
  match z3950 (p_request p) with
  | Some (initRequest _) =>
      mret (set_response (Some (GDU_Z3950 (initResponse
        (zget_initResponse (Yaz := ref_yaz))))) p)
  | Some (searchRequest _) =>
      mret (set_response (Some (GDU_Z3950 (searchResponse
        (zget_searchResponse (Yaz := ref_yaz))))) p)
  | _ => mret p
  end.
Definition example_search (name db : string) : SearchRequest :=
  set_sq_databaseNames [db] (set_sq_resultSetName name
    (zget_searchRequest (Yaz := ref_yaz))).
Definition example_package (g : GDU) : Package unit :=
  mk_Package (Session.mk 1 false) Origin.create (Some tt) (Some g) None.
Definition example_map : Map := mk_Map "db" ["t1"; "t2"] "r".
Definition example_backend (n : Z) : Backend :=
  mk_Backend (Session.mk n false) ["db"] ["t1"; "t2"] "r" false.
Definition example_frontend : Frontend :=
  mk_Frontend true (Some (zget_initRequest (Yaz := ref_yaz)))
    [example_backend 2; example_backend 3]
    (<["a" := mk_Set 0 "default"]> {["b" := mk_Set 1 "default"]}).
Definition example_world : Rep * Global unit :=
  (mk_Rep [example_map] ∅ false, Build_Global 9 tt).
End example.

Lemma fixup_restores_names_witness :
  ∃ l', fixup_npr_records (Y := ref_yaz) [example_map] ["db"]
      (Some (Records_DBOSD [{| databaseName := Some "t2"; npr_record := octet_record "x" |}])) =
    Some (Records_DBOSD l') ∧ npr_record <$> l' = [octet_record "x"].
Proof.
  destruct (fixup_restores_names (Y := ref_yaz) [example_map] ["db"]
    [{| databaseName := Some "t2"; npr_record := octet_record "x" |}]) as (l' & H & Hr & _);
    [discriminate|].
  exists l'. split; [exact H|exact Hr].
Defined.
Lemma init_negotiates_witness :
  MASK_GET (ir_options (init_response (Y := ref_yaz)
    (zget_initRequest (Yaz := ref_yaz)))) 5 = false.
Proof.
  destruct (init_negotiates (Y := ref_yaz) (zget_initRequest (Yaz := ref_yaz)) 5)
    as [H _]; [lia|]. rewrite H. reflexivity.
Defined.
(** The client has two sets, on two backends. *)
Definition example_clients : Rep * Global unit :=
  (mk_Rep [example_map] {[1 := (false, example_frontend)]} false, Build_Global 9 tt).
Lemma process_keeps_clients_witness :
  clients_ok example_clients ∧
  par (process (Y := ref_yaz) example_next 3
    (example_package (GDU_Z3950 (searchRequest (example_search "b" "db")))))
    example_clients (λ _ w', clients_ok w').
Proof.
  assert (Hw : clients_ok example_clients).
  { apply map_Forall_singleton. intros name s Hs. cbn [snd example_frontend m_sets] in Hs. apply lookup_insert_Some in Hs as [[_ <-]|[_ Hs]].
    - exists (example_backend 2). split; reflexivity.
    - apply lookup_singleton_Some in Hs as [_ <-]. exists (example_backend 3). split; reflexivity. }
  split; [exact Hw|]. apply (process_keeps_clients (Y := ref_yaz)); [|exact Hw].
  intros route p w Hw'. unfold example_next, par.
  destruct (z3950 (p_request p)) as [[]|]; exact Hw'.
Defined.
Lemma example_answers : chain_answers example_next.
Proof.
  intros route p w. unfold example_next. destruct (z3950 (p_request p)) as [[]|]; by do 2 eexists.
Qed.
Lemma search_binds_set_witness : ∃ p' f' w',
  search (Y := ref_yaz) example_next
    (example_package (GDU_Z3950 (searchRequest (example_search "c" "db"))))
    (example_search "c" "db") (example_frontend, example_world) = Ok (p', (f', w')) ∧
  (length (m_backend_list f') = 3%nat ∨ f' = example_frontend).
Proof.
  destruct (search_binds_set (Y := ref_yaz) example_next
    (example_package (GDU_Z3950 (searchRequest (example_search "c" "db"))))
    (example_search "c" "db") example_frontend example_world tt (zget_initRequest (Yaz := ref_yaz)))
    as (p' & f' & w' & H & Hcase).
  - apply example_answers.
  - reflexivity.
  - reflexivity.
  - exists p', f', w'. split; [exact H|].
    destruct Hcase as [(i & b & rp & Hb & [(_ & [_ [Hn|[s Hs]]] & _)|(-> & _)] & _)|(_ & -> & _)].
    + revert H Hn. vm_compute. intros [= _ <- _]. left. reflexivity.
    + discriminate Hs.
    + left. reflexivity.
    + right. reflexivity.
Defined.
Lemma override_takes_foreign_backend_witness : ∃ p' f' w',
  search (Y := ref_yaz) example_next
    (example_package (GDU_Z3950 (searchRequest (example_search "b" "db"))))
    (example_search "b" "db") (example_frontend, example_world) = Ok (p', (f', w')) ∧
  m_sets f' !! "a" = Some (mk_Set 0 "default").
Proof.
  destruct (override_takes_foreign_backend (Y := ref_yaz) example_next
    (example_package (GDU_Z3950 (searchRequest (example_search "b" "db"))))
    (example_search "b" "db") example_frontend example_world "a"
    (example_backend 2) (example_backend 3) tt) as (p' & f' & w' & H & Ha & _);
    try reflexivity; [apply example_answers|discriminate|].
  exists p', f', w'. split; [exact H|exact Ha].
Defined.
End VirtDb.
