(* ===== verification/MultiMerge.v ===== *)
(** * Merging in the multi filter

    [FrontendSet::round_robin], [FrontendSet::serve_order] and the merging of
    scan terms of [src/filter_multi.cpp]: which records of which backends make
    up a range of the merged result set, and how the term lists of several
    backends become one. *)
From stdpp Require Import sorting.
From S2P Require Import Prelude Zgdu.

Module MultiMerge.

(** ** Jobs *)

(** [BackendSet]: a backend (its place in [m_backend_list]) and the number
    of records it found. *)
Record BackendSet : Type := mk_BackendSet {
  bs_backend : nat;
  bs_count : Z
}.
(** [PresentJob]: the record of a backend, and the first record that this
    backend is asked for. *)
Record PresentJob : Type := mk_PresentJob {
  j_backend : nat;
  j_pos : Z;
  j_start : Z
}.
Definition new_job (b : nat) (pos : Z) : PresentJob := mk_PresentJob b pos 0.

(** ** serve_order

    Positions are [int]s; an operation that leaves their range is undefined. *)
Fixpoint serve_one (sets : list BackendSet) (voffset offset : Z) :
    outcome (option PresentJob) :=
  match sets with
  | [] => Ok None
  | s :: sets' =>
      here ← (if voffset <=? offset then
                end_ ← chk_int (voffset + bs_count s); Ok (offset <? end_)
              else Ok false);
      if here : bool then
        pos ← chk_int (offset - voffset);
        pos ← chk_int (pos + 1);
        Ok (Some (new_job (bs_backend s) pos))
      else
        voffset ← chk_int (voffset + bs_count s);
        serve_one sets' voffset offset
  end.
Fixpoint serve_loop (n : nat) (sets : list BackendSet) (start i : Z) :
    outcome (list PresentJob) :=
  match n with
  | O => Ok []
  | S n' =>
      offset ← chk_int (start + i);
      offset ← chk_int (offset - 1);
      job ← serve_one sets 0 offset;
      jobs ← serve_loop n' sets start (i + 1);
      Ok (option_list job ++ jobs)
  end.
Definition serve_order (sets : list BackendSet) (start number : Z) :
    outcome (list PresentJob) :=
  serve_loop (Z.to_nat number) sets start 0.

(** ** round_robin *)

(** The smallest count greater than [omin], and how many there are. *)
Fixpoint min_left (sets : list BackendSet) (omin : Z) (min no_left : Z) : outcome (Z * Z) :=
  match sets with
  | [] => Ok (min, no_left)
  | s :: sets' =>
      if omin <? bs_count s then
        no_left' ← chk_int (no_left + 1);
        min_left sets' omin
          (if (no_left =? 0) || (bs_count s <? min) then bs_count s else min) no_left'
      else min_left sets' omin min no_left
  end.

(** The optimization step: the loop that skips whole classes of counts.
    Returns [p] and what has been added to every position, which was 1. *)
Fixpoint skip_loop (fuel : nat) (sets : list BackendSet) (start : Z)
    (omin p skipped : Z) : outcome (Z * Z) :=
  match fuel with
  | O => OutOfFuel
  | S fuel' =>
      '(min, no_left) ← min_left sets omin 0 0;
      if no_left =? 0 then Ok (p, skipped)
      else
        skip ← chk_int (no_left * min);
        p_skip ← chk_int (p + skip);
        if start <? p_skip then
          rest ← chk_int (start - p);
          let min := Z.quot rest no_left in
          step ← chk_int (no_left * min);
          p ← chk_int (p + step);
          _ ← chk_int (1 + skipped + min);
          Ok (p, skipped + min)
        else
          _ ← chk_int (1 + skipped + min);
          skip_loop fuel' sets start min p_skip (skipped + min)
  end.

(** One turn over the sets. Returns the new positions, [p], [fetched],
    [more] and the jobs found. *)
Fixpoint rr_turn (sets : list (BackendSet * Z)) (start number : Z)
    (p fetched : Z) (more : bool) :
    outcome (list (BackendSet * Z) * Z * Z * bool * list PresentJob) :=
  match sets with
  | [] => Ok ([], p, fetched, more, [])
  | (s, pos) :: sets' =>
      if number <=? fetched then Ok (sets, p, fetched, false, [])
      else if pos <=? bs_count s then
        let take_it := start <=? p in
        fetched ← (if take_it then chk_int (fetched + 1) else Ok fetched);
        pos' ← chk_int (pos + 1);
        p ← chk_int (p + 1);
        '(rest, p', fetched', more', jobs) ← rr_turn sets' start number p fetched true;
        Ok ((s, pos') :: rest, p', fetched', more',
            if take_it then new_job (bs_backend s) pos :: jobs else jobs)
      else
        '(rest, p', fetched', more', jobs) ← rr_turn sets' start number p fetched more;
        Ok ((s, pos) :: rest, p', fetched', more', jobs)
  end.
Fixpoint rr_loop (fuel : nat) (sets : list (BackendSet * Z)) (start number : Z)
    (p fetched : Z) : outcome (list PresentJob) :=
  match fuel with
  | O => OutOfFuel
  | S fuel' =>
      '(sets', p', fetched', more, jobs) ← rr_turn sets start number p fetched false;
      if more : bool then
        rest ← rr_loop fuel' sets' start number p' fetched'; Ok (jobs ++ rest)
      else Ok jobs
  end.

(** Bounds of the two loops: one class per set, one turn per record of the
    largest set. *)
Definition max_count (sets : list BackendSet) : Z :=
  foldr (λ s m, Z.max (bs_count s) m) 0 sets.
Definition round_robin (sets : list BackendSet) (start number : Z) :
    outcome (list PresentJob) :=
  '(p, skipped) ← skip_loop (S (length sets)) sets start 0 1 0;
  rr_loop (S (S (Z.to_nat (max_count sets))))
    ((λ s, (s, 1 + skipped)) <$> sets) start number p 0.

(** ** Scan terms *)

(** [ScanTermInfo]; [m_display_term] is never set. *)
Record ScanTermInfo : Type := mk_ScanTermInfo {
  m_norm_term : string;
  m_count : Z
}.
(** Walk past the terms that come first, then count up or insert. *)
Fixpoint insert_term (comes_first : string → string → bool) (my : ScanTermInfo)
    (l : list ScanTermInfo) : outcome (list ScanTermInfo) :=
  match l with
  | [] => Ok [my]
  | it :: l' =>
      if comes_first (m_norm_term it) (m_norm_term my) then
        l' ← insert_term comes_first my l'; Ok (it :: l')
      else if decide (m_norm_term my = m_norm_term it) then
        count ← chk_int (m_count it + m_count my);
        Ok (mk_ScanTermInfo (m_norm_term it) count :: l')
      else Ok (my :: l)
  end.
(** Backwards from the start term, and forwards. *)
Definition insert_before : ScanTermInfo → list ScanTermInfo → outcome (list ScanTermInfo) :=
  insert_term (λ t my, String.ltb my t).
Definition insert_after : ScanTermInfo → list ScanTermInfo → outcome (list ScanTermInfo) :=
  insert_term (λ t my, String.ltb t my).
(** The term and count of an entry; terms other than strings are dropped. *)
Definition entry_term (ent : Entry) : option ScanTermInfo :=
  match ent with
  | Entry_termInfo ti =>
      let count := int32 (default 0 (globalOccurrences ti)) in
      match term ti with
      | Term_general s =>
          if decide (s = "") then None else Some (mk_ScanTermInfo s count)
      | Term_other => None
      end
  | _ => None
  end.
Fixpoint merge_terms (ins : ScanTermInfo → list ScanTermInfo → outcome (list ScanTermInfo))
    (ents : list Entry) (l : list ScanTermInfo) : outcome (list ScanTermInfo) :=
  match ents with
  | [] => Ok l
  | ent :: ents' =>
      l ← (match entry_term ent with Some my => ins my l | None => Ok l end);
      merge_terms ins ents' l
  end.
Definition get_entry (t : ScanTermInfo) : Entry :=
  Entry_termInfo {| term := Term_general (m_norm_term t);
                    globalOccurrences := Some (m_count t) |}.

(** ** The merged result sets *)

Definition jobs_of (s : BackendSet) : list PresentJob :=
  (λ k, new_job (bs_backend s) (Z.of_nat k)) <$> seq 1 (Z.to_nat (bs_count s)).
(** One backend after the other. *)
Definition concatenated (sets : list BackendSet) : list PresentJob :=
  sets ≫= jobs_of.
(** Every turn takes the next record of each backend that has one left. *)
Definition turn (sets : list BackendSet) (k : nat) : list PresentJob :=
  omap (λ s, if Z.of_nat k <=? bs_count s
             then Some (new_job (bs_backend s) (Z.of_nat k)) else None) sets.
Definition interleaved (sets : list BackendSet) : list PresentJob :=
  seq 1 (Z.to_nat (max_count sets)) ≫= turn sets.
(** The jobs [start .. start + number - 1] of a merged set. *)
Definition range (start number : Z) (l : list PresentJob) : list PresentJob :=
  take (Z.to_nat number) (drop (Z.to_nat (start - 1)) l).

Example round_robin_ex :
  round_robin [mk_BackendSet 0 2; mk_BackendSet 1 4] 2 4 =
  Ok [new_job 1 1; new_job 0 2; new_job 1 2; new_job 1 3].
Proof. reflexivity. Qed.
Example round_robin_three_ex :
  round_robin [mk_BackendSet 0 2; mk_BackendSet 1 5; mk_BackendSet 2 10] 15 1 ≠
  Ok (range 15 1 (interleaved
    [mk_BackendSet 0 2; mk_BackendSet 1 5; mk_BackendSet 2 10])).
Proof. vm_compute. discriminate. Qed.

(** The number of records of the merged set. *)
Definition total_count (sets : list BackendSet) : Z := foldr (λ s n, bs_count s + n) 0 sets.
Lemma total_count_nonneg sets :
  Forall (λ s, 0 ≤ bs_count s) sets → 0 ≤ total_count sets.
Proof. induction 1; simpl in *; lia. Qed.
Lemma total_count_ge sets s :
  Forall (λ s, 0 ≤ bs_count s) sets → s ∈ sets → bs_count s ≤ total_count sets.
Proof.
  intros HF. induction HF as [|s' sets Hs' HF IH]; intros Hs; [by apply elem_of_nil in Hs|].
  pose proof (total_count_nonneg sets HF). apply elem_of_cons in Hs as [->|Hs]; simpl; [lia|].
  specialize (IH Hs). lia.
Qed.
(** Operations on [int] that stay in its range. *)
Ltac int_ok := unfold in_int32, INT_MAX in *; lia.
Ltac chk_ok :=
  repeat (match goal with |- context [chk_int ?z] => rewrite (chk_int_ok z) by int_ok end;
          cbn [mbind outcome_bind]).

(** *** Serve order *)

Lemma jobs_of_lookup s k :
  jobs_of s !! k = if decide (Z.of_nat k < bs_count s)
                   then Some (new_job (bs_backend s) (Z.of_nat k + 1)) else None.
Proof.
  unfold jobs_of. rewrite list_lookup_fmap.
  case_decide as Hk.
  - rewrite lookup_seq_lt by lia. simpl. do 2 f_equal. lia.
  - rewrite lookup_seq_ge by lia. done.
Qed.
Lemma jobs_of_length s : length (jobs_of s) = Z.to_nat (bs_count s).
Proof. unfold jobs_of. by rewrite length_fmap, length_seq. Qed.
Lemma serve_one_spec sets voffset offset :
  Forall (λ s, 0 ≤ bs_count s) sets → 0 ≤ voffset ≤ offset → offset < INT_MAX →
  voffset + total_count sets ≤ INT_MAX →
  serve_one sets voffset offset = Ok (concatenated sets !! Z.to_nat (offset - voffset)).
Proof.
  intros HF. revert voffset. induction HF as [|s sets Hs HF IH];
    intros voffset Hle Hoff Hfit; cbn [serve_one]; [done|]. cbn [total_count foldr] in Hfit.
  fold (total_count sets) in Hfit. pose proof (total_count_nonneg sets HF).
  rewrite (proj2 (Z.leb_le _ _)) by lia. chk_ok.
  unfold concatenated. cbn [mbind list_bind].
  destruct (Z.ltb_spec offset (voffset + bs_count s)).
  - chk_ok.
    rewrite lookup_app_l by (rewrite jobs_of_length; lia).
    rewrite jobs_of_lookup, decide_True by lia. do 3 f_equal. lia.
  - rewrite lookup_app_r by (rewrite jobs_of_length; lia).
    rewrite IH by lia. rewrite jobs_of_length. unfold concatenated. do 2 f_equal. lia.
Qed.
Lemma serve_loop_spec n sets start i :
  Forall (λ s, 0 ≤ bs_count s) sets → total_count sets ≤ INT_MAX →
  1 ≤ start → 0 ≤ i → start + i + Z.of_nat n ≤ INT_MAX + 1 →
  serve_loop n sets start i =
  Ok (take n (drop (Z.to_nat (start - 1 + i)) (concatenated sets))).
Proof.
  intros HF Htot Hs. revert i. induction n as [|n IH]; intros i Hi Hfit; cbn [serve_loop]; [done|].
  chk_ok.
  rewrite serve_one_spec by (done || lia). cbn [mbind outcome_bind].
  rewrite IH by lia. cbn [mbind outcome_bind]. f_equal.
  replace (Z.to_nat (start + i - 1 - 0)) with (Z.to_nat (start - 1 + i)) by lia.
  replace (Z.to_nat (start - 1 + (i + 1))) with (S (Z.to_nat (start - 1 + i))) by lia.
  destruct (concatenated sets !! Z.to_nat (start - 1 + i)) as [x|] eqn:Hx.
  - by rewrite (drop_S _ _ _ Hx).
  - apply lookup_ge_None in Hx. rewrite !drop_ge by lia. by rewrite !take_nil.
Qed.
Lemma serve_order_range sets start number :
  Forall (λ s, 0 ≤ bs_count s) sets → total_count sets ≤ INT_MAX → 1 ≤ start →
  start + number ≤ INT_MAX + 1 → start ≤ INT_MAX →
  serve_order sets start number = Ok (range start number (concatenated sets)).
Proof.
  intros. unfold serve_order, range. rewrite serve_loop_spec by (done || lia).
  by rewrite Z.add_0_r.
Qed.

(** *** Round robin: the turns *)

(** What a walk over a list of candidates [l] fetches, from position [p]. *)
Fixpoint collect (start number : Z) (l : list PresentJob) (p fetched : Z) :
    list PresentJob :=
  match l with
  | [] => []
  | j :: l' =>
      if number <=? fetched then []
      else if start <=? p then j :: collect start number l' (p + 1) (fetched + 1)
      else collect start number l' (p + 1) fetched
  end.

Lemma collect_full start number l p fetched :
  number ≤ fetched → collect start number l p fetched = [].
Proof. intros H. destruct l; simpl; [done|]. by rewrite (proj2 (Z.leb_le _ _) H). Qed.
Lemma collect_app start number l1 l2 p fetched :
  collect start number (l1 ++ l2) p fetched =
  collect start number l1 p fetched ++
  collect start number l2 (p + Z.of_nat (length l1))
    (fetched + Z.of_nat (length (collect start number l1 p fetched))).
Proof.
  revert p fetched. induction l1 as [|j l1 IH]; intros p fetched; cbn [app length collect].
  - by rewrite !Z.add_0_r.
  - destruct (Z.leb_spec number fetched).
    + rewrite collect_full; [done|]. simpl. lia.
    + rewrite Nat2Z.inj_succ. destruct (start <=? p); cbn [app length];
        rewrite IH, ?Nat2Z.inj_succ; [f_equal; f_equal|f_equal]; f_equal; lia.
Qed.
Lemma collect_spec start number l p fetched :
  collect start number l p fetched =
  take (Z.to_nat (number - fetched)) (drop (Z.to_nat (start - p)) l).
Proof.
  revert p fetched. induction l as [|j l IH]; intros p fetched; cbn [collect].
  - by rewrite drop_nil, take_nil.
  - destruct (Z.leb_spec number fetched).
    { by replace (Z.to_nat (number - fetched)) with 0%nat by lia. }
    destruct (Z.leb_spec start p).
    + rewrite IH. replace (Z.to_nat (start - (p + 1))) with 0%nat by lia.
      replace (Z.to_nat (start - p)) with 0%nat by lia.
      replace (Z.to_nat (number - fetched)) with (S (Z.to_nat (number - (fetched + 1))))
        by lia. done.
    + rewrite IH. by replace (Z.to_nat (start - p)) with (S (Z.to_nat (start - (p + 1))))
        by lia.
Qed.

(** Before turn [r] a set either stands at record [r] or is used up. *)
Definition at_turn (r : nat) (sp : BackendSet * Z) : Prop :=
  (bs_count sp.1 < sp.2 ∧ bs_count sp.1 < Z.of_nat r) ∨ sp.2 = Z.of_nat r.

Lemma turn_cons s sets r :
  turn (s :: sets) r =
  if Z.of_nat r <=? bs_count s then new_job (bs_backend s) (Z.of_nat r) :: turn sets r
  else turn sets r.
Proof. unfold turn. cbn [omap list_omap]. by destruct (_ <=? _). Qed.
Lemma rr_turn_spec sets start number r p fetched more :
  Forall (at_turn r) sets → Forall (λ s, bs_count s < INT_MAX) (fst <$> sets) →
  number ≤ INT_MAX → 0 ≤ fetched → 0 ≤ p →
  p + Z.of_nat (length (turn (fst <$> sets) r)) ≤ INT_MAX →
  ∃ sets' p' fetched' more' jobs,
    rr_turn sets start number p fetched more = Ok (sets', p', fetched', more', jobs) ∧
    jobs = collect start number (turn (fst <$> sets) r) p fetched ∧
    fetched' = fetched + Z.of_nat (length jobs) ∧
    ((more' = false ∧ number ≤ fetched') ∨
     (Forall (at_turn (S r)) sets' ∧ fst <$> sets' = fst <$> sets ∧
      p' = p + Z.of_nat (length (turn (fst <$> sets) r)) ∧
      more' = more || bool_decide (turn (fst <$> sets) r ≠ []))).
Proof.
  intros HF. revert p fetched more. induction HF as [|[s pos] sets Hs HF IH];
    intros p fetched more Hcs Hn Hf Hp Hfit; cbn [rr_turn].
  { do 5 eexists. split; [done|]. simpl. split_and!; [done|lia|]. right.
    split_and!; [constructor|done|lia|]. by rewrite orb_false_r. }
  cbn [fmap list_fmap fst] in *. apply Forall_cons in Hcs as [Hc Hcs].
  rewrite turn_cons in *. destruct (Z.leb_spec number fetched).
  { do 5 eexists. split; [done|]. rewrite collect_full by done.
    split_and!; [done|simpl; lia|by left]. }
  destruct (Z.leb_spec pos (bs_count s)) as [Hpc|Hpc].
  - assert (pos = Z.of_nat r) as -> by (destruct Hs as [[? ?]|?]; simpl in *; lia).
    rewrite (proj2 (Z.leb_le _ _) Hpc) in *. cbn [length] in Hfit.
    assert (Hfe : (if start <=? p then chk_int (fetched + 1) else Ok fetched) =
      Ok (if start <=? p then fetched + 1 else fetched))
      by (destruct (start <=? p); [apply chk_int_ok; int_ok|done]).
    rewrite Hfe. cbn [mbind outcome_bind].
    chk_ok.
    destruct (IH (p + 1) (if start <=? p then fetched + 1 else fetched) true)
      as (sets' & p' & f' & m' & js & -> & Hj & Hf' & Hcase); [done|done| |lia|lia|].
    { destruct (start <=? p); lia. }
    do 5 eexists. split; [done|]. cbn [collect length].
    rewrite (proj2 (Z.leb_gt number fetched)) by lia.
    destruct (start <=? p); (split_and!; [by rewrite Hj|simpl; lia|]);
      (destruct Hcase as [[? ?]|(H1 & H2 & H3 & H4)]; [left; split; [done|simpl; lia]|right];
       split_and!; [constructor; [right; simpl; lia|done]|by cbn; rewrite H2
         |simpl; lia|rewrite H4, (bool_decide_eq_true_2 (_ :: _ ≠ [])) by done; by rewrite orb_true_r]).
  - rewrite (proj2 (Z.leb_gt (Z.of_nat r) _)) in *
      by (destruct Hs as [[? ?]|?]; simpl in *; lia).
    destruct (IH p fetched more) as (sets' & p' & f' & m' & js & -> & Hj & Hf' & Hcase); [done..|].
    do 5 eexists. split; [done|].
    split_and!; [done..|]. destruct Hcase as [?|(H1 & H2 & H3 & H4)]; [by left|right].
    split_and!; [|by cbn; rewrite H2|done..]. constructor; [|done].
    left. destruct Hs as [[? ?]|?]; simpl in *; lia.
Qed.

(** The turns from [r] on. *)
Definition turns_from (sets : list BackendSet) (r : nat) : list PresentJob :=
  seq r (S (Z.to_nat (max_count sets)) - r) ≫= turn sets.

Lemma max_count_ge sets s : s ∈ sets → bs_count s ≤ max_count sets.
Proof. induction 1; simpl; lia. Qed.
Lemma max_count_nonneg sets : 0 ≤ max_count sets.
Proof. induction sets; simpl; lia. Qed.
Lemma turn_empty sets r :
  max_count sets < Z.of_nat r → turn sets r = [].
Proof.
  intros Hr. unfold turn. assert (H : ∀ s, s ∈ sets → bs_count s < Z.of_nat r).
  { intros s Hs%max_count_ge. lia. }
  clear Hr. induction sets as [|s sets IH]; simpl; [done|].
  rewrite (proj2 (Z.leb_gt _ _)) by (apply H; left).
  apply IH. intros. apply H. by right.
Qed.
Lemma turn_empty_later sets r r' :
  turn sets r = [] → (r ≤ r')%nat → turn sets r' = [].
Proof.
  intros Hr Hle. unfold turn in *. induction sets as [|s sets IH]; simpl in *; [done|].
  destruct (Z.leb_spec (Z.of_nat r) (bs_count s)); [done|].
  rewrite (proj2 (Z.leb_gt _ _)) by lia. auto.
Qed.
Lemma turns_from_step sets r :
  turns_from sets r = turn sets r ++ turns_from sets (S r).
Proof.
  unfold turns_from. pose proof (max_count_nonneg sets).
  destruct (decide (Z.of_nat r ≤ max_count sets)).
  - replace (S (Z.to_nat (max_count sets)) - r)%nat
      with (S (S (Z.to_nat (max_count sets)) - S r)) by lia. done.
  - rewrite turn_empty by lia.
    replace (S (Z.to_nat (max_count sets)) - r)%nat with 0%nat by lia.
    by replace (S (Z.to_nat (max_count sets)) - S r)%nat with 0%nat by lia.
Qed.
Lemma turns_from_nil sets r : turn sets r = [] → turns_from sets r = [].
Proof.
  intros Hr. unfold turns_from.
  assert (H : ∀ n r', (r ≤ r')%nat → seq r' n ≫= turn sets = []).
  { induction n as [|n IH]; intros r' Hle; cbn; [done|].
    rewrite (turn_empty_later _ _ _ Hr Hle). apply IH. lia. }
  by apply H.
Qed.

Lemma rr_loop_spec fuel sets start number r p fetched :
  Forall (at_turn r) sets → Forall (λ s, bs_count s < INT_MAX) (fst <$> sets) →
  number ≤ INT_MAX → 0 ≤ fetched → 0 ≤ p →
  p + Z.of_nat (length (turns_from (fst <$> sets) r)) ≤ INT_MAX →
  max_count (fst <$> sets) - Z.of_nat r + 2 ≤ Z.of_nat fuel → (0 < fuel)%nat →
  rr_loop fuel sets start number p fetched =
  Ok (collect start number (turns_from (fst <$> sets) r) p fetched).
Proof.
  revert sets r p fetched. induction fuel as [|fuel IH];
    intros sets r p fetched HF Hcs Hn Hf0 Hp0 Hfit Hfuel Hpos; [lia|]. cbn [rr_loop].
  rewrite turns_from_step, length_app in Hfit.
  destruct (rr_turn_spec sets start number r p fetched false)
    as (sets' & p' & f' & more & jobs & -> & Hj & Hf & Hcase); [done..|lia|].
  cbn [mbind outcome_bind]. rewrite turns_from_step, collect_app, <-Hj, <-Hf.
  destruct Hcase as [[-> Hnf]|(H1 & H2 & -> & ->)].
  - by rewrite (collect_full _ _ _ _ f'), app_nil_r by done.
  - simpl. case_bool_decide as Hne.
    + assert (Z.of_nat r ≤ max_count (fst <$> sets)).
      { destruct (decide (max_count (fst <$> sets) < Z.of_nat r)) as [Hlt|]; [|lia].
        by rewrite (turn_empty _ _ Hlt) in Hne. }
      rewrite (IH sets' (S r)), H2 by (done || rewrite ?H2; done || lia). done.
    + rewrite (turns_from_nil _ (S r)).
      * by rewrite app_nil_r.
      * eapply turn_empty_later; [done|lia].
Qed.
(** *** Round robin: skipping *)

(** The number of records within the first [k] turns. *)
Fixpoint before (sets : list BackendSet) (k : Z) : Z :=
  match sets with
  | [] => 0
  | s :: sets' => Z.min (bs_count s) k + before sets' k
  end.
(** The number of sets with more than [m] records. *)
Definition above (sets : list BackendSet) (m : Z) : Z :=
  Z.of_nat (length (filter (λ s, m < bs_count s) sets)).

Lemma above_cons s sets m :
  above (s :: sets) m = (if decide (m < bs_count s) then 1 else 0) + above sets m.
Proof.
  unfold above. rewrite filter_cons. destruct (decide (m < bs_count s)); simpl; lia.
Qed.
Lemma above_nonneg sets m : 0 ≤ above sets m.
Proof. unfold above. lia. Qed.

Lemma turn_length sets r :
  Z.of_nat (length (turn sets (S r))) = above sets (Z.of_nat r).
Proof.
  induction sets as [|s sets IH]; [done|]. rewrite above_cons. unfold turn in *.
  cbn [omap list_omap]. destruct (Z.leb_spec (Z.of_nat (S r)) (bs_count s));
    destruct (decide (Z.of_nat r < bs_count s)); cbn [length]; lia.
Qed.
(** One more turn. *)
Lemma before_succ sets k : before sets (k + 1) = before sets k + above sets k.
Proof.
  induction sets as [|s sets IH]; [done|]. rewrite above_cons. cbn [before].
  destruct (decide (k < bs_count s)); lia.
Qed.
Lemma before_zero sets : Forall (λ s, 0 ≤ bs_count s) sets → before sets 0 = 0.
Proof. induction 1; simpl in *; lia. Qed.
Lemma before_nonneg sets k : Forall (λ s, 0 ≤ bs_count s) sets → 0 ≤ k → 0 ≤ before sets k.
Proof. intros HF Hk. induction HF; simpl; lia. Qed.
Lemma turns_length sets n :
  Forall (λ s, 0 ≤ bs_count s) sets →
  Z.of_nat (length (seq 1 n ≫= turn sets)) = before sets (Z.of_nat n).
Proof.
  intros HF. induction n as [|n IH]; [by rewrite before_zero|].
  rewrite seq_S, bind_app, length_app, Nat2Z.inj_add, IH. cbn.
  rewrite app_nil_r. change (1 + n)%nat with (S n). rewrite turn_length.
  rewrite Nat2Z.inj_succ. unfold Z.succ. by rewrite before_succ.
Qed.
(** A class: all sets above [m] reach [m + k]. *)
Lemma before_class sets m k :
  0 ≤ k → (∀ s, s ∈ sets → m < bs_count s → m + k ≤ bs_count s) →
  before sets (m + k) = before sets m + above sets m * k.
Proof.
  intros Hk. induction sets as [|s sets IH]; intros Hc; [done|].
  rewrite above_cons. cbn [before]. rewrite IH by (intros; apply Hc; [by right|done]).
  specialize (Hc s ltac:(left)). destruct (decide (m < bs_count s)); lia.
Qed.
Lemma above_zero sets m s : above sets m = 0 → s ∈ sets → bs_count s ≤ m.
Proof.
  intros H0 Hs. revert H0. induction Hs as [s sets|s s' sets Hs IH];
    rewrite above_cons; pose proof (above_nonneg sets m);
    destruct (decide _); lia.
Qed.
Lemma before_all sets m k :
  (∀ s, s ∈ sets → bs_count s ≤ m) → m ≤ k → before sets k = before sets m.
Proof.
  intros Hm Hk. induction sets as [|s sets IH]; [done|]. simpl.
  rewrite IH by (intros; apply Hm; by right). specialize (Hm s ltac:(left)). lia.
Qed.

Lemma min_left_spec sets omin min no_left :
  0 ≤ no_left → no_left + above sets omin ≤ INT_MAX →
  ∃ min' no_left', min_left sets omin min no_left = Ok (min', no_left') ∧
  no_left' = no_left + above sets omin ∧
  (no_left' = 0 ∨
   ((no_left ≠ 0 ∧ min' = min ∨ ∃ s, s ∈ sets ∧ omin < bs_count s ∧ bs_count s = min') ∧
    (no_left ≠ 0 → min' ≤ min) ∧
    ∀ s, s ∈ sets → omin < bs_count s → min' ≤ bs_count s)).
Proof.
  revert min no_left. induction sets as [|s sets IH]; intros min no_left Hn Hfit; cbn [min_left].
  { do 2 eexists. split; [done|]. split; [unfold above; simpl; lia|].
    destruct (decide (no_left = 0)); [by left|right].
    split_and!; [by left|lia|]. by intros ? ?%elem_of_nil. }
  rewrite above_cons in *. destruct (Z.ltb_spec omin (bs_count s)) as [Hs|Hs].
  - rewrite decide_True in * by done. pose proof (above_nonneg sets omin).
    chk_ok.
    set (min1 := if (no_left =? 0) || (bs_count s <? min) then bs_count s else min).
    destruct (IH min1 (no_left + 1) ltac:(lia) ltac:(lia)) as (min' & n' & -> & Hn' & Hcase).
    do 2 eexists. split; [done|]. split; [lia|]. right.
    destruct Hcase as [?|(Hmin & Hle & Hall)]; [lia|].
    assert (H1 : min1 ≤ bs_count s ∧ (no_left ≠ 0 → min1 ≤ min) ∧
      (min1 = bs_count s ∨ (no_left ≠ 0 ∧ min1 = min))).
    { unfold min1. destruct (Z.eqb_spec no_left 0), (Z.ltb_spec (bs_count s) min);
        simpl; lia. }
    split_and!.
    + destruct Hmin as [[_ ->]|(s' & ? & ? & ?)];
        [destruct H1 as (_ & _ & [->|[? ->]]); [right|by left]|right].
      * exists s. split_and!; [left|done|done].
      * exists s'. split_and!; [by right|done|done].
    + lia.
    + intros s' [->|Hs']%elem_of_cons Ho; [lia|]. by apply Hall.
  - rewrite decide_False in * by lia.
    destruct (IH min no_left Hn ltac:(lia)) as (min' & n' & -> & Hn' & Hcase).
    do 2 eexists. split; [done|]. split; [lia|].
    destruct Hcase as [?|(Hmin & Hle & Hall)]; [by left|right]. split_and!; [|done|].
    + destruct Hmin as [?|(s' & ? & ? & ?)]; [by left|right].
      exists s'. split_and!; [by right|done|done].
    + intros s' [->|Hs']%elem_of_cons Ho; [lia|]. by apply Hall.
Qed.
(** The records of a class are among all. *)
Lemma above_mul_le sets m c :
  Forall (λ s, 0 ≤ bs_count s) sets → 0 ≤ c →
  (∀ s, s ∈ sets → m < bs_count s → c ≤ bs_count s) →
  above sets m * c ≤ total_count sets.
Proof.
  intros HF Hc. induction HF as [|s sets Hs HF IH]; intros Hall; [done|].
  rewrite above_cons. cbn [total_count foldr]. fold (total_count sets).
  specialize (IH (λ s' Hs', Hall s' ltac:(by right))). specialize (Hall s ltac:(left)).
  destruct (decide (m < bs_count s)); lia.
Qed.
Lemma above_le sets m :
  Forall (λ s, 0 ≤ bs_count s) sets → 0 ≤ m → above sets m ≤ total_count sets.
Proof.
  intros HF Hm. pose proof (above_mul_le sets m 1 HF ltac:(lia)) as H.
  rewrite Z.mul_1_r in H. apply H. intros. lia.
Qed.
(** [p] and the skipped turns fit together, or everything is behind. *)
Definition consistent (sets : list BackendSet) (start : Z) (pk : Z * Z) : Prop :=
  0 ≤ pk.2 ∧ 1 ≤ pk.1 ≤ start ∧
  ((pk.2 ≤ max_count sets ∧ pk.1 = 1 + before sets pk.2) ∨
   (max_count sets ≤ pk.2 ∧ before sets (max_count sets) < start)).

Lemma before_max sets k :
  max_count sets ≤ k → before sets k = before sets (max_count sets).
Proof. intros Hk. apply before_all; [apply max_count_ge|done]. Qed.

(** One turn of the skipping loop. *)
Lemma skip_step fuel sets start omin p skipped :
  0 ≤ omin → above sets omin ≤ INT_MAX →
  (above sets omin = 0 ∧
   skip_loop (S fuel) sets start omin p skipped = Ok (p, skipped)) ∨
  ∃ s, s ∈ sets ∧ omin < bs_count s ∧
    (∀ s', s' ∈ sets → omin < bs_count s' → bs_count s ≤ bs_count s') ∧
    0 < above sets omin ∧
    (1 ≤ p ≤ start → start ≤ INT_MAX → 0 ≤ skipped → 1 + skipped + bs_count s ≤ INT_MAX →
     p + above sets omin * bs_count s ≤ INT_MAX →
     skip_loop (S fuel) sets start omin p skipped =
      if start <? p + above sets omin * bs_count s then
        Ok (p + above sets omin * Z.quot (start - p) (above sets omin),
            skipped + Z.quot (start - p) (above sets omin))
      else skip_loop fuel sets start (bs_count s)
             (p + above sets omin * bs_count s) (skipped + bs_count s)).
Proof.
  intros Ho Ha. cbn [skip_loop].
  destruct (min_left_spec sets omin 0 0 ltac:(lia) Ha) as (m & n & -> & Hn & Hcase).
  cbn [mbind outcome_bind].
  rewrite Z.add_0_l in Hn. subst n. pose proof (above_nonneg sets omin).
  destruct (Z.eqb_spec (above sets omin) 0) as [H0|H0]; [by left|right].
  destruct Hcase as [?|([[? _]|(s & Hs & Hos & <-)] & _ & Hall)]; [lia|lia|].
  exists s. split_and!; [done|done|done|lia|]. intros Hp Hst Hsk Hpos Hskip.
  assert (0 ≤ above sets omin * bs_count s) by nia.
  chk_ok.
  destruct (Z.ltb_spec start (p + above sets omin * bs_count s)) as [Hlt|Hge].
  - chk_ok.
    rewrite Z.quot_div_nonneg by lia.
    set (k := (start - p) / above sets omin).
    assert (0 ≤ k) by (apply Z.div_pos; lia).
    assert (k < bs_count s) by (apply Z.div_lt_upper_bound; lia).
    assert (above sets omin * k ≤ start - p) by (apply Z.mul_div_le; lia).
    assert (0 ≤ above sets omin * k) by nia.
    chk_ok.
    by chk_ok.
  - by chk_ok.
Qed.

(** A jump into a class: at most [k] more turns, all within the class. *)
Lemma jump_consistent sets start m c :
  Forall (λ s, 0 ≤ bs_count s) sets → 0 ≤ m → (∀ s, s ∈ sets → m < bs_count s → c ≤ bs_count s) → m < c →
  c ≤ max_count sets →
  0 < above sets m → 1 + before sets m ≤ start →
  start < 1 + before sets m + above sets m * (c - m) →
  let k := Z.quot (start - (1 + before sets m)) (above sets m) in
  consistent sets start (1 + before sets m + above sets m * k, m + k).
Proof.
  intros HF Hm Hc Hmc Hmax Hn Hp Hlt k.
  assert (Hk : k = (start - (1 + before sets m)) / above sets m)
    by (apply Z.quot_div_nonneg; lia).
  assert (0 ≤ k) by (rewrite Hk; apply Z.div_pos; lia).
  assert (k < c - m) by (rewrite Hk; apply Z.div_lt_upper_bound; lia).
  assert (above sets m * k ≤ start - (1 + before sets m))
    by (rewrite Hk; apply Z.mul_div_le; lia).
  pose proof (Z.mul_nonneg_nonneg (above sets m) k).
  split_and!; simpl; [lia|..].
  { pose proof (before_nonneg sets m HF Hm). lia. }
  { lia. }
  left. split; [lia|]. rewrite before_class; [lia|lia|].
  intros s Hs Hms. specialize (Hc s Hs Hms). lia.
Qed.

(** The cases in which skipping is exact. *)
Definition two_classes (sets : list BackendSet) : Prop :=
  ∀ s1 s2 s3, s1 ∈ sets → s2 ∈ sets → s3 ∈ sets →
    0 < bs_count s1 → bs_count s1 < bs_count s2 → bs_count s2 < bs_count s3 → False.
Definition in_first_class (sets : list BackendSet) (start : Z) : Prop :=
  ∀ s, s ∈ sets → 0 < bs_count s → start ≤ above sets 0 * bs_count s.

Lemma max_count_attained sets m :
  0 ≤ m → (∀ s, s ∈ sets → bs_count s ≤ m) → max_count sets ≤ m.
Proof.
  intros Hm. induction sets as [|s sets IH]; intros H; simpl; [done|].
  specialize (H s) as Hs. specialize (IH (λ s' Hs', H s' ltac:(by right))).
  specialize (Hs ltac:(left)). lia.
Qed.

(** Where round robin picks the range it means to, with positions that are
    [int]s. *)
Definition skipping_exact (sets : list BackendSet) (start : Z) : Prop :=
  (in_first_class sets start ∧ total_count sets < INT_MAX) ∨
  (two_classes sets ∧ start + total_count sets ≤ INT_MAX).

Lemma second_class_skip fuel sets start s :
  Forall (λ s, 0 ≤ bs_count s) sets → start + total_count sets ≤ INT_MAX →
  1 ≤ start → s ∈ sets → 0 < bs_count s →
  (∀ s', s' ∈ sets → 0 < bs_count s' → bs_count s ≤ bs_count s') →
  1 + before sets (bs_count s) ≤ start → bs_count s < start → two_classes sets →
  ∃ pk, skip_loop (S (S fuel)) sets start (bs_count s)
          (1 + before sets (bs_count s)) (bs_count s) = Ok pk ∧
        consistent sets start pk.
Proof.
  intros HF Hfit Hstart Hs Hpos Hmin Hp Hms Htwo. set (m := bs_count s) in *.
  pose proof (total_count_nonneg sets HF). pose proof (before_nonneg sets m HF ltac:(lia)).
  pose proof (above_le sets m HF ltac:(lia)).
  destruct (skip_step (S fuel) sets start m (1 + before sets m) m)
    as [[Hz ->]|(s2 & Hs2 & Hm2 & Hmin2 & Hn & Heq)]; [lia|lia|..].
  { eexists. split; [done|]. split_and!; simpl; [lia..|].
    pose proof (max_count_attained sets m ltac:(lia)
      (λ s' Hs', above_zero sets m s' Hz Hs')).
    pose proof (max_count_ge sets s Hs). left. unfold m in *. lia. }
  pose proof (above_mul_le sets m (bs_count s2) HF ltac:(lia) Hmin2).
  pose proof (total_count_ge sets s2 HF Hs2).
  rewrite Heq by lia. clear Heq. set (m2 := bs_count s2) in *.
  assert (Hmax : ∀ s', s' ∈ sets → bs_count s' ≤ m2).
  { intros s' Hs'. destruct (decide (bs_count s' ≤ m2)) as [|Hgt]; [done|].
    exfalso. apply (Htwo s s2 s'); unfold m, m2 in *; (done || lia). }
  pose proof (max_count_attained sets m2 ltac:(lia) Hmax) as Hmc.
  pose proof (max_count_ge sets s2 Hs2) as Hmc2. fold m2 in Hmc2.
  assert (Hall : before sets (max_count sets) = before sets m + above sets m * (m2 - m)).
  { replace (max_count sets) with (m + (m2 - m)) by lia. apply before_class; [lia|].
    intros s' Hs' Hms'. specialize (Hmin2 s' Hs' Hms'). unfold m2 in *. lia. }
  destruct (Z.ltb_spec start (1 + before sets m + above sets m * m2)) as [Hlt|Hge].
  - eexists. split; [done|].
    destruct (decide (start < 1 + before sets m + above sets m * (m2 - m))) as [Hin|Hout].
    + apply (jump_consistent _ _ _ m2); try done; lia.
    + rewrite Z.quot_div_nonneg by lia. set (k := (start - (1 + before sets m)) / above sets m).
      assert (Hk : m2 - m ≤ k) by (apply Z.div_le_lower_bound; lia).
      assert (above sets m * k ≤ start - (1 + before sets m)) by (apply Z.mul_div_le; lia).
      assert (0 ≤ above sets m * k) by nia.
      split_and!; simpl; [lia..|right]. lia.
  - assert (0 ≤ above sets m * m2) by nia.
    destruct (skip_step fuel sets start m2 (1 + before sets m + above sets m * m2) (m + m2))
      as [[Hz ->]|(s3 & Hs3 & Hm3 & _)]; [lia| | |].
    + pose proof (above_le sets m2 HF ltac:(lia)). lia.
    + eexists. split; [done|]. split_and!; simpl; [lia..|]. right. split; [lia|]. nia.
    + specialize (Hmax s3 Hs3). unfold m2 in *. lia.
Qed.

Lemma skip_consistent sets start :
  1 ≤ start ≤ INT_MAX → Forall (λ s, 0 ≤ bs_count s) sets → skipping_exact sets start →
  ∃ pk, skip_loop (S (length sets)) sets start 0 1 0 = Ok pk ∧
        consistent sets start pk.
Proof.
  intros Hstart HF Hcl. pose proof (before_zero sets HF) as Hb0.
  pose proof (total_count_nonneg sets HF).
  assert (Htot : total_count sets < INT_MAX) by (destruct Hcl as [[? ?]|[? ?]]; lia).
  pose proof (above_le sets 0 HF ltac:(lia)).
  destruct (skip_step (length sets) sets start 0 1 0)
    as [[Hz ->]|(s & Hs & Hpos & Hmin & Hn & Heq)]; [lia|lia|..].
  { eexists. split; [done|]. split_and!; simpl; [lia..|left].
    pose proof (max_count_nonneg sets). lia. }
  pose proof (above_mul_le sets 0 (bs_count s) HF ltac:(lia) Hmin).
  pose proof (total_count_ge sets s HF Hs). rewrite Heq by lia. clear Heq.
  pose proof (max_count_ge sets s Hs) as Hmax.
  assert (Hb : before sets (bs_count s) = above sets 0 * bs_count s).
  { pose proof (before_class sets 0 (bs_count s) ltac:(lia)) as Hbc.
    rewrite Z.add_0_l, Hb0 in Hbc. rewrite Hbc; [lia|]. intros s' Hs' ?. by apply Hmin. }
  destruct (Z.ltb_spec start (1 + above sets 0 * bs_count s)) as [Hlt|Hge].
  - eexists. split; [done|].
    pose proof (jump_consistent sets start 0 (bs_count s) HF ltac:(lia) Hmin Hpos Hmax Hn)
      as Hj. rewrite Hb0 in Hj. apply Hj; lia.
  - destruct Hcl as [[Hfirst _]|[Htwo Hfit]]; [specialize (Hfirst s Hs Hpos); lia|].
    assert (Hsl : bs_count s < start) by nia.
    assert (Hfuel : ∃ f, skip_loop (length sets) = skip_loop (S f) ∧
      (above sets (bs_count s) = 0 ∨ ∃ f', f = S f')).
    { destruct sets as [|a [|b sets]]; [by apply elem_of_nil in Hs|..].
      - apply list_elem_of_singleton in Hs as ->. exists 0%nat. split; [done|left].
        rewrite above_cons. rewrite decide_False by lia. done.
      - exists (S (length sets)). split; [done|right]. eauto. }
    rewrite <-Hb. rewrite Z.add_0_l. destruct Hfuel as (f & -> & [Hz|[f' ->]]).
    + destruct (skip_step f sets start (bs_count s) (1 + before sets (bs_count s))
        (bs_count s)) as [[_ ->]|(s2 & _ & _ & _ & ? & _)]; [lia|lia| |lia].
      eexists. split; [done|]. split_and!; simpl; [lia..|]. left. lia.
    + apply second_class_skip; try done; lia.
Qed.

Lemma concatenated_length sets :
  Forall (λ s, 0 ≤ bs_count s) sets → Z.of_nat (length (concatenated sets)) = total_count sets.
Proof.
  unfold concatenated. induction 1 as [|s sets Hs HF IH]; [done|].
  change ((s :: sets) ≫= jobs_of) with (jobs_of s ++ (sets ≫= jobs_of)).
  rewrite length_app, jobs_of_length. simpl. lia.
Qed.
Lemma interleaved_length sets :
  Forall (λ s, 0 ≤ bs_count s) sets → Z.of_nat (length (interleaved sets)) = total_count sets.
Proof.
  intros HF. unfold interleaved. rewrite turns_length by done.
  pose proof (max_count_nonneg sets). rewrite Z2Nat.id by done.
  assert (H1 : ∀ k, (∀ s, s ∈ sets → bs_count s ≤ k) → before sets k = total_count sets).
  { clear. intros k. induction sets as [|s sets IH]; intros Hk; [done|]. simpl.
    rewrite IH by (intros; apply Hk; by right). specialize (Hk s ltac:(left)). lia. }
  apply H1. apply max_count_ge.
Qed.
(** A range that starts with the first record is always in the first class. *)
Lemma first_class_1 sets : in_first_class sets 1.
Proof.
  intros s Hs Hpos. assert (1 ≤ above sets 0); [|nia].
  unfold above. assert (Hin : s ∈ filter (λ s, 0 < bs_count s) sets)
    by (by apply list_elem_of_filter).
  destruct (filter _ sets); [by apply elem_of_nil in Hin|]. simpl. lia.
Qed.
Lemma turns_from_length sets k :
  Forall (λ s, 0 ≤ bs_count s) sets → 0 ≤ k ≤ max_count sets →
  before sets k + Z.of_nat (length (turns_from sets (S (Z.to_nat k)))) = total_count sets.
Proof.
  intros HF Hk. rewrite <-(interleaved_length sets HF). unfold interleaved, turns_from.
  pose proof (turns_length sets (Z.to_nat k) HF) as Hbk. rewrite Z2Nat.id in Hbk by lia.
  replace (Z.to_nat (max_count sets)) with
    (Z.to_nat k + (S (Z.to_nat (max_count sets)) - S (Z.to_nat k)))%nat at 2 by lia.
  rewrite seq_app, bind_app, length_app. cbn [Nat.add]. change (1 + Z.to_nat k)%nat with (S (Z.to_nat k)). lia.
Qed.
Lemma round_robin_range sets start number :
  Forall (λ s, 0 ≤ bs_count s) sets → 1 ≤ start ≤ INT_MAX → number ≤ INT_MAX →
  skipping_exact sets start →
  round_robin sets start number = Ok (range start number (interleaved sets)).
Proof.
  intros Hcounts Hstart Hnumber Hclasses.
  assert (Htot : total_count sets < INT_MAX) by (destruct Hclasses as [[? ?]|[? ?]]; lia).
  destruct (skip_consistent sets start Hstart Hcounts Hclasses) as ([p k] & Hskip & Hk & Hp & Hc).
  simpl in Hk, Hp, Hc. unfold round_robin. rewrite Hskip. cbn [mbind outcome_bind].
  pose proof (max_count_nonneg sets) as Hmax.
  assert (Hfst : fst <$> ((λ s, (s, 1 + k)) <$> sets) = sets).
  { rewrite <-list_fmap_compose. unfold compose. simpl. apply list_fmap_id. }
  assert (Hempty : max_count sets ≤ k → turns_from sets (S (Z.to_nat k)) = [])
    by (intros; apply turns_from_nil, turn_empty; lia).
  rewrite (rr_loop_spec _ _ _ _ (S (Z.to_nat k))); rewrite ?Hfst; try lia.
  2: { apply Forall_fmap, Forall_true. intros s. right. simpl. lia. }
  2: { apply Forall_forall. intros s Hs. pose proof (total_count_ge sets s Hcounts Hs). lia. }
  2: { destruct Hc as [[Hkm ->]|[Hkm _]]; [|rewrite Hempty by done; simpl; lia].
    pose proof (turns_from_length sets k Hcounts). lia. }
  f_equal. rewrite collect_spec. unfold range. rewrite Z.sub_0_r. f_equal.
  destruct Hc as [[Hkm ->]|[Hkm Hlt]].
  - pose proof (turns_length sets (Z.to_nat k) Hcounts) as Hbk.
    rewrite Z2Nat.id in Hbk by lia. unfold interleaved, turns_from.
    replace (Z.to_nat (max_count sets)) with
      (Z.to_nat k + (S (Z.to_nat (max_count sets)) - S (Z.to_nat k)))%nat at 2 by lia.
    rewrite seq_app, bind_app, drop_app_ge; [|lia]. f_equal. lia.
  - rewrite Hempty, drop_nil by done. symmetry. apply drop_ge.
    assert (Hlen : Z.of_nat (length (interleaved sets)) = before sets (max_count sets)).
    { unfold interleaved. rewrite turns_length by done. f_equal. lia. }
    lia.
Qed.

(** C6. Round robin interleaves: as long as the non-empty result sets have
    at most two different sizes, or the range starts within the first class
    (every non-empty set still has records), the jobs for a range are exactly
    that range of the result sets taken in turns, one record of each backend
    that has one left per turn; both loops end. The positions are [int]s: in
    the first class the merged set must have less than 2147483647 records, and
    with two sizes the start and the number of all records together must not
    exceed that, since the skipping counts the second class twice
    ([round_robin_overflows]). *)
Theorem round_robin_interleaves (sets : list BackendSet) (start number : Z)
    (Hcounts : Forall (λ s, 0 ≤ bs_count s) sets)
    (Hstart : 1 ≤ start ≤ INT_MAX) (Hnumber : number ≤ INT_MAX)
    (Hclasses : skipping_exact sets start) :
  round_robin sets start number = Ok (range start number (interleaved sets)).
Proof. by apply round_robin_range. Qed.
(** With three different sizes the skipping loop counts the second class
    twice: of the merged set of three backends with 2, 5 and 10 records (17
    in all), record 15 is served as record 7 of the third backend where it is
    record 8, and the last record as record 8 of that backend where it is
    record 10. *)
Theorem round_robin_skips_wrongly :
  let sets := [mk_BackendSet 0 2; mk_BackendSet 1 5; mk_BackendSet 2 10] in
  round_robin sets 15 1 = Ok [new_job 2 7] ∧
  range 15 1 (interleaved sets) = [new_job 2 8] ∧
  round_robin sets 17 1 = Ok [new_job 2 8] ∧
  range 17 1 (interleaved sets) = [new_job 2 10].
Proof. vm_compute. done. Qed.
(** Beyond: two targets with 1500000000 records each cannot be presented from
    at all, and of two with 1000000000 and 1100000000, whose numbers together
    are an [int], the second class cannot. *)
Theorem round_robin_overflows :
  round_robin [mk_BackendSet 0 1500000000; mk_BackendSet 1 1500000000] 1 1 = Undef IntOverflow ∧
  round_robin [mk_BackendSet 0 1000000000; mk_BackendSet 1 1100000000] 2000000001 1 =
    Undef IntOverflow.
Proof. vm_compute. done. Qed.

Lemma round_robin_interleaves_witness :
  round_robin [mk_BackendSet 0 2; mk_BackendSet 1 4] 2 4 =
  Ok (range 2 4 (interleaved [mk_BackendSet 0 2; mk_BackendSet 1 4])).
Proof.
  apply round_robin_interleaves; [|vm_compute; split; discriminate|vm_compute; discriminate|].
  - repeat constructor; discriminate.
  - right. split; [|vm_compute; discriminate]. intros s1 s2 s3 H1 H2 H3.
    repeat (apply elem_of_cons in H1 as [->|H1] || apply elem_of_nil in H1 as []);
    repeat (apply elem_of_cons in H2 as [->|H2] || apply elem_of_nil in H2 as []);
    repeat (apply elem_of_cons in H3 as [->|H3] || apply elem_of_nil in H3 as []);
    simpl; lia.
Defined.
(** *** Scan terms *)

Lemma ltb_strict s t : String.ltb s t = true ↔ strict String.le s t.
Proof.
  unfold strict, String.le, String.ltb, String.leb.
  rewrite (String.compare_antisym t s).
  destruct (String.compare s t); simpl; split; try done.
  - intros [_ []]. done.
  - intros _. split; [done|]. tauto.
  - by intros [? _].
Qed.
#[local] Instance ltb_trans : Transitive (λ s t, String.ltb s t = true).
Proof. intros s t u. rewrite !ltb_strict. intros. by etrans. Qed.
Lemma ltb_total s t : String.ltb s t = true ∨ s = t ∨ String.ltb t s = true.
Proof.
  rewrite !ltb_strict. destruct (decide (s = t)) as [|Hne]; [tauto|].
  destruct (total String.le s t) as [H|H].
  - left. split; [done|]. intros H'. apply Hne. by apply (anti_symm String.le).
  - right; right. split; [done|]. intros H'. apply Hne. by apply (anti_symm String.le).
Qed.
Lemma ltb_irrefl s : String.ltb s s = false.
Proof. apply not_true_iff_false. rewrite ltb_strict. by intros [? []]. Qed.

(** What the lists record: the order, and the number counted for a term. *)
Definition sorted_by (first : string → string → bool) (l : list ScanTermInfo) : Prop :=
  StronglySorted (λ a b, first (m_norm_term a) (m_norm_term b) = true) l.
Definition count_of (t : string) (l : list ScanTermInfo) : option Z :=
  m_count <$> (snd <$> find_first (λ x, bool_decide (m_norm_term x = t)) l).

Section insert.
Context (first : string → string → bool).
Context (Htrans : Transitive (λ s t, first s t = true)).
Context (Htotal : ∀ s t, first s t = true ∨ s = t ∨ first t s = true).
Context (Hirrefl : ∀ s, first s s = false).

Lemma insert_term_in my l l' x : insert_term first my l = Ok l' →
  x ∈ m_norm_term <$> l' ↔ x = m_norm_term my ∨ x ∈ m_norm_term <$> l.
Proof.
  revert l'. induction l as [|t l IH]; intros l'; cbn [insert_term].
  { intros [= <-]. cbn. by rewrite list_elem_of_singleton, elem_of_nil; tauto. }
  destruct (first (m_norm_term t) (m_norm_term my)).
  { destruct (insert_term first my l) as [l1|?|?|]; try done. intros [= <-]. cbn.
    rewrite !elem_of_cons, (IH l1) by done. tauto. }
  case_decide as Heq.
  - destruct (chk_int _); try done. intros [= <-]. cbn. rewrite !elem_of_cons, Heq. tauto.
  - intros [= <-]. cbn. by rewrite !elem_of_cons.
Qed.
Lemma insert_term_sorted my l l' : insert_term first my l = Ok l' →
  sorted_by first l → sorted_by first l'.
Proof.
  intros Hi Hs. revert l' Hi. unfold sorted_by in *.
  induction Hs as [|t l Hs IH HF]; intros l'; cbn [insert_term].
  { intros [= <-]. constructor; [constructor|done]. }
  destruct (first (m_norm_term t) (m_norm_term my)) eqn:Hft.
  - destruct (insert_term first my l) as [l1|?|?|] eqn:Hl1; try done. intros [= <-].
    constructor; [by apply IH|]. apply Forall_forall. intros x Hx.
    apply (list_elem_of_fmap_2 m_norm_term) in Hx.
    apply (insert_term_in _ _ _ _ Hl1) in Hx as [->|Hx]; [done|].
    apply list_elem_of_fmap in Hx as (y & -> & Hy).
    by apply (proj1 (Forall_forall _ _) HF).
  - case_decide as Heq.
    { destruct (chk_int _); try done. intros [= <-]. by constructor. }
    intros [= <-]. assert (Hmy : first (m_norm_term my) (m_norm_term t) = true).
    { destruct (Htotal (m_norm_term my) (m_norm_term t)) as [?|[?|?]]; congruence. }
    constructor; [by constructor|]. constructor; [done|].
    eapply Forall_impl; [exact HF|]. intros y Hy. by eapply Htrans.
Qed.
Lemma count_of_cons x t l :
  count_of x (t :: l) = if decide (m_norm_term t = x) then Some (m_count t) else count_of x l.
Proof.
  unfold count_of. simpl. case_bool_decide; case_decide; try done.
  by destruct (find_first _ l) as [[? ?]|].
Qed.
(** A term that comes before the first of a sorted list is not in it. *)
Lemma count_of_none x t l : sorted_by first (t :: l) → first x (m_norm_term t) = true →
  count_of x (t :: l) = None.
Proof.
  intros Hs Hx. unfold count_of. destruct (find_first _ (t :: l)) as [[i y]|] eqn:Ef; [|done].
  apply find_first_Some in Ef as (Hy & Hey%bool_decide_eq_true & _).
  apply list_elem_of_lookup_2 in Hy. apply elem_of_cons in Hy as [->|Hy].
  { rewrite Hey, Hirrefl in Hx. done. }
  apply StronglySorted_inv in Hs as [_ HF]. apply (proj1 (Forall_forall _ _) HF) in Hy.
  rewrite Hey in Hy. pose proof (Htrans _ _ _ Hx Hy) as H1. cbn in H1. by rewrite Hirrefl in H1.
Qed.
Lemma insert_term_count my l l' x : insert_term first my l = Ok l' →
  sorted_by first l →
  count_of x l' =
  if decide (m_norm_term my = x) then Some (default 0 (count_of x l) + m_count my)
  else count_of x l.
Proof.
  intros Hi Hs. revert l' Hi. induction Hs as [|t l Hs IH HF]; intros l'; cbn [insert_term].
  { intros [= <-]. rewrite count_of_cons. done. }
  destruct (first (m_norm_term t) (m_norm_term my)) eqn:Hft.
  - destruct (insert_term first my l) as [l1|?|?|] eqn:Hl1; try done. intros [= <-].
    rewrite !count_of_cons, (IH l1) by done. destruct (decide (m_norm_term t = x)) as [<-|Htx]; [|done].
    rewrite decide_False; [done|]. intros Heq. rewrite Heq, Hirrefl in Hft. done.
  - destruct (decide (m_norm_term my = m_norm_term t)) as [Heq|Hmt].
    + destruct (chk_int_cases (m_count t + m_count my)) as [[_ ->]|[_ ->]]; [|done].
      intros [= <-]. rewrite !count_of_cons. cbn. repeat case_decide; done || congruence.
    + intros [= <-]. rewrite (count_of_cons x my).
      destruct (decide (m_norm_term my = x)) as [Hmx|Hmx]; [|done]. subst x.
      rewrite count_of_none; [done|by constructor|].
      destruct (Htotal (m_norm_term my) (m_norm_term t)) as [?|[?|?]]; congruence.
Qed.

(** All counts given for a term, added up. *)
Definition total_of (x : string) (ts : list ScanTermInfo) : Z :=
  foldr (λ t n, (if decide (m_norm_term t = x) then m_count t else 0) + n) 0 ts.

(** What merging gives, if no count leaves the range of [int]. *)
Lemma merge_terms_spec ents l l' :
  merge_terms (insert_term first) ents l = Ok l' → sorted_by first l →
  let ts := omap entry_term ents in
  sorted_by first l' ∧
  (∀ x, x ∈ m_norm_term <$> l' ↔ x ∈ m_norm_term <$> l ∨ x ∈ m_norm_term <$> ts) ∧
  ∀ x, x ∈ m_norm_term <$> l' → count_of x l' = Some (default 0 (count_of x l) + total_of x ts).
Proof.
  assert (Hpresent : ∀ l x, x ∈ m_norm_term <$> l → ∃ c, count_of x l = Some c).
  { clear. induction l as [|t l IH]; intros x Hx; [by apply elem_of_nil in Hx|].
    rewrite count_of_cons. destruct (decide (m_norm_term t = x)); [eauto|].
    apply elem_of_cons in Hx as [->|Hx]; [done|auto]. }
  revert l. induction ents as [|ent ents IH]; intros l; cbn [merge_terms].
  { intros [= <-] Hs. split_and!; [done| |].
    - intros x. cbn. rewrite elem_of_nil. tauto.
    - intros x Hx. destruct (Hpresent l x Hx) as (c & ->). cbn. f_equal. lia. }
  cbn [omap list_omap]. destruct (entry_term ent) as [my|]; [|intros H; by apply IH].
  destruct (insert_term first my l) as [l1|?|?|] eqn:Hi; try done. cbn [mbind outcome_bind].
  intros Hm Hs. destruct (IH l1 Hm) as (H1 & H2 & H3); [by eapply insert_term_sorted|].
  split_and!; [done| |].
  - intros x. rewrite H2, (insert_term_in _ _ _ _ Hi). cbn. rewrite elem_of_cons. tauto.
  - intros x Hx. rewrite (H3 x Hx), (insert_term_count _ _ _ _ Hi Hs).
    cbn [total_of foldr]. fold (total_of x (omap entry_term ents)).
    destruct (decide (m_norm_term my = x)); cbn; f_equal; lia.
Qed.
End insert.

Lemma total_of_app x ts us : total_of x (ts ++ us) = total_of x ts + total_of x us.
Proof. induction ts; simpl; lia. Qed.
(** The only way to fail. *)
Lemma insert_term_fails first my l : match insert_term first my l with
  | Ok _ => True | Undef k => k = IntOverflow | _ => False end.
Proof.
  induction l as [|t l IH]; cbn [insert_term]; [done|]. destruct (first _ _).
  { by destruct (insert_term first my l). }
  case_decide; [|done]. by destruct (chk_int_cases (m_count t + m_count my)) as [[_ ->]|[_ ->]].
Qed.
Lemma merge_terms_fails first ents l : match merge_terms (insert_term first) ents l with
  | Ok _ => True | Undef k => k = IntOverflow | _ => False end.
Proof.
  revert l. induction ents as [|ent ents IH]; intros l; cbn [merge_terms]; [done|].
  destruct (entry_term ent) as [my|]; cbn [mbind outcome_bind]; [|apply IH].
  pose proof (insert_term_fails first my l) as H.
  destruct (insert_term first my l); cbn; [apply IH|done..].
Qed.
Lemma ltb_rev_trans : Transitive (λ s t, String.ltb t s = true).
Proof. intros s t u Hst Htu. exact (ltb_trans _ _ _ Htu Hst). Qed.
Lemma ltb_rev_total s t : String.ltb t s = true ∨ s = t ∨ String.ltb s t = true.
Proof. destruct (ltb_total s t) as [?|[?|?]]; auto. Qed.

(** Scan terms are merged like the backends' own lists: merging the entries of
    answers one after the other gives each term once, in ascending order after
    the start position and in descending order before it, exactly the (string)
    terms that occurred, each with the sum of all its counts. It fails only
    when such a sum leaves the range of [int]. *)
Theorem scan_terms_merged (ents : list Entry) :
  let all := omap entry_term ents in
  let merged first (r : outcome (list ScanTermInfo)) :=
    match r with
    | Ok l =>
        sorted_by first l ∧ (∀ x, x ∈ m_norm_term <$> all ↔ x ∈ m_norm_term <$> l) ∧
        ∀ x, x ∈ m_norm_term <$> all → count_of x l = Some (total_of x all)
    | Undef k => k = IntOverflow
    | _ => False
    end in
  merged String.ltb (merge_terms insert_after ents []) ∧
  merged (λ s t, String.ltb t s) (merge_terms insert_before ents []).
Proof.
  intros all merged. split.
  - pose proof (merge_terms_fails String.ltb ents []) as Hf. unfold merged, insert_after.
    destruct (merge_terms _ ents []) as [l|?|?|] eqn:Hm; [|done..].
    destruct (merge_terms_spec _ ltb_trans ltb_total ltb_irrefl _ _ _ Hm) as (H1 & H2 & H3);
      [constructor|].
    assert (Hin : ∀ x, x ∈ m_norm_term <$> all ↔ x ∈ m_norm_term <$> l)
      by (intros x; rewrite H2; cbn; rewrite elem_of_nil; tauto).
    split_and!; [done|done|]. intros x Hx. by rewrite H3 by (by apply Hin).
  - pose proof (merge_terms_fails (λ s t, String.ltb t s) ents []) as Hf. unfold merged, insert_before.
    destruct (merge_terms _ ents []) as [l|?|?|] eqn:Hm; [|done..].
    destruct (merge_terms_spec _ ltb_rev_trans ltb_rev_total ltb_irrefl _ _ _ Hm)
      as (H1 & H2 & H3); [constructor|].
    assert (Hin : ∀ x, x ∈ m_norm_term <$> all ↔ x ∈ m_norm_term <$> l)
      by (intros x; rewrite H2; cbn; rewrite elem_of_nil; tauto).
    split_and!; [done|done|]. intros x Hx. by rewrite H3 by (by apply Hin).
Qed.
End MultiMerge.
