(* ===== verification/Multi.v ===== *)
(** * The multi filter

    [src/filter_multi.cpp]: a client session is served by several targets at
    once. Every target has a backend with a session and a package of its own;
    requests go to all of them and the answers are merged. How ranges of a
    merged result set and lists of scan terms are put together is in
    MultiMerge.v; this file has the handlers. *)
From S2P Require Import Prelude Zgdu Yaz Core Xml Util Frontends MultiMerge.

Module Multi.
Import MultiMerge.

(** ** State *)
Inductive multi_merge_type : Set := mt_round_robin | mt_serve_order.
#[global] Instance multi_merge_type_eq_dec : EqDecision multi_merge_type.
Proof. solve_decision. Defined.

(** [Multi::Map]. *)
Record Map : Type := mk_Map {
  m_target_pattern : string;
  m_route : string;
  m_auth : string
}.

Section state.
Context {R : Type}.

(** [Multi::Backend]; the package lives as long as the backend. The pointer
    [BackendPtr] is the place in [m_backend_list], which is fixed once the
    Init response has been made. *)
Record Backend : Type := mk_Backend {
  b_package : Package R;
  b_vhost : string;
  b_route : string;
  b_auth : string
}.
Definition set_package (p : Package R) (b : Backend) : Backend :=
  mk_Backend p (b_vhost b) (b_route b) (b_auth b).

(** [Multi::Frontend]; a [FrontendSet] is its list of [BackendSet]s, by
    name. *)
Record Frontend : Type := mk_Frontend {
  m_is_multi : bool;
  m_backend_list : list Backend;
  m_sets : gmap string (list BackendSet)
}.
Definition Frontend_new : Frontend := mk_Frontend false [] ∅.
Definition set_backends (l : list Backend) (f : Frontend) : Frontend :=
  mk_Frontend (m_is_multi f) l (m_sets f).
Definition set_is_multi (f : Frontend) : Frontend :=
  mk_Frontend true (m_backend_list f) (m_sets f).
Definition add_set (name : string) (s : list BackendSet) (f : Frontend) : Frontend :=
  mk_Frontend (m_is_multi f) (m_backend_list f) (<[name := s]> (m_sets f)).

(** [Multi::Rep]. *)
Record Rep : Type := mk_Rep {
  m_route_patterns : list Map;
  m_clients : Clients Frontend;
  m_hide_unavailable : bool;
  m_hide_errors : bool;
  m_merge_type : multi_merge_type
}.
Definition Rep_new : Rep := mk_Rep [] ∅ false false mt_round_robin.
Definition set_clients (c : Clients Frontend) (r : Rep) : Rep :=
  mk_Rep (m_route_patterns r) c (m_hide_unavailable r) (m_hide_errors r)
    (m_merge_type r).
End state.
Arguments Backend : clear implicits.
Arguments Frontend : clear implicits.
Arguments Rep : clear implicits.

(** ** Configuration *)
Section configure.
Context {R : Type}.
Definition add_pattern (m : Map) (r : Rep R) : Rep R :=
  mk_Rep (m_route_patterns r ++ [m]) (m_clients r) (m_hide_unavailable r)
    (m_hide_errors r) (m_merge_type r).
Fixpoint configure_loop (ptr : list xmlNode) (r : Rep R) : outcome (Rep R) :=
  match ptr with
  | [] => Ok r
  | n :: ptr' =>
      if decide (n_type n ≠ XML_ELEMENT_NODE) then configure_loop ptr' r
      else if decide (n_name n = "target") then
        ra ← mp_xml.get_route_auth [n];
        let target := mp_xml.get_text [n] in
        let target := if decide (target = "") then ra.1 else target in
        configure_loop ptr' (add_pattern (mk_Map target ra.1 ra.2) r)
      else if decide (n_name n = "hideunavailable") then
        configure_loop ptr' (mk_Rep (m_route_patterns r) (m_clients r) true
          (m_hide_errors r) (m_merge_type r))
      else if decide (n_name n = "hideerrors") then
        configure_loop ptr' (mk_Rep (m_route_patterns r) (m_clients r)
          (m_hide_unavailable r) true (m_merge_type r))
      else if decide (n_name n = "mergetype") then
        let mergetype := mp_xml.get_text [n] in
        let set t := mk_Rep (m_route_patterns r) (m_clients r)
                       (m_hide_unavailable r) (m_hide_errors r) t in
        if decide (mergetype = "roundrobin") then configure_loop ptr' (set mt_round_robin)
        else if decide (mergetype = "serveorder") then
          configure_loop ptr' (set mt_serve_order)
        else Throw ("Bad mergetype " +:+ mergetype +:+ " in multi filter")
      else Throw ("Bad element " +:+ n_name n +:+ " in multi filter")
  end.
Definition configure (ptr : xmlNode) (r : Rep R) : outcome (Rep R) :=
  configure_loop (n_children ptr) r.
End configure.

(** ** Diagnostics of several answers *)

(** [record_diagnostics]: the diagnostics so far (null if there are none) and
    the number of answers without. *)
Definition record_diagnostics (records : option Records)
    (z_diag : option (list DiagRec)) (no_successful : Z) :
    option (list DiagRec) * Z :=
  match records with
  | Some (Records_NSD d) =>
      (Some (default [] z_diag ++ [DiagRec_defaultFormat d]), no_successful)
  | Some (Records_multipleNSD dr) => (Some (default [] z_diag ++ dr), no_successful)
  | _ => (z_diag, no_successful + 1)
  end.
(** The records of the answer; a lone diagnostic is taken for one in the
    default format. *)
Definition diagnostic_records (z_diag : list DiagRec) : outcome Records :=
  if 1 <? Z.of_nat (length z_diag) then Ok (Records_multipleNSD z_diag)
  else match z_diag with
       | DiagRec_defaultFormat d :: _ => Ok (Records_NSD d)
       | DiagRec_externallyDefined :: _ => Undef BadUnion
       | [] => Undef OutOfBounds
       end.

(** ** Init: one answer for all *)

(** What the loop over the Init responses accumulates. *)
Record InitAcc : Type := mk_InitAcc {
  ia_options : Z;
  ia_protocolVersion : Z;
  ia_preferredMessageSize : Z;
  ia_maximumRecordSize : Z;
  ia_userInformationField : option External;
  ia_failed : Z;
  ia_succeeded : Z
}.
(** Clear, up to bit [n], what the other mask does not have. *)
Definition common_mask (n : nat) (mask given : Z) : Z :=
  foldl (λ m i, if MASK_GET mask (Z.of_nat i) then m else MASK_CLEAR m (Z.of_nat i))
    given (seq 0 n).
Definition no_failed_1 (a : InitAcc) : InitAcc :=
  mk_InitAcc (ia_options a) (ia_protocolVersion a) (ia_preferredMessageSize a)
    (ia_maximumRecordSize a) (ia_userInformationField a) (ia_failed a + 1)
    (ia_succeeded a).
Definition merge_init_response (b_resp : InitResponse) (a : InitAcc) : InitAcc :=
  let options := common_mask 22 (ir_options b_resp) (ia_options a) in
  let versions := common_mask 3 (ir_protocolVersion b_resp) (ia_protocolVersion a) in
  if ir_result b_resp then
    mk_InitAcc options versions
      (Z.min (ia_preferredMessageSize a) (ir_preferredMessageSize b_resp))
      (Z.min (ia_maximumRecordSize a) (ir_maximumRecordSize b_resp))
      (ia_userInformationField a) (ia_failed a) (ia_succeeded a + 1)
  else
    mk_InitAcc options versions (ia_preferredMessageSize a) (ia_maximumRecordSize a)
      (match ia_userInformationField a with
       | Some e => Some e | None => ir_userInformationField b_resp end)
      (ia_failed a + 1) (ia_succeeded a).
(** Backends whose session is closed are dropped. *)
Fixpoint merge_inits {R} (l : list (Backend R)) (a : InitAcc) :
    list (Backend R) * InitAcc :=
  match l with
  | [] => ([], a)
  | b :: l' =>
      if is_closed (b_package b) then merge_inits l' (no_failed_1 a)
      else
        let a' := match z3950 (p_response (b_package b)) with
                  | Some (initResponse b_resp) => merge_init_response b_resp a
                  | _ => no_failed_1 a
                  end in
        let r := merge_inits l' a' in (b :: r.1, r.2)
  end.

(** ** Scan: filling the array of entries *)
Definition write_entry (arr : list (option Entry)) (i : Z) (e : Entry) :
    outcome (list (option Entry)) :=
  if (0 <=? i) && (i <? Z.of_nat (length arr)) then Ok (<[Z.to_nat i := Some e]> arr)
  else Undef OutOfBounds.
Fixpoint fill_before (l : list ScanTermInfo) (i position_returned : Z)
    (arr : list (option Entry)) : outcome (list (option Entry)) :=
  match l with
  | [] => Ok arr
  | it :: l' =>
      if i <? position_returned - 1 then
        arr ← write_entry arr (position_returned - 2 - i) (get_entry it);
        fill_before l' (i + 1) position_returned arr
      else Ok arr
  end.
Fixpoint fill_after (l : list ScanTermInfo) (i number_returned : Z)
    (arr : list (option Entry)) : outcome (Z * list (option Entry)) :=
  match l with
  | [] => Ok (i, arr)
  | it :: l' =>
      if i <? number_returned then
        arr ← write_entry arr i (get_entry it);
        fill_after l' (i + 1) number_returned arr
      else Ok (i, arr)
  end.
Definition read_entries (n : Z) (arr : list (option Entry)) : outcome (list Entry) :=
  match mapM id (take (Z.to_nat n) arr) with
  | Some l => Ok l
  | None => Undef Uninitialised
  end.
(** The entries, their number and the position of the term, from the terms
    before (nearest first) and after, for a request for [number] entries with
    the term at [position]. The allocation does not succeed for a negative
    number. *)
Definition scan_entries (entries_before entries_after : list ScanTermInfo)
    (number position : Z) : outcome (list Entry * Z * Z) :=
  if number <? 0 then Undef OutOfBounds
  else
    last ← chk_int (position - 1);
    let lbefore := Z.of_nat (length entries_before) in
    let position_returned := if lbefore <? last then lbefore + 1 else position in
    arr ← fill_before entries_before 0 position_returned
            (replicate (Z.to_nat number) None);
    ra ← fill_after entries_after
           (if position_returned <=? 0 then 0 else position_returned - 1) number arr;
    l ← read_entries ra.1 ra.2;
    Ok (l, ra.1, position_returned).
(** The terms of one answer with the term at [position]. *)
Definition scan_collect (ents : list Entry) (position : Z)
    (acc : list ScanTermInfo * list ScanTermInfo) :
    outcome (list ScanTermInfo * list ScanTermInfo) :=
  last ← chk_int (position - 1);
  before_ ← merge_terms insert_before (take (Z.to_nat last) ents) acc.1;
  after ← merge_terms insert_after
    (drop (Z.to_nat (if position <=? 0 then 0 else last)) ents) acc.2;
  Ok (before_, after).

Section filter.
Context `{Y : Yaz} {R E : Type}.
Definition World : Type := Rep R * Global E.
Context (next : string → Package R → M World (Package R)).
(** [multi_move] starts one thread for each backend and waits for all; the
    packages are distinct, and the rest of the chain is run in some order. *)
Context (schedule : World → list nat → list nat).

(** Handlers of a frontend. *)
Notation H := (M (Frontend R * World)).
Definition move (route : string) (p : Package R) : H (Package R) :=
  on_world (next route p).
Definition new_session_ : H Session.t := on_world new_session.

Definition get_backend (i : nat) : H (Backend R) :=
  f ← get_fr;
  deref (m_backend_list f !! i).
Definition put_package (i : nat) (p : Package R) : H unit :=
  modify_fr (λ f, set_backends (alter (set_package p) i (m_backend_list f)) f).

(** [Backend::operator()]. *)
Definition run_backend (i : nat) : H unit :=
  b ← get_backend i;
  p ← move (b_route b) (b_package b);
  put_package i p.
Fixpoint run_backends (l : list nat) : H unit :=
  match l with
  | [] => mret tt
  | i :: l' => run_backend i ;; run_backends l'
  end.
Definition multi_move (blist : list nat) : H unit :=
  w ← get;
  run_backends (schedule w.2 blist).
(** All of [m_backend_list]. *)
Definition all_backends : H (list nat) :=
  f ← get_fr;
  mret (seq 0 (length (m_backend_list f))).
Definition multi_move_all : H unit :=
  l ← all_backends;
  multi_move l.

(** Set the request of backend [i], and make its package continue where the
    client's package is. *)
Definition send_to (i : nat) (apdu : APDU) (package : Package R) : H unit :=
  b ← get_backend i;
  p ← copy_filter package (set_request (Some (GDU_Z3950 apdu)) (b_package b));
  put_package i p.

(** [Frontend::close]. *)
Fixpoint close_loop (l : list (Backend R)) (package : Package R) : M World unit :=
  match l with
  | [] => mret tt
  | b :: l' =>
      p ← copy_filter package (b_package b);
      next (b_route b) (close_session (set_request None p)) ;;
      close_loop l' package
  end.
Definition close_frontend (f : Frontend R) (package : Package R) : M World unit :=
  close_loop (m_backend_list f) package.

(** ** Init *)
Definition find_pattern (patterns : list Map) (target : string) : string * string :=
  match find_first (λ m, yaz_match_glob (m_target_pattern m) target) patterns with
  | Some (_, m) => (m_route m, m_auth m)
  | None => ("", "")
  end.
Fixpoint create_backends (targets : list string) (package : Package R) : H unit :=
  match targets with
  | [] => mret tt
  | t :: ts =>
      s ← new_session_;
      w ← get;
      let ra := find_pattern (m_route_patterns w.2.1) t in
      let b := mk_Backend (new_Package s (p_origin package)) t ra.1 ra.2 in
      modify_fr (λ f, set_backends (m_backend_list f ++ [b]) f) ;;
      create_backends ts package
  end.
Definition backend_init_request (req : InitRequest) (b : Backend R) : InitRequest :=
  let breq := zget_initRequest in
  let oi := set_vhost_otherinfo (iq_otherInfo breq) [b_vhost b] in
  let oi := match (yaz_oi_get_string (iq_otherInfo req)
                     oid_userinfo_client_ip 1 false).1 with
            | Some peer_name => yaz_oi_set_string oi oid_userinfo_client_ip 1 peer_name
            | None => oi
            end in
  {| iq_referenceId := iq_referenceId breq;
     iq_protocolVersion := foldl MASK_SET (iq_protocolVersion breq)
       [ProtocolVersion_1; ProtocolVersion_2; ProtocolVersion_3];
     iq_options := foldl MASK_SET (iq_options breq)
       [Options_search; Options_present; Options_namedResultSets; Options_scan];
     iq_preferredMessageSize := iq_preferredMessageSize req;
     iq_maximumRecordSize := iq_maximumRecordSize req;
     iq_idAuthentication :=
       if decide (b_auth b = "") then iq_idAuthentication req
       else Some (IdAuthentication_open (b_auth b));
     iq_implementationId := iq_implementationId breq;
     iq_implementationName := iq_implementationName breq;
     iq_implementationVersion := iq_implementationVersion breq;
     iq_otherInfo := oi |}.
Fixpoint send_inits (l : list nat) (req : InitRequest) (package : Package R) : H unit :=
  match l with
  | [] => mret tt
  | i :: l' =>
      b ← get_backend i;
      send_to i (initRequest (backend_init_request req b)) package ;;
      send_inits l' req package
  end.
(** The response with everything that multi supports, before merging. *)
Definition init_acc (req : InitRequest) (f_resp : InitResponse) : InitAcc :=
  mk_InitAcc
    (foldl MASK_SET (ir_options f_resp)
       [Options_search; Options_present; Options_namedResultSets; Options_scan])
    (foldl MASK_SET (ir_protocolVersion f_resp)
       [ProtocolVersion_1; ProtocolVersion_2; ProtocolVersion_3])
    (iq_preferredMessageSize req) (iq_maximumRecordSize req)
    (ir_userInformationField f_resp) 0 0.
(** Does the session fail? *)
Definition init_fails (hide_unavailable : bool) (a : InitAcc) : bool :=
  if hide_unavailable then ia_succeeded a =? 0 else negb (ia_failed a =? 0).
Definition init_response (hide_unavailable : bool) (f_resp : InitResponse)
    (a : InitAcc) : InitResponse :=
  {| ir_referenceId := ir_referenceId f_resp;
     ir_protocolVersion := ia_protocolVersion a;
     ir_options := ia_options a;
     ir_preferredMessageSize := ia_preferredMessageSize a;
     ir_maximumRecordSize := ia_maximumRecordSize a;
     ir_result := if init_fails hide_unavailable a then false else ir_result f_resp;
     ir_implementationId := ir_implementationId f_resp;
     ir_implementationName := ir_implementationName f_resp;
     ir_implementationVersion := ir_implementationVersion f_resp;
     ir_userInformationField := ia_userInformationField a;
     ir_otherInfo := ir_otherInfo f_resp |}.
Definition init (fuel : nat) (package : Package R) (req : InitRequest) : H (Package R) :=
  targets ← lift_outcome (get_vhost_otherinfo fuel (iq_otherInfo req) []);
  match targets with
  | [] => move "" package
  | _ =>
      create_backends targets package ;;
      modify_fr set_is_multi ;;
      l ← all_backends;
      send_inits l req package ;;
      multi_move_all ;;
      let f_resp := create_initResponse (Some (initRequest req)) 0 None in
      f ← get_fr;
      let r := merge_inits (m_backend_list f) (init_acc req f_resp) in
      modify_fr (set_backends r.1) ;;
      w ← get;
      let hide := m_hide_unavailable w.2.1 in
      mret (set_response
              (Some (GDU_Z3950 (initResponse (init_response hide f_resp r.2))))
              (if init_fails hide r.2 then close_session package else package))
  end.

(** ** Present *)

(** The first and the last record wanted of backend [b]. *)
Definition job_bounds (jobs : list PresentJob) (b : nat) : Z * Z :=
  foldl (λ se j,
    if decide (j_backend j = b) then
      (if (se.1 =? -1) || (j_pos j <? se.1) then j_pos j else se.1,
       if (se.2 =? -1) || (se.2 <? j_pos j) then j_pos j else se.2)
    else se) (-1, -1) jobs.
Definition set_start (b : nat) (start end_ : Z) (j : PresentJob) : PresentJob :=
  if decide (j_backend j = b) then
    if (start <=? j_pos j) && (j_pos j <=? end_)
    then mk_PresentJob (j_backend j) (j_pos j) start else j
  else j.
(** Requests for the backends that have a record in the range: the request
    (changed in place), the jobs and the backends to present from. *)
Fixpoint send_presents (sets : list BackendSet) (package : Package R)
    (req : PresentRequest) (jobs : list PresentJob) (blist : list nat) :
    H (PresentRequest * list PresentJob * list nat) :=
  match sets with
  | [] => mret (req, jobs, blist)
  | s :: sets' =>
      let b := bs_backend s in
      let se := job_bounds jobs b in
      if se.1 =? -1 then send_presents sets' package req jobs blist
      else
        let jobs := set_start b se.1 se.2 <$> jobs in
        let req := set_pq_numberOfRecordsRequested (int32 (se.2 - se.1 + 1))
                     (set_pq_resultSetStartPoint se.1 req) in
        send_to b (presentRequest req) package ;;
        send_presents sets' package req jobs (blist ++ [b])
  end.

(** What the answers amount to: diagnostics, the number of answers without,
    and the package of the last backend that has closed. *)
Record Answers : Type := mk_Answers {
  z_diag : option (list DiagRec);
  no_successful : Z;
  close_p : option (Package R)
}.
Definition no_answers : Answers := mk_Answers None 0 None.
Definition note_closed (b : Backend R) (a : Answers) : Answers :=
  if is_closed (b_package b) then
    mk_Answers (z_diag a) (no_successful a) (Some (b_package b)) else a.
Definition note_records (records : option Records) (a : Answers) : Answers :=
  let r := record_diagnostics records (z_diag a) (no_successful a) in
  mk_Answers r.1 r.2 (close_p a).
Definition collect_present (b : Backend R) (a : Answers) : Answers :=
  match z3950 (p_response (b_package b)) with
  | Some (presentResponse b_resp) => note_records (pr_records b_resp) (note_closed b a)
  | _ => note_closed b a
  end.
Fixpoint collect_presents (l : list nat) (a : Answers) : H Answers :=
  match l with
  | [] => mret a
  | i :: l' => b ← get_backend i; collect_presents l' (collect_present b a)
  end.

(** The record for a job, if the backend returned it. *)
Definition job_record (b : Backend R) (j : PresentJob) : outcome (option NamePlusRecord) :=
  match p_response (b_package b) with
  | None => Undef NullDeref
  | Some (GDU_Z3950 (presentResponse r)) =>
      let inside_pos := j_pos j - j_start j in
      match pr_records r with
      | Some (Records_DBOSD l) =>
          if inside_pos <? Z.of_nat (length l) then
            if inside_pos <? 0 then Undef OutOfBounds
            else match l !! Z.to_nat inside_pos with
                 | Some npr => Ok (Some {| databaseName := Some (b_vhost b);
                                           npr_record := npr_record npr |})
                 | None => Undef OutOfBounds
                 end
          else Ok None
      | _ => Ok None
      end
  | Some _ => Undef BadUnion
  end.
Fixpoint job_records (jobs : list PresentJob) : H (list NamePlusRecord) :=
  match jobs with
  | [] => mret []
  | j :: jobs' =>
      b ← get_backend (j_backend j);
      o ← lift_outcome (job_record b j);
      rest ← job_records jobs';
      mret (match o with Some npr => npr :: rest | None => rest end)
  end.

Definition merge_jobs (t : multi_merge_type) (sets : list BackendSet)
    (start number : Z) : outcome (list PresentJob) :=
  match t with
  | mt_round_robin => round_robin sets start number
  | mt_serve_order => serve_order sets start number
  end.

(** The answer to the client when no backend's closing is passed on. *)
Definition present_answer (hide_errors : bool) (a : Answers) (start number : Z)
    (jobs : list PresentJob) (req : PresentRequest) : H PresentResponse :=
  let f_resp := create_presentResponse (Some (presentRequest req)) 0 None in
  let merged :=
    if (number <? 0) || (Z.of_nat (length jobs) <? number) then
      mret (create_presentResponse (Some (presentRequest req))
              BIB1_PRESENT_REQUEST_OUT_OF_RANGE None)
    else
      l ← job_records jobs;
      let i := Z.of_nat (length l) in
      next_ ← lift_outcome (chk_int (start + i));
      mret (set_pr_numberOfRecordsReturned i
              (set_pr_nextResultSetPosition next_
                 (set_pr_records (Some (Records_DBOSD l)) f_resp))) in
  match z_diag a with
  | Some d =>
      if (no_successful a =? 0) || negb hide_errors then
        r ← lift_outcome (diagnostic_records d);
        mret (set_pr_records (Some r) f_resp)
      else merged
  | None => merged
  end.
(** The client's package with the answer, and the request as it has been
    changed. *)
Definition present (package : Package R) (req : PresentRequest) :
    H (Package R * PresentRequest) :=
  let answer (r : PresentResponse) (req : PresentRequest) :=
    mret (set_response (Some (GDU_Z3950 (presentResponse r))) package, req) in
  f ← get_fr;
  match m_sets f !! pq_resultSetId req with
  | None =>
      answer (create_presentResponse (Some (presentRequest req))
                BIB1_SPECIFIED_RESULT_SET_DOES_NOT_EXIST (Some (pq_resultSetId req))) req
  | Some sets =>
      let start := int32 (pq_resultSetStartPoint req) in
      let number := int32 (pq_numberOfRecordsRequested req) in
      w ← get;
      jobs ← lift_outcome (merge_jobs (m_merge_type w.2.1) sets start number);
      sent ← send_presents sets package req jobs [];
      let '(req, jobs, present_backend_list) := sent in
      multi_move present_backend_list ;;
      a ← collect_presents present_backend_list no_answers;
      w ← get;
      let hide := m_hide_errors w.2.1 in
      match (if (no_successful a =? 0) || negb hide then close_p a else None) with
      | Some p => mret (set_response (p_response p) (close_session package), req)
      | None => r ← present_answer hide a start number jobs req; answer r req
      end
  end.

(** ** Search *)

(** The databases of a vhost, or the ones of the request. *)
Definition vhost_databases (vhost : string) (databases : list string) :
    outcome (list string) :=
  dbs ← set_databases_from_zurl vhost;
  Ok (default databases dbs).
(** Without piggyback. *)
Definition backend_search_request (req : SearchRequest) (databases : list string) :
    SearchRequest :=
  set_sq_databaseNames databases
    (set_sq_mediumSetPresentNumber 0
       (set_sq_largeSetLowerBound 1 (set_sq_smallSetUpperBound 0 req))).
Fixpoint send_searches (l : list nat) (req : SearchRequest) (package : Package R) :
    H unit :=
  match l with
  | [] => mret tt
  | i :: l' =>
      b ← get_backend i;
      dbs ← lift_outcome (vhost_databases (b_vhost b) (sq_databaseNames req));
      send_to i (searchRequest (backend_search_request req dbs)) package ;;
      send_searches l' req package
  end.

(** The answers of all backends, the sum of the counts and the merged set. *)
Fixpoint collect_searches (i : nat) (l : list (Backend R)) (a : Answers) :
    Answers * Z * list BackendSet :=
  match l with
  | [] => (a, 0, [])
  | b :: l' =>
      let a := note_closed b a in
      match z3950 (p_response (b_package b)) with
      | Some (searchResponse b_resp) =>
          let r := collect_searches (S i) l' (note_records (sr_records b_resp) a) in
          (r.1.1, sr_resultCount b_resp + r.1.2,
           mk_BackendSet i (int32 (sr_resultCount b_resp)) :: r.2)
      | _ => collect_searches (S i) l' a
      end
  end.

(** The piggybacked Present: [number] records of the new set. *)
Definition piggyback_present (package : Package R) (req : SearchRequest)
    (number : Z) (f_resp : SearchResponse) : H (Package R) :=
  pp ← copy_filter package (new_Package (p_session package) (p_origin package));
  let p_req := set_pq_numberOfRecordsRequested number
    (set_pq_resultSetStartPoint 1
       (set_pq_resultSetId (sq_resultSetName req)
          (set_pq_preferredRecordSyntax (sq_preferredRecordSyntax req)
             zget_presentRequest))) in
  r ← present (set_request (Some (GDU_Z3950 (presentRequest p_req))) pp) p_req;
  let pp := r.1 in
  let package := if is_closed pp then close_session package else package in
  match z3950 (p_response pp) with
  | Some (presentResponse p_res) =>
      mret (set_response (Some (GDU_Z3950 (searchResponse
        (set_sr_nextResultSetPosition (pr_nextResultSetPosition p_res)
           (set_sr_numberOfRecordsReturned (pr_numberOfRecordsReturned p_res)
              (set_sr_records (pr_records p_res) f_resp)))))) package)
  | _ => mret (set_response (p_response pp) package)
  end.

Definition search (package : Package R) (req : SearchRequest) : H (Package R) :=
  l ← all_backends;
  send_searches l req package ;;
  multi_move_all ;;
  f ← get_fr;
  let '(a, result_set_size, backend_sets) :=
    collect_searches 0 (m_backend_list f) no_answers in
  w ← get;
  let f_resp := set_sr_resultCount result_set_size
    (create_searchResponse (Some (searchRequest req)) 0 None) in
  match (if (no_successful a =? 0) || negb (m_hide_unavailable w.2.1)
         then close_p a else None) with
  | Some p => mret (set_response (p_response p) (close_session package))
  | None =>
      f_resp ← match z_diag a with
               | Some d =>
                   if (no_successful a =? 0) || negb (m_hide_errors w.2.1) then
                     r ← lift_outcome (diagnostic_records d);
                     mret (set_sr_records (Some r) f_resp)
                   else mret f_resp
               | None => mret f_resp
               end;
      modify_fr (add_set (sq_resultSetName req) backend_sets) ;;
      let number := (piggyback (sq_smallSetUpperBound req) (sq_largeSetLowerBound req)
        (sq_mediumSetPresentNumber req) None None result_set_size None).1 in
      match z_diag a with
      | None =>
          if 0 <? number then piggyback_present package req number f_resp
          else mret (set_response (Some (GDU_Z3950 (searchResponse f_resp))) package)
      | Some _ => mret (set_response (Some (GDU_Z3950 (searchResponse f_resp))) package)
      end
  end.

(** ** Scan *)
Fixpoint send_scans (l : list nat) (req : ScanRequest) (package : Package R) : H unit :=
  match l with
  | [] => mret tt
  | i :: l' =>
      b ← get_backend i;
      dbs ← lift_outcome (vhost_databases (b_vhost b) (cq_databaseNames req));
      send_to i (scanRequest (set_cq_databaseNames dbs req)) package ;;
      send_scans l' req package
  end.

(** The loop over the answers: the client's package, with the answer when the
    loop has returned one (a failed scan, or no Scan response at all), or else
    the terms before and after. *)
Fixpoint collect_scans (l : list (Backend R)) (req : ScanRequest)
    (package : Package R) (acc : list ScanTermInfo * list ScanTermInfo) :
    outcome (Package R * option (list ScanTermInfo * list ScanTermInfo)) :=
  match l with
  | [] => Ok (package, Some acc)
  | b :: l' =>
      let p := b_package b in
      let package := if is_closed p then close_session package else package in
      match z3950 (p_response p) with
      | Some (scanResponse res) =>
          match cr_entries res with
          | None => collect_scans l' req package acc
          | Some le =>
              match nonsurrogateDiagnostics le with
              | [] =>
                  match entries le with
                  | [] => collect_scans l' req package acc
                  | ents =>
                      let position := int32 (default
                        (default 1 (cq_preferredPositionInResponse req))
                        (cr_positionOfTerm res)) in
                      acc ← scan_collect ents position acc;
                      collect_scans l' req package acc
                  end
              | ds =>
                  let f_res := create_scanResponse (Some (scanRequest req)) 1 None in
                  Ok (set_response (Some (GDU_Z3950 (scanResponse
                        (set_cr_entries
                           (Some {| entries := default [] (entries <$> cr_entries f_res);
                                    nonsurrogateDiagnostics := ds |}) f_res)))) package,
                      None)
              end
          end
      | _ => Ok (set_response (p_response p) package, None)
      end
  end.
Definition scan (package : Package R) (req : ScanRequest) : H (Package R) :=
  l ← all_backends;
  send_scans l req package ;;
  multi_move_all ;;
  f ← get_fr;
  r ← lift_outcome (collect_scans (m_backend_list f) req package ([], []));
  let '(package, acc) := r in
  match acc with
  | None => mret package
  | Some (entries_before, entries_after) =>
      let f_res := create_scanResponse (Some (scanRequest req)) 0 None in
      position ← deref (cq_preferredPositionInResponse req);
      r ← lift_outcome (scan_entries entries_before entries_after
            (int32 (cq_numberOfTermsRequested req)) (int32 position));
      let '(ents, number_returned, position_returned) := r in
      let nsd := default [] (nonsurrogateDiagnostics <$> cr_entries f_res) in
      mret (set_response (Some (GDU_Z3950 (scanResponse
        (set_cr_numberOfEntriesReturned number_returned
           (set_cr_positionOfTerm (Some position_returned)
              (set_cr_entries (Some {| entries := ents; nonsurrogateDiagnostics := nsd |})
                 f_res)))))) package)
  end.

(** ** Close *)
Fixpoint send_all (l : list nat) (apdu : APDU) (package : Package R) : H unit :=
  match l with
  | [] => mret tt
  | i :: l' => send_to i apdu package ;; send_all l' apdu package
  end.
Definition relay_answer (package : Package R) (b : Backend R) : Package R :=
  let package := if is_closed (b_package b) then close_session package else package in
  set_response (p_response (b_package b)) package.
Definition relay_apdu (package : Package R) (apdu : APDU) : H (Package R) :=
  l ← all_backends;
  send_all l apdu package ;;
  multi_move_all ;;
  f ← get_fr;
  mret (foldl relay_answer package (m_backend_list f)).

(** ** A package *)
Definition refuse (apdu : APDU) (addinfo : string) (package : Package R) : Package R :=
  close_session (set_response (Some (GDU_Z3950
    (create_close (Some apdu) Close_protocolError (Some addinfo)))) package).
Definition handle (fuel : nat) (package : Package R) : H (Package R) :=
  f ← get_fr;
  if m_is_multi f then
    match z3950 (p_request package) with
    | None => mret package
    | Some (initRequest req) => mret (refuse (initRequest req) "double init" package)
    | Some (searchRequest req) => search package req
    | Some (presentRequest req) =>
        r ← present package req;
        mret (set_request (Some (GDU_Z3950 (presentRequest r.2))) r.1)
    | Some (scanRequest req) => scan package req
    | Some (close c) => relay_apdu package (close c)
    | Some apdu => mret (refuse apdu "unsupported APDU in filter multi" package)
    end
  else
    match z3950 (p_request package) with
    | Some (initRequest req) => init fuel package req
    | _ => move "" package
    end.
(** The frontend of a session, taken and given back: the code of [Frontends]. *)
Definition get_frontend (package : Package R) : M World _ :=
  Frontends.get_frontend m_clients set_clients Frontend_new package.
Definition release_frontend f (package : Package R) : M World unit :=
  Frontends.release_frontend m_clients set_clients close_frontend f package.
Definition process (fuel : nat) (package : Package R) : M World (Package R) :=
  f ← get_frontend package;
  r ← with_frontend f (handle fuel package);
  let '(package, f) := r in
  release_frontend f package ;;
  mret package.

(** ** Properties *)

(** *** Moving packages *)

(** Change the backends in [L]. *)
Definition on_backends (g : nat → Backend R → Backend R) (L : list nat)
    (l : list (Backend R)) : list (Backend R) :=
  imap (λ i b, if decide (i ∈ L) then g i b else b) l.

Lemma on_backends_lookup g L l i :
  on_backends g L l !! i = (λ b, if decide (i ∈ L) then g i b else b) <$> l !! i.
Proof. unfold on_backends. by rewrite list_lookup_imap. Qed.
Lemma on_backends_nil g l : on_backends g [] l = l.
Proof.
  apply list_eq. intros i. rewrite on_backends_lookup.
  by destruct (l !! i).
Qed.
Lemma on_backends_cons g i L l :
  i ∉ L → on_backends g L (alter (g i) i l) = on_backends g (i :: L) l.
Proof.
  intros Hi. apply list_eq. intros j. rewrite !on_backends_lookup.
  destruct (decide (j = i)) as [->|Hne].
  - rewrite list_lookup_alter_eq. destruct (l !! i); simpl; [|done].
    rewrite (decide_False (P := i ∈ L)), (decide_True (P := i ∈ i :: L)) by (done || left).
    done.
  - rewrite list_lookup_alter_ne by done. destruct (l !! j); simpl; [|done].
    destruct (decide (j ∈ L)); [rewrite decide_True by (by right); done|].
    rewrite decide_False; [done|]. rewrite elem_of_cons. tauto.
Qed.
Lemma on_backends_perm g L L' l : L ≡ₚ L' → on_backends g L l = on_backends g L' l.
Proof.
  intros HL. apply list_eq. intros i. rewrite !on_backends_lookup.
  destruct (l !! i); simpl; [|done]. f_equal. apply decide_ext. by rewrite HL.
Qed.
Lemma imap_length_ (g : nat → Backend R → Backend R) l : length (imap g l) = length l.
Proof.
  revert g. induction l as [|b l IH]; intros g; [done|]. cbn [imap length]. by rewrite IH.
Qed.
Lemma on_backends_all g l : on_backends g (seq 0 (length l)) l = imap g l.
Proof.
  apply list_eq. intros i. rewrite on_backends_lookup, list_lookup_imap.
  destruct (l !! i) eqn:Hl; simpl; [|done]. rewrite decide_True; [done|].
  apply elem_of_seq. apply lookup_lt_Some in Hl. lia.
Qed.

Lemma get_backend_ok i f w b :
  m_backend_list f !! i = Some b → get_backend i (f, w) = Ok (b, (f, w)).
Proof. unfold get_backend, get_fr, get_st, mbind, M_bind. simpl. by intros ->. Qed.
Lemma put_package_ok i p f w :
  put_package i p (f, w) =
  Ok (tt, (set_backends (alter (set_package p) i (m_backend_list f)) f, w)).
Proof. done. Qed.
Lemma send_to_ok i apdu package f w b pos :
  p_route_pos package = Some pos → m_backend_list f !! i = Some b →
  send_to i apdu package (f, w) =
  Ok (tt, (set_backends (alter (set_package (set_route_pos (Some pos)
    (set_request (Some (GDU_Z3950 apdu)) (b_package b)))) i (m_backend_list f)) f, w)).
Proof.
  intros Hpos Hb. unfold send_to.
  erewrite bind_ok by (by apply get_backend_ok).
  erewrite bind_ok by (by apply copy_filter_ok). done.
Qed.
Lemma run_backend_ok i f w b p w' :
  m_backend_list f !! i = Some b → next (b_route b) (b_package b) w = Ok (p, w') →
  run_backend i (f, w) =
  Ok (tt, (set_backends (alter (set_package p) i (m_backend_list f)) f, w')).
Proof.
  intros Hb Hn. unfold run_backend.
  erewrite bind_ok by (by apply get_backend_ok).
  erewrite bind_ok by (by apply on_world_ok). done.
Qed.
Lemma alter_ext_at {A} (g h : A → A) i (l : list A) x :
  l !! i = Some x → g x = h x → alter g i l = alter h i l.
Proof.
  intros Hx Hgh. apply list_eq. intros j. destruct (decide (j = i)) as [->|Hne].
  - rewrite !list_lookup_alter_eq, Hx. simpl. congruence.
  - by rewrite !list_lookup_alter_ne by done.
Qed.

(** Targets whose answer depends on the package alone. *)
Lemma run_backends_ok (reply : string → Package R → Package R) L f w :
  NoDup L →
  (∀ i, i ∈ L → ∃ b, m_backend_list f !! i = Some b ∧
     next (b_route b) (b_package b) w = Ok (reply (b_route b) (b_package b), w)) →
  run_backends L (f, w) =
  Ok (tt, (set_backends (on_backends
    (λ _ b, set_package (reply (b_route b) (b_package b)) b) L (m_backend_list f)) f, w)).
Proof.
  intros Hnd. revert f. induction Hnd as [|i L Hi Hnd IH]; intros f Hok; cbn [run_backends].
  { rewrite on_backends_nil. by destruct f. }
  destruct (Hok i) as (b & Hb & Hn); [left|].
  erewrite bind_ok by (by eapply run_backend_ok).
  rewrite IH.
  - do 3 f_equal. unfold set_backends. simpl. f_equal.
    rewrite <-on_backends_cons by done. f_equal. by eapply alter_ext_at.
  - intros j Hj. simpl. rewrite list_lookup_alter_ne by (intros ->; done).
    apply Hok. by right.
Qed.
Lemma multi_move_ok (reply : string → Package R → Package R) L f w :
  (∀ w l, schedule w l ≡ₚ l) → NoDup L →
  (∀ i, i ∈ L → ∃ b, m_backend_list f !! i = Some b ∧
     next (b_route b) (b_package b) w = Ok (reply (b_route b) (b_package b), w)) →
  multi_move L (f, w) =
  Ok (tt, (set_backends (on_backends
    (λ _ b, set_package (reply (b_route b) (b_package b)) b) L (m_backend_list f)) f, w)).
Proof.
  intros Hs Hnd Hok. unfold multi_move. erewrite bind_ok by done. simpl.
  rewrite (run_backends_ok reply).
  - by rewrite (on_backends_perm _ _ L) by done.
  - by rewrite Hs.
  - intros i Hi. apply Hok. by rewrite <-(Hs w L).
Qed.

(** *** Present: which records each backend is asked for *)

Lemma job_bounds_snoc jobs j b :
  job_bounds (jobs ++ [j]) b =
  let se := job_bounds jobs b in
  if decide (j_backend j = b) then
    (if (se.1 =? -1) || (j_pos j <? se.1) then j_pos j else se.1,
     if (se.2 =? -1) || (se.2 <? j_pos j) then j_pos j else se.2)
  else se.
Proof. unfold job_bounds. by rewrite foldl_app. Qed.
Lemma job_bounds_spec jobs b :
  Forall (λ j, 1 ≤ j_pos j) jobs →
  let se := job_bounds jobs b in
  (se.1 = -1 ∧ se.2 = -1 ∧ ∀ j, j ∈ jobs → j_backend j ≠ b) ∨
  (1 ≤ se.1 ∧ 1 ≤ se.2 ∧
   (∃ j, j ∈ jobs ∧ j_backend j = b ∧ j_pos j = se.1) ∧
   (∃ j, j ∈ jobs ∧ j_backend j = b ∧ j_pos j = se.2) ∧
   ∀ j, j ∈ jobs → j_backend j = b → se.1 ≤ j_pos j ≤ se.2).
Proof.
  intros HF se. subst se. induction jobs as [|j jobs IH] using rev_ind.
  { left. split_and!; [done..|]. by intros j ?%elem_of_nil. }
  apply Forall_app in HF as [HF [Hj _]%Forall_cons]. specialize (IH HF).
  rewrite job_bounds_snoc. cbn zeta.
  destruct (job_bounds jobs b) as [s e]. simpl in IH.
  assert (Hin : ∀ k, k ∈ jobs ++ [j] ↔ k ∈ jobs ∨ k = j)
    by (intros k; by rewrite elem_of_app, list_elem_of_singleton).
  assert (Hjin : j ∈ jobs ++ [j]) by (apply Hin; by right).
  destruct (decide (j_backend j = b)) as [Hb|Hb]; simpl.
  - right. destruct IH as [(-> & -> & Hno)|(Hs & He & Hes & Hee & Hall)]; simpl.
    + split_and!; [lia|lia|by exists j|by exists j|].
      intros k [Hk| ->]%Hin Hkb; [by destruct (Hno k Hk)|lia].
    + rewrite (proj2 (Z.eqb_neq s (-1))), (proj2 (Z.eqb_neq e (-1))) by lia. simpl.
      split_and!; [by destruct (Z.ltb_spec (j_pos j) s)|
        destruct (Z.ltb_spec e (j_pos j)); lia|..].
      * destruct (Z.ltb_spec (j_pos j) s); [by exists j|].
        destruct Hes as (k & ? & ? & ?). exists k. rewrite Hin. auto.
      * destruct (Z.ltb_spec e (j_pos j)); [by exists j|].
        destruct Hee as (k & ? & ? & ?). exists k. rewrite Hin. auto.
      * intros k [Hk| ->]%Hin Hkb; [specialize (Hall k Hk Hkb)|];
          destruct (Z.ltb_spec (j_pos j) s), (Z.ltb_spec e (j_pos j)); lia.
  - destruct IH as [(-> & -> & Hno)|(Hs & He & Hes & Hee & Hall)]; [left|right].
    + split_and!; [done..|]. intros k [Hk| ->]%Hin; auto.
    + split_and!; [done..| | |].
      * destruct Hes as (k & ? & ? & ?). exists k. rewrite Hin. auto.
      * destruct Hee as (k & ? & ? & ?). exists k. rewrite Hin. auto.
      * intros k [Hk| ->]%Hin Hkb; [auto|done].
Qed.
Lemma job_bounds_fmap (h : PresentJob → PresentJob) jobs b :
  (∀ j, j_backend (h j) = j_backend j ∧ j_pos (h j) = j_pos j) →
  job_bounds (h <$> jobs) b = job_bounds jobs b.
Proof.
  intros Hh. induction jobs as [|j jobs IH] using rev_ind; [done|].
  rewrite fmap_app. cbn [fmap list_fmap]. rewrite !job_bounds_snoc, IH.
  destruct (Hh j) as [-> ->]. done.
Qed.
Lemma set_start_keeps b s e j :
  j_backend (set_start b s e j) = j_backend j ∧ j_pos (set_start b s e j) = j_pos j.
Proof. unfold set_start. case_decide; [|done]. by destruct ((_ && _) : bool). Qed.

(** The jobs once every backend in [L] has its first record. *)
Definition started (L : list nat) (jobs : list PresentJob) (j : PresentJob) : PresentJob :=
  if decide (j_backend j ∈ L) then
    mk_PresentJob (j_backend j) (j_pos j) (job_bounds jobs (j_backend j)).1
  else j.
(** The backends that have a record among the jobs. *)
Definition wanted (jobs : list PresentJob) (sets : list BackendSet) : list nat :=
  filter (λ b, (job_bounds jobs b).1 ≠ -1) (bs_backend <$> sets).
Definition range_request (req : PresentRequest) (jobs : list PresentJob) (b : nat) :
    PresentRequest :=
  let se := job_bounds jobs b in
  set_pq_numberOfRecordsRequested (int32 (se.2 - se.1 + 1))
    (set_pq_resultSetStartPoint se.1 req).
Definition sent (pos : R) (a : nat → APDU) (i : nat) (b : Backend R) : Backend R :=
  set_package (set_route_pos (Some pos)
    (set_request (Some (GDU_Z3950 (a i))) (b_package b))) b.

Lemma set_start_started b se jobs :
  Forall (λ j, 1 ≤ j_pos j) jobs → job_bounds jobs b = se → se.1 ≠ -1 →
  set_start b se.1 se.2 <$> jobs = started [b] jobs <$> jobs.
Proof.
  intros HF <- Hse. apply list_fmap_ext. intros i j Hj%list_elem_of_lookup_2.
  unfold set_start, started.
  destruct (job_bounds_spec jobs b HF) as [(? & _)|(_ & _ & _ & _ & Hall)]; [done|].
  destruct (decide (j_backend j = b)) as [<-|Hb].
  - rewrite decide_True by left. specialize (Hall j Hj eq_refl).
    rewrite !(proj2 (Z.leb_le _ _)) by lia. done.
  - rewrite decide_False; [done|]. by rewrite list_elem_of_singleton.
Qed.

Lemma started_keeps L jobs j :
  j_backend (started L jobs j) = j_backend j ∧ j_pos (started L jobs j) = j_pos j.
Proof. unfold started. by case_decide. Qed.
Lemma started_cons b L jobs :
  started L (started [b] jobs <$> jobs) <$> (started [b] jobs <$> jobs) =
  started (b :: L) jobs <$> jobs.
Proof.
  rewrite <-list_fmap_compose. apply list_fmap_ext. intros i j _. unfold compose.
  unfold started at 1. destruct (started_keeps [b] jobs j) as [-> ->].
  rewrite job_bounds_fmap by apply started_keeps. unfold started.
  destruct (decide (j_backend j ∈ L)) as [Hin|Hin]; [by rewrite decide_True by (by right)|].
  destruct (decide (j_backend j = b)) as [->|Hne]; [by rewrite !decide_True by left|].
  rewrite !decide_False; [done|..]; rewrite ?list_elem_of_singleton, ?elem_of_cons; tauto.
Qed.
Lemma send_presents_ok pos package f w sets req jobs blist :
  p_route_pos package = Some pos → NoDup (bs_backend <$> sets) →
  Forall (λ s, is_Some (m_backend_list f !! bs_backend s)) sets →
  Forall (λ j, 1 ≤ j_pos j) jobs →
  ∃ n s,
    send_presents sets package req jobs blist (f, w) =
    Ok ((set_pq_numberOfRecordsRequested n (set_pq_resultSetStartPoint s req),
         started (wanted jobs sets) jobs <$> jobs, blist ++ wanted jobs sets),
        (set_backends (on_backends (sent pos (λ i, presentRequest (range_request req jobs i)))
           (wanted jobs sets) (m_backend_list f)) f, w)).
Proof.
  intros Hpos. revert f req jobs blist.
  induction sets as [|s sets IH]; intros f req jobs blist Hnd Hl HF; cbn [send_presents].
  { exists (pq_numberOfRecordsRequested req), (pq_resultSetStartPoint req).
    unfold wanted. simpl. rewrite on_backends_nil, app_nil_r.
    replace (started [] jobs <$> jobs) with jobs; [by destruct req, f|].
    symmetry. etrans; [|apply list_fmap_id]. by apply list_fmap_ext. }
  apply NoDup_cons in Hnd as [Hs Hnd]. apply Forall_cons in Hl as [[b Hb] Hl].
  unfold wanted. cbn [fmap list_fmap]. rewrite filter_cons. fold (wanted jobs sets).
  destruct (Z.eqb_spec (job_bounds jobs (bs_backend s)).1 (-1)) as [Hse|Hse].
  { rewrite decide_False by tauto. by apply IH. }
  rewrite decide_True by done.
  rewrite (set_start_started _ _ _ HF eq_refl Hse).
  erewrite bind_ok by (by apply (send_to_ok _ _ _ _ _ b pos)).
  set (b0 := bs_backend s) in *. set (jobs1 := started [b0] jobs <$> jobs).
  assert (Hjb : ∀ c, job_bounds jobs1 c = job_bounds jobs c)
    by (intros c; apply job_bounds_fmap, started_keeps).
  assert (Hw : wanted jobs1 sets = wanted jobs sets)
    by (unfold wanted; apply list_filter_iff; intros c; by rewrite Hjb).
  assert (Hb0 : b0 ∉ wanted jobs sets).
  { unfold wanted. rewrite list_elem_of_filter. tauto. }
  edestruct IH as (n & st & ->); [done| | |].
  { eapply Forall_impl; [exact Hl|]. intros s' Hs'. simpl.
    destruct (decide (bs_backend s' = b0)) as [->|Hne].
    - rewrite list_lookup_alter_eq. by apply fmap_is_Some.
    - by rewrite list_lookup_alter_ne. }
  { unfold jobs1. apply Forall_fmap. eapply Forall_impl; [exact HF|].
    intros j ?. simpl. by rewrite (proj2 (started_keeps _ _ j)). }
  exists n, st. rewrite Hw, <-app_assoc. do 3 f_equal.
  - f_equal. apply started_cons.
  - unfold set_backends. simpl. f_equal. rewrite <-on_backends_cons by done.
    transitivity (on_backends (sent pos (λ i, presentRequest (range_request req jobs i)))
      (wanted jobs sets) (alter (sent pos (λ i, presentRequest (range_request req jobs i)) b0)
         b0 (m_backend_list f))).
    + rewrite (alter_ext_at _ (sent pos (λ i, presentRequest (range_request req jobs i)) b0)
        b0 _ b Hb) by done.
      unfold on_backends. apply imap_ext. intros i b' _. unfold sent, range_request.
      by rewrite Hjb.
    + done.
Qed.

(** *** Present: the merged answer *)

Lemma collect_presents_ok L a f w :
  (∀ i, i ∈ L → ∃ b r l, m_backend_list f !! i = Some b ∧
     is_closed (b_package b) = false ∧
     z3950 (p_response (b_package b)) = Some (presentResponse r) ∧
     pr_records r = Some (Records_DBOSD l)) →
  collect_presents L a (f, w) =
  Ok (mk_Answers (z_diag a) (no_successful a + Z.of_nat (length L)) (close_p a), (f, w)).
Proof.
  revert a. induction L as [|i L IH]; intros a HL; cbn [collect_presents].
  { destruct a. simpl. by rewrite Z.add_0_r. }
  destruct (HL i) as (b & r & l & Hb & Hc & Hr & Hl); [left|].
  erewrite bind_ok by (by apply get_backend_ok).
  unfold collect_present, note_closed, note_records, record_diagnostics.
  rewrite Hr, Hc, Hl, IH by (intros j Hj; apply HL; by right).
  cbn [z_diag no_successful close_p fst snd length]. do 3 f_equal. lia.
Qed.
Lemma job_records_ok (g : PresentJob → NamePlusRecord) jobs f w :
  (∀ j, j ∈ jobs → ∃ b, m_backend_list f !! j_backend j = Some b ∧
     job_record b j = Ok (Some (g j))) →
  job_records jobs (f, w) = Ok (g <$> jobs, (f, w)).
Proof.
  induction jobs as [|j jobs IH]; intros Hj; cbn [job_records]; [done|].
  destruct (Hj j) as (b & Hb & Hr); [left|].
  erewrite bind_ok by (by apply get_backend_ok). rewrite Hr.
  erewrite bind_ok by done. erewrite bind_ok; [done|].
  apply IH. intros k Hk. apply Hj. by right.
Qed.

(** Targets that hold, for each session, a list of records. *)
Section targets.
Context (recs : Z → list NamePlusRecord).
Context (base_present : PresentRequest → PresentResponse).
Definition records_of (b : Backend R) : list NamePlusRecord :=
  recs (Session.id (p_session (b_package b))).
Definition slice (q : PresentRequest) (l : list NamePlusRecord) : list NamePlusRecord :=
  take (Z.to_nat (pq_numberOfRecordsRequested q))
    (drop (Z.to_nat (pq_resultSetStartPoint q - 1)) l).
Definition target_present (p : Package R) (q : PresentRequest) : Package R :=
  set_response (Some (GDU_Z3950 (presentResponse (set_pr_records
    (Some (Records_DBOSD (slice q (recs (Session.id (p_session p)))))) (base_present q))))) p.
(** Every target answers a Present request within its records. *)
Definition serves_presents (w : World) : Prop :=
  ∀ route p q, z3950 (p_request p) = Some (presentRequest q) →
    1 ≤ pq_resultSetStartPoint q → 1 ≤ pq_numberOfRecordsRequested q →
    pq_resultSetStartPoint q - 1 + pq_numberOfRecordsRequested q ≤
      Z.of_nat (length (recs (Session.id (p_session p)))) →
    next route p w = Ok (target_present p q, w).

(** The result set that the backends of [f] hold: open sessions, and the
    counts the targets have given. *)
Definition set_ok (f : Frontend R) (sets : list BackendSet) : Prop :=
  NoDup (bs_backend <$> sets) ∧
  Forall (λ s, ∃ b, m_backend_list f !! bs_backend s = Some b ∧
    is_closed (b_package b) = false ∧
    bs_count s = Z.of_nat (length (records_of b)) ∧ bs_count s ≤ INT_MAX) sets.
(** A record of the merged set, under the name of its backend. *)
Definition job_answer (f : Frontend R) (j : PresentJob) : NamePlusRecord :=
  match m_backend_list f !! j_backend j with
  | Some b =>
      {| databaseName := Some (b_vhost b);
         npr_record := default (octet_record "") (npr_record <$>
           records_of b !! Z.to_nat (j_pos j - 1)) |}
  | None => {| databaseName := None; npr_record := octet_record "" |}
  end.
(** The result sets as one. *)
Definition merged (t : multi_merge_type) (sets : list BackendSet) : list PresentJob :=
  match t with
  | mt_round_robin => interleaved sets
  | mt_serve_order => concatenated sets
  end.
(** Where merging is exact, with positions that are [int]s. *)
Definition mergeable (t : multi_merge_type) (sets : list BackendSet) (start : Z) : Prop :=
  match t with
  | mt_round_robin => skipping_exact sets start
  | mt_serve_order => total_count sets ≤ INT_MAX
  end.

Lemma merge_jobs_ok t sets start number :
  Forall (λ s, 0 ≤ bs_count s) sets → 1 ≤ start ≤ INT_MAX → mergeable t sets start →
  start + number ≤ INT_MAX → merge_jobs t sets start number = Ok (range start number (merged t sets)).
Proof.
  intros HF Hstart Hm Hfit.
  destruct t; [apply round_robin_range|apply serve_order_range]; done || lia.
Qed.
Lemma merged_valid t sets j :
  j ∈ merged t sets →
  ∃ s, s ∈ sets ∧ j_backend j = bs_backend s ∧ 1 ≤ j_pos j ≤ bs_count s ∧ j_start j = 0.
Proof.
  destruct t; simpl.
  - unfold interleaved. rewrite list_elem_of_bind. intros (k & Hk & Hin%elem_of_seq).
    unfold turn in Hk. apply list_elem_of_omap in Hk as (s & Hs & Hj).
    destruct (Z.leb_spec (Z.of_nat k) (bs_count s)); simplify_eq.
    exists s. split_and!; simpl; (done || lia).
  - unfold concatenated. rewrite list_elem_of_bind. intros (s & Hj & Hs).
    unfold jobs_of in Hj. apply list_elem_of_fmap in Hj as (k & -> & Hk%elem_of_seq).
    exists s. split_and!; simpl; (done || lia).
Qed.
Lemma range_elem start number l (j : PresentJob) : j ∈ range start number l → j ∈ l.
Proof.
  unfold range. intros Hj. apply (subseteq_drop (Z.to_nat (start - 1))).
  by apply (subseteq_take (Z.to_nat number)).
Qed.
Lemma range_length start number (l : list PresentJob) :
  1 ≤ start → 0 ≤ number → start - 1 + number ≤ Z.of_nat (length l) →
  Z.of_nat (length (range start number l)) = number.
Proof. intros. unfold range. rewrite length_take, length_drop. lia. Qed.

(** Jobs for records that the set has. *)
Definition jobs_ok (sets : list BackendSet) (jobs : list PresentJob) : Prop :=
  ∀ j, j ∈ jobs → ∃ s, s ∈ sets ∧ j_backend j = bs_backend s ∧
                       1 ≤ j_pos j ≤ bs_count s ∧ j_start j = 0.
Lemma jobs_ok_pos sets jobs : jobs_ok sets jobs → Forall (λ j, 1 ≤ j_pos j) jobs.
Proof.
  intros Hj. apply Forall_forall. intros j (s & _ & _ & ? & _)%Hj. lia.
Qed.
Lemma wanted_spec f sets jobs i :
  set_ok f sets → jobs_ok sets jobs → i ∈ wanted jobs sets →
  ∃ b, m_backend_list f !! i = Some b ∧ is_closed (b_package b) = false ∧
    let se := job_bounds jobs i in
    1 ≤ se.1 ≤ se.2 ∧ se.2 ≤ Z.of_nat (length (records_of b)) ∧ se.2 ≤ INT_MAX ∧
    ∀ j, j ∈ jobs → j_backend j = i → se.1 ≤ j_pos j ≤ se.2.
Proof.
  intros [Hnd HF] Hj Hi. unfold wanted in Hi. rewrite list_elem_of_filter in Hi.
  destruct Hi as [Hse Hi]. apply list_elem_of_fmap in Hi as (s & -> & Hs).
  destruct (proj1 (Forall_forall _ _) HF s Hs) as (b & Hb & Hc & Hcount & Hmax).
  exists b. split_and!; [done..|]. cbn zeta.
  destruct (job_bounds_spec jobs (bs_backend s) (jobs_ok_pos _ _ Hj))
    as [(? & _)|(H1 & H2 & (j1 & Hj1 & Hb1 & Hp1) & (j2 & Hj2 & Hb2 & Hp2) & Hall)];
    [done|].
  specialize (Hall j1 Hj1 Hb1) as Hle. destruct (Hj j2 Hj2) as (s' & Hs' & Hbs & Hpos & _).
  assert (s' = s) as ->.
  { apply list_elem_of_lookup in Hs as [m Hm], Hs' as [m' Hm'].
    assert (m = m') as ->; [|congruence].
    eapply NoDup_lookup; [exact Hnd|..]; rewrite list_lookup_fmap, ?Hm, ?Hm'; simpl;
      [done|]. congruence. }
  split_and!; (lia || done).
Qed.
Lemma job_wanted sets jobs j :
  jobs_ok sets jobs → j ∈ jobs → j_backend j ∈ wanted jobs sets.
Proof.
  intros Hj Hin. unfold wanted. rewrite list_elem_of_filter. split.
  - destruct (job_bounds_spec jobs (j_backend j) (jobs_ok_pos _ _ Hj))
      as [(_ & _ & Hno)|(? & _)]; [by destruct (Hno j Hin)|lia].
  - destruct (Hj j Hin) as (s & Hs & -> & _). by apply list_elem_of_fmap_2.
Qed.

(** What requests leave alone in a frontend. *)
Definition same_backends (f f' : Frontend R) : Prop :=
  m_is_multi f' = m_is_multi f ∧
  ∀ i, (λ b, (p_session (b_package b), b_vhost b, b_route b)) <$> m_backend_list f' !! i =
       (λ b, (p_session (b_package b), b_vhost b, b_route b)) <$> m_backend_list f !! i.

(** The answer of a target to whatever is in its package. *)
Definition present_reply (_ : string) (p : Package R) : Package R :=
  match z3950 (p_request p) with
  | Some (presentRequest q) => target_present p q
  | _ => p
  end.
Definition presented (pos : R) (req : PresentRequest) (jobs : list PresentJob) (i : nat)
    (b : Backend R) : Backend R :=
  let b := sent pos (λ i, presentRequest (range_request req jobs i)) i b in
  set_package (present_reply (b_route b) (b_package b)) b.

Lemma on_backends_twice g h L l :
  on_backends h L (on_backends g L l) = on_backends (λ i b, h i (g i b)) L l.
Proof.
  apply list_eq. intros i. rewrite !on_backends_lookup.
  destruct (l !! i); simpl; [|done]. by destruct (decide (i ∈ L)).
Qed.
Lemma send_move_ok pos package f w sets req jobs :
  (∀ w l, schedule w l ≡ₚ l) → serves_presents w →
  p_route_pos package = Some pos → set_ok f sets → jobs_ok sets jobs →
  ∃ n s, let L := wanted jobs sets in
    send_presents sets package req jobs [] (f, w) =
    Ok ((set_pq_numberOfRecordsRequested n (set_pq_resultSetStartPoint s req),
         started L jobs <$> jobs, L),
        (set_backends (on_backends (sent pos (λ i, presentRequest (range_request req jobs i)))
           L (m_backend_list f)) f, w)) ∧
    multi_move L
      (set_backends (on_backends (sent pos (λ i, presentRequest (range_request req jobs i)))
         L (m_backend_list f)) f, w) =
    Ok (tt, (set_backends (on_backends (presented pos req jobs) L (m_backend_list f)) f, w)).
Proof.
  intros Hsch Hserve Hpos Hset Hjobs.
  pose proof (jobs_ok_pos _ _ Hjobs) as HF. destruct Hset as [Hnd Hall].
  destruct (send_presents_ok pos package f w sets req jobs [] Hpos Hnd) as (n & s & Heq);
    [|done|].
  { eapply Forall_impl; [exact Hall|]. intros ? (b & -> & _). done. }
  exists n, s. split; [exact Heq|].
  rewrite (multi_move_ok present_reply); [..|done| |].
  - cbn [m_backend_list set_backends]. rewrite on_backends_twice. done.
  - unfold wanted. by apply NoDup_filter.
  - intros i Hi.
    destruct (wanted_spec f sets jobs i (conj Hnd Hall) Hjobs Hi)
      as (b & Hb & Hc & Hse & Hlen & Hmax & _).
    cbn [m_backend_list set_backends]. rewrite on_backends_lookup, Hb. simpl.
    rewrite decide_True by done. eexists. split; [done|].
    unfold present_reply. simpl. apply Hserve; simpl; [done|lia|..];
      (rewrite int32_id; [|unfold in_int32, INT_MAX in *; lia]); [lia|].
    unfold records_of in Hlen. lia.
Qed.

(** The response of a backend that was asked. *)
Lemma presented_job f sets jobs pos req j :
  set_ok f sets → jobs_ok sets jobs → j ∈ jobs →
  ∃ b, on_backends (presented pos req jobs) (wanted jobs sets) (m_backend_list f)
         !! j_backend j = Some b ∧
    job_record b (started (wanted jobs sets) jobs j) = Ok (Some (job_answer f j)).
Proof.
  intros Hset Hjobs Hj. pose proof (job_wanted _ _ _ Hjobs Hj) as Hw.
  destruct (wanted_spec f sets jobs _ Hset Hjobs Hw)
    as (b & Hb & Hc & Hse & Hlen & Hmax & Hall).
  specialize (Hall j Hj eq_refl). cbn zeta in *.
  rewrite on_backends_lookup, Hb. simpl. rewrite decide_True by done.
  eexists. split; [done|]. unfold job_record, presented, present_reply, started.
  rewrite decide_True by done. simpl. unfold job_answer. rewrite Hb.
  change (recs (Session.id (p_session (b_package b)))) with (records_of b).
  set (se := job_bounds jobs (j_backend j)) in *. unfold slice. simpl. fold se.
  rewrite int32_id by (unfold in_int32, INT_MAX in *; lia).
  rewrite length_take, length_drop.
  rewrite (proj2 (Z.ltb_lt _ _)) by lia. rewrite (proj2 (Z.ltb_ge _ _)) by lia.
  rewrite lookup_take_lt by lia. rewrite lookup_drop.
  replace (Z.to_nat (se.1 - 1) + Z.to_nat (j_pos j - se.1))%nat
    with (Z.to_nat (j_pos j - 1)) by lia.
  destruct (lookup_lt_is_Some_2 (records_of b) (Z.to_nat (j_pos j - 1)))
    as [npr Hnpr]; [lia|].
  unfold set_package, set_response, b_vhost. cbn. unfold records_of in *.
  rewrite Hnpr. done.
Qed.

Definition merged_response (req : PresentRequest) (start number : Z)
    (l : list NamePlusRecord) : PresentResponse :=
  set_pr_numberOfRecordsReturned number
    (set_pr_nextResultSetPosition (start + number)
       (set_pr_records (Some (Records_DBOSD l))
          (create_presentResponse (Some (presentRequest req)) 0 None))).
Lemma present_answer_ok (g : PresentJob → NamePlusRecord) hide a start number jobs req f w :
  z_diag a = None → Z.of_nat (length jobs) = number → in_int32 (start + number) →
  (∀ j, j ∈ jobs → ∃ b, m_backend_list f !! j_backend j = Some b ∧
     job_record b j = Ok (Some (g j))) →
  present_answer hide a start number jobs req (f, w) =
  Ok (merged_response req start number (g <$> jobs), (f, w)).
Proof.
  intros Hd Hlen Hfit Hj. unfold present_answer. rewrite Hd.
  cbn zeta iota. rewrite (proj2 (Z.ltb_ge number 0)), Hlen, Z.ltb_irrefl by lia.
  cbn [orb].
  erewrite bind_ok by (by apply job_records_ok). rewrite length_fmap, Hlen.
  by rewrite chk_int_ok.
Qed.

Lemma present_range_ok f w package req sets pos :
  let start := pq_resultSetStartPoint req in
  let number := pq_numberOfRecordsRequested req in
  let t := m_merge_type w.1 in
  (∀ w l, schedule w l ≡ₚ l) → serves_presents w →
  p_route_pos package = Some pos →
  m_sets f !! pq_resultSetId req = Some sets → set_ok f sets →
  1 ≤ start → 0 ≤ number → start + number ≤ INT_MAX → mergeable t sets start →
  start - 1 + number ≤ Z.of_nat (length (merged t sets)) →
  ∃ req' f', present package req (f, w) =
    Ok ((set_response (Some (GDU_Z3950 (presentResponse
           (merged_response req' start number
              (job_answer f <$> range start number (merged t sets)))))) package, req'),
        (f', w)) ∧
    pq_referenceId req' = pq_referenceId req ∧
    same_backends f f' ∧ m_sets f' = m_sets f.
Proof.
  intros start number t Hsch Hserve Hpos Hsets Hset Hstart Hnumber Hfit Hmerge Hlen.
  set (jobs := range start number (merged t sets)).
  assert (Hjobs : jobs_ok sets jobs)
    by (intros j Hj; by eapply merged_valid, range_elem).
  destruct (send_move_ok pos package f w sets req jobs Hsch Hserve Hpos Hset Hjobs)
    as (n & s & Hsend & Hmove).
  assert (Hjl : Z.of_nat (length jobs) = number) by (apply range_length; lia).
  unfold present. erewrite bind_ok by done. simpl. rewrite Hsets.
  fold start number. rewrite !int32_id by (unfold in_int32, INT_MAX in *; lia).
  erewrite bind_ok by done. simpl. fold t.
  rewrite (merge_jobs_ok t) by
    (done || lia || (destruct Hset as [_ HF]; eapply Forall_impl; [exact HF|];
                     intros ? (? & _ & _ & -> & _); lia)).
  erewrite bind_ok by done. fold jobs.
  erewrite bind_ok by exact Hsend. cbn beta iota.
  erewrite bind_ok by exact Hmove.
  erewrite bind_ok; [|apply collect_presents_ok].
  2: { intros i Hi. destruct (wanted_spec f sets jobs i Hset Hjobs Hi) as (b & Hb & Hc & _).
    cbn [m_backend_list set_backends]. rewrite on_backends_lookup, Hb. simpl.
    rewrite decide_True by done. do 3 eexists. split; [done|].
    unfold presented, present_reply. simpl. unfold is_closed in *. simpl. done. }
  erewrite bind_ok by done. cbn [z_diag no_successful close_p no_answers].
  match goal with |- context [if ?c then None else None] =>
    replace (if c then None else None) with (@None (Package R)) by (by destruct c) end.
  erewrite bind_ok; [|apply (present_answer_ok (job_answer f)); [done| |int_ok|]].
  - rewrite <-list_fmap_compose.
    rewrite (list_fmap_ext (job_answer f ∘ _) (job_answer f)).
    + do 2 eexists. split; [done|]. split_and!; [done| |done].
      split; [done|]. intros i. cbn [m_backend_list set_backends].
      rewrite on_backends_lookup. destruct (m_backend_list f !! i) as [b|]; [|done].
      simpl. by destruct (decide (i ∈ wanted jobs sets)).
    + intros i j _. unfold compose, started. by case_decide.
  - by rewrite length_fmap.
  - intros j0 Hj0. apply list_elem_of_fmap in Hj0 as (j & -> & Hj).
    destruct (presented_job f sets jobs pos req j Hset Hjobs Hj) as (b & Hb & Hr).
    exists b. cbn [m_backend_list set_backends].
    assert (Hk : j_backend (started (wanted jobs sets) jobs j) = j_backend j ∧
      j_pos (started (wanted jobs sets) jobs j) = j_pos j)
      by (unfold started; by case_decide).
    destruct Hk as [Hkb Hkp]. rewrite Hkb, Hr. split; [done|].
    unfold job_answer. by rewrite Hkb, Hkp.
Qed.

Lemma same_backends_lookup f f' i b :
  same_backends f f' → m_backend_list f !! i = Some b →
  ∃ b', m_backend_list f' !! i = Some b' ∧
    p_session (b_package b') = p_session (b_package b) ∧ b_vhost b' = b_vhost b ∧
    b_route b' = b_route b.
Proof.
  intros [_ Hs] Hb. specialize (Hs i). rewrite Hb in Hs. simpl in Hs.
  destruct (m_backend_list f' !! i) as [b'|]; simplify_eq/=. eauto.
Qed.
Lemma same_backends_sym f f' : same_backends f f' → same_backends f' f.
Proof. intros [H1 H2]. by split. Qed.
Lemma same_backends_trans f1 f2 f3 :
  same_backends f1 f2 → same_backends f2 f3 → same_backends f1 f3.
Proof. intros [H1 H2] [H3 H4]. split; [congruence|]. intros i. by rewrite H4. Qed.
Lemma set_ok_same f f' sets : same_backends f f' → set_ok f sets → set_ok f' sets.
Proof.
  intros Hs [Hnd HF]. split; [done|]. eapply Forall_impl; [exact HF|].
  intros s (b & Hb & Hc & Hcount & ?).
  destruct (same_backends_lookup f f' _ b Hs Hb) as (b' & Hb' & Hses & _).
  exists b'. unfold is_closed, records_of in *. rewrite Hses. split_and!; done.
Qed.
Lemma job_answer_same f f' j : same_backends f f' → job_answer f' j = job_answer f j.
Proof.
  intros Hs. unfold job_answer.
  destruct (m_backend_list f !! j_backend j) as [b|] eqn:Hb.
  - destruct (same_backends_lookup f f' _ b Hs Hb) as (b' & -> & Hses & -> & _).
    unfold records_of. by rewrite Hses.
  - destruct (m_backend_list f' !! j_backend j) as [b'|] eqn:Hb'; [|done].
    apply same_backends_sym in Hs.
    destruct (same_backends_lookup f' f _ b' Hs Hb') as (? & ? & _). congruence.
Qed.
Lemma same_backends_on g L f :
  (∀ i b, p_session (b_package (g i b)) = p_session (b_package b) ∧
          b_vhost (g i b) = b_vhost b ∧ b_route (g i b) = b_route b) →
  same_backends f (set_backends (on_backends g L (m_backend_list f)) f).
Proof.
  intros Hg. split; [done|]. intros i. cbn [m_backend_list set_backends].
  rewrite on_backends_lookup. destruct (m_backend_list f !! i) as [b|]; [|done]. simpl.
  destruct (decide (i ∈ L)); [|done]. by destruct (Hg i b) as (-> & -> & ->).
Qed.

Lemma merged_length t sets :
  Forall (λ s, 0 ≤ bs_count s) sets → Z.of_nat (length (merged t sets)) = total_count sets.
Proof. destruct t; [apply interleaved_length|apply concatenated_length]. Qed.

(** *** Search *)
Context (base_search : SearchRequest → SearchResponse).
Definition target_search (p : Package R) (q : SearchRequest) : Package R :=
  set_response (Some (GDU_Z3950 (searchResponse (set_sr_resultCount
    (Z.of_nat (length (recs (Session.id (p_session p)))))
    (set_sr_records None (base_search q)))))) p.
(** Every target answers a Search request that asks for no records with their
    number. *)
Definition serves_searches (w : World) : Prop :=
  ∀ route p q, z3950 (p_request p) = Some (searchRequest q) →
    sq_smallSetUpperBound q = 0 → sq_largeSetLowerBound q = 1 →
    sq_mediumSetPresentNumber q = 0 →
    next route p w = Ok (target_search p q, w).
Definition search_reply (_ : string) (p : Package R) : Package R :=
  match z3950 (p_request p) with
  | Some (searchRequest q) => target_search p q
  | _ => p
  end.

Definition databases_of (req : SearchRequest) (b : Backend R) : list string :=
  match vhost_databases (b_vhost b) (sq_databaseNames req) with Ok d => d | _ => [] end.
Definition sent_search (pos : R) (req : SearchRequest) (i : nat) (b : Backend R) :
    Backend R :=
  sent pos (λ _, searchRequest (backend_search_request req (databases_of req b))) i b.
Definition searched (pos : R) (req : SearchRequest) (i : nat) (b : Backend R) : Backend R :=
  let b := sent_search pos req i b in
  set_package (search_reply (b_route b) (b_package b)) b.

Lemma send_searches_ok `{!YazLaws Y} pos package f w req L :
  p_route_pos package = Some pos → NoDup L →
  (∀ i, i ∈ L → is_Some (m_backend_list f !! i)) →
  send_searches L req package (f, w) =
  Ok (tt, (set_backends (on_backends (sent_search pos req) L (m_backend_list f)) f, w)).
Proof.
  intros Hpos Hnd. revert f. induction Hnd as [|i L Hi Hnd IH]; intros f Hl;
    cbn [send_searches].
  { rewrite on_backends_nil. by destruct f. }
  destruct (Hl i) as [b Hb]; [left|].
  erewrite bind_ok by (by apply get_backend_ok).
  assert (Hd : vhost_databases (b_vhost b) (sq_databaseNames req) =
    Ok (databases_of req b)).
  { unfold databases_of, vhost_databases.
    by destruct (set_databases_from_zurl_spec (b_vhost b)) as (o & -> & _). }
  rewrite Hd. erewrite bind_ok by done.
  erewrite bind_ok by (by apply send_to_ok). rewrite IH.
  - do 3 f_equal. unfold set_backends. simpl. f_equal.
    rewrite <-on_backends_cons by done. f_equal. by eapply alter_ext_at.
  - intros j Hj. simpl. rewrite list_lookup_alter_ne by (intros ->; done).
    apply Hl. by right.
Qed.

Lemma collect_searches_ok (hits : Backend R → Z) i l a :
  Forall (λ b, is_closed (b_package b) = false ∧ ∃ r,
    z3950 (p_response (b_package b)) = Some (searchResponse r) ∧
    sr_records r = None ∧ sr_resultCount r = hits b ∧ in_int32 (hits b)) l →
  collect_searches i l a =
  (mk_Answers (z_diag a) (no_successful a + Z.of_nat (length l)) (close_p a),
   foldr (λ b n, hits b + n) 0 l,
   imap (λ k b, mk_BackendSet (i + k) (hits b)) l).
Proof.
  intros HF. revert i a. induction HF as [|b l (Hc & r & Hr & Hn & Hh & Hint) HF IH];
    intros i a; cbn [collect_searches].
  { destruct a. simpl. by rewrite Z.add_0_r. }
  rewrite Hr. unfold note_closed, note_records. rewrite Hc, Hn, Hh, IH.
  cbn [record_diagnostics z_diag no_successful close_p fst snd length imap foldr].
  rewrite int32_id, Nat.add_0_r by done. f_equal; [do 2 f_equal; lia|].
  f_equal. apply imap_ext. intros k b' _. simpl. f_equal. lia.
Qed.

(** The merged set of a search over all backends. *)
Definition whole_set (f : Frontend R) : list BackendSet :=
  imap (λ i b, mk_BackendSet i (Z.of_nat (length (records_of b)))) (m_backend_list f).
Lemma whole_set_backends f :
  bs_backend <$> whole_set f = seq 0 (length (m_backend_list f)).
Proof.
  unfold whole_set. apply list_eq. intros i. rewrite list_lookup_fmap, list_lookup_imap.
  destruct (m_backend_list f !! i) eqn:Hb; simpl.
  - apply lookup_lt_Some in Hb. by rewrite lookup_seq_lt.
  - apply lookup_ge_None in Hb. by rewrite lookup_seq_ge.
Qed.
Lemma whole_set_ok f :
  Forall (λ b, is_closed (b_package b) = false ∧
    Z.of_nat (length (records_of b)) ≤ INT_MAX) (m_backend_list f) →
  set_ok f (whole_set f).
Proof.
  intros HF. split; [rewrite whole_set_backends; apply NoDup_seq|].
  apply Forall_lookup. intros i s Hs. unfold whole_set in Hs.
  rewrite list_lookup_imap in Hs. destruct (m_backend_list f !! i) as [b|] eqn:Hb;
    simplify_eq/=. exists b.
  destruct (proj1 (Forall_lookup _ _) HF i b Hb). split_and!; done.
Qed.
Lemma whole_set_counts f : Forall (λ s, 0 ≤ bs_count s) (whole_set f).
Proof.
  apply Forall_lookup. intros i s Hs. unfold whole_set in Hs.
  rewrite list_lookup_imap in Hs. destruct (m_backend_list f !! i); simplify_eq/=. lia.
Qed.

Lemma on_backends_all_length g f :
  on_backends g (seq 0 (length (m_backend_list f))) (m_backend_list f) =
  imap g (m_backend_list f).
Proof. apply on_backends_all. Qed.
Lemma records_of_same b b' :
  p_session (b_package b') = p_session (b_package b) → records_of b' = records_of b.
Proof. unfold records_of. by intros ->. Qed.
Lemma searched_session pos req i b :
  p_session (b_package (searched pos req i b)) = p_session (b_package b) ∧
  b_vhost (searched pos req i b) = b_vhost b ∧ b_route (searched pos req i b) = b_route b.
Proof. done. Qed.
Lemma whole_set_same f f' : same_backends f f' → whole_set f' = whole_set f.
Proof.
  intros Hs. unfold whole_set. apply list_eq. intros i. rewrite !list_lookup_imap.
  destruct (m_backend_list f !! i) as [b|] eqn:Hb.
  - destruct (same_backends_lookup f f' i b Hs Hb) as (b' & -> & Hses & _). simpl.
    by rewrite (records_of_same b b' Hses).
  - destruct (m_backend_list f' !! i) as [b'|] eqn:Hb'; [|done].
    apply same_backends_sym in Hs.
    destruct (same_backends_lookup f' f i b' Hs Hb') as (? & ? & _). congruence.
Qed.

(** Everything up to the answers of the backends. *)
Definition after_search (pos : R) (req : SearchRequest) (f : Frontend R) : Frontend R :=
  set_backends (imap (searched pos req) (m_backend_list f)) f.
Lemma after_search_same pos req f : same_backends f (after_search pos req f).
Proof.
  unfold after_search. rewrite <-on_backends_all. apply same_backends_on.
  apply searched_session.
Qed.
Lemma searches_ok `{!YazLaws Y} pos package f w req :
  (∀ w l, schedule w l ≡ₚ l) → serves_searches w → p_route_pos package = Some pos →
  ∃ f1, send_searches (seq 0 (length (m_backend_list f))) req package (f, w) =
          Ok (tt, (f1, w)) ∧
        multi_move_all (f1, w) = Ok (tt, (after_search pos req f, w)).
Proof.
  intros Hsch Hserve Hpos. eexists. split.
  - apply send_searches_ok; [done|apply NoDup_seq|].
    intros i Hi%elem_of_seq. apply lookup_lt_is_Some_2. lia.
  - unfold multi_move_all, all_backends. erewrite bind_ok by done.
    cbn [m_backend_list set_backends fst]. rewrite on_backends_all, imap_length_.
    rewrite (multi_move_ok search_reply); [..|done|apply NoDup_seq|].
    + cbn [m_backend_list set_backends]. do 3 f_equal. unfold after_search, set_backends.
      simpl. f_equal.
      rewrite <-(imap_length_ (sent_search pos req) (m_backend_list f)), on_backends_all.
      apply list_eq. intros i. rewrite !list_lookup_imap. by destruct (m_backend_list f !! i).
    + intros i Hi%elem_of_seq. cbn [m_backend_list set_backends].
      destruct (lookup_lt_is_Some_2 (m_backend_list f) i) as [b Hb]; [lia|].
      rewrite list_lookup_imap, Hb. simpl. eexists. split; [done|].
      unfold search_reply. simpl. by apply Hserve.
Qed.
Lemma collected_ok pos req f :
  Forall (λ b, is_closed (b_package b) = false ∧
    Z.of_nat (length (records_of b)) ≤ INT_MAX) (m_backend_list f) →
  collect_searches 0 (m_backend_list (after_search pos req f)) no_answers =
  (mk_Answers None (Z.of_nat (length (m_backend_list f))) None,
   total_count (whole_set f), whole_set f).
Proof.
  intros HF. rewrite (collect_searches_ok (λ b, Z.of_nat (length (records_of b)))).
  - unfold after_search. cbn [m_backend_list set_backends]. rewrite imap_length_.
    assert (Hset : imap (λ k b, mk_BackendSet (0 + k) (Z.of_nat (length (records_of b))))
      (imap (searched pos req) (m_backend_list f)) = whole_set f).
    { unfold whole_set. apply list_eq. intros i. rewrite !list_lookup_imap.
      by destruct (m_backend_list f !! i). }
    rewrite Hset. do 2 f_equal. rewrite <-Hset. clear. unfold total_count.
    assert (H : ∀ l k, foldr (λ b n, Z.of_nat (length (records_of b)) + n) 0 l =
      foldr (λ s n, bs_count s + n) 0
        (imap (λ i b, mk_BackendSet (k + i) (Z.of_nat (length (records_of b)))) l)).
    { induction l as [|b l IH]; intros k; [done|]. cbn [imap foldr]. f_equal.
      rewrite (IH (S k)). f_equal. apply imap_ext. intros i b' _. unfold compose.
      by rewrite Nat.add_succ_comm. }
    apply (H _ 0%nat).
  - unfold after_search. cbn [m_backend_list set_backends]. apply Forall_lookup.
    intros i b Hb. rewrite list_lookup_imap in Hb.
    destruct (m_backend_list f !! i) as [b0|] eqn:Hb0; simplify_eq/=.
    destruct (proj1 (Forall_lookup _ _) HF i b0 Hb0) as [Hc Hmax].
    split; [done|]. eexists. split; [done|]. split_and!; [done|done|].
    unfold records_of in *. simpl. unfold in_int32. lia.
Qed.

(** C1. A Present request for a range of a merged result set is answered with
    exactly that range of the targets' records, interleaved or one target
    after the other as configured, each under the name of its target, and with
    their number and the next position. This holds in whatever order the
    threads run, and only ranges that the targets have are asked of them.
    The positions must be [int]s: the next one, the number of all records, and
    for round robin those that the skipping adds up, which must also be exact
    ([skipping_exact]); see [round_robin_overflows] for sets beyond. *)
Theorem present_merges (f : Frontend R) (w : World) (package : Package R)
    (req : PresentRequest) (sets : list BackendSet) (pos : R)
    (Hsched : ∀ w l, schedule w l ≡ₚ l) (Htargets : serves_presents w)
    (Hpos : p_route_pos package = Some pos)
    (Hsets : m_sets f !! pq_resultSetId req = Some sets) (Hset : set_ok f sets)
    (Hstart : 1 ≤ pq_resultSetStartPoint req)
    (Hnumber : 0 ≤ pq_numberOfRecordsRequested req)
    (Hnext : pq_resultSetStartPoint req + pq_numberOfRecordsRequested req ≤ INT_MAX)
    (Hexact : mergeable (m_merge_type w.1) sets (pq_resultSetStartPoint req))
    (Hrange : pq_resultSetStartPoint req - 1 + pq_numberOfRecordsRequested req
              ≤ Z.of_nat (length (merged (m_merge_type w.1) sets))) :
  ∃ req' f' resp,
    present package req (f, w) =
      Ok ((set_response (Some (GDU_Z3950 (presentResponse resp))) package, req'), (f', w)) ∧
    pr_records resp = Some (Records_DBOSD
      (job_answer f <$> range (pq_resultSetStartPoint req)
         (pq_numberOfRecordsRequested req) (merged (m_merge_type w.1) sets))) ∧
    pr_numberOfRecordsReturned resp = pq_numberOfRecordsRequested req ∧
    pr_nextResultSetPosition resp =
      pq_resultSetStartPoint req + pq_numberOfRecordsRequested req ∧
    same_backends f f' ∧ m_sets f' = m_sets f.
Proof.
  destruct (present_range_ok f w package req sets pos) as (req' & f' & Heq & _ & Hs & Hm);
    [done..|].
  do 3 eexists. split; [exact Heq|]. by split_and!.
Qed.

Lemma counts_bounded (f : Frontend R) :
  Forall (λ b, is_closed (b_package b) = false) (m_backend_list f) →
  total_count (whole_set f) ≤ INT_MAX →
  Forall (λ b, is_closed (b_package b) = false ∧ Z.of_nat (length (records_of b)) ≤ INT_MAX)
    (m_backend_list f).
Proof.
  intros Hopen Hsize. apply Forall_lookup. intros i b Hb.
  split; [by apply (proj1 (Forall_lookup _ _) Hopen i)|].
  etrans; [|exact Hsize]. apply (total_count_ge (whole_set f) (mk_BackendSet i _)).
  - apply whole_set_counts.
  - apply list_elem_of_lookup. exists i. unfold whole_set. by rewrite list_lookup_imap, Hb.
Qed.
(** C2. A Search is sent to all targets, none of which is asked for records,
    and answered with the sum of their counts; the merged set is recorded
    under its name with one part per target, in order. If the piggyback limits
    ask for records, the answer carries the first ones of the merged set. A
    piggybacked Present of a set with 2147483647 records, whose next position
    is no [int], is left out. *)
Theorem search_merges `{!YazLaws Y} (f : Frontend R) (w : World) (package : Package R)
    (req : SearchRequest) (pos : R)
    (Hsched : ∀ w l, schedule w l ≡ₚ l)
    (Hsearch : serves_searches w) (Hpresent : serves_presents w)
    (Hpos : p_route_pos package = Some pos)
    (Hopen : Forall (λ b, is_closed (b_package b) = false) (m_backend_list f))
    (Hsize : total_count (whole_set f) ≤ INT_MAX) :
  let size := total_count (whole_set f) in
  let number := (piggyback (sq_smallSetUpperBound req) (sq_largeSetLowerBound req)
                   (sq_mediumSetPresentNumber req) None None size None).1 in
  (0 < number → size < INT_MAX) →
  ∃ resp f',
    search package req (f, w) =
      Ok (set_response (Some (GDU_Z3950 (searchResponse resp))) package, (f', w)) ∧
    sr_resultCount resp = size ∧
    same_backends f f' ∧
    m_sets f' = <[sq_resultSetName req := whole_set f]> (m_sets f) ∧
    (0 < number →
     sr_numberOfRecordsReturned resp = number ∧
     sr_records resp = Some (Records_DBOSD
       (job_answer f <$> range 1 number (merged (m_merge_type w.1) (whole_set f))))) ∧
    (number ≤ 0 → sr_records resp = sr_records zget_searchResponse).
Proof.
  intros size number Hfit.
  pose proof (counts_bounded f Hopen Hsize) as Hmax.
  destruct (searches_ok pos package f w req Hsched Hsearch Hpos) as (f1 & Hs & Hm).
  unfold search. unfold all_backends at 1. erewrite bind_ok by done. cbn [fst].
  erewrite bind_ok by exact Hs. erewrite bind_ok by exact Hm. erewrite bind_ok by done.
  cbn [fst]. rewrite (collected_ok pos req f Hmax). erewrite bind_ok by done.
  cbn [z_diag no_successful close_p].
  match goal with |- context [if ?c then None else None] =>
    replace (if c then None else None) with (@None (Package R)) by (by destruct c) end.
  erewrite bind_ok by done. erewrite bind_ok by done. fold size. fold number.
  set (f2 := add_set (sq_resultSetName req) (whole_set f) (after_search pos req f)).
  assert (Hsame : same_backends f f2) by apply after_search_same.
  destruct (Z.ltb_spec 0 number) as [Hn|Hn].
  2: { do 2 eexists. split; [reflexivity|]. split_and!; [done|exact Hsame|done|lia|done]. }
  assert (Hle : number ≤ size).
  { pose proof (total_count_nonneg (whole_set f) (whole_set_counts f)) as H0.
    subst number. unfold piggyback. fold size in H0.
    repeat case_match; simpl; lia. }
  unfold piggyback_present. erewrite bind_ok by (by apply copy_filter_ok).
  set (p_req := set_pq_numberOfRecordsRequested number _).
  destruct (present_range_ok f2 w (set_request (Some (GDU_Z3950 (presentRequest p_req)))
    (set_route_pos (Some pos) (new_Package (p_session package) (p_origin package))))
    p_req (whole_set f) pos) as (req' & f' & Heq & _ & Hs' & Hm'); try done.
  - unfold f2. cbn. apply lookup_insert_eq.
  - eapply set_ok_same; [exact Hsame|]. by apply whole_set_ok.
  - cbn. lia.
  - cbn. specialize (Hfit Hn). lia.
  - unfold mergeable. cbn. destruct (m_merge_type w.1); [left|done].
    split; [apply first_class_1|by apply Hfit].
  - cbn. rewrite merged_length by apply whole_set_counts. fold size. lia.
  - erewrite bind_ok by exact Heq. cbn [fst]. simpl.
    replace (is_closed (set_response _ _)) with (is_closed package) by done.
    do 2 eexists. split; [destruct (is_closed package) eqn:Hcl; [|reflexivity]|].
    + do 2 f_equal. unfold close_session, set_session, set_response. simpl.
      unfold is_closed, Session.is_closed in Hcl. destruct package as [[? ?] ? ? ? ?].
      simpl in *. by subst.
    + split_and!; [done|by eapply same_backends_trans|by rewrite Hm'| |lia].
      intros _. split; [done|]. simpl. do 2 f_equal. apply list_fmap_ext.
      intros i j _. by apply job_answer_same.
Qed.
End targets.

(** *** Scan *)

(** The terms that fit into the window asked for: [k] of those before (nearest
    last), the rest from those after. *)
Definition terms_before (before_ : list ScanTermInfo) (position : Z) : nat :=
  Nat.min (length before_) (Z.to_nat (position - 1)).
Definition window (before_ after : list ScanTermInfo) (number position : Z) : list Entry :=
  let k := terms_before before_ position in
  get_entry <$> rev (take k before_) ++ take (Z.to_nat number - k) after.

Lemma fill_before_ok l i pr arr :
  0 ≤ i → pr - 1 - i ≤ Z.of_nat (length l) → pr - 1 - i ≤ Z.of_nat (length arr) →
  let c := Z.to_nat (pr - 1 - i) in
  fill_before l i pr arr = Ok ((Some ∘ get_entry <$> rev (take c l)) ++ drop c arr).
Proof.
  revert i arr. induction l as [|t l IH]; intros i arr Hi Hl Ha; cbn [fill_before].
  { simpl in Hl. replace (Z.to_nat (pr - 1 - i)) with 0%nat by lia. done. }
  destruct (Z.ltb_spec i (pr - 1)) as [Hlt|Hge].
  2: { by replace (Z.to_nat (pr - 1 - i)) with 0%nat by lia. }
  unfold write_entry. rewrite (proj2 (Z.leb_le 0 _)), (proj2 (Z.ltb_lt _ _)) by lia.
  simpl. rewrite IH; [|lia|simpl in Hl; lia|rewrite length_insert; lia].
  replace (Z.to_nat (pr - 1 - i)) with (S (Z.to_nat (pr - 2 - i))) by lia.
  replace (Z.to_nat (pr - 1 - (i + 1))) with (Z.to_nat (pr - 2 - i)) by lia.
  set (c := Z.to_nat (pr - 2 - i)). simpl. rewrite fmap_app, <-app_assoc. do 2 f_equal.
  rewrite drop_insert_ge by done. rewrite Nat.sub_diag.
  destruct (lookup_lt_is_Some_2 arr c) as [x Hx]; [lia|].
  by rewrite (drop_S arr x c Hx).
Qed.
Lemma fill_after_ok l i n arr :
  0 ≤ i → Z.of_nat (length arr) = n →
  ∃ arr', fill_after l i n arr =
      Ok (i + Z.of_nat (length (take (Z.to_nat (n - i)) l)), arr') ∧
    take (Z.to_nat (i + Z.of_nat (length (take (Z.to_nat (n - i)) l)))) arr' =
    take (Z.to_nat i) arr ++ (Some ∘ get_entry <$> take (Z.to_nat (n - i)) l).
Proof.
  revert i arr. induction l as [|t l IH]; intros i arr Hi Hn; cbn [fill_after].
  { rewrite take_nil. exists arr. simpl. by rewrite Z.add_0_r, app_nil_r. }
  destruct (Z.ltb_spec i n) as [Hlt|Hge].
  2: { replace (Z.to_nat (n - i)) with 0%nat by lia. exists arr. simpl.
    by rewrite Z.add_0_r, app_nil_r. }
  unfold write_entry. rewrite (proj2 (Z.leb_le 0 _)), (proj2 (Z.ltb_lt _ _)) by lia.
  simpl. destruct (IH (i + 1) (<[Z.to_nat i := Some (get_entry t)]> arr))
    as (arr' & -> & Htake); [lia|by rewrite length_insert|].
  replace (Z.to_nat (n - i)) with (S (Z.to_nat (n - (i + 1)))) by lia.
  cbn [take length]. exists arr'. split; [do 2 f_equal; lia|].
  replace (i + Z.of_nat (S _)) with
    (i + 1 + Z.of_nat (length (take (Z.to_nat (n - (i + 1))) l))) by lia.
  rewrite Htake. replace (Z.to_nat (i + 1)) with (S (Z.to_nat i)) by lia.
  rewrite (take_S_r _ _ (Some (get_entry t))) by (apply list_lookup_insert_eq; lia).
  rewrite take_insert_ge by done. rewrite <-app_assoc. done.
Qed.
Lemma read_some (l : list Entry) : mapM id (Some <$> l) = Some l.
Proof. apply mapM_Some. apply Forall2_fmap_l, Forall_Forall2_diag, Forall_true. done. Qed.

Lemma scan_entries_ok before_ after number position :
  0 ≤ number → in_int32 (position - 1) →
  let k := terms_before before_ position in
  let pr := if Z.of_nat (length before_) <? position - 1
            then Z.of_nat (length before_) + 1 else position in
  scan_entries before_ after number position =
  if Z.of_nat k <=? number then
    let l := window before_ after number position in Ok (l, Z.of_nat (length l), pr)
  else Undef OutOfBounds.
Proof.
  intros Hn Hp k pr. unfold scan_entries. rewrite (proj2 (Z.ltb_ge _ _)) by done.
  rewrite chk_int_ok by done. cbn [mbind outcome_bind]. fold pr.
  assert (Hk : k = Z.to_nat (pr - 1)).
  { unfold k, pr, terms_before. destruct (Z.ltb_spec (Z.of_nat (length before_)) (position - 1)); lia. }
  assert (Hpr : pr - 1 ≤ Z.of_nat (length before_)).
  { unfold pr. destruct (Z.ltb_spec (Z.of_nat (length before_)) (position - 1)); lia. }
  destruct (Z.leb_spec (Z.of_nat k) number) as [Hle|Hgt].
  - rewrite fill_before_ok by (rewrite ?length_replicate; lia). rewrite Z.sub_0_r, <-Hk.
    cbn [mbind outcome_bind].
    replace (if pr <=? 0 then 0 else pr - 1) with (Z.of_nat k)
      by (destruct (Z.leb_spec pr 0); lia).
    assert (Hlen : length (Some ∘ get_entry <$> rev (take k before_)) = k)
      by (rewrite length_fmap, length_rev, length_take; lia).
    edestruct (fill_after_ok after (Z.of_nat k) number) as (arr' & Heq & Htake);
      [lia| |rewrite Heq].
    { rewrite length_app, Hlen, length_drop, length_replicate. lia. }
    cbn [mbind outcome_bind fst snd]. unfold read_entries. rewrite Htake.
    rewrite Nat2Z.id, take_app_le by lia. rewrite (take_ge (_ <$> _)) by lia.
    rewrite <-fmap_app, list_fmap_compose, read_some. cbn [mbind outcome_bind].
    replace (Z.to_nat (number - Z.of_nat k)) with (Z.to_nat number - k)%nat by lia.
    unfold window. fold k. do 3 f_equal. rewrite length_fmap, length_app, length_rev.
    rewrite (length_take_le before_) by lia. lia.
  - destruct before_ as [|t before_]; [simpl in *; lia|]. cbn [fill_before].
    rewrite (proj2 (Z.ltb_lt 0 (pr - 1))) by lia. unfold write_entry.
    rewrite length_replicate, (proj2 (Z.ltb_ge _ _)) by lia. by rewrite andb_false_r.
Qed.

Section scanning.
Context (scan_res : Z → ScanRequest → ScanResponse).
Definition target_scan (p : Package R) (q : ScanRequest) : Package R :=
  set_response (Some (GDU_Z3950 (scanResponse
    (scan_res (Session.id (p_session p)) q)))) p.
(** Every target answers a Scan request, without diagnostics. *)
Definition serves_scans (w : World) : Prop :=
  (∀ route p q, z3950 (p_request p) = Some (scanRequest q) →
     next route p w = Ok (target_scan p q, w)) ∧
  (∀ id q le, cr_entries (scan_res id q) = Some le → nonsurrogateDiagnostics le = []).
Definition scan_reply (_ : string) (p : Package R) : Package R :=
  match z3950 (p_request p) with
  | Some (scanRequest q) => target_scan p q
  | _ => p
  end.
Definition backend_scan_request (req : ScanRequest) (b : Backend R) : ScanRequest :=
  set_cq_databaseNames
    (match vhost_databases (b_vhost b) (cq_databaseNames req) with Ok d => d | _ => [] end)
    req.
Definition sent_scan (pos : R) (req : ScanRequest) (i : nat) (b : Backend R) : Backend R :=
  sent pos (λ _, scanRequest (backend_scan_request req b)) i b.
Definition scanned (pos : R) (req : ScanRequest) (i : nat) (b : Backend R) : Backend R :=
  let b := sent_scan pos req i b in
  set_package (scan_reply (b_route b) (b_package b)) b.

Lemma send_scans_ok `{!YazLaws Y} pos package f w req L :
  p_route_pos package = Some pos → NoDup L →
  (∀ i, i ∈ L → is_Some (m_backend_list f !! i)) →
  send_scans L req package (f, w) =
  Ok (tt, (set_backends (on_backends (sent_scan pos req) L (m_backend_list f)) f, w)).
Proof.
  intros Hpos Hnd. revert f. induction Hnd as [|i L Hi Hnd IH]; intros f Hl;
    cbn [send_scans].
  { rewrite on_backends_nil. by destruct f. }
  destruct (Hl i) as [b Hb]; [left|].
  erewrite bind_ok by (by apply get_backend_ok).
  destruct (set_databases_from_zurl_spec (b_vhost b)) as (o & Ho & _).
  erewrite bind_ok by (unfold vhost_databases; rewrite Ho; done).
  erewrite bind_ok by (by apply send_to_ok). rewrite IH.
  - do 3 f_equal. unfold set_backends. simpl. f_equal.
    rewrite <-on_backends_cons by done. f_equal. eapply alter_ext_at; [done|].
    unfold sent_scan, sent, backend_scan_request, vhost_databases. by rewrite Ho.
  - intros j Hj. simpl. rewrite list_lookup_alter_ne by (intros ->; done).
    apply Hl. by right.
Qed.
Lemma scans_ok `{!YazLaws Y} pos package f w req :
  (∀ w l, schedule w l ≡ₚ l) → serves_scans w → p_route_pos package = Some pos →
  ∃ f1, send_scans (seq 0 (length (m_backend_list f))) req package (f, w) =
          Ok (tt, (f1, w)) ∧
        multi_move_all (f1, w) =
          Ok (tt, (set_backends (imap (scanned pos req) (m_backend_list f)) f, w)).
Proof.
  intros Hsch [Hserve _] Hpos. eexists. split.
  - apply send_scans_ok; [done|apply NoDup_seq|].
    intros i Hi%elem_of_seq. apply lookup_lt_is_Some_2. lia.
  - unfold multi_move_all, all_backends. erewrite bind_ok by done.
    cbn [m_backend_list set_backends fst]. rewrite on_backends_all, imap_length_.
    rewrite (multi_move_ok scan_reply); [..|done|apply NoDup_seq|].
    + cbn [m_backend_list set_backends]. do 3 f_equal. unfold set_backends.
      simpl. f_equal.
      rewrite <-(imap_length_ (sent_scan pos req) (m_backend_list f)), on_backends_all.
      apply list_eq. intros i. rewrite !list_lookup_imap. by destruct (m_backend_list f !! i).
    + intros i Hi%elem_of_seq. cbn [m_backend_list set_backends].
      destruct (lookup_lt_is_Some_2 (m_backend_list f) i) as [b Hb]; [lia|].
      rewrite list_lookup_imap, Hb. simpl. eexists. split; [done|].
      unfold scan_reply. simpl. by apply Hserve.
Qed.

(** The answer of backend [b], and the terms of all answers. *)
Definition scan_answer (req : ScanRequest) (b : Backend R) : ScanResponse :=
  scan_res (Session.id (p_session (b_package b))) (backend_scan_request req b).
Definition answer_entries (r : ScanResponse) : list Entry :=
  match cr_entries r with Some le => entries le | None => [] end.
Definition answer_position (req : ScanRequest) (r : ScanResponse) : Z :=
  int32 (default (default 1 (cq_preferredPositionInResponse req)) (cr_positionOfTerm r)).
Fixpoint scan_terms (req : ScanRequest) (l : list (Backend R))
    (acc : list ScanTermInfo * list ScanTermInfo) :
    outcome (list ScanTermInfo * list ScanTermInfo) :=
  match l with
  | [] => Ok acc
  | b :: l' =>
      let r := scan_answer req b in
      acc ← (match answer_entries r with
             | [] => Ok acc
             | ents => scan_collect ents (answer_position req r) acc
             end);
      scan_terms req l' acc
  end.

Lemma collect_scans_ok w pos req l package acc k :
  serves_scans w → Forall (λ b, is_closed (b_package b) = false) l →
  collect_scans (imap (λ i, scanned pos req (k + i)%nat) l) req package acc =
  (terms ← scan_terms req l acc; Ok (package, Some terms)).
Proof.
  intros [_ Hnd] HF. revert acc k. induction HF as [|b l Hc HF IH]; intros acc k; [done|].
  cbn [imap collect_scans scan_terms].
  assert (Hcl : is_closed (b_package (scanned pos req (k + 0) b)) = false) by exact Hc.
  assert (Hr : z3950 (p_response (b_package (scanned pos req (k + 0) b))) =
    Some (scanResponse (scan_answer req b))) by done.
  rewrite Hcl, Hr. clear Hcl Hr.
  assert (IH' : ∀ acc, collect_scans (imap ((λ i, scanned pos req (k + i)%nat) ∘ S) l) req
    package acc = (terms ← scan_terms req l acc; Ok (package, Some terms))).
  { intros acc'. rewrite <-(IH acc' (S k)).
    rewrite (imap_ext _ (λ i, scanned pos req (S k + i)%nat)); [done|].
    intros i b' _. unfold compose. by rewrite Nat.add_succ_comm. }
  unfold answer_entries. destruct (cr_entries (scan_answer req b)) as [le|] eqn:Hle; [|by rewrite IH'].
  rewrite (Hnd _ _ _ Hle). destruct (entries le) as [|e es] eqn:He; [by rewrite IH'|].
  unfold answer_position. destruct (scan_collect _ _ acc); cbn [mbind outcome_bind]; [by rewrite IH'|done..].
Qed.
(** The terms are counted, or a sum or a position is no [int]. *)
Lemma scan_collect_fails ents position acc : match scan_collect ents position acc with
  | Ok _ => True | Undef k => k = IntOverflow | _ => False end.
Proof.
  unfold scan_collect. destruct (chk_int_cases (position - 1)) as [[_ ->]|[_ ->]]; [|done].
  cbn [mbind outcome_bind]. match goal with |- context [merge_terms insert_before ?e ?l] =>
    pose proof (merge_terms_fails (λ t my, String.ltb my t) e l) as Hb; unfold insert_before end.
  destruct (merge_terms _ _ acc.1); cbn [mbind outcome_bind]; try done.
  match goal with |- context [merge_terms insert_after ?e ?l] =>
    pose proof (merge_terms_fails String.ltb e l) as Ha; unfold insert_after end.
  by destruct (merge_terms _ _ acc.2).
Qed.
Lemma scan_terms_fails req l acc : match scan_terms req l acc with
  | Ok _ => True | Undef k => k = IntOverflow | _ => False end.
Proof.
  revert acc. induction l as [|b l IH]; intros acc; cbn [scan_terms]; [done|].
  destruct (answer_entries (scan_answer req b)) as [|e es]; [apply IH|].
  pose proof (scan_collect_fails (e :: es) (answer_position req (scan_answer req b)) acc) as Hc.
  destruct (scan_collect _ _ acc); cbn; [apply IH|done..].
Qed.

(** What becomes of the entries. *)
Definition scan_outcome (pos : R) (package : Package R) (req : ScanRequest)
    (f : Frontend R) (w : World) (o : outcome (list Entry * Z * Z)) :
    outcome (Package R * (Frontend R * World)) :=
  r ← o;
  let '(ents, n, pr) := r in
  let f_res := create_scanResponse (Some (scanRequest req)) 0 None in
  let nsd := default [] (nonsurrogateDiagnostics <$> cr_entries f_res) in
  Ok (set_response (Some (GDU_Z3950 (scanResponse
        (set_cr_numberOfEntriesReturned n
           (set_cr_positionOfTerm (Some pr)
              (set_cr_entries (Some {| entries := ents; nonsurrogateDiagnostics := nsd |})
                 f_res)))))) package,
      (set_backends (imap (scanned pos req) (m_backend_list f)) f, w)).

(** C16. A Scan merges the term lists of all targets and returns the window
    the client asks for: the nearest terms before the start term, up to the
    preferred position, then the terms from it on, up to the number of terms
    requested; number and position returned describe that window. Two requests
    break this: one without a preferred position is a null dereference once
    the targets have answered, and one whose preferred position lies more than
    one beyond the number of terms requested writes outside the array when the
    targets have enough terms before the start term. So does a sum of counts
    for a term, or a position minus one, that is no [int]. *)
Theorem scan_merges `{!YazLaws Y} (f : Frontend R) (w : World) (package : Package R)
    (req : ScanRequest) (pos : R)
    (Hsched : ∀ w l, schedule w l ≡ₚ l) (Hscan : serves_scans w)
    (Hpos : p_route_pos package = Some pos)
    (Hopen : Forall (λ b, is_closed (b_package b) = false) (m_backend_list f))
    (Hnumber : 0 ≤ cq_numberOfTermsRequested req ≤ INT_MAX) :
  let number := cq_numberOfTermsRequested req in
  match scan_terms req (m_backend_list f) ([], []), cq_preferredPositionInResponse req with
  | Ok _, None => scan package req (f, w) = Undef NullDeref
  | Ok terms, Some p =>
      let position := int32 p in
      let l := window terms.1 terms.2 number position in
      if decide (in_int32 (position - 1)) then
        if Z.of_nat (terms_before terms.1 position) <=? number then
          ∃ resp f', scan package req (f, w) =
              Ok (set_response (Some (GDU_Z3950 (scanResponse resp))) package, (f', w)) ∧
            answer_entries resp = l ∧
            cr_numberOfEntriesReturned resp = Z.of_nat (length l) ∧
            cr_positionOfTerm resp =
              Some (Z.min position (Z.of_nat (length terms.1) + 1)) ∧
            m_sets f' = m_sets f
        else scan package req (f, w) = Undef OutOfBounds
      else scan package req (f, w) = Undef IntOverflow
  | Undef k, _ => scan package req (f, w) = Undef IntOverflow ∧ k = IntOverflow
  | _, _ => False
  end.
Proof.
  intros number.
  destruct (scans_ok pos package f w req Hsched Hscan Hpos) as (f1 & Hs & Hm).
  assert (Heq : scan package req (f, w) =
    (terms ← scan_terms req (m_backend_list f) ([], []);
     match cq_preferredPositionInResponse req with
     | None => Undef NullDeref
     | Some p => scan_outcome pos package req f w
                   (scan_entries terms.1 terms.2 (int32 number) (int32 p))
     end)).
  { unfold scan. unfold all_backends at 1. erewrite bind_ok by done.
    cbn [fst]. erewrite bind_ok by exact Hs. erewrite bind_ok by exact Hm.
    erewrite bind_ok by done. cbn [m_backend_list set_backends fst].
    pose proof (collect_scans_ok w pos req _ package ([], []) 0 Hscan Hopen) as Hc.
    change (imap (λ i, scanned pos req (0 + i)%nat) (m_backend_list f))
      with (imap (scanned pos req) (m_backend_list f)) in Hc. rewrite Hc.
    destruct (scan_terms req (m_backend_list f) ([], [])) as [[tb ta]|?|?|]; try done.
    erewrite bind_ok by done. cbn [mbind outcome_bind fst snd].
    destruct (cq_preferredPositionInResponse req) as [p|]; [|done].
    erewrite bind_ok by done. fold number.
    unfold scan_outcome, mbind, outcome_bind. unfold M_bind, lift_outcome.
    by destruct (scan_entries tb ta (int32 number) (int32 p)) as [[[ents n] pr]|?|?|]. }
  rewrite Heq. clear Heq. pose proof (scan_terms_fails req (m_backend_list f) ([], [])) as Hf.
  destruct (scan_terms _ _ _) as [terms|?|?|]; [|done|by subst|done].
  destruct (cq_preferredPositionInResponse req) as [p|]; [|done]. cbn [mbind outcome_bind]. cbn zeta.
  rewrite (int32_id number) by (unfold in_int32, INT_MAX, number in *; lia).
  destruct (decide (in_int32 (int32 p - 1))) as [Hp|Hp].
  - rewrite scan_entries_ok by (done || unfold number; lia).
    destruct (Z.of_nat (terms_before terms.1 (int32 p)) <=? number) eqn:Hle; [|done].
    do 2 eexists. split; [reflexivity|]. split_and!; [done|done| |done]. simpl. f_equal.
    destruct (Z.ltb_spec (Z.of_nat (length terms.1)) (int32 p - 1)); lia.
  - unfold scan_entries. rewrite (proj2 (Z.ltb_ge _ _)) by (unfold number; lia).
    by destruct (chk_int_cases (int32 p - 1)) as [[? _]|[_ ->]].
Qed.
End scanning.
End filter.

(** *** Init *)

Lemma mask_get_clear o k m :
  0 ≤ k → MASK_GET (MASK_CLEAR o k) m = MASK_GET o m && negb (bool_decide (m = k)).
Proof.
  intros Hk. unfold MASK_GET, MASK_CLEAR. rewrite Z.clearbit_eqb by done. f_equal.
  rewrite Z.eqb_sym. f_equal.
  destruct (Z.eqb_spec m k); [by rewrite bool_decide_eq_true_2|by rewrite bool_decide_eq_false_2].
Qed.
Lemma common_mask_get n mask given (m : nat) :
  MASK_GET (common_mask n mask given) (Z.of_nat m) =
  MASK_GET given (Z.of_nat m) && (bool_decide (n ≤ m)%nat || MASK_GET mask (Z.of_nat m)).
Proof.
  induction n as [|n IH]; [by rewrite andb_true_r|].
  unfold common_mask in *. rewrite seq_S, foldl_app. cbn [foldl Nat.add].
  set (g := foldl _ given (seq 0 n)) in *.
  destruct (decide (m = n)) as [->|Hne].
  - rewrite (bool_decide_eq_true_2 (n ≤ n)%nat) in IH by done.
    rewrite (bool_decide_eq_false_2 (S n ≤ n)%nat) by lia. simpl orb in *.
    destruct (MASK_GET mask (Z.of_nat n)) eqn:Hm; [by rewrite IH|].
    rewrite mask_get_clear, bool_decide_eq_true_2 by (done || lia).
    by rewrite !andb_false_r.
  - assert (Hb : bool_decide (S n ≤ m)%nat = bool_decide (n ≤ m)%nat)
      by (apply bool_decide_ext; lia).
    rewrite Hb, <-IH. destruct (MASK_GET mask (Z.of_nat n)); [done|].
    rewrite mask_get_clear, bool_decide_eq_false_2 by lia. by rewrite andb_true_r.
Qed.

(** The Init responses of the backends that are still open. *)
Definition init_answer {R} (b : Backend R) : option InitResponse :=
  if is_closed (b_package b) then None
  else match z3950 (p_response (b_package b)) with
       | Some (initResponse r) => Some r
       | _ => None
       end.
Definition successes {R} (l : list (Backend R)) : list InitResponse :=
  filter (λ r, ir_result r = true) (omap init_answer l).

Lemma merge_inits_ok {R} (l : list (Backend R)) a :
  let r := merge_inits l a in
  r.1 = filter (λ b, is_closed (b_package b) = false) l ∧
  (∀ m : nat, (m < 22)%nat → MASK_GET (ia_options r.2) (Z.of_nat m) =
     MASK_GET (ia_options a) (Z.of_nat m) &&
     forallb (λ b, MASK_GET (ir_options b) (Z.of_nat m)) (omap init_answer l)) ∧
  (∀ m : nat, (m < 3)%nat → MASK_GET (ia_protocolVersion r.2) (Z.of_nat m) =
     MASK_GET (ia_protocolVersion a) (Z.of_nat m) &&
     forallb (λ b, MASK_GET (ir_protocolVersion b) (Z.of_nat m)) (omap init_answer l)) ∧
  ia_preferredMessageSize r.2 = foldl Z.min (ia_preferredMessageSize a)
    (ir_preferredMessageSize <$> successes l) ∧
  ia_maximumRecordSize r.2 = foldl Z.min (ia_maximumRecordSize a)
    (ir_maximumRecordSize <$> successes l) ∧
  ia_succeeded r.2 = ia_succeeded a + Z.of_nat (length (successes l)) ∧
  ia_failed r.2 = ia_failed a + Z.of_nat (length l) - Z.of_nat (length (successes l)).
Proof.
  revert a. induction l as [|b l IH]; intros a; cbn [merge_inits].
  { split_and!; intros; simpl; rewrite ?andb_true_r; (done || lia). }
  unfold successes in *. rewrite filter_cons.
  change (omap init_answer (b :: l)) with
    (match init_answer b with Some y => y :: omap init_answer l | None => omap init_answer l end).
  destruct (is_closed (b_package b)) eqn:Hc.
  { assert (Hi : init_answer b = None) by (unfold init_answer; by rewrite Hc).
    rewrite Hi, decide_False by done.
    destruct (IH (no_failed_1 a)) as (H1 & H2 & H3 & H4 & H5 & H6 & H7).
    split_and!; [done..|]. rewrite H7. simpl. lia. }
  rewrite decide_True by done. cbn [fst snd].
  destruct (z3950 (p_response (b_package b))) as [[]|] eqn:Hr;
    try (assert (Hi : init_answer b = None) by (unfold init_answer; by rewrite Hc, Hr);
         rewrite Hi; destruct (IH (no_failed_1 a)) as (H1 & H2 & H3 & H4 & H5 & H6 & H7);
         split_and!; [by rewrite H1|done..|by rewrite H7; simpl; lia]).
  assert (Hi : init_answer b = Some r) by (unfold init_answer; by rewrite Hc, Hr).
  rewrite Hi. clear Hi.
  destruct (IH (merge_init_response r a)) as (H1 & H2 & H3 & H4 & H5 & H6 & H7).
  rewrite filter_cons. unfold merge_init_response in *.
  split_and!; [by rewrite H1|..].
  - intros m Hm. rewrite H2 by done. cbn [forallb].
    destruct (ir_result r); cbn [ia_options]; rewrite common_mask_get,
      bool_decide_eq_false_2 by lia; by rewrite andb_assoc.
  - intros m Hm. rewrite H3 by done. cbn [forallb].
    destruct (ir_result r); cbn [ia_protocolVersion]; rewrite common_mask_get,
      bool_decide_eq_false_2 by lia; by rewrite andb_assoc.
  - rewrite H4. by destruct (ir_result r).
  - rewrite H5. by destruct (ir_result r).
  - rewrite H6. destruct (ir_result r); simpl; lia.
  - rewrite H7. destruct (ir_result r); simpl; lia.
Qed.

(** One Init answer for all targets: an option (a protocol version) is
    granted exactly if multi supports it and every target that answered has
    it; the sizes are the smallest of the client's and those of the targets
    that accepted; targets that closed their session are dropped. The session
    fails if no target accepted, or, unless unavailable targets are hidden, if
    any target did not. *)
Theorem init_merges {R} `{Y : Yaz} (l : list (Backend R)) (req : InitRequest)
    (hide : bool) :
  let f_resp := create_initResponse (Some (initRequest req)) 0 None in
  let a := init_acc req f_resp in
  let r := merge_inits l a in
  let resp := init_response hide f_resp r.2 in
  r.1 = filter (λ b, is_closed (b_package b) = false) l ∧
  (∀ m : nat, (m < 22)%nat → MASK_GET (ir_options resp) (Z.of_nat m) =
     MASK_GET (ia_options a) (Z.of_nat m) &&
     forallb (λ b, MASK_GET (ir_options b) (Z.of_nat m)) (omap init_answer l)) ∧
  (∀ m : nat, (m < 3)%nat → MASK_GET (ir_protocolVersion resp) (Z.of_nat m) =
     MASK_GET (ia_protocolVersion a) (Z.of_nat m) &&
     forallb (λ b, MASK_GET (ir_protocolVersion b) (Z.of_nat m)) (omap init_answer l)) ∧
  ir_preferredMessageSize resp =
    foldl Z.min (iq_preferredMessageSize req) (ir_preferredMessageSize <$> successes l) ∧
  ir_maximumRecordSize resp =
    foldl Z.min (iq_maximumRecordSize req) (ir_maximumRecordSize <$> successes l) ∧
  (init_fails hide r.2 = true ↔
     if hide then successes l = [] else (length (successes l) < length l)%nat) ∧
  (init_fails hide r.2 = true → ir_result resp = false).
Proof.
  intros f_resp a r resp.
  destruct (merge_inits_ok l a) as (H1 & H2 & H3 & H4 & H5 & H6 & H7).
  split_and!; [done..| |].
  - unfold init_fails. fold r in H6, H7. cbn in H6, H7.
    assert (Hle : (length (successes l) ≤ length l)%nat).
    { unfold successes. etrans; [apply length_filter|]. clear.
      induction l as [|b l IH]; [done|]. cbn. destruct (init_answer b); simpl; lia. }
    destruct hide.
    + rewrite Z.eqb_eq, H6. destruct (successes l); simpl; split; (done || lia).
    + destruct (Z.eqb_spec (ia_failed r.2) 0); simpl; split; (done || lia).
  - intros Hf. unfold resp, init_response. cbn [ir_result]. by rewrite Hf.
Qed.

(** The diagnostics of an answer, if it has any. *)
Definition diagnostics_of (records : option Records) : option (list DiagRec) :=
  match records with
  | Some (Records_NSD d) => Some [DiagRec_defaultFormat d]
  | Some (Records_multipleNSD dr) => Some dr
  | _ => None
  end.
Definition record_all (answers : list (option Records)) : option (list DiagRec) * Z :=
  foldl (λ zn r, record_diagnostics r zn.1 zn.2) (None, 0) answers.

Lemma record_all_ok answers z n :
  let r := foldl (λ zn r, record_diagnostics r zn.1 zn.2) (z, n) answers in
  r.2 = n + Z.of_nat (length (filter (λ a, diagnostics_of a = None) answers)) ∧
  r.1 = match z, omap diagnostics_of answers with
        | None, [] => None
        | _, ds => Some (default [] z ++ concat ds)
        end.
Proof.
  revert z n. induction answers as [|a answers IH]; intros z n.
  { simpl. split; [lia|]. destruct z; simpl; [by rewrite app_nil_r|done]. }
  cbn [foldl]. rewrite filter_cons.
  change (omap diagnostics_of (a :: answers)) with
    (match diagnostics_of a with
     | Some y => y :: omap diagnostics_of answers | None => omap diagnostics_of answers end).
  destruct a as [[]|]; cbn [record_diagnostics diagnostics_of fst snd];
    (destruct (IH z (n + 1)) as [H1 H2] || idtac).
  - rewrite decide_True by done. split; [rewrite H1; simpl; lia|exact H2].
  - rewrite decide_False by done. clear H1 H2.
    destruct (IH (Some (default [] z ++ [DiagRec_defaultFormat d])) n) as [H1 H2].
    split; [exact H1|]. rewrite H2. destruct z; simpl; by rewrite <-?app_assoc.
  - rewrite decide_False by done. clear H1 H2.
    destruct (IH (Some (default [] z ++ l)) n) as [H1 H2].
    split; [exact H1|]. rewrite H2. destruct z; simpl; by rewrite <-?app_assoc.
  - rewrite decide_True by done. split; [rewrite H1; simpl; lia|exact H2].
Qed.

(** No diagnostic is lost: what is recorded of any answers are all their
    diagnostics in order, and the number of answers that have none. Two or
    more are returned as they are, and so is a single one in the default
    format. A single externally defined diagnostic is taken for one in the
    default format, and an empty list is read out of bounds. *)
Theorem diagnostics_merged (answers : list (option Records)) :
  let ds := omap diagnostics_of answers in
  (record_all answers).2 =
    Z.of_nat (length (filter (λ a, diagnostics_of a = None) answers)) ∧
  match (record_all answers).1 with
  | None => ds = []
  | Some z =>
      ds ≠ [] ∧ z = concat ds ∧
      diagnostic_records z =
        match z with
        | [] => Undef OutOfBounds
        | [DiagRec_defaultFormat d] => Ok (Records_NSD d)
        | [DiagRec_externallyDefined] => Undef BadUnion
        | _ => Ok (Records_multipleNSD z)
        end
  end.
Proof.
  intros ds. unfold record_all. destruct (record_all_ok answers None 0) as [-> ->].
  fold ds. split; [lia|]. destruct ds as [|d ds]; [done|]. simpl.
  split_and!; [done..|]. destruct (d ++ concat ds) as [|[] [|x z]]; try done.
  - unfold diagnostic_records. by rewrite (proj2 (Z.ltb_lt _ _)) by (simpl; lia).
  - unfold diagnostic_records. by rewrite (proj2 (Z.ltb_lt _ _)) by (simpl; lia).
Qed.

(** ** A concrete configuration

    Two targets with two and four records, each record named after its place. *)
Definition example_recs (id : Z) : list NamePlusRecord :=
  (λ s, {| databaseName := None; npr_record := octet_record s |}) <$>
  (if id =? 1 then ["a1"; "a2"] else ["b1"; "b2"; "b3"; "b4"]).
Definition example_scan (id : Z) (q : ScanRequest) : ScanResponse :=
  let ti s n := Entry_termInfo {| term := Term_general s; globalOccurrences := Some n |} in
  set_cr_entries (Some {| entries := if id =? 1 then [ti "x" 1; ti "y" 2]
                                     else [ti "y" 5; ti "z" 7];
                          nonsurrogateDiagnostics := [] |})
    (zget_scanResponse (Yaz := ref_yaz)).
Definition example_base_present (_ : PresentRequest) : PresentResponse :=
  zget_presentResponse (Yaz := ref_yaz).
Definition example_base_search (_ : SearchRequest) : SearchResponse :=
  zget_searchResponse (Yaz := ref_yaz).
Definition example_next (_ : string) (p : Package unit) :
    M (World (R := unit) (E := unit)) (Package unit) :=
  match z3950 (p_request p) with
  | Some (presentRequest q) => mret (target_present example_recs example_base_present p q)
  | Some (searchRequest q) => mret (target_search example_recs example_base_search p q)
  | Some (scanRequest q) => mret (target_scan example_scan p q)
  | _ => mret p
  end.
(** The threads finish in reverse order. *)
Definition example_schedule (_ : World (R := unit) (E := unit)) (l : list nat) : list nat :=
  reverse l.
Definition example_backend (id : Z) (vhost : string) : Backend unit :=
  mk_Backend (mk_Package (Session.mk id false) Origin.create (Some tt) None None) vhost "" "".
Definition example_frontend : Frontend unit :=
  mk_Frontend true [example_backend 1 "a"; example_backend 2 "b"]
    {["s" := [mk_BackendSet 0 2; mk_BackendSet 1 4]]}.
Definition example_world : World (R := unit) (E := unit) :=
  (Rep_new, Build_Global 2 tt).
Definition example_package (a : APDU) : Package unit :=
  mk_Package (Session.mk 0 false) Origin.create (Some tt) (Some (GDU_Z3950 a)) None.
Definition example_present (start number : Z) : PresentRequest :=
  set_pq_numberOfRecordsRequested number (set_pq_resultSetStartPoint start
    (set_pq_resultSetId "s" (zget_presentRequest (Yaz := ref_yaz)))).
Definition example_search : SearchRequest :=
  set_sq_resultSetName "s" (set_sq_mediumSetPresentNumber 3 (set_sq_largeSetLowerBound 10
    (zget_searchRequest (Yaz := ref_yaz)))).
Definition example_scan_request : ScanRequest :=
  {| cq_referenceId := None; cq_databaseNames := []; cq_termListAndStartPoint := "y";
     cq_stepSize := None; cq_numberOfTermsRequested := 2;
     cq_preferredPositionInResponse := Some 1 |}.

Lemma example_schedule_perm w l : example_schedule w l ≡ₚ l.
Proof. apply reverse_Permutation. Qed.

Lemma present_merges_witness :
  ∃ req' f' resp,
    present (Y := ref_yaz) example_next example_schedule
      (example_package (presentRequest (example_present 2 3))) (example_present 2 3)
      (example_frontend, example_world) =
      Ok ((set_response (Some (GDU_Z3950 (presentResponse resp)))
             (example_package (presentRequest (example_present 2 3))), req'),
          (f', example_world)) ∧
    pr_records resp = Some (Records_DBOSD
      [{| databaseName := Some "b"; npr_record := octet_record "b1" |};
       {| databaseName := Some "a"; npr_record := octet_record "a2" |};
       {| databaseName := Some "b"; npr_record := octet_record "b2" |}]).
Proof.
  destruct (present_merges (Y := ref_yaz) example_next example_schedule example_recs
    example_base_present example_frontend example_world
    (example_package (presentRequest (example_present 2 3))) (example_present 2 3)
    [mk_BackendSet 0 2; mk_BackendSet 1 4] tt) as (req' & f' & resp & H1 & H2 & _).
  - apply example_schedule_perm.
  - intros route p q Hq _ _ _. unfold example_next. rewrite Hq. reflexivity.
  - reflexivity.
  - reflexivity.
  - split; [repeat constructor; set_solver|].
    repeat constructor.
    + exists (example_backend 1 "a"). vm_compute. repeat split; discriminate.
    + exists (example_backend 2 "b"). vm_compute. repeat split; discriminate.
  - vm_compute. discriminate.
  - vm_compute. discriminate.
  - vm_compute. discriminate.
  - left. split; [|reflexivity]. intros s Hs Hpos.
    repeat (apply elem_of_cons in Hs as [->|Hs]; [vm_compute; discriminate|]).
    apply elem_of_nil in Hs as [].
  - vm_compute. discriminate.
  - exists req', f', resp. split; [exact H1|]. rewrite H2. reflexivity.
Defined.
Lemma search_merges_witness :
  ∃ resp f',
    search (Y := ref_yaz) example_next example_schedule
      (example_package (searchRequest example_search)) example_search
      (example_frontend, example_world) =
      Ok (set_response (Some (GDU_Z3950 (searchResponse resp)))
            (example_package (searchRequest example_search)), (f', example_world)) ∧
    sr_resultCount resp = 6 ∧ sr_numberOfRecordsReturned resp = 3.
Proof.
  destruct (search_merges (Y := ref_yaz) example_next example_schedule example_recs
    example_base_present example_base_search example_frontend example_world
    (example_package (searchRequest example_search)) example_search tt)
    as (resp & f' & H1 & H2 & _ & _ & H3 & _).
  - apply example_schedule_perm.
  - intros route p q Hq _ _ _. unfold example_next. rewrite Hq. reflexivity.
  - intros route p q Hq _ _ _. unfold example_next. rewrite Hq. reflexivity.
  - reflexivity.
  - repeat constructor.
  - vm_compute. discriminate.
  - intros _. reflexivity.
  - exists resp, f'. split; [exact H1|]. split; [exact H2|].
    apply H3. vm_compute. reflexivity.
Defined.
Lemma scan_merges_witness :
  ∃ resp f',
    scan (Y := ref_yaz) example_next example_schedule
      (example_package (scanRequest example_scan_request)) example_scan_request
      (example_frontend, example_world) =
      Ok (set_response (Some (GDU_Z3950 (scanResponse resp)))
            (example_package (scanRequest example_scan_request)), (f', example_world)) ∧
    answer_entries resp = [get_entry (mk_ScanTermInfo "x" 1);
                           get_entry (mk_ScanTermInfo "y" 7)].
Proof.
  destruct (scan_merges (Y := ref_yaz) example_next example_schedule example_scan
    example_frontend example_world (example_package (scanRequest example_scan_request))
    example_scan_request tt) as (resp & f' & H1 & H2 & _).
  - apply example_schedule_perm.
  - split.
    + intros route p q Hq. unfold example_next. rewrite Hq. reflexivity.
    + intros id q le Hle. injection Hle as <-. reflexivity.
  - reflexivity.
  - repeat constructor.
  - vm_compute. split; discriminate.
  - exists resp, f'. split; [exact H1|]. rewrite H2. reflexivity.
Defined.
End Multi.
