(* ===== verification/SessionShared.v ===== *)
(** * The session_shared filter

    [src/filter_session_shared.cpp]: clients with the same Init parameters
    share backend sessions and the result sets they hold. A backend class has
    the sessions for one set of Init parameters; a search or present uses a
    session that already has the result set, or makes one.

    Objects behind a [shared_ptr] live in tables of [Rep], under the location
    that stands for the pointer; a handler runs alone between the places where
    it sends a package on ([next]) or waits ([others]), where the store may
    change. *)
From S2P Require Import Prelude Zgdu Yaz Core Xml Util Frontends.

Module SessionShared.

(** ** Data *)

(** [InitKey]: the BER encodings of the two fields. *)
Record InitKey : Type := mk_InitKey {
  m_idAuthentication : list Z;
  m_otherInfo : list Z
}.
Definition buf_cmp (b1 b2 : list Z) : Z :=
  memcmp2 b1 (Z.of_nat (length b1)) b2 (Z.of_nat (length b2)).
(** [operator<]. *)
Definition InitKey_lt (k1 k2 : InitKey) : bool :=
  let c := buf_cmp (m_idAuthentication k1) (m_idAuthentication k2) in
  if c <? 0 then true
  else if 0 <? c then false
  else
    let c := buf_cmp (m_otherInfo k1) (m_otherInfo k2) in
    if c <? 0 then true else if 0 <? c then false else false.

(** [std::map<InitKey, BackendClassPtr>]: sorted by [operator<]; two keys are
    the same if neither comes first. *)
Definition BackendClassMap : Type := list (InitKey * nat).
Definition same_key (k1 k2 : InitKey) : bool :=
  negb (InitKey_lt k1 k2) && negb (InitKey_lt k2 k1).
Definition map_find (k : InitKey) (m : BackendClassMap) : option nat :=
  match find_first (λ e, same_key k e.1) m with
  | Some (_, e) => Some e.2
  | None => None
  end.
Fixpoint map_insert (k : InitKey) (c : nat) (m : BackendClassMap) : BackendClassMap :=
  match m with
  | [] => [(k, c)]
  | e :: m' =>
      if InitKey_lt e.1 k then e :: map_insert k c m'
      else if same_key k e.1 then (e.1, c) :: m'
      else (k, c) :: m
  end.

(** What the code uses of libraries: the encoders of the key, the comparison
    of queries and of other-info, the record cache and the clock. *)
Class Deps (E : Type) : Type := {
  z_IdAuthentication : option IdAuthentication → list Z;
  z_OtherInformation : OtherInformation → list Z;
  (** [Yaz_Z_Query::match]. *)
  query_match : Query → Query → bool;
  yaz_compare_z_OtherInformation : OtherInformation → OtherInformation → bool;
  (** [yazpp_1::RecordCache]. *)
  RecordCache : Type;
  cache_new : RecordCache;
  cache_lookup : RecordCache → Z → Z → option string → option RecordComposition →
    option (list NamePlusRecord);
  cache_add : RecordCache → list NamePlusRecord → Z → option RecordComposition →
    RecordCache;
  (** [time]. *)
  clock : E → Z
}.

Section data.
Context {R E : Type} `{D : Deps E}.

(** [SessionShared::BackendSet]. *)
Record BackendSet : Type := mk_BackendSet {
  m_result_set_id : string;
  m_databases : list string;
  m_result_set_size : Z;
  m_query : Query;
  bs_time_last_use : Z;
  m_record_cache : RecordCache;
  additionalSearchInfoRequest : OtherInformation;
  additionalSearchInfoResponse : OtherInformation
}.
Definition set_search_result (size : Z) (ai : OtherInformation) (s : BackendSet) :
    BackendSet :=
  mk_BackendSet (m_result_set_id s) (m_databases s) size (m_query s)
    (bs_time_last_use s) (m_record_cache s) (additionalSearchInfoRequest s) ai.
Definition set_cache (c : RecordCache) (s : BackendSet) : BackendSet :=
  mk_BackendSet (m_result_set_id s) (m_databases s) (m_result_set_size s) (m_query s)
    (bs_time_last_use s) c (additionalSearchInfoRequest s)
    (additionalSearchInfoResponse s).

(** [SessionShared::BackendInstance]; [m_sets] are locations. *)
Record BackendInstance : Type := mk_BackendInstance {
  m_session : Session.t;
  m_sets : list nat;
  m_in_use : bool;
  m_sequence_this : Z;
  m_result_set_sequence : Z;
  bi_time_last_use : Z;
  m_close_package : Package R
}.
Definition set_in_use (b : bool) (i : BackendInstance) : BackendInstance :=
  mk_BackendInstance (m_session i) (m_sets i) b (m_sequence_this i)
    (m_result_set_sequence i) (bi_time_last_use i) (m_close_package i).
Definition set_sequence (n : Z) (i : BackendInstance) : BackendInstance :=
  mk_BackendInstance (m_session i) (m_sets i) (m_in_use i) n
    (m_result_set_sequence i) (bi_time_last_use i) (m_close_package i).
Definition set_bi_sets (l : list nat) (i : BackendInstance) : BackendInstance :=
  mk_BackendInstance (m_session i) l (m_in_use i) (m_sequence_this i)
    (m_result_set_sequence i) (bi_time_last_use i) (m_close_package i).
Definition next_set_sequence (i : BackendInstance) : BackendInstance :=
  mk_BackendInstance (m_session i) (m_sets i) (m_in_use i) (m_sequence_this i)
    (int32 (m_result_set_sequence i + 1)) (bi_time_last_use i) (m_close_package i).
Definition set_bi_time (t : Z) (i : BackendInstance) : BackendInstance :=
  mk_BackendInstance (m_session i) (m_sets i) (m_in_use i) (m_sequence_this i)
    (m_result_set_sequence i) t (m_close_package i).
Definition set_close_package (p : Package R) (i : BackendInstance) : BackendInstance :=
  mk_BackendInstance (m_session i) (m_sets i) (m_in_use i) (m_sequence_this i)
    (m_result_set_sequence i) (bi_time_last_use i) p.

(** [SessionShared::BackendClass]. *)
Record BackendClass : Type := mk_BackendClass {
  m_named_result_sets : bool;
  m_backend_list : list nat;
  m_init_request : InitRequest;
  m_init_response : option InitResponse;
  m_sequence_top : Z;
  m_backend_set_ttl : Z;
  m_backend_expiry_ttl : Z;
  m_backend_set_max : Z;
  bc_preferredMessageSize : Z;
  bc_maximumRecordSize : Z;
  m_no_failed : Z;
  m_no_succeeded : Z;
  m_no_init : Z
}.
Definition set_backends (l : list nat) (c : BackendClass) : BackendClass :=
  mk_BackendClass (m_named_result_sets c) l (m_init_request c) (m_init_response c)
    (m_sequence_top c) (m_backend_set_ttl c) (m_backend_expiry_ttl c)
    (m_backend_set_max c) (bc_preferredMessageSize c) (bc_maximumRecordSize c)
    (m_no_failed c) (m_no_succeeded c) (m_no_init c).
Definition set_named (b : bool) (c : BackendClass) : BackendClass :=
  mk_BackendClass b (m_backend_list c) (m_init_request c) (m_init_response c)
    (m_sequence_top c) (m_backend_set_ttl c) (m_backend_expiry_ttl c)
    (m_backend_set_max c) (bc_preferredMessageSize c) (bc_maximumRecordSize c)
    (m_no_failed c) (m_no_succeeded c) (m_no_init c).
Definition set_init_response (r : option InitResponse) (c : BackendClass) : BackendClass :=
  mk_BackendClass (m_named_result_sets c) (m_backend_list c) (m_init_request c) r
    (m_sequence_top c) (m_backend_set_ttl c) (m_backend_expiry_ttl c)
    (m_backend_set_max c) (bc_preferredMessageSize c) (bc_maximumRecordSize c)
    (m_no_failed c) (m_no_succeeded c) (m_no_init c).
Definition next_sequence (c : BackendClass) : BackendClass :=
  mk_BackendClass (m_named_result_sets c) (m_backend_list c) (m_init_request c)
    (m_init_response c) (int32 (m_sequence_top c + 1)) (m_backend_set_ttl c)
    (m_backend_expiry_ttl c) (m_backend_set_max c) (bc_preferredMessageSize c)
    (bc_maximumRecordSize c) (m_no_failed c) (m_no_succeeded c) (m_no_init c).
Definition count_init (failed succeeded init : Z) (c : BackendClass) : BackendClass :=
  mk_BackendClass (m_named_result_sets c) (m_backend_list c) (m_init_request c)
    (m_init_response c) (m_sequence_top c) (m_backend_set_ttl c)
    (m_backend_expiry_ttl c) (m_backend_set_max c) (bc_preferredMessageSize c)
    (bc_maximumRecordSize c) (m_no_failed c + failed) (m_no_succeeded c + succeeded)
    (m_no_init c + init).

(** [SessionShared::FrontendSet] and [SessionShared::Frontend]. *)
Record FrontendSet : Type := mk_FrontendSet {
  fs_databases : list string;
  fs_query : Query
}.
Record Frontend : Type := mk_Frontend {
  m_is_virtual : bool;
  m_init_options : Z;
  m_backend_class : option nat;
  m_frontend_sets : gmap string FrontendSet
}.
Definition Frontend_new : Frontend := mk_Frontend false 0 None ∅.
Definition set_frontend_sets (s : gmap string FrontendSet) (f : Frontend) : Frontend :=
  mk_Frontend (m_is_virtual f) (m_init_options f) (m_backend_class f) s.

(** [SessionShared::Rep], and the tables of the objects behind pointers. *)
Record Rep : Type := mk_Rep {
  m_clients : Clients Frontend;
  m_backend_map : BackendClassMap;
  m_resultset_ttl : Z;
  m_resultset_max : Z;
  m_session_ttl : Z;
  m_optimize_search : bool;
  m_restart : bool;
  m_ignore_auth : bool;
  m_session_max : Z;
  m_preferredMessageSize : Z;
  m_maximumRecordSize : Z;
  heap_classes : gmap nat BackendClass;
  heap_backends : gmap nat BackendInstance;
  heap_sets : gmap nat BackendSet
}.
Definition Rep_new : Rep := mk_Rep ∅ [] 30 10 90 true false false 100 0 0 ∅ ∅ ∅.
Definition set_clients (c : Clients Frontend) (r : Rep) : Rep :=
  mk_Rep c (m_backend_map r) (m_resultset_ttl r) (m_resultset_max r) (m_session_ttl r)
    (m_optimize_search r) (m_restart r) (m_ignore_auth r) (m_session_max r)
    (m_preferredMessageSize r) (m_maximumRecordSize r) (heap_classes r)
    (heap_backends r) (heap_sets r).
Definition set_backend_map (m : BackendClassMap) (r : Rep) : Rep :=
  mk_Rep (m_clients r) m (m_resultset_ttl r) (m_resultset_max r) (m_session_ttl r)
    (m_optimize_search r) (m_restart r) (m_ignore_auth r) (m_session_max r)
    (m_preferredMessageSize r) (m_maximumRecordSize r) (heap_classes r)
    (heap_backends r) (heap_sets r).
Definition set_heap_classes (h : gmap nat BackendClass) (r : Rep) : Rep :=
  mk_Rep (m_clients r) (m_backend_map r) (m_resultset_ttl r) (m_resultset_max r)
    (m_session_ttl r) (m_optimize_search r) (m_restart r) (m_ignore_auth r)
    (m_session_max r) (m_preferredMessageSize r) (m_maximumRecordSize r) h
    (heap_backends r) (heap_sets r).
Definition set_heap_backends (h : gmap nat BackendInstance) (r : Rep) : Rep :=
  mk_Rep (m_clients r) (m_backend_map r) (m_resultset_ttl r) (m_resultset_max r)
    (m_session_ttl r) (m_optimize_search r) (m_restart r) (m_ignore_auth r)
    (m_session_max r) (m_preferredMessageSize r) (m_maximumRecordSize r)
    (heap_classes r) h (heap_sets r).
Definition set_heap_sets (h : gmap nat BackendSet) (r : Rep) : Rep :=
  mk_Rep (m_clients r) (m_backend_map r) (m_resultset_ttl r) (m_resultset_max r)
    (m_session_ttl r) (m_optimize_search r) (m_restart r) (m_ignore_auth r)
    (m_session_max r) (m_preferredMessageSize r) (m_maximumRecordSize r)
    (heap_classes r) (heap_backends r) h.
End data.
Arguments BackendInstance : clear implicits.
Arguments BackendSet E {D}.
Arguments Rep R E {D}.

(** ** Configuration *)
Section configure.
Context {R E : Type} `{D : Deps E}.
Implicit Types r : Rep R E.
Definition set_resultset (ttl max : Z) (optimize restart : bool) r : Rep R E :=
  mk_Rep (m_clients r) (m_backend_map r) ttl max (m_session_ttl r)
    optimize restart (m_ignore_auth r) (m_session_max r)
    (m_preferredMessageSize r) (m_maximumRecordSize r) (heap_classes r)
    (heap_backends r) (heap_sets r).
Definition set_session_limits (ttl max : Z) r : Rep R E :=
  mk_Rep (m_clients r) (m_backend_map r) (m_resultset_ttl r) (m_resultset_max r) ttl
    (m_optimize_search r) (m_restart r) (m_ignore_auth r) max
    (m_preferredMessageSize r) (m_maximumRecordSize r) (heap_classes r)
    (heap_backends r) (heap_sets r).
Definition set_init_limits (pref maxr : Z) (ignore : bool) r : Rep R E :=
  mk_Rep (m_clients r) (m_backend_map r) (m_resultset_ttl r) (m_resultset_max r)
    (m_session_ttl r) (m_optimize_search r) (m_restart r) ignore (m_session_max r)
    pref maxr (heap_classes r) (heap_backends r) (heap_sets r).

Fixpoint resultset_attrs (attrs : list xmlAttr) r : outcome (Rep R E) :=
  match attrs with
  | [] => Ok r
  | a :: attrs' =>
      let int_ d := mp_xml.get_int (a_children a) d in
      let bool_ d := mp_xml.get_bool (a_children a) d in
      if decide (a_name a = "ttl") then
        resultset_attrs attrs' (set_resultset (int_ 30) (m_resultset_max r)
          (m_optimize_search r) (m_restart r) r)
      else if decide (a_name a = "max") then
        resultset_attrs attrs' (set_resultset (m_resultset_ttl r) (int_ 10)
          (m_optimize_search r) (m_restart r) r)
      else if decide (a_name a = "optimizesearch") then
        resultset_attrs attrs' (set_resultset (m_resultset_ttl r) (m_resultset_max r)
          (bool_ true) (m_restart r) r)
      else if decide (a_name a = "restart") then
        resultset_attrs attrs' (set_resultset (m_resultset_ttl r) (m_resultset_max r)
          (m_optimize_search r) (bool_ true) r)
      else Throw ("Bad attribute " +:+ a_name a)
  end.
Fixpoint session_attrs (attrs : list xmlAttr) r : outcome (Rep R E) :=
  match attrs with
  | [] => Ok r
  | a :: attrs' =>
      let int_ d := mp_xml.get_int (a_children a) d in
      if decide (a_name a = "ttl") then
        session_attrs attrs' (set_session_limits (int_ 90) (m_session_max r) r)
      else if decide (a_name a = "max") then
        session_attrs attrs' (set_session_limits (m_session_ttl r) (int_ 100) r)
      else Throw ("Bad attribute " +:+ a_name a)
  end.
Fixpoint init_attrs (attrs : list xmlAttr) r : outcome (Rep R E) :=
  match attrs with
  | [] => Ok r
  | a :: attrs' =>
      let int_ d := mp_xml.get_int (a_children a) d in
      if decide (a_name a = "maximum-record-size") then
        init_attrs attrs' (set_init_limits (m_preferredMessageSize r) (int_ 0)
          (m_ignore_auth r) r)
      else if decide (a_name a = "preferred-message-size") then
        init_attrs attrs' (set_init_limits (int_ 0) (m_maximumRecordSize r)
          (m_ignore_auth r) r)
      else if decide (a_name a = "ignore-auth") then
        init_attrs attrs' (set_init_limits (m_preferredMessageSize r)
          (m_maximumRecordSize r) (mp_xml.get_bool (a_children a) false) r)
      else Throw ("Bad attribute " +:+ a_name a)
  end.
Fixpoint configure_loop (ptr : list xmlNode) r : outcome (Rep R E) :=
  match ptr with
  | [] => Ok r
  | n :: ptr' =>
      if decide (n_type n ≠ XML_ELEMENT_NODE) then configure_loop ptr' r
      else if decide (n_name n = "resultset") then
        r ← resultset_attrs (n_properties n) r; configure_loop ptr' r
      else if decide (n_name n = "session") then
        r ← session_attrs (n_properties n) r; configure_loop ptr' r
      else if decide (n_name n = "init") then
        r ← init_attrs (n_properties n) r; configure_loop ptr' r
      else Throw ("Bad element " +:+ n_name n)
  end.
Definition configure (ptr : xmlNode) r : outcome (Rep R E) :=
  configure_loop (n_children ptr) r.
End configure.

(** A location that is not in use. *)
Definition next_loc {A} (h : gmap nat A) : nat :=
  map_fold (λ k _ n, Nat.max (S k) n) O h.
(** [list::erase] of the first occurrence. *)
Fixpoint erase_first (b : nat) (l : list nat) : list nat :=
  match l with
  | [] => []
  | x :: l' => if decide (x = b) then l' else x :: erase_first b l'
  end.

Section filter.
Context `{Y : Yaz} {R E : Type} `{D : Deps E}.
Definition World : Type := Rep R E * Global E.
Context (next : string → Package R → M World (Package R)).
(** What other threads do while a caller waits for [m_cond_set_ready], and how
    many waits a run may have. *)
Context (others : M World unit) (patience : nat).
Notation W := (M World).

(** ** The tables *)
Definition get_class (c : nat) : W BackendClass :=
  w ← get; deref (heap_classes w.1 !! c).
Definition get_instance (b : nat) : W (BackendInstance R) :=
  w ← get; deref (heap_backends w.1 !! b).
Definition get_bset (s : nat) : W (BackendSet E) :=
  w ← get; deref (heap_sets w.1 !! s).
Definition modify_class (c : nat) (g : BackendClass → BackendClass) : W unit :=
  modify (λ w, (set_heap_classes (alter g c (heap_classes w.1)) w.1, w.2)).
Definition modify_instance (b : nat) (g : BackendInstance R → BackendInstance R) : W unit :=
  modify (λ w, (set_heap_backends (alter g b (heap_backends w.1)) w.1, w.2)).
Definition modify_bset (s : nat) (g : BackendSet E → BackendSet E) : W unit :=
  modify (λ w, (set_heap_sets (alter g s (heap_sets w.1)) w.1, w.2)).
Definition new_instance (i : BackendInstance R) : W nat :=
  w ← get;
  let b := next_loc (heap_backends w.1) in
  put (set_heap_backends (<[b := i]> (heap_backends w.1)) w.1, w.2) ;; mret b.
Definition new_bset (s : BackendSet E) : W nat :=
  w ← get;
  let l := next_loc (heap_sets w.1) in
  put (set_heap_sets (<[l := s]> (heap_sets w.1)) w.1, w.2) ;; mret l.
Definition new_class (c : BackendClass) : W nat :=
  w ← get;
  let l := next_loc (heap_classes w.1) in
  put (set_heap_classes (<[l := c]> (heap_classes w.1)) w.1, w.2) ;; mret l.
Definition time : W Z := w ← get; mret (clock (g_env w.2)).

(** ** Backend instances *)

(** The package that ends a backend session. *)
Definition closing (p : Package R) : Package R :=
  close_session (set_response
    (Some (GDU_Z3950 (create_close None Close_lackOfActivity None))) p).
(** [~BackendInstance], when the last pointer is gone. *)
Definition destroy_instance (b : nat) : W unit :=
  i ← get_instance b;
  p ← next "" (closing (m_close_package i));
  modify_instance b (set_close_package p).

Definition release_backend (b : nat) : W unit := modify_instance b (set_in_use false).
Definition remove_backend (c b : nat) : W unit :=
  cl ← get_class c;
  if decide (b ∈ m_backend_list cl) then
    modify_class c (set_backends (erase_first b (m_backend_list cl))) ;;
    i ← get_instance b;
    p ← next "" (closing (m_close_package i));
    modify_instance b (set_close_package p)
  else mret tt.
Definition use_backend (c b : nat) : W unit :=
  cl ← get_class c;
  modify_instance b (λ i, set_sequence (m_sequence_top cl) (set_in_use true i)) ;;
  modify_class c next_sequence.
(** [BackendInstance::timestamp]. *)
Definition timestamp (b : nat) : W unit :=
  i ← get_instance b;
  if m_in_use i then t ← time; modify_instance b (set_bi_time t)
  else undef AssertFailed.

Definition backend_init_request (cl : BackendClass) : InitRequest :=
  let req := m_init_request cl in
  let req := set_iq_options (foldl MASK_SET 0
    [Options_search; Options_present; Options_namedResultSets; Options_scan]) req in
  let req := set_iq_protocolVersion (foldl MASK_SET (iq_protocolVersion req)
    [ProtocolVersion_1; ProtocolVersion_2; ProtocolVersion_3]) req in
  let req := if bc_preferredMessageSize cl =? 0 then req
             else set_iq_preferredMessageSize (bc_preferredMessageSize cl) req in
  if bc_maximumRecordSize cl =? 0 then req
  else set_iq_maximumRecordSize (bc_maximumRecordSize cl) req.
(** Code and addinfo of the first diagnostic of a refused Init. *)
Definition init_diagnostic (res : InitResponse) : Z * string :=
  match ir_userInformationField res with
  | Some (External_userInfo1 (OtherInfo_externallyDefinedInfo
      (Some (External_diag1 (DiagnosticFormat_s_defaultDiagRec e :: _))) :: _)) =>
      (condition e, match addinfo e with v2Addinfo s => s | v3Addinfo s => s end)
  | _ => (0, "")
  end.
(** Code, addinfo and the new instance, or null; the new instance is
    destroyed when the target refuses. *)
Definition create_backend (c : nat) (frontend_package : Package R) :
    W (Z * string * option nat) :=
  s ← new_session;
  close_package ← copy_filter frontend_package
    (new_Package s (p_origin frontend_package));
  init_package ← copy_filter frontend_package
    (new_Package s (p_origin frontend_package));
  cl ← get_class c;
  modify_class c (count_init 0 0 1) ;;
  init_package ← next ""
    (set_request (Some (GDU_Z3950 (initRequest (backend_init_request cl)))) init_package);
  modify_class c (set_named false) ;;
  let fail (e : Z * string) : W (Z * string * option nat) :=
    (if is_closed init_package then mret tt
     else
       p ← copy_filter frontend_package init_package;
       next "" (close_session p) ;; mret tt) ;;
    modify_class c (count_init 1 0 0) ;;
    next "" (closing close_package) ;;
    mret (e.1, e.2, None) in
  match z3950 (p_response init_package) with
  | Some (initResponse res) =>
      (if MASK_GET (ir_options res) Options_namedResultSets
       then modify_class c (set_named true) else mret tt) ;;
      cl ← get_class c;
      (if m_no_succeeded cl =? 0 then modify_class c (set_init_response (Some res))
       else mret tt) ;;
      if ir_result res && negb (is_closed init_package) then
        t ← time;
        b ← new_instance (mk_BackendInstance s [] true 0 0 t close_package);
        modify_class c (λ cl, count_init 0 1 0 (set_backends (m_backend_list cl ++ [b]) cl)) ;;
        mret (0, "", Some b)
      else fail (init_diagnostic res)
  | _ => fail (0, "")
  end.

(** The unused instance that was used least recently. *)
Fixpoint least_recent (h : gmap nat (BackendInstance R)) (l : list nat)
    (best : option (nat * Z)) : outcome (option nat) :=
  match l with
  | [] => Ok (fst <$> best)
  | b :: l' =>
      match h !! b with
      | None => Undef NullDeref
      | Some i =>
          let better := match best with
                        | None => true
                        | Some (_, n) => m_sequence_this i <? n
                        end in
          least_recent h l'
            (if negb (m_in_use i) && better then Some (b, m_sequence_this i) else best)
      end
  end.
Definition get_backend (c : nat) (frontend_package : Package R) :
    W (Z * string * option nat) :=
  cl ← get_class c;
  w ← get;
  o ← lift_outcome (least_recent (heap_backends w.1) (m_backend_list cl) None);
  match o with
  | Some b => use_backend c b ;; mret (0, "", Some b)
  | None => create_backend c frontend_package
  end.

(** ** Finding or making a result set *)

(** [BackendSet::search]: the records of the answer, or the client's package
    with an error. *)
Definition search_failed (frontend_apdu : APDU) : APDU :=
  let addinfo := Some "session_shared: target closed connection during search" in
  match frontend_apdu with
  | searchRequest _ => searchResponse
      (create_searchResponse (Some frontend_apdu) BIB1_TEMPORARY_SYSTEM_ERROR addinfo)
  | presentRequest _ => presentResponse
      (create_presentResponse (Some frontend_apdu) BIB1_TEMPORARY_SYSTEM_ERROR addinfo)
  | _ => create_close (Some frontend_apdu) BIB1_TEMPORARY_SYSTEM_ERROR addinfo
  end.
Definition set_search_request (s : BackendSet E) (frontend_apdu : APDU) : SearchRequest :=
  let req := set_sq_databaseNames (m_databases s)
    (set_sq_query (m_query s)
       (set_sq_resultSetName (m_result_set_id s)
          (set_sq_additionalSearchInfo (additionalSearchInfoRequest s)
             zget_searchRequest))) in
  match frontend_apdu with
  | searchRequest q => set_sq_preferredRecordSyntax (sq_preferredRecordSyntax q) req
  | _ => req
  end.
Definition set_search (l : nat) (frontend_package search_package : Package R)
    (frontend_apdu : APDU) : W (Package R + option Records) :=
  s ← get_bset l;
  search_package ← next "" (set_request
    (Some (GDU_Z3950 (searchRequest (set_search_request s frontend_apdu)))) search_package);
  let failed := inl (set_response (Some (GDU_Z3950 (search_failed frontend_apdu)))
                       frontend_package) in
  match z3950 (p_response search_package) with
  | Some (searchResponse b_resp) =>
      if is_closed search_package then mret failed
      else
        modify_bset l (set_search_result (sr_resultCount b_resp)
                         (sr_additionalSearchInfo b_resp)) ;;
        mret (inr (sr_records b_resp))
  | _ => mret failed
  end.

(** A set with the same databases, query and, for a search, the same
    additional search info. *)
Definition set_matches (databases : list string) (query : Query) (apdu_req : APDU)
    (s : BackendSet E) : bool :=
  match_databases (m_databases s) databases && query_match query (m_query s) &&
  match apdu_req with
  | searchRequest q =>
      yaz_compare_z_OtherInformation (sq_additionalSearchInfo q)
        (additionalSearchInfoRequest s)
  | _ => true
  end.
(** Look through the sets of the backends, in order. *)
Fixpoint find_set (r : Rep R E) (P : BackendSet E → bool) (sets : list nat) :
    outcome (option nat) :=
  match sets with
  | [] => Ok None
  | l :: sets' =>
      match heap_sets r !! l with
      | None => Undef NullDeref
      | Some s => if P s then Ok (Some l) else find_set r P sets'
      end
  end.
Fixpoint find_match (r : Rep R E) (P : BackendSet E → bool) (backends : list nat) :
    outcome (option (nat * nat)) :=
  match backends with
  | [] => Ok None
  | b :: backends' =>
      match heap_backends r !! b with
      | None => Undef NullDeref
      | Some i =>
          o ← find_set r P (m_sets i);
          match o with
          | Some l => Ok (Some (b, l))
          | None => find_match r P backends'
          end
      end
  end.

(** [override_set]: a set of an unused backend that may be replaced ... *)
Definition replaceable (now ttl max_sets : Z) (databases : list string)
    (out_of_sessions : bool) (s : BackendSet E) : bool :=
  ((1 <? max_sets) || match_databases (m_databases s) databases) &&
  (out_of_sessions || (now <? bs_time_last_use s) ||
   (ttl <=? now - bs_time_last_use s)).
Definition unused (r : Rep R E) (backends : list nat) : list nat :=
  filter (λ b, match heap_backends r !! b with
               | Some i => negb (m_in_use i) | None => true end = true) backends.
(** ... or else an unused backend with room for one more set. *)
Fixpoint find_room (r : Rep R E) (max_sets : Z) (backends : list nat) :
    outcome (option nat) :=
  match backends with
  | [] => Ok None
  | b :: backends' =>
      match heap_backends r !! b with
      | None => Undef NullDeref
      | Some i =>
          if negb (m_in_use i) && (Z.of_nat (length (m_sets i)) <? max_sets)
          then Ok (Some b) else find_room r max_sets backends'
      end
  end.
(** The name of a new set. *)
Definition new_set_id (c b : nat) : W string :=
  cl ← get_class c;
  if m_named_result_sets cl then
    i ← get_instance b;
    modify_instance b next_set_sequence ;;
    mret (print_int (m_result_set_sequence i))
  else mret "default".
Definition max_sets_of (cl : BackendClass) : Z :=
  if m_named_result_sets cl then m_backend_set_max cl else 1.
Definition override_set (c : nat) (databases : list string) (out_of_sessions : bool) :
    W (option (nat * string)) :=
  cl ← get_class c;
  now ← time;
  w ← get;
  let max_sets := max_sets_of cl in
  o ← lift_outcome (find_match w.1
        (replaceable now (m_backend_set_ttl cl) max_sets databases out_of_sessions)
        (unused w.1 (m_backend_list cl)));
  match o with
  | Some (b, l) =>
      s ← get_bset l;
      modify_instance b (λ i, set_bi_sets (erase_first l (m_sets i)) i) ;;
      mret (Some (b, m_result_set_id s))
  | None =>
      o ← lift_outcome (find_room w.1 max_sets (m_backend_list cl));
      match o with
      | Some b => id ← new_set_id c b; mret (Some (b, id))
      | None => mret None
      end
  end.

(** What one pass of [get_set] comes to: a backend and its set; an answer to
    the client after a search that failed; an answer because there is no
    backend, where [found_set] stays as it was before the pass; or a restart,
    where [found_set] is the set of this pass. *)
Inductive SetResult : Type :=
  | sr_found (b l : nat)
  | sr_answer (package : Package R)
  | sr_refused (package : Package R)
  | sr_restart (l : nat).

Definition get_set_refused (apdu_req : APDU) (addinfo : string) : APDU :=
  match apdu_req with
  | searchRequest _ => searchResponse (create_searchResponse (Some apdu_req)
      BIB1_TEMPORARY_SYSTEM_ERROR (Some addinfo))
  | presentRequest _ => presentResponse (create_presentResponse (Some apdu_req)
      BIB1_TEMPORARY_SYSTEM_ERROR (Some addinfo))
  | _ => create_close (Some apdu_req) BIB1_TEMPORARY_SYSTEM_ERROR (Some addinfo)
  end.
(** The condition of the first diagnostic, 0 if there is none. *)
Definition records_condition (z_records : Records) : Z :=
  match z_records with
  | Records_NSD d => condition d
  | Records_multipleNSD (DiagRec_defaultFormat d :: _) => condition d
  | _ => 0
  end.
(** The client's package after a search that gave a diagnostic. *)
Definition diagnostic_answer (apdu_req : APDU) (z_records : Records)
    (package : Package R) : Package R :=
  match apdu_req with
  | searchRequest _ =>
      set_response (Some (GDU_Z3950 (searchResponse
        (set_sr_records (Some z_records)
           (set_sr_searchStatus SearchResponse_none
              (create_searchResponse (Some apdu_req) 0 None)))))) package
  | presentRequest _ =>
      set_response (Some (GDU_Z3950 (presentResponse
        (set_pr_records (Some z_records)
           (create_presentResponse (Some apdu_req) 0 None))))) package
  | _ => package
  end.

(** Look for a set that matches on a backend that is not in use. If the
    backend is in use, the code waits for a notification and starts again
    with the first backend. *)
Fixpoint wait_match (fuel : nat) (c : nat) (P : BackendSet E → bool) :
    W (option (nat * nat)) :=
  cl ← get_class c;
  w ← get;
  o ← lift_outcome (find_match w.1 P (m_backend_list cl));
  match o with
  | None => mret None
  | Some (b, l) =>
      i ← get_instance b;
      if m_in_use i then
        match fuel with
        | O => out_of_fuel
        | S fuel' => others ;; wait_match fuel' c P
        end
      else mret (Some (b, l))
  end.
(** The part of a pass that runs under the lock: a set that matches, or an
    unused backend to search on and the name of the set. *)
Definition choose_backend (c : nat) (apdu_req : APDU) (databases : list string)
    (query : Query) (out_of_sessions : bool) :
    W (nat * nat + option (nat * string)) :=
  w ← get;
  o ← (if m_optimize_search w.1
       then wait_match patience c (set_matches databases query apdu_req)
       else mret None);
  match o with
  | Some (b, l) => use_backend c b ;; mret (inl (b, l))
  | None =>
      o ← override_set c databases out_of_sessions;
      match o with
      | Some (b, id) => use_backend c b ;; mret (inr (Some (b, id)))
      | None => mret (inr None)
      end
  end.

(** The end of a pass: search on backend [b] under the name [id]. *)
Definition search_new_set (c b : nat) (id : string) (package : Package R)
    (apdu_req : APDU) (databases : list string) (query : Query)
    (session_restarted : bool) : W SetResult :=
  timestamp b ;;
  t ← time;
  let ai := match apdu_req with
            | searchRequest q => sq_additionalSearchInfo q | _ => [] end in
  l ← new_bset (mk_BackendSet id databases 0 query t cache_new ai []);
  i ← get_instance b;
  search_package ← copy_filter package (new_Package (m_session i) (p_origin package));
  o ← set_search l package search_package apdu_req;
  match o with
  | inl package => remove_backend c b ;; destroy_instance b ;; mret (sr_answer package)
  | inr z_records =>
      w ← get;
      let may_restart := m_restart w.1 && negb session_restarted in
      let cond := match z_records with Some r => records_condition r | None => 0 end in
      if may_restart && (cond =? BIB1_TEMPORARY_SYSTEM_ERROR) then
        remove_backend c b ;; destroy_instance b ;; mret (sr_restart l)
      else
        match (if cond =? 0 then None else z_records) with
        | Some r =>
            release_backend b ;; mret (sr_answer (diagnostic_answer apdu_req r package))
        | None =>
            s ← get_bset l;
            if may_restart && (m_result_set_size s <? 0) then
              remove_backend c b ;; destroy_instance b ;; mret (sr_restart l)
            else
              modify_instance b (λ i, set_bi_sets (m_sets i ++ [l]) i) ;;
              mret (sr_found b l)
        end
  end.
Definition get_set_pass (c : nat) (package : Package R) (apdu_req : APDU)
    (databases : list string) (query : Query) (session_restarted : bool) :
    W SetResult :=
  cl ← get_class c;
  w ← get;
  let out_of_sessions :=
    m_session_max w.1 <=? Z.of_nat (length (m_backend_list cl)) in
  o ← choose_backend c apdu_req databases query out_of_sessions;
  match o with
  | inl (b, l) => mret (sr_found b l)
  | inr (Some (b, id)) =>
      search_new_set c b id package apdu_req databases query session_restarted
  | inr None =>
      let refuse addinfo := mret (sr_refused (set_response
        (Some (GDU_Z3950 (get_set_refused apdu_req addinfo))) package)) in
      if out_of_sessions then refuse "session_shared: all sessions in use"
      else
        r ← create_backend c package;
        let '(_, addinfo, o) := r in
        match o with
        | None => refuse (if decide (addinfo = "")
                          then "session_shared: could not create backend" else addinfo)
        | Some b =>
            id ← new_set_id c b;
            search_new_set c b id package apdu_req databases query session_restarted
        end
  end.
(** [get_set]: the code goes back to [restart] at most once. The result is
    [inl] if [found_set] is null, and otherwise [found_backend] and
    [found_set]: a pass after a restart that is refused leaves a null
    [found_backend] and the set of the first pass. *)
Definition get_set (c : nat) (package : Package R) (apdu_req : APDU)
    (databases : list string) (query : Query) : W (Package R + option nat * nat) :=
  r ← get_set_pass c package apdu_req databases query false;
  match r with
  | sr_found b l => mret (inr (Some b, l))
  | sr_answer package | sr_refused package => mret (inl package)
  | sr_restart l =>
      r ← get_set_pass c package apdu_req databases query true;
      match r with
      | sr_found b l => mret (inr (Some b, l))
      | sr_answer package => mret (inl package)
      | sr_refused _ => mret (inr (None, l))
      | sr_restart _ => out_of_fuel
      end
  end.

(** ** Handlers *)
Notation H := (M (Frontend * World)).

(** [result_set_ref]: the query with references to result sets replaced by
    their queries, or a diagnostic and the name of a set. *)
Fixpoint result_set_ref (sets : gmap string FrontendSet) (databases : list string)
    (s : RPNStructure) : (Z * string) + RPNStructure :=
  match s with
  | RPNStructure_simple (Operand_resultSetId id) =>
      match sets !! id with
      | None => inl (BIB1_SPECIFIED_RESULT_SET_DOES_NOT_EXIST, id)
      | Some fset =>
          if match_databases (fs_databases fset) databases then
            match fs_query fset with
            | Query_type_1 _ rpn | Query_type_101 _ rpn => inr rpn
            | _ => inl (BIB1_SPECIFIED_RESULT_SET_DOES_NOT_EXIST, id)
            end
          else inl (BIB1_SPECIFIED_RESULT_SET_DOES_NOT_EXIST, id)
      end
  | RPNStructure_simple o => inr (RPNStructure_simple o)
  | RPNStructure_complex op s1 s2 =>
      match result_set_ref sets databases s1 with
      | inl e => inl e
      | inr s1' =>
          match result_set_ref sets databases s2 with
          | inl e => inl e
          | inr s2' => inr (RPNStructure_complex op s1' s2')
          end
      end
  end.
Definition resolve_query (sets : gmap string FrontendSet) (databases : list string)
    (q : Query) : (Z * string) + Query :=
  match q with
  | Query_type_1 a rpn =>
      match result_set_ref sets databases rpn with
      | inl e => inl e | inr rpn => inr (Query_type_1 a rpn) end
  | Query_type_101 a rpn =>
      match result_set_ref sets databases rpn with
      | inl e => inl e | inr rpn => inr (Query_type_101 a rpn) end
  | q => inr q
  end.

Definition frontend_class : H nat :=
  f ← get_fr;
  deref (m_backend_class f).

Definition search (package : Package R) (req : SearchRequest) : H (Package R) :=
  let apdu_req := searchRequest req in
  let answer (r : SearchResponse) :=
    set_response (Some (GDU_Z3950 (searchResponse r))) package in
  let name := sq_resultSetName req in
  f ← get_fr;
  let exists_ := match m_frontend_sets f !! name with Some _ => true | None => false end in
  if exists_ && negb (sq_replaceIndicator req) then
    mret (answer (create_searchResponse (Some apdu_req)
      BIB1_RESULT_SET_EXISTS_AND_REPLACE_INDICATOR_OFF None))
  else
    modify_fr (λ f, set_frontend_sets (delete name (m_frontend_sets f)) f) ;;
    f ← get_fr;
    let databases := sq_databaseNames req in
    match resolve_query (m_frontend_sets f) databases (sq_query req) with
    | inl (diag, rset) =>
        mret (answer (create_searchResponse (Some apdu_req) diag (Some rset)))
    | inr query =>
        c ← frontend_class;
        r ← on_world (get_set c package apdu_req databases query);
        match r with
        | inl package => mret package
        | inr (b, l) =>
            s ← on_world (get_bset l);
            modify_fr (λ f, set_frontend_sets
              (<[name := mk_FrontendSet databases query]> (m_frontend_sets f)) f) ;;
            b ← deref b;
            on_world (release_backend b) ;;
            mret (answer (set_sr_additionalSearchInfo (additionalSearchInfoResponse s)
              (set_sr_resultCount (m_result_set_size s)
                 (create_searchResponse (Some apdu_req) 0 None))))
        end
    end.

(** The record cache takes [int]s. *)
Definition cacheable (start number : Z) : bool :=
  (0 <? start) && (start <? INT_MAX) && (0 <? number) && (number <? INT_MAX).
Definition cached_records (s : BackendSet E) (req : PresentRequest) :
    option (list NamePlusRecord) :=
  let start := pq_resultSetStartPoint req in
  let number := pq_numberOfRecordsRequested req in
  if cacheable start number
  then cache_lookup (m_record_cache s) start number (pq_preferredRecordSyntax req)
         (pq_recordComposition req)
  else None.
Definition cached_response (req : PresentRequest) (npr : list NamePlusRecord) :
    PresentResponse :=
  let start := pq_resultSetStartPoint req in
  let number := pq_numberOfRecordsRequested req in
  set_pr_records (Some (Records_DBOSD npr))
    (set_pr_nextResultSetPosition (start + number)
       (set_pr_numberOfRecordsReturned number
          (create_presentResponse (Some (presentRequest req)) 0 None))).
Definition backend_present_request (s : BackendSet E) (req : PresentRequest) :
    PresentRequest :=
  set_pq_recordComposition (pq_recordComposition req)
    (set_pq_numberOfRecordsRequested (pq_numberOfRecordsRequested req)
       (set_pq_resultSetStartPoint (pq_resultSetStartPoint req)
          (set_pq_resultSetId (m_result_set_id s)
             (set_pq_preferredRecordSyntax (pq_preferredRecordSyntax req)
                zget_presentRequest)))).
Definition relayed_response (req : PresentRequest) (b_resp : PresentResponse) :
    PresentResponse :=
  set_pr_otherInfo (pr_otherInfo b_resp)
    (set_pr_records (pr_records b_resp)
       (set_pr_presentStatus (pr_presentStatus b_resp)
          (set_pr_nextResultSetPosition (pr_nextResultSetPosition b_resp)
             (set_pr_numberOfRecordsReturned (pr_numberOfRecordsReturned b_resp)
                (create_presentResponse (Some (presentRequest req)) 0 None))))).
(** Keep the records of an answer. *)
Definition cache_answer (l : nat) (req : PresentRequest) (b_resp : PresentResponse) :
    W unit :=
  match pr_records b_resp with
  | Some (Records_DBOSD npr) =>
      let start := pq_resultSetStartPoint req in
      if (0 <? start) && (Z.of_nat (length npr) + start <? INT_MAX) then
        modify_bset l (λ s, set_cache (cache_add (m_record_cache s) npr start
                                         (pq_recordComposition req)) s)
      else mret tt
  | _ => mret tt
  end.
(** The rest of [present], with backend [b] and its set [l]. *)
Definition present_on (c : nat) (b : option nat) (l : nat) (package : Package R) (req : PresentRequest) :
    W (Package R) :=
  let answer (r : PresentResponse) :=
    set_response (Some (GDU_Z3950 (presentResponse r))) package in
  s ← get_bset l;
  b ← deref b;
  match cached_records s req with
  | Some npr => release_backend b ;; mret (answer (cached_response req npr))
  | None =>
      timestamp b ;;
      i ← get_instance b;
      present_package ← copy_filter package
        (new_Package (m_session i) (p_origin package));
      present_package ← next "" (set_request
        (Some (GDU_Z3950 (presentRequest (backend_present_request s req))))
        present_package);
      let failed :=
        remove_backend c b ;; destroy_instance b ;;
        mret (answer (create_presentResponse (Some (presentRequest req))
          BIB1_TEMPORARY_SYSTEM_ERROR
          (Some "session_shared: target closed connection during present"))) in
      match z3950 (p_response present_package) with
      | Some (presentResponse b_resp) =>
          if is_closed present_package then failed
          else
            cache_answer l req b_resp ;; release_backend b ;;
            mret (answer (relayed_response req b_resp))
      | _ => failed
      end
  end.
Definition present (package : Package R) (req : PresentRequest) : H (Package R) :=
  let apdu_req := presentRequest req in
  f ← get_fr;
  match m_frontend_sets f !! pq_resultSetId req with
  | None =>
      mret (set_response (Some (GDU_Z3950 (presentResponse (create_presentResponse
        (Some apdu_req) BIB1_SPECIFIED_RESULT_SET_DOES_NOT_EXIST
        (Some (pq_resultSetId req)))))) package)
  | Some fset =>
      c ← frontend_class;
      r ← on_world (get_set c package apdu_req (fs_databases fset) (fs_query fset));
      match r with
      | inl package => mret package
      | inr (b, l) => on_world (present_on c b l package req)
      end
  end.

Definition scan (package : Package R) (req : ScanRequest) : H (Package R) :=
  c ← frontend_class;
  r ← on_world (get_backend c package);
  let '(code, addinfo, o) := r in
  match o with
  | None =>
      let code := if code =? 0 then BIB1_TEMPORARY_SYSTEM_ERROR else code in
      let addinfo := if decide (addinfo = "")
                     then "session_shared: could not create backend" else addinfo in
      mret (set_response (Some (GDU_Z3950 (scanResponse (create_scanResponse
        (Some (scanRequest req)) code (Some addinfo))))) package)
  | Some b =>
      i ← on_world (get_instance b);
      on_world (timestamp b) ;;
      scan_package ← copy_filter package (new_Package (m_session i) (p_origin package));
      scan_package ← on_world (next ""
        (set_request (Some (GDU_Z3950 (scanRequest req))) scan_package));
      let package := set_response (p_response scan_package) package in
      if is_closed scan_package then
        on_world (remove_backend c b) ;; on_world (destroy_instance b) ;;
        mret (close_session package)
      else on_world (release_backend b) ;; mret package
  end.

(** ** Init *)
Definition find_class (req : InitRequest) : W nat :=
  w ← get;
  let k := mk_InitKey (z_IdAuthentication (iq_idAuthentication req))
                      (z_OtherInformation (iq_otherInfo req)) in
  match map_find k (m_backend_map w.1) with
  | Some c => mret c
  | None =>
      let r := w.1 in
      c ← new_class (mk_BackendClass false [] req None 0 (m_resultset_ttl r)
            (m_session_ttl r) (wrap_u 64 (m_resultset_max r))
            (m_preferredMessageSize r) (m_maximumRecordSize r) 0 0 0);
      modify (λ w, (set_backend_map (map_insert k c (m_backend_map w.1)) w.1, w.2)) ;;
      mret c
  end.
(** The answer: what the first target of the class said, cut down to what the
    client asks for. *)
Definition frontend_init_response (r : Rep R E) (req : InitRequest)
    (init_res : InitResponse) : InitResponse :=
  let res := set_ir_referenceId (iq_referenceId req) init_res in
  let options := foldl (λ m i, if MASK_GET (iq_options req) (Z.of_nat i) then m
                               else MASK_CLEAR m (Z.of_nat i))
                   (ir_options res) (seq 0 30) in
  let pref := if (m_preferredMessageSize r =? 0) ||
                 (iq_preferredMessageSize req <? ir_preferredMessageSize res)
              then iq_preferredMessageSize req else ir_preferredMessageSize res in
  let maxr := if (m_maximumRecordSize r =? 0) ||
                 (iq_maximumRecordSize req <? ir_maximumRecordSize res)
              then iq_maximumRecordSize req else ir_maximumRecordSize res in
  set_ir_maximumRecordSize maxr
    (set_ir_preferredMessageSize pref (set_ir_options options res)).
Definition init_answer (r : Rep R E) (req : InitRequest) (o : option InitResponse)
    (package : Package R) : Package R :=
  match o with
  | Some init_res =>
      let package := set_response (Some (GDU_Z3950 (initResponse
        (frontend_init_response r req init_res)))) package in
      if ir_result init_res then package else close_session package
  | None =>
      close_session (set_response (Some (GDU_Z3950 (initResponse
        (set_ir_result false (create_initResponse (Some (initRequest req))
           BIB1_TEMPORARY_SYSTEM_ERROR
           (Some "session_shared: target closed connection during init"))))))
        package)
  end.
(** [Rep::init]; the request is changed in place when authentication is
    ignored. *)
Definition init (package : Package R) (req : InitRequest) : H (Package R) :=
  w ← get;
  let ignore := m_ignore_auth w.2.1 in
  let req := if ignore then set_iq_idAuthentication None req else req in
  let package := if ignore
    then set_request (Some (GDU_Z3950 (initRequest req))) package else package in
  c ← on_world (find_class req);
  modify_fr (λ f, mk_Frontend true (iq_options req) (Some c) (m_frontend_sets f)) ;;
  cl ← on_world (get_class c);
  (if m_no_succeeded cl =? 0 then
     r ← on_world (create_backend c package);
     match r.2 with
     | Some b => on_world (release_backend b)
     | None => mret tt
     end
   else if (m_no_failed cl =? 0) && (m_no_succeeded cl =? 0) && negb (m_no_init cl =? 0)
   then out_of_fuel else mret tt) ;;
  cl ← on_world (get_class c);
  w ← get;
  mret (init_answer w.2.1 req (m_init_response cl) package).

(** ** Expiry *)

(** [expire_instances]: forget unused instances that are too old, and tell
    whether none is left. *)
Fixpoint expire_list (now ttl : Z) (l kept : list nat) : W (list nat) :=
  match l with
  | [] => mret kept
  | b :: l' =>
      i ← get_instance b;
      if m_in_use i then expire_list now ttl l' (kept ++ [b])
      else if (now <? bi_time_last_use i) || (ttl <? now - bi_time_last_use i) then
        destroy_instance b ;; expire_list now ttl l' kept
      else expire_list now ttl l' (kept ++ [b])
  end.
Definition expire_instances (c : nat) : W bool :=
  now ← time;
  cl ← get_class c;
  kept ← expire_list now (m_backend_expiry_ttl cl) (m_backend_list cl) [];
  modify_class c (set_backends kept) ;;
  mret (match kept with [] => true | _ => false end).
(** [expire_classes]: the iterator starts again after an erase. *)
Fixpoint first_expired (m : BackendClassMap) : W (option nat) :=
  match m with
  | [] => mret None
  | (_, c) :: m' =>
      e ← expire_instances c;
      if (e : bool) then mret (Some c) else first_expired m'
  end.
Fixpoint expire_loop (fuel : nat) : W unit :=
  match fuel with
  | O => out_of_fuel
  | S fuel' =>
      w ← get;
      o ← first_expired (m_backend_map w.1);
      match o with
      | None => mret tt
      | Some c =>
          modify (λ w, (set_backend_map
            (filter (λ e, e.2 ≠ c) (m_backend_map w.1)) w.1, w.2)) ;;
          expire_loop fuel'
      end
  end.
Definition expire_classes : W unit :=
  w ← get;
  expire_loop (S (length (m_backend_map w.1))).

(** ** A package *)
Definition refuse (apdu : APDU) (reason : Z) (addinfo : string) (package : Package R) :
    Package R :=
  close_session (set_response
    (Some (GDU_Z3950 (create_close (Some apdu) reason (Some addinfo)))) package).
Definition handle (package : Package R) : H (Package R) :=
  f ← get_fr;
  if m_is_virtual f then
    match z3950 (p_request package) with
    | None => mret package
    | Some (initRequest req) =>
        mret (refuse (initRequest req) Close_protocolError "double init" package)
    | Some (close c) =>
        mret (refuse (close c) Close_peerAbort "received close from client" package)
    | Some (searchRequest req) => search package req
    | Some (presentRequest req) => present package req
    | Some (scanRequest req) => scan package req
    | Some apdu =>
        mret (refuse apdu Close_protocolError
          "unsupported APDU in filter_session_shared" package)
    end
  else
    match z3950 (p_request package) with
    | Some (initRequest req) => init package req
    | _ => on_world (next "" package)
    end.
(** The last pointer to a class that has been expired destroys it. *)
Definition class_referenced (c : nat) (r : Rep R E) : bool :=
  bool_decide (c ∈ snd <$> m_backend_map r) ||
  bool_decide (Some c ∈ (λ e, m_backend_class e.2.2) <$> map_to_list (m_clients r)).
Fixpoint destroy_instances (l : list nat) : W unit :=
  match l with
  | [] => mret tt
  | b :: l' => destroy_instance b ;; destroy_instances l'
  end.
Definition drop_class (f : Frontend) : W unit :=
  match m_backend_class f with
  | None => mret tt
  | Some c =>
      w ← get;
      if class_referenced c w.1 then mret tt
      else cl ← get_class c; destroy_instances (m_backend_list cl)
  end.
(** The frontend of a session, taken and given back: the code of [Frontends]. *)
Definition get_frontend (package : Package R) : W Frontend :=
  Frontends.get_frontend m_clients set_clients Frontend_new package.
Definition release_frontend (f : Frontend) (package : Package R) : W unit :=
  Frontends.release_frontend m_clients set_clients (λ _ _, mret tt) f package.
Definition process (package : Package R) : W (Package R) :=
  f ← get_frontend package;
  r ← with_frontend f (handle package);
  let '(package, f) := r in
  release_frontend f package ;;
  (if is_closed package then drop_class f else mret tt) ;;
  mret package.

(** ** Properties *)

(** *** Backends in use belong to one handler *)

(** Between [w] and [w'] the instances in use that [X] selects are left alone,
    and a result set keeps its name, databases and query. *)
Section rely.
Context (X : nat → BackendInstance R → Prop).
Definition keep (w w' : World) : Prop :=
  (∀ b i, heap_backends w.1 !! b = Some i → m_in_use i = true → X b i →
     heap_backends w'.1 !! b = Some i) ∧
  (∀ l s, heap_sets w.1 !! l = Some s → ∃ s', heap_sets w'.1 !! l = Some s' ∧
     m_result_set_id s' = m_result_set_id s ∧ m_databases s' = m_databases s ∧
     m_query s' = m_query s).
(** An instance that [X] did not select in [w0]. *)
Definition mine (w0 : World) (b : nat) : Prop :=
  ∀ i, heap_backends w0.1 !! b = Some i → X b i → m_in_use i = false.

Lemma keep_refl w : keep w w.
Proof. split; eauto. Qed.
Lemma keep_trans w1 w2 w3 : keep w1 w2 → keep w2 w3 → keep w1 w3.
Proof.
  intros [A1 B1] [A2 B2]. split; [eauto|].
  intros l s Hs. destruct (B1 l s Hs) as (s1 & Hs1 & ? & ? & ?).
  destruct (B2 l s1 Hs1) as (s2 & Hs2 & ? & ? & ?). exists s2. split_and!; congruence.
Qed.
Lemma mine_unused w0 w b i :
  keep w0 w → heap_backends w.1 !! b = Some i → m_in_use i = false → mine w0 b.
Proof.
  intros [A _] Hb Hu i0 Hi0 HX. destruct (m_in_use i0) eqn:Hu0; [|done].
  specialize (A b i0 Hi0 Hu0 HX). congruence.
Qed.
Lemma next_loc_gt {A} (h : gmap nat A) k : is_Some (h !! k) → (k < next_loc h)%nat.
Proof.
  unfold next_loc. revert k.
  apply (map_fold_weak_ind (λ n h, ∀ k, is_Some (h !! k) → (k < n)%nat)).
  - intros k [? Hk]. by rewrite lookup_empty in Hk.
  - intros i x m n Hi IH k. destruct (decide (k = i)) as [->|Hne]; [lia|].
    rewrite lookup_insert_ne by done. intros Hk%IH. lia.
Qed.
Lemma next_loc_fresh {A} (h : gmap nat A) : h !! next_loc h = None.
Proof.
  destruct (h !! next_loc h) eqn:Hl; [|done].
  pose proof (next_loc_gt h (next_loc h) ltac:(eauto)). lia.
Qed.
Lemma mine_fresh w0 w : keep w0 w → mine w0 (next_loc (heap_backends w.1)).
Proof.
  intros [A _] i Hi HX. destruct (m_in_use i) eqn:Hu; [|done].
  specialize (A _ i Hi Hu HX). by rewrite next_loc_fresh in A.
Qed.

(** Computations that keep what [w0] relies on. *)
Definition keeps (w0 : World) {A} (m : W A) (Q : A → World → Prop) : Prop :=
  ∀ w, keep w0 w → par m w (λ a w', keep w0 w' ∧ Q a w').
Notation any := (λ _ _, True).

Lemma sk_ret w0 {A} (a : A) : keeps w0 (mret a) (λ a' _, a' = a).
Proof. by intros w Hw. Qed.
Lemma sk_bind w0 {A B} (m : W A) (k : A → W B) Q P :
  keeps w0 m Q → (∀ a, (∃ w, keep w0 w ∧ Q a w) → keeps w0 (k a) P) →
  keeps w0 (m ≫= k) P.
Proof.
  intros Hm Hk w Hw. apply par_bind. eapply par_mono; [by apply Hm|].
  intros a w' [Hw' HQ]. apply Hk; eauto.
Qed.
Lemma sk_weaken w0 {A} (m : W A) Q (P : A → World → Prop) :
  keeps w0 m Q → (∀ a w, keep w0 w → Q a w → P a w) → keeps w0 m P.
Proof.
  intros Hm HQ w Hw. eapply par_mono; [by apply Hm|]. intros a w' [? ?]. auto.
Qed.
Lemma sk_read w0 {A} (m : W A) :
  (∀ w a w', m w = Ok (a, w') → w' = w) → keeps w0 m any.
Proof.
  intros Hm w Hw. unfold par. destruct (m w) as [[a w']|?|?|] eqn:Hmw; [|done..].
  by rewrite (Hm _ _ _ Hmw).
Qed.
Lemma sk_undef w0 {A} k Q : keeps w0 (undef k : W A) Q.
Proof. by intros w Hw. Qed.
Lemma sk_fuel w0 {A} Q : keeps w0 (out_of_fuel : W A) Q.
Proof. by intros w Hw. Qed.
Lemma sk_class w0 c g : keeps w0 (modify_class c g) any.
Proof. intros w [A B]. split; [|done]. by split. Qed.
Lemma sk_instance w0 b g : mine w0 b → keeps w0 (modify_instance b g) any.
Proof.
  intros Hb w [A B]. split; [|done]. split; [|done].
  intros b' i Hi Hu HX. simpl. destruct (decide (b' = b)) as [->|Hne].
  - specialize (Hb i Hi HX). congruence.
  - rewrite lookup_alter_ne by done. by apply A.
Qed.
Lemma sk_bset w0 l g :
  (∀ s, m_result_set_id (g s) = m_result_set_id s ∧ m_databases (g s) = m_databases s ∧
        m_query (g s) = m_query s) →
  keeps w0 (modify_bset l g) any.
Proof.
  intros Hg w [A B]. split; [|done]. split; [done|].
  intros l' s Hs. simpl. destruct (B l' s Hs) as (s' & Hs' & H1 & H2 & H3).
  destruct (decide (l' = l)) as [->|Hne].
  - rewrite lookup_alter_eq, Hs'. simpl. exists (g s').
    destruct (Hg s') as (-> & -> & ->). auto.
  - rewrite lookup_alter_ne by done. eauto.
Qed.
Lemma sk_new_instance w0 i : keeps w0 (new_instance i) (λ b _, mine w0 b).
Proof.
  intros w Hw. pose proof (mine_fresh w0 w Hw) as Hm. destruct Hw as [A B].
  unfold par, new_instance. cbn. split; [|done]. split; [|done].
  intros b' i' Hi Hu HX. simpl. destruct (decide (b' = next_loc (heap_backends w.1))) as [->|Hne].
  - specialize (Hm i' Hi HX). congruence.
  - rewrite lookup_insert_ne by done. by apply A.
Qed.
Lemma sk_new_bset w0 s : keeps w0 (new_bset s) any.
Proof.
  intros w [A B]. unfold par, new_bset. cbn. split; [|done]. split; [done|].
  intros l' s' Hs. simpl. destruct (B l' s' Hs) as (s2 & Hs2 & ?).
  rewrite lookup_insert_ne; [eauto|]. intros <-. by rewrite next_loc_fresh in Hs2.
Qed.
Lemma sk_new_class w0 c : keeps w0 (new_class c) any.
Proof. intros w [A B]. unfold par, new_class. cbn. split; [|done]. by split. Qed.
Lemma sk_new_session w0 : keeps w0 (new_session : W Session.t) any.
Proof. intros w [A B]. unfold par, new_session. cbn. split; [|done]. by split. Qed.
Lemma sk_get_instance w0 b :
  keeps w0 (get_instance b) (λ i w, heap_backends w.1 !! b = Some i).
Proof.
  intros w Hw. unfold get_instance, par, mbind, M_bind, get, deref. simpl.
  by destruct (heap_backends w.1 !! b) eqn:Hb.
Qed.

Lemma par_get_instance b w Q :
  (∀ i, heap_backends w.1 !! b = Some i → Q i w) → par (get_instance b) w Q.
Proof.
  intros HQ. unfold par, get_instance, mbind, M_bind, get, deref. simpl.
  destruct (heap_backends w.1 !! b) as [i|]; [by apply HQ|done].
Qed.
Context (Hnext : ∀ route p w, par (next route p) w (λ _ w', keep w w')).
Context (Hothers : ∀ w, par others w (λ _ w', keep w w')).

Lemma sk_next w0 route p : keeps w0 (next route p) any.
Proof.
  intros w Hw. eapply par_mono; [apply Hnext|]. intros ? w' Hw'. split; [|done].
  by eapply keep_trans.
Qed.

Lemma sk_get w0 {A} (k : World → W A) P :
  (∀ w, keep w0 w → keeps w0 (k w) P) → keeps w0 (get ≫= k) P.
Proof. intros Hk w Hw. by apply (Hk w Hw). Qed.
Lemma sk_lift w0 {A} (o : outcome A) : keeps w0 (lift_outcome o) (λ a _, o = Ok a).
Proof. intros w Hw. unfold par, lift_outcome. by destruct o. Qed.
Lemma sk_get_class w0 c : keeps w0 (get_class c) any.
Proof.
  apply sk_read. intros w a w'. unfold get_class, deref, mbind, M_bind, get.
  destruct (heap_classes w.1 !! c); [by intros [= _ <-]|done].
Qed.
Lemma sk_get_bset w0 l : keeps w0 (get_bset l) any.
Proof.
  apply sk_read. intros w a w'. unfold get_bset, deref, mbind, M_bind, get.
  destruct (heap_sets w.1 !! l); [by intros [= _ <-]|done].
Qed.
Lemma sk_time w0 : keeps w0 time any.
Proof. by intros w Hw. Qed.
Lemma sk_copy w0 (p q : Package R) : keeps w0 (copy_filter p q) any.
Proof.
  apply sk_read. intros w a w'. unfold copy_filter, deref, mbind, M_bind.
  destruct (p_route_pos p); [by intros [= _ <-]|done].
Qed.
Lemma sk_map w0 g :
  keeps w0 (modify (λ w, (set_backend_map (g w) w.1, w.2))) any.
Proof. intros w [A B]. split; [|done]. by split. Qed.

(** One step through a body; leaves the facts about results. *)
Ltac sk_atom :=
  lazymatch goal with
  | |- keeps _ (next _ _) _ => apply sk_next
  | |- keeps _ (get_class _) _ => apply sk_get_class
  | |- keeps _ (get_instance _) _ => apply sk_get_instance
  | |- keeps _ (get_bset _) _ => apply sk_get_bset
  | |- keeps _ (modify_class _ _) _ => apply sk_class
  | |- keeps _ (modify_instance _ _) _ => apply sk_instance; assumption
  | |- keeps _ (modify_bset _ _) _ => apply sk_bset; intros; split_and!; reflexivity
  | |- keeps _ (new_instance _) _ => apply sk_new_instance
  | |- keeps _ (new_bset _) _ => apply sk_new_bset
  | |- keeps _ (new_class _) _ => apply sk_new_class
  | |- keeps _ new_session _ => apply sk_new_session
  | |- keeps _ time _ => apply sk_time
  | |- keeps _ (copy_filter _ _) _ => apply sk_copy
  | |- keeps _ (lift_outcome _) _ => apply sk_lift
  | |- keeps _ (modify _) _ => apply sk_map
  | |- keeps _ (mret _) _ => apply sk_ret
  | |- keeps _ (undef _) _ => apply sk_undef
  | |- keeps _ out_of_fuel _ => apply sk_fuel
  end.
Ltac sk_leaf := eapply sk_weaken; [sk_atom|intros; simplify_eq/=; auto].
Ltac sk_step :=
  lazymatch goal with
  | |- keeps _ (get ≫= _) _ => apply sk_get; intros ? ?
  | |- keeps _ ((if ?b then _ else _) ≫= _) _ =>
      eapply sk_bind; [instantiate (1 := any); destruct b|intros ? (? & ? & ?)]
  | |- keeps _ ((match ?x with _ => _ end) ≫= _) _ =>
      eapply sk_bind; [instantiate (1 := any); destruct x|intros ? (? & ? & ?)]
  | |- keeps _ (_ ≫= _) _ => eapply sk_bind; [sk_atom|intros ? (? & ? & ?)]
  | |- keeps _ (undef _) _ => apply sk_undef
  | |- keeps _ out_of_fuel _ => apply sk_fuel
  | |- keeps _ (if ?b then _ else _) _ => destruct b eqn:?
  | |- keeps _ (match ?x with _ => _ end) _ => destruct x eqn:?
  | |- _ => sk_leaf
  end.

Lemma sk_release w0 b : mine w0 b → keeps w0 (release_backend b) any.
Proof. intros Hb. by apply sk_instance. Qed.
Lemma sk_destroy w0 b : mine w0 b → keeps w0 (destroy_instance b) any.
Proof. intros Hb. unfold destroy_instance. repeat sk_step. Qed.
Lemma sk_remove w0 c b : mine w0 b → keeps w0 (remove_backend c b) any.
Proof. intros Hb. unfold remove_backend. repeat sk_step. Qed.
Lemma sk_use w0 c b : mine w0 b → keeps w0 (use_backend c b) any.
Proof. intros Hb. unfold use_backend. repeat sk_step. Qed.
Lemma sk_timestamp w0 b : mine w0 b → keeps w0 (timestamp b) any.
Proof. intros Hb. unfold timestamp. repeat sk_step. Qed.
Lemma sk_new_set_id w0 c b : mine w0 b → keeps w0 (new_set_id c b) any.
Proof. intros Hb. unfold new_set_id. repeat sk_step. Qed.

Definition opt_mine (w0 : World) (o : option nat) : Prop :=
  match o with Some b => mine w0 b | None => True end.
Lemma sk_create w0 c p : keeps w0 (create_backend c p) (λ r _, opt_mine w0 r.2).
Proof. unfold create_backend. repeat sk_step. Qed.

Lemma least_recent_unused h l best b :
  least_recent h l best = Ok (Some b) →
  (∃ n, best = Some (b, n)) ∨ ∃ i, h !! b = Some i ∧ m_in_use i = false.
Proof.
  revert best. induction l as [|x l IH]; intros best; simpl.
  - destruct best as [[b' n]|]; simpl; [intros [= ->]; eauto|done].
  - destruct (h !! x) as [i|] eqn:Hx; [|done]. intros Hl. apply IH in Hl as [[n Hn]|Hu]; [|eauto].
    destruct (m_in_use i) eqn:Hu; simpl in Hn; [eauto|].
    destruct best as [[b' n']|]; simpl in Hn; [destruct (m_sequence_this i <? n')|];
      simplify_eq; eauto.
Qed.
Lemma sk_get_backend w0 c p : keeps w0 (get_backend c p) (λ r _, opt_mine w0 r.2).
Proof.
  unfold get_backend. sk_step. sk_step. sk_step. destruct a0 as [b|]; [|apply sk_create].
  assert (mine w0 b).
  { destruct (least_recent_unused _ _ _ _ H3) as [[? ?]|(i & ? & ?)]; [done|].
    by apply (mine_unused w0 w b i). }
  eapply sk_bind; [by apply sk_use|]. intros. by sk_leaf.
Qed.

Lemma find_match_in r P L b l :
  find_match r P L = Ok (Some (b, l)) →
  b ∈ L ∧ ∃ i s, heap_backends r !! b = Some i ∧ l ∈ m_sets i ∧
    heap_sets r !! l = Some s ∧ P s = true.
Proof.
  induction L as [|x L IH]; simpl; [done|].
  destruct (heap_backends r !! x) as [i|] eqn:Hx; [|done].
  assert (Hset : ∀ S l, find_set r P S = Ok (Some l) → l ∈ S ∧
    ∃ s, heap_sets r !! l = Some s ∧ P s = true).
  { clear. induction S as [|y S IH]; intros l; simpl; [done|].
    destruct (heap_sets r !! y) as [s|] eqn:Hy; [|done].
    destruct (P s) eqn:HP; [intros [= <-]; split; [left|eauto]|].
    intros [? ?]%IH. split; [by right|done]. }
  destruct (find_set r P (m_sets i)) as [[l'|]|?|?|] eqn:Hf; simpl; try done.
  - intros [= -> ->]. destruct (Hset _ _ Hf) as (Hin & s & Hs & HP).
    split; [left|]. by exists i, s.
  - intros H. destruct (IH H) as (Hin & i' & s & ?). split; [by right|eauto].
Qed.
Lemma find_room_in r n L b :
  find_room r n L = Ok (Some b) → ∃ i, heap_backends r !! b = Some i ∧ m_in_use i = false.
Proof.
  induction L as [|x L IH]; simpl; [done|].
  destruct (heap_backends r !! x) as [i|] eqn:Hx; [|done].
  destruct (m_in_use i) eqn:Hu; simpl; [auto|].
  destruct (Z.of_nat (length (m_sets i)) <? n); [|auto]. intros [= ->]. eauto.
Qed.
Lemma mine_override w0 w P L b l :
  keep w0 w → find_match w.1 P (unused w.1 L) = Ok (Some (b, l)) → mine w0 b.
Proof.
  intros Hk (Hin & i & s & Hb & _)%find_match_in. unfold unused in Hin.
  apply list_elem_of_filter in Hin as [Hu _]. rewrite Hb in Hu.
  apply (mine_unused w0 w b i); [done|done|]. by destruct (m_in_use i).
Qed.

Lemma sk_set_search w0 l p sp a : keeps w0 (set_search l p sp a) any.
Proof. unfold set_search. repeat sk_step. Qed.
Lemma sk_override w0 c dbs out :
  keeps w0 (override_set c dbs out)
    (λ r _, match r with Some (b, _) => mine w0 b | None => True end).
Proof.
  unfold override_set. sk_step. sk_step. sk_step. sk_step.
  destruct a1 as [[b l]|].
  - assert (Hb : mine w0 b) by (eapply (mine_override w0 w); eassumption). sk_step. sk_step. by sk_leaf.
  - sk_step. destruct a1 as [b|]; [|by sk_leaf].
    assert (Hb : mine w0 b).
    { match goal with H : find_room _ _ _ = _ |- _ =>
        destruct (find_room_in _ _ _ _ H) as (i & ? & ?) end.
      by apply (mine_unused w0 w b i). }
    eapply sk_bind; [by apply sk_new_set_id|]. intros. by sk_leaf.
Qed.
(** Backend [b] is unused and has the set [l] with property [P]. *)
Definition candidate (P : BackendSet E → bool) (b l : nat) (w : World) : Prop :=
  ∃ i s, heap_backends w.1 !! b = Some i ∧ m_in_use i = false ∧ l ∈ m_sets i ∧
    heap_sets w.1 !! l = Some s ∧ P s = true.
Lemma sk_wait w0 fuel c P :
  keeps w0 (wait_match fuel c P) (λ o w, ∀ b l, o = Some (b, l) → candidate P b l w).
Proof.
  induction fuel as [|fuel IH]; intros w Hw; cbn [wait_match]; unfold get_class;
    apply par_bind, par_bind, par_get, par_deref; intros cl _; apply par_bind, par_get;
    apply par_bind, par_lift; intros o Ho; (destruct o as [[b l]|]; [|by apply par_ret]);
    destruct (find_match_in _ _ _ _ _ Ho) as (_ & i & s & Hi & Hin & Hs & HP);
    apply par_bind, par_get_instance; intros i' Hi';
    (assert (i' = i) as -> by congruence); destruct (m_in_use i) eqn:Hu;
    try (apply par_ret; split; [done|]; intros ? ? [= <- <-]; by exists i, s); [done|].
  apply par_bind. eapply par_mono; [apply Hothers|]. intros [] w' Hw'.
  apply IH. by eapply keep_trans.
Qed.
Lemma candidate_mine w0 P b l w : keep w0 w → candidate P b l w → mine w0 b.
Proof. intros Hk (i & s & Hi & Hu & _). by apply (mine_unused w0 w b i). Qed.
Lemma sk_choose w0 c a dbs q out :
  keeps w0 (choose_backend c a dbs q out)
    (λ r _, match r with
            | inl (b, _) => mine w0 b
            | inr (Some (b, _)) => mine w0 b
            | inr None => True end).
Proof.
  unfold choose_backend. sk_step.
  eapply sk_bind with (Q := λ o _, ∀ b l, o = Some (b, l) → mine w0 b).
  { destruct (m_optimize_search w.1); [|by sk_leaf].
    eapply sk_weaken; [apply sk_wait|]. intros o w1' Hw1 Ho b l ->.
    by eapply candidate_mine, Ho. }
  intros o (w1' & _ & Hcand). destruct o as [[b l]|].
  - specialize (Hcand b l eq_refl).
    eapply sk_bind; [by apply sk_use|]. intros. by sk_leaf.
  - eapply sk_bind; [apply sk_override|]. intros o (w1 & Hk & Ho).
    destruct o as [[b id]|]; [|by sk_leaf].
    eapply sk_bind; [by apply sk_use|]. intros. by sk_leaf.
Qed.
(** The backend of a result is the caller's. *)
Definition result_mine (w0 : World) (r : SetResult) : Prop :=
  match r with sr_found b _ => mine w0 b | _ => True end.
Definition backend_mine (w0 : World) (o : option nat) : Prop :=
  ∀ b, o = Some b → mine w0 b.
Ltac sk_call :=
  eapply sk_bind;
    [first [ by apply sk_timestamp | by apply sk_remove | by apply sk_destroy
           | by apply sk_release | by apply sk_set_search | by apply sk_new_set_id ]
    |intros ? (? & ? & ?)].
Lemma sk_search_new w0 c b id p a dbs q again :
  mine w0 b → keeps w0 (search_new_set c b id p a dbs q again) (λ r _, result_mine w0 r).
Proof.
  intros Hb. unfold search_new_set.
  repeat first [ sk_call | sk_step ].
Qed.
Lemma sk_pass w0 c p a dbs q again :
  keeps w0 (get_set_pass c p a dbs q again) (λ r _, result_mine w0 r).
Proof.
  unfold get_set_pass. sk_step. sk_step.
  eapply sk_bind; [apply sk_choose|]. intros o (w1 & Hk & Ho).
  destruct o as [[b l]|[[b id]|]]; [by sk_leaf|by apply sk_search_new|].
  destruct (_ <=? _); [by sk_leaf|].
  eapply sk_bind; [apply sk_create|]. intros [[code ai] o] (w2 & Hk2 & Hc).
  destruct o as [b|]; [|by sk_leaf]. sk_call. by apply sk_search_new.
Qed.
Lemma sk_get_set w0 c p a dbs q :
  keeps w0 (get_set c p a dbs q)
    (λ r _, match r with inr (o, _) => backend_mine w0 o | inl _ => True end).
Proof.
  assert (Hf : ∀ b l w, mine w0 b → keep w0 w →
    par (mret (inr (Some b, l)) : W (Package R + option nat * nat)) w
      (λ r w', keep w0 w' ∧ match r with inr (o, _) => backend_mine w0 o | inl _ => True end)).
  { intros b l w Hb Hw. split; [done|]. by intros b' [= <-]. }
  unfold get_set. eapply sk_bind; [apply sk_pass|]. intros r (w1 & Hk1 & Hr).
  destruct r as [b l| | |l]; [intros w Hw; by apply Hf|by sk_leaf|by sk_leaf|].
  eapply sk_bind; [apply sk_pass|]. intros r' (w2 & Hk2 & Hr').
  destruct r' as [b' l'| | |l']; [intros w Hw; by apply Hf|by sk_leaf|by sk_leaf|].
  apply sk_fuel.
Qed.
Lemma sk_deref w0 o : backend_mine w0 o → keeps w0 (deref o) (λ b _, mine w0 b).
Proof. intros Ho w Hw. destruct o as [b|]; [|done]. split; [done|by apply Ho]. Qed.
Lemma sk_cache w0 l req resp : keeps w0 (cache_answer l req resp) any.
Proof. unfold cache_answer. repeat sk_step. Qed.
Lemma sk_present_on w0 c b l p req :
  backend_mine w0 b → keeps w0 (present_on c b l p req) any.
Proof.
  intros Ho. unfold present_on. sk_step.
  eapply sk_bind; [by apply sk_deref|]. intros b' (w1 & Hk1 & Hb).
  destruct (cached_records a req); [sk_call; sk_leaf|].
  sk_call. sk_step. sk_step. sk_step.
  destruct (z3950 (p_response a3)) as [[]|]; try (sk_call; sk_call; sk_leaf).
  destruct (is_closed a3); [sk_call; sk_call; sk_leaf|].
  eapply sk_bind; [apply sk_cache|]. intros. sk_call. sk_leaf.
Qed.

Lemma sk_expire_list w0 now ttl l kept :
  keeps w0 (expire_list now ttl l kept) any.
Proof.
  revert kept. induction l as [|b l IH]; intros kept; cbn [expire_list]; [sk_leaf|].
  sk_step. destruct (m_in_use a) eqn:Hu; [apply IH|].
  assert (Hb : mine w0 b).
  { match goal with Hk : keep w0 ?w, Hl : heap_backends ?w.1 !! b = _ |- _ =>
      exact (mine_unused w0 w b _ Hk Hl Hu) end. }
  destruct (_ || _); [sk_call; apply IH|apply IH].
Qed.
Lemma sk_expire w0 : keeps w0 expire_classes any.
Proof.
  assert (Hi : ∀ c, keeps w0 (expire_instances c) any).
  { intros c. unfold expire_instances. sk_step. sk_step.
    eapply sk_bind; [apply sk_expire_list|]. intros kept (w1 & Hk & _).
    sk_step. sk_leaf. }
  assert (Hf : ∀ m, keeps w0 (first_expired m) any).
  { induction m as [|[k c] m IH]; cbn [first_expired]; [sk_leaf|].
    eapply sk_bind; [apply Hi|]. intros e _. destruct e; [sk_leaf|apply IH]. }
  unfold expire_classes. sk_step. generalize (S (length (m_backend_map w.1))).
  induction n as [|n IH]; cbn [expire_loop]; [apply sk_fuel|].
  sk_step. eapply sk_bind; [apply Hf|]. intros o _. destruct o; [|sk_leaf].
  sk_step. apply IH.
Qed.

(** Handlers. *)
Definition hkeeps (w0 : World) {A} (m : M (Frontend * World) A) : Prop :=
  ∀ s, keep w0 s.2 → par m s (λ _ s', keep w0 s'.2).
Lemma hsk_ret w0 {A} (a : A) : hkeeps w0 (mret a).
Proof. by intros s Hs. Qed.
Lemma hsk_bind w0 {A B} (m : M (Frontend * World) A) (k : A → M (Frontend * World) B) :
  hkeeps w0 m → (∀ a, hkeeps w0 (k a)) → hkeeps w0 (m ≫= k).
Proof.
  intros Hm Hk s Hs. apply par_bind. eapply par_mono; [by apply Hm|].
  intros a s' Hs'. by apply Hk.
Qed.
Lemma hsk_world w0 {A} (m : W A) Q : keeps w0 m Q → hkeeps w0 (on_world m).
Proof.
  intros Hm [f w] Hs. apply on_world_par. eapply par_mono; [by apply Hm|].
  by intros a w' [? _].
Qed.
Lemma hsk_call w0 {A B} (m : W A) Q (k : A → M (Frontend * World) B) :
  keeps w0 m Q → (∀ a, (∃ w, keep w0 w ∧ Q a w) → hkeeps w0 (k a)) →
  hkeeps w0 (on_world m ≫= k).
Proof.
  intros Hm Hk [f w] Hs. apply par_bind, on_world_par. eapply par_mono; [by apply Hm|].
  intros a w' [Hw' HQ]. apply Hk; [eauto|done].
Qed.
Lemma hsk_deref w0 {A B} (o : option A) (k : A → M (Frontend * World) B) :
  (∀ a, o = Some a → hkeeps w0 (k a)) → hkeeps w0 (deref o ≫= k).
Proof.
  intros Hk s Hs. apply par_bind, par_deref. intros a Ha. by apply Hk.
Qed.
Lemma hsk_get_fr w0 : hkeeps w0 (get_fr : M (Frontend * World) Frontend).
Proof. by intros s Hs. Qed.
Lemma hsk_get w0 : hkeeps w0 (get : M (Frontend * World) (Frontend * World)).
Proof. by intros s Hs. Qed.
Lemma hsk_modify_fr w0 g : hkeeps w0 (modify_fr g : M (Frontend * World) unit).
Proof. by intros s Hs. Qed.
Lemma hsk_class w0 : hkeeps w0 (frontend_class : M (Frontend * World) nat).
Proof.
  intros [f w] Hs. unfold frontend_class, par, mbind, M_bind, get_fr, get_st, deref.
  simpl. by destruct (m_backend_class f).
Qed.
Lemma hsk_copy w0 (p q : Package R) :
  hkeeps w0 (copy_filter p q : M (Frontend * World) (Package R)).
Proof.
  intros s Hs. unfold copy_filter, deref, par, mbind, M_bind.
  by destruct (p_route_pos p).
Qed.

Lemma hsk_search w0 p req : hkeeps w0 (search p req).
Proof.
  unfold search. apply hsk_bind; [apply hsk_get_fr|intros f].
  destruct (_ && _); [apply hsk_ret|].
  apply hsk_bind; [apply hsk_modify_fr|intros _].
  apply hsk_bind; [apply hsk_get_fr|intros f'].
  destruct (resolve_query _ _ _) as [[diag rset]|q]; [apply hsk_ret|].
  apply hsk_bind; [apply hsk_class|intros c].
  eapply hsk_call; [apply sk_get_set|]. intros r (w1 & Hk & Hr).
  destruct r as [p'|[b l]]; [apply hsk_ret|].
  eapply hsk_call; [apply sk_get_bset|]. intros s _.
  apply hsk_bind; [apply hsk_modify_fr|intros _].
  apply hsk_deref. intros b' Hb.
  eapply hsk_call; [by apply sk_release, Hr|]. intros _ _. apply hsk_ret.
Qed.
Lemma hsk_present w0 p req : hkeeps w0 (present p req).
Proof.
  unfold present. apply hsk_bind; [apply hsk_get_fr|intros f].
  destruct (m_frontend_sets f !! pq_resultSetId req) as [fset|]; [|apply hsk_ret].
  apply hsk_bind; [apply hsk_class|intros c].
  eapply hsk_call; [apply sk_get_set|]. intros r (w1 & Hk & Hr).
  destruct r as [p'|[b l]]; [apply hsk_ret|].
  eapply hsk_world. by apply sk_present_on.
Qed.
Lemma hsk_scan w0 p req : hkeeps w0 (scan p req).
Proof.
  unfold scan. apply hsk_bind; [apply hsk_class|intros c].
  eapply hsk_call; [apply sk_get_backend|]. intros [[code ai] o] (w1 & Hk & Ho).
  destruct o as [b|]; [|apply hsk_ret]. simpl in Ho.
  eapply hsk_call; [apply sk_get_instance|]. intros i _.
  eapply hsk_call; [by apply sk_timestamp|]. intros _ _.
  apply hsk_bind; [apply hsk_copy|intros sp].
  eapply hsk_call; [apply sk_next|]. intros sp' _.
  destruct (is_closed sp').
  - eapply hsk_call; [by apply sk_remove|]. intros _ _.
    eapply hsk_call; [by apply sk_destroy|]. intros _ _. apply hsk_ret.
  - eapply hsk_call; [by apply sk_release|]. intros _ _. apply hsk_ret.
Qed.
Lemma sk_find_class w0 req : keeps w0 (find_class req) any.
Proof. unfold find_class. repeat sk_step. Qed.
Lemma hsk_init w0 p req : hkeeps w0 (init p req).
Proof.
  unfold init. apply hsk_bind; [apply hsk_get|intros w].
  eapply hsk_call; [apply sk_find_class|]. intros c _.
  apply hsk_bind; [apply hsk_modify_fr|intros _].
  eapply hsk_call; [apply sk_get_class|]. intros cl _.
  apply hsk_bind.
  - destruct (m_no_succeeded cl =? 0).
    + eapply hsk_call; [apply sk_create|]. intros [[code ai] o] (w1 & Hk & Ho).
      destruct o as [b|]; [|apply hsk_ret].
      eapply hsk_world. by apply sk_release.
    + destruct (_ && _); [by intros s Hs|apply hsk_ret].
  - intros _. eapply hsk_call; [apply sk_get_class|]. intros cl' _.
    apply hsk_bind; [apply hsk_get|intros w']. apply hsk_ret.
Qed.
Lemma hsk_handle w0 p : hkeeps w0 (handle p).
Proof.
  unfold handle. apply hsk_bind; [apply hsk_get_fr|intros f].
  destruct (m_is_virtual f), (z3950 (p_request p)) as [[]|];
    first [ apply hsk_ret | apply hsk_search | apply hsk_present
          | apply hsk_scan | apply hsk_init
          | eapply hsk_world, sk_next ].
Qed.
End rely.

(** The instances [theirs]. *)
Definition only (theirs : nat → Prop) (b : nat) (_ : BackendInstance R) : Prop :=
  theirs b.
(** C25. A backend session serves one client at a time. Take any backend
    sessions, [theirs], that other clients hold while this one is served: if
    whatever runs while this client's packages are on their way, or while it
    waits, leaves those that are in use alone, then so does the handling of
    any package: their result sets, their session and the mark that they are
    in use are as before. No result set ever comes to stand for another query
    or other databases. Expiry does not touch sessions in use either. *)
Theorem sharing_is_exclusive (theirs : nat → Prop) (package : Package R) (f : Frontend)
    (w : World)
    (Hnext : ∀ route p w, par (next route p) w (λ _ w', keep (only theirs) w w'))
    (Hothers : ∀ w, par others w (λ _ w', keep (only theirs) w w')) :
  par (with_frontend f (handle package)) w (λ _ w', keep (only theirs) w w') ∧
  par expire_classes w (λ _ w', keep (only theirs) w w').
Proof.
  split.
  - pose proof (hsk_handle _ Hnext Hothers w package (f, w) (keep_refl _ w)) as Hh.
    unfold par, with_frontend in *.
    destruct (handle package (f, w)) as [[p' [f' w']]|?|?|]; done.
  - eapply par_mono; [apply (sk_expire _ Hnext w w (keep_refl _ w))|].
    by intros a w' [? _].
Qed.

(** *** The result set that is found *)

(** Backend [b] is in use and holds the set [l], for these databases and a
    query that [q] matches. *)
Definition owned (b : nat) (w : World) : Prop :=
  ∃ i, heap_backends w.1 !! b = Some i ∧ m_in_use i = true.
Definition set_for (dbs : list string) (q : Query) (l : nat) (w : World) : Prop :=
  ∃ s, heap_sets w.1 !! l = Some s ∧ m_databases s = dbs ∧ m_query s = q.
Lemma set_for_keep X dbs q l w w' : keep X w w' → set_for dbs q l w → set_for dbs q l w'.
Proof.
  intros [_ B] (s & Hs & Hd & Hq). destruct (B l s Hs) as (s' & ? & _ & ? & ?).
  exists s'. split_and!; congruence.
Qed.
Lemma par_get_bset l w Q :
  (∀ s, heap_sets w.1 !! l = Some s → Q s w) → par (get_bset l) w Q.
Proof.
  intros HQ. unfold par, get_bset, mbind, M_bind, get, deref. simpl.
  destruct (heap_sets w.1 !! l) as [s|]; [by apply HQ|done].
Qed.
Lemma par_copy_filter {S} (p q : Package R) (w : S) Q :
  (∀ r, Q (set_route_pos (Some r) q) w) → par (copy_filter p q) w Q.
Proof.
  intros HQ. unfold copy_filter. apply par_bind, par_deref. intros r _. by apply par_ret.
Qed.
Lemma par_time w Q : Q (clock (g_env w.2)) w → par time w Q.
Proof. done. Qed.
Lemma par_new_bset s w Q :
  Q (next_loc (heap_sets w.1))
    (set_heap_sets (<[next_loc (heap_sets w.1) := s]> (heap_sets w.1)) w.1, w.2) →
  par (new_bset s) w Q.
Proof. done. Qed.

(** What a client relies on: nobody uses the backend session that a package
    of its own is on its way on, or takes it away; other backends may be used
    and released meanwhile. *)
Definition on_session (p : Package R) (_ : nat) (i : BackendInstance R) : Prop :=
  m_session i = p_session p.
Definition sessions_kept : Prop :=
  (∀ route p w, par (next route p) w (λ _ w', keep (on_session p) w w')) ∧
  (∀ w, par others w (λ _ w', keep (λ _ _, False) w w')).

Section found.
Context (Hkept : sessions_kept).
Context (dbs : list string) (q : Query) (c : nat) (apdu_req : APDU).

Lemma set_search_found b i l p sp w :
  heap_backends w.1 !! b = Some i → m_in_use i = true → m_session i = p_session sp →
  set_for dbs q l w →
  par (set_search l p sp apdu_req) w (λ _ w', owned b w' ∧ set_for dbs q l w').
Proof.
  intros Hi Hu Hsp Hl. unfold set_search. apply par_bind, par_get_bset. intros s Hs.
  apply par_bind. eapply par_mono; [apply (proj1 Hkept)|]. intros rp w1 Hk.
  assert (Hb1 : owned b w1) by (exists i; split; [by apply (proj1 Hk)|done]).
  apply (set_for_keep _ dbs q l) in Hk as Hl1; [|done].
  destruct (z3950 (p_response rp)) as [[]|]; try (by apply par_ret).
  destruct (is_closed rp); [by apply par_ret|]. apply par_bind, par_modify, par_ret.
  destruct Hl1 as (s1 & Hs1 & Hd & Hq). split; [done|].
  eexists. simpl. rewrite lookup_alter_eq, Hs1. by split.
Qed.
Lemma search_new_found b id p again w :
  par (search_new_set c b id p apdu_req dbs q again) w (λ r w',
    match r with
    | sr_found b' l => owned b' w' ∧ set_for dbs q l w' ∧
        ∃ i, heap_backends w'.1 !! b' = Some i ∧ l ∈ m_sets i
    | _ => True
    end).
Proof.
  unfold search_new_set. apply par_bind. unfold timestamp at 1.
  apply par_bind, par_get_instance. intros i0 Hi0. destruct (m_in_use i0) eqn:Hu; [|done].
  apply par_bind, par_time, par_modify, par_bind, par_time, par_bind, par_new_bset.
  cbn [fst snd]. set (w1 := (set_heap_sets _ _, _)). set (l := next_loc _).
  assert (Hb1 : owned b w1).
  { eexists. simpl. rewrite lookup_alter_eq, Hi0. by split. }
  assert (Hl1 : set_for dbs q l w1).
  { eexists. simpl. rewrite lookup_insert_eq. by split. }
  clearbody w1 l. apply par_bind, par_get_instance. intros i Hi.
  apply par_bind, par_copy_filter. intros pos. apply par_bind.
  assert (m_in_use i = true) by (destruct Hb1 as (? & ? & ?); congruence).
  eapply par_mono; [by apply (set_search_found b i)|]. intros o w2 [Hb2 Hl2].
  destruct o as [p'|rec].
  { apply par_bind, par_any. intros [] w3. apply par_bind, par_any. intros [] w4.
    by apply par_ret. }
  apply par_bind, par_get.
  destruct (_ && (_ =? BIB1_TEMPORARY_SYSTEM_ERROR)).
  { apply par_bind, par_any. intros [] w3. apply par_bind, par_any. intros [] w4.
    by apply par_ret. }
  destruct (if _ =? 0 then None else rec) as [r|].
  { apply par_bind, par_any. intros [] w3. by apply par_ret. }
  apply par_bind, par_get_bset. intros s Hs. destruct (_ && (_ <? 0)).
  { apply par_bind, par_any. intros [] w3. apply par_bind, par_any. intros [] w4.
    by apply par_ret. }
  apply par_bind, par_modify, par_ret. destruct Hb2 as (i2 & Hi2 & Hu2).
  split_and!.
  - eexists. simpl. rewrite lookup_alter_eq, Hi2. by split.
  - done.
  - eexists. simpl. rewrite lookup_alter_eq, Hi2. split; [done|].
    apply elem_of_app. right. left.
Qed.

(** The set that was found: by comparison, or made for this very query. *)
Definition found_ok (b l : nat) (w : World) : Prop :=
  ∃ i s, heap_backends w.1 !! b = Some i ∧ m_in_use i = true ∧ l ∈ m_sets i ∧
    heap_sets w.1 !! l = Some s ∧
    (set_matches dbs q apdu_req s = true ∨ m_databases s = dbs ∧ m_query s = q).
Definition pass_ok (r : SetResult) (w : World) : Prop :=
  match r with sr_found b l => found_ok b l w | _ => True end.

Lemma pass_found p again w :
  par (get_set_pass c p apdu_req dbs q again) w pass_ok.
Proof.
  assert (Hnew : ∀ b id w, par (search_new_set c b id p apdu_req dbs q again) w pass_ok).
  { intros b id w1. eapply par_mono; [apply search_new_found|]. intros r w2.
    destruct r as [b' l| | |]; [|done..].
    intros ((i & Hi & Hu) & (s & Hs & Hd & Hq) & i' & Hi' & Hin).
    simplify_eq. exists i, s. split_and!; auto. }
  unfold get_set_pass. apply par_bind.
  eapply par_mono with (Q := λ _ _, True); [by apply par_any|].
  intros cl w1 _. apply par_bind, par_get. apply par_bind.
  eapply par_mono with (Q := λ o w', match o with
    | inl (b, l) => found_ok b l w' | inr _ => True end).
  - unfold choose_backend. apply par_bind, par_get. apply par_bind.
    eapply par_mono with (Q := λ o w', ∀ b l, o = Some (b, l) →
      candidate (set_matches dbs q apdu_req) b l w').
    { destruct (m_optimize_search w1.1); [|by apply par_ret].
      eapply par_mono; [by apply (sk_wait _ (proj2 Hkept) w1), keep_refl|]. by intros o w2 [_ Ho]. }
    intros o w2 Ho. destruct o as [[b l]|].
    2: { apply par_bind. eapply par_mono with (Q := λ _ _, True); [by apply par_any|].
      intros o w3 _. destruct o as [[b id]|]; [|by apply par_ret].
      apply par_bind, par_any. intros [] w4. by apply par_ret. }
    destruct (Ho b l eq_refl) as (i & s & Hi & Hu & Hin & Hs & HP).
    apply par_bind. unfold use_backend. apply par_bind. unfold get_class.
    apply par_bind, par_get, par_deref. intros cl2 _.
    apply par_bind, par_modify, par_modify, par_ret.
    eexists _, s. cbn. rewrite lookup_alter_eq, Hi. split_and!; [done..|auto].
  - intros o w2 Ho. destruct o as [[b l]|[[b id]|]]; [by apply par_ret|apply Hnew|].
    destruct (_ <=? _); [by apply par_ret|]. apply par_bind, par_any.
    intros [[code ai] o] w3. destruct o as [b|]; [|by apply par_ret].
    apply par_bind, par_any. intros id w4. apply Hnew.
Qed.
End found.

(** C26. Sharing a result set is sound: when a Search or Present gets a
    backend and a result set, the backend is marked as in use, the set is one
    of its sets, and it is for the databases and the query of the request:
    either it was made for them, or it was there and passed the comparison of
    databases, query and, for a Search, additional search information. This
    holds whatever other clients do to other backends while the search is on
    its way, and to any backend while the client waits. *)
Theorem get_set_sound (c : nat) (package : Package R) (apdu_req : APDU)
    (databases : list string) (query : Query) (w : World) (Hkept : sessions_kept) :
  par (get_set c package apdu_req databases query) w (λ r w',
    match r with
    | inl _ | inr (None, _) => True
    | inr (Some b, l) =>
        ∃ i s, heap_backends w'.1 !! b = Some i ∧ m_in_use i = true ∧ l ∈ m_sets i ∧
          heap_sets w'.1 !! l = Some s ∧
          (set_matches databases query apdu_req s = true ∨
           m_databases s = databases ∧ m_query s = query)
    end).
Proof.
  unfold get_set. apply par_bind. eapply par_mono; [by apply pass_found|].
  intros r w1 Hr. destruct r as [b l| | |l]; [by apply par_ret..|].
  apply par_bind. eapply par_mono; [by apply pass_found|].
  intros r' w2 Hr'. destruct r'; by apply par_ret.
Qed.

(** Steps of a handler. *)
Lemma bind_get_fr {A} (k : Frontend → M (Frontend * World) A) f w :
  (get_fr ≫= k) (f, w) = k f (f, w).
Proof. done. Qed.
Lemma bind_class {A} c (k : nat → M (Frontend * World) A) f w :
  m_backend_class f = Some c → (frontend_class ≫= k) (f, w) = k c (f, w).
Proof. intros Hc. unfold frontend_class, mbind, M_bind, get_fr, get_st, deref. cbn. by rewrite Hc. Qed.
Lemma bind_modify_fr {A} g (k : unit → M (Frontend * World) A) f w :
  (modify_fr g ≫= k) (f, w) = k tt (g f, w).
Proof. done. Qed.
Lemma bind_on_world {A B} (m : W A) (k : A → M (Frontend * World) B) f w a w' :
  m w = Ok (a, w') → (on_world m ≫= k) (f, w) = k a (f, w').
Proof. intros Hm. by rewrite (bind_ok _ _ _ _ _ (on_world_ok m f w a w' Hm)). Qed.

(** A restart that fails is undefined behaviour: when the search of a
    Search or Present makes [get_set] start again, and the second time there
    is no backend to search on (the target refuses the new session, say), the
    result set of the first time is still there with a null backend, and the
    null pointer is dereferenced. The client does not get the diagnostic that
    [get_set] made. *)
Theorem failed_restart_undefined (c l : nat) (package p' : Package R)
    (apdu_req : APDU) (databases : list string) (query : Query) (f : Frontend)
    (w w1 w2 : World)
    (Hfirst : get_set_pass c package apdu_req databases query false w =
       Ok (sr_restart l, w1))
    (Hsecond : get_set_pass c package apdu_req databases query true w1 =
       Ok (sr_refused p', w2))
    (Hclass : m_backend_class f = Some c) :
  (∀ req, apdu_req = searchRequest req → databases = sq_databaseNames req →
     m_frontend_sets f !! sq_resultSetName req = None →
     resolve_query (m_frontend_sets f) databases (sq_query req) = inr query →
     search package req (f, w) = Undef NullDeref) ∧
  (∀ req, apdu_req = presentRequest req →
     m_frontend_sets f !! pq_resultSetId req = Some (mk_FrontendSet databases query) →
     present package req (f, w) = Undef NullDeref).
Proof.
  assert (Hget : get_set c package apdu_req databases query w = Ok (inr (None, l), w2)).
  { unfold get_set. rewrite (bind_ok _ _ _ _ _ Hfirst). cbn match.
    by rewrite (bind_ok _ _ _ _ _ Hsecond). }
  split.
  - intros req -> -> Hname Hq. unfold search. rewrite bind_get_fr, Hname. cbn [andb].
    rewrite bind_modify_fr, bind_get_fr. cbn [m_frontend_sets set_frontend_sets].
    rewrite (delete_id _ _ Hname), Hq.
    rewrite (bind_class c) by done. rewrite (bind_on_world _ _ _ _ _ _ Hget).
    unfold get_bset. unfold mbind, M_bind, on_world, get, deref. cbn.
    by destruct (heap_sets w2.1 !! l).
  - intros req -> Hname. unfold present. rewrite bind_get_fr, Hname.
    rewrite (bind_class c) by done. cbn [fs_databases fs_query]. rewrite (bind_on_world _ _ _ _ _ _ Hget).
    unfold present_on, get_bset. unfold mbind, M_bind, on_world, get, deref. cbn.
    by destruct (heap_sets w2.1 !! l).
Qed.

(** *** References to result sets *)

(** The result sets that a query refers to, from left to right. *)
Fixpoint refs (s : RPNStructure) : list string :=
  match s with
  | RPNStructure_simple (Operand_resultSetId id) => [id]
  | RPNStructure_simple _ => []
  | RPNStructure_complex _ s1 s2 => refs s1 ++ refs s2
  end.
Definition query_refs (q : Query) : list string :=
  match q with Query_type_1 _ rpn | Query_type_101 _ rpn => refs rpn | _ => [] end.
(** A set that may be referred to: an RPN query over the same databases. *)
Definition usable (sets : gmap string FrontendSet) (dbs : list string) (id : string) : Prop :=
  ∃ fs, sets !! id = Some fs ∧ match_databases (fs_databases fs) dbs = true ∧
    match fs_query fs with Query_type_1 _ _ | Query_type_101 _ _ => True | _ => False end.
Definition sets_resolved (sets : gmap string FrontendSet) : Prop :=
  map_Forall (λ _ fs, query_refs (fs_query fs) = []) sets.
Definition resolved (sets : gmap string FrontendSet) (dbs : list string)
    (l : list string) {A} (refs_of : A → list string) (r : (Z * string) + A) : Prop :=
  match r with
  | inr s' => refs_of s' = [] ∧ Forall (usable sets dbs) l
  | inl (diag, id) =>
      diag = BIB1_SPECIFIED_RESULT_SET_DOES_NOT_EXIST ∧
      ∃ pre post, l = pre ++ id :: post ∧ Forall (usable sets dbs) pre ∧ ¬ usable sets dbs id
  end.

Lemma result_set_ref_ok sets dbs s :
  sets_resolved sets → resolved sets dbs (refs s) refs (result_set_ref sets dbs s).
Proof.
  intros Hr. induction s as [o|op s1 IH1 s2 IH2].
  - destruct o as [apt|id|]; simpl; try by split.
    assert (Hbad : ¬ usable sets dbs id → resolved sets dbs [id] refs
      (inl (BIB1_SPECIFIED_RESULT_SET_DOES_NOT_EXIST, id))).
    { intros H. split; [done|]. by exists [], []. }
    destruct (sets !! id) as [fs|] eqn:Hs.
    2: { apply Hbad. intros (? & ? & _). congruence. }
    pose proof (Hr id fs Hs) as Hq. simpl in Hq.
    destruct (match_databases (fs_databases fs) dbs) eqn:Hm.
    2: { apply Hbad. intros (? & ? & ? & _). congruence. }
    unfold query_refs in Hq. destruct (fs_query fs) as [a rpn|a rpn| | |] eqn:Hf.
    1, 2: split; [done|]; repeat constructor; exists fs; rewrite Hf; by split_and!.
    all: apply Hbad; intros (fs' & ? & _ & Ho); simplify_eq; by rewrite Hf in Ho.
  - cbn [result_set_ref refs].
    destruct (result_set_ref sets dbs s1) as [[d id]|s1']; cbn [resolved] in *.
    + destruct IH1 as (-> & pre & post & -> & ? & ?). split; [done|].
      exists pre, (post ++ refs s2). by rewrite <-app_assoc.
    + destruct IH1 as [H1 HF1].
      destruct (result_set_ref sets dbs s2) as [[d id]|s2']; cbn [resolved] in *.
      * destruct IH2 as (-> & pre & post & -> & ? & ?). split; [done|].
        exists (refs s1 ++ pre), post. rewrite <-app_assoc. split_and!; [done| |done].
        by apply Forall_app.
      * destruct IH2 as [H2 HF2]. simpl. rewrite H1, H2. split; [done|].
        by apply Forall_app.
Qed.
Lemma resolve_query_ok sets dbs q :
  sets_resolved sets → resolved sets dbs (query_refs q) query_refs (resolve_query sets dbs q).
Proof.
  intros Hr. destruct q as [a rpn|a rpn| | |]; simpl; [| |by split..];
    pose proof (result_set_ref_ok sets dbs rpn Hr) as H;
    by destruct (result_set_ref sets dbs rpn) as [[d id]|s'].
Qed.

Definition fkeeps {A} (m : M (Frontend * World) A) : Prop :=
  ∀ s, sets_resolved (m_frontend_sets s.1) →
    par m s (λ _ s', sets_resolved (m_frontend_sets s'.1)).
Lemma fkeeps_bind {A B} (m : M (Frontend * World) A) (k : A → M (Frontend * World) B) :
  fkeeps m → (∀ a, fkeeps (k a)) → fkeeps (m ≫= k).
Proof.
  intros Hm Hk s Hs. apply par_bind. eapply par_mono; [by apply Hm|].
  intros a s' Hs'. by apply Hk.
Qed.
Lemma fkeeps_world {A} (m : W A) : fkeeps (on_world m).
Proof. intros [f w] Hs. by apply on_world_par, par_any. Qed.
Lemma fkeeps_ret {A} (a : A) : fkeeps (mret a).
Proof. by intros s Hs. Qed.
Lemma fkeeps_same {A} (m : M (Frontend * World) A) :
  (∀ s a s', m s = Ok (a, s') → s' = s) → fkeeps m.
Proof.
  intros Hm s Hs. unfold par. destruct (m s) as [[a s']|?|?|] eqn:E0; [|done..].
  by rewrite (Hm _ _ _ E0).
Qed.
Lemma fkeeps_get_fr : fkeeps (get_fr : M (Frontend * World) Frontend).
Proof. by intros s Hs. Qed.
Lemma fkeeps_class : fkeeps (frontend_class : M (Frontend * World) nat).
Proof.
  apply fkeeps_same. intros [f w] a s'. unfold frontend_class, mbind, M_bind, get_fr, get_st.
  simpl. destruct (m_backend_class f); [by intros [= _ <-]|done].
Qed.
Lemma fkeeps_copy (p q : Package R) :
  fkeeps (copy_filter p q : M (Frontend * World) (Package R)).
Proof.
  apply fkeeps_same. intros s a s'. unfold copy_filter, deref, mbind, M_bind.
  destruct (p_route_pos p); [by intros [= _ <-]|done].
Qed.
Ltac fkeeps_step :=
  first [ apply fkeeps_world | apply fkeeps_ret | apply fkeeps_get_fr | apply fkeeps_class
        | apply fkeeps_copy | by (intros ??) | apply fkeeps_bind; [|intros ?]
        | progress case_match ].

Lemma fkeeps_search p req : fkeeps (search p req).
Proof.
  unfold search. apply fkeeps_bind; [apply fkeeps_get_fr|intros f].
  destruct (_ && _); [apply fkeeps_ret|].
  intros [f0 w0] H0. apply par_bind. unfold par at 1. cbn. apply par_bind.
  unfold par at 1. cbn. set (f1 := set_frontend_sets _ f0).
  assert (H1 : sets_resolved (m_frontend_sets f1)) by (by apply map_Forall_delete).
  pose proof (resolve_query_ok _ (sq_databaseNames req) (sq_query req) H1) as Hq.
  destruct (resolve_query _ _ _) as [[d id]|q]; [by apply par_ret|]. destruct Hq as [Hq _].
  apply par_bind. eapply par_mono; [by apply (fkeeps_class (f1, w0))|]. intros c s Hs.
  apply par_bind. eapply par_mono; [by apply (fkeeps_world _ s)|]. intros r s' Hs'.
  destruct r as [p'|[b l]]; [by apply par_ret|].
  apply par_bind. eapply par_mono; [by apply (fkeeps_world _ s')|]. intros bs s2 Hs2.
  apply par_bind. unfold par at 1. cbn.
  match goal with |- par _ ?s3 _ =>
    assert (H3 : sets_resolved (m_frontend_sets s3.1)) by (by apply map_Forall_insert_2) end.
  apply par_bind, par_deref. intros b' _. apply par_bind. eapply par_mono; [by apply (fkeeps_world (release_backend b'))|].
  intros [] s4 Hs4. by apply par_ret.
Qed.
Lemma fkeeps_handle p : fkeeps (handle p).
Proof.
  unfold handle, present, scan, init.
  apply fkeeps_bind; [apply fkeeps_get_fr|intros f].
  destruct (m_is_virtual f), (z3950 (p_request p)) as [[]|];
    first [ apply fkeeps_search | repeat fkeeps_step ].
Qed.

(** References are resolved at once: the query that a search sends to
    targets and compares with other clients' queries has no reference to a
    result set left, every set it named being an RPN query over the same
    databases; otherwise the search is refused with the first name for which
    this fails. No result set that a client has ever holds a reference. *)
Theorem references_resolved (sets : gmap string FrontendSet) (databases : list string)
    (query : Query) (package : Package R) (w : World) (f : Frontend)
    (Hsets : sets_resolved sets) (Hf : m_frontend_sets f = sets) :
  match resolve_query sets databases query with
  | inr query' => query_refs query' = [] ∧ Forall (usable sets databases) (query_refs query)
  | inl (diag, id) =>
      diag = BIB1_SPECIFIED_RESULT_SET_DOES_NOT_EXIST ∧
      ∃ pre post, query_refs query = pre ++ id :: post ∧
        Forall (usable sets databases) pre ∧ ¬ usable sets databases id
  end ∧
  par (with_frontend f (handle package)) w
    (λ r _, sets_resolved (m_frontend_sets r.2)).
Proof.
  split; [by apply (resolve_query_ok sets databases query)|].
  pose proof (fkeeps_handle package (f, w)) as Hh. simpl in Hh. rewrite Hf in Hh.
  specialize (Hh Hsets). unfold par, with_frontend in *.
  by destruct (handle package (f, w)) as [[p' [f' w']]|?|?|].
Qed.
End filter.

(** *** Clients with the same Init parameters *)

Lemma lex_compare_eq b1 b2 : lex_compare b1 b2 = Eq ↔ b1 = b2.
Proof.
  revert b2. induction b1 as [|x b1 IH]; intros [|y b2]; simpl; try (split; done).
  destruct (Z.compare_spec x y) as [->|H|H]; [rewrite IH|..]; split; try done;
    intros; simplify_eq; (done || lia).
Qed.
Lemma lex_compare_antisym b1 b2 : lex_compare b2 b1 = CompOpp (lex_compare b1 b2).
Proof.
  revert b2. induction b1 as [|x b1 IH]; intros [|y b2]; simpl; try done.
  rewrite (Z.compare_antisym x y). destruct (x ?= y); simpl; auto.
Qed.
(** Two keys are the same for the map exactly if all bytes agree. *)
Lemma same_key_eq k1 k2 : same_key k1 k2 = true ↔ k1 = k2.
Proof.
  unfold same_key, InitKey_lt, buf_cmp. rewrite !memcmp2_lex.
  rewrite (lex_compare_antisym (m_idAuthentication k1) (m_idAuthentication k2)).
  rewrite (lex_compare_antisym (m_otherInfo k1) (m_otherInfo k2)).
  destruct k1 as [a1 o1], k2 as [a2 o2]. simpl.
  pose proof (lex_compare_eq a1 a2) as Ha. pose proof (lex_compare_eq o1 o2) as Ho.
  destruct (lex_compare a1 a2), (lex_compare o1 o2); simpl;
    (split; [intros H; try done|intros [= -> ->]]);
    try (destruct Ha as [_ Ha]; specialize (Ha eq_refl); done);
    try (destruct Ho as [_ Ho]; specialize (Ho eq_refl); done); try done.
  destruct Ha as [-> _], Ho as [-> _]; done.
Qed.
Lemma same_key_sym k1 k2 : same_key k1 k2 = same_key k2 k1.
Proof. unfold same_key. apply andb_comm. Qed.
Lemma map_find_cons k e m :
  map_find k (e :: m) = if same_key k e.1 then Some e.2 else map_find k m.
Proof.
  unfold map_find. simpl. destruct (same_key k e.1); [done|].
  by destruct (find_first _ m) as [[? ?]|].
Qed.
Lemma map_find_insert k k' c m :
  map_find k' (map_insert k c m) = if same_key k' k then Some c else map_find k' m.
Proof.
  induction m as [|e m IH]; cbn [map_insert]; [by rewrite map_find_cons|].
  destruct (InitKey_lt e.1 k) eqn:Hlt.
  - rewrite !map_find_cons, IH. destruct (same_key k' e.1) eqn:He; [|done].
    destruct (same_key k' k) eqn:Hk; [|done].
    apply same_key_eq in He, Hk. exfalso. rewrite <-He, Hk in Hlt.
    assert (H : same_key k k = true) by (by apply same_key_eq).
    unfold same_key in H. by rewrite Hlt in H.
  - destruct (same_key k e.1) eqn:He.
    + apply same_key_eq in He. rewrite !map_find_cons, <-He. simpl.
      by destruct (same_key k' k).
    + by rewrite map_find_cons.
Qed.

Section classes.
Context {R E : Type} `{D : Deps E}.
Definition init_key (req : InitRequest) : InitKey :=
  mk_InitKey (z_IdAuthentication (iq_idAuthentication req))
             (z_OtherInformation (iq_otherInfo req)).

(** Backend sessions are shared by equal Init parameters: an Init gets
    the class that is registered for exactly its encoded authentication and
    other information; if there is none, a new and empty class is registered
    for them, made from this request, and every other key keeps its class.
    So clients whose parameters differ in any byte never share a session. *)
Theorem classes_by_key (req : InitRequest) (w : World (R := R) (E := E)) :
  ∃ c w', find_class req w = Ok (c, w') ∧
    (∀ k, map_find k (m_backend_map w'.1) =
       if same_key k (init_key req) then Some c else map_find k (m_backend_map w.1)) ∧
    (∀ k, same_key k (init_key req) = true ↔ k = init_key req) ∧
    match map_find (init_key req) (m_backend_map w.1) with
    | Some c0 => c = c0 ∧ w' = w
    | None => heap_classes w.1 !! c = None ∧
        ∃ cl, heap_classes w'.1 !! c = Some cl ∧ m_backend_list cl = [] ∧
          m_init_request cl = req ∧ m_init_response cl = None
    end.
Proof.
  unfold find_class. fold (init_key req). erewrite bind_ok by done.
  destruct (map_find (init_key req) (m_backend_map w.1)) as [c|] eqn:Hf.
  - exists c, w. split_and!; [done| |intros k; apply same_key_eq|done|done].
    intros k. destruct (same_key k (init_key req)) eqn:Hk; [|done].
    apply same_key_eq in Hk as ->. done.
  - do 2 eexists. split; [reflexivity|]. split_and!; [|intros k; apply same_key_eq|..].
    + intros k. cbn. apply map_find_insert.
    + apply next_loc_fresh.
    + eexists. cbn. rewrite lookup_insert_eq. by split_and!.
Qed.
End classes.

(** ** A concrete configuration *)
#[local] Instance example_deps : Deps Z := {|
  z_IdAuthentication := λ a, match a with Some (IdAuthentication_open s) =>
    Z.of_nat ∘ nat_of_ascii <$> list_ascii_of_string s | _ => [] end;
  z_OtherInformation := λ _, [];
  query_match := λ q q', match q, q' with
    | Query_type_1 _ (RPNStructure_simple (Operand_APT s)),
      Query_type_1 _ (RPNStructure_simple (Operand_APT s')) => bool_decide (s = s')
    | _, _ => false end;
  yaz_compare_z_OtherInformation := λ _ _, true;
  RecordCache := unit;
  cache_new := tt;
  cache_lookup := λ _ _ _ _ _, None;
  cache_add := λ c _ _ _, c;
  clock := λ t, t
|}.
Definition example_query : Query :=
  Query_type_1 "bib-1" (RPNStructure_simple (Operand_APT "title")).
(** Accepts every session and finds three records. *)
Definition example_next (_ : string) (p : Package unit) :
    M (World (R := unit) (E := Z)) (Package unit) :=
  match z3950 (p_request p) with
  | Some (initRequest _) =>
      mret (set_response (Some (GDU_Z3950 (initResponse
        (zget_initResponse (Yaz := ref_yaz))))) p)
  | Some (searchRequest _) =>
      mret (set_response (Some (GDU_Z3950 (searchResponse
        (set_sr_resultCount 3 (zget_searchResponse (Yaz := ref_yaz)))))) p)
  | _ => mret p
  end.
Lemma example_next_keeps X route p w : par (example_next route p) w (λ _ w', keep X w w').
Proof.
  unfold example_next. destruct (z3950 (p_request p)) as [[]|]; apply par_ret, keep_refl.
Qed.
Definition example_class : BackendClass :=
  mk_BackendClass false [0%nat; 5%nat] (zget_initRequest (Yaz := ref_yaz)) None 0 30 90
    10 0 0 0 1 1.
Definition open_instance : BackendInstance unit :=
  mk_BackendInstance (Session.mk 3 false) [] false 0 0 1000
    (mk_Package (Session.mk 3 false) Origin.create (Some tt) None None).
(** Two backends in use; the first has a set for the example query. *)
Definition example_world : World (R := unit) (E := Z) :=
  (set_heap_sets {[0%nat := mk_BackendSet "default" ["db"] 3 example_query 1000 tt [] []]}
     (set_heap_backends
        {[0%nat := set_bi_sets [0%nat] (set_in_use true open_instance);
          5%nat := set_in_use true open_instance]}
        (set_heap_classes {[0%nat := example_class]} Rep_new)), Build_Global 0 1000).
(** The client that uses the first backend is done with it. *)
Definition example_others : M (World (R := unit) (E := Z)) unit := release_backend 0.
Lemma example_others_keeps X w :
  (∀ i, ¬ X 0%nat i) → par example_others w (λ _ w', keep X w w').
Proof.
  intros HX. eapply par_mono; [apply (sk_release X w 0%nat)|].
  - intros i _ Hi. by destruct (HX i).
  - apply keep_refl.
  - by intros a w' [? _].
Qed.
Definition example_frontend : Frontend :=
  mk_Frontend true 0 (Some 0%nat) {["old" := mk_FrontendSet ["db"] example_query]}.
Definition example_search : SearchRequest :=
  set_sq_databaseNames ["db"]
    (set_sq_query (Query_type_1 "bib-1" (RPNStructure_simple (Operand_resultSetId "old")))
       (zget_searchRequest (Yaz := ref_yaz))).
Definition example_package : Package unit :=
  mk_Package (Session.mk 7 false) Origin.create (Some tt)
    (Some (GDU_Z3950 (searchRequest example_search))) None.
(** A target that loses its searches and then takes no more sessions, under
    [restart]; one session to it is open. *)
Definition failing_next (_ : string) (p : Package unit) :
    M (World (R := unit) (E := Z)) (Package unit) :=
  match z3950 (p_request p) with
  | Some (initRequest _) =>
      mret (set_response (Some (GDU_Z3950 (initResponse
        (set_ir_result false (zget_initResponse (Yaz := ref_yaz)))))) p)
  | Some (searchRequest _) =>
      mret (set_response (Some (GDU_Z3950 (searchResponse
        (set_sr_records (Some (Records_NSD
           (zget_DefaultDiagFormat (Yaz := ref_yaz) BIB1_TEMPORARY_SYSTEM_ERROR None)))
           (zget_searchResponse (Yaz := ref_yaz)))))) p)
  | _ => mret p
  end.
Definition failing_world : World (R := unit) (E := Z) :=
  (set_resultset 30 10 true true
     (set_heap_backends {[0%nat := open_instance]}
        (set_heap_classes {[0%nat := set_backends [0%nat] example_class]} Rep_new)),
   Build_Global 0 1000).

Lemma sharing_is_exclusive_witness :
  par (with_frontend example_frontend
    (handle (Y := ref_yaz) example_next example_others 1 example_package)) example_world
    (λ _ w', keep (only (λ b, b = 5%nat)) example_world w').
Proof.
  apply (sharing_is_exclusive (Y := ref_yaz) example_next example_others 1
    (λ b, b = 5%nat) example_package example_frontend example_world).
  - intros route p w. apply example_next_keeps.
  - intros w. apply example_others_keeps. intros i Hi. discriminate Hi.
Defined.
Lemma get_set_sound_witness :
  ∃ w', get_set (Y := ref_yaz) example_next example_others 1 0 example_package
      (searchRequest example_search) ["db"] example_query example_world =
      Ok (inr (Some 0%nat, 0%nat), w') ∧
    ∃ i, heap_backends w'.1 !! 0%nat = Some i ∧ m_in_use i = true.
Proof.
  assert (Hkept : sessions_kept (D := example_deps) example_next example_others).
  { split; [intros route p w; apply example_next_keeps|].
    intros w. apply example_others_keeps. intros i []. }
  pose proof (get_set_sound (Y := ref_yaz) example_next example_others 1 0 example_package
    (searchRequest example_search) ["db"] example_query example_world Hkept) as H.
  unfold par in H.
  destruct (get_set (Y := ref_yaz) example_next example_others 1 0 example_package
    (searchRequest example_search) ["db"] example_query example_world)
    as [[r w']|?|?|] eqn:He; vm_compute in He; try discriminate He.
  injection He as <- <-. eexists. split; [reflexivity|].
  destruct H as (i & s & Hi & Hu & _). exists i. split; [exact Hi|exact Hu].
Defined.
Lemma failed_restart_undefined_witness :
  search (Y := ref_yaz) failing_next example_others 1 example_package
    (set_sq_query example_query example_search) (example_frontend, failing_world) =
  Undef NullDeref.
Proof.
  destruct (get_set_pass (Y := ref_yaz) failing_next example_others 1 0 example_package
    (searchRequest (set_sq_query example_query example_search)) ["db"] example_query
    false failing_world) as [[[| | |l] w1]|?|?|] eqn:H1; try discriminate H1.
  destruct (get_set_pass (Y := ref_yaz) failing_next example_others 1 0 example_package
    (searchRequest (set_sq_query example_query example_search)) ["db"] example_query
    true w1) as [[[| |p'|] w2]|?|?|] eqn:H2;
    try (vm_compute in H1; injection H1 as <- <-; vm_compute in H2; discriminate H2).
  destruct (failed_restart_undefined (Y := ref_yaz) failing_next example_others 1 0 l example_package p'
    (searchRequest (set_sq_query example_query example_search)) ["db"] example_query
    example_frontend failing_world w1 w2 H1 H2 eq_refl) as [H _].
  apply H; reflexivity.
Defined.
Lemma references_resolved_witness :
  ∃ q', resolve_query (m_frontend_sets example_frontend) ["db"] (sq_query example_search) =
    inr q' ∧ query_refs q' = [].
Proof.
  destruct (references_resolved (Y := ref_yaz) example_next example_others 1
    (m_frontend_sets example_frontend) ["db"] (sq_query example_search) example_package
    example_world example_frontend) as [H _].
  - apply map_Forall_singleton. reflexivity.
  - reflexivity.
  - eexists. split; [reflexivity|]. destruct H as [H _]. exact H.
Defined.
End SessionShared.
