(* ===== verification/Sort.v ===== *)
(** * The sort filter

    [src/filter_sort.cpp]: when the first page of a result set arrives, the
    filter fetches further records up to its prefetch limit, sorts them by a
    text that an XPath expression selects, and serves this and later Presents
    inside that range from the sorted list. libxml2 is the class [XPath]. *)
From Stdlib Require Import Sorting.Sorted Sorting.Permutation.
From S2P Require Import Prelude Zgdu Yaz Core Xml Util Frontends Target.

Module Sort.

(** ** Libraries *)

(** A node that an expression selects; an [xmlNode *] comes with its
    siblings. *)
Inductive xpathNode : Type :=
  | XP_element (ptr : list xmlNode)
  | XP_attribute (a : xmlAttr)
  | XP_text (ptr : list xmlNode)
  | XP_other.
Class XPath : Type := {
  xmlDoc : Type;
  xmlXPathContext : Type;
  xmlParseMemory : string → option xmlDoc;
  xmlXPathNewContext : xmlDoc → option xmlXPathContext;
  (** [None] if the prefix cannot be registered. *)
  xmlXPathRegisterNs : xmlXPathContext → string → string → option xmlXPathContext;
  (** The object, and its [nodesetval]; both pointers may be null. *)
  xmlXPathEvalExpression : string → xmlXPathContext → option (option (list xpathNode))
}.

(** ** Records and their keys *)
Record Record_ : Type := mk_Record {
  npr : NamePlusRecord;
  score : string
}.

Section keys.
Context `{X : XPath}.

Fixpoint skip_blanks (s : string) : string :=
  match s with
  | String c s' => if decide (c = " "%char) then skip_blanks s' else s
  | EmptyString => s
  end.
(** [register_namespaces]: a list of [prefix=href], separated by blanks. Every
    turn takes at least the equals sign, so that the length of the list is
    enough fuel. *)
Fixpoint register_loop (fuel : nat) (ctx : xmlXPathContext) (next : string) :
    xmlXPathContext * bool :=
  match fuel with
  | O => (ctx, true)
  | S fuel' =>
      let next := skip_blanks next in
      if decide (next = "") then (ctx, true)
      else match find_char "=" next with
           | None => (ctx, false)
           | Some i =>
               let prefix := str_take i next in
               let next := str_drop (S i) next in
               let '(href, next) :=
                 match find_char " " next with
                 | Some j => (str_take j next, Some (str_drop (S j) next))
                 | None => (next, None)
                 end in
               match xmlXPathRegisterNs ctx prefix href with
               | None => (ctx, false)
               | Some ctx =>
                   match next with
                   | Some next => register_loop fuel' ctx next
                   | None => (ctx, true)
                   end
               end
           end
  end.
Definition register_namespaces (ctx : xmlXPathContext) (nsList : string) :
    xmlXPathContext * bool :=
  register_loop (S (String.length nsList)) ctx nsList.

(** The text of the first selected node that has any. *)
Definition node_content (n : xpathNode) : string :=
  match n with
  | XP_element (p :: _) => mp_xml.get_text (n_children p)
  | XP_element [] => ""
  | XP_attribute a => mp_xml.get_text (a_children a)
  | XP_text ptr => mp_xml.get_text ptr
  | XP_other => ""
  end.
Fixpoint first_content (nodes : list xpathNode) (score : string) : string :=
  match nodes with
  | [] => score
  | n :: nodes' =>
      let content := node_content n in
      if (String.length content =? 0)%nat then first_content nodes' score else content
  end.
Definition get_xpath (doc : xmlDoc) (namespaces expr score : string) : string :=
  match xmlXPathNewContext doc with
  | None => score
  | Some xpathCtx =>
      let '(xpathCtx, _) := register_namespaces xpathCtx namespaces in
      match xmlXPathEvalExpression expr xpathCtx with
      | Some (Some nodes) => first_content nodes score
      | _ => score
      end
  end.
(** The constructor of [Record]. *)
Definition Record_new (n : NamePlusRecord) (namespaces expr : string) : Record_ :=
  mk_Record n
    match npr_record n with
    | NPR_databaseRecord (External_octet (Some oid) _ buf) =>
        if decide (oid = recsyn_xml) then
          match xmlParseMemory buf with
          | Some doc => get_xpath doc namespaces expr ""
          | None => ""
          end
        else ""
    | _ => ""
    end.
End keys.

(** [strcmp(s1, s2) < 0]. *)
Fixpoint strcmp_lt (s1 s2 : string) : bool :=
  match s1, s2 with
  | _, EmptyString => false
  | EmptyString, String _ _ => true
  | String c1 s1', String c2 s2' =>
      if (nat_of_ascii c1 <? nat_of_ascii c2)%nat then true
      else if (nat_of_ascii c2 <? nat_of_ascii c1)%nat then false
      else strcmp_lt s1' s2'
  end.
Definition Record_lt (r1 r2 : Record_) : bool :=
  strcmp_lt (c_str (score r1)) (c_str (score r2)).

(** ** Record lists *)
Record RecordList : Type := mk_RecordList {
  syntax : option string;
  npr_list : list Record_
}.
Definition cmp (l : RecordList) (syntax_ : option string) : bool :=
  bool_decide (syntax l = syntax_).
Definition size (l : RecordList) : Z := Z.of_nat (length (npr_list l)).
(** [std::list::sort] is stable: a record goes behind those that are not
    greater. *)
Fixpoint insert_record (r : Record_) (l : list Record_) : list Record_ :=
  match l with
  | [] => [r]
  | x :: l' => if Record_lt r x then r :: l else x :: insert_record r l'
  end.
Definition sort_records (l : list Record_) : list Record_ :=
  foldl (λ acc r, insert_record r acc) [] l.
Definition sort (l : RecordList) : RecordList :=
  mk_RecordList (syntax l) (sort_records (npr_list l)).
(** [get]: the loop counts down to the record; null beyond the end. *)
Fixpoint get_loop (l : list Record_) (i : Z) : option NamePlusRecord :=
  match l with
  | [] => None
  | r :: l' => if i <=? 0 then Some (npr r) else get_loop l' (i - 1)
  end.
Definition get_record (l : RecordList) (pos : Z) (ascending : bool) :
    option NamePlusRecord :=
  get_loop (npr_list l) (if ascending then pos else size l - pos - 1).
(** The records at positions [pos], ..., [pos + number - 1], all of them [int]s;
    [None] if one of them is null. *)
Definition get_records (l : RecordList) (pos number : Z) (ascending : bool) :
    option (list NamePlusRecord) :=
  mapM (λ i, get_record l (int32 (pos + Z.of_nat i)) ascending) (seq 0 (Z.to_nat (int32 number))).

(** ** State *)

(** [hit_count] has no value until a Search response has come. *)
Record ResultSet : Type := mk_ResultSet {
  hit_count : option Z;
  record_lists : list RecordList
}.
Record Frontend : Type := mk_Frontend {
  m_is_virtual : bool;
  m_sets : gmap string ResultSet
}.
Definition Frontend_new : Frontend := mk_Frontend false ∅.
Definition set_sets (s : gmap string ResultSet) (f : Frontend) : Frontend :=
  mk_Frontend (m_is_virtual f) s.
Record Impl : Type := mk_Impl {
  m_prefetch : Z;
  m_xpath_expr : string;
  m_namespaces : string;
  m_ascending : bool;
  m_debug : bool;
  m_clients : Clients Frontend
}.
Definition Impl_init : Impl := mk_Impl 20 "" "" true false ∅.
Definition set_clients (c : Clients Frontend) (m : Impl) : Impl :=
  mk_Impl (m_prefetch m) (m_xpath_expr m) (m_namespaces m) (m_ascending m) (m_debug m) c.

(** ** Configuration *)
Fixpoint configure_attrs (attrs : list xmlAttr) (m : Impl) : outcome Impl :=
  match attrs with
  | [] => Ok m
  | a :: attrs' =>
      if decide (a_name a = "prefetch") then
        let p := mp_xml.get_int (a_children a) (-1) in
        if p <? 0 then Throw ("Bad or missing value for attribute " +:+ a_name a)
        else configure_attrs attrs' (mk_Impl p (m_xpath_expr m) (m_namespaces m)
               (m_ascending m) (m_debug m) (m_clients m))
      else if decide (a_name a = "xpath") then
        configure_attrs attrs' (mk_Impl (m_prefetch m) (mp_xml.get_text (a_children a))
          (m_namespaces m) (m_ascending m) (m_debug m) (m_clients m))
      else if decide (a_name a = "namespaces") then
        configure_attrs attrs' (mk_Impl (m_prefetch m) (m_xpath_expr m)
          (mp_xml.get_text (a_children a)) (m_ascending m) (m_debug m) (m_clients m))
      else if decide (a_name a = "ascending") then
        configure_attrs attrs' (mk_Impl (m_prefetch m) (m_xpath_expr m) (m_namespaces m)
          (mp_xml.get_bool (a_children a) true) (m_debug m) (m_clients m))
      else if decide (a_name a = "debug") then
        configure_attrs attrs' (mk_Impl (m_prefetch m) (m_xpath_expr m) (m_namespaces m)
          (m_ascending m) (mp_xml.get_bool (a_children a) false) (m_clients m))
      else Throw ("Bad attribute " +:+ a_name a)
  end.
Fixpoint configure_loop (ptr : list xmlNode) (m : Impl) : outcome Impl :=
  match ptr with
  | [] => Ok m
  | n :: ptr' =>
      if decide (n_type n ≠ XML_ELEMENT_NODE) then configure_loop ptr' m
      else if decide (n_name n = "sort") then
        m ← configure_attrs (n_properties n) m; configure_loop ptr' m
      else Throw ("Bad element " +:+ n_name n +:+ " in sort filter")
  end.
Definition configure (ptr : xmlNode) (m : Impl) : outcome Impl :=
  m ← configure_loop (n_children ptr) m;
  if (String.length (m_xpath_expr m) =? 0)%nat
  then Throw "Missing xpath attribute for config element in sort filter" else Ok m.

(** ** Handlers *)
Section filter.
Context `{Y : Yaz} `{X : XPath} {R E : Type}.
Definition World : Type := Impl * Global E.
Context (next : string → Package R → M World (Package R)).
Notation H := (M (Frontend * World)).

Definition the_impl : H Impl := w ← get; mret w.2.1.
Definition add_records (m : Impl) (l : list NamePlusRecord) (acc : list Record_) :
    list Record_ :=
  acc ++ ((λ n, Record_new n (m_namespaces m) (m_xpath_expr m)) <$> l).

(** One Present of the prefetch loop. *)
Definition prefetch_request (pos end_pos : Z) (syntax : option string)
    (comp : option RecordComposition) (resultSetId : string) : PresentRequest :=
  set_pq_recordComposition comp
    (set_pq_resultSetId resultSetId
       (set_pq_preferredRecordSyntax syntax
          (set_pq_numberOfRecordsRequested (end_pos - pos + 1)
             (set_pq_resultSetStartPoint pos zget_presentRequest)))).
(** The loop: [i] is the number of records in the last response. *)
Fixpoint prefetch_loop (fuel : nat) (package : Package R) (m : Impl)
    (syntax : option string) (comp : option RecordComposition) (resultSetId : string)
    (i pos end_pos : Z) (acc : list Record_) : H (list Record_) :=
  if negb (i =? 0) && (pos <=? end_pos) then
    match fuel with
    | O => out_of_fuel
    | S fuel' =>
        present_package ← copy_filter package
          (new_Package (p_session package) (p_origin package));
        present_package ← on_world (next "" (set_request (Some (GDU_Z3950 (presentRequest
          (prefetch_request pos end_pos syntax comp resultSetId)))) present_package));
        match z3950 (p_response present_package) with
        | Some (presentResponse res) =>
            match pr_records res with
            | Some (Records_DBOSD nprl) =>
                prefetch_loop fuel' package m syntax comp resultSetId
                  (Z.of_nat (length nprl)) (pos + Z.of_nat (length nprl)) end_pos
                  (add_records m nprl acc)
            | _ => mret acc
            end
        | _ => mret acc
        end
    end
  else mret acc.

(** [handle_records]: the result set and the records of the response after
    it; [None] stands for a list with a null record. *)
Definition handle_records (package : Package R) (records : option Records)
    (start_pos : Z) (s : ResultSet) (syntax : option string)
    (comp : option RecordComposition) (resultSetId : string) :
    H (ResultSet * option (option Records)) :=
  match records with
  | Some (Records_DBOSD nprl) =>
      if negb (start_pos =? 1) || existsb (λ l, cmp l syntax) (record_lists s)
      then mret (s, Some records)
      else
        m ← the_impl;
        hits ← match hit_count s with Some h => mret h | None => undef Uninitialised end;
        let i := Z.of_nat (length nprl) in
        let end_pos := if hits <? m_prefetch m then int32 hits else m_prefetch m in
        l ← prefetch_loop (Z.to_nat end_pos) package m syntax comp resultSetId
              i (1 + i) end_pos (add_records m nprl []);
        let rlp := sort (mk_RecordList syntax l) in
        mret (mk_ResultSet (hit_count s) (record_lists s ++ [rlp]),
              match get_records rlp 0 i (m_ascending m) with
              | Some l => Some (Some (Records_DBOSD l))
              | None => None
              end)
  | _ => mret (s, Some records)
  end.

(** A response goes through the encoder, which gives up on a null record. *)
Definition answer (package : Package R) (f : option Records → APDU)
    (records : option (option Records)) : Package R :=
  set_response (match records with
                | Some r => Some (GDU_Z3950 (f r)) | None => None end) package.

Definition handle_search (package : Package R) (req : SearchRequest) : H (Package R) :=
  let resultSetId := sq_resultSetName req in
  f ← get_fr;
  let exists_ := match m_sets f !! resultSetId with Some _ => true | None => false end in
  if exists_ && negb (sq_replaceIndicator req) then
    mret (set_response (Some (GDU_Z3950 (searchResponse (create_searchResponse
      (Some (searchRequest req)) BIB1_RESULT_SET_EXISTS_AND_REPLACE_INDICATOR_OFF None))))
      package)
  else
    let s := mk_ResultSet None [] in
    modify_fr (λ f, set_sets (<[resultSetId := s]> (m_sets f)) f) ;;
    b_package ← copy_filter package (new_Package (p_session package) (p_origin package));
    b_package ← on_world (next "" (set_request (p_request package) b_package));
    match z3950 (p_response b_package) with
    | Some (searchResponse res) =>
        let comp := piggyback_to_RecordComposition (sr_resultCount res) req in
        r ← handle_records package (sr_records res) 1
              (mk_ResultSet (Some (sr_resultCount res)) []) (sq_preferredRecordSyntax req)
              comp resultSetId;
        let '(s, records) := r in
        modify_fr (λ f, set_sets (<[resultSetId := s]> (m_sets f)) f) ;;
        mret (answer package (λ r, searchResponse (set_sr_records r res)) records)
    | _ => mret (set_response (p_response b_package) package)
    end.

(** The answer from a sorted list. *)
Definition list_response (req : PresentRequest) (r : option Records) : APDU :=
  presentResponse
    (set_pr_records r
       (set_pr_numberOfRecordsReturned (pq_numberOfRecordsRequested req)
          (set_pr_nextResultSetPosition
             (pq_resultSetStartPoint req + pq_numberOfRecordsRequested req)
             zget_presentResponse))).
(** A Present that is passed on. *)
Definition present_on (package : Package R) (req : PresentRequest) (rset : ResultSet) :
    H (Package R) :=
  let resultSetId := pq_resultSetId req in
  b_package ← copy_filter package (new_Package (p_session package) (p_origin package));
  b_package ← on_world (next "" (set_request (p_request package) b_package));
  match z3950 (p_response b_package) with
  | Some (presentResponse res) =>
      r ← handle_records package (pr_records res) (pq_resultSetStartPoint req) rset
            (pq_preferredRecordSyntax req) (pq_recordComposition req) resultSetId;
      let '(rset, records) := r in
      modify_fr (λ f, set_sets (<[resultSetId := rset]> (m_sets f)) f) ;;
      mret (answer package (λ r, presentResponse (set_pr_records r res)) records)
  | _ => mret (set_response (p_response b_package) package)
  end.
Definition handle_present (package : Package R) (req : PresentRequest) : H (Package R) :=
  let resultSetId := pq_resultSetId req in
  let start := pq_resultSetStartPoint req in
  let number := pq_numberOfRecordsRequested req in
  f ← get_fr;
  match m_sets f !! resultSetId with
  | None =>
      mret (set_response (Some (GDU_Z3950 (presentResponse (create_presentResponse
        (Some (presentRequest req)) BIB1_SPECIFIED_RESULT_SET_DOES_NOT_EXIST
        (Some resultSetId))))) package)
  | Some rset =>
      m ← the_impl;
      match find_first (λ l, cmp l (pq_preferredRecordSyntax req)) (record_lists rset) with
      | Some (_, l) =>
          if start - 1 + number <=? size l then
            mret (answer package (list_response req)
              (match get_records l (start - 1) number (m_ascending m) with
               | Some l => Some (Some (Records_DBOSD l)) | None => None end))
          else present_on package req rset
      | None => present_on package req rset
      end
  end.

Definition handle_package (package : Package R) : H (Package R) :=
  match z3950 (p_request package) with
  | Some (searchRequest req) => handle_search package req
  | Some (presentRequest req) => handle_present package req
  | _ => on_world (next "" package)
  end.
Definition handle (package : Package R) : H (Package R) :=
  f ← get_fr;
  if m_is_virtual f then handle_package package
  else
    match z3950 (p_request package) with
    | Some (initRequest _) =>
        package ← on_world (next "" package);
        modify_fr (λ f, mk_Frontend true (m_sets f)) ;;
        mret package
    | _ => on_world (next "" package)
    end.
(** The frontend of a session, taken and given back: the code of [Frontends]. *)
Definition get_frontend (package : Package R) : M World Frontend :=
  Frontends.get_frontend m_clients set_clients Frontend_new package.
Definition release_frontend (f : Frontend) (package : Package R) : M World unit :=
  Frontends.release_frontend m_clients set_clients (λ _ _, mret tt) f package.
Definition process (package : Package R) : M World (Package R) :=
  f ← get_frontend package;
  r ← with_frontend f (handle package);
  let '(package, f) := r in
  release_frontend f package ;;
  mret package.
End filter.

(** ** Sorting *)
Definition key (r : Record_) : string := c_str (score r).
(** The order of the sorted list. *)
Definition not_after (r1 r2 : Record_) : Prop := strcmp_lt (key r2) (key r1) = false.

Lemma strcmp_lt_irrefl s : strcmp_lt s s = false.
Proof.
  induction s as [|c s IH]; [done|]. simpl. by rewrite Nat.ltb_irrefl.
Qed.
Lemma strcmp_lt_trans s1 s2 s3 :
  strcmp_lt s1 s2 = true → strcmp_lt s2 s3 = true → strcmp_lt s1 s3 = true.
Proof.
  revert s2 s3. induction s1 as [|c1 s1 IH]; intros [|c2 s2] [|c3 s3]; simpl; try done.
  destruct (Nat.ltb_spec (nat_of_ascii c1) (nat_of_ascii c2)),
    (Nat.ltb_spec (nat_of_ascii c2) (nat_of_ascii c1)),
    (Nat.ltb_spec (nat_of_ascii c2) (nat_of_ascii c3)),
    (Nat.ltb_spec (nat_of_ascii c3) (nat_of_ascii c2)),
    (Nat.ltb_spec (nat_of_ascii c1) (nat_of_ascii c3)),
    (Nat.ltb_spec (nat_of_ascii c3) (nat_of_ascii c1)); try done; try lia. apply IH.
Qed.
Lemma strcmp_lt_total s1 s2 :
  strcmp_lt s1 s2 = false → strcmp_lt s2 s1 = false → s1 = s2.
Proof.
  revert s2. induction s1 as [|c1 s1 IH]; intros [|c2 s2]; simpl; try done.
  destruct (Nat.ltb_spec (nat_of_ascii c1) (nat_of_ascii c2)),
    (Nat.ltb_spec (nat_of_ascii c2) (nat_of_ascii c1)); try done.
  intros H1 H2. rewrite (IH s2) by done. f_equal.
  rewrite <-(ascii_nat_embedding c1), <-(ascii_nat_embedding c2). f_equal. lia.
Qed.
Lemma strcmp_lt_asym s1 s2 : strcmp_lt s1 s2 = true → strcmp_lt s2 s1 = false.
Proof.
  intros H1. destruct (strcmp_lt s2 s1) eqn:H2; [|done].
  pose proof (strcmp_lt_trans _ _ _ H1 H2) as H. by rewrite strcmp_lt_irrefl in H.
Qed.
(** A smaller record is not after what is not before a larger one. *)
Lemma lt_not_after r x y :
  Record_lt r x = true → not_after x y → strcmp_lt (key r) (key y) = true.
Proof.
  intros H1 H2. destruct (strcmp_lt (key r) (key y)) eqn:H3; [done|].
  unfold Record_lt in H1. fold (key r) (key x) in H1.
  destruct (strcmp_lt (key y) (key r)) eqn:H4.
  - pose proof (strcmp_lt_trans _ _ _ H4 H1) as H5. unfold not_after in H2. congruence.
  - pose proof (strcmp_lt_total _ _ H3 H4) as Heq. unfold not_after in H2.
    rewrite <-Heq in H2. congruence.
Qed.

Lemma filter_nil_iff_all {A} (P : A → Prop) `{∀ x, Decision (P x)} l :
  Forall (λ x, ¬ P x) l → filter P l = [].
Proof.
  induction 1 as [|x l Hx _ IH]; [done|]. by rewrite filter_cons, decide_False.
Qed.
Lemma insert_perm r l : insert_record r l ≡ₚ r :: l.
Proof.
  induction l as [|x l IH]; [done|]. simpl. destruct (Record_lt r x); [done|].
  rewrite IH. constructor.
Qed.
Lemma insert_sorted r l :
  StronglySorted not_after l → StronglySorted not_after (insert_record r l).
Proof.
  induction 1 as [|x l Hl IH Hx]; simpl; [by repeat constructor|].
  destruct (Record_lt r x) eqn:Hr.
  - constructor; [by constructor|]. constructor.
    + by apply strcmp_lt_asym.
    + eapply Forall_impl; [exact Hx|]. intros y Hy. apply strcmp_lt_asym.
      by eapply lt_not_after.
  - constructor; [done|]. rewrite insert_perm. by constructor.
Qed.
Lemma insert_stable r l k :
  StronglySorted not_after l →
  filter (λ x, key x = k) (insert_record r l) =
  filter (λ x, key x = k) (l ++ [r]).
Proof.
  induction 1 as [|x l Hl IH Hx]; [done|]. simpl. destruct (Record_lt r x) eqn:Hr.
  - destruct (decide (key r = k)) as [Hk|Hk].
    + assert (Hnone : filter (λ x, key x = k) (x :: l) = []).
      { apply filter_nil_iff_all. constructor.
        - intros He. unfold Record_lt in Hr. fold (key r) (key x) in Hr.
          rewrite Hk, He, strcmp_lt_irrefl in Hr. done.
        - eapply Forall_impl; [exact Hx|]. intros y Hy He.
          pose proof (lt_not_after _ _ _ Hr Hy) as H.
          rewrite Hk, He, strcmp_lt_irrefl in H. done. }
      rewrite filter_cons, Hnone, decide_True by done.
      change (x :: l ++ [r]) with ((x :: l) ++ [r]).
      rewrite filter_app, Hnone. cbn. by rewrite decide_True.
    + rewrite filter_cons, decide_False by done.
      change (x :: l ++ [r]) with ((x :: l) ++ [r]).
      rewrite filter_app. cbn [filter list_filter]. rewrite (decide_False (P := key r = k)) by done.
      by rewrite app_nil_r.
  - rewrite !filter_cons, IH. done.
Qed.

(** Sorting: a permutation, in order, equal keys in their old order. *)
Lemma sort_records_spec l :
  sort_records l ≡ₚ l ∧ StronglySorted not_after (sort_records l) ∧
  ∀ k, filter (λ x, key x = k) (sort_records l) = filter (λ x, key x = k) l.
Proof.
  unfold sort_records.
  assert (H : ∀ acc, StronglySorted not_after acc →
    let s := foldl (λ acc r, insert_record r acc) acc l in
    s ≡ₚ acc ++ l ∧ StronglySorted not_after s ∧
    ∀ k, filter (λ x, key x = k) s = filter (λ x, key x = k) (acc ++ l)).
  { induction l as [|r l IH]; intros acc Hacc; simpl.
    - rewrite app_nil_r. by split_and!.
    - destruct (IH (insert_record r acc)) as (Hp & Hs & Hk); [by apply insert_sorted|].
      split_and!; [|done|].
      + rewrite Hp, insert_perm. by rewrite <-Permutation_middle.
      + intros k. rewrite Hk, !filter_app, insert_stable, filter_app by done.
        change (r :: l) with ([r] ++ l). by rewrite (filter_app _ [r] l), app_assoc. }
  apply (H []). constructor.
Qed.

(** ** The view of the client *)
Definition view (ascending : bool) (l : list Record_) : list NamePlusRecord :=
  if ascending then npr <$> l else reverse (npr <$> l).

Lemma get_loop_spec l i : get_loop l i = (npr <$> l) !! Z.to_nat i.
Proof.
  revert i. induction l as [|r l IH]; intros i; [done|]. cbn [get_loop].
  destruct (Z.leb_spec i 0) as [Hi|Hi].
  - by replace (Z.to_nat i) with 0%nat by lia.
  - rewrite IH. replace (Z.to_nat i) with (S (Z.to_nat (i - 1))) by lia. done.
Qed.
Lemma get_record_spec l pos asc :
  0 ≤ pos < size l → get_record l pos asc = view asc (npr_list l) !! Z.to_nat pos.
Proof.
  unfold size, get_record, view. intros Hpos. rewrite get_loop_spec. destruct asc; [done|].
  rewrite reverse_lookup by (rewrite length_fmap; unfold size; lia).
  rewrite length_fmap. f_equal. unfold size. lia.
Qed.
Lemma view_length asc l : length (view asc l) = length l.
Proof. unfold view. destruct asc; by rewrite ?length_reverse, length_fmap. Qed.
Lemma get_records_spec l pos n asc :
  0 ≤ pos → 0 ≤ n → pos + n ≤ size l → size l ≤ INT_MAX →
  get_records l pos n asc =
  Some (take (Z.to_nat n) (drop (Z.to_nat pos) (view asc (npr_list l)))).
Proof.
  intros Hpos Hn Hle Hmax. unfold get_records. apply mapM_Some.
  pose proof (view_length asc (npr_list l)) as Hlen. unfold size in *.
  rewrite (int32_id n) by (unfold in_int32, INT_MAX in *; lia).
  apply Forall2_same_length_lookup. split.
  { rewrite length_seq, length_take, length_drop. lia. }
  intros k x y Hx Hy. apply lookup_seq in Hx as [-> Hk].
  rewrite lookup_take_lt in Hy by lia. rewrite lookup_drop in Hy.
  rewrite int32_id by (unfold in_int32, INT_MAX in *; lia).
  rewrite get_record_spec by (unfold size; lia). rewrite <-Hy. f_equal. lia.
Qed.

(** ** A target with a result set *)
Section served.
Context `{Y : Yaz} `{X : XPath} {R E : Type}.
Context (next : string → Package R → M (World (E := E)) (Package R)).
Context (ok : Session.t → option string → option RecordComposition → string →
  World (E := E) → Prop).
Context (records : list NamePlusRecord) (Hserves : Serves next ok records).
Notation count := (Z.of_nat (length records)).

Definition scored (m : Impl) (l : list NamePlusRecord) : list Record_ := add_records m l [].
Lemma scored_npr m l : npr <$> scored m l = l.
Proof.
  unfold scored, add_records. rewrite app_nil_l, <-list_fmap_compose.
  induction l as [|n l IH]; [done|]. rewrite fmap_cons. by f_equal.
Qed.
Lemma scored_app m l l' : add_records m l' (scored m l) = scored m (l ++ l').
Proof. unfold scored, add_records. by rewrite !app_nil_l, fmap_app. Qed.
Lemma scored_length m l : length (scored m l) = length l.
Proof. rewrite <-(scored_npr m l) at 2. by rewrite length_fmap. Qed.

Lemma prefetch_served fuel package m syn comp name i n end_pos pos f w :
  p_route_pos package = Some pos → is_closed package = false →
  ok (p_session package) syn comp name w → i ≠ 0 → end_pos ≤ count → (n ≤ length records)%nat →
  end_pos - Z.of_nat n ≤ Z.of_nat fuel →
  ∃ w', prefetch_loop next fuel package m syn comp name i (1 + Z.of_nat n) end_pos
      (scored m (take n records)) (f, w) =
    Ok (scored m (take (Nat.max n (Z.to_nat end_pos)) records), (f, w')).
Proof.
  intros Hpos Hopen Hok. revert i n w Hok.
  induction fuel as [|fuel IH]; intros i n w Hok Hi Hend Hn Hf; cbn [prefetch_loop];
    rewrite (proj2 (Z.eqb_neq i 0) Hi); cbn [negb andb];
    destruct (Z.leb_spec (1 + Z.of_nat n) end_pos) as [Hle|Hgt]; try lia;
    try (exists w; replace (Nat.max n (Z.to_nat end_pos)) with n by lia; done).
  erewrite bind_ok by (apply copy_filter_ok; exact Hpos).
  match goal with |- context [next "" ?p] => set (pp := p) end.
  destruct (Hserves pp (prefetch_request (1 + Z.of_nat n) end_pos syn comp name) w)
    as (p1 & pres & k & w1 & Hn1 & _ & Hr & Hk & Hrec & Hok1);
    [done|by eexists|done|done|simpl; lia..|].
  erewrite bind_ok by (apply on_world_ok; exact Hn1). rewrite Hr, Hrec. simpl in Hk |- *.
  set (nprl := take k _). rewrite scored_app.
  assert (Hl : length nprl = k).
  { unfold nprl. rewrite length_take, length_drop. lia. }
  assert (Htake : take n records ++ nprl = take (n + k) records).
  { unfold nprl. replace (Z.to_nat (1 + Z.of_nat n - 1)) with n by lia.
    by rewrite take_take_drop. }
  rewrite Htake, Hl.
  replace (1 + Z.of_nat n + Z.of_nat k) with (1 + Z.of_nat (n + k)) by lia.
  destruct (IH (Z.of_nat k) (n + k)%nat w1) as (w' & ->); [done|lia..|].
  exists w'. by replace (Nat.max (n + k) (Z.to_nat end_pos))
    with (Nat.max n (Z.to_nat end_pos)) by lia.
Qed.

(** The records that are sorted: the first page, and more up to the limit. *)
Definition fetched (m : Impl) (n : nat) : list NamePlusRecord :=
  take (Nat.max n (Z.to_nat (Z.min (m_prefetch m) count))) records.
Definition sorted_list (m : Impl) (syn : option string) (n : nat) : RecordList :=
  mk_RecordList syn (sort_records (scored m (fetched m n))).

Lemma sorted_size m syn n : (n ≤ length records)%nat →
  Z.of_nat n ≤ size (sorted_list m syn n) ∧ size (sorted_list m syn n) ≤ count.
Proof.
  intros Hn. unfold size. simpl.
  destruct (sort_records_spec (scored m (fetched m n))) as [Hp _].
  apply Permutation_length in Hp. rewrite Hp, scored_length. unfold fetched.
  rewrite length_take. lia.
Qed.

Lemma handle_records_served package n s syn comp name pos f w :
  p_route_pos package = Some pos → is_closed package = false →
  ok (p_session package) syn comp name w →
  (0 < n ≤ length records)%nat → count ≤ INT_MAX → 0 ≤ m_prefetch w.1 → hit_count s = Some count →
  existsb (λ l, cmp l syn) (record_lists s) = false →
  ∃ w', handle_records next package (Some (Records_DBOSD (take n records))) 1 s syn comp
      name (f, w) =
    Ok ((mk_ResultSet (Some count) (record_lists s ++ [sorted_list w.1 syn n]),
         Some (Some (Records_DBOSD
           (take n (view (m_ascending w.1) (npr_list (sorted_list w.1 syn n))))))),
        (f, w')).
Proof.
  intros Hpos Hopen Hok Hn Hmax Hpre Hhit Hlists. unfold handle_records.
  rewrite Z.eqb_refl, Hlists. cbn [negb orb]. rewrite Hhit.
  set (m := w.1). rewrite (bind_ok the_impl _ (f, w) (f, w) m eq_refl).
  rewrite (bind_ok (mret count) _ (f, w) (f, w) count eq_refl).
  assert (Hend : (if count <? m_prefetch m then int32 count else m_prefetch m) =
    Z.min (m_prefetch m) count).
  { destruct (Z.ltb_spec count (m_prefetch m)); [|lia].
    rewrite int32_id by (unfold in_int32, INT_MAX in *; lia). lia. }
  rewrite Hend, length_take, Nat.min_l by lia.
  change (add_records m (take n records) []) with (scored m (take n records)).
  destruct (prefetch_served (Z.to_nat (Z.min (m_prefetch m) count)) package m syn comp name
    (Z.of_nat n) n (Z.min (m_prefetch m) count) pos f w) as (w' & Hl);
    [done|done|done|lia..|].
  rewrite (bind_ok _ _ _ _ _ Hl). fold (fetched m n). exists w'.
  pose proof (sorted_size m syn n ltac:(lia)) as Hsize.
  change (sort (mk_RecordList syn (scored m (fetched m n)))) with (sorted_list m syn n).
  rewrite get_records_spec by lia. by rewrite Nat2Z.id.
Qed.
(** A Present inside the sorted list. *)
Lemma present_in_list package req f w l n :
  m_is_virtual f = true → z3950 (p_request package) = Some (presentRequest req) →
  m_sets f !! pq_resultSetId req = Some (mk_ResultSet (Some n) [l]) →
  syntax l = pq_preferredRecordSyntax req → size l ≤ INT_MAX →
  1 ≤ pq_resultSetStartPoint req → 0 ≤ pq_numberOfRecordsRequested req →
  pq_resultSetStartPoint req - 1 + pq_numberOfRecordsRequested req ≤ size l →
  handle next package (f, w) =
  Ok (set_response (Some (GDU_Z3950 (list_response req (Some (Records_DBOSD
        (take (Z.to_nat (pq_numberOfRecordsRequested req))
           (drop (Z.to_nat (pq_resultSetStartPoint req - 1))
              (view (m_ascending w.1) (npr_list l)))))))))
        package, (f, w)).
Proof.
  intros Hv Hreq Hset Hsyn Hmax Hs Hn Hle. unfold handle.
  rewrite (bind_ok get_fr _ (f, w) (f, w) f eq_refl), Hv. unfold handle_package.
  rewrite Hreq. unfold handle_present.
  rewrite (bind_ok get_fr _ (f, w) (f, w) f eq_refl), Hset.
  rewrite (bind_ok the_impl _ (f, w) (f, w) w.1 eq_refl). cbn [record_lists find_first].
  unfold cmp. rewrite bool_decide_eq_true_2 by done.
  rewrite (proj2 (Z.leb_le _ _) Hle), get_records_spec by lia. done.
Qed.

Lemma search_served package req n pos f w :
  p_route_pos package = Some pos → is_closed package = false →
  (0 < n ≤ length records)%nat → count ≤ INT_MAX → 0 ≤ m_prefetch w.1 → m_is_virtual f = true →
  z3950 (p_request package) = Some (searchRequest req) →
  m_sets f !! sq_resultSetName req = None ∨ sq_replaceIndicator req = true →
  (∀ p w, z3950 (p_request p) = Some (searchRequest req) →
     ∃ p' res w', next "" p w = Ok (p', w') ∧ w'.1 = w.1 ∧
       z3950 (p_response p') = Some (searchResponse res) ∧
       sr_resultCount res = count ∧
       sr_records res = Some (Records_DBOSD (take n records)) ∧
       ok (p_session p) (sq_preferredRecordSyntax req)
         (piggyback_to_RecordComposition count req) (sq_resultSetName req) w') →
  let l := sorted_list w.1 (sq_preferredRecordSyntax req) n in
  ∃ res w', handle next package (f, w) =
    Ok (set_response (Some (GDU_Z3950 (searchResponse
          (set_sr_records (Some (Records_DBOSD
             (take n (view (m_ascending w.1) (npr_list l))))) res)))) package,
        (mk_Frontend true (<[sq_resultSetName req := mk_ResultSet (Some count) [l]]>
           (m_sets f)), w')) ∧
    sr_resultCount res = count.
Proof.
  intros Hpos Hopen Hn Hmax Hpre Hv Hreq Hname Hsearch l. unfold handle.
  rewrite (bind_ok get_fr _ (f, w) (f, w) f eq_refl), Hv. unfold handle_package.
  rewrite Hreq. unfold handle_search.
  rewrite (bind_ok get_fr _ (f, w) (f, w) f eq_refl). cbn zeta.
  assert (Hgo : match m_sets f !! sq_resultSetName req with
    | Some _ => true | None => false end && negb (sq_replaceIndicator req) = false).
  { destruct Hname as [-> | ->]; [done|]. by rewrite andb_false_r. }
  rewrite Hgo.
  rewrite (bind_ok (modify_fr (λ f, set_sets (<[sq_resultSetName req :=
    mk_ResultSet None []]> (m_sets f)) f)) _ (f, w) (set_sets (<[sq_resultSetName req :=
    mk_ResultSet None []]> (m_sets f)) f, w) tt eq_refl).
  erewrite bind_ok by (apply copy_filter_ok; exact Hpos).
  match goal with |- context [next "" ?p] => set (bp := p) end.
  destruct (Hsearch bp w) as (p1 & res & w1 & Hn1 & Himpl & Hr & Hc & Hrec & Hok);
    [done|].
  erewrite bind_ok by (apply on_world_ok; exact Hn1). rewrite Hr, Hrec, Hc.
  destruct (handle_records_served package n (mk_ResultSet (Some count) [])
    (sq_preferredRecordSyntax req) (piggyback_to_RecordComposition count req)
    (sq_resultSetName req) pos
    (set_sets (<[sq_resultSetName req := mk_ResultSet None []]> (m_sets f)) f) w1)
    as (w' & Hh); [done|done|exact Hok|done|done|by rewrite Himpl|done|done|].
  rewrite (bind_ok _ _ _ _ _ Hh). exists res, w'. split; [|done].
  unfold answer. rewrite Himpl. fold l. unfold mbind, M_bind, modify_fr, modify_st. cbn.
  do 4 f_equal. unfold set_sets. cbn. by rewrite Hv, insert_insert_eq.
Qed.

(** C12. What a client sees of a sorted result set: if the target holds the
    result set, the Search response keeps its hit count and has the first
    records of one fixed list: the first page and what was prefetched, in
    order of their keys, equal keys in the target's order (backwards when
    descending). Every later Present in the same syntax inside that list is
    answered from the same list without asking the target, so that windows
    of any sizes fit together. The prefetching ends. *)
Theorem sorted_result_set (package : Package R) (req : SearchRequest) (n : nat)
    (pos : R) (f : Frontend) (w : World (E := E))
    (Hpos : p_route_pos package = Some pos) (Hopen : is_closed package = false)
    (Hn : (0 < n ≤ length records)%nat)
    (Hmax : count ≤ INT_MAX) (Hprefetch : 0 ≤ m_prefetch w.1)
    (Hvirtual : m_is_virtual f = true)
    (Hreq : z3950 (p_request package) = Some (searchRequest req))
    (Hname : m_sets f !! sq_resultSetName req = None ∨ sq_replaceIndicator req = true)
    (Hsearch : ∀ p w, z3950 (p_request p) = Some (searchRequest req) →
     ∃ p' res w', next "" p w = Ok (p', w') ∧ w'.1 = w.1 ∧
       z3950 (p_response p') = Some (searchResponse res) ∧
       sr_resultCount res = count ∧
       sr_records res = Some (Records_DBOSD (take n records)) ∧
       ok (p_session p) (sq_preferredRecordSyntax req)
         (piggyback_to_RecordComposition count req) (sq_resultSetName req) w') :
  ∃ l v p' f' w' res,
    l ≡ₚ scored w.1 (fetched w.1 n) ∧ StronglySorted not_after l ∧
    (∀ k, filter (λ x, key x = k) l = filter (λ x, key x = k) (scored w.1 (fetched w.1 n))) ∧
    v = (if m_ascending w.1 then npr <$> l else reverse (npr <$> l)) ∧
    handle next package (f, w) = Ok (p', (f', w')) ∧
    z3950 (p_response p') = Some (searchResponse res) ∧
    sr_resultCount res = count ∧ sr_records res = Some (Records_DBOSD (take n v)) ∧
    ∀ package2 preq w2, m_ascending w2.1 = m_ascending w.1 →
      z3950 (p_request package2) = Some (presentRequest preq) →
      pq_resultSetId preq = sq_resultSetName req →
      pq_preferredRecordSyntax preq = sq_preferredRecordSyntax req →
      1 ≤ pq_resultSetStartPoint preq → 0 ≤ pq_numberOfRecordsRequested preq →
      pq_resultSetStartPoint preq - 1 + pq_numberOfRecordsRequested preq
        ≤ Z.of_nat (length l) →
      ∃ p2 res2, handle next package2 (f', w2) = Ok (p2, (f', w2)) ∧
        z3950 (p_response p2) = Some (presentResponse res2) ∧
        pr_records res2 = Some (Records_DBOSD
          (take (Z.to_nat (pq_numberOfRecordsRequested preq))
             (drop (Z.to_nat (pq_resultSetStartPoint preq - 1)) v))).
Proof.
  destruct (search_served package req n pos f w) as (res & w' & Hh & Hc); try done.
  set (l := sorted_list w.1 (sq_preferredRecordSyntax req) n) in *.
  pose proof (sorted_size w.1 (sq_preferredRecordSyntax req) n ltac:(lia)) as Hsize.
  fold l in Hsize.
  destruct (sort_records_spec (scored w.1 (fetched w.1 n))) as (Hp & Hsort & Hst).
  eexists (npr_list l), _, _, _, w', _.
  split_and!; [exact Hp|exact Hsort|exact Hst|reflexivity|exact Hh|reflexivity
    |exact Hc|reflexivity|].
  intros package2 preq w2 Hasc Hreq2 Hid Hsyn Hs Hnum Hle.
  eexists _, _. split_and!.
  - apply (present_in_list package2 preq _ w2 l count); try done.
    + simpl. by rewrite Hid, lookup_insert_eq.
    + lia.
  - reflexivity.
  - cbn [pr_records set_pr_records]. by rewrite Hasc.
Qed.
End served.

(** ** A concrete configuration

    Documents are texts, and every expression selects the whole text. *)
#[local] Instance example_xpath : XPath := {|
  xmlDoc := string;
  xmlXPathContext := string;
  xmlParseMemory := Some;
  xmlXPathNewContext := Some;
  xmlXPathRegisterNs := λ ctx _ _, Some ctx;
  xmlXPathEvalExpression := λ _ ctx,
    Some (Some [XP_text [Node XML_TEXT_NODE "" None ctx [] []]])
|}.
Definition example_record (s : string) : NamePlusRecord :=
  {| databaseName := None;
     npr_record := NPR_databaseRecord (External_octet (Some recsyn_xml) None s) |}.
Definition example_records : list NamePlusRecord :=
  example_record <$> ["c"; "a"; "b"].
Definition example_next (_ : string) (p : Package unit) :
    M (World (E := unit)) (Package unit) :=
  match z3950 (p_request p) with
  | Some (searchRequest _) =>
      mret (set_response (Some (GDU_Z3950 (searchResponse (set_sr_resultCount 3
        (set_sr_records (Some (Records_DBOSD (take 1 example_records)))
           (zget_searchResponse (Yaz := ref_yaz))))))) p)
  | Some (presentRequest pr) =>
      mret (set_session (Session.mk 1 false) (set_response
        (Some (GDU_Z3950 (presentResponse (set_pr_records (Some (Records_DBOSD
          (take 1 (drop (Z.to_nat (pq_resultSetStartPoint pr - 1)) example_records))))
           (zget_presentResponse (Yaz := ref_yaz)))))) p))
  | _ => mret p
  end.
Definition example_package (a : APDU) : Package unit :=
  mk_Package (Session.mk 1 false) Origin.create (Some tt) (Some (GDU_Z3950 a)) None.
Definition example_world : World (E := unit) :=
  (mk_Impl 2 "/" "a=b" true false ∅, Build_Global 9 tt).

Example example_namespaces :
  register_namespaces (X := example_xpath) "doc" " marc=http://x  m=y" = ("doc", true).
Proof. reflexivity. Qed.
Example example_window :
  (λ r, match r with
        | Ok (p, _) => match z3950 (p_response p) with
                       | Some (searchResponse res) => sr_records res | _ => None end
        | _ => None end)
    (handle (Y := ref_yaz) example_next (example_package (searchRequest
       (zget_searchRequest (Yaz := ref_yaz)))) (mk_Frontend true ∅, example_world)) =
  Some (Records_DBOSD [example_record "a"]).
Proof. vm_compute. reflexivity. Qed.

Lemma sorted_result_set_witness :
  ∃ l p' f' w' res,
    l ≡ₚ scored (mk_Impl 2 "/" "a=b" true false ∅) (take 2 example_records) ∧
    handle (Y := ref_yaz) example_next (example_package (searchRequest
      (zget_searchRequest (Yaz := ref_yaz)))) (mk_Frontend true ∅, example_world) =
      Ok (p', (f', w')) ∧
    z3950 (p_response p') = Some (searchResponse res) ∧
    sr_records res = Some (Records_DBOSD (take 1 (npr <$> l))).
Proof.
  destruct (sorted_result_set (Y := ref_yaz) example_next (λ _ _ _ _ _, True) example_records) with
    (package := example_package (searchRequest (zget_searchRequest (Yaz := ref_yaz))))
    (req := zget_searchRequest (Yaz := ref_yaz)) (n := 1%nat) (pos := tt)
    (f := mk_Frontend true ∅) (w := example_world)
    as (l & v & p' & f' & w' & res & Hp & _ & _ & Hv & Hh & Hr & _ & Hrec & _).
  - intros p pr w Hp _ _ _ start n Hs Hn Hin. unfold example_next. rewrite Hp.
    eexists _, _, 1%nat, w. split; [reflexivity|]. split; [reflexivity|].
    split; [reflexivity|]. split; [lia|]. split; [reflexivity|done].
  - reflexivity.
  - reflexivity.
  - vm_compute. lia.
  - vm_compute. discriminate.
  - vm_compute. discriminate.
  - reflexivity.
  - reflexivity.
  - left. reflexivity.
  - intros p w Hp. unfold example_next. rewrite Hp. eexists _, _, w.
    split; [reflexivity|]. split; [reflexivity|]. split; [reflexivity|].
    split; [reflexivity|done].
  - exists l, p', f', w', res. split; [exact Hp|]. split; [exact Hh|]. split; [exact Hr|].
    rewrite Hrec, Hv. reflexivity.
Defined.
End Sort.
