(* ===== verification/AuthSimple.v ===== *)
(** * The auth_simple filter

    [src/filter_auth_simple.cpp]: users with passwords and the databases they
    may use, and the targets that users may choose, are read from two files;
    Init, Search and Scan requests are checked against them. The lookup of a
    file and its contents are parameters ([yaz_filepath_resolve], [open]); the
    registers are read with [getline] of Stream. *)
From S2P Require Import Prelude Stream Zgdu Yaz Core Xml Util.

Module AuthSimple.

(** ** State *)
Record PasswordAndDBs : Type := mk_PasswordAndDBs {
  password : string;
  dbs : list string
}.
Record Rep : Type := mk_Rep {
  got_userRegister : bool;
  got_targetRegister : bool;
  userRegister : gmap string PasswordAndDBs;
  targetsByUser : gmap string (list string);
  userBySession : gmap Z string;
  discardUnauthorisedTargets : bool
}.
Definition Rep_init : Rep := mk_Rep false false ∅ ∅ ∅ false.
Definition set_userRegister (m : gmap string PasswordAndDBs) (r : Rep) : Rep :=
  mk_Rep (got_userRegister r) (got_targetRegister r) m (targetsByUser r)
    (userBySession r) (discardUnauthorisedTargets r).
Definition set_targetsByUser (m : gmap string (list string)) (r : Rep) : Rep :=
  mk_Rep (got_userRegister r) (got_targetRegister r) (userRegister r) m
    (userBySession r) (discardUnauthorisedTargets r).
Definition set_userBySession (m : gmap Z string) (r : Rep) : Rep :=
  mk_Rep (got_userRegister r) (got_targetRegister r) (userRegister r)
    (targetsByUser r) m (discardUnauthorisedTargets r).
Definition set_flags (u t d : bool) (r : Rep) : Rep :=
  mk_Rep u t (userRegister r) (targetsByUser r) (userBySession r) d.

(** [get_user]: user and password. *)
Definition get_user (initReq : InitRequest) : string * string :=
  match iq_idAuthentication initReq with
  | Some (IdAuthentication_open s) =>
      match find_char "/" s with
      | Some i => (str_take i s, str_drop (S i) s)
      | None => (s, "")
      end
  | Some (IdAuthentication_idPass _ userId password) =>
      (default "" userId, default "" password)
  | _ => ("", "")
  end.

(** ** Registers *)

(** An empty line or a comment. *)
Definition skipped (buf : string) : bool :=
  match buf with
  | EmptyString => true
  | String c _ => bool_decide (c = "#"%char)
  end.
Fixpoint split_db (databasesp acc : string) : list string :=
  match databasesp with
  | EmptyString => [acc]
  | String c s =>
      if decide (c = ","%char) then acc :: split_db s EmptyString
      else split_db s (acc +:+ String c EmptyString)
  end.
Definition user_line (filename buf : string) : outcome (string * PasswordAndDBs) :=
  match find_char ":" buf with
  | None => Throw ("auth_simple user-register '" +:+ filename +:+ "': " +:+
                   "no password on line: '" +:+ buf +:+ "'")
  | Some i =>
      let name := str_take i buf in
      let passwdp := str_drop (S i) buf in
      match find_char ":" passwdp with
      | None => Throw ("auth_simple user-register '" +:+ filename +:+ "': " +:+
                       "no databases on line: '" +:+ name +:+ ":" +:+ passwdp +:+ "'")
      | Some j =>
          Ok (name, mk_PasswordAndDBs (str_take j passwdp)
                      (split_db (str_drop (S j) passwdp) EmptyString))
      end
  end.
Definition target_line (filename buf : string) : outcome (string * list string) :=
  match find_char ":" buf with
  | None => Throw ("auth_simple target-register '" +:+ filename +:+ "': " +:+
                   "no targets on line: '" +:+ buf +:+ "'")
  | Some i => Ok (str_take i buf, split_db (str_drop (S i) buf) EmptyString)
  end.
(** [register[key] = value]. *)
Definition add_entry {A} (e : string * A) (m : gmap string A) : gmap string A :=
  <[e.1 := e.2]> m.

Section config.
(** The resolved path of a file name, and the contents of a file if it can be
    opened. *)
Context (yaz_filepath_resolve : string → string → option string).
Context (open : string → option string).

Definition open_register (filename path : string) : outcome ifstream :=
  match yaz_filepath_resolve filename path with
  | None => Throw ("Could not open " +:+ filename)
  | Some fullpath =>
      match open fullpath with
      | None => Throw ("Could not open " +:+ filename)
      | Some s => Ok (mk_ifstream s false false)
      end
  end.
Definition config_userRegister (fuel : nat) (filename path : string) (r : Rep) :
    outcome Rep :=
  fp ← open_register filename path;
  m ← read_lines 1000 skipped (user_line filename) add_entry fuel fp (userRegister r);
  Ok (set_userRegister m r).
Definition config_targetRegister (fuel : nat) (filename path : string) (r : Rep) :
    outcome Rep :=
  fp ← open_register filename path;
  m ← read_lines 1000 skipped (target_line filename) add_entry fuel fp (targetsByUser r);
  Ok (set_targetsByUser m r).

(** The elements of the configuration; the two file names. *)
Fixpoint configure_loop (ptr : list xmlNode) (userRegisterName targetRegisterName : string)
    (r : Rep) : outcome (string * string * Rep) :=
  match ptr with
  | [] => Ok (userRegisterName, targetRegisterName, r)
  | n :: ptr' =>
      if decide (n_type n ≠ XML_ELEMENT_NODE) then
        configure_loop ptr' userRegisterName targetRegisterName r
      else if decide (n_name n = "userRegister") then
        configure_loop ptr' (mp_xml.get_text [n]) targetRegisterName
          (set_flags true (got_targetRegister r) (discardUnauthorisedTargets r) r)
      else if decide (n_name n = "targetRegister") then
        configure_loop ptr' userRegisterName (mp_xml.get_text [n])
          (set_flags (got_userRegister r) true (discardUnauthorisedTargets r) r)
      else if decide (n_name n = "discardUnauthorisedTargets") then
        configure_loop ptr' userRegisterName targetRegisterName
          (set_flags (got_userRegister r) (got_targetRegister r) true r)
      else Throw ("Bad element in auth_simple: <" +:+ n_name n +:+ ">")
  end.
Definition configure (fuel : nat) (ptr : xmlNode) (path : string) (r : Rep) :
    outcome Rep :=
  '(userRegisterName, targetRegisterName, r) ← configure_loop (n_children ptr) "" "" r;
  if negb (got_userRegister r) && negb (got_targetRegister r) then
    Throw "auth_simple: no user-register or target-register filename specified"
  else
    r ← (if got_userRegister r then config_userRegister fuel userRegisterName path r
         else Ok r);
    if got_targetRegister r then config_targetRegister fuel targetRegisterName path r
    else Ok r.
End config.

(** ** Requests *)
Definition contains (l : list string) (thing : string) : bool :=
  existsb (λ i, bool_decide (database_name_normalize i = database_name_normalize thing)) l.
(** The first database that is neither in the list nor covered by a star. *)
Fixpoint first_denied (dbs databaseNames : list string) : option string :=
  match databaseNames with
  | [] => None
  | d :: l =>
      if negb (contains dbs d) && negb (contains dbs "*") then Some d
      else first_denied dbs l
  end.
(** The loop of [check_targets]: an unauthorised target, or those to keep. *)
Fixpoint check_loop (authorisedTargets : list string) (discard : bool)
    (targets : list string) : string + list string :=
  match targets with
  | [] => inr []
  | t :: targets' =>
      if contains authorisedTargets t || contains authorisedTargets "*" then
        match check_loop authorisedTargets discard targets' with
        | inl e => inl e
        | inr l => inr (t :: l)
        end
      else if negb discard then inl t
      else check_loop authorisedTargets discard targets'
  end.

Section filter.
Context `{Y : Yaz} {R E : Type}.
Definition World : Type := Rep * Global E.
Context (next : string → Package R → M World (Package R)).

(** [map[key]]: a missing entry is made. *)
Definition user_entry (user : string) : M World PasswordAndDBs :=
  st ← get_st;
  match userRegister st !! user with
  | Some pdb => mret pdb
  | None =>
      let pdb := mk_PasswordAndDBs "" [] in
      put_st (set_userRegister (<[user := pdb]> (userRegister st)) st) ;; mret pdb
  end.
Definition targets_entry (user : string) : M World (list string) :=
  st ← get_st;
  match targetsByUser st !! user with
  | Some l => mret l
  | None => put_st (set_targetsByUser (<[user := []]> (targetsByUser st)) st) ;; mret []
  end.
Definition session_id (package : Package R) : Z := Session.id (p_session package).

(** [reject_init]; [apdu] is the request of the package. *)
Definition reject_init (package : Package R) (req : InitRequest) (err : Z)
    (addinfo : string) : Package R :=
  let err := if err =? 0 then BIB1_INIT_AC_AUTHENTICATION_SYSTEM_ERROR else err in
  close_session (set_response (Some (GDU_Z3950 (initResponse (set_ir_result false
    (create_initResponse (Some (initRequest req)) err (Some addinfo)))))) package).

Definition process_init (package : Package R) (initReq : InitRequest) :
    M World (Package R) :=
  let '(user, password_) := get_user initReq in
  if decide (user = "") then
    mret (reject_init package initReq 0 "no credentials supplied")
  else
    st ← get_st;
    match userRegister st !! user with
    | Some pdbs =>
        if decide (password pdbs = password_) then
          modify_st (λ st, set_userBySession
            (<[session_id package := user]> (userBySession st)) st) ;;
          next "" package
        else mret (reject_init package initReq 0 "username/password combination rejected")
    | None => mret (reject_init package initReq 0 "username/password combination rejected")
    end.

(** The answer to a request for a forbidden database. *)
Definition deny (package : Package R) (apdu : APDU) : Package R :=
  close_session (set_response (Some (GDU_Z3950 apdu)) package).
Definition process_search (package : Package R) (req : SearchRequest) :
    M World (Package R) :=
  st ← get_st;
  match userBySession st !! session_id package with
  | None => next "" package
  | Some user =>
      pdb ← user_entry user;
      match first_denied (dbs pdb) (sq_databaseNames req) with
      | Some d =>
          mret (deny package (searchResponse (create_searchResponse
            (Some (searchRequest req)) BIB1_ACCESS_TO_SPECIFIED_DATABASE_DENIED (Some d))))
      | None => next "" package
      end
  end.
Definition process_scan (package : Package R) (req : ScanRequest) :
    M World (Package R) :=
  st ← get_st;
  match userBySession st !! session_id package with
  | None => next "" package
  | Some user =>
      pdb ← user_entry user;
      match first_denied (dbs pdb) (cq_databaseNames req) with
      | Some d =>
          mret (deny package (scanResponse (create_scanResponse
            (Some (scanRequest req)) BIB1_ACCESS_TO_SPECIFIED_DATABASE_DENIED (Some d))))
      | None => next "" package
      end
  end.
(** The request is changed in place. *)
Definition check_targets (fuel : nat) (package : Package R) (initReq : InitRequest) :
    M World (Package R) :=
  let '(user, _) := get_user initReq in
  authorisedTargets ← targets_entry user;
  r ← lift_outcome (remove_vhost_otherinfo fuel (iq_otherInfo initReq) []);
  let '(_, targets, otherInfo) := r in
  st ← get_st;
  let initReq' := set_iq_otherInfo otherInfo initReq in
  let package := set_request (Some (GDU_Z3950 (initRequest initReq'))) package in
  match check_loop authorisedTargets (discardUnauthorisedTargets st) targets with
  | inl t => mret (reject_init package initReq' BIB1_ACCESS_TO_SPECIFIED_DATABASE_DENIED t)
  | inr [] =>
      mret (reject_init package initReq' BIB1_ACCESS_TO_SPECIFIED_DATABASE_DENIED
              "all databases")
  | inr targets =>
      next "" (set_request (Some (GDU_Z3950 (initRequest
        (set_iq_otherInfo (set_vhost_otherinfo otherInfo targets) initReq')))) package)
  end.

Definition process (fuel : nat) (package : Package R) : M World (Package R) :=
  match z3950 (p_request package) with
  | None => next "" package
  | Some apdu =>
      st ← get_st;
      match got_userRegister st, apdu with
      | true, initRequest req => process_init package req
      | true, searchRequest req => process_search package req
      | true, scanRequest req => process_scan package req
      | _, initRequest req =>
          if got_targetRegister st then check_targets fuel package req
          else next "" package
      | _, _ => next "" package
      end
  end.
End filter.

(** ** Lemmas: reading a register *)

(** The first element that is not ok. *)
Lemma Exists_first_split {A} (P : A → Prop) `{∀ x, Decision (P x)} (l : list A) :
  Exists (not ∘ P) l →
  ∃ pre x post, l = pre ++ x :: post ∧ Forall P pre ∧ ¬ P x.
Proof.
  induction l as [|y l IH]; intros H0; [by apply Exists_nil in H0|].
  destruct (decide (P y)) as [Hy|Hy]; [|by exists [], y, l].
  apply Exists_cons in H0 as [H0|H0]; [done|].
  destruct (IH H0) as (pre & x & post & -> & Hp & Hx).
  exists (y :: pre), x, post. split_and!; [done|by constructor|done].
Qed.

(** *** Writing a register *)
Fixpoint join_comma (l : list string) : string :=
  match l with
  | [] => ""
  | [s] => s
  | s :: l' => s +:+ "," +:+ join_comma l'
  end.
Definition print_user (e : string * PasswordAndDBs) : string :=
  e.1 +:+ String ":" (password e.2 +:+ String ":" (join_comma (dbs e.2))).
Definition print_register (es : list (string * PasswordAndDBs)) : string :=
  foldr (λ e s, print_user e +:+ String newline s) "" es.
(** A user that can be written on one line. *)
Record printable (e : string * PasswordAndDBs) : Prop := {
  pr_user : without ":" e.1 ∧ ∀ s, e.1 ≠ String "#" s;
  pr_password : without ":" (password e.2);
  pr_dbs : dbs e.2 ≠ [] ∧ Forall (without ",") (dbs e.2);
  pr_line : without newline (print_user e) ∧ without NUL (print_user e);
  pr_length : (String.length (print_user e) < 1000)%nat
}.

Lemma find_char_sep c s t :
  without c s → find_char c (s +:+ String c t) = Some (String.length s).
Proof.
  intros Hs. rewrite Origin.find_char_app by done. cbn.
  rewrite decide_True by done. simpl. f_equal. lia.
Qed.
Lemma str_drop_sep c s t : str_drop (S (String.length s)) (s +:+ String c t) = t.
Proof.
  replace (S (String.length s)) with (String.length s + 1)%nat by lia.
  by rewrite Origin.str_drop_app_add.
Qed.
Lemma lines_cons l s :
  without newline l → lines (l +:+ String newline s) = l :: lines s.
Proof.
  unfold without. induction l as [|c l IH]; [done|]. rewrite str_app_cons. cbn.
  case_decide; [done|]. destruct (find_char newline l); [done|]. intros _.
  by rewrite IH.
Qed.
Lemma split_db_app d acc t :
  without "," d → split_db (d +:+ t) acc = split_db t (acc +:+ d).
Proof.
  unfold without. revert acc. induction d as [|c d IH]; intros acc; cbn.
  { intros _. by rewrite str_app_nil_l, str_app_nil_r. }
  rewrite str_app_cons. cbn. case_decide; [done|].
  destruct (find_char "," d); [done|]. intros _. rewrite IH by done.
  by rewrite <-str_app_assoc.
Qed.
Lemma join_comma_cons d l : l ≠ [] → join_comma (d :: l) = d +:+ String "," (join_comma l).
Proof. by destruct l. Qed.
Lemma split_db_join l :
  l ≠ [] → Forall (without ",") l → split_db (join_comma l) "" = l.
Proof.
  induction l as [|d [|d' l] IH]; [done|..]; intros _ Hl.
  - apply Forall_cons in Hl as [Hl _]. simpl. rewrite <-(str_app_nil_r d) at 1.
    by rewrite split_db_app.
  - apply Forall_cons in Hl as [Hd Hl]. rewrite join_comma_cons by done.
    rewrite split_db_app, str_app_nil_l by done. cbn [split_db].
    f_equal. by apply IH.
Qed.
Lemma user_line_print filename e : printable e → user_line filename (print_user e) = Ok e.
Proof.
  intros [[Hu _] Hp [Hne Hd] _ _]. unfold user_line, print_user.
  rewrite find_char_sep, str_drop_sep, find_char_sep, str_drop_sep, !str_take_app
    by done.
  rewrite split_db_join by done. by destruct e as [u [p d]].
Qed.
Lemma printable_not_skipped e : printable e → skipped (print_user e) = false.
Proof.
  intros [[_ Hu] _ _ _ _]. unfold print_user, skipped.
  destruct e as [[|c u] pd]; [done|]. cbn [fst]. rewrite str_app_cons.
  apply bool_decide_eq_false_2. intros ->. by destruct (Hu u).
Qed.
Lemma lines_register es :
  Forall printable es → lines (print_register es) = (print_user <$> es) ++ [""].
Proof.
  induction 1 as [|e es [_ _ _ [Hn _] _] _ IH]; [done|].
  cbn [print_register foldr]. rewrite lines_cons by done. fold (print_register es).
  by rewrite IH.
Qed.
Lemma fold_register filename es m :
  Forall printable es →
  fold_lines skipped (user_line filename) add_entry ((print_user <$> es) ++ [""]) m =
  Ok (foldl (λ m e, add_entry e m) m es).
Proof.
  intros Hes. revert m. induction Hes as [|e es He Hes IH]; intros m; [done|].
  rewrite fmap_cons, <-app_comm_cons. cbn [fold_lines foldl].
  rewrite c_str_id by apply He. rewrite printable_not_skipped, user_line_print by done.
  apply IH.
Qed.

(** Writing the user register and reading it back: if every user can be
    written on a line (no colon in name and password, no comma in a database
    name, at least one database, less than 1000 characters), the filter reads
    back exactly the users, passwords and databases written, a later line for
    the same user replacing an earlier one. *)
Theorem register_roundtrip (resolve : string → string → option string)
    (open : string → option string) (fuel : nat) (filename path fullpath : string)
    (es : list (string * PasswordAndDBs)) (r : Rep)
    (Hresolve : resolve filename path = Some fullpath)
    (Hopen : open fullpath = Some (print_register es))
    (Hes : Forall printable es) (Hfuel : (S (length es) < fuel)%nat) :
  config_userRegister resolve open fuel filename path r =
  Ok (set_userRegister (foldl (λ m e, <[e.1 := e.2]> m) (userRegister r) es) r).
Proof.
  unfold config_userRegister, open_register. rewrite Hresolve, Hopen. simpl.
  rewrite read_short; rewrite lines_register by done.
  - by rewrite fold_register.
  - apply Forall_app. split; [|apply Forall_cons; split; [simpl; lia|done]].
    apply Forall_fmap. eapply Forall_impl; [done|]. by intros e [].
  - rewrite length_app, length_fmap. simpl. lia.
Qed.

(** Reading the user register ends, unless a line is too long: a file
    whose lines all have less than 1000 characters is read line by line,
    comments and empty lines skipped, with the first bad line reported; but
    once a line does not fit the buffer the stream stays in a failed state
    that is not the end of the file, and the filter never stops reading. *)
Theorem register_reading_ends (resolve : string → string → option string)
    (open : string → option string) (filename path fullpath s : string) (r : Rep)
    (Hresolve : resolve filename path = Some fullpath) (Hopen : open fullpath = Some s) :
  (∀ fuel, Forall (λ l, (String.length l < 1000)%nat) (lines s) →
     (S (String.length s) < fuel)%nat →
     config_userRegister resolve open fuel filename path r =
     (m ← fold_lines skipped (user_line filename) add_entry (lines s) (userRegister r);
      Ok (set_userRegister m r))) ∧
  (∀ l1 l l2 m, lines s = l1 ++ l :: l2 →
     Forall (λ l, (String.length l < 1000)%nat) l1 → (1000 ≤ String.length l)%nat →
     fold_lines skipped (user_line filename) add_entry (l1 ++ [str_take 999 l]) (userRegister r)
       = Ok m →
     ∀ fuel, config_userRegister resolve open fuel filename path r = OutOfFuel).
Proof.
  unfold config_userRegister, open_register. rewrite Hresolve, Hopen. split.
  - intros fuel Hshort Hf. simpl. rewrite read_short; [done|done|].
    pose proof (lines_length s). lia.
  - intros l1 l l2 m Hs Hall Hl Hok fuel. simpl.
    by rewrite (read_long 1000 skipped _ _ eq_refl s l1 l l2 fuel _ m) by (done || lia).
Qed.

(** ** Access control

    What the rest of the chain sees: every package that is passed on is logged
    before it is answered. *)
Section access.
Context `{Y : Yaz} {R : Type}.
Implicit Types (p : Package R) (log : list (Package R)).
Definition logging (respond : Package R → Package R) (_ : string) p :
    M (World (E := list (Package R))) (Package R) := λ w,
  Ok (respond p, (w.1, Build_Global (g_id w.2) (g_env w.2 ++ [p]))).

(** The credentials of an Init, the databases of a Search or Scan. *)
Definition init_of p : option (string * string) :=
  match z3950 (p_request p) with
  | Some (initRequest req) => Some (get_user req)
  | _ => None
  end.
Definition databases_of p : list string :=
  match z3950 (p_request p) with
  | Some (searchRequest req) => sq_databaseNames req
  | Some (scanRequest req) => cq_databaseNames req
  | _ => []
  end.
(** The user that the last Init of a session was for. *)
Definition session_user (sid : Z) (o : option string) p : option string :=
  if decide (session_id p = sid) then
    match init_of p with Some (u, _) => Some u | None => o end
  else o.
Definition user_of log (sid : Z) : option string := foldl (session_user sid) None log.

Definition permitted (pdb : PasswordAndDBs) (d : string) : Prop :=
  contains (dbs pdb) d = true ∨ contains (dbs pdb) "*" = true.
Definition authorised (register : gmap string PasswordAndDBs) log p : Prop :=
  match init_of p with
  | Some (u, pw) => ∃ pdb, register !! u = Some pdb ∧ password pdb = pw
  | None => ∀ u, user_of log (session_id p) = Some u →
      ∃ pdb, register !! u = Some pdb ∧ Forall (permitted pdb) (databases_of p)
  end.

(** The states and logs that serving packages leads to. *)
Inductive served (register : gmap string PasswordAndDBs) : Rep → list (Package R) → Prop :=
  | served_none r :
      got_userRegister r = true → userRegister r = register → userBySession r = ∅ →
      served register r []
  | served_package r log g fuel respond p p' r' g' log' :
      served register r log →
      process (logging respond) fuel p (r, Build_Global g log) =
        Ok (p', (r', Build_Global g' log')) →
      served register r' log'.

Record log_ok (register : gmap string PasswordAndDBs) (r : Rep) log : Prop := {
  lo_got : got_userRegister r = true;
  lo_register : userRegister r = register;
  lo_users : ∀ sid, userBySession r !! sid = user_of log sid;
  lo_known : ∀ sid u, user_of log sid = Some u → is_Some (register !! u);
  lo_log : ∀ pre p post, log = pre ++ p :: post → authorised register pre p
}.

Lemma user_of_snoc log p sid : user_of (log ++ [p]) sid = session_user sid (user_of log sid) p.
Proof. unfold user_of. by rewrite foldl_app. Qed.
Lemma first_denied_none l ds :
  first_denied l ds = None →
  Forall (λ d, contains l d = true ∨ contains l "*" = true) ds.
Proof.
  induction ds as [|d ds IH]; simpl; [by constructor|].
  destruct (contains l d) eqn:Hd, (contains l "*") eqn:Hs; simpl; try done;
    intros H; constructor; auto.
Qed.
(** Passing on a package that is authorised. *)
Lemma log_forward register r r' log p :
  log_ok register r log → authorised register log p →
  got_userRegister r' = true → userRegister r' = register →
  (∀ sid, userBySession r' !! sid = user_of (log ++ [p]) sid) →
  log_ok register r' (log ++ [p]).
Proof.
  intros [Hg Hr Hu Hk Hl] Hp Hg' Hr' Hu'. split; [done|done|done|..].
  - intros sid u. rewrite user_of_snoc. unfold session_user.
    destruct (decide _); [|eauto]. unfold authorised in Hp.
    destruct (init_of p) as [[u' pw]|]; [|eauto]. intros [= <-].
    destruct Hp as (pdb & -> & _). by eexists.
  - intros pre p' post. destruct post as [|p2 post _] using rev_ind.
    + by intros [-> [= ->]]%app_inj_tail.
    + rewrite app_comm_cons, app_assoc. intros [-> _]%app_inj_tail. by eapply Hl.
Qed.
(** Passing on anything but an Init leaves the users as they are. *)
Lemma log_forward_other register r log p :
  log_ok register r log → authorised register log p → init_of p = None →
  log_ok register r (log ++ [p]).
Proof.
  intros Hok Hp Hi. eapply log_forward; [done|done|apply Hok|apply Hok|].
  intros sid. rewrite (lo_users _ _ _ Hok), user_of_snoc. unfold session_user.
  rewrite Hi. by destruct (decide _).
Qed.
Lemma user_entry_known register r g log u :
  log_ok register r log → is_Some (register !! u) →
  ∃ pdb, register !! u = Some pdb ∧
    user_entry u (r, Build_Global g log) = Ok (pdb, (r, Build_Global g log)).
Proof.
  intros Hok [pdb Hu]. exists pdb. split; [done|]. unfold user_entry, mbind, M_bind, get_st.
  cbn. by rewrite (lo_register _ _ _ Hok), Hu.
Qed.
Lemma par_get_st {St W : Type} (s : St * W) (Q : St → St * W → Prop) :
  Q s.1 s → par get_st s Q.
Proof. done. Qed.
Lemma process_log_ok register r g log fuel respond p :
  log_ok register r log →
  par (process (logging respond) fuel p) (r, Build_Global g log)
    (λ _ w, log_ok register w.1 (g_env w.2)).
Proof.
  intros Hok. unfold process. pose proof (lo_got _ _ _ Hok) as Hg.
  assert (Hother : init_of p = None → databases_of p = [] →
    par (logging respond "" p) (r, Build_Global g log) (λ _ w, log_ok register w.1 (g_env w.2))).
  { intros Hi Hd. unfold par, logging. cbn. apply log_forward_other; [done| |done].
    unfold authorised. rewrite Hi, Hd. intros u Hu.
    destruct (lo_known _ _ _ Hok _ _ Hu) as [pdb ?]. exists pdb. by split. }
  unfold init_of, databases_of in Hother.
  assert (Hsearch : ∀ ds (answer : string → Package R), init_of p = None →
    databases_of p = ds →
    par (st ← get_st; match userBySession st !! session_id p with
      | None => logging respond "" p
      | Some user => pdb ← user_entry user;
          match first_denied (dbs pdb) ds with
          | Some d => mret (answer d)
          | None => logging respond "" p
          end end) (r, Build_Global g log) (λ _ w, log_ok register w.1 (g_env w.2))).
  { intros ds answer Hi Hd. apply par_bind, par_get_st. cbn [fst].
    rewrite (lo_users _ _ _ Hok). destruct (user_of log (session_id p)) as [u|] eqn:Hu.
    - destruct (user_entry_known register r g log u Hok) as (pdb & Hpdb & He);
        [by eapply lo_known|].
      apply par_bind. unfold par at 1. rewrite He.
      destruct (first_denied (dbs pdb) ds) eqn:Hf; [done|]. unfold par, logging. cbn. apply log_forward_other; [done| |done]. unfold authorised. rewrite Hi, Hu, Hd.
      intros u' [= <-]. exists pdb. split; [done|]. by apply first_denied_none.
    - unfold par, logging. cbn. apply log_forward_other; [done| |done].
      unfold authorised. rewrite Hi, Hu. done. }
  destruct (z3950 (p_request p)) as [apdu|] eqn:Hp; [|by apply Hother].
  apply par_bind, par_get_st. cbn [fst]. rewrite Hg.
  destruct apdu; try (by apply Hother).
  - unfold process_init. destruct (get_user r0) as [u pw] eqn:Hc.
    destruct (decide (u = "")); [done|]. apply par_bind, par_get_st. cbn [fst].
    rewrite (lo_register _ _ _ Hok). destruct (register !! u) as [pdb|] eqn:Hu; [|done].
    destruct (decide (password pdb = pw)) as [Hpw|]; [|done].
    unfold par, logging. cbn. eapply log_forward; [done|..]; try (by apply Hok).
    + unfold authorised, init_of. rewrite Hp, Hc. by exists pdb.
    + intros sid. rewrite user_of_snoc. unfold session_user, init_of. rewrite Hp, Hc.
      simpl. destruct (decide (session_id p = sid)) as [<-|Hne].
      * by rewrite lookup_insert_eq.
      * rewrite lookup_insert_ne by done. apply (lo_users _ _ _ Hok).
  - apply Hsearch; [|unfold databases_of]; unfold init_of; by rewrite Hp.
  - apply Hsearch; [|unfold databases_of]; unfold init_of; by rewrite Hp.
Qed.
Lemma served_ok register r log : served register r log → log_ok register r log.
Proof.
  induction 1 as [r Hg Hr Hu|r log g fuel respond p p' r' g' log' _ IH Hp].
  - split; [done|done|by rewrite Hu|done|]. by intros [|? ?] ? ?.
  - pose proof (process_log_ok register r g log fuel respond p IH) as H.
    unfold par in H. by rewrite Hp in H.
Qed.

(** C9. Access control: whatever packages arrive, in whatever order, and
    however the rest of the chain answers, every Init that is passed on
    carries a user and password of the register, and every Search or Scan
    passed on for a session that has an Init passed on is for databases that
    the register grants to the user of the session's last such Init. *)
Theorem access_control (register : gmap string PasswordAndDBs) (r : Rep)
    (log : list (Package R)) (Hserved : served register r log)
    (pre post : list (Package R)) (p : Package R) (Hlog : log = pre ++ p :: post) :
  (∀ req, z3950 (p_request p) = Some (initRequest req) →
     ∃ pdb, register !! (get_user req).1 = Some pdb ∧ password pdb = (get_user req).2) ∧
  (∀ u, user_of pre (session_id p) = Some u → init_of p = None →
     ∃ pdb, register !! u = Some pdb ∧
       ∀ d, d ∈ databases_of p → contains (dbs pdb) d = true ∨ contains (dbs pdb) "*" = true).
Proof.
  pose proof (lo_log _ _ _ (served_ok _ _ _ Hserved) pre p post Hlog) as Ha.
  unfold authorised in Ha. split.
  - intros req Hp. unfold init_of in Ha. rewrite Hp in Ha. by destruct (get_user req).
  - intros u Hu Hi. rewrite Hi in Ha. destruct (Ha u Hu) as (pdb & ? & Hall).
    exists pdb. split; [done|]. by apply Forall_forall.
Qed.
End access.

(** ** Targets *)
Section targets.
Context `{Y : Yaz} `{!YazLaws Y} {R E : Type}.
Context (next : string → Package R → M (World (E := E)) (Package R)).

Definition target_ok (l : list string) (t : string) : bool := contains l t || contains l "*".
Lemma check_loop_ok l discard ts :
  discard = true ∨ Forall (λ t, target_ok l t = true) ts →
  check_loop l discard ts = inr (filter (λ t, target_ok l t = true) ts).
Proof.
  intros H. induction ts as [|t ts IH]; [done|]. cbn [check_loop]. rewrite filter_cons.
  assert (IH' : check_loop l discard ts = inr (filter (λ t, target_ok l t = true) ts)).
  { apply IH. destruct H as [H|H]; [by left|right]. by apply Forall_cons in H as [_ ?]. }
  unfold target_ok in *. destruct (contains l t || contains l "*") eqn:Ht.
  - by rewrite IH', decide_True.
  - rewrite decide_False by done. destruct H as [->|H]; [done|].
    apply Forall_cons in H as [Ht' _]. by rewrite Ht in Ht'.
Qed.
Lemma check_loop_bad l pre t post :
  Forall (λ t, target_ok l t = true) pre → target_ok l t = false →
  check_loop l false (pre ++ t :: post) = inl t.
Proof.
  unfold target_ok. induction pre as [|t' pre IH]; intros Hpre Ht; simpl; [by rewrite Ht|].
  apply Forall_cons in Hpre as [-> Hpre]. by rewrite IH.
Qed.
Lemma targets_entry_spec user (r : Rep) (g : Global E) :
  ∃ r', targets_entry user (r, g) = Ok (default [] (targetsByUser r !! user), (r', g)) ∧
    discardUnauthorisedTargets r' = discardUnauthorisedTargets r.
Proof.
  unfold targets_entry, mbind, M_bind, get_st. cbn.
  destruct (targetsByUser r !! user); by eexists.
Qed.

(** Targets: with a target register only, an Init is passed on with
    exactly those of its virtual hosts, in order, that the register grants to
    its user; if there are none, or if one is not granted and unauthorised
    targets are not to be discarded, the Init is rejected and the session is
    closed. With a user register as well, the targets are not looked at. *)
Theorem targets_checked (fuel : nat) (package : Package R) (req : InitRequest) (n : Z)
    (targets : list string) (otherInfo : OtherInformation) (r : Rep) (g : Global E)
    (Hreq : z3950 (p_request package) = Some (initRequest req))
    (Htargets : remove_vhost_otherinfo fuel (iq_otherInfo req) [] =
                Ok (n, targets, otherInfo))
    (Hremoved : ∀ cat, 1 ≤ cat → proxy_at otherInfo cat = None)
    (Hregister : got_targetRegister r = true) :
  let granted := default [] (targetsByUser r !! (get_user req).1) in
  let ok := λ t, target_ok granted t = true in
  let discard := discardUnauthorisedTargets r in
  (got_userRegister r = false → discard = true ∨ Forall ok targets →
   filter ok targets ≠ [] →
   ∃ req' r', process next fuel package (r, g) =
       next "" (set_request (Some (GDU_Z3950 (initRequest req'))) package) (r', g) ∧
     get_user req' = get_user req ∧
     proxy_run (iq_otherInfo req') 1 (filter ok targets)) ∧
  (got_userRegister r = false →
   filter ok targets = [] ∨ (discard = false ∧ ¬ Forall ok targets) →
   ∃ p' r' resp, process next fuel package (r, g) = Ok (p', (r', g)) ∧
     p_response p' = Some (GDU_Z3950 (initResponse resp)) ∧
     ir_result resp = false ∧ is_closed p' = true) ∧
  (got_userRegister r = true → ∀ pdb, (get_user req).1 ≠ "" →
   userRegister r !! (get_user req).1 = Some pdb → password pdb = (get_user req).2 →
   ∃ r', process next fuel package (r, g) = next "" package (r', g)).
Proof.
  intros granted ok discard.
  assert (Hcheck : got_userRegister r = false →
    process next fuel package (r, g) = check_targets next fuel package req (r, g)).
  { intros Hu. unfold process. rewrite Hreq. unfold mbind, M_bind, get_st. cbn.
    by rewrite Hu, Hregister. }
  destruct (targets_entry_spec (get_user req).1 r g) as (r' & Hentry & Hd).
  assert (Hrun : check_targets next fuel package req (r, g) = match check_loop granted discard targets with
    | inl t => mret (reject_init (set_request (Some (GDU_Z3950 (initRequest
        (set_iq_otherInfo otherInfo req)))) package) (set_iq_otherInfo otherInfo req)
        BIB1_ACCESS_TO_SPECIFIED_DATABASE_DENIED t)
    | inr [] => mret (reject_init (set_request (Some (GDU_Z3950 (initRequest
        (set_iq_otherInfo otherInfo req)))) package) (set_iq_otherInfo otherInfo req)
        BIB1_ACCESS_TO_SPECIFIED_DATABASE_DENIED "all databases")
    | inr ts => next "" (set_request (Some (GDU_Z3950 (initRequest (set_iq_otherInfo
        (set_vhost_otherinfo otherInfo ts) (set_iq_otherInfo otherInfo req))))) package)
    end (r', g)).
  { unfold check_targets. unfold granted, discard. destruct (get_user req) as [user pw] eqn:Hu. cbn [fst] in *.
    rewrite (bind_ok _ _ _ _ _ Hentry), Htargets. unfold lift_outcome, get_st.
    unfold mbind, M_bind. cbn. rewrite Hd. by destruct (check_loop _ _ _) as [|[]]. }
  split_and!.
  - intros Hu Hok Hne. rewrite Hcheck, Hrun, check_loop_ok by done. fold ok.
    destruct (filter ok targets) as [|t ts] eqn:Hf; [done|].
    eexists _, r'. split; [reflexivity|]. split; [done|]. cbn [iq_otherInfo].
    apply set_vhost_loop_run. apply Hremoved. simpl. lia.
  - intros Hu Hbad. rewrite Hcheck, Hrun by done.
    destruct (decide (discard = false ∧ ¬ Forall ok targets)) as [[Hdis Hall]|Hn].
    + rewrite Hdis. apply not_Forall_Exists in Hall; [|intros ?; apply _].
      destruct (Exists_first_split ok targets Hall) as (pre & t & post & Hs & Hp & Ht).
      rewrite Hs, check_loop_bad; [by do 3 eexists|done|].
      by destruct (target_ok granted t) eqn:Et; [destruct (Ht Et)|].
    + destruct Hbad as [Hf|?]; [|done]. rewrite check_loop_ok.
      * fold ok. rewrite Hf. by do 3 eexists.
      * destruct discard; [by left|right]. destruct (decide (Forall ok targets)); [done|].
        by destruct Hn.
  - intros Hu pdb Hne Hpdb Hpw. unfold process. rewrite Hreq.
    unfold mbind, M_bind at 1. cbn. rewrite Hu. unfold process_init.
    destruct (get_user req) as [user pw] eqn:Hg. simpl in *.
    rewrite decide_False by done. unfold mbind, M_bind, get_st, modify_st. cbn.
    rewrite Hpdb, decide_True by done. by eexists.
Qed.
End targets.

(** ** A concrete configuration *)
Definition example_register : list (string * PasswordAndDBs) :=
  [("alice", mk_PasswordAndDBs "pw" ["books"; "maps"]); ("bob", mk_PasswordAndDBs "x" ["*"])].
Definition example_resolve (name _ : string) : option string := Some name.
Definition example_open (s _ : string) : option string := Some s.
Definition example_rep (u : bool) : Rep :=
  mk_Rep u true (list_to_map example_register) {["alice" := ["t1"]]} ∅ false.
Definition example_init : InitRequest :=
  set_iq_otherInfo (set_vhost_otherinfo (Y := ref_yaz) [] ["T1"])
    (set_iq_idAuthentication (Some (IdAuthentication_open "alice/pw"))
       (zget_initRequest (Yaz := ref_yaz))).
Definition example_package (a : APDU) : Package unit :=
  mk_Package (Session.mk 7 false) Origin.create (Some tt) (Some (GDU_Z3950 a)) None.
Definition example_search : APDU :=
  searchRequest (set_sq_databaseNames ["Maps"] (zget_searchRequest (Yaz := ref_yaz))).
Definition example_log : list (Package unit) :=
  [example_package (initRequest example_init); example_package example_search].
Fixpoint long_line (n : nat) : string :=
  match n with O => "" | S n' => String "#" (long_line n') end.

Lemma register_roundtrip_witness :
  config_userRegister example_resolve (example_open (print_register example_register)) 4
    "users" "" Rep_init =
  Ok (set_userRegister (foldl (λ m e, <[e.1 := e.2]> m) ∅ example_register) Rep_init).
Proof.
  apply (register_roundtrip example_resolve (example_open (print_register example_register))
    4 "users" "" "users" example_register Rep_init); [reflexivity|reflexivity| |simpl; lia].
  constructor; [|constructor; [|constructor]];
    (split; [split; [reflexivity|discriminate]|reflexivity|split; [discriminate|]
            |split; reflexivity|vm_compute; lia]);
    repeat (constructor; [reflexivity|]); constructor.
Defined.
Lemma register_reading_ends_witness :
  config_userRegister example_resolve (example_open (long_line 1000)) 5000 "users" ""
    Rep_init = OutOfFuel.
Proof.
  destruct (register_reading_ends example_resolve (example_open (long_line 1000)) "users"
    "" "users" (long_line 1000) Rep_init eq_refl eq_refl) as [_ H].
  apply (H [] (long_line 1000) [] ∅); [vm_compute; reflexivity|constructor
    |vm_compute; lia|vm_compute; reflexivity].
Defined.
Lemma access_control_witness :
  ∃ pdb, (list_to_map example_register : gmap string PasswordAndDBs) !! "alice" = Some pdb ∧
    contains (dbs pdb) "Maps" = true.
Proof.
  destruct (access_control (Y := ref_yaz)
    (list_to_map example_register) (set_userBySession {[7 := "alice"]} (example_rep true))
    example_log) with (pre := take 1 example_log) (post := @nil (Package unit))
    (p := example_package example_search) as [_ H].
  - apply (served_package _ (set_userBySession {[7 := "alice"]} (example_rep true))
      (take 1 example_log) 0 1 id (example_package example_search)
      (example_package example_search) _ 0 _); [|reflexivity].
    apply (served_package _ (example_rep true) [] 0 1 id
      (example_package (initRequest example_init))
      (example_package (initRequest example_init)) _ 0 _); [|reflexivity].
    constructor; reflexivity.
  - reflexivity.
  - destruct (H "alice") as (pdb & Hp & Hd); [reflexivity|reflexivity|].
    exists pdb. split; [exact Hp|]. destruct (Hd "Maps") as [Hm|Hm]; [left|exact Hm|].
    injection Hp as <-. discriminate Hm.
Defined.
Lemma targets_checked_witness :
  ∃ req' r', process (Y := ref_yaz) (logging id) 3 (example_package (initRequest example_init))
      (example_rep false, Build_Global 0 []) =
    logging id "" (set_request (Some (GDU_Z3950 (initRequest req')))
      (example_package (initRequest example_init))) (r', Build_Global 0 []) ∧
    get_user req' = ("alice", "pw").
Proof.
  destruct (targets_checked (Y := ref_yaz) (logging id) 3
    (example_package (initRequest example_init)) example_init 1 ["T1"] []
    (example_rep false) (Build_Global 0 [])) as (H & _); [reflexivity|reflexivity| |reflexivity|].
  - intros cat _. reflexivity.
  - destruct (H eq_refl) as (req' & r' & Hp & Hu & _).
    + right. constructor; [reflexivity|constructor].
    + discriminate.
    + exists req', r'. split; [exact Hp|]. rewrite Hu. reflexivity.
Defined.
End AuthSimple.
