(* ===== verification/BackendTest.v ===== *)
(** * The test target

    [src/filter_backend_test.cpp]: a Z39.50 target with result sets of 42
    records that are made up when they are asked for. The filter ends a
    route; it is also a concrete server that the theorems about filters which
    fetch records can be composed with. *)
From S2P Require Import Prelude Zgdu Yaz Core Xml Util Target.

Module BackendTest.

(** [BackendTest::Rep]; [Session_info] holds nothing. *)
Record Rep : Type := mk_Rep {
  m_support_named_result_sets : bool;
  m_sessions : gmap Z unit
}.
Definition BackendTest_ : Rep := mk_Rep false ∅.
Definition set_named (b : bool) (r : Rep) : Rep := mk_Rep b (m_sessions r).
Definition set_sessions (m : gmap Z unit) (r : Rep) : Rep :=
  mk_Rep (m_support_named_result_sets r) m.

Definition result_set_size : Z := 42.

(** The MARC record; its fields end with [RS], subfields start with [US]. *)
Definition RS : string := String "030" "".
Definition US : string := String "031" "".
Definition marc_record : string := String.concat ""
  ["00366nam  22001698a 4500001001300000003000400013005001700017"; "008004100034010001700179040001300075050001200088100001700100"; "245003000117260001200147263000900159300001100168"; RS;
   "   11224466 "; RS;
   "DLC"; RS;
   "00000000000000.0"; RS;
   "910710c19910701nju           00010 eng  "; RS;
   "  "; US; "aDLC"; US; "cDLC"; RS;
   "00"; US; "a123-xyz"; RS;
   "10"; US; "aJack Collins"; RS;
   "10"; US; "aHow to program a computer"; RS;
   "1 "; US; "aPenguin"; RS;
   "  "; US; "a8710"; RS;
   "  "; US; "ap. cm."; RS;
   "  "; US; "a   11224466 "; RS; String "029" ""].

(** [snprintf("%09d")] of a number that is not negative. *)
Fixpoint zeros (n : nat) : string :=
  match n with O => "" | S n' => String "0" (zeros n') end.
Definition print_09d (n : Z) : string :=
  let s := print_nat n in zeros (9 - String.length s) +:+ s.
(** [memcpy(s + pos, t, strlen(t))], inside [s]. *)
Definition overwrite (pos : nat) (t s : string) : string :=
  str_take pos s +:+ t +:+ str_drop (pos + String.length t) s.
(** [memset(tmp_rec, 'a', sz)]. *)
Fixpoint letters (n : nat) : string :=
  match n with O => "" | S n' => String "a" (letters n') end.
(** [!strncmp(s, "FF", 2)]. *)
Definition is_FF (s : string) : bool := bool_decide (str_take 2 s = "FF").

Section filter.
Context `{Y : Yaz} {R W : Type}.

Definition dummy_opac (item_id element_set_name marc_input : string) : ExternalRecord :=
  let availableNow := bool_decide (element_set_name = "F") in
  z_ext_record_opac (z_ext_record_usmarc marc_input)
    [{| typeOfRecord := Some "u"; encodingLevel := Some "u";
        receiptAcqStatus := Some "0"; dateOfReport := Some "000000";
        nucCode := Some "s-FM/GC";
        localLocation := Some "Main or Science/Business Reading Rms - STORED OFFSITE";
        callNumber := Some "MLCM 89/00602 (N)"; shelvingData := Some "FT MEADE";
        copyNumber := Some "Copy 1";
        circulationData := [{| availableNow := availableNow; itemId := Some item_id;
          renewable := availableNow; onHold := negb availableNow |}] |}].

(** The size of an XML record: [size_t], after a product in [int]. *)
Definition xml_size (element_set_name : string) : outcome nat :=
  sz ← (match str_drop 2 element_set_name with
        | EmptyString => Ok 1024
        | s => let v := mp_xml.atoi s * 1024 in
               if bool_decide (in_int32 v) then Ok (wrap_u 64 v) else Undef IntOverflow
        end);
  Ok (Z.to_nat (if (sz <? 10) || (1024 * 1024 <? sz) then 10 else sz)).
Definition xml_record (sz : nat) : string :=
  overwrite (sz - 4) "</a>" (overwrite 0 "<a>" (letters sz)).

(** One turn of the loop of [fetch]: record [i + start]. *)
Definition fetch_record (syntax element_set_name : string) (pos : Z) :
    outcome NamePlusRecord :=
  if decide (element_set_name = "SD") then
    Ok (zget_surrogateDiagRec None
          BIB1_SPECIFIED_ELEMENT_SET_NAME_NOT_VALID_FOR_SPECIFIED_ (Some "SD"))
  else
    rec ← (if is_FF element_set_name then
             sz ← xml_size element_set_name;
             Ok (z_ext_record_xml (xml_record sz))
           else
             let offset_str := "test__" +:+ print_09d pos +:+ "_" in
             let tmp_rec := overwrite 186 offset_str marc_record in
             Ok (if decide (syntax = recsyn_opac)
                 then dummy_opac offset_str element_set_name tmp_rec
                 else z_ext_record_usmarc tmp_rec));
    Ok {| databaseName := None; npr_record := NPR_databaseRecord rec |}.

Inductive fetched : Type :=
  | Fetched (l : list NamePlusRecord) (number_returned next_position : Z)
  | Fetch_error (error_code : Z) (addinfo : string).

(** The element set name and syntax that [fetch] settles on, or its error. *)
Definition check_syntax (preferredRecordSyntax : option string)
    (esn : option ElementSetNames) : (string * string) + (Z * string) :=
  match (match esn with
         | None => Some "F"
         | Some (ESN_generic s) => Some s
         | Some ESN_databaseSpecific => None
         end) with
  | None => inr (BIB1_SPECIFIED_ELEMENT_SET_NAME_NOT_VALID_FOR_SPECIFIED_, "")
  | Some element_set_name =>
      let syntax := default recsyn_usmarc preferredRecordSyntax in
      if decide (syntax = recsyn_xml) then
        if is_FF element_set_name || bool_decide (element_set_name = "SD")
        then inl (syntax, element_set_name)
        else inr (BIB1_SPECIFIED_ELEMENT_SET_NAME_NOT_VALID_FOR_SPECIFIED_, element_set_name)
      else if bool_decide (syntax = recsyn_usmarc) || bool_decide (syntax = recsyn_opac) then
        if bool_decide (element_set_name = "B") || bool_decide (element_set_name = "F") ||
           bool_decide (element_set_name = "SD")
        then inl (syntax, element_set_name)
        else inr (BIB1_SPECIFIED_ELEMENT_SET_NAME_NOT_VALID_FOR_SPECIFIED_, element_set_name)
      else inr (BIB1_RECORD_SYNTAX_UNSUPP, "")
  end.

(** [Rep::fetch]; [start] and [number] are [int]. *)
Definition fetch (preferredRecordSyntax : option string) (esn : option ElementSetNames)
    (start number : Z) : outcome fetched :=
  if bool_decide (¬ in_int32 (number + start) ∨ ¬ in_int32 (number + start - 1))
  then Undef IntOverflow
  else if (result_set_size <? number + start - 1) || (start <? 1) then
    Ok (Fetch_error BIB1_PRESENT_REQUEST_OUT_OF_RANGE "")
  else
    match check_syntax preferredRecordSyntax esn with
    | inr (e, a) => Ok (Fetch_error e a)
    | inl (syntax, element_set_name) =>
        if number <? 0 then Undef BadSize
        else
          l ← mapM (λ i : nat, fetch_record syntax element_set_name (Z.of_nat i + start))
                (seq 0 (Z.to_nat number));
          Ok (Fetched l number
                (if result_set_size <? start + number then 0 else start + number))
    end.

(** ** The handlers *)
Definition process_init (req : InitRequest) : InitResponse :=
  let resp := create_initResponse (Some (initRequest req)) 0 None in
  let options := foldl (λ m i, if MASK_GET (iq_options req) i then MASK_SET m i else m)
    (ir_options resp) [Options_search; Options_present; Options_namedResultSets] in
  let fix versions (m : Z) (l : list Z) : Z :=
    match l with
    | [] => m
    | i :: l' => if MASK_GET (iq_protocolVersion req) i then versions (MASK_SET m i) l' else m
    end in
  set_ir_maximumRecordSize (iq_maximumRecordSize req)
    (set_ir_preferredMessageSize (iq_preferredMessageSize req)
      (set_ir_protocolVersion (versions (ir_protocolVersion resp) [0; 1; 2])
        (set_ir_options options
          (set_ir_implementationName (Some "backend_test") resp)))).

(** [piggyback_sr] gives the number of records; the element set name it
    chooses is not used. *)
Definition search_number (req : SearchRequest) : Z :=
  (piggyback_sr req result_set_size (Some None)).1.
Definition search_esn (req : SearchRequest) : option ElementSetNames :=
  if sq_smallSetUpperBound req <? search_number req
  then sq_mediumSetElementSetNames req else sq_smallSetElementSetNames req.
Definition process_search (named : bool) (req : SearchRequest) : outcome SearchResponse :=
  let apdu := Some (searchRequest req) in
  if negb named && negb (bool_decide (sq_resultSetName req = "default")) then
    Ok (create_searchResponse apdu BIB1_RESULT_SET_NAMING_UNSUPP None)
  else
    let number := search_number req in
    if number =? 0 then
      Ok (set_sr_records None (set_sr_nextResultSetPosition 0
        (set_sr_numberOfRecordsReturned 0 (set_sr_resultCount result_set_size
          (create_searchResponse apdu 0 None)))))
    else
      r ← fetch (sq_preferredRecordSyntax req) (search_esn req) 1 (int32 number);
      Ok (match r with
          | Fetch_error e a =>
              set_sr_resultCount result_set_size (create_searchResponse apdu e (Some a))
          | Fetched l n next_position =>
              set_sr_records (Some (Records_DBOSD l))
                (set_sr_nextResultSetPosition next_position
                  (set_sr_numberOfRecordsReturned n (set_sr_resultCount result_set_size
                    (create_searchResponse apdu 0 None))))
          end).
Definition present_esn (comp : option RecordComposition) : option (option ElementSetNames) :=
  match comp with
  | None => Some None
  | Some (RecordComp_simple e) => Some (Some e)
  | Some (RecordComp_complex _) => None
  end.
Definition process_present (req : PresentRequest) (esn : option ElementSetNames) :
    outcome PresentResponse :=
  let apdu := Some (presentRequest req) in
  r ← fetch (pq_preferredRecordSyntax req) esn (int32 (pq_resultSetStartPoint req))
        (int32 (pq_numberOfRecordsRequested req));
  Ok (match r with
      | Fetch_error e a => create_presentResponse apdu e (Some a)
      | Fetched l n next_position =>
          set_pr_nextResultSetPosition next_position
            (set_pr_numberOfRecordsReturned n
              (set_pr_records (Some (Records_DBOSD l)) (create_presentResponse apdu 0 None)))
      end).

Definition answer (a : APDU) (p : Package R) : Package R :=
  set_response (Some (GDU_Z3950 a)) p.

(** [BackendTest::process]. The response, and what happens before the last
    two statements; [None] for the early return. *)
Definition respond (next : string → Package R → M W (Package R)) (package : Package R) :
    M (Rep * W) (Package R * bool) :=
  rep ← get_st;
  match z3950 (p_request package) with
  | None => λ s, match next "" package s.2 with
                 | Ok (p, w) => Ok ((p, true), (s.1, w))
                 | Throw e => Throw e
                 | Undef k => Undef k
                 | OutOfFuel => OutOfFuel
                 end
  | Some (initRequest req) =>
      modify_st (λ rep, set_sessions (SessionMap.create tt (p_session package)
        (m_sessions rep)) (if MASK_GET (iq_options req) Options_namedResultSets
                           then set_named true rep else rep)) ;;
      mret (answer (initResponse (process_init req)) package, true)
  | Some apdu =>
      if negb (SessionMap.exist (p_session package) (m_sessions rep)) then
        mret (close_session (answer (create_close (Some apdu) Close_protocolError
          (Some "no init for filter_backend_test")) package), true)
      else
        match apdu with
        | searchRequest req =>
            resp ← lift_outcome (process_search (m_support_named_result_sets rep) req);
            mret (answer (searchResponse resp) package, true)
        | presentRequest req =>
            match present_esn (pq_recordComposition req) with
            | None =>
                mret (answer (presentResponse (create_presentResponse (Some apdu)
                  BIB1_ONLY_A_SINGLE_ELEMENT_SET_NAME_SUPPORTED None)) package, false)
            | Some esn =>
                resp ← lift_outcome (process_present req esn);
                mret (answer (presentResponse resp) package, true)
            end
        | close _ =>
            mret (close_session (answer (create_close (Some apdu) Close_finished None)
              package), true)
        | _ =>
            mret (close_session (answer (create_close (Some apdu) Close_protocolError
              (Some "backend_test: unhandled APDU")) package), true)
        end
  end.
Definition process (next : string → Package R → M W (Package R)) (package : Package R) :
    M (Rep * W) (Package R) :=
  '(p, to_end) ← respond next package;
  if to_end && is_closed p then
    modify_st (λ rep, set_sessions (SessionMap.release (p_session p) (m_sessions rep)) rep) ;;
    mret p
  else mret p.

Definition configure (ptr : list xmlNode) : outcome unit := mp_xml.check_empty ptr.

(** ** The result set *)

(** All 42 records, in a syntax and element set. *)
Definition result_set (syntax element_set_name : string) : outcome (list NamePlusRecord) :=
  mapM (λ i : nat, fetch_record syntax element_set_name (Z.of_nat i + 1)) (seq 0 42).

Lemma result_set_length syntax esn records :
  result_set syntax esn = Ok records → length records = 42%nat.
Proof. intros H%mapM_ok%Forall2_length. rewrite length_seq in H. done. Qed.

Lemma fetch_served syn esn syntax e records start number :
  check_syntax syn esn = inl (syntax, e) → result_set syntax e = Ok records →
  1 ≤ start → 0 ≤ number → start + number - 1 ≤ result_set_size →
  fetch syn esn start number =
  Ok (Fetched (take (Z.to_nat number) (drop (Z.to_nat (start - 1)) records)) number
        (if result_set_size <? start + number then 0 else start + number)).
Proof.
  intros Hc Hr Hs Hn Hin. unfold fetch, result_set_size in *.
  rewrite bool_decide_eq_false_2 by (unfold in_int32, INT_MAX; lia).
  rewrite (proj2 (Z.ltb_ge 42 (number + start - 1))), (proj2 (Z.ltb_ge start 1)) by lia.
  cbn [orb]. rewrite Hc, (proj2 (Z.ltb_ge number 0)) by lia.
  assert (Hm : mapM (λ i : nat, fetch_record syntax e (Z.of_nat i + start))
    (seq 0 (Z.to_nat number)) = Ok (take (Z.to_nat number) (drop (Z.to_nat (start - 1)) records))).
  { apply mapM_ok. pose proof (result_set_length _ _ _ Hr) as Hlen.
    apply mapM_ok in Hr. apply Forall2_same_length_lookup in Hr as [_ Hr].
    apply Forall2_same_length_lookup. split.
    { rewrite length_seq, length_take, length_drop. lia. }
    intros i x y [-> Hi]%lookup_seq Hy. rewrite lookup_take_lt, lookup_drop in Hy by lia.
    cbn. replace (Z.of_nat i + start) with (Z.of_nat (Z.to_nat (start - 1) + i) + 1) by lia.
    apply (Hr (Z.to_nat (start - 1) + i)%nat); [|done]. apply lookup_seq. lia. }
  rewrite Hm. reflexivity.
Qed.

(** ** The target that other filters see *)
Section target.
Context (next : string → Package R → M W (Package R)).
Context (syntax : option string) (comp : option RecordComposition).
Context (esn : option ElementSetNames) (Hesn : present_esn comp = Some esn).
Context (s e : string) (Hcheck : check_syntax syntax esn = inl (s, e)).
Context (records : list NamePlusRecord) (Hrecords : result_set s e = Ok records).

(** The session has sent Init, and the request is for this kind of records. *)
Definition initialised (ses : Session.t) (syn : option string)
    (c : option RecordComposition) (name : string) (w : Rep * W) : Prop :=
  SessionMap.exist ses (m_sessions w.1) = true ∧ syn = syntax ∧ c = comp.

Lemma present_served p pr w :
  z3950 (p_request p) = Some (presentRequest pr) → is_closed p = false →
  initialised (p_session p) (pq_preferredRecordSyntax pr) (pq_recordComposition pr)
    (pq_resultSetId pr) w →
  1 ≤ pq_resultSetStartPoint pr → 0 ≤ pq_numberOfRecordsRequested pr →
  pq_resultSetStartPoint pr + pq_numberOfRecordsRequested pr - 1 ≤ result_set_size →
  ∃ pres, process next p w = Ok (answer (presentResponse pres) p, w) ∧
    pr_records pres = Some (Records_DBOSD
      (take (Z.to_nat (pq_numberOfRecordsRequested pr))
        (drop (Z.to_nat (pq_resultSetStartPoint pr - 1)) records))) ∧
    pr_numberOfRecordsReturned pres = pq_numberOfRecordsRequested pr.
Proof.
  intros Hreq Hopen (Hex & Hsyn & Hcomp) Hs Hn Hin. unfold process, respond.
  destruct w as [rep w]. cbn in Hex. unfold mbind, M_bind. cbn. rewrite Hreq, Hex. cbn.
  rewrite Hcomp, Hesn. unfold process_present. rewrite Hsyn.
  rewrite !int32_id by (unfold in_int32, INT_MAX, result_set_size in *; lia).
  rewrite (fetch_served _ _ _ _ _ _ _ Hcheck Hrecords) by done. cbn.
  assert (Ho : ∀ a, is_closed (answer a p) = false) by done. rewrite Ho.
  eexists. split; [reflexivity|]. done.
Qed.

#[export] Instance backend_test_serves :
  Serves (λ _, process next) initialised records.
Proof.
  intros p pr w Hreq _ Hopen Hok. cbn zeta. intros Hs Hn Hin.
  rewrite (result_set_length _ _ _ Hrecords) in Hin.
  destruct (present_served p pr w) as (pres & Hp & Hr & _); try done; [lia|].
  eexists _, pres, (Z.to_nat (pq_numberOfRecordsRequested pr)), w. split; [exact Hp|].
  split; [done|]. split; [done|]. split; [lia|]. split; [exact Hr|done].
Qed.

(** With named result sets negotiated it is a target with a whole session, if
    what comes after it in the route takes the end of a session. *)
Definition fresh (ses : Session.t) (w : Rep * W) : Prop :=
  SessionMap.exist ses (m_sessions w.1) = true ∧ m_support_named_result_sets w.1 = true.
Definition format (syn : option string) (c : option RecordComposition) : Prop :=
  syn = syntax ∧ c = comp.
Lemma backend_test_target `{!YazLaws Y} :
  (∀ p w, p_request p = None → ∃ p' w', next "" p w = Ok (p', w')) →
  SearchTarget (λ _, process next) fresh format (λ _ _, initialised) (λ _ _, records).
Proof.
  intros Hnext. split.
  - intros _ _. apply backend_test_serves.
  - intros p r [rep w] Hreq Hnamed _ Hopen. unfold process, respond, mbind, M_bind.
    cbn -[MASK_GET]. rewrite Hreq. cbn -[MASK_GET]. rewrite Hnamed. unfold is_closed in *. cbn.
    rewrite Hopen. eexists _, _, _. split; [reflexivity|]. split; [reflexivity|].
    split; [apply default_init_result|]. split; [|done]. unfold SessionMap.exist, SessionMap.create. cbn.
    by rewrite lookup_insert_eq.
  - intros p r [rep w] Hreq (Hs & Hl & Hm) _ Hopen [Hex Hnamed]. cbn in Hex, Hnamed.
    assert (Hzero : search_number r = 0).
    { unfold search_number, piggyback_sr, piggyback. by rewrite Hs, Hl. }
    unfold process, respond, mbind, M_bind. cbn. rewrite Hreq, Hex. cbn.
    unfold process_search. rewrite Hnamed, Hzero. cbn. unfold is_closed in *. cbn.
    rewrite Hopen. eexists _, _, _. split; [reflexivity|]. split; [reflexivity|].
    split; [by rewrite (result_set_length _ _ _ Hrecords)|]. split; [done|].
    intros syn c [-> ->]. by split_and!.
  - intros p [rep w] Hclosed Hreq _. unfold process, respond, mbind, M_bind. cbn.
    rewrite Hreq. cbn. destruct (Hnext p w Hreq) as (p' & w' & Hn). rewrite Hn. cbn.
    destruct (is_closed p'); by eexists _, _.
Qed.
End target.

(** ** Sessions *)

Lemma respond_cases (next : string → Package R → M W (Package R)) p a rep w p' b rep' w' :
  z3950 (p_request p) = Some a → is_closed p = false →
  respond next p (rep, w) = Ok ((p', b), (rep', w')) →
  w' = w ∧ is_Some (p_response p') ∧
  Session.id (p_session p') = Session.id (p_session p) ∧
  ((∃ req, a = initRequest req) ∧ is_closed p' = false ∧
     m_sessions rep' = SessionMap.create tt (p_session p) (m_sessions rep)
   ∨ (¬ ∃ req, a = initRequest req) ∧ rep' = rep ∧
     (is_closed p' = false ∧ SessionMap.exist (p_session p) (m_sessions rep) = true ∨
      is_closed p' = true ∧ b = true)).
Proof.
  intros Hreq Hopen. unfold respond. rewrite (bind_ok get_st _ (rep, w) (rep, w) rep eq_refl).
  rewrite Hreq.
  assert (Hans : ∀ x, is_closed (answer x p) = false) by done.
  destruct (SessionMap.exist (p_session p) (m_sessions rep)) eqn:Hex; destruct a; cbn [negb];
    try (intros [= <- <- <- <-]; split_and!;
         [done|by eexists|done|right; split_and!; [naive_solver|done|naive_solver]]).
  - intros [= <- <- <- <-]. split_and!; [done|by eexists|done|left].
    split_and!; [by eexists|done|]. by destruct (MASK_GET (iq_options r) Options_namedResultSets).
  - unfold mbind, M_bind, lift_outcome. destruct (process_search (m_support_named_result_sets rep) r) as [res|?|?|]; try done.
    intros [= <- <- <- <-]. split_and!; [done|by eexists|done|right]. naive_solver.
  - destruct (present_esn (pq_recordComposition r)) as [esn|].
    + unfold mbind, M_bind, lift_outcome. destruct (process_present r esn) as [res|?|?|]; try done.
      intros [= <- <- <- <-]. split_and!; [done|by eexists|done|right]. naive_solver.
    + intros [= <- <- <- <-]. split_and!; [done|by eexists|done|right]. naive_solver.
  - intros [= <- <- <- <-]. split_and!; [done|by eexists|done|left].
    split_and!; [by eexists|done|]. by destruct (MASK_GET (iq_options r) Options_namedResultSets).
Qed.

(** Who is served: on an open session every Z39.50 request gets a
    response; afterwards the filter knows the session if and only if it was
    known or this was Init, and it has not been closed; a session without
    Init is closed by its first request. Other sessions are not affected. The
    response is defined except for the record numbers that [fetch] cannot
    handle. *)
Theorem session_table (next : string → Package R → M W (Package R)) (p : Package R)
    (a : APDU) (rep : Rep) (w : W) (p' : Package R) (rep' : Rep) (w' : W)
    (Hreq : z3950 (p_request p) = Some a) (Hopen : is_closed p = false)
    (Hrun : process next p (rep, w) = Ok (p', (rep', w'))) :
  is_Some (p_response p') ∧ w' = w ∧
  Session.id (p_session p') = Session.id (p_session p) ∧
  (SessionMap.exist (p_session p) (m_sessions rep') = true ↔
     ((∃ req, a = initRequest req) ∨
      SessionMap.exist (p_session p) (m_sessions rep) = true) ∧ is_closed p' = false) ∧
  (∀ id, id ≠ Session.id (p_session p) → m_sessions rep' !! id = m_sessions rep !! id).
Proof.
  unfold process, mbind, M_bind in Hrun.
  destruct (respond next p (rep, w)) as [[[p1 b] [rep1 w1]]|?|?|] eqn:Hresp; try done.
  destruct (respond_cases next p a rep w p1 b rep1 w1 Hreq Hopen Hresp)
    as (-> & Hsome & Hid & Hcases).
  assert (Hrel : (p', (rep', w')) = (p1, (if b && is_closed p1 then
    set_sessions (SessionMap.release (p_session p1) (m_sessions rep1)) rep1 else rep1, w))).
  { destruct (b && is_closed p1); by injection Hrun as -> -> ->. }
  clear Hrun Hresp. simplify_eq.
  unfold SessionMap.exist, SessionMap.release, SessionMap.create in *. rewrite Hid.
  destruct Hcases as [(Hinit & Hc & Hm)|(Hinit & -> & Hc)].
  - rewrite Hc, andb_false_r, Hm. split_and!; [done..| |].
    + rewrite lookup_insert_eq. naive_solver.
    + intros id Hne. by rewrite lookup_insert_ne.
  - destruct Hc as [[Hc Hex]|[Hc ->]]; rewrite Hc; [rewrite andb_false_r|]; cbn.
    + split_and!; [done..|naive_solver|done].
    + split_and!; [done..| |].
      * rewrite lookup_delete_eq. naive_solver.
      * intros id Hne. by rewrite lookup_delete_ne.
Qed.
End filter.

(** ** Examples *)
Definition example_init : Package unit :=
  mk_Package (Session.mk 7 false) Origin.create (Some tt)
    (Some (GDU_Z3950 (initRequest (zget_initRequest (Yaz := ref_yaz))))) None.
Definition example_next (_ : string) (p : Package unit) : M unit (Package unit) := mret p.

(** A medium set that is not larger than [smallSetUpperBound] gets the element
    set of small sets. *)
Example example_medium_set :
  search_esn {| sq_referenceId := None; sq_smallSetUpperBound := 10;
    sq_largeSetLowerBound := 100; sq_mediumSetPresentNumber := 5;
    sq_replaceIndicator := true; sq_resultSetName := "default"; sq_databaseNames := [];
    sq_smallSetElementSetNames := Some (ESN_generic "F");
    sq_mediumSetElementSetNames := Some (ESN_generic "B");
    sq_preferredRecordSyntax := None; sq_query := Query_other "";
    sq_additionalSearchInfo := []; sq_otherInfo := [] |} = Some (ESN_generic "F").
Proof. reflexivity. Qed.
Example example_out_of_range :
  fetch (Y := ref_yaz) None None 42 2 = Ok (Fetch_error 13 "").
Proof. reflexivity. Qed.
(** Start positions near the largest [int], and negative numbers, are not
    caught by the range check. *)
Example example_overflow :
  fetch (Y := ref_yaz) None None INT_MAX 1 = Undef IntOverflow ∧
  fetch (Y := ref_yaz) None None 1 (-1) = Undef BadSize.
Proof. split; reflexivity. Qed.

Lemma session_table_witness :
  ∃ p' rep' w', process (Y := ref_yaz) example_next example_init (BackendTest_, tt) =
    Ok (p', (rep', w')) ∧ is_Some (p_response p') ∧
    SessionMap.exist (Session.mk 7 false) (m_sessions rep') = true.
Proof.
  eexists _, _, _. split; [reflexivity|].
  match goal with |- is_Some (p_response ?p) ∧ SessionMap.exist _ (m_sessions ?r) = true =>
    destruct (session_table (Y := ref_yaz) example_next example_init
      (initRequest (zget_initRequest (Yaz := ref_yaz))) BackendTest_ tt p r tt)
      as (Hr & _ & _ & Hex & _) end; [reflexivity|reflexivity|reflexivity|].
  split; [exact Hr|]. apply Hex. split; [|reflexivity]. left. eexists. reflexivity.
Defined.
End BackendTest.
