(* ===== verification/Chains.v ===== *)
(** * Filters together

    Routes of several filters: theorems about a client filter, proved against
    the interface [Serves], meet the theorems of the target behind it. *)
From S2P Require Import Prelude Zgdu Yaz Core Util Target PresentChunk BackendTest.

Section chunked.
Context `{Y : Yaz} {R W : Type}.
Context (next : string → Package R → M W (Package R)).

(** The route present_chunk, backend_test. *)
Definition chunked_backend (chunk_number : Z) (fuel : nat) :
    Package R → M (BackendTest.Rep * W) (Package R) :=
  PresentChunk.process (λ _, BackendTest.process next) chunk_number fuel.

(** C35. The route present_chunk, backend_test: on a session that has sent
    Init, a Present inside the result set, for records the target can make,
    gets the same records with present_chunk in front as without it, for
    every chunk size; one turn more than the number of records suffices. *)
Theorem chunked_backend_test (chunk_number : Z) (fuel : nat) (p : Package R)
    (pr : PresentRequest) (esn : option ElementSetNames) (syntax e : string)
    (records : list NamePlusRecord) (rep : BackendTest.Rep) (w : W)
    (Hreq : z3950 (p_request p) = Some (presentRequest pr)) (Hroute : is_Some (p_route_pos p))
    (Hopen : is_closed p = false)
    (Hsession : SessionMap.exist (p_session p) (BackendTest.m_sessions rep) = true)
    (Hesn : BackendTest.present_esn (pq_recordComposition pr) = Some esn)
    (Hcheck : BackendTest.check_syntax (pq_preferredRecordSyntax pr) esn = inl (syntax, e))
    (Hrecords : BackendTest.result_set syntax e = Ok records)
    (Hstart : 1 ≤ pq_resultSetStartPoint pr) (Hnumber : 0 ≤ pq_numberOfRecordsRequested pr)
    (Hin : pq_resultSetStartPoint pr + pq_numberOfRecordsRequested pr - 1 ≤ 42)
    (Hchunk : 0 < chunk_number) (Hfuel : pq_numberOfRecordsRequested pr < Z.of_nat fuel) :
  ∃ p1 p2 pres1 pres2 l w1,
    chunked_backend chunk_number fuel p (rep, w) = Ok (p1, w1) ∧
    BackendTest.process next p (rep, w) = Ok (p2, (rep, w)) ∧
    z3950 (p_response p1) = Some (presentResponse pres1) ∧
    z3950 (p_response p2) = Some (presentResponse pres2) ∧
    pr_records pres1 = Some (Records_DBOSD l) ∧ pr_records pres2 = Some (Records_DBOSD l) ∧
    pr_numberOfRecordsReturned pres1 = pr_numberOfRecordsReturned pres2 ∧
    Z.of_nat (length l) = pq_numberOfRecordsRequested pr.
Proof.
  set (ok := BackendTest.initialised (W := W) (pq_preferredRecordSyntax pr)
    (pq_recordComposition pr)).
  pose proof (BackendTest.result_set_length _ _ _ Hrecords) as Hlen.
  assert (Hok : PresentChunk.servable ok p pr (rep, w)) by (split_and!; done).
  pose proof (BackendTest.backend_test_serves next (pq_preferredRecordSyntax pr)
    (pq_recordComposition pr) esn Hesn syntax e Hcheck records Hrecords) as Hserves.
  destruct (PresentChunk.chunk_served (λ _, BackendTest.process next) chunk_number ok
    records fuel p pr (rep, w)) as (p1 & w1 & Hp1 & Hr1 & _); try done; [lia|].
  destruct (BackendTest.present_served next (pq_preferredRecordSyntax pr)
    (pq_recordComposition pr) esn Hesn syntax e Hcheck records Hrecords p pr (rep, w))
    as (pres2 & Hp2 & Hr2 & Hn2); try done.
  pose proof (PresentChunk.window_length records (pq_resultSetStartPoint pr)
    (pq_numberOfRecordsRequested pr)) as Hw.
  set (l := PresentChunk.window records _ _) in *.
  exists p1, (BackendTest.answer (presentResponse pres2) p),
    (set_pr_numberOfRecordsReturned (Z.of_nat (length l))
      (set_pr_records (Some (Records_DBOSD l)) zget_presentResponse)), pres2, l, w1.
  rewrite Hr1, Hn2. split_and!; try done; apply Hw; lia.
Qed.
End chunked.

Definition example_rep : BackendTest.Rep := BackendTest.mk_Rep false {[7 := tt]}.
Definition example_present : PresentRequest :=
  {| pq_referenceId := None; pq_resultSetId := "default"; pq_resultSetStartPoint := 40;
     pq_numberOfRecordsRequested := 3; pq_preferredRecordSyntax := None;
     pq_recordComposition := None |}.
Definition example_package : Package unit :=
  mk_Package (Session.mk 7 false) Origin.create (Some tt)
    (Some (GDU_Z3950 (presentRequest example_present))) None.
Lemma chunked_backend_test_witness :
  ∃ p1 w1 pres1 l,
    chunked_backend (Y := ref_yaz) BackendTest.example_next 2 4 example_package
      (example_rep, tt) = Ok (p1, w1) ∧
    z3950 (p_response p1) = Some (presentResponse pres1) ∧
    pr_records pres1 = Some (Records_DBOSD l) ∧ length l = 3%nat.
Proof.
  destruct (BackendTest.result_set (Y := ref_yaz) recsyn_usmarc "F") as [records|?|?|]
    eqn:Hrecords; [|vm_compute in Hrecords; discriminate..].
  destruct (chunked_backend_test (Y := ref_yaz) BackendTest.example_next 2 4 example_package
    example_present None recsyn_usmarc "F" records example_rep tt)
    as (p1 & p2 & pres1 & pres2 & l & w1 & H1 & _ & Hr1 & _ & Hl1 & _ & _ & Hlen);
    try reflexivity; try (simpl; lia); try (eexists; reflexivity); try exact Hrecords.
  exists p1, w1, pres1, l. split; [exact H1|]. split; [exact Hr1|]. split; [exact Hl1|].
  apply Nat2Z.inj. exact Hlen.
Defined.
