(* ===== verification/Sru.v ===== *)
(** * SRU: protocol data units and utilities

    The SRU PDUs that the code reads and builds, YAZ's functions for them as
    an interface, and [src/sru_util.cpp]: decoding an HTTP request, Explain
    records, the HTTP response around an SRU response, the text of a PDU. *)
From S2P Require Import Prelude Zgdu Yaz Core Xml Util.

(** ** PDUs *)

(** [Z_SRW_diagnostic] and [Z_SRW_record]. *)
Record Z_SRW_diagnostic : Type := mk_diagnostic {
  d_uri : option string;
  d_details : option string;
  d_message : option string
}.
Definition recordPacking_string : Z := 0.
Definition recordPacking_XML : Z := 1.
Record Z_SRW_record : Type := mk_record {
  recordSchema : option string;
  recordPacking : Z;
  recordData_buf : string;
  recordPosition : option Z
}.
(** Requests; a facet list is kept in its encoded form. *)
Record Z_SRW_searchRetrieveRequest : Type := mk_searchRetrieveRequest {
  rq_queryType : string;
  rq_query : option string;
  rq_sort : bool;                    (* [sort_type != Z_SRW_sort_type_none] *)
  rq_startRecord : option Z;
  rq_maximumRecords : option Z;
  rq_recordSchema : option string;
  rq_recordPacking : option string;
  rq_recordXPath : option string;
  rq_database : option string;
  rq_stylesheet : option string;
  rq_resultSetTTL : option Z;
  rq_facetList : option string
}.
Record Z_SRW_explainRequest : Type := mk_explainRequest {
  eq_recordPacking : option string;
  eq_stylesheet : option string
}.
Inductive SRW_request : Type :=
  | SRW_explain_request (r : Z_SRW_explainRequest)
  | SRW_searchRetrieve_request (r : Z_SRW_searchRetrieveRequest)
  | SRW_scan_request (stylesheet : option string)
  | SRW_update_request.
(** A request PDU; [extra_args] are the parameters that SRU does not define. *)
Record Z_SRW_PDU : Type := mk_SRW_PDU {
  username : option string;
  password : option string;
  extra_args : list (string * option string);
  srw_request : SRW_request
}.
(** Responses. *)
Record Z_SRW_searchRetrieveResponse : Type := mk_searchRetrieveResponse {
  rs_numberOfRecords : option Z;
  rs_records : list Z_SRW_record;
  rs_nextRecordPosition : option Z;
  rs_diagnostics : list Z_SRW_diagnostic;
  rs_facetList : option string
}.
Record Z_SRW_explainResponse : Type := mk_explainResponse {
  es_record : option Z_SRW_record;
  es_diagnostics : list Z_SRW_diagnostic
}.
Inductive SRW_response : Type :=
  | SRW_explain_response (r : Z_SRW_explainResponse)
  | SRW_searchRetrieve_response (r : Z_SRW_searchRetrieveResponse)
  | SRW_scan_response (diagnostics : list Z_SRW_diagnostic).
Record Z_SRW_PDU_response : Type := mk_SRW_response {
  extraResponseData : option string;
  srw_response : SRW_response
}.
Definition set_rs_numberOfRecords (n : option Z) (r : Z_SRW_searchRetrieveResponse) :=
  mk_searchRetrieveResponse n (rs_records r) (rs_nextRecordPosition r) (rs_diagnostics r)
    (rs_facetList r).
Definition set_rs_records (l : list Z_SRW_record) (r : Z_SRW_searchRetrieveResponse) :=
  mk_searchRetrieveResponse (rs_numberOfRecords r) l (rs_nextRecordPosition r)
    (rs_diagnostics r) (rs_facetList r).
Definition set_rs_nextRecordPosition (n : option Z) (r : Z_SRW_searchRetrieveResponse) :=
  mk_searchRetrieveResponse (rs_numberOfRecords r) (rs_records r) n (rs_diagnostics r)
    (rs_facetList r).
Definition set_rs_diagnostics (l : list Z_SRW_diagnostic) (r : Z_SRW_searchRetrieveResponse) :=
  mk_searchRetrieveResponse (rs_numberOfRecords r) (rs_records r) (rs_nextRecordPosition r) l
    (rs_facetList r).
Definition set_rs_facetList (f : option string) (r : Z_SRW_searchRetrieveResponse) :=
  mk_searchRetrieveResponse (rs_numberOfRecords r) (rs_records r) (rs_nextRecordPosition r)
    (rs_diagnostics r) f.
Definition set_es_diagnostics (l : list Z_SRW_diagnostic) (r : Z_SRW_explainResponse) :=
  mk_explainResponse (es_record r) l.

(** Diagnostics of SRU. *)
Definition SRW_SYSTEM_TEMPORARILY_UNAVAILABLE : Z := 2.
Definition SRW_AUTHENTICATION_ERROR : Z := 3.
Definition SRW_UNSUPP_OPERATION : Z := 4.
Definition SRW_UNSUPP_PARAMETER_VALUE : Z := 6.
Definition SRW_MANDATORY_PARAMETER_NOT_SUPPLIED : Z := 7.
Definition SRW_QUERY_SYNTAX_ERROR : Z := 10.
Definition SRW_RESULT_SETS_UNSUPP : Z := 50.
Definition SRW_FIRST_RECORD_POSITION_OUT_OF_RANGE : Z := 61.
Definition SRW_RECORD_TEMPORARILY_UNAVAILABLE : Z := 64.
Definition SRW_RECORD_NOT_AVAILABLE_IN_THIS_SCHEMA : Z := 67.
Definition SRW_XPATH_RETRIEVAL_UNSUPP : Z := 72.
Definition SRW_SORT_UNSUPP : Z := 80.

(** ** YAZ's SRU functions *)

(** What [yaz_sru_decode] writes through its pointers. *)
Record sru_decoded (SOAP : Type) : Type := mk_decoded {
  dec_pdu : option Z_SRW_PDU;
  dec_soap : option SOAP;
  dec_charset : option string;
  dec_diagnostics : list Z_SRW_diagnostic
}.
Arguments mk_decoded {SOAP}. Arguments dec_pdu {SOAP}. Arguments dec_soap {SOAP}.
Arguments dec_charset {SOAP}. Arguments dec_diagnostics {SOAP}.

(** [SOAP] is [Z_SOAP], the envelope that a response is put in. *)
Class Srw (SOAP : Type) : Type := {
  yaz_sru_decode : HTTP_Request → Z * sru_decoded SOAP;
  (** The second and third arguments are updated. *)
  yaz_srw_decode : HTTP_Request → option Z_SRW_PDU → option SOAP →
    Z * option Z_SRW_PDU * option SOAP;
  (** [yaz_srw_get] and [yaz_srw_get_pdu_e], by kind of response. *)
  srw_get_explain : option Z_SRW_PDU → Z_SRW_explainResponse;
  srw_get_searchRetrieve : Z_SRW_PDU → Z_SRW_searchRetrieveResponse;
  srw_get_scan : Z_SRW_PDU → list Z_SRW_diagnostic;
  yaz_mk_std_diagnostic : Z → option string → Z_SRW_diagnostic;
  yaz_add_srw_diagnostic :
    list Z_SRW_diagnostic → Z → option string → list Z_SRW_diagnostic;
  yaz_diag_bib1_to_srw : Z → Z;
  (** [yaz_mk_sru_surrogate(odr, record, pos, code, details)], where the
      packing of the record, the first argument, is set before. *)
  yaz_mk_sru_surrogate : Z → Z → Z → option string → Z_SRW_record;
  yaz_pqf_parse : string → option (string * RPNStructure);
  yaz_oi_set_facetlist : OtherInformation → string → OtherInformation;
  yaz_oi_get_facetlist : OtherInformation → option string;
  (** [z_soap_codec_enc_xsl]: envelope, PDU, charset and stylesheet. *)
  z_soap_codec_enc_xsl :
    SOAP → Z_SRW_PDU_response → option string → option string → string;
  (** [xmlNodeDump] of a copy of the node. *)
  xmlNodeDump : xmlNode → string;
  wrbuf_xmlputs : string → string;
  yaz_encode_uri_component : string → string
}.
(** Documented behaviour: fresh responses are empty, diagnostics are added at
    the end, a surrogate diagnostic is at its position, default Search and
    Present requests name the same result set, and a default Search asks for
    no records. *)
Class SrwLaws {SOAP} (S : Srw SOAP) (Y : Yaz) : Prop := {
  srw_get_fresh : ∀ req, ∃ diags, srw_get_searchRetrieve req =
    mk_searchRetrieveResponse None [] None diags None;
  add_srw_diagnostic : ∀ l code details,
    yaz_add_srw_diagnostic l code details = l ++ [yaz_mk_std_diagnostic code details];
  surrogate_position : ∀ packing pos code details,
    recordPosition (yaz_mk_sru_surrogate packing pos code details) = Some pos;
  default_set : sq_resultSetName zget_searchRequest = pq_resultSetId zget_presentRequest;
  default_piggyback : sq_smallSetUpperBound zget_searchRequest = 0 ∧
    sq_largeSetLowerBound zget_searchRequest = 1 ∧
    sq_mediumSetPresentNumber zget_searchRequest = 0
}.

(** A small instance: every GET is a search, for the query behind the question
    mark, of three records from the second on. *)
#[export] Instance ref_srw : Srw string := {|
  yaz_sru_decode := λ hreq,
    if decide (hq_method hreq = "GET") then
      (0, mk_decoded (Some (mk_SRW_PDU None None [] (SRW_searchRetrieve_request
             (mk_searchRetrieveRequest "cql"
                ((λ i, str_drop (i + 1) (hq_path hreq)) <$> str_rfind "?" (hq_path hreq))
                false (Some 2) (Some 3) (Some "FF0") None None None None None None))))
            (Some "soap:") None [])
    else (1, mk_decoded None None None []);
  yaz_srw_decode := λ _ pdu soap, (1, pdu, soap);
  srw_get_explain := λ _, mk_explainResponse None [];
  srw_get_searchRetrieve := λ _, mk_searchRetrieveResponse None [] None [] None;
  srw_get_scan := λ _, [];
  yaz_mk_std_diagnostic := λ code details,
    mk_diagnostic (Some ("info:srw/diagnostic/1/" +:+ print_nat code)) details None;
  yaz_add_srw_diagnostic := λ l code details,
    l ++ [mk_diagnostic (Some ("info:srw/diagnostic/1/" +:+ print_nat code)) details None];
  yaz_diag_bib1_to_srw := λ code, if code =? 236 then 68 else 1;
  yaz_mk_sru_surrogate := λ packing pos code details,
    mk_record (Some "info:srw/schema/1/diagnostics-v1.1") packing
      (print_nat code +:+ default "" details) (Some pos);
  yaz_pqf_parse := λ s, Some ("bib-1", RPNStructure_simple (Operand_APT s));
  yaz_oi_set_facetlist := λ oi _, oi;
  yaz_oi_get_facetlist := λ _, None;
  z_soap_codec_enc_xsl := λ soap pdu _ _, soap +:+
    match srw_response pdu with
    | SRW_searchRetrieve_response r => print_nat (default 0 (rs_numberOfRecords r))
    | _ => ""
    end;
  xmlNodeDump := n_name;
  wrbuf_xmlputs := id;
  yaz_encode_uri_component := id
|}.
#[export] Instance ref_srw_laws : SrwLaws ref_srw ref_yaz.
Proof. split; try done. intros req. by exists []. Qed.

(** ** [sru_util.cpp] *)
Module SruUtil.
Section sru_util.
Context {SOAP : Type} `{S : Srw SOAP} `{Y : Yaz} {R : Type}.

Definition xmlns_explain : string := "http://explain.z3950.org/dtd/2.0/".

(** A page about the request, as an error; other requests end the session. *)
Definition build_sru_debug_package (package : Package R) : outcome (bool * Package R) :=
  match p_request package with
  | Some (GDU_HTTP_Request http_req) =>
      content ← http_headers_debug http_req;
      package ← http_response package content 400;
      Ok (true, package)
  | _ => Ok (false, close_session package)
  end.

Record SRUServerInfo : Type := mk_info {
  host : string;
  port : string;
  database : string
}.
Definition get_sru_server_info (package : Package R) : SRUServerInfo :=
  match p_request package with
  | Some (GDU_HTTP_Request http_req) =>
      let http_path := hq_path http_req in
      let http_path := match str_rfind "?" http_path with
                       | Some ipath => str_take ipath http_path
                       | None => http_path
                       end in
      let db := if (1 <? String.length http_path)%nat then str_drop 1 http_path else "" in
      let address := http_header_value (hq_headers http_req) "Host" in
      match str_rfind ":" address with
      | Some i => mk_info (str_take i address) (str_drop (i + 1) address) db
      | None => mk_info "localhost" "80" db
      end
  | _ => mk_info "localhost" "80" ""
  end.

(** The default Explain record, for a database that has none configured. *)
Definition nl : string := String "010" "".
Definition explain_xml (sruinfo : SRUServerInfo) : string :=
  "<explain  xmlns=" +:+ dquote +:+ xmlns_explain +:+ dquote +:+ ">" +:+ nl +:+
  "  <serverInfo protocol='SRU'>" +:+ nl +:+
  "    <host>" +:+ host sruinfo +:+ "</host>" +:+ nl +:+
  "    <port>" +:+ port sruinfo +:+ "</port>" +:+ nl +:+
  "    <database>" +:+ database sruinfo +:+ "</database>" +:+ nl +:+
  "  </serverInfo>" +:+ nl +:+ "</explain>" +:+ nl.
(** ['s' == *p] for a pointer that may be null. *)
Definition record_packing (p : option string) : Z :=
  match p with
  | Some (String c _) =>
      if decide (c = "s"%char) then recordPacking_string else recordPacking_XML
  | _ => recordPacking_XML
  end.
(** Configured nodes always belong to a document. *)
Definition build_sru_explain (r : Z_SRW_explainResponse) (sruinfo : SRUServerInfo)
    (explain : option xmlNode) (er_req : option Z_SRW_explainRequest) :
    Z_SRW_explainResponse :=
  mk_explainResponse
    (Some (mk_record (Some xmlns_explain)
      (record_packing (er_req ≫= eq_recordPacking))
      (match explain with None => explain_xml sruinfo | Some n => xmlNodeDump n end)
      (Some 1)))
    (es_diagnostics r).

(** The response goes into the envelope and that into an HTTP response. *)
Definition build_sru_response (package : Package R) (soap : option SOAP)
    (sru_pdu_res : Z_SRW_PDU_response) (charset stylesheet : option string) :
    outcome (bool * Package R) :=
  match p_request package with
  | None => Undef NullDeref
  | Some (GDU_HTTP_Request hreq) =>
      let '(http_res, session) := create_HTTP_Response (p_session package) hreq 200 in
      let package := set_session session package in
      let ctype := "text/xml" +:+
        match charset with Some c => "; charset=" +:+ c | None => "" end in
      let http_res := set_hr_headers
        (z_HTTP_header_add (hr_headers http_res) "Content-Type" ctype) http_res in
      let stylesheet := if decide (stylesheet = Some "") then None else stylesheet in
      match soap with
      | None => Undef NullDeref
      | Some soap =>
          let http_res := set_hr_content
            (z_soap_codec_enc_xsl soap sru_pdu_res charset stylesheet) http_res in
          Ok (true, set_response (Some (GDU_HTTP_Response http_res)) package)
      end
  | Some _ => Ok (false, close_session package)
  end.

(** The character set is written to a copy of the caller's pointer. *)
Definition decode_sru_request (package : Package R) :
    Package R * option Z_SRW_PDU * list Z_SRW_diagnostic * option SOAP :=
  match p_request package with
  | Some (GDU_HTTP_Request http_req) =>
      let '(rc, d) := yaz_sru_decode http_req in
      if rc =? 0 then (package, dec_pdu d, dec_diagnostics d, dec_soap d)
      else
        let '(rc, pdu, soap) := yaz_srw_decode http_req (dec_pdu d) (dec_soap d) in
        if rc =? 0 then (package, pdu, dec_diagnostics d, soap)
        else (close_session package, None, dec_diagnostics d, soap)
  | _ => (package, None, [], None)
  end.

Definition check_sru_query_exists (res : Z_SRW_searchRetrieveResponse)
    (sr_req : Z_SRW_searchRetrieveRequest) : bool * Z_SRW_searchRetrieveResponse :=
  match rq_query sr_req with
  | Some _ => (true, res)
  | None =>
      (false, set_rs_diagnostics
        (yaz_add_srw_diagnostic
          (yaz_add_srw_diagnostic (rs_diagnostics res)
             SRW_MANDATORY_PARAMETER_NOT_SUPPLIED (Some "query"))
          SRW_QUERY_SYNTAX_ERROR (Some "CQL query is empty")) res)
  end.

Definition build_esn_from_schema (schema : option string) : option ElementSetNames :=
  ESN_generic <$> schema.
(** [mp_util::uri_encode], of util.cpp. *)
Definition uri_encode (s : string) : string := yaz_encode_uri_component (c_str s).
End sru_util.

(** ** Printing

    The operator that prints a PDU: the requests and responses above, and the
    response to an update and any other PDU, of which only the kind is read. *)
Inductive SRW_printed : Type :=
  | SRW_a_request (r : SRW_request)
  | SRW_a_response (r : SRW_response)
  | SRW_update_response
  | SRW_unknown.
Definition print_opt (s : option string) : string := " " +:+ default "-" s.
Definition print_opt_int (i : option Z) : string := print_opt (print_int <$> i).
(** The query goes to the stream without a test for null. *)
Definition print_searchRetrieve_request (sr : Z_SRW_searchRetrieveRequest) : outcome string :=
  query ← deref_o (rq_query sr);
  Ok (print_opt (rq_database sr) +:+ print_opt_int (rq_startRecord sr) +:+
    print_opt_int (rq_maximumRecords sr) +:+ print_opt (rq_recordPacking sr) +:+
    print_opt (rq_recordSchema sr) +:+ " " +:+ rq_queryType sr +:+ " " +:+ query).
Definition print_searchRetrieve_response (sr : Z_SRW_searchRetrieveResponse) : string :=
  match rs_diagnostics sr with
  | [] => " OK" +:+ print_opt_int (rs_numberOfRecords sr) +:+ " " +:+
      print_int (Z.of_nat (length (rs_records sr))) +:+
      print_opt_int (rs_nextRecordPosition sr)
  | d :: _ => " DIAG" +:+ print_opt (d_uri d) +:+ print_opt (d_message d) +:+
      print_opt (d_details d)
  end.
Definition print_SRW_PDU (srw_pdu : SRW_printed) : outcome string :=
  text ← match srw_pdu with
  | SRW_a_request (SRW_searchRetrieve_request sr) =>
      body ← print_searchRetrieve_request sr; Ok ("searchRetrieveRequest" +:+ body)
  | SRW_a_response (SRW_searchRetrieve_response sr) =>
      Ok ("searchRetrieveResponse" +:+ print_searchRetrieve_response sr)
  | SRW_a_request (SRW_explain_request _) => Ok "explainRequest"
  | SRW_a_response (SRW_explain_response _) => Ok "explainResponse"
  | SRW_a_request (SRW_scan_request _) => Ok "scanRequest"
  | SRW_a_response (SRW_scan_response _) => Ok "scanResponse"
  | SRW_a_request SRW_update_request => Ok "updateRequest"
  | SRW_update_response => Ok "updateResponse"
  | SRW_unknown => Ok "UNKNOWN"
  end;
  Ok ("SRU " +:+ text).
(** Every PDU has a text, but for a search without a query. *)
Theorem print_SRW_PDU_total pdu :
  match print_SRW_PDU pdu with
  | Ok text => String.prefix "SRU " text = true
  | Undef NullDeref => ∃ sr, pdu = SRW_a_request (SRW_searchRetrieve_request sr) ∧ rq_query sr = None
  | _ => False
  end.
Proof.
  destruct pdu as [[?|sr|?|]|[]| |]; try done. unfold print_SRW_PDU, print_searchRetrieve_request.
  destruct (rq_query sr) eqn:Hq; cbn; [done|by eexists].
Qed.
End SruUtil.
