(* ===== verification/SruZ3950.v ===== *)
(** * The sru_z3950 filter

    [src/filter_sru_to_z3950.cpp]: an SRU request, which comes in one HTTP
    request, becomes a whole Z39.50 session: Init, Search, as many Presents as
    are needed, and the end of the session. The packages that carry these
    are built for it and go down the rest of the route. *)
From S2P Require Import Prelude Zgdu Yaz Core Xml Util Frontends Target BackendTest Sru.

Module SRUtoZ3950.

(** ** Configuration *)
Record Conf : Type := mk_Conf {
  m_database_explain : gmap string xmlNode;
  default_stylesheet : string;
  conf_max_recs : Z
}.
Definition Conf_init : Conf := mk_Conf ∅ "" 0.

Fixpoint configure_database (attrs : list xmlAttr) (children : list xmlNode)
    (m : gmap string xmlNode) : outcome (gmap string xmlNode) :=
  match attrs with
  | [] => Ok m
  | a :: attrs' =>
      mp_xml.check_attribute (Some a) "" "name" ;;
      configure_database attrs' children
        match mp_xml.first_element children with
        | Some n => map_insert_new (mp_xml.get_text_attr a) n m
        | None => m
        end
  end.
Fixpoint configure_limit (attrs : list xmlAttr) (max : Z) : outcome Z :=
  match attrs with
  | [] => Ok max
  | a :: attrs' =>
      if decide (a_name a = "retrieve") then
        configure_limit attrs' (mp_xml.get_int (a_children a) 0)
      else Throw ("Bad attribute " +:+ a_name a)
  end.
Fixpoint configure_loop (l : list xmlNode) (c : Conf) : outcome Conf :=
  match l with
  | [] => Ok c
  | n :: l' =>
      if decide (n_type n ≠ XML_ELEMENT_NODE) then configure_loop l' c
      else if decide (n_name n = "database") then
        m ← configure_database (n_properties n) (n_children n) (m_database_explain c);
        configure_loop l' (mk_Conf m (default_stylesheet c) (conf_max_recs c))
      else if decide (n_name n = "stylesheet") then
        configure_loop l' (mk_Conf (m_database_explain c) (mp_xml.get_text [n])
          (conf_max_recs c))
      else if decide (n_name n = "limit") then
        max ← configure_limit (n_properties n) (conf_max_recs c);
        configure_loop l' (mk_Conf (m_database_explain c) (default_stylesheet c) max)
      else Throw ("Bad element " +:+ n_name n +:+ " in sru_z3950")
  end.
Definition configure (confignode : xmlNode) : outcome Conf :=
  configure_loop (n_children confignode) Conf_init.

Section filter.
Context {SOAP : Type} `{S : Srw SOAP} `{Y : Yaz} {R W : Type} `{L : PackageLog W}.
Context (next : string → Package R → M W (Package R)).
Notation Response := Z_SRW_searchRetrieveResponse.
Notation Request := Z_SRW_searchRetrieveRequest.
Implicit Types (package : Package R) (res : Response) (sr_req : Request).

(** [Package z3950_package(package.session(), package.origin())] and
    [copy_filter]. *)
Definition z3950_package package : M W (Package R) :=
  copy_filter package (new_Package (p_session package) (p_origin package)).
Definition add_diagnostic (code : Z) (details : option string) res : Response :=
  set_rs_diagnostics (yaz_add_srw_diagnostic (rs_diagnostics res) code details) res.
(** [u.v2Addinfo] is the string of either version. *)
Definition addinfo_str (d : DefaultDiagFormat) : string := (get_default_diag d).2.

(** ** Init *)
Definition authentication (req : Z_SRW_PDU) : option IdAuthentication :=
  match username req, password req with
  | Some u, None => Some (IdAuthentication_open u)
  | Some u, Some p => Some (IdAuthentication_idPass None (Some u) (Some p))
  | None, _ => None
  end.
Definition init_request package (zurl : string) (req : Z_SRW_PDU) : outcome InitRequest :=
  let init_req := set_iq_idAuthentication (authentication req) zget_initRequest in
  let init_req := set_iq_maximumRecordSize (10 * 1024 * 1024)
    (set_iq_preferredMessageSize (10 * 1024 * 1024) init_req) in
  let init_req := set_iq_options (foldl MASK_SET (iq_options init_req)
    [Options_search; Options_present; Options_namedResultSets; Options_scan]) init_req in
  let init_req := set_iq_protocolVersion (foldl MASK_SET (iq_protocolVersion init_req)
    [ProtocolVersion_1; ProtocolVersion_2; ProtocolVersion_3]) init_req in
  oi ← (if decide (zurl = "") then Ok (iq_otherInfo init_req)
        else '(host, _) ← split_zurl zurl;
             Ok (set_vhost_otherinfo_cat (iq_otherInfo init_req) host 1));
  let oi := match p_request package with
            | Some (GDU_HTTP_Request hreq) =>
                match z_HTTP_header_lookup (hq_headers hreq) "X-Forwarded-For" with
                | Some peer_name => yaz_oi_set_string oi oid_userinfo_client_ip 1 peer_name
                | None => oi
                end
            | _ => oi
            end in
  Ok (set_iq_otherInfo oi init_req).

(** The diagnostics of a refused Init: how many, and the response with them. *)
Fixpoint init_diagnostics (fuel : nat) (initrs : InitResponse) (no : Z) res :
    outcome (Z * Response) :=
  match fuel with
  | O => OutOfFuel
  | Datatypes.S fuel' =>
      match yaz_decode_init_diag no initrs with
      | None => Ok (no, res)
      | Some df =>
          init_diagnostics fuel' initrs (no + 1)
            (add_diagnostic (yaz_diag_bib1_to_srw (condition df)) (Some (addinfo_str df)) res)
      end
  end.
Definition z3950_init_request (fuel : nat) package (zurl : string) res (req : Z_SRW_PDU) :
    M W (bool * Response) :=
  p ← z3950_package package;
  init_req ← lift_outcome (init_request package zurl req);
  p ← next "" (set_request (Some (GDU_Z3950 (initRequest init_req))) p);
  match z3950 (p_response p) with
  | Some (initResponse initrs) =>
      if ir_result initrs then mret (true, res)
      else
        '(no, res) ← lift_outcome (init_diagnostics fuel initrs 0 res);
        mret (false, if no =? 0 then add_diagnostic SRW_AUTHENTICATION_ERROR None res else res)
  | _ =>
      mret (false, add_diagnostic SRW_SYSTEM_TEMPORARILY_UNAVAILABLE
        (Some "sru_z3950: expected initResponse") res)
  end.

(** The end of the session: a package without a request, its session closed. *)
Definition z3950_close_request package : M W bool :=
  p ← z3950_package package;
  p ← next "" (close_session p);
  mret (is_closed p).

(** ** Search *)
Definition z3950_build_query sr_req : Query + Z :=
  let query := default "" (rq_query sr_req) in
  if decide (rq_queryType sr_req = "cql") then inl (Query_type_104 (Some query))
  else if decide (rq_queryType sr_req = "pqf") then
    match yaz_pqf_parse query with
    | Some (attributeSetId, rpn) => inl (Query_type_1 attributeSetId rpn)
    | None => inr SRW_QUERY_SYNTAX_ERROR
    end
  else if decide (rq_queryType sr_req = "ccl") then inl (Query_type_2 query)
  else inr SRW_MANDATORY_PARAMETER_NOT_SUPPLIED.

(** A diagnostic of the target takes the place of all others. *)
Definition z3950_to_srw_diag res (ddf : DefaultDiagFormat) : Response :=
  set_rs_diagnostics [yaz_mk_std_diagnostic (yaz_diag_bib1_to_srw (condition ddf))
    (Some (addinfo_str ddf))] res.
Definition z3950_to_srw_diagnostics_ok res (records : option Records) : bool * Response :=
  match records with
  | Some (Records_NSD ddf) => (false, z3950_to_srw_diag res ddf)
  | _ => (true, res)
  end.

Definition search_databases sr_req (zurl dbappend : string) : outcome (list string) :=
  dbs ← set_databases_from_zurl zurl;
  Ok (match dbs with
      | Some l => l
      | None => [default "Default" (rq_database sr_req) +:+
                 (if decide (dbappend = "") then "" else "," +:+ dbappend)]
      end).
Definition search_request (dbs : list string) (q : Query) sr_req : SearchRequest :=
  let r := set_sq_databaseNames dbs zget_searchRequest in
  let r := match rq_facetList sr_req with
           | Some fl => set_sq_additionalSearchInfo
               (yaz_oi_set_facetlist (sq_additionalSearchInfo r) fl) r
           | None => r
           end in
  set_sq_query q r.
Definition z3950_search_request (p : Package R) res sr_req (zurl dbappend : string) :
    M W (bool * Response) :=
  dbs ← lift_outcome (search_databases sr_req zurl dbappend);
  match z3950_build_query sr_req with
  | inr sru_diagnostic => mret (false, add_diagnostic sru_diagnostic (Some "query") res)
  | inl q =>
      p ← next "" (set_request (Some (GDU_Z3950 (searchRequest
                     (search_request dbs q sr_req)))) p);
      match z3950 (p_response p) with
      | Some (searchResponse sr) =>
          let '(ok, res) := z3950_to_srw_diagnostics_ok res (sr_records sr) in
          if (ok : bool) then
            let fl := match yaz_oi_get_facetlist (sr_additionalSearchInfo sr) with
                      | Some fl => Some fl
                      | None => yaz_oi_get_facetlist (sr_otherInfo sr)
                      end in
            mret (true, set_rs_numberOfRecords (Some (sr_resultCount sr))
                          (set_rs_facetList fl res))
          else mret (false, res)
      | _ => mret (false, add_diagnostic SRW_SYSTEM_TEMPORARILY_UNAVAILABLE None res)
      end
  end.

(** ** Present *)

(** The refusals; each adds its diagnostic. *)
Definition refuse (b : bool) (code : Z) (details : option string) (st : bool * Response) :
    bool * Response :=
  if b then (false, add_diagnostic code details st.2) else st.
Definition check_present sr_req (start max_recs number : Z) res : bool * Response :=
  refuse (max_recs <? 0) SRW_UNSUPP_PARAMETER_VALUE (Some "maximumRecords")
  (refuse ((start <? 0) || (number <? start)) SRW_FIRST_RECORD_POSITION_OUT_OF_RANGE None
  (refuse (rq_sort sr_req) SRW_SORT_UNSUPP None
  (refuse (bool_decide (is_Some (rq_resultSetTTL sr_req))) SRW_RESULT_SETS_UNSUPP None
  (refuse (bool_decide (is_Some (rq_recordXPath sr_req))) SRW_XPATH_RETRIEVAL_UNSUPP None
  (true, res))))).
(** How many records are asked for. *)
Definition limit_recs (max start max_recs number : Z) : Z :=
  let max_recs := if (0 <? max) && (max <? max_recs) then max else max_recs in
  if number - start <? max_recs then int32 (number - start + 1) else max_recs.

Definition present_request sr_req (start_point number : Z) : PresentRequest :=
  let r := set_pq_numberOfRecordsRequested number
             (set_pq_resultSetStartPoint start_point zget_presentRequest) in
  let r := set_pq_preferredRecordSyntax (Some recsyn_xml) r in
  match rq_recordSchema sr_req with
  | Some _ => set_pq_recordComposition
      (RecordComp_simple <$> SruUtil.build_esn_from_schema (rq_recordSchema sr_req)) r
  | None => r
  end.

(** A record, or a surrogate diagnostic, at its position. *)
Definition to_srw_record sr_req (position : Z) (npr : NamePlusRecord) : outcome Z_SRW_record :=
  let packing := SruUtil.record_packing (rq_recordPacking sr_req) in
  match npr_record npr with
  | NPR_surrogateDiagnostic (DiagRec_defaultFormat df) =>
      Ok (yaz_mk_sru_surrogate packing position (yaz_diag_bib1_to_srw (condition df))
            (Some (addinfo_str df)))
  | NPR_surrogateDiagnostic DiagRec_externallyDefined =>
      Ok (yaz_mk_sru_surrogate packing position SRW_RECORD_TEMPORARILY_UNAVAILABLE None)
  | NPR_databaseRecord e =>
      if decide (direct_reference e = Some recsyn_xml) then
        match e with
        | External_octet _ descriptor buf =>
            Ok (mk_record (match descriptor with
                           | Some s => Some s
                           | None => rq_recordSchema sr_req
                           end) packing buf (Some position))
        | _ => Undef BadUnion
        end
      else Ok (yaz_mk_sru_surrogate packing position
                 SRW_RECORD_NOT_AVAILABLE_IN_THIS_SCHEMA None)
  | NPR_fragment _ =>
      Ok (yaz_mk_sru_surrogate packing position SRW_RECORD_NOT_AVAILABLE_IN_THIS_SCHEMA None)
  end.
(** The records of one answer, from index [i] on, into an array of which
    [room] places are left. *)
Fixpoint insert_records sr_req (room start_point i : Z) (l : list NamePlusRecord) :
    outcome (list Z_SRW_record) :=
  match l with
  | [] => Ok []
  | npr :: l' =>
      if room <=? i then Undef OutOfBounds
      else
        r ← to_srw_record sr_req (i + start_point) npr;
        rs ← insert_records sr_req room start_point (i + 1) l';
        Ok (r :: rs)
  end.
Definition present_done (start number : Z) (recs : list Z_SRW_record) res :
    outcome (bool * Response) :=
  let num := Z.of_nat (length recs) in
  let res := set_rs_records recs res in
  before ← chk_int (start - 1 + num);
  if before <? number then
    pos ← chk_int (start + num);
    Ok (true, set_rs_nextRecordPosition (Some pos) res)
  else Ok (true, res).
Fixpoint present_loop (fuel : nat) package sr_req (start max_recs number : Z)
    (recs : list Z_SRW_record) res : M W (bool * Response) :=
  match fuel with
  | O => out_of_fuel
  | Datatypes.S fuel' =>
      let num := Z.of_nat (length recs) in
      if num <? max_recs then
        p ← z3950_package package;
        start_point ← lift_outcome (chk_int (start + num));
        p ← next "" (set_request (Some (GDU_Z3950 (presentRequest
                       (present_request sr_req start_point (max_recs - num))))) p);
        match z3950 (p_response p) with
        | Some (presentResponse pr) =>
            let '(ok, res) := z3950_to_srw_diagnostics_ok res (pr_records pr) in
            if (ok : bool) then
              match pr_records pr with
              | Some (Records_DBOSD l) =>
                  rs ← lift_outcome (insert_records sr_req (max_recs - num) start_point 0 l);
                  present_loop fuel' package sr_req start max_recs number (recs ++ rs) res
              | _ => lift_outcome (present_done start number recs res)
              end
            else mret (false, res)
        | _ => mret (false, add_diagnostic SRW_SYSTEM_TEMPORARILY_UNAVAILABLE None res)
        end
      else lift_outcome (present_done start number recs res)
  end.
Definition start_of sr_req : Z := int32 (default 1 (rq_startRecord sr_req)).
Definition max_of sr_req : Z := int32 (default 0 (rq_maximumRecords sr_req)).
Definition z3950_present_request (conf : Conf) (fuel : nat) package res sr_req :
    M W (bool * Response) :=
  let start := start_of sr_req in
  let max_recs := max_of sr_req in
  if max_recs =? 0 then mret (true, res)
  else
    number ← deref (rs_numberOfRecords res);
    let '(send, res) := check_present sr_req start max_recs number res in
    if (send : bool) then
      present_loop fuel package sr_req start
        (limit_recs (conf_max_recs conf) start max_recs number) number [] res
    else mret (false, res).

(** ** One request *)

(** What the parameters that SRU does not define say. *)
Record Extra : Type := mk_Extra {
  x_package : Package R;
  x_zurl : string;
  x_dbargs : string;
  x_enable_log : bool
}.
Definition set_origin (o : Origin.t) package : Package R :=
  mk_Package (p_session package) o (p_route_pos package) (p_request package)
    (p_response package).
Definition extra_arg (arg : string * option string) (x : Extra) : M W Extra :=
  let '(name, value) := arg in
  let '(mk_Extra package zurl dbargs log) := x in
  if decide (name = "x-target") then
    v ← deref value; mret (mk_Extra package v dbargs log)
  else if decide (name = "x-max-sockets") then
    v ← deref value;
    mret (mk_Extra (set_origin (Origin.set_max_sockets (mp_xml.atoi v) (p_origin package))
                      package) zurl dbargs log)
  else if decide (name = "x-session-id") then
    v ← deref value;
    mret (mk_Extra (set_origin (Origin.set_custom_session v (p_origin package)) package)
            zurl dbargs log)
  else if decide (name = "x-log-enable") then
    v ← deref value;
    if decide (str_take 1 v = "1") then
      log_enable ;; mret (mk_Extra package zurl dbargs true)
    else mret x
  else
    match value with
    | Some v =>
        if decide (str_take 9 name = "x-client-") then
          mret (mk_Extra package zurl
            (dbargs +:+ (if decide (dbargs = "") then "" else "&") +:+
             SruUtil.uri_encode (str_drop 9 name) +:+ "=" +:+ SruUtil.uri_encode v) log)
        else mret x
    | None => mret x
    end.
Fixpoint extra_loop (args : list (string * option string)) (x : Extra) : M W Extra :=
  match args with
  | [] => mret x
  | arg :: args' => x ← extra_arg arg x; extra_loop args' x
  end.

(** A search: the Z39.50 session from Init to its end. *)
Definition search_retrieve (conf : Conf) (fuel : nat) package (p : Package R)
    (zurl dbargs : string) (req : Z_SRW_PDU) sr_req res : M W Response :=
  let '(ok, res) := SruUtil.check_sru_query_exists res sr_req in
  if (ok : bool) then
    '(ok, res) ← z3950_init_request fuel package zurl res req;
    if (ok : bool) then
      '(ok, res) ← z3950_search_request p res sr_req zurl dbargs;
      '(_, res) ← (if ok && match rs_numberOfRecords res with
                            | Some n => negb (n =? 0)
                            | None => false
                            end
                   then z3950_present_request conf fuel package res sr_req
                   else mret (ok, res));
      z3950_close_request package ;;
      mret res
    else mret res
  else mret res.

(** The response and the stylesheet of the request. In the last case the
    diagnostic is added to a list that the response does not see any more. *)
Definition respond (conf : Conf) (fuel : nat) (x : Extra) (p : Package R)
    (sruinfo : SruUtil.SRUServerInfo) (explainnode : option xmlNode)
    (req : Z_SRW_PDU) (diagnostic : list Z_SRW_diagnostic) :
    M W (SRW_response * option string) :=
  match srw_request req with
  | SRW_explain_request er_req =>
      let r := set_es_diagnostics diagnostic (srw_get_explain (Some req)) in
      mret (SRW_explain_response
              (SruUtil.build_sru_explain r sruinfo explainnode (Some er_req)),
            eq_stylesheet er_req)
  | SRW_searchRetrieve_request sr_req =>
      let r := set_rs_diagnostics diagnostic (srw_get_searchRetrieve req) in
      r ← search_retrieve conf fuel (x_package x) p (x_zurl x) (x_dbargs x) req sr_req r;
      mret (SRW_searchRetrieve_response r, rq_stylesheet sr_req)
  | SRW_scan_request stylesheet =>
      mret (SRW_scan_response
              (yaz_add_srw_diagnostic diagnostic SRW_UNSUPP_OPERATION (Some "scan")),
            stylesheet)
  | SRW_update_request =>
      mret (SRW_explain_response
              (set_es_diagnostics diagnostic (srw_get_explain (Some req))), None)
  end.
Definition log_data : M W (option string) :=
  l ← log_reset "";
  mret (if decide (l = "") then None
        else Some ("<log>" +:+ SruUtil.nl +:+ wrbuf_xmlputs l +:+ "</log>")).
Definition sru (conf : Conf) (fuel : nat) package : M W (Package R) :=
  let sruinfo := SruUtil.get_sru_server_info package in
  let explainnode := m_database_explain conf !! SruUtil.database sruinfo in
  let '(package, pdu, diagnostic, soap) := SruUtil.decode_sru_request package in
  match pdu, p_request package with
  | None, Some (GDU_HTTP_Request hreq) =>
      match soap with
      | Some _ =>
          let r := set_es_diagnostics diagnostic (srw_get_explain None) in
          '(_, package) ← lift_outcome (SruUtil.build_sru_response package soap
            (mk_SRW_response None (SRW_explain_response
               (SruUtil.build_sru_explain r sruinfo explainnode None))) None None);
          mret package
      | None =>
          let '(hres, session) := create_HTTP_Response (p_session package) hreq 400 in
          mret (set_response (Some (GDU_HTTP_Response hres)) (set_session session package))
      end
  | Some req, _ =>
      x ← extra_loop (extra_args req) (mk_Extra package "" "" false);
      p ← z3950_package (x_package x);
      '(res, stylesheet) ← respond conf fuel x p sruinfo explainnode req diagnostic;
      extra ← (if x_enable_log x then log_data else mret None);
      let stylesheet := match stylesheet with
        | Some s => Some s
        | None => if decide (default_stylesheet conf = "") then None
                  else Some (default_stylesheet conf)
        end in
      '(_, package) ← lift_outcome (SruUtil.build_sru_response (x_package x) soap
        (mk_SRW_response extra res) None stylesheet);
      mret package
  | None, _ => undef NullDeref
  end.

(** ** Present, served *)

(** The records of a list as SRU records, the first at [position]. *)
Fixpoint records_at sr_req (position : Z) (l : list NamePlusRecord) :
    outcome (list Z_SRW_record) :=
  match l with
  | [] => Ok []
  | npr :: l' =>
      r ← to_srw_record sr_req position npr;
      rs ← records_at sr_req (position + 1) l';
      Ok (r :: rs)
  end.
(** A record in XML is octet aligned. *)
Definition xml_is_octet (npr : NamePlusRecord) : Prop :=
  match npr_record npr with
  | NPR_databaseRecord e =>
      direct_reference e = Some recsyn_xml → ∃ d buf, e = External_octet (Some recsyn_xml) d buf
  | _ => True
  end.
Lemma to_srw_record_ok sr_req position npr : xml_is_octet npr →
  ∃ r, to_srw_record sr_req position npr = Ok r.
Proof.
  unfold xml_is_octet, to_srw_record.
  destruct (npr_record npr) as [e|[d|]|s]; intros H; try by eexists.
  case_decide as Hd; [|by eexists]. destruct (H Hd) as (d & buf & ->). by eexists.
Qed.
Lemma records_at_ok sr_req position l : Forall xml_is_octet l →
  ∃ rs, records_at sr_req position l = Ok rs ∧ length rs = length l.
Proof.
  intros H. revert position. induction H as [|npr l Hn _ IH]; intros position; [by exists []|].
  destruct (to_srw_record_ok sr_req position npr Hn) as [r Hr].
  destruct (IH (position + 1)) as (rs & Hrs & Hl).
  exists (r :: rs). cbn. rewrite Hr. cbn. rewrite Hrs. cbn. by rewrite Hl.
Qed.
Lemma records_at_app sr_req position l1 l2 rs1 rs2 :
  records_at sr_req position l1 = Ok rs1 →
  records_at sr_req (position + Z.of_nat (length l1)) l2 = Ok rs2 →
  records_at sr_req position (l1 ++ l2) = Ok (rs1 ++ rs2).
Proof.
  revert position rs1. induction l1 as [|npr l1 IH]; intros position rs1; cbn.
  - intros [= <-]. by rewrite Z.add_0_r.
  - destruct (to_srw_record sr_req position npr) as [r|?|?|]; cbn; try done.
    destruct (records_at sr_req (position + 1) l1) as [rs|?|?|] eqn:E; cbn; try done.
    intros [= <-] H2. rewrite (IH (position + 1) rs E); [done|].
    rewrite <-H2. f_equal. lia.
Qed.
Lemma insert_records_at sr_req room start_point i l : i + Z.of_nat (length l) ≤ room →
  insert_records sr_req room start_point i l = records_at sr_req (i + start_point) l.
Proof.
  revert i. induction l as [|npr l IH]; intros i Hi; [done|]. cbn [insert_records records_at].
  cbn [length] in Hi. rewrite (proj2 (Z.leb_gt room i)) by lia.
  destruct (to_srw_record sr_req (i + start_point) npr); cbn; try done.
  rewrite IH by lia. by replace (i + 1 + start_point) with (i + start_point + 1) by lia.
Qed.

(** The response that says where the rest of the result set begins. *)
Definition finished (start number : Z) (recs : list Z_SRW_record) res : Response :=
  let n := Z.of_nat (length recs) in
  let res := set_rs_records recs res in
  if start - 1 + n <? number then set_rs_nextRecordPosition (Some (start + n)) res else res.
Lemma present_done_ok start number recs res :
  0 ≤ start → number ≤ INT_MAX → start - 1 + Z.of_nat (length recs) ≤ number →
  present_done start number recs res = Ok (true, finished start number recs res).
Proof.
  intros Hs Hn Hr. unfold present_done, finished.
  rewrite (chk_int_ok (start - 1 + _)) by (unfold in_int32, INT_MAX in *; lia). cbn.
  destruct (Z.ltb_spec (start - 1 + Z.of_nat (length recs)) number) as [Hlt|]; [|done].
  rewrite chk_int_ok by (unfold in_int32, INT_MAX in *; lia). done.
Qed.

Section served.
Context (ok : Session.t → option string → option RecordComposition → string → W → Prop)
        (records : list NamePlusRecord) `{Hserves : !Serves next ok records}.
Context (package : Package R) (pos : R) (Hpos : p_route_pos package = Some pos)
        (Hopen : is_closed package = false).
Context (sr_req : Request) (Hxml : Forall xml_is_octet records).

Lemma z3950_package_ok w : z3950_package package w =
  Ok (set_route_pos (Some pos) (new_Package (p_session package) (p_origin package)), w).
Proof. unfold z3950_package. by apply copy_filter_ok. Qed.

Definition composition : option RecordComposition :=
  match rq_recordSchema sr_req with
  | Some s => Some (RecordComp_simple (ESN_generic s))
  | None => pq_recordComposition zget_presentRequest
  end.
(** The target serves the default result set in this world. *)
Definition set_served (w : W) : Prop :=
  ok (p_session package) (Some recsyn_xml) composition
    (pq_resultSetId zget_presentRequest) w.
Notation slice start n := (take n (drop (Z.to_nat (start - 1)) records)).

Lemma present_request_fields start_point number :
  let pr := present_request sr_req start_point number in
  pq_preferredRecordSyntax pr = Some recsyn_xml ∧ pq_recordComposition pr = composition ∧
  pq_resultSetId pr = pq_resultSetId zget_presentRequest ∧
  pq_resultSetStartPoint pr = start_point ∧ pq_numberOfRecordsRequested pr = number.
Proof. unfold present_request, composition. by destruct (rq_recordSchema sr_req). Qed.
Lemma present_loop_served fuel start max_recs recs res w :
  set_served w → 1 ≤ start → 0 ≤ max_recs →
  start - 1 + max_recs ≤ Z.of_nat (length records) → Z.of_nat (length records) ≤ INT_MAX →
  Z.of_nat (length recs) ≤ max_recs →
  records_at sr_req start (slice start (length recs)) = Ok recs →
  max_recs - Z.of_nat (length recs) < Z.of_nat fuel →
  ∃ all w', present_loop fuel package sr_req start max_recs (Z.of_nat (length records))
      recs res w = Ok ((true, finished start (Z.of_nat (length records)) all res), w') ∧
    records_at sr_req start (slice start (Z.to_nat max_recs)) = Ok all.
Proof.
  revert recs w. induction fuel as [|fuel IH]; intros recs w Hok Hs Hm Hin Hint Hle Hrecs Hf;
    [cbn in Hf; lia|].
  cbn [present_loop]. destruct (Z.ltb_spec (Z.of_nat (length recs)) max_recs) as [Hlt|Hge].
  - erewrite bind_ok by apply z3950_package_ok.
    rewrite chk_int_ok by (unfold in_int32, INT_MAX in *; lia).
    erewrite bind_ok by reflexivity.
    set (start_point := start + Z.of_nat (length recs)).
    set (pr := present_request sr_req start_point (max_recs - Z.of_nat (length recs))).
    set (p := set_request _ _).
    destruct (present_request_fields start_point (max_recs - Z.of_nat (length recs)))
      as (Hsyn & Hcomp & Hid & Hsp & Hnum). fold pr in Hsyn, Hcomp, Hid, Hsp, Hnum.
    destruct (Hserves p pr w) as (p' & pres & k & w' & Hn & _ & Hr & Hk & Hl & Hok');
      try done; try (rewrite ?Hsp, ?Hnum; unfold start_point; lia).
    { rewrite Hsyn, Hcomp, Hid. exact Hok. }
    rewrite Hsyn, Hcomp, Hid in Hok'. rewrite Hsp in Hl. rewrite Hnum in Hk.
    erewrite bind_ok by exact Hn. rewrite Hr, Hl. cbn [z3950_to_srw_diagnostics_ok].
    set (l := take k (drop (Z.to_nat (start_point - 1)) records)).
    assert (Hlen : length l = k).
    { unfold l, start_point. rewrite length_take, length_drop. lia. }
    rewrite insert_records_at by lia. rewrite Z.add_0_l.
    destruct (records_at_ok sr_req start_point l) as (rs & Hrs & Hlrs).
    { unfold l. by apply Forall_take, Forall_drop. }
    rewrite Hrs. erewrite bind_ok by reflexivity.
    assert (Hslice : length (slice start (length recs)) = length recs).
    { rewrite length_take, length_drop. lia. }
    apply IH; try done.
    + rewrite length_app. lia.
    + rewrite length_app, Hlrs, Hlen.
      assert (Hsplit : slice start (length recs + k) = slice start (length recs) ++ l).
      { unfold l, start_point. rewrite <-(take_drop (length recs) (slice start (length recs + k))).
        rewrite take_take, skipn_firstn_comm, drop_drop. f_equal; f_equal; [lia|lia|].
        f_equal. lia. }
      rewrite Hsplit. apply records_at_app; [done|]. by rewrite Hslice.
    + rewrite length_app. lia.
  - replace (Z.to_nat max_recs) with (length recs) by lia.
    exists recs, w. split; [|done]. rewrite present_done_ok by (done || lia). done.
Qed.
End served.

(** The position and the number that a request names; the code keeps both in
    32 bits. *)
Definition first_record sr_req : Z := default 1 (rq_startRecord sr_req).
Definition max_asked sr_req : Z := default 0 (rq_maximumRecords sr_req).
Lemma start_of_first sr_req : in_int32 (first_record sr_req) → start_of sr_req = first_record sr_req.
Proof. apply int32_id. Qed.
Lemma max_of_asked sr_req : in_int32 (max_asked sr_req) → max_of sr_req = max_asked sr_req.
Proof. apply int32_id. Qed.
(** How many records a search returns: as many as the request and the
    configuration allow and the result set holds from the start on. *)
Definition wanted (conf : Conf) sr_req (number : Z) : Z :=
  let m := max_asked sr_req in
  Z.min (if 0 <? conf_max_recs conf then Z.min (conf_max_recs conf) m else m)
    (number - first_record sr_req + 1).
Lemma limit_recs_wanted conf sr_req number :
  1 ≤ first_record sr_req ≤ number → number ≤ INT_MAX → 0 < max_asked sr_req →
  limit_recs (conf_max_recs conf) (first_record sr_req) (max_asked sr_req) number =
    wanted conf sr_req number ∧
  0 < wanted conf sr_req number ∧
  first_record sr_req - 1 + wanted conf sr_req number ≤ number.
Proof.
  intros Hs Hn Hm. unfold limit_recs, wanted. cbn zeta.
  destruct (Z.ltb_spec 0 (conf_max_recs conf)), (Z.ltb_spec (conf_max_recs conf) (max_asked sr_req));
    cbn [andb]; case_match eqn:Hc; (apply Z.ltb_lt in Hc || apply Z.ltb_ge in Hc);
    rewrite ?int32_id by (unfold in_int32, INT_MAX in *; lia); lia.
Qed.
(** A request for records that no check refuses. *)
Definition plain sr_req : Prop :=
  rq_sort sr_req = false ∧ rq_resultSetTTL sr_req = None ∧ rq_recordXPath sr_req = None.
Lemma check_present_plain sr_req start max_recs number res :
  plain sr_req → 0 ≤ start ≤ number → 0 ≤ max_recs →
  check_present sr_req start max_recs number res = (true, res).
Proof.
  intros (Hsort & Httl & Hx) Hs Hm. unfold check_present. rewrite Hsort, Httl, Hx. cbn.
  rewrite (proj2 (Z.ltb_ge start 0)), (proj2 (Z.ltb_ge number start)),
    (proj2 (Z.ltb_ge max_recs 0)) by lia. done.
Qed.

(** ** A whole search *)
Section answered.
Context (fresh : Session.t → W → Prop)
  (format : option string → option RecordComposition → Prop)
  (ok : list string → Query → Session.t → option string → option RecordComposition →
        string → W → Prop)
  (records : list string → Query → list NamePlusRecord)
  `{Htarget : !SearchTarget next fresh format ok records} `{!YazLaws Y} `{!SrwLaws S Y}.
Context (package : Package R) (pos : R) (Hpos : p_route_pos package = Some pos)
        (Hopen : is_closed package = false).
Context (req : Z_SRW_PDU) (sr_req : Request).

Lemma asks_named o : MASK_GET (foldl MASK_SET o
  [Options_search; Options_present; Options_namedResultSets; Options_scan])
  Options_namedResultSets = true.
Proof.
  unfold MASK_GET, MASK_SET. cbn [foldl].
  by rewrite Z.setbit_neq, Z.setbit_eq by (unfold Options_scan, Options_namedResultSets; lia).
Qed.
Lemma init_served fuel res w :
  ∃ w', z3950_init_request fuel package "" res req w = Ok ((true, res), w') ∧
    fresh (p_session package) w'.
Proof.
  unfold z3950_init_request. erewrite bind_ok by (eapply z3950_package_ok; done).
  unfold init_request. cbn [decide]. rewrite decide_True by done.
  erewrite bind_ok by reflexivity.
  match goal with |- context [next "" ?p] => set (pp := p) end.
  destruct (target_init next (SearchTarget := Htarget) pp _ w eq_refl)
    as (p' & ir & w' & Hn & Hr & Hres & Hf); [apply asks_named|by eexists|done|].
  exists w'. erewrite bind_ok by exact Hn. rewrite Hr, Hres. done.
Qed.
Definition databases : list string := [default "Default" (rq_database sr_req) +:+ ""].
Lemma search_databases_plain : search_databases sr_req "" "" = Ok databases.
Proof.
  unfold search_databases, set_databases_from_zurl, split_zurl.
  destruct (cs_get_host_args "") as [off|] eqn:Ho; [|done].
  apply host_args_slash in Ho. cbn in Ho. lia.
Qed.
Lemma sru_search_served q res w :
  z3950_build_query sr_req = inl q → fresh (p_session package) w →
  ∃ fl w', z3950_search_request
      (set_route_pos (Some pos) (new_Package (p_session package) (p_origin package)))
      res sr_req "" "" w =
    Ok ((true, set_rs_numberOfRecords (Some (Z.of_nat (length (records databases q))))
                 (set_rs_facetList fl res)), w') ∧
    ∀ syntax comp, format syntax comp → ok databases q (p_session package) syntax comp
      (sq_resultSetName zget_searchRequest) w'.
Proof.
  intros Hq Hf. unfold z3950_search_request. rewrite search_databases_plain, Hq.
  erewrite bind_ok by reflexivity.
  match goal with |- context [next "" ?p] => set (pp := p) end.
  set (r := search_request databases q sr_req).
  assert (Hr : sq_databaseNames r = databases ∧ sq_query r = q ∧
    sq_resultSetName r = sq_resultSetName zget_searchRequest ∧ no_piggyback r).
  { unfold r, search_request, no_piggyback. by destruct (rq_facetList sr_req), default_piggyback. }
  destruct Hr as (Hd & Hqr & Hname & Hpig).
  destruct (target_search next (SearchTarget := Htarget) pp r w eq_refl)
    as (p' & sr & w' & Hn & Hresp & Hcount & Hnsd & Hok); [done|by eexists|done|done|].
  rewrite Hd, Hqr, Hname in *. erewrite bind_ok by exact Hn. rewrite Hresp.
  eexists _, w'. split; [|exact Hok]. unfold z3950_to_srw_diagnostics_ok.
  destruct (sr_records sr) as [[]|]; try (by rewrite Hcount). done.
Qed.
Lemma close_served w : ∃ b w', z3950_close_request package w = Ok (b, w').
Proof.
  unfold z3950_close_request. erewrite bind_ok by (eapply z3950_package_ok; done).
  match goal with |- context [next "" ?p] => set (pp := p) end.
  destruct (target_close next (SearchTarget := Htarget) pp w) as (p' & w' & Hn); [done|done|by eexists|].
  exists (is_closed p'), w'. by erewrite bind_ok by exact Hn.
Qed.

Lemma search_retrieve_served conf fuel q diags w :
  is_Some (rq_query sr_req) → z3950_build_query sr_req = inl q → plain sr_req →
  format (Some recsyn_xml) (composition sr_req) →
  Forall xml_is_octet (records databases q) →
  let number := Z.of_nat (length (records databases q)) in
  let n := wanted conf sr_req number in
  1 ≤ first_record sr_req ≤ number → number ≤ INT_MAX → 0 < max_asked sr_req ≤ INT_MAX →
  n < Z.of_nat fuel →
  ∃ w' recs fl, search_retrieve conf fuel package
      (set_route_pos (Some pos) (new_Package (p_session package) (p_origin package)))
      "" "" req sr_req (set_rs_diagnostics diags (srw_get_searchRetrieve req)) w =
    Ok (mk_searchRetrieveResponse (Some number) recs
          (if first_record sr_req - 1 + n <? number then Some (first_record sr_req + n) else None)
          diags fl, w') ∧
    records_at sr_req (first_record sr_req)
      (take (Z.to_nat n) (drop (Z.to_nat (first_record sr_req - 1)) (records databases q))) = Ok recs.
Proof.
  intros [query Hquery] Hq Hplain Hformat Hxml number n Hs Hn Hm Hf.
  unfold search_retrieve, SruUtil.check_sru_query_exists. rewrite Hquery.
  destruct (srw_get_fresh (SrwLaws := _) req) as [d0 ->].
  set (res := set_rs_diagnostics diags _).
  destruct (init_served fuel res w) as (w1 & H1 & Hfresh). erewrite bind_ok by exact H1.
  destruct (sru_search_served q res w1 Hq Hfresh) as (fl & w2 & H2 & Hok).
  erewrite bind_ok by exact H2. cbn [rs_numberOfRecords set_rs_numberOfRecords].
  fold number. rewrite (proj2 (Z.eqb_neq number 0)) by lia. cbn [andb negb].
  unfold z3950_present_request.
  rewrite start_of_first, max_of_asked by (unfold in_int32, INT_MAX in *; lia).
  rewrite (proj2 (Z.eqb_neq (max_asked sr_req) 0)) by lia.
  cbn [rs_numberOfRecords set_rs_numberOfRecords].
  destruct (limit_recs_wanted conf sr_req number) as (Hl & Hpos' & Hin); [done..|lia|].
  set (res1 := set_rs_numberOfRecords _ _).
  assert (Hpres : ∃ all w3, (deref (Some number) ≫= λ number0,
      let '(send, res2) := check_present sr_req (first_record sr_req) (max_asked sr_req) number0 res1 in
      if (send : bool) then present_loop fuel package sr_req (first_record sr_req)
        (limit_recs (conf_max_recs conf) (first_record sr_req) (max_asked sr_req) number0)
        number0 [] res2 else mret (false, res2)) w2 =
      Ok ((true, finished (first_record sr_req) number all res1), w3) ∧
      records_at sr_req (first_record sr_req)
        (take (Z.to_nat n) (drop (Z.to_nat (first_record sr_req - 1)) (records databases q))) =
        Ok all).
  { erewrite bind_ok by reflexivity. rewrite check_present_plain by (done || lia). rewrite Hl.
    eapply (present_loop_served (ok databases q) (records databases q)
      (Hserves := target_serves next (SearchTarget := Htarget) databases q)); try done; try lia.
    - unfold set_served. rewrite <-default_set. by apply Hok.
    - fold n. cbn. lia. }
  destruct Hpres as (all & w3 & H3 & Hall). erewrite bind_ok by exact H3.
  destruct (close_served w3) as (b & w4 & H4). erewrite bind_ok by exact H4.
  exists w4, all, fl. split; [|done]. cbn. unfold finished.
  assert (Hlen : Z.of_nat (length all) = n).
  { destruct (records_at_ok sr_req (first_record sr_req) (take (Z.to_nat n)
      (drop (Z.to_nat (first_record sr_req - 1)) (records databases q)))) as (rs & Hrs & Hlrs).
    { by apply Forall_take, Forall_drop. }
    rewrite Hall in Hrs. injection Hrs as <-. rewrite Hlrs, length_take, length_drop.
    fold n in Hpos', Hin. unfold number in *. lia. }
  rewrite Hlen. by destruct (first_record sr_req - 1 + n <? number).
Qed.

(** The stylesheet that the response names. *)
Definition stylesheet_of (conf : Conf) (s : option string) : option string :=
  let s := match s with
           | Some s => Some s
           | None => if decide (default_stylesheet conf = "") then None
                     else Some (default_stylesheet conf)
           end in
  if decide (s = Some "") then None else s.
Lemma build_sru_response_ok (p : Package R) (hreq : HTTP_Request) (soap : SOAP)
    (pdu : Z_SRW_PDU_response) (stylesheet : option string) :
  p_request p = Some (GDU_HTTP_Request hreq) →
  ∃ p' http, SruUtil.build_sru_response p (Some soap) pdu None stylesheet = Ok (true, p') ∧
    p_response p' = Some (GDU_HTTP_Response http) ∧
    hr_content http = z_soap_codec_enc_xsl soap pdu None
      (if decide (stylesheet = Some "") then None else stylesheet).
Proof.
  intros Hp. unfold SruUtil.build_sru_response. rewrite Hp.
  destruct (create_HTTP_Response (p_session p) hreq 200) as [hres session].
  eexists _, _. split; [reflexivity|]. split; reflexivity.
Qed.

(** C18. A search is answered: in front of a target that promises what
    [SearchTarget] says, a search for records without parameters that are
    refused and without those that SRU does not define, for a number of
    records that fits an [int] and not for none, and from a position in the
    result set on, gets the number of records found and the records from there
    on, as many as it, the configuration and the result set allow, each in its
    place, and where the rest begins; all this whatever portions the target
    answers with. The database of the request need not be one of the
    configuration, though [doc/sru_z3950.xml] says that such a request is
    passed to the next filter: see [database_not_needed]. *)
Theorem sru_search_answered (conf : Conf) (fuel : nat) (w : W) (hreq : HTTP_Request)
    (d : sru_decoded SOAP) (soap : SOAP) (q : Query)
    (Hhttp : p_request package = Some (GDU_HTTP_Request hreq))
    (Hdecode : yaz_sru_decode hreq = (0, d)) (Hpdu : dec_pdu d = Some req)
    (Hsoap : dec_soap d = Some soap) (Hsearch : srw_request req = SRW_searchRetrieve_request sr_req)
    (Hextra : extra_args req = []) (Hquery : is_Some (rq_query sr_req))
    (Hq : z3950_build_query sr_req = inl q) (Hplain : plain sr_req)
    (Hformat : format (Some recsyn_xml) (composition sr_req))
    (Hxml : Forall xml_is_octet (records databases q))
    (Hstart : 1 ≤ first_record sr_req ≤ Z.of_nat (length (records databases q)))
    (Hint : Z.of_nat (length (records databases q)) ≤ INT_MAX)
    (Hmax : 0 < max_asked sr_req ≤ INT_MAX)
    (Hfuel : wanted conf sr_req (Z.of_nat (length (records databases q))) < Z.of_nat fuel) :
  let number := Z.of_nat (length (records databases q)) in
  let n := wanted conf sr_req number in
  ∃ package' w' http recs facets,
    sru conf fuel package w = Ok (package', w') ∧
    p_response package' = Some (GDU_HTTP_Response http) ∧
    hr_content http = z_soap_codec_enc_xsl soap
      (mk_SRW_response None (SRW_searchRetrieve_response
        (mk_searchRetrieveResponse (Some number) recs
          (if first_record sr_req - 1 + n <? number then Some (first_record sr_req + n) else None)
          (dec_diagnostics d) facets)))
      None (stylesheet_of conf (rq_stylesheet sr_req)) ∧
    records_at sr_req (first_record sr_req)
      (take (Z.to_nat n) (drop (Z.to_nat (first_record sr_req - 1)) (records databases q))) = Ok recs.
Proof.
  intros number n. unfold sru, SruUtil.decode_sru_request. rewrite Hhttp, Hdecode.
  cbn [Z.eqb]. rewrite Hpdu, Hextra. cbn [extra_loop].
  erewrite bind_ok by reflexivity. cbn [x_package].
  erewrite bind_ok by (eapply z3950_package_ok; done).
  unfold respond. rewrite Hsearch. cbn [x_package x_zurl x_dbargs x_enable_log].
  destruct (search_retrieve_served conf fuel q (dec_diagnostics d) w) as (w' & recs & fl & Hs & Hr);
    try done.
  fold number n in Hs, Hr.
  match type of Hs with _ = Ok (?x, _) => set (res := x) in * end.
  set (stylesheet := match rq_stylesheet sr_req with Some s => Some s | None =>
    if decide (default_stylesheet conf = "") then None else Some (default_stylesheet conf) end).
  destruct (build_sru_response_ok package hreq soap
    (mk_SRW_response None (SRW_searchRetrieve_response res)) stylesheet Hhttp)
    as (p' & http & Hb & Hresp & Hc).
  exists p', w', http, recs, fl. split_and!; [|done|exact Hc|done].
  unfold mbind, M_bind. rewrite Hs. cbn. rewrite Hsoap. fold stylesheet. by rewrite Hb.
Qed.
End answered.

(** No search depends on the databases of the configuration: one for a database
    that is not configured is answered as well, and not passed on as
    [doc/sru_z3950.xml] has it. *)
Lemma database_not_needed (conf : Conf) (m : gmap string xmlNode) (fuel : nat) package (w : W)
    (hreq : HTTP_Request) (d : sru_decoded SOAP) (req : Z_SRW_PDU) sr_req :
  p_request package = Some (GDU_HTTP_Request hreq) → yaz_sru_decode hreq = (0, d) →
  dec_pdu d = Some req → srw_request req = SRW_searchRetrieve_request sr_req →
  sru conf fuel package w =
  sru (mk_Conf m (default_stylesheet conf) (conf_max_recs conf)) fuel package w.
Proof.
  intros Hhttp Hdecode Hpdu Hsearch. unfold sru, SruUtil.decode_sru_request.
  rewrite Hhttp, Hdecode. cbn [Z.eqb]. rewrite Hpdu. unfold mbind, M_bind.
  destruct (extra_loop _ _ w) as [[x w1]|?|?|]; [|done..].
  destruct (z3950_package _ w1) as [[p w2]|?|?|]; [|done..].
  unfold respond. by rewrite Hsearch.
Qed.
End filter.

(** ** Sessions of the requests *)
Section sessions.
Context {SOAP : Type} `{S : Srw SOAP} `{Y : Yaz} {R W : Type} `{L : PackageLog W}.
Context (next : string → Package R → M W (Package R)).

(** What was sent down the route, and what came back. *)
Notation entry := (Package R * Package R)%type.
Implicit Types (k : list entry) (s : Session.t) (package p : Package R)
  (sr_req : Z_SRW_searchRetrieveRequest) (res : Z_SRW_searchRetrieveResponse).
Definition logged (route : string) (p : Package R) : M (list entry * W) (Package R) := λ w,
  match next route p w.2 with
  | Ok (p', w') => Ok (p', (w.1 ++ [(p, p')], w'))
  | Throw e => Throw e
  | Undef u => Undef u
  | OutOfFuel => OutOfFuel
  end.
#[local] Instance log_of_world : PackageLog (list entry * W) :=
  {| p_logger := λ w, p_logger w.2; set_logger := λ l w, (w.1, set_logger l w.2) |}.

(** [m] sends a sequence of packages that satisfies [P]. *)
Definition sends {A} (m : M (list entry * W) A) (P : A → list entry → Prop) : Prop :=
  ∀ w, par m w (λ a w', ∃ k, w'.1 = w.1 ++ k ∧ P a k).
Lemma sends_bind {A B} (m : M (list entry * W) A) (f : A → M (list entry * W) B) Q P :
  sends m Q → (∀ a k, Q a k → sends (f a) (λ b k', P b (k ++ k'))) → sends (m ≫= f) P.
Proof.
  intros Hm Hf w. apply par_bind. eapply par_mono; [apply Hm|].
  intros a w1 (k & Hk & Hq). eapply par_mono; [by apply Hf|].
  intros b w2 (k' & Hk' & Hp). exists (k ++ k'). split; [|done].
  by rewrite Hk', Hk, <-app_assoc.
Qed.
Lemma sends_ret {A} (a : A) (P : A → list entry → Prop) : P a [] → sends (mret a) P.
Proof. intros H w. apply par_ret. exists []. by rewrite app_nil_r. Qed.
Lemma sends_mono {A} (m : M (list entry * W) A) Q P :
  sends m Q → (∀ a k, Q a k → P a k) → sends m P.
Proof. intros Hm H w. eapply par_mono; [apply Hm|]. intros a w' (k & ? & ?). eauto. Qed.
(** A step that sends nothing. *)
Definition silent {A} (m : M (list entry * W) A) : Prop := sends m (λ _ k, k = []).
Lemma sends_silent {A B} (m : M (list entry * W) A) (f : A → M (list entry * W) B) P :
  silent m → (∀ a, sends (f a) P) → sends (m ≫= f) P.
Proof. intros Hm Hf. eapply sends_bind; [exact Hm|]. intros a k ->. apply Hf. Qed.
Lemma silent_lift {A} (o : outcome A) : silent (lift_outcome o).
Proof. intros w. apply par_lift. intros a _. exists []. by rewrite app_nil_r. Qed.
Lemma silent_deref {A} (o : option A) : silent (deref o).
Proof. intros w. apply par_deref. intros a _. exists []. by rewrite app_nil_r. Qed.
Lemma silent_bind {A B} (m : M (list entry * W) A) (f : A → M (list entry * W) B) :
  silent m → (∀ a, silent (f a)) → silent (m ≫= f).
Proof. apply sends_silent. Qed.
Lemma silent_log_enable : silent log_enable.
Proof. intros w. apply par_modify. exists []. by rewrite app_nil_r. Qed.
Lemma silent_log_data : silent log_data.
Proof.
  unfold log_data, log_reset. apply silent_bind; [|intros l; by apply sends_ret].
  intros w. apply par_bind, par_get. destruct (p_logger w);
    (apply par_bind || apply par_ret); exists []; by rewrite app_nil_r.
Qed.
Lemma sends_next {B} p (f : Package R → M (list entry * W) B) P :
  (∀ p', sends (f p') (λ b k, P b ((p, p') :: k))) → sends (logged "" p ≫= f) P.
Proof.
  intros H w. apply par_bind. unfold par at 1, logged.
  destruct (next "" p w.2) as [[p' w']|?|?|]; try done.
  eapply par_mono; [apply H|]. intros b w2 (k & Hk & Hp). exists ((p, p') :: k).
  split; [|done]. cbn in Hk. by rewrite Hk, <-app_assoc.
Qed.

(** Packages of a session under way, its beginning and its end. *)
Definition working s (e : entry) : Prop :=
  p_session e.1 = s ∧
  ((∃ r, z3950 (p_request e.1) = Some (searchRequest r)) ∨
   (∃ r, z3950 (p_request e.1) = Some (presentRequest r))).
Definition opening s (e : entry) : Prop :=
  p_session e.1 = s ∧ ∃ r, z3950 (p_request e.1) = Some (initRequest r).
Definition ending s (e : entry) : Prop :=
  p_session e.1 = Session.close s ∧ p_request e.1 = None.
Definition accepted (e : entry) : bool :=
  match z3950 (p_response e.2) with Some (initResponse ir) => ir_result ir | _ => false end.
(** A sequence of packages that is one session, or none. *)
Definition one_session s k : Prop :=
  k = [] ∨
  ∃ i rest, k = i :: rest ∧ opening s i ∧
    (if accepted i then ∃ mid e, rest = mid ++ [e] ∧ Forall (working s) mid ∧ ending s e
     else rest = []).

Lemma package_sends package : sends (z3950_package package) (λ p k, k = [] ∧
  p_session p = p_session package ∧ p_request p = None).
Proof.
  unfold z3950_package, copy_filter. apply sends_silent; [apply silent_deref|].
  intros r. by apply sends_ret.
Qed.
(** A package built, and what is then done with it. *)
Lemma sends_package {B} package (f : Package R → M (list entry * W) B) P :
  (∀ p, p_session p = p_session package → p_request p = None → sends (f p) P) →
  sends (z3950_package package ≫= f) P.
Proof.
  intros H. eapply sends_bind; [apply package_sends|]. intros p k (-> & Hs & Hr). by apply H.
Qed.
Lemma init_sends fuel package zurl res req :
  sends (z3950_init_request logged fuel package zurl res req) (λ r k,
    ∃ i, k = [i] ∧ opening (p_session package) i ∧ r.1 = accepted i).
Proof.
  unfold z3950_init_request. apply sends_package. intros p Hs _.
  apply sends_silent; [apply silent_lift|]. intros init_req.
  apply sends_next. intros p'. set (i := (_, p')).
  assert (Hop : opening (p_session package) i) by (split; [done|by eexists]).
  assert (Hno : ∀ r : Z_SRW_searchRetrieveResponse, accepted i = false → sends (mret (false, r)) (λ (r : bool * Z_SRW_searchRetrieveResponse) k',
    ∃ i0, i :: k' = [i0] ∧ opening (p_session package) i0 ∧ r.1 = accepted i0)).
  { intros r Ha. apply sends_ret. by exists i. }
  unfold accepted in Hno. cbn [snd i] in Hno.
  destruct (z3950 (p_response p')) as [[]|] eqn:Hr; try by apply Hno.
  destruct (ir_result r) eqn:Hres.
  - apply sends_ret. exists i. unfold accepted. cbn [snd i]. by rewrite Hr, Hres.
  - apply sends_silent; [apply silent_lift|]. intros [no res']. by apply Hno.
Qed.
Lemma search_sends p res sr_req zurl dbargs :
  sends (z3950_search_request logged p res sr_req zurl dbargs)
    (λ _ k, Forall (working (p_session p)) k).
Proof.
  unfold z3950_search_request. apply sends_silent; [apply silent_lift|]. intros dbs.
  destruct (z3950_build_query sr_req) as [q|e]; [|by apply sends_ret].
  apply sends_next. intros p'. set (e := (_, p')).
  assert (Hw : ∀ a, sends (mret a) (λ (_ : bool * Z_SRW_searchRetrieveResponse) k',
    Forall (working (p_session p)) (e :: k'))).
  { intros a. apply sends_ret. constructor; [|done]. split; [done|]. left. by eexists. }
  destruct (z3950 (p_response p')) as [[]|]; try apply Hw.
  destruct (z3950_to_srw_diagnostics_ok _ _) as [[] ?]; apply Hw.
Qed.
Lemma present_loop_sends fuel package sr_req start max_recs number recs res :
  sends (present_loop logged fuel package sr_req start max_recs number recs res)
    (λ _ k, Forall (working (p_session package)) k).
Proof.
  revert recs res. induction fuel as [|fuel IH]; intros recs res; [done|].
  cbn [present_loop].
  assert (Hdone : sends (lift_outcome (present_done start number recs res))
    (λ _ k, Forall (working (p_session package)) k)).
  { eapply sends_mono; [apply silent_lift|]. by intros a k ->. }
  destruct (_ <? max_recs); [|exact Hdone].
  apply sends_package. intros p Hs _. apply sends_silent; [apply silent_lift|]. intros sp.
  apply sends_next. intros p'. set (e := (_, p')).
  assert (He : working (p_session package) e) by (split; [done|right; by eexists]).
  assert (Hw : ∀ a, sends (mret a) (λ (_ : bool * Z_SRW_searchRetrieveResponse) k',
    Forall (working (p_session package)) (e :: k'))).
  { intros a. apply sends_ret. by constructor. }
  destruct (z3950 (p_response p')) as [[]|]; try apply Hw.
  unfold z3950_to_srw_diagnostics_ok.
  destruct (pr_records r) as [[l|d|l]|]; try apply Hw;
    try (eapply sends_mono; [apply silent_lift|]; intros a k' ->; by constructor).
  apply sends_silent; [apply silent_lift|]. intros rs.
  eapply sends_mono; [apply IH|]. intros a k' Hk'. by constructor.
Qed.
Lemma present_sends conf fuel package res sr_req :
  sends (z3950_present_request logged conf fuel package res sr_req)
    (λ _ k, Forall (working (p_session package)) k).
Proof.
  unfold z3950_present_request. destruct (max_of sr_req =? 0); [by apply sends_ret|].
  apply sends_silent; [apply silent_deref|]. intros number.
  destruct (check_present _ _ _ _ _) as [[] res']; [apply present_loop_sends|by apply sends_ret].
Qed.
Lemma close_sends package :
  sends (z3950_close_request logged package)
    (λ _ k, ∃ e, k = [e] ∧ ending (p_session package) e).
Proof.
  unfold z3950_close_request. apply sends_package. intros p Hs Hr.
  apply sends_next. intros p'. apply sends_ret. eexists. split; [reflexivity|].
  split; cbn; [by rewrite Hs|done].
Qed.
Lemma search_retrieve_sends conf fuel package p zurl dbargs req sr_req res :
  p_session p = p_session package →
  sends (search_retrieve logged conf fuel package p zurl dbargs req sr_req res)
    (λ _ k, one_session (p_session package) k).
Proof.
  intros Hp. unfold search_retrieve.
  destruct (SruUtil.check_sru_query_exists res sr_req) as [[] res0];
    [|apply sends_ret; by left].
  eapply sends_bind; [apply init_sends|]. intros [ok1 res1] k (i & -> & Hi & Ha). cbn in Ha.
  destruct ok1.
  - eapply sends_bind; [apply search_sends|]. intros [ok2 res2] k2 Hk2. rewrite Hp in Hk2.
    eapply (sends_bind _ _ (λ _ k3, Forall (working (p_session package)) k3)).
    { destruct (ok2 && _); [apply present_sends|by apply sends_ret]. }
    intros [ok3 res3] k3 Hk3. eapply sends_bind; [apply close_sends|].
    intros b k4 (e & -> & He). apply sends_ret. right.
    exists i, (k2 ++ k3 ++ [e]). rewrite !app_nil_r. split; [done|]. split; [done|].
    rewrite <-Ha. exists (k2 ++ k3), e. rewrite <-app_assoc. split; [done|].
    split; [by apply Forall_app|done].
  - apply sends_ret. right. exists i, []. by rewrite <-Ha.
Qed.
Lemma extra_silent args (x : Extra (R := R)) : sends (extra_loop args x)
  (λ x' k, k = [] ∧ p_session (x_package x') = p_session (x_package x)).
Proof.
  revert x. induction args as [|[name value] args IH]; intros x; [by apply sends_ret|].
  cbn [extra_loop].
  eapply (sends_bind _ _ (λ x' k, k = [] ∧ p_session (x_package x') = p_session (x_package x))).
  - unfold extra_arg. destruct x as [p zurl dbargs log].
    repeat (case_decide; [apply sends_silent; [apply silent_deref|]; intros v;
      try case_decide; try (apply sends_silent; [apply silent_log_enable|]; intros []);
      by apply sends_ret|]).
    destruct value; [case_decide|]; by apply sends_ret.
  - intros x1 k [-> Hx1]. eapply sends_mono; [apply IH|]. intros x2 k' [-> Hx2].
    by rewrite Hx2, Hx1.
Qed.

(** C31. One session per search: whatever the target does, the packages that a
    request sends are nothing, or one Z39.50 session on the session of the
    client: an Init, and if it was accepted Search and Presents and, at last,
    the end of the session, so that no session is left open behind. This holds
    for every configuration and database: a request for a database that is not
    configured goes the same way, though [doc/sru_z3950.xml] says that it is
    passed to the next filter unaltered ([database_not_needed]). *)
Theorem sru_one_session (conf : Conf) (fuel : nat) (package package' : Package R)
    (w w' : W) (k : list entry)
    (Hrun : sru logged conf fuel package ([], w) = Ok (package', (k, w'))) :
  one_session (p_session package) k.
Proof.
  assert (Hs : sends (sru logged conf fuel package)
    (λ _ k, one_session (p_session package) k)).
  { unfold sru. destruct (SruUtil.decode_sru_request package) as [[[p pdu] diags] soap] eqn:Hd.
    destruct pdu as [req|].
    - assert (Hp : p_session p = p_session package).
      { unfold SruUtil.decode_sru_request in Hd.
        destruct (p_request package) as [[|hreq|]|]; try done.
        destruct (yaz_sru_decode hreq) as [rc d]. destruct (rc =? 0); [by simplify_eq|].
        destruct (yaz_srw_decode hreq _ _) as [[rc2 pdu2] soap2].
        destruct (rc2 =? 0); by simplify_eq. }
      eapply sends_bind; [apply extra_silent|]. intros x k0 [-> Hx]. cbn in Hx.
      apply sends_package. intros p1 Hp1 _.
      eapply (sends_bind _ _ (λ _ k1, one_session (p_session package) k1)).
      { unfold respond. destruct (srw_request req); try (apply sends_ret; by left).
        eapply sends_bind; [apply search_retrieve_sends; done|].
        intros res k1 Hk1. apply sends_ret. rewrite app_nil_r. by rewrite <-Hp, <-Hx. }
      intros [res stylesheet] k1 Hk1. eapply (sends_bind _ _ (λ _ k2, k2 = [])).
      { destruct (x_enable_log x); [apply silent_log_data|by apply sends_ret]. }
      intros extra k2 ->. eapply sends_bind; [apply silent_lift|].
      intros [b p2] k2 ->. apply sends_ret. by rewrite !app_nil_r.
    - destruct (p_request p) as [[|hreq|]|]; try done. destruct soap as [soap|].
      + apply sends_silent; [apply silent_lift|]. intros [b p2]. apply sends_ret. by left.
      + destruct (create_HTTP_Response _ _ _). apply sends_ret. by left. }
  specialize (Hs ([], w)). unfold par in Hs. rewrite Hrun in Hs.
  destruct Hs as (k' & Hk & Hone). cbn in Hk. by subst.
Qed.
End sessions.

(** ** Refusals *)
Section refusals.
Context {SOAP : Type} `{S : Srw SOAP} `{Y : Yaz} {R W : Type}.
Context (next : string → Package R → M W (Package R)).

(** What is wrong with the parameters of a search, in the order of the
    diagnostics. *)
Definition problems (sr_req : Z_SRW_searchRetrieveRequest) (number : Z) :
    list (Z * option string) :=
  (if decide (is_Some (rq_recordXPath sr_req))
   then [(SRW_XPATH_RETRIEVAL_UNSUPP, None)] else []) ++
  (if decide (is_Some (rq_resultSetTTL sr_req))
   then [(SRW_RESULT_SETS_UNSUPP, None)] else []) ++
  (if rq_sort sr_req then [(SRW_SORT_UNSUPP, None)] else []) ++
  (if decide (0 ≤ first_record sr_req ≤ number) then []
   else [(SRW_FIRST_RECORD_POSITION_OUT_OF_RANGE, None)]) ++
  (if decide (0 ≤ max_asked sr_req) then []
   else [(SRW_UNSUPP_PARAMETER_VALUE, Some "maximumRecords")]).
Definition diagnostics_of (l : list (Z * option string)) : list Z_SRW_diagnostic :=
  (λ p, yaz_mk_std_diagnostic p.1 p.2) <$> l.

Lemma refuse_spec `{!SrwLaws S Y} (b : bool) code details st l (res : Z_SRW_searchRetrieveResponse) :
  st = (bool_decide (l = []), set_rs_diagnostics (rs_diagnostics res ++ diagnostics_of l) res) →
  refuse b code details st =
    (bool_decide (l ++ (if b then [(code, details)] else []) = []), set_rs_diagnostics
      (rs_diagnostics res ++ diagnostics_of (l ++ (if b then [(code, details)] else []))) res).
Proof.
  intros ->. destruct b; cbn [refuse]; [|by rewrite app_nil_r].
  rewrite (bool_decide_eq_false_2 (l ++ _ = [])) by (by destruct l). unfold add_diagnostic. cbn.
  rewrite add_srw_diagnostic. unfold diagnostics_of. by rewrite fmap_app, app_assoc.
Qed.
Lemma check_present_spec `{!SrwLaws S Y} sr_req number (res : Z_SRW_searchRetrieveResponse) :
  check_present sr_req (first_record sr_req) (max_asked sr_req) number res =
  (bool_decide (problems sr_req number = []), set_rs_diagnostics
     (rs_diagnostics res ++ diagnostics_of (problems sr_req number)) res).
Proof.
  unfold check_present.
  assert (H0 : (true, res) = (bool_decide (@nil (Z * option string) = []),
    set_rs_diagnostics (rs_diagnostics res ++ diagnostics_of []) res)).
  { rewrite app_nil_r. by destruct res. }
  apply (refuse_spec (bool_decide (is_Some (rq_recordXPath sr_req)))
    SRW_XPATH_RETRIEVAL_UNSUPP None) in H0.
  apply (refuse_spec (bool_decide (is_Some (rq_resultSetTTL sr_req)))
    SRW_RESULT_SETS_UNSUPP None) in H0.
  apply (refuse_spec (rq_sort sr_req) SRW_SORT_UNSUPP None) in H0.
  apply (refuse_spec ((first_record sr_req <? 0) || (number <? first_record sr_req))
    SRW_FIRST_RECORD_POSITION_OUT_OF_RANGE None) in H0.
  apply (refuse_spec (max_asked sr_req <? 0) SRW_UNSUPP_PARAMETER_VALUE
    (Some "maximumRecords")) in H0.
  rewrite H0. clear H0. unfold problems. rewrite app_nil_l, <-!app_assoc.
  assert (H1 : (if (first_record sr_req <? 0) || (number <? first_record sr_req)
    then [(SRW_FIRST_RECORD_POSITION_OUT_OF_RANGE, @None string)] else []) =
    (if decide (0 ≤ first_record sr_req ≤ number) then []
     else [(SRW_FIRST_RECORD_POSITION_OUT_OF_RANGE, None)])).
  { destruct (Z.ltb_spec (first_record sr_req) 0), (Z.ltb_spec number (first_record sr_req)); cbn;
      case_decide; (done || lia). }
  assert (H2 : (if max_asked sr_req <? 0 then [(SRW_UNSUPP_PARAMETER_VALUE, Some "maximumRecords")]
    else []) = (if decide (0 ≤ max_asked sr_req) then []
     else [(SRW_UNSUPP_PARAMETER_VALUE, Some "maximumRecords")])).
  { destruct (Z.ltb_spec (max_asked sr_req) 0); 
      destruct (decide (0 ≤ max_asked sr_req)); (done || lia). }
  rewrite H1, H2. by repeat (rewrite bool_decide_decide || case_decide).
Qed.

(** C40. A search that asks for some records, not for none, with parameters that
    the filter does not support, from a position outside of the result set, or
    for a negative number, gets exactly one diagnostic for each of these faults,
    in order, and no Present is sent. The position and the number fit an [int]:
    see [start_record_truncated] for one that does not. *)
Theorem sru_refused `{!SrwLaws S Y} (conf : Conf) (fuel : nat) (package : Package R)
    (res : Z_SRW_searchRetrieveResponse) (sr_req : Z_SRW_searchRetrieveRequest)
    (number : Z) (w : W)
    (Hnumber : rs_numberOfRecords res = Some number) (Hmax : max_asked sr_req ≠ 0)
    (Hstart32 : in_int32 (first_record sr_req)) (Hmax32 : in_int32 (max_asked sr_req))
    (Hbad : problems sr_req number ≠ []) :
  z3950_present_request next conf fuel package res sr_req w =
    Ok ((false, set_rs_diagnostics
      (rs_diagnostics res ++ diagnostics_of (problems sr_req number)) res), w).
Proof.
  unfold z3950_present_request. rewrite start_of_first, max_of_asked by done.
  rewrite (proj2 (Z.eqb_neq _ _) Hmax), Hnumber.
  erewrite bind_ok by reflexivity. rewrite check_present_spec.
  by rewrite bool_decide_eq_false_2.
Qed.
(** A position is cut to 32 bits before it is checked, so one far outside of the
    result set is taken for another one, and is not refused. *)
Lemma start_record_truncated (conf : Conf) (fuel : nat) (package : Package R)
    (res : Z_SRW_searchRetrieveResponse) (w : W) :
  let request start := mk_searchRetrieveRequest "cql" (Some "x") false (Some start) (Some 1)
    None None None None None None None in
  problems (request (2 ^ 32 + 1)) 42 = [(SRW_FIRST_RECORD_POSITION_OUT_OF_RANGE, None)] ∧
  problems (request 1) 42 = [] ∧
  (rs_numberOfRecords res = Some 42 →
   z3950_present_request next conf fuel package res (request (2 ^ 32 + 1)) w =
   present_loop next fuel package (request (2 ^ 32 + 1)) 1
     (limit_recs (conf_max_recs conf) 1 1 42) 42 [] res w).
Proof.
  intros request. split_and!; [reflexivity..|]. intros Hn.
  unfold z3950_present_request. change (start_of (request (2 ^ 32 + 1))) with 1.
  change (max_of (request (2 ^ 32 + 1))) with 1. cbn [Z.eqb]. rewrite Hn. reflexivity.
Qed.

(** A target that answers with empty lists of records keeps the filter busy
    for ever; one that answers with more records than were asked for makes it
    write beyond its array. *)
Lemma empty_answers_diverge fuel package pos sr_req start max_recs number
    (res : Z_SRW_searchRetrieveResponse) (w : W) :
  (∀ p w, p_route_pos p = Some pos → ∃ p' pr w', next "" p w = Ok (p', w') ∧
     z3950 (p_response p') = Some (presentResponse pr) ∧
     pr_records pr = Some (Records_DBOSD [])) →
  p_route_pos package = Some pos → 0 < max_recs → in_int32 start →
  present_loop next fuel package sr_req start max_recs number [] res w = OutOfFuel.
Proof.
  intros Hempty Hpos Hm Hs. revert w. induction fuel as [|fuel IH]; intros w; [done|].
  cbn [present_loop length]. change (Z.of_nat 0) with 0. rewrite (proj2 (Z.ltb_lt _ _) Hm).
  unfold z3950_package. erewrite bind_ok by (apply copy_filter_ok; exact Hpos).
  rewrite chk_int_ok by (by rewrite Z.add_0_r). erewrite bind_ok by reflexivity.
  match goal with |- context [next "" ?p] => set (pp := p) end.
  destruct (Hempty pp w) as (p' & pr & w' & Hn & Hr & Hl); [done|].
  erewrite bind_ok by exact Hn. rewrite Hr, Hl. cbn [z3950_to_srw_diagnostics_ok insert_records].
  erewrite bind_ok by reflexivity. apply IH.
Qed.
(** The diagnostic for an operation other than Explain, search and scan gets
    lost. *)
Lemma unknown_operation_no_diagnostic `{PackageLog W} conf fuel (x : Extra (R := R)) p sruinfo
    explainnode req diagnostic (w : W) :
  srw_request req = SRW_update_request →
  ∃ r, respond next conf fuel x p sruinfo explainnode req diagnostic w =
    Ok ((SRW_explain_response r, None), w) ∧ es_diagnostics r = diagnostic.
Proof. intros Hr. unfold respond. rewrite Hr. by eexists. Qed.
End refusals.

(** ** Frontends and [process] *)
Section process.
Context {SOAP : Type} `{S : Srw SOAP} `{Y : Yaz} {R E : Type}.
Notation World := (Clients unit * Global E)%type.
Context `{L : PackageLog World}.
Context (next : string → Package R → M World (Package R)).

(** The frontend of a session, taken and given back: the code of [Frontends]. *)
Definition get_frontend (package : Package R) : M World unit :=
  Frontends.get_frontend id (λ c _, c) tt package.
Definition release_frontend (f : unit) (package : Package R) : M World unit :=
  Frontends.release_frontend id (λ c _, c) (λ _ _, mret tt) f package.
Definition process (conf : Conf) (fuel : nat) (package : Package R) : M World (Package R) :=
  f ← get_frontend package;
  package ← match p_request package with
            | Some (GDU_HTTP_Request _) => sru next conf fuel package
            | _ => next "" package
            end;
  release_frontend f package ;;
  mret package.
End process.

(** ** Examples *)
Definition example_request (path : string) : HTTP_Request :=
  {| hq_method := "GET"; hq_version := "1.1"; hq_path := path; hq_headers := [];
     hq_content := "" |}.
Definition example_package : Package unit :=
  mk_Package (Session.mk 7 false) Origin.create (Some tt)
    (Some (GDU_HTTP_Request (example_request "/Default?title=water"))) None.

(** A question mark in the query is taken for the one before it. *)
Example example_database :
  SruUtil.database (SruUtil.get_sru_server_info example_package) = "Default" ∧
  SruUtil.database (SruUtil.get_sru_server_info
    (set_request (Some (GDU_HTTP_Request (example_request "/Default?title=wat?r")))
       example_package)) = "Default?title=wat".
Proof. split; reflexivity. Qed.

(** In front of backend_test, for XML records of element set FF0. *)
Definition example_sr_req : Z_SRW_searchRetrieveRequest :=
  mk_searchRetrieveRequest "cql" (Some "title=water") false (Some 2) (Some 3) (Some "FF0")
    None None None None None None.
Definition example_pdu : Z_SRW_PDU :=
  mk_SRW_PDU None None [] (SRW_searchRetrieve_request example_sr_req).
Definition backend (_ : string) :
    Package unit → M (BackendTest.Rep * (option string * unit)) (Package unit) :=
  BackendTest.process (Y := ref_yaz) (λ _ p, mret p).
#[local] Instance backend_log : PackageLog (BackendTest.Rep * (option string * unit)) :=
  {| p_logger := λ w, p_logger w.2; set_logger := λ l w, (w.1, set_logger l w.2) |}.
Definition example_comp : option RecordComposition :=
  Some (RecordComp_simple (ESN_generic "FF0")).
Definition xml_records : list NamePlusRecord :=
  match BackendTest.result_set (Y := ref_yaz) recsyn_xml "FF0" with Ok l => l | _ => [] end.
Lemma xml_records_eq :
  BackendTest.result_set (Y := ref_yaz) recsyn_xml "FF0" = Ok xml_records.
Proof. vm_compute. reflexivity. Qed.
Lemma xml_records_octet : Forall xml_is_octet xml_records.
Proof. vm_compute. repeat constructor; intros _; by eexists _, _. Qed.
Lemma backend_target : SearchTarget backend BackendTest.fresh
  (BackendTest.format (Some recsyn_xml) example_comp)
  (λ _ _, BackendTest.initialised (Some recsyn_xml) example_comp) (λ _ _, xml_records).
Proof.
  apply (BackendTest.backend_test_target (Y := ref_yaz) (λ _ p, mret p) (Some recsyn_xml)
    example_comp (Some (ESN_generic "FF0")) eq_refl recsyn_xml "FF0" eq_refl xml_records
    xml_records_eq).
  intros p w _. by eexists _, _.
Qed.
Definition example_conf : Conf := mk_Conf ∅ "" 2.
Definition example_world : BackendTest.Rep * (option string * unit) :=
  (BackendTest.BackendTest_, (None, tt)).
Lemma sru_search_answered_witness :
  ∃ package' w' http recs,
    sru (S := ref_srw) (Y := ref_yaz) backend example_conf 3 example_package example_world =
      Ok (package', w') ∧
    p_response package' = Some (GDU_HTTP_Response http) ∧ hr_content http = "soap:42" ∧
    records_at (S := ref_srw) example_sr_req 2 (take 2 (drop 1 xml_records)) = Ok recs.
Proof.
  assert (Hlen : length xml_records = 42%nat) by reflexivity.
  destruct (sru_search_answered (S := ref_srw) (Y := ref_yaz) backend BackendTest.fresh
    (BackendTest.format (Some recsyn_xml) example_comp)
    (λ _ _, BackendTest.initialised (Some recsyn_xml) example_comp) (λ _ _, xml_records)
    (Htarget := backend_target) example_package tt eq_refl eq_refl example_pdu example_sr_req
    example_conf 3 example_world (example_request "/Default?title=water")
    (mk_decoded (Some example_pdu) (Some "soap:") None []) "soap:"
    (Query_type_104 (Some "title=water")))
    as (package' & w' & http & recs & facets & Hrun & Hresp & Hc & Hr);
    try reflexivity; try exact xml_records_octet; try (rewrite Hlen; vm_compute; done).
  - by eexists.
  - split_and!; reflexivity.
  - split; reflexivity.
  - by vm_compute.
  - exists package', w', http, recs. split_and!; [exact Hrun|exact Hresp|exact Hc|exact Hr].
Defined.

(** The session of that request: Init, Search, Present, the end. *)
Lemma sru_one_session_witness :
  ∃ package' k w',
    sru (S := ref_srw) (Y := ref_yaz) (L := log_of_world) (logged backend) example_conf 3
      example_package ([], example_world) = Ok (package', (k, w')) ∧
    length k = 4%nat ∧ one_session (Session.mk 7 false) k.
Proof.
  destruct (sru (S := ref_srw) (Y := ref_yaz) (L := log_of_world) (logged backend)
    example_conf 3 example_package ([], example_world)) as [[p [k w']]|?|?|] eqn:Hrun;
    [|vm_compute in Hrun; discriminate..].
  exists p, k, w'. split; [reflexivity|]. split.
  - vm_compute in Hrun. by injection Hrun as _ <- _.
  - exact (sru_one_session (S := ref_srw) (Y := ref_yaz) backend example_conf 3
      example_package p example_world w' k Hrun).
Defined.
Lemma sru_refused_witness :
  let req := mk_searchRetrieveRequest "cql" (Some "x") true (Some 50) (Some 3) None None None
    None None None None in
  z3950_present_request (S := ref_srw) (Y := ref_yaz) backend example_conf 3 example_package
    (mk_searchRetrieveResponse (Some 42) [] None [] None) req example_world =
  Ok ((false, mk_searchRetrieveResponse (Some 42) [] None
    [mk_diagnostic (Some "info:srw/diagnostic/1/80") None None;
     mk_diagnostic (Some "info:srw/diagnostic/1/61") None None] None), example_world).
Proof.
  intros req. apply (sru_refused (S := ref_srw) (Y := ref_yaz) backend example_conf 3
    example_package (mk_searchRetrieveResponse (Some 42) [] None [] None) req 42);
    [reflexivity|discriminate|done|done|discriminate].
Defined.
End SRUtoZ3950.
