(* ===== verification/HttpRewrite.v ===== *)
(** * The http_rewrite filter

    [src/filter_http_rewrite.cpp]: rules (regular expressions and
    replacements with named groups) are applied to the request line, to
    headers and to bodies, in HTML only inside chosen tags and attributes. The
    HTML events come from [HtmlParser]; Boost's regular expressions are the
    class [Regex]. *)
From S2P Require Import Prelude Zgdu Yaz Core Xml Util HtmlParser.

Module HttpRewrite.

(** ** Regular expressions *)

(** [boost::smatch]: where the match starts in the searched text, its length,
    and the texts of the groups from 1 on. *)
Record smatch : Type := mk_smatch {
  m_first : nat;
  m_len : nat;
  m_groups : list string
}.
Class Regex : Type := {
  regex : Type;
  (** Construction from a pattern, [true] for icase; may throw. *)
  regex_assign : bool → string → outcome regex;
  regex_match : string → regex → bool;
  regex_search : regex → string → option smatch
}.
Class RegexLaws (X : Regex) : Prop := {
  (** A match lies inside the text. *)
  search_inside : ∀ re s m, regex_search re s = Some m →
    (m_first m + m_len m ≤ String.length s)%nat
}.
Definition substr (off len : nat) (s : string) : string := str_take len (str_drop off s).
(** [prefix] at the start of [s]. *)
Definition starts_with (prefix s : string) : bool :=
  bool_decide (str_take (String.length prefix) s = prefix).

Section filter.
Context `{X : Regex}.
Notation Vars := (gmap string string).

(** A regex that was never assigned makes Boost throw. *)
Definition re_match (s : string) (re : option regex) : outcome bool :=
  match re with
  | Some r => Ok (regex_match s r)
  | None => Throw "Invalid regular expression object"
  end.

(** ** Data *)
Record Replace : Type := mk_Replace {
  start_anchor : bool;
  re : regex;
  recipe : string;
  group_index : gmap Z string
}.
(** [replace_list]. *)
Notation Rule := (list Replace).
Record Within : Type := mk_Within {
  header : option regex;
  attr : option regex;
  tag : option regex;
  w_type : string;
  reqline : bool;
  rule : Rule
}.
Record Content : Type := mk_Content {
  c_type : string;
  content_re : option regex;
  within_list : list Within
}.
Record Phase : Type := mk_Phase {
  m_verbose : Z;
  content_list : list Content
}.

(** ** [Replace::parse_groups] *)
Definition isalnum (c : ascii) : bool :=
  let n := nat_of_ascii c in
  (((48 <=? n) && (n <=? 57)) || ((65 <=? n) && (n <=? 90)) ||
   ((97 <=? n) && (n <=? 122)))%nat.
(** The offset of [rest] in [str]. *)
Definition offset (str rest : string) : Z :=
  Z.of_nat (String.length str) - Z.of_nat (String.length rest).

(** A group name up to [>]: the name and what follows. *)
Fixpoint group_name (str rest gname : string) : outcome (string * string) :=
  match rest with
  | EmptyString => Throw ("Unterminated group name '" +:+ gname +:+ " in '" +:+ str +:+ "'")
  | String c rest' =>
      if decide (c = ">"%char) then Ok (gname, rest')
      else if negb (isalnum c) then
        Throw ("Only alphanumeric chars allowed, found  in '" +:+ str +:+ "' at " +:+
               print_nat (offset str rest))
      else group_name str rest' (gname +:+ String c "")
  end.
(** The loop over the pattern; [res] is the pattern for Boost. *)
Fixpoint parse_groups_loop (fuel : nat) (str rest : string) (gnum : Z) (esc : bool)
    (res : string) (index : gmap Z string) : outcome (string * gmap Z string) :=
  match fuel, rest with
  | O, _ => OutOfFuel
  | _, EmptyString => Ok (res, index)
  | S fuel', String c rest' =>
      let res := res +:+ String c "" in
      if negb esc && bool_decide (c = "\"%char) then
        parse_groups_loop fuel' str rest' gnum true res index
      else if negb esc && bool_decide (c = "("%char) then
        let gnum := gnum + 1 in
        match rest' with
        | String "?" (String ":" rest'') =>
            parse_groups_loop fuel' str rest'' (if 0 <? gnum then gnum - 1 else gnum) false
              (res +:+ "?:") index
        | String "?" rest'' =>
            let rest'' := match rest'' with String "P" r => r | r => r end in
            match rest'' with
            | String "<" rest3 =>
                '(gname, rest4) ← group_name str rest3 "";
                parse_groups_loop fuel' str rest4 gnum false res (<[gnum := gname]> index)
            | _ => parse_groups_loop fuel' str rest'' gnum false res index
            end
        | _ => parse_groups_loop fuel' str rest' gnum false res index
        end
      else parse_groups_loop fuel' str rest' gnum false res index
  end.
Definition parse_groups (pattern recipe : string) : outcome Replace :=
  '(res, index) ← parse_groups_loop (S (String.length pattern)) pattern pattern 0 false "" ∅;
  re ← regex_assign false res;
  Ok (mk_Replace (starts_with "^" pattern) re recipe index).

(** ** [Replace::sub_vars] *)

(** A variable name up to the closing brace: the name and what follows. *)
Fixpoint var_name (rest name : string) : option (string * string) :=
  match rest with
  | EmptyString => None
  | String c rest' =>
      if decide (c = "}"%char) then Some (name, rest')
      else var_name rest' (name +:+ String c "")
  end.
Fixpoint sub_vars_loop (fuel : nat) (vars : Vars) (recipe rest : string) (esc : bool)
    (out : string) : outcome string :=
  match fuel, rest with
  | O, _ => OutOfFuel
  | _, EmptyString => Ok out
  | S fuel', String c rest' =>
      if negb esc && bool_decide (c = "\"%char) then
        sub_vars_loop fuel' vars recipe rest' true out
      else if negb esc && bool_decide (c = "$"%char) then
        match rest' with
        | String "{" rest'' =>
            match var_name rest'' "" with
            | None => Throw ("Unterminated var ref in '" +:+ recipe +:+ "' at " +:+
                             print_nat (Z.of_nat (String.length recipe)))
            | Some (name, rest3) =>
                sub_vars_loop fuel' vars recipe rest3 false
                  (out +:+ default "" (vars !! name))
            end
        | _ => Throw ("Malformed or trimmed var ref in '" +:+ recipe +:+ "' at " +:+
                      print_nat (offset recipe rest))
        end
      else sub_vars_loop fuel' vars recipe rest' false (out +:+ String c "")
  end.
Definition sub_vars (recipe : string) (vars : Vars) : outcome string :=
  sub_vars_loop (S (String.length recipe)) vars recipe recipe false "".

(** ** [Rule::test_patterns] *)

(** The first match among the patterns; the earlier pattern wins a tie. *)
Definition better (best : option (Replace * smatch)) (it : Replace) (what : smatch) :
    option (Replace * smatch) :=
  match best with
  | Some (_, b) => if (m_first what <? m_first b)%nat then Some (it, what) else best
  | None => Some (it, what)
  end.
Definition best_match (rules : Rule) (first : bool) (s : string) :
    option (Replace * smatch) :=
  foldl (λ best it,
    if start_anchor it && negb first then best
    else match regex_search (re it) s with
         | Some what => better best it what
         | None => best
         end) None rules.
Fixpoint set_groups (index : gmap Z string) (i : Z) (groups : list string) (vars : Vars) :
    Vars :=
  match groups with
  | [] => vars
  | g :: groups' =>
      set_groups index (i + 1) groups'
        (match index !! i with Some name => <[name := g]> vars | None => vars end)
  end.
Fixpoint test_loop (fuel : nat) (rules : Rule) (skip_list : list regex) (first : bool)
    (start out : string) (replaces : bool) : M Vars (bool * string) :=
  match fuel with
  | O => out_of_fuel
  | S fuel' =>
      match best_match rules first start with
      | None => mret (replaces, out +:+ start)
      | Some (bit, bwhat) =>
          modify (set_groups (group_index bit) 1 (m_groups bwhat)) ;;
          let whole := substr (m_first bwhat) (m_len bwhat) start in
          let skipthis := existsb (λ re, match regex_search re whole with
                                         | Some _ => true | None => false end) skip_list in
          vars ← get;
          rvalue ← lift_outcome (sub_vars (recipe bit) vars);
          let out := out +:+ str_take (m_first bwhat) start in
          let out := if skipthis then out +:+ c_str whole else out +:+ rvalue in
          test_loop fuel' rules skip_list false
            (str_drop (m_first bwhat + m_len bwhat) start) out true
      end
  end.
(** The result and the new text. [fuel] bounds the number of matches. *)
Definition test_patterns (fuel : nat) (rules : Rule) (txt : string) (anchor : bool)
    (skip_list : list regex) : M Vars (bool * string) :=
  test_loop fuel rules skip_list anchor txt "" false.

(** ** [embed_quoted_literal] *)
Definition quot : string := "&quot;".

(** The end of a literal: the text before it and the text from it on. *)
Fixpoint until_quot (cp : string) : string * string :=
  match cp with
  | EmptyString => ("", "")
  | String c cp' =>
      if starts_with quot cp || bool_decide (c = "010"%char) then ("", cp)
      else let '(s, r) := until_quot cp' in (String c s, r)
  end.
Fixpoint until_quote (m prev : ascii) (cp : string) : string * string :=
  match cp with
  | EmptyString => ("", "")
  | String c cp' =>
      if (negb (bool_decide (prev = "\"%char)) && bool_decide (c = m)) ||
         bool_decide (c = "010"%char) then ("", cp)
      else let '(s, r) := until_quote m c cp' in (String c s, r)
  end.
(** From a [//]: the rest of the line but its last character, which the
    [cp++] at the end of the loop skips. *)
Fixpoint to_line_end (cp : string) : string * string :=
  match cp with
  | String c (String d _ as cp') =>
      if decide (d = "010"%char) then ("", cp)
      else let '(s, r) := to_line_end cp' in (String c s, r)
  | _ => ("", cp)
  end.

(** The loop; [seg] is the text from [cp0] to [cp]. *)
Fixpoint quoted_loop (fuel : nat) (test : string → M Vars (bool * string))
    (html_context : bool) (cp seg res : string) (replace : bool) : M Vars (bool * string) :=
  match fuel with
  | O => out_of_fuel
  | S fuel' =>
      match cp with
      | EmptyString => mret (replace, res +:+ seg)
      | String c cp' =>
          let literal (opening : string) (lr : string * string) :=
            let '(s, rest) := lr in
            let res := res +:+ seg +:+ opening in
            match rest with
            | EmptyString => mret (replace, res +:+ s)
            | String d rest' =>
                '(r, s) ← test s;
                quoted_loop fuel' test html_context rest' (String d "") (res +:+ s)
                  (replace || r)
            end in
          if html_context && starts_with quot cp then
            literal quot (until_quot (str_drop (String.length quot) cp))
          else if bool_decide (c = "034"%char) || bool_decide (c = "'"%char) then
            literal (String c "") (until_quote c c cp')
          else if starts_with "//" cp then
            let '(s, rest) := to_line_end cp in
            quoted_loop fuel' test html_context (str_drop 1 rest)
              (seg +:+ s +:+ str_take 1 rest) res replace
          else quoted_loop fuel' test html_context cp' (seg +:+ String c "") res replace
      end
  end.
Definition embed_quoted_literal (fuel : nat) (content : string) (rules : Rule)
    (html_context : bool) (skip_list : list regex) : M Vars (bool * string) :=
  quoted_loop (S (String.length content))
    (λ s, test_patterns fuel rules s true skip_list) html_context (c_str content) "" "" false.

(** [Within::exec]. *)
Definition exec (fuel : nat) (w : Within) (txt : string) (anchor : bool)
    (skip_list : list regex) : M Vars (bool * string) :=
  if decide (w_type w = "quoted-literal") then
    embed_quoted_literal fuel txt (rule w) true skip_list
  else test_patterns fuel (rule w) txt anchor skip_list.

(** ** [Event]: rewriting HTML *)
Record EvState : Type := mk_EvState {
  m_w : string;
  s_within : list Within;
  m_vars : Vars
}.
Definition puts (s : string) : M EvState unit :=
  modify (λ st, mk_EvState (m_w st +:+ s) (s_within st) (m_vars st)).
Definition set_within (l : list Within) : M EvState unit :=
  modify (λ st, mk_EvState (m_w st) l (m_vars st)).
Definition with_vars {A} (m : M Vars A) : M EvState A := λ st,
  match m (m_vars st) with
  | Ok (a, v) => Ok (a, mk_EvState (m_w st) (s_within st) v)
  | Throw e => Throw e
  | Undef k => Undef k
  | OutOfFuel => OutOfFuel
  end.

(** [!r.empty() && regex_match(s, r)]. *)
Definition some_match (s : string) (r : option regex) : bool :=
  match r with Some r => regex_match s r | None => false end.

Section event.
Context (fuel : nat) (m_content : Content) (m_skips : list regex) (buf : list ascii).

(** [std::string(p, len)] for a pointer into the document. *)
Definition slice (p len : nat) : string := string_of_list_ascii (take len (drop p buf)).

Definition openTagStart_ (t : string) : M EvState unit :=
  puts ("<" +:+ t) ;;
  match find_first (λ it, some_match t (tag it) && some_match "#text" (attr it))
    (within_list m_content) with
  | Some (_, it) => st ← get; set_within (it :: s_within st)
  | None => mret tt
  end.
(** What a tag that ends pops off the stack. *)
Definition pop_within (t : string) : M EvState unit :=
  st ← get;
  match s_within st with
  | it :: rest => b ← lift_outcome (re_match t (tag it));
                  if (b : bool) then set_within rest else mret tt
  | [] => mret tt
  end.
Definition anyTagEnd_ (t : string) (close_it : bool) : M EvState unit :=
  (if close_it then pop_within t ;; puts "/" else mret tt) ;; puts ">".
Definition attribute_ (t a : string) (value : option string) (sep : string) : M EvState unit :=
  let found := find_first (λ it,
    match tag it with None => true | Some r => regex_match t r end && some_match a (attr it))
    (within_list m_content) in
  puts (" " +:+ a) ;;
  match value with
  | None => mret tt
  | Some v =>
      puts ("=" +:+ sep) ;;
      (match found with
       | Some (_, it) => '(_, s) ← with_vars (exec fuel it v true m_skips); puts (c_str s)
       | None => puts v
       end) ;;
      puts sep
  end.
Definition closeTag_ (t : string) : M EvState unit :=
  pop_within t ;; puts ("</" +:+ t).
Definition text_ (v : string) : M EvState unit :=
  st ← get;
  match s_within st with
  | it :: _ => '(_, s) ← with_vars (exec fuel it v false m_skips); puts (c_str s)
  | [] => puts v
  end.

(** The separator is a C string of at most one character. *)
Definition sep_string (tr : option ascii) : string :=
  match tr with Some c => c_str (String c "") | None => "" end.
Definition handle_event (e : event) : M EvState unit :=
  match e with
  | openTagStart p len => openTagStart_ (slice p len)
  | attribute p len a alen value tr =>
      attribute_ (slice p len) (slice a alen)
        ((λ v : nat * nat, slice v.1 v.2) <$> value) (sep_string tr)
  | anyTagEnd p len close_it => anyTagEnd_ (slice p len) close_it
  | closeTag p len => closeTag_ (slice p len)
  | text p len => text_ (slice p len)
  end.
Fixpoint handle_events (l : list event) : M EvState unit :=
  match l with
  | [] => mret tt
  | e :: l' => handle_event e ;; handle_events l'
  end.
End event.

Context `{Y : Yaz}.

(** [Content::quoted_literal] and [Content::parse]; the parser calls the
    handlers as it goes, which is handling its events in order. *)
Definition quoted_literal (fuel : nat) (c : Content) (content : string)
    (skip_list : list regex) : M Vars string :=
  match within_list c with
  | it :: _ => '(_, s) ← embed_quoted_literal fuel content (rule it) false skip_list; mret s
  | [] => mret content
  end.
Definition parse_html (fuel : nat) (c : Content) (content : string)
    (skip_list : list regex) : M Vars string := λ vars,
  match HtmlParser.parse (c_str content) Rep_init with
  | Ok (_, rep) =>
      match handle_events fuel c skip_list (list_ascii_of_string (c_str content))
              (events rep) (mk_EvState "" [] vars) with
      | Ok (_, st) => Ok (c_str (m_w st), m_vars st)
      | Throw e => Throw e
      | Undef k => Undef k
      | OutOfFuel => OutOfFuel
      end
  | Throw e => Throw e
  | Undef k => Undef k
  | OutOfFuel => OutOfFuel
  end.
Definition parse (fuel : nat) (c : Content) (content : string) (skip_list : list regex) :
    M Vars string :=
  if decide (c_type c = "html") then parse_html fuel c content skip_list
  else if decide (c_type c = "quoted-literal") then
    quoted_literal fuel c content skip_list
  else mret content.

(** ** [Phase] *)
Definition find_headers (p : Phase) : option Content :=
  snd <$> find_first (λ c, bool_decide (c_type c = "headers")) (content_list p).

Definition proto (bind_addr : string) : string :=
  if starts_with "ssl:" bind_addr then "https" else "http".
Definition absolute (path : string) : bool :=
  starts_with "http://" path || starts_with "https://" path.

(** The rules of the [within]s that [sel] selects, one after the other; the
    value that the last successful one leaves. *)
Fixpoint exec_all (fuel : nat) (sel : Within → outcome bool) (l : list Within)
    (s result : string) : M Vars string :=
  match l with
  | [] => mret result
  | it :: l' =>
      b ← lift_outcome (sel it);
      if (b : bool) then
        '(r, s') ← exec fuel it s true [];
        exec_all fuel sel l' s' (if (r : bool) then c_str s' else result)
      else exec_all fuel sel l' s result
  end.

Definition set_path (v : string) (r : HTTP_Request) : HTTP_Request :=
  {| hq_method := hq_method r; hq_version := hq_version r; hq_path := v;
     hq_headers := hq_headers r; hq_content := hq_content r |}.
Definition set_headers (v : list HTTP_Header) (r : HTTP_Request) : HTTP_Request :=
  {| hq_method := hq_method r; hq_version := hq_version r; hq_path := hq_path r;
     hq_headers := v; hq_content := hq_content r |}.
Definition set_content (v : string) (r : HTTP_Request) : HTTP_Request :=
  {| hq_method := hq_method r; hq_version := hq_version r; hq_path := hq_path r;
     hq_headers := hq_headers r; hq_content := v |}.

Definition rewrite_reqline (fuel : nat) (p : Phase) (hreq : HTTP_Request)
    (bind_addr : string) : M Vars HTTP_Request :=
  match (if absolute (hq_path hreq) then Some (hq_path hreq)
         else match z_HTTP_header_lookup (hq_headers hreq) "Host" with
              | Some host => Some (proto bind_addr +:+ "://" +:+ host +:+ hq_path hreq)
              | None => None
              end) with
  | None => mret hreq
  | Some path =>
      match find_headers p with
      | None => mret hreq
      | Some c =>
          path' ← exec_all fuel (λ it, Ok (reqline it)) (within_list c) path (hq_path hreq);
          mret (set_path path' hreq)
      end
  end.

(** One header: each [within] starts from the value as it is now. *)
Fixpoint rewrite_header (fuel : nat) (l : list Within) (name value : option string) :
    M Vars (option string) :=
  match l with
  | [] => mret value
  | it :: l' =>
      match header it with
      | None => rewrite_header fuel l' name value
      | Some r =>
          name' ← deref name;
          if regex_match name' r then
            hval ← deref value;
            '(b, hval') ← exec fuel it hval true [];
            rewrite_header fuel l' name (if (b : bool) then Some (c_str hval') else value)
          else rewrite_header fuel l' name value
      end
  end.
Fixpoint rewrite_header_list (fuel : nat) (l : list Within) (headers : list HTTP_Header) :
    M Vars (list HTTP_Header) :=
  match headers with
  | [] => mret []
  | h :: headers' =>
      v ← rewrite_header fuel l (hh_name h) (hh_value h);
      rest ← rewrite_header_list fuel l headers';
      mret ({| hh_name := hh_name h; hh_value := v |} :: rest)
  end.
Definition rewrite_headers (fuel : nat) (p : Phase) (headers : list HTTP_Header) :
    M Vars (list HTTP_Header) :=
  match find_headers p with
  | None => mret headers
  | Some c => rewrite_header_list fuel (within_list c) headers
  end.

(** The first content section for a media type. *)
Fixpoint find_content (content_type : string) (l : list Content) : outcome (option Content) :=
  match l with
  | [] => Ok None
  | c :: l' =>
      if decide (c_type c = "headers") then find_content content_type l'
      else b ← re_match content_type (content_re c);
           if (b : bool) then Ok (Some c) else find_content content_type l'
  end.
Definition has_nul (s : string) : bool :=
  existsb (λ c, bool_decide (c = NUL)) (list_ascii_of_string s).
Definition rewrite_body (fuel : nat) (p : Phase) (content_type : option string)
    (content : string) (skip_list : list regex) : M Vars string :=
  if decide (content = "") then mret content
  else match content_type with
       | None => mret content
       | Some content_type =>
           c ← lift_outcome (find_content content_type (content_list p));
           match c with
           | None => mret content
           | Some c =>
               if has_nul content then mret content
               else s ← parse fuel c content skip_list; mret (c_str s)
           end
       end.

(** [read_skip_headers]: the X-Metaproxy-SkipLink headers are removed; those
    whose page pattern matches the URL give a link pattern. *)
Fixpoint skip_loop (fuel : nat) (url : string) (headers : list HTTP_Header)
    (skip_list : list regex) : outcome (list regex * list HTTP_Header) :=
  match fuel with
  | O => OutOfFuel
  | S fuel' =>
      let '(hv, headers) := z_HTTP_header_remove headers "X-Metaproxy-SkipLink" in
      match hv with
      | None => Ok (skip_list, headers)
      | Some hv =>
          match find_char " " hv with
          | None => skip_loop fuel' url headers skip_list
          | Some i =>
              pagere ← regex_assign false (str_take i hv);
              match regex_search pagere url with
              | Some _ =>
                  linkre ← regex_assign false (str_drop (S i) hv);
                  skip_loop fuel' url headers (skip_list ++ [linkre])
              | None => skip_loop fuel' url headers skip_list
              end
          end
      end
  end.
Definition read_skip_headers (hreq : HTTP_Request) (bind_addr : string) :
    outcome (list regex * HTTP_Request) :=
  let url :=
    if absolute (hq_path hreq) then hq_path hreq
    else match z_HTTP_header_lookup (hq_headers hreq) "Host" with
         | Some host => proto bind_addr +:+ "://" +:+ host +:+ hq_path hreq
         | None => hq_path hreq
         end in
  '(skip_list, headers) ← skip_loop (S (length (hq_headers hreq))) url (hq_headers hreq) [];
  Ok (skip_list, set_headers headers hreq).

(** ** [HttpRewrite::process] *)
Definition rewrite_request (fuel : nat) (req_phase : Phase) (hreq : HTTP_Request)
    (bind_addr : string) : M Vars (HTTP_Request * list regex) :=
  hreq ← rewrite_reqline fuel req_phase hreq bind_addr;
  '(skip_list, hreq) ← lift_outcome (read_skip_headers hreq bind_addr);
  headers ← rewrite_headers fuel req_phase (hq_headers hreq);
  body ← rewrite_body fuel req_phase (z_HTTP_header_lookup headers "Content-Type")
           (hq_content hreq) skip_list;
  mret (set_content body (set_headers headers hreq), skip_list).
Definition rewrite_response (fuel : nat) (res_phase : Phase) (hres : HTTP_Response)
    (skip_list : list regex) : M Vars HTTP_Response :=
  headers ← rewrite_headers fuel res_phase (hr_headers hres);
  body ← rewrite_body fuel res_phase (z_HTTP_header_lookup headers "Content-Type")
           (hr_content hres) skip_list;
  mret (set_hr_content body (set_hr_headers headers hres)).

Context {R W : Type}.
(** The variables of a request are also seen by the rules of its response. *)
Definition process (fuel : nat) (req_phase res_phase : Phase)
    (next : string → Package R → M W (Package R)) (package : Package R) : M W (Package R) :=
  '(package, vars, skip_list) ←
    (match p_request package with
     | Some (GDU_HTTP_Request hreq) =>
         '((hreq, skip_list), vars) ← lift_outcome (rewrite_request fuel req_phase hreq
           (Origin.get_bind_address (p_origin package)) ∅);
         mret (set_request (Some (GDU_HTTP_Request hreq)) package, vars, skip_list)
     | _ => mret (package, ∅, [])
     end);
  package ← next "" package;
  match p_response package with
  | Some (GDU_HTTP_Response hres) =>
      '(hres, _) ← lift_outcome (rewrite_response fuel res_phase hres skip_list vars);
      mret (set_response (Some (GDU_HTTP_Response hres)) package)
  | _ => mret package
  end.

(** ** Configuration *)
Definition assign_icase (s : string) : outcome (option regex) :=
  if decide (s = "") then Ok None else r ← regex_assign true s; Ok (Some r).

(** [boost::split] at commas: at least one item. *)
Fixpoint split_comma (s acc : string) : list string :=
  match s with
  | EmptyString => [acc]
  | String c s' =>
      if decide (c = ","%char) then acc :: split_comma s' ""
      else split_comma s' (acc +:+ String c "")
  end.
Fixpoint join_rules (rules : gmap string Rule) (names : list string) : outcome Rule :=
  match names with
  | [] => Ok []
  | n :: names' =>
      match rules !! n with
      | None => Throw ("Reference to non-existing rule '" +:+ n +:+ "' in http_rewrite filter")
      | Some r => r' ← join_rules rules names'; Ok (r ++ r')
      end
  end.
Definition configure_within (n : xmlNode) (rules : gmap string Rule) : outcome Within :=
  values ← mp_xml.parse_attr [n] ["header"; "attr"; "tag"; "rule"; "reqline"; "type"];
  h ← assign_icase (nth 0 values "");
  a ← assign_icase (nth 1 values "");
  t ← assign_icase (nth 2 values "");
  r ← join_rules rules (split_comma (nth 3 values "") "");
  let ty := nth 5 values "" in
  if decide (ty = "" ∨ ty = "quoted-literal") then
    Ok (mk_Within h a t ty (bool_decide (nth 4 values "" = "1")) r)
  else Throw "within type must be quoted-literal or none in  in http_rewrite filter".
Fixpoint configure_content (ptr : list xmlNode) (rules : gmap string Rule) :
    outcome (list Within) :=
  match ptr with
  | [] => Ok []
  | n :: ptr' =>
      if decide (n_type n = XML_ELEMENT_NODE ∧ n_name n = "within") then
        w ← configure_within n rules;
        l ← configure_content ptr' rules;
        Ok (w :: l)
      else configure_content ptr' rules
  end.
Fixpoint rewrite_attrs (l : list xmlAttr) (from recipe : string) : outcome (string * string) :=
  match l with
  | [] => Ok (from, recipe)
  | a :: l' =>
      if decide (a_name a = "from") then rewrite_attrs l' (mp_xml.get_text (a_children a)) recipe
      else if decide (a_name a = "to") then
        rewrite_attrs l' from (mp_xml.get_text (a_children a))
      else Throw ("Bad attribute " +:+ a_name a +:+ " in rewrite section of http_rewrite")
  end.
Fixpoint configure_rule (ptr : list xmlNode) : outcome Rule :=
  match ptr with
  | [] => Ok []
  | n :: ptr' =>
      if decide (n_type n ≠ XML_ELEMENT_NODE) then configure_rule ptr'
      else if decide (n_name n = "rewrite") then
        '(from, recipe) ← rewrite_attrs (n_properties n) "" "";
        if decide (from = "") then configure_rule ptr'
        else r ← parse_groups from recipe;
             l ← configure_rule ptr';
             Ok (r :: l)
      else Throw ("Bad element " +:+ n_name n +:+ " in http_rewrite filter")
  end.
Fixpoint configure_phase_loop (ptr : list xmlNode) (rules : gmap string Rule)
    (phase : Phase) : outcome Phase :=
  match ptr with
  | [] => Ok phase
  | n :: ptr' =>
      if decide (n_type n ≠ XML_ELEMENT_NODE) then configure_phase_loop ptr' rules phase
      else if decide (n_name n = "rule") then
        values ← mp_xml.parse_attr [n] ["name"];
        r ← configure_rule (n_children n);
        configure_phase_loop ptr' (<[nth 0 values "" := r]> rules) phase
      else if decide (n_name n = "content") then
        values ← mp_xml.parse_attr [n] ["type"; "mime"];
        let ty := nth 0 values "" in
        if decide (ty = "") then
          Throw ("Missing attribute, type for for element " +:+ n_name n +:+
                 " in http_rewrite filter")
        else
          cre ← assign_icase (nth 1 values "");
          l ← configure_content (n_children n) rules;
          configure_phase_loop ptr' rules
            (mk_Phase (m_verbose phase) (content_list phase ++ [mk_Content ty cre l]))
      else Throw ("Bad element " +:+ n_name n +:+ " in http_rewrite filter")
  end.
(** [parse_attr] clears the "0" that the code puts into [values[0]]. *)
Definition configure_phase (ptr : xmlNode) (phase : Phase) : outcome Phase :=
  values ← mp_xml.parse_attr [ptr] ["verbose"];
  configure_phase_loop (n_children ptr) ∅
    (mk_Phase (mp_xml.atoi (nth 0 values "")) (content_list phase)).
Fixpoint configure_loop (ptr : list xmlNode) (req_phase res_phase : Phase) :
    outcome (Phase * Phase) :=
  match ptr with
  | [] => Ok (req_phase, res_phase)
  | n :: ptr' =>
      if decide (n_type n ≠ XML_ELEMENT_NODE) then configure_loop ptr' req_phase res_phase
      else if decide (n_name n = "request") then
        p ← configure_phase n req_phase; configure_loop ptr' p res_phase
      else if decide (n_name n = "response") then
        p ← configure_phase n res_phase; configure_loop ptr' req_phase p
      else Throw ("Bad element " +:+ n_name n +:+ " in http_rewrite filter")
  end.
Definition configure (ptr : xmlNode) : outcome (Phase * Phase) :=
  configure_loop (n_children ptr) (mk_Phase 0 []) (mk_Phase 0 []).

(** ** What rewriting does to a text *)

(** The text that a recipe stands for: a backslash takes the meaning of the
    character behind it away, a reference stands for the value of a variable. *)
Inductive recipe_text (vars : Vars) : string → string → Prop :=
  | recipe_nil : recipe_text vars "" ""
  | recipe_last : recipe_text vars "\" ""
  | recipe_char c s t :
      c ≠ "\"%char → c ≠ "$"%char → recipe_text vars s t →
      recipe_text vars (String c s) (String c t)
  | recipe_escaped c s t :
      recipe_text vars s t → recipe_text vars (String "\" (String c s)) (String c t)
  | recipe_variable name s t :
      without "}" name → recipe_text vars s t →
      recipe_text vars ("${" +:+ (name +:+ ("}" +:+ s))) (default "" (vars !! name) +:+ t).
(** The variables after a match: those named by its groups have the texts of
    the groups, of the last one if there are several; the others are as before. *)
Definition captured (r : Replace) (what : smatch) (vars vars' : Vars) : Prop :=
  ∀ name,
    (∃ i g, group_index r !! Z.of_nat (S i) = Some name ∧ m_groups what !! i = Some g ∧
       (∀ j g', (i < j)%nat → m_groups what !! j = Some g' →
          group_index r !! Z.of_nat (S j) ≠ Some name) ∧
       vars' !! name = Some g) ∨
    (∀ i g, m_groups what !! i = Some g → group_index r !! Z.of_nat (S i) ≠ Some name) ∧
    vars' !! name = vars !! name.
(** A pattern that is anchored is searched for in front of the first match only. *)
Definition allowed (first : bool) (r : Replace) : Prop := start_anchor r = true → first = true.
(** [r] matches in [s] before all other rules, and before those behind it if at
    the same place. *)
Definition matches_first (rules : Rule) (first : bool) (s : string) (r : Replace)
    (what : smatch) : Prop :=
  ∃ l1 l2, rules = l1 ++ r :: l2 ∧ allowed first r ∧ regex_search (re r) s = Some what ∧
    (∀ r' what', r' ∈ l1 → allowed first r' → regex_search (re r') s = Some what' →
       (m_first what < m_first what')%nat) ∧
    (∀ r' what', r' ∈ l2 → allowed first r' → regex_search (re r') s = Some what' →
       (m_first what ≤ m_first what')%nat).
(** [rewritten rules skips first vars s b t vars']: the text [s] becomes [t], the
    variables become [vars'], and [b] says whether there was a match. *)
Inductive rewritten (rules : Rule) (skips : list regex) :
    bool → Vars → string → bool → string → Vars → Prop :=
  | rewritten_rest first vars s :
      (∀ r, r ∈ rules → allowed first r → regex_search (re r) s = None) →
      rewritten rules skips first vars s false s vars
  | rewritten_match first vars before m after r what vars1 new b t vars2 :
      matches_first rules first (before +:+ (m +:+ after)) r what →
      String.length before = m_first what → String.length m = m_len what →
      captured r what vars vars1 →
      (∃ k, k ∈ skips ∧ is_Some (regex_search k m)) ∧ new = m ∨
      (∀ k, k ∈ skips → regex_search k m = None) ∧ recipe_text vars1 (recipe r) new →
      rewritten rules skips false vars1 after b t vars2 →
      rewritten rules skips first vars (before +:+ (m +:+ after)) true
        (before +:+ (new +:+ t)) vars2.

(** *** Recipes *)
Lemma var_name_spec rest acc name r : var_name rest acc = Some (name, r) →
  ∃ n, name = acc +:+ n ∧ rest = n +:+ String "}" r ∧ without "}" n.
Proof.
  revert acc. induction rest as [|c rest IH]; intros acc; cbn [var_name]; [done|].
  case_decide as Hc.
  - intros [= <- <-]. exists "". rewrite str_app_nil_r. by subst.
  - intros (n & -> & -> & Hn)%IH. exists (String c n).
    rewrite <-str_app_assoc, str_app_cons, str_app_nil_l. split_and!; [done|done|].
    by apply without_cons.
Qed.
Lemma sub_vars_loop_spec fuel vars recipe rest esc out o :
  sub_vars_loop fuel vars recipe rest esc out = Ok o →
  ∃ t, o = out +:+ t ∧ recipe_text vars (if (esc : bool) then String "\" rest else rest) t.
Proof.
  revert rest esc out. induction fuel as [|fuel IH]; intros rest esc out; [done|].
  cbn [sub_vars_loop]. destruct rest as [|c rest].
  { intros [= <-]. exists "". rewrite str_app_nil_r. by destruct esc; (split; [done|constructor]). }
  assert (Hlit : ∀ t, recipe_text vars rest t → esc = true ∨ c ≠ "\"%char ∧ c ≠ "$"%char →
    recipe_text vars (if esc then String "\" (String c rest) else String c rest) (String c t)).
  { intros t Ht [->|[H1 H2]]; [by constructor|]. destruct esc; by constructor. }
  destruct (bool_decide_reflect (c = "\"%char)) as [->|H1].
  { destruct esc; cbn [negb andb].
    - intros (t & -> & Ht)%IH. exists (String "\" t). rewrite <-str_app_assoc.
      split; [done|]. rewrite ?andb_false_l in *. by apply Hlit; [|left].
    - intros (t & -> & Ht)%IH. by exists t. }
  rewrite andb_false_r. destruct (negb esc && bool_decide (c = "$"%char)) eqn:H2.
  - apply andb_true_iff in H2 as [He Hc%bool_decide_eq_true]. destruct esc; [done|]. subst c.
    destruct rest as [|d rest]; [done|].
    destruct (decide (d = "{"%char)) as [->|Hd].
    + destruct (var_name rest "") as [[name r]|] eqn:E; [|done].
      apply var_name_spec in E as (n & -> & -> & Hn). rewrite str_app_nil_l in *.
      intros (t & -> & Ht)%IH. exists (default "" (vars !! n) +:+ t).
      rewrite <-str_app_assoc. split; [done|]. by apply (recipe_variable vars n r t).
    + destruct d as [[] [] [] [] [] [] [] []]; done.
  - intros (t & -> & Ht)%IH. exists (String c t). rewrite <-str_app_assoc. split; [done|].
    apply Hlit; [done|]. destruct esc; [by left|right]. cbn in H2.
    by apply bool_decide_eq_false in H2.
Qed.
Lemma sub_vars_spec recipe vars o : sub_vars recipe vars = Ok o → recipe_text vars recipe o.
Proof. intros (t & -> & Ht)%sub_vars_loop_spec. by rewrite str_app_nil_l. Qed.

(** *** Matches *)
Lemma set_groups_spec r groups (k : nat) vars name :
  (∃ i g, group_index r !! Z.of_nat (k + S i) = Some name ∧ groups !! i = Some g ∧
     (∀ j g', (i < j)%nat → groups !! j = Some g' →
        group_index r !! Z.of_nat (k + S j) ≠ Some name) ∧
     set_groups (group_index r) (Z.of_nat (S k)) groups vars !! name = Some g) ∨
  (∀ i g, groups !! i = Some g → group_index r !! Z.of_nat (k + S i) ≠ Some name) ∧
  set_groups (group_index r) (Z.of_nat (S k)) groups vars !! name = vars !! name.
Proof.
  revert k vars. induction groups as [|g groups IH]; intros k vars.
  { right. split; [|done]. intros i g. by rewrite lookup_nil. }
  cbn [set_groups]. set (vars1 := match _ with Some name => _ | None => _ end).
  replace (Z.of_nat (S k) + 1) with (Z.of_nat (S (S k))) by lia.
  destruct (IH (S k) vars1) as [(i & g1 & Hi & Hg & Hlast & Hset)|[Hno Hset]].
  - left. exists (S i), g1. replace (k + S (S i))%nat with (S k + S i)%nat by lia.
    split_and!; [done|done| |done]. intros [|j] g' Hj Hgj; [lia|].
    replace (k + S (S j))%nat with (S k + S j)%nat by lia. apply (Hlast j g'); [lia|done].
  - assert (Hvars1 : vars1 !! name = if decide (group_index r !! Z.of_nat (k + 1) = Some name)
      then Some g else vars !! name).
    { unfold vars1. replace (Z.of_nat (S k)) with (Z.of_nat (k + 1)) by lia.
      destruct (group_index r !! Z.of_nat (k + 1)) as [n|]; [|done].
      case_decide as Hn; [injection Hn as ->; by rewrite lookup_insert_eq|].
      rewrite lookup_insert_ne by congruence. done. }
    case_decide as Hn.
    + left. exists O, g. split_and!; [done|done| |by rewrite Hset].
      intros [|j] g' Hj Hgj; [lia|]. replace (k + S (S j))%nat with (S k + S j)%nat by lia.
      by apply (Hno j g').
    + right. split; [|by rewrite Hset]. intros [|i] g' Hg; [done|].
      replace (k + S (S i))%nat with (S k + S i)%nat by lia. by apply (Hno i g').
Qed.
Lemma set_groups_captured r what vars :
  captured r what vars (set_groups (group_index r) 1 (m_groups what) vars).
Proof. intros name. exact (set_groups_spec r (m_groups what) 0 vars name). Qed.
(** The loop over the rules, with the rules before. *)
Lemma best_match_spec rules first s :
  match best_match rules first s with
  | Some (r, what) => matches_first rules first s r what
  | None => ∀ r, r ∈ rules → allowed first r → regex_search (re r) s = None
  end.
Proof.
  unfold best_match. induction rules as [|it l IH] using rev_ind.
  { intros r Hr. by apply not_elem_of_nil in Hr. }
  rewrite foldl_app. cbn [foldl]. set (best := foldl _ None l) in *. clearbody best.
  assert (Hskip : ¬ allowed first it ∨ regex_search (re it) s = None →
    match best with
    | Some (r, what) => matches_first (l ++ [it]) first s r what
    | None => ∀ r, r ∈ l ++ [it] → allowed first r → regex_search (re r) s = None
    end).
  { intros Hit. destruct best as [[r what]|].
    - destruct IH as (l1 & l2 & -> & Ha & Hs & H1 & H2). exists l1, (l2 ++ [it]).
      rewrite <-app_assoc. split_and!; [done..|].
      intros r' what' [Hr|Hr%list_elem_of_singleton]%elem_of_app; [by apply H2|].
      subst r'. intros Ha' Hs'. destruct Hit; [done|congruence].
    - intros r [Hr|Hr%list_elem_of_singleton]%elem_of_app Ha; [by apply IH|]. subst r.
      by destruct Hit. }
  destruct (start_anchor it && negb first) eqn:Hanchor.
  { apply Hskip. left. apply andb_true_iff in Hanchor as [H1 H2]. intros Ha.
    rewrite (Ha H1) in H2. done. }
  assert (Hit : allowed first it).
  { intros H1. rewrite H1 in Hanchor. by destruct first. }
  destruct (regex_search (re it) s) as [what|] eqn:Hs; [|apply Hskip; by right].
  destruct best as [[r b]|]; cbn [better].
  - destruct IH as (l1 & l2 & -> & Ha & Hr & H1 & H2).
    destruct (Nat.ltb_spec (m_first what) (m_first b)) as [Hlt|Hge].
    + exists (l1 ++ r :: l2), []. split_and!; [done..| |].
      * intros r' what' [Hr'|[->|Hr']%elem_of_cons]%elem_of_app Ha' Hs'.
        -- specialize (H1 r' what' Hr' Ha' Hs'). lia.
        -- rewrite Hr in Hs'. by simplify_eq.
        -- specialize (H2 r' what' Hr' Ha' Hs'). lia.
      * intros r' what' Hr'. by apply not_elem_of_nil in Hr'.
    + exists l1, (l2 ++ [it]). rewrite <-app_assoc. split_and!; [done..|].
      intros r' what' [Hr'|Hr'%list_elem_of_singleton]%elem_of_app Ha' Hs'; [by eapply H2|].
      subst r'. rewrite Hs in Hs'. by simplify_eq.
  - exists l, []. split_and!; [done..| |].
    + intros r' what' Hr' Ha' Hs'. rewrite IH in Hs' by done. done.
    + intros r' what' Hr'. by apply not_elem_of_nil in Hr'.
Qed.
Lemma best_match_Some rules first s bit what :
  best_match rules first s = Some (bit, what) →
  bit ∈ rules ∧ regex_search (re bit) s = Some what.
Proof.
  unfold best_match.
  assert (H : ∀ l best, (∀ b w, best = Some (b, w) → b ∈ rules ∧ regex_search (re b) s = Some w) →
    l ⊆ rules → foldl (λ best it, if start_anchor it && negb first then best
      else match regex_search (re it) s with
           | Some what => better best it what | None => best end) best l = Some (bit, what) →
    bit ∈ rules ∧ regex_search (re bit) s = Some what); [|eapply H; [done|done]].
  induction l as [|it l IH]; intros best Hbest Hl; cbn; [apply Hbest|].
  apply IH; [|set_solver]. intros b w. destruct (start_anchor it && negb first); [apply Hbest|].
  destruct (regex_search (re it) s) as [wh|] eqn:E; [|apply Hbest].
  unfold better. destruct best as [[b0 w0]|]; [destruct (_ <? _)%nat|];
    try apply Hbest; intros [= <- <-]; (split; [set_solver|done]).
Qed.
Lemma str_split3 i n s :
  s = str_take i s +:+ (substr i n s +:+ str_drop (i + n) s).
Proof.
  unfold substr. rewrite <-(str_take_drop i s) at 1. f_equal.
  rewrite <-(str_take_drop n (str_drop i s)) at 1. f_equal.
  revert s. induction i as [|i IH]; intros [|c s]; cbn; first [done|by destruct n|apply IH].
Qed.

(** ** Termination *)
Lemma var_name_shorter rest name n r :
  var_name rest name = Some (n, r) → (String.length r < String.length rest)%nat.
Proof.
  revert name. induction rest as [|c rest IH]; intros name; cbn; [done|].
  case_decide; [intros [= _ <-]; lia|]. intros Hv%IH. lia.
Qed.
Lemma sub_vars_loop_ends fuel vars recipe rest esc out :
  (String.length rest < fuel)%nat → sub_vars_loop fuel vars recipe rest esc out ≠ OutOfFuel.
Proof.
  revert rest esc out. induction fuel as [|fuel IH]; intros rest esc out Hf; [lia|].
  cbn [sub_vars_loop]. destruct rest as [|c rest]; [done|]. cbn in Hf.
  destruct (negb esc && bool_decide (c = "\"%char)); [apply IH; lia|].
  destruct (negb esc && bool_decide (c = "$"%char)); [|apply IH; lia].
  destruct rest as [|d rest]; [done|].
  destruct (decide (d = "{"%char)) as [->|Hd].
  - destruct (var_name rest "") as [[n r]|] eqn:E; [|done].
    apply var_name_shorter in E. cbn in Hf. apply IH. lia.
  - destruct d as [[] [] [] [] [] [] [] []]; done.
Qed.
Lemma sub_vars_ends recipe vars : sub_vars recipe vars ≠ OutOfFuel.
Proof. apply sub_vars_loop_ends. lia. Qed.

(** Rules whose patterns match no empty text and whose recipes are well
    formed. *)
Definition nonempty_matches (rules : Rule) : Prop :=
  ∀ r, r ∈ rules → ∀ s what, regex_search (re r) s = Some what → (0 < m_len what)%nat.
Definition recipes_ok (rules : Rule) : Prop :=
  ∀ r, r ∈ rules → ∀ vars, ∃ out, sub_vars (recipe r) vars = Ok out.

Section ends.
Context `{!RegexLaws X}.

Lemma test_loop_ends fuel rules skip_list first start out replaces vars :
  nonempty_matches rules → recipes_ok rules → (String.length start < fuel)%nat →
  ∃ b t vars', test_loop fuel rules skip_list first start out replaces vars = Ok ((b, t), vars').
Proof.
  intros Hne Hok. revert first start out replaces vars.
  induction fuel as [|fuel IH]; intros first start out replaces vars Hf; [lia|].
  cbn [test_loop]. destruct (best_match rules first start) as [[bit what]|] eqn:Hb;
    [|by do 3 eexists].
  apply best_match_Some in Hb as [Hin Hs].
  pose proof (Hne _ Hin _ _ Hs) as Hlen. pose proof (search_inside _ _ _ Hs) as Hinside.
  unfold mbind, M_bind, modify, get, lift_outcome.
  destruct (Hok _ Hin (set_groups (group_index bit) 1 (m_groups what) vars)) as [r ->].
  apply IH. rewrite str_drop_length. lia.
Qed.

Lemma str_take_length n s : String.length (str_take n s) = Nat.min n (String.length s).
Proof. revert s. induction n as [|n IH]; intros [|c s]; cbn; auto. Qed.
Lemma test_loop_rewritten fuel rules skips first start out replaces vars b t vars' :
  without NUL start →
  test_loop fuel rules skips first start out replaces vars = Ok ((b, t), vars') →
  ∃ b' t', b = replaces || b' ∧ t = out +:+ t' ∧ rewritten rules skips first vars start b' t' vars'.
Proof.
  revert first start out replaces vars.
  induction fuel as [|fuel IH]; intros first start out replaces vars Hnul; [done|].
  cbn [test_loop]. pose proof (best_match_spec rules first start) as Hbest.
  destruct (best_match rules first start) as [[r what]|].
  2:{ intros [= <- <- <-]. exists false, start. rewrite orb_false_r.
      split_and!; [done..|by constructor]. }
  pose proof Hbest as (l1 & l2 & _ & _ & Hs & _).
  apply search_inside in Hs. pose proof (str_split3 (m_first what) (m_len what) start) as Hsplit.
  set (before := str_take (m_first what) start) in *.
  set (m := substr (m_first what) (m_len what) start) in *.
  set (after := str_drop (m_first what + m_len what) start) in *.
  assert (Hm : without NUL m ∧ without NUL after).
  { rewrite Hsplit, !without_app in Hnul. tauto. }
  assert (Hlen : String.length before = m_first what ∧ String.length m = m_len what).
  { unfold before, m, substr. rewrite !str_take_length, str_drop_length. lia. }
  unfold mbind, M_bind, modify, get, lift_outcome.
  destruct (sub_vars (recipe r) (set_groups (group_index r) 1 (m_groups what) vars))
    as [o|?|?|] eqn:Ho; try done. apply sub_vars_spec in Ho.
  set (skip := existsb _ skips).
  intros (b' & t' & -> & -> & Ht)%IH; [|apply Hm].
  set (new := if skip then m else o).
  exists true, (before +:+ (new +:+ t')). rewrite orb_true_r. split; [done|]. split.
  - unfold new. rewrite (c_str_id m) by apply Hm. rewrite !str_app_assoc. by destruct skip.
  - rewrite Hsplit in Hbest |- *. apply rewritten_match with r what
      (set_groups (group_index r) 1 (m_groups what) vars) b'; [exact Hbest|apply Hlen|apply Hlen| | |done].
    + apply set_groups_captured.
    + unfold new. destruct skip eqn:Hskip.
      * left. split; [|done]. apply existsb_exists in Hskip as (k & Hk & Hsearch). exists k.
        split; [by apply list_elem_of_In|]. by destruct (regex_search k m).
      * right. split; [|done]. intros k Hk. destruct (regex_search k m) eqn:Ek; [|done].
        enough (skip = true) by congruence. apply existsb_exists. exists k. rewrite Ek. split; [by apply list_elem_of_In|done].
Qed.
Lemma test_patterns_rewritten fuel rules txt anchor skips vars b t vars' :
  without NUL txt →
  test_patterns fuel rules txt anchor skips vars = Ok ((b, t), vars') →
  rewritten rules skips anchor vars txt b t vars'.
Proof. intros Hnul (b' & t' & -> & -> & Ht)%test_loop_rewritten; done. Qed.
Lemma until_quot_split cp s r : until_quot cp = (s, r) → cp = s +:+ r.
Proof.
  revert s r. induction cp as [|c cp IH]; intros s r; cbn [until_quot]; [by intros [= <- <-]|].
  destruct (_ || _); [by intros [= <- <-]|].
  destruct (until_quot cp) as [s' r'] eqn:E. intros [= <- <-].
  rewrite str_app_cons. f_equal. by apply IH.
Qed.
Lemma until_quote_split m prev cp s r : until_quote m prev cp = (s, r) → cp = s +:+ r.
Proof.
  revert prev s r. induction cp as [|c cp IH]; intros prev s r; cbn [until_quote];
    [by intros [= <- <-]|].
  destruct (_ || _); [by intros [= <- <-]|].
  destruct (until_quote m c cp) as [s' r'] eqn:E. intros [= <- <-].
  rewrite str_app_cons. f_equal. by eapply IH.
Qed.
Lemma to_line_end_eq c d cp : to_line_end (String c (String d cp)) =
  if decide (d = "010"%char) then ("", String c (String d cp))
  else let '(s, r) := to_line_end (String d cp) in (String c s, r).
Proof. reflexivity. Qed.
Lemma to_line_end_split c cp s r : to_line_end (String c cp) = (s, r) →
  String c cp = s +:+ r ∧ r ≠ "".
Proof.
  revert c s r. induction cp as [|d cp IH]; intros c s r; [by intros [= <- <-]|].
  rewrite to_line_end_eq. case_decide; [by intros [= <- <-]|].
  destruct (to_line_end (String d cp)) as [s' r'] eqn:E. intros [= <- <-].
  destruct (IH _ _ _ E) as [He Hr]. split; [|done]. rewrite str_app_cons. by f_equal.
Qed.
Lemma starts_with_split p s : starts_with p s = true → s = p +:+ str_drop (String.length p) s.
Proof.
  unfold starts_with. intros H%bool_decide_eq_true. rewrite <-H at 1. by rewrite str_take_drop.
Qed.

(** A text in pieces: literals, which are tested, and the rest. *)
Notation pieces := (list (bool * string)).
Definition text_of (l : pieces) : string := foldr (λ p s, p.2 +:+ s) "" l.
Lemma text_of_cons p l : text_of (p :: l) = p.2 +:+ text_of l.
Proof. done. Qed.
Lemma piece_length b s l : (b, s) ∈ l → (String.length s ≤ String.length (text_of l))%nat.
Proof.
  induction l as [|p l IH]; [by intros ?%elem_of_nil|].
  rewrite text_of_cons, str_app_length. intros [<-|Hin%IH]%elem_of_cons; cbn [snd]; lia.
Qed.
Fixpoint run_pieces (test : string → M Vars (bool * string)) (l : pieces) (res : string)
    (replace : bool) : M Vars (bool * string) :=
  match l with
  | [] => mret (replace, res)
  | (false, s) :: l' => run_pieces test l' (res +:+ s) replace
  | (true, s) :: l' =>
      '(r, s) ← test s; run_pieces test l' (res +:+ s) (replace || r)
  end.

(** The scan of [cp] is a run over pieces of it. *)
Definition runs_over fuel html_context (cp : string) : Prop :=
  ∃ l, text_of l = cp ∧ ∀ test seg res replace vars,
    quoted_loop fuel test html_context cp seg res replace vars =
    run_pieces test l (res +:+ seg) replace vars.
(** A literal with what follows it. *)
Lemma literal_step fuel html_context opening s rest :
  (∀ cp, (String.length cp < String.length (opening +:+ (s +:+ rest)))%nat →
    runs_over fuel html_context cp) → opening ≠ "" →
  ∃ l, text_of l = opening +:+ (s +:+ rest) ∧ ∀ test seg res replace vars,
    match rest with
    | EmptyString => mret (replace, (res +:+ seg +:+ opening) +:+ s)
    | String d rest' => '(r, s) ← test s;
        quoted_loop fuel test html_context rest' (String d "")
          ((res +:+ seg +:+ opening) +:+ s) (replace || r)
    end vars = run_pieces test l (res +:+ seg) replace vars.
Proof.
  intros IH Ho. destruct rest as [|d rest].
  - exists [(false, opening); (false, s)]. split.
    + rewrite !text_of_cons. cbn. by rewrite !str_app_nil_r.
    + intros. cbn. by rewrite !str_app_assoc.
  - destruct (IH rest) as (l & Hl & Hrun).
    { rewrite !str_app_length. cbn. destruct opening; [done|]. cbn. lia. }
    exists ((false, opening) :: (true, s) :: (false, String d "") :: l). split.
    + by rewrite !text_of_cons, Hl.
    + intros. cbn [run_pieces]. unfold mbind, M_bind. rewrite !str_app_assoc.
      destruct (test s vars) as [[[r s'] v]|?|?|]; done.
Qed.
(** The scan for literals cuts the text into pieces: nothing is lost. *)
Lemma quoted_loop_pieces fuel html_context cp :
  (String.length cp < fuel)%nat → runs_over fuel html_context cp.
Proof.
  revert cp. induction fuel as [|fuel IH]; intros cp Hf; [lia|].
  destruct cp as [|c cp]; [by exists []|]. cbn in Hf.
  assert (Hlit : ∀ cp', (String.length cp' < String.length (String c cp))%nat →
    runs_over fuel html_context cp') by (intros cp' Hcp; apply IH; cbn in Hcp; lia).
  destruct (html_context && starts_with quot (String c cp)) eqn:H1.
  { apply andb_true_iff in H1 as [Hh Hs]. apply starts_with_split in Hs as Hcp.
    destruct (until_quot (str_drop (String.length quot) (String c cp))) as [s rest] eqn:Hu.
    assert (Heq : quot +:+ (s +:+ rest) = String c cp)
      by (rewrite Hcp at 1; f_equal; symmetry; by apply until_quot_split).
    destruct (literal_step fuel html_context quot s rest) as (l & Hl & Hrun);
      rewrite ?Heq in *; [done..|]. exists l. split; [done|]. intros. rewrite <-Hrun. cbn [quoted_loop].
    by rewrite Hh, Hs, Hu. }
  destruct (bool_decide (c = "034"%char) || bool_decide (c = "'"%char)) eqn:H2.
  { destruct (until_quote c c cp) as [s rest] eqn:Hu.
    assert (Heq : String c "" +:+ (s +:+ rest) = String c cp)
      by (rewrite str_app_cons, str_app_nil_l; f_equal; symmetry; by eapply until_quote_split).
    destruct (literal_step fuel html_context (String c "") s rest) as (l & Hl & Hrun);
      rewrite ?Heq in *; [done..|]. exists l. split; [done|]. intros. rewrite <-Hrun. cbn [quoted_loop].
    by rewrite H1, H2, Hu. }
  destruct (starts_with "//" (String c cp)) eqn:H3.
  - destruct (to_line_end (String c cp)) as [s rest] eqn:Hu.
    destruct (to_line_end_split _ _ _ _ Hu) as [Hcp Hr]. destruct rest as [|d rest]; [done|].
    destruct (IH rest) as (l & Hl & Hrun).
    { apply (f_equal String.length) in Hcp. rewrite str_app_length in Hcp. cbn in Hcp. lia. }
    exists ((false, s +:+ String d "") :: l). split.
    + rewrite text_of_cons, Hl. cbn [snd]. by rewrite <-str_app_assoc, Hcp.
    + intros. cbn [quoted_loop]. rewrite H1, H2, H3, Hu. cbn [str_drop str_take run_pieces].
      rewrite Hrun. by rewrite !str_app_assoc.
  - destruct (IH cp) as (l & Hl & Hrun); [lia|].
    exists ((false, String c "") :: l). split; [by rewrite text_of_cons, Hl|].
    intros. cbn [quoted_loop]. rewrite H1, H2, H3. cbn [run_pieces].
    rewrite Hrun. by rewrite !str_app_assoc.
Qed.

(** The literals rewritten, one after the other, and the rest as it is. *)
Inductive pieces_rewritten (rules : Rule) (skips : list regex) :
    Vars → pieces → bool → string → Vars → Prop :=
  | pieces_end vars : pieces_rewritten rules skips vars [] false "" vars
  | pieces_rest vars s l b t vars' :
      pieces_rewritten rules skips vars l b t vars' →
      pieces_rewritten rules skips vars ((false, s) :: l) b (s +:+ t) vars'
  | pieces_literal vars s l b1 t1 vars1 b2 t2 vars2 :
      rewritten rules skips true vars s b1 t1 vars1 →
      pieces_rewritten rules skips vars1 l b2 t2 vars2 →
      pieces_rewritten rules skips vars ((true, s) :: l) (b1 || b2) (t1 +:+ t2) vars2.
Lemma run_pieces_rewritten fuel rules skips l res replace vars b t vars' :
  without NUL (text_of l) →
  run_pieces (λ s, test_patterns fuel rules s true skips) l res replace vars = Ok ((b, t), vars') →
  ∃ b' t', b = replace || b' ∧ t = res +:+ t' ∧ pieces_rewritten rules skips vars l b' t' vars'.
Proof.
  revert res replace vars.
  induction l as [|[[] s] l IH]; intros res replace vars Hnul; rewrite ?text_of_cons in *;
    cbn [run_pieces snd] in *.
  - intros [= <- <- <-]. exists false, "". rewrite str_app_nil_r, orb_false_r.
    split_and!; [done..|constructor].
  - apply without_app in Hnul as [Hs Hl]. unfold mbind, M_bind.
    destruct (test_patterns fuel rules s true skips vars) as [[[r s'] v]|?|?|] eqn:E; try done.
    apply test_patterns_rewritten in E; [|done].
    intros (b' & t' & -> & -> & Ht)%IH; [|done]. exists (r || b'), (s' +:+ t').
    rewrite orb_assoc, str_app_assoc. split_and!; [done..|by econstructor].
  - apply without_app in Hnul as [Hs Hl].
    intros (b' & t' & -> & -> & Ht)%IH; [|done]. exists b', (s +:+ t').
    rewrite str_app_assoc. split_and!; [done..|by constructor].
Qed.
Lemma run_pieces_ends test l res replace vars :
  (∀ b s v, (b, s) ∈ l → ∃ r t v', test s v = Ok ((r, t), v')) →
  ∃ b t v, run_pieces test l res replace vars = Ok ((b, t), v).
Proof.
  revert res replace vars. induction l as [|[[] s] l IH]; intros res replace vars Htest; cbn.
  - by do 3 eexists.
  - unfold mbind, M_bind. destruct (Htest true s vars) as (r & t & v' & ->); [left|].
    apply IH. intros b s' v Hin. apply (Htest b). by right.
  - apply IH. intros b s' v Hin. apply (Htest b). by right.
Qed.

Lemma test_patterns_ends fuel rules txt anchor skip_list vars :
  nonempty_matches rules → recipes_ok rules → (String.length txt < fuel)%nat →
  ∃ b t vars', test_patterns fuel rules txt anchor skip_list vars = Ok ((b, t), vars').
Proof. intros. by apply test_loop_ends. Qed.

(** Rewriting ends when every match takes up some text: as many turns as
    the text has characters, and one more, are enough. A pattern that matches
    the empty text is replaced at the same place for ever. *)
Theorem rewriting_ends (w : Within) (skip_list : list regex) :
  (nonempty_matches (rule w) → recipes_ok (rule w) →
   ∀ fuel txt anchor vars, without NUL txt → (String.length txt < fuel)%nat →
     ∃ b t vars', exec fuel w txt anchor skip_list vars = Ok ((b, t), vars')) ∧
  (∀ r, w_type w ≠ "quoted-literal" → rule w = [r] → start_anchor r = false →
   recipes_ok [r] → (∀ s, ∃ g, regex_search (re r) s = Some (mk_smatch 0 0 g)) →
   ∀ fuel txt anchor vars, exec fuel w txt anchor skip_list vars = OutOfFuel).
Proof.
  split.
  - intros Hne Hok fuel txt anchor vars Hnul Hf. unfold exec.
    case_decide; [|by apply test_patterns_ends].
    unfold embed_quoted_literal. rewrite c_str_id by done.
    destruct (quoted_loop_pieces (S (String.length txt)) true txt) as (l & Hl & Heq); [lia|].
    rewrite Heq. apply run_pieces_ends. intros b s v Hin. apply test_patterns_ends; [done..|].
    apply piece_length in Hin. rewrite Hl in Hin. lia.
  - intros r Hty Hr Ha Hok Hempty fuel txt anchor vars. unfold exec.
    rewrite decide_False, Hr by done. unfold test_patterns.
    generalize "" at 1. generalize false at 1. revert txt anchor vars.
    induction fuel as [|fuel IH]; intros txt anchor vars f out; [done|].
    cbn [test_loop]. unfold best_match. cbn [foldl]. rewrite Ha.
    destruct (Hempty txt) as [g ->]. cbn [negb andb better].
    unfold mbind, M_bind, modify, get, lift_outcome. cbn [m_first m_len m_groups].
    destruct (Hok r ltac:(left) (set_groups (group_index r) 1 g vars)) as [o ->].
    apply IH.
Qed.
(** C30. Rewriting a text replaces the matches of its rules, and nothing else:
    from the start on, the rule that matches first is taken, the earlier one of
    two that match at the same place; the variables named by its groups are set
    to what the groups matched; the match becomes what the recipe stands for
    with these variables, or stays as it is if it matches the skip list; and it
    goes on behind the match. A rule that is anchored counts up to the first
    match only, and only if the text is searched with an anchor. What is behind
    the last match is kept, and a text counts as changed exactly if there was a
    match. All this comes
    to an end when each match takes up some text and the recipes are well
    formed. (With the type quoted-literal the literals of the text are rewritten
    in this way, one by one: [literals_rewritten].) *)
Theorem rewrite_edits (w : Within) (anchor : bool) (skip_list : list regex) (txt : string)
    (Htype : w_type w ≠ "quoted-literal") (Hnul : without NUL txt) :
  (∀ fuel vars b t vars', exec fuel w txt anchor skip_list vars = Ok ((b, t), vars') →
     rewritten (rule w) skip_list anchor vars txt b t vars') ∧
  (nonempty_matches (rule w) → recipes_ok (rule w) →
   ∀ fuel vars, (String.length txt < fuel)%nat →
     ∃ b t vars', exec fuel w txt anchor skip_list vars = Ok ((b, t), vars')).
Proof.
  split; unfold exec.
  - intros fuel vars b t vars'. case_decide; [done|]. by apply test_patterns_rewritten.
  - intros. case_decide; [done|]. by apply test_patterns_ends.
Qed.
(** The same for the literals in a text, if only they are searched. *)
Theorem literals_rewritten (fuel : nat) (w : Within) (txt : string) (anchor : bool)
    (skip_list : list regex) (vars : Vars) (b : bool) (t : string) (vars' : Vars)
    (Htype : w_type w = "quoted-literal") (Hnul : without NUL txt)
    (Hrun : exec fuel w txt anchor skip_list vars = Ok ((b, t), vars')) :
  ∃ l, text_of l = txt ∧ pieces_rewritten (rule w) skip_list vars l b t vars'.
Proof.
  unfold exec in Hrun. case_decide; [|done]. unfold embed_quoted_literal in Hrun.
  rewrite c_str_id in Hrun by done.
  destruct (quoted_loop_pieces (S (String.length txt)) true txt) as (l & Hl & Heq); [lia|].
  exists l. split; [done|]. rewrite Heq in Hrun. rewrite <-Hl in Hnul.
  by eapply run_pieces_rewritten in Hrun as (b' & t' & -> & -> & Ht).
Qed.

End ends.

(** ** Recipes *)

(** A recipe as its author means it: text and references. *)
Inductive item : Type :=
  | Lit (c : ascii)
  | Ref (name : string).
Definition print_item (i : item) : string :=
  match i with
  | Lit c => if decide (c = "\"%char ∨ c = "$"%char) then String "\" (String c "")
             else String c ""
  | Ref name => "${" +:+ name +:+ "}"
  end.
Definition print_recipe (l : list item) : string := foldr (λ i s, print_item i +:+ s) "" l.
Definition expand (vars : Vars) (l : list item) : string :=
  foldr (λ i s, match i with Lit c => String c "" | Ref n => default "" (vars !! n) end +:+ s)
    "" l.
Definition name_ok (i : item) : Prop :=
  match i with Lit _ => True | Ref n => without "}" n end.

Lemma var_name_print n acc rest : without "}" n →
  var_name (n +:+ String "}" rest) acc = Some (acc +:+ n, rest).
Proof.
  revert acc. induction n as [|c n IH]; intros acc Hn.
  - by rewrite str_app_nil_r.
  - apply without_cons in Hn as [Hc Hn]. rewrite str_app_cons. cbn [var_name].
    rewrite decide_False, IH by done. by rewrite <-str_app_assoc.
Qed.
Lemma sub_vars_print l vars recipe fuel out :
  Forall name_ok l → (String.length (print_recipe l) < fuel)%nat →
  sub_vars_loop fuel vars recipe (print_recipe l) false out = Ok (out +:+ expand vars l).
Proof.
  intros Hl. revert fuel out. induction Hl as [|i l Hi Hl IH]; intros fuel out Hf.
  { destruct fuel; [lia|]. cbn. by rewrite str_app_nil_r. }
  cbn [print_recipe expand foldr] in *. rewrite str_app_length in Hf.
  fold (print_recipe l) in *. fold (expand vars l) in *.
  destruct fuel as [|fuel]; [lia|]. destruct i as [c|n]; cbn [print_item] in *.
  - case_decide as Hc.
    + destruct fuel as [|fuel]; [cbn in Hf; lia|]. cbn in Hf.
      rewrite !str_app_cons, str_app_nil_l. cbn [sub_vars_loop negb andb].
      rewrite (bool_decide_eq_true_2 ("\"%char = "\"%char)) by done. cbn [negb andb].
      rewrite IH by lia. by rewrite <-str_app_assoc.
    + rewrite str_app_cons, str_app_nil_l. cbn [sub_vars_loop negb andb]. cbn in Hf.
      rewrite !bool_decide_eq_false_2 by naive_solver. cbn [negb andb].
      rewrite IH by lia. by rewrite <-str_app_assoc.
  - rewrite <-!str_app_assoc. rewrite !str_app_length in Hf. cbn in Hf.
    change ("${" +:+ ?x) with (String "$" (String "{" x)). cbn [sub_vars_loop negb andb].
    rewrite (bool_decide_eq_false_2 ("$"%char = "\"%char)) by done.
    rewrite (bool_decide_eq_true_2 ("$"%char = "$"%char)) by done. cbn [andb].
    rewrite (str_app_cons "}" "" (print_recipe l)), str_app_nil_l.
    rewrite var_name_print, str_app_nil_l by done. rewrite IH by lia.
    by rewrite <-str_app_assoc.
Qed.

(** Recipes mean what their syntax says: a recipe written from text and
    references, with backslashes before backslashes and dollar signs, yields
    that text with the values of the variables, a variable without a value
    being empty. *)
Theorem recipe_roundtrip (l : list item) (vars : Vars) (Hnames : Forall name_ok l) :
  sub_vars (print_recipe l) vars = Ok (expand vars l).
Proof. unfold sub_vars. rewrite sub_vars_print by (done || lia). by rewrite str_app_nil_l. Qed.

(** ** Named groups *)

(** A pattern by its groups. *)
Inductive token : Type :=
  | PChar (c : ascii)
  | PEsc (c : ascii)
  | PGroup
  | PNon
  | PNamed (python : bool) (name : string).
Definition print_token (t : token) : string :=
  match t with
  | PChar c => String c ""
  | PEsc c => String "\" (String c "")
  | PGroup => "("
  | PNon => "(?:"
  | PNamed python n => (if python then "(?P<" else "(?<") +:+ n +:+ ">"
  end.
Definition print_pattern (l : list token) : string := foldr (λ t s, print_token t +:+ s) "" l.
(** The same pattern without names. *)
Definition strip (t : token) : token := match t with PNamed _ _ => PGroup | t => t end.
(** The capturing groups, with their names. *)
Definition captures (l : list token) : list (option string) :=
  omap (λ t, match t with PGroup => Some None | PNamed _ n => Some (Some n) | _ => None end) l.
Fixpoint alnum (s : string) : Prop :=
  match s with EmptyString => True | String c s' => isalnum c = true ∧ alnum s' end.
(** No character that is not escaped is a backslash or a parenthesis, and no
    plain group looks like one with attributes. *)
Fixpoint pattern_ok (l : list token) : Prop :=
  match l with
  | [] => True
  | PChar c :: l' => c ≠ "\"%char ∧ c ≠ "("%char ∧ pattern_ok l'
  | PNamed _ n :: l' => alnum n ∧ pattern_ok l'
  | PGroup :: l' => head l' ≠ Some (PChar "?"%char) ∧ pattern_ok l'
  | _ :: l' => pattern_ok l'
  end.

Lemma group_name_print str n acc rest : alnum n →
  group_name str (n +:+ String ">" rest) acc = Ok (acc +:+ n, rest).
Proof.
  revert acc. induction n as [|c n IH]; intros acc Hn.
  - by rewrite str_app_nil_r.
  - destruct Hn as [Hc Hn]. rewrite str_app_cons. cbn [group_name].
    rewrite decide_False by (intros ->; done). rewrite Hc. cbn [negb].
    rewrite IH by done. by rewrite <-str_app_assoc.
Qed.
Lemma print_pattern_cons t l : print_pattern (t :: l) = print_token t +:+ print_pattern l.
Proof. done. Qed.
(** A plain group, seen from the character behind it. *)
Lemma plain_group_step fuel str rest gnum res index :
  (∀ s, rest ≠ String "?" s) →
  parse_groups_loop (S fuel) str (String "(" rest) gnum false res index =
  parse_groups_loop fuel str rest (gnum + 1) false (res +:+ "(") index.
Proof.
  intros Hrest. cbn [parse_groups_loop negb andb]. rewrite bool_decide_eq_false_2 by done.
  rewrite bool_decide_eq_true_2 by done. destruct rest as [|c rest]; [done|].
  destruct (decide (c = "?"%char)) as [->|Hc]; [by destruct (Hrest rest)|].
  destruct c as [[] [] [] [] [] [] [] []]; done.
Qed.

Lemma named_group_step fuel str (python : bool) n rest gnum res index :
  alnum n → parse_groups_loop (S fuel) str
    (((if python then "(?P<" else "(?<") +:+ n +:+ ">") +:+ rest) gnum false res index
  = parse_groups_loop fuel str rest (gnum + 1) false (res +:+ "(") (<[gnum + 1 := n]> index).
Proof.
  intros Hn. rewrite <-!str_app_assoc, (str_app_cons ">"), str_app_nil_l.
  destruct python; rewrite !str_app_cons, str_app_nil_l; cbn [parse_groups_loop negb andb];
    rewrite (bool_decide_eq_false_2 ("("%char = "\"%char)) by done;
    rewrite (bool_decide_eq_true_2 ("("%char = "("%char)) by done;
    unfold mbind, outcome_bind; rewrite group_name_print by done;
    by rewrite str_app_nil_l.
Qed.
Lemma parse_groups_print l fuel str gnum res (index : gmap Z string) :
  pattern_ok l → (String.length (print_pattern l) < fuel)%nat → 0 ≤ gnum →
  (∀ k, gnum < k → index !! k = None) →
  ∃ index', parse_groups_loop fuel str (print_pattern l) gnum false res index =
      Ok (res +:+ print_pattern (strip <$> l), index') ∧
    (∀ k, k ≤ gnum → index' !! k = index !! k) ∧
    (∀ i : nat, index' !! (gnum + 1 + Z.of_nat i) = mjoin (captures l !! i)).
Proof.
  revert fuel gnum res index.
  induction l as [|t l IH]; intros fuel gnum res index Hl Hf Hg Hidx.
  { destruct fuel; [lia|]. exists index. cbn. rewrite str_app_nil_r.
    split_and!; [done|done|]. intros i. apply Hidx. lia. }
  rewrite print_pattern_cons, str_app_length in Hf.
  destruct fuel as [|fuel]; [lia|]. rewrite fmap_cons, !print_pattern_cons.
  destruct t as [c|c| | |python n]; cbn [print_token strip pattern_ok] in *.
  - destruct Hl as (Hc1 & Hc2 & Hl). cbn in Hf. rewrite str_app_cons, str_app_nil_l.
    cbn [parse_groups_loop negb andb]. rewrite !bool_decide_eq_false_2 by done.
    destruct (IH fuel gnum (res +:+ String c "") index Hl) as (idx' & -> & Hlow & Hi);
      [lia..|done|]. exists idx'. by rewrite <-str_app_assoc.
  - cbn in Hf. destruct fuel as [|fuel]; [lia|]. rewrite !str_app_cons, str_app_nil_l.
    cbn [parse_groups_loop negb andb].
    rewrite (bool_decide_eq_true_2 ("\"%char = "\"%char)) by done. cbn [negb andb].
    destruct (IH fuel gnum ((res +:+ "\") +:+ String c "") index Hl) as (idx' & -> & Hlow & Hi);
      [lia..|done|]. exists idx'. by rewrite <-!str_app_assoc.
  - destruct Hl as [Hhd Hl]. cbn in Hf. rewrite str_app_cons, str_app_nil_l.
    rewrite plain_group_step.
    + destruct (IH fuel (gnum + 1) (res +:+ "(") index Hl) as (idx' & -> & Hlow & Hi);
        [lia|lia|intros; apply Hidx; lia|].
      exists idx'. rewrite <-str_app_assoc. split_and!; [done|intros; apply Hlow; lia|].
      intros [|i]; cbn.
      * rewrite Hlow by lia. apply Hidx. lia.
      * replace (gnum + 1 + Z.of_nat (S i)) with (gnum + 1 + 1 + Z.of_nat i) by lia. apply Hi.
    + intros s Hs. destruct l as [|[c|c| | |[] n] l]; try done. cbn in Hs.
      injection Hs as -> _. done.
  - cbn in Hf. rewrite !str_app_cons, str_app_nil_l. cbn [parse_groups_loop negb andb].
    rewrite (bool_decide_eq_false_2 ("("%char = "\"%char)) by done.
    rewrite (bool_decide_eq_true_2 ("("%char = "("%char)) by done.
    rewrite (proj2 (Z.ltb_lt 0 (gnum + 1))) by lia. replace (gnum + 1 - 1) with gnum by lia.
    destruct (IH fuel gnum ((res +:+ "(") +:+ "?:") index Hl) as (idx' & -> & Hlow & Hi);
      [lia..|done|]. exists idx'. by rewrite <-!str_app_assoc.
  - destruct Hl as [Hn Hl].
    rewrite named_group_step by done.
    destruct (IH fuel (gnum + 1) (res +:+ "(") (<[gnum + 1 := n]> index) Hl)
      as (idx' & -> & Hlow & Hi).
    { rewrite !str_app_length in Hf. cbn in Hf. lia. }
    { lia. }
    { intros k Hk. rewrite lookup_insert_ne by lia. apply Hidx. lia. }
    exists idx'. rewrite <-str_app_assoc. split_and!; [done| |].
    + intros k Hk. rewrite Hlow, lookup_insert_ne by lia. done.
    + intros [|i]; cbn.
      * rewrite Z.add_0_r, Hlow by lia. apply lookup_insert_eq.
      * replace (gnum + 1 + Z.of_nat (S i)) with (gnum + 1 + 1 + Z.of_nat i) by lia. apply Hi.
Qed.

(** Names go to the right groups: for a pattern whose parentheses outside
    escapes are groups, Boost gets the pattern without the names, and the
    name recorded for number [i] is the name of the [i]-th capturing group. *)
Theorem named_groups_numbered (l : list token) (rcp : string) (r : regex)
    (Hl : pattern_ok l)
    (Hre : regex_assign false (print_pattern (strip <$> l)) = Ok r) :
  ∃ index, parse_groups (print_pattern l) rcp =
      Ok (mk_Replace (starts_with "^" (print_pattern l)) r rcp index) ∧
    ∀ i : nat, index !! (1 + Z.of_nat i) = mjoin (captures l !! i).
Proof.
  destruct (parse_groups_print l (S (String.length (print_pattern l))) (print_pattern l) 0 "" ∅)
    as (index & Hp & _ & Hi); [done|lia|lia|done|].
  rewrite str_app_nil_l in Hp. exists index. unfold parse_groups. rewrite Hp.
  unfold mbind, outcome_bind. rewrite Hre. by split.
Qed.

(** ** HTML: what the handlers write *)

#[local] Instance markup_dec c : Decision (markup c).
Proof. unfold markup. apply _. Defined.
(** The characters of a text that are not delimiters. *)
Definition bare_list (l : list ascii) : list ascii := filter (λ c, ¬ markup c) l.
Definition bare (s : string) : list ascii := bare_list (list_ascii_of_string s).
Lemma bare_app s t : bare (s +:+ t) = bare s ++ bare t.
Proof.
  unfold bare, bare_list. rewrite <-filter_app. f_equal.
  induction s as [|c s IH]; [done|]. rewrite str_app_cons. cbn. by f_equal.
Qed.
Lemma bare_of_list l : bare (string_of_list_ascii l) = bare_list l.
Proof. unfold bare. by rewrite list_ascii_of_string_of_list_ascii. Qed.
Lemma bare_list_nil l : Forall markup l → bare_list l = [].
Proof.
  induction 1 as [|c l Hc Hl IH]; [done|]. unfold bare_list in *.
  rewrite filter_cons, decide_False; naive_solver.
Qed.

Section html.
Context (buf : list ascii).
(** The document from [a] to [b]. *)
Definition stretch (a b : nat) : list ascii := take (b - a) (drop a buf).
Lemma stretch_app a b c : (a ≤ b ≤ c)%nat → stretch a c = stretch a b ++ stretch b c.
Proof.
  intros H. unfold stretch. replace (c - a)%nat with ((b - a) + (c - b))%nat by lia.
  rewrite <-take_take_drop, drop_drop. by replace (a + (b - a))%nat with b by lia.
Qed.
Lemma stretch_markup a b : (b ≤ length buf)%nat →
  (∀ i, (a ≤ i < b)%nat → markup (char_at buf i)) → bare_list (stretch a b) = [].
Proof.
  intros Hb H. apply bare_list_nil, Forall_lookup. intros i c Hi. unfold stretch in Hi.
  apply lookup_take_Some in Hi as [Hi Hlt]. rewrite lookup_drop in Hi.
  specialize (H (a + i)%nat ltac:(lia)). unfold char_at in H. by rewrite Hi in H.
Qed.

(** The characters an event stands for. *)
Definition event_text (e : event) : list ascii :=
  match e with
  | openTagStart p l | closeTag p l | text p l => stretch p (p + l)
  | attribute _ _ a al None _ => stretch a (a + al)
  | attribute _ _ a al (Some (v, vl)) _ => stretch a (a + al) ++ stretch v (v + vl)
  | anyTagEnd _ _ _ => []
  end.
Lemma span_text e s t : span e = Some (s, t) → attribute_ok buf e → (t ≤ length buf)%nat →
  bare_list (stretch s t) = bare_list (event_text e).
Proof.
  destruct e as [p l|p l a al [[v vl]|] tr|p l c|p l|p l]; cbn; try (by intros [= <- <-]).
  intros [= <- <-] (Hle & Hgap & _) Ht.
  rewrite (stretch_app a (a + al)), (stretch_app (a + al) v) by lia.
  unfold bare_list. rewrite !filter_app. fold (bare_list (stretch (a + al) v)).
  by rewrite (stretch_markup (a + al) v) by (done || lia).
Qed.

(** The events of a stretch hold all its characters but delimiters. *)
Lemma events_text a b new : (b ≤ length buf)%nat →
  ordered a b (omap span new) → Forall (attribute_ok buf) new →
  (∀ i, (a ≤ i < b)%nat → covered new i ∨ markup (char_at buf i)) →
  bare_list (stretch a b) = concat (bare_list ∘ event_text <$> new).
Proof.
  intros Hb. revert a. induction new as [|e new IH]; intros a Ho Hok Hc.
  - apply stretch_markup; [done|]. intros i Hi.
    destruct (Hc i Hi) as [(e & ? & ? & He & _)|]; [by apply elem_of_nil in He|done].
  - apply Forall_cons in Hok as [Hok Hoks]. cbn in Ho. cbn [fmap list_fmap concat].
    destruct (span e) as [[s t]|] eqn:He; cbn in Ho.
    + destruct Ho as (Has & Hst & Ho). pose proof (ordered_le _ _ _ Ho).
      assert (Hrest : ∀ i, (i < t)%nat → ¬ covered new i).
      { intros i Hi (e' & s' & t' & Hin & He' & Hi').
        destruct (ordered_bounds t b (omap span new) s' t' Ho); [|lia].
        apply list_elem_of_omap. by exists e'. }
      rewrite (stretch_app a s), (stretch_app s t) by lia. unfold bare_list at 1.
      rewrite !filter_app. fold (bare_list (stretch a s)) (bare_list (stretch s t))
        (bare_list (stretch t b)).
      rewrite (stretch_markup a s); [|lia|].
      * rewrite (span_text e s t) by (done || lia). cbn. f_equal. apply IH; [done|done|].
        intros i Hi. destruct (Hc i ltac:(lia)) as [(e' & s' & t' & Hin & He' & Hi')|]; [|by right].
        apply elem_of_cons in Hin as [->|Hin]; [rewrite He in He'; simplify_eq; lia|].
        left. by exists e', s', t'.
      * intros i Hi. destruct (Hc i ltac:(lia)) as [(e' & s' & t' & Hin & He' & Hi')|]; [|done].
        apply elem_of_cons in Hin as [->|Hin]; [rewrite He in He'; simplify_eq; lia|].
        destruct (Hrest i ltac:(lia)). by exists e', s', t'.
    + rewrite IH with (a := a); [|done|done|].
      * cbn. destruct e as [| ? ? ? ? [[]|] ?| | |]; try done.
      * intros i Hi. destruct (Hc i Hi) as [(e' & s' & t' & Hin & He' & Hi')|]; [|by right].
        apply elem_of_cons in Hin as [->|Hin]; [congruence|]. left. by exists e', s', t'.
Qed.
End html.

(** No pattern of the rules matches anything. *)
Definition inert (rules : Rule) : Prop :=
  ∀ r, r ∈ rules → ∀ s, regex_search (re r) s = None.

Lemma best_match_inert rules first s : inert rules → best_match rules first s = None.
Proof.
  intros H. destruct (best_match rules first s) as [[bit what]|] eqn:E; [|done].
  apply best_match_Some in E as [Hin Hs]. by rewrite (H _ Hin) in Hs.
Qed.
Lemma test_inert fuel rules txt anchor skip_list vars : inert rules → (0 < fuel)%nat →
  test_patterns fuel rules txt anchor skip_list vars = Ok ((false, txt), vars).
Proof.
  intros H Hf. destruct fuel as [|fuel]; [lia|]. unfold test_patterns. cbn [test_loop].
  rewrite best_match_inert by done. by rewrite str_app_nil_l.
Qed.
Lemma run_pieces_same test l res vars :
  (∀ s v, test s v = Ok ((false, s), v)) →
  run_pieces test l res false vars = Ok ((false, res +:+ text_of l), vars).
Proof.
  intros Htest. revert res. induction l as [|[[] s] l IH]; intros res; cbn [run_pieces].
  - by rewrite str_app_nil_r.
  - unfold mbind, M_bind. rewrite Htest, IH. by rewrite text_of_cons, str_app_assoc.
  - rewrite IH. by rewrite text_of_cons, str_app_assoc.
Qed.
Lemma exec_inert fuel it txt anchor skip_list vars :
  inert (rule it) → (0 < fuel)%nat → without NUL txt →
  exec fuel it txt anchor skip_list vars = Ok ((false, txt), vars).
Proof.
  intros H Hf Hnul. unfold exec. case_decide; [|by apply test_inert].
  unfold embed_quoted_literal. rewrite c_str_id by done.
  destruct (quoted_loop_pieces (S (String.length txt)) true txt) as (l & Hl & Heq); [lia|].
  rewrite Heq, run_pieces_same; [by rewrite Hl|]. intros. by apply test_inert.
Qed.

Section handlers.
Context (fuel : nat) (c : Content) (skips : list regex) (buf : list ascii).
Context (Hfuel : (0 < fuel)%nat) (Hbuf : Forall (λ a, a ≠ NUL) buf).
Context (Hinert : ∀ w, w ∈ within_list c → inert (rule w)).

Definition stack_ok (st : EvState) : Prop :=
  Forall (λ w, w ∈ within_list c ∧ is_Some (tag w)) (s_within st).
(** From [st] to [st'] the characters [k], and delimiters, were written. *)
Definition wrote (st st' : EvState) (k : list ascii) : Prop :=
  bare (m_w st') = bare (m_w st) ++ k ∧ (without NUL (m_w st) → without NUL (m_w st')) ∧
  m_vars st' = m_vars st ∧ stack_ok st'.
Definition writes (m : M EvState unit) (k : list ascii) : Prop :=
  ∀ st, stack_ok st → tot m st (λ _ st', wrote st st' k).

Lemma writes_seq m1 m2 k1 k2 : writes m1 k1 → writes m2 k2 → writes (m1 ;; m2) (k1 ++ k2).
Proof.
  intros H1 H2 st Hst. apply tot_bind. eapply tot_mono; [by apply H1|].
  intros _ st1 (Hb1 & Hn1 & Hv1 & Hs1). eapply tot_mono; [by apply H2|].
  intros _ st2 (Hb2 & Hn2 & Hv2 & Hs2). split_and!; [|auto|congruence|done].
  by rewrite Hb2, Hb1, app_assoc.
Qed.
Lemma writes_ret : writes (mret tt) [].
Proof. intros st Hst. apply tot_ret. split_and!; [by rewrite app_nil_r|done..]. Qed.
Lemma writes_puts s k : without NUL s → bare s = k → writes (puts s) k.
Proof.
  intros Hs <- st Hst. unfold tot, puts, modify, wrote. cbn.
  split_and!; [apply bare_app| |done|done]. intros. by apply without_app.
Qed.
Lemma writes_push w : w ∈ within_list c → is_Some (tag w) →
  writes (st ← get; set_within (w :: s_within st)) [].
Proof.
  intros Hw Ht st Hst. unfold tot, mbind, M_bind, get, set_within, modify, wrote. cbn.
  split_and!; [by rewrite app_nil_r|done|done|]. by constructor.
Qed.
Lemma writes_pop t : writes (pop_within t) [].
Proof.
  intros st Hst. unfold pop_within, tot, mbind, M_bind, get, wrote. cbn.
  unfold stack_ok in Hst. destruct (s_within st) as [|it rest] eqn:Es; cbn.
  { rewrite app_nil_r. split_and!; try done. unfold stack_ok. by rewrite Es. }
  apply Forall_cons in Hst as [[Hin [r Hr]] Hrest]. rewrite Hr. cbn.
  destruct (regex_match t r); cbn; rewrite app_nil_r; split_and!; try done.
  unfold stack_ok. rewrite Es. constructor; [by rewrite Hr|done].
Qed.
Lemma writes_exec it s anchor : it ∈ within_list c → without NUL s →
  writes ('(_, s) ← with_vars (exec fuel it s anchor skips); puts (c_str s)) (bare s).
Proof.
  intros Hin Hs st Hst. unfold tot, mbind, M_bind, with_vars.
  rewrite exec_inert by eauto. rewrite c_str_id by done. destruct st as [mw sw mv].
  by apply (writes_puts s (bare s) Hs eq_refl (mk_EvState mw sw mv)).
Qed.

Lemma without_list l : Forall (λ a, a ≠ NUL) l → without NUL (string_of_list_ascii l).
Proof. induction 1; [done|]. by apply without_cons. Qed.
Lemma slice_without p len : without NUL (slice buf p len).
Proof. apply without_list. by apply Forall_take, Forall_drop. Qed.
Lemma slice_bare p len : bare (slice buf p len) = bare_list (stretch buf p (p + len)).
Proof.
  unfold slice. rewrite bare_of_list. unfold stretch.
  by replace (p + len - p)%nat with len by lia.
Qed.
#[local] Hint Resolve slice_without slice_bare : core.

Lemma writes_event e : attribute_ok buf e →
  writes (handle_event fuel c skips buf e) (bare_list (event_text buf e)).
Proof.
  intros He. destruct e as [p l|p l a al value tr|p l cl|p l|p l]; cbn [handle_event event_text].
  - unfold openTagStart_. rewrite <-(app_nil_r (bare_list _)). apply writes_seq.
    + apply writes_puts; [by apply without_cons|]. rewrite bare_app. apply slice_bare.
    + destruct (find_first _ _) as [[i it]|] eqn:Ef; [|apply writes_ret].
      apply find_first_Some in Ef as (Hi & Hm & _). apply andb_true_iff in Hm as [Ht _].
      apply writes_push; [by eapply list_elem_of_lookup_2|].
      unfold some_match in Ht. by destruct (tag it).
  - unfold attribute_.
    destruct value as [[v vl]|]; cbn [fmap option_fmap option_map fst snd].
    2:{ rewrite <-(app_nil_r (bare_list _)). apply writes_seq; [|apply writes_ret].
        apply writes_puts; [by apply without_cons|]. rewrite bare_app. apply slice_bare. }
    unfold bare_list. rewrite filter_app. apply writes_seq.
    { apply writes_puts; [by apply without_cons|]. rewrite bare_app. apply slice_bare. }
    destruct He as (_ & _ & q & -> & Hq).
    assert (Hsep : without NUL (sep_string (Some q)) ∧ bare (sep_string (Some q)) = [] ∧
      without NUL ("=" +:+ sep_string (Some q)) ∧ bare ("=" +:+ sep_string (Some q)) = []).
    { rewrite !elem_of_cons, elem_of_nil in Hq.
      destruct Hq as [->|[->|[->|[]]]]; split_and!; reflexivity. }
    destruct Hsep as (Hs1 & Hs2 & Hs3 & Hs4).
    rewrite <-(app_nil_l (filter _ _)). apply writes_seq; [by apply writes_puts|].
    rewrite <-(app_nil_r (filter _ _)). apply writes_seq; [|by apply writes_puts].
    destruct (find_first _ _) as [[i it]|] eqn:Ef; [|by apply writes_puts].
    apply find_first_Some in Ef as (Hi & _ & _).
    fold (bare_list (stretch buf v (v + vl))). rewrite <-(slice_bare v vl).
    apply writes_exec; [|done]. by eapply list_elem_of_lookup_2.
  - unfold anyTagEnd_. change (bare_list []) with (@nil ascii ++ []).
    apply writes_seq; [|by apply writes_puts]. destruct cl; [|apply writes_ret].
    change (@nil ascii) with (@nil ascii ++ []).
    apply writes_seq; [apply writes_pop|by apply writes_puts].
  - unfold closeTag_. change (bare_list ?l) with ([] ++ bare_list l).
    apply writes_seq; [apply writes_pop|]. apply writes_puts.
    { apply without_app. split; [done|apply slice_without]. }
    rewrite bare_app. apply slice_bare.
  - unfold text_. intros st Hst. apply tot_bind. unfold tot at 1. cbn [get].
    pose proof Hst as Hst'. unfold stack_ok in Hst. destruct (s_within st) as [|it rest].
    + by apply writes_puts.
    + apply Forall_cons in Hst as [[Hin _] _]. rewrite <-slice_bare. by apply writes_exec.
Qed.

Lemma writes_events l : Forall (attribute_ok buf) l →
  writes (handle_events fuel c skips buf l) (concat (bare_list ∘ event_text buf <$> l)).
Proof.
  induction 1 as [|e l He Hl IH]; [apply writes_ret|]. cbn [handle_events fmap list_fmap concat].
  apply writes_seq; [by apply writes_event|done].
Qed.
End handlers.

Lemma without_Forall s : without NUL s → Forall (λ a, a ≠ NUL) (list_ascii_of_string s).
Proof.
  induction s as [|a s IH]; [constructor|]. rewrite without_cons. intros [Ha Hs].
  constructor; auto.
Qed.

(** C11. Rewriting HTML keeps what it does not rewrite: parsing a document and
    writing it again, with sections of which no rule matches, ends normally
    with a document that has the same characters in the same order, up to
    delimiters, provided that no comment is left open. *)
Theorem html_kept (fuel : nat) (c : Content) (content : string) (skips : list regex)
    (vars : Vars) (Htype : c_type c = "html") (Hfuel : (0 < fuel)%nat)
    (Hnul : without NUL content)
    (Hinert : ∀ w, w ∈ within_list c → inert (rule w))
    (Hcomment : ∀ i, ¬ in_open_comment (list_ascii_of_string content) i) :
  ∃ s, parse fuel c content skips vars = Ok (s, vars) ∧ bare s = bare content.
Proof.
  unfold parse. rewrite decide_True by done. unfold parse_html. rewrite c_str_id by done.
  set (buf := list_ascii_of_string content) in *.
  assert (Hbuf : Forall (λ a, a ≠ NUL) buf) by (by apply without_Forall).
  destruct (tot_elim _ _ _ (parse_str_tot buf Rep_init Hbuf))
    as ([] & st & Hp & new & Hev & _ & Ho & Hc & Hok).
  unfold HtmlParser.parse. fold buf. rewrite Hp, Hev. cbn [events Rep_init app].
  destruct (tot_elim _ _ _ (writes_events fuel c skips buf Hfuel Hbuf Hinert new Hok
    (mk_EvState "" [] vars) (List.Forall_nil _))) as ([] & st' & Hw & Hbare & Hn & Hv & _).
  rewrite Hw. exists (m_w st'). rewrite c_str_id by (by apply Hn). rewrite Hv. split; [done|].
  rewrite Hbare. cbn [m_w bare list_ascii_of_string]. rewrite app_nil_l.
  rewrite <-(events_text buf 0 (length buf)); [|done..|].
  - unfold stretch. rewrite Nat.sub_0_r. cbn [drop]. by rewrite take_ge.
  - intros i Hi. destruct (Hc i Hi) as [|[|Hopen]]; [by left|by right|].
    by destruct (Hcomment i).
Qed.
End filter.

(** ** A concrete matcher: patterns are texts, group 1 is the whole match *)
Fixpoint find_text (p s : string) : option nat :=
  if starts_with p s then Some 0%nat
  else match s with EmptyString => None | String _ s' => S <$> find_text p s' end.
#[local] Instance example_regex : Regex := {|
  regex := string;
  regex_assign := λ _, Ok;
  regex_match := λ s r, bool_decide (s = r);
  regex_search := λ r s,
    (λ i, mk_smatch i (String.length r) [r]) <$> find_text r s
|}.
Lemma starts_with_length p s : starts_with p s = true → (String.length p ≤ String.length s)%nat.
Proof.
  unfold starts_with. intros H%bool_decide_eq_true. rewrite <-H. clear H.
  generalize (String.length p). intros n. revert s.
  induction n as [|n IH]; intros [|c s]; cbn; try lia. specialize (IH s). lia.
Qed.
#[local] Instance example_regex_laws : RegexLaws example_regex.
Proof.
  split. intros r s m. cbn. destruct (find_text r s) as [i|] eqn:E; [|done].
  intros [= <-]. cbn [m_first m_len]. revert i E.
  induction s as [|c s IH]; intros i; cbn [find_text].
  - destruct (starts_with r "") eqn:Hs; [|done]. intros [= <-].
    apply starts_with_length in Hs. cbn in *. lia.
  - destruct (starts_with r (String c s)) eqn:Hs.
    + intros [= <-]. apply starts_with_length in Hs. cbn in *. lia.
    + destruct (find_text r s) as [j|]; [|done]. intros [= <-].
      specialize (IH j eq_refl). cbn. lia.
Qed.

Definition example_within (p r : string) : Within :=
  mk_Within None (Some "href") (Some "a") "" false [mk_Replace false p r {[1 := "g"]}].
Definition example_empty : Within :=
  mk_Within None None None "" false [mk_Replace (X := example_regex) false "" "x" ∅].
Definition example_content (p r : string) : Content :=
  mk_Content "html" (Some "text/html") [example_within p r].

Example example_parse_groups :
  parse_groups "(?<proto>https?://)(?:x)(\()(?P<h>a)" "" =
  Ok (mk_Replace false "(https?://)(?:x)(\()(a)" "" {[1 := "proto"; 3 := "h"]}).
Proof. vm_compute. reflexivity. Qed.
(** A parenthesis in a character class counts as a group, and the question
    mark of a lookahead is lost. *)
Example example_class_counts :
  group_index <$> (match parse_groups "[(](?<g>a)" "" with Ok r => Some r | _ => None end) =
  Some {[2 := "g"]} ∧
  re <$> (match parse_groups "a(?=b)" "" with Ok r => Some r | _ => None end) =
  Some "a(=b)".
Proof. split; vm_compute; reflexivity. Qed.
Example example_html :
  parse (Y := ref_yaz) 10 (example_content "http" "${g}s") "<a href='http:x'>http</a>" [] ∅ =
  Ok ("<a href='https:x'>http</a>", {["g" := "http"]}).
Proof. vm_compute. reflexivity. Qed.
Example example_skip :
  exec 10 (example_within "ab" "x") "cabd" true ["b"] ∅ = Ok ((true, "cabd"), {["g" := "ab"]}).
Proof. vm_compute. reflexivity. Qed.

(** Two rules, the first one anchored. *)
Definition example_rules : list Replace :=
  [mk_Replace true "ab" "^" ∅; mk_Replace (X := example_regex) false "b" "<${g}>" {[1 := "g"]}].
Definition example_two : Within := mk_Within None None None "" false example_rules.
Lemma rewrite_edits_witness :
  exec 9 example_two "abab" true [] {["g" := "old"]} = Ok ((true, "^a<b>"), {["g" := "b"]}) ∧
  exec 9 example_two "abab" true ["b"] ∅ = Ok ((true, "abab"), {["g" := "b"]}) ∧
  rewritten example_rules [] true {["g" := "old"]} "abab" true "^a<b>" {["g" := "b"]} ∧
  ∃ b t vars, exec 5 example_two "abab" false [] ∅ = Ok ((b, t), vars).
Proof.
  assert (Hrun : exec 9 example_two "abab" true [] {["g" := "old"]} =
    Ok ((true, "^a<b>"), {["g" := "b"]})) by (vm_compute; reflexivity).
  split_and!; [exact Hrun|vm_compute; reflexivity| |].
  - apply (proj1 (rewrite_edits example_two true [] "abab" ltac:(discriminate) eq_refl) _ _ _ _ _ Hrun).
  - apply (proj2 (rewrite_edits example_two false [] "abab" ltac:(discriminate) eq_refl)); [| |cbn; lia].
    + intros r Hr s what. change (r ∈ example_rules) in Hr. unfold example_rules in Hr.
      rewrite !elem_of_cons in Hr. destruct Hr as [->|[->|Hr]];
        [| |by apply not_elem_of_nil in Hr]; cbn [example_regex regex_search re].
      * destruct (find_text "ab" s); [|discriminate]. intros [= <-]. cbn. lia.
      * destruct (find_text "b" s); [|discriminate]. intros [= <-]. cbn. lia.
    + intros r Hr vars. change (r ∈ example_rules) in Hr. unfold example_rules in Hr.
      rewrite !elem_of_cons in Hr. destruct Hr as [->|[->|Hr]];
        [by eexists|by eexists|by apply not_elem_of_nil in Hr].
Defined.
Lemma rewriting_ends_witness :
  (∃ b t v, exec 5 (example_within "ab" "x") "cabd" true [] ∅ = Ok ((b, t), v)) ∧
  exec 100 example_empty "cabd" true [] ∅ = OutOfFuel.
Proof.
  split.
  - apply (rewriting_ends (example_within "ab" "x") []); [| |reflexivity|simpl; lia].
    + intros r Hr s what. apply list_elem_of_singleton in Hr. subst r. cbn.
      destruct (find_text "ab" s); [|discriminate]. intros [= <-]. cbn. lia.
    + intros r Hr vars. apply list_elem_of_singleton in Hr. subst r. by exists "x".
  - apply (rewriting_ends example_empty [])
      with (r := mk_Replace (X := example_regex) false "" "x" ∅); try reflexivity; [discriminate| |].
    + intros r Hr vars. apply list_elem_of_singleton in Hr. subst r. by exists "x".
    + intros s. exists [""]. by destruct s.
Defined.
Definition example_recipe : list item := [Lit "a"; Lit "$"; Ref "x"].
Lemma recipe_roundtrip_witness :
  print_recipe example_recipe = "a\$${x}" ∧ expand {["x" := "1"]} example_recipe = "a$1" ∧
  sub_vars (print_recipe example_recipe) {["x" := "1"]} =
    Ok (expand {["x" := "1"]} example_recipe).
Proof.
  split; [reflexivity|]. split; [vm_compute; reflexivity|].
  apply recipe_roundtrip. repeat constructor.
Defined.
Lemma named_groups_numbered_witness :
  ∃ index, parse_groups "(a)(?<n>b)" "" = Ok (mk_Replace (X := example_regex) false "(a)(b)" "" index) ∧
    index !! 2 = Some "n".
Proof.
  destruct (named_groups_numbered (X := example_regex) [PGroup; PChar "a"; PChar ")"; PNamed false "n"; PChar "b";
    PChar ")"] "" "(a)(b)") as (index & Hp & Hi); [|reflexivity|].
  - cbn. repeat split; discriminate.
  - exists index. split; [exact Hp|]. exact (Hi 1%nat).
Defined.
(** Patterns that match nothing. *)
Definition no_match : Regex := {|
  regex := unit;
  regex_assign := λ _ _, Ok tt;
  regex_match := λ _ _, true;
  regex_search := λ _ _, None
|}.
Definition inert_content : Content (X := no_match) :=
  mk_Content (X := no_match) "html" None
    [mk_Within (X := no_match) None (Some tt) (Some tt) "" false
       [mk_Replace (X := no_match) false tt "x" ∅];
     mk_Within (X := no_match) None (Some tt) (Some tt) "quoted-literal" false
       [mk_Replace (X := no_match) true tt "y" ∅]].
Lemma html_kept_witness :
  ∃ s, parse (X := no_match) (Y := ref_yaz) 1 inert_content "<p  class = 'x' >t</p >" [] ∅ =
    Ok (s, ∅) ∧ bare s = bare "<p  class = 'x' >t</p >".
Proof.
  apply (html_kept (X := no_match) (Y := ref_yaz)); [reflexivity|lia|reflexivity| |].
  - intros w Hw r _ s. reflexivity.
  - intros i (s & _ & Hs & _). unfold char_at in Hs.
    do 23 (destruct s as [|s]; [discriminate Hs|]). discriminate Hs.
Defined.
End HttpRewrite.
