(* ===== verification/Z3950Client.v ===== *)
(** * The z3950_client filter

    [src/filter_z3950_client.cpp]: the end of a route; every client session
    gets a connection to its target, requests are relayed and answers waited
    for. YAZ++ delivers what happens on a connection by callbacks: here a
    list of network events that [processEvent] takes from. *)
From S2P Require Import Prelude Zgdu Yaz Core Xml Util Frontends.

Module Z3950Client.

(** ** State *)

(** [Assoc]; [m_package] is the package in [Conv] below. *)
Record Assoc : Type := mk_Assoc {
  m_in_use : bool;
  m_waiting : bool;
  m_destroyed : bool;
  m_connected : Z;      (* 0 = not connected, 1 = init phase, 2 = rest *)
  m_has_closed : bool;
  m_queue_len : Z;
  m_time_elapsed : Z;
  m_connect_time_max : Z;
  m_init_time_max : Z;
  m_general_time_max : Z;
  m_host : string
}.
Definition set_use (in_use : bool) (queue_len : Z) (a : Assoc) : Assoc :=
  mk_Assoc in_use (m_waiting a) (m_destroyed a) (m_connected a) (m_has_closed a) queue_len
    (m_time_elapsed a) (m_connect_time_max a) (m_init_time_max a) (m_general_time_max a)
    (m_host a).
Definition set_waiting (b : bool) (a : Assoc) : Assoc :=
  mk_Assoc (m_in_use a) b (m_destroyed a) (m_connected a) (m_has_closed a) (m_queue_len a)
    (m_time_elapsed a) (m_connect_time_max a) (m_init_time_max a) (m_general_time_max a)
    (m_host a).
Definition set_destroyed (a : Assoc) : Assoc :=
  mk_Assoc (m_in_use a) (m_waiting a) true (m_connected a) (m_has_closed a) (m_queue_len a)
    (m_time_elapsed a) (m_connect_time_max a) (m_init_time_max a) (m_general_time_max a)
    (m_host a).
Definition set_connected (n : Z) (a : Assoc) : Assoc :=
  mk_Assoc (m_in_use a) (m_waiting a) (m_destroyed a) n (m_has_closed a) (m_queue_len a)
    (m_time_elapsed a) (m_connect_time_max a) (m_init_time_max a) (m_general_time_max a)
    (m_host a).
Definition set_has_closed (a : Assoc) : Assoc :=
  mk_Assoc (m_in_use a) (m_waiting a) (m_destroyed a) (m_connected a) true (m_queue_len a)
    (m_time_elapsed a) (m_connect_time_max a) (m_init_time_max a) (m_general_time_max a)
    (m_host a).
Definition set_elapsed (n : Z) (a : Assoc) : Assoc :=
  mk_Assoc (m_in_use a) (m_waiting a) (m_destroyed a) (m_connected a) (m_has_closed a)
    (m_queue_len a) n (m_connect_time_max a) (m_init_time_max a) (m_general_time_max a)
    (m_host a).
(** [c->m_time_elapsed = 0; c->m_waiting = true]. *)
Definition start_waiting (a : Assoc) : Assoc := set_waiting true (set_elapsed 0 a).

(** [Rep], configuration and connections. *)
Record Rep : Type := mk_Rep {
  m_general_timeout_sec : Z;
  m_connect_timeout_sec : Z;
  m_init_timeout_sec : Z;
  m_max_sockets_timeout_sec : Z;
  m_max_sockets : Z;
  m_force_close : bool;
  m_client_ip : bool;
  m_bind_host : bool;
  m_charset : string;
  m_default_target : string;
  m_force_target : string;
  m_clients : gmap Z Assoc
}.
Definition Rep_init : Rep := mk_Rep 30 10 10 15 0 false false false "" "" "" ∅.
Definition set_clients (c : gmap Z Assoc) (r : Rep) : Rep :=
  mk_Rep (m_general_timeout_sec r) (m_connect_timeout_sec r) (m_init_timeout_sec r)
    (m_max_sockets_timeout_sec r) (m_max_sockets r) (m_force_close r) (m_client_ip r)
    (m_bind_host r) (m_charset r) (m_default_target r) (m_force_target r) c.
Definition Assoc_new (r : Rep) (host : string) : Assoc :=
  mk_Assoc true false false 0 false 1 0 (m_connect_timeout_sec r) (m_init_timeout_sec r)
    (m_general_timeout_sec r) host.

Section filter.
Context `{Y : Yaz} {R : Type}.

(** ** Callbacks *)

(** A connection in conversation: [inspect] says that [m_package] is set. *)
Record Conv : Type := mk_Conv {
  assoc : Assoc;
  package : Package R;
  inspect : bool
}.
Definition on_assoc (f : Assoc → Assoc) (c : Conv) : Conv :=
  mk_Conv (f (assoc c)) (package c) (inspect c).

Definition connectNotify (c : Conv) : Conv := on_assoc (set_connected 1 ∘ set_waiting false) c.

(** The Close that answers the request of a package, and the session closed. *)
Definition close_package (reason : Z) (p : Package R) : Package R :=
  close_session (set_response (Some (GDU_Z3950
    (create_close (z3950 (p_request p)) reason None))) p).
Definition fail_package (reason : Z) (c : Conv) : Conv :=
  if inspect c then mk_Conv (assoc c) (close_package reason (package c)) true else c.
Definition failNotify (c : Conv) : Conv :=
  fail_package Close_peerAbort (on_assoc (set_waiting false) c).
(** Has the time for the current phase run out? *)
Definition time_out (a : Assoc) : bool :=
  ((m_connected a =? 0) && (m_connect_time_max a <=? m_time_elapsed a)) ||
  ((m_connected a =? 1) && (m_init_time_max a <=? m_time_elapsed a)) ||
  ((2 <=? m_connected a) && (m_general_time_max a <=? m_time_elapsed a)).
Definition timeoutNotify (c : Conv) : Conv :=
  let c := on_assoc (λ a, set_elapsed (m_time_elapsed a + 1) a) c in
  if time_out (assoc c) then
    fail_package (if m_connected (assoc c) =? 2 then Close_lackOfActivity else Close_peerAbort)
      (on_assoc (set_waiting false) c)
  else c.

(** Diagnostics get the name of the target. *)
Definition add_backend (host addinfo : string) : string :=
  (if decide (addinfo = "") then "" else addinfo +:+ " ") +:+ "(backend=" +:+ host +:+ ")".
Definition fixup_nsd (host : string) (d : DefaultDiagFormat) : DefaultDiagFormat :=
  {| condition := condition d;
     addinfo := match addinfo d with
                | v2Addinfo s => v2Addinfo (add_backend host s)
                | v3Addinfo s => v3Addinfo (add_backend host s)
                end |}.
Definition fixup_records (host : string) (records : option Records) : option Records :=
  match records with
  | Some (Records_NSD d) => Some (Records_NSD (fixup_nsd host d))
  | Some (Records_multipleNSD l) =>
      Some (Records_multipleNSD ((λ dr, match dr with
        | DiagRec_defaultFormat d => DiagRec_defaultFormat (fixup_nsd host d)
        | dr => dr
        end) <$> l))
  | r => r
  end.
Definition fixup_init (host : string) (initrs : InitResponse) : InitResponse :=
  match ir_userInformationField initrs with
  | Some (External_userInfo1 ui) =>
      set_ir_userInformationField (Some (External_userInfo1 ((λ u, match u with
        | OtherInfo_externallyDefinedInfo (Some (External_diag1 elements)) =>
            OtherInfo_externallyDefinedInfo (Some (External_diag1 ((λ ds, match ds with
              | DiagnosticFormat_s_defaultDiagRec d =>
                  DiagnosticFormat_s_defaultDiagRec (fixup_nsd host d)
              | ds => ds
              end) <$> elements)))
        | u => u
        end) <$> ui))) initrs
  | _ => initrs
  end.
Definition fixup (host : string) (g : option GDU) : option GDU :=
  match g with
  | Some (GDU_Z3950 (searchResponse r)) =>
      Some (GDU_Z3950 (searchResponse (set_sr_records (fixup_records host (sr_records r)) r)))
  | Some (GDU_Z3950 (presentResponse r)) =>
      Some (GDU_Z3950 (presentResponse (set_pr_records (fixup_records host (pr_records r)) r)))
  | Some (GDU_Z3950 (initResponse r)) => Some (GDU_Z3950 (initResponse (fixup_init host r)))
  | g => g
  end.
Definition recv_GDU (gdu : option GDU) (c : Conv) : Conv :=
  let c := on_assoc (set_waiting false) c in
  if inspect c then
    let a := match gdu with
             | Some (GDU_Z3950 (initResponse _)) => set_connected 2 (assoc c)
             | _ => assoc c
             end in
    mk_Conv a (set_response (fixup (m_host a) gdu) (package c)) true
  else c.

(** ** The network *)

(** What one call of [processEvent] that returns a positive number does. *)
Inductive net_event : Type :=
  | Connected
  | Failed
  | Tick
  | Received (gdu : option GDU)
  | Nothing.
Definition dispatch (e : net_event) (c : Conv) : Conv :=
  match e with
  | Connected => connectNotify c
  | Failed => failNotify c
  | Tick => timeoutNotify c
  | Received gdu => recv_GDU gdu c
  | Nothing => c
  end.
(** The waiting loops; [processEvent] returns 0 when no event is left. *)
Fixpoint wait_loop (c : Conv) (events : list net_event) : Conv * list net_event :=
  if negb (m_destroyed (assoc c)) && m_waiting (assoc c) then
    match events with
    | [] => (c, [])
    | e :: events' => wait_loop (dispatch e c) events'
    end
  else (c, events).
(** The network: the answer of [client(host)], 0 for a connection under way,
    the events to come, and what was sent. *)
Record Net : Type := mk_Net {
  client : string → Z;
  events : list net_event;
  sent : list GDU
}.
Definition set_events (l : list net_event) (n : Net) : Net := mk_Net (client n) l (sent n).
Definition send_GDU (g : GDU) (n : Net) : Net := mk_Net (client n) (events n) (sent n ++ [g]).
Definition World : Type := Rep * Net.

(** ** [send_and_receive] *)

(** [yaz_oi_update(&oi, odr, 0, 0, 0)]: the unit to write, as a function of
    what is written; [yaz_set_proposal_charneg_list]. *)
Context (yaz_oi_update : OtherInformation → option (OtherInformationUnit → OtherInformation)).
Context (yaz_set_proposal_charneg_list : string → External).
Context (Options_negotiationModel : Z).

Definition has_proposal (oi : OtherInformation) : bool :=
  existsb (λ u, match u with
    | OtherInfo_externallyDefinedInfo (Some (External_charSetandLanguageNegotiation _)) => true
    | _ => false
    end) oi.
Definition set_charset_proposal (charset : string) (req : InitRequest) : InitRequest :=
  if has_proposal (iq_otherInfo req) then req
  else match yaz_oi_update (iq_otherInfo req) with
       | Some write =>
           set_iq_otherInfo (write (OtherInfo_externallyDefinedInfo
             (Some (yaz_set_proposal_charneg_list charset))))
             (set_iq_options (MASK_SET (iq_options req) Options_negotiationModel) req)
       | None => req
       end.
(** The client's address is added to those that the request carries. *)
Definition add_client_ip (o : Origin.t) (req : InitRequest) : InitRequest :=
  let peer_name2 := Origin.get_address o in
  if decide (peer_name2 = "") then req
  else
    let '(peer_name1, oi) := yaz_oi_get_string (iq_otherInfo req) oid_userinfo_client_ip 1 true in
    set_iq_otherInfo (yaz_oi_set_string oi oid_userinfo_client_ip 1
      (match peer_name1 with Some s => s +:+ ", " | None => "" end +:+ peer_name2)) req.
Definition prepare_init (rep : Rep) (o : Origin.t) (a : APDU) : APDU :=
  match a with
  | initRequest req =>
      let req := if m_client_ip rep then add_client_ip o req else req in
      initRequest (if decide (m_charset rep = "") then req
                   else set_charset_proposal (m_charset rep) req)
  | a => a
  end.
Definition connect_host (rep : Rep) (o : Origin.t) (a : Assoc) : string :=
  if m_bind_host rep then
    let bind_host := Origin.get_bind_address o in
    if decide (bind_host = "") then m_host a else m_host a +:+ " " +:+ bind_host
  else m_host a.

(** Wait for a connection; [None] when [client] fails at once. *)
Definition connect (rep : Rep) (c : Conv) (n : Net) : option Conv * Net :=
  if m_connected (assoc c) =? 0 then
    if client n (connect_host rep (p_origin (package c)) (assoc c)) =? 0 then
      let '(c, l) := wait_loop c (events n) in (Some c, set_events l n)
    else (None, n)
  else (Some c, n).

(** Send the request and wait for the answer. *)
Definition relay (rep : Rep) (c : Conv) (apdu : APDU) (n : Net) : Conv * Net :=
  let apdu := prepare_init rep (p_origin (package c)) apdu in
  let c := mk_Conv (start_waiting (assoc c))
             (set_request (Some (GDU_Z3950 apdu)) (package c)) (inspect c) in
  let n := send_GDU (GDU_Z3950 apdu) n in
  match apdu with
  | triggerResourceControlRequest _ => (c, n)
  | _ => let '(c, l) := wait_loop c (events n) in (c, set_events l n)
  end.

Definition send_and_receive (rep : Rep) (p : Package R) (a : Assoc) (n : Net) :
    Package R * Assoc * Net :=
  if m_destroyed a then (p, a, n)
  else
    let force := is_closed p && negb (m_connected a =? 0) && negb (m_has_closed a) &&
                 m_force_close rep in
    let p := if force then
               set_request (Some (GDU_Z3950 (create_close None Close_finished
                 (Some "z3950_client")))) p
             else p in
    match z3950 (p_request p) with
    | None => (p, a, n)
    | Some apdu =>
        let a := match apdu with close _ => set_has_closed a | _ => a end in
        match connect rep (mk_Conv (start_waiting a) p (negb force)) n with
        | (None, n) => (close_package Close_peerAbort p, start_waiting a, n)
        | (Some c, n) =>
            if m_connected (assoc c) =? 0 then (package c, assoc c, n)
            else let '(c, n) := relay rep c apdu n in (package c, assoc c, n)
        end
    end.

(** ** [get_assoc] and [release_assoc] *)

(** Connections to a target, and those of them that are idle. *)
Definition connections (target : string) (c : gmap Z Assoc) : gmap Z Assoc :=
  filter (λ x, m_host x.2 = target) c.
Definition number (target : string) (c : gmap Z Assoc) : Z :=
  Z.of_nat (size (connections target c)).
Definition no_not_in_use (target : string) (c : gmap Z Assoc) : Z :=
  Z.of_nat (size (filter (λ x, m_in_use x.2 = false) (connections target c))).

(** What other threads make of the connections during a [timed_wait]; [None]
    when the time is over. *)
Context (timed_wait : gmap Z Assoc → option (gmap Z Assoc)).
Fixpoint limit_loop (fuel : nat) (max_sockets : Z) (target : string) (c : gmap Z Assoc) :
    outcome (bool * gmap Z Assoc) :=
  match fuel with
  | O => OutOfFuel
  | S fuel' =>
      if max_sockets =? 0 then Ok (true, c)
      else if number target c <? max_sockets then Ok (true, c)
      else if no_not_in_use target c =? 0 then Ok (false, c)
      else match timed_wait c with
           | None => Ok (false, c)
           | Some c' => limit_loop fuel' max_sockets target c'
           end
  end.

Context (next : string → Package R → M Net (Package R)).
Context (BIB1_INIT_NEGOTIATION_OPTION_REQUIRED : Z).

Definition refuse_init (req : InitRequest) (err : Z) (addinfo : string) (p : Package R) :
    Package R :=
  close_session (set_response (Some (GDU_Z3950 (initResponse
    (create_initResponse (Some (initRequest req)) err (Some addinfo))))) p).
(** The target, and the request without virtual hosts; or the refusal. *)
Definition choose_target (fuel : nat) (rep : Rep) (req : InitRequest) (p : Package R) :
    outcome (string * InitRequest + Package R) :=
  if negb (bool_decide (m_force_target rep = "")) then Ok (inl (m_force_target rep, req))
  else
    '(_, vhosts, oi) ← remove_vhost_otherinfo fuel (iq_otherInfo req) [];
    let req := set_iq_otherInfo oi req in
    let p := set_request (Some (GDU_Z3950 (initRequest req))) p in
    Ok (match vhosts with
        | [] => if decide (m_default_target rep = "") then
                  inr (refuse_init req BIB1_INIT_NEGOTIATION_OPTION_REQUIRED
                         "z3950_client: No vhost given" p)
                else inl (m_default_target rep, req)
        | [v] => inl (v, req)
        | _ => inr (refuse_init req BIB1_COMBI_OF_SPECIFIED_DATABASES_UNSUPP
                      "z3950_client: Can not cope with multiple vhosts" p)
        end).
(** The limit for a package: the one of its origin, else the one configured. *)
Definition max_sockets (rep : Rep) (o : Origin.t) : Z :=
  if Origin.get_max_sockets o =? 0 then m_max_sockets rep else Origin.get_max_sockets o.
(** A handler alone would wait for a connection in use for ever; the waiting
    is a step of the interleaving below. *)
Definition get_assoc (fuel : nat) (p : Package R) : M World (Package R * option Assoc) :=
  rep ← get_st;
  let id := Session.id (p_session p) in
  match m_clients rep !! id with
  | Some a =>
      if m_in_use a then out_of_fuel
      else
        let a := set_use true (m_queue_len a + 1) a in
        put_st (set_clients (<[id := a]> (m_clients rep)) rep) ;; mret (p, Some a)
  | None =>
      match z3950 (p_request p) with
      | None => λ w, match next "" p w.2 with
                     | Ok (p, n) => Ok ((p, None), (w.1, n))
                     | Throw e => Throw e
                     | Undef k => Undef k
                     | OutOfFuel => OutOfFuel
                     end
      | Some (initRequest req) =>
          r ← lift_outcome (choose_target fuel rep req p);
          match r with
          | inr p => mret (p, None)
          | inl (target, req) =>
              let p := set_request (Some (GDU_Z3950 (initRequest req))) p in
              '(free, c) ← lift_outcome
                (limit_loop fuel (max_sockets rep (p_origin p)) target (m_clients rep));
              if (free : bool) then
                let a := Assoc_new rep target in
                put_st (set_clients (<[id := a]> c) rep) ;; mret (p, Some a)
              else
                put_st (set_clients c rep) ;;
                mret (refuse_init req BIB1_TEMPORARY_SYSTEM_ERROR
                        "z3950_client: max sessions" p, None)
          end
      | Some apdu =>
          mret (close_session (set_response (Some (GDU_Z3950 (create_close (Some apdu)
            Close_protocolError (Some "First PDU was not an Initialize Request")))) p), None)
      end
  end.

(** The connection given back; gone, when its session is closed and no package
    is left that knows it. *)
Definition release (closed : bool) (a : Assoc) : option Assoc :=
  let a := set_use false (m_queue_len a - 1) a in
  if closed then
    let a := set_destroyed a in if m_queue_len a =? 0 then None else Some a
  else Some a.
Definition release_assoc (p : Package R) : M World unit :=
  modify_st (λ rep,
    let id := Session.id (p_session p) in
    match m_clients rep !! id with
    | None => rep
    | Some a =>
        set_clients (match release (is_closed p) a with
                     | Some a => <[id := a]> (m_clients rep)
                     | None => delete id (m_clients rep)
                     end) rep
    end).

Definition process (fuel : nat) (p : Package R) : M World (Package R) :=
  '(p, c) ← get_assoc fuel p;
  match c with
  | None => mret p
  | Some a =>
      let id := Session.id (p_session p) in
      p ← (λ w, let '(p, a, n) := send_and_receive w.1 p a w.2 in
                Ok (p, (set_clients (<[id := a]> (m_clients w.1)) w.1, n)));
      release_assoc p ;; mret p
  end.

(** ** Configuration *)
Fixpoint configure_loop (ptr : list xmlNode) (r : Rep) : outcome Rep :=
  match ptr with
  | [] => Ok r
  | n :: ptr' =>
      if decide (n_type n ≠ XML_ELEMENT_NODE) then configure_loop ptr' r
      else
        let 'mk_Rep g c i ms m fc ci bh cs dt ft cl := r in
        let int d := mp_xml.get_int [n] d in
        let bool := mp_xml.get_bool [n] false in
        let text := mp_xml.get_text [n] in
        if decide (n_name n = "timeout") then
          configure_loop ptr' (mk_Rep (int 30) c i ms m fc ci bh cs dt ft cl)
        else if decide (n_name n = "connect-timeout") then
          configure_loop ptr' (mk_Rep g (int 10) i ms m fc ci bh cs dt ft cl)
        else if decide (n_name n = "init-timeout") then
          configure_loop ptr' (mk_Rep g c (int 10) ms m fc ci bh cs dt ft cl)
        else if decide (n_name n = "max-sockets-timeout") then
          configure_loop ptr' (mk_Rep g c i (int 15) m fc ci bh cs dt ft cl)
        else if decide (n_name n = "default_target") then
          configure_loop ptr' (mk_Rep g c i ms m fc ci bh cs text ft cl)
        else if decide (n_name n = "force_target") then
          configure_loop ptr' (mk_Rep g c i ms m fc ci bh cs dt text cl)
        else if decide (n_name n = "max-sockets") then
          configure_loop ptr' (mk_Rep g c i ms (int 0) fc ci bh cs dt ft cl)
        else if decide (n_name n = "force_close") then
          configure_loop ptr' (mk_Rep g c i ms m bool ci bh cs dt ft cl)
        else if decide (n_name n = "client_ip") then
          configure_loop ptr' (mk_Rep g c i ms m fc bool bh cs dt ft cl)
        else if decide (n_name n = "charset") then
          configure_loop ptr' (mk_Rep g c i ms m fc ci bh text dt ft cl)
        else if decide (n_name n = "bind_host") then
          configure_loop ptr' (mk_Rep g c i ms m fc ci bool cs dt ft cl)
        else Throw ("Bad element " +:+ n_name n)
  end.
Definition configure (ptr : xmlNode) (r : Rep) : outcome Rep :=
  configure_loop (n_children ptr) r.

(** ** Waiting *)

(** The seconds allowed in the phase of a connection. *)
Definition time_max (a : Assoc) : Z :=
  if m_connected a =? 0 then m_connect_time_max a
  else if m_connected a =? 1 then m_init_time_max a else m_general_time_max a.
Fixpoint ticks (l : list net_event) : Z :=
  match l with
  | [] => 0
  | Tick :: l' => 1 + ticks l'
  | _ :: l' => ticks l'
  end.
Lemma ticks_app l1 l2 : ticks (l1 ++ l2) = ticks l1 + ticks l2.
Proof. induction l1 as [|[] l1 IH]; cbn [app ticks]; lia. Qed.
Lemma ticks_nonneg l : 0 ≤ ticks l.
Proof. induction l as [|[] l IH]; cbn [ticks]; lia. Qed.

(** How a conversation looks when the waiting has ended. *)
Inductive ended (c : Conv) : net_event → Conv → Prop :=
  | ended_connected a :
      m_connected a = 1 → ended c Connected (mk_Conv a (package c) (inspect c))
  | ended_received g a :
      ended c (Received g) (mk_Conv a
        (if inspect c then set_response (fixup (m_host (assoc c)) g) (package c)
         else package c) (inspect c))
  | ended_closed e a reason :
      e = Failed ∨ e = Tick → reason = Close_peerAbort ∨ reason = Close_lackOfActivity →
      ended c e (mk_Conv a
        (if inspect c then close_package reason (package c) else package c) (inspect c)).

(** What one event does to a connection that waits: the waiting ends, or
    nothing but the time changes. *)
Lemma dispatch_waiting c e : m_waiting (assoc c) = true → 0 ≤ m_connected (assoc c) →
  let c' := dispatch e c in
  (m_waiting (assoc c') = false ∧ ended c e c') ∨
  (e = Nothing ∧ c' = c) ∨
  (e = Tick ∧ m_time_elapsed (assoc c) + 1 < time_max (assoc c) ∧
   c' = on_assoc (λ a, set_elapsed (m_time_elapsed a + 1) a) c).
Proof.
  destruct c as [a p i]. cbn [assoc]. intros Hw Hc. destruct e as [| | |g|]; cbn [dispatch].
  - left. split; [done|]. by constructor.
  - left. unfold failNotify, fail_package, on_assoc. cbn [assoc inspect package].
    destruct i; cbn; (split; [done|]).
    + apply (ended_closed (mk_Conv a p true)); auto.
    + apply (ended_closed (mk_Conv a p false) Failed _ Close_peerAbort); auto.
  - unfold timeoutNotify. set (c1 := on_assoc _ _).
    assert (Ht : time_out (assoc c1) = (time_max a <=? m_time_elapsed a + 1)).
    { unfold time_out, time_max. cbn.
      destruct (Z.eqb_spec (m_connected a) 0), (Z.eqb_spec (m_connected a) 1),
        (Z.leb_spec 2 (m_connected a)); cbn; rewrite ?orb_false_r; done || lia. }
    rewrite Ht. destruct (Z.leb_spec (time_max a) (m_time_elapsed a + 1)).
    + left. set (reason := if m_connected (assoc c1) =? 2 then _ else _).
      assert (Hr : reason = Close_peerAbort ∨ reason = Close_lackOfActivity)
        by (subst reason; destruct (_ =? 2); auto).
      clearbody reason. unfold fail_package, on_assoc. cbn [assoc inspect package].
      destruct i; cbn; (split; [done|]).
      * apply (ended_closed (mk_Conv a p true)); auto.
      * apply (ended_closed (mk_Conv a p false) Tick _ reason); auto.
    + right. right. split_and!; [done|cbn; lia|done].
  - left. unfold recv_GDU, on_assoc. cbn [assoc inspect package].
    destruct i; cbn [m_waiting assoc].
    + split; [by destruct g as [[[]| |]|]|].
      assert (Hh : m_host match g with
        | Some (GDU_Z3950 (initResponse _)) => set_connected 2 (set_waiting false a)
        | _ => set_waiting false a end = m_host a) by (by destruct g as [[[]| |]|]).
      rewrite Hh. apply (ended_received (mk_Conv a p true)).
    + split; [done|]. apply (ended_received (mk_Conv a p false)).
  - right. by left.
Qed.

Lemma ended_same c c1 e c' : package c1 = package c → inspect c1 = inspect c →
  m_host (assoc c1) = m_host (assoc c) → ended c1 e c' → ended c e c'.
Proof.
  intros Hp Hi Hh H. destruct H as [a Ha|g a|e a reason He Hr].
  - rewrite Hp, Hi. by constructor.
  - rewrite Hp, Hi, Hh. constructor.
  - rewrite Hp, Hi. by constructor.
Qed.
Lemma wait_loop_ends l c :
  m_waiting (assoc c) = true → m_destroyed (assoc c) = false → 0 ≤ m_connected (assoc c) →
  Z.max 1 (time_max (assoc c) - m_time_elapsed (assoc c)) ≤ ticks l →
  ∃ used e rest c', l = used ++ e :: rest ∧ wait_loop c l = (c', rest) ∧
    ticks (used ++ [e]) ≤ Z.max 1 (time_max (assoc c) - m_time_elapsed (assoc c)) ∧
    ended c e c'.
Proof.
  revert c. induction l as [|e l IH]; intros c Hw Hd Hc Ht; [cbn in Ht; lia|].
  pose proof (dispatch_waiting c e Hw Hc) as Hdis. cbn zeta in Hdis.
  destruct Hdis as [[Hstop Hend]|[[-> Hsame]|(-> & Hlt & Hsame)]].
  - exists [], e, l, (dispatch e c). split_and!; [done| | |done].
    + cbn [wait_loop]. rewrite Hd, Hw. cbn [negb andb]. destruct l; cbn [wait_loop];
        by rewrite Hstop, andb_false_r.
    + destruct e; cbn; lia.
  - cbn [ticks] in Ht. destruct (IH c Hw Hd Hc Ht) as (used & e & rest & c' & -> & Hrun & Hle & He).
    exists (Nothing :: used), e, rest, c'. split_and!; [done| |done|done].
    cbn [wait_loop]. rewrite Hd, Hw. cbn [negb andb dispatch]. exact Hrun.
  - set (c1 := on_assoc (λ a, set_elapsed (m_time_elapsed a + 1) a) c) in *.
    assert (Hmax : time_max (assoc c1) = time_max (assoc c)) by done.
    assert (Hel : m_time_elapsed (assoc c1) = m_time_elapsed (assoc c) + 1) by done.
    cbn [ticks] in Ht. destruct (IH c1) as (used & e & rest & c' & -> & Hrun & Hle & He);
      [done|done|done|rewrite Hmax, Hel; lia|].
    exists (Tick :: used), e, rest, c'. split_and!; [done| | |by apply (ended_same c c1)].
    + cbn [app wait_loop]. rewrite Hd, Hw. cbn [negb andb]. rewrite Hsame. exact Hrun.
    + cbn [app ticks]. rewrite Hmax, Hel in Hle. lia.
Qed.

(** C20. No client waits for ever: on an established connection a request is
    sent once, and as soon as the network has given one event per second for
    the time allowed, the client has an answer: either what the target sent,
    its diagnostics marked with the target's name, on the open session, or a
    Close for its request on the closed session. *)
Theorem answered_or_closed (rep : Rep) (p : Package R) (a : Assoc) (n : Net) (apdu : APDU)
    (Hreq : z3950 (p_request p) = Some apdu) (Hopen : is_closed p = false)
    (Hlive : m_destroyed a = false) (Hconn : 1 ≤ m_connected a)
    (Hanswer : ∀ r, apdu ≠ triggerResourceControlRequest r)
    (Honce : Connected ∉ events n)
    (Htime : Z.max 1 (time_max a) ≤ ticks (events n)) :
  ∃ p' a' n' used, send_and_receive rep p a n = (p', a', n') ∧
    sent n' = sent n ++ [GDU_Z3950 (prepare_init rep (p_origin p) apdu)] ∧
    events n = used ++ events n' ∧ ticks used ≤ Z.max 1 (time_max a) ∧
    ((∃ g, Received g ∈ used ∧ p_response p' = fixup (m_host a) g ∧ is_closed p' = false) ∨
     (∃ reason, is_closed p' = true ∧ p_response p' = Some (GDU_Z3950 (create_close
        (Some (prepare_init rep (p_origin p) apdu)) reason None)))).
Proof.
  unfold send_and_receive. rewrite Hlive, Hopen. cbn [andb]. rewrite Hreq.
  set (a1 := match apdu with close _ => set_has_closed a | _ => a end).
  assert (Ha1 : m_connected a1 = m_connected a ∧ m_host a1 = m_host a ∧
    m_destroyed a1 = m_destroyed a ∧ time_max a1 = time_max a) by (by destruct apdu).
  destruct Ha1 as (Hc1 & Hh1 & Hd1 & Ht1). unfold connect. cbn [assoc].
  change (m_connected (start_waiting a1)) with (m_connected a1). rewrite Hc1.
  rewrite (proj2 (Z.eqb_neq (m_connected a) 0)) by lia. cbn [assoc].
  change (m_connected (start_waiting a1)) with (m_connected a1). rewrite Hc1.
  rewrite (proj2 (Z.eqb_neq (m_connected a) 0)) by lia. unfold relay. cbn [assoc package inspect].
  set (x := prepare_init rep (p_origin p) apdu).
  assert (Hx : ∀ r, x ≠ triggerResourceControlRequest r).
  { intros r. unfold x. destruct apdu; try apply Hanswer; done. }
  set (c := mk_Conv (start_waiting (start_waiting a1))
    (set_request (Some (GDU_Z3950 x)) p) (negb false)).
  set (n1 := send_GDU (GDU_Z3950 x) n).
  assert (Hrun : ∃ used e rest c', events n = used ++ e :: rest ∧
    wait_loop c (events n1) = (c', rest) ∧ ticks (used ++ [e]) ≤ Z.max 1 (time_max a) ∧
    ended c e c').
  { destruct (wait_loop_ends (events n) c) as (used & e & rest & c' & Hl & Hw & Hle & He).
    - done.
    - unfold c. cbn. by rewrite Hd1.
    - unfold c. cbn. rewrite Hc1. lia.
    - change (time_max (assoc c)) with (time_max a1).
      change (m_time_elapsed (assoc c)) with 0. rewrite Ht1, Z.sub_0_r. done.
    - exists used, e, rest, c'. change (time_max (assoc c)) with (time_max a1) in Hle.
      change (m_time_elapsed (assoc c)) with 0 in Hle. rewrite Ht1, Z.sub_0_r in Hle. done. }
  destruct Hrun as (used & e & rest & c' & Hl & Hw & Hle & He).
  exists (package c'), (assoc c'), (set_events rest n1), (used ++ [e]). split_and!.
  - destruct x eqn:Ex; try (by rewrite Hw). by destruct (Hx r).
  - done.
  - cbn. rewrite Hl. by rewrite <-app_assoc.
  - done.
  - destruct He as [a' Ha'|g a'|e a' reason He Hr]; cbn [package inspect negb c].
    + exfalso. apply Honce. rewrite Hl. set_solver.
    + left. exists g. unfold c. cbn. rewrite Hh1. split_and!; [set_solver|done|done].
    + right. exists reason. done.
Qed.
End filter.

(** ** Threads

    Several packages of a session may be under way at once: those that find
    its connection in use wait for it, and one that opens a connection may
    have to wait for a free socket with the lock released. [m_queue_len]
    counts the packages that know a connection. *)
Inductive status : Type :=
  | Waiting
  | Blocked (target : string) (o : Origin.t)
  | Holding
  | Gone.
Record thread : Type := mk_thread { t_id : Z; t_status : status }.
Record Sys : Type := mk_Sys { clients : gmap Z Assoc; threads : list thread }.

(** [pipelined]: may a client send a request before its Init is answered?
    [origins]: the origins of the packages that come; each says how many
    connections to one target its package may see, 0 for any number. *)
Inductive sys_step (pipelined : bool) (rep : Rep) (origins : Origin.t → Prop) : Sys → Sys → Prop :=
  | step_found c ts id a :
      c !! id = Some a → m_in_use a = false →
      sys_step pipelined rep origins (mk_Sys c ts)
        (mk_Sys (<[id := set_use true (m_queue_len a + 1) a]> c) (ts ++ [mk_thread id Holding]))
  | step_queue c ts id a :
      c !! id = Some a → m_in_use a = true →
      sys_step pipelined rep origins (mk_Sys c ts)
        (mk_Sys (<[id := set_use true (m_queue_len a + 1) a]> c) (ts ++ [mk_thread id Waiting]))
  | step_wake c l1 l2 id a :
      c !! id = Some a → m_in_use a = false →
      sys_step pipelined rep origins (mk_Sys c (l1 ++ mk_thread id Waiting :: l2))
        (mk_Sys (<[id := set_use true (m_queue_len a) a]> c)
           (l1 ++ mk_thread id Holding :: l2))
  | step_new c ts id target o :
      origins o → c !! id = None → (pipelined = true ∨ ∀ t, t ∈ ts → t_id t = id → t_status t = Gone) →
      max_sockets rep o = 0 ∨ number target c < max_sockets rep o →
      sys_step pipelined rep origins (mk_Sys c ts)
        (mk_Sys (<[id := Assoc_new rep target]> c) (ts ++ [mk_thread id Holding]))
  | step_block c ts id target o :
      origins o → c !! id = None → (pipelined = true ∨ ∀ t, t ∈ ts → t_id t = id → t_status t = Gone) →
      max_sockets rep o ≠ 0 → max_sockets rep o ≤ number target c →
      no_not_in_use target c ≠ 0 →
      sys_step pipelined rep origins (mk_Sys c ts)
        (mk_Sys c (ts ++ [mk_thread id (Blocked target o)]))
  | step_open c l1 l2 id target o :
      max_sockets rep o = 0 ∨ number target c < max_sockets rep o →
      sys_step pipelined rep origins (mk_Sys c (l1 ++ mk_thread id (Blocked target o) :: l2))
        (mk_Sys (<[id := Assoc_new rep target]> c) (l1 ++ mk_thread id Holding :: l2))
  | step_give_up c l1 l2 id target o :
      sys_step pipelined rep origins (mk_Sys c (l1 ++ mk_thread id (Blocked target o) :: l2))
        (mk_Sys c (l1 ++ mk_thread id Gone :: l2))
  | step_work c l1 l2 id a a' :
      c !! id = Some a → m_in_use a' = m_in_use a → m_queue_len a' = m_queue_len a →
      m_host a' = m_host a →
      sys_step pipelined rep origins (mk_Sys c (l1 ++ mk_thread id Holding :: l2))
        (mk_Sys (<[id := a']> c) (l1 ++ mk_thread id Holding :: l2))
  | step_release c l1 l2 id a closed :
      c !! id = Some a →
      sys_step pipelined rep origins (mk_Sys c (l1 ++ mk_thread id Holding :: l2))
        (mk_Sys (match release closed a with Some a => <[id := a]> c | None => delete id c end)
           (l1 ++ mk_thread id Gone :: l2)).

Inductive sys_reachable (pipelined : bool) (rep : Rep) (origins : Origin.t → Prop) : Sys → Prop :=
  | sys_init : sys_reachable pipelined rep origins (mk_Sys ∅ [])
  | sys_next S S' : sys_reachable pipelined rep origins S → sys_step pipelined rep origins S S' →
      sys_reachable pipelined rep origins S'.

(** *** Invariant *)
Definition refs (id : Z) (t : thread) : nat :=
  if decide (t_id t = id) then
    match t_status t with Waiting | Holding => 1 | _ => 0 end else 0.
Definition holders (id : Z) (t : thread) : nat :=
  if decide (t_id t = id) then match t_status t with Holding => 1 | _ => 0 end else 0.
Definition blocked (id : Z) (t : thread) : nat :=
  if decide (t_id t = id) then match t_status t with Blocked _ _ => 1 | _ => 0 end else 0.
Notation total f ts := (sum_list_with f ts).

Definition session_ok (c : gmap Z Assoc) (ts : list thread) (id : Z) : Prop :=
  match c !! id with
  | Some a =>
      m_queue_len a = Z.of_nat (total (refs id) ts) ∧
      total (holders id) ts = (if m_in_use a then 1 else 0)%nat ∧
      total (blocked id) ts = 0%nat
  | None => total (refs id) ts = 0%nat ∧ (total (blocked id) ts ≤ 1)%nat
  end.
Definition blocked_by (origins : Origin.t → Prop) (t : thread) : Prop :=
  match t_status t with Blocked _ o => origins o | _ => True end.
(** No package may have more than [max] connections to a target. *)
Definition limited (rep : Rep) (origins : Origin.t → Prop) (max : Z) : Prop :=
  ∀ o, origins o → 0 < max_sockets rep o ≤ max.
Definition sys_ok (rep : Rep) (origins : Origin.t → Prop) (S : Sys) : Prop :=
  (∀ id, session_ok (clients S) (threads S) id) ∧
  Forall (blocked_by origins) (threads S) ∧
  (∀ max target, 0 ≤ max → limited rep origins max → number target (clients S) ≤ max).

Lemma total_middle f l1 l2 (t : thread) :
  total f (l1 ++ t :: l2) = (f t + total f (l1 ++ l2))%nat.
Proof. apply sum_middle. Qed.
Lemma total_last f ts (t : thread) : total f (ts ++ [t]) = (f t + total f ts)%nat.
Proof. rewrite sum_list_with_app. cbn. lia. Qed.
Lemma counts_other f id id' s : id ≠ id' →
  f = refs ∨ f = holders ∨ f = blocked → f id' (mk_thread id s) = 0%nat.
Proof. intros Hne [->|[->| ->]]; unfold refs, holders, blocked; by rewrite decide_False. Qed.
Lemma holders_refs id ts : (total (holders id) ts ≤ total (refs id) ts)%nat.
Proof.
  induction ts as [|t ts IH]; cbn; [lia|]. unfold refs at 1, holders at 1.
  destruct (decide (t_id t = id)), (t_status t); lia.
Qed.

(** Sessions that a step does not touch. *)
Lemma session_ok_other c c' ts ts' id :
  c' !! id = c !! id → (∀ f, f = refs ∨ f = holders ∨ f = blocked →
    total (f id) ts' = total (f id) ts) →
  session_ok c ts id → session_ok c' ts' id.
Proof. intros Hc Hf. unfold session_ok. rewrite Hc, !Hf by auto. done. Qed.

(** *** The number of connections *)
Lemma number_insert_some target c id a a' : c !! id = Some a → m_host a' = m_host a →
  number target (<[id := a']> c) = number target c.
Proof.
  intros Hc Hh. unfold number, connections. f_equal.
  destruct (decide (m_host a = target)) as [Ht|Ht].
  - rewrite map_filter_insert_True by (cbn; congruence). rewrite map_size_insert.
    rewrite (proj2 (map_lookup_filter_Some _ _ _ a)); [done|]. by split.
  - rewrite map_filter_insert_False by (cbn; congruence).
    f_equal. apply map_eq. intros j. apply option_eq. intros x.
    rewrite !map_lookup_filter_Some. destruct (decide (j = id)) as [->|Hne].
    + rewrite lookup_delete_eq, Hc. cbn. naive_solver.
    + by rewrite lookup_delete_ne.
Qed.
Lemma size_delete_le {A} (m : gmap Z A) i : (size (delete i m) ≤ size m)%nat.
Proof. rewrite map_size_delete. destruct (m !! i); unfold Datatypes.id; lia. Qed.
Lemma number_insert target c id a :
  number target (<[id := a]> c) ≤ number target c + (if decide (m_host a = target) then 1 else 0).
Proof.
  unfold number, connections. case_decide as Ht.
  - rewrite map_filter_insert_True by done. rewrite map_size_insert.
    destruct (filter _ c !! id); unfold Datatypes.id; lia.
  - rewrite map_filter_insert_False by done.
    rewrite map_filter_delete. pose proof (size_delete_le
      (filter (λ x : Z * Assoc, m_host x.2 = target) c) id). lia.
Qed.
Lemma number_delete target c id : number target (delete id c) ≤ number target c.
Proof.
  unfold number, connections. rewrite map_filter_delete.
  pose proof (size_delete_le (filter (λ x : Z * Assoc, m_host x.2 = target) c) id). lia.
Qed.

Lemma refs_self id s : refs id (mk_thread id s) =
  match s with Waiting | Holding => 1%nat | _ => 0%nat end.
Proof. unfold refs. by rewrite decide_True. Qed.
Lemma holders_self id s : holders id (mk_thread id s) =
  match s with Holding => 1%nat | _ => 0%nat end.
Proof. unfold holders. by rewrite decide_True. Qed.
Lemma blocked_self id s : blocked id (mk_thread id s) =
  match s with Blocked _ _ => 1%nat | _ => 0%nat end.
Proof. unfold blocked. by rewrite decide_True. Qed.
Lemma all_gone id ts : (∀ t, t ∈ ts → t_id t = id → t_status t = Gone) →
  total (blocked id) ts = 0%nat.
Proof.
  induction ts as [|t ts IH]; intros H; cbn; [done|].
  rewrite IH by (intros u Hu; apply H; by right). unfold blocked.
  case_decide as Hid; [|done]. by rewrite (H t) by (done || left).
Qed.

(** The step changes the state of one session only. *)
Ltac other_session c ts :=
  apply (session_ok_other c _ ts);
  [ by rewrite ?lookup_insert_ne, ?lookup_delete_ne
  | intros f Hf; rewrite ?total_last, ?total_middle, ?total_middle;
    by rewrite ?(counts_other f _ _ _) by auto
  | done ].
Ltac this_session :=
  unfold session_ok in *; rewrite ?lookup_insert_eq, ?lookup_delete_eq;
  rewrite ?total_last, ?total_middle, ?refs_self, ?holders_self, ?blocked_self in *.

(** A step with its variables named. *)
Ltac step_cases H := destruct H as [c ts id a Ha Hu|c ts id a Ha Hu|c l1 l2 id a Ha Hu|
    c ts id target o Ho Hnone Hgone Hlim|c ts id target o Ho Hnone Hgone _ _ _|
    c l1 l2 id target o Hlim|c l1 l2 id target o|
    c l1 l2 id a a' Ha Hu Hq Hh|c l1 l2 id a closed Ha]; cbn [clients threads] in *.
Lemma sys_step_sessions rep origins S S' : sys_step false rep origins S S' →
  (∀ id, session_ok (clients S) (threads S) id) →
  ∀ id, session_ok (clients S') (threads S') id.
Proof.
  intros Hstep Hs id'. step_cases Hstep;
    pose proof (Hs id') as Hid;
    (destruct (decide (id = id')) as [<-|Hne];
     [|first [other_session c ts|other_session c (l1 ++ mk_thread id Waiting :: l2)
       |other_session c (l1 ++ mk_thread id (Blocked target o) :: l2)
       |other_session c (l1 ++ mk_thread id Holding :: l2)|idtac]]).
  - this_session. rewrite Ha, Hu in Hid. cbn. lia.
  - this_session. rewrite Ha, Hu in Hid. cbn. lia.
  - this_session. rewrite Ha, Hu in Hid. cbn. lia.
  - destruct Hgone as [|Hgone]; [done|]. apply all_gone in Hgone.
    pose proof (holders_refs id ts). this_session. rewrite Hnone in *. cbn. lia.
  - destruct Hgone as [|Hgone]; [done|]. apply all_gone in Hgone.
    this_session. rewrite Hnone in *. lia.
  - this_session. pose proof (holders_refs id (l1 ++ l2)).
    destruct (c !! id) as [a|]; cbn; lia.
  - this_session. destruct (c !! id) as [a|]; lia.
  - this_session. rewrite Ha in Hid. rewrite Hq, Hu. lia.
  - this_session. rewrite Ha in Hid. unfold release.
    destruct (m_in_use a), closed; cbn; try lia.
    + destruct (Z.eqb_spec (m_queue_len a - 1) 0); cbn;
        rewrite ?lookup_insert_eq, ?lookup_delete_eq; cbn; lia.
    + rewrite lookup_insert_eq. cbn. lia.
  - unfold release. apply (session_ok_other c _ (l1 ++ mk_thread id Holding :: l2));
      [|intros f Hf; rewrite !total_middle; by rewrite !(counts_other f _ _ _) by auto|done].
    destruct closed; [destruct (_ =? 0)|]; by rewrite ?lookup_insert_ne, ?lookup_delete_ne.
Qed.

Lemma sys_step_blocked pipelined rep origins S S' : sys_step pipelined rep origins S S' →
  Forall (blocked_by origins) (threads S) → Forall (blocked_by origins) (threads S').
Proof.
  intros Hstep Hb. step_cases Hstep; rewrite ?Forall_app, ?Forall_cons in *;
    unfold blocked_by in *; cbn in *; naive_solver.
Qed.
Lemma number_new rep target target' id c max : 0 < max → number target c < max →
  number target' c ≤ max → number target' (<[id := Assoc_new rep target]> c) ≤ max.
Proof.
  intros Hm Hn Hn'. pose proof (number_insert target' c id (Assoc_new rep target)) as Hi.
  cbn [m_host Assoc_new] in Hi. case_decide; subst; lia.
Qed.
Lemma sys_step_number pipelined rep origins max S S' : sys_step pipelined rep origins S S' →
  limited rep origins max → Forall (blocked_by origins) (threads S) →
  (∀ target, number target (clients S) ≤ max) →
  ∀ target, number target (clients S') ≤ max.
Proof.
  intros Hstep Hmax Hb Hn target'. step_cases Hstep; try done;
    try (by rewrite (number_insert_some _ _ _ a)).
  - pose proof (Hmax o Ho). apply number_new; [lia..|done].
  - apply Forall_app in Hb as [_ Hb]. apply Forall_cons_1 in Hb as [Ho _].
    pose proof (Hmax o Ho). apply number_new; [lia..|done].
  - unfold release. destruct closed; [destruct (_ =? 0)|];
      [|by rewrite (number_insert_some _ _ _ a)..].
    pose proof (number_delete target' c id). specialize (Hn target'). lia.
Qed.
Lemma sys_reachable_ok rep origins S : sys_reachable false rep origins S → sys_ok rep origins S.
Proof.
  induction 1 as [|S S' _ (Hs & Hb & Hn) Hstep].
  - split_and!; cbn; [intros id; split; cbn; lia|done|]. intros max target Hm _.
    unfold number, connections. cbn [clients]. by rewrite map_filter_empty, map_size_empty.
  - split_and!; [by eapply sys_step_sessions|by eapply sys_step_blocked|].
    intros max target Hm Hmax. by eapply sys_step_number; eauto.
Qed.

Lemma total_pos f (ts : list thread) t : t ∈ ts → (0 < f t)%nat → (0 < total f ts)%nat.
Proof. intros Hin Hf. apply (sum_ge f) in Hin. lia. Qed.

(** C19. Connections are shared safely: if no client sends a request before
    its Init is answered, then in every interleaving a package that uses or
    waits for a connection finds it in the table, so that none is used after
    it was destroyed; a connection is used by one package at a time, its queue
    length is the number of packages that know it, and no target has more
    connections than the largest limit of a package, each package having the
    limit of its origin or else the one of the configuration. Clients that do
    not wait for the answer to an Init break this: [pipelined_inits_collide]. *)
Theorem connections_safe (rep : Rep) (origins : Origin.t → Prop) (S : Sys)
    (Hr : sys_reachable false rep origins S) :
  (∀ t, t ∈ threads S → t_status t = Waiting ∨ t_status t = Holding →
     is_Some (clients S !! t_id t)) ∧
  (∀ i j t u, threads S !! i = Some t → threads S !! j = Some u →
     t_status t = Holding → t_status u = Holding → t_id t = t_id u → i = j) ∧
  (∀ id a, clients S !! id = Some a →
     m_queue_len a = Z.of_nat (total (refs id) (threads S))) ∧
  (∀ max target, 0 ≤ max → limited rep origins max → number target (clients S) ≤ max).
Proof.
  destruct (sys_reachable_ok rep origins S Hr) as (Hs & _ & Hn). split_and!; [| | |done].
  - intros t Hin Ht. specialize (Hs (t_id t)). unfold session_ok in Hs.
    destruct (clients S !! t_id t); [by eexists|]. destruct Hs as [Hs _].
    pose proof (total_pos (refs (t_id t)) _ t Hin) as Hp.
    unfold refs in Hp at 1. rewrite decide_True in Hp by done.
    destruct Ht as [Ht|Ht]; rewrite Ht in Hp; lia.
  - intros i j t u Hi Hj Ht Hu Hid. destruct (decide (i = j)) as [|Hne]; [done|exfalso].
    pose proof (sum_ge_two (holders (t_id t)) _ _ _ _ _ Hi Hj Hne) as Htwo.
    unfold holders in Htwo at 1 2. rewrite !decide_True, Ht, Hu in Htwo by done.
    specialize (Hs (t_id t)). unfold session_ok in Hs.
    pose proof (holders_refs (t_id t) (threads S)).
    destruct (clients S !! t_id t) as [a|]; [destruct (m_in_use a)|]; lia.
  - intros id a Ha. specialize (Hs id). unfold session_ok in Hs. rewrite Ha in Hs. apply Hs.
Qed.

(** ** Examples *)
Definition example_rep : Rep := mk_Rep 2 10 10 15 2 false false false "" "z" "" ∅.
Definition any_origin : Origin.t → Prop := λ o, 0 ≤ Origin.get_max_sockets o ≤ 2.
Definition plain_origin : Origin.t := Origin.create.
Definition idle : Assoc := set_use false 0 (Assoc_new example_rep "z").
Lemma sys_steps pipelined rep origins S S' : sys_reachable pipelined rep origins S →
  rtc (sys_step pipelined rep origins) S S' → sys_reachable pipelined rep origins S'.
Proof. intros H Hs. induction Hs; [done|]. apply IHHs. by eapply sys_next. Qed.

(** Two Inits of one session that both wait for a socket: the second to wake
    up replaces the connection that the first is using. *)
Lemma pipelined_inits_collide :
  ∃ S, sys_reachable true example_rep any_origin S ∧
    filter (λ t, t_id t = 1) (threads S) = [mk_thread 1 Holding; mk_thread 1 Holding].
Proof.
  set (new := Assoc_new example_rep "z").
  exists (mk_Sys (<[1 := new]> (<[1 := new]> (delete 3 (delete 2
      (<[3 := set_use true 1 idle]> (<[2 := set_use true 1 idle]>
      (<[3 := idle]> (<[3 := new]> (<[2 := idle]> (<[2 := new]> ∅))))))))))
    [mk_thread 2 Gone; mk_thread 3 Gone; mk_thread 1 Holding; mk_thread 1 Holding;
     mk_thread 2 Gone; mk_thread 3 Gone]).
  split; [|reflexivity]. eapply sys_steps; [apply sys_init|].
  (* two connections are opened and become idle *)
  eapply rtc_l; [apply (step_new _ _ _ ∅ [] 2 "z" plain_origin); [done|done|by left|by right]|].
  eapply rtc_l; [apply (step_release _ _ _ _ [] [] 2 new false); done|].
  eapply rtc_l; [apply (step_new _ _ _ _ [mk_thread 2 Gone] 3 "z" plain_origin); [done|done|by left|by right]|].
  eapply rtc_l; [apply (step_release _ _ _ _ [mk_thread 2 Gone] [] 3 new false); done|].
  (* two Inits of session 1 wait *)
  eapply rtc_l; [apply (step_block _ _ _ _ [mk_thread 2 Gone; mk_thread 3 Gone] 1 "z" plain_origin);
    [done|done|by left|done|done|done]|].
  eapply rtc_l; [apply (step_block _ _ _ _ [mk_thread 2 Gone; mk_thread 3 Gone;
    mk_thread 1 (Blocked "z" plain_origin)] 1 "z" plain_origin); [done|done|by left|done|done|done]|].
  (* the idle sessions end *)
  eapply rtc_l; [apply (step_found _ _ _ _ [mk_thread 2 Gone; mk_thread 3 Gone;
    mk_thread 1 (Blocked "z" plain_origin); mk_thread 1 (Blocked "z" plain_origin)] 2 idle); done|].
  eapply rtc_l; [apply (step_found _ _ _ _ [mk_thread 2 Gone; mk_thread 3 Gone;
    mk_thread 1 (Blocked "z" plain_origin); mk_thread 1 (Blocked "z" plain_origin); mk_thread 2 Holding] 3 idle); done|].
  eapply rtc_l; [apply (step_release _ _ _ _ [mk_thread 2 Gone; mk_thread 3 Gone;
    mk_thread 1 (Blocked "z" plain_origin); mk_thread 1 (Blocked "z" plain_origin)] [mk_thread 3 Holding] 2
    (set_use true 1 idle) true); done|].
  eapply rtc_l; [apply (step_release _ _ _ _ [mk_thread 2 Gone; mk_thread 3 Gone;
    mk_thread 1 (Blocked "z" plain_origin); mk_thread 1 (Blocked "z" plain_origin); mk_thread 2 Gone] [] 3
    (set_use true 1 idle) true); done|].
  (* both Inits of session 1 open a connection *)
  eapply rtc_l; [apply (step_open _ _ _ _ [mk_thread 2 Gone; mk_thread 3 Gone]
    [mk_thread 1 (Blocked "z" plain_origin); mk_thread 2 Gone; mk_thread 3 Gone] 1 "z"); by right|].
  eapply rtc_l; [apply (step_open _ _ _ _ [mk_thread 2 Gone; mk_thread 3 Gone;
    mk_thread 1 Holding] [mk_thread 2 Gone; mk_thread 3 Gone] 1 "z"); by right|].
  apply rtc_refl.
Qed.

(** An established connection on which the target does not answer. *)
Definition example_request : APDU :=
  searchRequest (set_sq_databaseNames ["db"] (zget_searchRequest (Yaz := ref_yaz))).
Definition example_package : Package unit :=
  mk_Package (Session.mk 1 false) (Origin.mk "" 0 0 "") None
    (Some (GDU_Z3950 example_request)) None.
Definition silent : Net := mk_Net (λ _, 0) [Tick; Nothing; Tick] [].
Lemma answered_or_closed_witness :
  ∃ p' a' n' used,
    send_and_receive (Y := ref_yaz) (λ _, None) External_charSetandLanguageNegotiation 9 example_rep
      example_package (set_connected 2 (set_elapsed 5 idle)) silent = (p', a', n') ∧
    events silent = used ++ events n' ∧ is_closed p' = true.
Proof.
  destruct (answered_or_closed (Y := ref_yaz) (λ _, None) External_charSetandLanguageNegotiation 9
    example_rep example_package (set_connected 2 (set_elapsed 5 idle)) silent example_request)
    as (p' & a' & n' & used & Hrun & _ & Hused & _ & Hcase);
    [reflexivity|reflexivity|reflexivity|cbn; lia|discriminate|set_solver|cbn; lia|].
  exists p', a', n', used. split_and!; [exact Hrun|exact Hused|].
  destruct Hcase as [(g & Hin & _)|(reason & Hc & _)]; [|exact Hc].
  assert (Received g ∈ events silent) by (rewrite Hused; set_solver). set_solver.
Defined.

(** A package on a connection, and one that waits for it. *)
Lemma connections_safe_witness :
  ∃ S, sys_reachable false example_rep any_origin S ∧
    threads S = [mk_thread 1 Holding; mk_thread 1 Waiting] ∧
    ∃ a, clients S !! 1 = Some a ∧ m_queue_len a = 2.
Proof.
  set (new := Assoc_new example_rep "z").
  set (S := mk_Sys (<[1 := set_use true 2 new]> (<[1 := new]> ∅))
    [mk_thread 1 Holding; mk_thread 1 Waiting]).
  assert (Hr : sys_reachable false example_rep any_origin S).
  { eapply sys_steps; [apply sys_init|].
    eapply rtc_l; [apply (step_new _ _ _ ∅ [] 1 "z" plain_origin); [done|done| |by right]|].
    { right. intros t Ht. by apply not_elem_of_nil in Ht. }
    eapply rtc_l; [apply (step_queue _ _ _ _ [mk_thread 1 Holding] 1 new); done|].
    apply rtc_refl. }
  exists S. split_and!; [exact Hr|reflexivity|].
  destruct (connections_safe example_rep any_origin S Hr) as (_ & _ & Hq & _).
  exists (set_use true 2 new). split; [reflexivity|].
  exact (Hq 1 (set_use true 2 new) eq_refl).
Defined.
End Z3950Client.
