(* ===== verification/FrontendNet.v ===== *)
(** * The frontend_net filter

    [src/filter_frontend_net.cpp]: the start of every route. A connection is an
    object, [ZAssocChild], that the socket thread deletes itself; every PDU it
    receives becomes a package for the thread pool, and a [ThreadPoolPackage]
    points back to the connection until its result is delivered. The socket
    thread runs the callbacks below, one after the other; the workers of the
    pool run between them. *)
From S2P Require Import Prelude Zgdu Yaz Core Xml Util.

Module FrontendNet.

(** ** [PeerStat]: connections per peer *)
Module PeerStat.
Record Item : Type := mk_Item { m_peer : string; cnt : Z }.
Fixpoint get (peer : string) (items : list Item) : Z :=
  match items with
  | [] => 0
  | n :: l => if decide (peer = m_peer n) then cnt n else get peer l
  end.
(** The loop over the items; a new item goes to the front. *)
Fixpoint add_found (peer : string) (items : list Item) : option (list Item * Z) :=
  match items with
  | [] => None
  | n :: l =>
      if decide (peer = m_peer n) then Some (mk_Item (m_peer n) (cnt n + 1) :: l, cnt n + 1)
      else match add_found peer l with
           | Some (l', c) => Some (n :: l', c)
           | None => None
           end
  end.
Definition add (peer : string) (items : list Item) : list Item * Z :=
  match add_found peer items with
  | Some r => r
  | None => (mk_Item peer 1 :: items, 1)
  end.
Fixpoint remove (peer : string) (items : list Item) : list Item * Z :=
  match items with
  | [] => ([], 0)
  | n :: l =>
      if decide (peer = m_peer n) then
        if cnt n - 1 =? 0 then (l, 0) else (mk_Item (m_peer n) (cnt n - 1) :: l, cnt n - 1)
      else let '(l', c) := remove peer l in (n :: l', c)
  end.

(** One item per peer, each with a positive count. *)
Definition wf (items : list Item) : Prop :=
  NoDup (m_peer <$> items) ∧ Forall (λ n, 0 < cnt n) items.
Lemma get_nonneg peer items : wf items → 0 ≤ get peer items.
Proof.
  intros [_ H]. induction H as [|n l Hn _ IH]; cbn; [done|]. case_decide; lia.
Qed.
Lemma get_absent peer items : peer ∉ m_peer <$> items → get peer items = 0.
Proof.
  induction items as [|n l IH]; [done|]. cbn. rewrite not_elem_of_cons. intros [Hn Hl].
  rewrite decide_False by done. by apply IH.
Qed.
Lemma add_found_spec peer items :
  match add_found peer items with
  | Some (l, _) => m_peer <$> l = m_peer <$> items ∧
      (Forall (λ n, 0 < cnt n) items → Forall (λ n, 0 < cnt n) l) ∧
      ∀ q, get q l = get q items + (if decide (peer = q) then 1 else 0)
  | None => peer ∉ m_peer <$> items
  end.
Proof.
  induction items as [|n l IH]; cbn; [apply not_elem_of_nil|].
  destruct (decide (peer = m_peer n)) as [Hp|Hne].
  - cbn. split; [done|]. split.
    + intros [Hn Hl]%Forall_cons. constructor; [cbn; lia|done].
    + intros q. rewrite Hp. repeat case_decide; try congruence; lia.
  - destruct (add_found peer l) as [[l' k]|].
    + destruct IH as (Hm & Hf & Hg). cbn. rewrite Hm. split; [done|]. split.
      * intros [Hn Hl]%Forall_cons. constructor; [done|by apply Hf].
      * intros q. rewrite Hg. destruct (decide (q = m_peer n)) as [->|]; [|done].
        rewrite decide_False by done. lia.
    + rewrite not_elem_of_cons. done.
Qed.
Lemma add_spec peer items : wf items →
  wf (add peer items).1 ∧
  ∀ q, get q (add peer items).1 = get q items + (if decide (peer = q) then 1 else 0).
Proof.
  intros [Hd Hf]. unfold add. pose proof (add_found_spec peer items) as H.
  destruct (add_found peer items) as [[l k]|]; cbn [fst].
  - destruct H as (Hm & Hl & Hg). split; [|done]. split; [by rewrite Hm|by apply Hl].
  - split; [split; [by constructor|by constructor]|]. intros q. cbn.
    destruct (decide (q = peer)) as [->|Hne].
    + by rewrite decide_True, get_absent.
    + rewrite decide_False by done. lia.
Qed.
Lemma remove_peers peer items q :
  q ∈ m_peer <$> (remove peer items).1 → q ∈ m_peer <$> items.
Proof.
  induction items as [|n l IH]; cbn; [done|]. rewrite elem_of_cons.
  case_decide; [destruct (_ =? 0); cbn; [|rewrite elem_of_cons]; tauto|].
  destruct (remove peer l) as [l' k]. cbn in *. rewrite elem_of_cons. tauto.
Qed.
Lemma remove_spec peer items : wf items → 0 < get peer items →
  wf (remove peer items).1 ∧
  ∀ q, get q (remove peer items).1 = get q items - (if decide (peer = q) then 1 else 0).
Proof.
  induction items as [|n l IH]; intros [Hd Hf] Hp; [cbn in Hp; lia|].
  apply NoDup_cons in Hd as [Hn Hd]. apply Forall_cons in Hf as [Hc Hf]. cbn in *.
  destruct (decide (peer = m_peer n)) as [->|Hne].
  - destruct (Z.eqb_spec (cnt n - 1) 0) as [H0|H0]; cbn.
    + split; [by split|]. intros q. destruct (decide (q = m_peer n)) as [->|].
      * rewrite decide_True, get_absent by done. lia.
      * rewrite decide_False by done. lia.
    + split; [split; constructor; cbn; (done || lia)|]. intros q.
      repeat case_decide; try congruence; lia.
  - destruct IH as [[Hd' Hf'] Hg]; [by split|done|].
    pose proof (remove_peers peer l) as Hr. destruct (remove peer l) as [l' k]. cbn in *.
    split; [split; constructor; auto|]. intros q. rewrite Hg.
    destruct (decide (q = m_peer n)) as [->|]; [|done]. rewrite decide_False by done. lia.
Qed.
End PeerStat.

(** ** Configuration *)
Record Port : Type := mk_Port {
  port : string;
  route : string;
  cert_fname : string;
  max_recv_bytes : option Z      (* [None] when it was never set *)
}.
Record IP_Pattern : Type := mk_IP_Pattern {
  pattern : string;
  verbose : Z;
  value : Z
}.
Record Conf : Type := mk_Conf {
  m_no_threads : Z;
  m_max_threads : Z;
  m_stack_size : Z;
  session_timeout : list IP_Pattern;
  connect_max : list IP_Pattern;
  connect_total : list IP_Pattern;
  http_req_max : list IP_Pattern;
  m_msg_config : string;
  m_stat_req : string;
  m_ports : list Port
}.
Definition Conf_init : Conf := mk_Conf 5 5 0 [] [] [] [] "" "" [].

Definition set_conf_ints (n m k : Z) (c : Conf) : Conf :=
  mk_Conf n m k (session_timeout c) (connect_max c) (connect_total c) (http_req_max c)
    (m_msg_config c) (m_stat_req c) (m_ports c).
Definition set_conf_patterns (t m n h : list IP_Pattern) (c : Conf) : Conf :=
  mk_Conf (m_no_threads c) (m_max_threads c) (m_stack_size c) t m n h (m_msg_config c)
    (m_stat_req c) (m_ports c).
Definition set_conf_strings (m r : string) (c : Conf) : Conf :=
  mk_Conf (m_no_threads c) (m_max_threads c) (m_stack_size c) (session_timeout c)
    (connect_max c) (connect_total c) (http_req_max c) m r (m_ports c).
Definition set_conf_ports (l : list Port) (c : Conf) : Conf :=
  mk_Conf (m_no_threads c) (m_max_threads c) (m_stack_size c) (session_timeout c)
    (connect_max c) (connect_total c) (http_req_max c) (m_msg_config c) (m_stat_req c) l.
Definition configure_port (n : xmlNode) : outcome Port :=
  values ← mp_xml.parse_attr [n] ["route"; "max_recv_bytes"; "port"; "cert_fname"];
  let v i := nth i values "" in
  Ok (mk_Port (if decide (v 2%nat = "") then mp_xml.get_text [n] else v 2%nat) (v 0%nat) (v 3%nat)
        (Some (if decide (v 1%nat = "") then 0 else mp_xml.atoi (v 1%nat)))).
Definition configure_pattern (n : xmlNode) (default : Z) : outcome IP_Pattern :=
  values ← mp_xml.parse_attr [n] ["ip"; "verbose"];
  let v i := nth i values "" in
  Ok (mk_IP_Pattern (v 0%nat) (if decide (v 1%nat = "") then 1 else mp_xml.atoi (v 1%nat))
        (mp_xml.get_int [n] default)).
(** A number in the text of an element, at least [least]. *)
Definition configure_int (n : xmlNode) (least : Z) (what : string) : outcome Z :=
  let str := mp_xml.get_text [n] in
  let v := mp_xml.atoi str in
  if v <? least then Throw ("Bad value for " +:+ what +:+ ": " +:+ str) else Ok v.
Definition configure_element (n : xmlNode) (c : Conf) : outcome Conf :=
  if decide (n_name n = "port") then
    p ← configure_port n; Ok (set_conf_ports (m_ports c ++ [p]) c)
  else if decide (n_name n = "threads") then
    v ← configure_int n 1 "threads";
    Ok (set_conf_ints v (m_max_threads c) (m_stack_size c) c)
  else if decide (n_name n = "max-threads") then
    v ← configure_int n 1 "max-threads";
    Ok (set_conf_ints (m_no_threads c) v (m_stack_size c) c)
  else if decide (n_name n = "stack-size") then
    v ← configure_int n 0 "stack-size";
    if bool_decide (in_int32 (v * 1024)) then
      Ok (set_conf_ints (m_no_threads c) (m_max_threads c) (v * 1024) c)
    else Undef IntOverflow
  else if decide (n_name n = "timeout") then
    m ← configure_pattern n 0;
    Ok (set_conf_patterns (session_timeout c ++ [m]) (connect_max c) (connect_total c)
          (http_req_max c) c)
  else if decide (n_name n = "connect-max") then
    m ← configure_pattern n INT_MAX;
    Ok (set_conf_patterns (session_timeout c) (connect_max c ++ [m]) (connect_total c)
          (http_req_max c) c)
  else if decide (n_name n = "connect-total") then
    m ← configure_pattern n INT_MAX;
    Ok (set_conf_patterns (session_timeout c) (connect_max c) (connect_total c ++ [m])
          (http_req_max c) c)
  else if decide (n_name n = "http-req-max") then
    m ← configure_pattern n INT_MAX;
    Ok (set_conf_patterns (session_timeout c) (connect_max c) (connect_total c)
          (http_req_max c ++ [m]) c)
  else if decide (n_name n = "message") then
    Ok (set_conf_strings (mp_xml.get_text [n]) (m_stat_req c) c)
  else if decide (n_name n = "stat-req") then
    Ok (set_conf_strings (m_msg_config c) (mp_xml.get_text [n]) c)
  else Throw ("Bad element " +:+ n_name n).
Fixpoint configure_loop (l : list xmlNode) (c : Conf) : outcome Conf :=
  match l with
  | [] => Ok c
  | n :: l' =>
      if decide (n_type n ≠ XML_ELEMENT_NODE) then configure_loop l' c
      else c ← configure_element n c; configure_loop l' c
  end.
(** [set_ports]; [server] is YAZ++'s, not 0 if the port cannot be bound. *)
Fixpoint set_ports (server : string → Z) (l : list Port) : outcome unit :=
  match l with
  | [] => Ok tt
  | p :: l' =>
      if negb (server (port p) =? 0) then Throw ("Unable to bind to address " +:+ port p)
      else match max_recv_bytes p with
           | None => Undef Uninitialised
           | Some _ => set_ports server l'
           end
  end.
(** The overload for the names of ports. *)
Definition set_ports_names (server : string → Z) (l : list string) : outcome unit :=
  set_ports server ((λ name, mk_Port name "" "" None) <$> l).
Definition configure (server : string → Z) (ptr : option xmlNode) (test_only : bool) :
    outcome Conf :=
  match ptr with
  | None => Throw "No ports for Frontend"
  | Some n =>
      match n_children n with
      | [] => Throw "No ports for Frontend"
      | l =>
          c ← configure_loop l Conf_init;
          let c := if negb (bool_decide (m_msg_config c = "")) && bool_decide (m_stat_req c = "")
                   then set_conf_strings (m_msg_config c) "/fn_stat" c else c in
          if test_only then Ok (set_conf_ports [] c)
          else set_ports server (m_ports c) ;; Ok c
      end
  end.

(** The loop of [process] after an event: signals, sockets left, the end of
    the listen duration. *)
Definition SIGUSR1 : Z := 10.
Definition SIGTERM : Z := 15.
Inductive turn : Type :=
  | Terminate                       (* return, everything shut down *)
  | Leave (stop_listening : bool)   (* break *)
  | Next (stop_listening : bool).
Definition after_event (stop_signo no_observers : Z) (timeout : bool) : turn :=
  if stop_signo =? SIGTERM then Terminate
  else
    let stop := stop_signo =? SIGUSR1 in
    if no_observers <=? 1 then Leave stop else if timeout then Leave stop else Next stop.

(** The limits of the histogram of response times, in microseconds; the last
    one ends the list. *)
Definition m_duration_lim : list Z :=
  [1; 10; 100; 1000; 10000; 100000; 200000; 300000; 500000; 1000000; 1500000; 2000000;
   3000000; 4000000; 5000000; 6000000; 8000000; 10000000; 15000000; 20000000; 30000000; 0].
Record Stats : Type := mk_Stats {
  m_duration_freq : list Z;
  m_duration_max : Z;
  m_duration_min : Z;
  m_duration_total : Z
}.
Definition Stats_init : Stats := mk_Stats (replicate 22 0) 0 0 0.
(** The bucket of a duration: the loop that counts [ent] up. *)
Fixpoint bucket (lim : list Z) (duration : Z) : outcome nat :=
  match lim with
  | [] => Undef OutOfBounds
  | l :: lim' =>
      if negb (l =? 0) && (l <? duration) then n ← bucket lim' duration; Ok (S n) else Ok O
  end.
Definition record_duration (duration : Z) (s : Stats) : outcome Stats :=
  ent ← bucket m_duration_lim duration;
  match m_duration_freq s !! ent with
  | None => Undef OutOfBounds
  | Some f =>
      Ok (mk_Stats (<[ent := f + 1]> (m_duration_freq s))
            (if m_duration_max s <? duration then duration else m_duration_max s)
            (if (m_duration_min s =? 0) || (duration <? m_duration_min s)
             then duration else m_duration_min s)
            (m_duration_total s + duration))
  end.

(** [%f] of a number of microseconds in seconds. *)
Fixpoint pad (n : nat) (s : string) : string :=
  match n with
  | O => s
  | S n' => if (String.length s <=? n')%nat then String "0" (pad n' s) else pad n' s
  end.
Definition print_f (us : Z) : string :=
  print_nat (us / 1000000) +:+ "." +:+ pad 6 (print_nat (us mod 1000000)).
Definition attr (name v : string) : string := " " +:+ name +:+ "=" +:+ dquote +:+ v +:+ dquote.
Definition line (s : string) : string := s +:+ String "010" "".
Definition number_total (st : Stats) : Z := foldr Z.add 0 (m_duration_freq st).
(** The buckets that are not empty; [from] is the limit before. *)
Fixpoint report_buckets (lim freq : list Z) (from : Z) : string :=
  match lim, freq with
  | l :: lim', f :: freq' =>
      (if 0 <? f then
         line ("    <response" +:+ attr "duration_start" (print_f from) +:+
               (if l =? 0 then "" else attr "duration_end" (print_f l)) +:+
               attr "frequency" (print_nat f) +:+ "/>")
       else "") +:+
      (if l =? 0 then "" else report_buckets lim' freq' l)
  | _, _ => ""
  end.
(** [report]: [average] is [%f] of a quotient, the last two arguments are what
    YAZ writes about its memory. *)
Definition report_page (average : Z → Z → string) (st : Stats) (tbusy ttotal : Z)
    (malloc_info nmem_status : string) : string :=
  line ("<?xml version=" +:+ dquote +:+ "1.0" +:+ dquote +:+ "?>") +:+
  line "<frontend_net>" +:+
  line ("  <responses" +:+ attr "frequency" (print_nat (number_total st)) +:+ ">") +:+
  report_buckets m_duration_lim (m_duration_freq st) 0 +:+
  (if m_duration_max st =? 0 then ""
   else line ("    <response" +:+ attr "duration_max" (print_f (m_duration_max st)) +:+ "/>")) +:+
  (if m_duration_min st =? 0 then ""
   else line ("    <response" +:+ attr "duration_min" (print_f (m_duration_min st)) +:+ "/>")) +:+
  (if m_duration_total st =? 0 then ""
   else line ("    <response" +:+ attr "duration_average"
                (average (m_duration_total st) (number_total st)) +:+ "/>")) +:+
  line "  </responses>" +:+
  line (" <thread_info" +:+ attr "busy" (print_nat tbusy) +:+ attr "total" (print_nat ttotal)
        +:+ "/>") +:+
  malloc_info +:+ nmem_status +:+ line "</frontend_net>".

(** ** Objects *)
Section net.
Context `{Y : Yaz} {R : Type}.

(** [yazpp_1::LimitConnect]: connections of late, by peer. *)
Context {LimitConnect : Type} (LimitConnect_new : LimitConnect).
Context (cleanup : LimitConnect → LimitConnect) (get_total : string → LimitConnect → Z)
        (add_connect : string → LimitConnect → LimitConnect).
Context (c : Conf).
(** The package that the listening filter was called with. *)
Context (m_package : Package R).

(** [ZAssocChild]; [close_requested] is what [close()] leaves in YAZ++. *)
Record Child : Type := mk_Child {
  m_no_requests : Z;
  m_server : nat;
  m_session : Session.t;
  m_origin : Origin.t;
  m_peer : string;
  m_timeout : Z;
  close_requested : bool
}.
Definition set_no_requests (n : Z) (a : Child) : Child :=
  mk_Child n (m_server a) (m_session a) (m_origin a) (m_peer a) (m_timeout a)
    (close_requested a).
Definition set_m_session (s : Session.t) (a : Child) : Child :=
  mk_Child (m_no_requests a) (m_server a) s (m_origin a) (m_peer a) (m_timeout a)
    (close_requested a).
Definition request_close (a : Child) : Child :=
  mk_Child (m_no_requests a) (m_server a) (m_session a) (m_origin a) (m_peer a) (m_timeout a)
    true.
(** [ThreadPoolPackage]. *)
Record Msg : Type := mk_Msg { m_assoc_child : Z; msg_package : Package R }.
(** [ZAssocServer]. *)
Record Server : Type := mk_Server {
  s_port : Port;
  limit_connect : LimitConnect;
  limit_http_req : LimitConnect
}.
(** All objects, by address; the thread pool; what was sent to whom. The last
    two fields only record: the packages that workers sent down the route, and
    the connections that were dropped with an answer of this filter. *)
Record State : Type := mk_State {
  children : gmap Z Child;
  next_address : Z;
  m_global_id : Z;
  m_peerStat : list PeerStat.Item;
  servers : list Server;
  stats : Stats;
  m_input : list Msg;
  m_busy : list Msg;
  m_output : list Msg;
  m_sent : list (Z * GDU);
  h_routed : list Msg;
  h_dropped : list Z
}.
Definition set_children (l : gmap Z Child) (s : State) : State :=
  mk_State l (next_address s) (m_global_id s) (m_peerStat s) (servers s) (stats s) (m_input s)
    (m_busy s) (m_output s) (m_sent s) (h_routed s) (h_dropped s).
Definition set_peerStat (l : list PeerStat.Item) (s : State) : State :=
  mk_State (children s) (next_address s) (m_global_id s) l (servers s) (stats s) (m_input s)
    (m_busy s) (m_output s) (m_sent s) (h_routed s) (h_dropped s).
Definition set_servers (l : list Server) (s : State) : State :=
  mk_State (children s) (next_address s) (m_global_id s) (m_peerStat s) l (stats s) (m_input s)
    (m_busy s) (m_output s) (m_sent s) (h_routed s) (h_dropped s).
Definition set_stats (x : Stats) (s : State) : State :=
  mk_State (children s) (next_address s) (m_global_id s) (m_peerStat s) (servers s) x
    (m_input s) (m_busy s) (m_output s) (m_sent s) (h_routed s) (h_dropped s).
Definition set_pool (i b o : list Msg) (s : State) : State :=
  mk_State (children s) (next_address s) (m_global_id s) (m_peerStat s) (servers s) (stats s)
    i b o (m_sent s) (h_routed s) (h_dropped s).
Definition set_sent (l : list (Z * GDU)) (s : State) : State :=
  mk_State (children s) (next_address s) (m_global_id s) (m_peerStat s) (servers s) (stats s)
    (m_input s) (m_busy s) (m_output s) l (h_routed s) (h_dropped s).
Definition set_routed (l : list Msg) (s : State) : State :=
  mk_State (children s) (next_address s) (m_global_id s) (m_peerStat s) (servers s) (stats s)
    (m_input s) (m_busy s) (m_output s) (m_sent s) l (h_dropped s).
Definition set_dropped (l : list Z) (s : State) : State :=
  mk_State (children s) (next_address s) (m_global_id s) (m_peerStat s) (servers s) (stats s)
    (m_input s) (m_busy s) (m_output s) (m_sent s) (h_routed s) l.

(** Access through a pointer to a connection. *)
Definition child (a : Z) : M State Child :=
  s ← get;
  match children s !! a with Some x => mret x | None => undef UseAfterFree end.
Definition put_child (a : Z) (x : Child) : M State unit :=
  modify (λ s, set_children (<[a := x]> (children s)) s).
Definition update_child (a : Z) (f : Child → Child) : M State unit :=
  x ← child a; put_child a (f x).
(** [send_GDU] and [send_Z_PDU] of a connection. *)
Definition send_GDU (a : Z) (g : GDU) : M State unit :=
  child a ;; modify (λ s, set_sent (m_sent s ++ [(a, g)]) s).
(** [delete this], with the destructor. *)
Definition delete_child (a : Z) : M State unit :=
  x ← child a;
  modify (λ s, set_peerStat (PeerStat.remove (m_peer x) (m_peerStat s)).1
                 (set_children (delete a (children s)) s)).
(** Deleted with an answer of this filter. *)
Definition drop_child (a : Z) : M State unit :=
  delete_child a ;; modify (λ s, set_dropped (h_dropped s ++ [a]) s).

(** ** Limits *)
Fixpoint first_match (l : list IP_Pattern) (peer : string) : option IP_Pattern :=
  match l with
  | [] => None
  | it :: l' => if match_ip (pattern it) peer then Some it else first_match l' peer
  end.
(** Refused by the first pattern that matches. *)
Definition exceeds (l : list IP_Pattern) (peer : string) (n : Z) : bool :=
  match first_match l peer with Some it => negb (n <? value it) | None => false end.

(** ** A new connection *)
Definition new_child (i : nat) (srv : Server) (peername : string) : M State unit :=
  s ← get;
  let '(session, g) := Session.create (m_global_id s) in
  origin ← lift_outcome (Origin.set_tcpip_address
             (peername +:+ " " +:+ port (s_port srv)) (Session.id session) Origin.create);
  let timeout := match first_match (session_timeout c) peername with
                 | Some it => value it | None => 300 end in
  let a := next_address s in
  put (mk_State (<[a := mk_Child 0 i session origin peername timeout false]> (children s)) (a + 1) g
         (PeerStat.add peername (m_peerStat s)).1 (servers s) (stats s) (m_input s) (m_busy s)
         (m_output s) (m_sent s) (h_routed s) (h_dropped s)).
(** The peer without the protocol in front. *)
Definition peer_of (getpeername : option string) : string :=
  match getpeername with
  | None => "unknown"
  | Some s => match find_char ":" s with Some i => str_drop (i + 1) s | None => s end
  end.
Definition sessionNotify (i : nat) (getpeername : option string) : M State unit :=
  s ← get;
  match servers s !! i with
  | None => mret tt
  | Some srv =>
      let peername := peer_of getpeername in
      if exceeds (connect_total c) peername (int32 (PeerStat.get peername (m_peerStat s)))
      then mret tt
      else
        let limit := cleanup (limit_connect srv) in
        if exceeds (connect_max c) peername (get_total peername limit) then
          put (set_servers (<[i := mk_Server (s_port srv) limit (limit_http_req srv)]>
                 (servers s)) s)
        else
          let srv := mk_Server (s_port srv) (add_connect peername limit) (limit_http_req srv) in
          put (set_servers (<[i := srv]> (servers s)) s) ;;
          new_child i srv peername
  end.

(** ** A PDU received *)
Definition put_msg (m : Msg) : M State unit :=
  modify (λ s, set_pool (m_input s ++ [m]) (m_busy s) (m_output s) s).

(** [report]; the threads of the pool, and what [report_page] takes from YAZ
    and the C library. *)
Context (get_thread_info : State → Z * Z) (average : Z → Z → string)
        (malloc_info nmem_status : string).
Definition report (a : Z) (hreq : HTTP_Request) : M State unit :=
  x ← child a;
  let '(hres, session) := create_HTTP_Response (m_session x) hreq 200 in
  put_child a (set_m_session session x) ;;
  s ← get;
  let '(tbusy, ttotal) := get_thread_info s in
  send_GDU a (GDU_HTTP_Response (set_hr_content
    (report_page average (stats s) tbusy ttotal malloc_info nmem_status) hres)).

(** The limit of HTTP requests; [true] if this one is refused. *)
Definition http_limit (a : Z) (p : Package R) (hreq : HTTP_Request) : M State bool :=
  x ← child a;
  s ← get;
  match servers s !! m_server x with
  | None => undef UseAfterFree
  | Some srv =>
      let peername := Origin.get_address (p_origin p) in
      let limit := cleanup (limit_http_req srv) in
      if exceeds (http_req_max c) peername (get_total peername limit) then
        put (set_servers (<[m_server x := mk_Server (s_port srv) (limit_connect srv) limit]>
               (servers s)) s) ;;
        let '(hres, session) := create_HTTP_Response (m_session x) hreq 500 in
        put_child a (set_m_session session x) ;;
        send_GDU a (GDU_HTTP_Response hres) ;;
        mret true
      else
        put (set_servers (<[m_server x :=
               mk_Server (s_port srv) (limit_connect srv) (add_connect peername limit)]>
               (servers s)) s) ;;
        mret false
  end.
Definition set_origin (o : Origin.t) (p : Package R) : Package R :=
  mk_Package (p_session p) o (p_route_pos p) (p_request p) (p_response p).
(** [X-Forwarded-For] goes in front of the address. *)
Definition forwarded (x : Child) (z_pdu : option GDU) (p : Package R) : outcome (Package R) :=
  match z_pdu with
  | Some (GDU_HTTP_Request hreq) =>
      match z_HTTP_header_lookup (hq_headers hreq) "X-Forwarded-For" with
      | Some f => o ← Origin.set_tcpip_address f (Session.id (m_session x)) (p_origin p);
                  Ok (set_origin o p)
      | None => Ok p
      end
  | _ => Ok p
  end.
Definition stat_request (z_pdu : option GDU) : option HTTP_Request :=
  match z_pdu with
  | Some (GDU_HTTP_Request hreq) =>
      if negb (bool_decide (m_stat_req c = "")) && bool_decide (hq_path hreq = m_stat_req c)
      then Some hreq else None
  | _ => None
  end.
Definition recv_GDU (a : Z) (z_pdu : option GDU) : M State unit :=
  update_child a (λ x, set_no_requests (m_no_requests x + 1) x) ;;
  x ← child a;
  p ← lift_outcome (forwarded x z_pdu (new_Package (m_session x) (m_origin x)));
  match stat_request z_pdu with
  | Some hreq => report a hreq ;; drop_child a
  | None =>
      p ← copy_filter m_package p;
      let p := set_request z_pdu p in
      refused ← (match z_pdu with
                 | Some (GDU_HTTP_Request hreq) => http_limit a p hreq
                 | _ => mret false
                 end);
      if (refused : bool) then drop_child a else put_msg (mk_Msg a p)
  end.

(** ** The end of a connection *)

(** [ThreadPoolObserver::cleanup] with [ThreadPoolPackage::cleanup]: queued
    packages of the session are taken out of the queue. *)
Fixpoint cleanup_input (ses : Session.t) (l : list Msg) : M State (list Msg) :=
  match l with
  | [] => mret []
  | m :: l' =>
      if Session.id ses =? Session.id (p_session (msg_package m)) then
        update_child (m_assoc_child m) (λ x, set_no_requests (m_no_requests x - 1) x) ;;
        cleanup_input ses l'
      else
        kept ← cleanup_input ses l'; mret (m :: kept)
  end.
Definition failNotify (a : Z) : M State unit :=
  x ← child a;
  if Session.is_closed (m_session x) then
    if m_no_requests x =? 0 then delete_child a else mret tt
  else
    let session := Session.close (m_session x) in
    put_child a (set_m_session session (set_no_requests (m_no_requests x + 1) x)) ;;
    p ← copy_filter m_package (new_Package session (m_origin x));
    s ← get;
    kept ← cleanup_input session (m_input s);
    modify (λ s, set_pool kept (m_busy s) (m_output s) s) ;;
    put_msg (mk_Msg a p).

(** ** The thread pool *)

(** A worker takes a package, sends it down the route of the port (which it
    finds through the connection), and puts it into the output queue. *)
Definition take : M State unit :=
  s ← get;
  match m_input s with
  | [] => mret tt
  | m :: l => put (set_pool l (m_busy s ++ [m]) (m_output s) s)
  end.
Definition handle (i : nat) (p' : Package R) : M State unit :=
  s ← get;
  match m_busy s !! i with
  | None => mret tt
  | Some m =>
      child (m_assoc_child m) ;;
      put (set_routed (h_routed s ++ [m]) (set_pool (m_input s) (delete i (m_busy s))
             (m_output s ++ [mk_Msg (m_assoc_child m) p']) s))
  end.

(** The answer to a request that no filter has answered. *)
Definition unhandled (p : Package R) : option GDU * Package R :=
  let '(g, p) := match p_request p with
    | Some (GDU_Z3950 apdu) =>
        (Some (GDU_Z3950 (create_close (Some apdu) Close_systemProblem
           (Some "unhandled Z39.50 request"))), p)
    | Some (GDU_HTTP_Request hreq) =>
        let '(hres, session) := create_HTTP_Response (p_session p) hreq 500 in
        (Some (GDU_HTTP_Response hres), set_session session p)
    | _ => (None, p)
    end in
  (g, close_session p).
(** [result]: first the answer, then the question whether the connection is
    needed any longer. *)
Definition answer (a : Z) (duration : Z) (p : Package R) : M State (Package R) :=
  match p_response p with
  | Some g =>
      send_GDU a g ;;
      s ← get;
      st ← lift_outcome (record_duration duration (stats s));
      put (set_stats st s) ;;
      mret p
  | None =>
      if is_closed p then mret p
      else
        let '(g, p) := unhandled p in
        match g with
        | Some g => send_GDU a g ;; mret p
        | None => mret p
        end
  end.
Definition result (m : Msg) (duration : Z) : M State unit :=
  let a := m_assoc_child m in
  update_child a (λ x, set_no_requests (m_no_requests x - 1) x) ;;
  p ← answer a duration (msg_package m);
  x ← child a;
  if (m_no_requests x =? 0) && is_closed p then put_child a (request_close x) else mret tt.
(** [socketNotify] of the pool, one result. *)
Definition deliver (duration : Z) : M State unit :=
  s ← get;
  match m_output s with
  | [] => mret tt
  | m :: l => put (set_pool (m_input s) (m_busy s) l s) ;; result m duration
  end.

(** ** Events

    YAZ++ calls the callbacks of objects that exist, and gives the PDU that it
    decoded. *)
Inductive event : Type :=
  | Accept (i : nat) (getpeername : option string)
  | Recv (a : Z) (z_pdu : GDU)
  | Fail (a : Z)
  | Take
  | Handle (i : nat) (p' : Package R)
  | Deliver (duration : Z).
Definition on_child (a : Z) (m : M State unit) : M State unit :=
  s ← get; match children s !! a with Some _ => m | None => mret tt end.
Definition exec (e : event) : M State unit :=
  match e with
  | Accept i peer => sessionNotify i peer
  | Recv a z_pdu => on_child a (recv_GDU a (Some z_pdu))
  | Fail a => on_child a (failNotify a)
  | Take => take
  | Handle i p' => handle i p'
  | Deliver duration => deliver duration
  end.
Fixpoint run (es : list event) : M State unit :=
  match es with
  | [] => mret tt
  | e :: es' => exec e ;; run es'
  end.
Definition start : State :=
  mk_State ∅ 0 0 [] ((λ p, mk_Server p LimitConnect_new LimitConnect_new) <$> m_ports c)
    Stats_init [] [] [] [] [] [].

(** ** What the events do

    The objects, the packages under way and the ends of connections, without
    the rest of the state; and the changes that an event may make to them. *)
Record View : Type := mk_View {
  v_children : gmap Z Child;
  v_next : Z;
  v_peers : list PeerStat.Item;
  v_msgs : list Z;          (* the connections of the packages under way *)
  v_ended : list Z;
  v_dropped : list Z
}.
Definition all_msgs (s : State) : list Msg := m_input s ++ m_busy s ++ m_output s.
(** The sessions of connections, numbered from 1. *)
Definition session_id (a : Z) : Z := wrap_u 64 (a + 1).
(** A package that tells the route of the end of a connection: one without a
    request, with the session of the connection, closed. *)
Definition is_end (m : Msg) : bool :=
  is_closed (msg_package m) && match p_request (msg_package m) with None => true | _ => false end &&
  (Session.id (p_session (msg_package m)) =? session_id (m_assoc_child m)).
(** The connections whose end the route was told, by a package that a worker
    sent down the route, holds, or finds in the queue. *)
Definition ends_of (l : list Msg) : list Z := m_assoc_child <$> filter (λ m, is_end m = true) l.
Definition ends (s : State) : list Z := ends_of (h_routed s ++ m_busy s ++ m_input s).
#[local] Arguments ends_of : simpl never.
Definition view (s : State) : View :=
  mk_View (children s) (next_address s) (m_peerStat s) (m_assoc_child <$> all_msgs s)
    (ends s) (h_dropped s).
(** How many packages a connection has. *)
Definition count (a : Z) (l : list Z) : Z := Z.of_nat (length (filter (λ b, b = a) l)).
(** Packages taken away from their connections. *)
Definition forget (l : list Z) (ch : gmap Z Child) : gmap Z Child :=
  foldr (λ b ch, alter (λ x, set_no_requests (m_no_requests x - 1) x) b ch) ch l.
Definition is_open (x : Child) : Prop := Session.is_closed (m_session x) = false.

Inductive view_step : View → View → Prop :=
  | vs_same ch n ps l l' en en' dr :
      l' ≡ₚ l → en' ≡ₚ en → view_step (mk_View ch n ps l en dr) (mk_View ch n ps l' en' dr)
  | vs_new ch n ps l en dr x :
      m_no_requests x = 0 → is_open x →
      exceeds (connect_total c) (m_peer x) (int32 (PeerStat.get (m_peer x) ps)) = false →
      view_step (mk_View ch n ps l en dr)
        (mk_View (<[n := x]> ch) (n + 1) (PeerStat.add (m_peer x) ps).1 l en dr)
  | vs_queue ch n ps l l' en dr a x :
      ch !! a = Some x → l' ≡ₚ a :: l →
      view_step (mk_View ch n ps l en dr)
        (mk_View (<[a := set_no_requests (m_no_requests x + 1) x]> ch) n ps l' en dr)
  | vs_drop ch n ps l en dr a x :
      ch !! a = Some x → m_no_requests x = 0 →
      view_step (mk_View ch n ps l en dr)
        (mk_View (delete a ch) n (PeerStat.remove (m_peer x) ps).1 l en (dr ++ [a]))
  | vs_delete ch n ps l en dr a x :
      ch !! a = Some x → ¬ is_open x → m_no_requests x = 0 →
      view_step (mk_View ch n ps l en dr)
        (mk_View (delete a ch) n (PeerStat.remove (m_peer x) ps).1 l en dr)
  | vs_end ch n ps l l' gone kept en en' dr a x :
      ch !! a = Some x → is_open x → l ≡ₚ gone ++ kept → l' ≡ₚ a :: kept →
      (n ≤ 2 ^ 64 → a ∉ en → en' ≡ₚ en ++ [a]) →
      view_step (mk_View ch n ps l en dr)
        (mk_View (forget gone (<[a := set_m_session (Session.close (m_session x))
           (set_no_requests (m_no_requests x + 1) x)]> ch)) n ps l' en' dr)
  | vs_result ch n ps l l' en dr a x x' :
      ch !! a = Some x → l ≡ₚ a :: l' →
      m_no_requests x' = m_no_requests x - 1 → m_session x' = m_session x →
      m_peer x' = m_peer x →
      view_step (mk_View ch n ps l en dr)
        (mk_View (<[a := x']> ch) n ps l' en dr).

(** *** Invariants of the view *)
Lemma count_perm a l l' : l' ≡ₚ l → count a l' = count a l.
Proof. intros H. unfold count. by rewrite H. Qed.
Lemma count_cons a b l : count a (b :: l) = count a l + (if decide (b = a) then 1 else 0).
Proof. unfold count. rewrite filter_cons. case_decide; cbn; lia. Qed.
Lemma count_app a l l' : count a (l ++ l') = count a l + count a l'.
Proof. unfold count. rewrite filter_app, length_app. lia. Qed.
Lemma count_nonneg a l : 0 ≤ count a l.
Proof. unfold count. lia. Qed.
Lemma count_zero a l : count a l = 0 → a ∉ l.
Proof.
  induction l as [|b l IH]; [intros _; apply not_elem_of_nil|].
  rewrite count_cons. intros H [<-|Hm]%elem_of_cons; pose proof (count_nonneg a l);
    case_decide; try done; try lia. apply IH; [lia|done].
Qed.
Lemma forget_lookup l ch a :
  forget l ch !! a = (λ x, set_no_requests (m_no_requests x - count a l) x) <$> ch !! a.
Proof.
  induction l as [|b l IH]; cbn [forget foldr].
  - change (count a []) with 0. destruct (ch !! a) as [[]|]; [|done]. cbn.
    unfold set_no_requests. cbn. by rewrite Z.sub_0_r.
  - fold (forget l ch). rewrite count_cons. destruct (decide (b = a)) as [->|Hne].
    + rewrite lookup_alter_eq, IH.
      destruct (ch !! _) as [[]|]; [|done]. cbn. unfold set_no_requests. cbn. do 2 f_equal. lia.
    + rewrite lookup_alter_ne by done. by rewrite IH, Z.add_0_r.
Qed.
Lemma forget_is_Some l ch a : is_Some (forget l ch !! a) ↔ is_Some (ch !! a).
Proof. rewrite forget_lookup. by rewrite fmap_is_Some. Qed.

Record safe (v : View) : Prop := {
  safe_msgs : ∀ a, a ∈ v_msgs v → is_Some (v_children v !! a);
  safe_count : ∀ a x, v_children v !! a = Some x → m_no_requests x = count a (v_msgs v);
  safe_next : ∀ a, is_Some (v_children v !! a) → a < v_next v
}.
Lemma safe_delete ch n ps ps' l en dr dr' a x : ch !! a = Some x → m_no_requests x = 0 →
  safe (mk_View ch n ps l en dr) → safe (mk_View (delete a ch) n ps' l en dr').
Proof.
  intros Ha H0 [Hm Hc Hn]. cbn in *.
  assert (Hz : a ∉ l) by (apply count_zero; by rewrite <-(Hc a x Ha)).
  split; cbn.
  - intros b Hb. apply lookup_delete_is_Some. split; [by intros ->|by apply Hm].
  - intros b y [Hne Hb]%lookup_delete_Some. by apply Hc.
  - intros b [_ Hb]%lookup_delete_is_Some. by apply Hn.
Qed.
Lemma safe_new ch n ps ps' l en dr x : m_no_requests x = 0 →
  safe (mk_View ch n ps l en dr) → safe (mk_View (<[n := x]> ch) (n + 1) ps' l en dr).
Proof.
  intros H0 [Hm Hc Hn]. cbn in *.
  split; cbn.
  - intros b Hin. apply lookup_insert_is_Some'. right. by apply Hm.
  - intros a y. destruct (decide (a = n)) as [->|Hne].
    + rewrite lookup_insert_eq. intros [= <-]. rewrite H0. unfold count.
      destruct (filter _ l) as [|m l0] eqn:Hf; [done|].
      assert (Hin : m ∈ filter (λ b, b = n) l) by (rewrite Hf; by left).
      apply list_elem_of_filter in Hin as [-> Hin]. apply Hm, Hn in Hin. lia.
    + rewrite lookup_insert_ne by done. apply Hc.
  - intros a [->|Ha]%lookup_insert_is_Some'; [lia|]. apply Hn in Ha. lia.
Qed.
Lemma safe_end ch n ps l l' gone kept en en' dr a x x' : ch !! a = Some x →
  m_no_requests x' = m_no_requests x + 1 → l ≡ₚ gone ++ kept → l' ≡ₚ a :: kept →
  safe (mk_View ch n ps l en dr) → safe (mk_View (forget gone (<[a := x']> ch)) n ps l' en' dr).
Proof.
  intros Ha Hx Hl Hl' [Hm Hc Hn]. cbn in *.
  split; cbn.
  - intros b. rewrite Hl', forget_is_Some. intros [->|Hin]%elem_of_cons;
      apply lookup_insert_is_Some'; [by left|right].
    apply Hm. rewrite Hl. apply elem_of_app. by right.
  - intros b y. rewrite forget_lookup, (count_perm b _ _ Hl'), count_cons.
    destruct (decide (b = a)) as [->|Hne].
    + rewrite lookup_insert_eq, decide_True by done. intros [= <-]. cbn.
      rewrite Hx, (Hc a x Ha), (count_perm a _ _ Hl), count_app. lia.
    + rewrite lookup_insert_ne, decide_False by congruence.
      destruct (ch !! b) as [z|] eqn:Hb; [|done]. intros [= <-]. cbn.
      rewrite (Hc b z Hb), (count_perm b _ _ Hl), count_app. lia.
  - intros b. rewrite forget_is_Some.
    intros [->|Hb]%lookup_insert_is_Some'; apply Hn; [by eexists|done].
Qed.
Lemma safe_step v v' : view_step v v' → safe v → safe v'.
Proof.
  intros Hstep Hv. destruct Hstep as [ch n ps l l' en en' dr Hl Hen|ch n ps l en dr x H0 Ho _|
    ch n ps l l' en dr a x Ha Hl|ch n ps l en dr a x Ha H0|ch n ps l en dr a x Ha Ho H0|
    ch n ps l l' gone kept en en' dr a x Ha Ho Hl Hl' Hen|ch n ps l l' en dr a x x' Ha Hl Hn' _ _];
    try (by eauto using safe_delete, safe_new, safe_end); destruct Hv as [Hm Hc Hn]; cbn in *.
  - split; cbn; [intros b; rewrite Hl; apply Hm|intros b x; rewrite (count_perm b l l') by done;
      apply Hc|done].
  - split; cbn.
    + intros b. rewrite Hl. intros [->|Hin]%elem_of_cons; apply lookup_insert_is_Some'; auto.
    + intros b y. rewrite (count_perm b _ _ Hl), count_cons.
      destruct (decide (b = a)) as [->|Hne].
      * rewrite lookup_insert_eq. intros [= <-]. cbn. rewrite decide_True by done.
        by rewrite (Hc a x Ha).
      * rewrite lookup_insert_ne, decide_False by congruence. rewrite Z.add_0_r. apply Hc.
    + intros b [->|Hb]%lookup_insert_is_Some'; apply Hn; [by eexists|done].
  - split; cbn.
    + intros b Hin. apply lookup_insert_is_Some'. right. apply Hm. rewrite Hl. by right.
    + intros b y. pose proof (count_perm b _ _ Hl) as Hcb. rewrite count_cons in Hcb.
      destruct (decide (b = a)) as [->|Hne].
      * rewrite lookup_insert_eq. intros [= <-]. rewrite decide_True in Hcb by done.
        rewrite Hn', (Hc _ x Ha). lia.
      * rewrite lookup_insert_ne by done. rewrite decide_False in Hcb by congruence.
        intros Hb. rewrite (Hc _ _ Hb). lia.
    + intros b [->|Hb]%lookup_insert_is_Some'; apply Hn; [by eexists|done].
Qed.

(** Connections of a peer. *)
Definition number (peer : string) (ch : gmap Z Child) : Z :=
  map_count (λ x, m_peer x = peer) ch.
Record counted (v : View) : Prop := {
  counted_wf : PeerStat.wf (v_peers v);
  counted_get : ∀ peer, PeerStat.get peer (v_peers v) = number peer (v_children v);
  counted_limit : ∀ peer it, first_match (connect_total c) peer = Some it →
    value it ≤ INT_MAX → number peer (v_children v) ≤ Z.max 0 (value it)
}.
Lemma number_same peer ch a x y : ch !! a = Some x → m_peer y = m_peer x →
  number peer (<[a := y]> ch) = number peer ch.
Proof. intros Ha Hp. apply (map_count_replace _ _ a x); [done|]. by rewrite Hp. Qed.
Lemma number_forget peer l ch : number peer (forget l ch) = number peer ch.
Proof.
  induction l as [|m l IH]; [done|]. cbn [forget foldr]. fold (forget l ch).
  unfold number in *. rewrite map_count_alter; [done|]. done.
Qed.
Lemma number_positive ch a x : ch !! a = Some x → 0 < number (m_peer x) ch.
Proof.
  intros Ha. pose proof (map_count_delete (λ y, m_peer y = m_peer x) ch a x Ha) as H.
  rewrite decide_True in H by done. unfold number.
  pose proof (map_count_nonneg (λ y, m_peer y = m_peer x) (delete a ch)). lia.
Qed.
Lemma counted_children ch ch' n n' ps l l' en en' dr dr' :
  (∀ peer, number peer ch' = number peer ch) →
  counted (mk_View ch n ps l en dr) → counted (mk_View ch' n' ps l' en' dr').
Proof.
  intros H [Hw Hg Hl]. split; cbn in *; [done|intros; by rewrite H|].
  intros. rewrite H. by apply Hl.
Qed.
Lemma counted_delete ch n ps l en dr dr' a x : ch !! a = Some x →
  counted (mk_View ch n ps l en dr) →
  counted (mk_View (delete a ch) n (PeerStat.remove (m_peer x) ps).1 l en dr').
Proof.
  intros Ha [Hw Hg Hl]. cbn in *.
  destruct (PeerStat.remove_spec (m_peer x) ps Hw) as [Hw' Hg'].
  { rewrite Hg. by eapply number_positive. }
  assert (Hd : ∀ peer, number peer (delete a ch) =
    number peer ch - (if decide (m_peer x = peer) then 1 else 0))
    by (intros peer; exact (map_count_delete (λ y, m_peer y = peer) ch a x Ha)).
  split; cbn; [done|intros; by rewrite Hg', Hd, Hg|].
  intros peer it Hit Hv. rewrite Hd. specialize (Hl peer it Hit Hv). case_decide; lia.
Qed.
Lemma counted_step v v' : view_step v v' → safe v → counted v → counted v'.
Proof.
  intros Hstep [_ _ Hn] Hc. destruct Hstep as [ch n ps l l' en en' dr Hl Hen|ch n ps l en dr x H0 Ho Hex|
    ch n ps l l' en dr a x Ha Hl|ch n ps l en dr a x Ha H0|ch n ps l en dr a x Ha Ho H0|
    ch n ps l l' gone kept en en' dr a x Ha Ho Hl Hl' Hen|ch n ps l l' en dr a x x' Ha Hl Hn' _ Hp].
  - by eapply counted_children.
  - destruct Hc as [Hw Hg Hl]. cbn in *.
    destruct (PeerStat.add_spec (m_peer x) ps Hw) as [Hw' Hg'].
    assert (Hfresh : ch !! n = None).
    { destruct (ch !! n) eqn:E; [|done]. specialize (Hn n). rewrite E in Hn.
      assert (n < n) by (apply Hn; by eexists). lia. }
    assert (Hd : ∀ peer, number peer (<[n := x]> ch) =
      number peer ch + (if decide (m_peer x = peer) then 1 else 0))
      by (intros peer; exact (map_count_insert (λ y, m_peer y = peer) ch n x Hfresh)).
    split; cbn; [done|intros; by rewrite Hg', Hd, Hg|].
    intros peer it Hit Hv. rewrite Hd. specialize (Hl peer it Hit Hv).
    case_decide as Hpe; [|lia]. subst peer. unfold exceeds in Hex. rewrite Hit in Hex.
    apply negb_false_iff, Z.ltb_lt in Hex. rewrite Hg, int32_id in Hex; [lia|].
    pose proof (map_count_nonneg (λ y, m_peer y = m_peer x) ch).
    unfold in_int32, number in *. unfold INT_MAX in *. lia.
  - eapply counted_children; [|exact Hc]. intros peer. by apply (number_same _ _ _ x).
  - by eapply counted_delete.
  - by eapply counted_delete.
  - eapply counted_children; [|exact Hc]. intros peer. rewrite number_forget.
    by apply (number_same _ _ _ x).
  - eapply counted_children; [|exact Hc]. intros peer. by apply (number_same _ _ _ x).
Qed.

(** Which connections have told the route that they end. *)
Record closing (v : View) : Prop := {
  closing_once : NoDup (v_ended v);
  closing_open : ∀ a x, v_children v !! a = Some x → is_open x ↔ a ∉ v_ended v;
  closing_next : ∀ a, a ∈ v_ended v → a < v_next v;
  closing_all : ∀ a, 0 ≤ a < v_next v →
    is_Some (v_children v !! a) ∨ a ∈ v_ended v ∨ a ∈ v_dropped v
}.
Lemma closing_replace ch n ps l l' en dr a x y : ch !! a = Some x →
  m_session y = m_session x → closing (mk_View ch n ps l en dr) →
  closing (mk_View (<[a := y]> ch) n ps l' en dr).
Proof.
  intros Ha Hs [H1 H2 H3 H4]. split; cbn in *; [done| |done|].
  - intros b z. destruct (decide (b = a)) as [->|Hne].
    + rewrite lookup_insert_eq. intros [= <-]. unfold is_open. rewrite Hs. by apply H2.
    + rewrite lookup_insert_ne by done. apply H2.
  - intros b Hb. destruct (H4 b Hb) as [Hx|?]; [left|by right].
    apply lookup_insert_is_Some'. by right.
Qed.
Lemma closing_perm ch n ps l l' en en' dr : en' ≡ₚ en →
  closing (mk_View ch n ps l en dr) → closing (mk_View ch n ps l' en' dr).
Proof.
  intros He [H1 H2 H3 H4]. split; cbn in *.
  - by rewrite He.
  - intros a x Ha. rewrite He. by apply H2.
  - intros a. rewrite He. apply H3.
  - intros a Ha. rewrite He. by apply H4.
Qed.
Lemma next_step v v' : view_step v v' → v_next v ≤ v_next v'.
Proof. destruct 1; cbn; lia. Qed.
Lemma closing_step v v' : view_step v v' → safe v → v_next v' ≤ 2 ^ 64 →
  closing v → closing v'.
Proof.
  intros Hstep [_ _ Hn] Hfew Hc. destruct Hstep as [ch n ps l l' en en' dr Hl Hen|ch n ps l en dr x H0 Ho Hex|
    ch n ps l l' en dr a x Ha Hl|ch n ps l en dr a x Ha H0|ch n ps l en dr a x Ha Ho H0|
    ch n ps l l' gone kept en en' dr a x Ha Ho Hl Hl' Hen|ch n ps l l' en dr a x x' Ha Hl Hn' Hs Hp];
    cbn in *; try (by eapply closing_replace); [by eapply closing_perm|..];
    destruct Hc as [H1 H2 H3 H4]; cbn in *.
  - split; cbn; [done| | |].
    + intros b y. destruct (decide (b = n)) as [->|Hne].
      * rewrite lookup_insert_eq. intros [= <-]. split; [|done]. intros _ Hin.
        apply H3 in Hin. lia.
      * rewrite lookup_insert_ne by done. apply H2.
    + intros b Hb%H3. lia.
    + intros b Hb. destruct (decide (b = n)) as [->|Hne].
      * left. rewrite lookup_insert_eq. by eexists.
      * rewrite lookup_insert_ne by done. apply H4. lia.
  - split; cbn; [done|intros b y [_ Hb]%lookup_delete_Some; by apply H2|done|].
    intros b Hb. destruct (decide (b = a)) as [->|Hne].
    + right. right. apply elem_of_app. right. by left.
    + rewrite lookup_delete_ne by done. rewrite elem_of_app. specialize (H4 b Hb). tauto.
  - split; cbn; [done|intros b y [_ Hb]%lookup_delete_Some; by apply H2|done|].
    intros b Hb. destruct (decide (b = a)) as [->|Hne].
    + right. left. destruct (decide (a ∈ en)) as [|Hen]; [done|]. by apply (H2 a x Ha) in Hen.
    + rewrite lookup_delete_ne by done. by apply H4.
  - pose proof (proj1 (H2 a x Ha) Ho) as Hnot. specialize (Hen Hfew Hnot).
    eapply closing_perm; [exact Hen|]. instantiate (1 := l'). split; cbn.
    + apply NoDup_app. split; [done|]. split; [|by apply NoDup_singleton].
      intros b Hb ->%list_elem_of_singleton. done.
    + intros b y. rewrite forget_lookup. destruct (decide (b = a)) as [->|Hne].
      * rewrite lookup_insert_eq. intros [= <-]. unfold is_open. cbn.
        rewrite elem_of_app, list_elem_of_singleton. split; [done|tauto].
      * rewrite lookup_insert_ne by done. destruct (ch !! b) as [z|] eqn:Hb; [|done].
        intros [= <-]. unfold is_open. cbn. rewrite elem_of_app, list_elem_of_singleton.
        rewrite (H2 b z Hb). tauto.
    + intros b. rewrite elem_of_app, list_elem_of_singleton. intros [Hb| ->]; [by apply H3|].
      apply Hn. by eexists.
    + intros b Hb. rewrite forget_is_Some, elem_of_app. destruct (H4 b Hb) as [Hx|[Hx|Hx]]; [|tauto..].
      left. apply lookup_insert_is_Some'. by right.
Qed.

(** *** The events do nothing else *)
Definition own_session (m : Msg) : Prop :=
  Session.id (p_session (msg_package m)) = session_id (m_assoc_child m).
Definition got_page (s : State) (a : Z) : Prop :=
  ∃ hres, (a, GDU_HTTP_Response hres) ∈ m_sent s.
Record extra (s : State) : Prop := {
  extra_origin : ∀ a x, children s !! a = Some x → Origin.m_address (m_origin x) ≠ "";
  extra_server : ∀ a x, children s !! a = Some x → (m_server x < length (servers s))%nat;
  extra_stats : length (m_duration_freq (stats s)) = 22%nat;
  extra_global : 0 ≤ next_address s ∧ m_global_id s = wrap_u 64 (next_address s);
  extra_session : ∀ a x, children s !! a = Some x →
    0 ≤ a ∧ Session.id (m_session x) = session_id a;
  extra_input : ∀ m, m ∈ m_input s → own_session m;
  extra_dropped : ∀ a, a ∈ h_dropped s → got_page s a
}.
Lemma session_id_inj a b n : 0 ≤ a < n → 0 ≤ b < n → n ≤ 2 ^ 64 →
  session_id a = session_id b → a = b.
Proof.
  unfold session_id, wrap_u. intros Ha Hb Hn H.
  destruct (Z.eq_dec (a + 1) (2 ^ 64)) as [Ea|Ea], (Z.eq_dec (b + 1) (2 ^ 64)) as [Eb|Eb];
    rewrite ?Ea, ?Eb, ?Z_mod_same_full, ?(Z.mod_small (a + 1)), ?(Z.mod_small (b + 1)) in H by lia;
    lia.
Qed.
Definition sound (s : State) : Prop := safe (view s) ∧ extra s.
(** No HTTP request before the one before is answered. *)
Definition polite (s : State) (e : event) : Prop :=
  match e with
  | Recv a (GDU_HTTP_Request _) =>
      ∀ x, children s !! a = Some x → m_no_requests x = 0
  | _ => True
  end.
Context (Hroute : is_Some (p_route_pos m_package)).

Lemma tot_child a x s (Q : Child → State → Prop) :
  children s !! a = Some x → Q x s → tot (child a) s Q.
Proof. intros Ha HQ. unfold tot, child, mbind, M_bind, get. by rewrite Ha. Qed.
Lemma tot_put (s' s : State) (Q : unit → State → Prop) : Q tt s' → tot (put s') s Q.
Proof. done. Qed.
Lemma tot_get (s : State) (Q : State → State → Prop) : Q s s → tot get s Q.
Proof. done. Qed.
Lemma tot_modify f (s : State) (Q : unit → State → Prop) : Q tt (f s) → tot (modify f) s Q.
Proof. done. Qed.
Lemma tot_lift {A} (o : outcome A) a (s : State) (Q : A → State → Prop) :
  o = Ok a → Q a s → tot (lift_outcome o) s Q.
Proof. by intros ->. Qed.
Lemma tot_copy p (s : State) (Q : Package R → State → Prop) :
  (∀ r, Q (set_route_pos (Some r) p) s) → tot (copy_filter m_package p) s Q.
Proof.
  intros H. destruct Hroute as [r Hr]. unfold tot. rewrite (copy_filter_ok _ _ r) by done. apply H.
Qed.
Lemma tot_send a g x s (Q : unit → State → Prop) :
  children s !! a = Some x → Q tt (set_sent (m_sent s ++ [(a, g)]) s) → tot (send_GDU a g) s Q.
Proof.
  intros Ha HQ. apply tot_bind. apply (tot_child a x); [done|]. by apply tot_modify.
Qed.
Lemma tot_update a f x s (Q : unit → State → Prop) :
  children s !! a = Some x → Q tt (set_children (<[a := f x]> (children s)) s) →
  tot (update_child a f) s Q.
Proof.
  intros Ha HQ. apply tot_bind. apply (tot_child a x); [done|]. by apply tot_modify.
Qed.

(** The parts of the state that matter here; the others may change freely. *)
Definition kept (ch ch' : gmap Z Child) : Prop :=
  ∀ a x, ch' !! a = Some x → ∃ y, ch !! a = Some y ∧ m_origin x = m_origin y ∧
    m_server x = m_server y ∧ Session.id (m_session x) = Session.id (m_session y).
Record same (s s' : State) : Prop := {
  same_servers : length (servers s') = length (servers s);
  same_stats : length (m_duration_freq (stats s')) = length (m_duration_freq (stats s));
  same_next : next_address s' = next_address s;
  same_global : m_global_id s' = m_global_id s;
  same_sent : ∀ x, x ∈ m_sent s → x ∈ m_sent s'
}.
(** Nothing changes but the table of connections, the limits and what was sent. *)
Record quiet (s s' : State) : Prop := {
  quiet_same : same s s';
  quiet_peers : m_peerStat s' = m_peerStat s;
  quiet_input : m_input s' = m_input s;
  quiet_busy : m_busy s' = m_busy s;
  quiet_output : m_output s' = m_output s;
  quiet_routed : h_routed s' = h_routed s;
  quiet_dropped : h_dropped s' = h_dropped s
}.
Lemma quiet_all_msgs s s' : quiet s s' → all_msgs s' = all_msgs s.
Proof. intros [_ _ Hi Hb Ho _ _]. unfold all_msgs. by rewrite Hi, Hb, Ho. Qed.
Lemma quiet_ends s s' : quiet s s' → ends s' = ends s.
Proof. intros [_ _ Hi Hb _ Hr _]. unfold ends. by rewrite Hi, Hb, Hr. Qed.
Lemma extra_same s s' : same s s' → kept (children s) (children s') →
  (∀ m, m ∈ m_input s' → m ∈ m_input s ∨ own_session m) →
  (∀ a, a ∈ h_dropped s' → a ∈ h_dropped s ∨ got_page s' a) → extra s → extra s'.
Proof.
  intros [Hsrv Hst Hn Hg Hsent] Hch Hin Hd [H1 H2 H3 H4 H5 H6 H7]. split.
  - intros a x (y & Hy & -> & _)%Hch. by eapply H1.
  - intros a x (y & Hy & _ & -> & _)%Hch. rewrite Hsrv. by eapply H2.
  - by rewrite Hst.
  - by rewrite Hn, Hg.
  - intros a x (y & Hy & _ & _ & ->)%Hch. by apply H5.
  - intros m [Hm|Hm]%Hin; [by apply H6|done].
  - intros a [Ha|Ha]%Hd; [|done]. destruct (H7 a Ha) as [hres Hres]. exists hres. auto.
Qed.
Lemma kept_refl ch : kept ch ch.
Proof. intros a x Hx. by exists x. Qed.
Lemma kept_insert (ch : gmap Z Child) a x y : ch !! a = Some x → m_origin y = m_origin x →
  m_server y = m_server x → Session.id (m_session y) = Session.id (m_session x) →
  kept ch (<[a := y]> ch).
Proof.
  intros Ha Ho Hs Hi b z. destruct (decide (b = a)) as [->|Hne].
  - rewrite lookup_insert_eq. intros [= <-]. by exists x.
  - rewrite lookup_insert_ne by done. intros Hb. by exists z.
Qed.
Lemma kept_delete (ch : gmap Z Child) a : kept ch (delete a ch).
Proof. intros b z [_ Hb]%lookup_delete_Some. by exists z. Qed.
Lemma kept_forget (ch ch' : gmap Z Child) l : kept ch ch' → kept ch (forget l ch').
Proof.
  intros H b z. rewrite forget_lookup. destruct (ch' !! b) as [y|] eqn:Hb; [|done].
  intros [= <-]. exact (H b y Hb).
Qed.
Lemma http_session session hreq code :
  Session.id (create_HTTP_Response session hreq code).2 = Session.id session.
Proof.
  unfold create_HTTP_Response, create_HTTP_Response_details.
  by repeat case_decide.
Qed.
Lemma ends_of_app l l' : ends_of (l ++ l') = ends_of l ++ ends_of l'.
Proof. unfold ends_of. by rewrite filter_app, fmap_app. Qed.
Lemma ends_of_perm l l' : l' ≡ₚ l → ends_of l' ≡ₚ ends_of l.
Proof. intros H. unfold ends_of. by rewrite H. Qed.
Lemma ends_of_one m : ends_of [m] = if is_end m then [m_assoc_child m] else [].
Proof.
  unfold ends_of. rewrite filter_cons, filter_nil. destruct (is_end m); [|done].
  by rewrite decide_True.
Qed.
Lemma ends_of_none l : (∀ m, m ∈ l → is_end m = false) → ends_of l = [].
Proof.
  intros H. unfold ends_of. induction l as [|m l IH]; [done|]. rewrite filter_cons.
  rewrite (H m) by (by left). rewrite decide_False by done. apply IH. intros; apply H. by right.
Qed.

Definition step_ok (s s' : State) : Prop := sound s' ∧ view_step (view s) (view s').
Lemma step_ok_intro s s' : sound s → extra s' → view_step (view s) (view s') → step_ok s s'.
Proof. intros [Hs _] He Hv. split; [split; [by eapply safe_step|done]|done]. Qed.
Lemma step_ok_same s s' : sound s → same s s' → children s' = children s →
  m_peerStat s' = m_peerStat s → (∀ m, m ∈ m_input s' → m ∈ m_input s) →
  m_assoc_child <$> all_msgs s' ≡ₚ m_assoc_child <$> all_msgs s →
  h_routed s' ++ m_busy s' ++ m_input s' ≡ₚ h_routed s ++ m_busy s ++ m_input s →
  h_dropped s' = h_dropped s → step_ok s s'.
Proof.
  intros Hs Hsame H1 H2 H3 H4 H5 H6. apply step_ok_intro; [done| |].
  - apply (extra_same s); [done| | | |apply Hs].
    + rewrite H1. apply kept_refl.
    + intros m Hm. left. by apply H3.
    + rewrite H6. by left.
  - unfold view. rewrite H1, H2, H6, (same_next _ _ Hsame). constructor; [done|].
    by apply ends_of_perm.
Qed.
Lemma step_ok_refl s : sound s → step_ok s s.
Proof. intros Hs. by apply step_ok_same. Qed.

Lemma take_ok s : sound s → tot take s (λ _ s', step_ok s s').
Proof.
  intros Hs. apply tot_bind, tot_get. destruct (m_input s) as [|m l] eqn:Hi.
  - by apply tot_ret, step_ok_refl.
  - apply tot_put, step_ok_same; try done.
    + rewrite Hi. intros m'. cbn. by right.
    + unfold all_msgs. rewrite Hi. cbn. rewrite !fmap_app. cbn. solve_Permutation.
    + rewrite Hi. cbn. solve_Permutation.
Qed.
Lemma msg_child s m : sound s → m ∈ all_msgs s → ∃ x, children s !! m_assoc_child m = Some x.
Proof. intros [Hv _] Hm. apply (safe_msgs _ Hv). by apply list_elem_of_fmap_2. Qed.
Lemma handle_ok s i p' : sound s → tot (handle i p') s (λ _ s', step_ok s s').
Proof.
  intros Hs. apply tot_bind, tot_get. destruct (m_busy s !! i) as [m|] eqn:Hi.
  - destruct (msg_child s m Hs) as [x Hx].
    { unfold all_msgs. rewrite !elem_of_app. right. left. by eapply list_elem_of_lookup_2. }
    pose proof (delete_Permutation _ _ _ Hi) as Hperm.
    apply tot_bind, (tot_child _ x); [done|]. apply tot_put, step_ok_same; try done.
    + assert (Hmap : m_assoc_child <$> m_busy s ≡ₚ m_assoc_child <$> m :: delete i (m_busy s))
        by by apply fmap_Permutation.
      unfold all_msgs. cbn. rewrite !fmap_app, Hmap. cbn. solve_Permutation.
    + transitivity (h_routed s ++ (m :: delete i (m_busy s)) ++ m_input s);
        [cbn; solve_Permutation|by rewrite <-Hperm].
  - by apply tot_ret, step_ok_refl.
Qed.

(** A result is delivered. *)
Lemma record_duration_ok duration st : length (m_duration_freq st) = 22%nat →
  ∃ st', record_duration duration st = Ok st' ∧ length (m_duration_freq st') = 22%nat.
Proof.
  intros Hl. unfold record_duration.
  assert (Hb : ∃ ent, bucket m_duration_lim duration = Ok ent ∧ (ent < 22)%nat).
  { unfold m_duration_lim. cbn [bucket Z.eqb Pos.eqb negb andb].
    repeat (match goal with |- context [if ?b then _ else _] => destruct b end;
      [|eexists; split; [reflexivity|lia]]).
    eexists; split; [reflexivity|lia]. }
  destruct Hb as (ent & -> & Hent). cbn.
  destruct (lookup_lt_is_Some_2 (m_duration_freq st) ent) as [f ->]; [lia|].
  eexists. split; [reflexivity|]. cbn. by rewrite length_insert.
Qed.
(** What is sent for a package that comes back; nothing changes but what was
    sent and the statistics. *)
Definition server_error (p : Package R) (g : GDU) : Prop :=
  match p_request p with
  | Some (GDU_Z3950 apdu) => g = GDU_Z3950 (create_close (Some apdu) Close_systemProblem
      (Some "unhandled Z39.50 request"))
  | Some (GDU_HTTP_Request hreq) => g = GDU_HTTP_Response
      (create_HTTP_Response (p_session p) hreq 500).1
  | _ => False
  end.
Definition answered (p : Package R) (sent : list GDU) : Prop :=
  match p_response p with
  | Some g => sent = [g]
  | None =>
      if is_closed p then sent = []
      else match p_request p with
           | Some (GDU_Z3950 _ | GDU_HTTP_Request _) => ∃ g, sent = [g] ∧ server_error p g
           | _ => sent = []
           end
  end.
Lemma answer_ok a duration p s x : children s !! a = Some x →
  length (m_duration_freq (stats s)) = 22%nat →
  tot (answer a duration p) s (λ p' s', ∃ sent st,
    s' = set_sent (m_sent s ++ (pair a <$> sent)) (set_stats st s) ∧
    length (m_duration_freq st) = 22%nat ∧ answered p sent ∧
    is_closed p' = is_closed p || bool_decide (p_response p = None)).
Proof.
  intros Ha Hst. unfold answer, answered. destruct (p_response p) as [g|].
  - apply tot_bind, (tot_send _ _ x); [done|]. apply tot_bind, tot_get.
    destruct (record_duration_ok duration (stats s) Hst) as (st & Hrec & Hlen).
    apply tot_bind, (tot_lift _ st); [exact Hrec|]. apply tot_bind, tot_put, tot_ret.
    exists [g], st. by rewrite orb_false_r.
  - assert (Hsame : s = set_sent (m_sent s ++ (pair a <$> [])) (set_stats (stats s) s))
      by (cbn; rewrite app_nil_r; by destruct s).
    destruct (is_closed p) eqn:Hc; [by apply tot_ret; exists [], (stats s)|].
    unfold unhandled, server_error.
    destruct (p_request p) as [[apdu|hreq|hres]|].
    + apply tot_bind, (tot_send _ _ x); [done|]. apply tot_ret.
      eexists [_], (stats s). split; [by destruct s|]. split_and!; [done|by eexists|done].
    + destruct (create_HTTP_Response (p_session p) hreq 500) as [hres session].
      apply tot_bind, (tot_send _ _ x); [done|]. apply tot_ret.
      eexists [_], (stats s). split; [by destruct s|]. split_and!; [done|by eexists|done].
    + apply tot_ret. by exists [], (stats s).
    + apply tot_ret. by exists [], (stats s).
Qed.
Lemma deliver_ok s duration : sound s → tot (deliver duration) s (λ _ s', step_ok s s').
Proof.
  intros Hs. apply tot_bind, tot_get. destruct (m_output s) as [|m l] eqn:Hi.
  { by apply tot_ret, step_ok_refl. }
  destruct (msg_child s m Hs) as [x Hx].
  { unfold all_msgs. rewrite Hi, !elem_of_app. right. right. by left. }
  set (a := m_assoc_child m) in *. set (x1 := set_no_requests (m_no_requests x - 1) x).
  apply tot_bind, tot_put. set (s1 := set_pool (m_input s) (m_busy s) l s).
  unfold result. fold a. apply tot_bind, (tot_update a _ x); [done|].
  change (children s1) with (children s). fold x1.
  set (s2 := set_children (<[a := x1]> (children s)) s1).
  assert (Hx1 : children s2 !! a = Some x1) by apply lookup_insert_eq.
  apply tot_bind. eapply tot_mono; [apply (answer_ok a duration (msg_package m) s2 x1 Hx1)|].
  { apply (extra_stats _ (proj2 Hs)). }
  cbn beta. intros p s3 (sent0 & st & -> & Hlen & _).
  set (sent := m_sent s2 ++ (pair a <$> sent0)).
  apply tot_bind, (tot_child _ x1); [done|].
  assert (Hstep : ∀ y, m_no_requests y = m_no_requests x1 → m_session y = m_session x →
    m_peer y = m_peer x → m_origin y = m_origin x → m_server y = m_server x →
    step_ok s (set_children (<[a := y]> (children s2)) (set_sent sent (set_stats st s2)))).
  { intros y Hn Hses Hp Ho Hsv. unfold s2. cbn [children set_children].
    apply step_ok_intro; [done| |].
    - apply (extra_same s); [split; cbn; try done| |by left|by left|apply Hs].
      + by rewrite Hlen, (extra_stats _ (proj2 Hs)).
      + intros g Hg. apply elem_of_app. by left.
      + cbn. rewrite insert_insert_eq. apply (kept_insert _ a x); [done..|]. by rewrite Hses.
    - unfold view. cbn. rewrite insert_insert_eq. eapply (vs_result _ _ _ _ _ _ _ a x); try done.
      unfold all_msgs. rewrite Hi. cbn. rewrite !fmap_app. cbn. fold a. solve_Permutation. }
  destruct ((m_no_requests x1 =? 0) && is_closed p).
  - apply tot_modify. by apply (Hstep (request_close x1)).
  - apply tot_ret. assert (Heq : set_sent sent (set_stats st s2) =
      set_children (<[a := x1]> (children s2)) (set_sent sent (set_stats st s2))).
    { unfold s2, set_children, set_sent, set_stats. cbn. by rewrite insert_insert_eq. }
    rewrite Heq. by apply (Hstep x1).
Qed.

(** A new connection. *)
Lemma find_blank (s t : string) : ∃ i, find_char " " (s +:+ " " +:+ t) = Some i.
Proof.
  induction s as [|ch s [i IH]].
  - by eexists.
  - rewrite str_app_cons. cbn [find_char]. case_decide; [by eexists|].
    rewrite IH. by eexists.
Qed.
Lemma extra_insert s s' x : extra s →
  children s' = <[next_address s := x]> (children s) → next_address s' = next_address s + 1 →
  m_global_id s' = wrap_u 64 (m_global_id s + 1) → length (servers s') = length (servers s) →
  stats s' = stats s → m_input s' = m_input s → h_dropped s' = h_dropped s → m_sent s' = m_sent s →
  Origin.m_address (m_origin x) ≠ "" → (m_server x < length (servers s))%nat →
  Session.id (m_session x) = wrap_u 64 (m_global_id s + 1) → extra s'.
Proof.
  intros [H1 H2 H3 [H4 Hg] H5 H6 H7] Hch Hn Hg' Hsrv Hst Hin Hd Hsent Ho Hx Hid.
  assert (Hses : wrap_u 64 (m_global_id s + 1) = session_id (next_address s)).
  { rewrite Hg. unfold session_id, wrap_u. by rewrite Z.add_mod_idemp_l. }
  assert (Hcase : ∀ (P : Z → Child → Prop), (∀ a y, children s !! a = Some y → P a y) →
    P (next_address s) x → ∀ a y, children s' !! a = Some y → P a y).
  { intros P Hold Hnew a y. rewrite Hch. destruct (decide (a = next_address s)) as [->|Ha].
    - rewrite lookup_insert_eq. by intros [= <-].
    - rewrite lookup_insert_ne by done. apply Hold. }
  split.
  - by apply (Hcase (λ _ y, Origin.m_address (m_origin y) ≠ "")).
  - rewrite Hsrv. by apply (Hcase (λ _ y, (m_server y < length (servers s))%nat)).
  - by rewrite Hst.
  - rewrite Hn, Hg', Hses. by split; [lia|].
  - apply (Hcase (λ a y, 0 ≤ a ∧ Session.id (m_session y) = session_id a)); [done|].
    by rewrite Hid.
  - by rewrite Hin.
  - rewrite Hd. unfold got_page. by rewrite Hsent.
Qed.
Lemma sessionNotify_ok s i peer : sound s →
  tot (sessionNotify i peer) s (λ _ s', step_ok s s').
Proof.
  intros Hs. apply tot_bind, tot_get. destruct (servers s !! i) as [srv|] eqn:Hi;
    [|by apply tot_ret, step_ok_refl].
  cbn zeta. set (name := peer_of peer).
  destruct (exceeds (connect_total c) name (int32 (PeerStat.get name (m_peerStat s)))) eqn:Htotal;
    [by apply tot_ret, step_ok_refl|].
  destruct (exceeds (connect_max c) name _).
  { apply tot_put, step_ok_same; try done. split; cbn; try done. apply length_insert. }
  apply tot_bind, tot_put. set (s1 := set_servers _ s). unfold new_child.
  apply tot_bind, tot_get. destruct (Session.create (m_global_id s1)) as [session g] eqn:Hses.
  cbn [s_port].
  destruct (find_blank name (port (s_port srv))) as [k Hk].
  apply tot_bind. eapply tot_lift.
  { unfold Origin.set_tcpip_address. cbn [Origin.m_address Origin.create].
    rewrite decide_True by done. by rewrite Hk. }
  apply tot_put. set (x := mk_Child _ _ _ _ _ _ _).
  assert (Hne : name +:+ " " +:+ port (s_port srv) ≠ "") by (destruct name; done).
  assert (Hlen : length (servers s1) = length (servers s)) by (cbn; apply length_insert).
  assert (Hlt : (i < length (servers s))%nat) by by eapply lookup_lt_Some.
  apply step_ok_intro; [done| |].
  - unfold Session.create in Hses. injection Hses as <- <-.
    by apply (extra_insert s _ x (proj2 Hs)).
  - unfold view. cbn. apply (vs_new _ _ _ _ _ _ x); [done| |done].
    unfold is_open. cbn. unfold Session.create in Hses. by injection Hses as <- <-.
Qed.

(** A PDU. *)
Lemma forwarded_ok x z_pdu p : Origin.m_address (p_origin p) ≠ "" →
  ∃ p', forwarded x z_pdu p = Ok p' ∧ p_session p' = p_session p.
Proof.
  intros Ho. unfold forwarded. destruct z_pdu as [[| |]|]; try by eexists.
  destruct (z_HTTP_header_lookup _ _) as [f|]; [|by eexists].
  unfold Origin.set_tcpip_address. rewrite decide_False by done. by eexists.
Qed.
(** The connection [a] had [x]; it is gone with an answer. *)
Lemma drop_ok s s1 a x y : sound s → children s !! a = Some x → m_no_requests x = 0 →
  children s1 = <[a := y]> (children s) → m_peer y = m_peer x → quiet s s1 → got_page s1 a →
  tot (drop_child a) s1 (λ _ s', step_ok s s').
Proof.
  intros Hs Ha H0 Hch Hp Hq Hpage. pose proof (quiet_all_msgs _ _ Hq) as Hm.
  pose proof (quiet_ends _ _ Hq) as He. destruct Hq as [[]].
  apply tot_bind, tot_bind.
  apply (tot_child _ y); [by rewrite Hch, lookup_insert_eq|]. apply tot_modify, tot_modify.
  apply step_ok_intro; [done| |].
  - apply (extra_same s); [by split| | | |apply Hs]; cbn.
    + rewrite Hch, delete_insert_eq. apply kept_delete.
    + rewrite quiet_input0. by left.
    + intros b. rewrite elem_of_app, list_elem_of_singleton, quiet_dropped0.
      intros [Hb| ->]; [by left|by right].
  - unfold view. cbn. rewrite Hch, same_next0, quiet_peers0, quiet_dropped0, Hp, delete_insert_eq.
    unfold ends, all_msgs in *. cbn. rewrite Hm, He. by apply vs_drop.
Qed.
Lemma http_limit_ok s a p hreq x : children s !! a = Some x →
  (m_server x < length (servers s))%nat →
  tot (http_limit a p hreq) s (λ b s', children s' = (if (b : bool) then
      <[a := set_m_session (create_HTTP_Response (m_session x) hreq 500).2 x]> (children s)
      else children s) ∧ quiet s s' ∧ (b = true → got_page s' a)).
Proof.
  intros Ha Hv. apply tot_bind, (tot_child _ x); [done|]. apply tot_bind, tot_get.
  destruct (lookup_lt_is_Some_2 (servers s) (m_server x) Hv) as [srv ->]. cbn zeta.
  destruct (exceeds (http_req_max c) _ _).
  - apply tot_bind, tot_put.
    destruct (create_HTTP_Response (m_session x) hreq 500) as [hres session].
    apply tot_bind, tot_modify. apply tot_bind.
    eapply tot_send; [cbn; apply lookup_insert_eq|]. apply tot_ret. cbn.
    split_and!; [done| |].
    + split; [split; cbn; try done; [apply length_insert|]|done..].
      intros g Hg. apply elem_of_app. by left.
    + intros _. exists hres. apply elem_of_app. right. by left.
  - apply tot_bind, tot_put, tot_ret. cbn. split_and!; [done| |done].
    split; [split; cbn; try done; apply length_insert|done..].
Qed.
(** The package of a request joins the queue. *)
Lemma queue_ok s s1 a x m z : sound s → children s !! a = Some x → quiet s s1 →
  children s1 = <[a := set_no_requests (m_no_requests x + 1) x]> (children s) →
  m_assoc_child m = a → Session.id (p_session (msg_package m)) = Session.id (m_session x) →
  p_request (msg_package m) = Some z → tot (put_msg m) s1 (λ _ s', step_ok s s').
Proof.
  intros Hs Ha Hq Hch Hma Hid Hreq. pose proof (quiet_all_msgs _ _ Hq) as Hm.
  pose proof (quiet_ends _ _ Hq) as He. destruct Hq as [[]].
  apply tot_modify. apply step_ok_intro; [done| |].
  - apply (extra_same s); [by split| | | |apply Hs]; cbn.
    + rewrite Hch. by apply (kept_insert _ a x).
    + intros m'. rewrite elem_of_app, list_elem_of_singleton, quiet_input0.
      intros [Hin| ->]; [by left|right]. unfold own_session. rewrite Hma, Hid.
      apply (extra_session _ (proj2 Hs) a x Ha).
    + rewrite quiet_dropped0. by left.
  - assert (Hends : ends (set_pool (m_input s1 ++ [m]) (m_busy s1) (m_output s1) s1) = ends s).
    { rewrite <-He. unfold ends. cbn. rewrite !ends_of_app, ends_of_one. unfold is_end.
      by rewrite Hreq, andb_false_r, app_nil_r. }
    unfold view. rewrite Hends. cbn. rewrite Hch, same_next0, quiet_peers0, quiet_dropped0.
    apply vs_queue; [done|].
    rewrite <-Hm. unfold all_msgs. cbn. rewrite !fmap_app. cbn. rewrite Hma. solve_Permutation.
Qed.
Lemma recv_ok s a z_pdu x : sound s → children s !! a = Some x →
  polite s (Recv a z_pdu) → tot (recv_GDU a (Some z_pdu)) s (λ _ s', step_ok s s').
Proof.
  intros Hs Ha Hpol. set (x1 := set_no_requests (m_no_requests x + 1) x).
  apply tot_bind, (tot_update a _ x); [done|]. fold x1.
  set (s1 := set_children (<[a := x1]> (children s)) s).
  assert (Hx1 : children s1 !! a = Some x1) by apply lookup_insert_eq.
  assert (Hq1 : quiet s s1) by done.
  apply tot_bind, (tot_child _ x1); [done|].
  destruct (forwarded_ok x1 (Some z_pdu) (new_Package (m_session x1) (m_origin x1)))
    as (p & Hp & Hps).
  { apply (extra_origin _ (proj2 Hs) a x Ha). }
  assert (Hid : Session.id (p_session p) = Session.id (m_session x)) by by rewrite Hps.
  apply tot_bind, (tot_lift _ p); [done|].
  destruct z_pdu as [apdu|hreq|hres]; cbn [stat_request];
    try (apply tot_bind, tot_copy; intros r; apply tot_bind, tot_ret; by eapply (queue_ok s s1 a x)).
  pose proof (Hpol x Ha) as H0. destruct (negb _ && _).
  - apply tot_bind. unfold report. apply tot_bind, (tot_child _ x1); [done|].
    destruct (create_HTTP_Response (m_session x1) hreq 200) as [hres session].
    apply tot_bind, tot_modify. apply tot_bind, tot_get.
    destruct (get_thread_info _) as [tbusy ttotal].
    eapply tot_send; [cbn; apply lookup_insert_eq|].
    eapply (drop_ok s _ a x (set_m_session session x1)); try done.
    + cbn. by rewrite insert_insert_eq.
    + split; [split; cbn; try done|done..]. intros g Hg. apply elem_of_app. by left.
    + eexists. apply elem_of_app. right. by left.
  - apply tot_bind, tot_copy. intros r. apply tot_bind.
    eapply tot_mono; [apply (http_limit_ok s1 a _ hreq x1 Hx1)|].
    { apply (extra_server _ (proj2 Hs) a x Ha). }
    cbn beta. intros b s2 (Hch & Hq & Hpage).
    assert (Hq2 : quiet s s2) by by destruct Hq as [[] ? ? ? ? ? ?].
    destruct b.
    + apply (drop_ok s s2 a x (set_m_session
        (create_HTTP_Response (m_session x1) hreq 500).2 x1) Hs Ha H0); auto.
      rewrite Hch. cbn. by rewrite insert_insert_eq.
    + by eapply (queue_ok s s2 a x).
Qed.

(** The end of a connection. *)
Lemma cleanup_input_ok ses l s (Q : list Msg → State → Prop) :
  (∀ m, m ∈ l → is_Some (children s !! m_assoc_child m)) →
  (∀ gone kept, l ≡ₚ gone ++ kept →
     (∀ m, m ∈ gone → Session.id ses = Session.id (p_session (msg_package m))) →
     Q kept (set_children (forget (m_assoc_child <$> reverse gone) (children s)) s)) →
  tot (cleanup_input ses l) s Q.
Proof.
  revert s Q. induction l as [|m l IH]; intros s Q Hch HQ.
  - apply tot_ret. specialize (HQ [] [] (Permutation_refl _)). cbn in HQ. destruct s.
    apply HQ. intros m Hm. by apply not_elem_of_nil in Hm.
  - cbn [cleanup_input]. destruct (Z.eqb_spec (Session.id ses) (Session.id (p_session (msg_package m)))) as [Hid|].
    + destruct (Hch m) as [x Hx]; [by left|]. apply tot_bind, (tot_update _ _ x); [done|].
      apply IH.
      * intros m' Hm'. cbn. apply lookup_insert_is_Some'. right. apply Hch. by right.
      * intros gone kept Hl Hgone. specialize (HQ (m :: gone) kept). rewrite Hl in HQ.
        specialize (HQ (Permutation_refl _)). cbn.
        rewrite reverse_cons, fmap_app in HQ. unfold forget in HQ at 1.
        rewrite foldr_app in HQ. cbn in HQ.
        assert (Halt : alter (λ y, set_no_requests (m_no_requests y - 1) y) (m_assoc_child m)
          (children s) = <[m_assoc_child m := set_no_requests (m_no_requests x - 1) x]> (children s)).
        { apply map_eq. intros j. destruct (decide (j = m_assoc_child m)) as [->|Hne].
          - by rewrite lookup_alter_eq, lookup_insert_eq, Hx.
          - by rewrite lookup_alter_ne, lookup_insert_ne by done. }
        rewrite Halt in HQ. apply HQ. intros m' [->|Hm']%elem_of_cons; [done|by apply Hgone].
    + apply tot_bind. apply IH; [intros m' Hm'; apply Hch; by right|].
      intros gone kept Hl Hgone. apply tot_ret. apply HQ; [|done].
      rewrite Hl. by rewrite Permutation_middle.
Qed.
(** The packages taken out of the queue are the connection's own, so that no
    other connection's end gets lost. *)
Lemma gone_no_end s a x gone kept : sound s → children s !! a = Some x →
  m_input s ≡ₚ gone ++ kept →
  (∀ m, m ∈ gone → Session.id (m_session x) = Session.id (p_session (msg_package m))) →
  next_address s ≤ 2 ^ 64 → a ∉ ends s → ends_of gone = [].
Proof.
  intros Hs Ha Hl Hgone Hfew Hnot. apply ends_of_none. intros m Hm.
  assert (Hin : m ∈ m_input s) by (rewrite Hl; apply elem_of_app; by left).
  destruct (msg_child s m Hs) as [z Hz]; [apply elem_of_app; by left|].
  destruct (is_end m) eqn:He; [exfalso|done]. apply Hnot.
  assert (Hid : session_id a = session_id (m_assoc_child m)).
  { rewrite <-(proj2 (extra_session _ (proj2 Hs) a x Ha)), (Hgone m Hm).
    by apply (extra_input _ (proj2 Hs)). }
  apply (session_id_inj _ _ (next_address s)) in Hid; [|split|split|done].
  - rewrite Hid. apply (list_elem_of_fmap_2 m_assoc_child), list_elem_of_filter. split; [done|].
    rewrite !elem_of_app. by right; right.
  - apply (extra_session _ (proj2 Hs) a x Ha).
  - apply (safe_next _ (proj1 Hs)). by eexists.
  - apply (extra_session _ (proj2 Hs) _ z Hz).
  - apply (safe_next _ (proj1 Hs)). by eexists.
Qed.
Lemma fail_ok s a x : sound s → children s !! a = Some x →
  tot (failNotify a) s (λ _ s', step_ok s s').
Proof.
  intros Hs Ha. apply tot_bind, (tot_child _ x); [done|].
  pose proof (extra_session _ (proj2 Hs) a x Ha) as [_ Hid].
  destruct (Session.is_closed (m_session x)) eqn:Hc.
  - destruct (Z.eqb_spec (m_no_requests x) 0) as [H0|]; [|by apply tot_ret, step_ok_refl].
    apply tot_bind, (tot_child _ x); [done|]. apply tot_modify.
    apply step_ok_intro; [done| |].
    + apply (extra_same s); [done|apply kept_delete|by left|by left|apply Hs].
    + unfold view. cbn. apply vs_delete; [done| |done]. unfold is_open. by rewrite Hc.
  - cbn zeta. set (y := set_m_session _ _). apply tot_bind, tot_modify.
    apply tot_bind, tot_copy. intros r. apply tot_bind, tot_get. cbn [m_input set_children].
    apply tot_bind, cleanup_input_ok.
    { intros m Hm. cbn. apply lookup_insert_is_Some'. right.
      destruct (msg_child s m Hs) as [z Hz]; [apply elem_of_app; by left|by eexists]. }
    intros gone kept0 Hl Hgone. apply tot_bind, tot_modify, tot_modify.
    apply step_ok_intro; [done| |].
    + apply (extra_same s); [done| | |by left|apply Hs]; cbn.
      * by apply kept_forget, (kept_insert _ a x y).
      * intros m. rewrite elem_of_app, list_elem_of_singleton, Hl, elem_of_app.
        intros [Hm| ->]; [by left; right|by right].
    + unfold view. cbn. eapply (vs_end _ _ _ _ _ (m_assoc_child <$> reverse gone)
        (m_assoc_child <$> kept0 ++ m_busy s ++ m_output s)); try done.
      * unfold all_msgs. rewrite !fmap_app, Hl, fmap_app, fmap_reverse, reverse_Permutation.
        by rewrite <-app_assoc.
      * unfold all_msgs. cbn. rewrite !fmap_app. cbn. solve_Permutation.
      * intros Hfew Hnot. unfold ends. cbn. rewrite !ends_of_app, ends_of_one.
        rewrite (ends_of_perm _ _ Hl), ends_of_app, (gone_no_end s a x gone kept0) by done.
        unfold is_end, Session.id in *. cbn. rewrite Hid, Z.eqb_refl. by rewrite !app_assoc.
Qed.

Theorem exec_sound s e : sound s → polite s e → tot (exec e) s (λ _ s', step_ok s s').
Proof.
  intros Hs Hp. destruct e as [i peer|a z_pdu|a| |i p'|duration]; cbn [exec].
  - by apply sessionNotify_ok.
  - apply tot_bind, tot_get. destruct (children s !! a) as [x|] eqn:Ha;
      [by apply (recv_ok s a z_pdu x)|by apply tot_ret, step_ok_refl].
  - apply tot_bind, tot_get. destruct (children s !! a) as [x|] eqn:Ha;
      [by apply (fail_ok s a x)|by apply tot_ret, step_ok_refl].
  - by apply take_ok.
  - by apply handle_ok.
  - by apply deliver_ok.
Qed.

(** ** Whole runs *)
Fixpoint polite_run (es : list event) (s : State) : Prop :=
  match es with
  | [] => True
  | e :: es' => polite s e ∧ ∀ s', exec e s = Ok (tt, s') → polite_run es' s'
  end.
Definition politeb (s : State) (e : event) : bool :=
  match e with
  | Recv a (GDU_HTTP_Request _) =>
      match children s !! a with Some x => m_no_requests x =? 0 | None => true end
  | _ => true
  end.
Fixpoint polite_runb (es : list event) (s : State) : bool :=
  match es with
  | [] => true
  | e :: es' => politeb s e && match exec e s with
                              | Ok (_, s') => polite_runb es' s'
                              | _ => true
                              end
  end.
Lemma polite_runb_ok es s : polite_runb es s = true → polite_run es s.
Proof.
  revert s. induction es as [|e es IH]; intros s; cbn; [done|].
  intros [He Hes]%andb_true_iff. split.
  - unfold polite, politeb in *. destruct e as [| a [|hreq|]| | | |]; try done.
    intros x Hx. rewrite Hx in He. by apply Z.eqb_eq.
  - intros s' Hs'. rewrite Hs' in Hes. by apply IH.
Qed.
Record invariant (s : State) : Prop := {
  inv_sound : sound s;
  inv_counted : counted (view s);
  inv_closing : next_address s ≤ 2 ^ 64 → closing (view s)
}.
Lemma start_invariant : invariant start.
Proof.
  split.
  - split.
    + split; cbn; [intros a Ha; by apply not_elem_of_nil in Ha|done|].
      intros a [x Hx]. by rewrite lookup_empty in Hx.
    + split; cbn; try done; intros; try (by rewrite lookup_empty in * ).
      * by apply not_elem_of_nil in H.
      * by apply not_elem_of_nil in H.
  - split; cbn; [by split; constructor|intros; unfold number; by rewrite map_count_empty|].
    intros peer it _ _. unfold number. rewrite map_count_empty. lia.
  - intros _. split; cbn; [constructor|done|intros a Ha; by apply not_elem_of_nil in Ha|lia].
Qed.
Lemma run_invariant es s : invariant s → polite_run es s →
  ∃ s', run es s = Ok (tt, s') ∧ invariant s'.
Proof.
  revert s. induction es as [|e es IH]; intros s Hi Hp; [by exists s|].
  destruct Hp as [He Hes]. destruct (tot_elim _ _ _ (exec_sound s e (inv_sound _ Hi) He))
    as ([] & s1 & Hrun & Hs1 & Hstep). cbn [run]. erewrite bind_ok by exact Hrun.
  apply IH; [|by apply Hes]. destruct Hi as [[Hv _] Hc Hcl].
  split; [done|by eapply counted_step|]. intros Hfew. pose proof (next_step _ _ Hstep) as Hn.
  cbn in Hn. eapply closing_step; [done..|]. apply Hcl. lia.
Qed.

(** C23. No object is used after it was deleted: as long as no client sends an HTTP
    request before the one before is answered, every sequence of callbacks,
    threads and results runs without undefined behaviour; every package under
    way has a living connection, and every connection knows the number of its
    packages. *)
Theorem connections_live (es : list event) (Hpolite : polite_run es start) :
  ∃ s, run es start = Ok (tt, s) ∧
    (∀ m, m ∈ all_msgs s → is_Some (children s !! m_assoc_child m)) ∧
    (∀ a x, children s !! a = Some x →
       m_no_requests x = count a (m_assoc_child <$> all_msgs s)).
Proof.
  destruct (run_invariant es start start_invariant Hpolite) as (s & Hrun & [[Hs _] _ _]).
  exists s. split; [done|]. split.
  - intros m Hm. apply (safe_msgs _ Hs). by apply list_elem_of_fmap_2.
  - intros a x Hx. by apply (safe_count _ Hs).
Qed.

(** C36. The limit of connections: as long as no client sends an HTTP request
    before the one before is answered, the table of peers counts the connections
    that exist, and no peer has more than the first pattern of connect-total
    that matches it allows. Clients that do not wait run into
    [pipelined_use_after_free]. *)
Theorem peers_limited (es : list event) (s : State) (Hpolite : polite_run es start)
    (Hrun : run es start = Ok (tt, s)) (peer : string) :
  PeerStat.get peer (m_peerStat s) = number peer (children s) ∧
  ∀ it, first_match (connect_total c) peer = Some it → value it ≤ INT_MAX →
    number peer (children s) ≤ Z.max 0 (value it).
Proof.
  destruct (run_invariant es start start_invariant Hpolite) as (s' & Hrun' & [_ Hc _]).
  rewrite Hrun in Hrun'. injection Hrun' as <-.
  split; [apply (counted_get _ Hc)|apply (counted_limit _ Hc)].
Qed.

(** C24. The end of a connection is told to the route once, by a package that a
    worker sent down the route, holds, or finds in the queue, and that carries
    the closed session of the connection: as long as no client sends an HTTP
    request before the one before is answered, and session numbers do not wrap
    around, there is no more than one such package for a connection, none for
    those that are open, and one for each that is closed and still exists; and a
    connection that does not exist any more has one, or was dropped after a
    page of this filter was sent to it (the statistics, or the limit of
    requests). *)
Theorem ends_told_once (es : list event) (s : State) (Hpolite : polite_run es start)
    (Hrun : run es start = Ok (tt, s)) (Hfew : next_address s ≤ 2 ^ 64) :
  NoDup (ends s) ∧
  (∀ a x, children s !! a = Some x →
     Session.is_closed (m_session x) = false ↔ a ∉ ends s) ∧
  (∀ a, 0 ≤ a < next_address s → children s !! a = None →
     a ∈ ends s ∨ a ∈ h_dropped s ∧ ∃ hres, (a, GDU_HTTP_Response hres) ∈ m_sent s).
Proof.
  destruct (run_invariant es start start_invariant Hpolite) as (s' & Hrun' & [[_ Hx] _ Hc]).
  rewrite Hrun in Hrun'. injection Hrun' as <-. destruct (Hc Hfew) as [H1 H2 _ H4]. cbn in *.
  split_and!; [done|exact H2|]. intros a Ha Hnone.
  destruct (H4 a Ha) as [[x Hsome]|[H|H]]; [congruence|by left|right].
  split; [done|by apply (extra_dropped _ Hx)].
Qed.

(** Every request that comes back from the route is answered: with the
    response it carries, or, when the session is still open, with a Close for
    a Z39.50 request and an error page for an HTTP request; the connection has
    one package less, and YAZ++ is asked to close it when it was the last one
    and the session is closed or was not served. *)
Theorem requests_answered (s : State) (m : Msg) (x : Child) (duration : Z)
    (Hx : children s !! m_assoc_child m = Some x)
    (Hstats : length (m_duration_freq (stats s)) = 22%nat) :
  ∃ s' sent y, result m duration s = Ok (tt, s') ∧
    answered (msg_package m) sent ∧
    m_sent s' = m_sent s ++ (pair (m_assoc_child m) <$> sent) ∧
    children s' = <[m_assoc_child m := y]> (children s) ∧
    m_no_requests y = m_no_requests x - 1 ∧ m_session y = m_session x ∧
    close_requested y = close_requested x || bool_decide (m_no_requests x = 1) &&
      (is_closed (msg_package m) || bool_decide (p_response (msg_package m) = None)).
Proof.
  set (a := m_assoc_child m) in *. set (p := msg_package m).
  set (x1 := set_no_requests (m_no_requests x - 1) x).
  destruct (tot_elim (result m duration) s (λ _ s', ∃ sent y,
    answered p sent ∧ m_sent s' = m_sent s ++ (pair a <$> sent) ∧
    children s' = <[a := y]> (children s) ∧
    m_no_requests y = m_no_requests x - 1 ∧ m_session y = m_session x ∧
    close_requested y = close_requested x || bool_decide (m_no_requests x = 1) &&
      (is_closed p || bool_decide (p_response p = None))))
    as ([] & s' & Hrun & sent & y & H); [|by exists s', sent, y].
  unfold result. fold a p. apply tot_bind, (tot_update a _ x); [done|]. fold x1.
  set (s1 := set_children _ s).
  assert (Hx1 : children s1 !! a = Some x1) by apply lookup_insert_eq.
  apply tot_bind. eapply tot_mono; [by apply (answer_ok a duration p s1 x1 Hx1)|].
  cbn beta. intros p' s2 (sent & st & -> & _ & Hans & Hcl).
  apply tot_bind, (tot_child _ x1); [done|]. rewrite Hcl.
  assert (Hb : (m_no_requests x1 =? 0) = bool_decide (m_no_requests x = 1)).
  { cbn. apply Bool.eq_iff_eq_true. rewrite Z.eqb_eq, bool_decide_eq_true. lia. }
  rewrite Hb. destruct (bool_decide (m_no_requests x = 1) && _).
  - apply tot_modify. exists sent, (request_close x1). cbn.
    rewrite insert_insert_eq, orb_true_r. done.
  - apply tot_ret. exists sent, x1. cbn. rewrite orb_false_r. done.
Qed.
End net.

(** ** Examples *)

(** The connections of late as a list of peers; one connection for each peer
    at a time, the page of statistics at /fn_stat. *)
Definition example_conf (max_req : Z) : Conf :=
  set_conf_ports [mk_Port "@:9000" "" "" (Some 0)]
    (set_conf_strings "stat" "/fn_stat"
      (set_conf_patterns [] [] [mk_IP_Pattern "*" 1 1] [mk_IP_Pattern "*" 1 max_req] Conf_init)).
Definition example_total (peer : string) (l : list string) : Z :=
  Z.of_nat (length (filter (λ q, q = peer) l)).
Definition example_package : Package unit :=
  mk_Package (Session.mk 0 false) Origin.create (Some tt) None None.
Definition example_get (path : string) : GDU :=
  GDU_HTTP_Request {| hq_method := "GET"; hq_version := "1.1"; hq_path := path;
                      hq_headers := []; hq_content := "" |}.
Definition example_search : GDU :=
  GDU_Z3950 (searchRequest (zget_searchRequest (Yaz := ref_yaz))).
Definition example_run (max_req : Z) : list (event (R := unit)) → M State unit :=
  run (Y := ref_yaz) id example_total (λ peer l, peer :: l) (example_conf max_req)
    example_package (λ _, (0, 5)) (λ _ _, "") "" "".
Definition example_start (max_req : Z) : State (R := unit) (LimitConnect := list string) :=
  start [] (example_conf max_req).
(** A package of the first session that comes back from the route. *)
Definition example_back (request response : option GDU) (closed : bool) : Package unit :=
  mk_Package (Session.mk 1 closed) Origin.create (Some tt) request response.

(** A client is served, asks for the page of statistics and is gone; another
    one is refused while it is there, and comes back later; the end of its
    session is told to the route. *)
Definition example_events : list (event (R := unit)) :=
  [Accept 0 (Some "tcp:h1"); Accept 0 (Some "tcp:h1"); Recv 0 example_search; Take;
   Handle 0 (example_back (Some example_search) None false); Deliver 7;
   Recv 0 (example_get "/x"); Take;
   Handle 0 (example_back (Some (example_get "/x")) (Some example_search) false); Deliver 15;
   Recv 0 (example_get "/fn_stat"); Accept 0 (Some "tcp:h1");
   Recv 1 example_search; Fail 1; Take; Handle 0 (example_back None None true);
   Deliver 3].
Definition example_polite (es : list (event (R := unit))) : bool :=
  polite_runb (Y := ref_yaz) id example_total (λ peer l, peer :: l) (example_conf 2)
    example_package (λ _, (0, 5)) (λ _ _, "") "" "" es (example_start 2).
Definition example_end : option (State (R := unit) (LimitConnect := list string)) :=
  match example_run 2 example_events (example_start 2) with Ok (_, s) => Some s | _ => None end.
Lemma example_ends :
  (λ s, (map_to_list (m_no_requests <$> children s), m_peerStat s, ends s, h_dropped s)) <$>
    example_end = Some ([(1, 0)], [PeerStat.mk_Item "h1" 1], [1], [0]).
Proof. vm_compute. reflexivity. Qed.

(** Two requests at once where one is allowed: the second one is refused and
    the connection deleted, while the first one is still in the queue; the
    worker that takes it follows a pointer to nothing. *)
Lemma pipelined_use_after_free :
  example_run 1 [Accept 0 (Some "tcp:h1"); Recv 0 (example_get "/x");
    Recv 0 (example_get "/y"); Take; Handle 0 example_package] (example_start 1) =
  Undef UseAfterFree.
Proof. vm_compute. reflexivity. Qed.

Lemma connections_live_witness :
  ∃ s, example_run 2 example_events (example_start 2) = Ok (tt, s) ∧
    ∀ m, m ∈ all_msgs s → is_Some (children s !! m_assoc_child m).
Proof.
  destruct (connections_live (Y := ref_yaz) [] id example_total (λ peer l, peer :: l)
    (example_conf 2) example_package (λ _, (0, 5)) (λ _ _, "") "" "" (ex_intro _ tt eq_refl)
    example_events) as (s & Hrun & Hm & _).
  - apply polite_runb_ok. vm_compute. reflexivity.
  - exists s. split; [exact Hrun|exact Hm].
Defined.
Lemma peers_limited_witness :
  ∃ s, example_run 2 example_events (example_start 2) = Ok (tt, s) ∧
    number "h1" (children s) ≤ 1.
Proof.
  eexists. split; [vm_compute; reflexivity|].
  refine (proj2 (peers_limited (Y := ref_yaz) [] id example_total (λ peer l, peer :: l)
    (example_conf 2) example_package (λ _, (0, 5)) (λ _ _, "") "" "" (ex_intro _ tt eq_refl)
    example_events _ _ _ "h1") (mk_IP_Pattern "*" 1 1) _ _).
  - apply polite_runb_ok. vm_compute. reflexivity.
  - vm_compute. reflexivity.
  - reflexivity.
  - vm_compute. discriminate.
Defined.
Lemma ends_told_once_witness :
  ∃ s, example_run 2 example_events (example_start 2) = Ok (tt, s) ∧
    (m_input s, m_busy s, length (h_routed s)) = ([], [], 3%nat) ∧
    children s !! 0 = None ∧ children s !! 1 ≠ None ∧
    (0 ∈ ends s ∨ 0 ∈ h_dropped s ∧ ∃ hres, (0, GDU_HTTP_Response hres) ∈ m_sent s) ∧
    1 ∈ ends s.
Proof.
  eexists. split; [vm_compute; reflexivity|].
  edestruct (ends_told_once (Y := ref_yaz) [] id example_total (λ peer l, peer :: l)
    (example_conf 2) example_package (λ _, (0, 5)) (λ _ _, "") "" "" (ex_intro _ tt eq_refl)
    example_events) as (_ & Hclosed & Hgone);
    [apply polite_runb_ok; vm_compute; reflexivity|vm_compute; reflexivity
    |vm_compute; discriminate|].
  split_and!; [reflexivity|reflexivity|discriminate| |].
  - apply Hgone; [|reflexivity]. vm_compute. split; [discriminate|reflexivity].
  - match goal with |- ?P => destruct (decide P) as [H|H] end; [exact H|exfalso].
    apply (proj2 (Hclosed 1 _ eq_refl)) in H. vm_compute in H. discriminate H.
Defined.
Definition example_state (n : nat) : State (R := unit) (LimitConnect := list string) :=
  match example_run 2 (firstn n example_events) (example_start 2) with
  | Ok (_, s) => s
  | _ => example_start 2
  end.
Lemma requests_answered_witness :
  ∃ s' sent, children (example_state 5) !! 0 ≠ None ∧
    result (Y := ref_yaz) (mk_Msg 0 (example_back (Some example_search) None false)) 7
      (example_state 5) = Ok (tt, s') ∧
    m_sent s' = m_sent (example_state 5) ++ (pair 0 <$> sent) ∧ length sent = 1%nat.
Proof.
  destruct (requests_answered (Y := ref_yaz) (example_state 5)
    (mk_Msg 0 (example_back (Some example_search) None false))
    (mk_Child 1 0 (Session.mk 1 false) (Origin.mk "h1 @:9000" 1 0 "") "h1" 300 false) 7)
    as (s' & sent & y & Hrun & (g & Hg & _) & Hsent & _).
  - vm_compute. reflexivity.
  - vm_compute. reflexivity.
  - exists s', sent. split; [vm_compute; discriminate|].
    split; [exact Hrun|]. split; [exact Hsent|by rewrite Hg].
Defined.
End FrontendNet.
