(* ===== verification/UrlRecipe.v ===== *)
(** * URL recipes

    [src/url_recipe.cpp]: a recipe is a text with variables, [${name}] or
    [%{name}], where the text of the metadata element of that type is put in;
    a variable may have a pattern that edits the text first,
    [${name[pattern/replacement/mode]}]. Boost's regular expressions and
    YAZ's encoding of URIs are parameters. *)
From S2P Require Import Prelude Xml.

Module UrlRecipe.

(** ** The scanner *)

(** The parts of a variable. *)
Record Spec : Type := mk_Spec {
  variable : string;
  pattern : string;
  replacement : string;
  mode : string
}.
Definition Spec_init : Spec := mk_Spec "" "" "" "".
Definition char_str (c : ascii) : string := String c "".
Definition add_variable (c : ascii) (v : Spec) : Spec :=
  mk_Spec (variable v +:+ char_str c) (pattern v) (replacement v) (mode v).
Definition add_pattern (c : ascii) (v : Spec) : Spec :=
  mk_Spec (variable v) (pattern v +:+ char_str c) (replacement v) (mode v).
Definition add_replacement (c : ascii) (v : Spec) : Spec :=
  mk_Spec (variable v) (pattern v) (replacement v +:+ char_str c) (mode v).
Definition add_mode (c : ascii) (v : Spec) : Spec :=
  mk_Spec (variable v) (pattern v) (replacement v) (mode v +:+ char_str c).

(** One character, unless it ends the variable: the step after it (0 variable,
    1 pattern, 2 replacement, 3 mode, 4 after the mode). *)
Definition spec_char (c check : ascii) (step : nat) (v : Spec) : nat * Spec :=
  match step with
  | O => if decide (check = "["%char) then (1%nat, v) else (O, add_variable c v)
  | _ =>
      if decide (check = "]"%char) then (4%nat, v)
      else match step with
           | 1%nat => if decide (check = "/"%char) then (2%nat, v)
                      else (1%nat, add_pattern c v)
           | 2%nat => if decide (check = "/"%char) then (3%nat, v)
                      else (2%nat, add_replacement c v)
           | 3%nat => (3%nat, add_mode c v)
           | _ => (step, v)
           end
  end.
(** The inner loop; what is left of the recipe. After a backslash a character
    has no meaning of its own. *)
Fixpoint parse_spec (s : string) (step : nat) (c_prev : ascii) (v : Spec) : Spec * string :=
  match s with
  | EmptyString => (v, EmptyString)
  | String c s' =>
      let check := if decide (c_prev = "\"%char) then NUL else c in
      if decide (check = "}"%char) then (v, s')
      else let '(step, v) := spec_char c check step v in parse_spec s' step c v
  end.

(** ** Evaluation *)
Section recipe.
(** [regex_replace] with a pattern, icase, the text, the replacement, and
    [format_all] instead of [format_first_only]; a bad pattern throws. *)
Context (regex_replace : string → bool → string → string → bool → outcome string).
Context (yaz_encode_uri_component : string → string).

(** [find_first_of] of a set of characters, at the start of [s]. *)
Definition has_char (c : ascii) (s : string) : bool :=
  match find_char c s with Some _ => true | None => false end.
Definition starts_with_one_of (set s : string) : bool :=
  match s with String c _ => has_char c set | EmptyString => false end.
(** [variable.c_str() + offset]. *)
Definition metadata_type (v : string) : outcome string :=
  if starts_with_one_of "md-" v then
    if decide (String.length v < 3)%nat then Undef OutOfBounds else Ok (str_drop 3 v)
  else Ok v.
(** Whether one of the attributes is the type that is looked for. *)
Fixpoint has_type (l : list xmlAttr) (v : string) : outcome bool :=
  match l with
  | [] => Ok false
  | a :: l' =>
      if decide (a_name a = "type") then
        match a_children a with
        | [] => has_type l' v
        | t :: _ =>
            m ← metadata_type v;
            if decide (n_content t = c_str m) then Ok true else has_type l' v
        end
      else has_type l' v
  end.
(** The elements from [ptr] on; the last one of the type counts. *)
Fixpoint lookup_metadata (ptr : list xmlNode) (v text : string) : outcome string :=
  match ptr with
  | [] => Ok text
  | n :: ptr' =>
      if decide (n_type n = XML_ELEMENT_NODE ∧ n_name n = "metadata") then
        b ← has_type (n_properties n) v;
        lookup_metadata ptr' v (if (b : bool) then mp_xml.get_text [n] else text)
      else lookup_metadata ptr' v text
  end.
(** Each character of the text on its own. *)
Fixpoint encode_chars (s : string) : string :=
  match s with
  | EmptyString => EmptyString
  | String c s' => yaz_encode_uri_component (c_str (char_str c)) +:+ encode_chars s'
  end.
Definition expand (ptr1 : list xmlNode) (uri_encode : bool) (v : Spec) : outcome string :=
  if decide (variable v = "") then Ok ""
  else
    text ← lookup_metadata ptr1 (variable v) "";
    text ← (if decide (pattern v = "") then Ok text
            else regex_replace (pattern v) (has_char "i" (mode v)) text (replacement v)
                   (has_char "g" (mode v)));
    Ok (if uri_encode then encode_chars text else text).

(** The outer loop: every turn takes up a character at least. *)
Fixpoint handle_loop (fuel : nat) (ptr1 : list xmlNode) (recipe : string) : outcome string :=
  match fuel, recipe with
  | _, EmptyString => Ok EmptyString
  | O, _ => OutOfFuel
  | S fuel', String c s =>
      match (match s with
             | String "{" s' =>
                 if decide (c = "%"%char) then Some (true, s')
                 else if decide (c = "$"%char) then Some (false, s') else None
             | _ => None
             end) with
      | Some (uri_encode, s') =>
          let '(v, s'') := parse_spec s' O NUL Spec_init in
          text ← expand ptr1 uri_encode v;
          rest ← handle_loop fuel' ptr1 s'';
          Ok (text +:+ rest)
      | None =>
          rest ← handle_loop fuel' ptr1 s;
          Ok (String c rest)
      end
  end.
(** The children of the first element from the root on. *)
Fixpoint root_children (root : list xmlNode) : list xmlNode :=
  match root with
  | [] => []
  | n :: l => if decide (n_type n = XML_ELEMENT_NODE) then n_children n else root_children l
  end.
Definition url_recipe_handle (root : list xmlNode) (recipe : string) : outcome string :=
  handle_loop (String.length recipe) (root_children root) recipe.

(** ** The scanner ends *)
Lemma parse_spec_shorter s step p v :
  (String.length (parse_spec s step p v).2 ≤ String.length s)%nat.
Proof.
  revert step p v. induction s as [|c s IH]; intros step p v; cbn [parse_spec]; [done|].
  cbn zeta. destruct (decide (_ = "}"%char)); cbn [snd String.length]; [lia|].
  destruct (spec_char _ _ _ _) as [step' v']. specialize (IH step' c v'). lia.
Qed.
Lemma metadata_type_no_fuel v : no_fuel (metadata_type v).
Proof. unfold metadata_type. by repeat case_match. Qed.
Lemma has_type_no_fuel l v : no_fuel (has_type l v).
Proof.
  induction l as [|a l IH]; cbn; [done|]. case_decide; [|done].
  destruct (a_children a); [done|]. apply no_fuel_bind; [apply metadata_type_no_fuel|].
  intros m _. by case_decide.
Qed.
Lemma lookup_no_fuel ptr v text : no_fuel (lookup_metadata ptr v text).
Proof.
  revert text. induction ptr as [|n ptr IH]; intros text; cbn; [done|].
  case_decide; [|done]. apply no_fuel_bind; [apply has_type_no_fuel|done].
Qed.
Lemma expand_no_fuel ptr e v :
  (∀ p i t r g, no_fuel (regex_replace p i t r g)) → no_fuel (expand ptr e v).
Proof.
  intros Hre. unfold expand. case_decide; [done|].
  apply no_fuel_bind; [apply lookup_no_fuel|]. intros t _.
  apply no_fuel_bind; [by case_decide|done].
Qed.
Lemma handle_loop_no_fuel fuel ptr s :
  (∀ p i t r g, no_fuel (regex_replace p i t r g)) →
  (String.length s ≤ fuel)%nat → no_fuel (handle_loop fuel ptr s).
Proof.
  intros Hre. revert s. induction fuel as [|fuel IH]; intros s Hs.
  { by destruct s; [|cbn in Hs; lia]. }
  destruct s as [|c s]; [done|]. cbn [handle_loop]. cbn in Hs.
  destruct (match s with String "{" s' => _ | _ => None end) as [[e s']|] eqn:Hopen.
  - assert (Hs' : (String.length s' < String.length s)%nat).
    { repeat case_match; simplify_eq; cbn; lia. }
    pose proof (parse_spec_shorter s' O NUL Spec_init) as Hp.
    destruct (parse_spec s' O NUL Spec_init) as [v s'']. cbn in Hp.
    apply no_fuel_bind; [by apply expand_no_fuel|]. intros t _.
    apply no_fuel_bind; [apply IH; lia|done].
  - apply no_fuel_bind; [apply IH; lia|done].
Qed.
End recipe.

(** ** Recipes as lists of pieces *)
Inductive piece : Type :=
  | Lit (c : ascii)
  | Var (uri_encode : bool) (v : Spec).
Definition print_spec (v : Spec) : string :=
  variable v +:+
  (if decide (pattern v = "") then ""
   else "[" +:+ pattern v +:+ "/" +:+ replacement v +:+ "/" +:+ mode v +:+ "]") +:+ "}".
Definition print_piece (p : piece) : string :=
  match p with
  | Lit c => char_str c
  | Var e v => (if e then "%{" else "${") +:+ print_spec v
  end.
Definition print_recipe (ps : list piece) : string := foldr (λ p s, print_piece p +:+ s) "" ps.

(** None of the characters of [set] in [s]. *)
Fixpoint avoids (set s : string) : Prop :=
  match s with
  | EmptyString => True
  | String c s' => has_char c set = false ∧ avoids set s'
  end.
(** The metadata that a variable names: [md-] in front of the name may be left
    out, unless the name starts with one of these three characters. *)
Definition field_name (v : string) : string :=
  if String.prefix "md-" v then str_drop 3 v else v.
Definition named (v : string) : Prop :=
  String.prefix "md-" v = true ∨
  match v with String c _ => c ∉ ["m"%char; "d"%char; "-"%char] | EmptyString => True end.
(** What can be written without a backslash. *)
Record plain (v : Spec) : Prop := {
  plain_named : named (variable v);
  plain_variable : avoids "}[\" (variable v);
  plain_pattern : avoids "}]/\" (pattern v);
  plain_replacement : avoids "}]/\" (replacement v);
  plain_mode : avoids "}]\" (mode v);
  plain_none : pattern v = "" → replacement v = "" ∧ mode v = ""
}.
(** A percent sign or a dollar sign is not followed by a brace. *)
Fixpoint well_formed (ps : list piece) : Prop :=
  match ps with
  | [] => True
  | Lit c :: ps' =>
      (match ps' with
       | Lit "{" :: _ => c ≠ "%"%char ∧ c ≠ "$"%char
       | _ => True
       end) ∧ well_formed ps'
  | Var _ v :: ps' => plain v ∧ well_formed ps'
  end.
Section pieces.
Context (regex_replace : string → bool → string → string → bool → outcome string).
Context (yaz_encode_uri_component : string → string).
Fixpoint eval_recipe (ptr1 : list xmlNode) (ps : list piece) : outcome string :=
  match ps with
  | [] => Ok ""
  | Lit c :: ps' => rest ← eval_recipe ptr1 ps'; Ok (String c rest)
  | Var e v :: ps' =>
      text ← expand regex_replace yaz_encode_uri_component ptr1 e v;
      rest ← eval_recipe ptr1 ps';
      Ok (text +:+ rest)
  end.

Lemma parse_spec_prev s step p v : p ≠ "\"%char → parse_spec s step p v = parse_spec s step NUL v.
Proof.
  intros Hp. destruct s; [done|]. cbn [parse_spec].
  rewrite (decide_False (P := p = "\"%char)) by done. reflexivity.
Qed.
(** [x] goes to the part that [add] adds to. *)
Lemma parse_run (set : string) (step : nat) (add : ascii → Spec → Spec)
    (field : Spec → string → Spec) x rest v :
  (∀ c v, has_char c set = false → c ≠ "}"%char ∧ c ≠ "\"%char ∧
     spec_char c c step v = (step, add c v)) →
  (∀ v, field v "" = v) → (∀ c x v, field (add c v) x = field v (String c x)) →
  avoids set x → parse_spec (x +:+ rest) step NUL v = parse_spec rest step NUL (field v x).
Proof.
  intros Hchar Hnil Hcons. revert v. induction x as [|c x IH]; intros v Hx.
  { by rewrite Hnil. }
  destruct Hx as [Hc Hx]. destruct (Hchar c v Hc) as (Hb & Hs & Hadd).
  rewrite str_app_cons. cbn [parse_spec]. cbn zeta.
  rewrite (decide_False (P := NUL = "\"%char)) by done. rewrite decide_False by done.
  rewrite Hadd, parse_spec_prev by done. rewrite IH by done. by rewrite Hcons.
Qed.
Lemma avoid_char c s :
  has_char c s = false ↔ match s with String d s' => c ≠ d ∧ has_char c s' = false | _ => True end.
Proof.
  destruct s as [|d s]; [done|]. unfold has_char. cbn. case_decide.
  - split; [done|]. intros [H' _]. congruence.
  - destruct (find_char c s); cbn; naive_solver.
Qed.
Ltac chars H :=
  repeat (apply avoid_char in H as [? H]); unfold spec_char;
  rewrite ?decide_False by congruence; split_and!; congruence.
Definition with_variable (v : Spec) (x : string) : Spec :=
  mk_Spec (variable v +:+ x) (pattern v) (replacement v) (mode v).
Definition with_pattern (v : Spec) (x : string) : Spec :=
  mk_Spec (variable v) (pattern v +:+ x) (replacement v) (mode v).
Definition with_replacement (v : Spec) (x : string) : Spec :=
  mk_Spec (variable v) (pattern v) (replacement v +:+ x) (mode v).
Definition with_mode (v : Spec) (x : string) : Spec :=
  mk_Spec (variable v) (pattern v) (replacement v) (mode v +:+ x).
Ltac run_laws :=
  first [ let H := fresh in intros ? ? H; chars H
        | intros []; unfold with_variable, with_pattern, with_replacement, with_mode; cbn;
          by rewrite str_app_nil_r
        | intros ? ? []; cbn; unfold with_variable, with_pattern, with_replacement, with_mode,
            char_str; cbn; by rewrite <-str_app_assoc ].
Lemma parse_print_spec v rest : plain v → parse_spec (print_spec v +:+ rest) O NUL Spec_init = (v, rest).
Proof.
  intros [_ Hv Hp Hr Hm Hnone]. unfold print_spec. rewrite <-str_app_assoc.
  rewrite (parse_run "}[\" O add_variable with_variable _ _ _) by (run_laws || exact Hv).
  destruct (decide (pattern v = "")) as [He|He].
  - destruct (Hnone He) as [H1 H2]. cbn. destruct v. cbn in *. by subst.
  - rewrite <-!str_app_assoc. cbn [String.append]. rewrite !str_app_cons, !str_app_nil_l.
    change (parse_spec (String "[" ?s) 0 NUL ?w) with (parse_spec s 1 "["%char w).
    rewrite parse_spec_prev by done.
    rewrite (parse_run "}]/\" 1 add_pattern with_pattern _ _ _) by (run_laws || exact Hp).
    change (parse_spec (String "/" ?s) 1 NUL ?w) with (parse_spec s 2 "/"%char w).
    rewrite parse_spec_prev by done.
    rewrite (parse_run "}]/\" 2 add_replacement with_replacement _ _ _) by (run_laws || exact Hr).
    change (parse_spec (String "/" ?s) 2 NUL ?w) with (parse_spec s 3 "/"%char w).
    rewrite parse_spec_prev by done.
    rewrite (parse_run "}]\" 3 add_mode with_mode _ _ _) by (run_laws || exact Hm).
    cbn. by destruct v.
Qed.

(** The pieces are read one by one. *)
Lemma recipe_pieces (root : list xmlNode) (ps : list piece) (Hps : well_formed ps) :
  url_recipe_handle regex_replace yaz_encode_uri_component root (print_recipe ps) =
  eval_recipe (root_children root) ps.
Proof.
  unfold url_recipe_handle. set (ptr := root_children root). clearbody ptr.
  assert (Hf : (String.length (print_recipe ps) ≤ String.length (print_recipe ps))%nat) by done.
  revert Hf. generalize (String.length (print_recipe ps)) at 2 3 as fuel.
  induction ps as [|[c|e v] ps IH]; intros fuel Hf; [by destruct fuel|..].
  - destruct Hps as [Hc Hps]. cbn [print_recipe foldr print_piece] in *.
    fold (print_recipe ps) in *. unfold char_str in *.
    rewrite str_app_cons, str_app_nil_l in *. destruct fuel as [|fuel]; [cbn in Hf; lia|].
    cbn [handle_loop eval_recipe]. cbn in Hf.
    assert (Hnone : (match print_recipe ps with
      | String "{" s' => if decide (c = "%"%char) then Some (true, s')
                         else if decide (c = "$"%char) then Some (false, s') else None
      | _ => None end) = None).
    { destruct ps as [|[d|[] v] ps]; [done| |done|done].
      cbn [print_recipe foldr print_piece char_str]. unfold char_str. rewrite str_app_cons.
      repeat case_match; try done; simplify_eq; cbn in Hc; naive_solver. }
    rewrite Hnone. rewrite IH by (done || lia). done.
  - destruct Hps as [Hv Hps]. cbn [print_recipe foldr print_piece eval_recipe] in *.
    fold (print_recipe ps) in *. rewrite <-str_app_assoc in *.
    pose proof (parse_print_spec v (print_recipe ps) Hv) as Hparse.
    destruct fuel as [|fuel].
    { rewrite str_app_length in Hf. destruct e; cbn in Hf; lia. }
    assert (Hlen : (String.length (print_recipe ps) ≤ fuel)%nat).
    { rewrite !str_app_length in Hf. destruct e; cbn in Hf; lia. }
    specialize (IH Hps fuel Hlen). destruct e; rewrite !str_app_cons, str_app_nil_l; cbn [handle_loop].
    + rewrite decide_True by done.
      by rewrite Hparse, IH.
    + rewrite decide_False, decide_True by done. by rewrite Hparse, IH.
Qed.

(** *** What a recipe stands for *)

(** A metadata element of a type. *)
Definition is_metadata (name : string) (n : xmlNode) : Prop :=
  n_type n = XML_ELEMENT_NODE ∧ n_name n = "metadata" ∧
  ∃ a t l, a ∈ n_properties n ∧ a_name a = "type" ∧ a_children a = t :: l ∧
    n_content t = c_str name.
(** The text of the last element of the type; no text if there is none. *)
Inductive metadata_text (ptr : list xmlNode) (name : string) : string → Prop :=
  | text_found l1 n l2 :
      ptr = l1 ++ n :: l2 → is_metadata name n → (∀ n', n' ∈ l2 → ¬ is_metadata name n') →
      metadata_text ptr name (mp_xml.get_text [n])
  | text_none : (∀ n, n ∈ ptr → ¬ is_metadata name n) → metadata_text ptr name "".
(** The text as it is, or with each of its characters encoded. *)
Definition coded (uri_encode : bool) (text : string) : string :=
  if uri_encode then
    foldr (λ c s, yaz_encode_uri_component (c_str (String c "")) +:+ s) "" (list_ascii_of_string text)
  else text.
Definition flag (c : ascii) (v : Spec) : bool := bool_decide (c ∈ list_ascii_of_string (mode v)).
Inductive value (ptr : list xmlNode) (e : bool) (v : Spec) : outcome string → Prop :=
  | value_empty : variable v = "" → value ptr e v (Ok "")
  | value_text text :
      variable v ≠ "" → metadata_text ptr (field_name (variable v)) text → pattern v = "" →
      value ptr e v (Ok (coded e text))
  | value_edited text text' :
      variable v ≠ "" → metadata_text ptr (field_name (variable v)) text → pattern v ≠ "" →
      regex_replace (pattern v) (flag "i" v) text (replacement v) (flag "g" v) = Ok text' →
      value ptr e v (Ok (coded e text'))
  | value_fails text o :
      variable v ≠ "" → metadata_text ptr (field_name (variable v)) text → pattern v ≠ "" →
      regex_replace (pattern v) (flag "i" v) text (replacement v) (flag "g" v) = o →
      (∀ text', o ≠ Ok text') → value ptr e v o.
Inductive recipe_value (ptr : list xmlNode) : list piece → outcome string → Prop :=
  | recipe_end : recipe_value ptr [] (Ok "")
  | recipe_lit c ps o :
      recipe_value ptr ps o → recipe_value ptr (Lit c :: ps) (s ← o; Ok (String c s))
  | recipe_var e v ps text o :
      value ptr e v (Ok text) → recipe_value ptr ps o →
      recipe_value ptr (Var e v :: ps) (s ← o; Ok (text +:+ s))
  | recipe_fails e v ps o :
      value ptr e v o → (∀ text, o ≠ Ok text) → recipe_value ptr (Var e v :: ps) o.

Lemma metadata_type_named v : v ≠ "" → named v → metadata_type v = Ok (field_name v).
Proof.
  unfold metadata_type, field_name, named, starts_with_one_of.
  destruct v as [|c v]; [done|]. intros _ [Hp|Hc].
  - rewrite Hp. cbn [String.prefix] in Hp. destruct (ascii_dec "m" c) as [<-|]; [|done].
    destruct v as [|c2 v]; [done|]. cbn [String.prefix] in Hp.
    destruct (ascii_dec "d" c2) as [<-|]; [|done].
    destruct v as [|c3 v]; [done|]. cbn [String.prefix] in Hp.
    destruct (ascii_dec "-" c3) as [<-|]; [|done]. cbn. by rewrite decide_False by lia.
  - assert (Hset : has_char c "md-" = false).
    { unfold has_char. cbn. repeat case_decide; try done; subst; exfalso; apply Hc;
        rewrite !elem_of_cons; auto. }
    rewrite Hset. cbn [String.prefix]. destruct (ascii_dec "m" c) as [<-|]; [|done].
    exfalso. apply Hc. by left.
Qed.
Lemma has_type_spec l v m : metadata_type v = Ok m →
  ∃ b, has_type l v = Ok b ∧ (b = true ↔ ∃ a t l', a ∈ l ∧ a_name a = "type" ∧
    a_children a = t :: l' ∧ n_content t = c_str m).
Proof.
  intros Hm. induction l as [|a l (b & Hb & IH)]; cbn [has_type].
  { exists false. split; [done|]. split; [done|]. intros (a & t & l' & Ha & _).
    by apply not_elem_of_nil in Ha. }
  assert (Hskip : (∀ t l', a_name a = "type" → a_children a = t :: l' → n_content t ≠ c_str m) →
    b = true ↔ ∃ a' t l', a' ∈ a :: l ∧ a_name a' = "type" ∧ a_children a' = t :: l' ∧
      n_content t = c_str m).
  { intros Hne. rewrite IH. split.
    - intros (a' & t & l' & Ha & H'). exists a', t, l'. split; [by right|done].
    - intros (a' & t & l' & [->|Ha]%elem_of_cons & H1 & H2 & H3);
        [by destruct (Hne t l' H1 H2)|by exists a', t, l']. }
  destruct (decide (a_name a = "type")) as [Hn|Hn]; [|exists b; split; [done|by apply Hskip]].
  destruct (a_children a) as [|t l'] eqn:Hc; [exists b; split; [done|by apply Hskip]|].
  rewrite Hm. cbn. destruct (decide (n_content t = c_str m)) as [Ht|Ht].
  - exists true. split; [done|]. split; [|done]. intros _. exists a, t, l'. by split; [left|].
  - exists b. split; [done|]. apply Hskip. congruence.
Qed.
(** The loop over the elements, with the text found before them. *)
Lemma lookup_metadata_spec ptr v m text : metadata_type v = Ok m →
  ∃ text', lookup_metadata ptr v text = Ok text' ∧
    ((∀ n, n ∈ ptr → ¬ is_metadata m n) ∧ text' = text ∨ metadata_text ptr m text' ∧
     ∃ n, n ∈ ptr ∧ is_metadata m n).
Proof.
  intros Hm. revert text. induction ptr as [|n ptr IH]; intros text; cbn [lookup_metadata].
  { exists text. split; [done|]. left. split; [|done]. intros n Hn. by apply not_elem_of_nil in Hn. }
  assert (Hcase : ∀ b text1, (b = true ↔ is_metadata m n) →
    text1 = (if b then mp_xml.get_text [n] else text) →
    ∃ text', lookup_metadata ptr v text1 = Ok text' ∧
      ((∀ n', n' ∈ n :: ptr → ¬ is_metadata m n') ∧ text' = text ∨
       metadata_text (n :: ptr) m text' ∧ ∃ n', n' ∈ n :: ptr ∧ is_metadata m n')).
  { intros b text1 Hb Htext1. destruct (IH text1) as (text' & Hl & [[Hnone ->]|[Hfound Hex]]).
    - exists text1. split; [done|]. destruct b.
      + right. pose proof (proj1 Hb eq_refl) as Hmeta. rewrite Htext1.
        split; [by apply (text_found _ _ [] n ptr)|]. exists n. by split; [left|].
      + left. split; [|done]. intros n' [->|Hn']%elem_of_cons; [|by apply Hnone].
        intros H%Hb. done.
    - exists text'. split; [done|]. right. split.
      + destruct Hfound as [l1 n1 l2 -> H1 H2|Hno].
        * by apply (text_found _ _ (n :: l1) n1 l2).
        * destruct Hex as (n' & Hn' & Hmeta). by destruct (Hno n').
      + destruct Hex as (n' & Hn' & Hmeta). exists n'. by split; [right|]. }
  destruct (decide (n_type n = XML_ELEMENT_NODE ∧ n_name n = "metadata")) as [[H1 H2]|Hne].
  - destruct (has_type_spec (n_properties n) v m Hm) as (b & Hb & Hspec). rewrite Hb. cbn.
    apply (Hcase b); [|done]. rewrite Hspec. unfold is_metadata. naive_solver.
  - apply (Hcase false); [|done]. split; [done|]. unfold is_metadata. naive_solver.
Qed.
Lemma has_char_spec c s : has_char c s = bool_decide (c ∈ list_ascii_of_string s).
Proof.
  induction s as [|d s IH]; [done|]. cbn [list_ascii_of_string].
  apply Bool.eq_iff_eq_true. rewrite bool_decide_eq_true, elem_of_cons.
  destruct (has_char c (String d s)) eqn:H.
  - split; [|done]. intros _. destruct (decide (c = d)) as [->|Hne]; [by left|right].
    destruct (has_char c s) eqn:Hs; [symmetry in IH; by apply bool_decide_eq_true in IH|].
    by rewrite (proj2 (avoid_char c (String d s)) (conj Hne Hs)) in H.
  - apply avoid_char in H as [H1 H2]. rewrite IH in H2. apply bool_decide_eq_false in H2.
    naive_solver.
Qed.
Lemma encode_coded text : encode_chars yaz_encode_uri_component text = coded true text.
Proof. induction text as [|c text IH]; [done|]. cbn [encode_chars]. by rewrite IH. Qed.
Lemma expand_value ptr e v : plain v →
  value ptr e v (expand regex_replace yaz_encode_uri_component ptr e v).
Proof.
  intros Hplain. unfold expand. case_decide as Hv; [by apply value_empty|].
  pose proof (metadata_type_named _ Hv (plain_named _ Hplain)) as Hm.
  destruct (lookup_metadata_spec ptr (variable v) _ "" Hm) as (text & -> & Htext). cbn.
  assert (Hmt : metadata_text ptr (field_name (variable v)) text).
  { destruct Htext as [[Hno ->]|[H _]]; [by apply text_none|done]. }
  assert (Hcode : ∀ t, (if e then encode_chars yaz_encode_uri_component t else t) = coded e t).
  { intros t. destruct e; [apply encode_coded|done]. }
  destruct (decide (pattern v = "")) as [Hp|Hp].
  { cbn. rewrite Hcode. by apply value_text. }
  rewrite !has_char_spec. fold (flag "i" v) (flag "g" v).
  destruct (regex_replace (pattern v) (flag "i" v) text (replacement v) (flag "g" v))
    as [text'|err|u|] eqn:Hre; cbn; [rewrite Hcode; by eapply value_edited|..];
    by eapply value_fails.
Qed.
(** C38. A recipe that is written piece by piece stands for its pieces: literal
    characters are copied; a variable, with or without md- in front, gives the
    text of the last metadata element of its type, or nothing if there is none,
    edited by the pattern, if it has one, with the flags of its mode, and encoded
    character by character if it was written with a percent sign; the recipe
    fails exactly if a pattern does. This holds for names that start with md-,
    or with neither of m, d and the hyphen: the code takes three characters
    off the other ones, see [date_misread]. *)
Theorem recipe_expands (pre post : list xmlNode) (root : xmlNode) (ps : list piece)
    (Hpre : Forall (λ n, n_type n ≠ XML_ELEMENT_NODE) pre)
    (Hroot : n_type root = XML_ELEMENT_NODE) (Hps : well_formed ps) :
  recipe_value (n_children root) ps
    (url_recipe_handle regex_replace yaz_encode_uri_component (pre ++ root :: post)
       (print_recipe ps)).
Proof.
  rewrite recipe_pieces by done.
  assert (Hc : root_children (pre ++ root :: post) = n_children root).
  { induction Hpre as [|n pre Hn _ IH]; cbn; [by rewrite decide_True|by rewrite decide_False]. }
  rewrite Hc. induction ps as [|[c|e v] ps IH]; cbn [eval_recipe]; [constructor|..].
  - apply recipe_lit, IH, Hps.
  - destruct Hps as [Hv Hps]. specialize (IH Hps). pose proof (expand_value (n_children root) e v Hv) as Hx.
    destruct (expand _ _ _ e v) as [text|err|u|]; cbn;
      [by apply recipe_var|by apply recipe_fails..].
Qed.
End pieces.

(** Whatever the recipe is, its length is enough fuel. *)
Lemma url_recipe_ends regex_replace encode root recipe :
  (∀ p i t r g, no_fuel (regex_replace p i t r g)) →
  no_fuel (url_recipe_handle regex_replace encode root recipe).
Proof. intros H. by apply handle_loop_no_fuel. Qed.

(** ** Examples *)
Definition example_metadata (type text : string) : xmlNode :=
  Node XML_ELEMENT_NODE "metadata" None ""
    [Attr "type" None [Node XML_TEXT_NODE "text" None type [] []]]
    [Node XML_TEXT_NODE "text" None text [] []].
Definition example_root (l : list xmlNode) : list xmlNode :=
  [Node XML_ELEMENT_NODE "record" None "" [] l].
Definition no_regex (_ : string) (_ : bool) (t _ : string) (_ : bool) : outcome string := Ok t.
Definition lits (s : string) : list piece := Lit <$> list_ascii_of_string s.
(** The prefix md- is not needed, except for names that start with m, d or -:
    those lose three characters, or are too short for that, so that date stands
    for the metadata of another type. *)
Lemma date_misread :
  let handle := url_recipe_handle no_regex id (example_root
    [example_metadata "id" "17"; example_metadata "date" "2001"; example_metadata "e" "x"]) in
  handle "a${md-id}b" = Ok "a17b" ∧ handle "a${id}b" = Ok "a17b" ∧
  handle "${date}" = Ok "x" ∧ handle "${md-date}" = Ok "2001" ∧
  handle "${d}" = Undef OutOfBounds.
Proof. vm_compute. done. Qed.
(** A regular expression that matches one character everywhere. *)
Fixpoint replace_char (p : ascii) (r t : string) : string :=
  match t with
  | EmptyString => EmptyString
  | String c t' => (if decide (c = p) then r else char_str c) +:+ replace_char p r t'
  end.
Definition char_regex (p : string) (_ : bool) (t r : string) (g : bool) : outcome string :=
  match p with
  | String c EmptyString => Ok (replace_char c r t)
  | _ => Throw "bad pattern"
  end.
Definition example_doc : list xmlNode :=
  example_root [example_metadata "title" "old"; example_metadata "title" "a b";
                example_metadata "id" "17"].
Definition example_recipe : list piece :=
  lits "x/" ++ [Var false (mk_Spec "md-title" " " "+" "g")] ++ lits "?" ++
  [Var true (mk_Spec "id" "" "" ""); Var false (mk_Spec "none" "" "" "")].
Lemma recipe_expands_witness :
  print_recipe example_recipe = "x/${md-title[ /+/g]}?%{id}${none}" ∧
  url_recipe_handle char_regex id example_doc (print_recipe example_recipe) = Ok "x/a+b?17" ∧
  recipe_value char_regex id
    [example_metadata "title" "old"; example_metadata "title" "a b"; example_metadata "id" "17"]
    example_recipe (Ok "x/a+b?17").
Proof.
  assert (Hrun : url_recipe_handle char_regex id example_doc (print_recipe example_recipe) =
    Ok "x/a+b?17") by (vm_compute; reflexivity).
  split_and!; [vm_compute; reflexivity|exact Hrun|].
  rewrite <-Hrun. unfold example_doc, example_root.
  apply (recipe_expands char_regex id [] []
    (Node XML_ELEMENT_NODE "record" None "" [] _)); [constructor|reflexivity|].
  cbn. split_and!; try done; (split; [|cbn; done..]); cbn.
  - left. reflexivity.
  - right. rewrite !elem_of_cons. intros [H|[H|[H|H]]]; try discriminate H.
    by apply not_elem_of_nil in H.
  - right. rewrite !elem_of_cons. intros [H|[H|[H|H]]]; try discriminate H.
    by apply not_elem_of_nil in H.
Defined.
End UrlRecipe.
