(* ===== verification/Torus.v ===== *)
(** * The Torus

    [src/torus.cpp]: the records about targets, users and networks are fetched
    over HTTP from a server whose address is a template. The web client and
    the XML parser are parameters. *)
From S2P Require Import Prelude Zgdu Yaz Core Xml Libxml.

(** The web client of YAZ; the state is the network. *)
Class UrlClient (W : Type) : Type := {
  (** [yaz_url_exec] with a proxy, or the empty string, for GET. *)
  yaz_url_exec : string → string → list HTTP_Header → M W (option HTTP_Response)
}.

Module Torus.
Section torus.
Context `{Y : Yaz} {W : Type} `{PackageLog W, UrlClient W}.
Context (yaz_encode_uri_component : string → string).
Context (xmlParseMemory : string → option xmlDoc).

(** [url_template.replace(found, len, s)] for the first place where [what]
    is found. *)
Definition replace_first (what s url_template : string) : string :=
  match str_find what url_template with
  | Some found =>
      str_take found url_template +:+ s +:+ str_drop (found + String.length what) url_template
  | None => url_template
  end.
Definition expand_template (db query realm url_template : string) : string :=
  let enc s := yaz_encode_uri_component (c_str s) in
  replace_first "%realm" (enc realm)
    (replace_first "%db" (enc db) (replace_first "%query" (enc query) url_template)).

(** [get_searchable]: the document, or none with the reason. An empty body is
    a null [content_buf]. *)
Definition get_searchable (url_template db query realm proxy : string) :
    M W (option xmlDoc * string) :=
  let url := expand_template db query realm url_template in
  http_response ← yaz_url_exec proxy (c_str url)
    (z_HTTP_header_add [] "Accept" "application/xml");
  r ← (match http_response with
       | Some res =>
           if (hr_code res =? 200) && negb (bool_decide (hr_content res = "")) then
             match xmlParseMemory (hr_content res) with
             | Some doc =>
                 package_log "zoom" ("Torus: " +:+ c_str url +:+ " OK") ;; mret (Some doc, "")
             | None =>
                 package_log "zoom"
                   ("Torus: " +:+ c_str url +:+ " FAIL. XML parse failed") ;;
                 mret (None, "Torus: XML parse failed")
             end
           else
             package_log "zoom" ("Torus: " +:+ c_str url +:+ " FAIL. HTTP code " +:+
               print_int (hr_code res)) ;;
             mret (None, "Torus: " +:+ hr_content res)
       | None =>
           package_log "zoom" ("Torus: " +:+ c_str url +:+ " FAIL. No HTTP response") ;;
           mret (None, "Torus: unknown error")
       end);
  (match http_response with
   | Some res =>
       if decide (hr_content res = "") then mret tt
       else package_log "zoom" "HTTP content" ;; log_write (hr_content res)
   | None => mret tt
   end) ;;
  mret r.
End torus.
End Torus.
