(* ===== verification/Zoom.v ===== *)
(** * The zoom filter: targets and configuration

    [src/filter_zoom.cpp]: the filter answers searches and presents with the
    ZOOM client of YAZ, for targets whose profiles are in its configuration or
    come from a Torus. This file has the profile of a target ([Searchable]),
    how it is read, and the configuration; ZoomBackend and ZoomSearch have the
    rest. CCL, XSLT and files are parameters. *)
From S2P Require Import Prelude Zgdu Yaz Core Xml Libxml Torus.

(** CCL of YAZ: sets of qualifiers, parsing, printing of a parsed query. *)
Class Ccl : Type := {
  CCL_bibset : Type;
  ccl_rpn_node : Type;
  ccl_qual_mk : CCL_bibset;
  ccl_qual_fitem : CCL_bibset → string → string → CCL_bibset;
  ccl_xml_config : CCL_bibset → xmlNode → CCL_bibset;
  (** A query, or the number of an error. *)
  ccl_find_str : CCL_bibset → string → ccl_rpn_node + Z;
  ccl_err_msg : Z → option string;
  ccl_pquery : ccl_rpn_node → string
}.

Module Zoom.

(** ** [std::map] with string keys, in the order of the keys *)
Fixpoint map_set {A} (k : string) (v : A) (l : list (string * A)) : list (string * A) :=
  match l with
  | [] => [(k, v)]
  | (k', v') :: l' =>
      match String.compare k k' with
      | Lt => (k, v) :: l
      | Eq => (k, v) :: l'
      | Gt => (k', v') :: map_set k v l'
      end
  end.

(** ** [Searchable] *)

(** Its members of type [std::string]. *)
Inductive member : Set :=
  | authentication | authenticationMode | contentAuthentication | cfAuth | cfProxy | cfSubDB
  | udb | target | query_encoding | sru | sru_version | request_syntax | element_set
  | record_encoding | transform_xsl_fname | transform_xsl_content | urlRecipe
  | contentConnector | sortStrategy | extraArgs | rpn2cql_fname | retry_on_failure
  | no_cproxy.
#[export] Instance member_eq_dec : EqDecision member.
Proof. solve_decision. Defined.

(** ** [Impl]: what is configured *)
Inductive conf_member : Set :=
  | torus_searchable_url | torus_content_url | torus_auth_url | torus_allow_ip | default_realm
  | torus_auth_hostname | xsldir | file_path | content_proxy_server | content_tmp_file
  | content_config_file | element_transform | element_raw | element_marcxml
  | element_passthru | proxy | zoom_timeout
  (* locals of [configure] *)
  | explain_xslt_fname | record_xslt_fname.
#[export] Instance conf_member_eq_dec : EqDecision conf_member.
Proof. solve_decision. Defined.

Section zoom.
Context `{Ccl, Xslt, Files}.

Record Searchable : Type := mk_Searchable {
  text : member → string;
  cf_param : list (string * string);
  piggyback : bool;
  ccl_bibset : CCL_bibset;
  sortmap : gmap string string
}.
Definition Searchable_new (base : CCL_bibset) : Searchable :=
  mk_Searchable
    (λ m, match m with sortStrategy => "embed" | retry_on_failure => "1" | _ => "" end)
    [] true base ∅.
Definition set_text (m : member) (v : string) (s : Searchable) : Searchable :=
  mk_Searchable (λ m', if decide (m' = m) then v else text s m') (cf_param s) (piggyback s)
    (ccl_bibset s) (sortmap s).
Definition set_cf_param (k v : string) (s : Searchable) : Searchable :=
  mk_Searchable (text s) (map_set k v (cf_param s)) (piggyback s) (ccl_bibset s) (sortmap s).
Definition set_piggyback (b : bool) (s : Searchable) : Searchable :=
  mk_Searchable (text s) (cf_param s) b (ccl_bibset s) (sortmap s).
Definition set_ccl_bibset (b : CCL_bibset) (s : Searchable) : Searchable :=
  mk_Searchable (text s) (cf_param s) (piggyback s) b (sortmap s).
Definition set_sortmap (k v : string) (s : Searchable) : Searchable :=
  mk_Searchable (text s) (cf_param s) (piggyback s) (ccl_bibset s) (<[k := v]> (sortmap s)).

(** The elements whose text is a member. *)
Definition member_elements : list (string * member) :=
  [("authentication", authentication); ("authenticationMode", authenticationMode);
   ("contentAuthentication", contentAuthentication); ("cfAuth", cfAuth);
   ("cfProxy", cfProxy); ("cfSubDB", cfSubDB); ("contentConnector", contentConnector);
   ("udb", udb); ("zurl", target); ("sru", sru); ("SRUVersion", sru_version);
   ("sruVersion", sru_version); ("queryEncoding", query_encoding);
   ("requestSyntax", request_syntax); ("elementSet", element_set);
   ("recordEncoding", record_encoding); ("transform", transform_xsl_fname);
   ("literalTransform", transform_xsl_content); ("urlRecipe", urlRecipe);
   ("sortStrategy", sortStrategy); ("extraArgs", extraArgs); ("rpn2cql", rpn2cql_fname);
   ("retryOnFailure", retry_on_failure); ("noCproxy", no_cproxy)].
Fixpoint assoc {A} (k : string) (l : list (string * A)) : option A :=
  match l with
  | [] => None
  | (k', v) :: l' => if decide (k = k') then Some v else assoc k l'
  end.
(** What follows a prefix. *)
Definition after_prefix (prefix s : string) : option string :=
  if decide (str_take (String.length prefix) s = prefix)
  then Some (str_drop (String.length prefix) s) else None.

(** An element of a record, other than a layer. *)
Definition record_element (n : xmlNode) (s : Searchable) : Searchable :=
  let name := n_name n in
  let value := mp_xml.get_text [n] in
  match assoc name member_elements with
  | Some m => set_text m value s
  | None =>
      if decide (name = "piggyback") then set_piggyback (mp_xml.get_bool [n] true) s
      else if decide (name = "useTurboMarc") then s
      else match after_prefix "cclmap_" name with
      | Some qual =>
          if decide (value = "") then s
          else set_ccl_bibset (ccl_qual_fitem (ccl_bibset s) (c_str value) qual) s
      | None =>
          match after_prefix "sortmap_" name with
          | Some field => set_sortmap field value s
          | None =>
              match after_prefix "cf_" name with
              | Some param => if decide (param = "") then s else set_cf_param param value s
              | None => s
              end
          end
      end
  end.
(** The loop of [parse_torus_record]. At a layer it goes on behind the first
    node inside of the layer, and does not come back. *)
Fixpoint record_children (first : bool) (s : Searchable) (ptr : xmlNode) : outcome Searchable :=
  let fix siblings (l : list xmlNode) (s : Searchable) : outcome Searchable :=
    match l with
    | [] => Ok s
    | n :: l' =>
        if decide (n_type n ≠ XML_ELEMENT_NODE) then siblings l' s
        else if decide (n_name n = "layer") then record_children false s n
        else siblings l' (record_element n s)
    end in
  let '(Node _ _ _ _ _ children) := ptr in
  if first then siblings children s
  else match children with
       | [] => Undef NullDeref
       | _ :: l => siblings l s
       end.
Definition parse_torus_record (bibset : CCL_bibset) (ptr : xmlNode) : outcome Searchable :=
  record_children true (Searchable_new bibset) ptr.

Record Impl : Type := mk_Impl {
  conf : conf_member → string;
  fieldmap : gmap string string;
  apdu_log : bool;
  bibset : CCL_bibset;
  explain_xsp : option stylesheet;
  record_xsp : option stylesheet;
  s_map : gmap string Searchable;
  proxy_timeout : Z
}.
Definition Impl_new : Impl :=
  mk_Impl (λ m, match m with
                | element_transform => "pz2" | element_raw => "raw"
                | element_marcxml => "marcxml" | element_passthru => "F"
                | zoom_timeout => "40" | _ => ""
                end) ∅ false ccl_qual_mk None None ∅ 1.
Definition set_conf (m : conf_member) (v : string) (c : Impl) : Impl :=
  mk_Impl (λ m', if decide (m' = m) then v else conf c m') (fieldmap c) (apdu_log c) (bibset c)
    (explain_xsp c) (record_xsp c) (s_map c) (proxy_timeout c).
Definition set_fieldmap (k v : string) (c : Impl) : Impl :=
  mk_Impl (conf c) (<[k := v]> (fieldmap c)) (apdu_log c) (bibset c) (explain_xsp c)
    (record_xsp c) (s_map c) (proxy_timeout c).
Definition set_apdu_log (b : bool) (c : Impl) : Impl :=
  mk_Impl (conf c) (fieldmap c) b (bibset c) (explain_xsp c) (record_xsp c) (s_map c)
    (proxy_timeout c).
Definition set_bibset (b : CCL_bibset) (c : Impl) : Impl :=
  mk_Impl (conf c) (fieldmap c) (apdu_log c) b (explain_xsp c) (record_xsp c) (s_map c)
    (proxy_timeout c).
Definition set_xsp (e r : option stylesheet) (c : Impl) : Impl :=
  mk_Impl (conf c) (fieldmap c) (apdu_log c) (bibset c) e r (s_map c) (proxy_timeout c).
Definition set_s_map (k : string) (s : Searchable) (c : Impl) : Impl :=
  mk_Impl (conf c) (fieldmap c) (apdu_log c) (bibset c) (explain_xsp c) (record_xsp c)
    (<[k := s]> (s_map c)) (proxy_timeout c).
Definition set_proxy_timeout (n : Z) (c : Impl) : Impl :=
  mk_Impl (conf c) (fieldmap c) (apdu_log c) (bibset c) (explain_xsp c) (record_xsp c)
    (s_map c) n.

(** ** Configuration *)
Fixpoint local_records (l : list xmlNode) (c : Impl) : outcome Impl :=
  match l with
  | [] => Ok c
  | n :: l' =>
      if decide (n_type n ≠ XML_ELEMENT_NODE) then local_records l' c
      else if decide (n_name n = "record") then
        s ← parse_torus_record (bibset c) n;
        if decide (text s udb = "") then Throw "No udb for local torus record"
        else local_records l' (set_s_map (text s udb) s c)
      else Throw ("Bad element " +:+ n_name n +:+
                  " in zoom filter inside element <torus><records>")
  end.
Fixpoint configure_local_records (ptr : list xmlNode) (c : Impl) : outcome Impl :=
  match ptr with
  | [] => Ok c
  | n :: l =>
      if decide (n_type n ≠ XML_ELEMENT_NODE) then configure_local_records l c
      else if decide (n_name n = "records") then local_records (n_children n) c
      else Throw ("Bad element " +:+ n_name n +:+ " in zoom filter inside element <torus>")
  end.
(** Attributes whose text is assigned to a member. *)
Fixpoint configure_attrs (table : list (string * conf_member)) (l : list xmlAttr) (c : Impl) :
    outcome Impl :=
  match l with
  | [] => Ok c
  | a :: l' =>
      match assoc (a_name a) table with
      | Some m => configure_attrs table l' (set_conf m (mp_xml.get_text (a_children a)) c)
      | None => Throw ("Bad attribute " +:+ a_name a)
      end
  end.
Definition torus_attrs : list (string * conf_member) :=
  [("url", torus_searchable_url); ("content_url", torus_content_url);
   ("auth_url", torus_auth_url); ("allow_ip", torus_allow_ip); ("realm", default_realm);
   ("auth_hostname", torus_auth_hostname); ("xsldir", xsldir);
   ("element_transform", element_transform); ("element_raw", element_raw);
   ("element_marcxml", element_marcxml); ("element_passthru", element_passthru);
   ("proxy", proxy); ("explain_xsl", explain_xslt_fname); ("record_xsl", record_xslt_fname)].
Definition contentProxy_attrs : list (string * conf_member) :=
  [("server", content_proxy_server); ("tmp_file", content_tmp_file);
   ("config_file", content_config_file)].
Fixpoint fieldmap_attrs (l : list xmlAttr) (ccl_field cql_field : string) :
    outcome (string * string) :=
  match l with
  | [] => Ok (ccl_field, cql_field)
  | a :: l' =>
      let v := mp_xml.get_text (a_children a) in
      if decide (a_name a = "ccl") then fieldmap_attrs l' v cql_field
      else if decide (a_name a = "cql") then fieldmap_attrs l' ccl_field v
      else Throw ("Bad attribute " +:+ a_name a)
  end.
Fixpoint log_attrs (l : list xmlAttr) (c : Impl) : outcome Impl :=
  match l with
  | [] => Ok c
  | a :: l' =>
      if decide (a_name a = "apdu") then
        log_attrs l' (set_apdu_log (mp_xml.get_bool (a_children a) false) c)
      else Throw ("Bad attribute " +:+ a_name a)
  end.
Fixpoint zoom_attrs (l : list xmlAttr) (c : Impl) : outcome Impl :=
  match l with
  | [] => Ok c
  | a :: l' =>
      if decide (a_name a = "timeout") then
        zoom_attrs l' (set_conf zoom_timeout (mp_xml.get_text (a_children a)) c)
      else if decide (a_name a = "proxy_timeout") then
        zoom_attrs l' (set_proxy_timeout (mp_xml.get_int (a_children a) 1) c)
      else Throw ("Bad attribute " +:+ a_name a)
  end.
Definition configure_element (n : xmlNode) (c : Impl) : outcome Impl :=
  if decide (n_name n = "torus") then
    c ← configure_attrs torus_attrs (n_properties n) c;
    let c := if decide (conf c torus_content_url = "")
             then set_conf torus_content_url (conf c torus_searchable_url) c else c in
    configure_local_records (n_children n) c
  else if decide (n_name n = "cclmap") then Ok (set_bibset (ccl_xml_config (bibset c) n) c)
  else if decide (n_name n = "fieldmap") then
    '(ccl_field, cql_field) ← fieldmap_attrs (n_properties n) "" "";
    Ok (if decide (cql_field = "") then c else set_fieldmap cql_field ccl_field c)
  else if decide (n_name n = "contentProxy") then
    configure_attrs contentProxy_attrs (n_properties n) c
  else if decide (n_name n = "log") then log_attrs (n_properties n) c
  else if decide (n_name n = "zoom") then zoom_attrs (n_properties n) c
  else Throw ("Bad element " +:+ n_name n +:+ " in zoom filter").
Fixpoint configure_loop (l : list xmlNode) (c : Impl) : outcome Impl :=
  match l with
  | [] => Ok c
  | n :: l' =>
      if decide (n_type n ≠ XML_ELEMENT_NODE) then configure_loop l' c
      else c ← configure_element n c; configure_loop l' c
  end.
(** A stylesheet of the configuration, if its name is not empty. *)
Definition load_xslt (fname : string) (c : Impl) (old : option stylesheet) :
    outcome (option stylesheet) :=
  if decide (fname = "") then Ok old
  else
    let path := if decide (conf c xsldir = "") then conf c file_path else conf c xsldir in
    match yaz_filepath_resolve fname path with
    | None => Throw ("Cannot read XSLT " +:+ fname)
    | Some fullpath =>
        match xmlParseFile fullpath with
        | None => Throw ("Cannot parse XSLT " +:+ fname)
        | Some doc =>
            match xsltParseStylesheetDoc doc with
            | None => Throw ("Cannot parse XSLT " +:+ fname)
            | Some xsp => Ok (Some xsp)
            end
        end
    end.
Definition configure (ptr : xmlNode) (path : string) (c : Impl) : outcome Impl :=
  let c := if decide (path = "") then c else set_conf file_path path c in
  c ← configure_loop (n_children ptr)
    (set_conf explain_xslt_fname "" (set_conf record_xslt_fname "" c));
  e ← load_xslt (conf c explain_xslt_fname) c (explain_xsp c);
  r ← load_xslt (conf c record_xslt_fname) c (record_xsp c);
  Ok (set_xsp e r c).
End zoom.
End Zoom.

(** ** Small implementations, for examples *)
Definition ref_ccl : Ccl := {|
  CCL_bibset := unit;
  ccl_rpn_node := string;
  ccl_qual_mk := tt;
  ccl_qual_fitem b _ _ := b;
  ccl_xml_config b _ := b;
  ccl_find_str _ s := inl s;
  ccl_err_msg _ := None;
  ccl_pquery s := s
|}.
