(* ===== verification/ZoomBackend.v ===== *)
(** * The zoom filter: connections, targets, records

    [src/filter_zoom.cpp], [Backend] and the functions of [Frontend] that find
    a target for a database and fetch records. The ZOOM client of YAZ is a
    class of operations on its handles; what the network does is in the world.
    A handle that the code passes without a test must not be null. *)
From S2P Require Import Prelude Zgdu Yaz Core Xml Libxml Util Frontends UrlRecipe Torus Zoom.

(** Symbols of yaz/diagbib1.h and yaz/zoom.h. *)
Definition BIB1_UNSUPP_SEARCH : Z := 3.
Definition BIB1_SYSTEM_ERROR_IN_PRESENTING_RECORDS : Z := 14.
Definition BIB1_UNSPECIFIED_ERROR : Z := 100.
Definition BIB1_QUERY_TYPE_UNSUPP : Z := 107.
Definition BIB1_MALFORMED_QUERY : Z := 108.
Definition BIB1_TOO_MANY_DATABASES_SPECIFIED : Z := 111.
Definition BIB1_UNSUPP_USE_ATTRIBUTE : Z := 114.
Definition BIB1_INIT_AC_BAD_USERID_AND_OR_PASSWORD : Z := 1011.
Definition ZOOM_ERROR_DECODE : Z := 10003.
Definition ZOOM_ERROR_INIT : Z := 10005.

(** A facet field: its attributes (type and value) and the terms with their
    counts. *)
Record FacetField : Type := mk_FacetField {
  attributes : list (Z * string);
  ff_terms : list (string * Z)
}.
Notation FacetList := (list FacetField).

(** A query for ZOOM, with the strategy and the keys of [ZOOM_query_sortby2]. *)
Inductive zoom_query : Type :=
  | ZOOM_query_prefix (sort : string * string) (pqf : string)
  | ZOOM_query_cql (sort : string * string) (cql : string).

(** The ZOOM client. *)
Class ZoomClient (W : Type) : Type := {
  ZOOM_connection : Type;
  ZOOM_resultset : Type;
  ZOOM_record : Type;
  ZOOM_connection_create : ZOOM_connection;
  (** A null value removes the option. *)
  ZOOM_connection_option_set : string → option string → ZOOM_connection → ZOOM_connection;
  ZOOM_connection_option_get : ZOOM_connection → string → option string;
  ZOOM_resultset_option_set : string → option string → ZOOM_resultset → ZOOM_resultset;
  ZOOM_connection_connect : ZOOM_connection → option string → M W ZOOM_connection;
  (** The error, its message, additional information, the set it is of. *)
  ZOOM_connection_error_x : ZOOM_connection → Z * string * option string * option string;
  ZOOM_connection_search : ZOOM_connection → zoom_query → M W (ZOOM_connection * ZOOM_resultset);
  ZOOM_resultset_size : ZOOM_resultset → Z;
  (** Name and terms of the facet fields; a field may be missing. *)
  ZOOM_resultset_facets : ZOOM_resultset → list (option (string * list (string * Z)));
  (** [ZOOM_resultset_records(rs, recs, start, count)]: what is in [recs]. *)
  ZOOM_resultset_records : ZOOM_connection → ZOOM_resultset → Z → Z →
    M W (ZOOM_connection * list (option ZOOM_record));
  (** The error of a record and its additional information. *)
  ZOOM_record_error : ZOOM_record → Z * option string;
  (** A record in an XML form, by type; a record of type ext. *)
  ZOOM_record_get : ZOOM_record → string → option string;
  ZOOM_record_get_ext : ZOOM_record → option ExternalRecord;
  (** The log of PDUs of a connection, and emptying it. *)
  ZOOM_apdu_log : ZOOM_connection → string;
  ZOOM_apdu_rewind : ZOOM_connection → ZOOM_connection
}.
(** What else is used of YAZ and the C library. *)
Class ZoomYaz : Type := {
  xmlParseMemory : string → option xmlDoc;
  xmlNodeDump : xmlNode → string;
  yaz_encode_uri_component : string → string;
  regex_replace : string → bool → string → string → bool → outcome string;
  yaz_uri_to_array : string → list (string * string);
  yaz_array_to_uri : list (string * string) → string;
  (** [nmem_strsplit(",", s)] and [nmem_strsplit_blank(s)]. *)
  nmem_strsplit_comma : string → list string;
  nmem_strsplit_blank : string → list string;
  yaz_diag_srw_to_bib1 : Z → Z;
  yaz_diag_bib1_str : Z → string;
  (** Object identifiers and names of record syntaxes. *)
  yaz_string_to_recsyn : string → option string;
  yaz_oid_to_string : string → string;
  yaz_facet_list_to_wrbuf : FacetList → string;
  yaz_oi_get_facets : OtherInformation → option FacetList;
  yaz_oi_set_facets : OtherInformation → FacetList → OtherInformation;
  (** Transformations of queries for SRU targets. *)
  cql_transform_t : Type;
  cql_transform_create : cql_transform_t;
  cql_transform_open_fname : string → option cql_transform_t;
  (** Codes whose numbers matter to nobody here. *)
  BIB1_PROXY_FAILURE : Z;
  BIB1_ILLEGAL_SORT_RELATION : Z;
  BIB1_PRESENT_COMP_SPEC_PARAMETER_UNSUPP : Z;
  BIB1_INIT_AC_BLOCKED_NETWORK_ADDRESS : Z
}.
(** The operating system: random numbers, files that are written, and the
    connections that probe a proxy. *)
Class ZoomSystem (W : Type) : Type := {
  rand : M W Z;
  (** Whether the file could be created. *)
  fopen_write : string → string → M W bool;
  COMSTACK : Type;
  cs_create_host_proxy : string → string → M W (option COMSTACK);
  cs_connect : COMSTACK → M W Z;
  cs_put : COMSTACK → string → M W Z;
  (** [yaz_poll] for a connection, with a timeout. *)
  cs_poll : COMSTACK → Z → M W Z;
  cs_close : COMSTACK → M W unit;
  (** The encoded GET request for an address. *)
  encode_get : string → option string
}.

(** *** Small implementations, for examples *)
Fixpoint split_on (sep : ascii) (s acc : string) : list string :=
  match s with
  | EmptyString => [acc]
  | String ch s' => if decide (ch = sep) then acc :: split_on sep s' ""
                    else split_on sep s' (acc +:+ String ch "")
  end.
Definition split_pair (sep : ascii) (s : string) : string * string :=
  match find_char sep s with
  | Some i => (str_take i s, str_drop (S i) s)
  | None => (s, "")
  end.
Definition ref_zoom_yaz : ZoomYaz := {|
  xmlParseMemory s := Some [Node XML_ELEMENT_NODE "identityId" None ""
                              [] [Node XML_TEXT_NODE "text" None s [] []]];
  xmlNodeDump n := mp_xml.get_text [n];
  yaz_encode_uri_component s := s;
  regex_replace _ _ text _ _ := Ok text;
  yaz_uri_to_array s := split_pair "=" <$> split_on "&" s "";
  yaz_array_to_uri l := foldr (λ nv s, nv.1 +:+ "=" +:+ nv.2 +:+ "&" +:+ s) "" l;
  nmem_strsplit_comma s := split_on "," s "";
  nmem_strsplit_blank s := split_on " " s "";
  yaz_diag_srw_to_bib1 e := e;
  yaz_diag_bib1_str _ := "";
  yaz_string_to_recsyn _ := Some recsyn_usmarc;
  yaz_oid_to_string s := s;
  yaz_facet_list_to_wrbuf _ := "";
  yaz_oi_get_facets _ := None;
  yaz_oi_set_facets oi _ := oi;
  cql_transform_t := unit;
  cql_transform_create := tt;
  cql_transform_open_fname _ := None;
  BIB1_PROXY_FAILURE := 1;
  BIB1_ILLEGAL_SORT_RELATION := 1;
  BIB1_PRESENT_COMP_SPEC_PARAMETER_UNSUPP := 1;
  BIB1_INIT_AC_BLOCKED_NETWORK_ADDRESS := 1
|}.
(** A web server with one answer, or none. *)
Definition ref_url (answer : option string) : UrlClient (option string) := {|
  yaz_url_exec _ _ _ := mret ((λ body,
    {| hr_code := 200; hr_version := "1.1"; hr_headers := []; hr_content := body |}) <$> answer)
|}.
(** Targets that answer with a number of records, or not at all. *)
Definition ref_client (up : bool) (hits : nat) : ZoomClient (option string) := {|
  ZOOM_connection := list (string * string);
  ZOOM_resultset := unit;
  ZOOM_record := nat;
  ZOOM_connection_create := [];
  ZOOM_connection_option_set n v x := match v with Some v => (n, v) :: x | None => x end;
  ZOOM_connection_option_get x n :=
    match filter (λ nv, nv.1 = n) x with (_, v) :: _ => Some v | [] => None end;
  ZOOM_resultset_option_set _ _ rs := rs;
  ZOOM_connection_connect x _ := mret x;
  ZOOM_connection_error_x _ := if up then (0, "", None, None) else (10000, "", None, Some "ZOOM");
  ZOOM_connection_search x _ := mret (x, tt);
  ZOOM_resultset_size _ := Z.of_nat hits;
  ZOOM_resultset_facets _ := [];
  ZOOM_resultset_records x _ start count :=
    mret (x, (λ i, if decide (i < hits)%nat then Some i else None) <$>
             seq (Z.to_nat start) (Z.to_nat count));
  ZOOM_record_error _ := (0, None);
  ZOOM_record_get _ _ := Some "<r/>";
  ZOOM_record_get_ext i := Some (External_octet None None (print_int (Z.of_nat i)));
  ZOOM_apdu_log _ := "";
  ZOOM_apdu_rewind x := x
|}.
(** A system where no proxy can be reached. *)
Definition ref_system : ZoomSystem (option string) := {|
  rand := mret 0;
  fopen_write _ _ := mret true;
  COMSTACK := unit;
  cs_create_host_proxy _ _ := mret None;
  cs_connect _ := mret 0;
  cs_put _ _ := mret 0;
  cs_poll _ _ := mret 0;
  cs_close _ := mret tt;
  encode_get _ := None
|}.
Definition ref_log : PackageLog (option string) := {| p_logger := id; set_logger l _ := l |}.

Module ZoomBackend.
Import Zoom.
Definition char_str (ch : ascii) : string := String ch "".
Section backend.
Context `{Ccl, Xslt, Files, Y : Yaz, ZoomYaz} {R W : Type}.
Context `{PackageLog W, UrlClient W, ZoomClient W, ZoomSystem W}.
Context (c : Impl).

(** ** [Backend] *)
Record Backend : Type := mk_Backend {
  m_connection : ZOOM_connection;
  m_resultset : option ZOOM_resultset;
  m_frontend_database : string;
  sptr : option Searchable;
  xsp : option stylesheet;
  cproxy_host : string;
  enable_cproxy : bool;
  enable_explain : bool;
  explain_doc : option xmlDoc;
  m_proxy : string;
  cqlt : option cql_transform_t;
  b_retry_on_failure : string
}.
Definition Backend_new : Backend :=
  mk_Backend ZOOM_connection_create None "" None None "" true false None "" None "".
Definition set_connection (x : ZOOM_connection) (b : Backend) : Backend :=
  mk_Backend x (m_resultset b) (m_frontend_database b) (sptr b) (xsp b) (cproxy_host b)
    (enable_cproxy b) (enable_explain b) (explain_doc b) (m_proxy b) (cqlt b)
    (b_retry_on_failure b).
Definition set_resultset (x : option ZOOM_resultset) (b : Backend) : Backend :=
  mk_Backend (m_connection b) x (m_frontend_database b) (sptr b) (xsp b) (cproxy_host b)
    (enable_cproxy b) (enable_explain b) (explain_doc b) (m_proxy b) (cqlt b)
    (b_retry_on_failure b).
Definition set_cproxy_host (x : string) (b : Backend) : Backend :=
  mk_Backend (m_connection b) (m_resultset b) (m_frontend_database b) (sptr b) (xsp b) x
    (enable_cproxy b) (enable_explain b) (explain_doc b) (m_proxy b) (cqlt b)
    (b_retry_on_failure b).

(** [set_option], for a value or null, and for the first characters of one. *)
Definition set_option (name : string) (value : option string) (b : Backend) : Backend :=
  set_resultset (ZOOM_resultset_option_set name value <$> m_resultset b)
    (set_connection (ZOOM_connection_option_set name value (m_connection b)) b).
Definition set_optionl (name value : string) (b : Backend) : Backend :=
  set_connection (ZOOM_connection_option_set name (Some value) (m_connection b)) b.
Definition get_option (name : string) (b : Backend) : option string :=
  ZOOM_connection_option_get (m_connection b) name.

(** An error with its additional information; 0 when there is none. *)
Notation diag := (Z * option string)%type.
Definition contains (needle s : string) : bool :=
  match str_find needle s with Some _ => true | None => false end.
Definition zoom_error_code (error0 : Z) (dset : string) (addinfo : option string) : Z :=
  if decide (dset = "info:srw/diagnostic/1") then yaz_diag_srw_to_bib1 error0
  else if decide (dset = "Bib-1") then error0
  else if decide (dset = "ZOOM") then
    if error0 =? ZOOM_ERROR_INIT then BIB1_INIT_AC_AUTHENTICATION_SYSTEM_ERROR
    else if error0 =? ZOOM_ERROR_DECODE then
      match addinfo with
      | Some a => if contains "Authentication" a || contains "authentication" a
                  then BIB1_INIT_AC_AUTHENTICATION_SYSTEM_ERROR else BIB1_TEMPORARY_SYSTEM_ERROR
      | None => BIB1_TEMPORARY_SYSTEM_ERROR
      end
    else BIB1_TEMPORARY_SYSTEM_ERROR
  else BIB1_TEMPORARY_SYSTEM_ERROR.
(** [get_zoom_error]: [old] stays when the connection has no error. *)
Definition get_zoom_error (b : Backend) (old : diag) : diag :=
  let '(error0, msg, zoom_addinfo, dset) := ZOOM_connection_error_x (m_connection b) in
  if error0 =? 0 then old
  else
    let dset := default "Unknown" dset in
    (zoom_error_code error0 dset zoom_addinfo,
     Some (default "" zoom_addinfo +:+
           (match zoom_addinfo with Some (String _ _) => " " | _ => "" end) +:+
           "(" +:+ dset +:+ " " +:+ print_int error0 +:+ " " +:+ msg +:+ ")")).

Definition connect (zurl : string) (old : diag) (b : Backend) : M W (Backend * diag) :=
  let zurl := match find_char "#" zurl with Some h => str_take h zurl | None => zurl end in
  x ← ZOOM_connection_connect (m_connection b)
        (if decide (zurl = "") then None else Some (c_str zurl));
  let b := set_connection x b in
  mret (b, get_zoom_error b old).

(** The facets of a result set, up to a field that is missing. *)
Fixpoint response_facets (l : list (option (string * list (string * Z)))) : FacetList :=
  match l with
  | Some (name, terms) :: l' => mk_FacetField [(1, name)] terms :: response_facets l'
  | _ => []
  end.
(** [Backend::search]: hits, error and facets. *)
Definition search (q : zoom_query) (old : diag) (fl : option FacetList) (b : Backend) :
    M W (Backend * Z * diag * option FacetList) :=
  let b := set_resultset None b in
  let b := match fl with
           | Some l => set_option "facets" (Some (c_str (yaz_facet_list_to_wrbuf l))) b
           | None => b
           end in
  '(x, rs) ← ZOOM_connection_search (m_connection b) q;
  let b := set_resultset (Some rs) (set_connection x b) in
  let e := get_zoom_error b old in
  mret (b, (if e.1 =? 0 then ZOOM_resultset_size rs else 0), e,
        match ZOOM_resultset_facets rs with
        | [] => None
        | l => Some (response_facets l)
        end).
(** [Backend::present]. *)
Definition present (start number : Z) (old : diag) (b : Backend) :
    M W (Backend * list (option ZOOM_record) * diag) :=
  rs ← deref (m_resultset b);
  '(x, recs) ← ZOOM_resultset_records (m_connection b) rs start number;
  let b := set_connection x b in
  mret (b, recs, get_zoom_error b old).

(** ** [Frontend] *)
Record Frontend : Type := mk_Frontend {
  m_is_virtual : bool;
  session_realm : string;
  m_init_gdu : option GDU;
  m_backend : option Backend
}.
Definition Frontend_new : Frontend := mk_Frontend false "" None None.
Definition set_virtual (b : bool) (f : Frontend) : Frontend :=
  mk_Frontend b (session_realm f) (m_init_gdu f) (m_backend f).
Definition set_session_realm (s : string) (f : Frontend) : Frontend :=
  mk_Frontend (m_is_virtual f) s (m_init_gdu f) (m_backend f).
Definition set_init_gdu (g : option GDU) (f : Frontend) : Frontend :=
  mk_Frontend (m_is_virtual f) (session_realm f) g (m_backend f).
Definition set_backend (b : option Backend) (f : Frontend) : Frontend :=
  mk_Frontend (m_is_virtual f) (session_realm f) (m_init_gdu f) b.

Definition log_diagnostic (e : diag) : M W unit :=
  package_log "zoom" ("Diagnostic " +:+ print_int e.1 +:+ " " +:+ yaz_diag_bib1_str e.1 +:+ ":"
    +:+ match e.2 with Some a => " " +:+ a | None => "" end).

(** ** [create_content_session] *)

(** [fgets(buf, n, f)]: up to [n - 1] characters, a newline is the last one. *)
Fixpoint fgets (room : nat) (s : string) : string * string :=
  match room, s with
  | S room', String ch s' =>
      if decide (ch = "010"%char) then (char_str ch, s')
      else let '(l, r) := fgets room' s' in (String ch l, r)
  | _, _ => (EmptyString, s)
  end.
Definition cut_at (ch : ascii) (s : string) : string :=
  match find_char ch s with Some i => str_take i s | None => s end.
Fixpoint skip_blanks (s : string) : string :=
  match s with
  | String ch s' => if decide (ch = " "%char) then skip_blanks s' else s
  | EmptyString => EmptyString
  end.
Fixpoint trim_right (s : string) : string :=
  match s with
  | EmptyString => EmptyString
  | String ch s' =>
      match trim_right s' with
      | EmptyString => if decide (ch = " "%char) then EmptyString else char_str ch
      | t => String ch t
      end
  end.
(** A trailing slash is taken away. *)
Fixpoint chop_slash (s : string) : string :=
  match s with
  | EmptyString => EmptyString
  | String ch EmptyString => if decide (ch = "/"%char) then EmptyString else s
  | String ch s' => String ch (chop_slash s')
  end.
(** A line of the configuration of the content proxy. *)
Definition content_line (buf : string) (acc : string * string) : string * string :=
  let buf := cut_at "010" (cut_at "#" (c_str buf)) in
  match find_char ":" buf with
  | None => acc
  | Some i =>
      let key := trim_right (str_take i buf) in
      let value := skip_blanks (str_drop (S i) buf) in
      let '(proxyhostname, tmp_file) := acc in
      let proxyhostname := if decide (key = "proxyhostname") then value else proxyhostname in
      if decide (key = "sessiondir" ∧ value ≠ "")
      then (proxyhostname, chop_slash value +:+ "/cf.XXXXXX.p")
      else (proxyhostname, tmp_file)
  end.
(** [sizeof(buf) - 1] is 1023; every turn takes up a character. *)
Fixpoint content_config (fuel : nat) (s : string) (acc : string * string) :
    outcome (string * string) :=
  match fuel, s with
  | _, EmptyString => Ok acc
  | O, _ => OutOfFuel
  | S fuel', _ =>
      let '(buf, rest) := fgets 1022 s in content_config fuel' rest (content_line buf acc)
  end.
(** [%06u]. *)
Fixpoint pad_zeros (n : nat) (s : string) : string :=
  match n with O => s | S n' => String "0" (pad_zeros n' s) end.
Definition six_digits (n : Z) : string :=
  let s := print_nat (n mod 1000000) in pad_zeros (6 - String.length s) s.
Definition content_file (b : Backend) (s : Searchable) (auth prox realm : string) : string :=
  let line name v := if decide (v = "") then "" else name +:+ ": " +:+ v +:+ char_str "010" in
  "#content_proxy" +:+ char_str "010" +:+
  "connector: " +:+ text s contentConnector +:+ char_str "010" +:+
  line "auth" auth +:+ line "proxy" prox +:+ line "realm" realm.
Definition create_content_session (b : Backend) (auth prox realm : string) (old : diag) :
    M W (Backend * diag) :=
  s ← deref (sptr b);
  if decide (text s contentConnector = "") then mret (b, old)
  else
    let legacy_format := negb (bool_decide (conf c content_proxy_server = "")) in
    let config := conf c content_config_file in
    let start := (conf c content_proxy_server, conf c content_tmp_file) in
    r ← (if decide (config = "") then mret (Some start)
         else match fopen_read config with
              | Some contents =>
                  a ← lift_outcome (content_config (String.length contents) contents start);
                  mret (Some a)
              | None =>
                  package_log "zoom" ("unable to open content config " +:+ config) ;; mret None
              end);
    match r with
    | None => mret (b, (BIB1_TEMPORARY_SYSTEM_ERROR,
                        Some ("zoom: unable to open content config " +:+ config)))
    | Some (proxyhostname, tmp_file) =>
        if decide (proxyhostname = "") then
          package_log "zoom" "no proxyhostname" ;; mret (b, old)
        else if decide (tmp_file = "") then package_log "zoom" "no tmp_file" ;; mret (b, old)
        else match str_find "XXXXXX" tmp_file with
             | None =>
                 package_log "zoom" ("bad tmp_file " +:+ tmp_file) ;;
                 mret (b, (BIB1_TEMPORARY_SYSTEM_ERROR,
                           Some ("zoom: bad format of content tmp_file: " +:+ tmp_file)))
             | Some xx =>
                 r ← rand;
                 let digits := six_digits r in
                 let b := set_cproxy_host (if legacy_format then digits +:+ "." +:+ proxyhostname
                                           else proxyhostname +:+ "/" +:+ digits) b in
                 let fname := str_take xx tmp_file +:+ digits +:+ str_drop (xx + 6) tmp_file in
                 ok ← fopen_write fname (content_file b s auth prox realm);
                 if (ok : bool) then
                   package_log "zoom" ("content file: " +:+ fname) ;; mret (b, old)
                 else
                   package_log "zoom" ("create " +:+ fname) ;;
                   mret (b, (BIB1_TEMPORARY_SYSTEM_ERROR,
                             Some ("zoom: could not create " +:+ fname)))
             end
    end.

(** ** Arguments of a database

    [db,name=value&name=value...]: they choose proxies, users and the Torus,
    and some go on to the target. [out_names] and [out_values] have a fixed
    number of places. *)
Record Params : Type := mk_Params {
  param_user : option string;
  param_password : option string;
  param_content_user : option string;
  param_content_password : option string;
  param_nocproxy : option string;
  param_retry : option string;
  content_proxy : string;
  p_proxy : string;
  realm : string;
  torus_url : string;
  out_args : list (string * string);
  proxy_step : Z
}.
Definition set_user (u p : option string) (x : Params) : Params :=
  mk_Params u p (param_content_user x) (param_content_password x) (param_nocproxy x)
    (param_retry x) (content_proxy x) (p_proxy x) (realm x) (torus_url x) (out_args x)
    (proxy_step x).
Definition set_content_user (u p : option string) (x : Params) : Params :=
  mk_Params (param_user x) (param_password x) u p (param_nocproxy x)
    (param_retry x) (content_proxy x) (p_proxy x) (realm x) (torus_url x) (out_args x)
    (proxy_step x).
Definition set_flags (nocproxy retry : option string) (x : Params) : Params :=
  mk_Params (param_user x) (param_password x) (param_content_user x)
    (param_content_password x) nocproxy retry (content_proxy x) (p_proxy x) (realm x)
    (torus_url x) (out_args x) (proxy_step x).
Definition set_content_proxy (v : string) (x : Params) : Params :=
  mk_Params (param_user x) (param_password x) (param_content_user x)
    (param_content_password x) (param_nocproxy x) (param_retry x) v (p_proxy x) (realm x)
    (torus_url x) (out_args x) (proxy_step x).
Definition set_proxy (v : string) (step : Z) (x : Params) : Params :=
  mk_Params (param_user x) (param_password x) (param_content_user x)
    (param_content_password x) (param_nocproxy x) (param_retry x) (content_proxy x) v (realm x)
    (torus_url x) (out_args x) step.
Definition set_torus (r url : string) (x : Params) : Params :=
  mk_Params (param_user x) (param_password x) (param_content_user x)
    (param_content_password x) (param_nocproxy x) (param_retry x) (content_proxy x) (p_proxy x)
    r url (out_args x) (proxy_step x).
Definition set_out_args (l : list (string * string)) (x : Params) : Params :=
  mk_Params (param_user x) (param_password x) (param_content_user x)
    (param_content_password x) (param_nocproxy x) (param_retry x) (content_proxy x) (p_proxy x)
    (realm x) (torus_url x) l (proxy_step x).
(** [out_names[no_out_args] = name; out_values[no_out_args++] = value]. *)
Definition add_out (cap : nat) (name value : string) (l : list (string * string)) :
    outcome (list (string * string)) :=
  if decide (length l < cap)%nat then Ok (l ++ [(name, value)]) else Undef OutOfBounds.

(** The argument proxy: the one after the current proxy when the connection is
    used again, the one of the step when it is not. *)
Fixpoint proxy_index (p : string) (l : list string) (i : Z) : Z :=
  match l with
  | [] => i
  | d :: l' => if decide (p = d) then i else proxy_index p l' (i + 1)
  end.
Definition proxy_arg (connection_reuse : bool) (value : string) (x : Params) : Params :=
  let dstr := nmem_strsplit_comma value in
  let dnum := Z.of_nat (length dstr) in
  if connection_reuse then
    let i := proxy_index (p_proxy x) dstr 0 in
    set_proxy (p_proxy x) (if dnum - 1 <=? i then 0 else i + 1) x
  else
    match dstr !! Z.to_nat (proxy_step x) with
    | None => set_proxy (p_proxy x) 0 x
    | Some d =>
        let step := proxy_step x + 1 in
        set_proxy d (if step =? dnum then 0 else step) x
    end.
Definition database_arg (cap : nat) (connection_reuse : bool) (session_realm name value : string)
    (x : Params) : outcome (Params + string * Z) :=
  if decide (name = "user") then Ok (inl (set_user (Some value) (param_password x) x))
  else if decide (name = "password") then Ok (inl (set_user (param_user x) (Some value) x))
  else if decide (name = "content-user") then
    Ok (inl (set_content_user (Some value) (param_content_password x) x))
  else if decide (name = "content-password") then
    Ok (inl (set_content_user (param_content_user x) (Some value) x))
  else if decide (name = "content-proxy") then Ok (inl (set_content_proxy value x))
  else if decide (name = "nocproxy") then Ok (inl (set_flags (Some value) (param_retry x) x))
  else if decide (name = "retry") then Ok (inl (set_flags (param_nocproxy x) (Some value) x))
  else if decide (name = "proxy") then Ok (inl (proxy_arg connection_reuse value x))
  else if decide (name = "cproxysession") then
    l ← add_out cap name value (out_args x);
    Ok (inl (set_torus (realm x) (conf c torus_content_url) (set_out_args l x)))
  else if decide (name = "realm" ∧ session_realm = "") then
    Ok (inl (set_torus value (torus_url x) x))
  else if decide (name = "torus_url" ∧ session_realm = "") then
    Ok (inl (set_torus (realm x) value x))
  else if decide (str_take 2 name = "x-") then
    l ← add_out cap name value (out_args x);
    Ok (inl (set_out_args l x))
  else Ok (inr (name, proxy_step x)).
(** The loop over the arguments; the name of one that is not known, and the
    step that was reached. *)
Fixpoint database_args (cap : nat) (connection_reuse : bool) (session_realm : string)
    (l : list (string * string)) (x : Params) : outcome (Params + string * Z) :=
  match l with
  | [] => Ok (inl x)
  | (name, value) :: l' =>
      r ← database_arg cap connection_reuse session_realm name value x;
      match r with
      | inl x => database_args cap connection_reuse session_realm l' x
      | inr bad => Ok (inr bad)
      end
  end.

(** ** The profile of a database *)

(** The records of a document of the Torus. *)
Fixpoint torus_records (database : string) (l : list xmlNode) (s : option Searchable) :
    outcome (option Searchable + diag) :=
  match l with
  | [] => Ok (inl s)
  | n :: l' =>
      if decide (n_type n = XML_ELEMENT_NODE ∧ n_name n = "record") then
        match s with
        | Some _ => Ok (inr (BIB1_UNSPECIFIED_ERROR,
                             Some ("multiple records for udb=" +:+ database)))
        | None => s ← parse_torus_record (bibset c) n; torus_records database l' (Some s)
        end
      else torus_records database l' s
  end.
Definition torus_document (database : string) (doc : xmlDoc) : outcome (option Searchable + diag) :=
  match doc with
  | [] => Ok (inl None)
  | n :: _ =>
      if decide (n_type n ≠ XML_ELEMENT_NODE) then Ok (inl None)
      else if decide (n_name n = "record") then
        s ← parse_torus_record (bibset c) n; Ok (inl (Some s))
      else if decide (n_name n = "records") then torus_records database (n_children n) None
      else Ok (inr (BIB1_UNSPECIFIED_ERROR, Some ("bad root element for torus: " +:+ n_name n)))
  end.
Definition find_searchable (database torus_db : string) (x : Params) :
    M W (Searchable + diag) :=
  r ← (match s_map c !! torus_db with
       | Some s => mret (inl (Some s))
       | None =>
           if decide (torus_url x = "") then mret (inl None)
           else
             '(doc, torus_addinfo) ← Torus.get_searchable yaz_encode_uri_component xmlParseMemory
               (torus_url x) torus_db ("udb==" +:+ torus_db) (realm x) (conf c proxy);
             match doc with
             | None => mret (inr (BIB1_UNSPECIFIED_ERROR,
                                  if decide (torus_addinfo = "") then None
                                  else Some torus_addinfo))
             | Some doc => lift_outcome (torus_document database doc)
             end
       end);
  mret (match r with
        | inl (Some s) => inl s
        | inl None => inr (BIB1_DATABASE_DOES_NOT_EXIST, Some torus_db)
        | inr e => inr e
        end).
(** The stylesheet of a profile. *)
Definition profile_xsp (s : Searchable) : option stylesheet + diag :=
  if decide (text s transform_xsl_content ≠ "") then
    match xmlParseMemory (text s transform_xsl_content) with
    | None => inr (BIB1_TEMPORARY_SYSTEM_ERROR,
                   Some "zoom: xmlParseMemory failed for literalTransform XSL")
    | Some doc =>
        match xsltParseStylesheetDoc doc with
        | None => inr (BIB1_DATABASE_DOES_NOT_EXIST,
                       Some "zoom: xsltParseStylesheetDoc failed for literalTransform XSL")
        | Some x => inl (Some x)
        end
    end
  else if decide (text s transform_xsl_fname ≠ "") then
    let path := if decide (conf c xsldir = "") then conf c file_path else conf c xsldir in
    match yaz_filepath_resolve (text s transform_xsl_fname) path with
    | None => inr (BIB1_TEMPORARY_SYSTEM_ERROR,
                   Some ("zoom: could not open file " +:+ text s transform_xsl_fname))
    | Some fname =>
        match xmlParseFile fname with
        | None => inr (BIB1_TEMPORARY_SYSTEM_ERROR,
                       Some ("zoom: xmlParseFile failed for file " +:+ fname))
        | Some doc =>
            match xsltParseStylesheetDoc doc with
            | None => inr (BIB1_TEMPORARY_SYSTEM_ERROR,
                           Some ("zoom: xsltParseStylesheetDoc failed for file " +:+ fname))
            | Some x => inl (Some x)
            end
        end
    end
  else inl None.
Definition profile_cqlt (s : Searchable) : option cql_transform_t :=
  if decide (text s rpn2cql_fname = "") then Some cql_transform_create
  else match yaz_filepath_resolve (text s rpn2cql_fname) (conf c file_path) with
       | Some fname => cql_transform_open_fname fname
       | None => None
       end.

(** ** A new connection *)

(** Credentials of one of the two logins. *)
Definition credentials (own : string) (user password : option string) : string :=
  match user with
  | Some u => u +:+ match password with Some p => "/" +:+ p | None => "" end
  | None => own
  end.
(** The parameters of a connector that are not given already. *)
Fixpoint add_cf_params (cap : nat) (l out : list (string * string)) :
    outcome (list (string * string)) :=
  match l with
  | [] => Ok out
  | (n, v) :: l' =>
      if existsb (λ nv, bool_decide (n = nv.1)) out then add_cf_params cap l' out
      else out ← add_out cap n v out; add_cf_params cap l' out
  end.
Definition add_if (cap : nat) (name value : string) (l : list (string * string)) :
    outcome (list (string * string)) :=
  if decide (value = "") then Ok l else add_out cap name value l.
(** A target of the connector framework: everything goes into the address. *)
Definition cf_args (cap : nat) (s : Searchable) (auth prox : string) (nocproxy : option string)
    (x : Params) : outcome (list (string * string)) :=
  out ← (match param_user x with
         | Some u =>
             out ← add_out cap "user" u (out_args x);
             match param_password x with
             | Some p => add_out cap "password" p out
             | None => Ok out
             end
         | None =>
             if decide (auth = "") then Ok (out_args x)
             else match find_char "/" auth with
                  | Some found =>
                      out ← add_out cap "user" (str_take found auth) (out_args x);
                      add_out cap "password" (str_drop (S found) auth) out
                  | None => add_out cap "user" auth (out_args x)
                  end
         end);
  out ← add_if cap "proxy" prox out;
  out ← add_if cap "subdatabase" (text s cfSubDB) out;
  let nocproxy := match nocproxy with
                  | None => if decide (text s contentConnector = "") then None else Some "1"
                  | some => some
                  end in
  out ← (match nocproxy with Some v => add_out cap "nocproxy" v out | None => Ok out end);
  add_cf_params cap (cf_param s) out.
(** Any other target: user, group and password are options. *)
Definition auth_options (s : Searchable) (auth prox : string) (b : Backend) : Backend :=
  let cp1 := match find_char " " auth with
             | None => if decide (text s sru = "") then None else find_char "/" auth
             | some => some
             end in
  let b := match cp1 with
           | None => set_option "user" (Some auth) b
           | Some i =>
               let rest := str_drop (S i) auth in
               let b := set_optionl "user" (str_take i auth) b in
               match find_char " " rest with
               | None => set_option "password" (Some rest) b
               | Some j => set_option "password" (Some (str_drop (S j) rest))
                             (set_optionl "group" (str_take j rest) b)
               end
           end in
  let b := if decide (text s authenticationMode = "") then b
           else set_option "authenticationMode" (Some (text s authenticationMode)) b in
  if decide (prox = "") then b else set_option "proxy" (Some prox) b.
Definition set_if (name value : string) (b : Backend) : Backend :=
  if decide (value = "") then b else set_option name (Some value) b.
Definition base_options (s : Searchable) (b : Backend) : Backend :=
  let b := set_if "rpnCharset" (text s query_encoding) b in
  let b := set_option "timeout" (Some (conf c zoom_timeout)) b in
  let b := if apdu_log c then set_option "apdulog" (Some "1") b else b in
  let b := if piggyback s && negb (bool_decide (text s sru = ""))
           then set_option "count" (Some "1") b else b in
  set_option "piggyback" (Some (if piggyback s then "1" else "0")) b.
Definition target_url (s : Searchable) (out : list (string * string)) : string :=
  let url := text s target in
  let url := if decide (text s sru ≠ "") then
               match str_find "://" url with Some _ => url | None => "http://" +:+ url end
             else url in
  match out with [] => url | _ => url +:+ "," +:+ yaz_array_to_uri out end.
Definition sru_options (s : Searchable) (b : Backend) : Backend :=
  if decide (text s sru = "") then b
  else set_if "sru_version" (text s sru_version) (set_option "sru" (Some (text s sru)) b).
(** The connection and the address to connect it to; the credentials and the
    proxy that were chosen. *)
Definition new_backend (cap : nat) (database : string) (s : Searchable) (x : option stylesheet)
    (t : cql_transform_t) (a : Params) : outcome (Backend * string * string * string) :=
  let nocproxy := match param_nocproxy a with
                  | None => if decide (text s no_cproxy = "1") then Some "1" else None
                  | some => some
                  end in
  let auth := credentials (text s authentication) (param_user a) (param_password a) in
  let prox := if decide (p_proxy a = "") then text s cfProxy else p_proxy a in
  let b := base_options s (mk_Backend ZOOM_connection_create None database (Some s) x ""
             (match nocproxy with Some _ => false | None => true end) false None prox (Some t)
             (match param_retry a with Some r => r | None => text s retry_on_failure end)) in
  '(b, out) ← (if decide (text s cfAuth = "") then Ok (auth_options s auth prox b, out_args a)
               else out ← cf_args cap s auth prox nocproxy a;
                    Ok (set_option "user" (Some (text s cfAuth)) b, out));
  let b := sru_options s (set_if "extraArgs" (text s extraArgs) b) in
  (* the terminator of the list has a place too *)
  if decide (out ≠ [] ∧ (cap ≤ length out)%nat) then Undef OutOfBounds
  else Ok (b, target_url s out, auth, prox).

(** ** Explain *)

(** [xml_node_search]: the [m]-th element recordData, not looking inside of
    one; the number of those that were passed. *)
Fixpoint node_search (m : Z) (num : Z) (n : xmlNode) : option xmlNode * Z :=
  let fix forest (num : Z) (l : list xmlNode) : option xmlNode * Z :=
    match l with
    | [] => (None, num)
    | n :: l' =>
        match node_search m num n with
        | (Some r, num) => (Some r, num)
        | (None, num) => forest num l'
        end
    end in
  let '(Node ty name _ _ _ children) := n in
  if decide (ty = XML_ELEMENT_NODE ∧ name = "recordData") then
    (if m =? num + 1 then Some n else None, num + 1)
  else forest num children.
Fixpoint xml_node_search (m : Z) (num : Z) (l : list xmlNode) : option xmlNode * Z :=
  match l with
  | [] => (None, num)
  | n :: l' =>
      match node_search m num n with
      | (Some r, num) => (Some r, num)
      | (None, num) => xml_node_search m num l'
      end
  end.
Definition clear_backend : M (Frontend * W) unit := modify_fr (set_backend None).
(** [explain_search], with the response it makes. *)
Definition explain_search (apdu_req : APDU) (query : Query) (database : string) (x : Params) :
    M (Frontend * W) (option APDU * diag) :=
  clear_backend ;;
  let b := mk_Backend ZOOM_connection_create None database None None "" true true None "" None "" in
  match explain_xsp c, query with
  | None, _ =>
      mret (None, (BIB1_UNSPECIFIED_ERROR,
                   Some "IR-Explain---1 unsupported. Torus explain_xsl not defined"))
  | Some e, Query_type_104 (Some cql) =>
      '(doc, torus_addinfo) ← on_world (Torus.get_searchable yaz_encode_uri_component
         xmlParseMemory (torus_url x) "" cql (realm x) (conf c proxy));
      match xsltApplyStylesheet e doc [] with
      | None => mret (None, (BIB1_UNSPECIFIED_ERROR,
                             if decide (torus_addinfo = "") then None else Some torus_addinfo))
      | Some doc =>
          let hits := (xml_node_search 0 0 doc).2 in
          modify_fr (set_backend (Some (mk_Backend (m_connection b) None database None None ""
            true true (Some doc) "" None ""))) ;;
          mret (Some (searchResponse (set_sr_resultCount hits
                  (create_searchResponse (Some apdu_req) 0 None))), (0, None))
      end
  | Some _, _ =>
      mret (None, (BIB1_QUERY_TYPE_UNSUPP, Some "IR-Explain---1 only supports CQL"))
  end.

(** ** [get_backend_from_databases] *)
Definition split_database (database : string) : string * string :=
  match find_char "," database with
  | Some i => (str_take i database, str_drop (S i) database)
  | None => (database, "")
  end.
(** What is found for a database: the connection, the error, the next proxy to
    try, the response that was made. *)
Record Found : Type := mk_Found {
  f_backend : option Backend;
  f_error : diag;
  f_proxy_step : Z;
  f_response : option APDU
}.
Definition reusable (f : Frontend) (database : string) : option Backend :=
  match m_backend f with
  | Some b => if decide (enable_explain b = false ∧ m_frontend_database b = database)
              then Some b else None
  | None => None
  end.
(** Everything after the profile was found. *)
Definition connect_target (cap : nat) (database : string) (s : Searchable) (a : Params) :
    M (Frontend * W) Found :=
  let step := proxy_step a in
  match profile_xsp s with
  | inr e => mret (mk_Found None e step None)
  | inl x =>
      match profile_cqlt s with
      | None => mret (mk_Found None (BIB1_TEMPORARY_SYSTEM_ERROR,
                        Some "zoom: missing/invalid cql2rpn file") step None)
      | Some t =>
          clear_backend ;;
          '(b, url, auth, prox) ← lift_outcome (new_backend cap database s x t a);
          on_world (package_log "zoom" ("url: " +:+ url)) ;;
          '(b, e) ← on_world (connect url (0, None) b);
          '(b, e) ← (if (e.1 =? 0) && enable_cproxy b then
                       let cauth := credentials (text s contentAuthentication)
                                      (param_content_user a) (param_content_password a) in
                       on_world (create_content_session b (if decide (cauth = "") then auth else cauth)
                         (if decide (content_proxy a = "") then prox else content_proxy a)
                         (realm a) e)
                     else mret (b, e));
          (if e.1 =? 0 then modify_fr (set_backend (Some b)) else mret tt) ;;
          mret (mk_Found (Some b) e step None)
      end
  end.
Definition get_backend_from_databases (apdu_req : APDU) (query : Query) (database : string)
    (step : Z) : M (Frontend * W) Found :=
  f ← get_fr;
  let reuse := reusable f database in
  let '(torus_db, input_args) := split_database database in
  let args := if decide (input_args = "") then [] else yaz_uri_to_array input_args in
  let cap := (20 + length args)%nat in
  let start := mk_Params None None None None None None ""
    (match reuse with Some b => m_proxy b | None => "" end)
    (if decide (session_realm f = "") then conf c default_realm else session_realm f)
    (conf c torus_searchable_url) [] step in
  r ← lift_outcome (database_args cap (match reuse with Some _ => true | None => false end)
        (session_realm f) args start);
  match r with
  | inr (name, step) => mret (mk_Found None (BIB1_TEMPORARY_SYSTEM_ERROR,
                        Some ("zoom: bad database argument: " +:+ name)) step None)
  | inl a =>
      (if decide (p_proxy a = "") then mret tt
       else on_world (package_log "zoom" ("proxy: " +:+ p_proxy a))) ;;
      match reuse with
      | Some b =>
          '(b, e) ← on_world (connect "" (0, None) b);
          modify_fr (set_backend (Some b)) ;;
          mret (mk_Found (Some b) e (proxy_step a) None)
      | None =>
          if decide (torus_db = "IR-Explain---1") then
            '(res, e) ← explain_search apdu_req query database a;
            f ← get_fr;
            mret (mk_Found (m_backend f) e (proxy_step a) res)
          else
            r ← on_world (find_searchable database torus_db a);
            match r with
            | inr e => mret (mk_Found None e (proxy_step a) None)
            | inl s => connect_target cap database s a
            end
      end
  end.
End backend.

(** ** The code comes to an end

    if the operations of the ZOOM client and of the operating system do. *)
Class ZoomReturns (W : Type) `{ZoomYaz, UrlClient W, ZoomClient W, ZoomSystem W} : Prop := {
  regex_returns : ∀ pat icase text repl all, no_fuel (regex_replace pat icase text repl all);
  url_returns : ∀ proxy url headers (w : W), ends (yaz_url_exec proxy url headers) w any;
  connect_returns : ∀ x url (w : W), ends (ZOOM_connection_connect x url) w any;
  search_returns : ∀ x q (w : W), ends (ZOOM_connection_search x q) w any;
  records_returns : ∀ x rs start count (w : W), ends (ZOOM_resultset_records x rs start count) w any;
  rand_returns : ∀ w : W, ends rand w any;
  fopen_returns : ∀ name text (w : W), ends (fopen_write name text) w any
}.
Lemma log_write_ends {W} `{PackageLog W} s w (Q : unit → W → Prop) :
  (∀ w, Q tt w) → ends (log_write s) w Q.
Proof. intros HQ. apply HQ. Qed.
Lemma package_log_ends {W} `{PackageLog W} m s w (Q : unit → W → Prop) :
  (∀ w, Q tt w) → ends (package_log m s) w Q.
Proof. apply log_write_ends. Qed.

(** Steps through a computation whose result does not matter: [tac] is tried
    on the calls. *)
Ltac ends_step tac :=
  match goal with
  | |- ends (mret _) _ _ => apply ends_ret
  | |- ends (_ ≫= _) _ _ => apply ends_bind
  | |- ends (undef _) _ _ => apply ends_undef
  | |- ends (on_world _) _ _ => apply ends_on_world
  | |- ends get_fr _ _ => apply ends_get_fr
  | |- ends (modify_fr _) _ _ => apply ends_modify_fr
  | |- ends (package_log _ _) _ _ => apply package_log_ends; intros ?
  | |- ends (log_write _) _ _ => apply log_write_ends; intros ?
  | |- ends (deref _) _ _ => apply ends_deref; intros ? ?
  | |- ends _ _ _ => tac
  | |- ends (match ?x with _ => _ end) _ _ => destruct x eqn:?
  | |- any _ _ => exact I
  | |- ends _ _ _ => progress cbn beta zeta
  end.
Ltac ends_auto tac := repeat (ends_step tac); try exact I.

Section ends.
Context `{HCcl : Ccl, HXslt : Xslt, HFiles : Files, Y : Yaz, HYaz : ZoomYaz} {W : Type}.
Context `{PackageLog W, UrlClient W, ZoomClient W, ZoomSystem W, !ZoomReturns W}.
Context (c : Impl).

Lemma log_diagnostic_ends e (w : W) : ends (log_diagnostic e) w any.
Proof. unfold log_diagnostic. by apply package_log_ends. Qed.
Lemma connect_ends url old b (w : W) : ends (connect url old b) w any.
Proof. unfold connect. ends_auto ltac:(eapply ends_true; [apply connect_returns|intros ? ?]). Qed.
Lemma torus_ends template db query r p (w : W) :
  ends (Torus.get_searchable yaz_encode_uri_component xmlParseMemory template db query r p) w any.
Proof.
  unfold Torus.get_searchable.
  ends_auto ltac:(eapply ends_true; [apply url_returns|intros ? ?]).
Qed.

(** *** The content proxy *)
Lemma fgets_shorter room s : (0 < room)%nat → s ≠ "" →
  (String.length (fgets room s).2 < String.length s)%nat.
Proof.
  revert s. induction room as [|room IH]; intros s Hroom Hs; [lia|].
  destruct s as [|ch s]; [done|]. cbn [fgets]. case_decide; [cbn; lia|].
  destruct (decide (room = O ∨ s = "")) as [[-> | ->]|Hne].
  - cbn. lia.
  - destruct room; cbn; lia.
  - specialize (IH s ltac:(lia) ltac:(tauto)).
    destruct (fgets room s) as [l r]. cbn in *. lia.
Qed.
Lemma content_config_no_fuel fuel s acc :
  (String.length s ≤ fuel)%nat → no_fuel (content_config fuel s acc).
Proof.
  revert s acc. induction fuel as [|fuel IH]; intros s acc Hs; destruct s as [|ch s];
    try done; cbn in Hs; [lia|].
  cbn [content_config]. pose proof (fgets_shorter 1022 (String ch s) ltac:(lia) ltac:(done)) as Hf.
  destruct (fgets 1022 (String ch s)) as [buf rest]. cbn in Hf. apply IH. lia.
Qed.
Lemma create_content_session_ends auth prox r old b (w : W) :
  ends (create_content_session c b auth prox r old) w any.
Proof.
  unfold create_content_session.
  ends_auto ltac:(first [apply ends_lift; [by apply content_config_no_fuel|intros ? ?]
    |eapply ends_true; [apply rand_returns|intros ? ?]
    |eapply ends_true; [apply fopen_returns|intros ? ?]]).
Qed.

(** *** Arguments *)
Lemma add_out_no_fuel cap n v l : no_fuel (add_out cap n v l).
Proof. unfold add_out. by case_decide. Qed.
Lemma database_arg_no_fuel cap reuse r n v x : no_fuel (database_arg c cap reuse r n v x).
Proof.
  unfold database_arg. repeat (case_decide; [try done|]);
    try (apply no_fuel_bind; [apply add_out_no_fuel|done]); done.
Qed.
Lemma database_args_no_fuel cap reuse r l x : no_fuel (database_args c cap reuse r l x).
Proof.
  revert x. induction l as [|[n v] l IH]; intros x; [done|]. cbn [database_args].
  apply no_fuel_bind; [apply database_arg_no_fuel|]. intros [y|bad] _; [apply IH|done].
Qed.
Lemma add_cf_params_no_fuel cap l out : no_fuel (add_cf_params cap l out).
Proof.
  revert out. induction l as [|[n v] l IH]; intros out; [done|]. cbn [add_cf_params].
  case_match; [apply IH|]. apply no_fuel_bind; [apply add_out_no_fuel|intros ? _; apply IH].
Qed.
Lemma cf_args_no_fuel cap s auth prox nocproxy a : no_fuel (cf_args cap s auth prox nocproxy a).
Proof.
  unfold cf_args. repeat (first [apply no_fuel_bind; [|intros ? _] | case_match | done
    | apply add_out_no_fuel | apply add_cf_params_no_fuel | unfold add_if]).
Qed.
Lemma new_backend_no_fuel cap db s x t a : no_fuel (new_backend c cap db s x t a).
Proof.
  unfold new_backend. cbn zeta. apply no_fuel_bind.
  - case_decide; [done|]. apply no_fuel_bind; [apply cf_args_no_fuel|done].
  - intros [b out] _. by case_decide.
Qed.

(** *** Profiles *)
Lemma record_children_no_fuel first s ptr : no_fuel (record_children first s ptr).
Proof.
  revert first s. induction ptr as [ty name ns ct attrs children IH] using xmlNode_tree_ind.
  intros first s. cbn [record_children].
  match goal with |- no_fuel (if first then ?f children s else _) =>
    assert (Hsib : ∀ l s, Forall (λ n, ∀ first s, no_fuel (record_children first s n)) l →
      no_fuel (f l s)) end.
  { induction l as [|n l IHl]; intros s' Hall; [done|]. inversion Hall; subst.
    case_decide; [by apply IHl|]. case_decide; [done|]. by apply IHl. }
  destruct first; [by apply Hsib|]. destruct children; [done|]. inversion IH; subst.
  by apply Hsib.
Qed.
Lemma torus_records_no_fuel db l s : no_fuel (torus_records c db l s).
Proof.
  revert s. induction l as [|n l IH]; intros s; [done|]. cbn [torus_records].
  case_decide; [|apply IH]. destruct s; [done|].
  apply no_fuel_bind; [apply record_children_no_fuel|intros s _; apply IH].
Qed.
Lemma torus_document_no_fuel db doc : no_fuel (torus_document c db doc).
Proof.
  unfold torus_document. destruct doc as [|n l]; [done|]. case_decide; [done|].
  case_decide; [apply no_fuel_bind; [apply record_children_no_fuel|done]|].
  case_decide; [apply torus_records_no_fuel|done].
Qed.
Lemma find_searchable_ends db torus_db a (w : W) :
  ends (find_searchable c db torus_db a) w any.
Proof.
  unfold find_searchable.
  ends_auto ltac:(first [eapply ends_true; [apply torus_ends|intros ? ?]
    |apply ends_lift; [by apply torus_document_no_fuel|intros ? ?]]).
Qed.
Lemma explain_search_ends apdu q db a (s : Frontend * W) :
  ends (explain_search c apdu q db a) s any.
Proof.
  destruct s as [f w]. unfold explain_search, clear_backend.
  ends_auto ltac:(eapply ends_true; [apply torus_ends|intros ? ?]).
Qed.
Lemma connect_target_ends cap db s a (fw : Frontend * W) :
  ends (connect_target c cap db s a) fw (λ found _, f_proxy_step found = proxy_step a).
Proof.
  destruct fw as [f w]. unfold connect_target, clear_backend.
  ends_auto ltac:(first
    [apply ends_lift; [by apply new_backend_no_fuel|intros ? ?]
    |eapply ends_true; [apply connect_ends|intros ? ?]
    |eapply ends_true; [apply create_content_session_ends|intros ? ?]]); done.
Qed.

(** *** The step through the proxies *)
Definition proxies (args : list (string * string)) : list (string * string) :=
  filter (λ nv, nv.1 = "proxy") args.
Definition proxy_count (args : list (string * string)) : Z :=
  match proxies args with
  | [] => 0
  | (_, v) :: _ => Z.of_nat (length (nmem_strsplit_comma v))
  end.
(** With one argument proxy at most: back to the start, or on to a proxy of
    the list, the next one unless the connection is used again. *)
Definition step_rel (reuse : bool) (args : list (string * string)) (s s' : Z) : Prop :=
  match proxies args with
  | [] => s' = s
  | _ => s' = 0 ∨ (0 < s' < proxy_count args ∧ (reuse = false → s' = s + 1))
  end.
Lemma proxy_index_le p l i : i ≤ proxy_index p l i.
Proof.
  revert i. induction l as [|d l IH]; intros i; cbn; [lia|]. case_decide; [lia|].
  specialize (IH (i + 1)). lia.
Qed.
Lemma proxy_arg_step reuse v x (n := Z.of_nat (length (nmem_strsplit_comma v)))
    (s' := proxy_step (proxy_arg reuse v x)) :
  0 ≤ proxy_step x →
  s' = 0 ∨ (0 < s' < n ∧ (reuse = false → s' = proxy_step x + 1)).
Proof.
  intros Hs. subst s' n. unfold proxy_arg. destruct reuse; cbn.
  - pose proof (proxy_index_le (p_proxy x) (nmem_strsplit_comma v) 0).
    destruct (Z.leb_spec (Z.of_nat (length (nmem_strsplit_comma v)) - 1)
      (proxy_index (p_proxy x) (nmem_strsplit_comma v) 0)); [by left|right]. split; [lia|done].
  - destruct (nmem_strsplit_comma v !! Z.to_nat (proxy_step x)) as [d|] eqn:Hd; cbn; [|by left].
    apply lookup_lt_Some in Hd.
    destruct (Z.eqb_spec (proxy_step x + 1) (Z.of_nat (length (nmem_strsplit_comma v))));
      [by left|right]. split; [lia|done].
Qed.
Lemma database_arg_step cap reuse r n v x y : n ≠ "proxy" →
  database_arg c cap reuse r n v x = Ok (inl y) → proxy_step y = proxy_step x.
Proof.
  intros Hn. unfold database_arg, add_out, mbind, outcome_bind.
  intros H'. repeat (case_decide; try congruence); simplify_eq; done.
Qed.
Lemma database_args_step cap reuse r args x y :
  database_args c cap reuse r args x = Ok (inl y) → 0 ≤ proxy_step x →
  (length (proxies args) ≤ 1)%nat →
  step_rel reuse args (proxy_step x) (proxy_step y).
Proof.
  revert x. induction args as [|[n v] args IH]; intros x; cbn [database_args].
  { intros [= <-] _ _. done. }
  unfold mbind at 1, outcome_bind at 1.
  destruct (database_arg c cap reuse r n v x) as [[z|bad]|?|?|] eqn:Hz; try done.
  intros Hy Hx Hlen. unfold step_rel, proxy_count, proxies in *. rewrite !filter_cons in *.
  cbn [fst] in *. destruct (decide (n = "proxy")) as [->|Hn].
  - cbn [length] in Hlen.
    assert (Hz' : z = proxy_arg reuse v x) by (change (Ok (inl (proxy_arg reuse v x)) = Ok (inl z : Params + string * Z)) in Hz; congruence).
    destruct (filter (λ nv : string * string, nv.1 = "proxy") args) as [|? l] eqn:Hargs;
      [|cbn in Hlen; lia].
    pose proof (proxy_arg_step reuse v x Hx) as Hs. cbn in Hs. rewrite <-Hz' in Hs.
    specialize (IH z Hy ltac:(destruct Hs as [->|[? _]]; lia) ltac:(cbn; lia)).
    cbn in IH. by rewrite IH.
  - pose proof (database_arg_step _ _ _ _ _ _ _ Hn Hz) as Hs. rewrite <-Hs.
    apply IH; [done|lia|done].
Qed.

Definition reuses (f : Frontend) (database : string) : bool :=
  match reusable f database with Some _ => true | None => false end.
Definition args_of (database : string) : list (string * string) :=
  let input_args := (split_database database).2 in
  if decide (input_args = "") then [] else yaz_uri_to_array input_args.
Lemma get_backend_ends apdu q database step f (w : W) :
  0 ≤ step → (length (proxies (args_of database)) ≤ 1)%nat →
  ends (get_backend_from_databases c apdu q database step) (f, w) (λ found _,
    f_backend found ≠ None →
    step_rel (reuses f database) (args_of database) step (f_proxy_step found)).
Proof.
  intros Hstep Hlen. unfold get_backend_from_databases.
  apply ends_bind, ends_get_fr. fold (reuses f database).
  destruct (split_database database) as [torus_db input_args] eqn:Hsplit.
  assert (Hargs : (if decide (input_args = "") then [] else yaz_uri_to_array input_args) =
    args_of database) by (unfold args_of; by rewrite Hsplit).
  rewrite Hargs. clear Hargs Hsplit.
  apply ends_bind, ends_lift; [apply database_args_no_fuel|].
  intros [a|[name bad]] Ha; [|by apply ends_ret].
  apply database_args_step in Ha; [|done..]. cbn [proxy_step] in Ha. fold (reuses f database) in Ha.
  apply ends_bind. eapply ends_true; [ends_auto fail|]. intros ? [f1 w1].
  destruct (reusable f database) as [b|].
  - ends_auto ltac:(eapply ends_true; [apply connect_ends|intros ? ?]). done.
  - case_decide.
    + apply ends_bind. eapply ends_true; [apply explain_search_ends|]. intros [res e] [f2 w2].
      ends_auto fail. done.
    + ends_auto ltac:(first [eapply ends_true; [apply find_searchable_ends|intros ? ?]
        |eapply ends_mono; [apply connect_target_ends|]]); try done.
      intros found ? Hf _. by rewrite Hf.
Qed.
End ends.

(** ** Realms *)
Section realms.
Context `{HCcl : Ccl, HXslt : Xslt, HFiles : Files, Y : Yaz, HYaz : ZoomYaz} (c : Impl).
(** What the arguments of a database do to the Torus that is asked. *)
Definition same_torus (x y : Params) : Prop :=
  realm y = realm x ∧ (torus_url y = torus_url x ∨ torus_url y = conf c torus_content_url).
Lemma same_torus_trans x y z : same_torus x y → same_torus y z → same_torus x z.
Proof. unfold same_torus. intros [-> H1] [-> [->|H2]]; auto. Qed.
Lemma database_arg_torus cap reuse r n v x y : r ≠ "" →
  database_arg c cap reuse r n v x = Ok (inl y) → same_torus x y.
Proof.
  unfold same_torus, database_arg, add_out, mbind, outcome_bind, proxy_arg. intros Hr.
  repeat (case_decide; try tauto); intros; simplify_eq; cbn; auto; repeat case_match; cbn; auto.
Qed.
(** C37. The client of a session whose realm comes from the authentication cannot
    choose the realm or the Torus with the arguments of a database: the realm
    stays, and the address is the one it was or the configured one of the
    content Torus. *)
Theorem session_realm_confines cap reuse session_realm args x y
    (Hr : session_realm ≠ "") (Hargs : database_args c cap reuse session_realm args x = Ok (inl y)) :
  realm y = realm x ∧ (torus_url y = torus_url x ∨ torus_url y = conf c torus_content_url).
Proof.
  fold (same_torus x y). revert x Hargs. induction args as [|[n v] args IH]; intros x.
  - intros [= ->]. split; auto.
  - cbn [database_args]. unfold mbind, outcome_bind.
    destruct (database_arg c cap reuse session_realm n v x) as [[z|bad]|?|?|] eqn:Hz; try done.
    intros Hargs. eapply same_torus_trans; [by eapply database_arg_torus|by apply IH].
Qed.
End realms.

(** ** Places for the arguments of an address *)
Section places.
Context `{HCcl : Ccl, HXslt : Xslt, HFiles : Files, Y : Yaz, HYaz : ZoomYaz} {W : Type}.
Context `{PackageLog W, UrlClient W, ZoomClient W, ZoomSystem W} (c : Impl).
(** The list fits with [n] more places, one of them for a terminator. *)
Definition fits (bound : nat) (o : outcome (list (string * string))) : Prop :=
  ∃ l, o = Ok l ∧ (length l ≤ bound)%nat.
Lemma add_out_fits cap n v l : (length l < cap)%nat → fits (S (length l)) (add_out cap n v l).
Proof.
  intros Hl. unfold add_out. rewrite decide_True by done. eexists. split; [done|].
  rewrite length_app. cbn. lia.
Qed.
Lemma fits_bind a b o f :
  fits a o → (∀ l, (length l ≤ a)%nat → fits b (f l)) → fits b (o ≫= f).
Proof. intros (l & -> & Hl) Hf. by apply Hf. Qed.
Lemma fits_mono a b o : fits a o → (a ≤ b)%nat → fits b o.
Proof. intros (l & -> & Hl) Hab. exists l. split; [done|lia]. Qed.
Lemma fits_ok bound l : (length l ≤ bound)%nat → fits bound (Ok l).
Proof. intros Hl. by exists l. Qed.
Lemma add_out_fits' cap n v l bound :
  (length l < cap)%nat → (length l < bound)%nat → fits bound (add_out cap n v l).
Proof. intros Hl Hb. eapply fits_mono; [by apply add_out_fits|lia]. Qed.
Lemma add_cf_params_fits cap l out :
  (length out + length l ≤ cap)%nat → fits (length out + length l) (add_cf_params cap l out).
Proof.
  revert out. induction l as [|[n v] l IH]; intros out Hcap; cbn in *.
  { apply fits_ok. lia. }
  case_match; [eapply fits_mono; [apply IH; lia|lia]|].
  destruct (add_out_fits cap n v out) as (out' & -> & Hout'); [lia|]. cbn.
  eapply fits_mono; [apply IH; lia|lia].
Qed.
Lemma cf_args_fits cap s auth prox nocproxy a n :
  (length (out_args a) ≤ n)%nat → (n + 5 + length (cf_param s) ≤ cap)%nat →
  fits (n + 5 + length (cf_param s)) (cf_args cap s auth prox nocproxy a).
Proof.
  intros Hn Hcap. unfold cf_args, add_if.
  apply (fits_bind (n + 2)).
  { repeat case_match; try (apply fits_ok; lia); try (apply add_out_fits'; lia);
      (apply (fits_bind (n + 1)); [apply add_out_fits'; lia|intros l Hl]);
      (apply fits_ok; lia) || (apply add_out_fits'; lia). }
  intros l1 Hl1. apply (fits_bind (n + 3)).
  { case_decide; [apply fits_ok; lia|apply add_out_fits'; lia]. }
  intros l2 Hl2. apply (fits_bind (n + 4)).
  { case_decide; [apply fits_ok; lia|apply add_out_fits'; lia]. }
  intros l3 Hl3. apply (fits_bind (n + 5)).
  { repeat case_match; try (apply fits_ok; lia); apply add_out_fits'; lia. }
  intros l4 Hl4. eapply fits_mono; [apply add_cf_params_fits; lia|lia].
Qed.
Lemma database_arg_places cap reuse r n v x y :
  database_arg c cap reuse r n v x = Ok (inl y) →
  (length (out_args y) ≤ S (length (out_args x)))%nat.
Proof.
  unfold database_arg, add_out, mbind, outcome_bind, proxy_arg.
  repeat (case_decide; try tauto); intros; simplify_eq; cbn; try lia;
    rewrite ?length_app; cbn; try lia; repeat case_match; cbn; lia.
Qed.
Lemma database_args_places cap reuse r args x y :
  database_args c cap reuse r args x = Ok (inl y) →
  (length (out_args y) ≤ length args + length (out_args x))%nat.
Proof.
  revert x. induction args as [|[n v] args IH]; intros x; cbn [database_args].
  { intros [= ->]. cbn. lia. }
  unfold mbind, outcome_bind.
  destruct (database_arg c cap reuse r n v x) as [[z|bad]|?|?|] eqn:Hz; try done.
  intros Hy%IH. apply database_arg_places in Hz. cbn. lia.
Qed.
(** The arrays for the arguments of a connection have 20 places more than the
    client's arguments. They are enough when the profile has at most 14
    parameters of its own. *)
Theorem cf_params_fit args reuse session_realm x a database s st t
    (Hx : out_args x = []) (Hs : (length (cf_param s) ≤ 14)%nat)
    (Ha : database_args c (20 + length args) reuse session_realm args x = Ok (inl a)) :
  new_backend c (20 + length args) database s st t a ≠ Undef OutOfBounds.
Proof.
  apply database_args_places in Ha. rewrite Hx in Ha. cbn [length] in Ha.
  unfold new_backend. cbn zeta.
  destruct (decide (text s cfAuth = "")).
  - unfold mbind, outcome_bind. case_decide as Hd; [|done]. destruct Hd as [_ Hd]. lia.
  - match goal with |- context [cf_args ?cap s ?auth ?prox ?no a] =>
      destruct (cf_args_fits cap s auth prox no a (length args)) as (out & -> & Hout) end;
      [lia|lia|].
    unfold mbind, outcome_bind. case_decide as Hd; [|done]. destruct Hd as [_ Hd]. lia.
Qed.
End places.

Section examples.
#[local] Existing Instances ref_ccl ref_xslt ref_files ref_zoom_yaz ref_log ref_system.
#[local] Instance example_url : UrlClient (option string) := ref_url None.
#[local] Instance example_client : ZoomClient (option string) := ref_client true 3.
Definition example_args : list (string * string) := [("realm", "r2"); ("torus_url", "http://x")].
Definition example_params : Params :=
  mk_Params None None None None None None "" "" "r1" "http://torus" [] 0.
Lemma session_realm_confines_witness :
  database_args Impl_new 22 false "r1" example_args example_params = Ok (inr ("realm", 0)) ∧
  ∃ y, database_args Impl_new 22 false "r1" [("cproxysession", "7")] example_params = Ok (inl y) ∧
    realm y = "r1".
Proof.
  split; [vm_compute; reflexivity|].
  eexists. split; [reflexivity|].
  apply (session_realm_confines Impl_new 22 false "r1" [("cproxysession", "7")] example_params);
    [discriminate|reflexivity].
Defined.
(** Without a realm of its own the session is where the client wants it. *)
Example no_session_realm : ∃ y,
  database_args Impl_new 22 false "" example_args example_params = Ok (inl y) ∧
  realm y = "r2" ∧ torus_url y = "http://x".
Proof. by eexists. Qed.

(** A profile of the connector framework with [n] parameters. *)
Definition cf_profile (n : nat) : Searchable :=
  mk_Searchable (λ m, match m with cfAuth => "u/p" | authentication => "u/p" | _ => "" end)
    ((λ i, (print_int (Z.of_nat i), "v")) <$> seq 0 n) true ccl_qual_mk ∅.
Lemma cf_params_fit_witness :
  length (cf_param (cf_profile 14)) = 14%nat ∧
  new_backend Impl_new 20 "db" (cf_profile 14) None tt example_params ≠ Undef OutOfBounds.
Proof.
  split; [reflexivity|].
  apply (cf_params_fit Impl_new [] false "" example_params); reflexivity || (cbn; lia).
Defined.
(** The profile decides: with more parameters the places behind the array are
    written. *)
Example cf_params_overflow :
  match new_backend Impl_new 20 "db" (cf_profile 18) None tt example_params with
  | Undef OutOfBounds => true
  | _ => false
  end = true.
Proof. vm_compute. reflexivity. Qed.
End examples.
Lemma ref_returns answer up hits :
  ZoomReturns (option string) (H := ref_zoom_yaz) (H0 := ref_url answer) (H1 := ref_client up hits)
    (H2 := ref_system).
Proof. by split. Qed.
End ZoomBackend.
