(* ===== verification/ZoomRecords.v ===== *)
(** * The zoom filter: records

    [src/filter_zoom.cpp], the functions of [Frontend] that choose a record
    syntax and an element set, and make the records of a response. A record
    goes through the stylesheet of its target, gets a URL by the recipe of the
    target, and goes through the common stylesheet. *)
From S2P Require Import Prelude Zgdu Yaz Core Xml Libxml Util Frontends UrlRecipe Torus Zoom ZoomBackend.

Module ZoomRecords.
Import Zoom ZoomBackend.
Definition crlf : string := String "013" (String "010" "").
Section records.
Context `{Ccl, Xslt, Files, Y : Yaz, ZoomYaz} {R W : Type}.
Context `{PackageLog W, UrlClient W, ZoomClient W, ZoomSystem W}.
Context (c : Impl).

(** ** Element sets *)

(** [match_element]: a question mark says that no name will do, too. *)
Definition match_element (actual_element_set_name : option string) (config_element : string) :
    bool :=
  match config_element with
  | EmptyString => false
  | String ch cp =>
      let is_optional := bool_decide (ch = "?"%char) in
      match actual_element_set_name with
      | None => is_optional
      | Some a => bool_decide ((if is_optional then cp else config_element) = a)
      end
  end.
(** The flags of [prepare_elements]. *)
Record Flags : Type := mk_Flags {
  enable_pz2_retrieval : bool;
  enable_pz2_transform : bool;
  enable_record_transform : bool;
  assume_marc8_charset : bool;
  use_turbomarc : bool
}.
Definition no_flags : Flags := mk_Flags false false false false false.
Definition element_flags (preferredRecordSyntax element_set_name : option string) : Flags :=
  if decide (preferredRecordSyntax = Some recsyn_xml) then
    if match_element element_set_name (conf c element_transform)
    then mk_Flags true true false false true
    else if match_element element_set_name (conf c element_raw)
    then mk_Flags true false false false true
    else if match_element element_set_name (conf c element_marcxml)
    then mk_Flags true false false false false
    else match record_xsp c with
         | Some _ => mk_Flags true true true false true
         | None => no_flags
         end
  else no_flags.
Definition set_marc8 (f : Flags) : Flags :=
  mk_Flags (enable_pz2_retrieval f) (enable_pz2_transform f) (enable_record_transform f) true
    (use_turbomarc f).
(** The name of the syntax to ask for. [oid_oidcmp] reads what
    [yaz_string_to_oid] gives, null or not. *)
Definition request_syntax_name (s : Searchable) (preferredRecordSyntax : option string)
    (f : Flags) : outcome (option string * Flags) :=
  if enable_pz2_retrieval f then
    if decide (text s request_syntax = "") then Ok (None, f)
    else
      oid ← deref_o (yaz_string_to_recsyn (c_str (text s request_syntax)));
      Ok (Some (text s request_syntax),
          if decide (oid = recsyn_usmarc ∨ oid = recsyn_opac) then set_marc8 f else f)
  else Ok (yaz_oid_to_string <$> preferredRecordSyntax, f).
Definition prepare_elements (b : Backend) (preferredRecordSyntax element_set_name : option string) :
    outcome (Backend * Flags) :=
  s ← deref_o (sptr b);
  '(syntax_name, f) ← request_syntax_name s preferredRecordSyntax
                        (element_flags preferredRecordSyntax element_set_name);
  let is_sru := negb (bool_decide (text s sru = "")) in
  syntax_name ← (if is_sru then Ok (Some "XML")
                 else if decide (enable_pz2_retrieval f = true ∧ text s request_syntax ≠ "")
                 (* the copy of the configured name is gone *)
                 then Undef UseAfterFree
                 else Ok syntax_name);
  let b := set_option "preferredRecordSyntax" syntax_name b in
  let element_set_name :=
    if enable_pz2_retrieval f then
      if decide (element_set_name = Some (c_str (conf c element_passthru)))
      then element_set_name
      else if decide (text s element_set = "") then None else Some (text s element_set)
    else element_set_name in
  let b := set_option "elementSetName" element_set_name b in
  Ok (match element_set_name with
      | Some e => if is_sru then set_option "schema" (Some e) b else b
      | None => b
      end, f).

(** ** Explain records *)
Definition database_record (database : string) (r : ExternalRecord) : NamePlusRecord :=
  {| databaseName := Some (c_str database); npr_record := NPR_databaseRecord r |}.
(** The records from number [m] on, until one is not found. A record is the
    first node inside of the element, which is taken for granted. *)
Fixpoint explain_records (n : nat) (database : string) (doc : xmlDoc) (m : Z) :
    outcome (list NamePlusRecord) :=
  match n with
  | O => Ok []
  | S n' =>
      match (xml_node_search m 0 doc).1 with
      | None => Ok []
      | Some res =>
          tmp_node ← deref_o (head (n_children res));
          l ← explain_records n' database doc (m + 1);
          Ok (database_record database (z_ext_record_xml (xmlNodeDump tmp_node)) :: l)
      end
  end.
Definition get_explain_records (start number_to_present : Z) (b : Backend) :
    outcome (option Records * Z) :=
  match explain_doc b with
  | None => Ok (None, 0)
  | Some doc =>
      if number_to_present <? 0 then Undef BadSize
      else
        l ← explain_records (Z.to_nat (Z.min number_to_present 10000)) (m_frontend_database b)
              doc (start + 1);
        Ok (Some (Records_DBOSD l), Z.of_nat (length l))
  end.

(** ** Records of a result set *)
Definition no_records_addinfo : string := "ZOOM C generated. Present phase and no records".
(** The records before the first that is missing. *)
Fixpoint present_records (recs : list (option ZOOM_record)) : list ZOOM_record :=
  match recs with
  | Some r :: recs' =>
      if decide (ZOOM_record_error r =
                 (BIB1_SYSTEM_ERROR_IN_PRESENTING_RECORDS, Some no_records_addinfo))
      then [] else r :: present_records recs'
  | _ => []
  end.
(** The parameters of the stylesheets. *)
Definition xsl_parms (b : Backend) : list (string * string) :=
  if enable_cproxy b && negb (bool_decide (cproxy_host b = ""))
  then [("cproxyhost", dquote +:+ c_str (cproxy_host b) +:+ "/" +:+ dquote)] else [].
(** [rec_type_str], an array of 100 characters. *)
Definition rec_type_str (s : Searchable) (f : Flags) : outcome string :=
  let record_encoding := if decide (text s record_encoding ≠ "") then Some (text s record_encoding)
                         else if assume_marc8_charset f then Some "marc8" else None in
  let ty := (if use_turbomarc f then "txml" else "xml") +:+
            match record_encoding with Some e => "; charset=" +:+ c_str e | None => "" end in
  if decide (String.length ty < 100)%nat then Ok ty else Undef OutOfBounds.
(** The element for the generated URL, under the first element of the document. *)
Definition generated_url (ns : option string) (res : string) : xmlNode :=
  Node XML_ELEMENT_NODE "metadata" ns ""
    [Attr "type" None [Node XML_TEXT_NODE "text" None "generated-url" [] []]]
    [Node XML_TEXT_NODE "text" None (c_str res) [] []].
Fixpoint insert_url (res : string) (doc : xmlDoc) : xmlDoc :=
  match doc with
  | [] => []
  | Node ty name ns content props children :: doc' =>
      if decide (ty = XML_ELEMENT_NODE)
      then Node ty name ns content props (children ++ [generated_url ns res]) :: doc'
      else Node ty name ns content props children :: insert_url res doc'
  end.
Definition add_generated_url (s : Searchable) (doc : xmlDoc) : outcome xmlDoc :=
  res ← UrlRecipe.url_recipe_handle regex_replace yaz_encode_uri_component doc
          (text s urlRecipe);
  Ok (if decide (res = "") then doc else insert_url res doc).
(** Both stages; without a result the record stays as it was. The result and
    the stylesheet it came from. *)
Definition transform_doc (s : Searchable) (x : stylesheet) (f : Flags)
    (parms : list (string * string)) (rec_doc : xmlDoc) : outcome (option xmlDoc * stylesheet) :=
  match xsltApplyStylesheet x (Some rec_doc) parms with
  | None => Ok (None, x)
  | Some rec_res =>
      rec_res ← add_generated_url s rec_res;
      match record_xsp c with
      | Some x2 => if enable_record_transform f
                   then Ok (xsltApplyStylesheet x2 (Some rec_res) parms, x2)
                   else Ok (Some rec_res, x)
      | None => Ok (Some rec_res, x)
      end
  end.
(** The text of a record, or what went wrong. *)
Definition transform_record (s : Searchable) (x : stylesheet) (f : Flags)
    (parms : list (string * string)) (rec_buf : string) : M W (string + string) :=
  match xmlParseMemory rec_buf with
  | None => mret (inr "xml parse failed for record")
  | Some rec_doc =>
      '(rec_res, x) ← lift_outcome (transform_doc s x f parms rec_doc);
      match rec_res with
      | None => mret (inl rec_buf)
      | Some doc =>
          match xsltSaveResultToString x doc with
          | Some out => log_write out ;; mret (inl out)
          | None => mret (inr ("xslt apply failed for " +:+ text s transform_xsl_fname))
          end
      end
  end.
Definition surrogate (database : string) (error : Z) (addinfo : option string) : NamePlusRecord :=
  zget_surrogateDiagRec (Some (c_str database)) error (c_str <$> addinfo).
Definition failed_record (database addinfo : string) : M W NamePlusRecord :=
  log_diagnostic (BIB1_SYSTEM_ERROR_IN_PRESENTING_RECORDS, Some addinfo) ;;
  mret (surrogate database BIB1_SYSTEM_ERROR_IN_PRESENTING_RECORDS (Some addinfo)).
(** A record in an XML form. *)
Definition xml_record (b : Backend) (f : Flags) (r : ZOOM_record) : M W NamePlusRecord :=
  let database := m_frontend_database b in
  s ← deref (sptr b);
  ty ← lift_outcome (rec_type_str s f);
  package_log "zoom" ("Getting record of type " +:+ ty) ;;
  match ZOOM_record_get r ty with
  | None => failed_record database ("ZOOM_record_get failed for type " +:+ ty)
  | Some rec_buf =>
      log_write rec_buf ;; log_write crlf ;;
      res ← (match xsp b with
             | Some x => if enable_pz2_transform f
                         then transform_record s x f (xsl_parms b) rec_buf
                         else mret (inl rec_buf)
             | None => mret (inl rec_buf)
             end);
      match res with
      | inl out => mret (database_record database (z_ext_record_xml out))
      | inr addinfo => failed_record database addinfo
      end
  end.
Definition one_record (b : Backend) (f : Flags) (r : ZOOM_record) : M W NamePlusRecord :=
  let database := m_frontend_database b in
  let '(sur_error, addinfo) := ZOOM_record_error r in
  if decide (sur_error ≠ 0) then
    log_diagnostic (sur_error, addinfo) ;; mret (surrogate database sur_error addinfo)
  else if enable_pz2_retrieval f then xml_record b f r
  else mret (match ZOOM_record_get_ext r with
             | Some ext => database_record database ext
             | None => surrogate database BIB1_SYSTEM_ERROR_IN_PRESENTING_RECORDS
                         (Some "ZOOM_record, type ext")
             end).
Fixpoint all_records (b : Backend) (f : Flags) (l : list ZOOM_record) :
    M W (list NamePlusRecord) :=
  match l with
  | [] => mret []
  | r :: l' => n ← one_record b f r; ns ← all_records b f l'; mret (n :: ns)
  end.
(** [get_records]: the records, their number, the error. *)
Definition get_records (start number_to_present : Z) (old : Z * option string)
    (preferredRecordSyntax element_set_name : option string) (b : Backend) :
    M W (Backend * option Records * Z * (Z * option string)) :=
  '(b, f) ← lift_outcome (prepare_elements b preferredRecordSyntax element_set_name);
  package_log "zoom" ("pz2_retrieval: " +:+ (if enable_pz2_retrieval f then "yes" else "no")
    +:+ " . pz2_transform: " +:+ (if enable_pz2_transform f then "yes" else "no")) ;;
  if decide (start < 0 ∨ number_to_present ≤ 0) then mret (b, None, 0, old)
  else
    let number := Z.min number_to_present 10000 in
    '(b, recs, e) ← present start number old b;
    match (if e.1 =? 0 then present_records (firstn (Z.to_nat number) recs) else []) with
    | [] => mret (b, None, 0, e)
    | l =>
        npl ← all_records b f l;
        mret (b, Some (Records_DBOSD npl), Z.of_nat (length l), e)
    end.

(** ** The records of a response *)
Lemma present_records_length recs : (length (present_records recs) ≤ length recs)%nat.
Proof.
  induction recs as [|[r|] recs IH]; cbn; [lia| |lia]. case_decide; cbn; lia.
Qed.
Lemma all_records_length b f l (w : W) :
  par (all_records b f l) w (λ npl _, length npl = length l).
Proof.
  revert w. induction l as [|r l IH]; intros w; cbn [all_records]; [done|].
  apply par_bind, par_any. intros n w1.
  apply par_bind. eapply par_mono; [apply IH|]. intros ns w2 Hns. cbn. congruence.
Qed.
(** A response holds records only without an error; their number is the
    number that is returned, and at most what was asked for and 10000. *)
Theorem records_counted start number old syntax esn b (w : W) b' records n e w'
    (Hrun : get_records start number old syntax esn b w = Ok ((b', records, n, e), w')) :
  match records with
  | None => n = 0
  | Some r => e.1 = 0 ∧ ∃ l, r = Records_DBOSD l ∧ n = Z.of_nat (length l) ∧
      1 ≤ n ∧ n ≤ number ∧ n ≤ 10000
  end.
Proof.
  enough (H' : par (get_records start number old syntax esn b) w (λ r _, match r.1.1.2 with
    | None => r.1.2 = 0
    | Some x => r.2.1 = 0 ∧ ∃ l, x = Records_DBOSD l ∧ r.1.2 = Z.of_nat (length l) ∧
        1 ≤ r.1.2 ∧ r.1.2 ≤ number ∧ r.1.2 ≤ 10000
    end)) by (unfold par in H'; by rewrite Hrun in H').
  unfold get_records.
  apply par_bind, par_any. intros [b1 f] w1.
  apply par_bind, par_any. intros [] w2.
  case_decide as Hneg; [done|].
  apply par_bind, par_any. intros [[b2 recs] e2] w3.
  destruct (Z.eqb_spec e2.1 0) as [He|He]; [|done].
  pose proof (present_records_length (firstn (Z.to_nat (Z.min number 10000)) recs)) as Hl.
  rewrite length_take in Hl.
  destruct (present_records _) as [|r l] eqn:Hrecs; [done|].
  apply par_bind. eapply par_mono; [apply all_records_length|]. intros npl w4 Hnpl.
  cbn in *. split; [done|]. exists npl. split_and!; [done|lia..].
Qed.
End records.

(** ** Termination *)
Section ends.
Context `{HCcl : Ccl, HXslt : Xslt, HFiles : Files, Y : Yaz, HYaz : ZoomYaz} {W : Type}.
Context `{PackageLog W, UrlClient W, ZoomClient W, ZoomSystem W, !ZoomReturns W}.
Context (c : Impl).
Lemma prepare_elements_no_fuel b syntax esn : no_fuel (prepare_elements c b syntax esn).
Proof.
  unfold prepare_elements. apply no_fuel_bind; [by destruct (sptr b)|]. intros s _.
  apply no_fuel_bind.
  - unfold request_syntax_name. repeat case_match; try done. by destruct (yaz_string_to_recsyn _).
  - intros [name f] _. apply no_fuel_bind; [by repeat case_match|done].
Qed.
Lemma transform_doc_no_fuel s x f parms doc : no_fuel (transform_doc c s x f parms doc).
Proof.
  unfold transform_doc, add_generated_url. case_match; [|done]. apply no_fuel_bind.
  - apply no_fuel_bind; [|done]. apply UrlRecipe.url_recipe_ends, regex_returns.
  - intros ? _. by repeat case_match.
Qed.
Lemma rec_type_str_no_fuel s f : no_fuel (rec_type_str s f).
Proof. unfold rec_type_str. by case_decide. Qed.
Lemma one_record_ends b f r (w : W) : ends (one_record c b f r) w any.
Proof.
  unfold one_record, xml_record, failed_record, transform_record, log_diagnostic.
  ends_auto ltac:(apply ends_lift;
    [first [apply transform_doc_no_fuel|apply rec_type_str_no_fuel]|intros ? ?]).
Qed.
Lemma all_records_ends b f l (w : W) : ends (all_records c b f l) w any.
Proof.
  revert w. induction l as [|r l IH]; intros w; [done|]. cbn [all_records].
  ends_auto ltac:(first [eapply ends_true; [apply one_record_ends|intros ? ?]
    |eapply ends_true; [apply IH|intros ? ?]]).
Qed.
Lemma get_records_ends start number old syntax esn b (w : W) :
  ends (get_records c start number old syntax esn b) w any.
Proof.
  unfold get_records, present.
  ends_auto ltac:(first [apply ends_lift; [apply prepare_elements_no_fuel|intros ? ?]
    |eapply ends_true; [apply records_returns|intros ? ?]
    |eapply ends_true; [apply all_records_ends|intros ? ?]]).
Qed.
End ends.

Section examples.
#[local] Existing Instances ref_ccl ref_xslt ref_files ref_zoom_yaz ref_log ref_system.
#[local] Instance example_url : UrlClient (option string) := ref_url None.
#[local] Instance example_client : ZoomClient (option string) := ref_client true 3.
Definition example_backend : Backend :=
  mk_Backend [] (Some tt) "db" (Some (Searchable_new tt)) None "" true false None "" (Some tt) "1".
(** Five records are asked for from the second on; there are three. *)
Lemma records_counted_witness : ∃ b l,
  get_records (Y := ref_yaz) Impl_new 1 5 (0, None) None None example_backend None =
    Ok ((b, Some (Records_DBOSD l), 2, (0, None)), None) ∧ length l = 2%nat.
Proof.
  destruct (get_records (Y := ref_yaz) Impl_new 1 5 (0, None) None None example_backend None)
    as [[[[[b records] n] e] w']|?|?|] eqn:Hrun; [|discriminate Hrun..].
  pose proof (records_counted (Y := ref_yaz) Impl_new 1 5 (0, None) None None example_backend None
    b records n e w' Hrun) as Hc.
  assert (Hv : match get_records (Y := ref_yaz) Impl_new 1 5 (0, None) None None example_backend None
    with Ok ((_, Some _, n, e), None) => n = 2 ∧ e = (0, None) | _ => False end) by (split; reflexivity).
  rewrite Hrun in Hv. destruct records as [r|]; [|contradiction].
  destruct w'; [contradiction|]. destruct Hv as [-> ->].
  destruct Hc as (_ & l & -> & Hn & _). exists b, l. split; [reflexivity|lia].
Defined.
(** A profile with a syntax of its own for the transformation of its records. *)
Example request_syntax_gone :
  match prepare_elements Impl_new
          (mk_Backend [] None "db" (Some (set_text request_syntax "usmarc" (Searchable_new tt)))
             None "" true false None "" (Some tt) "1") (Some recsyn_xml) (Some "pz2") with
  | Undef UseAfterFree => true | _ => false
  end = true.
Proof. vm_compute. reflexivity. Qed.
End examples.
End ZoomRecords.
