(* ===== verification/ZoomSearch.v ===== *)
(** * The zoom filter: requests

    [src/filter_zoom.cpp]: searches with their retries, presents, the
    authentication of a session and the filter itself. The parsers and printers
    of query languages are parameters. *)
From S2P Require Import Prelude Zgdu Yaz Core Xml Libxml Util Frontends UrlRecipe Torus Zoom.
From S2P Require Import ZoomBackend ZoomRecords.

(** [struct cql_node]: search terms, Boolean operators, sorting. *)
Inductive cql_node : Type :=
  | CQL_NODE_ST (index : option string) (relation term : string)
  | CQL_NODE_BOOL (value : string) (l r : option cql_node)
  | CQL_NODE_SORT (index : string) (search : option cql_node).

Class ZoomQueries `{Ccl, ZoomYaz} : Type := {
  (** [cql_parser_string] and [cql_parser_result]. *)
  cql_parse : string → option cql_node;
  cql_to_ccl : cql_node → option string;
  cql_sortby_to_sortkeys : cql_node → option string;
  yaz_srw_sortkeys_to_sort_spec : string → string;
  (** The tokens of [yaz_tok]; the text of a string. *)
  yaz_tok : string → list (option string);
  yaz_rpnquery_to_wrbuf : string → RPNStructure → string;
  (** RPN from PQF, and its conversions: an error, with information, or the
      text that was made. *)
  Z_RPNQuery : Type;
  p_query_rpn : string → option Z_RPNQuery;
  cql_transform_rpn2cql : cql_transform_t → option Z_RPNQuery → Z * option string * string;
  solr_transform_rpn2solr : cql_transform_t → option Z_RPNQuery → Z * option string * string;
  CCL_ERR_UNKNOWN_QUAL : Z;
  CCL_ERR_TRUNC_NOT_LEFT : Z;
  CCL_ERR_TRUNC_NOT_RIGHT : Z;
  CCL_ERR_TRUNC_NOT_BOTH : Z;
  CCL_ERR_TRUNC_NOT_EMBED : Z;
  CCL_ERR_TRUNC_NOT_SINGLE : Z
}.

(** A small implementation, for examples: a CQL query is one term. *)
#[local] Existing Instances ref_ccl ref_zoom_yaz.
Definition ref_queries : ZoomQueries := {|
  cql_parse s := let '(index, term) := split_pair "=" s in Some (CQL_NODE_ST (Some index) "=" term);
  cql_to_ccl n := match n with CQL_NODE_ST _ _ term => Some term | _ => None end;
  cql_sortby_to_sortkeys _ := Some "";
  yaz_srw_sortkeys_to_sort_spec s := s;
  yaz_tok _ := [];
  yaz_rpnquery_to_wrbuf _ _ := "@attr 1=4 x";
  Z_RPNQuery := string;
  p_query_rpn := Some;
  cql_transform_rpn2cql _ q := (0, None, default "" q);
  solr_transform_rpn2solr _ q := (0, None, default "" q);
  CCL_ERR_UNKNOWN_QUAL := 1;
  CCL_ERR_TRUNC_NOT_LEFT := 2;
  CCL_ERR_TRUNC_NOT_RIGHT := 3;
  CCL_ERR_TRUNC_NOT_BOTH := 4;
  CCL_ERR_TRUNC_NOT_EMBED := 5;
  CCL_ERR_TRUNC_NOT_SINGLE := 6
|}.

Module ZoomSearch.
Import Zoom ZoomBackend ZoomRecords.
Notation diag := (Z * option string)%type.

(** ** Terms in a query to the Torus *)
Definition is_cql_special (ch : ascii) : bool :=
  bool_decide (ch = "*"%char ∨ ch = "?"%char ∨ ch = "^"%char ∨ ch = "034"%char ∨ ch = NUL).
(** [strchr] finds the terminator of its string as well. *)
Fixpoint escape_cql_term (inp : string) : string :=
  match inp with
  | EmptyString => EmptyString
  | String ch inp' =>
      if is_cql_special ch then String "\" (String ch (escape_cql_term inp'))
      else String ch (escape_cql_term inp')
  end.

Section search.
Context `{HCcl : Ccl, HXslt : Xslt, HFiles : Files, Y : Yaz, HYaz : ZoomYaz} {R W : Type}.
Context `{PackageLog W, UrlClient W, ZoomClient W, ZoomSystem W}.
Context `{!ZoomQueries}.
Context (c : Impl).
Notation Handler := (M (Frontend * W)).

(** ** CQL *)

(** [convert_cql_fields]: the query with the fields of the configuration, or
    the search term whose field is not there. *)
Fixpoint convert_cql_fields (cn : cql_node) : cql_node + cql_node :=
  let sub (o : option cql_node) : option cql_node + cql_node :=
    match o with
    | None => inl None
    | Some n => match convert_cql_fields n with inl n => inl (Some n) | inr e => inr e end
    end in
  match cn with
  | CQL_NODE_ST None _ _ => inl cn
  | CQL_NODE_ST (Some index) relation term =>
      match fieldmap c !! index with
      | None => inr cn
      | Some field =>
          inl (CQL_NODE_ST (if decide (field = "") then None else Some (c_str field))
                 relation term)
      end
  | CQL_NODE_BOOL value l r =>
      match sub l with
      | inr e => inr e
      | inl l => match sub r with
                 | inr e => inr e
                 | inl r => inl (CQL_NODE_BOOL value l r)
                 end
      end
  | CQL_NODE_SORT index search =>
      match sub search with
      | inr e => inr e
      | inl search => inl (CQL_NODE_SORT index search)
      end
  end.
(** The loop over the tokens of a sort specification: a field, which is mapped,
    and its flags. *)
Definition sort_field (m : gmap string string) (token : option string) : string :=
  match token with
  | Some field => default field (m !! field)
  | None => ""
  end.
Fixpoint sort_keys (m : gmap string string) (tokens : list (option string)) : string :=
  match tokens with
  | [] => ""
  | field :: tokens =>
      sort_field m field +:+ " " +:+
      match tokens with
      | [] => ""
      | flags :: tokens => default "" flags +:+ " " +:+ sort_keys m tokens
      end
  end.
(** A CQL query as CCL with its sort keys, or an error. *)
Definition convert_cql (s : Searchable) (cql : string) : string * string + diag :=
  match cql_parse (c_str cql) with
  | None => inr (BIB1_MALFORMED_QUERY, Some "CQL syntax error")
  | Some cn =>
      match convert_cql_fields cn with
      | inr (CQL_NODE_ST index _ _) => inr (BIB1_UNSUPP_USE_ATTRIBUTE, index)
      | inr _ => inr (BIB1_UNSUPP_USE_ATTRIBUTE, None)
      | inl cn =>
          match cql_to_ccl cn with
          | None => inr (BIB1_MALFORMED_QUERY, Some "CQL to CCL conversion error")
          | Some ccl =>
              match cql_sortby_to_sortkeys cn with
              | None => inr (BIB1_ILLEGAL_SORT_RELATION, Some "CQL to CCL sortby conversion")
              | Some keys =>
                  inl (ccl, sort_keys (sortmap s) (yaz_tok (yaz_srw_sortkeys_to_sort_spec keys)))
              end
          end
      end
  end.
Definition ccl_error (cerror : Z) : Z :=
  if decide (cerror ∈ [CCL_ERR_UNKNOWN_QUAL; CCL_ERR_TRUNC_NOT_LEFT; CCL_ERR_TRUNC_NOT_RIGHT;
                       CCL_ERR_TRUNC_NOT_BOTH; CCL_ERR_TRUNC_NOT_EMBED;
                       CCL_ERR_TRUNC_NOT_SINGLE])
  then BIB1_UNSUPP_SEARCH else BIB1_MALFORMED_QUERY.
(** CCL to PQF, unless there is no CCL. *)
Definition convert_ccl (s : Searchable) (ccl pqf : string) : M W (string + diag) :=
  if decide (ccl = "") then mret (inl pqf)
  else
    package_log "zoom" ("CCL: " +:+ c_str ccl) ;;
    match ccl_find_str (ccl_bibset s) (c_str ccl) with
    | inr cerror => mret (inr (ccl_error cerror, ccl_err_msg cerror))
    | inl cn => package_log "zoom" ("RPN: " +:+ ccl_pquery cn) ;; mret (inl (ccl_pquery cn))
    end.
(** Any query: PQF, and the sort keys of a CQL query. *)
Definition convert_query (s : Searchable) (query : Query) : M W (string * string + diag) :=
  let with_keys keys (r : string + diag) : string * string + diag :=
    match r with inl pqf => inl (pqf, keys) | inr e => inr e end in
  match query with
  | Query_type_1 set rpn | Query_type_101 set rpn =>
      mret (inl (yaz_rpnquery_to_wrbuf set rpn, ""))
  | Query_type_2 ccl => r ← convert_ccl s ccl ""; mret (with_keys "" r)
  | Query_type_104 (Some cql) =>
      package_log "zoom" ("CQL: " +:+ c_str cql) ;;
      match convert_cql s cql with
      | inr e => mret (inr e)
      | inl (ccl, keys) => r ← convert_ccl s ccl ""; mret (with_keys keys r)
      end
  | _ => mret (inr (BIB1_QUERY_TYPE_UNSUPP, None))
  end.
(** The query for ZOOM: CQL or SOLR for a target of that kind. *)
Definition zoom_query_of (b : Backend) (s : Searchable) (pqf sortkeys : string) :
    M W (zoom_query + diag) :=
  let sort := (c_str (text s sortStrategy), c_str sortkeys) in
  match get_option "sru" b with
  | Some kind =>
      t ← deref (cqlt b);
      let zquery := p_query_rpn (c_str pqf) in
      let '(error, addinfo, cql) := if decide (kind = "solr") then solr_transform_rpn2solr t zquery
                                    else cql_transform_rpn2cql t zquery in
      if error =? 0 then
        package_log "zoom" ("search CQL: " +:+ c_str cql) ;; mret (inl (ZOOM_query_cql sort (c_str cql)))
      else mret (inr (error, addinfo))
  | None =>
      package_log "zoom" ("search PQF: " +:+ c_str pqf) ;;
      mret (inl (ZOOM_query_prefix sort (c_str pqf)))
  end.

(** ** Proxies and retries *)
Definition wait_conn (cs : COMSTACK) (secs : Z) : M W bool :=
  ret ← cs_poll cs secs; mret (0 <? ret).
(** The loop of [cs_put], with what the last call gave: it ends with the network. *)
Fixpoint put_all (fuel : nat) (conn : COMSTACK) (buf : string) : M W Z :=
  match fuel with
  | O => out_of_fuel
  | S fuel' =>
      ret ← cs_put conn buf;
      if decide (ret ≠ 1) then mret ret
      else
        ready ← wait_conn conn (proxy_timeout c);
        if (ready : bool) then put_all fuel' conn buf else mret ret
  end.
Definition check_proxy (fuel : nat) (proxy : string) : M W bool :=
  let uri := "http://localhost/" in
  conn ← cs_create_host_proxy uri proxy;
  match conn with
  | None => mret false
  | Some conn =>
      outcome ← (match encode_get uri with
                 | None => mret false
                 | Some buf =>
                     ret ← cs_connect conn;
                     ready ← (if 0 <? ret then mret true
                              else if ret =? 0 then wait_conn conn 1 else mret false);
                     if (ready : bool) then ret ← put_all fuel conn buf; mret (ret =? 0)
                     else mret false
                 end);
      cs_close conn ;; mret outcome
  end.
(** What [handle_search] keeps over its attempts. *)
Record Counters : Type := mk_Counters {
  k_proxy_step : Z;
  same_retries : Z;
  proxy_retries : Z
}.
Definition retry (fuel : nat) (b : option Backend) (e : diag) (k : Counters) :
    Handler (bool * diag * Counters)%type :=
  match b with
  | None => mret (false, e, k)
  | Some b =>
      ok ← (if decide (m_proxy b = "") then mret true
            else on_world (check_proxy fuel (c_str (m_proxy b))));
      if negb ok then
        on_world (log_diagnostic e) ;;
        on_world (package_log "zoom" ("proxy " +:+ m_proxy b +:+ " fails")) ;;
        clear_backend ;;
        if decide (k_proxy_step k ≠ 0) then
          on_world (package_log "zoom" "search failed: trying next proxy") ;;
          mret (true, e, mk_Counters (k_proxy_step k) (same_retries k) (proxy_retries k + 1))
        else mret (false, (BIB1_PROXY_FAILURE, Some (c_str (m_proxy b))), k)
      else if decide (b_retry_on_failure b ≠ "0" ∧ same_retries k = 0 ∧ proxy_retries k = 0) then
        on_world (log_diagnostic e) ;;
        on_world (package_log "zoom" "search failed: retry") ;;
        clear_backend ;;
        mret (true, e, mk_Counters 0 (same_retries k + 1) (proxy_retries k))
      else mret (false, e, k)
  end.
Definition retry_on_error (fuel : nat) (b : option Backend) (e : diag) (k : Counters) :
    Handler (bool * diag * Counters)%type :=
  if e.1 =? 0 then mret (false, e, k) else retry fuel b e k.

(** ** Search *)

(** [m_backend] is the connection [b], unless it was reset. *)
Definition update_backend (b : Backend) : Handler unit :=
  modify_fr (λ f, set_backend ((λ _, b) <$> m_backend f) f).
Definition search_error (sr : SearchRequest) (e : diag) : Handler (Counters + option APDU)%type :=
  on_world (log_diagnostic e) ;;
  mret (inr (Some (searchResponse (create_searchResponse (Some (searchRequest sr)) e.1 e.2)))).
Definition search_facets (sr : SearchRequest) : option FacetList :=
  match yaz_oi_get_facets (sq_otherInfo sr) with
  | None => yaz_oi_get_facets (sq_additionalSearchInfo sr)
  | fl => fl
  end.
Definition search_response (sr : SearchRequest) (hits : Z) (e : diag) (records : option Records)
    (number : Z) (fl : option FacetList) : APDU :=
  let r := create_searchResponse (Some (searchRequest sr)) e.1 e.2 in
  let r := match records with
           | Some l => set_sr_numberOfRecordsReturned number (set_sr_records (Some l) r)
           | None => r
           end in
  let r := set_sr_resultCount hits r in
  searchResponse (match fl with
                  | Some l => set_sr_additionalSearchInfo
                                (yaz_oi_set_facets (sr_additionalSearchInfo r) l) r
                  | None => r
                  end).
(** A search on a connection: the response, or the counters of the next
    attempt. *)
Definition search_records (sr : SearchRequest) (b : Backend) (hits : Z) (e : diag)
    (fl : option FacetList) : Handler (Counters + option APDU)%type :=
  let '(number, esn) := if e.1 =? 0 then piggyback_sr sr hits (Some None) else (0, None) in
  '(b, records, n, e) ← on_world (get_records c 0 number e (sq_preferredRecordSyntax sr)
     (default None esn) b);
  update_backend b ;;
  (if e.1 =? 0 then mret tt else on_world (log_diagnostic e)) ;;
  mret (inr (Some (search_response sr hits e records n fl))).
Definition search_backend (fuel : nat) (sr : SearchRequest) (b : Backend) (k : Counters) :
    Handler (Counters + option APDU)%type :=
  '(b, _) ← lift_outcome (prepare_elements c (set_option "setname" (Some "default") b)
              (sq_preferredRecordSyntax sr) None);
  update_backend b ;;
  s ← deref (sptr b);
  q ← on_world (convert_query s (sq_query sr));
  match q with
  | inr e => search_error sr e
  | inl (pqf, sortkeys) =>
      if decide (pqf = "") then undef AssertFailed
      else
        q ← on_world (zoom_query_of b s pqf sortkeys);
        match q with
        | inr e => search_error sr e
        | inl q =>
            '(b, hits, e, fl) ← on_world (search q (0, None) (search_facets sr) b);
            update_backend b ;;
            '(again, e, k) ← retry_on_error fuel (Some b) e k;
            if (again : bool) then mret (inl k) else search_records sr b hits e fl
        end
  end.
(** From the label [next_proxy] on. *)
Definition attempt (fuel : nat) (sr : SearchRequest) (database : string) (k : Counters) :
    Handler (Counters + option APDU)%type :=
  found ← get_backend_from_databases c (searchRequest sr) (sq_query sr) database
            (k_proxy_step k);
  let k := mk_Counters (f_proxy_step found) (same_retries k) (proxy_retries k) in
  '(again, e, k) ← retry_on_error fuel (f_backend found) (f_error found) k;
  if (again : bool) then mret (inl k)
  else if decide (e.1 ≠ 0) then search_error sr e
  else match f_backend found with
       | Some b => if enable_explain b then mret (inr (f_response found))
                   else search_backend fuel sr b k
       | None => mret (inr (f_response found))
       end.
Fixpoint search_loop (fuel : nat) (put_fuel : nat) (sr : SearchRequest) (database : string)
    (k : Counters) : Handler (option APDU) :=
  match fuel with
  | O => out_of_fuel
  | S fuel' =>
      r ← attempt put_fuel sr database k;
      match r with
      | inl k => search_loop fuel' put_fuel sr database k
      | inr res => mret res
      end
  end.
(** The response; none leaves the response of the package alone. *)
Definition handle_search (fuel put_fuel : nat) (sr : SearchRequest) : Handler (option APDU) :=
  match sq_databaseNames sr with
  | [database] => search_loop fuel put_fuel sr (c_str database) (mk_Counters 0 0 0)
  | _ =>
      let error := BIB1_TOO_MANY_DATABASES_SPECIFIED in
      on_world (log_diagnostic (error, None)) ;;
      mret (Some (searchResponse (create_searchResponse (Some (searchRequest sr)) error None)))
  end.

(** ** Present *)
Definition present_response (pr : PresentRequest) (e : diag) (records : option Records)
    (number : Z) : APDU :=
  let r := create_presentResponse (Some (presentRequest pr)) e.1 e.2 in
  presentResponse (match records with
                   | Some l => set_pr_numberOfRecordsReturned number (set_pr_records (Some l) r)
                   | None => r
                   end).
Definition handle_present (pr : PresentRequest) : Handler APDU :=
  let fail e := presentResponse (create_presentResponse (Some (presentRequest pr)) e None) in
  f ← get_fr;
  match m_backend f with
  | None => mret (fail BIB1_SPECIFIED_RESULT_SET_DOES_NOT_EXIST)
  | Some b =>
      match pq_recordComposition pr with
      | Some (RecordComp_complex _) => mret (fail BIB1_PRESENT_COMP_SPEC_PARAMETER_UNSUPP)
      | comp =>
          let element_set_name := match comp with
                                  | Some (RecordComp_simple e) => esn_generic (Some e)
                                  | _ => None
                                  end in
          let start := pq_resultSetStartPoint pr - 1 in
          let number := pq_numberOfRecordsRequested pr in
          if enable_explain b then
            '(records, n) ← lift_outcome (get_explain_records start number b);
            mret (present_response pr (0, None) records n)
          else
            '(b, records, n, e) ← on_world (get_records c start number (0, None)
               (pq_preferredRecordSyntax pr) element_set_name b);
            modify_fr (set_backend (Some b)) ;;
            mret (present_response pr e records n)
      end
  end.

(** ** [handle_package] *)
Definition rewind_log : Handler unit :=
  modify_fr (λ f, set_backend ((λ b, set_connection (ZOOM_apdu_rewind (m_connection b)) b)
                                 <$> m_backend f) f).
Definition write_log : Handler unit :=
  f ← get_fr;
  match m_backend f with
  | Some b => on_world (log_write (ZOOM_apdu_log (m_connection b)))
  | None => mret tt
  end.
Definition respond (a : APDU) (package : Package R) : Package R :=
  set_response (Some (GDU_Z3950 a)) package.
Definition handle_apdu (fuel put_fuel : nat) (apdu_req : APDU) (package : Package R) :
    Handler (Package R) :=
  match apdu_req with
  | initRequest _ =>
      mret (respond (create_close (Some apdu_req) Close_protocolError (Some "double init")) package)
  | searchRequest sr =>
      res ← handle_search fuel put_fuel sr;
      mret (match res with Some a => respond a package | None => package end)
  | presentRequest pr => a ← handle_present pr; mret (respond a package)
  | _ =>
      mret (close_session (respond (create_close (Some apdu_req) Close_protocolError
        (Some "zoom filter cannot handle this APDU")) package))
  end.
Definition handle_package (fuel put_fuel : nat) (package : Package R) : Handler (Package R) :=
  match p_request package with
  | None => mret package
  | Some (GDU_Z3950 apdu_req) =>
      rewind_log ;;
      package ← handle_apdu fuel put_fuel apdu_req package;
      write_log ;;
      mret package
  | Some _ => mret (close_session package)
  end.

(** ** Authentication *)
Definition init_user (req : InitRequest) : string * string :=
  match iq_idAuthentication req with
  | Some (IdAuthentication_open s) =>
      match find_char "/" s with
      | Some i => (str_take i s, str_drop (S i) s)
      | None => ("", "")
      end
  | Some (IdAuthentication_idPass _ userId password) => (default "" userId, default "" password)
  | _ => ("", "")
  end.
Definition client_ip (req : InitRequest) (package : Package R) : string :=
  default (Origin.get_address (p_origin package))
    (yaz_oi_get_string (iq_otherInfo req) oid_userinfo_client_ip 1 false).1.
Definition ip_allowed (ip : string) : bool :=
  existsb (λ d, yaz_match_glob d (c_str ip)) (nmem_strsplit_blank (c_str (conf c torus_allow_ip))).
(** The query for a user, or for a network, and the error when it finds
    nothing. *)
Definition torus_auth_query (user password ip : string) : string * Z :=
  if decide (user ≠ "" ∧ password ≠ "") then
    ("userName==" +:+ dquote +:+ escape_cql_term user +:+ dquote +:+ " and password==" +:+ dquote
       +:+ escape_cql_term password +:+ dquote, BIB1_INIT_AC_BAD_USERID_AND_OR_PASSWORD)
  else
    ("ipRanges encloses/net.ipaddress " +:+ dquote +:+ escape_cql_term ip +:+ dquote +:+
     (if decide (conf c torus_auth_hostname = "") then ""
      else " AND hostName == " +:+ dquote +:+ escape_cql_term (conf c torus_auth_hostname)
             +:+ dquote), BIB1_INIT_AC_BLOCKED_NETWORK_ADDRESS).
(** The nodes from the first element on. *)
Fixpoint from_element (l : list xmlNode) : list xmlNode :=
  match l with
  | [] => []
  | n :: l' => if decide (n_type n = XML_ELEMENT_NODE) then l else from_element l'
  end.
Definition enter_element (name : string) (ptr : list xmlNode) : list xmlNode :=
  match ptr with
  | n :: _ => if decide (n_name n = name) then from_element (n_children n) else ptr
  | [] => []
  end.
Fixpoint from_identity (l : list xmlNode) : list xmlNode :=
  match l with
  | [] => []
  | n :: l' =>
      if decide (n_type n = XML_ELEMENT_NODE ∧ n_name n = "identityId") then l
      else from_identity l'
  end.
Definition identity (doc : xmlDoc) : list xmlNode :=
  match doc with
  | n :: _ =>
      if decide (n_type n = XML_ELEMENT_NODE)
      then from_identity (enter_element "layer" (enter_element "record"
             (enter_element "records" doc)))
      else doc
  | [] => []
  end.
(** [auth]: the error; the realm of the session is set. *)
Definition auth (req : InitRequest) (package : Package R) : Handler diag :=
  if decide (conf c torus_auth_url = "") then mret (0, None)
  else
    let '(user, password) := init_user req in
    let ip := client_ip req package in
    if ip_allowed ip then mret (0, None)
    else
      let '(torus_query, failure_code) := torus_auth_query user password ip in
      '(doc, torus_addinfo) ← on_world (Torus.get_searchable yaz_encode_uri_component
         xmlParseMemory (conf c torus_auth_url) "" torus_query "" (conf c proxy));
      match doc with
      | None => mret (BIB1_TEMPORARY_SYSTEM_ERROR,
                      if decide (torus_addinfo = "") then None else Some (c_str torus_addinfo))
      | Some doc =>
          match identity doc with
          | [] => mret (failure_code, None)
          | ptr => modify_fr (set_session_realm (mp_xml.get_text ptr)) ;; mret (0, None)
          end
      end.

(** ** The filter *)
Definition copy_options (from to : Z) : Z :=
  fold_left (λ m i, if MASK_GET from i then MASK_SET m i else m)
    [Options_search; Options_present] to.
Fixpoint copy_versions (l : list Z) (from to : Z) : Z :=
  match l with
  | [] => to
  | i :: l' => if MASK_GET from i then copy_versions l' from (MASK_SET to i) else to
  end.
Definition init_response (req : InitRequest) : InitResponse :=
  let resp := create_initResponse (Some (initRequest req)) 0 None in
  set_ir_maximumRecordSize (iq_maximumRecordSize req)
    (set_ir_preferredMessageSize (iq_preferredMessageSize req)
    (set_ir_protocolVersion
       (copy_versions [ProtocolVersion_1; ProtocolVersion_2; ProtocolVersion_3]
          (iq_protocolVersion req) (ir_protocolVersion resp))
    (set_ir_options (copy_options (iq_options req) (ir_options resp)) resp))).
Definition handle_init (req : InitRequest) (package : Package R) : Handler (Package R) :=
  modify_fr (set_init_gdu (p_request package)) ;;
  let resp := init_response req in
  '(error, addinfo) ← auth req package;
  if decide (error ≠ 0) then
    mret (close_session (respond (initResponse
      (set_ir_result false
        (set_ir_userInformationField (Some (zget_init_diagnostics error addinfo)) resp))) package))
  else
    modify_fr (set_virtual true) ;;
    mret (respond (initResponse resp) package).
End search.

Section process.
Context `{HCcl : Ccl, HXslt : Xslt, HFiles : Files, Y : Yaz, HYaz : ZoomYaz} {R E : Type}.
Context `{PackageLog E, UrlClient E, ZoomClient E, ZoomSystem E}.
Context `{!ZoomQueries}.
Context (c : Impl).
Notation World := (Clients Frontend * Global E)%type.
Context (next : string → Package R → M World (Package R)).

(** What a handler does to the outside world. *)
Definition on_env {A} (m : M (Frontend * E) A) : M (Frontend * World) A := λ s,
  match m (s.1, g_env s.2.2) with
  | Ok (a, (f, e)) => Ok (a, (f, (s.2.1, Build_Global (g_id s.2.2) e)))
  | Throw msg => Throw msg
  | Undef k => Undef k
  | OutOfFuel => OutOfFuel
  end.
Definition handle (fuel put_fuel : nat) (package : Package R) :
    M (Frontend * World) (Package R) :=
  f ← get_fr;
  if m_is_virtual f then on_env (handle_package c fuel put_fuel package)
  else match z3950 (p_request package) with
       | Some (initRequest req) => on_env (handle_init c req package)
       | _ => on_world (next "" package)
       end.
(** The frontend of a session, taken and given back: the code of [Frontends]. *)
Definition get_frontend (package : Package R) : M World Frontend :=
  Frontends.get_frontend id (λ cl _, cl) Frontend_new package.
Definition release_frontend (f : Frontend) (package : Package R) : M World unit :=
  Frontends.release_frontend id (λ cl _, cl) (λ _ _, mret tt) f package.
Definition process (fuel put_fuel : nat) (package : Package R) : M World (Package R) :=
  f ← get_frontend package;
  r ← with_frontend f (handle fuel put_fuel package);
  let '(package, f) := r in
  release_frontend f package ;;
  mret package.
End process.

(** ** Quoted terms

    A term in quotes ends at the next quote that has no backslash in front;
    a backslash takes the meaning of the character behind it. *)
Fixpoint read_quoted (s : string) : option (string * string) :=
  match s with
  | EmptyString => None
  | String ch s' =>
      if decide (ch = "034"%char) then Some ("", s')
      else if decide (ch = "\"%char) then
        match s' with
        | String ch' s'' => (λ r, (String ch' r.1, r.2)) <$> read_quoted s''
        | EmptyString => None
        end
      else (λ r, (String ch r.1, r.2)) <$> read_quoted s'
  end.
Lemma read_escaped u rest :
  find_char "\" u = None → read_quoted (escape_cql_term u +:+ dquote +:+ rest) = Some (u, rest).
Proof.
  induction u as [|ch u IH]; [done|]. cbn [find_char]. case_decide as Hch; [done|].
  destruct (find_char "\" u); [done|]. intros _. specialize (IH eq_refl).
  cbn [escape_cql_term]. unfold is_cql_special. case_bool_decide as Hs.
  - rewrite !str_app_cons. cbn [read_quoted]. rewrite decide_False by done.
    rewrite decide_True by done. by rewrite IH.
  - rewrite str_app_cons. cbn [read_quoted]. rewrite decide_False by tauto.
    rewrite decide_False by done. by rewrite IH.
Qed.

(** ** Fields of a CQL query *)
Lemma cql_tree_ind (P : cql_node → Prop) :
  (∀ index relation term, P (CQL_NODE_ST index relation term)) →
  (∀ v l r, (∀ n, l = Some n → P n) → (∀ n, r = Some n → P n) → P (CQL_NODE_BOOL v l r)) →
  (∀ i s, (∀ n, s = Some n → P n) → P (CQL_NODE_SORT i s)) →
  ∀ n, P n.
Proof.
  intros Hst Hbool Hsort. fix IH 1. intros [index relation term|v l r|i s].
  - apply Hst.
  - apply Hbool; [destruct l as [n|]|destruct r as [n|]]; intros ? [= <-]; apply IH.
  - apply Hsort. destruct s as [n|]; intros ? [= <-]; apply IH.
Qed.
(** The fields of the search terms, from left to right. *)
Fixpoint indexes (cn : cql_node) : list string :=
  match cn with
  | CQL_NODE_ST index _ _ => match index with Some i => [i] | None => [] end
  | CQL_NODE_BOOL _ l r =>
      match l with Some n => indexes n | None => [] end ++
      match r with Some n => indexes n | None => [] end
  | CQL_NODE_SORT _ s => match s with Some n => indexes n | None => [] end
  end.
(** The query with every field replaced. *)
Fixpoint replace_indexes (f : string → option string) (cn : cql_node) : cql_node :=
  match cn with
  | CQL_NODE_ST index relation term => CQL_NODE_ST (index ≫= f) relation term
  | CQL_NODE_BOOL v l r =>
      CQL_NODE_BOOL v (replace_indexes f <$> l) (replace_indexes f <$> r)
  | CQL_NODE_SORT i s => CQL_NODE_SORT i (replace_indexes f <$> s)
  end.
Section fields.
Context `{HCcl : Ccl, HXslt : Xslt, HFiles : Files, Y : Yaz, HYaz : ZoomYaz}.
Context (c : Impl).
Definition field_of (index : string) : option string :=
  field ← fieldmap c !! index; if decide (field = "") then None else Some (c_str field).
Definition mapped (index : string) : Prop := is_Some (fieldmap c !! index).
(** What a conversion of search terms with these fields has to give. *)
Definition converted {A} (fields : list string) (good : A) (r : A + cql_node) : Prop :=
  match r with
  | inl a => Forall mapped fields ∧ a = good
  | inr e => ∃ l1 index l2 relation term, fields = l1 ++ index :: l2 ∧
      Forall mapped l1 ∧ fieldmap c !! index = None ∧
      e = CQL_NODE_ST (Some index) relation term
  end.
Lemma converted_map {A B} (f : A → B) l good (r : A + cql_node) :
  converted l good r → converted l (f good) (match r with inl a => inl (f a) | inr e => inr e end).
Proof. destruct r as [a|e]; [|done]. by intros [? ->]. Qed.
Lemma converted_app {A B} l1 l2 (good1 : A) (good2 : B) (r1 : A + cql_node) (r2 : B + cql_node) :
  converted l1 good1 r1 → converted l2 good2 r2 →
  converted (l1 ++ l2) (good1, good2)
    (match r1 with
     | inr e => inr e
     | inl a => match r2 with inr e => inr e | inl b => inl (a, b) end
     end).
Proof.
  destruct r1 as [a|e].
  - intros [Hl1 ->]. destruct r2 as [b|e].
    + intros [Hl2 ->]. split; [by apply Forall_app|done].
    + intros (m1 & i & m2 & relation & term & -> & Hm1 & Hi & ->).
      exists (l1 ++ m1), i, m2, relation, term. split_and!; [by rewrite <-app_assoc| |done..].
      by apply Forall_app.
  - intros (m1 & i & m2 & relation & term & -> & Hm1 & Hi & ->) _.
    exists m1, i, (m2 ++ l2), relation, term. by rewrite <-app_assoc.
Qed.
Definition sub_indexes (o : option cql_node) : list string :=
  match o with Some n => indexes n | None => [] end.
Lemma sub_converted (o : option cql_node) :
  (∀ n, o = Some n → converted (indexes n) (replace_indexes field_of n) (convert_cql_fields c n)) →
  converted (sub_indexes o) (replace_indexes field_of <$> o)
    (match o with
     | None => inl None
     | Some n => match convert_cql_fields c n with inl n => inl (Some n) | inr e => inr e end
     end).
Proof.
  destruct o as [n|]; intros Ho; [|by split]. by apply (converted_map Some), Ho.
Qed.
(** A CQL query is converted when all of its fields are in the
    configuration: each of them is replaced, and nothing else changes.
    Otherwise the first search term with another field is the error. *)
Theorem cql_fields_converted cn :
  converted (indexes cn) (replace_indexes field_of cn) (convert_cql_fields c cn).
Proof.
  induction cn as [index relation term|v l r IHl IHr|i s IHs] using cql_tree_ind;
    cbn [convert_cql_fields].
  - destruct index as [i|]; [|by split].
    destruct (fieldmap c !! i) as [field|] eqn:Hf.
    + split; [constructor; [by eexists|done]|]. cbn. unfold field_of. by rewrite Hf.
    + exists [], i, [], relation, term. by split_and!.
  - pose proof (converted_map (λ lr, CQL_NODE_BOOL v lr.1 lr.2) _ _ _
      (converted_app _ _ _ _ _ _ (sub_converted l IHl) (sub_converted r IHr))) as Hc.
    cbn [indexes replace_indexes]. revert Hc. unfold sub_indexes.
    repeat case_match; simplify_eq; done.
  - apply (converted_map (CQL_NODE_SORT i)), (sub_converted s IHs).
Qed.
End fields.

(** ** Searches end *)
Section ends.
Context `{HCcl : Ccl, HXslt : Xslt, HFiles : Files, Y : Yaz, HYaz : ZoomYaz} {W : Type}.
Context `{PackageLog W, UrlClient W, ZoomClient W, ZoomSystem W, !ZoomReturns W}.
Context `{!ZoomQueries} (c : Impl).
(** The probe of a proxy ends within the bound on its writes. *)
Context (put_fuel : nat) (Hcheck : ∀ p (w : W), ends (check_proxy c put_fuel p) w any).

(** The counters after a failure: the next proxy, or once from the start. *)
Definition again_rel (k k' : Counters) : Prop :=
  (k_proxy_step k ≠ 0 ∧ k' = mk_Counters (k_proxy_step k) (same_retries k) (proxy_retries k + 1)) ∨
  (same_retries k = 0 ∧ proxy_retries k = 0 ∧ k' = mk_Counters 0 1 0).
Lemma retry_ends b e k f (w : W) :
  ends (retry_on_error c put_fuel b e k) (f, w) (λ r s',
    if r.1.1 then m_backend s'.1 = None ∧ b ≠ None ∧ again_rel k r.2 else r.2 = k).
Proof.
  unfold retry_on_error, retry, clear_backend, again_rel.
  ends_auto ltac:(first [eapply ends_true; [apply Hcheck|intros ? ?]
    |eapply ends_true; [apply log_diagnostic_ends|intros ? ?]]);
    cbn; try done; split_and!; try done; destruct_and?;
    (by left) || (right; split_and!; [done..|f_equal; lia]).
Qed.
Definition attempt_post (b : bool) (k : Counters) (r : Counters + option APDU) (s : Frontend * W) :
    Prop :=
  match r with inl k' => m_backend s.1 = None ∧ b = true ∧ again_rel k k' | inr _ => True end.
Lemma convert_query_ends s q (w : W) : ends (convert_query c s q) w any.
Proof. unfold convert_query, convert_ccl. ends_auto fail. Qed.
Lemma zoom_query_of_ends b s pqf keys (w : W) : ends (zoom_query_of b s pqf keys) w any.
Proof. unfold zoom_query_of. ends_auto fail. Qed.
Lemma search_ends q old fl b (w : W) : ends (search q old fl b) w any.
Proof. unfold search. ends_auto ltac:(eapply ends_true; [apply search_returns|intros ? ?]). Qed.
Lemma search_records_ends sr b hits e fl k f (w : W) :
  ends (search_records c sr b hits e fl) (f, w) (attempt_post true k).
Proof.
  unfold search_records, update_backend.
  ends_auto ltac:(first [eapply ends_true; [apply get_records_ends|intros ? ?]
    |eapply ends_true; [apply log_diagnostic_ends|intros ? ?]]); done.
Qed.
Lemma search_error_ends sr e b k f (w : W) :
  ends (search_error sr e) (f, w) (attempt_post b k).
Proof.
  unfold search_error.
  ends_auto ltac:(eapply ends_true; [apply log_diagnostic_ends|intros ? ?]).
Qed.
Lemma search_backend_ends sr b k f (w : W) :
  ends (search_backend c put_fuel sr b k) (f, w) (attempt_post true k).
Proof.
  unfold search_backend, update_backend.
  ends_auto ltac:(first [apply ends_lift; [apply prepare_elements_no_fuel|intros ? ?]
    |eapply ends_true; [apply convert_query_ends|intros ? ?]
    |eapply ends_true; [apply zoom_query_of_ends|intros ? ?]
    |eapply ends_true; [apply search_ends|intros ? ?]
    |apply search_error_ends
    |eapply ends_mono; [apply retry_ends|intros [[again e'] k'] [f' w'] Hretry]
    |apply search_records_ends]).
  cbn in *. subst. destruct Hretry as (? & _ & ?). by split_and!.
Qed.
Lemma attempt_ends sr database k f (w : W) :
  0 ≤ k_proxy_step k → (length (proxies (args_of database)) ≤ 1)%nat →
  ends (attempt c put_fuel sr database k) (f, w) (λ r s', match r with
    | inl k' => m_backend s'.1 = None ∧ ∃ s1,
        step_rel (reuses f database) (args_of database) (k_proxy_step k) s1 ∧
        again_rel (mk_Counters s1 (same_retries k) (proxy_retries k)) k'
    | inr _ => True
    end).
Proof.
  intros Hk Hlen. unfold attempt. apply ends_bind.
  eapply ends_mono; [by apply get_backend_ends|]. intros found [f1 w1] Hfound.
  apply ends_bind. eapply ends_mono; [apply retry_ends|].
  intros [[again e] k'] [f2 w2] Hretry. cbn in Hretry |- *. destruct again.
  { apply ends_ret. destruct Hretry as (Hm & Hb & Hagain). split; [done|].
    eexists. split; [by apply Hfound|done]. }
  subst k'. case_decide.
  { eapply ends_mono; [apply (search_error_ends sr e false k)|].
    intros [?|?] ?; [by intros (_ & ? & _)|done]. }
  destruct (f_backend found) as [b|] eqn:Hfb; [|done].
  destruct (enable_explain b); [done|].
  eapply ends_mono; [apply search_backend_ends|]. intros [k2|?] [f3 w3]; [|done].
  intros (Hm & _ & Hagain). split; [done|]. eexists. split; [by apply Hfound|done].
Qed.
Lemma later_attempts_end fuel sr database k f (w : W) :
  (length (proxies (args_of database)) ≤ 1)%nat → m_backend f = None →
  0 ≤ k_proxy_step k → 0 ≤ same_retries k → 0 ≤ proxy_retries k →
  0 < same_retries k ∨ 0 < proxy_retries k →
  (proxies (args_of database) = [] → k_proxy_step k = 0) →
  1 ≤ Z.of_nat fuel → proxy_count (args_of database) - k_proxy_step k ≤ Z.of_nat fuel →
  ends (search_loop c fuel put_fuel sr database k) (f, w) any.
Proof.
  intros Hlen. revert k f w. induction fuel as [|fuel IH]; intros k f w Hf Hs Hsame Hproxy Hlater
    Hnone Hfuel Hn; [lia|].
  cbn [search_loop]. apply ends_bind. eapply ends_mono; [by apply attempt_ends|].
  intros [k'|res] [f' w']; [|done]. intros (Hf' & s1 & Hstep & Hagain).
  destruct Hagain as [[Hs1 ->]|(? & ? & _)]; cbn in *; [|lia].
  unfold step_rel in Hstep. destruct (proxies (args_of database)) eqn:Hp.
  { rewrite Hnone in Hstep by done. lia. }
  destruct Hstep as [?|[Hrange Hnext]]; [lia|].
  assert (s1 = k_proxy_step k + 1) by (apply Hnext; unfold reuses, reusable; by rewrite Hf).
  apply IH; cbn; auto; lia || done.
Qed.
(** C22. A search comes to an end: with one argument proxy at most, as many
    attempts as it has proxies and two more are enough, whatever the proxies
    and the target do. *)
Theorem search_retries_end fuel sr f (w : W)
    (Hone : ∀ db, sq_databaseNames sr = [db] → (length (proxies (args_of (c_str db))) ≤ 1)%nat)
    (Hfuel : ∀ db, sq_databaseNames sr = [db] →
      proxy_count (args_of (c_str db)) + 2 ≤ Z.of_nat fuel) :
  handle_search c fuel put_fuel sr (f, w) ≠ OutOfFuel.
Proof.
  apply (ends_no_fuel _ _ any). unfold handle_search.
  destruct (sq_databaseNames sr) as [|db [|? ?]] eqn:Hdb;
    try (ends_auto ltac:(eapply ends_true; [apply log_diagnostic_ends|intros ? ?]); done).
  specialize (Hone db eq_refl). specialize (Hfuel db eq_refl).
  assert (0 ≤ proxy_count (args_of (c_str db)))
    by (unfold proxy_count; repeat case_match; lia).
  destruct fuel as [|fuel]; [lia|]. cbn [search_loop]. apply ends_bind.
  eapply ends_mono; [apply attempt_ends; [cbn; lia|done]|].
  intros [k'|res] [f' w']; [|done]. intros (Hf' & s1 & Hstep & Hagain). cbn in *.
  unfold step_rel in Hstep.
  destruct Hagain as [[Hs1 ->]|(_ & _ & ->)]; cbn in *; apply later_attempts_end; cbn;
    try done; try lia; try tauto; destruct (proxies (args_of (c_str db))); try done; lia.
Qed.
End ends.

(** ** Authentication *)
Section authentication.
Context `{HCcl : Ccl, HXslt : Xslt, HFiles : Files, Y : Yaz, HYaz : ZoomYaz} {R W : Type}.
Context `{PackageLog W, UrlClient W, ZoomClient W, ZoomSystem W}.
Context (c : Impl).
(** Why a client may use the filter; an identity gives the session its realm. *)
Definition granted (req : InitRequest) (package : Package R) (f : Frontend) : Prop :=
  conf c torus_auth_url = "" ∨
  ip_allowed c (client_ip req package) = true ∨
  ∃ (w1 w2 : W) doc info, let '(user, password) := init_user req in
    Torus.get_searchable yaz_encode_uri_component xmlParseMemory (conf c torus_auth_url) ""
      (torus_auth_query c user password (client_ip req package)).1 "" (conf c proxy) w1 =
      Ok ((Some doc, info), w2) ∧
    identity doc ≠ [] ∧ session_realm f = mp_xml.get_text (identity doc).
Lemma auth_granted req (package : Package R) f (w : W) :
  BIB1_INIT_AC_BLOCKED_NETWORK_ADDRESS ≠ 0 →
  par (auth c req package) (f, w) (λ e s',
    m_is_virtual s'.1 = m_is_virtual f ∧ (e.1 = 0 → granted req package s'.1)).
Proof.
  intros Hblocked. unfold auth, granted.
  case_decide as Hurl; [split; auto|].
  destruct (init_user req) as [user password] eqn:Hu.
  destruct (ip_allowed c (client_ip req package)) eqn:Hip; [split; auto|].
  assert (Hcode : (torus_auth_query c user password (client_ip req package)).2 ≠ 0)
    by (unfold torus_auth_query; by case_decide).
  destruct (torus_auth_query c user password (client_ip req package)) as [query code].
  apply par_bind. apply on_world_par.
  destruct (Torus.get_searchable yaz_encode_uri_component xmlParseMemory (conf c torus_auth_url)
    "" query "" (conf c proxy) w) as [[[doc info] w2]|?|?|] eqn:Hdoc;
    unfold par at 1; rewrite Hdoc; try done.
  destruct doc as [doc|]; [|by split].
  destruct (identity doc) as [|n l] eqn:Hid.
  { apply par_ret. split; [done|]. intros ?. by cbn in *. }
  apply par_bind. unfold par, modify_fr, modify_st. cbn. split; [done|]. intros _. right. right.
  exists w, w2, doc, info. rewrite Hid. by split_and!.
Qed.
(** C21. A client gets past Init only with a grant: no authentication is
    configured, or its address is allowed, or the Torus has an identity for it,
    whose text is the realm of the session. Any other client is answered with
    a failure, and its session is closed. *)
Theorem init_authenticates req (package : Package R) f (w : W) p' f' w'
    (Hdiag : BIB1_INIT_AC_BLOCKED_NETWORK_ADDRESS ≠ 0) (Hnew : m_is_virtual f = false)
    (Hrun : handle_init c req package (f, w) = Ok (p', (f', w'))) :
  if m_is_virtual f' then granted req package f'
  else is_closed p' = true ∧ ∃ r, p_response p' = Some (GDU_Z3950 (initResponse r)) ∧
    ir_result r = false.
Proof.
  enough (H' : par (handle_init c req package) (f, w) (λ p s,
    if m_is_virtual s.1 then granted req package s.1
    else is_closed p = true ∧ ∃ r, p_response p = Some (GDU_Z3950 (initResponse r)) ∧
      ir_result r = false)) by (unfold par in H'; by rewrite Hrun in H').
  unfold handle_init. apply par_bind. unfold par at 1, modify_fr, modify_st. cbn [fst snd].
  apply par_bind. eapply par_mono; [by apply auth_granted|].
  intros [e info] [f1 w1] [Hv Hg]. cbn in *. case_decide as He.
  - cbn. rewrite Hv, Hnew. split; [done|]. by eexists.
  - apply Hg. by destruct (decide (e = 0)).
Qed.
End authentication.

(** ** The query of the authentication *)

(** The name and the password that a client gives end where they should in
    the query, and are read back as they were given, as long as there is no
    backslash in them. *)
Theorem auth_query_quoted `{Ccl, Xslt} (c : Impl) user password ip
    (Hu : user ≠ "") (Hp : password ≠ "") (Hub : find_char "\" user = None)
    (Hpb : find_char "\" password = None) :
  ∃ s rest, (torus_auth_query c user password ip).1 = "userName==" +:+ dquote +:+ s ∧
    read_quoted s = Some (user, " and password==" +:+ dquote +:+ rest) ∧
    read_quoted rest = Some (password, "").
Proof.
  unfold torus_auth_query. rewrite decide_True by done. cbn [fst].
  eexists _, (escape_cql_term password +:+ dquote +:+ ""). split_and!; [done| |].
  - rewrite str_app_nil_r. by apply read_escaped.
  - by apply read_escaped.
Qed.

Section examples.
#[local] Existing Instances ref_ccl ref_xslt ref_files ref_zoom_yaz ref_log ref_system ref_queries.
#[local] Instance example_url : UrlClient (option string) := ref_url (Some "realm1").
#[local] Instance example_client : ZoomClient (option string) := ref_client false 3.
#[local] Instance example_returns : ZoomReturns (option string) := ref_returns (Some "realm1") false 3.

Lemma auth_query_quoted_witness :
  ∃ s rest, (torus_auth_query Impl_new ("a" +:+ dquote) "b*" "1.2.3.4").1 =
      "userName==" +:+ dquote +:+ s ∧
    read_quoted s = Some ("a" +:+ dquote, " and password==" +:+ dquote +:+ rest) ∧
    read_quoted rest = Some ("b*", "").
Proof. apply (auth_query_quoted Impl_new); done. Defined.
(** A backslash is not escaped: the term ends at a quote of the client, and
    what follows is a part of the query. *)
Example query_injection : (λ r, (r.1, str_take 20 r.2)) <$>
  read_quoted (escape_cql_term ("a\" +:+ dquote +:+ " or cql.allRecords=1") +:+ dquote) =
  Some ("a\", " or cql.allRecords=1").
Proof. reflexivity. Qed.

Definition example_conf : Impl := set_s_map "db" (Searchable_new tt) Impl_new.
Definition example_search (database : string) : SearchRequest :=
  set_sq_databaseNames [database] (zget_searchRequest (Yaz := ref_yaz)).
(** Nothing can be reached: every proxy is tried, and the search ends. *)
Lemma search_retries_end_witness :
  handle_search example_conf 5 1 (example_search "db,proxy=a,b,c") (Frontend_new, None) ≠ OutOfFuel.
Proof.
  apply (search_retries_end example_conf 1).
  - intros p w. exact I.
  - intros db [= <-]. vm_compute. lia.
  - intros db [= <-]. vm_compute. discriminate.
Defined.
Example proxies_tried :
  match handle_search example_conf 5 1 (example_search "db,proxy=a,b,c") (Frontend_new, None) with
  | Ok (Some (searchResponse r), _) =>
      match sr_records r with
      | Some (Records_NSD d) => addinfo d = v2Addinfo "c" | _ => False end
  | _ => False
  end.
Proof. vm_compute. reflexivity. Qed.

(** With two arguments proxy whose lists have different lengths the step goes
    back and forth: a client's search never ends. *)
Definition two_proxies : string := "db,proxy=a,b,c&proxy=d,e,f,g,h".
Definition next_step (step : Z) : Z :=
  if step =? 0 then 2 else if step =? 1 then 3 else 1.
Lemma two_proxies_step step n : step ∈ [0; 1; 2; 3] →
  attempt example_conf 1 (example_search two_proxies) two_proxies (mk_Counters step 0 n)
    (Frontend_new, None) =
  Ok (inl (mk_Counters (next_step step) 0 (n + 1)), (Frontend_new, None)).
Proof.
  intros Hs. assert (Hc : step = 0 ∨ step = 1 ∨ step = 2 ∨ step = 3) by set_solver.
  destruct Hc as [-> | [-> | [-> | ->]]]; reflexivity.
Qed.
Lemma two_proxies_loop fuel step n : step ∈ [0; 1; 2; 3] →
  search_loop example_conf fuel 1 (example_search two_proxies) two_proxies
    (mk_Counters step 0 n) (Frontend_new, None) = OutOfFuel.
Proof.
  revert step n. induction fuel as [|fuel IH]; intros step n Hstep; [done|].
  cbn [search_loop]. unfold mbind, M_bind. rewrite two_proxies_step by done. apply IH.
  unfold next_step. repeat case_match; set_solver.
Qed.
Theorem two_proxies_never_end fuel :
  handle_search example_conf fuel 1 (example_search two_proxies) (Frontend_new, None) = OutOfFuel.
Proof. apply (two_proxies_loop fuel 0 0). set_solver. Qed.

(** Init at a Torus that knows the client; one that does not answer. *)
Definition auth_conf : Impl := set_conf torus_auth_url "http://torus/%query" Impl_new.
Definition example_package : Package unit :=
  mk_Package (Session.mk 1 false) (Origin.mk "1.2.3.4" 1 0 "") None
    (Some (GDU_Z3950 (initRequest (zget_initRequest (Yaz := ref_yaz))))) None.
Definition init_virtual (u : UrlClient (option string)) : option (bool * string * bool) :=
  match handle_init (Y := ref_yaz) (H0 := u) auth_conf (zget_initRequest (Yaz := ref_yaz))
          example_package (Frontend_new, None) with
  | Ok (p, (f, _)) => Some (m_is_virtual f, session_realm f, is_closed p)
  | _ => None
  end.
Example init_known : init_virtual (ref_url (Some "realm1")) = Some (true, "realm1", false).
Proof. vm_compute. reflexivity. Qed.
Example init_unknown : init_virtual (ref_url None) = Some (false, "", true).
Proof. vm_compute. reflexivity. Qed.
Definition example_init : outcome (Package unit * (Frontend * option string)) :=
  handle_init (Y := ref_yaz) auth_conf (zget_initRequest (Yaz := ref_yaz)) example_package
    (Frontend_new, None).
Lemma init_authenticates_witness :
  match example_init with
  | Ok (p', (f', w')) => m_is_virtual f' = true ∧
      granted (Y := ref_yaz) auth_conf (zget_initRequest (Yaz := ref_yaz)) example_package f'
  | _ => False
  end.
Proof.
  pose proof init_known as Hk. unfold init_virtual in Hk. change (ref_url _) with example_url in Hk.
  fold example_init in Hk.
  destruct example_init as [[p' [f' w']]|?|?|] eqn:Hrun; [|discriminate..].
  injection Hk as Hv _ _. split; [exact Hv|].
  pose proof (init_authenticates (Y := ref_yaz) auth_conf (zget_initRequest (Yaz := ref_yaz))
    example_package Frontend_new None p' f' w' ltac:(discriminate) eq_refl Hrun) as Hg.
  rewrite Hv in Hg. exact Hg.
Defined.
End examples.

(** ** Searches that fail *)
Section failures.
#[local] Existing Instances ref_ccl ref_xslt ref_files ref_zoom_yaz ref_log ref_system ref_queries.
#[local] Instance up_url : UrlClient (option string) := ref_url None.
#[local] Instance up_client : ZoomClient (option string) := ref_client true 3.
Definition failing_search (q : Query) : SearchRequest :=
  set_sq_query q (example_search "db").
(** A query of CCL that is empty stops the program. *)
Example empty_ccl :
  match handle_search (Y := ref_yaz) example_conf 5 1 (failing_search (Query_type_2 ""))
          (Frontend_new, None) with
  | Undef AssertFailed => true | _ => false
  end = true.
Proof. vm_compute. reflexivity. Qed.
(** The connection stays after a search that failed before it was sent, and a
    Present finds no result set there. *)
Example present_without_set :
  match handle_search (Y := ref_yaz) example_conf 5 1
          (failing_search (Query_type_104 (Some "title=x"))) (Frontend_new, None) with
  | Ok (Some (searchResponse _), fw) =>
      match handle_present (Y := ref_yaz) example_conf
              (set_pq_numberOfRecordsRequested 1 (set_pq_resultSetStartPoint 1
                (zget_presentRequest (Yaz := ref_yaz)))) fw with
      | Undef NullDeref => true | _ => false
      end
  | _ => false
  end = true.
Proof. vm_compute. reflexivity. Qed.
(** A search and a Present that are answered. *)
Example search_and_present :
  match handle_search (Y := ref_yaz) example_conf 5 1 (failing_search (Query_type_2 "x"))
          (Frontend_new, None) with
  | Ok (Some (searchResponse r), fw) =>
      match handle_present (Y := ref_yaz) example_conf
              (set_pq_numberOfRecordsRequested 5 (set_pq_resultSetStartPoint 2
                (zget_presentRequest (Yaz := ref_yaz)))) fw with
      | Ok (presentResponse p, _) => Some (sr_resultCount r, pr_numberOfRecordsReturned p)
      | _ => None
      end
  | _ => None
  end = Some (3, 2).
Proof. vm_compute. reflexivity. Qed.
End failures.
End ZoomSearch.
