(* ===== verification/HttpFile.v ===== *)
(** * The http_file filter

    [src/filter_http_file.cpp]: files below some directories are served for
    paths that start with a prefix. [src/plainfile.cpp] reads the file of MIME
    types. The file system is a function from names to what is there; it does
    not change while a file is served. *)
From S2P Require Import Prelude Stream Zgdu Yaz Xml Core Util.

(** ** [PlainFile] *)
Module PlainFile.
(** The lines that [getline] passes over, and the words of the others. *)
Definition blank (c : ascii) : bool := bool_decide (c = " "%char ∨ c = "009"%char).
Definition skip (line : string) : bool :=
  match line with
  | EmptyString => true
  | String first _ => bool_decide (first = "#"%char) || blank first
  end.
Definition push (arg : string) (args : list string) : list string :=
  if decide (arg = "") then args else arg :: args.
Fixpoint split (arg line : string) : list string :=
  match line with
  | EmptyString => push arg []
  | String c line' =>
      if blank c then push arg (split "" line') else split (arg +:+ String c "") line'
  end.
(** A loop that takes the words of all lines; the buffer has
    [PLAINFILE_MAX_LINE-1] places. *)
Definition for_lines {B} (add : list string → B → B) (fuel : nat) (contents : string) (acc : B) :
    outcome B :=
  read_lines 255 skip (λ line, Ok (split "" line)) add fuel (mk_ifstream contents false false) acc.
End PlainFile.

Module HttpFile.

(** What [stat], [fopen], [fseek], [ftell] and [fread] find out about a name. *)
Inductive file : Type :=
  | Missing
  | Special                   (* not a regular file *)
  | Unreadable                (* no [fopen], or no [fseek] *)
  | Regular (sz : Z) (contents : option string).

Record Area : Type := mk_Area {
  m_url_path_prefix : string;
  m_file_root : string;
  m_raw : bool;
  m_passthru : bool
}.
Record Rep : Type := mk_Rep {
  m_ext_to_map : gmap string string;
  m_area_list : list Area
}.
Definition Rep_init : Rep := mk_Rep ∅ [].
Definition add_area (a : Area) (r : Rep) : Rep :=
  mk_Rep (m_ext_to_map r) (m_area_list r ++ [a]).

(** ** Configuration *)
Definition add_mime (args : list string) (m : gmap string string) : gmap string string :=
  match args with
  | mime :: exts => fold_left (λ m ext, <[ext := mime]> m) exts m
  | [] => m
  end.
Fixpoint configure_area (l : list xmlNode) (a : Area) : outcome Area :=
  match l with
  | [] => Ok a
  | n :: l' =>
      if decide (n_type n ≠ XML_ELEMENT_NODE) then configure_area l' a
      else if mp_xml.is_element_mp [n] "documentroot" then
        configure_area l' (mk_Area (m_url_path_prefix a) (mp_xml.get_text [n]) (m_raw a)
                             (m_passthru a))
      else if mp_xml.is_element_mp [n] "prefix" then
        configure_area l' (mk_Area (mp_xml.get_text [n]) (m_file_root a) (m_raw a) (m_passthru a))
      else if mp_xml.is_element_mp [n] "raw" then
        configure_area l' (mk_Area (m_url_path_prefix a) (m_file_root a)
                             (mp_xml.get_bool [n] false) (m_passthru a))
      else if mp_xml.is_element_mp [n] "passthru" then
        configure_area l' (mk_Area (m_url_path_prefix a) (m_file_root a) (m_raw a)
                             (mp_xml.get_bool [n] false))
      else Throw ("Bad element " +:+ n_name n +:+ " in area section")
  end.
Section configure.
Context (open : string → option string) (fuel : nat).
Fixpoint configure_loop (l : list xmlNode) (r : Rep) : outcome Rep :=
  match l with
  | [] => Ok r
  | n :: l' =>
      if decide (n_type n ≠ XML_ELEMENT_NODE) then configure_loop l' r
      else if decide (n_name n = "mimetypes") then
        let fname := mp_xml.get_text [n] in
        match open (c_str fname) with
        | None => Throw ("Can not open mime types file " +:+ fname)
        | Some contents =>
            m ← PlainFile.for_lines add_mime fuel contents (m_ext_to_map r);
            configure_loop l' (mk_Rep m (m_area_list r))
        end
      else if decide (n_name n = "area") then
        a ← configure_area (n_children n) (mk_Area "" "" false false);
        configure_loop l' (if decide (m_file_root a = "") then r else add_area a r)
      else Throw ("Bad element " +:+ n_name n +:+ " in virt_db filter")
  end.
Definition configure (ptr : xmlNode) (r : Rep) : outcome Rep := configure_loop (n_children ptr) r.
End configure.

(** ** Requests *)
Section filter.
Context `{Y : Yaz} {R W : Type} `{PackageLog W}.
Context (yaz_decode_uri_component : string → string) (z_GDU_decode : string → option GDU).
Context (r : Rep) (files : string → file).
Context (next : string → Package R → M W (Package R)).

Definition get_mime_type (fname : string) : string :=
  let file_part := match str_rfind "/" fname with
                   | Some p => str_drop (S p) fname
                   | None => fname
                   end in
  let content_type := match str_rfind "." file_part with
                      | Some p => default "" (m_ext_to_map r !! str_drop (S p) file_part)
                      | None => ""
                      end in
  if decide (content_type = "") then "application/octet-stream" else content_type.
Definition respond (req : HTTP_Request) (code : Z) (package : Package R) : Package R :=
  let '(hres, session) := create_HTTP_Response (p_session package) req code in
  set_response (Some (GDU_HTTP_Response hres)) (set_session session package).
(** A file that was read. *)
Definition file_response (req : HTTP_Request) (fname fbuf : string) (package : Package R) :
    Package R :=
  let '(hres, session) := create_HTTP_Response (p_session package) req 200 in
  let hres := set_hr_content fbuf hres in
  set_response (Some (GDU_HTTP_Response
      (set_hr_headers (z_HTTP_header_add (hr_headers hres) "Content-Type"
                         (c_str (get_mime_type fname))) hres)))
    (set_session session package).
Definition raw_response (req : HTTP_Request) (fbuf : string) (package : Package R) : Package R :=
  match z_GDU_decode fbuf with
  | Some gdu => set_response (Some gdu) package
  | None => respond req 500 package
  end.
Definition fetch_file (req : HTTP_Request) (fname : string) (raw passthru : bool)
    (package : Package R) : M W (Package R) :=
  let refuse code := if passthru then next "" package else mret (respond req code package) in
  if decide (hq_method req ≠ "GET") then refuse 405
  else match files (c_str fname) with
       | Missing | Special => refuse 404
       | Unreadable => mret (respond req 404 package)
       | Regular sz contents =>
           if 1000000 <? sz then mret (respond req 404 package)
           else if sz <? 0 then undef BadSize
           else match (if sz =? 0 then Some "" else contents) with
                | None => mret (respond req 500 package)
                | Some fbuf => mret (if raw then raw_response req fbuf package
                                     else file_response req fname fbuf package)
                end
       end.
(** The path of a request, without its fragment and query. *)
Definition cut_from (c : ascii) (path : string) : string :=
  match find_char c path with Some p => str_take p path | None => path end.
Definition uri_decode (s : string) : string := c_str (yaz_decode_uri_component s).
Definition request_path (req : HTTP_Request) : string :=
  uri_decode (cut_from "?" (cut_from "#" (hq_path req))).
(** The first area whose prefix the path has. *)
Fixpoint find_area (l : list Area) (path : string) : option (Area * string) :=
  match l with
  | [] => None
  | a :: l' =>
      let n := String.length (m_url_path_prefix a) in
      if decide (str_take n path = m_url_path_prefix a)
      then Some (a, m_file_root a +:+ str_drop n path)
      else find_area l' path
  end.
Definition fetch_uri (req : HTTP_Request) (package : Package R) : M W (Package R) :=
  let path := request_path req in
  match str_find ".." path with
  | Some _ => next "" package
  | None =>
      match find_area (m_area_list r) path with
      | Some (a, fname) =>
          package_log "http_file" (c_str fname) ;;
          fetch_file req fname (m_raw a) (m_passthru a) package
      | None => next "" package
      end
  end.
Definition process (package : Package R) : M W (Package R) :=
  match p_request package with
  | Some (GDU_HTTP_Request req) => fetch_uri req package
  | _ => next "" package
  end.
End filter.

(** ** The files that can be read *)

(** A name inside of an area: its directory, and a rest without dots that go
    up. *)
Definition confined (r : Rep) (fname : string) : Prop :=
  ∃ a rest, a ∈ m_area_list r ∧ fname = m_file_root a +:+ rest ∧ str_find ".." rest = None.
Lemma str_find_drop needle s n : str_find needle s = None → str_find needle (str_drop n s) = None.
Proof.
  revert n. induction s as [|c s IH]; intros [|n] H; try done.
  cbn [str_drop]. apply IH. cbn [str_find] in H. case_decide; [done|].
  by destruct (str_find needle s).
Qed.
Lemma find_area_confined l path a fname :
  find_area l path = Some (a, fname) → str_find ".." path = None →
  a ∈ l ∧ ∃ rest, fname = m_file_root a +:+ rest ∧ str_find ".." rest = None.
Proof.
  intros Hf Hdots. induction l as [|a' l IH]; [done|]. cbn [find_area] in Hf. case_decide.
  - simplify_eq. split; [by left|]. eexists. split; [done|]. by apply str_find_drop.
  - destruct (IH Hf) as [Ha Hr]. split; [by right|done].
Qed.
(** C10. The answer to a request depends only on the files inside of the areas:
    whatever else changes in the file system, it stays the same. *)
Theorem files_confined `{Yaz} {R W} `{PackageLog W} decode gdu r files1 files2 next
    (package : Package R) (w : W)
    (Hsame : ∀ fname, confined r fname → files1 (c_str fname) = files2 (c_str fname)) :
  process decode gdu r files1 next package w = process decode gdu r files2 next package w.
Proof.
  unfold process, fetch_uri. destruct (p_request package) as [[|req|]|]; try done.
  destruct (str_find ".." (request_path decode req)) eqn:Hdots; [done|].
  destruct (find_area (m_area_list r) (request_path decode req)) as [[a fname]|] eqn:Ha; [|done].
  apply find_area_confined in Ha as [Ha (rest & Hfname & Hrest)]; [|done].
  unfold fetch_file. rewrite Hsame; [done|]. by exists a, rest.
Qed.
(** A GET for a file of an area is answered with the contents of the file and
    the MIME type of its name. *)
Theorem file_served `{Yaz} {R W} `{PackageLog W} decode gdu r files next (package : Package R)
    (w : W) req a fname sz fbuf
    (Hreq : p_request package = Some (GDU_HTTP_Request req)) (Hget : hq_method req = "GET")
    (Hdots : str_find ".." (request_path decode req) = None)
    (Harea : find_area (m_area_list r) (request_path decode req) = Some (a, fname))
    (Hraw : m_raw a = false) (Hfile : files (c_str fname) = Regular sz (Some fbuf))
    (Hsize : 0 < sz ≤ 1000000) :
  ∃ package' w', process decode gdu r files next package w = Ok (package', w') ∧
    ∃ hres, p_response package' = Some (GDU_HTTP_Response hres) ∧ hr_content hres = fbuf ∧
      hr_headers hres = z_HTTP_header_add
        (hr_headers (create_HTTP_Response (p_session package) req 200).1) "Content-Type"
        (c_str (get_mime_type r fname)).
Proof.
  unfold process. rewrite Hreq. unfold fetch_uri. rewrite Hdots, Harea.
  unfold fetch_file. rewrite decide_False by (by intros Hn). rewrite Hfile, Hraw.
  destruct (Z.ltb_spec 1000000 sz); [lia|]. destruct (Z.ltb_spec sz 0); [lia|].
  destruct (Z.eqb_spec sz 0); [lia|]. eexists _, _. split; [reflexivity|].
  unfold file_response.
  destruct (create_HTTP_Response (p_session package) req 200) as [hres session].
  eexists. split; [reflexivity|]. by split.
Qed.

(** ** Examples *)
Section examples.
#[local] Instance example_log : PackageLog (option string) :=
  {| p_logger := id; set_logger l _ := l |}.
Definition example_rep : Rep :=
  mk_Rep {[ "html" := "text/html" ]} [mk_Area "/docs" "/var/www" false false].
Definition example_files (name : string) : file :=
  if decide (name = "/var/www/a.html") then Regular 5 (Some "hello")
  else if decide (name = "/var/www2/secret") then Regular 6 (Some "secret") else Missing.
Definition example_request (path : string) : HTTP_Request :=
  {| hq_method := "GET"; hq_version := "1.1"; hq_path := path; hq_headers := []; hq_content := "" |}.
Definition example_package (path : string) : Package unit :=
  mk_Package (Session.mk 1 false) Origin.create None
    (Some (GDU_HTTP_Request (example_request path))) None.
Definition served (files : string → file) (path : string) : option string :=
  match process (Y := ref_yaz) id (λ _, None) example_rep files (λ _ p, mret p)
          (example_package path) None with
  | Ok (p, _) => match p_response p with
                 | Some (GDU_HTTP_Response hres) => Some (hr_content hres)
                 | _ => None
                 end
  | _ => None
  end.
Lemma files_confined_witness :
  process (Y := ref_yaz) id (λ _, None) example_rep example_files (λ _ p, mret p)
    (example_package "/docs/../passwd") None =
  process (Y := ref_yaz) id (λ _, None) example_rep (λ _, Special) (λ _ p, mret p)
    (example_package "/docs/../passwd") None ∧
  process (Y := ref_yaz) id (λ _, None) example_rep (λ _, Missing) (λ _ p, mret p)
    (example_package "/docs/a.html") None =
  process (Y := ref_yaz) id (λ _, None) example_rep
    (λ n, if decide (n = "/etc/passwd") then Special else Missing) (λ _ p, mret p)
    (example_package "/docs/a.html") None.
Proof.
  split; [reflexivity|].
  apply (files_confined (H := ref_yaz)). intros fname (a & rest & Ha & -> & _).
  apply list_elem_of_singleton in Ha as ->. rewrite decide_False; [reflexivity|]. discriminate.
Defined.
Lemma file_served_witness :
  ∃ package' w', process (Y := ref_yaz) id (λ _, None) example_rep example_files (λ _ p, mret p)
    (example_package "/docs/a.html?x=1") None = Ok (package', w') ∧
  ∃ hres, p_response package' = Some (GDU_HTTP_Response hres) ∧ hr_content hres = "hello" ∧
    hr_headers hres = z_HTTP_header_add
      (hr_headers (create_HTTP_Response (Session.mk 1 false)
         (example_request "/docs/a.html?x=1") 200).1) "Content-Type"
      (c_str (get_mime_type example_rep "/var/www/a.html")).
Proof.
  apply (file_served (H := ref_yaz) id (λ _, None) example_rep example_files (λ _ p, mret p)
    (example_package "/docs/a.html?x=1") None _ (mk_Area "/docs" "/var/www" false false)
    "/var/www/a.html" 5 "hello"); try reflexivity. split; [reflexivity|discriminate].
Defined.
(** The prefix need not end where a directory of the path does: an area
    serves the directories whose names begin like its own, too. *)
Example sibling_directory : served example_files "/docs2/secret" = Some "secret".
Proof. vm_compute. reflexivity. Qed.
(** The file of MIME types: a type and its extensions on each line. *)
Example mime_types :
  PlainFile.for_lines add_mime 10
    ("# types" +:+ String newline "text/html html htm" +:+ String newline "image/png  png") ∅ =
  Ok {[ "html" := "text/html"; "htm" := "text/html"; "png" := "image/png" ]}.
Proof. vm_compute. reflexivity. Qed.
End examples.

(** A line that is too long for the buffer: the rest is never read, and the
    configuration never ends. *)
Theorem long_line_hangs s l1 l l2 fuel m
    (Hs : lines s = l1 ++ l :: l2) (Hshort : Forall (λ l, (String.length l < 255)%nat) l1)
    (Hlong : (255 ≤ String.length l)%nat) :
  PlainFile.for_lines add_mime fuel s m = OutOfFuel.
Proof.
  assert (Hfold : ∀ ls m, ∃ m',
    fold_lines PlainFile.skip (λ line, Ok (PlainFile.split "" line)) add_mime ls m = Ok m').
  { induction ls as [|l' ls IH]; intros m'; [by eexists|]. cbn [fold_lines].
    destruct (PlainFile.skip (c_str l')); apply IH. }
  destruct (Hfold (l1 ++ [str_take 254 l]) m) as [m' Hm'].
  unfold PlainFile.for_lines. eapply (read_long 255); [done|lia|done..].
Qed.
(** Lines that fit are read one by one. *)
Theorem mime_types_read s fuel m
    (Hshort : Forall (λ l, (String.length l < 255)%nat) (lines s))
    (Hfuel : (length (lines s) < fuel)%nat) :
  PlainFile.for_lines add_mime fuel s m =
  fold_lines PlainFile.skip (λ line, Ok (PlainFile.split "" line)) add_mime (lines s) m.
Proof. by apply read_short. Qed.
End HttpFile.
