(* ===== verification/RecordTransform.v ===== *)
(** * Filters on records

    [src/filter_sd_remove.cpp] replaces surrogate diagnostics by records;
    [src/filter_record_transform.cpp] asks a target for the syntax and schema
    that it has, and converts the records of its responses. YAZ's retrieval
    facility is a class of operations. *)
From S2P Require Import Prelude Zgdu Yaz Xml Core Util.

(** The records of a response, when both functions look at them. *)
Definition npr_list (returned : Z) (records : option Records) : option (list NamePlusRecord) :=
  if 0 <? returned then
    match records with Some (Records_DBOSD l) => Some l | _ => None end
  else None.
Definition response_records (g : option GDU) : option (list NamePlusRecord) :=
  match z3950 g with
  | Some (presentResponse r) => npr_list (pr_numberOfRecordsReturned r) (pr_records r)
  | Some (searchResponse r) => npr_list (sr_numberOfRecordsReturned r) (sr_records r)
  | _ => None
  end.
Definition put_records (l : list NamePlusRecord) (g : option GDU) : option GDU :=
  match g with
  | Some (GDU_Z3950 (presentResponse r)) =>
      Some (GDU_Z3950 (presentResponse (set_pr_records (Some (Records_DBOSD l)) r)))
  | Some (GDU_Z3950 (searchResponse r)) =>
      Some (GDU_Z3950 (searchResponse (set_sr_records (Some (Records_DBOSD l)) r)))
  | _ => g
  end.
Lemma response_put l g :
  response_records g ≠ None → response_records (put_records l g) = Some l.
Proof.
  destruct g as [[[]|?|?]|]; cbn; try done; unfold npr_list; by case_match.
Qed.

(** ** sd_remove *)
Module SD_Remove.
Fixpoint configure (l : list xmlNode) : outcome unit :=
  match l with
  | [] => Ok tt
  | n :: l' => if decide (n_type n = XML_ELEMENT_NODE) then Throw ("Bad element " +:+ n_name n)
               else configure l'
  end.
Section filter.
Context `{Y : Yaz} {R W : Type}.
Context (next : string → Package R → M W (Package R)).
(** [%lld]. *)
Definition diagrec_to_sutrs (diag : DiagRec) : string :=
  " ERROR " +:+
  match diag with
  | DiagRec_externallyDefined => "diag not in default format"
  | DiagRec_defaultFormat e =>
      let a := match addinfo e with v2Addinfo s | v3Addinfo s => s end in
      print_int (condition e) +:+ ": " +:+ diagbib1_str (condition e) +:+
      (if decide (a = "") then "" else " -- " +:+ a)
  end +:+ String "010" "".
Definition replace_surrogate (npr : NamePlusRecord) : NamePlusRecord :=
  match npr_record npr with
  | NPR_surrogateDiagnostic d =>
      {| databaseName := databaseName npr;
         npr_record := NPR_databaseRecord (z_ext_record_sutrs (diagrec_to_sutrs d)) |}
  | _ => npr
  end.
Definition process (package : Package R) : M W (Package R) :=
  package ← next "" package;
  mret (match response_records (p_response package) with
        | Some l => set_response (put_records (replace_surrogate <$> l) (p_response package)) package
        | None => package
        end).

Definition is_surrogate (npr : NamePlusRecord) : Prop :=
  match npr_record npr with NPR_surrogateDiagnostic _ => True | _ => False end.
(** The records of a response that passed the filter hold no surrogate
    diagnostics. They are the records that the filters behind gave, each at its
    place, with its database, and as it was unless it was a surrogate. *)
Theorem surrogates_removed package (w : W) package' w'
    (Hrun : process package w = Ok (package', w')) :
  ∃ behind, next "" package w = Ok (behind, w') ∧
    match response_records (p_response behind) with
    | None => package' = behind
    | Some l => ∃ l', response_records (p_response package') = Some l' ∧
        Forall2 (λ npr npr', databaseName npr' = databaseName npr ∧ ¬ is_surrogate npr' ∧
          (¬ is_surrogate npr → npr' = npr)) l l'
    end.
Proof.
  unfold process, mbind, M_bind, mret, M_ret in Hrun.
  destruct (next "" package w) as [[behind w1]|?|?|] eqn:Hn; try done.
  injection Hrun as <- <-. exists behind. split; [done|].
  destruct (response_records (p_response behind)) as [l|] eqn:Hl; [|done].
  exists (replace_surrogate <$> l). split; [apply response_put; by rewrite Hl|].
  apply Forall2_fmap_r, Forall_Forall2_diag, Forall_true. intros npr.
  unfold replace_surrogate, is_surrogate. destruct (npr_record npr) eqn:Hr; cbn;
    rewrite ?Hr; naive_solver.
Qed.
End filter.
Section example.
Definition example_next (route : string) (p : Package unit) : M unit (Package unit) :=
  mret (set_response (Some (GDU_Z3950 (presentResponse
    (set_pr_numberOfRecordsReturned 2 (set_pr_records (Some (Records_DBOSD
       [{| databaseName := Some "db"; npr_record := octet_record "abc" |};
        {| databaseName := Some "db"; npr_record := NPR_surrogateDiagnostic
             (DiagRec_defaultFormat {| condition := 14; addinfo := v2Addinfo "bad" |}) |}]))
      (zget_presentResponse (Yaz := ref_yaz))))))) p).
Definition example_package : Package unit :=
  mk_Package (Session.mk 1 false) Origin.create None None None.
Lemma surrogates_removed_witness : ∃ behind package' l',
  process (Y := ref_yaz) example_next example_package tt = Ok (package', tt) ∧
  example_next "" example_package tt = Ok (behind, tt) ∧
  response_records (p_response package') = Some l' ∧ Forall (λ npr, ¬ is_surrogate npr) l'.
Proof.
  destruct (process (Y := ref_yaz) example_next example_package tt) as [[package' []]|?|?|] eqn:Hrun;
    [|discriminate Hrun..].
  destruct (surrogates_removed (Y := ref_yaz) example_next example_package tt package' tt Hrun)
    as (behind & Hn & Hl).
  exists behind, package'. pose proof Hn as Hb. injection Hb as <-. cbn in Hl.
  destruct Hl as (l' & Hl' & Hall). exists l'. split_and!; [reflexivity|exact Hn|exact Hl'|].
  apply (Forall2_Forall_r _ _ _ _ Hall), Forall_true. intros npr npr' (_ & H & _). exact H.
Defined.
End example.
End SD_Remove.

(** ** record_transform *)

(** YAZ's retrieval facility: its configuration, requests, conversions. *)
Record retrieval_result (conv : Type) : Type := mk_retrieval {
  ret_code : Z;
  retrieval_error : string;
  match_schema : option string;
  match_syntax : option string;
  rc : option conv;
  backend_schema : option string;
  backend_syntax : option string
}.
Arguments mk_retrieval {conv}. Arguments ret_code {conv}. Arguments retrieval_error {conv}.
Arguments match_schema {conv}. Arguments match_syntax {conv}. Arguments rc {conv}.
Arguments backend_schema {conv}. Arguments backend_syntax {conv}.
Class Retrieval : Type := {
  yaz_retrieval_t : Type;
  yaz_record_conv_t : Type;
  (** With the conversion usemarcon if the program has it; an error. *)
  yaz_retrieval_configure : string → xmlNode → yaz_retrieval_t + string;
  (** Input schema and syntax. *)
  yaz_retrieval_request :
    yaz_retrieval_t → option string → option string → retrieval_result yaz_record_conv_t;
  (** A converted record, or details about an error. *)
  yaz_record_conv_opac_record : yaz_record_conv_t → ExternalRecord →
    list HoldingsAndCircData → string + option string;
  yaz_record_conv_record : yaz_record_conv_t → string → string + option string;
  (** An OPAC record from XML, in the output character set of a conversion. *)
  yaz_xml_to_opac : yaz_record_conv_t → string → option ExternalRecord;
  z_ext_record_oid : string → string → ExternalRecord
}.

Module RecordTransform.
Definition BIB1_SYSTEM_ERROR_IN_PRESENTING_RECORDS : Z := 14.
Definition BIB1_ELEMENT_SET_NAMES_UNSUPP : Z := 25.
Definition BIB1_UNSPECIFIED_ERROR : Z := 100.
Section filter.
Context `{Y : Yaz, Retrieval} {R W : Type}.
Context (next : string → Package R → M W (Package R)).

Record Impl : Type := mk_Impl {
  m_retrieval : yaz_retrieval_t;
  m_embed_schema : bool
}.
Fixpoint embed_schema (l : list xmlAttr) (v : bool) : bool :=
  match l with
  | [] => v
  | a :: l' => embed_schema l' (if decide (a_name a = "embed_schema")
                                then mp_xml.get_bool (a_children a) false else v)
  end.
Definition configure (xml_node : option xmlNode) (path : string) : outcome Impl :=
  match xml_node with
  | None => Throw "XMLError : RecordTransform filter config: empty XML DOM"
  | Some n =>
      l ← mp_xml.jump_to_children [n] XML_ELEMENT_NODE;
      retrieval_node ← deref_o (head l);
      if decide (n_name retrieval_node ≠ "retrievalinfo")
      then Throw "XMLError : missing retrievalinfo element in RecordTransform"
      else match yaz_retrieval_configure path retrieval_node with
           | inr e => Throw ("XMLError : RecordTransform filter config: " +:+ e)
           | inl t => Ok (mk_Impl t (embed_schema (n_properties retrieval_node) false))
           end
  end.

Context (c : Impl).
(** *** One record *)
Definition surrogate (npr : NamePlusRecord) (details : option string) : NamePlusRecord :=
  zget_surrogateDiagRec (databaseName npr) BIB1_SYSTEM_ERROR_IN_PRESENTING_RECORDS details.
Definition with_record (npr : NamePlusRecord) (r : ExternalRecord) : NamePlusRecord :=
  {| databaseName := databaseName npr; npr_record := NPR_databaseRecord r |}.
Definition convert (rc : yaz_record_conv_t) (r : ExternalRecord) : string + option string :=
  match r with
  | External_OPAC _ _ bib holdings => yaz_record_conv_opac_record rc bib holdings
  | External_octet _ _ buf => yaz_record_conv_record rc buf
  | _ => inr (Some "unsupported record type for record_conv")
  end.
Definition convert_npr (rc : yaz_record_conv_t) (match_syntax match_schema : option string)
    (npr : NamePlusRecord) : outcome NamePlusRecord :=
  match npr_record npr with
  | NPR_databaseRecord r =>
      match convert rc r with
      | inr details => Ok (surrogate npr details)
      | inl output_record =>
          syntax ← deref_o match_syntax;
          if decide (syntax = recsyn_opac) then
            Ok (match yaz_xml_to_opac rc output_record with
                | Some opac => with_record npr opac
                | None => surrogate npr (Some "XML to OPAC conversion failed")
                end)
          else
            let r := z_ext_record_oid syntax output_record in
            Ok (with_record npr (match match_schema with
                                 | Some s => set_descriptor (Some s) r
                                 | None => r
                                 end))
      end
  | _ => Ok npr
  end.
Fixpoint convert_all (rc : yaz_record_conv_t) (match_syntax match_schema : option string)
    (l : list NamePlusRecord) : outcome (list NamePlusRecord) :=
  match l with
  | [] => Ok []
  | npr :: l' =>
      npr ← convert_npr rc match_syntax match_schema npr;
      l' ← convert_all rc match_syntax match_schema l';
      Ok (npr :: l')
  end.

(** *** Requests *)

(** The schema of a search, if it is the same for any number of hits. *)
Definition search_schema (sr_req : SearchRequest) : option (option string) :=
  match sq_smallSetElementSetNames sr_req, sq_mediumSetElementSetNames sr_req with
  | Some (ESN_generic s), Some (ESN_generic m) => if decide (s = m) then Some (Some s) else None
  | None, None => if 1 <? sq_largeSetLowerBound sr_req then Some None else None
  | _, _ => None
  end.
Definition disable_piggyback (sr_req : SearchRequest) : SearchRequest :=
  set_sq_mediumSetPresentNumber 0 (set_sq_largeSetLowerBound 1
    (set_sq_smallSetUpperBound 0 sr_req)).
Definition error_of (input_schema input_syntax : option string)
    (r : retrieval_result yaz_record_conv_t) : Z * option string :=
  if ret_code r =? -1 then (BIB1_SYSTEM_ERROR_IN_PRESENTING_RECORDS, Some (retrieval_error r))
  else if (ret_code r =? 1) || (ret_code r =? 3) then (BIB1_ELEMENT_SET_NAMES_UNSUPP, input_schema)
  else if ret_code r =? 2 then (BIB1_RECORD_SYNTAX_UNSUPP, input_syntax)
  else (BIB1_UNSPECIFIED_ERROR,
        Some ("record_transform: yaz_retrieval_get_error returned " +:+
              print_int (ret_code r))).
Definition backend_search (r : retrieval_result yaz_record_conv_t) (sr_req : SearchRequest) :
    SearchRequest :=
  let esn := ESN_generic <$> backend_schema r in
  set_sq_mediumSetElementSetNames esn (set_sq_smallSetElementSetNames esn
    (set_sq_preferredRecordSyntax (backend_syntax r) sr_req)).
Definition backend_present (r : retrieval_result yaz_record_conv_t) (pr_req : PresentRequest) :
    PresentRequest :=
  set_pq_recordComposition ((λ s, RecordComp_simple (ESN_generic s)) <$> backend_schema r)
    (set_pq_preferredRecordSyntax (backend_syntax r) pr_req).
(** The request goes on, and the records of the response are converted. *)
Definition transform (r : retrieval_result yaz_record_conv_t) (req : APDU) (package : Package R) :
    M W (Package R) :=
  package ← next "" (set_request (Some (GDU_Z3950 req)) package);
  match rc r, response_records (p_response package) with
  | Some conv, Some l =>
      l ← lift_outcome (convert_all conv (match_syntax r)
            (if m_embed_schema c then match_schema r else None) l);
      mret (set_response (put_records l (p_response package)) package)
  | _, _ => mret package
  end.
Definition answer (a : APDU) (package : Package R) : Package R :=
  set_response (Some (GDU_Z3950 a)) package.
Definition process (package : Package R) : M W (Package R) :=
  match z3950 (p_request package) with
  | Some (presentRequest pr_req) =>
      let input_schema := record_composition_to_esn (pq_recordComposition pr_req) in
      let input_syntax := pq_preferredRecordSyntax pr_req in
      let r := yaz_retrieval_request (m_retrieval c) input_schema input_syntax in
      if decide (ret_code r ≠ 0) then
        let '(error_code, details) := error_of input_schema input_syntax r in
        mret (answer (presentResponse (create_presentResponse (Some (presentRequest pr_req))
                error_code details)) package)
      else transform r (presentRequest (backend_present r pr_req)) package
  | Some (searchRequest sr_req) =>
      match search_schema sr_req with
      | None => next "" (set_request (Some (GDU_Z3950 (searchRequest (disable_piggyback sr_req))))
                           package)
      | Some input_schema =>
          let input_syntax := sq_preferredRecordSyntax sr_req in
          let r := yaz_retrieval_request (m_retrieval c) input_schema input_syntax in
          if decide (ret_code r ≠ 0) then
            let '(error_code, details) := error_of input_schema input_syntax r in
            mret (answer (searchResponse (create_searchResponse (Some (searchRequest sr_req))
                    error_code details)) package)
          else transform r (searchRequest (backend_search r sr_req)) package
      end
  | _ => next "" package
  end.

(** *** What a client gets *)

(** The request that a retrieval is made for, and the one that goes on. *)
Definition retrieval_of (req : APDU) : option (retrieval_result yaz_record_conv_t) :=
  match req with
  | presentRequest pr => Some (yaz_retrieval_request (m_retrieval c)
      (record_composition_to_esn (pq_recordComposition pr)) (pq_preferredRecordSyntax pr))
  | searchRequest sr => (λ s, yaz_retrieval_request (m_retrieval c) s
      (sq_preferredRecordSyntax sr)) <$> search_schema sr
  | _ => None
  end.
Definition backend_request (r : retrieval_result yaz_record_conv_t) (req : APDU) : APDU :=
  match req with
  | presentRequest pr => presentRequest (backend_present r pr)
  | searchRequest sr => searchRequest (backend_search r sr)
  | _ => req
  end.
Lemma process_retrieval package req r :
  p_request package = Some (GDU_Z3950 req) → retrieval_of req = Some r → ret_code r = 0 →
  process package = transform r (backend_request r req) package.
Proof.
  intros Hreq Hr Hcode. unfold process. rewrite Hreq. cbn [z3950].
  destruct req; cbn in Hr; try discriminate.
  - destruct (search_schema _) as [s|]; cbn in Hr; [|discriminate]. injection Hr as Hr.
    rewrite Hr, decide_False by lia. done.
  - injection Hr as Hr. rewrite Hr, decide_False by lia. done.
Qed.
(** A record in a syntax, or no record of a database at all. *)
Definition in_syntax (syntax : option string) (npr : NamePlusRecord) : Prop :=
  match npr_record npr with
  | NPR_databaseRecord r => direct_reference r = syntax
  | _ => True
  end.
(** What YAZ says of the records it makes. *)
Class RetrievalLaws : Prop := {
  ext_record_syntax : ∀ syntax buf, direct_reference (z_ext_record_oid syntax buf) = Some syntax;
  opac_syntax : ∀ conv xml opac, yaz_xml_to_opac conv xml = Some opac →
    direct_reference opac = Some recsyn_opac;
  surrogate_no_record : ∀ db e a r,
    npr_record (zget_surrogateDiagRec db e a) ≠ NPR_databaseRecord r
}.
(** What becomes of a record, apart from how the code does it: the result of the
    conversion of its data, and the record that the client gets. *)
Inductive conversion (conv : yaz_record_conv_t) : ExternalRecord → string + option string → Prop :=
| conversion_opac syntax descr bib holdings :
    conversion conv (External_OPAC syntax descr bib holdings)
      (yaz_record_conv_opac_record conv bib holdings)
| conversion_octet syntax descr buf :
    conversion conv (External_octet syntax descr buf) (yaz_record_conv_record conv buf)
| conversion_other r :
    (∀ syntax descr bib holdings, r ≠ External_OPAC syntax descr bib holdings) →
    (∀ syntax descr buf, r ≠ External_octet syntax descr buf) →
    conversion conv r (inr (Some "unsupported record type for record_conv")).
Inductive converted (conv : yaz_record_conv_t) (syntax : string) (schema : option string) :
    NamePlusRecord → NamePlusRecord → Prop :=
| converted_kept npr :
    (∀ r, npr_record npr ≠ NPR_databaseRecord r) → converted conv syntax schema npr npr
| converted_failed db r details :
    conversion conv r (inr details) →
    converted conv syntax schema {| databaseName := db; npr_record := NPR_databaseRecord r |}
      (zget_surrogateDiagRec db 14 details)
| converted_no_opac db r out :
    conversion conv r (inl out) → syntax = recsyn_opac → yaz_xml_to_opac conv out = None →
    converted conv syntax schema {| databaseName := db; npr_record := NPR_databaseRecord r |}
      (zget_surrogateDiagRec db 14 (Some "XML to OPAC conversion failed"))
| converted_to_opac db r out opac :
    conversion conv r (inl out) → syntax = recsyn_opac → yaz_xml_to_opac conv out = Some opac →
    converted conv syntax schema {| databaseName := db; npr_record := NPR_databaseRecord r |}
      {| databaseName := db; npr_record := NPR_databaseRecord opac |}
| converted_to_record db r out r' :
    conversion conv r (inl out) → syntax ≠ recsyn_opac →
    (schema = None ∧ r' = z_ext_record_oid syntax out ∨
     ∃ s, schema = Some s ∧ r' = set_descriptor (Some s) (z_ext_record_oid syntax out)) →
    converted conv syntax schema {| databaseName := db; npr_record := NPR_databaseRecord r |}
      {| databaseName := db; npr_record := NPR_databaseRecord r' |}.
Lemma convert_conversion conv r : conversion conv r (convert conv r).
Proof. destruct r; by constructor. Qed.
Lemma convert_npr_converted conv syntax schema npr :
  ∃ npr', convert_npr conv (Some syntax) schema npr = Ok npr' ∧
    converted conv syntax schema npr npr'.
Proof.
  destruct npr as [db [r|d|f]]; unfold convert_npr; cbn [npr_record];
    [|eexists; split; [done|by constructor]..].
  pose proof (convert_conversion conv r) as Hc. destruct (convert conv r) as [out|details];
    [|eexists; split; [done|by constructor]].
  cbn. case_decide as Ho.
  - destruct (yaz_xml_to_opac conv out) as [opac|] eqn:Hopac; eexists; (split; [done|]);
      [by eapply converted_to_opac|by eapply converted_no_opac].
  - eexists. split; [done|]. eapply converted_to_record; [done..|]. destruct schema; eauto.
Qed.
Lemma convert_all_converted conv syntax schema l :
  ∃ l', convert_all conv (Some syntax) schema l = Ok l' ∧
    Forall2 (converted conv syntax schema) l l'.
Proof.
  induction l as [|npr l (l' & Hl & Hall)]; cbn [convert_all]; [by exists []|].
  destruct (convert_npr_converted conv syntax schema npr) as (npr' & Hn & Hc).
  exists (npr' :: l'). rewrite Hn. cbn. rewrite Hl. split; [done|by constructor].
Qed.
Lemma converted_syntax `{!RetrievalLaws} conv syntax schema npr npr' :
  converted conv syntax schema npr npr' → in_syntax (Some syntax) npr'.
Proof.
  assert (Hs : ∀ db details, in_syntax (Some syntax) (zget_surrogateDiagRec db 14 details)).
  { intros db details. unfold in_syntax. destruct (npr_record _) eqn:Hr; try done.
    by apply surrogate_no_record in Hr. }
  unfold in_syntax in *. destruct 1 as [npr Hn| | |db r out opac _ -> Ho|db r out r' _ _ Hr'];
    cbn; try apply Hs.
  - destruct (npr_record npr); try done. by destruct (Hn e).
  - by eapply opac_syntax.
  - destruct Hr' as [[_ ->]|(s & _ & ->)]; [apply ext_record_syntax|].
    rewrite <-(ext_record_syntax syntax out). by destruct (z_ext_record_oid syntax out).
Qed.
(** C13. When a conversion is configured for a request, the filters behind get
    the request for the syntax and schema that the configuration names, and the
    response is theirs with its records converted each at its place: a record
    that is not one of a database stays as it is; one whose data the conversion
    takes becomes a record of the same database with the converted data, in the
    syntax that matched the client's, with the schema if that is to be embedded
    (an OPAC record is made from the converted XML); one that it does not take
    becomes a surrogate diagnostic for the same database with the details of
    the error. *)
Theorem records_in_syntax `{!RetrievalLaws} package req r conv syntax (w : W) behind w'
    (Hreq : p_request package = Some (GDU_Z3950 req)) (Hr : retrieval_of req = Some r)
    (Hcode : ret_code r = 0) (Hconv : rc r = Some conv) (Hsyntax : match_syntax r = Some syntax)
    (Hnext : next "" (set_request (Some (GDU_Z3950 (backend_request r req))) package) w =
      Ok (behind, w')) :
  match response_records (p_response behind) with
  | None => process package w = Ok (behind, w')
  | Some l => ∃ l',
      process package w = Ok (set_response (put_records l' (p_response behind)) behind, w') ∧
      response_records (put_records l' (p_response behind)) = Some l' ∧
      Forall2 (converted conv syntax (if m_embed_schema c then match_schema r else None)) l l' ∧
      Forall (in_syntax (Some syntax)) l'
  end.
Proof.
  rewrite (process_retrieval package req r) by done.
  unfold transform, mbind, M_bind. rewrite Hnext, Hconv, Hsyntax.
  destruct (response_records (p_response behind)) as [l|] eqn:Hl; [|done].
  destruct (convert_all_converted conv syntax
    (if m_embed_schema c then match_schema r else None) l) as (l' & Hl' & Hall).
  exists l'. unfold lift_outcome. rewrite Hl'. split_and!; [done| |done|].
  - apply response_put. by rewrite Hl.
  - eapply Forall2_Forall_r; [done|]. apply Forall_true. intros npr npr'. apply converted_syntax.
Qed.
(** A search whose element sets depend on the number of hits goes on without
    piggybacked records, since they could not be converted. *)
Theorem piggyback_disabled package sr_req (w : W)
    (Hreq : p_request package = Some (GDU_Z3950 (searchRequest sr_req)))
    (Hschema : search_schema sr_req = None) :
  ∃ sr', process package w =
      next "" (set_request (Some (GDU_Z3950 (searchRequest sr'))) package) w ∧
    sq_query sr' = sq_query sr_req ∧ sq_databaseNames sr' = sq_databaseNames sr_req ∧
    ∀ hits esn, 0 ≤ hits → (piggyback_sr sr' hits esn).1 = 0.
Proof.
  exists (disable_piggyback sr_req). unfold process. rewrite Hreq. cbn [z3950].
  rewrite Hschema. split_and!; try done. intros hits esn Hh. unfold piggyback_sr, piggyback. cbn.
  destruct (Z.ltb_spec hits 0); [lia|]. destruct (Z.ltb_spec 1 hits); done.
Qed.
End filter.

(** *** Examples *)
Section examples.
(** Conversion to the syntax XML by a prefix; a record too long fails. *)
#[local] Instance example_retrieval : Retrieval := {|
  yaz_retrieval_t := unit;
  yaz_record_conv_t := string;
  yaz_retrieval_configure _ _ := inl tt;
  yaz_retrieval_request _ _ syntax :=
    if decide (syntax = Some recsyn_xml)
    then mk_retrieval 0 "" (Some "marcxml") (Some recsyn_xml) (Some "xml:") (Some "F")
           (Some recsyn_usmarc)
    else mk_retrieval 2 "" None None None None None;
  yaz_record_conv_opac_record _ _ _ := inr None;
  yaz_record_conv_record conv buf :=
    if decide (String.length buf < 5)%nat then inl (conv +:+ buf) else inr (Some "too long");
  yaz_xml_to_opac _ _ := None;
  z_ext_record_oid syntax buf := External_octet (Some syntax) None buf
|}.
#[local] Instance example_laws : RetrievalLaws (Y := ref_yaz).
Proof. by split. Qed.
Definition example_next (route : string) (p : Package unit) : M unit (Package unit) :=
  mret (set_response (Some (GDU_Z3950 (presentResponse
    (set_pr_numberOfRecordsReturned 2 (set_pr_records (Some (Records_DBOSD
       [{| databaseName := Some "db"; npr_record := octet_record "abc" |};
        {| databaseName := Some "db"; npr_record := octet_record "abcdef" |}]))
      (zget_presentResponse (Yaz := ref_yaz))))))) p).
Definition example_request : APDU :=
  presentRequest (set_pq_preferredRecordSyntax (Some recsyn_xml)
    (zget_presentRequest (Yaz := ref_yaz))).
Definition example_package (req : APDU) : Package unit :=
  mk_Package (Session.mk 1 false) Origin.create None (Some (GDU_Z3950 req)) None.
Definition example_conf : Impl := mk_Impl tt true.
Definition example_behind : Package unit :=
  set_response (Some (GDU_Z3950 (presentResponse
    (set_pr_numberOfRecordsReturned 3 (set_pr_records (Some (Records_DBOSD
       [{| databaseName := Some "db"; npr_record := octet_record "abc" |};
        {| databaseName := Some "db2"; npr_record := octet_record "abcdef" |};
        {| databaseName := None; npr_record := NPR_surrogateDiagnostic
             (DiagRec_defaultFormat {| condition := 14; addinfo := v2Addinfo "bad" |}) |}]))
      (zget_presentResponse (Yaz := ref_yaz))))))) (example_package example_request).
Lemma records_in_syntax_witness : ∃ l l',
  process (Y := ref_yaz) (λ _ _, mret example_behind) example_conf
    (example_package example_request) tt =
    Ok (set_response (put_records l' (p_response example_behind)) example_behind, tt) ∧
  response_records (p_response example_behind) = Some l ∧
  Forall2 (converted (Y := ref_yaz) "xml:" recsyn_xml (Some "marcxml")) l l' ∧
  Forall (in_syntax (Some recsyn_xml)) l' ∧
  l' = [{| databaseName := Some "db"; npr_record := NPR_databaseRecord
             (External_octet (Some recsyn_xml) (Some "marcxml") "xml:abc") |};
        zget_surrogateDiagRec (Yaz := ref_yaz) (Some "db2") 14 (Some "too long");
        {| databaseName := None; npr_record := NPR_surrogateDiagnostic
             (DiagRec_defaultFormat {| condition := 14; addinfo := v2Addinfo "bad" |}) |}].
Proof.
  destruct (records_in_syntax (Y := ref_yaz) (λ _ _, mret example_behind) example_conf
    (example_package example_request) example_request
    (mk_retrieval 0 "" (Some "marcxml") (Some recsyn_xml) (Some "xml:") (Some "F")
         (Some recsyn_usmarc)) "xml:" recsyn_xml tt example_behind tt
    eq_refl eq_refl eq_refl eq_refl eq_refl eq_refl) as (l' & Hrun & Hl' & Hall & Hs).
  exists (default [] (response_records (p_response example_behind))), l'.
  split_and!; [exact Hrun|reflexivity|exact Hall|exact Hs|].
  vm_compute in Hrun. injection Hrun as <-. reflexivity.
Defined.
Lemma piggyback_disabled_witness : ∃ sr',
  process (Y := ref_yaz) (λ _ p, mret p) example_conf
    (example_package (searchRequest (zget_searchRequest (Yaz := ref_yaz)))) tt =
  Ok (set_request (Some (GDU_Z3950 (searchRequest sr')))
        (example_package (searchRequest (zget_searchRequest (Yaz := ref_yaz)))), tt) ∧
  ∀ hits esn, 0 ≤ hits → (piggyback_sr sr' hits esn).1 = 0.
Proof.
  destruct (piggyback_disabled (Y := ref_yaz) (λ _ p, mret p) example_conf
    (example_package (searchRequest (zget_searchRequest (Yaz := ref_yaz))))
    (zget_searchRequest (Yaz := ref_yaz)) tt eq_refl eq_refl) as (sr' & Hrun & _ & _ & Hp).
  exists sr'. split; [exact Hrun|exact Hp].
Defined.
End examples.
End RecordTransform.
