(* ===== verification/QueryFilters.v ===== *)
(** * Filters on queries

    [src/filter_query_rewrite.cpp]: a stylesheet and a conversion of character
    sets for the query of a search. [src/filter_cql_rpn.cpp]: CQL to RPN, or
    back. What YAZ does with queries is a class of operations. *)
From S2P Require Import Prelude Zgdu Yaz Xml Libxml Core Util.

Class QueryYaz : Type := {
  yaz_query2xml : Query → option xmlDoc;
  (** The query, which is kept in some cases, an error and its information. *)
  yaz_xml2query : xmlDoc → Query → Query * Z * option string;
  xsltParseStylesheetFile `{Xslt} : string → option stylesheet;
  (** From one character set into another, if there is such a conversion. *)
  yaz_iconv_t : Type;
  yaz_iconv_open : string → string → option yaz_iconv_t;
  (** The query that was converted, and whether all of it could be. *)
  yaz_query_charset_convert_rpnquery_check :
    yaz_iconv_t → string * RPNStructure → string * RPNStructure * bool;
  (** [Yaz_cql2rpn]: a configuration and conversions with it. *)
  Yaz_cql2rpn : Type;
  cql2rpn_init : Yaz_cql2rpn;
  parse_spec_file : Yaz_cql2rpn → string → option Yaz_cql2rpn;
  define_pattern : Yaz_cql2rpn → string → string → option Yaz_cql2rpn;
  rpn2cql_transform : Yaz_cql2rpn → string * RPNStructure → Z * string * option string;
  query_transform : Yaz_cql2rpn → string → Z * (string * RPNStructure) * option string;
  srw_to_bib1 : Z → Z
}.
Definition BIB1_PERMANENT_SYSTEM_ERROR : Z := 1.
Definition BIB1_MALFORMED_QUERY : Z := 108.
(** A search that is refused, and one that goes on. *)
Definition refuse `{Yaz} {R} (req : SearchRequest) (error_code : Z) (addinfo : option string)
    (package : Package R) : Package R :=
  set_response (Some (GDU_Z3950 (searchResponse
    (create_searchResponse (Some (searchRequest req)) error_code addinfo)))) package.
Definition with_query {R} (req : SearchRequest) (q : Query) (package : Package R) : Package R :=
  set_request (Some (GDU_Z3950 (searchRequest (set_sq_query q req)))) package.

(** ** query_rewrite *)
Module QueryRewrite.
Section filter.
Context `{Y : Yaz, HX : Xslt, HF : Files, HQ : QueryYaz} {R W : Type}.
Record Rep : Type := mk_Rep {
  m_stylesheet : option stylesheet;
  charset_from : string;
  charset_to : string
}.
Definition Rep_init : Rep := mk_Rep None "UTF-8" "".

Fixpoint xslt_attrs (l : list xmlAttr) (fname : string) : outcome string :=
  match l with
  | [] => Ok fname
  | a :: l' =>
      _ ← mp_xml.check_attribute (Some a) "" "stylesheet";
      xslt_attrs l' (mp_xml.get_text_attr a)
  end.
Fixpoint charset_attrs (l : list xmlAttr) (r : Rep) : outcome Rep :=
  match l with
  | [] => Ok r
  | a :: l' =>
      let v := mp_xml.get_text_attr a in
      if decide (a_name a = "from") then charset_attrs l' (mk_Rep (m_stylesheet r) v (charset_to r))
      else if decide (a_name a = "to") then
        charset_attrs l' (mk_Rep (m_stylesheet r) (charset_from r) v)
      else Throw "Invalid attribute inside charset inside query_rewrite filter"
  end.
Definition configure_xslt (path : string) (n : xmlNode) (r : Rep) : outcome Rep :=
  match m_stylesheet r with
  | Some _ => Throw "Only one xslt element allowed in query_rewrite filter"
  | None =>
      fname ← xslt_attrs (n_properties n) "";
      if decide (fname = "") then
        Throw ("Attribute <xslt stylesheet=" +:+ dquote +:+ fname +:+ dquote +:+
               "> needs XSLT stylesheet path content in query_rewrite filter")
      else match yaz_filepath_resolve (c_str fname) path with
           | None => Throw ("Cannot read XSLT " +:+ fname)
           | Some cp =>
               match xsltParseStylesheetFile cp with
               | None => Throw ("Failed to read XSLT stylesheet '" +:+ fname +:+
                                "' in query_rewrite filter")
               | Some x => Ok (mk_Rep (Some x) (charset_from r) (charset_to r))
               end
           end
  end.
Fixpoint configure (path : string) (l : list xmlNode) (r : Rep) : outcome Rep :=
  match l with
  | [] => Ok r
  | n :: l' =>
      if decide (n_type n ≠ XML_ELEMENT_NODE) then configure path l' r
      else if mp_xml.is_element_mp [n] "xslt" then
        r ← configure_xslt path n r; configure path l' r
      else if mp_xml.is_element_mp [n] "charset" then
        r ← charset_attrs (n_properties n) r; configure path l' r
      else Throw ("Bad element " +:+ n_name n +:+ " in query_rewrite filter")
  end.

Context (r : Rep) (next : string → Package R → M W (Package R)).
(** The stylesheet on a query: the query and the error. *)
Definition apply_stylesheet (query : Query) : Query * Z * option string :=
  match m_stylesheet r, yaz_query2xml query with
  | Some x, Some doc_input =>
      match xsltApplyStylesheet x (Some doc_input) [] with
      | None => (query, BIB1_MALFORMED_QUERY, Some "XSLT transform failed for query")
      | Some doc_res => yaz_xml2query doc_res query
      end
  | _, _ => (query, 0, None)
  end.
Definition convert_rpn (mk : string → RPNStructure → Query) (set : string) (rpn : RPNStructure) :
    Query * Z * option string :=
  match yaz_iconv_open (c_str (charset_to r)) (c_str (charset_from r)) with
  | None => (mk set rpn, 0, None)
  | Some cd =>
      let '(set, rpn, ok) := yaz_query_charset_convert_rpnquery_check cd (set, rpn) in
      if (ok : bool) then (mk set rpn, 0, None)
      else (mk set rpn, BIB1_MALFORMED_QUERY, Some "could not convert query to target charset")
  end.
Definition convert_charset (query : Query) : Query * Z * option string :=
  if decide (charset_to r ≠ "" ∧ charset_from r ≠ "") then
    match query with
    | Query_type_1 set rpn => convert_rpn Query_type_1 set rpn
    | Query_type_101 set rpn => convert_rpn Query_type_101 set rpn
    | _ => (query, 0, None)
    end
  else (query, 0, None).
Definition rewrite (query : Query) : Query * Z * option string :=
  let '(query, error_code, addinfo) := apply_stylesheet query in
  if error_code =? 0 then convert_charset query else (query, error_code, addinfo).
(** The query of the request changes in place, also when it is refused. *)
Definition process (package : Package R) : M W (Package R) :=
  match z3950 (p_request package) with
  | Some (searchRequest req) =>
      let '(query, error_code, addinfo) := rewrite (sq_query req) in
      let package := with_query req query package in
      if decide (error_code ≠ 0) then mret (refuse req error_code addinfo package)
      else next "" package
  | _ => next "" package
  end.

(** What a query_rewrite filter without a stylesheet and without a target
    character set does: nothing. *)
Lemma rewrite_nothing query :
  m_stylesheet r = None → charset_to r = "" → rewrite query = (query, 0, None).
Proof.
  intros Hs Hc. unfold rewrite, apply_stylesheet, convert_charset. rewrite Hs. simpl.
  rewrite decide_False; [done|]. intros [Hne _]. done.
Qed.
(** A search is refused with the error of its query, and the filters behind
    are not asked, or it goes on with nothing but its query changed. *)
Theorem query_refused_or_passed package req (w : W)
    (Hreq : p_request package = Some (GDU_Z3950 (searchRequest req))) :
  let '(query, error_code, addinfo) := rewrite (sq_query req) in
  if error_code =? 0 then
    process package w = next "" (with_query req query package) w
  else ∃ package', process package w = Ok (package', w) ∧
    p_response package' = Some (GDU_Z3950 (searchResponse
      (create_searchResponse (Some (searchRequest req)) error_code addinfo))) ∧
    p_session package' = p_session package.
Proof.
  unfold process. rewrite Hreq. cbn [z3950].
  destruct (rewrite (sq_query req)) as [[query error_code] addinfo].
  destruct (Z.eqb_spec error_code 0) as [->|He]; [done|].
  rewrite decide_True by done. eexists. split; [reflexivity|]. by split.
Qed.
End filter.
End QueryRewrite.

(** ** cql_rpn *)
Module CQLtoRPN.
Section filter.
Context `{Y : Yaz, HX : Xslt, HF : Files, HQ : QueryYaz} {R W : Type}.
Record Impl : Type := mk_Impl {
  m_cql2rpn : Yaz_cql2rpn;
  reverse : bool
}.
Definition Impl_init : Impl := mk_Impl cql2rpn_init false.

(** The attributes of an element [conversion], with the number of conversions. *)
Fixpoint configure_attrs (path : string) (node : xmlNode) (l : list xmlAttr) (c : Impl) (n : Z) :
    outcome (Impl * Z) :=
  match l with
  | [] => Ok (c, n)
  | a :: l' =>
      if decide (a_name a = "file") then
        let fname := mp_xml.get_text_attr a in
        match yaz_filepath_resolve (c_str fname) path with
        | None => Throw ("Could not open " +:+ fname)
        | Some fullpath =>
            match parse_spec_file (m_cql2rpn c) fullpath with
            | None => Throw ("Bad or missing CQL to RPN configuration " +:+ fname)
            | Some t => configure_attrs path node l' (mk_Impl t (reverse c)) (n + 1)
            end
        end
      else if decide (a_name a = "key") then
        let key := mp_xml.get_text_attr a in
        let val := mp_xml.get_text [node] in
        match define_pattern (m_cql2rpn c) (c_str key) (c_str val) with
        | None => Throw ("Bad CQL to RPN pattern: " +:+ key +:+ "=" +:+ val)
        | Some t => configure_attrs path node l' (mk_Impl t (reverse c)) (n + 1)
        end
      else if decide (a_name a = "reverse") then
        configure_attrs path node l'
          (mk_Impl (m_cql2rpn c) (mp_xml.get_bool (a_children a) false)) n
      else Throw ("Bad attribute " +:+ a_name a)
  end.
Fixpoint configure_loop (path : string) (l : list xmlNode) (c : Impl) (n : Z) :
    outcome (Impl * Z) :=
  match l with
  | [] => Ok (c, n)
  | node :: l' =>
      if decide (n_type node ≠ XML_ELEMENT_NODE) then configure_loop path l' c n
      else if decide (n_name node ≠ "conversion") then Throw ("Bad element " +:+ n_name node)
      else
        '(c, n) ← configure_attrs path node (n_properties node) c n;
        configure_loop path l' c n
  end.
Definition configure (path : string) (xmlnode : xmlNode) (c : Impl) : outcome Impl :=
  '(c, no_conversions) ← configure_loop path (n_children xmlnode) c 0;
  if decide (no_conversions = 0)
  then Throw "Missing conversion configuration for filter cql_rpn" else Ok c.

Context (c : Impl).
(** The conversion of a query: the query to go on with, or an error. *)
Definition convert_query (query : Query) : Query + Z * option string :=
  match query with
  | Query_type_1 set rpn =>
      if reverse c then
        let '(r, cql, addinfo) := rpn2cql_transform (m_cql2rpn c) (set, rpn) in
        if r =? 0 then inl (Query_type_104 (Some (c_str cql))) else inr (r, addinfo)
      else inl query
  | Query_type_104 (Some cql) =>
      if reverse c then inl query
      else
        let '(r, (set, rpn), addinfo) := query_transform (m_cql2rpn c) cql in
        if r =? -3 then inr (BIB1_PERMANENT_SYSTEM_ERROR,
                             Some "cql_rpn: missing CQL to RPN configuration")
        else if r =? 0 then inl (Query_type_1 set rpn)
        else inr (srw_to_bib1 r, addinfo)
  | _ => inl query
  end.
Definition process (next : string → Package R → M W (Package R)) (package : Package R) :
    M W (Package R) :=
  match z3950 (p_request package) with
  | Some (searchRequest sr) =>
      match convert_query (sq_query sr) with
      | inr (error_code, addinfo) => mret (refuse sr error_code addinfo package)
      | inl query => next "" (with_query sr query package)
      end
  | _ => next "" package
  end.

(** The queries that a filter lets through. *)
Definition target_query (query : Query) : Prop :=
  match query with
  | Query_type_1 _ _ => reverse c = false
  | Query_type_104 (Some _) => reverse c = true
  | _ => True
  end.
Definition target_package (package : Package R) : Prop :=
  match z3950 (p_request package) with
  | Some (searchRequest sr) => target_query (sq_query sr)
  | _ => True
  end.
Lemma convert_target query query' : convert_query query = inl query' → target_query query'.
Proof.
  unfold convert_query, target_query. intros H'.
  destruct (reverse c) eqn:Hr; repeat case_match; simplify_eq; done.
Qed.
(** C28. The filters behind see queries of one kind only: no CQL, or, with
    reverse, no query of type 1. What they would do with other searches makes
    no difference. *)
Theorem queries_of_one_kind (next1 next2 : string → Package R → M W (Package R)) package w
    (Hsame : ∀ p w, target_package p → next1 "" p w = next2 "" p w) :
  process next1 package w = process next2 package w.
Proof.
  unfold process. destruct (z3950 (p_request package)) as [a|] eqn:Ha.
  - destruct a; try (apply Hsame; unfold target_package; by rewrite Ha).
    destruct (convert_query _) as [query|[e a]] eqn:Hq; [|done].
    apply Hsame. unfold target_package. cbn. by apply convert_target in Hq.
  - apply Hsame. unfold target_package. by rewrite Ha.
Qed.
End filter.

(** *** Examples *)
Section examples.
#[local] Existing Instances ref_xslt ref_files.
#[local] Instance example_queries : QueryYaz := {|
  yaz_query2xml _ := None;
  yaz_xml2query _ q := (q, 0, None);
  xsltParseStylesheetFile _ _ := None;
  yaz_iconv_t := unit;
  yaz_iconv_open _ _ := None;
  yaz_query_charset_convert_rpnquery_check _ q := (q, true);
  Yaz_cql2rpn := unit;
  cql2rpn_init := tt;
  parse_spec_file _ _ := Some tt;
  define_pattern _ _ _ := Some tt;
  rpn2cql_transform _ q := (0, q.1, None);
  query_transform _ cql :=
    if decide (cql = "") then (10, ("", RPNStructure_simple (Operand_APT "")), Some "empty")
    else (0, ("1.2.840.10003.3.1", RPNStructure_simple (Operand_APT cql)), None);
  srw_to_bib1 e := 108
|}.
Definition example_search (cql : string) : SearchRequest :=
  set_sq_query (Query_type_104 (Some cql)) (zget_searchRequest (Yaz := ref_yaz)).
Definition example_package (cql : string) : Package unit :=
  mk_Package (Session.mk 1 false) Origin.create None
    (Some (GDU_Z3950 (searchRequest (example_search cql)))) None.
(** A target that knows no CQL. *)
Definition no_cql (route : string) (p : Package unit) : M unit (Package unit) :=
  match z3950 (p_request p) with
  | Some (searchRequest sr) =>
      match sq_query sr with Query_type_104 (Some _) => undef BadUnion | _ => mret p end
  | _ => mret p
  end.
Lemma queries_of_one_kind_witness : ∃ p',
  process (Y := ref_yaz) Impl_init no_cql (example_package "dog") tt = Ok (p', tt).
Proof.
  rewrite (queries_of_one_kind (Y := ref_yaz) Impl_init no_cql (λ _ p, mret p)).
  - eexists. reflexivity.
  - intros p [] Hp. unfold no_cql. unfold target_package in Hp.
    destruct (z3950 (p_request p)) as [a|]; [|reflexivity].
    destruct a; try reflexivity. destruct (sq_query _) as [| | |[cql|]|]; try reflexivity.
    discriminate Hp.
Defined.
Example bad_cql :
  match process (Y := ref_yaz) Impl_init no_cql (example_package "") tt with
  | Ok (p, _) => match z3950 (p_response p) with
                 | Some (searchResponse r) => sr_records r
                 | _ => None end
  | _ => None
  end = Some (Records_NSD (zget_DefaultDiagFormat (Yaz := ref_yaz) 108 (Some "empty"))).
Proof. reflexivity. Qed.
End examples.
End CQLtoRPN.
