(* ===== verification/GduUtil.v ===== *)
(** * The text of a PDU

    [src/gduutil.cpp]: the operators that print a PDU on one line, for the
    access log and for the answers of the bounce filter. What YAZ prints is a
    class of operations, with the fields of the PDUs that no filter reads. *)
From S2P Require Import Prelude Stream Zgdu Yaz Xml Core Util.

(** [Z_ExtendedServicesRequest] and [Z_ExtendedServicesResponse]. *)
Record ES_Request : Type := mk_ES_Request {
  es_function : option Z;
  es_userId : option string;
  es_packageName : option string;
  es_description : option string
}.
Record ES_Response : Type := mk_ES_Response {
  es_operationStatus : option Z;
  es_diagnostics : list DiagRec
}.
(** The PDUs of [otherAPDU]. *)
Inductive OtherKind : Type :=
  | duplicateDetectionRequest
  | duplicateDetectionResponse
  | unknownAPDU.
Class GduView : Type := {
  yaz_oid_to_string_buf : string → string;
  yaz_query_to_wrbuf : Query → string;
  yaz_scan_to_wrbuf : ScanRequest → string;
  extendedServicesRequest_of : OtherPDU → ES_Request;
  extendedServicesResponse_of : OtherPDU → ES_Response;
  other_kind : string → OtherKind
}.
Definition Scan_success : Z := 0.
Definition ES_create : Z := 1.
Definition ES_delete : Z := 2.
Definition ES_modify : Z := 3.
Definition ES_done : Z := 1.
Definition ES_accepted : Z := 2.
Definition ES_failure : Z := 3.

Section gduutil.
Context `{Y : Yaz, V : GduView}.

Definition print_HTTP_Request (r : HTTP_Request) : string := hq_method r +:+ " " +:+ hq_path r.
Definition print_HTTP_Response (r : HTTP_Response) : string :=
  print_int (hr_code r) +:+ " " +:+ print_int (Z.of_nat (String.length (hr_content r))).
Definition print_DefaultDiagFormat (d : DefaultDiagFormat) : string :=
  print_int (condition d) +:+ " " +:+
  match addinfo d with v2Addinfo s | v3Addinfo s => dquote +:+ s +:+ dquote end.
Definition print_DiagRec (d : DiagRec) : string :=
  match d with
  | DiagRec_defaultFormat d => print_DefaultDiagFormat d
  | DiagRec_externallyDefined => "Z_DiagRec_externallyDefined"
  end.
Definition print_DiagRecs (l : list DiagRec) : string :=
  match l with d :: _ => print_DiagRec d | [] => "multipleNSD" end.
Definition print_Records (r : Records) : string :=
  match r with
  | Records_DBOSD _ => ""
  | Records_NSD d => print_DefaultDiagFormat d
  | Records_multipleNSD l => print_DiagRecs l
  end.

Definition dump_opt_string (s : option string) : string := " " +:+ default "-" s.
Definition dump_opt_int_l (i : option Z) (lead : string) : string :=
  lead +:+ match i with Some i => print_int i | None => "-" end.
Definition dump_opt_int (i : option Z) : string := dump_opt_int_l i " ".
Definition dump_implementation (id name version : option string) : string :=
  dump_opt_string id +:+ dump_opt_string name +:+ dump_opt_string version.
(** The databases of a request, with [+] between them. *)
Definition dump_databases (l : list string) : string := String.concat "+" l.

(** The fields of a PDU that is mandatory in the protocol are not null, and
    neither is the PDU itself. *)
Definition print_initRequest (fuel : nat) (ir : InitRequest) : outcome string :=
  vhosts ← get_vhost_otherinfo fuel (iq_otherInfo ir) [];
  Ok (" initRequest" +:+
    dump_opt_string
      match iq_idAuthentication ir with
      | Some (IdAuthentication_idPass _ userId _) => userId
      | Some (IdAuthentication_open s) => Some s
      | _ => None
      end +:+ " " +:+
    match vhosts with
    | [] => "-"
    | _ => String.concat "" ((λ v, v +:+ " ") <$> vhosts)
    end +:+
    dump_implementation (iq_implementationId ir) (iq_implementationName ir)
      (iq_implementationVersion ir)).
Definition print_initResponse (ir : InitResponse) : string :=
  " initResponse " +:+ (if ir_result ir then "OK" else "FAIL") +:+
  dump_implementation (ir_implementationId ir) (ir_implementationName ir)
    (ir_implementationVersion ir).
Definition print_searchRequest (sr : SearchRequest) : string :=
  " searchRequest " +:+ dump_databases (sq_databaseNames sr) +:+
  dump_opt_string (Some (sq_resultSetName sr)) +:+ " " +:+
  match sq_preferredRecordSyntax sr with
  | Some oid => yaz_oid_to_string_buf oid
  | None => "-"
  end +:+ " " +:+ c_str (yaz_query_to_wrbuf (sq_query sr)).
(** A response has a diagnostic in place of records, or counters. *)
Definition print_records_or (r : option Records) (counters : string) : string :=
  match r with
  | Some ((Records_NSD _ | Records_multipleNSD _) as r) => " DIAG " +:+ print_Records r
  | _ => counters
  end.
Definition print_searchResponse (sr : SearchResponse) : string :=
  " searchResponse " +:+ (if sr_searchStatus sr =? 0 then "Failure" else "OK") +:+
  print_records_or (sr_records sr)
    (dump_opt_int (Some (sr_resultCount sr)) +:+
     dump_opt_int_l (Some (sr_numberOfRecordsReturned sr)) " 1+" +:+
     dump_opt_int (Some (sr_nextResultSetPosition sr))).
Definition print_presentRequest (pr : PresentRequest) : string :=
  " presentRequest" +:+ dump_opt_string (Some (pq_resultSetId pr)) +:+
  dump_opt_int (Some (pq_resultSetStartPoint pr)) +:+
  dump_opt_int_l (Some (pq_numberOfRecordsRequested pr)) "+" +:+
  match pq_preferredRecordSyntax pr with
  | Some oid => " " +:+ yaz_oid_to_string_buf oid
  | None => " -"
  end +:+
  dump_opt_string (record_composition_to_esn (pq_recordComposition pr)).
Definition print_presentStatus (s : Z) : string :=
  if s =? PresentStatus_success then "OK"
  else if s =? 1 then "Partial-1" else if s =? 2 then "Partial-2"
  else if s =? 3 then "Partial-3" else if s =? 4 then "Partial-4"
  else if s =? PresentStatus_failure then "Failure" else "Unknown".
Definition print_presentResponse (pr : PresentResponse) : string :=
  " presentResponse " +:+ print_presentStatus (pr_presentStatus pr) +:+
  print_records_or (pr_records pr)
    (dump_opt_int (Some (pr_numberOfRecordsReturned pr)) +:+
     dump_opt_int (Some (pr_nextResultSetPosition pr))).
Definition print_scanRequest (sr : ScanRequest) : string :=
  " scanRequest " +:+ dump_databases (cq_databaseNames sr) +:+
  dump_opt_int (Some (cq_numberOfTermsRequested sr)) +:+
  dump_opt_int (cq_preferredPositionInResponse sr) +:+
  dump_opt_int (cq_stepSize sr) +:+ " " +:+ c_str (yaz_scan_to_wrbuf sr).
Definition print_scanStatus (s : Z) : string :=
  if s =? Scan_success then "OK"
  else if s =? 1 then "partial_1" else if s =? 2 then "partial_2"
  else if s =? 3 then "partial_3" else if s =? 4 then "partial_4"
  else if s =? 5 then "partial_5" else if s =? Scan_failure then "failure" else "unknown".
Definition print_scanResponse (sr : ScanResponse) : string :=
  " scanResponse " +:+ print_scanStatus (cr_scanStatus sr) +:+
  dump_opt_int (Some (cr_numberOfEntriesReturned sr)) +:+
  dump_opt_int (cr_positionOfTerm sr) +:+ dump_opt_int (cr_stepSize sr).
Definition print_extendedServicesRequest (er : ES_Request) : string :=
  " extendedServicesRequest" +:+
  match es_function er with
  | Some f =>
      if f =? ES_create then " create" else if f =? ES_delete then " delete"
      else if f =? ES_modify then " modify" else " unknown"
  | None => " -"
  end +:+
  dump_opt_string (es_userId er) +:+ dump_opt_string (es_packageName er) +:+
  dump_opt_string (es_description er).
Definition print_extendedServicesResponse (er : ES_Response) : string :=
  " extendedServicesResponse" +:+
  match es_operationStatus er with
  | Some s =>
      if s =? ES_done then " OK" else if s =? ES_accepted then " ACCEPT"
      else if s =? ES_failure then
        match es_diagnostics er with d :: _ => " DIAG " +:+ print_DiagRec d | [] => " ERROR" end
      else " unknown"
  | None => " -"
  end.
Definition print_closeReason (r : Z) : string :=
  if r =? Close_finished then "finished" else if r =? 1 then "shutdown"
  else if r =? Close_systemProblem then "systemProblem" else if r =? 3 then "costLimit"
  else if r =? 4 then "resources" else if r =? 5 then "securityViolation"
  else if r =? Close_protocolError then "protocolError"
  else if r =? Close_lackOfActivity then "lackOfActivity"
  else if r =? Close_peerAbort then "peerAbort" else if r =? 9 then "unspecified" else "unknown".
Definition print_close (c : Close) : string :=
  " close " +:+ print_int (cl_closeReason c) +:+ " " +:+ print_closeReason (cl_closeReason c) +:+
  match cl_diagnosticInformation c with Some s => " " +:+ s | None => "" end.

Definition print_APDU (fuel : nat) (zapdu : APDU) : outcome string :=
  match zapdu with
  | initRequest r => print_initRequest fuel r
  | initResponse r => Ok (print_initResponse r)
  | searchRequest r => Ok (print_searchRequest r)
  | searchResponse r => Ok (print_searchResponse r)
  | presentRequest r => Ok (print_presentRequest r)
  | presentResponse r => Ok (print_presentResponse r)
  | deleteResultSetRequest _ => Ok " deleteResultSetRequest"
  | deleteResultSetResponse _ => Ok " deleteResultSetResponse"
  | accessControlRequest _ => Ok " accessControlRequest"
  | accessControlResponse _ => Ok " accessControlResponse"
  | resourceControlRequest _ => Ok " resourceControlRequest"
  | resourceControlResponse _ => Ok " resourceControlResponse"
  | triggerResourceControlRequest _ => Ok " triggerResourceControlRequest"
  | resourceReportRequest _ => Ok " resourceReportRequest"
  | resourceReportResponse _ => Ok " resourceReportResponse"
  | scanRequest r => Ok (print_scanRequest r)
  | scanResponse r => Ok (print_scanResponse r)
  | sortRequest _ => Ok " sortRequest "
  | sortResponse _ => Ok " sortResponse "
  | segmentRequest _ => Ok " segmentRequest "
  | extendedServicesRequest r => Ok (print_extendedServicesRequest (extendedServicesRequest_of r))
  | extendedServicesResponse r => Ok (print_extendedServicesResponse (extendedServicesResponse_of r))
  | close r => Ok (print_close r)
  | otherAPDU body =>
      Ok match other_kind body with
         | duplicateDetectionRequest => " duplicateDetectionRequest"
         | duplicateDetectionResponse => " duplicateDetectionResponse"
         | unknownAPDU => " Z_APDU UNKNOWN"
         end
  end.
Definition print_GDU (fuel : nat) (zgdu : GDU) : outcome string :=
  match zgdu with
  | GDU_Z3950 a => s ← print_APDU fuel a; Ok ("Z3950" +:+ s)
  | GDU_HTTP_Request r => Ok ("HTTP_Request " +:+ print_HTTP_Request r)
  | GDU_HTTP_Response r => Ok ("HTTP_Response " +:+ print_HTTP_Response r)
  end.

(** ** Every PDU has a text *)
Theorem print_GDU_total `{!YazLaws Y} g : ∃ fuel s, ∀ fuel', (fuel ≤ fuel')%nat →
  print_GDU fuel' g = Ok s.
Proof.
  destruct g as [a| |]; [|by exists O; eexists..].
  destruct a; try (by exists O; eexists).
  destruct (vhost_terminates (iq_otherInfo r) false) as (fuel & v & Hv).
  exists fuel. eexists. intros fuel' Hf. cbn [print_GDU print_APDU].
  unfold print_initRequest, get_vhost_otherinfo. rewrite (Hv _ Hf). reflexivity.
Qed.

(** ** The type of an APDU is the second word *)
Definition apdu_type (zapdu : APDU) : string :=
  match zapdu with
  | initRequest _ => "initRequest"
  | initResponse _ => "initResponse"
  | searchRequest _ => "searchRequest"
  | searchResponse _ => "searchResponse"
  | presentRequest _ => "presentRequest"
  | presentResponse _ => "presentResponse"
  | deleteResultSetRequest _ => "deleteResultSetRequest"
  | deleteResultSetResponse _ => "deleteResultSetResponse"
  | accessControlRequest _ => "accessControlRequest"
  | accessControlResponse _ => "accessControlResponse"
  | resourceControlRequest _ => "resourceControlRequest"
  | resourceControlResponse _ => "resourceControlResponse"
  | triggerResourceControlRequest _ => "triggerResourceControlRequest"
  | resourceReportRequest _ => "resourceReportRequest"
  | resourceReportResponse _ => "resourceReportResponse"
  | scanRequest _ => "scanRequest"
  | scanResponse _ => "scanResponse"
  | sortRequest _ => "sortRequest"
  | sortResponse _ => "sortResponse"
  | segmentRequest _ => "segmentRequest"
  | extendedServicesRequest _ => "extendedServicesRequest"
  | extendedServicesResponse _ => "extendedServicesResponse"
  | close _ => "close"
  | otherAPDU body =>
      match other_kind body with
      | duplicateDetectionRequest => "duplicateDetectionRequest"
      | duplicateDetectionResponse => "duplicateDetectionResponse"
      | unknownAPDU => "Z_APDU"
      end
  end.
(** A text that ends or goes on with a blank. *)
Definition ends_word (s : string) : Prop := s = "" ∨ ∃ s', s = " " +:+ s'.
(** The type of an APDU is the first word of its text, and a word of its own. *)
Lemma type_position fuel a s : print_APDU fuel a = Ok s →
  ∃ rest, s = " " +:+ apdu_type a +:+ rest ∧ ends_word rest.
Proof.
  assert (Hopt : ∀ o s', ends_word (dump_opt_string o +:+ s')).
  { intros o s'. right. eexists. unfold dump_opt_string. by rewrite <- str_app_assoc. }
  intros H'. destruct a; cbn in H'; try (injection H' as <-;
    solve [eexists; split; [reflexivity|]; first [by left | right; eexists; reflexivity | apply Hopt]]).
  - unfold print_initRequest in H'. cbn in H'.
    destruct (get_vhost_otherinfo _ _ _); simplify_eq/=.
    eexists. split; [reflexivity|apply Hopt].
  - injection H' as <-. eexists. split; [reflexivity|].
    destruct (es_function _); [|right; by eexists]. right. repeat case_match; by eexists.
  - injection H' as <-. eexists. split; [reflexivity|].
    right. repeat case_match; by eexists.
  - injection H' as <-. destruct (other_kind body) eqn:Hk; eexists;
      (split; [cbn [apdu_type]; rewrite Hk; reflexivity|]); by (left + (right; eexists)).
Qed.

(** ** One line *)
Definition one_line (s : string) : Prop := without newline s.
Definition opt_line (s : option string) : Prop := ∀ t, s = Some t → one_line t.
Lemma one_line_app s t : one_line s → one_line t → one_line (s +:+ t).
Proof. intros. by apply without_app. Qed.
Lemma digit_ne_newline n : digit n ≠ newline.
Proof.
  unfold digit. pose proof (Z.mod_pos_bound n 10) as Hn.
  remember (Z.to_nat (n mod 10)) as k eqn:Hk. assert (Hk' : (k < 10)%nat) by lia. clear Hk.
  do 10 (destruct k as [|k]; [done|]). lia.
Qed.
Lemma one_line_print_nat n : one_line (print_nat n).
Proof.
  unfold print_nat. assert (H' : one_line "") by done. revert n H'. generalize "". generalize 20%nat.
  induction n as [|f IH]; intros acc n Hacc; cbn; [done|].
  assert (one_line (String (digit n) acc)) by (apply without_cons; split; [apply digit_ne_newline|done]).
  destruct (n <? 10); [done|]. by apply IH.
Qed.
Lemma one_line_print_int n : one_line (print_int n).
Proof.
  unfold print_int. destruct (n <? 0); [apply one_line_app; [done|]|]; apply one_line_print_nat.
Qed.
Lemma one_line_opt_string o : opt_line o → one_line (dump_opt_string o).
Proof.
  intros Ho. unfold dump_opt_string. apply one_line_app; [done|].
  destruct o; [by apply Ho|done].
Qed.
Lemma one_line_opt_int_l o lead : one_line lead → one_line (dump_opt_int_l o lead).
Proof.
  intros Hl. apply one_line_app; [done|]. destruct o; [apply one_line_print_int|done].
Qed.
Lemma one_line_concat sep l : one_line sep → Forall one_line l → one_line (String.concat sep l).
Proof.
  intros Hs. induction 1 as [|x l Hx Hl IH]; [done|]. destruct l; [done|].
  change (one_line (x +:+ sep +:+ String.concat sep (s :: l))). by repeat apply one_line_app.
Qed.
Lemma one_line_c_str s : one_line s → one_line (c_str s).
Proof.
  unfold one_line. induction s as [|c s IH]; [done|]. rewrite without_cons. intros [Hc Hs]. cbn.
  case_decide; [done|]. apply without_cons. auto.
Qed.
(** The texts of a PDU that come from outside and are printed. *)
Definition diag_texts (d : DefaultDiagFormat) : list string :=
  match addinfo d with v2Addinfo s | v3Addinfo s => [s] end.
Definition diagrec_texts (d : DiagRec) : list string :=
  match d with DiagRec_defaultFormat d => diag_texts d | DiagRec_externallyDefined => [] end.
Definition diagrecs_texts (l : list DiagRec) : list string :=
  match l with d :: _ => diagrec_texts d | [] => [] end.
Definition records_texts (r : option Records) : list string :=
  match r with
  | Some (Records_NSD d) => diag_texts d
  | Some (Records_multipleNSD l) => diagrecs_texts l
  | _ => []
  end.
Definition apdu_texts (fuel : nat) (a : APDU) : list string :=
  match a with
  | initRequest r =>
      match iq_idAuthentication r with
      | Some (IdAuthentication_idPass _ (Some u) _) => [u]
      | Some (IdAuthentication_open s) => [s]
      | _ => []
      end ++ match get_vhost_otherinfo fuel (iq_otherInfo r) [] with Ok l => l | _ => [] end ++
      omap id [iq_implementationId r; iq_implementationName r; iq_implementationVersion r]
  | initResponse r =>
      omap id [ir_implementationId r; ir_implementationName r; ir_implementationVersion r]
  | searchRequest r =>
      sq_databaseNames r ++ sq_resultSetName r :: yaz_query_to_wrbuf (sq_query r) ::
      option_list (yaz_oid_to_string_buf <$> sq_preferredRecordSyntax r)
  | searchResponse r => records_texts (sr_records r)
  | presentRequest r =>
      pq_resultSetId r ::
      option_list (yaz_oid_to_string_buf <$> pq_preferredRecordSyntax r) ++
      option_list (record_composition_to_esn (pq_recordComposition r))
  | presentResponse r => records_texts (pr_records r)
  | scanRequest r => yaz_scan_to_wrbuf r :: cq_databaseNames r
  | extendedServicesRequest r =>
      let er := extendedServicesRequest_of r in
      omap id [es_userId er; es_packageName er; es_description er]
  | extendedServicesResponse r => diagrecs_texts (es_diagnostics (extendedServicesResponse_of r))
  | close r => option_list (cl_diagnosticInformation r)
  | _ => []
  end.
Definition gdu_texts (fuel : nat) (g : GDU) : list string :=
  match g with
  | GDU_Z3950 a => apdu_texts fuel a
  | GDU_HTTP_Request r => [hq_method r; hq_path r]
  | GDU_HTTP_Response _ => []
  end.
Lemma one_line_diag d : Forall one_line (diag_texts d) → one_line (print_DefaultDiagFormat d).
Proof.
  unfold diag_texts, print_DefaultDiagFormat. intros Hd.
  repeat (apply one_line_app; [first [apply one_line_print_int|done]|]).
  destruct (addinfo d); inversion Hd; subst; by repeat apply one_line_app.
Qed.
Lemma one_line_diagrec d : Forall one_line (diagrec_texts d) → one_line (print_DiagRec d).
Proof. destruct d; cbn; [apply one_line_diag|done]. Qed.
Lemma one_line_records r counters : Forall one_line (records_texts r) → one_line counters →
  one_line (print_records_or r counters).
Proof.
  intros Hr Hc. destruct r as [[l|d|l]|]; cbn; try done; apply one_line_app; try done.
  - by apply one_line_diag.
  - destruct l; [done|]. by apply one_line_diagrec.
Qed.
Lemma opt_lines l : Forall one_line (omap id l) → Forall opt_line l.
Proof.
  induction l as [|[x|] l IH]; intros Hl; [constructor| |]; cbn in Hl.
  - inversion Hl; subst. constructor; [|by apply IH]. by intros t [= <-].
  - constructor; [|by apply IH]. by intros t [=].
Qed.
Lemma option_line o : Forall one_line (option_list o) → opt_line o.
Proof. destruct o; cbn; intros Hl; [inversion Hl; by intros ? [= <-]|by intros ? [=]]. Qed.
Lemma opt_line_Some s : one_line s → opt_line (Some s).
Proof. by intros Hs t [= <-]. Qed.
Lemma one_line_implementation id name version :
  Forall one_line (omap (λ x, x) [id; name; version]) → one_line (dump_implementation id name version).
Proof.
  intros Hl. apply opt_lines in Hl. rewrite !Forall_cons in Hl. destruct Hl as (H1 & H2 & H3 & _).
  unfold dump_implementation.
  apply one_line_app; [|apply one_line_app]; by apply one_line_opt_string.
Qed.
End gduutil.
(** Goals about the lines of a text, piece by piece. *)
Ltac line_step :=
  lazymatch goal with
  | |- one_line (_ +:+ _) => apply one_line_app
  | |- one_line (print_int _) => apply one_line_print_int
  | |- one_line (dump_opt_int_l _ _) => apply one_line_opt_int_l
  | |- one_line (dump_opt_int _) => apply one_line_opt_int_l
  | |- one_line (dump_opt_string _) => apply one_line_opt_string
  | |- one_line (dump_implementation _ _ _) => apply one_line_implementation
  | |- one_line (c_str _) => apply one_line_c_str
  | |- one_line (print_records_or _ _) => apply one_line_records
  | |- one_line (print_DiagRec _) => apply one_line_diagrec
  | |- one_line (String.concat _ _) => apply one_line_concat
  | |- opt_line (Some _) => apply opt_line_Some
  | |- opt_line None => by intros ? [=]
  | |- _ => done
  end.
Ltac lines := repeat line_step.
(** The text of a PDU is one line, unless a text in the PDU is not. *)
Theorem gdu_one_line `{Y : Yaz, V : GduView} fuel g s :
  print_GDU fuel g = Ok s → Forall one_line (gdu_texts fuel g) → one_line s.
Proof.
  intros H' Ht. destruct g as [a|r|r]; cbn in H', Ht.
  2-3: injection H' as <-; rewrite ?Forall_cons in Ht; unfold print_HTTP_Request, print_HTTP_Response;
    destruct_and?; lines.
  destruct a; cbn in H', Ht; try (injection H' as <-; done).
  - unfold print_initRequest in H'. destruct (get_vhost_otherinfo _ _ _) as [vhosts|?|?|]; simplify_eq/=.
    rewrite !Forall_app in Ht. destruct Ht as (Hu & Hv & Hi). lines.
    + destruct (iq_idAuthentication r) as [[t|? [u|] ?| |]|]; lines; by inversion Hu.
    + destruct vhosts; lines. apply Forall_fmap. eapply Forall_impl; [exact Hv|]. cbn. intros. lines.
  - injection H' as <-. unfold print_initResponse. lines. by destruct (ir_result r).
  - injection H' as <-. unfold print_searchRequest, dump_databases.
    rewrite Forall_app, !Forall_cons in Ht. destruct Ht as (Hd & Hs & Hq & Ho). lines.
    destruct (sq_preferredRecordSyntax r); [by inversion Ho|done].
  - injection H' as <-. unfold print_searchResponse. lines. by destruct (_ =? _).
  - injection H' as <-. unfold print_presentRequest. rewrite Forall_cons, Forall_app in Ht.
    destruct Ht as (Hs & Ho & He). lines; [|by apply option_line].
    destruct (pq_preferredRecordSyntax r); lines. by inversion Ho.
  - injection H' as <-. unfold print_presentResponse. lines. unfold print_presentStatus.
    by repeat destruct (_ =? _).
  - injection H' as <-. unfold print_scanRequest, dump_databases.
    rewrite Forall_cons in Ht. destruct Ht. lines.
  - injection H' as <-. unfold print_scanResponse. lines. unfold print_scanStatus.
    by repeat destruct (_ =? _).
  - injection H' as <-. unfold print_extendedServicesRequest. set (er := extendedServicesRequest_of r) in *.
    pose proof (opt_lines [es_userId er; es_packageName er; es_description er] Ht) as Ho.
    rewrite !Forall_cons in Ho. destruct_and?. lines.
    destruct (es_function _); [|done]. by repeat destruct (_ =? _).
  - injection H' as <-. unfold print_extendedServicesResponse. lines.
    destruct (es_operationStatus _); [|done]. repeat destruct (_ =? _); try done.
    destruct (es_diagnostics _); lines.
  - injection H' as <-. unfold print_close, print_closeReason. lines.
    + by repeat destruct (_ =? _).
    + destruct (cl_diagnosticInformation r); lines. by inversion Ht.
  - injection H' as <-. by destruct (other_kind body).
Qed.

(** ** Examples *)
#[export] Instance ref_view : GduView := {|
  yaz_oid_to_string_buf oid := oid;
  yaz_query_to_wrbuf q :=
    match q with
    | Query_type_1 _ (RPNStructure_simple (Operand_APT apt)) => "RPN " +:+ apt
    | _ => "-"
    end;
  yaz_scan_to_wrbuf := cq_termListAndStartPoint;
  extendedServicesRequest_of r := mk_ES_Request (Some 1) None (Some (op_body r)) None;
  extendedServicesResponse_of _ := mk_ES_Response (Some 1) [];
  other_kind _ := unknownAPDU
|}.
Section examples.
Definition init_apdu (user : string) : APDU :=
  initRequest (set_iq_idAuthentication (Some (IdAuthentication_open user))
    (set_iq_otherInfo (set_vhost_otherinfo [] ["h/db"]%string) zget_initRequest)).
Definition init_of (user : string) : GDU := GDU_Z3950 (init_apdu user).
Example init_text : print_GDU 9 (init_of "anna/x") = Ok "Z3950 initRequest anna/x h/db  - - -".
Proof. reflexivity. Qed.
(** A user name with a newline makes two lines of one entry: the second can
    look like an entry of its own. *)
Definition forged : string := "anna" +:+ String newline "- 10.0.0.1:1 7 0.000000 Z3950 close".
Example two_lines : ∃ s, print_GDU 9 (init_of forged) = Ok s ∧ ¬ one_line s.
Proof. eexists. split; [reflexivity|]. by vm_compute. Qed.
Lemma gdu_one_line_witness : one_line "Z3950 initRequest anna/x h/db  - - -".
Proof.
  apply (gdu_one_line 9 (init_of "anna/x") _ init_text). cbn.
  by repeat apply Forall_cons_2; [..|apply Forall_nil_2].
Defined.
Lemma type_position_witness : ∃ rest,
  " initRequest anna/x h/db  - - -" = " " +:+ "initRequest" +:+ rest ∧ ends_word rest.
Proof. by apply (type_position 9 (init_apdu "anna/x")). Defined.
End examples.
