(* ===== verification/Bounce.v ===== *)
(** * The last filter of a route

    [src/filter_bounce.cpp]: whatever arrives is answered, and the session is
    closed. [src/filter_template.cpp], the filter to start a new one from,
    does nothing. *)
From S2P Require Import Prelude Zgdu Yaz Xml Core Util GduUtil.

Module Bounce.
Section filter.
Context `{Y : Yaz, V : GduView} {R : Type}.
(** [z_GDU] on a stream that encodes: the bytes of a PDU. *)
Context (z_GDU : GDU → string).
Record Rep : Type := mk_Rep { echo : bool }.
Definition Bounce_init : Rep := mk_Rep false.

Fixpoint configure (l : list xmlNode) (m_p : Rep) : outcome Rep :=
  match l with
  | [] => Ok m_p
  | ptr :: l' =>
      if decide (n_type ptr ≠ XML_ELEMENT_NODE) then configure l' m_p
      else if decide (n_name ptr = "echo") then configure l' (mk_Rep (mp_xml.get_bool l false))
      else Throw ("Bad element '" +:+ n_name ptr +:+ "' in bounce filter")
  end.
Definition http_echo (zgdu : GDU) (hres : HTTP_Response) : HTTP_Response :=
  set_hr_content (z_GDU zgdu)
    (set_hr_headers (z_HTTP_header_set (hr_headers hres) "Content-Type" "text/plain") hres).
Definition process (fuel : nat) (m_p : Rep) (package : Package R) : outcome (Package R) :=
  let package := close_session package in
  match p_request package with
  | None => Ok package
  | Some zgdu =>
      text ← print_GDU fuel zgdu;
      let message := "BOUNCE " +:+ text in
      match zgdu with
      | GDU_Z3950 apdu =>
          Ok (set_response (Some (GDU_Z3950
            (create_close (Some apdu) Close_systemProblem (Some (c_str message))))) package)
      | GDU_HTTP_Request hreq =>
          let '(hres, session) := create_HTTP_Response (p_session package) hreq 400 in
          let hres := if echo m_p then http_echo zgdu hres else hres in
          Ok (set_response (Some (GDU_HTTP_Response hres)) (set_session session package))
      | GDU_HTTP_Response _ => Ok package
      end
  end.

(** What a package is answered with: a Close for the same operation, or an
    HTTP response that, with echo, holds the request. *)
Definition answered (m_p : Rep) (package p' : Package R) : Prop :=
  match p_request package with
  | Some (GDU_Z3950 apdu) => ∃ c,
      p_response p' = Some (GDU_Z3950 (close c)) ∧
      cl_referenceId c = refId_of (Some apdu) ∧ cl_closeReason c = Close_systemProblem
  | Some (GDU_HTTP_Request hreq) => ∃ hres,
      p_response p' = Some (GDU_HTTP_Response hres) ∧
      (echo m_p = true → hr_content hres = z_GDU (GDU_HTTP_Request hreq))
  | _ => p_response p' = p_response package
  end.
(** A package always comes back, answered, with its session closed; there is
    no other filter that could see it. *)
Theorem bounced `{!YazLaws Y} (m_p : Rep) (package : Package R) :
  ∃ fuel p', (∀ fuel', (fuel ≤ fuel')%nat → process fuel' m_p package = Ok p') ∧
    Session.is_closed (p_session p') = true ∧ p_request p' = p_request package ∧
    answered m_p package p'.
Proof.
  unfold answered, process. change (p_request (close_session package)) with (p_request package).
  destruct (p_request package) as [zgdu|] eqn:Hreq.
  2: { exists O. eexists. split; [intros; reflexivity|]. cbn. by rewrite Hreq. }
  destruct (print_GDU_total zgdu) as (fuel & text & Ht). exists fuel.
  destruct zgdu as [apdu|hreq|hres].
  - eexists. split; [intros fuel' Hf; rewrite (Ht _ Hf); reflexivity|]. cbn. rewrite Hreq.
    split_and!; try done. by eexists.
  - destruct (create_HTTP_Response _ _ _) as [hres session] eqn:Hc. eexists.
    split; [intros fuel' Hf; rewrite (Ht _ Hf); reflexivity|]. cbn. rewrite Hreq. split_and!; try done.
    + unfold create_HTTP_Response, create_HTTP_Response_details in Hc.
      repeat case_decide; by injection Hc as <- <-.
    + eexists. split; [reflexivity|]. by intros ->.
  - eexists. split; [intros fuel' Hf; rewrite (Ht _ Hf); reflexivity|]. cbn. by rewrite Hreq.
Qed.
End filter.

(** *** Examples *)
Section examples.
Definition example_package (g : GDU) : Package unit :=
  mk_Package (Session.mk 1 false) Origin.create None (Some g) None.
Example close_text :
  match process (λ _, "") 9 Bounce_init (example_package (init_of "anna")) with
  | Ok p => match z3950 (p_response p) with
            | Some (close c) => cl_diagnosticInformation c
            | _ => None end
  | _ => None
  end = Some "BOUNCE Z3950 initRequest anna h/db  - - -".
Proof. reflexivity. Qed.
(** The text goes into a Close only. *)
Definition example_http : HTTP_Request :=
  {| hq_method := "GET"; hq_version := "1.1"; hq_path := "/x"; hq_headers := []; hq_content := "" |}.
Example http_without_text :
  match process (λ _, "GET /x") 9 Bounce_init (example_package (GDU_HTTP_Request example_http)) with
  | Ok p => p_response p
  | _ => None
  end = Some (GDU_HTTP_Response (create_HTTP_Response (Session.mk 1 true) example_http 400).1).
Proof. reflexivity. Qed.
Lemma bounced_witness : ∃ fuel p',
  (∀ fuel', (fuel ≤ fuel')%nat →
    process (λ _, "") fuel' Bounce_init (example_package (init_of "anna")) = Ok p') ∧
  Session.is_closed (p_session p') = true ∧
  p_request p' = Some (init_of "anna") ∧
  answered (λ _, "") Bounce_init (example_package (init_of "anna")) p'.
Proof. apply (bounced (λ _, "") Bounce_init (example_package (init_of "anna"))). Defined.
End examples.
End Bounce.

(** ** The template of a filter *)
Module Template.
Definition configure (m_dummy : Z) : outcome Z := Ok m_dummy.
Definition process {R W} (next : string → Package R → M W (Package R)) (package : Package R) :
    M W (Package R) := next "" package.
End Template.
