(* ===== verification/ZeerexExplain.v ===== *)
(** * The zeerex_explain filter

    [src/filter_zeerex_explain.cpp]: SRU explain requests for the databases of
    the configuration are answered with a record of the configuration. *)
From S2P Require Import Prelude Zgdu Yaz Xml Core Util Sru.

Module ZeeRexExplain.

(** ** Configuration

    A database that has no element has a null pointer for its record. *)
Notation explain_map := (gmap string (option xmlNode)).
Fixpoint configure_attrs (attrs : list xmlAttr) (explainnode : option xmlNode) (m : explain_map) :
    outcome explain_map :=
  match attrs with
  | [] => Ok m
  | a :: attrs' =>
      mp_xml.check_attribute (Some a) "" "name" ;;
      configure_attrs attrs' explainnode (map_insert_new (mp_xml.get_text_attr a) explainnode m)
  end.
Fixpoint configure_loop (l : list xmlNode) (m : explain_map) : outcome explain_map :=
  match l with
  | [] => Ok m
  | dbnode :: l' =>
      if decide (n_type dbnode ≠ XML_ELEMENT_NODE) then configure_loop l' m
      else
        mp_xml.check_element_mp l "database" ;;
        m ← configure_attrs (n_properties dbnode) (mp_xml.first_element (n_children dbnode)) m;
        configure_loop l' m
  end.
Definition configure (confignode : xmlNode) : outcome explain_map :=
  configure_loop (n_children confignode) ∅.

(** The entries in the order of the configuration. *)
Definition names_of (n : xmlNode) : list (string * option xmlNode) :=
  if decide (n_type n = XML_ELEMENT_NODE) then
    (λ a, (mp_xml.get_text_attr a, mp_xml.first_element (n_children n))) <$> n_properties n
  else [].
Fixpoint first_entry (db : string) (l : list (string * option xmlNode)) : option (option xmlNode) :=
  match l with
  | [] => None
  | (name, e) :: l' => if decide (name = db) then Some e else first_entry db l'
  end.
Lemma first_entry_app db l k : first_entry db (l ++ k) =
  match first_entry db l with Some e => Some e | None => first_entry db k end.
Proof. induction l as [|[n e] l IH]; [done|]. cbn. case_decide; auto. Qed.
Lemma configure_attrs_lookup db attrs e m m' : configure_attrs attrs e m = Ok m' →
  m' !! db = match m !! db with
             | Some x => Some x
             | None => first_entry db ((λ a, (mp_xml.get_text_attr a, e)) <$> attrs)
             end.
Proof.
  revert m. induction attrs as [|a attrs IH]; intros m; cbn [configure_attrs fmap list_fmap first_entry].
  { intros [= <-]. by destruct (m !! db). }
  intros H'. destruct (mp_xml.check_attribute (Some a) "" "name"); simplify_eq/=. apply IH in H'. rewrite H'.
  rewrite map_insert_new_lookup. case_decide as Hd; subst.
  - by destruct (m !! _).
  - by destruct (m !! db).
Qed.
(** A database has the record of the first entry with its name. *)
Lemma configure_loop_lookup db l m m' : configure_loop l m = Ok m' →
  m' !! db = match m !! db with
             | Some x => Some x
             | None => first_entry db (l ≫= names_of)
             end.
Proof.
  revert m. induction l as [|n l IH]; intros m; cbn [configure_loop].
  { intros [= <-]. cbn. by destruct (m !! db). }
  rewrite bind_cons, first_entry_app. unfold names_of at 1.
  destruct (decide (n_type n = XML_ELEMENT_NODE)) as [Hn|Hn].
  2: { rewrite decide_True by done. apply IH. }
  rewrite decide_False by (intros Hn'; done). intros H'.
  destruct (mp_xml.check_element_mp (n :: l) "database"); simplify_eq/=.
  destruct (configure_attrs _ _ m) as [m1|?|?|] eqn:Hm; simplify_eq/=.
  apply IH in H'. rewrite H'. rewrite (configure_attrs_lookup db _ _ _ _ Hm).
  by destruct (m !! db).
Qed.

(** ** Requests *)
Section filter.
Context {SOAP : Type} `{S : Srw SOAP} `{Y : Yaz} {R W : Type}.
Context (next : string → Package R → M W (Package R)).
Implicit Types (package : Package R).

Definition answer (r : Z_SRW_explainResponse) (soap : option SOAP) package : M W (Package R) :=
  '(_, package) ← lift_outcome (SruUtil.build_sru_response (S := S) package soap
    (mk_SRW_response None (SRW_explain_response r)) None None);
  mret package.
Definition process (m_database_explain : explain_map) package : M W (Package R) :=
  match p_request package with
  | Some (GDU_HTTP_Request _) =>
      let res := srw_get_explain (Srw := S) None in
      let sruinfo := SruUtil.get_sru_server_info package in
      match m_database_explain !! SruUtil.database sruinfo with
      | None => next "" package
      | Some explainnode =>
          let '(package, sru_pdu_req, diagnostic, soap) := SruUtil.decode_sru_request (S := S) package in
          match sru_pdu_req with
          | None =>
              package ← answer (SruUtil.build_sru_explain (S := S) res sruinfo explainnode None) soap package;
              mret (close_session package)
          | Some req =>
              match srw_request req with
              | SRW_explain_request er_req =>
                  answer (SruUtil.build_sru_explain (S := S) (set_es_diagnostics diagnostic res) sruinfo
                            explainnode (Some er_req)) soap package
              | _ => next "" package
              end
          end
      end
  | _ => next "" package
  end.

(** The database that a request is for, as it is in the path. *)
Definition request_db package : string := SruUtil.database (SruUtil.get_sru_server_info package).
(** An explain request for a database of the configuration is answered with
    the record that the configuration has for it; the filters behind are not
    asked. *)
Theorem explain_served confignode m package hreq e soap diagnostic er_req charset w
    (Hconf : configure confignode = Ok m)
    (Hreq : p_request package = Some (GDU_HTTP_Request hreq))
    (He : first_entry (request_db package) (n_children confignode ≫= names_of) = Some (Some e))
    (Hsru : ∃ u p x, yaz_sru_decode hreq =
      (0, mk_decoded (Some (mk_SRW_PDU u p x (SRW_explain_request er_req)))
            (Some soap) charset diagnostic)) :
  ∃ p' hres record, process m package w = Ok (p', w) ∧
    p_response p' = Some (GDU_HTTP_Response hres) ∧ recordData_buf record = xmlNodeDump (Srw := S) e ∧
    hr_content hres = z_soap_codec_enc_xsl soap (mk_SRW_response None (SRW_explain_response
      (mk_explainResponse (Some record) diagnostic))) None None.
Proof.
  destruct Hsru as (u & p & x & Hsru). unfold process. rewrite Hreq.
  rewrite (configure_loop_lookup _ _ _ _ Hconf), lookup_empty. fold (request_db package). rewrite He.
  unfold SruUtil.decode_sru_request. rewrite Hreq, Hsru. cbn.
  unfold answer, SruUtil.build_sru_response. rewrite Hreq.
  destruct (create_HTTP_Response _ _ _) as [hres session]. cbn.
  eexists _, _, (mk_record _ _ _ _). split_and!; reflexivity.
Qed.
(** Everything else is for the filters behind. *)
Theorem others_pass m package w
    (Hnot : ∀ hreq, p_request package = Some (GDU_HTTP_Request hreq) →
      m !! request_db package = None ∨
      ∃ req, (SruUtil.decode_sru_request (S := S) package).1.1 = (package, Some req) ∧
             ∀ er_req, srw_request req ≠ SRW_explain_request er_req) :
  process m package w = next "" package w.
Proof.
  unfold process. destruct (p_request package) as [[a|hreq|hres]|] eqn:Hreq; try done.
  fold (request_db package). destruct (Hnot hreq eq_refl) as [->|(req & Hd & Hr)]; [done|].
  destruct (m !! request_db package); [|done].
  destruct (SruUtil.decode_sru_request package) as [[[p pdu] d] s]. cbn in Hd. simplify_eq.
  destruct (srw_request req) as [er_req| | |] eqn:Hq; [by destruct (Hr er_req)|done..].
Qed.
End filter.

(** *** Examples *)
Section examples.
(** Every request is a SOAP request for the explain record. *)
#[local] Instance example_srw : Srw string := {|
  yaz_sru_decode _ :=
    (0, mk_decoded (Some (mk_SRW_PDU None None [] (SRW_explain_request
           (mk_explainRequest None None)))) (Some "soap:") None []);
  yaz_srw_decode := yaz_srw_decode (Srw := ref_srw);
  srw_get_explain := srw_get_explain (Srw := ref_srw);
  srw_get_searchRetrieve := srw_get_searchRetrieve (Srw := ref_srw);
  srw_get_scan := srw_get_scan (Srw := ref_srw);
  yaz_mk_std_diagnostic := yaz_mk_std_diagnostic (Srw := ref_srw);
  yaz_add_srw_diagnostic := yaz_add_srw_diagnostic (Srw := ref_srw);
  yaz_diag_bib1_to_srw := yaz_diag_bib1_to_srw (Srw := ref_srw);
  yaz_mk_sru_surrogate := yaz_mk_sru_surrogate (Srw := ref_srw);
  yaz_pqf_parse := yaz_pqf_parse (Srw := ref_srw);
  yaz_oi_set_facetlist := yaz_oi_set_facetlist (Srw := ref_srw);
  yaz_oi_get_facetlist := yaz_oi_get_facetlist (Srw := ref_srw);
  z_soap_codec_enc_xsl soap pdu _ _ := soap +:+
    match srw_response pdu with
    | SRW_explain_response r => from_option recordData_buf "" (es_record r)
    | _ => ""
    end;
  xmlNodeDump := n_name;
  wrbuf_xmlputs s := s;
  yaz_encode_uri_component s := s
|}.
Definition text (s : string) : xmlNode := Node XML_TEXT_NODE "text" None s [] [].
Definition element (name : string) (attrs : list xmlAttr) (children : list xmlNode) : xmlNode :=
  Node XML_ELEMENT_NODE name (Some metaproxy_ns) "" attrs children.
Definition database (name : string) (children : list xmlNode) : xmlNode :=
  element "database" [Attr "name" None [text name]] children.
(** A database that is there twice; the first one counts. *)
Definition example_config : xmlNode :=
  element "filter" [] [database "a" [element "first" [] []]; database "a" [element "second" [] []];
                       database "b" []].
Definition example_package (path : string) : Package unit :=
  mk_Package (Session.mk 1 false) Origin.create None
    (Some (GDU_HTTP_Request {| hq_method := "GET"; hq_version := "1.1"; hq_path := path;
       hq_headers := []; hq_content := "" |})) None.
Definition example_map : explain_map :=
  match configure example_config with Ok m => m | _ => ∅ end.
Definition no_next (route : string) (p : Package unit) : M unit (Package unit) := throw "next".
Lemma explain_served_witness : ∃ p' hres record,
  process (S := example_srw) no_next example_map (example_package "/a?operation=explain") tt = Ok (p', tt) ∧
  p_response p' = Some (GDU_HTTP_Response hres) ∧ recordData_buf record = "first" ∧
  hr_content hres = z_soap_codec_enc_xsl (Srw := example_srw) "soap:" (mk_SRW_response None (SRW_explain_response
      (mk_explainResponse (Some record) []))) None None.
Proof.
  eapply (explain_served (S := example_srw) no_next example_config example_map (example_package "/a?operation=explain")
    _ (element "first" [] []) "soap:" [] (mk_explainRequest None None) None tt); try reflexivity.
  by eexists None, None, [].
Defined.
Lemma others_pass_witness :
  process (S := example_srw) no_next example_map (example_package "/c") tt = Throw "next".
Proof.
  rewrite (others_pass (S := example_srw) no_next example_map (example_package "/c") tt); [reflexivity|].
  intros hreq _. left. reflexivity.
Defined.
(** A request for a database that is configured, but with a body that is no
    SRU request: there is no envelope for the answer. *)
Definition example_post : Package unit :=
  mk_Package (Session.mk 1 false) Origin.create None
    (Some (GDU_HTTP_Request {| hq_method := "PUT"; hq_version := "1.1"; hq_path := "/a";
       hq_headers := []; hq_content := "" |})) None.
Example no_envelope :
  process (S := ref_srw) no_next example_map example_post tt = Undef NullDeref.
Proof. reflexivity. Qed.
End examples.
End ZeeRexExplain.
