(* ===== verification/Log.v ===== *)
(** * The log filter

    [src/filter_log.cpp]: entries about what passes, in files that the log
    filters of a process share, or in the log of YAZ. The filter keeps the
    user of each session. *)
From S2P Require Import Prelude Stream Zgdu Yaz Xml Core Util GduUtil.

(** [operator<<] of a package, in [src/package.cpp]. *)
Definition print_package {R} (p : Package R) : string :=
  Origin.print (p_origin p) +:+ " " +:+ print_nat (Session.id (p_session p)).

(** The responses that only the one-line entries look into. *)
Record SortResponse : Type := mk_SortResponse {
  so_sortStatus : Z;
  so_diagnostics : list DiagRec
}.
Record DuplicateDetectionResponse : Type := mk_DuplicateDetectionResponse {
  dd_status : bool;
  dd_diagnostics : list DiagRec
}.
(** [E] is the environment: clock, file system and the rest of the program. *)
Class LogEnv (E : Type) : Type := {
  (** [fopen(name, "a")] has a stream. *)
  fopen_append : string → E → bool;
  (** [strftime] for the local time; none when it returns 0. *)
  strftime_now : string → E → option string;
  (** What [yaz_log] puts into its file for a message. *)
  yaz_log_line : string → E → string;
  (** [yaz_timing_get_real] between two moments, with six decimals. *)
  timing_real : E → E → string;
  (** [z_GDU] on a stream that prints. *)
  odr_print : GDU → string;
  (** The names that [yaz_init_opt_decode] gives to its function. *)
  yaz_init_opt_decode : Z → list string;
  (** The value of [which] in a PDU. *)
  apdu_which : APDU → Z;
  sortResponse_of : OtherPDU → SortResponse;
  duplicateDetectionResponse_of : string → DuplicateDetectionResponse
}.

Module Log.

(** ** One line about a request and its response *)
Section one_line.
Context `{V : GduView} {E : Type} `{L : LogEnv E}.

Definition log_DefaultDiagFormat (e : DefaultDiagFormat) : string :=
  print_int (condition e) +:+ " " +:+
  match addinfo e with v2Addinfo s | v3Addinfo s => dquote +:+ s +:+ dquote end.
(** The number of diagnostics is not looked at. *)
Definition log_DiagRecs (diags : list DiagRec) : outcome string :=
  match diags with
  | [] => Undef OutOfBounds
  | DiagRec_defaultFormat e :: _ => Ok (log_DefaultDiagFormat e)
  | DiagRec_externallyDefined :: _ => Ok "(diag not in default format?)"
  end.
Definition log_syntax (syntax : option string) : string :=
  match syntax with Some oid => yaz_oid_to_string_buf oid | None => "-" end.
(** The diagnostics of a response that may have some. *)
Definition log_diagnostics (l : list DiagRec) : outcome string :=
  match l with [] => Ok "-" | _ => log_DiagRecs l end.
Definition log_records (ok : string) (r : option Records) : outcome string :=
  match r with
  | None | Some (Records_DBOSD _) => Ok ok
  | Some (Records_NSD d) => Ok ("ERROR " +:+ log_DefaultDiagFormat d)
  | Some (Records_multipleNSD l) => s ← log_DiagRecs l; Ok ("ERROR " +:+ s)
  end.
(** The first diagnostic of an Init response that failed. *)
Definition init_diag (uif : option External) : string :=
  match uif with
  | Some (External_userInfo1 (OtherInfo_externallyDefinedInfo
      (Some (External_diag1 (DiagnosticFormat_s_defaultDiagRec d :: _))) :: _)) =>
      log_DefaultDiagFormat d
  | _ => "-"
  end.
(** Without a response of the right kind an entry ends early. *)
Definition with_response {A} (z_res : option APDU) (kind : APDU → option A)
    (f : A → outcome string) : outcome string :=
  match z_res with
  | None => Ok "?"
  | Some r => match kind r with
              | Some a => f a
              | None => Ok ("? response=" +:+ print_int (apdu_which r))
              end
  end.
Definition log_init (req : InitRequest) (res : InitResponse) : outcome string :=
  Ok ((if ir_result res then "OK -"
       else "ERROR " +:+ init_diag (ir_userInformationField res)) +:+
      " ID:" +:+ default "-" (iq_implementationId req) +:+
      " Name:" +:+ default "-" (iq_implementationName req) +:+
      " Version:" +:+ default "-" (iq_implementationVersion req)).
Definition log_search (req : SearchRequest) (res : SearchResponse) : outcome string :=
  s ← log_records ("OK " +:+ print_int (sr_resultCount res) +:+ " " +:+ sq_resultSetName req)
        (sr_records res);
  Ok (dump_databases (sq_databaseNames req) +:+ " " +:+ s +:+ " " +:+
      log_syntax (sq_preferredRecordSyntax req) +:+ " 1+" +:+
      print_int (sr_numberOfRecordsReturned res) +:+ " " +:+ yaz_query_to_wrbuf (sq_query req)).
Definition log_present (req : PresentRequest) (res : PresentResponse) : outcome string :=
  s ← log_records "OK" (pr_records res);
  Ok (s +:+ " " +:+ log_syntax (pq_preferredRecordSyntax req) +:+ " " +:+ pq_resultSetId req +:+
      " " +:+ print_int (pq_resultSetStartPoint req) +:+ "+" +:+
      print_int (pq_numberOfRecordsRequested req) +:+ " ").
Definition log_scan (req : ScanRequest) (res : ScanResponse) : outcome string :=
  Ok (dump_databases (cq_databaseNames req) +:+ " " +:+
      (if cr_scanStatus res =? 0 then "OK" else if cr_scanStatus res =? 6 then "ERROR"
       else "PARTIAL" +:+ print_int (cr_scanStatus res)) +:+
      " " +:+ print_int (cr_numberOfEntriesReturned res) +:+
      " " +:+ print_int (default 1 (cq_preferredPositionInResponse req)) +:+
      "+" +:+ print_int (cq_numberOfTermsRequested req) +:+
      "+" +:+ print_int (default 1 (cr_stepSize res)) +:+ " " +:+ yaz_scan_to_wrbuf req).
(** After the status, the response is read as if it were the request. *)
Definition log_sort (res : SortResponse) : outcome string :=
  _ ← log_diagnostics (so_diagnostics res);
  Undef BadUnion.
Definition log_extendedServices (res : ES_Response) : outcome string :=
  st ← deref_o (es_operationStatus res);
  s ← log_diagnostics (es_diagnostics res);
  Ok ((if st =? ES_done then "DONE" else if st =? ES_accepted then "ACCEPTED"
       else if st =? ES_failure then "ERROR" else print_int st) +:+ " " +:+ s).
Definition log_duplicateDetection (res : DuplicateDetectionResponse) : outcome string :=
  s ← log_diagnostics (dd_diagnostics res);
  Ok ((if dd_status res then "OK" else "ERROR") +:+ " " +:+ s).
Definition as_duplicateDetectionResponse (a : APDU) : option DuplicateDetectionResponse :=
  match a with
  | otherAPDU body =>
      match other_kind body with
      | duplicateDetectionResponse => Some (duplicateDetectionResponse_of body)
      | _ => None
      end
  | _ => None
  end.
Definition prefixed (s : string) (o : outcome string) : outcome string := t ← o; Ok (s +:+ t).
(** A request of another kind that has no response: a null pointer. *)
Definition log_other (z_req : APDU) (z_res : option APDU) : outcome string :=
  r ← deref_o z_res;
  Ok ("REQ=" +:+ print_int (apdu_which z_req) +:+ " RES=" +:+ print_int (apdu_which r)).
Definition log_1line_Z_APDU (z_req : APDU) (z_res : option APDU) : outcome string :=
  match z_req with
  | initRequest req => prefixed "Init " (with_response z_res
      (λ a, match a with initResponse r => Some r | _ => None end) (log_init req))
  | searchRequest req => prefixed "Search " (with_response z_res
      (λ a, match a with searchResponse r => Some r | _ => None end) (log_search req))
  | presentRequest req => prefixed "Present " (with_response z_res
      (λ a, match a with presentResponse r => Some r | _ => None end) (log_present req))
  | deleteResultSetRequest _ => Ok "deleteResultSet "
  | accessControlRequest _ => Ok "accessControl "
  | resourceControlRequest _ => Ok "resourceControl "
  | triggerResourceControlRequest _ => Ok "triggerResourceControlRequest"
  | resourceReportRequest _ => Ok "resourceReport "
  | scanRequest req => prefixed "Scan " (with_response z_res
      (λ a, match a with scanResponse r => Some r | _ => None end) (log_scan req))
  | sortRequest _ => prefixed "sort " (with_response z_res
      (λ a, match a with sortResponse r => Some (sortResponse_of r) | _ => None end) log_sort)
  | segmentRequest _ => Ok "segmentRequest"
  | extendedServicesRequest _ => prefixed "extendedServices " (with_response z_res
      (λ a, match a with extendedServicesResponse r => Some (extendedServicesResponse_of r)
                    | _ => None end) log_extendedServices)
  | close _ => Ok "close"
  | otherAPDU body =>
      match other_kind body with
      | duplicateDetectionRequest => prefixed "duplicateDetention " (with_response z_res
          as_duplicateDetectionResponse log_duplicateDetection)
      | _ => log_other z_req z_res
      end
  | _ => log_other z_req z_res
  end.
Definition log_1line_Z_HTTP (req : HTTP_Request) (res : option HTTP_Response) : string :=
  hq_method req +:+ " " +:+ hq_path req +:+ " HTTP/" +:+ hq_version req +:+
  match res with
  | Some res => " " +:+ print_int (hr_code res) +:+ " " +:+
                print_int (Z.of_nat (String.length (hr_content res)))
  | None => " ?"
  end.
Definition log_1line_Z_GDU (gdu_req gdu_res : option GDU) : outcome string :=
  match gdu_req with
  | Some (GDU_Z3950 z_req) => log_1line_Z_APDU z_req (z3950 gdu_res)
  | Some (GDU_HTTP_Request req) => Ok (log_1line_Z_HTTP req
      match gdu_res with Some (GDU_HTTP_Response res) => Some res | _ => None end)
  | _ => Ok ""
  end.
End one_line.

(** ** Files *)

(** [LFile]: its name, whether it is open, and what has been written, flushed
    or not. The list [filter_log_files] is one for the program, and a pointer
    to a file is its index. *)
Record LFile : Type := mk_LFile {
  m_fname : string;
  fhandle : bool;
  contents : string
}.
Record LogWorld : Type := mk_LogWorld {
  filter_log_files : list LFile;
  yaz_log_file : string
}.
Definition add_contents (s : string) (f : LFile) : LFile :=
  mk_LFile (m_fname f) (fhandle f) (contents f +:+ s).
Definition fputs (m_file : nat) (s : string) (lw : LogWorld) : LogWorld :=
  mk_LogWorld (alter (add_contents s) m_file (filter_log_files lw)) (yaz_log_file lw).
Definition yaz_log_write (s : string) (lw : LogWorld) : LogWorld :=
  mk_LogWorld (filter_log_files lw) (yaz_log_file lw +:+ s).

Section files.
Context {E : Type} `{L : LogEnv E}.
(** [LFile::log]. *)
Definition log (m_file : nat) (date_format os : string) : M (LogWorld * E) unit :=
  '(lw, e) ← get;
  f ← deref (filter_log_files lw !! m_file);
  put (if fhandle f then
         fputs m_file (match strftime_now (c_str date_format) e with
                       | Some datestr => datestr +:+ " "
                       | None => "" end +:+ c_str os +:+ String newline "") lw
       else yaz_log_write (yaz_log_line (c_str os) e) lw, e).
(** [stream_write], for all that [z_GDU] prints. *)
Definition stream_write (m_file : nat) (buf : string) : M (LogWorld * E) unit :=
  '(lw, e) ← get;
  f ← deref (filter_log_files lw !! m_file);
  put (if fhandle f then fputs m_file buf lw else yaz_log_write buf lw, e).
Definition openfile (fname : string) : M (LogWorld * E) nat :=
  '(lw, e) ← get;
  match find_first (λ f, bool_decide (m_fname f = fname)) (filter_log_files lw) with
  | Some (i, _) => mret i
  | None =>
      put (mk_LogWorld (filter_log_files lw ++ [mk_LFile fname (fopen_append (c_str fname) e) ""])
             (yaz_log_file lw), e) ;;
      mret (length (filter_log_files lw))
  end.
End files.

(** ** Configuration *)
Record Impl : Type := mk_Impl {
  m_msg_config : string;
  m_1line : bool;
  m_access : bool;
  m_user_access : bool;
  m_req_apdu : bool;
  m_res_apdu : bool;
  m_req_session : bool;
  m_res_session : bool;
  m_init_options : bool;
  m_file : nat;
  m_time_format : string
}.
Definition set_m_msg_config (s : string) (c : Impl) : Impl :=
  mk_Impl s (m_1line c) (m_access c) (m_user_access c) (m_req_apdu c) (m_res_apdu c)
    (m_req_session c) (m_res_session c) (m_init_options c) (m_file c) (m_time_format c).
Definition set_m_file (i : nat) (c : Impl) : Impl :=
  mk_Impl (m_msg_config c) (m_1line c) (m_access c) (m_user_access c) (m_req_apdu c) (m_res_apdu c)
    (m_req_session c) (m_res_session c) (m_init_options c) i (m_time_format c).
Definition set_m_time_format (s : string) (c : Impl) : Impl :=
  mk_Impl (m_msg_config c) (m_1line c) (m_access c) (m_user_access c) (m_req_apdu c) (m_res_apdu c)
    (m_req_session c) (m_res_session c) (m_init_options c) (m_file c) s.
(** An attribute of [category]; an attribute without text is true. *)
Definition set_category (name : string) (v : bool) (c : Impl) : option Impl :=
  let set a b d e f g h i := Some (mk_Impl (m_msg_config c) a b d e f g h i (m_file c) (m_time_format c)) in
  let '(l, a, u, q, s, rq, rs, o) := (m_1line c, m_access c, m_user_access c, m_req_apdu c,
    m_res_apdu c, m_req_session c, m_res_session c, m_init_options c) in
  if decide (name = "line") then set v a u q s rq rs o
  else if decide (name = "access") then set l v u q s rq rs o
  else if decide (name = "user-access") then set l a v q s rq rs o
  else if decide (name = "request-apdu") then set l a u v s rq rs o
  else if decide (name = "response-apdu") then set l a u q v rq rs o
  else if decide (name = "apdu") then set l a u v v rq rs o
  else if decide (name = "request-session") then set l a u q s v rs o
  else if decide (name = "response-session") then set l a u q s rq v o
  else if decide (name = "session") then set l a u q s v v o
  else if decide (name = "init-options") then set l a u q s rq rs v
  else None.
Fixpoint configure_category (l : list xmlAttr) (c : Impl) : outcome Impl :=
  match l with
  | [] => Ok c
  | a :: l' =>
      match set_category (a_name a) (mp_xml.get_bool (a_children a) true) c with
      | Some c => configure_category l' c
      | None => Throw ("Bad attribute " +:+ a_name a)
      end
  end.
Section configure.
Context {E : Type} `{L : LogEnv E}.
(** The constructor. *)
Definition Impl_init (x : string) : M (LogWorld * E) Impl :=
  i ← openfile "";
  mret (mk_Impl x false true false false false false false false i "%H:%M:%S-%d/%m").
Fixpoint configure (l : list xmlNode) (c : Impl) : M (LogWorld * E) Impl :=
  match l with
  | [] => mret c
  | ptr :: l' =>
      if decide (n_type ptr ≠ XML_ELEMENT_NODE) then configure l' c
      else if decide (n_name ptr = "message") then
        configure l' (set_m_msg_config (mp_xml.get_text l) c)
      else if decide (n_name ptr = "filename") then
        i ← openfile (mp_xml.get_text l); configure l' (set_m_file i c)
      else if decide (n_name ptr = "time-format") then
        configure l' (set_m_time_format (mp_xml.get_text l) c)
      else if decide (n_name ptr = "category") then
        c ← lift_outcome (configure_category (n_properties ptr) c); configure l' c
      else throw ("Bad element " +:+ n_name ptr)
  end.
End configure.

(** ** Packages *)
Section filter.
Context `{Y : Yaz, V : GduView} {E : Type} `{L : LogEnv E} {R : Type}.
(** [m_sessions], the log of the program, and the environment. *)
Notation Store := (gmap Z string * (LogWorld * E))%type.
Context (next : string → Package R → M Store (Package R)).
Definition on_log {A} (m : M (LogWorld * E) A) : M Store A := λ s,
  match m s.2 with
  | Ok (a, w) => Ok (a, (s.1, w))
  | Throw t => Throw t
  | Undef k => Undef k
  | OutOfFuel => OutOfFuel
  end.

(** The user that a request brings along, if it has an authentication. *)
Definition request_user (gdu_req : option GDU) : option string :=
  match z3950 gdu_req with
  | Some (initRequest req) =>
      (λ a, match a with
            | IdAuthentication_idPass _ (Some userId) _ => userId
            | IdAuthentication_open s => s
            | _ => "-"
            end) <$> iq_idAuthentication req
  | _ => None
  end.
(** Under the lock of the session table. *)
Definition session_user (package : Package R) (m_sessions : gmap Z string) :
    string * gmap Z string :=
  let id := Session.id (p_session package) in
  let m := match request_user (p_request package) with
           | Some user => <[id := user]> m_sessions
           | None => m_sessions
           end in
  (default "-" (m !! id), if Session.is_closed (p_session package) then delete id m else m).

Section entries.
Context (c : Impl) (fuel : nat).
Definition when {A} (b : bool) (x : option A) (f : A → M (LogWorld * E) unit) : M (LogWorld * E) unit :=
  match x with Some a => if b then f a else mret tt | None => mret tt end.
Definition entry (user : option string) (package : Package R) (time text : string) :
    M (LogWorld * E) unit :=
  log (m_file c) (m_time_format c)
    (m_msg_config c +:+ " " +:+ match user with Some u => u +:+ " " | None => "" end +:+
     print_package package +:+ " " +:+ time +:+ " " +:+ text).
Definition entry_of (user : option string) (package : Package R) (time : string) (g : GDU) :
    M (LogWorld * E) unit :=
  text ← lift_outcome (print_GDU fuel g);
  entry user package time text.
Definition log_options (sep : string) (options : Z) : M (LogWorld * E) unit :=
  log (m_file c) (m_time_format c)
    (m_msg_config c +:+ sep +:+
     String.concat "" ((λ name, " " +:+ name) <$> yaz_init_opt_decode options)).
Definition init_options (g : option GDU) : option Z :=
  match z3950 g with Some (initRequest r) => Some (iq_options r) | _ => None end.
Definition response_options (g : option GDU) : option Z :=
  match z3950 g with Some (initResponse r) => Some (ir_options r) | _ => None end.
Definition log_session (text : string) (package : Package R) (yes no rest : string) :
    M (LogWorld * E) unit :=
  log (m_file c) (m_time_format c)
    (m_msg_config c +:+ text +:+ print_nat (Session.id (p_session package)) +:+ " close=" +:+
     (if Session.is_closed (p_session package) then yes else no) +:+ rest).
(** Before the package moves on. *)
Definition log_request (user : string) (package : Package R) : M (LogWorld * E) unit :=
  let gdu_req := p_request package in
  when (m_access c) gdu_req (entry_of None package "0.000000") ;;
  when (m_user_access c) gdu_req (entry_of (Some user) package "0.000000") ;;
  when (m_req_session c) (Some tt) (λ _, log_session " request id=" package "yes" "no" "") ;;
  when (m_init_options c) (init_options gdu_req) (log_options " init options:") ;;
  when (m_req_apdu c) gdu_req (λ g, stream_write (m_file c) (odr_print g)).
(** After it came back. *)
Definition log_line (package : Package R) (duration : string) : M (LogWorld * E) unit :=
  w ← lift_outcome (log_1line_Z_GDU (p_request package) (p_response package));
  if decide (w = "") then mret tt else entry None package duration (c_str w).
Definition log_response (user : string) (duration : string) (package : Package R) :
    M (LogWorld * E) unit :=
  let gdu_res := p_response package in
  when (m_1line c) (Some tt) (λ _, log_line package duration) ;;
  when (m_access c) gdu_res (entry_of None package duration) ;;
  when (m_user_access c) gdu_res (entry_of (Some user) package duration) ;;
  when (m_res_session c) (Some tt) (λ _,
    log_session " response id=" package "yes " "no " ("duration=" +:+ duration)) ;;
  when (m_init_options c) (response_options gdu_res) (log_options " init options:") ;;
  when (m_res_apdu c) gdu_res (λ g, stream_write (m_file c) (odr_print g)).
Definition process (package : Package R) : M Store (Package R) :=
  '(_, (_, start)) ← get;
  m_sessions ← get_st;
  let '(user, m_sessions) := session_user package m_sessions in
  put_st m_sessions ;;
  on_log (log_request user package) ;;
  package ← next "" package;
  '(_, (_, stop)) ← get;
  on_log (log_response user (timing_real start stop) package) ;;
  mret package.
End entries.
End filter.

(** ** A log only grows *)
Definition grows (s s' : string) : Prop := ∃ t, s' = s +:+ t.
#[export] Instance grows_preorder : PreOrder grows.
Proof.
  split.
  - intros s. exists "". by rewrite str_app_nil_r.
  - intros s1 s2 s3 [t ->] [u ->]. exists (t +:+ u). by rewrite str_app_assoc.
Qed.
Definition file_grows (f f' : LFile) : Prop :=
  m_fname f' = m_fname f ∧ fhandle f' = fhandle f ∧ grows (contents f) (contents f').
#[export] Instance file_grows_preorder : PreOrder file_grows.
Proof.
  split; [done|]. intros f1 f2 f3 (H1 & H2 & H3) (H4 & H5 & H6). split_and!; try congruence. by etrans.
Qed.
Definition extends (lw lw' : LogWorld) : Prop :=
  Forall2 file_grows (filter_log_files lw) (filter_log_files lw') ∧
  grows (yaz_log_file lw) (yaz_log_file lw').
#[export] Instance extends_preorder : PreOrder extends.
Proof.
  split; [done|]. intros w1 w2 w3 [H1 H2] [H3 H4]. split; by etrans.
Qed.
Lemma fputs_extends i s lw : extends lw (fputs i s lw).
Proof.
  split; [|done]. cbn. apply Forall2_alter_r; [done|]. intros f f' Hf Hf' Hg. simplify_eq.
  split_and!; try done. by eexists.
Qed.
Lemma yaz_log_extends s lw : extends lw (yaz_log_write s lw).
Proof. split; [done|]. by eexists. Qed.
(** A filter has a file of the list. *)
Definition valid (i : nat) (lw : LogWorld) : Prop := is_Some (filter_log_files lw !! i).
Lemma extends_valid i lw lw' : extends lw lw' → valid i lw → valid i lw'.
Proof.
  intros [Hf _] [f Hi]. destruct (Forall2_lookup_l _ _ _ _ _ Hf Hi) as (f' & Hf' & _). by exists f'.
Qed.

(** *** What a filter does besides is to look on *)
Section looks_on.
Context `{Y : Yaz, !YazLaws Y, V : GduView} {E : Type} `{L : LogEnv E} {R : Type}.
Notation Store := (gmap Z string * (LogWorld * E))%type.
Context (next : string → Package R → M Store (Package R)) (c : Impl).
(** A computation that writes into the log, and does nothing else. *)
Definition logs (m : M (LogWorld * E) unit) (lw : LogWorld) (e : E) (lw' : LogWorld) : Prop :=
  m (lw, e) = Ok (tt, (lw', e)) ∧ extends lw lw'.
(** The same with enough fuel. *)
Definition can_log (m : nat → M (LogWorld * E) unit) : Prop := ∀ lw e, valid (m_file c) lw →
  ∃ fuel lw', ∀ fuel', (fuel ≤ fuel')%nat → logs (m fuel') lw e lw'.
Lemma can_log_bind m k : can_log m → can_log k → can_log (λ fuel, m fuel ;; k fuel).
Proof.
  intros Hm Hk lw e Hv. destruct (Hm lw e Hv) as (f1 & lw1 & H1).
  assert (Hv1 : valid (m_file c) lw1) by (destruct (H1 f1); [done|by eapply extends_valid]).
  destruct (Hk lw1 e Hv1) as (f2 & lw2 & H2). exists (Nat.max f1 f2), lw2. intros fuel Hf.
  destruct (H1 fuel) as [E1 X1]; [lia|]. destruct (H2 fuel) as [E2 X2]; [lia|].
  split; [|by etrans]. unfold mbind, M_bind. by rewrite E1.
Qed.
Lemma can_log_ret : can_log (λ _, mret tt).
Proof. intros lw e Hv. exists O, lw. intros _ _. split; done. Qed.
Lemma can_log_when {A} b (x : option A) f : (∀ a, x = Some a → b = true → can_log (λ fuel, f fuel a)) →
  can_log (λ fuel, when b x (f fuel)).
Proof. intros Hf. destruct x, b; [by apply Hf|apply can_log_ret..]. Qed.
Lemma can_log_log fmt os : can_log (λ _, log (m_file c) fmt os).
Proof.
  intros lw e [f Hf]. exists O. eexists. intros _ _. unfold logs, log, mbind, M_bind, get, put, deref.
  rewrite Hf. split; [reflexivity|]. destruct (fhandle f); [apply fputs_extends|apply yaz_log_extends].
Qed.
Lemma can_log_stream buf : can_log (λ _, stream_write (m_file c) buf).
Proof.
  intros lw e [f Hf]. exists O. eexists. intros _ _.
  unfold logs, stream_write, mbind, M_bind, get, put, deref.
  rewrite Hf. split; [reflexivity|]. destruct (fhandle f); [apply fputs_extends|apply yaz_log_extends].
Qed.
Lemma can_log_entry_of user (p : Package R) time g :
  can_log (λ fuel, entry_of c fuel user p time g).
Proof.
  intros lw e Hv. destruct (print_GDU_total g) as (f1 & text & Ht).
  destruct (can_log_log (m_time_format c)
    (m_msg_config c +:+ " " +:+ match user with Some u => u +:+ " " | None => "" end +:+
     print_package p +:+ " " +:+ time +:+ " " +:+ text) lw e Hv) as (f2 & lw' & Hl).
  exists (Nat.max f1 f2), lw'. intros fuel Hf. destruct (Hl fuel) as [E2 X2]; [lia|].
  split; [|done]. unfold entry_of, mbind, M_bind, lift_outcome. rewrite Ht by lia. exact E2.
Qed.
Lemma can_log_request user (p : Package R) : can_log (λ fuel, log_request c fuel user p).
Proof.
  unfold log_request. repeat apply can_log_bind; apply can_log_when; intros;
    first [apply can_log_entry_of | apply can_log_log | apply can_log_stream].
Qed.
(** With the one-line entries, provided that there is a line. *)
Definition line_ok (p : Package R) : Prop :=
  m_1line c = true → ∃ s, log_1line_Z_GDU (p_request p) (p_response p) = Ok s.
Lemma can_log_response user time (p : Package R) : line_ok p →
  can_log (λ fuel, log_response c fuel user time p).
Proof.
  intros Hl. unfold log_response. repeat apply can_log_bind; apply can_log_when; intros;
    try first [apply can_log_entry_of | apply can_log_log | apply can_log_stream].
  destruct (Hl ltac:(done)) as [s Hs]. intros lw e Hv.
  assert (Hm : ∀ w, log_line c p time w =
    (if decide (s = "") then mret tt else entry c None p time (c_str s)) w).
  { intros w. unfold log_line, mbind, M_bind, lift_outcome. by rewrite Hs. }
  case_decide.
  - exists O, lw. intros _ _. split; [|done]. by rewrite Hm.
  - edestruct (can_log_log (m_time_format c)) as (f & lw' & Hw); [exact Hv|].
    exists f, lw'. intros f' Hf'. destruct (Hw f' Hf') as [E1 X1]. split; [|done].
    rewrite Hm. exact E1.
Qed.
(** C29. The package goes on as it came, what comes back is handed back, and the
    rest of the program is as the filters behind leave it: the filter adds to
    the log and to its table of users, and it does not fail. *)
Theorem log_looks_on package m_sessions lw e (Hfile : valid (m_file c) lw) :
  ∃ lw1, extends lw lw1 ∧
  ∀ p' m_sessions2 lw2 e2
    (Hnext : next "" package ((session_user package m_sessions).2, (lw1, e)) =
             Ok (p', (m_sessions2, (lw2, e2))))
    (Hfile2 : valid (m_file c) lw2) (Hline : line_ok p'),
  ∃ fuel lw3, extends lw2 lw3 ∧ ∀ fuel', (fuel ≤ fuel')%nat →
    process next c fuel' package (m_sessions, (lw, e)) = Ok (p', (m_sessions2, (lw3, e2))).
Proof.
  destruct (can_log_request (session_user package m_sessions).1 package lw e Hfile)
    as (f1 & lw1 & H1).
  exists lw1. split; [by destruct (H1 f1)|]. intros.
  destruct (can_log_response (session_user package m_sessions).1 (timing_real e e2) p' Hline lw2 e2
    Hfile2) as (f2 & lw3 & H2).
  exists (Nat.max f1 f2), lw3. split; [by destruct (H2 f2)|]. intros fuel Hf.
  destruct (H1 fuel) as [E1 _]; [lia|]. destruct (H2 fuel) as [E2 _]; [lia|].
  destruct (session_user package m_sessions) as [user ms] eqn:Hu. cbn [fst snd] in *.
  unfold process, mbind, M_bind, get, get_st, put_st, on_log. cbn [fst snd]. rewrite Hu.
  cbn [fst snd]. rewrite E1, Hnext. cbn [fst snd]. by rewrite E2.
Qed.
End looks_on.

(** *** The users of sessions *)
Section users.
Context {R : Type}.
Implicit Types (p : Package R) (m : gmap Z string).
(** The table after some packages, in the order of the lock. *)
Definition table (ps : list (Package R)) (m : gmap Z string) : gmap Z string :=
  fold_left (λ m p, (session_user p m).2) ps m.
(** What a filter for one session only would keep. *)
Definition one_user (id : Z) (u : option string) p : option string :=
  if decide (Session.id (p_session p) = id) then
    if Session.is_closed (p_session p) then None
    else match request_user (p_request p) with Some user => Some user | None => u end
  else u.
Lemma session_user_lookup id p m :
  (session_user p m).2 !! id = one_user id (m !! id) p.
Proof.
  unfold session_user, one_user. cbn [snd].
  destruct (decide (Session.id (p_session p) = id)) as [<-|Hne];
    destruct (Session.is_closed (p_session p)).
  - by rewrite lookup_delete_eq.
  - destruct (request_user _); [by rewrite lookup_insert_eq|done].
  - rewrite lookup_delete_ne by done. destruct (request_user _); [by rewrite lookup_insert_ne|done].
  - destruct (request_user _); [by rewrite lookup_insert_ne|done].
Qed.
(** Sessions do not see each other: the name in an entry is that of the last
    authentication of the same session, and nothing is kept for a session
    that is closed. *)
Theorem user_of_session ps p :
  let before := fold_left (one_user (Session.id (p_session p))) ps None in
  (session_user p (table ps ∅)).1 =
    default "-" (match request_user (p_request p) with Some user => Some user | None => before end) ∧
  (Session.is_closed (p_session p) = true →
   table (ps ++ [p]) ∅ !! Session.id (p_session p) = None).
Proof.
  intros before.
  assert (Ht : ∀ m u, m !! Session.id (p_session p) = u →
    table ps m !! Session.id (p_session p) = fold_left (one_user (Session.id (p_session p))) ps u).
  { unfold table. clear before. induction ps as [|q ps IH]; intros m u Hu; [done|]. cbn [fold_left].
    apply IH. rewrite session_user_lookup. by rewrite Hu. }
  specialize (Ht ∅ None (lookup_empty _)). split.
  - unfold session_user. cbn [fst]. fold before in Ht. rewrite <- Ht.
    destruct (request_user _); [by rewrite lookup_insert_eq|done].
  - intros Hc. unfold table. rewrite fold_left_app. cbn [fold_left].
    rewrite session_user_lookup. unfold one_user. by rewrite decide_True, Hc.
Qed.
End users.

(** *** Files are shared *)
Section shared.
Context {E : Type} `{L : LogEnv E}.
(** Filters with the same file name write to the same file, and no name is
    opened twice. *)
Theorem files_shared fname lw (e : E) (Hnd : NoDup (m_fname <$> filter_log_files lw)) :
  ∃ i f lw', openfile fname (lw, e) = Ok (i, (lw', e)) ∧
    filter_log_files lw' !! i = Some f ∧ m_fname f = fname ∧
    NoDup (m_fname <$> filter_log_files lw') ∧ filter_log_files lw `prefix_of` filter_log_files lw' ∧
    openfile fname (lw', e) = Ok (i, (lw', e)).
Proof.
  assert (Hfound : ∀ i f lw0, find_first (λ f, bool_decide (m_fname f = fname)) (filter_log_files lw0)
    = Some (i, f) → openfile fname (lw0, e) = Ok (i, (lw0, e)) ∧
      filter_log_files lw0 !! i = Some f ∧ m_fname f = fname).
  { intros i f lw0 Hf. unfold openfile, mbind, M_bind, get. cbn. rewrite Hf.
    apply find_first_Some in Hf as (Hi & Hb & _). apply bool_decide_eq_true in Hb. done. }
  destruct (find_first (λ f, bool_decide (m_fname f = fname)) (filter_log_files lw))
    as [[i f]|] eqn:Hff.
  - destruct (Hfound _ _ _ Hff) as (Ho & Hi & Hn). exists i, f, lw. by split_and!.
  - set (f := mk_LFile fname (fopen_append (c_str fname) e) "").
    set (lw' := mk_LogWorld (filter_log_files lw ++ [f]) (yaz_log_file lw)).
    pose proof (find_first_None _ _ Hff) as Hnone.
    assert (Hff' : find_first (λ f, bool_decide (m_fname f = fname)) (filter_log_files lw') =
      Some (length (filter_log_files lw), f)).
    { cbn. clear -Hff. revert Hff. induction (filter_log_files lw) as [|g l IH]; cbn.
      - by rewrite bool_decide_true.
      - destruct (bool_decide _); [done|]. destruct (find_first _ l) as [[]|]; [done|]. intros _.
        by rewrite IH. }
    destruct (Hfound _ _ _ Hff') as (Ho & Hi & Hn).
    exists (length (filter_log_files lw)), f, lw'. split_and!; try done.
    + unfold openfile, mbind, M_bind, get, put. cbn. by rewrite Hff.
    + cbn. rewrite fmap_app. apply NoDup_app. split_and!; [done| |apply NoDup_singleton].
      intros x Hx ->%list_elem_of_singleton. apply list_elem_of_fmap in Hx as (g & Hg & Hin).
      apply Hnone in Hin. by rewrite <- Hg, bool_decide_true in Hin.
    + by eexists.
Qed.
End shared.

(** *** When there is no line *)
Section lines.
Context `{V : GduView} {E : Type} `{L : LogEnv E}.
(** The exchanges for which the one-line entry is undefined: a list of
    diagnostics without any, a sort that is answered, a response without its
    status, and an unusual request without a response. *)
Definition no_line (z_req : APDU) (z_res : option APDU) : Prop :=
  match z_req, z_res with
  | searchRequest _, Some (searchResponse r) => sr_records r = Some (Records_multipleNSD [])
  | presentRequest _, Some (presentResponse r) => pr_records r = Some (Records_multipleNSD [])
  | sortRequest _, Some (sortResponse _) => True
  | extendedServicesRequest _, Some (extendedServicesResponse r) =>
      es_operationStatus (extendedServicesResponse_of r) = None
  | otherAPDU body, None => other_kind body ≠ duplicateDetectionRequest
  | (initResponse _ | searchResponse _ | presentResponse _ | deleteResultSetResponse _
     | accessControlResponse _ | resourceControlResponse _ | resourceReportResponse _
     | scanResponse _ | sortResponse _ | extendedServicesResponse _), None => True
  | _, _ => False
  end.
Lemma log_diagnostics_ok l : ∃ s, log_diagnostics l = Ok s.
Proof. destruct l as [|[]]; eexists; reflexivity. Qed.
Lemma log_records_ok ok r : r ≠ Some (Records_multipleNSD []) ↔ ∃ s, log_records ok r = Ok s.
Proof.
  split.
  - intros Hr. destruct r as [[| |[|[]]]|]; first [done | by eexists].
  - intros [s Hs] ->. discriminate Hs.
Qed.
(** The one-line entry of an exchange is defined except for these. *)
Theorem line_unless z_req z_res :
  (∃ s, log_1line_Z_APDU z_req z_res = Ok s) ↔ ¬ no_line z_req z_res.
Proof.
  assert (Hb : ∀ {A} (o : outcome A) (f : A → string),
    (∃ s, (t ← o; Ok (f t)) = Ok s) ↔ ∃ t, o = Ok t).
  { intros A o f. destruct o; split; intros [t Ht]; try discriminate Ht; by eexists. }
  assert (Hp : ∀ pre o, (∃ s, prefixed pre o = Ok s) ↔ ∃ s, o = Ok s) by (intros; apply Hb).
  assert (Hyes : ∀ o : outcome string, (∃ s, o = Ok s) → (∃ s, o = Ok s) ↔ ¬ False) by (intros; tauto).
  destruct z_req; cbn [log_1line_Z_APDU no_line]; rewrite ?Hp;
    try (apply Hyes; by eexists);
    try (destruct z_res as [a|]; [|split; [by intros [? [=]]|tauto]]; apply Hyes; by eexists);
    try (destruct z_res as [a|]; [|apply Hyes; by eexists]; destruct a; try (apply Hyes; by eexists)).
  - cbn. unfold log_search. rewrite Hb, <- log_records_ok. done.
  - cbn. unfold log_present. rewrite Hb, <- log_records_ok. done.
  - cbn. unfold log_sort. destruct (log_diagnostics_ok (so_diagnostics (sortResponse_of r0))) as [s ->].
    split; [by intros [? [=]]|tauto].
  - cbn. unfold log_extendedServices.
    destruct (es_operationStatus _); cbn; [|split; [by intros [? [=]]|tauto]].
    destruct (log_diagnostics_ok (es_diagnostics (extendedServicesResponse_of r0))) as [s ->].
    split; [done|]. by eexists.
  - destruct (other_kind body); [rewrite Hp|..]; destruct z_res as [a|]; cbn;
      try (split; [by intros [? [=]]|done]); try (apply Hyes; by eexists).
    + apply Hyes. destruct (as_duplicateDetectionResponse a) as [r|]; [|by eexists].
      unfold log_duplicateDetection. destruct (log_diagnostics_ok (dd_diagnostics r)) as [s ->].
      by eexists.
    + split; [tauto|]. by eexists.
    + split; [by intros [? [=]]|]. intros Hn. by destruct Hn.
    + split; [by intros [? [=]]|]. intros Hn. by destruct Hn.
Qed.
End lines.

(** *** An entry is one line *)
Section entries_lines.
Context `{Y : Yaz, V : GduView} {E : Type} `{L : LogEnv E} {R : Type}.
(** What an entry is made of, apart from the PDU. *)
Definition entry_texts (c : Impl) (user : option string) (p : Package R) (time : string) (e : E) :
    list string :=
  [m_msg_config c; default "" user; print_package p; time;
   default "" (strftime_now (c_str (m_time_format c)) e)].
(** Exactly one line is added to the file of the filter, provided that no text
    from outside has a line break. *)
Theorem entry_is_line c fuel user (p : Package R) time g lw e f lw' e'
    (Hfile : filter_log_files lw !! m_file c = Some f) (Hopen : fhandle f = true)
    (Hrun : entry_of c fuel user p time g (lw, e) = Ok (tt, (lw', e')))
    (Htexts : Forall one_line (entry_texts c user p time e ++ gdu_texts fuel g)) :
  ∃ l f', filter_log_files lw' !! m_file c = Some f' ∧ one_line l ∧
    contents f' = contents f +:+ l +:+ String newline "" ∧
    ∀ i, i ≠ m_file c → filter_log_files lw' !! i = filter_log_files lw !! i.
Proof.
  apply Forall_app in Htexts as [He Hg]. unfold entry_texts in He. rewrite !Forall_cons in He.
  destruct He as (Hmsg & Huser & Hpkg & Htime & Hdate & _).
  unfold entry_of, mbind, M_bind, lift_outcome in Hrun.
  destruct (print_GDU fuel g) as [text|?|?|] eqn:Ht; [|discriminate Hrun..].
  apply gdu_one_line in Ht; [|exact Hg]. cbn in Hrun.
  unfold entry, log, mbind, M_bind, get, put, deref in Hrun. cbn in Hrun. rewrite Hfile in Hrun.
  cbn in Hrun. rewrite Hopen in Hrun. injection Hrun as <- <-. cbn.
  eexists _, _. rewrite list_lookup_alter_eq, Hfile. split; [reflexivity|].
  set (d := match strftime_now _ e with Some _ => _ | None => _ end).
  set (t := c_str _). split_and!.
  3: { intros i Hi. by rewrite list_lookup_alter_ne. }
  2: { cbn. by rewrite (str_app_assoc d t). }
  apply one_line_app; [|apply one_line_c_str; destruct user; lines].
  subst d. destruct (strftime_now _ e); lines.
Qed.
End entries_lines.

(** *** Examples *)
Section examples.
#[local] Instance example_env : LogEnv unit := {|
  fopen_append name _ := negb (bool_decide (name = ""));
  strftime_now _ _ := Some "12:00:00-01/02";
  yaz_log_line os _ := "[log] " +:+ os +:+ String newline "";
  timing_real _ _ := "0.000123";
  odr_print _ := "";
  yaz_init_opt_decode _ := ["search"; "present"]%string;
  apdu_which _ := 0;
  sortResponse_of _ := mk_SortResponse 0 [];
  duplicateDetectionResponse_of _ := mk_DuplicateDetectionResponse true []
|}.
Definition example_package (user : string) : Package unit :=
  mk_Package (Session.mk 1 false) Origin.create None (Some (init_of user)) None.
Definition example_world : LogWorld := mk_LogWorld [mk_LFile "" false ""; mk_LFile "f" true ""] "".
Definition example_impl : Impl :=
  mk_Impl "M" false true false false false false false false 1 "%H".
Definition answer_next (route : string) (p : Package unit) :
    M (gmap Z string * (LogWorld * unit)) (Package unit) := mret p.
Lemma log_looks_on_witness : ∃ lw1 fuel lw3, extends example_world lw1 ∧ extends lw1 lw3 ∧
  ∀ fuel', (fuel ≤ fuel')%nat →
    process answer_next example_impl fuel' (example_package "anna") (∅, (example_world, tt)) =
    Ok (example_package "anna", ((session_user (example_package "anna") ∅).2, (lw3, tt))).
Proof.
  destruct (log_looks_on answer_next example_impl (example_package "anna") ∅ example_world tt)
    as (lw1 & Hx & H'); [by eexists|].
  destruct (H' (example_package "anna") (session_user (example_package "anna") ∅).2 lw1 tt)
    as (fuel & lw3 & Hx3 & Hp);
    [reflexivity|by eapply extends_valid; [exact Hx|eexists]|by intros [=]|].
  by exists lw1, fuel, lw3.
Defined.
Lemma user_of_session_witness :
  (session_user (example_package "bob")
     (table [example_package "anna"; example_package "carl"] ∅)).1 = "bob".
Proof.
  destruct (user_of_session [example_package "anna"; example_package "carl"] (example_package "bob"))
    as [H' _]. exact H'.
Defined.
Lemma files_shared_witness : ∃ i lw', openfile "g" (example_world, tt) = Ok (i, (lw', tt)) ∧
  openfile "g" (lw', tt) = Ok (i, (lw', tt)).
Proof.
  destruct (files_shared "g" example_world tt) as (i & f & lw' & H1 & _ & _ & _ & _ & H2).
  - cbn. repeat constructor; set_solver.
  - by exists i, lw'.
Defined.
Example example_entry :
  match process answer_next example_impl 9 (example_package "anna") (∅, (example_world, tt)) with
  | Ok (_, (_, (lw, _))) => contents <$> filter_log_files lw !! 1%nat
  | _ => None
  end = Some ("12:00:00-01/02 M 0:0 1 0.000000 Z3950 initRequest anna h/db  - - -" +:+
              String newline "").
Proof. reflexivity. Qed.
Lemma entry_is_line_witness : ∃ l f', one_line l ∧ contents f' = l +:+ String newline "".
Proof.
  destruct (entry_of example_impl 9 None (example_package "anna") "0.000000" (init_of "anna")
    (example_world, tt)) as [[[] [lw' []]]|?|?|] eqn:Hrun; [|discriminate Hrun..].
  destruct (entry_is_line example_impl 9 None (example_package "anna") "0.000000" (init_of "anna")
    example_world tt (mk_LFile "f" true "") lw' tt) as (l & f' & _ & Hl & Hc & _).
  - reflexivity.
  - reflexivity.
  - exact Hrun.
  - vm_compute. by repeat constructor.
  - exists l, f'. split; [exact Hl|exact Hc].
Defined.
Lemma line_unless_witness : ¬ ∃ s, log_1line_Z_APDU (searchRequest (zget_searchRequest (Yaz := ref_yaz)))
  (Some (searchResponse (set_sr_records (Some (Records_multipleNSD [])) (zget_searchResponse (Yaz := ref_yaz))))) = Ok s.
Proof. intros H'. by apply line_unless in H'. Defined.
(** A client that sends a response as its request, with no one to answer it. *)
Example response_as_request :
  log_1line_Z_GDU (Some (GDU_Z3950 (initResponse (zget_initResponse (Yaz := ref_yaz))))) None =
  Undef NullDeref.
Proof. reflexivity. Qed.
Example sort_request r r' : log_1line_Z_APDU (sortRequest r) (Some (sortResponse r')) = Undef BadUnion.
Proof. reflexivity. Qed.
(** Two entries for one request, when the name of the user has a line break. *)
Example forged_entry :
  match process answer_next example_impl 9 (example_package forged) (∅, (example_world, tt)) with
  | Ok (_, (_, (lw, _))) => contents <$> filter_log_files lw !! 1%nat
  | _ => None
  end = Some ("12:00:00-01/02 M 0:0 1 0.000000 Z3950 initRequest anna" +:+ String newline
              ("- 10.0.0.1:1 7 0.000000 Z3950 close h/db  - - -" +:+ String newline "")).
Proof. reflexivity. Qed.
End examples.
End Log.
