(* ===== verification/HttpFilters.v ===== *)
(** * Filters that fetch and edit web pages

    [src/filter_http_client.cpp]: an HTTP request is sent to the server that it
    names. [src/filter_http_rewrite1.cpp]: regular expressions on the content
    of responses. The web client of YAZ and the regular expressions of Boost
    are classes of operations. *)
From S2P Require Import Prelude Zgdu Yaz Xml Core Util.

(** A [yaz_url_t] with its proxy and its number of redirects executes a
    request, given by address, method, headers and content: the response, or
    what [yaz_url_get_error] says afterwards. *)
Class WebClient (W : Type) : Type := {
  yaz_url_exec : string → Z → string → string → list HTTP_Header → string →
    M W (HTTP_Response + string)
}.

Module HTTPClient.
Record Rep : Type := mk_Rep {
  proxy_host : string;
  default_host : string;
  max_redirects : Z;
  x_forwarded_for : bool;
  bind_host : bool
}.
Definition Rep_init : Rep := mk_Rep "" "" 0 false false.
Fixpoint configure (l : list xmlNode) (r : Rep) : outcome Rep :=
  match l with
  | [] => Ok r
  | ptr :: l' =>
      if decide (n_type ptr ≠ XML_ELEMENT_NODE) then configure l' r
      else if decide (n_name ptr = "proxy") then
        configure l' (mk_Rep (mp_xml.get_text l) (default_host r) (max_redirects r)
                        (x_forwarded_for r) (bind_host r))
      else if decide (n_name ptr = "max-redirects") then
        configure l' (mk_Rep (proxy_host r) (default_host r) (mp_xml.get_int l 0)
                        (x_forwarded_for r) (bind_host r))
      else if decide (n_name ptr = "default-host") then
        match str_find "://" (mp_xml.get_text l) with
        | None => Throw "default-host is missing method (such as http://) in http_client filter"
        | Some _ => configure l' (mk_Rep (proxy_host r) (mp_xml.get_text l) (max_redirects r)
                                    (x_forwarded_for r) (bind_host r))
        end
      else if decide (n_name ptr = "x-forwarded-for") then
        configure l' (mk_Rep (proxy_host r) (default_host r) (max_redirects r)
                        (mp_xml.get_bool l false) (bind_host r))
      else if decide (n_name ptr = "bind_host") then
        configure l' (mk_Rep (proxy_host r) (default_host r) (max_redirects r)
                        (x_forwarded_for r) (mp_xml.get_bool l false))
      else Throw ("Bad element " +:+ n_name ptr +:+ " in http_client filter")
  end.

Section filter.
Context `{Y : Yaz} {R W : Type} `{C : WebClient W} (r : Rep).
Definition set_hq_headers (h : list HTTP_Header) (q : HTTP_Request) : HTTP_Request :=
  {| hq_method := hq_method q; hq_version := hq_version q; hq_path := hq_path q;
     hq_headers := h; hq_content := hq_content q |}.
(** The proxy, and the request without the header that asks for one. *)
Definition take_proxy (hreq : HTTP_Request) : string * HTTP_Request :=
  let '(v, headers) := z_HTTP_header_remove (hq_headers hreq) "X-Metaproxy-Proxy" in
  (default (c_str (proxy_host r)) v, set_hq_headers headers hreq).
Definition forward_for (o : Origin.t) (hreq : HTTP_Request) : HTTP_Request :=
  if x_forwarded_for r then
    let pcomb := match z_HTTP_header_lookup (hq_headers hreq) "X-Forwarded-For" with
                 | Some peer_name1 => peer_name1 +:+ ", "
                 | None => ""
                 end +:+ Origin.get_address o in
    set_hq_headers (z_HTTP_header_set (hq_headers hreq) "X-Forwarded-For" (c_str pcomb)) hreq
  else hreq.
Definition target_uri (o : Origin.t) (hreq : HTTP_Request) : string :=
  let uri := match hq_path hreq with
             | String "/" _ => if decide (default_host r = "") then ""
                               else default_host r +:+ hq_path hreq
             | path => path
             end in
  if bind_host r then uri +:+ " " +:+ Origin.get_bind_address o else uri.
(** The request of the package is changed in place. A response from the server
    takes the place of the one that was made for the client, so that what
    making it does to the session remains. *)
Definition proxy (hreq : HTTP_Request) (package : Package R) : M W (Package R) :=
  let '(http_proxy, hreq) := take_proxy hreq in
  let hreq := forward_for (p_origin package) hreq in
  let package := set_request (Some (GDU_HTTP_Request hreq)) package in
  let uri := target_uri (p_origin package) hreq in
  let refuse code details :=
    let '(hres, session) :=
      create_HTTP_Response_details (p_session package) hreq code (Some details) in
    set_response (Some (GDU_HTTP_Response hres)) (set_session session package) in
  if decide (uri = "") then mret (refuse 404 "http_client: no target URI specified")
  else
    res ← yaz_url_exec http_proxy (max_redirects r) (c_str uri) (hq_method hreq)
            (hq_headers hreq) (hq_content hreq);
    mret match res with
         | inl http_response =>
             let '(_, session) := create_HTTP_Response (p_session package) hreq 200 in
             set_response (Some (GDU_HTTP_Response
               (set_hr_headers (z_HTTP_header_remove (hr_headers http_response)
                  "Transfer-Encoding").2 http_response))) (set_session session package)
         | inr error => refuse 502 error
         end.
Definition process (next : string → Package R → M W (Package R)) (package : Package R) :
    M W (Package R) :=
  match p_request package with
  | Some (GDU_HTTP_Request hreq) => proxy hreq package
  | _ => next "" package
  end.

(** The documented behaviour of a header that is set. *)
Class HeaderLaws : Prop := {
  header_lookup_set : ∀ l name v, z_HTTP_header_lookup (z_HTTP_header_set l name v) name = Some v
}.
(** A request with a target is sent once, with its method and content, and with
    the address of the client behind the addresses it has passed, if that is
    configured; the client gets the response of the server, or an error page. *)
Theorem request_forwarded `{!HeaderLaws} next (package : Package R) hreq (w : W)
    (Hreq : p_request package = Some (GDU_HTTP_Request hreq))
    (Huri : target_uri (p_origin package) hreq ≠ "") :
  ∃ proxy' headers, ∀ res w', yaz_url_exec proxy' (max_redirects r)
      (c_str (target_uri (p_origin package) hreq)) (hq_method hreq) headers (hq_content hreq) w =
      Ok (res, w') →
    (x_forwarded_for r = true →
      z_HTTP_header_lookup headers "X-Forwarded-For" = Some (c_str
        (match z_HTTP_header_lookup (z_HTTP_header_remove (hq_headers hreq) "X-Metaproxy-Proxy").2
               "X-Forwarded-For" with Some a => a +:+ ", " | None => "" end +:+
         Origin.get_address (p_origin package)))) ∧
    ∃ p' hres, process next package w = Ok (p', w') ∧
      p_response p' = Some (GDU_HTTP_Response hres) ∧
      ∀ h, res = inl h → hr_code hres = hr_code h ∧ hr_content hres = hr_content h ∧
        hr_headers hres = (z_HTTP_header_remove (hr_headers h) "Transfer-Encoding").2.
Proof.
  destruct (take_proxy hreq) as [px q] eqn:Hp.
  assert (Hq : hq_method q = hq_method hreq ∧ hq_path q = hq_path hreq ∧
    hq_content q = hq_content hreq ∧
    hq_headers q = (z_HTTP_header_remove (hq_headers hreq) "X-Metaproxy-Proxy").2).
  { unfold take_proxy in Hp. destruct (z_HTTP_header_remove (hq_headers hreq) "X-Metaproxy-Proxy").
    by injection Hp as <- <-. }
  destruct Hq as (Hm & Hpath & Hc & Hh).
  set (q' := forward_for (p_origin package) q).
  assert (Hq' : hq_method q' = hq_method q ∧ hq_path q' = hq_path q ∧ hq_content q' = hq_content q)
    by (unfold q', forward_for; by destruct (x_forwarded_for r)).
  destruct Hq' as (Hm' & Hpath' & Hc').
  assert (Ht : target_uri (p_origin package) q' = target_uri (p_origin package) hreq)
    by (unfold target_uri; by rewrite Hpath', Hpath).
  exists px, (hq_headers q'). intros res w' Hexec. split.
  { intros Hx. subst q'. unfold forward_for. rewrite Hx. cbn. by rewrite header_lookup_set, Hh. }
  unfold process. rewrite Hreq. unfold proxy. rewrite Hp. fold q'. cbn [p_origin set_request].
  change (p_origin (set_request (Some (GDU_HTTP_Request q')) package)) with (p_origin package).
  rewrite Ht, decide_False by done. unfold mbind, M_bind.
  rewrite Hm', Hc', Hm, Hc, Hexec. destruct res as [h|err].
  - destruct (create_HTTP_Response _ _ _) as [hres session]. eexists _, _.
    split; [reflexivity|]. split; [reflexivity|]. by intros ? [= <-].
  - destruct (create_HTTP_Response_details _ _ _ _) as [hres session]. eexists _, _.
    split; [reflexivity|]. split; [reflexivity|]. by intros ? [=].
Qed.
End filter.

(** *** Examples *)
Section examples.
#[local] Instance ref_header_laws : HeaderLaws (Y := ref_yaz).
Proof.
  split. intros l name v. cbn. induction l as [|h l IH]; cbn.
  - by rewrite bool_decide_true.
  - destruct (bool_decide (hh_name h = Some name)) eqn:Hb; cbn; [by rewrite bool_decide_true|].
    by rewrite Hb.
Qed.
(** A server that answers with the address it was asked for; the requests are
    kept. *)
#[local] Instance echo_client : WebClient (list string) := {|
  yaz_url_exec proxy max uri method headers content w :=
    Ok (inl {| hr_code := 200; hr_version := "1.1"; hr_headers := []; hr_content := uri |}, w ++ [uri])
|}.
Definition example_rep : Rep := mk_Rep "" "http://h" 0 true false.
Definition example_request (path : string) : HTTP_Request :=
  {| hq_method := "GET"; hq_version := "1.1"; hq_path := path; hq_headers := []; hq_content := "" |}.
Definition example_package (path : string) : Package unit :=
  mk_Package (Session.mk 1 false) Origin.create None
    (Some (GDU_HTTP_Request (example_request path))) None.
Definition no_next (route : string) (p : Package unit) : M (list string) (Package unit) := throw "next".
Lemma request_forwarded_witness : ∃ p' hres,
  process example_rep no_next (example_package "/x") [] = Ok (p', ["http://h/x"]%string) ∧
  p_response p' = Some (GDU_HTTP_Response hres).
Proof.
  destruct (request_forwarded example_rep no_next (example_package "/x") (example_request "/x") [])
    as (px & headers & Hf); [reflexivity|done|].
  destruct (Hf _ _ eq_refl) as (_ & p' & hres & Hp & Hr & _). by exists p', hres.
Defined.
(** With bind_host an address is never empty, so that a request without a
    target is not refused. *)
Example bound_without_target :
  match process (mk_Rep "" "" 0 false true) no_next (example_package "/x") [] with
  | Ok (_, w) => w
  | _ => []
  end = [" "]%string.
Proof. reflexivity. Qed.
End examples.
End HTTPClient.

(** ** http_rewrite1 *)
Module HttpRewrite1.
Record Rule : Type := mk_Rule {
  content_type : string;
  pattern : string;
  replacement : string;
  mode : string
}.
(** The replacement of the first match, or of all matches with the format
    syntax that [format_all] turns on. *)
Inductive match_flag : Type := format_first_only | format_all.
(** [regex(pattern, perl or perl | icase)] throws on a bad pattern;
    [regex_replace] replaces its matches in a text. *)
Class RegexReplace : Type := {
  regex_replace : string → string → bool → string → match_flag → string + string
}.
Fixpoint configure_rule (l : list xmlAttr) (r : Rule) : outcome Rule :=
  match l with
  | [] => Ok r
  | a :: l' =>
      let v := mp_xml.get_text_attr a in
      if decide (a_name a = "pattern") then
        configure_rule l' (mk_Rule (content_type r) v (replacement r) (mode r))
      else if decide (a_name a = "replacement") then
        configure_rule l' (mk_Rule (content_type r) (pattern r) v (mode r))
      else if decide (a_name a = "mode") then
        configure_rule l' (mk_Rule (content_type r) (pattern r) (replacement r) v)
      else if decide (a_name a = "content-type") then
        configure_rule l' (mk_Rule v (pattern r) (replacement r) (mode r))
      else Throw ("Bad attribute " +:+ a_name a +:+ " in replace section of http_rewrite1")
  end.
Fixpoint configure (l : list xmlNode) (rules : list Rule) : outcome (list Rule) :=
  match l with
  | [] => Ok rules
  | ptr :: l' =>
      if decide (n_type ptr ≠ XML_ELEMENT_NODE) then configure l' rules
      else if decide (n_name ptr = "replace") then
        rule ← configure_rule (n_properties ptr) (mk_Rule "" "" "" "");
        configure l' (if decide (pattern rule = "") then rules else rules ++ [rule])
      else Throw ("Bad element " +:+ n_name ptr +:+ " in http_rewrite1 filter")
  end.

Section filter.
Context `{Y : Yaz, X : RegexReplace} {R W : Type} (rules : list Rule).
Definition has_mode (c : ascii) (rule : Rule) : bool :=
  match find_char c (mode rule) with Some _ => true | None => false end.
(** The rules for a content type, one after the other, and how many. *)
Fixpoint apply_rules (l : list Rule) (ctype text : string) (n : Z) : outcome (string * Z) :=
  match l with
  | [] => Ok (text, n)
  | rule :: l' =>
      if decide (ctype = c_str (content_type rule)) then
        match regex_replace text (pattern rule) (has_mode "i" rule) (replacement rule)
                (if has_mode "g" rule then format_all else format_first_only) with
        | inl text => apply_rules l' ctype text (n + 1)
        | inr e => Throw e
        end
      else apply_rules l' ctype text n
  end.
(** A response without content has a null [content_buf]. *)
Definition rewrite_response (hres : HTTP_Response) : outcome HTTP_Response :=
  match z_HTTP_header_lookup (hr_headers hres) "Content-Type" with
  | Some ctype =>
      if decide (hr_content hres = "") then Ok hres
      else
        '(text, number_of_replaces) ← apply_rules rules ctype (hr_content hres) 0;
        Ok (if 0 <? number_of_replaces then set_hr_content (c_str text) hres else hres)
  | None => Ok hres
  end.
Definition process (next : string → Package R → M W (Package R)) (package : Package R) :
    M W (Package R) :=
  match p_request package with
  | Some (GDU_HTTP_Request _) =>
      package ← next "" package;
      match p_response package with
      | None => undef NullDeref
      | Some (GDU_HTTP_Response hres) =>
          hres ← lift_outcome (rewrite_response hres);
          mret (set_response (Some (GDU_HTTP_Response hres)) package)
      | Some _ => undef BadUnion
      end
  | _ => next "" package
  end.

Definition has_rule (ctype : option string) : Prop :=
  ∃ rule, rule ∈ rules ∧ ctype = Some (c_str (content_type rule)).
Lemma apply_rules_none l ctype text n :
  (∀ rule, rule ∈ l → ctype ≠ c_str (content_type rule)) → apply_rules l ctype text n = Ok (text, n).
Proof.
  induction l as [|rule l IH]; intros Hn; [done|]. cbn. rewrite decide_False.
  - apply IH. intros rule' Hin. apply Hn. by right.
  - apply Hn. by left.
Qed.
(** Nothing but the content of a response changes, and that only if there is
    a rule for its type. *)
Theorem only_content next (package p' : Package R) (w w' : W)
    (Hrun : process next package w = Ok (p', w')) :
  ∃ behind, next "" package w = Ok (behind, w') ∧ p_session p' = p_session behind ∧
    p_request p' = p_request behind ∧
    (p' = behind ∨ ∃ hres content, p_response behind = Some (GDU_HTTP_Response hres) ∧
      p_response p' = Some (GDU_HTTP_Response (set_hr_content content hres)) ∧
      has_rule (z_HTTP_header_lookup (hr_headers hres) "Content-Type")).
Proof.
  unfold process in Hrun.
  destruct (p_request package) as [[|hreq|]|]; try (exists p'; split_and!; [done..|by left]).
  unfold mbind, M_bind in Hrun. destruct (next "" package w) as [[behind w1]|?|?|]; try done.
  destruct (p_response behind) as [[|?|hres]|] eqn:Hres; try discriminate Hrun.
  unfold lift_outcome in Hrun. destruct (rewrite_response hres) as [h|?|?|] eqn:Hrw; try discriminate Hrun.
  unfold mret, M_ret in Hrun. injection Hrun as <- <-. exists behind. split_and!; try done.
  assert (Hsame : behind = set_response (Some (GDU_HTTP_Response hres)) behind)
    by (destruct behind; cbn in *; by rewrite Hres).
  unfold rewrite_response in Hrw.
  destruct (z_HTTP_header_lookup (hr_headers hres) "Content-Type") as [ctype|] eqn:Hct;
    [|injection Hrw as <-; by left].
  case_decide; [injection Hrw as <-; by left|].
  destruct (apply_rules rules ctype (hr_content hres) 0) as [[text n]|?|?|] eqn:Ha; simplify_eq/=.
  destruct (Z.ltb_spec 0 n); [|by left]. right. exists hres, (c_str text). split_and!; try done.
  rewrite Hct. unfold has_rule. destruct (decide (Exists (λ rule, ctype = c_str (content_type rule)) rules))
    as [He|Hne].
  - apply Exists_exists in He as (rule & Hin & ->). by exists rule.
  - exfalso. rewrite apply_rules_none in Ha; [simplify_eq; lia|]. intros rule Hin Heq. apply Hne.
    apply Exists_exists. by exists rule.
Qed.
End filter.

(** *** Examples *)
Section examples.
(** A pattern is a text, and its first occurrence is replaced. *)
#[local] Instance example_regex : RegexReplace := {|
  regex_replace text pattern icase replacement m :=
    match str_find pattern text with
    | Some i => inl (str_take i text +:+ replacement +:+ str_drop (i + String.length pattern) text)
    | None => inl text
    end
|}.
Definition example_response : HTTP_Response :=
  {| hr_code := 200; hr_version := "1.1";
     hr_headers := [{| hh_name := Some "Content-Type"; hh_value := Some "text/plain" |}];
     hr_content := "one" +:+ String NUL "two" |}.
Definition example_next (g : option GDU) (route : string) (p : Package unit) : M unit (Package unit) :=
  mret (set_response g p).
Definition example_package : Package unit :=
  mk_Package (Session.mk 1 false) Origin.create None
    (Some (GDU_HTTP_Request (HTTPClient.example_request "/"))) None.
Definition example_rules : list Rule := [mk_Rule "text/plain" "one" "1" ""].
Definition content_of (o : outcome (Package unit * unit)) : option string :=
  match o with
  | Ok (p, _) => match p_response p with Some (GDU_HTTP_Response h) => Some (hr_content h) | _ => None end
  | _ => None
  end.
Lemma only_content_witness : ∃ p' (behind : Package unit),
  process (Y := ref_yaz) example_rules (example_next (Some (GDU_HTTP_Response example_response)))
    example_package tt = Ok (p', tt) ∧
  p_session p' = p_session behind.
Proof.
  destruct (process (Y := ref_yaz) example_rules
    (example_next (Some (GDU_HTTP_Response example_response))) example_package tt)
    as [[p' []]|?|?|] eqn:Hrun; [|discriminate Hrun..].
  destruct (only_content (Y := ref_yaz) example_rules _ _ _ _ _ Hrun) as (behind & _ & Hs & _).
  by exists p', behind.
Defined.
(** A rule cuts the content at a character NUL. *)
Example content_cut :
  content_of (process (Y := ref_yaz) example_rules
    (example_next (Some (GDU_HTTP_Response example_response))) example_package tt) = Some "1".
Proof. reflexivity. Qed.
(** A response that is missing, or of another protocol, is undefined. *)
Example no_response :
  process (Y := ref_yaz) example_rules (example_next None) example_package tt = Undef NullDeref.
Proof. reflexivity. Qed.
End examples.
End HttpRewrite1.
