(* ===== verification/Cgi.v ===== *)
(** * CGI programs

    [src/filter_cgi.cpp]: a request for a path of the configuration is given to
    a program, and what that prints is the response. The calls of the operating
    system are a class of operations; a child process is what [fork] is told
    that it does. *)
From S2P Require Import Prelude Zgdu Yaz Xml Core Util.

Module CGI.
Record Exec : Type := mk_Exec { e_path : string; e_program : string }.
Record Rep : Type := mk_Rep {
  exec_map : list Exec;
  env_map : gmap string string;
  documentroot : string
}.
Definition Rep_init : Rep := mk_Rep [] ∅ "".

(** ** Configuration *)
Fixpoint map_attrs (l : list xmlAttr) (e : Exec) : outcome Exec :=
  match l with
  | [] => Ok e
  | a :: l' =>
      let v := mp_xml.get_text_attr a in
      if decide (a_name a = "path") then map_attrs l' (mk_Exec v (e_program e))
      else if decide (a_name a = "exec") then map_attrs l' (mk_Exec (e_path e) v)
      else Throw ("Bad attribute " +:+ a_name a +:+ " in cgi section")
  end.
Fixpoint env_attrs (l : list xmlAttr) (name value : string) : outcome (string * string) :=
  match l with
  | [] => Ok (name, value)
  | a :: l' =>
      let v := mp_xml.get_text_attr a in
      if decide (a_name a = "name") then env_attrs l' v value
      else if decide (a_name a = "value") then env_attrs l' name v
      else Throw ("Bad attribute " +:+ a_name a +:+ " in cgi section")
  end.
(** The text of [documentroot] is not looked at: the directory is that of the
    configuration. *)
Fixpoint configure_loop (path : string) (l : list xmlNode) (r : Rep) : outcome Rep :=
  match l with
  | [] => Ok r
  | ptr :: l' =>
      if decide (n_type ptr ≠ XML_ELEMENT_NODE) then configure_loop path l' r
      else if decide (n_name ptr = "map") then
        exec ← map_attrs (n_properties ptr) (mk_Exec "" "");
        configure_loop path l' (mk_Rep (exec_map r ++ [exec]) (env_map r) (documentroot r))
      else if decide (n_name ptr = "env") then
        '(name, value) ← env_attrs (n_properties ptr) "" "";
        configure_loop path l'
          (if decide (name = "") then r
           else mk_Rep (exec_map r) (<[name := value]> (env_map r)) (documentroot r))
      else if decide (n_name ptr = "documentroot") then
        configure_loop path l' (mk_Rep (exec_map r) (env_map r) path)
      else Throw ("Bad element " +:+ n_name ptr)
  end.
Definition configure (path : string) (ptr : xmlNode) (r : Rep) : outcome Rep :=
  r ← configure_loop path (n_children ptr) r;
  Ok (if decide (documentroot r = "") then mk_Rep (exec_map r) (env_map r) "." else r).

(** ** The child process *)
Section child.
Context `{Y : Yaz} (r : Rep).
(** [environ], and a loop of [setenv]. *)
Notation env := (gmap string string).
Definition setenv_opt (name : string) (v : option string) (e : env) : env :=
  match v with Some v => <[name := v]> e | None => e end.
Definition path_info (rest : string) : string :=
  match find_char "?" rest with Some qpos => str_take qpos rest | None => rest end.
Definition query_string (rest : string) : string :=
  match find_char "?" rest with Some qpos => str_drop (qpos + 1) rest | None => "" end.
Definition request_env (hreq : HTTP_Request) (it : Exec) (e : env) : env :=
  let path := hq_path hreq in
  let n := String.length (e_path it) in
  let rest := str_drop n path in
  let header name := z_HTTP_header_lookup (hq_headers hreq) name in
  let e := <["REQUEST_METHOD" := hq_method hreq]> e in
  let e := <["REQUEST_URI" := path]> e in
  let e := <["SCRIPT_NAME" := str_take n path]> e in
  let e := <["PATH_INFO" := path_info rest]> e in
  let e := <["QUERY_STRING" := query_string rest]> e in
  let e := setenv_opt "HTTP_COOKIE" (header "Cookie") e in
  let e := setenv_opt "HTTP_USER_AGENT" (header "User-Agent") e in
  let e := setenv_opt "HTTP_ACCEPT" (header "Accept") e in
  let e := setenv_opt "HTTP_ACCEPT_ENCODING" (header "Accept-Encoding") e in
  let e := <["DOCUMENT_ROOT" := c_str (documentroot r)]> e in
  let e := <["GATEWAY_INTERFACE" := "CGI/1.1"]> e in
  match header "Content-Type" with
  | Some v => <["CONTENT_TYPE" := v]>
      (<["CONTENT_LENGTH" := print_int (Z.of_nat (String.length (hq_content hreq)))]> e)
  | None => e
  end.
(** The environment of the configuration comes last; [setenv] refuses a name
    with an equals sign. *)
Definition user_env : env := filter (λ kv, find_char "=" kv.1 = None) (env_map r).
Definition child_env (hreq : HTTP_Request) (it : Exec) (environ : env) : env :=
  user_env ∪ request_env hreq it environ.
(** The directories that the child changes to, and the program it becomes. It
    exits when one of them fails. *)
Definition child_program (program : string) : list string * string :=
  match str_rfind "/" program with
  | Some i => ([c_str (documentroot r); str_take i program], str_drop (i + 1) program)
  | None => ([c_str (documentroot r)], program)
  end.
(** A child: its standard input and output, directories, program and
    environment. *)
Record Child : Type := mk_Child {
  c_stdin : Z;
  c_stdout : Z;
  c_dirs : list string;
  c_program : string;
  c_env : env
}.
Definition child (fd_in fd_out : Z) (hreq : HTTP_Request) (it : Exec) (environ : env) : Child :=
  let '(dirs, program) := child_program (c_str (e_program it)) in
  mk_Child fd_in fd_out dirs program (child_env hreq it environ).
End child.

(** ** The parent process *)
Class CgiSystem (W : Type) : Type := {
  environ : gmap string string;
  (** The ends to read from and to write to; none when the call fails. *)
  pipe : M W (option (Z * Z));
  close : Z → M W unit;
  fork : Child → M W (option Z);
  (** [yaz_poll], for 60 seconds, for reading one descriptor and perhaps for
      writing another: none when the time is over or the call fails. *)
  yaz_poll : Z → option Z → M W (option (bool * bool));
  (** At most 512 bytes; none at the end or when the call fails. *)
  read : Z → M W (option string);
  (** The number of bytes written. *)
  write : Z → string → M W Z;
  waitpid : Z → M W unit
}.
Section filter.
Context `{Y : Yaz} {R W : Type} `{Sys : CgiSystem W} (r : Rep).
Context (z_GDU_decode : string → option GDU).
(** The table [children], and the rest of the world. *)
Notation Store := (gset Z * W)%type.
Context (next : string → Package R → M Store (Package R)).
Definition sys {A} (m : M W A) : M Store A := λ s,
  match m s.2 with
  | Ok (a, w) => Ok (a, (s.1, w))
  | Throw t => Throw t
  | Undef k => Undef k
  | OutOfFuel => OutOfFuel
  end.
Definition error_page (hreq : HTTP_Request) (code : Z) (package : Package R) : Package R :=
  let '(hres, session) := create_HTTP_Response (p_session package) hreq code in
  set_response (Some (GDU_HTTP_Response hres)) (set_session session package).
(** The loop that gives the content of the request to the program and takes
    what it prints. *)
Fixpoint relay (fuel : nat) (fd_in fd_out : Z) (content : string) (no_write : nat) (w : string) :
    M W string :=
  match fuel with
  | O => out_of_fuel
  | S fuel' =>
      let more := (no_write <? String.length content)%nat in
      ev ← yaz_poll fd_in (if more then Some fd_out else None);
      match ev with
      | None => mret w
      | Some (readable, writable) =>
          rd ← (if readable : bool then read fd_in else mret (Some ""));
          match rd with
          | None => mret w
          | Some buf =>
              if more && writable then
                wd ← write fd_out (str_drop no_write content);
                if wd <=? 0 then mret (w +:+ buf)
                else relay fuel' fd_in fd_out content (no_write + Z.to_nat wd) (w +:+ buf)
              else relay fuel' fd_in fd_out content no_write (w +:+ buf)
          end
      end
  end.
Definition crlf : string := String "013" (String "010" "").
Definition invalid_page (hreq : HTTP_Request) (package : Package R) : Package R :=
  let '(hres, session) := create_HTTP_Response (p_session package) hreq 400 in
  set_response (Some (GDU_HTTP_Response
      (set_hr_content "Invalid script from script"
         (set_hr_headers (z_HTTP_header_add (hr_headers hres) "Content-Type" "text/plain") hres))))
    (set_session session package).
Definition parent (fuel : nat) (pid : Z) (res req : Z * Z) (hreq : HTTP_Request)
    (package : Package R) : M Store (Package R) :=
  sys (close res.2) ;; sys (close req.1) ;;
  modify (λ s, (if pid =? 0 then s.1 else {[ pid ]} ∪ s.1, s.2)) ;;
  out ← sys (relay fuel res.1 req.2 (hq_content hreq) 0 ("HTTP/1.1 200 OK" +:+ crlf));
  sys (close req.2) ;; sys (close res.1) ;; sys (waitpid pid) ;;
  modify (λ s, (if pid =? 0 then s.1 else s.1 ∖ {[ pid ]}, s.2)) ;;
  mret match z_GDU_decode out with
       | Some gdu => set_response (Some gdu) package
       | None => invalid_page hreq package
       end.
(** When a pipe cannot be had, the search for a program goes on. *)
Fixpoint exec_loop (fuel : nat) (hreq : HTTP_Request) (l : list Exec) (package : Package R) :
    M Store (Package R) :=
  match l with
  | [] => next "" package
  | it :: l' =>
      let path := c_str (e_path it) in
      if decide (str_take (String.length (e_path it)) (hq_path hreq) = path) then
        fds_response ← sys pipe;
        match fds_response with
        | None => exec_loop fuel hreq l' (error_page hreq 400 package)
        | Some res =>
            fds_request ← sys pipe;
            match fds_request with
            | None =>
                sys (close res.1) ;; sys (close res.2) ;;
                exec_loop fuel hreq l' (error_page hreq 400 package)
            | Some req =>
                pid ← sys (fork (child r req.1 res.2 hreq it environ));
                match pid with
                | None =>
                    sys (close req.1) ;; sys (close req.2) ;; sys (close res.1) ;; sys (close res.2) ;;
                    mret (error_page hreq 400 package)
                | Some pid => parent fuel pid res req hreq package
                end
            end
        end
      else exec_loop fuel hreq l' package
  end.
Definition process (fuel : nat) (package : Package R) : M Store (Package R) :=
  match p_request package with
  | Some (GDU_HTTP_Request hreq) => exec_loop fuel hreq (exec_map r) package
  | _ => next "" package
  end.
End filter.

(** ** What a program is told *)
Lemma split_query rest :
  path_info rest +:+ (if find_char "?" rest then "?" +:+ query_string rest else "") = rest.
Proof.
  unfold path_info, query_string. destruct (find_char "?" rest) as [q|] eqn:Hq; [|apply str_app_nil_r].
  apply find_char_get, str_drop_get in Hq. etrans; [|apply (str_take_drop q)].
  by rewrite Hq, Nat.add_1_r.
Qed.
Section environment.
Context `{Y : Yaz} (r : Rep).
(** Names that the configuration does not set. *)
Definition not_set (name : string) : Prop := user_env r !! name = None.
(** The variables of the configuration have their values; apart from them, the
    address of the request can be put together again from its parts. *)
Theorem environment_of hreq it environ :
  let e := child_env r hreq it environ in
  (∀ name v, user_env r !! name = Some v → e !! name = Some v) ∧
  (not_set "SCRIPT_NAME" → not_set "PATH_INFO" → not_set "QUERY_STRING" →
   ∃ script info query, e !! "SCRIPT_NAME" = Some script ∧ e !! "PATH_INFO" = Some info ∧
     e !! "QUERY_STRING" = Some query ∧
     script +:+ info +:+
       (if find_char "?" (str_drop (String.length (e_path it)) (hq_path hreq))
        then "?" +:+ query else "") = hq_path hreq).
Proof.
  intros e. split.
  - intros name v Hv. subst e. unfold child_env. by apply lookup_union_Some_l.
  - intros H1 H2 H3. subst e. unfold child_env, request_env, setenv_opt.
    set (rest := str_drop _ (hq_path hreq)).
    exists (str_take (String.length (e_path it)) (hq_path hreq)), (path_info rest), (query_string rest).
    rewrite !lookup_union_r by done.
    split_and!; try (repeat case_match; by simplify_map_eq).
    rewrite split_query. apply str_take_drop.
Qed.
End environment.

(** ** What a program gets and gives *)
Section relayed.
Context `{Y : Yaz} {R W : Type} `{Sys : CgiSystem W}.
(** What programs have been sent, and what has been read from them. *)
Class CgiLaws (sent received : W → string) : Prop := {
  poll_sent : ∀ i o w, par (yaz_poll i o) w (λ _ w', sent w' = sent w ∧ received w' = received w);
  read_sent : ∀ fd w, par (read fd) w (λ r w',
    sent w' = sent w ∧ received w' = received w +:+ default "" r);
  close_sent : ∀ fd w, par (close fd) w (λ _ w', sent w' = sent w ∧ received w' = received w);
  wait_sent : ∀ pid w, par (waitpid pid) w (λ _ w', sent w' = sent w ∧ received w' = received w);
  write_sent : ∀ fd buf w, par (write fd buf) w (λ n w',
    received w' = received w ∧ sent w' = sent w +:+ str_take (Z.to_nat n) buf)
}.
Lemma str_take_take_drop n m s : str_take n s +:+ str_take m (str_drop n s) = str_take (n + m) s.
Proof.
  revert n. induction s as [|c s IH]; intros [|n]; cbn; try done; [by destruct m|].
  by rewrite str_app_cons, IH.
Qed.
Lemma str_drop_drop n m s : str_drop n (str_drop m s) = str_drop (m + n) s.
Proof. revert m. induction s as [|c s IH]; intros [|m]; cbn; try done; by destruct n. Qed.
Lemma str_take_0 s : str_take 0 s = "".
Proof. by destruct s. Qed.
(** From [w] on, [n] characters of a text were sent, and [printed] was read. *)
Definition relayed (sent received : W → string) (w : W) (text out : string)
    (out' : string) (w' : W) : Prop :=
  ∃ n printed, sent w' = sent w +:+ str_take n text ∧ received w' = received w +:+ printed ∧
    out' = out +:+ printed.
(** The program gets the content of the request from its start, nothing twice
    and nothing left out; and what it prints is all there in its order. *)
Theorem relay_faithful `{!CgiLaws sent received} fuel fd_in fd_out content no_write out w :
  par (relay fuel fd_in fd_out content no_write out) w
    (relayed sent received w (str_drop no_write content) out).
Proof.
  revert no_write out w. induction fuel as [|fuel IH]; intros no_write out w; [done|]. cbn [relay].
  apply par_bind. eapply par_mono; [apply poll_sent|]. intros ev w1 [Hs1 Hr1].
  assert (Hstop : relayed sent received w (str_drop no_write content) out out w1).
  { exists O, "". by rewrite Hs1, Hr1, str_take_0, !str_app_nil_r. }
  destruct ev as [[readable writable]|]; [|by apply par_ret].
  apply par_bind. eapply (par_mono _ _ (λ rd w2, sent w2 = sent w ∧
    received w2 = received w +:+ default "" rd)).
  { destruct readable; [eapply par_mono; [apply read_sent|]|apply par_ret].
    - intros rd w2 [-> ->]. by rewrite Hs1, Hr1.
    - by rewrite Hs1, Hr1, str_app_nil_r. }
  intros rd w2 [Hs2 Hr2]. destruct rd as [buf|].
  2: { apply par_ret. exists O, "". by rewrite Hs2, Hr2, str_take_0, !str_app_nil_r. }
  cbn in Hr2. destruct ((_ <? _)%nat && writable).
  - apply par_bind. eapply par_mono; [apply write_sent|]. intros wd w3 [Hr3 Hs3].
    rewrite Hs2 in Hs3. rewrite Hr2 in Hr3. destruct (wd <=? 0).
    + apply par_ret. by exists (Z.to_nat wd), buf.
    + eapply par_mono; [apply IH|]. intros out' w' (n & printed & Hs & Hr & ->).
      exists (Z.to_nat wd + n)%nat, (buf +:+ printed).
      rewrite Hs, Hr, Hs3, Hr3, <- !str_app_assoc. rewrite <- (str_drop_drop (Z.to_nat wd)).
      by rewrite str_take_take_drop.
  - eapply par_mono; [apply IH|]. intros out' w' (n & printed & Hs & Hr & ->).
    exists n, (buf +:+ printed). by rewrite Hs, Hr, Hs2, Hr2, <- !str_app_assoc.
Qed.
Lemma sys_par {A} (m : M W A) ch w (Q : A → gset Z * W → Prop) :
  par m w (λ a w', Q a (ch, w')) → par (sys m) (ch, w) Q.
Proof. unfold par, sys. cbn. by destruct (m w) as [[a w']|?|?|]. Qed.
Lemma close_par `{!CgiLaws sent received} fd ch w (Q : unit → gset Z * W → Prop) :
  (∀ w', sent w' = sent w → received w' = received w → Q tt (ch, w')) →
  par (sys (close fd)) (ch, w) Q.
Proof.
  intros HQ. apply sys_par. eapply par_mono; [apply close_sent|]. intros [] w' [Hs Hr]. by apply HQ.
Qed.
(** The response to a request that is given to a program is what the program
    prints, read as a response, or an error page. The program gets nothing but
    a first part of the content, and it does not stay in the table. *)
Theorem program_answers `{!CgiLaws sent received} decode fuel pid res req hreq
    (package : Package R) ch w :
  par (parent decode fuel pid res req hreq package) (ch, w) (λ p' s', s'.1 ⊆ ch ∧
    ∃ n printed, sent s'.2 = sent w +:+ str_take n (hq_content hreq) ∧
      received s'.2 = received w +:+ printed ∧
      match decode ("HTTP/1.1 200 OK" +:+ crlf +:+ printed) with
      | Some gdu => p_response p' = Some gdu
      | None => ∃ hres, p_response p' = Some (GDU_HTTP_Response hres) ∧
                        hr_content hres = "Invalid script from script"
      end).
Proof.
  unfold parent. apply par_bind, close_par. intros w1 Hs1 Hr1.
  apply par_bind, close_par. intros w2 Hs2 Hr2. apply par_bind, par_modify. cbn [fst snd].
  set (ch1 := if pid =? 0 then ch else {[pid]} ∪ ch).
  apply par_bind, sys_par. eapply par_mono; [apply relay_faithful|].
  intros out w3 (n & printed & Hs3 & Hr3 & ->).
  apply par_bind, close_par. intros w4 Hs4 Hr4. apply par_bind, close_par. intros w5 Hs5 Hr5.
  apply par_bind, sys_par. eapply par_mono; [apply wait_sent|]. intros [] w6 [Hs6 Hr6].
  apply par_bind, par_modify. apply par_ret. cbn [fst snd]. split.
  { subst ch1. destruct (pid =? 0); set_solver. }
  exists n, printed. rewrite <- str_app_assoc.
  split_and!; [by rewrite Hs6, Hs5, Hs4, Hs3, Hs2, Hs1; destruct (hq_content hreq)
              |by rewrite Hr6, Hr5, Hr4, Hr3, Hr2, Hr1|].
  destruct (decode _); [done|]. unfold invalid_page.
  destruct (create_HTTP_Response _ _ _) as [hres session]. eexists. by split.
Qed.
End relayed.

(** ** Examples *)
Section examples.
(** A world with one program, which prints some pieces of text and takes at
    most three characters at a time. *)
Record World : Type := mk_World {
  w_sent : string;
  w_received : string;
  w_pieces : list string
}.
#[local] Instance example_system : CgiSystem World := {|
  environ := {[ "PATH" := "/bin" ]};
  pipe := mret (Some (3, 4));
  close _ := mret tt;
  fork _ := mret (Some 77);
  yaz_poll _ _ := mret (Some (true, true));
  read _ w :=
    match w_pieces w with
    | [] => Ok (None, w)
    | s :: l => Ok (Some s, mk_World (w_sent w) (w_received w +:+ s) l)
    end;
  write _ buf w := Ok (3, mk_World (w_sent w +:+ str_take 3 buf) (w_received w) (w_pieces w));
  waitpid _ := mret tt
|}.
#[local] Instance example_laws : CgiLaws w_sent w_received.
Proof.
  split; try (intros; done).
  intros fd w. cbn. unfold par, read, example_system. destruct (w_pieces w); cbn; [|done].
  by rewrite str_app_nil_r.
Qed.
Definition example_rep : Rep := mk_Rep [mk_Exec "/cgi" "bin/prog"] {[ "LANG" := "C" ]} "/srv".
Definition example_request : HTTP_Request :=
  {| hq_method := "POST"; hq_version := "1.1"; hq_path := "/cgi/a?b"; hq_headers := [];
     hq_content := "0123456" |}.
Definition example_package : Package unit :=
  mk_Package (Session.mk 1 false) Origin.create None (Some (GDU_HTTP_Request example_request)) None.
Definition example_decode (s : string) : option GDU :=
  Some (GDU_HTTP_Response {| hr_code := 200; hr_version := "1.1"; hr_headers := [];
                             hr_content := str_drop 17 s |}).
Definition no_next (route : string) (p : Package unit) : M (gset Z * World) (Package unit) :=
  throw "next".
Example example_run :
  match process example_rep example_decode no_next 9 example_package
          (∅, mk_World "" "" ["ab"; "cd"]%string) with
  | Ok (p, (_, w)) => (p_response p, w_sent w, w_pieces w)
  | _ => (None, "", [])
  end = (example_decode ("HTTP/1.1 200 OK" +:+ crlf +:+ "abcd"), "012345", []).
Proof. reflexivity. Qed.
Lemma program_answers_witness : ∃ p' s',
  parent example_decode 9 77 (3, 4) (3, 4) example_request example_package
    (∅, mk_World "" "" ["ab"; "cd"]%string) = Ok (p', s') ∧ s'.1 ⊆ ∅.
Proof.
  pose proof (program_answers example_decode 9 77 (3, 4) (3, 4) example_request example_package ∅
    (mk_World "" "" ["ab"; "cd"]%string)) as Hp. unfold par in Hp.
  destruct (parent _ _ _ _ _ _ _ _) as [[p' s']|?|?|] eqn:Hrun;
    [|vm_compute in Hrun; discriminate Hrun..].
  exists p', s'. split; [reflexivity|]. by destruct Hp.
Defined.
Lemma environment_of_witness :
  let e := child_env example_rep example_request (mk_Exec "/cgi" "bin/prog") environ in
  e !! "LANG" = Some "C" ∧ ∃ script info query, e !! "SCRIPT_NAME" = Some script ∧
    e !! "PATH_INFO" = Some info ∧ e !! "QUERY_STRING" = Some query ∧
    script +:+ info +:+ "?" +:+ query = "/cgi/a?b".
Proof.
  destruct (environment_of example_rep example_request (mk_Exec "/cgi" "bin/prog") environ)
    as [Huser Hparts].
  split; [by apply Huser|]. by apply Hparts.
Defined.
(** The directory of a program at the root is the empty string. *)
Example root_program : child_program example_rep "/prog" = (["/srv"; ""], "prog")%string.
Proof. reflexivity. Qed.
(** The element is there, but its text is not what counts. *)
Example documentroot_ignored :
  configure "/etc" (Node XML_ELEMENT_NODE "filter" None "" []
    [Node XML_ELEMENT_NODE "documentroot" None "" []
       [Node XML_TEXT_NODE "text" None "/srv" [] []]]) Rep_init =
  Ok (mk_Rep [] ∅ "/etc").
Proof. reflexivity. Qed.
End examples.
End CGI.
