(* ===== verification/MetaproxyProg.v ===== *)
(** * The main program

    [src/metaproxy_prog.cpp]: the options, reading and testing the
    configuration, the hand-over to [yaz_daemon], and the process that serves,
    with its signals; [src/router_xml.cpp]: the router with the filters of the
    program. The Unix build, with [setrlimit]. *)
From S2P Require Import Prelude Xml Core Router.

(** ** RouterXML *)
Module RouterXML.
Section router_xml.
Context {F : Type} (creator : string → F).
Context {Handle : Type} (dlopen : string → option Handle).
Context (dlsym : option Handle → string → option F).
Context (filter_configure : F → xmlNode → bool → option string → outcome F).
Context (xml_include_glob : xmlNode → string → option xmlNode).
Context (xmlParseMemory : string → option (option xmlNode)).

(** [RouterXML::Rep]; its factory is the one in the router. *)
Definition Rep : Type := FleXML.Rep (F := F).
(** The constructors. *)
Definition RouterXML_doc (doc : option (option xmlNode)) (test_only : bool)
    (file_include_path : option string) : outcome Rep :=
  FleXML.base dlopen dlsym filter_configure xml_include_glob doc
    (FactoryStatic.FactoryStatic creator) test_only file_include_path.
Definition RouterXML_conf (xmlconf : string) (test_only : bool) : outcome Rep :=
  FleXML.RouterFleXML_conf dlopen dlsym filter_configure xml_include_glob xmlParseMemory xmlconf
    (FactoryStatic.FactoryStatic creator) test_only.
Definition createpos (r : Rep) : option FleXML.Pos := FleXML.createpos r.
Definition start (r : Rep) : list FleXML.Base := FleXML.start r.
Definition stop (r : Rep) : list FleXML.Base := FleXML.stop r.
End router_xml.
End RouterXML.

(** ** The program *)
Module Prog.
(** One result of YAZ's [options]: an option with its argument, an argument
    without one, or a bad option. The end of the list is [-2]. *)
Inductive Opt : Type :=
  | opt (c : ascii) (arg : string)
  | opt_arg (arg : string)
  | opt_bad (arg : string).
(** The class of an exception, as the handlers tell them apart. *)
Inductive Exc : Type := logic_error | runtime_error | other_exception.

(** What the program says and asks for, in order. *)
Inductive LogLevel : Type := YLOG_LOG | YLOG_WARN | YLOG_FATAL.
Inductive Event (Rep : Type) : Type :=
  | Cerr (text : string)
  | Cout (text : string)
  | LogInitFile (fname : string)
  | LogTimeFormat (fmt : string)
  | LogInitLevel (mask : string)
  | LogPrefix (prefix : string)
  | PanicBacktrace
  | XmlInit
  | YazLog (l : LogLevel) (text : string)
  | Running
  | Daemon (flags : Z) (normal : bool) (data : Rep) (pidfile uid : option string).
Arguments Cerr {_} _.
Arguments Cout {_} _.
Arguments LogInitFile {_} _.
Arguments LogTimeFormat {_} _.
Arguments LogInitLevel {_} _.
Arguments LogPrefix {_} _.
Arguments PanicBacktrace {_}.
Arguments XmlInit {_}.
Arguments YazLog {_} _ _.
Arguments Running {_}.
Arguments Daemon {_} _ _ _ _ _.

(** The operating system, libxml2 and YAZ. A document is read with its root,
    if it has one; [setrlimit] gives what [strerror] says of a failure;
    [yaz_daemon] either returns or ends the process. *)
Class Os (W Rep : Type) : Type := {
  getpid : W → Z;
  chdir : string → W → bool * W;
  xmlReadFile : string → W → option (option xmlNode) * W;
  xmlXIncludeProcess : option xmlNode → W → Z * option xmlNode * W;
  setrlimit : Z → W → option string * W;
  YAZ_DAEMON_FORK : Z;
  YAZ_DAEMON_DEBUG : Z;
  YAZ_DAEMON_KEEPALIVE : Z;
  YAZ_DAEMON_LOG_REOPEN : Z;
  yaz_daemon : Z → bool → Rep → option string → option string → W → option Z * W
}.
(** The flags are different bits. *)
Class OsLaws {W Rep} (O : Os W Rep) : Prop := {
  fork_bit : YAZ_DAEMON_FORK ≠ 0;
  fork_debug : Z.land YAZ_DAEMON_DEBUG YAZ_DAEMON_FORK = 0
}.

(** What the options set. *)
Record Opts : Type := mk_Opts {
  test_config : bool;
  fname : option string;
  mode : Z;
  pidfile : option string;
  uid : option string;
  socket_limit : option string
}.
Definition Opts_init : Opts := mk_Opts false None 0 None None None.
Definition set_test_config v o :=
  mk_Opts v (fname o) (mode o) (pidfile o) (uid o) (socket_limit o).
Definition set_fname v o :=
  mk_Opts (test_config o) v (mode o) (pidfile o) (uid o) (socket_limit o).
Definition set_mode v o :=
  mk_Opts (test_config o) (fname o) v (pidfile o) (uid o) (socket_limit o).
Definition set_pidfile v o :=
  mk_Opts (test_config o) (fname o) (mode o) v (uid o) (socket_limit o).
Definition set_uid v o :=
  mk_Opts (test_config o) (fname o) (mode o) (pidfile o) v (socket_limit o).
Definition set_socket_limit v o :=
  mk_Opts (test_config o) (fname o) (mode o) (pidfile o) (uid o) v.

(** How [sc_main] ends: it returns, or the process has ended in the daemon. *)
Inductive Status : Type := Returned (ret : Z) | Exited (code : Z).

Section prog.
Context {F : Type} (creator : string → F).
Context {Handle : Type} (dlopen : string → option Handle).
Context (dlsym : option Handle → string → option F).
Context (filter_configure : F → xmlNode → bool → option string → outcome F).
Context (xml_include_glob : xmlNode → string → option xmlNode).
Context {W : Type} `{O : Os W (RouterXML.Rep (F := F))}.
Context (exception_class : string → Exc).
Context (VERSION : string) (VERSION_SHA1 : option string) (yaz_version : string * string).

Notation Event := (Event (RouterXML.Rep (F := F))).
Notation MP := (M (list Event * W)).
Definition say (e : Event) : MP unit := modify_st (λ t, t ++ [e]).
Definition os {A} (f : W → A * W) : MP A := λ s, Ok ((f s.2).1, (s.1, (f s.2).2)).

Definition set_log_prefix : MP unit := λ s,
  say (LogPrefix (print_int (getpid s.2))) s.
Definition version : string :=
  VERSION +:+ match VERSION_SHA1 with Some sha1 => " " +:+ sha1 | None => "" end.

Definition nl : string := String "010" "".
Definition help_text : string :=
  "metaproxy" +:+ nl +:+
  " -h|--help     help" +:+ nl +:+
  " -V|--version  version" +:+ nl +:+
  " -v level" +:+ nl +:+
  " -c|--config f config filename" +:+ nl +:+
  " -D            daemon and keepalive operation" +:+ nl +:+
  " -l f          log file f" +:+ nl +:+
  " -m logformat  log time format (strftime)" +:+ nl +:+
  " -p f          pid file f" +:+ nl +:+
  " -s n          socket limit" +:+ nl +:+
  " -t            test configuration" +:+ nl +:+
  " -u id         change uid to id" +:+ nl +:+
  " -w dir        changes working directory to dir" +:+ nl +:+
  " -X            debug mode (no fork/daemon mode)" +:+ nl +:+ nl.

(** One round of the loop: new settings, or the value to return. *)
Definition option_step (x : Opt) (o : Opts) : MP (Opts + Z) :=
  match x with
  | opt_bad arg => say (Cerr ("bad option: " +:+ arg +:+ nl)) ;; mret (inr 1)
  | opt_arg _ => mret (inl o)
  | opt c arg =>
      if decide (c = "c"%char) then mret (inl (set_fname (Some arg) o))
      else if decide (c = "D"%char) then
        mret (inl (set_mode (Z.lor YAZ_DAEMON_FORK YAZ_DAEMON_KEEPALIVE) o))
      else if decide (c = "h"%char) then say (Cerr help_text) ;; mret (inl o)
      else if decide (c = "l"%char) then say (LogInitFile arg) ;; mret (inl o)
      else if decide (c = "m"%char) then say (LogTimeFormat arg) ;; mret (inl o)
      else if decide (c = "p"%char) then mret (inl (set_pidfile (Some arg) o))
      else if decide (c = "s"%char) then mret (inl (set_socket_limit (Some arg) o))
      else if decide (c = "t"%char) then mret (inl (set_test_config true o))
      else if decide (c = "u"%char) then mret (inl (set_uid (Some arg) o))
      else if decide (c = "v"%char) then say (LogInitLevel arg) ;; mret (inl o)
      else if decide (c = "V"%char) then
        say (Cout (version +:+ nl)) ;; mret (inr 0)
      else if decide (c = "w"%char) then
        failed ← os (chdir arg);
        if (failed : bool) then
          say (Cerr ("chdir " +:+ arg +:+ " failed" +:+ nl)) ;; mret (inr 1)
        else mret (inl (set_mode YAZ_DAEMON_DEBUG o))
      else if decide (c = "X"%char) then mret (inl (set_mode YAZ_DAEMON_DEBUG o))
      else mret (inl o)
  end.
Fixpoint option_loop (l : list Opt) (o : Opts) : MP (Opts + Z) :=
  match l with
  | [] => mret (inl o)
  | x :: l' =>
      r ← option_step x o;
      match r with
      | inl o' => option_loop l' o'
      | inr ret => mret (inr ret)
      end
  end.

(** The directory of the configuration file. *)
Definition base_path (fname : string) : string :=
  match str_rfind "/" fname with
  | Some last_p => str_take last_p fname
  | None => "."
  end.

(** What is done with a router: nothing in a test, else the daemon. *)
Definition serve (o : Opts) (router : RouterXML.Rep (F := F)) : MP Status :=
  err ← match socket_limit o with
        | Some n => os (setrlimit (wrap_u 64 (mp_xml.atoi n)))
        | None => mret None
        end;
  match err with
  | Some e => say (YazLog YLOG_FATAL ("setrlimit: " +:+ e)) ;; mret (Returned 1)
  | None =>
      say Running ;;
      let flags := Z.lor (mode o) YAZ_DAEMON_LOG_REOPEN in
      let normal := bool_decide (Z.land (mode o) YAZ_DAEMON_FORK ≠ 0) in
      say (Daemon flags normal router (pidfile o) (uid o)) ;;
      ended ← os (yaz_daemon flags normal router (pidfile o) (uid o));
      mret match ended with Some code => Exited code | None => Returned 0 end
  end.
Definition exception_text (e : string) : string :=
  match exception_class e with
  | logic_error => "std::logic error: " +:+ e
  | runtime_error => "std::runtime error: " +:+ e
  | other_exception => "Unknown Exception"
  end.
(** The [try] block and what follows it. *)
Definition run_config (o : Opts) (doc : option xmlNode) (path : string) : MP Status :=
  let tested (ret : Z) : MP Status :=
    (if test_config o then
       say (YazLog YLOG_LOG ("metaproxy test exit code " +:+ print_int ret))
     else mret tt) ;;
    mret (Returned ret) in
  match RouterXML.RouterXML_doc creator dlopen dlsym filter_configure xml_include_glob
          (Some doc) (test_config o) (Some path) with
  | Ok router => if test_config o then tested 0 else serve o router
  | Throw e => say (YazLog YLOG_FATAL (exception_text e)) ;; tested 1
  | Undef k => undef k
  | OutOfFuel => out_of_fuel
  end.
Definition read_config (fname : string) : MP (option (option xmlNode)) :=
  doc ← os (xmlReadFile fname);
  match doc with
  | None => say (YazLog YLOG_FATAL "XML parsing failed") ;; mret None
  | Some root =>
      '(r, root') ← os (xmlXIncludeProcess root);
      if decide (r = -1) then
        say (YazLog YLOG_FATAL "XInclude processing failed") ;; mret None
      else mret (Some root')
  end.
Definition sc_main (argv : list Opt) : MP Status :=
  say PanicBacktrace ;;
  set_log_prefix ;;
  r ← option_loop argv Opts_init;
  match r with
  | inr ret => mret (Returned ret)
  | inl o =>
      match fname o with
      | None =>
          say (Cerr ("No configuration given; use -h for help" +:+ nl)) ;;
          mret (Returned 1)
      | Some f =>
          say (YazLog YLOG_LOG ("metaproxy " +:+
            (if test_config o then "test" else "start") +:+ " " +:+ version)) ;;
          say (YazLog YLOG_LOG ("YAZ " +:+ yaz_version.1 +:+ " " +:+ yaz_version.2)) ;;
          say XmlInit ;;
          doc ← read_config f;
          match doc with
          | None => mret (Returned 1)
          | Some root => run_config o root (base_path f)
          end
      end
  end.

(** *** The options *)
Definition arg_of (c : ascii) (x : Opt) : option string :=
  match x with opt c' arg => if decide (c' = c) then Some arg else None | _ => None end.
Definition last_arg (c : ascii) (l : list Opt) : option string := last (omap (arg_of c) l).
Definition given (c : ascii) (l : list Opt) : Prop := ∃ arg, opt c arg ∈ l.
(** The options that set how the daemon runs. *)
Definition mode_of (x : Opt) : option Z :=
  match x with
  | opt c _ =>
      if decide (c = "D"%char) then Some (Z.lor YAZ_DAEMON_FORK YAZ_DAEMON_KEEPALIVE)
      else if decide (c = "w"%char ∨ c = "X"%char) then Some YAZ_DAEMON_DEBUG
      else None
  | _ => None
  end.
(** [o'] is [o] with what the options of [l] set. *)
Definition settled (l : list Opt) (o o' : Opts) : Prop :=
  fname o' = default (fname o) (Some <$> last_arg "c" l) ∧
  pidfile o' = default (pidfile o) (Some <$> last_arg "p" l) ∧
  uid o' = default (uid o) (Some <$> last_arg "u" l) ∧
  socket_limit o' = default (socket_limit o) (Some <$> last_arg "s" l) ∧
  mode o' = default (mode o) (last (omap mode_of l)) ∧
  (test_config o' = true ↔ test_config o = true ∨ given "t" l) ∧
  ¬ given "V" l.

(** What is said before the router is there: no daemon. *)
Definition idle (e : Event) : Prop :=
  match e with Running | Daemon _ _ _ _ _ => False | _ => True end.
Definition quiet (s s' : list Event * W) : Prop := ∃ t, s'.1 = s.1 ++ t ∧ Forall idle t.
#[export] Instance quiet_preorder : PreOrder quiet.
Proof.
  split.
  - intros s. exists []. by rewrite app_nil_r.
  - intros s1 s2 s3 (t & H1 & Ht) (u & H2 & Hu). exists (t ++ u).
    rewrite H2, H1, app_assoc. split; [done|]. by apply Forall_app.
Qed.
Lemma say_quiet e s Q : idle e → (∀ s', quiet s s' → Q tt s') → tot (say e) s Q.
Proof. intros He HQ. apply HQ. exists [e]. split; [done|]. by repeat constructor. Qed.
Lemma os_quiet {A} (f : W → A * W) s (Q : A → list Event * W → Prop) :
  (∀ a s', quiet s s' → Q a s') → tot (os f) s Q.
Proof. intros HQ. apply HQ. exists []. by rewrite app_nil_r. Qed.

Definition option_post (l : list Opt) (o : Opts) (r : Opts + Z) : Prop :=
  match r with
  | inl o' => settled l o o'
  | inr ret => (ret = 0 ∧ given "V" l) ∨ (ret = 1 ∧ (given "w" l ∨ ∃ arg, opt_bad arg ∈ l))
  end.
(** The options change nothing outside but the working directory. *)
Definition stays (l : list Opt) (s s' : list Event * W) : Prop := given "w" l ∨ s'.2 = s.2.
Lemma given_cons c x l : given c (x :: l) ↔ given c [x] ∨ given c l.
Proof.
  unfold given. setoid_rewrite elem_of_cons. setoid_rewrite elem_of_nil.
  split; [intros [a [?|?]]|intros [[a [?|[]]]|[a ?]]]; eauto.
Qed.
Lemma last_omap_cons {A B} (g : A → option B) x l :
  last (omap g (x :: l)) =
  match last (omap g l) with Some y => Some y | None => last (omap g [x]) end.
Proof.
  cbn. destruct (g x) as [y|]; [|by destruct (last _)]. rewrite last_cons. by destruct (last _).
Qed.
Lemma settled_cons x l o o1 o2 :
  settled [x] o o1 → settled l o1 o2 → settled (x :: l) o o2.
Proof.
  intros (F1 & P1 & U1 & S1 & M1 & T1 & V1) (F2 & P2 & U2 & S2 & M2 & T2 & V2).
  unfold settled, last_arg in *. rewrite !(last_omap_cons _ x l), !(given_cons _ x l).
  rewrite F2, P2, U2, S2, M2, T2, F1, P1, U1, S1, M1, T1.
  split_and!; try tauto; match goal with |- context [match ?y with Some _ => _ | None => _ end] => by destruct y end.
Qed.
Lemma given_one c c' arg : given c [opt c' arg] ↔ c = c'.
Proof.
  unfold given. setoid_rewrite list_elem_of_singleton. split; [by intros [a [= -> _]]|].
  intros ->. by exists arg.
Qed.
(** The settings after one option that goes on. *)
Lemma settled_one c arg o o' : c ≠ "V"%char →
  fname o' = (if decide (c = "c"%char) then Some arg else fname o) →
  pidfile o' = (if decide (c = "p"%char) then Some arg else pidfile o) →
  uid o' = (if decide (c = "u"%char) then Some arg else uid o) →
  socket_limit o' = (if decide (c = "s"%char) then Some arg else socket_limit o) →
  mode o' = default (mode o) (mode_of (opt c arg)) →
  test_config o' = (if decide (c = "t"%char) then true else test_config o) →
  settled [opt c arg] o o'.
Proof.
  intros HV H1 H2 H3 H4 H5 H6. unfold settled, last_arg.
  rewrite !given_one, H1, H2, H3, H4, H5, H6. clear -HV.
  cbn [omap list_omap arg_of]. split_and!; try (by repeat case_decide).
  - by destruct (mode_of (opt c arg)).
  - case_decide; split; naive_solver.
Qed.
Lemma option_step_tot x o s :
  tot (option_step x o) s (λ r s', quiet s s' ∧ stays [x] s s' ∧ option_post [x] o r).
Proof.
  assert (Hno : ∀ c arg, given c [opt_arg arg] → False)
    by (intros c arg [a Ha]; apply list_elem_of_singleton in Ha; done).
  destruct x as [c arg|arg|arg]; cbn [option_step].
  - destruct (decide (c = "V"%char)) as [->|HV].
    { cbn. split_and!; [eexists; split; [done|by repeat constructor]|by right|].
      left. split; [done|]. by apply given_one. }
    destruct (decide (c = "w"%char)) as [->|Hw].
    { cbn. apply tot_bind, os_quiet. intros failed s' Hs.
      assert (Hst : ∀ s2, stays [opt "w" arg] s s2) by (intros; left; by apply given_one).
      destruct failed; cbn.
      - apply tot_bind, say_quiet; [done|]. intros s2 Hs2. apply tot_ret.
        split_and!; [by etrans|done|]. right. split; [done|]. left. by apply given_one.
      - apply tot_ret. split_and!; [done..|]. by apply settled_one. }
    repeat (case_decide; [subst; try done|]); try done; unfold tot; cbn;
      (split; [first [done|eexists; split; [done|by repeat constructor]]|split; [by right|]]);
      apply settled_one; cbn; try done; repeat case_decide; naive_solver.
  - apply tot_ret. split_and!; [done|by right|]. split_and!; try done.
    + split; [by left|]. intros [?|[]%Hno]; done.
    + intros []%Hno.
  - cbn. split_and!; [eexists; split; [done|by repeat constructor]|by right|].
    right. split; [done|]. right. exists arg. by left.
Qed.
(** The loop over the options always ends: with the last of each setting, or
    with a value to return, 0 after [-V] and 1 otherwise. *)
Lemma option_loop_tot l o s :
  tot (option_loop l o) s (λ r s', quiet s s' ∧ stays l s s' ∧ option_post l o r).
Proof.
  revert o s. induction l as [|x l IH]; intros o s.
  { apply tot_ret. split_and!; [done|by right|]. split_and!; try done.
    - split; [by left|]. intros [?|[a Ha]]; [done|]. by apply elem_of_nil in Ha.
    - intros [a Ha]. by apply elem_of_nil in Ha. }
  cbn [option_loop]. apply tot_bind. eapply tot_mono; [apply option_step_tot|].
  intros [o1|ret] s1 (Hs & Hw & Hr).
  - eapply tot_mono; [apply IH|]. intros [o2|ret] s2 (Hs2 & Hw2 & Hr2);
      (split_and!; [by etrans|unfold stays in *; rewrite given_cons; naive_solver congruence|]).
    + by eapply settled_cons.
    + unfold option_post. setoid_rewrite given_cons. setoid_rewrite elem_of_cons.
      cbn in Hr2. naive_solver.
  - apply tot_ret. split_and!; [done|unfold stays in *; rewrite given_cons; naive_solver|].
    unfold option_post in *. setoid_rewrite given_cons. setoid_rewrite elem_of_cons.
    setoid_rewrite list_elem_of_singleton in Hr. naive_solver.
Qed.

(** *** The test of a configuration *)
(** [catches m s Q]: no exception leaves [m]; if it returns, [Q] holds. *)
Definition catches {S A} (m : M S A) (s : S) (Q : A → S → Prop) : Prop :=
  match m s with Ok (a, s') => Q a s' | Throw _ => False | _ => True end.
Lemma catches_tot {S A} (m : M S A) s (Q : A → S → Prop) : tot m s Q → catches m s Q.
Proof. unfold tot, catches. by destruct (m s) as [[a s']|?|?|]. Qed.
Lemma catches_bind {S A B} (m : M S A) (f : A → M S B) s (P : A → S → Prop) Q :
  tot m s P → (∀ a s', P a s' → catches (f a) s' Q) → catches (m ≫= f) s Q.
Proof.
  unfold tot, catches, mbind, M_bind. destruct (m s) as [[a s']|?|?|]; intros HP Hf; try done.
  by apply Hf.
Qed.
Lemma catches_say {A} e (m : MP A) s Q :
  idle e → (∀ s', quiet s s' → s'.2 = s.2 → catches m s' Q) → catches (say e ;; m) s Q.
Proof.
  intros He Hm. apply (Hm (s.1 ++ [e], s.2)); [|done]. exists [e]. split; [done|]. by repeat constructor.
Qed.
Lemma catches_prefix {A} (m : MP A) s Q :
  (∀ s', quiet s s' → s'.2 = s.2 → catches m s' Q) → catches (set_log_prefix ;; m) s Q.
Proof.
  intros Hm. apply (Hm (s.1 ++ [LogPrefix (print_int (getpid s.2))], s.2)); [|reflexivity].
  eexists. split; [reflexivity|]. by repeat constructor.
Qed.
Notation router_of root test path :=
  (RouterXML.RouterXML_doc creator dlopen dlsym filter_configure xml_include_glob
    (Some root) test (Some path)).
(** The document of a configuration file, if it can be read. *)
Definition config_of (f : string) (w : W) : option (option xmlNode) :=
  let '(doc, w1) := xmlReadFile f w in
  root ← doc;
  let '(r, root', _) := xmlXIncludeProcess root w1 in
  if decide (r = -1) then None else Some root'.
Lemma read_config_tot f s :
  tot (read_config f) s (λ doc s', quiet s s' ∧ doc = config_of f s.2).
Proof.
  unfold tot, read_config, config_of, mbind, M_bind, os. cbn.
  destruct (xmlReadFile f s.2) as [[root|] w1]; cbn.
  2: { split; [|done]. eexists. split; [done|]. by repeat constructor. }
  destruct (xmlXIncludeProcess root w1) as [[r root'] w2]. cbn.
  destruct (decide (r = -1)); cbn; (split; [|done]).
  - eexists. split; [done|]. by repeat constructor.
  - exists []. split; [|done]. by rewrite app_nil_r.
Qed.
(** What the options and the file say: the configuration file is accepted. *)
Definition accepted (argv : list Opt) (w : W) : Prop := ∃ f root router,
  last_arg "c" argv = Some f ∧ config_of f w = Some root ∧
  router_of root true (base_path f) = Ok router.
Lemma run_config_test o root path s : test_config o = true →
  catches (run_config o root path) s (λ st s', quiet s s' ∧
    match router_of root true path with
    | Ok _ => st = Returned 0 | _ => st = Returned 1 end).
Proof.
  intros Ht. unfold catches, run_config. rewrite Ht.
  destruct (router_of root true path) as [router|e|k|]; cbn; try done;
    (split; [|done]); eexists; (split; [cbn; rewrite <-?app_assoc; reflexivity|]); by repeat constructor.
Qed.
(** Where the program gives up before it makes a router. *)
Definition no_config (argv : list Opt) (w : W) : Prop :=
  given "w" argv ∨ (∃ arg, opt_bad arg ∈ argv) ∨
  (∀ f, last_arg "c" argv = Some f → config_of f w = None).
(** The program either ends before it makes a router, or runs the
    configuration that it has read, with the settings of the options. *)
Lemma sc_main_cases argv s (Q : Status → list Event * W → Prop) :
  (∀ s', quiet s s' → given "V" argv → Q (Returned 0) s') →
  (∀ s', quiet s s' → no_config argv s.2 → Q (Returned 1) s') →
  (∀ o f root s', quiet s s' → settled argv Opts_init o → last_arg "c" argv = Some f →
     (given "w" argv ∨ config_of f s.2 = Some root) →
     catches (run_config o root (base_path f)) s' Q) →
  catches (sc_main argv) s Q.
Proof.
  intros HV H1 Hrun. unfold sc_main. apply catches_say; [done|]. intros sa Hqa Ha.
  apply catches_prefix. intros sb Hqb Hb.
  assert (Hsb : quiet s sb) by (etrans; [exact Hqa|exact Hqb]). clear Hqa Hqb.
  eapply catches_bind; [apply option_loop_tot|]. intros [o|ret] s1 (Hq & Hst & Hr).
  2: { assert (quiet s s1) by (etrans; [exact Hsb|exact Hq]).
       destruct Hr as [[-> ?]|[-> Hr]]; [by apply HV|]. apply H1; [done|]. unfold no_config. tauto. }
  assert (Hs1 : quiet s s1) by (etrans; [exact Hsb|exact Hq]). clear Hsb Hq.
  assert (Hf : last_arg "c" argv = fname o)
    by (destruct Hr as (-> & _); by destruct (last_arg "c" argv)).
  destruct (fname o) as [f|] eqn:Hfn.
  2: { apply catches_say; [done|]. intros s2 Hq2 _. apply H1; [etrans; [exact Hs1|exact Hq2]|].
       right. right. congruence. }
  apply catches_say; [done|]. intros sc Hqc Hc. apply catches_say; [done|]. intros sd Hqd Hd.
  apply catches_say; [done|]. intros se Hqe He.
  assert (Hse : quiet s se) by (do 3 (etrans; [eassumption|]); done).
  eapply catches_bind; [apply read_config_tot|]. intros doc s2 [Hq2 ->].
  assert (Hs2 : quiet s s2) by (etrans; eassumption).
  assert (Hread : given "w" argv ∨ se.2 = s.2) by (destruct Hst; [by left|right; congruence]).
  destruct (config_of f se.2) as [root|] eqn:Hroot.
  - eapply Hrun; try done. destruct Hread as [?|<-]; auto.
  - apply H1; [done|]. destruct Hread as [?|<-]; [by left|right; right]. congruence.
Qed.
(** C39. With [-t] nothing is served, whatever the configuration does: no exception
    leaves the program, and, when no directory is changed, no bad option and
    no [-V] is given, the exit code tells whether the configuration is
    accepted. *)
Theorem test_verdict argv s (Ht : given "t" argv) :
  catches (sc_main argv) s (λ st s', quiet s s' ∧ (st = Returned 0 ∨ st = Returned 1) ∧
    (¬ given "V" argv → ¬ given "w" argv → (∀ arg, opt_bad arg ∉ argv) →
     st = Returned 0 ↔ accepted argv s.2)).
Proof.
  apply sc_main_cases.
  - intros s' Hq HV. split_and!; auto. done.
  - intros s' Hq Hno. split_and!; auto. intros _ Hw Hb. split; [done|].
    intros (f & root & router & Hf & Hc & _). destruct Hno as [?|[[arg ?]|Hno]]; [done| |].
    + by destruct (Hb arg).
    + by rewrite (Hno f) in Hc.
  - intros o f root s1 Hq (_ & _ & _ & _ & _ & Htest & _) Hf Hroot.
    assert (Htc : test_config o = true) by (apply Htest; by right).
    pose proof (run_config_test o root (base_path f) s1 Htc) as Hrun.
    unfold catches in *. destruct (run_config o root (base_path f) s1) as [[st s2]|?|?|]; try done.
    destruct Hrun as [Hq2 Hst]. assert (quiet s s2) by (etrans; eassumption).
    destruct (router_of root true (base_path f)) as [router|?|?|] eqn:Hrt; subst; split_and!; auto;
      intros HV Hw _; (split; [try done|]); try done.
    + intros _. exists f, root, router. split_and!; try done. by destruct Hroot.
    + intros (f' & root' & router & ? & Hc & Hr). destruct Hroot; [done|]. simplify_eq. congruence.
    + intros (f' & root' & router & ? & Hc & Hr). destruct Hroot; [done|]. simplify_eq. congruence.
    + intros (f' & root' & router & ? & Hc & Hr). destruct Hroot; [done|]. simplify_eq. congruence.
Qed.

(** *** The daemon *)
(** [-D] asks for a daemon that forks; [-w] and [-X] ask for the opposite. *)
Definition forks (x : Opt) : option bool :=
  match x with
  | opt c _ =>
      if decide (c = "D"%char) then Some true
      else if decide (c = "w"%char ∨ c = "X"%char) then Some false
      else None
  | _ => None
  end.
Lemma mode_forks `{!OsLaws O} l :
  Z.land (default 0 (last (omap mode_of l))) YAZ_DAEMON_FORK ≠ 0 ↔ last (omap forks l) = Some true.
Proof.
  set (flags b := if b : bool then Z.lor YAZ_DAEMON_FORK YAZ_DAEMON_KEEPALIVE else YAZ_DAEMON_DEBUG).
  assert (Hm : omap mode_of l = flags <$> omap forks l).
  { induction l as [|[c arg|arg|arg] l IH]; try done. cbn. rewrite IH. by repeat case_decide. }
  rewrite Hm, fmap_last. destruct (last (omap forks l)) as [[|]|]; cbn.
  - split; [done|]. intros _. replace (Z.land _ _) with YAZ_DAEMON_FORK; [apply fork_bit|].
    apply Z.bits_inj'. intros n _. rewrite Z.land_spec, Z.lor_spec. by destruct (Z.testbit _ n), (Z.testbit _ n).
  - rewrite fork_debug. done.
  - done.
Qed.
Lemma router_starts root test path router :
  router_of root test path = Ok router → is_Some (RouterXML.createpos router).
Proof.
  unfold RouterXML.RouterXML_doc. destruct root as [root|]; [|done].
  intros Hr. apply FleXML.config_routes_resolve in Hr as (? & ? & _ & _ & Hpos & _).
  unfold RouterXML.createpos. by rewrite Hpos.
Qed.
(** What [serve] does: an error, or the daemon and nothing more. *)
Lemma serve_daemon o router s :
  tot (serve o router) s (λ st s', quiet s s' ∨
    s'.1 = s.1 ++ [Running; Daemon (Z.lor (mode o) YAZ_DAEMON_LOG_REOPEN)
      (bool_decide (Z.land (mode o) YAZ_DAEMON_FORK ≠ 0)) router (pidfile o) (uid o)]).
Proof.
  unfold serve. apply tot_bind.
  apply (tot_mono _ _ (λ _ s', s'.1 = s.1)); [by destruct (socket_limit o)|].
  intros [e|] s1 Hs1.
  - left. exists [YazLog YLOG_FATAL ("setrlimit: " +:+ e)]. cbn. rewrite Hs1.
    split; [done|]. by repeat constructor.
  - right. cbn. by rewrite <-app_assoc, Hs1.
Qed.
(** The daemon is started at most once, by the last action of the program,
    with the router of the configuration that [-c] names, whose routes all
    exist, so that there is a filter to begin with; it forks if of [-D],
    [-w] and [-X] the last is [-D]; and never after [-t] or [-V]. *)
Theorem served_as_asked `{!OsLaws O} argv w :
  catches (sc_main argv) ([], w) (λ st s', quiet ([], w) s' ∨ ∃ t flags normal router,
    s'.1 = t ++ [Running; Daemon flags normal router (last_arg "p" argv) (last_arg "u" argv)] ∧
    Forall idle t ∧ ¬ given "t" argv ∧ ¬ given "V" argv ∧
    (normal = true ↔ last (omap forks argv) = Some true) ∧
    is_Some (RouterXML.createpos router) ∧
    ∃ f root, last_arg "c" argv = Some f ∧ router_of root false (base_path f) = Ok router).
Proof.
  apply sc_main_cases; [by left..|].
  intros o f root s1 Hq Hset Hf _.
  destruct (test_config o) eqn:Htc.
  { pose proof (run_config_test o root (base_path f) s1 Htc) as Hrun.
    unfold catches in *. destruct (run_config o root (base_path f) s1) as [[st s2]|?|?|]; try done.
    left. etrans; [exact Hq|by destruct Hrun]. }
  destruct Hq as (t & Ht & Hidle). cbn in Ht.
  destruct Hset as (_ & Hp & Hu & _ & Hmode & Htest & HV).
  unfold catches, run_config. rewrite Htc.
  destruct (router_of root false (base_path f)) as [router|e|k|] eqn:Hrt; try done.
  2: { left. exists (t ++ [YazLog YLOG_FATAL (exception_text e)]). cbn. rewrite Ht. split; [done|].
       apply Forall_app. split; [done|]. by repeat constructor. }
  apply catches_tot. eapply tot_mono; [apply serve_daemon|]. intros st s2 [(u & Hu2 & Hidle2)|Hs2].
  - left. exists (t ++ u). cbn. rewrite Hu2, Ht. split; [done|]. by apply Forall_app.
  - right. exists t. eexists _, _, _. rewrite Hs2, Ht, Hp, Hu. split_and!; try done.
    + by destruct (last_arg "p" argv), (last_arg "u" argv).
    + intros Hg. rewrite (proj2 Htest) in Htc by (by right). done.
    + rewrite <-mode_forks, bool_decide_eq_true. by rewrite Hmode.
    + by eapply router_starts.
    + by exists f, root.
Qed.
End prog.

(** *** Examples *)
Section examples.
(** A system with one configuration file. *)
Definition ref_os : Os unit (RouterXML.Rep (F := nat)) := {|
  getpid _ := 7;
  chdir dir w := (bool_decide (dir = "/none"), w);
  xmlReadFile f w :=
    (if decide (f = "/etc/metaproxy/conf.xml") then Some (Some example_conf) else None, w);
  xmlXIncludeProcess root w := (0, root, w);
  setrlimit _ w := (None, w);
  YAZ_DAEMON_FORK := 1;
  YAZ_DAEMON_DEBUG := 2;
  YAZ_DAEMON_KEEPALIVE := 4;
  YAZ_DAEMON_LOG_REOPEN := 8;
  yaz_daemon _ _ _ _ _ w := (Some 0, w)
|}.
Definition ref_os_laws : OsLaws ref_os.
Proof. by split. Qed.
Definition example_prog (argv : list Opt) : M (list (Event (RouterXML.Rep (F := nat))) * unit) Status :=
  sc_main (O := ref_os) String.length (λ _, None) (λ (_ : option unit) _, None) (λ f _ _ _, Ok f)
    (λ n _, Some n) (λ _, runtime_error) "1.0" None ("5.0", "") argv.
Definition example_main (argv : list Opt) := example_prog argv ([], ()).
Notation example_accepted argv := (accepted (O := ref_os) String.length (λ _, None)
  (λ (_ : option unit) _, None) (λ f _ _ _, Ok f) (λ n _, Some n) argv ()).
Definition conf_opt : Opt := opt "c" "/etc/metaproxy/conf.xml".
Definition status_of (o : outcome (Status * (list (Event (RouterXML.Rep (F := nat))) * unit))) :
    option Status :=
  match o with Ok (st, _) => Some st | _ => None end.
Definition daemons (o : outcome (Status * (list (Event (RouterXML.Rep (F := nat))) * unit))) :
    list (Z * bool) :=
  match o with
  | Ok (_, (t, _)) => omap (λ e, match e with Daemon fl n _ _ _ => Some (fl, n) | _ => None end) t
  | _ => []
  end.
Example tested : status_of (example_main [opt "t" ""; conf_opt]) = Some (Returned 0).
Proof. vm_compute. reflexivity. Qed.
Example missing : status_of (example_main [opt "t" ""; opt "c" "x.xml"]) = Some (Returned 1).
Proof. vm_compute. reflexivity. Qed.
Example forked : daemons (example_main [conf_opt; opt "D" ""]) = [(13, true)].
Proof. vm_compute. reflexivity. Qed.
(** [-w] falls into [-X]: the daemon that was asked for is not made. *)
Theorem directory_ends_daemon :
  daemons (example_main [conf_opt; opt "D" ""; opt "w" "/var"]) = [(10, false)].
Proof. vm_compute. reflexivity. Qed.
Example paths : (base_path "/etc/metaproxy/conf.xml", base_path "conf.xml", base_path "/conf.xml") =
  ("/etc/metaproxy", ".", "").
Proof. reflexivity. Qed.

Lemma test_verdict_witness : let argv := [opt "t" ""; conf_opt] in
  catches (example_prog argv) ([], ()) (λ st s', quiet ([], ()) s' ∧
    (st = Returned 0 ∨ st = Returned 1) ∧
    (¬ given "V" argv → ¬ given "w" argv → (∀ arg, opt_bad arg ∉ argv) →
     st = Returned 0 ↔ example_accepted argv)).
Proof. apply test_verdict. exists "". by left. Defined.
Lemma served_as_asked_witness : let argv := [conf_opt; opt "D" ""] in
  catches (example_prog argv) ([], ()) (λ st s', quiet ([], ()) s' ∨ ∃ t flags normal router,
    s'.1 = t ++ [Running; Daemon flags normal router None None] ∧ Forall idle t ∧
    ¬ given "t" argv ∧ ¬ given "V" argv ∧
    (normal = true ↔ last (omap forks argv) = Some true) ∧ is_Some (RouterXML.createpos router) ∧
    ∃ f root, last_arg "c" argv = Some f ∧ RouterXML.RouterXML_doc String.length (λ _, None)
      (λ (_ : option unit) _, None) (λ f _ _ _, Ok f) (λ n _, Some n) (Some root) false
      (Some (base_path f)) = Ok router).
Proof. refine (served_as_asked (OsLaws0 := ref_os_laws) _ _ _ _ _ _ _ _ _ [conf_opt; opt "D" ""] ()). Defined.
End examples.
End Prog.

(** ** The process that serves

    [work_common] and the signal handler. The steps of the program and the
    signals that arrive between them are one sequence of events; a signal may
    also reach a child just after [fork()], which has the memory of its parent
    and another process id. *)
Module Work.
Section work.
Context {Rep : Type}.
Definition SIGUSR1 : Z := 10.
Definition SIGTERM : Z := 15.
(** The variables of the program. *)
Record Proc : Type := mk_Proc {
  process_group : Z;
  sig_received : Z;
  my_pid : Z;
  routerp : option Rep
}.
Definition Proc_init : Proc := mk_Proc 0 0 0 None.
Inductive Action : Type :=
  | LogPrefix (pid : Z)
  | Stop (router : Rep) (signo : Z)
  | Kill (pid signo : Z)
  | Start (router : Rep)
  | Move (router : Rep)
  | LogStop
  | Exit (code : Z).

(** [sig_x_handler] in the process [getpid]. *)
Definition sig_x_handler (getpid signo : Z) (p : Proc) : Proc * list Action :=
  if decide (sig_received p ≠ 0) then (p, [])
  else if decide (getpid ≠ my_pid p) then (p, [])
  else
    (mk_Proc (process_group p) signo (my_pid p) (routerp p),
     match routerp p with Some router => [Stop router signo] | None => [] end ++
     (if decide (signo = SIGTERM) then [Kill (- process_group p) SIGTERM] else [])).

(** The statements of [work_common]. *)
Inductive Step : Type :=
  | sSetpgid | sPrefix | sGroup | sPid | sSigTerm | sSigUsr1 | sRouter | sStart | sMove | sLog
  | sDelete | sExit.
Definition work_common : list Step :=
  [sPrefix; sGroup; sPid; sSigTerm; sSigUsr1; sRouter; sStart; sMove; sLog; sDelete; sExit].
Definition work_debug : list Step := work_common.
Definition work_normal : list Step := sSetpgid :: work_common.

(** A process: its id and group, its variables, the signals it handles, what
    it still has to do, and its exit status. *)
Record Run : Type := mk_Run {
  pid : Z;
  pgid : Z;
  proc : Proc;
  handled : list Z;
  pc : list Step;
  status : option Z;
  actions : list Action
}.
Definition begin (pid pgid : Z) (steps : list Step) : Run :=
  mk_Run pid pgid Proc_init [] steps None [].
Definition act (l : list Action) (p : Proc) (pc' : list Step) (r : Run) : Run :=
  mk_Run (pid r) (pgid r) p (handled r) pc' (status r) (actions r ++ l).
Definition with_router (r : Run) (f : Rep → Action) : list Action :=
  match routerp (proc r) with Some router => [f router] | None => [] end.

(** One statement; [data] is the router that the daemon hands over. *)
Definition step (data : Rep) (x : Step) (pc' : list Step) (r : Run) : Run :=
  let p := proc r in
  match x with
  | sSetpgid => mk_Run (pid r) (pid r) p (handled r) pc' (status r) (actions r)
  | sPrefix => act [LogPrefix (pid r)] p pc' r
  | sGroup => act [] (mk_Proc (pgid r) (sig_received p) (my_pid p) (routerp p)) pc' r
  | sPid => act [] (mk_Proc (process_group p) (sig_received p) (pid r) (routerp p)) pc' r
  | sSigTerm => mk_Run (pid r) (pgid r) p (SIGTERM :: handled r) pc' (status r) (actions r)
  | sSigUsr1 => mk_Run (pid r) (pgid r) p (SIGUSR1 :: handled r) pc' (status r) (actions r)
  | sRouter =>
      act [] (mk_Proc (process_group p) (sig_received p) (my_pid p) (Some data)) pc' r
  | sStart => act (with_router r Start) p pc' r
  | sMove => act (with_router r Move) p pc' r
  | sLog => act [LogStop] p pc' r
  | sDelete => act [] (mk_Proc (process_group p) (sig_received p) (my_pid p) None) pc' r
  | sExit => mk_Run (pid r) (pgid r) p (handled r) [] (Some 0) (actions r ++ [Exit 0])
  end.
(** A signal without a handler ends the process. *)
Definition signal (signo : Z) (r : Run) : Run :=
  if decide (signo ∈ handled r) then
    let '(p, l) := sig_x_handler (pid r) signo (proc r) in act l p (pc r) r
  else mk_Run (pid r) (pgid r) (proc r) (handled r) [] (Some (128 + signo)) (actions r).
Inductive Ev : Type := Next | Signal (signo : Z).
Definition event (data : Rep) (e : Ev) (r : Run) : Run :=
  match status r with
  | Some _ => r
  | None =>
      match e with
      | Next => match pc r with x :: pc' => step data x pc' r | [] => r end
      | Signal signo => signal signo r
      end
  end.
Definition run (data : Rep) (l : list Ev) (r : Run) : Run := fold_left (λ r e, event data e r) l r.
(** [fork()]: the child has everything but the id and the actions. *)
Definition fork (child : Z) (r : Run) : Run :=
  mk_Run child (pgid r) (proc r) (handled r) (pc r) (status r) [].

(** What is done because of a signal. *)
Definition by_signal (a : Action) : bool :=
  match a with Stop _ _ | Kill _ _ => true | _ => false end.

(** *** One signal counts *)
Context (data : Rep).
Definition stops (signo : Z) (pgid : Z) (l : list Action) : Prop :=
  l = (if decide (signo = SIGTERM) then [Kill (- pgid) SIGTERM] else []) ∨
  l = Stop data signo :: (if decide (signo = SIGTERM) then [Kill (- pgid) SIGTERM] else []).
(** A process that runs, after [k] statements of [work_normal]. *)
Definition reached (k : nat) (r : Run) : Prop :=
  pc r = drop k work_normal ∧
  (2 < k → process_group (proc r) = pgid r)%nat ∧
  (3 < k → my_pid (proc r) = pid r)%nat ∧
  (handled r = [] ∨ (4 < k)%nat) ∧
  (sig_received (proc r) = 0 ∨ (4 < k)%nat) ∧
  (∀ signo, signo ∈ handled r → signo = SIGTERM ∨ signo = SIGUSR1) ∧
  (routerp (proc r) = None ∨ routerp (proc r) = Some data) ∧
  ((6 < k < 11)%nat → routerp (proc r) = Some data).
(** Either no signal has been taken, or one has, and what is done because of
    signals is what that one asks for. *)
Definition one_signal (r : Run) : Prop :=
  if decide (sig_received (proc r) = 0) then filter by_signal (actions r) = []
  else (sig_received (proc r) = SIGTERM ∨ sig_received (proc r) = SIGUSR1) ∧
       stops (sig_received (proc r)) (pgid r) (filter by_signal (actions r)).
Definition inv (r : Run) : Prop := (status r = None → ∃ k, reached k r) ∧ one_signal r.

Lemma step_reached k x pc' r : reached k r → pc r = x :: pc' → reached (S k) (step data x pc' r).
Proof.
  intros (H1 & H2 & H3 & H4 & H8 & H5 & H6 & H7) Hpc. rewrite Hpc in H1.
  do 12 (destruct k as [|k]; [injection H1 as -> ->; cbn; unfold reached; cbn;
    split_and!; try done; try (intros; by auto with lia); try tauto; try lia; try set_solver; 
    try (destruct H4 as [->|?]; [|lia])|]).
  cbn in H1. by rewrite drop_nil in H1.
Qed.
Lemma signal_reached k signo r : reached k r → status (signal signo r) = None →
  reached k (signal signo r).
Proof.
  intros (H1 & H2 & H3 & H4 & H8 & H5 & H6 & H7). unfold signal, sig_x_handler.
  repeat case_decide; cbn; try done; intros _; split_and!; try done;
    (destruct H4 as [H4|?]; [|by right]); rewrite H4 in *; by destruct (not_elem_of_nil signo).
Qed.
(** No statement but the handler stops anything. *)
Lemma step_signals x pc' r : filter by_signal (actions (step data x pc' r)) =
    filter by_signal (actions r) ∧ sig_received (proc (step data x pc' r)) = sig_received (proc r).
Proof.
  split; [|by destruct x]. destruct x; cbn; unfold with_router; try case_match;
    rewrite ?filter_app; cbn; by rewrite ?app_nil_r.
Qed.
Lemma step_inv x pc' r : status r = None → pc r = x :: pc' → inv r → inv (step data x pc' r).
Proof.
  intros Hs Hpc [Hr H1]. destruct (Hr Hs) as [k Hk]. split.
  - intros _. exists (S k). by apply step_reached.
  - unfold one_signal in *. destruct (step_signals x pc' r) as [-> ->].
    case_decide; [done|]. destruct H1 as [H1 H2]. split; [done|].
    destruct Hk as (Hk & _ & _ & _ & [?|?] & _); [done|].
    destruct x; try done. rewrite Hpc in Hk.
    do 5 (destruct k as [|k]; [lia|]). by do 8 (destruct k as [|k]; [done|]).
Qed.
Lemma signal_inv signo r : status r = None → inv r → inv (signal signo r).
Proof.
  intros Hs [Hr H1]. destruct (Hr Hs) as [k Hk]. split; [intros; exists k; by apply signal_reached|].
  destruct Hk as (_ & Hg & Hp & Hh & _ & Hsig & Hrt & _).
  unfold signal. case_decide as Hin; [|done]. specialize (Hsig _ Hin).
  assert (4 < k)%nat by (destruct Hh as [Hh|?]; [rewrite Hh in Hin; by apply not_elem_of_nil in Hin|done]).
  unfold one_signal in *. unfold sig_x_handler.
  destruct (decide (sig_received (proc r) ≠ 0)); cbn; [by rewrite app_nil_r|].
  destruct (decide (pid r ≠ my_pid (proc r))) as [Hne|_];
    [exfalso; apply Hne; symmetry; apply Hp; lia|]. cbn.
  rewrite decide_False by (destruct Hsig as [->| ->]; done).
  split; [done|]. rewrite decide_True in H1 by (by apply dec_stable).
  rewrite filter_app, H1, Hg by lia.
  destruct Hrt as [-> | ->]; [left|right]; by destruct (decide (signo = SIGTERM)).
Qed.
Lemma run_inv l r : inv r → inv (run data l r).
Proof.
  revert r. induction l as [|e l IH]; intros r Hr; [done|]. cbn. apply IH. unfold event.
  destruct (status r) eqn:Hs; [done|]. destruct e; [|by apply signal_inv].
  destruct (pc r) eqn:Hpc; [done|]. by apply step_inv.
Qed.
Lemma begin_inv p g steps : steps = work_normal ∨ steps = work_debug → inv (begin p g steps).
Proof.
  intros Hst. split; [|done]. intros _.
  destruct Hst as [-> | ->]; [exists 0%nat|exists 1%nat]; split_and!; try done; try lia; auto; set_solver.
Qed.
(** Whatever signals arrive, and however they fall between the statements, the
    router is stopped at most once, for the first signal that the program
    takes; only SIGTERM is passed on, once, to its own process group. *)
Theorem stopped_once p g steps l (Hsteps : steps = work_normal ∨ steps = work_debug) :
  let r := run data l (begin p g steps) in
  filter by_signal (actions r) = [] ∨
  ((sig_received (proc r) = SIGTERM ∨ sig_received (proc r) = SIGUSR1) ∧
   stops (sig_received (proc r)) (pgid r) (filter by_signal (actions r))).
Proof.
  intros r. destruct (run_inv l _ (begin_inv p g steps Hsteps)) as [_ H1]. fold r in H1.
  unfold one_signal in H1. case_decide; auto.
Qed.
(** A child that still has the handlers of its parent ignores every signal
    that they handle. *)
Theorem child_ignores child signo r (Hchild : child ≠ my_pid (proc r)) (Hin : signo ∈ handled r) :
  signal signo (fork child r) = fork child r.
Proof.
  unfold signal, fork. cbn. rewrite decide_True by done. unfold sig_x_handler.
  destruct (decide (sig_received (proc r) ≠ 0)); [done|]. by rewrite decide_True.
Qed.
Lemma handler_quiet getpid signo (p : Proc) : sig_received p ≠ 0 →
  sig_x_handler getpid signo p = (p, []).
Proof. intros. unfold sig_x_handler. by rewrite decide_True. Qed.
(** After the first signal no other does anything. *)
Lemma later_signals l r : sig_received (proc r) ≠ 0 →
  filter by_signal (actions (run data l r)) = filter by_signal (actions r).
Proof.
  revert r. induction l as [|e l IH]; intros r Hr; [done|].
  change (run data (e :: l) r) with (run data l (event data e r)). unfold event.
  destruct (status r) eqn:Hs; [by apply IH|]. destruct e as [|signo].
  - destruct (pc r) as [|x pc']; [by apply IH|]. destruct (step_signals x pc' r) as [<- Hsig].
    apply IH. by rewrite Hsig.
  - unfold signal. case_decide; [|by rewrite IH]. rewrite handler_quiet by done.
    rewrite IH by done. cbn. by rewrite app_nil_r.
Qed.
(** A SIGUSR1 that comes before the program has noted the router is taken
    but stops nothing, and after it no signal stops the router any more. *)
Theorem early_signal_lost p g l :
  filter by_signal (actions (run data (replicate 5 Next ++ Signal SIGUSR1 :: l)
    (begin p g work_debug))) = [].
Proof.
  assert (H5 : event data (Signal SIGUSR1) (run data (replicate 5 Next) (begin p g work_debug)) =
    mk_Run p g (mk_Proc g SIGUSR1 p None) [SIGUSR1; SIGTERM] (drop 5 work_debug) None [LogPrefix p]).
  { unfold run. cbn [replicate fold_left]. unfold event, signal, sig_x_handler. cbn.
    destruct (decide (p ≠ p)); done. }
  unfold run in *. rewrite fold_left_app. cbn [fold_left]. rewrite H5.
  etrans; [by apply (later_signals l)|done].
Qed.
End work.

(** *** Examples *)
(** A run that is stopped, while it serves, by SIGTERM, sent twice. *)
Example terminated :
  actions (run "router" (replicate 8 Next ++ [Signal SIGTERM; Signal SIGTERM; Next; Next; Next; Next])
    (begin 7 3 work_normal)) =
  [LogPrefix 7; Start "router"; Stop "router" SIGTERM; Kill (-7) SIGTERM; Move "router"; LogStop;
   Exit 0].
Proof. reflexivity. Qed.
Lemma stopped_once_witness :
  let r := run "router" (replicate 9 Next ++ [Signal SIGUSR1]) (begin 7 7 work_debug) in
  filter by_signal (actions r) = [] ∨
  ((sig_received (proc r) = SIGTERM ∨ sig_received (proc r) = SIGUSR1) ∧
   stops "router" (sig_received (proc r)) (pgid r) (filter by_signal (actions r))).
Proof. apply stopped_once. by right. Defined.
Lemma child_ignores_witness :
  signal SIGTERM (fork 8 (run "router" (replicate 8 Next) (begin 7 7 work_debug))) =
  fork 8 (run "router" (replicate 8 Next) (begin 7 7 work_debug)).
Proof. apply child_ignores; [done|]. by apply (bool_decide_unpack _). Defined.
End Work.
