(* ===== verification/Server.v ===== *)
(** * Serving and stopping

    [src/pipe.cpp], the descriptors of a pipe, and [process] of
    [src/filter_frontend_net.cpp], the loop in which the program spends its
    life, together with the signal handler of [src/metaproxy_prog.cpp]: what
    the signals do to the listeners, the connections and the thread pool. *)
From S2P Require Import Prelude Core FrontendNet MetaproxyProg.

(** ** Pipe

    The Unix build: the port is not used, so that the code for sockets is
    never reached. *)
Module Pipe.
Record Rep : Type := mk_Rep { fd_read : Z; fd_write : Z; m_socket : Z }.
(** The descriptors of the process that are open. *)
Definition Fds : Type := gset Z.
(** [Pipe::Rep::close]. *)
Definition close (fd : Z) (open : Fds) : Fds * Z :=
  (if decide (fd ≠ -1) then open ∖ {[fd]} else open, -1).
(** The constructor; [pipe] is the system call. *)
Definition Pipe (pipe : Fds → option (Z * Z)) (port_to_use : Z) (open : Fds) : outcome (Rep * Fds) :=
  match pipe open with
  | None => Throw "Pipe error: pipe failed"
  | Some (r, w) =>
      if (0 <=? r) && (0 <=? w) then Ok (mk_Rep r w (-1), open ∪ {[r; w]})
      else Undef AssertFailed
  end.
Definition destroy (m_p : Rep) (open : Fds) : Fds * Rep :=
  let '(open, r) := close (fd_read m_p) open in
  let '(open, w) := close (fd_write m_p) open in
  let '(open, s) := close (m_socket m_p) open in
  (open, mk_Rep r w s).
(** A pipe gives back what it has taken, however often it is destroyed, and a
    constructor that fails has taken nothing. *)
Theorem pipe_closed pipe port open
    (Hnew : ∀ r w, pipe open = Some (r, w) → 0 ≤ r ∧ 0 ≤ w ∧ r ∉ open ∧ w ∉ open) :
  match Pipe pipe port open with
  | Ok (p, open') => let '(open'', p') := destroy p open' in
      open'' = open ∧ ∀ other, destroy p' other = (other, p')
  | Throw _ => pipe open = None
  | _ => False
  end.
Proof.
  unfold Pipe. destruct (pipe open) as [[r w]|] eqn:Hp; [|done].
  destruct (Hnew r w eq_refl) as (Hr & Hw & Hro & Hwo).
  rewrite (proj2 (Z.leb_le 0 r) Hr), (proj2 (Z.leb_le 0 w) Hw). cbn.
  destruct (decide (r ≠ -1)); [|lia]. destruct (decide (w ≠ -1)); [|lia].
  split; [set_solver|done].
Qed.
End Pipe.

(** ** The loop *)
Module Serving.
Section serving.
Import FrontendNet.FrontendNet.
Context {Router : Type} (c : Conf) (m_listen_duration : Z).

Inductive Action : Type :=
  | NewTimer (duration : Z)
  | NewPool (no_threads max_threads stack_size : Z)
  | SetPort (i : nat)              (* set_package, set_thread_pool *)
  | Received (signo : Z)           (* the log line *)
  | Shutdown (i : nat)             (* of the connections of a port *)
  | CloseServer (i : nat)          (* server(""): the listener *)
  | DaemonStop
  | DeletePool
  | DeleteTimer.
Definition ports : list nat := seq 0 (length (m_ports c)).
Definition has_timer : bool := bool_decide (m_listen_duration ≠ 0).

(** Before the loop. *)
Definition setup : list Action :=
  (if has_timer then [NewTimer m_listen_duration] else []) ++
  NewPool (m_no_threads c) (m_max_threads c) (m_stack_size c) :: (SetPort <$> ports).
Definition terminate : list Action :=
  Received SIGTERM :: (ports ≫= λ i, [Shutdown i; CloseServer i]) ++ [DaemonStop].
Definition stop_listening : list Action :=
  Received SIGUSR1 :: (CloseServer <$> ports) ++ [DaemonStop].
Definition finish : list Action := [DeletePool; DeleteTimer].

(** The filter and the program around it. *)
Record Sys : Type := mk_Sys {
  proc : Work.Proc (Rep := Router);
  m_stop_signo : Z;
  done_ : bool;
  out : list Action
}.
(** What a turn of the loop sees: the result of [processEvent], the number of
    sockets that are observed, the timer. *)
Record Tick : Type := mk_Tick { t_result : Z; t_observers : Z; t_timeout : bool }.
Inductive Ev : Type := Signal (signo : Z) | Turn (t : Tick).

(** [FrontendNet::stop], called by the router for a signal that the program
    takes. *)
Definition stopped (l : list (Work.Action (Rep := Router))) (signo : Z) : Z :=
  fold_left (λ s a, match a with Work.Stop _ signo => signo | _ => s end) l signo.
Definition turn_of_loop (t : Tick) (s : Sys) : Sys :=
  if t_result t <=? 0 then mk_Sys (proc s) (m_stop_signo s) true (out s ++ finish)
  else
    let closes (b : bool) := if b then stop_listening else [] in
    let signo (b : bool) := if b then 0 else m_stop_signo s in
    match after_event (m_stop_signo s) (t_observers t) (has_timer && t_timeout t) with
    | Terminate => mk_Sys (proc s) (m_stop_signo s) true (out s ++ terminate)
    | Leave b => mk_Sys (proc s) (signo b) true (out s ++ closes b ++ finish)
    | Next b => mk_Sys (proc s) (signo b) false (out s ++ closes b)
    end.
Definition event (pid : Z) (e : Ev) (s : Sys) : Sys :=
  if done_ s then s
  else match e with
       | Signal signo =>
           let '(p, l) := Work.sig_x_handler pid signo (proc s) in
           mk_Sys p (stopped l (m_stop_signo s)) false (out s)
       | Turn t => turn_of_loop t s
       end.
Definition run (pid : Z) (l : list Ev) (s : Sys) : Sys := fold_left (λ s e, event pid e s) l s.
(** [process], begun by a program that has noted its router; nothing is done
    without ports that have been set. *)
Definition process (az : bool) (pgid pid : Z) (router : Router) : Sys :=
  let p := Work.mk_Proc pgid 0 pid (Some router) in
  if az then mk_Sys p 0 false setup else mk_Sys p 0 true [].

(** The signals that the program handles. *)
Definition handled (e : Ev) : Prop :=
  match e with Signal signo => signo = SIGTERM ∨ signo = SIGUSR1 | Turn _ => True end.

(** The stages: no signal; one noted, but not acted on; listeners closed. *)
Inductive stage (pid : Z) : Sys → Prop :=
  | no_signal p : Work.sig_received p = 0 → Work.my_pid p = pid → is_Some (Work.routerp p) →
      stage pid (mk_Sys p 0 false setup)
  | noted p signo : Work.sig_received p ≠ 0 → signo = SIGTERM ∨ signo = SIGUSR1 →
      Work.sig_received p = signo → stage pid (mk_Sys p signo false setup)
  | closed p : Work.sig_received p = SIGUSR1 →
      stage pid (mk_Sys p 0 false (setup ++ stop_listening))
  | ended p signo l : l ∈ [finish; stop_listening ++ finish; terminate] →
      (l = terminate → Work.sig_received p = SIGTERM) →
      stage pid (mk_Sys p signo true (setup ++ l)).
Lemma first_signal pid signo (p : Work.Proc) (r : Router) :
  Work.sig_received p = 0 → Work.my_pid p = pid → Work.routerp p = Some r →
  Work.sig_x_handler pid signo p =
    (Work.mk_Proc (Work.process_group p) signo pid (Some r), Work.Stop r signo ::
      (if decide (signo = Work.SIGTERM) then [Work.Kill (- Work.process_group p) Work.SIGTERM] else [])).
Proof.
  intros Hp Hpid Hr. unfold Work.sig_x_handler. rewrite Hp, Hpid, Hr.
  rewrite (decide_False (P := pid ≠ pid)) by (intros Hn; by apply Hn). done.
Qed.
Lemma ended_finish pid p signo : stage pid (mk_Sys p signo true (setup ++ finish)).
Proof. constructor; [set_solver|done]. Qed.
Lemma ended_closed pid p signo : stage pid (mk_Sys p signo true (setup ++ stop_listening ++ finish)).
Proof. constructor; [set_solver|]. intros [=]. Qed.
Lemma ended_terminated pid p signo : Work.sig_received p = SIGTERM →
  stage pid (mk_Sys p signo true (setup ++ terminate)).
Proof. constructor; [set_solver|done]. Qed.
Create HintDb server.
Hint Resolve ended_finish ended_closed ended_terminated : server.
Hint Constructors stage : server.
Lemma event_stage pid e s : handled e → stage pid s → stage pid (event pid e s).
Proof.
  intros He Hs. unfold event. destruct Hs as [p Hp Hpid [r Hr]|p signo Hp Hsig Hrec|p Hp|p signo l Hl Ht];
    cbn; [..|by constructor]; destruct e as [signo'|t].
  - rewrite (first_signal _ _ _ r) by done. unfold stopped. cbn.
    destruct (decide (signo' = Work.SIGTERM)); cbn; by destruct He as [-> | ->]; constructor; auto.
  - unfold turn_of_loop, after_event. cbn.
    destruct (t_result t <=? 0), (t_observers t <=? 1), (has_timer && t_timeout t); cbn;
      rewrite ?app_nil_r; eauto with server.
  - rewrite Work.handler_quiet by done. by constructor.
  - unfold turn_of_loop, after_event. cbn. destruct Hsig as [-> | ->]; cbn;
      destruct (t_result t <=? 0), (t_observers t <=? 1), (has_timer && t_timeout t); cbn; auto with server.
  - rewrite Work.handler_quiet by (by rewrite Hp). by constructor.
  - unfold turn_of_loop, after_event. cbn.
    destruct (t_result t <=? 0), (t_observers t <=? 1), (has_timer && t_timeout t); cbn;
      rewrite ?app_nil_r, <-?app_assoc; auto with server.
Qed.
Lemma run_stage pid l s : Forall handled l → stage pid s → stage pid (run pid l s).
Proof.
  intros Hl. revert s. induction Hl as [|e l He _ IH]; intros s Hs; [done|].
  apply IH. by apply event_stage.
Qed.
(** C27. Whatever signals and events come in which order: the listeners are closed
    at most once, connections are shut down only for a SIGTERM that was the
    first signal, and the thread pool goes away once, at the end, and not at
    all after SIGTERM. *)
Theorem stops_in_order pid pgid router l (Hl : Forall handled l) :
  let s := run pid l (process true pgid pid router) in
  ∃ rest, out s = setup ++ rest ∧
    if done_ s then
      rest = finish ∨ rest = stop_listening ++ finish ∨
      (rest = terminate ∧ Work.sig_received (proc s) = SIGTERM)
    else rest = [] ∨ (rest = stop_listening ∧ Work.sig_received (proc s) = SIGUSR1).
Proof.
  intros s. assert (Hs : stage pid s) by (apply run_stage; [done|by constructor]).
  destruct Hs as [p ? ? ?|p signo ? ? ?|p ?|p signo rest Hrest Hterm].
  1, 2: exists []; cbn; rewrite app_nil_r; auto.
  - exists stop_listening. cbn. auto.
  - exists rest. cbn. split; [done|]. set_solver.
Qed.
Lemma signals_ignored pid sigs s : Work.sig_received (proc s) ≠ 0 → done_ s = false →
  run pid (Signal <$> sigs) s = s.
Proof.
  intros Hs Hd. induction sigs as [|signo sigs IH]; [done|].
  change (run pid (Signal <$> signo :: sigs) s) with (run pid (Signal <$> sigs) (event pid (Signal signo) s)).
  unfold event. rewrite Hd, Work.handler_quiet by done. by destruct s; cbn in *; subst.
Qed.
(** SIGTERM as the first signal ends the loop with its next event, whatever
    other signals follow in between. *)
Theorem sigterm_ends pid s sigs t (Hs : stage pid s) (Hlive : done_ s = false)
    (Hfirst : Work.sig_received (proc s) = 0) (Ht : 0 < t_result t) :
  let s' := run pid (Signal SIGTERM :: (Signal <$> sigs) ++ [Turn t]) s in
  done_ s' = true ∧ out s' = setup ++ terminate.
Proof.
  intros s'. destruct Hs as [p Hp Hpid [r Hr]|p signo Hp ? ?|p Hp|p signo l ? ?]; try done;
    cbn in Hfirst; [|by rewrite Hp in Hfirst].
  assert (Htake : event pid (Signal SIGTERM) (mk_Sys p 0 false setup) = mk_Sys
    (Work.mk_Proc (Work.process_group p) SIGTERM pid (Some r)) SIGTERM false setup).
  { unfold event. cbn [done_ proc]. by rewrite (first_signal _ _ _ r). }
  subst s'. change (run pid (Signal SIGTERM :: ?l) ?s) with (run pid l (event pid (Signal SIGTERM) s)).
  rewrite Htake. unfold run at 1 2. rewrite !fold_left_app.
  change (fold_left _ (Signal <$> sigs) ?s) with (run pid (Signal <$> sigs) s).
  rewrite signals_ignored by done. cbn. unfold turn_of_loop.
  by rewrite (proj2 (Z.leb_gt _ _)).
Qed.
End serving.

(** *** Examples *)
Section examples.
Notation FN_port name := (FrontendNet.FrontendNet.mk_Port name "" "" None).
Definition example_conf : FrontendNet.FrontendNet.Conf :=
  FrontendNet.FrontendNet.set_conf_ports [FN_port "@:9000"; FN_port "@:9001"]
    FrontendNet.FrontendNet.Conf_init.
Definition example_sys : Sys := process example_conf 0 true 7 7 "router".
(** SIGUSR1, then SIGTERM: the listeners are closed, and the sessions go on to
    their end. *)
Definition turn_ (n : Z) : Ev := Turn (mk_Tick 1 n false).
Example graceful : out (run example_conf 0 7
    [turn_ 5; Signal Work.SIGUSR1; turn_ 5; Signal Work.SIGTERM; turn_ 3; turn_ 1] example_sys) =
  [NewPool 5 5 0; SetPort 0; SetPort 1; Received Work.SIGUSR1; CloseServer 0; CloseServer 1; DaemonStop;
   DeletePool; DeleteTimer].
Proof. reflexivity. Qed.
Lemma stops_in_order_witness :
  let s := run example_conf 0 7 [Signal Work.SIGTERM; turn_ 5] example_sys in
  ∃ rest, out s = setup example_conf 0 ++ rest ∧
    if done_ s then
      rest = finish ∨ rest = stop_listening example_conf ++ finish ∨
      (rest = terminate example_conf ∧ Work.sig_received (proc s) = Work.SIGTERM)
    else rest = [] ∨ (rest = stop_listening example_conf ∧ Work.sig_received (proc s) = Work.SIGUSR1).
Proof. apply stops_in_order. repeat constructor. Defined.
Lemma sigterm_ends_witness :
  done_ (run example_conf 0 7 [Signal Work.SIGTERM; Signal Work.SIGUSR1; turn_ 5] example_sys) = true.
Proof.
  apply (sigterm_ends example_conf 0 7 example_sys [Work.SIGUSR1] (mk_Tick 1 5 false)); try done.
  by constructor.
Defined.
Lemma pipe_closed_witness :
  Pipe.Pipe (λ _, Some (3, 4)) 9123 {[0; 1; 2]} =
    Ok (Pipe.mk_Rep 3 4 (-1), {[0; 1; 2]} ∪ {[3; 4]}) ∧
  (Pipe.destroy (Pipe.mk_Rep 3 4 (-1)) ({[0; 1; 2]} ∪ {[3; 4]})).1 = {[0; 1; 2]}.
Proof.
  split; [done|]. pose proof (Pipe.pipe_closed (λ _, Some (3, 4)) 9123 {[0; 1; 2]}) as H.
  cbn in H. apply H. intros r w [= <- <-]. repeat split; (lia || set_solver).
Defined.
End examples.
End Serving.
