(* ===== verification/Usemarcon.v ===== *)
(** * The conversion with USEMARCON

    The first part of [src/filter_record_transform.cpp]: a conversion of
    records in two stages, each with its own INI file, that YAZ calls for
    [usemarcon] elements. The library itself is a parameter. *)
From S2P Require Import Prelude Xml Core.

(** One object of the library with its INI file: what [SetMarcRecord],
    [Convert] and [GetMarcRecord] do with a record. *)
Class UsemarconLib : Type := {
  Usemarcon : Type;
  SetIniFileName : string → Usemarcon;
  Convert : Usemarcon → string → Z;
  GetMarcRecord : Usemarcon → string → string
}.

Section usemarcon.
Context `{U : UsemarconLib}.
Record info_usemarcon : Type := mk_info {
  stage1 : option string;
  stage2 : option string;
  usemarcon1 : option Usemarcon;
  usemarcon2 : option Usemarcon
}.
(** The result, the record, and what is written to [wr_error]. *)
Definition convert_usemarcon (p : info_usemarcon) (record : string) : Z * string * string :=
  match usemarcon1 p with
  | None => (0, record, "")
  | Some u1 =>
      let res := Convert u1 record in
      if decide (res ≠ 0) then (-1, record, "usemarcon stage1 failed res=" +:+ print_int res)
      else
        let converted := GetMarcRecord u1 record in
        match usemarcon2 p with
        | None => (0, converted, "")
        | Some u2 =>
            let res := Convert u2 converted in
            if decide (res ≠ 0) then (-1, record, "usemarcon stage2 failed res=" +:+ print_int res)
            else (0, GetMarcRecord u2 converted, "")
        end
  end.

(** The attributes; a later one of the same name replaces an earlier one. *)
Definition text_of (a : xmlAttr) : option string :=
  match a_children a with
  | n :: _ => if decide (n_type n = XML_TEXT_NODE) then Some (n_content n) else None
  | [] => None
  end.
Fixpoint stages (l : list xmlAttr) (s1 s2 : option string) : option string * option string + string :=
  match l with
  | [] => inl (s1, s2)
  | a :: l' =>
      match decide (a_name a = "stage1"), decide (a_name a = "stage2"), text_of a with
      | left _, _, Some t => stages l' (Some t) s2
      | _, left _, Some t => stages l' s1 (Some t)
      | _, _, _ => inr ("Bad attribute '" +:+ a_name a +:+ "'Expected stage1 or stage2.")
      end
  end.
(** [construct_usemarcon]: nothing for another element, an error, or the
    conversion. *)
Definition construct_usemarcon (ptr : xmlNode) : option (info_usemarcon + string) :=
  if decide (n_name ptr ≠ "usemarcon") then None
  else Some match stages (n_properties ptr) None None with
            | inr e => inr e
            | inl (s1, s2) => inl (mk_info s1 s2 (SetIniFileName <$> s1) (SetIniFileName <$> s2))
            end.

(** One stage, as a conversion of its own. *)
Definition stage (n : string) (ini record : string) : string + string :=
  let u := SetIniFileName ini in
  let res := Convert u record in
  if decide (res ≠ 0) then inr ("usemarcon stage" +:+ n +:+ " failed res=" +:+ print_int res)
  else inl (GetMarcRecord u record).
Definition both (ini1 : string) (ini2 : option string) (record : string) : string + string :=
  match stage "1" ini1 record with
  | inl r => match ini2 with Some i => stage "2" i r | None => inl r end
  | inr e => inr e
  end.
(** The conversion that an element makes runs its stages one after the other
    and changes the record if all of them succeed; a failure leaves the record
    as it was and says which stage failed. *)
Theorem stages_in_order ptr p record (Hp : construct_usemarcon ptr = Some (inl p)) :
  match stage1 p with
  | Some ini1 =>
      convert_usemarcon p record =
        match both ini1 (stage2 p) record with
        | inl r => (0, r, "")
        | inr e => (-1, record, e)
        end
  | None => convert_usemarcon p record = (0, record, "")
  end.
Proof.
  unfold construct_usemarcon in Hp. case_decide; [done|].
  destruct (stages (n_properties ptr) None None) as [[s1 s2]|e]; simplify_eq. cbn [stage1 stage2].
  destruct s1 as [i1|]; [|done]. unfold convert_usemarcon, both, stage. cbn [fmap option_fmap option_map usemarcon1 usemarcon2].
  destruct (decide (Convert (SetIniFileName i1) record ≠ 0)); [done|].
  destruct s2 as [i2|]; cbn; [|done]. by case_decide.
Qed.
(** An element with [stage2] only converts nothing. *)
Theorem second_stage_alone ini2 record :
  ∃ p, construct_usemarcon (Node XML_ELEMENT_NODE "usemarcon" None ""
      [Attr "stage2" None [Node XML_TEXT_NODE "text" None ini2 [] []]] []) = Some (inl p) ∧
    stage2 p = Some ini2 ∧ convert_usemarcon p record = (0, record, "").
Proof. eexists. split; [reflexivity|]. by split. Qed.
End usemarcon.

(** *** Examples *)
#[local] Instance ref_usemarcon : UsemarconLib := {|
  Usemarcon := string;
  SetIniFileName ini := ini;
  Convert ini record := if decide (record = "") then 3 else 0;
  GetMarcRecord ini record := record +:+ ini
|}.
Definition example_ptr : xmlNode := Node XML_ELEMENT_NODE "usemarcon" None ""
  [Attr "stage1" None [Node XML_TEXT_NODE "text" None "a" [] []];
   Attr "stage2" None [Node XML_TEXT_NODE "text" None "b" [] []]] [].
Definition example_info : info_usemarcon (U := ref_usemarcon) :=
  mk_info (U := ref_usemarcon) (Some "a") (Some "b") (Some "a") (Some "b").
Lemma stages_in_order_witness : convert_usemarcon example_info "r" = (0, "rab", "").
Proof. by apply (stages_in_order example_ptr example_info "r"). Defined.
