(* ===== verification/Expiry.v ===== *)
(** * The expiry thread of session_shared

    [src/filter_session_shared.cpp]: the thread that [start] makes, which wakes
    up once per session TTL and expires sessions, and the destructor that ends
    it, as an interleaving of their critical sections with the filters. *)
From S2P Require Import Prelude Zgdu Yaz Core SessionShared.

Module Expiry.
Section expiry.
Context `{Y : Yaz} {R E : Type} `{D : SessionShared.Deps E}.
Notation World := (SessionShared.World (R := R) (E := E)).
Context (next : string → Package R → M World (Package R)).

(** Where [Rep::expire] is: before the lock, in [timed_wait], awake and about
    to look at [close_down], before [expire_classes], gone. *)
Inductive Pc : Type := Entering | Waiting | Woken | Expiring | Gone.
Record Sys : Type := mk_Sys {
  worker : list Pc;                    (* [m_thrds] *)
  close_down : bool;
  world : World
}.
(** One step of the thread; [timed_wait] may also end for no reason. *)
Inductive worker_step (close_down : bool) : Pc → World → Pc → World → Prop :=
  | step_wait w : worker_step close_down Entering w Waiting w
  | step_wake w : worker_step close_down Waiting w Woken w
  | step_break w : close_down = true → worker_step close_down Woken w Gone w
  | step_go_on w : close_down = false → worker_step close_down Woken w Expiring w
  | step_expire w w' : SessionShared.expire_classes next w = Ok (tt, w') →
      worker_step close_down Expiring w Entering w'.
(** [notify_all]. *)
Definition notify (p : Pc) : Pc := match p with Waiting => Woken | _ => p end.

(** The steps of the program: [start] makes a thread, the destructor sets
    [close_down] and notifies, the filters work meanwhile. *)
Context (filters : World → World → Prop).
Inductive step : Sys → Sys → Prop :=
  | sys_start l w : step (mk_Sys l false w) (mk_Sys (l ++ [Entering]) false w)
  | sys_worker l1 p l2 c w p' w' : worker_step c p w p' w' →
      step (mk_Sys (l1 ++ p :: l2) c w) (mk_Sys (l1 ++ p' :: l2) c w')
  | sys_close l w : step (mk_Sys l false w) (mk_Sys (notify <$> l) true w)
  | sys_filters l c w w' : filters w w' → step (mk_Sys l c w) (mk_Sys l c w').
Definition Rep_init (w : World) : Sys := mk_Sys [] false w.
Inductive steps : Sys → Sys → Prop :=
  | steps_refl s : steps s s
  | steps_step s1 s2 s3 : step s1 s2 → steps s2 s3 → steps s1 s3.
Lemma steps_one s1 s2 : step s1 s2 → steps s1 s2.
Proof. intros. eapply steps_step; [done|constructor]. Qed.
Lemma steps_trans s1 s2 s3 : steps s1 s2 → steps s2 s3 → steps s1 s3.
Proof. induction 1; [done|]. intros. eapply steps_step; eauto. Qed.

(** How far a thread is from its end, once the filter is being destroyed. *)
Definition rank (p : Pc) : nat :=
  match p with Gone => 0 | Woken => 1 | Waiting => 2 | Entering => 3 | Expiring => 4 end.
Definition left_ (l : list Pc) : nat := sum_list_with rank l.
Lemma worker_rank p w p' w' : worker_step true p w p' w' →
  (rank p' < rank p)%nat ∧ p' ≠ Expiring.
Proof. inversion 1; subst; cbn; first [done|by split; [lia|]]. Qed.
(** After [close_down] every step of a thread brings the threads nearer to
    their end, the filters do not take them back, and a thread that is not
    gone has a step, unless it expires and the expiry does not return: so
    [join_all] returns. No expiry is begun any more. *)
Theorem closing_ends l w (s : Sys) (Hstep : step (mk_Sys l true w) s) :
  close_down s = true ∧
  ((left_ (worker s) < left_ l)%nat ∨ (worker s = l ∧ filters w (world s))) ∧
  (∀ i, worker s !! i = Some Expiring → l !! i = Some Expiring) ∧
  (∀ p, p ∈ l → p = Gone ∨ (∃ p' w', worker_step true p w p' w') ∨
    (p = Expiring ∧ ∀ w', SessionShared.expire_classes next w ≠ Ok (tt, w'))).
Proof.
  assert (Hlive : ∀ p, p = Gone ∨ (∃ p' w', worker_step true p w p' w') ∨
    (p = Expiring ∧ ∀ w', SessionShared.expire_classes next w ≠ Ok (tt, w'))).
  { intros []; [right; left; by do 2 eexists; constructor..| |by left]. right.
    destruct (SessionShared.expire_classes next w) as [[[] w']|?|?|] eqn:He; [left|by right..].
    do 2 eexists. by constructor. }
  inversion Hstep as [|l1 p l2 c w0 p' w' Hw| |l0 c w0 w' Hf]; subst; cbn.
  - apply worker_rank in Hw as [Hr Hne]. split_and!; [done| | |auto].
    + left. unfold left_. rewrite !sum_list_with_app. cbn. lia.
    + intros i Hi. apply lookup_app_Some in Hi as [Hi|[Hlen Hi]].
      * by apply lookup_app_l_Some.
      * rewrite lookup_app_r by done. destruct (i - length l1)%nat; [by injection Hi|done].
  - split_and!; auto.
Qed.
(** A notification that comes while a thread expires is lost: the thread looks
    at [close_down] only after it has waited a whole TTL again, and the
    destructor waits with it. *)
Theorem closing_waits w w' (Hexpire : SessionShared.expire_classes next w = Ok (tt, w')) :
  steps (Rep_init w) (mk_Sys [Waiting] true w') ∧
  ∀ p w2, worker_step true Waiting w' p w2 → p = Woken ∧ w2 = w'.
Proof.
  split; [|by inversion 1].
  assert (Hone : ∀ c p u p' u', worker_step c p u p' u' → steps (mk_Sys [p] c u) (mk_Sys [p'] c u'))
    by (intros; by apply steps_one, (sys_worker [])).
  eapply steps_trans; [apply steps_one, sys_start|].
  do 3 (eapply steps_trans; [apply Hone; by constructor|]).
  eapply steps_trans; [apply steps_one, sys_close|].
  do 2 (eapply steps_trans; [apply Hone; by constructor|]). constructor.
Qed.
End expiry.

(** *** Examples *)
Section examples.
#[local] Existing Instances ref_yaz SessionShared.example_deps.
Definition empty_world : SessionShared.World (R := unit) (E := Z) :=
  (SessionShared.Rep_new, Build_Global 0 1000).
Lemma closing_ends_witness : ∃ p',
  step SessionShared.example_next (λ _ _, False) (mk_Sys [Woken] true empty_world)
    (mk_Sys [p'] true empty_world) ∧ (left_ [p'] < left_ [Woken])%nat.
Proof.
  exists Gone.
  assert (Hs : step SessionShared.example_next (λ _ _, False) (mk_Sys [Woken] true empty_world)
    (mk_Sys [Gone] true empty_world)) by (apply (sys_worker _ _ []); by constructor).
  split; [exact Hs|].
  by destruct (closing_ends _ _ _ _ _ Hs) as (_ & [?|[? _]] & _).
Defined.
Lemma closing_waits_witness :
  steps SessionShared.example_next (λ _ _, False) (Rep_init empty_world)
    (mk_Sys [Waiting] true empty_world).
Proof. by apply (closing_waits SessionShared.example_next (λ _ _, False) empty_world empty_world). Defined.
End examples.
End Expiry.
