(* ===== verification/Routes.v ===== *)
(** * Routes that answer

    What every filter of a route promises to the ones before it, as an
    interface: a filter that passes requests on leaves none without an answer
    if those behind it leave none. The theorem about whole routes is proved
    against the interface, for any router; the filters that pass requests on
    and the one that ends a route discharge it. *)
From S2P Require Import Prelude Zgdu Yaz Core Xml Libxml Router Util GduUtil Limit QueryFilters.
From S2P Require Import RecordTransform HttpFile HttpFilters Sru ZeerexExplain Bounce.

Section interface.
Context {R W : Type}.
Notation Move := (string → Package R → M W (Package R)).
(** A filter with its fuel, as [run] calls it. *)
Definition RouteFilter : Type := nat → Move → Package R → M W (Package R).

(** A computation with two bounds on its fuel ends if both are large enough. *)
Definition enough {A} (m : nat → nat → M W A) (w : W) (Q : A → W → Prop) : Prop :=
  ∃ n, ∀ a b, (n ≤ a)%nat → (n ≤ b)%nat → tot (m a b) w Q.
Lemma enough_always {A} (m : nat → nat → M W A) w Q : (∀ a b, tot (m a b) w Q) → enough m w Q.
Proof. intros Hm. by exists O. Qed.
Lemma enough_mono {A} (m : nat → nat → M W A) w (Q Q' : A → W → Prop) :
  enough m w Q → (∀ x w', Q x w' → Q' x w') → enough m w Q'.
Proof.
  intros [n Hn] HQ. exists n. intros a b Ha Hb. eapply tot_mono; [by apply Hn|done].
Qed.
(** What follows a computation and needs no fuel. *)
Lemma enough_then {A B} (m : nat → nat → M W A) (k : A → M W B) w (Q : B → W → Prop) :
  enough m w (λ x w', tot (k x) w' Q) → enough (λ a b, m a b ≫= k) w Q.
Proof. intros [n Hn]. exists n. intros a b Ha Hb. apply tot_bind. by apply Hn. Qed.
Lemma enough_after {A B} (m : M W A) (k : nat → nat → A → M W B) w (Q : B → W → Prop) :
  tot m w (λ x w', enough (λ a b, k a b x) w' Q) → enough (λ a b, m ≫= k a b) w Q.
Proof.
  intros (x & w' & Hm & n & Hn)%tot_elim. exists n. intros a b Ha Hb.
  apply tot_bind. unfold tot at 1. rewrite Hm. by apply Hn.
Qed.

(** A package with a Z39.50 request at a position of its route; an answer. *)
Definition asks (pos : R) (p : Package R) : Prop :=
  p_route_pos p = Some pos ∧ is_Some (z3950 (p_request p)).
Definition has_answer (p : Package R) : Prop := is_Some (p_response p).
Definition answers (m : nat → nat → Package R → M W (Package R)) (pos : R) : Prop :=
  ∀ p w, asks pos p → enough (λ a b, m a b p) w (λ p' _, has_answer p').

(** The promise of a filter that passes requests on, and of one that does not. *)
Class Passes (f : RouteFilter) : Prop :=
  passes next pos : answers (λ a b, next a b "") pos → answers (λ a b, f a (next a b)) pos.
Class Ends (f : RouteFilter) : Prop :=
  ends_route next pos : answers (λ a b, f a (next a b)) pos.

Context {Rt : Type} `{RouterSpec Rt R RouteFilter}.
Definition run_route (rt : Rt) (a b : nat) (route : string) : Package R → M W (Package R) :=
  run rt (λ f : RouteFilter, f a) b route.

(** A route whose filters all pass requests on, in any order and number, and
    whose last filter ends it, answers every Z39.50 request, whichever of the
    routers holds it. *)
Lemma passing_route_answers (rt : Rt) (l : list RouteFilter) (last : RouteFilter) (pos : R)
    (route : string) (p : Package R) (w : W)
    (Hl : Forall Passes l) (Hlast : Ends last)
    (Hvalid : valid rt pos) (Htarget : target rt pos route = Some (l ++ [last]))
    (Hasks : asks pos p) :
  enough (λ a b, run_route rt a b route p) w (λ p' _, has_answer p').
Proof.
  revert pos route p w Hvalid Htarget Hasks.
  assert (Hstep : ∀ (f : RouteFilter) tl pos route p w, valid rt pos →
    target rt pos route = Some (f :: tl) → asks pos p →
    (∀ pos', rest rt pos' = tl → valid rt pos' →
      answers (λ a b, f a (run_route rt a b)) pos') →
    enough (λ a b, run_route rt a b route p) w (λ p' _, has_answer p')).
  { intros f tl pos route p w Hv Ht [Hpos Hz] Hf.
    destruct (move_next _ _ _ _ _ Hv Ht) as (pos' & Hm & Hr & Hv').
    destruct (Hf pos' Hr Hv' (set_route_pos (Some pos') p) w) as [n Hn]; [by split|].
    exists (S n). intros a [|b] Ha Hb; [lia|]. unfold run_route. cbn [run].
    unfold package_move. rewrite Hpos. apply tot_bind. unfold lift_outcome, tot at 1.
    rewrite Hm. apply Hn; lia. }
  induction l as [|f l IH]; intros pos route p w Hv Ht Ha.
  - eapply Hstep; [done..|]. intros pos' _ _. apply ends_route.
  - inversion_clear Hl as [|? ? Hf Hl']. eapply Hstep; [done..|].
    intros pos' Hr Hv'. apply passes. intros p' w' Ha'. apply (IH Hl' pos'); [done| |done].
    by rewrite target_here, Hr.
Qed.
End interface.
Arguments RouteFilter : clear implicits.

(** ** The filters that pass requests on *)
Section filters.
Context `{Y : Yaz, HX : Xslt, HQ : QueryYaz} {R W : Type}.
Notation Move := (string → Package R → M W (Package R)).

(** A filter that gives a package, changed by [g], to the next one. *)
Lemma passes_changed (f : RouteFilter R W) (g : Package R → Package R) :
  (∀ p, p_route_pos (g p) = p_route_pos p) →
  (∀ p, is_Some (z3950 (p_request p)) → is_Some (z3950 (p_request (g p)))) →
  (∀ a next p, is_Some (z3950 (p_request p)) → f a next p = next "" (g p)) → Passes f.
Proof.
  intros Hpos Hz Hf next pos Hnext p w [Hp Hs].
  destruct (Hnext (g p) w) as [n Hn]; [split; [by rewrite Hpos|auto]|].
  exists n. intros a b Ha Hb. rewrite Hf by done. by apply Hn.
Qed.
#[export] Instance template_passes : Passes (λ _ next p, Template.process (R := R) (W := W) next p).
Proof. apply (passes_changed _ id); done. Qed.
(** The filters for HTTP leave Z39.50 alone. *)
Ltac not_http := apply (passes_changed _ id); [done|done|]; intros a next p;
  unfold HttpFile.process, HTTPClient.process, HttpRewrite1.process, ZeeRexExplain.process;
  by destruct (p_request p) as [[?|?|?]|]; try (intros [? ?]; done).
#[export] Instance http_file_passes `{PackageLog W} decode gdu r files :
  Passes (R := R) (W := W) (λ _ next p, HttpFile.process decode gdu r files next p).
Proof. not_http. Qed.
#[export] Instance http_client_passes `{WebClient W} r :
  Passes (R := R) (W := W) (λ _ next p, HTTPClient.process r next p).
Proof. not_http. Qed.
#[export] Instance http_rewrite1_passes `{HttpRewrite1.RegexReplace} rules :
  Passes (R := R) (W := W) (λ _ next p, HttpRewrite1.process rules next p).
Proof. not_http. Qed.
#[export] Instance zeerex_explain_passes {SOAP} (S : Srw SOAP) m :
  Passes (R := R) (W := W) (λ _ next p, ZeeRexExplain.process (S := S) next m p).
Proof. not_http. Qed.

(** The filters for queries refuse a search with an answer of their own. *)
Lemma passes_or_answers (f : RouteFilter R W) :
  (∀ p, is_Some (z3950 (p_request p)) →
    (∃ p', p_route_pos p' = p_route_pos p ∧ is_Some (z3950 (p_request p')) ∧
           ∀ a next, f a next p = next "" p') ∨
    (∃ p', has_answer p' ∧ ∀ a next, f a next p = mret p')) → Passes f.
Proof.
  intros Hf next pos Hnext p w [Hp Hs]. destruct (Hf p Hs) as [(p' & Hp' & Hz & H')|(p' & Ha & H')].
  - destruct (Hnext p' w) as [n Hn]; [split; congruence|].
    exists n. intros a b Ha Hb. rewrite H'. by apply Hn.
  - apply enough_always. intros a b. by rewrite H'.
Qed.
#[export] Instance query_rewrite_passes r :
  Passes (R := R) (W := W) (λ _ next p, QueryRewrite.process r next p).
Proof.
  apply passes_or_answers. intros p Hz. unfold QueryRewrite.process.
  destruct (z3950 (p_request p)) as [[]|] eqn:Hreq; try (left; exists p; by rewrite Hreq).
  destruct (QueryRewrite.rewrite r (sq_query r0)) as [[query e] addinfo].
  destruct (decide (e ≠ 0)) as [He|He]; [right|left].
  - exists (refuse r0 e addinfo (with_query r0 query p)). by split; [eexists|].
  - exists (with_query r0 query p). split_and!; [done|by eexists|done].
Qed.
#[export] Instance cql_rpn_passes c :
  Passes (R := R) (W := W) (λ _ next p, CQLtoRPN.process c next p).
Proof.
  apply passes_or_answers. intros p Hz. unfold CQLtoRPN.process.
  destruct (z3950 (p_request p)) as [[]|] eqn:Hreq; try (left; exists p; by rewrite Hreq).
  destruct (CQLtoRPN.convert_query c (sq_query r)) as [query|[e addinfo]]; [left|right].
  - exists (with_query r query p). split_and!; [done|by eexists|done].
  - exists (refuse r e addinfo p). by split; [eexists|].
Qed.
(** A response that is changed afterwards is still a response. *)
#[export] Instance sd_remove_passes :
  Passes (R := R) (W := W) (λ _ next p, SD_Remove.process next p).
Proof.
  intros next pos Hnext p w Hasks. unfold SD_Remove.process. apply enough_then.
  eapply enough_mono; [by apply Hnext|]. intros p' w' Ha. apply tot_ret.
  destruct (response_records (p_response p')) as [l|] eqn:Hl; [|done].
  unfold has_answer. cbn. destruct (p_response p') as [[[]|?|?]|]; done.
Qed.
(** The filter at the end. *)
#[export] Instance bounce_ends `{!YazLaws Y, V : GduView} z_GDU m_p :
  Ends (R := R) (W := W) (λ fuel _ p, lift_outcome (Bounce.process z_GDU fuel m_p p)).
Proof.
  intros next pos p w [_ [apdu Hz]].
  destruct (Bounce.bounced z_GDU m_p p) as (fuel & p' & Hrun & _ & _ & Ha).
  exists fuel. intros a b Hf _. unfold tot, lift_outcome. rewrite Hrun by done.
  unfold Bounce.answered in Ha. destruct (p_request p) as [[x|?|?]|]; try done.
  destruct Ha as (c & Hc & _). unfold has_answer. rewrite Hc. by eexists.
Qed.
End filters.

(** limit counts a request, and sleeps after the answer. *)
Section limit.
Context {R E TimeStat : Type} (TimeStat_new : Z → TimeStat) (add_bytes : Z → Z → TimeStat → TimeStat)
  (get_total : Z → TimeStat → Z) (clock : E → Z) (get_size : option GDU → Z) (sleep : Z → E → E)
  (c : Limit.Conf).
#[export] Instance limit_passes : Passes (R := R) (λ _ next p,
  Limit.process TimeStat_new add_bytes get_total clock get_size sleep c next p).
Proof.
  intros next pos Hnext p w [Hp Hz]. unfold Limit.process.
  apply (enough_after _ (λ a b _, _)). cbn. apply enough_then.
  eapply enough_mono; [apply Hnext; split; [done|]|].
  - cbn. unfold Limit.clamp. destruct (p_request p) as [[[]|?|?]|]; try done. by repeat case_match.
  - intros p' w' Ha. apply tot_bind. apply (tot_mono _ _ (λ _ _, True)); [done|].
    intros reduce w2 _. apply tot_bind. unfold Limit.do_sleep. by destruct (reduce =? 0).
Qed.
End limit.


(** record_transform converts the records of an answer, or refuses. YAZ names
    the syntax of a request that it accepts. *)
Class RequestLaws `{Retrieval} : Prop := request_syntax t schema syntax :
  ret_code (yaz_retrieval_request t schema syntax) = 0 →
  is_Some (match_syntax (yaz_retrieval_request t schema syntax)).
Section record_transform.
Context `{Y : Yaz, HR : Retrieval, !RequestLaws} {R W : Type} (c : RecordTransform.Impl).
Lemma transform_answers (next : nat → nat → Package R → M W (Package R)) pos r apdu p w :
  answers next pos → asks pos p → is_Some (match_syntax r) →
  enough (λ a b, RecordTransform.transform (λ _, next a b) c r apdu p) w (λ p' _, has_answer p').
Proof.
  intros Hnext [Hp Hz] [syntax Hs]. unfold RecordTransform.transform. apply enough_then.
  eapply enough_mono; [apply (Hnext (set_request (Some (GDU_Z3950 apdu)) p)); by split|].
  intros p' w' Ha. destruct (rc r) as [conv|]; [|by apply tot_ret].
  destruct (response_records (p_response p')) as [l|]; [|by apply tot_ret].
  rewrite Hs. destruct (RecordTransform.convert_all_converted conv syntax
    (if RecordTransform.m_embed_schema c then match_schema r else None) l) as (l' & Hl' & _).
  unfold lift_outcome, mbind, M_bind, tot. rewrite Hl'. cbn. unfold has_answer in *. cbn.
  by destruct (p_response p') as [[[]|?|?]|].
Qed.
#[export] Instance record_transform_passes :
  Passes (R := R) (W := W) (λ _ next p, RecordTransform.process next c p).
Proof.
  intros next pos Hnext p w Hasks. unfold RecordTransform.process.
  destruct (z3950 (p_request p)) as [[]|] eqn:Hreq; try by apply Hnext.
  - destruct (RecordTransform.search_schema r) as [schema|].
    2:{ apply Hnext. by destruct Hasks. }
    case_decide as Hc.
    + destruct (RecordTransform.error_of _ _ _). apply enough_always. intros a b. by eexists.
    + apply (transform_answers (λ a b, next a b "") pos); [done..|]. apply request_syntax. lia.
  - case_decide as Hc.
    + destruct (RecordTransform.error_of _ _ _). apply enough_always. intros a b. by eexists.
    + apply (transform_answers (λ a b, next a b "") pos); [done..|]. apply request_syntax. lia.
Qed.
End record_transform.

(** ** Routes of the program *)
Section routes.
Context `{Y : Yaz, !YazLaws Y, HX : Xslt, HQ : QueryYaz, HR : Retrieval, !RequestLaws}.
Context `{X : HttpRewrite1.RegexReplace, V : GduView} {SOAP : Type} (S : Srw SOAP).
Context {R E TimeStat : Type} (TimeStat_new : Z → TimeStat) (add_bytes : Z → Z → TimeStat → TimeStat)
  (get_total : Z → TimeStat → Z) (clock : E → Z) (get_size : option GDU → Z) (sleep : Z → E → E).
Notation World := (gmap Z (Limit.Ses (TimeStat := TimeStat)) * Global E)%type.
Context `{PackageLog World, WebClient World}.
Context (decode_uri : string → string) (decode_gdu : string → option GDU) (z_GDU : GDU → string)
  (files : string → HttpFile.file).
(** What a filter of a route is configured as. *)
Inductive FilterConf : Type :=
| F_limit (c : Limit.Conf)
| F_query_rewrite (r : QueryRewrite.Rep)
| F_cql_rpn (c : CQLtoRPN.Impl)
| F_record_transform (c : RecordTransform.Impl)
| F_sd_remove
| F_http_file (r : HttpFile.Rep)
| F_http_client (r : HTTPClient.Rep)
| F_http_rewrite1 (rules : list HttpRewrite1.Rule)
| F_zeerex_explain (m : gmap string (option xmlNode))
| F_template.
Definition run_filter (f : FilterConf) : RouteFilter R World := λ _ next p,
  match f with
  | F_limit c =>
      Limit.process TimeStat_new add_bytes get_total clock get_size sleep c next p
  | F_query_rewrite r => QueryRewrite.process r next p
  | F_cql_rpn c => CQLtoRPN.process c next p
  | F_record_transform c => RecordTransform.process next c p
  | F_sd_remove => SD_Remove.process next p
  | F_http_file r => HttpFile.process decode_uri decode_gdu r files next p
  | F_http_client r => HTTPClient.process r next p
  | F_http_rewrite1 rules => HttpRewrite1.process rules next p
  | F_zeerex_explain m => ZeeRexExplain.process next m p
  | F_template => Template.process next p
  end.
Definition run_bounce (m_p : Bounce.Rep) : RouteFilter R World := λ fuel _ p,
  lift_outcome (Bounce.process z_GDU fuel m_p p).
#[export] Instance run_filter_passes f : Passes (run_filter f).
Proof. destruct f; apply _. Qed.

Context {Rt : Type} `{RouterSpec Rt R (RouteFilter R World)}.
(** C15. A route of filters limit, query_rewrite, cql_rpn, record_transform,
    sd_remove, http_file, http_client, http_rewrite1, zeerex_explain and template, as many as one likes, in any order and with
    any configurations, that ends with a bounce, answers every Z39.50 request,
    whichever of the routers holds it: the run terminates and there is a
    response. *)
Theorem route_answers (rt : Rt) (l : list FilterConf) (m_p : Bounce.Rep) (pos : R)
    (route : string) (p : Package R) (w : World)
    (Hvalid : valid rt pos)
    (Htarget : target rt pos route = Some ((run_filter <$> l) ++ [run_bounce m_p]))
    (Hpos : p_route_pos p = Some pos) (Hrequest : is_Some (z3950 (p_request p))) :
  ∃ fuel, ∀ a b, (fuel ≤ a)%nat → (fuel ≤ b)%nat →
    ∃ p' w', run_route rt a b route p w = Ok (p', w') ∧ is_Some (p_response p').
Proof.
  destruct (passing_route_answers rt (run_filter <$> l) (run_bounce m_p) pos route p w)
    as [fuel Hf]; [|apply _|done..|].
  - apply Forall_fmap, Forall_true. intros f. apply (run_filter_passes f).
  - exists fuel. intros a b Ha Hb. apply tot_elim, Hf; done.
Qed.
End routes.

(** *** A route *)
Section example.
#[local] Existing Instances ref_yaz ref_xslt.
#[local] Instance no_queries : QueryYaz := {|
  yaz_query2xml _ := None;
  yaz_xml2query _ q := (q, 0, None);
  xsltParseStylesheetFile _ _ := None;
  yaz_iconv_t := unit;
  yaz_iconv_open _ _ := None;
  yaz_query_charset_convert_rpnquery_check _ q := (q, true);
  Yaz_cql2rpn := unit;
  cql2rpn_init := tt;
  parse_spec_file _ _ := Some tt;
  define_pattern _ _ _ := Some tt;
  rpn2cql_transform _ q := (0, q.1, None);
  query_transform _ cql := (10, ("", RPNStructure_simple (Operand_APT "")), None);
  srw_to_bib1 e := 108
|}.
(** A world with the time and with the stream of the log of a package. *)
Notation World := (gmap Z (Limit.Ses (TimeStat := Z)) * Global (option string * Z))%type.
#[local] Instance world_log : PackageLog World := {|
  p_logger w := (g_env w.2).1;
  set_logger l w := (w.1, Build_Global (g_id w.2) (l, (g_env w.2).2))
|}.
#[local] Instance no_web : WebClient World := {|
  yaz_url_exec proxy max uri method headers content w := Ok (inr "no web", w)
|}.
#[local] Instance no_replace : HttpRewrite1.RegexReplace := {|
  HttpRewrite1.regex_replace text _ _ _ _ := inl text
|}.
#[local] Existing Instance RecordTransform.example_retrieval.
#[local] Instance example_requests : RequestLaws.
Proof. intros [] schema syntax. cbn. case_decide; [by eexists|done]. Qed.
Definition example_filter : FilterConf → RouteFilter Chain.Pos World :=
  run_filter ref_srw (λ _, 0) (λ _ n t, t + n) (λ _ t, t) snd (λ _, 10)
    (λ n e, (e.1, e.2 + n)) id (λ _, None) (λ _, HttpFile.Missing).
Definition example_confs : list FilterConf :=
  [F_limit (Limit.mk_Conf 0 0 0 5); F_sd_remove; F_record_transform RecordTransform.example_conf;
   F_cql_rpn CQLtoRPN.Impl_init; F_template].
Definition example_route : Chain.Rep :=
  Chain.mk ((example_filter <$> example_confs) ++ [run_bounce (λ _, "") Bounce.Bounce_init]).
Definition example_package (g : GDU) : Package Chain.Pos :=
  mk_Package (Session.mk 1 false) Origin.create (Some (Chain.mk_Pos 0)) (Some g) None.
Definition example_search : Package Chain.Pos :=
  example_package (GDU_Z3950 (searchRequest
    (set_sq_query (Query_type_104 (Some "dog"))
      (set_sq_smallSetElementSetNames None (set_sq_mediumSetElementSetNames None
      (set_sq_largeSetLowerBound 2 (set_sq_preferredRecordSyntax (Some recsyn_xml)
        zget_searchRequest))))))).
Definition example_world : World := (∅, Build_Global 1 (None, 0)).
(** cql_rpn refuses the search; the response passes the filters before it. *)
Example search_refused :
  match run_route example_route 9 9 "" example_search example_world with
  | Ok (p, _) => match z3950 (p_response p) with
                 | Some (searchResponse r) => sr_records r
                 | _ => None
                 end
  | _ => None
  end = Some (Records_NSD (zget_DefaultDiagFormat 108 None)).
Proof. vm_compute. reflexivity. Qed.
Example init_bounces :
  match run_route example_route 9 9 "" (example_package (init_of "anna")) example_world with
  | Ok (p, (m, _)) => (is_closed p, m !! 1) | _ => (false, None)
  end = (true, None).
Proof. vm_compute. reflexivity. Qed.
Lemma route_answers_witness : ∃ fuel, ∀ a b, (fuel ≤ a)%nat → (fuel ≤ b)%nat →
  ∃ p' w', run_route example_route a b "" example_search example_world = Ok (p', w') ∧
    is_Some (p_response p').
Proof.
  apply (route_answers ref_srw (λ _, 0) (λ _ n t, t + n) (λ _ t, t) snd (λ _, 10)
    (λ n e, (e.1, e.2 + n)) id (λ _, None) (λ _, "") (λ _, HttpFile.Missing)
    example_route example_confs Bounce.Bounce_init (Chain.mk_Pos 0)).
  - cbn. lia.
  - reflexivity.
  - reflexivity.
  - by eexists.
Defined.
End example.
